(* ===== verification/_CoqProject ===== *)
-Q . S2P
Prelude.v
GoStrings.v
GoTime.v
Metadata.v
Gorm.v
Repository.v
RepositoryFacts.v
Replication.v
Hub.v
MasterEngine.v
MasterFacts.v
MetadataJson.v
HostNames.v
GoPath.v
GoFS.v
CertLRU.v
CertResolver.v
CertResolverFacts.v
SlaveStore.v
SlaveEngine.v
SlaveFacts.v
Sync.v
Grpc.v
Session.v
DnsStore.v
DnsStoreFacts.v
GoNet.v
GoURL.v
K8sObjects.v
DnsEngine.v
DnsEngineFacts.v
DnsServe.v
SlaveEngineFacts.v
ClientHello.v
CertWatch.v
CertWatchFacts.v
IngressBridge.v
IngressBridgeFacts.v
Informers.v
IngressEngine.v
IngressEngineFacts.v
Conns.v
Plan.v
PlanFacts.v
Acme.v
ManageAPI.v
ManageFacts.v
PlanConverges.v
AcmeFacts.v
Materialize.v
MaterializeFacts.v
MasterIngress.v
MasterIngressFacts.v
MasterGateway.v
MasterGatewayFacts.v
MasterDns.v
MasterK8sFacts.v
MasterEvents.v
MasterRun.v
S3Bundles.v
S3BundleFacts.v
GoFlag.v
Lnctl.v
LnctlFacts.v
MockClient.v
MockFacts.v
MasterTypes.v
Lifecycle.v
LifecycleFacts.v
Process.v
