(* ===== verification/Prelude.v ===== *)
(** * Luna Edge: a verification development

    Luna Edge is an edge platform written in Go.  A master keeps the metadata
    of hosts, routes, backends, DNS records and certificates in a database,
    logs every change, and replicates it to slaves; a slave caches it, answers
    DNS questions, terminates or passes through TLS, and proxies HTTP.  This
    library translates the program's own logic into Rocq definitions and
    proves what makes it correct.  Theorems that are properties of the program
    carry a number (C1, C2, ...) in their comment; the rest are lemmas.

    ** The program's parts and the files that model them

    Foundations
      - Prelude: errors and results, machine integers, walks over Go maps in
        an unspecified order (class [MapRange]), the [go] monad of stateful
        calls that can fail, and the automation.
      - GoStrings, GoTime, GoPath, GoFS, GoNet, GoURL, GoFlag: the parts of
        Go's strings, strconv, time, path, file system, net, net/url and flag
        packages the program uses.
    Metadata and the repository (repository/metadata, repository/functions)
      - Metadata: the structs of the tables and the projections.
      - Gorm: the database behind gorm as an interface [Gorm] whose calls may
        fail at any time, with transactions, and an in-memory instance.
      - Repository, RepositoryFacts: the generic CRUD operations, the per-table
        queries and the five-table join behind [GetDomainEntryProjectionByDomain];
        reads after writes, logical deletion, and that the join computes the
        projection.
      - MetadataJson: encoding/json on the metadata, with round trips.
    Replication (replication, engine/master/hub.go, engine/master/engine.go,
    engine/slave)
      - Replication: the messages and their protobuf forms.
      - Hub: subscriptions, buffered channels, broadcast.
      - MasterEngine, MasterFacts: broadcasting changes and deletions, serving
        snapshots in chunks.
      - SlaveStore, SlaveEngine, SlaveFacts, SlaveEngineFacts: the slave's cache,
        catching up, following notifications, certificate files, retries.
      - Sync: master, log, channels and slave composed as a step relation; its
        invariant holds in every reachable state, catching up converges, and
        deletions reach a slave by notification only.
      - Grpc: the service's server and client, and the calls between them,
        which may fail to open, break anywhere, or end.
      - Session: a slave's sessions over such calls, interleaved with the
        master; the invariant holds throughout, and a session catches up.
    Serving DNS (dns)
      - DnsStore, DnsStoreFacts: the record store with its question index as a
        refinement of the set of its records.
      - K8sObjects, DnsEngine, DnsEngineFacts, DnsServe: cluster records, lookup
        order, rendering, forwarding, sorting by distance, responses.
    Serving HTTP and TLS (ingress, utils)
      - HostNames: the two host name normalizers.
      - CertLRU, CertResolver, CertResolverFacts: the certificate cache as a
        bounded most-recently-used list, and its transparency.
      - CertWatch, CertWatchFacts: the inotify watcher of the certificate files;
        the cache follows the disk as long as the events name what changed.
      - ClientHello: reading the server name of a TLS client hello; its loops
        end and stay within the frame.
      - IngressBridge, IngressBridgeFacts: cluster objects, route tables, path
        matching and route selection.
      - Informers: the informers that call the bridge back; the bridge keeps
        what they have seen.
      - IngressEngine, IngressEngineFacts: routing requests, remembered
        bindings, path rewriting, dispatch of TLS connections.
      - Conns: copying a connection to its upstream by two goroutines, and the
        addresses of clients.
    Managing the master (lnctl, engine/master)
      - Plan, PlanFacts: the plan builder and its differences.
      - Acme, AcmeFacts: issuing certificates, challenges, the reconciler.
      - ManageAPI, ManageFacts: the HTTP API, applying plans in a transaction.
      - PlanConverges: reading, planning and applying compose to what was asked.
    The cluster in the tables (engine/master/k8s_bridge)
      - Materialize, MaterializeFacts: bringing the rows of a set of hosts to
        the wanted ones through the repository.
      - MasterIngress, MasterGateway, MasterDns, with MasterIngressFacts,
        MasterGatewayFacts, MasterK8sFacts: what Ingresses, Gateways, their
        routes and DNSDomainRecords want, and that the tables follow.
      - MasterEvents, MasterRun: the three bridges under any sequence of
        informer events, and runs of them.
      - MasterTypes: the rows the bridges want are well typed.
    Certificate bundles (engine/master/s3_bundle_provider.go)
      - S3Bundles, S3BundleFacts: storing and fetching bundles, and their way
        from the master's object store to a slave's files.
    The command line (lnctl/client.go, lnctl/mock_client.go, cmd/lnctl)
      - Lnctl, LnctlFacts: the client of the manage API as an interface, its
        implementation over HTTP as a refinement of the master's operations,
        flags, the store of plans and the commands.
      - MockClient, MockFacts: the client's double, which agrees with the
        master on live tables.
    The processes (cmd/master, cmd/slave, engine/global.go, repository/connection,
    and what the engines' New, Start, Listen and Stop open and close)
      - Lifecycle, LifecycleFacts: what a process holds open, the engines' way
        up and down with their early returns and deferred calls, and what is
        left open when [Start] returns.
      - Process: environment variables, flags and exit statuses; how the two
        processes end, and that a slave runs until it is signalled.

    ** How code becomes definitions

    A Go function [f(args) (T, error)] on a receiver of type [S] is a function
    of type [go S T], that is [S -> S * result T]; early returns and error
    paths are those of the code.  Definitions keep the names of the source.
    Loops over slices are [for_each], [foldl] or structural recursion; loops
    over maps range over any enumeration of the map.  Concurrency is explicit:
    channels are bounded queues, and Sync, Session and Conns interleave the
    parties' steps.

    Code outside the repository is an interface with the documented behaviour
    the program relies on, and every theorem about it has a witness at a
    concrete instance: [Gorm] and [GormModel] (gorm and the databases),
    [Unstructured] (Kubernetes objects), [MiekgMsg] (DNS messages), [GeoIP],
    [Lego], [Crypto], [BundleStore] and [ObjectStore] (certificates),
    [HTTPTransport] (net/http between client and master), [GRPCStream],
    [GRPCReliable] and [GRPCUnary] (gRPC calls between slave and master),
    [JsonText] (JSON as text), [Inotify] (the kernel's file events) and [Env]
    (which of a process's calls to the system fail).  Within the program,
    [ClientInterface] is what the commands expect of a client.

    ** Bounds and simplifications

    Strings are byte sequences; case mapping and white space act on the ASCII
    range. JSON texts are their syntax trees, except in the files of plans.
    A message that arrives over gRPC is the protobuf form that was sent.
    Integers are [Z] with the wrap-around of their width where an operation
    can leave it. Times are in UTC. Fuel is only in ClientHello, CertWatch and
    GoFlag, whose loops over bytes consume some in every round and run with
    the length of the input, or one more; in ClientHello and GoFlag any more
    is shown to give the same result, in CertWatch the events are shown to be
    read to their end. The bridges' identifiers are taken apart at their
    colons, so the names of cluster objects are assumed to have none, as
    Kubernetes guarantees. A process is signalled once, while it waits for it;
    goroutines that wait for the context act at that point, and a server of
    the DNS engine has bound, or failed to, when [Listen] returns.

    ** What is not modelled

    Log output, generated protobuf code, the SQL of the migrations, the
    reverse proxy of net/http once a request has its upstream, and the Windows
    watcher of certificate files, which reads UTF-16 names through unsafe
    pointers and has paths of another form. *)

From stdpp Require Export base gmap strings list fin_maps sorting relations.
From Stdlib Require Export ZArith Lia.

Open Scope Z_scope.

(** ** Errors and results *)

(** A Go [error] value made by [errors.New] or [fmt.Errorf]: its format and
    the arguments interpolated into it. *)
Record error := Errorf { err_format : string; err_args : list string }.

Abbreviation errors_New msg := (Errorf msg []).

#[export] Instance error_eq_dec : EqDecision error.
Proof. solve_decision. Defined.

(** A Go function with result list [(T, error)]. *)
Inductive result (A : Type) : Type :=
  | Ok (a : A)
  | Err (e : error).
Arguments Ok {A} _.
Arguments Err {A} _.

#[export] Instance result_eq_dec `{EqDecision A} : EqDecision (result A).
Proof. solve_decision. Defined.

#[export] Instance result_ret : MRet result := fun A a => Ok a.
#[export] Instance result_bind : MBind result := fun A B k m =>
  match m with Ok a => k a | Err e => Err e end.
#[export] Instance result_fmap : FMap result := fun A B f m =>
  match m with Ok a => Ok (f a) | Err e => Err e end.

Definition is_ok {A} (r : result A) : bool :=
  match r with Ok _ => true | Err _ => false end.

Lemma result_bind_ok {A B} (m : result A) (k : A -> result B) b :
  (m ≫= k) = Ok b <-> exists a, m = Ok a /\ k a = Ok b.
Proof. destruct m; cbn; naive_solver. Qed.

(** ** Machine integers

    Go's fixed-width integers are [Z] values kept in range by an explicit
    reduction at every operation that can leave it. *)
Definition u8 (x : Z) : Z := x mod 2 ^ 8.
Definition u16 (x : Z) : Z := x mod 2 ^ 16.
Definition u32 (x : Z) : Z := x mod 2 ^ 32.
Definition u64 (x : Z) : Z := x mod 2 ^ 64.
Definition i32 (x : Z) : Z := (x + 2 ^ 31) mod 2 ^ 32 - 2 ^ 31.

Definition is_u64 (x : Z) : Prop := 0 <= x < 2 ^ 64.

Lemma u64_small x : is_u64 x -> u64 x = x.
Proof. apply Z.mod_small. Qed.

Lemma u64_range x : is_u64 (u64 x).
Proof. by apply Z.mod_pos_bound. Qed.

Lemma i32_small x : -2 ^ 31 <= x < 2 ^ 31 -> i32 x = x.
Proof. intros. unfold i32. rewrite Z.mod_small; lia. Qed.

(** ** Iterating over a Go map

    The order in which [range] visits a Go map is unspecified.  Every
    definition that iterates over a map takes the order as this interface, and
    the theorems are proved for every order that visits each entry once. *)
Class MapRange := {
  range : forall {K : Type} `{Countable K} {V : Type}, gmap K V -> list (K * V);
  range_perm : forall {K : Type} `{Countable K} {V : Type} (m : gmap K V),
    range m ≡ₚ map_to_list m;
}.

(** The order of [map_to_list], used by the concrete witnesses. *)
Definition canonical_range : MapRange :=
  {| range := fun _ _ _ _ m => map_to_list m;
     range_perm := fun _ _ _ _ m => Permutation_refl _ |}.

Lemma elem_of_range `{!MapRange} `{Countable K} {V} (m : gmap K V) k v :
  (k, v) ∈ range m <-> m !! k = Some v.
Proof. rewrite range_perm. apply elem_of_map_to_list. Qed.

Lemma NoDup_fst_range `{!MapRange} `{Countable K} {V} (m : gmap K V) :
  NoDup (range m).*1.
Proof. rewrite range_perm. apply NoDup_fst_map_to_list. Qed.

Lemma range_empty `{!MapRange} `{Countable K} {V} :
  range (∅ : gmap K V) = [].
Proof. apply Permutation_nil. symmetry. rewrite range_perm, map_to_list_empty. done. Qed.

(** ** Generic list lemmas *)

Section lists.
Context {A : Type}.
Implicit Types (l : list A) (f : A -> bool).

Lemma forallb_Forall f l : forallb f l = true <-> Forall (fun a => f a = true) l.
Proof.
  induction l as [|a l IH]; cbn; [by split; [constructor|]|].
  rewrite andb_true_iff, IH, Forall_cons. done.
Qed.

Lemma NoDup_fmap_inj {B} (g : A -> B) l x y :
  NoDup (g <$> l) -> x ∈ l -> y ∈ l -> g x = g y -> x = y.
Proof.
  induction l as [|z l IH]; [by intros _ ?%elem_of_nil|]. cbn. intros [Hz Hnd]%NoDup_cons.
  intros [->|Hx]%elem_of_cons [->|Hy]%elem_of_cons E; auto; exfalso; apply Hz.
  - rewrite E. by apply list_elem_of_fmap_2.
  - rewrite <- E. by apply list_elem_of_fmap_2.
Qed.

Lemma filter_keep (P : A -> Prop) `{!forall x, Decision (P x)} l : Forall P l -> filter P l = l.
Proof.
  induction 1 as [|x l Hx HF IH]; [done|]. rewrite filter_cons, decide_True by done. by f_equal.
Qed.

Lemma filter_discard (P : A -> Prop) `{!forall x, Decision (P x)} l :
  Forall (fun x => ~ P x) l -> filter P l = [].
Proof. induction 1 as [|x l Hx HF IH]; [done|]. by rewrite filter_cons, decide_False. Qed.

Lemma NoDup_fmap_filter {B} (g : A -> B) (P : A -> Prop) `{!forall x, Decision (P x)} l :
  NoDup (g <$> l) -> NoDup (g <$> filter P l).
Proof.
  induction l as [|z l IH]; [done|]. cbn [fmap list_fmap]. intros [Hz Hnd]%NoDup_cons.
  rewrite filter_cons. case_decide; [|auto]. cbn. constructor; [|auto].
  intros (x & E & [_ Hx]%list_elem_of_filter)%list_elem_of_fmap. apply Hz. rewrite E.
  by apply list_elem_of_fmap_2.
Qed.

(** The Go idiom that walks a slice and keeps the best element so far:
    [if selected == nil || better(candidate, selected) { selected = candidate }]. *)
Definition pick_best (better : A -> A -> bool) (acc : option A) (c : A) : option A :=
  match acc with
  | None => Some c
  | Some s => if better c s then Some c else Some s
  end.

Lemma foldl_pick_best_Some better l s :
  exists r, foldl (pick_best better) (Some s) l = Some r /\ (r = s \/ r ∈ l).
Proof.
  revert s. induction l as [|c l IH]; intros s; cbn; [by eauto|].
  destruct (better c s); [destruct (IH c) as (r & -> & Hr)|destruct (IH s) as (r & -> & Hr)];
    exists r; split; auto; set_solver.
Qed.

Lemma foldl_pick_best_None better l :
  foldl (pick_best better) None l = None <-> l = [].
Proof.
  destruct l as [|c l]; cbn; [done|].
  destruct (foldl_pick_best_Some better l c) as (r & -> & _). naive_solver.
Qed.

Lemma foldl_pick_best_elem better l r :
  foldl (pick_best better) None l = Some r -> r ∈ l.
Proof.
  destruct l as [|c l]; cbn; [done|]. intros H.
  destruct (foldl_pick_best_Some better l c) as (r' & H' & Hr).
  rewrite H in H'. simplify_eq. set_solver.
Qed.

(** When [better] is the strict part of a total preorder, nothing in the
    slice beats the element the walk ends with. *)
Lemma foldl_pick_best_max better l r :
  (forall x, better x x = false) ->
  (forall x y z, better x y = false -> better y z = false -> better x z = false) ->
  (forall x y, better x y = true -> better y x = false) ->
  foldl (pick_best better) None l = Some r ->
  forall c, c ∈ l -> better c r = false.
Proof.
  intros Hirr Htr Hasym.
  assert (forall l s r, foldl (pick_best better) (Some s) l = Some r ->
    better s r = false /\ forall c, c ∈ l -> better c r = false) as Hgen.
  { clear l r. induction l as [|x l IH]; cbn; intros s r H.
    - simplify_eq. split; [apply Hirr|]. intros c Hc; set_solver.
    - destruct (better x s) eqn:E; destruct (IH _ _ H) as [H1 H2]; split; [|intros c|done|intros c].
      + eauto.
      + intros [->|?]%elem_of_cons; auto.
      + intros [->|?]%elem_of_cons; eauto. }
  destruct l as [|x l]; cbn; [done|]. intros H c.
  destruct (Hgen _ _ _ H). intros [->|?]%elem_of_cons; auto.
Qed.

(** The walk keeps the first of several equally good elements. *)
Lemma foldl_pick_best_ext better1 better2 l acc :
  (forall x y, better1 x y = better2 x y) ->
  foldl (pick_best better1) acc l = foldl (pick_best better2) acc l.
Proof.
  intros He. revert acc. induction l as [|c l IH]; intros acc; cbn; [done|].
  rewrite IH. f_equal. destruct acc; cbn; [by rewrite He|done].
Qed.

End lists.

(** ** Stateful code

    A Go method that reads and writes a state [S] and returns [(A, error)]. *)
Definition go (S A : Type) : Type := S -> S * result A.

#[export] Instance go_ret {S} : MRet (go S) := fun A a s => (s, Ok a).
#[export] Instance go_bind {S} : MBind (go S) := fun A B k m s =>
  match m s with
  | (s', Ok a) => k a s'
  | (s', Err e) => (s', Err e)
  end.

(** [return err] *)
Definition throw {S A} (e : error) : go S A := fun s => (s, Err e).
Definition get_state {S} : go S S := fun s => (s, Ok s).
Definition modify {S} (f : S -> S) : go S () := fun s => (f s, Ok tt).
(** A call that neither reads nor writes the state. *)
Definition lift {S A} (r : result A) : go S A := fun s => (s, r).
(** A call whose error the caller inspects instead of returning it. *)
Definition attempt {S A} (m : go S A) : go S (result A) := fun s =>
  let '(s', r) := m s in (s', Ok r).
(** [_ = f()]: a call whose error the caller drops. *)
Definition ignore {S A} (m : go S A) : go S () := fun s => ((m s).1, Ok tt).
(** [for _, a := range l { body }] with early return on error. *)
Fixpoint for_each {S A} (body : A -> go S ()) (l : list A) : go S () :=
  match l with
  | [] => mret tt
  | a :: l => body a ≫= fun _ => for_each body l
  end.

(** Run a computation on a part of the state. *)
Definition zoom {S T A} (get : S -> T) (put : T -> S -> S) (m : go T A) : go S A := fun s =>
  let '(t, r) := m (get s) in (put t s, r).

(** [defer]: run after the body whatever it returned; of a call, the error is
    dropped. *)
Definition defer {S A} (after : S -> S) (m : go S A) : go S A := fun s =>
  let '(s', r) := m s in (after s', r).
Definition defer_call {S A B} (c : go S B) (m : go S A) : go S A := defer (fun s => (c s).1) m.

(** [P] survives the call, whether it returns a value or an error. *)
Definition preserves {S A} (P : S -> Prop) (m : go S A) : Prop :=
  forall s, P s -> P (m s).1.

Lemma go_bind_Ok {S A B} (m : go S A) (k : A -> go S B) s s' b :
  (m ≫= k) s = (s', Ok b) <->
  exists s1 a, m s = (s1, Ok a) /\ k a s1 = (s', Ok b).
Proof.
  unfold mbind, go_bind. destruct (m s) as [s1 [a|e]]; naive_solver.
Qed.

Lemma lift_ok {S A} (r : result A) (s s' : S) a : lift r s = (s', Ok a) -> s' = s /\ r = Ok a.
Proof. by intros [= <- ->]. Qed.

Lemma go_bind_Err {S A B} (m : go S A) (k : A -> go S B) s s' e :
  (m ≫= k) s = (s', Err e) <->
  m s = (s', Err e) \/ exists s1 a, m s = (s1, Ok a) /\ k a s1 = (s', Err e).
Proof.
  unfold mbind, go_bind. destruct (m s) as [s1 [a|e']]; naive_solver.
Qed.

Section go_lemmas.
Context {S : Type} (P : S -> Prop).

Lemma preserves_ret {A} (a : A) : preserves P (mret a).
Proof. by intros s H. Qed.

Lemma preserves_throw {A} e : preserves P (throw (A:=A) e).
Proof. by intros s H. Qed.

Lemma preserves_bind {A B} (m : go S A) (k : A -> go S B) :
  preserves P m -> (forall a, preserves P (k a)) -> preserves P (m ≫= k).
Proof.
  intros Hm Hk s Hs. unfold mbind, go_bind. specialize (Hm s Hs).
  destruct (m s) as [s1 [a|e]]; [|done]. by apply Hk.
Qed.

Lemma preserves_attempt {A} (m : go S A) : preserves P m -> preserves P (attempt m).
Proof. intros Hm s Hs. unfold attempt. specialize (Hm s Hs). by destruct (m s). Qed.

Lemma preserves_ignore {A} (m : go S A) : preserves P m -> preserves P (ignore m).
Proof. intros Hm s Hs. by apply Hm. Qed.

Lemma preserves_for_each {A} (body : A -> go S ()) l :
  (forall a, a ∈ l -> preserves P (body a)) -> preserves P (for_each body l).
Proof.
  induction l as [|a l IH]; intros Hb; cbn; [apply preserves_ret|].
  apply preserves_bind; [apply Hb; set_solver|]. intros _. apply IH. set_solver.
Qed.

End go_lemmas.

(** ** Automation *)

Create HintDb luna discriminated.

(** Destruct every [match] and [if] of the goal, keeping the equations. *)
Ltac go_cases :=
  repeat (case_match || case_decide || case_bool_decide); simplify_eq/=.

#[export] Hint Resolve preserves_ret preserves_throw preserves_bind preserves_attempt
  preserves_ignore preserves_for_each : luna.

(** Split [preserves] along the program text, leaving the primitive calls. *)
Ltac preserves_step :=
  repeat first
    [ apply preserves_ret | apply preserves_throw | apply preserves_attempt
    | apply preserves_ignore | apply preserves_bind; [|intros ?]
    | apply preserves_for_each; intros ? ? | case_match ].

(** Membership in an explicit list. *)
Ltac elem_solver :=
  rewrite ?elem_of_nil, ?list_elem_of_singleton, ?elem_of_cons; naive_solver.
