(* ===== verification/GoStrings.v ===== *)
(** * The parts of Go's [strings] and [strconv] packages the program uses

    A Go string is a byte sequence: here a [string], viewed as [list ascii]
    by [bytes].  Case mapping and white space are those of the ASCII range,
    which is where Go's Unicode-aware functions act on host names, DNS names,
    Kubernetes names and identifiers; bytes from 128 up are left alone. *)

From S2P Require Import Prelude.
From stdpp Require Export pretty.
From Stdlib Require Import Ascii.

Open Scope Z_scope.

Abbreviation bytes s := (Stdlib.Strings.String.list_ascii_of_string s).
Abbreviation of_bytes l := (Stdlib.Strings.String.string_of_list_ascii l).

Lemma of_bytes_bytes s : of_bytes (bytes s) = s.
Proof. apply Stdlib.Strings.String.string_of_list_ascii_of_string. Qed.

Lemma bytes_of_bytes l : bytes (of_bytes l) = l.
Proof. apply Stdlib.Strings.String.list_ascii_of_string_of_list_ascii. Qed.

Lemma bytes_inj s t : bytes s = bytes t -> s = t.
Proof. intros H. by rewrite <- (of_bytes_bytes s), H, of_bytes_bytes. Qed.

Lemma bytes_app s t : bytes (s +:+ t) = bytes s ++ bytes t.
Proof.
  induction s as [|c s IH]; [done|].
  change (String c s +:+ t) with (String c (s +:+ t)). cbn. by rewrite IH.
Qed.

Lemma bytes_nil s : bytes s = [] <-> s = "".
Proof. by destruct s. Qed.

Lemma of_bytes_app l k : of_bytes (l ++ k) = of_bytes l +:+ of_bytes k.
Proof. apply bytes_inj. by rewrite bytes_app, !bytes_of_bytes. Qed.

#[export] Hint Rewrite of_bytes_bytes bytes_of_bytes bytes_app : gostr.

(** [len(s)] *)
Definition len (s : string) : nat := length (bytes s).

(** ** Characters *)

Definition is_space (c : ascii) : bool :=
  let n := nat_of_ascii c in
  bool_decide (n = 32)%nat || (bool_decide (9 <= n)%nat && bool_decide (n <= 13)%nat).

Definition is_upper (c : ascii) : bool :=
  let n := nat_of_ascii c in bool_decide (65 <= n)%nat && bool_decide (n <= 90)%nat.

Definition is_lower (c : ascii) : bool :=
  let n := nat_of_ascii c in bool_decide (97 <= n)%nat && bool_decide (n <= 122)%nat.

Definition is_digit (c : ascii) : bool :=
  let n := nat_of_ascii c in bool_decide (48 <= n)%nat && bool_decide (n <= 57)%nat.

Definition lower_char (c : ascii) : ascii :=
  if is_upper c then ascii_of_nat (nat_of_ascii c + 32) else c.

Definition upper_char (c : ascii) : ascii :=
  if is_lower c then ascii_of_nat (nat_of_ascii c - 32) else c.

(** A decidable fact about one byte, checked on all 256 of them. *)
Ltac all_chars :=
  match goal with
  | c : ascii |- _ =>
      destruct c as [[] [] [] [] [] [] [] []]; vm_compute; first [done | congruence]
  end.

Lemma lower_char_idemp c : lower_char (lower_char c) = lower_char c.
Proof. all_chars. Qed.

Lemma upper_char_idemp c : upper_char (upper_char c) = upper_char c.
Proof. all_chars. Qed.

Lemma lower_char_space c : is_space (lower_char c) = is_space c.
Proof. all_chars. Qed.

Lemma upper_char_space c : is_space (upper_char c) = is_space c.
Proof. all_chars. Qed.

(** ** Trimming *)

Fixpoint drop_while {A} (f : A -> bool) (l : list A) : list A :=
  match l with
  | [] => []
  | a :: l' => if f a then drop_while f l' else l
  end.

Definition trim_left {A} (f : A -> bool) (l : list A) : list A := drop_while f l.
Definition trim_right {A} (f : A -> bool) (l : list A) : list A :=
  reverse (drop_while f (reverse l)).
Definition trim_func {A} (f : A -> bool) (l : list A) : list A :=
  trim_right f (trim_left f l).

Section trim.
Context {A : Type} (f : A -> bool).
Implicit Type l : list A.

(** [l] neither starts nor ends with an element to trim. *)
Definition trimmed l : Prop :=
  (forall a, head l = Some a -> f a = false) /\
  (forall a, last l = Some a -> f a = false).

Lemma drop_while_suffix l : exists k, l = k ++ drop_while f l /\ Forall (fun a => f a = true) k.
Proof.
  induction l as [|a l (k & Hk & HF)]; cbn; [by exists []|].
  destruct (f a) eqn:E; [|by exists []].
  exists (a :: k). cbn. split; [by f_equal|by constructor].
Qed.

Lemma drop_while_head l a : head (drop_while f l) = Some a -> f a = false.
Proof. induction l as [|b l IH]; cbn; [done|]. destruct (f b) eqn:E; [done|]. naive_solver. Qed.

Lemma drop_while_id l : (forall a, head l = Some a -> f a = false) -> drop_while f l = l.
Proof. destruct l as [|a l]; cbn; [done|]. intros H. by rewrite (H a). Qed.

Lemma trim_right_prefix l : exists k, l = trim_right f l ++ k.
Proof.
  unfold trim_right. destruct (drop_while_suffix (reverse l)) as (k & Hk & _).
  exists (reverse k). rewrite <- reverse_app, <- Hk. by rewrite reverse_involutive.
Qed.

Lemma trim_right_last l a : last (trim_right f l) = Some a -> f a = false.
Proof. unfold trim_right. rewrite last_reverse. apply drop_while_head. Qed.

Lemma trim_right_id l : (forall a, last l = Some a -> f a = false) -> trim_right f l = l.
Proof.
  intros H. unfold trim_right. rewrite drop_while_id; [apply reverse_involutive|].
  intros a. rewrite head_reverse. auto.
Qed.

Lemma trim_func_trimmed l : trimmed (trim_func f l).
Proof.
  unfold trim_func. split; [|apply trim_right_last].
  destruct (trim_right_prefix (trim_left f l)) as (k & Hk). intros a Ha.
  apply (drop_while_head l). unfold trim_left in *.
  rewrite Hk. destruct (trim_right f (drop_while f l)); [done|]. done.
Qed.

Lemma trim_func_id l : trimmed l -> trim_func f l = l.
Proof.
  intros [Hh Hl]. unfold trim_func, trim_left. rewrite drop_while_id by done.
  by apply trim_right_id.
Qed.

Lemma trim_func_incl l : trim_func f l ⊆ l.
Proof.
  unfold trim_func, trim_left. destruct (trim_right_prefix (drop_while f l)) as (k & Hk).
  destruct (drop_while_suffix l) as (k' & Hk' & _). intros a Ha.
  rewrite Hk', Hk. set_solver.
Qed.

End trim.

Lemma drop_while_map {A B} (g : A -> B) (f : B -> bool) l :
  drop_while f (g <$> l) = g <$> drop_while (f ∘ g) l.
Proof. induction l as [|a l IH]; cbn; [done|]. by destruct (f (g a)). Qed.

Lemma drop_while_ext {A} (f g : A -> bool) l :
  (forall a, f a = g a) -> drop_while f l = drop_while g l.
Proof. intros He. induction l as [|a l IH]; cbn; [done|]. rewrite He. by destruct (g a). Qed.

Lemma trim_func_map {A} (g : A -> A) (f : A -> bool) l :
  (forall a, f (g a) = f a) -> trim_func f (g <$> l) = g <$> trim_func f l.
Proof.
  intros He. unfold trim_func, trim_right, trim_left.
  rewrite drop_while_map, <- fmap_reverse, drop_while_map, <- fmap_reverse.
  rewrite (drop_while_ext (f ∘ g) f) by done. by rewrite (drop_while_ext (f ∘ g) f l).
Qed.

(** ** Package strings *)

Definition ToLower (s : string) : string := of_bytes (lower_char <$> bytes s).
Definition ToUpper (s : string) : string := of_bytes (upper_char <$> bytes s).
Definition TrimSpace (s : string) : string := of_bytes (trim_func is_space (bytes s)).

Definition in_cutset (cutset : string) (c : ascii) : bool := bool_decide (c ∈ bytes cutset).
Definition Trim (s cutset : string) : string :=
  of_bytes (trim_func (in_cutset cutset) (bytes s)).
Definition TrimRight (s cutset : string) : string :=
  of_bytes (trim_right (in_cutset cutset) (bytes s)).

Fixpoint is_prefix (p l : list ascii) : bool :=
  match p, l with
  | [], _ => true
  | _ :: _, [] => false
  | a :: p, b :: l => bool_decide (a = b) && is_prefix p l
  end.

Definition HasPrefix (s prefix : string) : bool := is_prefix (bytes prefix) (bytes s).
Definition HasSuffix (s suffix : string) : bool :=
  is_prefix (reverse (bytes suffix)) (reverse (bytes s)).
Definition TrimPrefix (s prefix : string) : string :=
  if HasPrefix s prefix then of_bytes (drop (len prefix) (bytes s)) else s.
Definition TrimSuffix (s suffix : string) : string :=
  if HasSuffix s suffix then of_bytes (take (len s - len suffix) (bytes s)) else s.

Fixpoint contains_sub (sub l : list ascii) : bool :=
  is_prefix sub l || match l with [] => false | _ :: l' => contains_sub sub l' end.
Definition Contains (s sub : string) : bool := contains_sub (bytes sub) (bytes s).
Definition ContainsAny (s chars : string) : bool := existsb (in_cutset chars) (bytes s).

(** [s[:i]] for the first index [i] of byte [c], [s] when there is none. *)
Fixpoint take_until (c : ascii) (l : list ascii) : list ascii :=
  match l with
  | [] => []
  | a :: l' => if bool_decide (a = c) then [] else a :: take_until c l'
  end.
Definition cut_at (s : string) (c : ascii) : string := of_bytes (take_until c (bytes s)).

(** [strings.Split(s, sep)] for a one-byte separator. *)
Fixpoint split_bytes (sep : ascii) (l : list ascii) : list (list ascii) :=
  match l with
  | [] => [[]]
  | a :: l' =>
      if bool_decide (a = sep) then [] :: split_bytes sep l'
      else match split_bytes sep l' with
           | [] => [[a]]
           | w :: ws => (a :: w) :: ws
           end
  end.
Definition Split (s : string) (sep : ascii) : list string :=
  (fun l => of_bytes l) <$> split_bytes sep (bytes s).

(** [strings.SplitN(s, sep, n)] with [n > 0]: at most [n] pieces, the last one
    unsplit. *)
Fixpoint splitn_bytes (sep : ascii) (n : nat) (l : list ascii) : list (list ascii) :=
  match n with
  | O => []
  | S O => [l]
  | S n' =>
      if bool_decide (sep ∈ l)
      then take_until sep l :: splitn_bytes sep n' (drop (S (length (take_until sep l))) l)
      else [l]
  end.
Definition SplitN (s : string) (sep : ascii) (n : nat) : list string :=
  (fun l => of_bytes l) <$> splitn_bytes sep n (bytes s).

Fixpoint join_bytes (sep : list ascii) (ws : list (list ascii)) : list ascii :=
  match ws with
  | [] => []
  | [w] => w
  | w :: ws => w ++ sep ++ join_bytes sep ws
  end.
Definition Join (ws : list string) (sep : string) : string :=
  of_bytes (join_bytes (bytes sep) ((fun w => bytes w) <$> ws)).

(** [strings.Fields]: the maximal runs of non-space bytes. *)
Fixpoint fields_bytes (cur l : list ascii) : list (list ascii) :=
  let word := match cur with [] => [] | _ => [cur] end in
  match l with
  | [] => word
  | c :: l => if is_space c then word ++ fields_bytes [] l else fields_bytes (cur ++ [c]) l
  end.
Definition Fields (s : string) : list string :=
  (fun w => of_bytes w) <$> fields_bytes [] (bytes s).

(** [strings.EqualFold] on ASCII. *)
Definition EqualFold (s t : string) : bool := bool_decide (ToLower s = ToLower t).

(** ** Package strconv *)

Definition Itoa (z : Z) : string := pretty z.
Definition FormatUint (z : Z) : string := pretty z.

Definition digit_val (c : ascii) : Z := Z.of_nat (nat_of_ascii c) - 48.

(** The value of a non-empty run of decimal digits. *)
Definition digits_value (l : list ascii) : option Z :=
  match l with
  | [] => None
  | _ => if forallb is_digit l
         then Some (foldl (fun acc c => 10 * acc + digit_val c) 0 l) else None
  end.

(** [strconv.Atoi]: an optional sign, decimal digits, the range of [int64]. *)
Definition Atoi (s : string) : option Z :=
  let n := match bytes s with
           | "-"%char :: ds => Z.opp <$> digits_value ds
           | "+"%char :: ds => digits_value ds
           | ds => digits_value ds
           end in
  n ≫= fun n => if bool_decide (-2 ^ 63 <= n < 2 ^ 63) then Some n else None.

(** [strconv.ParseUint(s, 10, 64)] *)
Definition ParseUint (s : string) : option Z :=
  digits_value (bytes s) ≫= fun n => if bool_decide (n < 2 ^ 64) then Some n else None.

(** ** Lemmas *)

Lemma ToLower_idemp s : ToLower (ToLower s) = ToLower s.
Proof.
  unfold ToLower. autorewrite with gostr. f_equal. rewrite <- list_fmap_compose.
  apply list_fmap_ext. intros. apply lower_char_idemp.
Qed.

Lemma ToUpper_idemp s : ToUpper (ToUpper s) = ToUpper s.
Proof.
  unfold ToUpper. autorewrite with gostr. f_equal. rewrite <- list_fmap_compose.
  apply list_fmap_ext. intros. apply upper_char_idemp.
Qed.

Lemma TrimSpace_idemp s : TrimSpace (TrimSpace s) = TrimSpace s.
Proof.
  unfold TrimSpace. autorewrite with gostr. f_equal. apply trim_func_id, trim_func_trimmed.
Qed.

Lemma TrimSpace_ToLower s : TrimSpace (ToLower s) = ToLower (TrimSpace s).
Proof.
  unfold TrimSpace, ToLower. autorewrite with gostr. f_equal.
  apply trim_func_map, lower_char_space.
Qed.

Lemma TrimSpace_ToUpper s : TrimSpace (ToUpper s) = ToUpper (TrimSpace s).
Proof.
  unfold TrimSpace, ToUpper. autorewrite with gostr. f_equal.
  apply trim_func_map, upper_char_space.
Qed.

Lemma is_prefix_spec p l : is_prefix p l = true <-> exists k, l = p ++ k.
Proof.
  revert l. induction p as [|a p IH]; intros [|b l]; cbn.
  - naive_solver.
  - naive_solver.
  - naive_solver.
  - rewrite andb_true_iff, bool_decide_eq_true, IH. naive_solver.
Qed.

Lemma HasPrefix_spec s p : HasPrefix s p = true <-> exists t, s = p +:+ t.
Proof.
  unfold HasPrefix. rewrite is_prefix_spec. split; intros [k Hk].
  - exists (of_bytes k). apply bytes_inj. by autorewrite with gostr.
  - exists (bytes k). subst. by autorewrite with gostr.
Qed.

Lemma HasPrefix_app p t : HasPrefix (p +:+ t) p = true.
Proof. apply HasPrefix_spec. by exists t. Qed.

Lemma TrimPrefix_app p t : TrimPrefix (p +:+ t) p = t.
Proof.
  unfold TrimPrefix. rewrite HasPrefix_app. apply bytes_inj.
  unfold len. autorewrite with gostr. by rewrite drop_app_length.
Qed.

Lemma HasSuffix_spec s p : HasSuffix s p = true <-> exists t, s = t +:+ p.
Proof.
  unfold HasSuffix. rewrite is_prefix_spec. split; intros [k Hk].
  - exists (of_bytes (reverse k)). apply bytes_inj. autorewrite with gostr.
    by rewrite <- (reverse_involutive (bytes s)), Hk, reverse_app, reverse_involutive.
  - exists (reverse (bytes k)). subst. autorewrite with gostr. by rewrite reverse_app.
Qed.

Lemma TrimSuffix_app t p : TrimSuffix (t +:+ p) p = t.
Proof.
  unfold TrimSuffix. assert (HasSuffix (t +:+ p) p = true) as -> by (apply HasSuffix_spec; eauto).
  apply bytes_inj. unfold len. autorewrite with gostr. rewrite length_app.
  by rewrite Nat.add_sub, take_app_length.
Qed.

Lemma TrimSuffix_none s p : HasSuffix s p = false -> TrimSuffix s p = s.
Proof. unfold TrimSuffix. by intros ->. Qed.

Lemma in_cutset_spec chars c : in_cutset chars c = true <-> c ∈ bytes chars.
Proof. apply bool_decide_eq_true. Qed.

Lemma take_until_notin c l : c ∉ l -> take_until c l = l.
Proof.
  induction l as [|a l IH]; cbn; [done|]. intros H.
  rewrite bool_decide_eq_false_2 by set_solver. f_equal. apply IH. set_solver.
Qed.

Lemma take_until_out c l : c ∉ take_until c l.
Proof.
  induction l as [|a l IH]; cbn; [set_solver|].
  case_bool_decide; set_solver.
Qed.

Lemma take_until_incl c l : take_until c l ⊆ l.
Proof. induction l as [|a l IH]; cbn; [done|]. case_bool_decide; set_solver. Qed.

Lemma take_until_app c l : c ∉ l -> forall k, take_until c (l ++ c :: k) = l.
Proof.
  intros Hc k. induction l as [|a l IH]; cbn.
  - by rewrite bool_decide_eq_true_2.
  - rewrite bool_decide_eq_false_2 by set_solver. f_equal. apply IH. set_solver.
Qed.

Lemma take_until_map_notin c l (g : ascii -> ascii) :
  (forall a, g a = c <-> a = c) -> take_until c (g <$> l) = g <$> take_until c l.
Proof.
  intros Hg. induction l as [|a l IH]; cbn; [done|].
  rewrite (bool_decide_ext _ _ (Hg a)). case_bool_decide; [done|]. cbn. by f_equal.
Qed.

Lemma split_bytes_cons sep l : split_bytes sep l <> [].
Proof.
  induction l as [|a l IH]; cbn; [done|]. case_bool_decide; [done|].
  by destruct (split_bytes sep l).
Qed.

(** Splitting inverts joining when no piece holds the separator. *)
Lemma split_bytes_none sep l : sep ∉ l -> split_bytes sep l = [l].
Proof.
  induction l as [|a l IH]; cbn; [done|]. intros H.
  rewrite bool_decide_eq_false_2 by set_solver. by rewrite IH by set_solver.
Qed.

Lemma split_bytes_app sep l k :
  sep ∉ l -> split_bytes sep (l ++ sep :: k) = l :: split_bytes sep k.
Proof.
  induction l as [|a l IH]; cbn; intros H.
  - by rewrite bool_decide_eq_true_2.
  - rewrite bool_decide_eq_false_2 by set_solver. by rewrite IH by set_solver.
Qed.

Lemma split_join_bytes sep ws :
  ws <> [] -> Forall (fun w => sep ∉ w) ws -> split_bytes sep (join_bytes [sep] ws) = ws.
Proof.
  intros Hne HF. induction HF as [|w ws Hw HF IH]; [done|].
  destruct ws as [|w' ws]; [by apply split_bytes_none|].
  change (split_bytes sep (w ++ sep :: join_bytes [sep] (w' :: ws)) = w :: w' :: ws).
  rewrite split_bytes_app by done. f_equal. by apply IH.
Qed.

Lemma join_split_bytes sep l : join_bytes [sep] (split_bytes sep l) = l.
Proof.
  induction l as [|a l IH]; cbn; [done|].
  pose proof (split_bytes_cons sep l) as Hne. case_bool_decide as Hd.
  - subst. destruct (split_bytes sep l) as [|w ws] eqn:E; [done|]. cbn in *. by f_equal.
  - destruct (split_bytes sep l) as [|w ws] eqn:E; [done|].
    destruct ws; cbn in *; by f_equal.
Qed.

Lemma split_bytes_pieces sep l : Forall (fun w => sep ∉ w) (split_bytes sep l).
Proof.
  induction l as [|a l IH]; cbn.
  - repeat constructor. set_solver.
  - case_bool_decide; [by repeat constructor; [set_solver|]|].
    destruct (split_bytes sep l) as [|w ws]; [repeat constructor; set_solver|].
    apply Forall_cons in IH as [Hw Hws]. constructor; [set_solver|done].
Qed.

Lemma Itoa_inj x y : Itoa x = Itoa y -> x = y.
Proof. unfold Itoa. apply (inj pretty). Qed.

Lemma app_string_assoc (s t u : string) : (s +:+ t) +:+ u = s +:+ (t +:+ u).
Proof. apply bytes_inj. autorewrite with gostr. by rewrite <- app_assoc. Qed.

Lemma app_string_nil_r (s : string) : s +:+ "" = s.
Proof. apply bytes_inj. autorewrite with gostr. cbn. by rewrite app_nil_r. Qed.

Lemma app_string_inj_r (s t u : string) : s +:+ u = t +:+ u -> s = t.
Proof.
  intros H. apply (f_equal (fun x => bytes x)) in H. autorewrite with gostr in H.
  apply app_inv_tail in H. by apply bytes_inj.
Qed.

(** ** Numbers *)

Lemma pretty_char_digit n : (n < 10)%N ->
  is_digit (pretty_N_char n) = true /\ digit_val (pretty_N_char n) = Z.of_N n.
Proof.
  intros H. destruct n as [|p]; [done|]. do 4 (destruct p as [p|p|]; try done; try lia).
Qed.

Definition decimal (acc : Z) (l : list ascii) : Z := foldl (fun acc c => 10 * acc + digit_val c) acc l.

Lemma pretty_go_value x s :
  decimal 0 (bytes (pretty_N_go x s)) = decimal (Z.of_N x) (bytes s).
Proof.
  revert s. induction (N.lt_wf_0 x) as [x _ IH]; intros s.
  assert (x = 0 \/ 0 < x)%N as [->|Hx] by lia; [by rewrite pretty_N_go_0|].
  rewrite pretty_N_go_step by done. rewrite IH by (by apply N.div_lt). unfold decimal. cbn.
  f_equal. destruct (pretty_char_digit (x mod 10)) as [_ ->]; [by apply N.mod_lt|].
  pose proof (N.div_mod x 10). lia.
Qed.

Lemma pretty_go_digits x s :
  Forall (fun c => is_digit c = true) (bytes s) ->
  Forall (fun c => is_digit c = true) (bytes (pretty_N_go x s)) /\
  (x <> 0%N -> bytes (pretty_N_go x s) <> []).
Proof.
  revert s. induction (N.lt_wf_0 x) as [x _ IH]; intros s Hs.
  assert (x = 0 \/ 0 < x)%N as [->|Hx] by lia; [by rewrite pretty_N_go_0|].
  rewrite pretty_N_go_step by done.
  destruct (IH (x / 10)%N) with (s := String (pretty_N_char (x mod 10)) s) as [H1 H2].
  - by apply N.div_lt.
  - cbn. constructor; [|done]. apply pretty_char_digit. by apply N.mod_lt.
  - split; [done|]. intros _. destruct (decide (x / 10 = 0)%N) as [->|]; [|auto].
    by rewrite pretty_N_go_0.
Qed.

Lemma Itoa_digits n : 0 <= n ->
  Forall (fun c => is_digit c = true) (bytes (Itoa n)) /\ bytes (Itoa n) <> [] /\
  decimal 0 (bytes (Itoa n)) = n.
Proof.
  intros Hn. destruct n as [|p|p]; [by split; [repeat constructor|]| |lia].
  change (Itoa (Z.pos p)) with (pretty_N_go (N.pos p) "").
  destruct (pretty_go_digits (N.pos p) "" ltac:(constructor)) as [H1 H2].
  split_and!; [done|by apply H2|]. by rewrite pretty_go_value.
Qed.

Lemma Atoi_Itoa n : 0 <= n < 2 ^ 63 -> Atoi (Itoa n) = Some n.
Proof.
  intros Hn. destruct (Itoa_digits n) as (Hd & Hne & Hv); [lia|].
  assert (digits_value (bytes (Itoa n)) = Some n) as Hdv.
  { unfold digits_value. destruct (bytes (Itoa n)) as [|c l]; [done|].
    apply forallb_Forall in Hd. rewrite Hd. by rewrite <- Hv. }
  unfold Atoi. set (m := match bytes (Itoa n) with [] => _ | _ => _ end).
  assert (m = Some n) as ->.
  { unfold m. destruct (bytes (Itoa n)) as [|c l]; [done|].
    apply Forall_cons in Hd as [Hc _]. destruct c as [[] [] [] [] [] [] [] []]; try discriminate Hc; exact Hdv. }
  cbn [mbind option_bind]. by rewrite bool_decide_true by lia.
Qed.

Lemma digit_not_space c : is_digit c = true -> is_space c = false.
Proof.
  intros H. destruct c as [[] [] [] [] [] [] [] []]; try discriminate H; reflexivity.
Qed.

(** A text without white space. *)
Definition no_space (s : string) : Prop := Forall (fun c => is_space c = false) (bytes s).

Lemma fields_word cur w l :
  Forall (fun c => is_space c = false) w ->
  fields_bytes cur (w ++ l) = fields_bytes (cur ++ w) l.
Proof.
  intros H. revert cur. induction H as [|c w Hc Hw IH]; intros cur; cbn.
  - by rewrite app_nil_r.
  - rewrite Hc, IH. by rewrite <- (assoc_L (++)).
Qed.

Lemma Fields_cons w s : no_space w -> w <> "" -> Fields (w +:+ " " +:+ s) = w :: Fields s.
Proof.
  intros Hw Hne. unfold Fields. autorewrite with gostr. rewrite fields_word by done. cbn.
  assert (bytes w <> []) as Hb by (intros E; apply Hne, bytes_inj; by rewrite E).
  destruct (bytes w) as [|c l] eqn:E; [done|].
  change (is_space " ") with true. cbn. f_equal.
  apply bytes_inj. cbn. by rewrite bytes_of_bytes, E.
Qed.

Lemma Fields_one w : no_space w -> w <> "" -> Fields w = [w].
Proof.
  intros Hw Hne. unfold Fields. rewrite <- (app_nil_r (bytes w)). rewrite fields_word by done. cbn.
  assert (bytes w <> []) as Hb by (intros E; apply Hne, bytes_inj; by rewrite E).
  destruct (bytes w) as [|c l] eqn:E; [done|]. cbn. f_equal.
  apply bytes_inj. cbn. by rewrite bytes_of_bytes, E.
Qed.

Lemma trimmed_nospace l : Forall (fun c => is_space c = false) l -> trimmed is_space l.
Proof.
  rewrite Forall_forall. intros H. split; intros a Ha; apply H.
  - destruct l; [done|]. injection Ha as ->. by left.
  - apply last_Some in Ha as [l' ->]. apply elem_of_app. right. by left.
Qed.

Lemma TrimSpace_nospace s : no_space s -> TrimSpace s = s.
Proof.
  intros H. apply bytes_inj. unfold TrimSpace. rewrite bytes_of_bytes.
  by apply trim_func_id, trimmed_nospace.
Qed.
