(* ===== verification/GoTime.v ===== *)
(** * Go's [time.Time] in UTC, and durations in nanoseconds *)

From S2P Require Import Prelude.

Open Scope Z_scope.

(** Seconds since the Unix epoch and the nanoseconds within the second. *)
Record Time := mkTime { t_sec : Z; t_nsec : Z }.

#[export] Instance Time_eq_dec : EqDecision Time.
Proof. solve_decision. Defined.

Definition valid_time (t : Time) : Prop := 0 <= t_nsec t < 1000000000.

(** [time.Time{}]: 0001-01-01 00:00:00 UTC. *)
Definition zero_time : Time := mkTime (-62135596800) 0.

Definition IsZero (t : Time) : bool := bool_decide (t = zero_time).

(** [time.Unix(sec, nsec).UTC()] accepts nanoseconds outside [0, 10^9). *)
Definition Unix (sec nsec : Z) : Time :=
  mkTime (sec + nsec / 1000000000) (nsec mod 1000000000).

Definition nanos (t : Time) : Z := t_sec t * 1000000000 + t_nsec t.

Definition time_Add (t : Time) (d : Z) : Time := Unix (t_sec t) (t_nsec t + d).

Definition time_After (t u : Time) : bool := bool_decide (nanos u < nanos t).

Lemma Unix_valid t : valid_time t -> Unix (t_sec t) (t_nsec t) = t.
Proof.
  intros H. unfold Unix. rewrite Z.div_small, Z.mod_small by done.
  rewrite Z.add_0_r. by destruct t.
Qed.

Lemma nanos_add t d : nanos (time_Add t d) = nanos t + d.
Proof.
  unfold nanos, time_Add, Unix; cbn [t_sec t_nsec].
  pose proof (Z.div_mod (t_nsec t + d) 1000000000). lia.
Qed.
