(* ===== verification/Metadata.v ===== *)
(** * The metadata model: repository/metadata

    The rows of the repository and the projections derived from them.  Go's
    string enumerations are strings with named constants, since a value read
    from a database or a request can hold any text. *)

From S2P Require Import Prelude GoStrings GoTime.

Open Scope Z_scope.

(** ** models.go *)

Record Shared := mkShared {
  sh_Deleted : bool;
  sh_CreatedAt : Time;
  sh_UpdatedAt : Time;
}.

(** [metadata.Shared{}] *)
Definition zero_Shared : Shared := mkShared false zero_time zero_time.

#[export] Instance Shared_eq_dec : EqDecision Shared.
Proof. solve_decision. Defined.

(** ** dns_record.go *)

Abbreviation DNSRecordType := string (only parsing).
Definition DNSTypeA : DNSRecordType := "A".
Definition DNSTypeAAAA : DNSRecordType := "AAAA".
Definition DNSTypeCNAME : DNSRecordType := "CNAME".
Definition DNSTypeTXT : DNSRecordType := "TXT".
Definition DNSTypeMX : DNSRecordType := "MX".
Definition DNSTypeNS : DNSRecordType := "NS".
Definition DNSTypeSRV : DNSRecordType := "SRV".
Definition DNSTypeCAA : DNSRecordType := "CAA".

Abbreviation RoutingClass := string (only parsing).
Definition RoutingClassFirst : RoutingClass := "first".
Definition RoutingClassGeo : RoutingClass := "geo".
Definition RoutingClassLB : RoutingClass := "lb".

Record DNSRecord := mkDNSRecord {
  dr_Shared : Shared;
  dr_ID : string;
  dr_FQDN : string;
  dr_RecordType : DNSRecordType;
  dr_RoutingClass : RoutingClass;
  dr_TTLSeconds : Z;
  dr_ValuesJSON : string;
  dr_RoutingKey : string;
  dr_Enabled : bool;
}.

Definition zero_DNSRecord : DNSRecord := mkDNSRecord zero_Shared "" "" "" "" 0 "" "" false.

#[export] Instance DNSRecord_eq_dec : EqDecision DNSRecord.
Proof. solve_decision. Defined.

Abbreviation dr_Deleted r := (sh_Deleted (dr_Shared r)).

(** Field assignments the program makes. *)
Definition set_dr_FQDN (r : DNSRecord) (fqdn : string) : DNSRecord :=
  mkDNSRecord (dr_Shared r) (dr_ID r) fqdn (dr_RecordType r) (dr_RoutingClass r)
    (dr_TTLSeconds r) (dr_ValuesJSON r) (dr_RoutingKey r) (dr_Enabled r).
Definition set_dr_RecordType (r : DNSRecord) (ty : DNSRecordType) : DNSRecord :=
  mkDNSRecord (dr_Shared r) (dr_ID r) (dr_FQDN r) ty (dr_RoutingClass r)
    (dr_TTLSeconds r) (dr_ValuesJSON r) (dr_RoutingKey r) (dr_Enabled r).
Definition set_dr_ID (r : DNSRecord) (id : string) : DNSRecord :=
  mkDNSRecord (dr_Shared r) id (dr_FQDN r) (dr_RecordType r) (dr_RoutingClass r)
    (dr_TTLSeconds r) (dr_ValuesJSON r) (dr_RoutingKey r) (dr_Enabled r).
Definition set_dr_ValuesJSON (r : DNSRecord) (values : string) : DNSRecord :=
  mkDNSRecord (dr_Shared r) (dr_ID r) (dr_FQDN r) (dr_RecordType r) (dr_RoutingClass r)
    (dr_TTLSeconds r) values (dr_RoutingKey r) (dr_Enabled r).
Definition set_Deleted (s : Shared) (d : bool) : Shared :=
  mkShared d (sh_CreatedAt s) (sh_UpdatedAt s).
Definition set_dr_Deleted (r : DNSRecord) (d : bool) : DNSRecord :=
  mkDNSRecord (set_Deleted (dr_Shared r) d) (dr_ID r) (dr_FQDN r) (dr_RecordType r)
    (dr_RoutingClass r) (dr_TTLSeconds r) (dr_ValuesJSON r) (dr_RoutingKey r) (dr_Enabled r).

(** ** domain_endpoint.go *)

Abbreviation BackendType := string (only parsing).
Definition BackendTypeL4TLSPassthrough : BackendType := "l4-tls-passthrough".
Definition BackendTypeL4TLSTermination : BackendType := "l4-tls-termination".
Definition BackendTypeL7HTTPS : BackendType := "l7-https".
Definition BackendTypeL7HTTP : BackendType := "l7-http".
Definition BackendTypeL7HTTPBoth : BackendType := "l7-http-both".

Record DomainEndpoint := mkDomainEndpoint {
  de_Shared : Shared;
  de_Hostname : string;
  de_NeedCert : bool;
  de_BackendType : BackendType;
  de_BindedServiceID : string;
}.

#[export] Instance DomainEndpoint_eq_dec : EqDecision DomainEndpoint.
Proof. solve_decision. Defined.

Definition set_de_Deleted (d : DomainEndpoint) (b : bool) : DomainEndpoint :=
  mkDomainEndpoint (set_Deleted (de_Shared d) b) (de_Hostname d) (de_NeedCert d)
    (de_BackendType d) (de_BindedServiceID d).

(** ** service_binding.go *)

Abbreviation ServiceBackendType := string (only parsing).
Definition ServiceBackendTypeSVC : ServiceBackendType := "SVC".
Definition ServiceBackendTypeExternal : ServiceBackendType := "EXTERNAL".

Record ServiceBackendRef := mkServiceBackendRef {
  sb_Shared : Shared;
  sb_ID : string;
  sb_Type : ServiceBackendType;
  sb_ArbitraryEndpoint : string;
  sb_ServiceNamespace : string;
  sb_ServiceName : string;
  sb_Port : Z;
}.

#[export] Instance ServiceBackendRef_eq_dec : EqDecision ServiceBackendRef.
Proof. solve_decision. Defined.

Definition set_sb_Deleted (s : ServiceBackendRef) (b : bool) : ServiceBackendRef :=
  mkServiceBackendRef (set_Deleted (sb_Shared s) b) (sb_ID s) (sb_Type s)
    (sb_ArbitraryEndpoint s) (sb_ServiceNamespace s) (sb_ServiceName s) (sb_Port s).

(** ** http_route.go *)

Record HTTPRoute := mkHTTPRoute {
  hr_Shared : Shared;
  hr_ID : string;
  hr_Hostname : string;
  hr_Path : string;
  hr_Priority : Z;
  hr_BackendRefID : string;
}.

#[export] Instance HTTPRoute_eq_dec : EqDecision HTTPRoute.
Proof. solve_decision. Defined.

Definition set_hr_Deleted (r : HTTPRoute) (b : bool) : HTTPRoute :=
  mkHTTPRoute (set_Deleted (hr_Shared r) b) (hr_ID r) (hr_Hostname r) (hr_Path r)
    (hr_Priority r) (hr_BackendRefID r).

(** ** certificate_revision.go *)

Abbreviation ChallengeType := string (only parsing).
Definition ChallengeTypeDNS01 : ChallengeType := "dns-01".
Definition ChallengeTypeHTTP01 : ChallengeType := "http-01".

Abbreviation ACMEProvider := string (only parsing).
Definition ProviderLetsEncrypt : ACMEProvider := "letsencrypt".
Definition ProviderZeroSSL : ACMEProvider := "zerossl".

Record CertificateRevision := mkCertificateRevision {
  cr_Shared : Shared;
  cr_ID : string;
  cr_Hostname : string;
  cr_Revision : Z;
  cr_Provider : ACMEProvider;
  cr_ChallengeType : ChallengeType;
  cr_ArtifactBucket : string;
  cr_ArtifactPrefix : string;
  cr_SHA256Crt : string;
  cr_SHA256Key : string;
  cr_NotBefore : Time;
  cr_NotAfter : Time;
}.

#[export] Instance CertificateRevision_eq_dec : EqDecision CertificateRevision.
Proof. solve_decision. Defined.

(** ** domain_entry_projection.go *)

Record HTTPRouteProjection := mkHTTPRouteProjection {
  rp_ID : string;
  rp_Path : string;
  rp_Priority : Z;
  rp_BackendRef : option ServiceBackendRef;
}.

#[export] Instance HTTPRouteProjection_eq_dec : EqDecision HTTPRouteProjection.
Proof. solve_decision. Defined.

Record DomainEntryProjection := mkDomainEntryProjection {
  dp_Hostname : string;
  dp_Deleted : bool;
  dp_NeedCert : bool;
  dp_Cert : option CertificateRevision;
  dp_BackendType : BackendType;
  dp_HTTPRoutes : list HTTPRouteProjection;
  dp_BindedBackendRef : option ServiceBackendRef;
}.

Definition zero_DomainEntryProjection : DomainEntryProjection :=
  mkDomainEntryProjection "" false false None "" [] None.

#[export] Instance DomainEntryProjection_eq_dec : EqDecision DomainEntryProjection.
Proof. solve_decision. Defined.

Definition set_dp_Deleted (p : DomainEntryProjection) (d : bool) : DomainEntryProjection :=
  mkDomainEntryProjection (dp_Hostname p) d (dp_NeedCert p) (dp_Cert p) (dp_BackendType p)
    (dp_HTTPRoutes p) (dp_BindedBackendRef p).

(** ** snapshot_record.go *)

Abbreviation SnapshotSyncType := string (only parsing).
Definition SnapshotSyncTypeDNSRecord : SnapshotSyncType := "DNSRecord".
Definition SnapshotSyncTypeDomainEntryProjection : SnapshotSyncType := "DomainEntryProjection".

Abbreviation SnapshotAction := string (only parsing).
Definition SnapshotActionDelete : SnapshotAction := "delete".
Definition SnapshotActionUpsert : SnapshotAction := "upsert".

Record SnapshotRecord := mkSnapshotRecord {
  sr_ID : Z;
  sr_SyncType : SnapshotSyncType;
  sr_SyncID : string;
  sr_Action : SnapshotAction;
  sr_CreatedAt : Time;
}.

#[export] Instance SnapshotRecord_eq_dec : EqDecision SnapshotRecord.
Proof. solve_decision. Defined.
