(* ===== verification/Gorm.v ===== *)
(** * The database behind gorm

    gorm, SQLite and Postgres are not part of the program, so the database is
    an interface: a type of handles with the contents of its tables, queries
    and statements that may fail at any call, and transactions.  The laws are
    the documented behaviour the program relies on.  The same interface serves
    the master's repository and the slave's local cache, which differ in their
    tables and statements. *)

From S2P Require Import Prelude.

Open Scope Z_scope.

(** [gorm.ErrRecordNotFound] *)
Definition ErrRecordNotFound : error := errors_New "record not found".

Definition total_preorder {R} (leb : R -> R -> bool) : Prop :=
  (forall x y, leb x y = true \/ leb y x = true) /\
  (forall x y z, leb x y = true -> leb y z = true -> leb x z = true).

(** [T]: the contents of the tables; [Stmt]: the statements the program
    issues; [effect s id t]: what statement [s] does to [t], where [id] is the
    value an auto-increment column receives. *)
Class Gorm (T Stmt : Type) (effect : Stmt -> Z -> T -> result T) := {
  db : Type;
  rows : db -> T;
  (** the contents at the start of the open transaction, if there is one *)
  saved : db -> option T;

  (** [Find] with its [Order]: the rows a query denotes, sorted. *)
  select : forall {R : Type}, (T -> list R) -> (R -> R -> bool) -> db -> db * result (list R);
  select_rows : forall {R} (f : T -> list R) leb d, rows (select f leb d).1 = rows d;
  select_saved : forall {R} (f : T -> list R) leb d, saved (select f leb d).1 = saved d;
  (** [Find] with no match returns an empty slice, not an error. *)
  select_err : forall {R} (f : T -> list R) leb d e,
    (select f leb d).2 = Err e -> e <> ErrRecordNotFound;
  select_perm : forall {R} (f : T -> list R) leb d l,
    (select f leb d).2 = Ok l -> l ≡ₚ f (rows d);
  select_sorted : forall {R} (f : T -> list R) leb d l,
    total_preorder leb -> (select f leb d).2 = Ok l ->
    StronglySorted (fun x y => leb x y = true) l;

  (** [Create], [Update] and [Delete]. *)
  exec : Stmt -> db -> db * result Z;
  exec_ok : forall s d id, (exec s d).2 = Ok id ->
    effect s id (rows d) = Ok (rows (exec s d).1);
  exec_err : forall s d e, (exec s d).2 = Err e -> rows (exec s d).1 = rows d;
  exec_saved : forall s d, saved (exec s d).1 = saved d;

  (** [Begin], [Commit] and [Rollback]. *)
  begin_tx : db -> db * result ();
  begin_rows : forall d, rows (begin_tx d).1 = rows d;
  begin_ok : forall d, (begin_tx d).2 = Ok tt -> saved (begin_tx d).1 = Some (rows d);
  commit_tx : db -> db * result ();
  commit_rows : forall d, rows (commit_tx d).1 = rows d;
  commit_ok : forall d, (commit_tx d).2 = Ok tt -> saved (commit_tx d).1 = None;
  commit_err : forall d e, (commit_tx d).2 = Err e -> saved (commit_tx d).1 = saved d;
  rollback_tx : db -> db;
  rollback_rows : forall d t, saved d = Some t -> rows (rollback_tx d) = t;
  rollback_saved : forall d, saved (rollback_tx d) = None;
}.

Section queries.
Context {T Stmt : Type} {effect : Stmt -> Z -> T -> result T} `{!Gorm T Stmt effect}.

(** [First]: the first row of the ordered query. *)
Definition first_row {R} (f : T -> list R) (leb : R -> R -> bool) : go db R :=
  l ← select f leb;
  match l with
  | [] => throw ErrRecordNotFound
  | r :: _ => mret r
  end.

Lemma first_row_rows {R} (f : T -> list R) leb d : rows (first_row f leb d).1 = rows d.
Proof.
  unfold first_row, mbind, go_bind. pose proof (select_rows f leb d) as H.
  destruct (select f leb d) as [d' [[|r l]|e]]; done.
Qed.

Lemma first_row_ok {R} (f : T -> list R) leb d r :
  (first_row f leb d).2 = Ok r -> r ∈ f (rows d).
Proof.
  unfold first_row, mbind, go_bind. pose proof (select_perm f leb d) as H.
  destruct (select f leb d) as [d' [[|r' l]|e]]; cbn; try done.
  intros [= ->]. rewrite <- (H (r :: l)) by done. set_solver.
Qed.

(** The row [First] returns comes before every other row of the query. *)
Lemma first_row_least {R} (f : T -> list R) leb d r :
  total_preorder leb -> (first_row f leb d).2 = Ok r ->
  forall r', r' ∈ f (rows d) -> leb r r' = true.
Proof.
  intros Hord. unfold first_row, mbind, go_bind.
  pose proof (select_perm f leb d) as Hp. pose proof (select_sorted f leb d) as Hs.
  destruct (select f leb d) as [d' [[|r1 l]|e]]; cbn; try done.
  intros [= ->] r' Hr'. rewrite <- (Hp (r :: l)) in Hr' by done.
  specialize (Hs (r :: l) Hord eq_refl). apply StronglySorted_inv in Hs as [_ HF].
  apply elem_of_cons in Hr' as [->|Hr'].
  - destruct Hord as [Ht _]. destruct (Ht r r); done.
  - rewrite Forall_forall in HF. by apply HF.
Qed.

(** [ErrRecordNotFound] means there is no such row, whatever else fails. *)
Lemma first_row_not_found {R} (f : T -> list R) leb d :
  (first_row f leb d).2 = Err ErrRecordNotFound -> f (rows d) = [].
Proof.
  unfold first_row, mbind, go_bind. pose proof (select_perm f leb d) as Hp.
  pose proof (select_err f leb d) as He.
  destruct (select f leb d) as [d' [[|r l]|e]]; cbn; try done.
  - intros _. specialize (Hp [] eq_refl). by apply Permutation_nil in Hp.
  - intros [= ->]. by destruct (He ErrRecordNotFound).
Qed.

Lemma first_row_cases {R} (f : T -> list R) leb d l :
  (select f leb d).2 = Ok l ->
  ((first_row f leb d).2 = Err ErrRecordNotFound <-> f (rows d) = []).
Proof.
  unfold first_row, mbind, go_bind. pose proof (select_perm f leb d) as Hp.
  destruct (select f leb d) as [d' [l'|e]]; cbn; [|done].
  intros [= ->]. specialize (Hp l eq_refl). destruct l as [|r l]; cbn.
  - split; [|done]. intros _. by apply Permutation_nil in Hp.
  - split; [done|]. intros Hf. rewrite Hf in Hp. symmetry in Hp.
    by apply Permutation_nil in Hp.
Qed.

Lemma exec_cases s d :
  (exists id, (exec s d).2 = Ok id /\ effect s id (rows d) = Ok (rows (exec s d).1)) \/
  (exists e, (exec s d).2 = Err e /\ rows (exec s d).1 = rows d).
Proof.
  destruct ((exec s d).2) as [id|e] eqn:E; [left|right]; eexists; split; eauto.
  - by apply exec_ok.
  - by eapply exec_err.
Qed.

End queries.

#[export] Hint Rewrite @select_rows @select_saved @exec_saved @begin_rows @commit_rows
  @rollback_saved @first_row_rows : gorm.

(** ** A reference database

    Tables in memory.  A faulty database follows a schedule of failures: [None]
    lets the next call through, [Some m] makes it fail with message [m]; calls
    past the end succeed.  A database that is not faulty never fails. *)
Record MemDB (T : Type) := mkMemDB {
  mem_rows : T;
  mem_saved : option T;
  mem_faults : list (option string);
}.
Arguments mkMemDB {T} _ _ _.
Arguments mem_rows {T} _.
Arguments mem_saved {T} _.
Arguments mem_faults {T} _.

Section memdb.
Context {T Stmt : Type} (faulty : bool) (effect : Stmt -> Z -> T -> result T)
  (next_id : T -> Z).

Definition mem_next (d : MemDB T) : MemDB T * option error :=
  match (if faulty then mem_faults d else []) with
  | [] => (d, None)
  | o :: fs =>
      (mkMemDB (mem_rows d) (mem_saved d) fs, (fun m => Errorf "database: %s" [m]) <$> o)
  end.

Definition leb_rel {R} (leb : R -> R -> bool) : relation R := fun x y => leb x y = true.

#[local] Instance leb_rel_dec {R} (leb : R -> R -> bool) : RelDecision (leb_rel leb).
Proof. intros x y. unfold leb_rel. apply _. Defined.

Definition mem_select {R} (f : T -> list R) (leb : R -> R -> bool) (d : MemDB T)
    : MemDB T * result (list R) :=
  match mem_next d with
  | (d', Some e) => (d', Err e)
  | (d', None) => (d', Ok (merge_sort (leb_rel leb) (f (mem_rows d))))
  end.

Definition mem_exec (s : Stmt) (d : MemDB T) : MemDB T * result Z :=
  match mem_next d with
  | (d', Some e) => (d', Err e)
  | (d', None) =>
      let id := next_id (mem_rows d) in
      match effect s id (mem_rows d) with
      | Ok t => (mkMemDB t (mem_saved d') (mem_faults d'), Ok id)
      | Err e => (d', Err e)
      end
  end.

Definition mem_begin (d : MemDB T) : MemDB T * result () :=
  match mem_next d with
  | (d', Some e) => (d', Err e)
  | (d', None) => (mkMemDB (mem_rows d) (Some (mem_rows d)) (mem_faults d'), Ok tt)
  end.

Definition mem_commit (d : MemDB T) : MemDB T * result () :=
  match mem_next d with
  | (d', Some e) => (d', Err e)
  | (d', None) => (mkMemDB (mem_rows d) None (mem_faults d'), Ok tt)
  end.

Definition mem_rollback (d : MemDB T) : MemDB T :=
  mkMemDB (default (mem_rows d) (mem_saved d)) None (mem_faults d).

#[program] Definition MemGorm : Gorm T Stmt effect := {|
  db := MemDB T; rows := mem_rows; saved := mem_saved;
  select := @mem_select; exec := mem_exec;
  begin_tx := mem_begin; commit_tx := mem_commit; rollback_tx := mem_rollback;
|}.
Solve Obligations with
  (intros; unfold mem_select, mem_exec, mem_begin, mem_commit, mem_rollback, mem_next in *;
   destruct faulty, d as [t sv [|[e'|] fs]]; cbn in *; repeat case_match; by simplify_eq/=).
Next Obligation.
  intros R f leb d l. unfold mem_select, mem_next.
  destruct faulty, d as [t sv [|[e'|] fs]]; cbn;
    intros; simplify_eq; apply merge_sort_Permutation.
Qed.
Next Obligation.
  intros R f leb d l [Ht Htr]. unfold mem_select, mem_next.
  destruct faulty, d as [t sv [|[e'|] fs]]; cbn; intros; simplify_eq;
    apply StronglySorted_merge_sort; try (intros x y z; apply Htr); intros x y; apply Ht.
Qed.
Next Obligation. intros d t H. unfold mem_rollback. by rewrite H. Qed.

Lemma mem_select_ok {R} (f : T -> list R) leb d :
  faulty = false -> is_ok (mem_select f leb d).2 = true.
Proof. unfold mem_select, mem_next. by intros ->. Qed.

End memdb.
