(* ===== verification/Repository.v ===== *)
(** * The repository: repository/functions

    The tables of the metadata model, the statements and queries the
    repository issues on them through gorm, and the aggregate query that
    builds a [DomainEntryProjection] from five joined tables. *)

From S2P Require Import Prelude GoStrings GoTime Metadata Gorm.

Open Scope Z_scope.

(** ** Tables *)

Record Tables := mkTables {
  tb_domains : gmap string DomainEndpoint;        (* by hostname *)
  tb_backends : gmap string ServiceBackendRef;    (* by id *)
  tb_routes : gmap string HTTPRoute;              (* by id *)
  tb_dns : gmap string DNSRecord;                 (* by id *)
  tb_certs : gmap string CertificateRevision;     (* by id *)
  tb_snapshots : list SnapshotRecord;             (* in insertion order *)
}.

Definition empty_tables : Tables := mkTables ∅ ∅ ∅ ∅ ∅ [].

(** A table the generic repository works on: its rows, its columns that hold
    text, and the logical-deletion column of [Shared]. *)
Class Resource (M : Type) := {
  res_key : M -> string;
  res_deleted : M -> bool;
  res_delete : M -> M;
  res_columns : list (string * (M -> string));
  res_get : Tables -> gmap string M;
  res_put : gmap string M -> Tables -> Tables;
}.

#[export] Instance domains_resource : Resource DomainEndpoint := {
  res_key := de_Hostname;
  res_deleted := fun r => sh_Deleted (de_Shared r);
  res_delete := fun r => set_de_Deleted r true;
  res_columns := [("hostname", de_Hostname); ("backend_type", de_BackendType);
                  ("binded_service_ref", de_BindedServiceID)];
  res_get := tb_domains;
  res_put := fun m t => mkTables m (tb_backends t) (tb_routes t) (tb_dns t) (tb_certs t)
                          (tb_snapshots t);
}.

#[export] Instance backends_resource : Resource ServiceBackendRef := {
  res_key := sb_ID;
  res_deleted := fun r => sh_Deleted (sb_Shared r);
  res_delete := fun r => set_sb_Deleted r true;
  res_columns := [("id", sb_ID); ("type", sb_Type);
                  ("arbitrary_endpoint", sb_ArbitraryEndpoint);
                  ("service_namespace", sb_ServiceNamespace); ("service_name", sb_ServiceName)];
  res_get := tb_backends;
  res_put := fun m t => mkTables (tb_domains t) m (tb_routes t) (tb_dns t) (tb_certs t)
                          (tb_snapshots t);
}.

#[export] Instance routes_resource : Resource HTTPRoute := {
  res_key := hr_ID;
  res_deleted := fun r => sh_Deleted (hr_Shared r);
  res_delete := fun r => set_hr_Deleted r true;
  res_columns := [("id", hr_ID); ("hostname", hr_Hostname); ("path", hr_Path);
                  ("backend_ref_id", hr_BackendRefID)];
  res_get := tb_routes;
  res_put := fun m t => mkTables (tb_domains t) (tb_backends t) m (tb_dns t) (tb_certs t)
                          (tb_snapshots t);
}.

#[export] Instance dns_resource : Resource DNSRecord := {
  res_key := dr_ID;
  res_deleted := fun r => dr_Deleted r;
  res_delete := fun r => set_dr_Deleted r true;
  res_columns := [("id", dr_ID); ("fqdn", dr_FQDN); ("record_type", dr_RecordType);
                  ("routing_class", dr_RoutingClass); ("values_json", dr_ValuesJSON);
                  ("routing_key", dr_RoutingKey)];
  res_get := tb_dns;
  res_put := fun m t => mkTables (tb_domains t) (tb_backends t) (tb_routes t) m (tb_certs t)
                          (tb_snapshots t);
}.

Definition set_cr_Deleted (c : CertificateRevision) (b : bool) : CertificateRevision :=
  mkCertificateRevision (set_Deleted (cr_Shared c) b) (cr_ID c) (cr_Hostname c)
    (cr_Revision c) (cr_Provider c) (cr_ChallengeType c) (cr_ArtifactBucket c)
    (cr_ArtifactPrefix c) (cr_SHA256Crt c) (cr_SHA256Key c) (cr_NotBefore c) (cr_NotAfter c).

#[export] Instance certs_resource : Resource CertificateRevision := {
  res_key := cr_ID;
  res_deleted := fun r => sh_Deleted (cr_Shared r);
  res_delete := fun r => set_cr_Deleted r true;
  res_columns := [("id", cr_ID); ("hostname", cr_Hostname); ("provider", cr_Provider);
                  ("challenge_type", cr_ChallengeType); ("artifact_bucket", cr_ArtifactBucket);
                  ("artifact_prefix", cr_ArtifactPrefix); ("sha256_crt", cr_SHA256Crt);
                  ("sha256_key", cr_SHA256Key)];
  res_get := tb_certs;
  res_put := fun m t => mkTables (tb_domains t) (tb_backends t) (tb_routes t) (tb_dns t) m
                          (tb_snapshots t);
}.

(** What the five tables share. *)
Class ResourceLaws (M : Type) `{!Resource M} := {
  res_get_put : forall m t, res_get (res_put m t) = m;
  res_put_get : forall t, res_put (res_get t) t = t;
  res_delete_deleted : forall r : M, res_deleted (res_delete r) = true;
  res_delete_key : forall r : M, res_key (res_delete r) = res_key r;
}.

#[export] Instance domains_laws : ResourceLaws DomainEndpoint.
Proof. split; by intros; destruct_and?; repeat case_match; try destruct t; try destruct r. Qed.
#[export] Instance backends_laws : ResourceLaws ServiceBackendRef.
Proof. split; by intros; try destruct t; try destruct r. Qed.
#[export] Instance routes_laws : ResourceLaws HTTPRoute.
Proof. split; by intros; try destruct t; try destruct r. Qed.
#[export] Instance dns_laws : ResourceLaws DNSRecord.
Proof. split; by intros; try destruct t; try destruct r. Qed.
#[export] Instance certs_laws : ResourceLaws CertificateRevision.
Proof. split; by intros; try destruct t; try destruct r. Qed.

(** ** Statements *)

(** The text columns whose tag gives a default other than the empty text. *)
Definition defaulted_columns : list string := ["path"; "type"; "routing_class"].

(** What gorm stores for a model passed to [Create] with
    [OnConflict{UpdateAll: true}]: it fills the timestamps and, where the model
    has a zero value, the columns with a default value; it keeps the primary
    key, the deletion flag and the other texts. *)
Class GormModel := {
  stored : forall {M : Type} `{!Resource M}, option M -> M -> M;
  stored_key : forall {M : Type} `{!Resource M} old (r : M), res_key (stored old r) = res_key r;
  stored_deleted : forall {M : Type} `{!Resource M} old (r : M),
    res_deleted (stored old r) = res_deleted r;
  stored_column : forall {M : Type} `{!Resource M} old (r : M) name col,
    (name, col) ∈ res_columns -> col r <> "" \/ name ∉ defaulted_columns ->
    col (stored old r) = col r;
}.

(** A gorm without hooks or defaults, for the concrete witnesses. *)
Definition plain_model : GormModel := {|
  stored := fun _ _ _ r => r;
  stored_key := fun _ _ _ _ => eq_refl;
  stored_deleted := fun _ _ _ _ => eq_refl;
  stored_column := fun _ _ _ _ _ _ _ _ => eq_refl;
|}.

Inductive stmt : Type :=
  | Upsert (M : Type) (R : Resource M) (model : M)
  | SoftDelete (M : Type) (R : Resource M) (field value : string)
  | CreateSnapshot (record : SnapshotRecord).
Arguments Upsert {M R} _.
Arguments SoftDelete M {R} _ _.

Definition no_such_column (field : string) : error := Errorf "no such column: %s" [field].

Definition find_column {M} `{!Resource M} (field : string) : result (M -> string) :=
  match list_find (fun c => c.1 = field) res_columns with
  | Some (_, c) => Ok c.2
  | None => Err (no_such_column field)
  end.

(** [WHERE deleted = FALSE AND field = value] *)
Definition live_where {M} `{!Resource M} (col : M -> string) (value : string) (r : M) : bool :=
  negb (res_deleted r) && bool_decide (col r = value).

Definition set_sr_ID (r : SnapshotRecord) (id : Z) : SnapshotRecord :=
  mkSnapshotRecord id (sr_SyncType r) (sr_SyncID r) (sr_Action r) (sr_CreatedAt r).

Definition append_snapshot (r : SnapshotRecord) (t : Tables) : Tables :=
  mkTables (tb_domains t) (tb_backends t) (tb_routes t) (tb_dns t) (tb_certs t)
    (tb_snapshots t ++ [r]).

Section repository.
Context {GM : GormModel}.

Definition stmt_effect (s : stmt) (id : Z) (t : Tables) : result Tables :=
  match s with
  | @Upsert M R model =>
      let m := res_get t in
      Ok (res_put (<[res_key model := stored (m !! res_key model) model]> m) t)
  | @SoftDelete M R field value =>
      col ← find_column field;
      mret (res_put ((fun r => if live_where col value r then res_delete r else r) <$> res_get t) t)
  | CreateSnapshot record =>
      (* an auto-increment key is greater than every key handed out before *)
      if forallb (fun r => bool_decide (sr_ID r < id)) (tb_snapshots t)
      then Ok (append_snapshot (set_sr_ID record id) t)
      else Err (errors_New "UNIQUE constraint failed: snapshot_records.id")
  end.

Context {GDB : Gorm Tables stmt stmt_effect}.

(** ** gorm_generic_repository.go *)

Definition live_rows {M} `{!Resource M} (t : Tables) : list M :=
  filter (fun r => res_deleted r = false) ((map_to_list (res_get t)).*2).

Definition rows_where {M} `{!Resource M} (col : M -> string) (value : string) (t : Tables)
    : list M :=
  filter (fun r => col r = value) (live_rows t).

(** Text order of a column, and its reverse. *)
Definition str_leb (x y : string) : bool := bool_decide (x ≤ y)%string.
Definition order_asc {M} (col : M -> string) (x y : M) : bool := str_leb (col x) (col y).

Definition ListResource (M : Type) `{!Resource M} (orderBy : string) : go db (list M) :=
  match find_column (M:=M) orderBy with
  | Err e => throw e
  | Ok col => select live_rows (order_asc col)
  end.

Definition GetResourceByField (M : Type) `{!Resource M} (field value : string) : go db M :=
  match find_column (M:=M) field with
  | Err e => throw e
  | Ok col => first_row (rows_where col value) (order_asc res_key)
  end.

Definition exec_stmt (s : stmt) : go db () := exec s ≫= fun _ => mret tt.

Definition UpsertResource {M} `{!Resource M} (model : M) : go db () := exec_stmt (Upsert model).

Definition DeleteResourceByField (M : Type) `{!Resource M} (field value : string) : go db () :=
  exec_stmt (SoftDelete M field value).

(** ** gorm_domain_repository.go, gorm_dns_repository.go *)

Definition GetDomainEndpointByHostname (hostname : string) : go db DomainEndpoint :=
  first_row (rows_where de_Hostname hostname) (order_asc de_Hostname).

(** Lexicographic combination of two orders. *)
Definition then_by {M} (leb1 leb2 : M -> M -> bool) (x y : M) : bool :=
  leb1 x y && (negb (leb1 y x) || leb2 x y).

Definition ListDNSRecordsByQuestion (fqdn recordType : string) : go db (list DNSRecord) :=
  select (fun t => filter (fun r => dr_FQDN r = fqdn /\ dr_RecordType r = recordType /\
                                    dr_Enabled r = true) (live_rows t))
    (then_by (order_asc dr_FQDN) (then_by (order_asc dr_RecordType) (order_asc dr_ID))).

(** The query names a column [hostname] that [dns_records] does not have. *)
Definition ListDNSRecordsByHostname (hostname : string) : go db (list DNSRecord) :=
  match find_column (M:=DNSRecord) "hostname" with
  | Err e => throw e
  | Ok col => select (rows_where col hostname)
                (then_by (order_asc dr_FQDN) (order_asc dr_RecordType))
  end.

(** ** gorm_http_route_repository.go, gorm_service_binding_repository.go *)

(** [ORDER BY priority DESC, length(path) DESC, id ASC] *)
Definition route_leb (prio : Z) (plen : nat) (id : string) (prio' : Z) (plen' : nat)
    (id' : string) : bool :=
  bool_decide (prio' < prio) ||
  (bool_decide (prio = prio') &&
    (bool_decide (plen' < plen)%nat ||
     (bool_decide (plen = plen') && str_leb id id'))).

Definition http_route_leb (x y : HTTPRoute) : bool :=
  route_leb (hr_Priority x) (len (hr_Path x)) (hr_ID x)
            (hr_Priority y) (len (hr_Path y)) (hr_ID y).

Definition ListHTTPRoutesByHostname (hostname : string) : go db (list HTTPRoute) :=
  select (rows_where hr_Hostname hostname) http_route_leb.

Definition ListServiceBindingsByHostname (hostname : string) : go db (list ServiceBackendRef) :=
  select (fun t =>
      b ← live_rows (M:=ServiceBackendRef) t;
      r ← rows_where hr_Hostname hostname t;
      if bool_decide (hr_BackendRefID r = sb_ID b) then [b] else [])
    (order_asc sb_ID).

(** ** gorm_certificate_repository.go *)

(** [ORDER BY revision DESC], then the primary key that [First] appends. *)
Definition revision_desc (x y : CertificateRevision) : bool :=
  bool_decide (cr_Revision y <= cr_Revision x).

Definition GetLatestCertificateRevision (hostname : string) : go db CertificateRevision :=
  first_row (rows_where cr_Hostname hostname) (then_by revision_desc (order_asc cr_ID)).

Definition GetActiveCertificateForDomain (domain : option DomainEndpoint)
    : go db (option CertificateRevision) :=
  match domain with
  | None => mret None
  | Some domain =>
      let hostname := TrimSpace (de_Hostname domain) in
      if bool_decide (hostname = "") then mret None else
      r ← attempt (first_row (rows_where cr_Hostname hostname)
                     (then_by revision_desc (order_asc cr_ID)));
      match r with
      | Ok cert => mret (Some cert)
      | Err e => if bool_decide (e = ErrRecordNotFound) then mret None else throw e
      end
  end.

Definition ListCertificateRevisions (hostname : string) : go db (list CertificateRevision) :=
  select (rows_where cr_Hostname hostname) revision_desc.

(** ** gorm_snapshot_record_repository.go *)

(** gorm writes the generated key back into the record it was given. *)
Definition AppendSnapshotRecord (record : SnapshotRecord) : go db SnapshotRecord :=
  id ← exec (CreateSnapshot record); mret (set_sr_ID record id).

Definition snapshot_leb (x y : SnapshotRecord) : bool := bool_decide (sr_ID x <= sr_ID y).

Definition snapshots_after (afterID : Z) (t : Tables) : list SnapshotRecord :=
  filter (fun r => afterID < sr_ID r) (tb_snapshots t).

Definition ListSnapshotRecordsAfter (afterID : Z) : go db (list SnapshotRecord) :=
  select (snapshots_after afterID) snapshot_leb.

(** ** gorm_repository.go: the projection of a domain *)

(** One row of the joined query: the selected columns of each table, absent
    when the left join found no match. *)
Record domainEntryProjectionRow := mkProjectionRow {
  pr_domain : DomainEndpoint;
  pr_cert : option CertificateRevision;
  pr_route : option HTTPRoute;
  pr_route_backend : option ServiceBackendRef;
  pr_binded : option ServiceBackendRef;
}.

(** [LEFT JOIN]: every match, or one row without a match. *)
Definition left_join {A} (matches : list A) : list (option A) :=
  match matches with [] => [None] | _ => Some <$> matches end.

(** [SELECT MAX(revision) ... WHERE deleted = FALSE AND hostname = ...] *)
Definition is_max_revision (certs : list CertificateRevision) (c : CertificateRevision) : Prop :=
  Forall (fun c' => cr_Revision c' <= cr_Revision c) certs.

#[export] Instance is_max_revision_dec certs c : Decision (is_max_revision certs c).
Proof. unfold is_max_revision. apply _. Defined.

Definition projection_rows (domain : string) (t : Tables) : list domainEntryProjectionRow :=
  de ← rows_where de_Hostname domain t;
  let certs := rows_where cr_Hostname (de_Hostname de) t in
  cr ← left_join (filter (is_max_revision certs) certs);
  hr ← left_join (rows_where hr_Hostname (de_Hostname de) t);
  route_sbr ← left_join (match hr with
                         | Some hr => rows_where sb_ID (hr_BackendRefID hr) t
                         | None => []
                         end);
  binded_sbr ← left_join (rows_where sb_ID (de_BindedServiceID de) t);
  [mkProjectionRow de cr hr route_sbr binded_sbr].

(** [ORDER BY hr.priority DESC, LENGTH(hr.path) DESC, hr.id ASC] *)
Definition projection_leb (x y : domainEntryProjectionRow) : bool :=
  match pr_route x, pr_route y with
  | None, _ => true
  | Some _, None => false
  | Some a, Some b => http_route_leb a b
  end.

Definition derefString (value : option string) : string := default "" value.
Definition derefUint64 (value : option Z) : Z := default 0 value.
Definition derefUint32 (value : option Z) : Z := default 0 value.
Definition derefInt32 (value : option Z) : Z := default 0 value.
Definition derefChallengeType (value : option ChallengeType) : ChallengeType := default "" value.
Definition derefServiceBackendType (value : option ServiceBackendType) : ServiceBackendType :=
  match value with
  | None => ServiceBackendTypeSVC
  | Some v => if bool_decide (v = "") then ServiceBackendTypeSVC else v
  end.

(** [if row.X != nil && *row.X != ""] guards on a joined table's key. *)
Definition present (id : option string) : option string :=
  id ≫= fun id => if bool_decide (id = "") then None else Some id.

Definition row_cert (c : option CertificateRevision) : option CertificateRevision :=
  (fun id => mkCertificateRevision zero_Shared id
     (derefString (cr_Hostname <$> c)) (derefUint64 (cr_Revision <$> c))
     (derefString (cr_Provider <$> c)) (derefChallengeType (cr_ChallengeType <$> c))
     (derefString (cr_ArtifactBucket <$> c)) (derefString (cr_ArtifactPrefix <$> c))
     (derefString (cr_SHA256Crt <$> c)) (derefString (cr_SHA256Key <$> c))
     zero_time zero_time) <$> present (cr_ID <$> c).

Definition row_backend (b : option ServiceBackendRef) : option ServiceBackendRef :=
  (fun id => mkServiceBackendRef zero_Shared id
     (derefServiceBackendType (sb_Type <$> b)) (derefString (sb_ArbitraryEndpoint <$> b))
     (derefString (sb_ServiceNamespace <$> b)) (derefString (sb_ServiceName <$> b))
     (derefUint32 (sb_Port <$> b))) <$> present (sb_ID <$> b).

Definition row_route (row : domainEntryProjectionRow) (id : string) : HTTPRouteProjection :=
  mkHTTPRouteProjection id (derefString (hr_Path <$> pr_route row))
    (derefInt32 (hr_Priority <$> pr_route row)) (row_backend (pr_route_backend row)).

(** The loop over the rows with its [seenRoutes] set. *)
Fixpoint collect_routes (seenRoutes : gset string) (rs : list domainEntryProjectionRow)
    : list HTTPRouteProjection :=
  match rs with
  | [] => []
  | row :: rs =>
      match present (hr_ID <$> pr_route row) with
      | None => collect_routes seenRoutes rs
      | Some id =>
          if bool_decide (id ∈ seenRoutes) then collect_routes seenRoutes rs
          else row_route row id :: collect_routes ({[id]} ∪ seenRoutes) rs
      end
  end.

Definition is_L4 (ty : BackendType) : bool :=
  bool_decide (ty = BackendTypeL4TLSPassthrough) || bool_decide (ty = BackendTypeL4TLSTermination).

Definition projection_of_rows (first : domainEntryProjectionRow)
    (rs : list domainEntryProjectionRow) : DomainEntryProjection :=
  let ty := de_BackendType (pr_domain first) in
  let cert := row_cert (pr_cert first) in
  if is_L4 ty
  then mkDomainEntryProjection (de_Hostname (pr_domain first)) false
         (de_NeedCert (pr_domain first)) cert ty [] (row_backend (pr_binded first))
  else mkDomainEntryProjection (de_Hostname (pr_domain first)) false
         (de_NeedCert (pr_domain first)) cert ty (collect_routes ∅ rs) None.

Definition GetDomainEntryProjectionByDomain (domain : string) : go db DomainEntryProjection :=
  rs ← select (projection_rows domain) projection_leb;
  match rs with
  | [] => throw ErrRecordNotFound
  | first :: _ => mret (projection_of_rows first rs)
  end.

(** ** Transactions: [Begin], [Commit], [Rollback] *)

Definition NotInTx : error := errors_New "THIS GormRepository IS NOT IN A TX".

(** A repository over the database or over a transaction on it.  gorm keeps a
    failed [Begin] in the handle it returns: every later call on that handle
    returns the same error. *)
Record GormRepository := mkGormRepository {
  gr_tx : bool;
  gr_err : option error;
  gr_db : db;
}.

Definition NewGormRepository (d : db) : GormRepository := mkGormRepository false None d.

(** [Begin] drops the error of the transaction it starts. *)
Definition Begin : go GormRepository () := fun r =>
  match gr_err r with
  | Some e => (mkGormRepository true (Some e) (gr_db r), Ok tt)
  | None =>
      match begin_tx (gr_db r) with
      | (d, Ok _) => (mkGormRepository true None d, Ok tt)
      | (d, Err e) => (mkGormRepository true (Some e) d, Ok tt)
      end
  end.

Definition Commit : go GormRepository () := fun r =>
  if gr_tx r then
    match gr_err r with
    | Some e => (r, Err e)
    | None => let '(d, res) := commit_tx (gr_db r) in (mkGormRepository true None d, res)
    end
  else (r, Err NotInTx).

Definition Rollback : go GormRepository () := fun r =>
  if gr_tx r then
    match gr_err r with
    | Some e => (r, Err e)
    | None => (mkGormRepository true None (rollback_tx (gr_db r)), Ok tt)
    end
  else (r, Err NotInTx).

(** A repository method on the handle. *)
Definition on_repo {A} (m : go db A) : go GormRepository A := fun r =>
  match gr_err r with
  | Some e => (r, Err e)
  | None => let '(d, res) := m (gr_db r) in (mkGormRepository (gr_tx r) None d, res)
  end.

(** [MarkCertificateDesired]: the hostname handed to the notifier, if any. *)
Definition MarkCertificateDesired (has_notifier : bool) (hostname : string) : option string :=
  if has_notifier then
    let hostname := TrimSpace (ToLower hostname) in
    if bool_decide (hostname = "") then None else Some hostname
  else None.

End repository.
