(* ===== verification/RepositoryFacts.v ===== *)
(** * The repository keeps its promises

    Order relations of the queries, the key invariant of the tables, what a
    read sees after a write, logical deletion, and the projection query. *)

From S2P Require Import Prelude GoStrings GoTime Metadata Gorm Repository.

Open Scope Z_scope.

(** ** The orders of the queries *)

Lemma str_leb_order : total_preorder str_leb.
Proof.
  unfold str_leb. split.
  - intros x y. rewrite !bool_decide_eq_true. apply (total String.le).
  - intros x y z. rewrite !bool_decide_eq_true. apply transitivity.
Qed.

Lemma order_by {M N} (leb : N -> N -> bool) (f : M -> N) :
  total_preorder leb -> total_preorder (fun x y => leb (f x) (f y)).
Proof. intros [Ht Htr]. split; [intros; apply Ht|intros x y z; apply Htr]. Qed.

Lemma order_asc_order {M} (col : M -> string) : total_preorder (order_asc col).
Proof. apply (order_by str_leb), str_leb_order. Qed.

Lemma then_by_order {M} (leb1 leb2 : M -> M -> bool) :
  total_preorder leb1 -> total_preorder leb2 -> total_preorder (then_by leb1 leb2).
Proof.
  intros [T1 R1] [T2 R2]. unfold then_by. split.
  - intros x y. destruct (leb1 x y) eqn:A, (leb1 y x) eqn:B; cbn; auto.
    destruct (T1 x y); congruence.
  - intros x y z.
    destruct (leb1 x y) eqn:A, (leb1 y z) eqn:B, (leb1 y x) eqn:A', (leb1 z y) eqn:B'; cbn;
      try done; intros H1 H2; rewrite (R1 x y z A B); cbn;
      destruct (leb1 z x) eqn:C; cbn; try done; try (by eauto);
      exfalso; first [ rewrite (R1 y z x B C) in A'; done | rewrite (R1 z x y C A) in B'; done ].
Qed.

Lemma revision_desc_order : total_preorder revision_desc.
Proof.
  split.
  - intros x y. unfold revision_desc. rewrite !bool_decide_eq_true. lia.
  - intros x y z. unfold revision_desc. rewrite !bool_decide_eq_true. lia.
Qed.

Lemma route_leb_refine x y :
  http_route_leb x y =
  then_by (fun x y => bool_decide (hr_Priority y <= hr_Priority x))
    (then_by (fun x y => bool_decide (len (hr_Path y) <= len (hr_Path x))%nat)
       (order_asc hr_ID)) x y.
Proof.
  unfold http_route_leb, route_leb, then_by, order_asc.
  repeat case_bool_decide; cbn; try lia; try done.
Qed.

Lemma http_route_order : total_preorder http_route_leb.
Proof.
  assert (total_preorder (then_by (fun x y => bool_decide (hr_Priority y <= hr_Priority x))
    (then_by (fun x y => bool_decide (len (hr_Path y) <= len (hr_Path x))%nat)
       (order_asc hr_ID)))) as [Ht Htr].
  { apply then_by_order; [|apply then_by_order; [|apply order_asc_order]];
      split; intros *; rewrite !bool_decide_eq_true; lia. }
  split; intros *; rewrite !route_leb_refine; [apply Ht|apply Htr].
Qed.

Lemma projection_order : total_preorder projection_leb.
Proof.
  destruct http_route_order as [Ht Htr]. unfold projection_leb. split.
  - intros x y. destruct (pr_route x), (pr_route y); auto.
  - intros x y z. destruct (pr_route x), (pr_route y), (pr_route z); eauto; done.
Qed.

Lemma snapshot_order : total_preorder snapshot_leb.
Proof. split; intros *; unfold snapshot_leb; rewrite !bool_decide_eq_true; lia. Qed.

#[export] Hint Resolve str_leb_order order_asc_order then_by_order revision_desc_order
  http_route_order projection_order snapshot_order : luna.

(** ** Table invariant *)

(** Every row sits under its own key. *)
Definition keyed {M} `{!Resource M} (m : gmap string M) : Prop :=
  map_Forall (fun k r => res_key r = k) m.

#[export] Instance keyed_dec {M} `{!Resource M} (m : gmap string M) : Decision (keyed m).
Proof. unfold keyed. apply _. Defined.

(** The snapshot log is in increasing order of its keys. *)
Definition log_sorted (log : list SnapshotRecord) : Prop :=
  StronglySorted (fun x y => sr_ID x < sr_ID y) log.

Definition tables_wf (t : Tables) : Prop :=
  keyed (tb_domains t) /\ keyed (tb_backends t) /\ keyed (tb_routes t) /\
  keyed (tb_dns t) /\ keyed (tb_certs t) /\ log_sorted (tb_snapshots t).

Lemma empty_tables_wf : tables_wf empty_tables.
Proof. unfold tables_wf, keyed. split_and!; [apply map_Forall_empty..|constructor]. Qed.

Lemma StronglySorted_filter {A} (R : A -> A -> Prop) (P : A -> Prop) `{!forall x, Decision (P x)} l :
  StronglySorted R l -> StronglySorted R (filter P l).
Proof.
  induction 1 as [|x l Hs IH HF]; [constructor|]. rewrite filter_cons. case_decide; [|done].
  constructor; [done|]. rewrite Forall_forall in HF |- *.
  intros y [_ Hy]%list_elem_of_filter. auto.
Qed.

Lemma StronglySorted_weaken {A} (R S : A -> A -> Prop) l :
  (forall x y, R x y -> S x y) -> StronglySorted R l -> StronglySorted S l.
Proof.
  intros HRS. induction 1 as [|x l Hs IH HF]; constructor; [done|].
  eapply Forall_impl; [exact HF|]. auto.
Qed.

Lemma StronglySorted_snoc {A} (R : A -> A -> Prop) l a :
  StronglySorted R l -> Forall (fun x => R x a) l -> StronglySorted R (l ++ [a]).
Proof.
  induction 1 as [|x l Hs IH HF]; cbn; intros Ha; [repeat constructor|].
  apply Forall_cons in Ha as [Hx Ha]. constructor; [by apply IH|].
  apply Forall_app. split; [done|by constructor].
Qed.

Section facts.
Context {GM : GormModel} {GDB : Gorm Tables stmt stmt_effect}.

Lemma keyed_insert {M} `{!Resource M} (m : gmap string M) old r :
  keyed m -> keyed (<[res_key r := stored old r]> m).
Proof. intros Hm. apply map_Forall_insert_2; [apply stored_key|done]. Qed.

Lemma keyed_fmap {M} `{!Resource M, !ResourceLaws M} (m : gmap string M) P :
  keyed m -> keyed ((fun r => if (P r : bool) then res_delete r else r) <$> m).
Proof.
  intros Hm k r. rewrite lookup_fmap. intros (r0 & Hr & ->)%fmap_Some.
  apply Hm in Hr as Hk. destruct (P r0); [by rewrite res_delete_key|done].
Qed.

(** A statement on one of the five tables, for case analysis on [stmt]. *)
Inductive known : forall M : Type, Resource M -> Prop :=
  | known_domains : known DomainEndpoint _
  | known_backends : known ServiceBackendRef _
  | known_routes : known HTTPRoute _
  | known_dns : known DNSRecord _
  | known_certs : known CertificateRevision _.

Definition stmt_known (s : stmt) : Prop :=
  match s with
  | @Upsert M R _ => known M R
  | @SoftDelete M R _ _ => known M R
  | CreateSnapshot _ => True
  end.

Lemma known_laws M R : known M R -> @ResourceLaws M R.
Proof. destruct 1; apply _. Qed.

Lemma put_wf M R m t : known M R -> keyed m -> tables_wf t -> tables_wf (res_put m t).
Proof. intros Hk Hm (?&?&?&?&?&?). destruct Hk; repeat split; done. Qed.

Lemma get_keyed M R t : known M R -> tables_wf t -> keyed (res_get (M:=M) t).
Proof. intros Hk (?&?&?&?&?&?). by destruct Hk. Qed.

Lemma stmt_effect_wf s id t t' :
  stmt_known s -> tables_wf t -> stmt_effect s id t = Ok t' -> tables_wf t'.
Proof.
  intros Hs Ht. destruct s as [M R r|M R f v|r]; cbn.
  - intros [= <-]. by apply put_wf; [|apply keyed_insert, get_keyed|].
  - pose proof (known_laws _ _ Hs). unfold mbind, result_bind.
    destruct (find_column f) as [col|]; [|done].
    intros [= <-]. by apply put_wf; [|apply keyed_fmap, get_keyed|].
  - destruct (forallb _ _) eqn:E; [|done]. intros [= <-].
    destruct Ht as (?&?&?&?&?&?). repeat split; try done. cbn.
    apply StronglySorted_snoc; [done|].
    apply Is_true_true, forallb_True in E. eapply Forall_impl; [exact E|]. cbn.
    intros x Hx. by apply bool_decide_unpack in Hx.
Qed.

(** ** Reading after writing *)

Lemma elem_of_live_rows {M} `{!Resource M} (t : Tables) (r : M) :
  r ∈ live_rows t <-> (exists k, res_get t !! k = Some r) /\ res_deleted r = false.
Proof.
  unfold live_rows. rewrite list_elem_of_filter, list_elem_of_fmap. split.
  - intros [Hd ([k r'] & -> & H%elem_of_map_to_list)]. eauto.
  - intros [[k Hk] Hd]. split; [done|]. exists (k, r). split; [done|].
    by apply elem_of_map_to_list.
Qed.

Lemma elem_of_rows_where {M} `{!Resource M} (t : Tables) col value (r : M) :
  r ∈ rows_where col value t <->
  (exists k, res_get t !! k = Some r) /\ res_deleted r = false /\ col r = value.
Proof. unfold rows_where. rewrite list_elem_of_filter, elem_of_live_rows. naive_solver. Qed.

(** At most one live row has a given key. *)
Lemma rows_where_key {M} `{!Resource M} (t : Tables) key :
  keyed (res_get (M:=M) t) ->
  rows_where res_key key t =
  match res_get t !! key with
  | Some r => if res_deleted r then [] else [r]
  | None => [] : list M
  end.
Proof.
  intros Hk.
  assert (NoDup (rows_where (M:=M) res_key key t)) as Hnd.
  { unfold rows_where, live_rows. do 2 apply NoDup_filter.
    apply NoDup_fmap_2_strong; [|apply NoDup_map_to_list].
    intros [k1 r1] [k2 r2] H1%elem_of_map_to_list H2%elem_of_map_to_list. cbn. intros ->.
    apply Hk in H1, H2. congruence. }
  assert (forall r, r ∈ rows_where (M:=M) res_key key t <->
            res_get t !! key = Some r /\ res_deleted r = false) as Hin.
  { intros r. rewrite elem_of_rows_where. split.
    - intros ((k & Hr) & Hd & <-). pose proof (Hk _ _ Hr) as <-. done.
    - intros [Hr Hd]. split_and!; eauto. }
  destruct (rows_where res_key key t) as [|r1 [|r2 l]] eqn:E.
  - destruct (res_get t !! key) as [r|] eqn:Er; [|done].
    destruct (res_deleted r) eqn:Ed; [done|].
    assert (r ∈ (nil : list M)) as []%elem_of_nil. apply Hin. done.
  - destruct (proj1 (Hin r1)) as [-> ->]; [set_solver|done].
  - destruct (proj1 (Hin r1)) as [H1 _]; [set_solver|].
    destruct (proj1 (Hin r2)) as [H2 _]; [set_solver|].
    apply NoDup_cons in Hnd as [Hn _]. simplify_eq. set_solver.
Qed.

Lemma exec_stmt_ok s d d' :
  exec_stmt s d = (d', Ok tt) -> exists id, stmt_effect s id (rows d) = Ok (rows d').
Proof.
  unfold exec_stmt. intros (d1 & id & He & [= ->])%go_bind_Ok. exists id.
  pose proof (exec_ok s d id) as H. rewrite He in H. by apply H.
Qed.

Lemma exec_stmt_err s d d' e : exec_stmt s d = (d', Err e) -> rows d' = rows d.
Proof.
  unfold exec_stmt. intros [He|(d1 & id & He & [=])]%go_bind_Err.
  pose proof (exec_err s d e) as H. rewrite He in H. by apply H.
Qed.

(** Reads follow writes.  After a successful [UpsertResource] of a model
    that is not deleted, [GetResourceByField] on the key column finds exactly
    the row gorm stored for it, unless the database itself fails: it never
    reports the row missing. *)
Theorem upsert_then_get (M : Type) (R : Resource M) (field : string) (r : M) d d1 :
  known M R -> tables_wf (rows d) -> find_column (M:=M) field = Ok res_key ->
  res_deleted r = false ->
  UpsertResource r d = (d1, Ok tt) ->
  match (GetResourceByField M field (res_key r) d1).2 with
  | Ok r' => r' = stored (res_get (rows d) !! res_key r) r
  | Err e => e <> ErrRecordNotFound
  end.
Proof.
  intros Hk Hwf Hf Hd (id & Hup)%exec_stmt_ok.
  pose proof (stmt_effect_wf (Upsert r) _ _ _ Hk Hwf Hup) as Hwf1.
  pose proof (known_laws _ _ Hk) as HL. cbn in Hup. injection Hup as Hup.
  unfold GetResourceByField. rewrite Hf.
  assert (rows_where res_key (res_key r) (rows d1) = [stored (res_get (rows d) !! res_key r) r])
    as Hrows.
  { rewrite rows_where_key by (by apply get_keyed).
    rewrite <- Hup, res_get_put, lookup_insert_eq, stored_deleted, Hd. done. }
  destruct (first_row _ _ d1).2 as [r'|e] eqn:E.
  - apply first_row_ok in E. rewrite Hrows in E. set_solver.
  - intros ->. apply first_row_not_found in E. by rewrite Hrows in E.
Qed.

(** Logical deletion.  After a successful [DeleteResourceByField] no read
    by the same field and value returns a row, and every row that did not match
    is still there unchanged; the row itself stays in the table, marked
    deleted. *)
Theorem delete_hides_rows (M : Type) (R : Resource M) (field value : string) d d1 :
  known M R -> DeleteResourceByField M field value d = (d1, Ok tt) ->
  (forall r, (GetResourceByField M field value d1).2 <> Ok r) /\
  exists col, find_column (M:=M) field = Ok col /\
    forall k, res_get (rows d1) !! k =
      (fun r => if live_where col value r then res_delete r else r) <$> res_get (rows d) !! k.
Proof.
  intros Hk (id & Hdel)%exec_stmt_ok. pose proof (known_laws _ _ Hk) as HL.
  cbn in Hdel. unfold mbind, result_bind in Hdel.
  destruct (find_column field) as [col|] eqn:Hf; [|done]. injection Hdel as Hdel.
  assert (res_get (rows d1) = (fun r : M => if live_where col value r then res_delete r else r)
    <$> res_get (rows d)) as Hget by (by rewrite <- Hdel, res_get_put).
  split.
  - intros r. unfold GetResourceByField. rewrite Hf. intros Hr%first_row_ok.
    apply elem_of_rows_where in Hr as ((k & Hr) & Hd & Hc). rewrite Hget, lookup_fmap in Hr.
    apply fmap_Some in Hr as (r0 & Hr0 & ->). unfold live_where in *.
    destruct (negb (res_deleted r0) && bool_decide (col r0 = value)) eqn:E.
    + by rewrite res_delete_deleted in Hd.
    + rewrite Hd, bool_decide_eq_true_2 in E by done. done.
  - exists col. split; [done|]. intros k. by rewrite Hget, lookup_fmap.
Qed.

(** ** The projection query *)

Lemma elem_of_left_join {A} (l : list A) (x : option A) :
  x ∈ left_join l <-> match x with Some a => a ∈ l | None => l = [] end.
Proof.
  unfold left_join. destruct l as [|a l].
  - rewrite list_elem_of_singleton. destruct x; elem_solver.
  - rewrite list_elem_of_fmap. destruct x as [b|]; naive_solver.
Qed.

Lemma exists_max_revision certs :
  certs <> [] -> exists c, c ∈ certs /\ is_max_revision certs c.
Proof.
  induction certs as [|c certs IH]; [done|]. intros _.
  destruct (decide (certs = [])) as [->|Hne].
  { exists c. split; [set_solver|]. repeat constructor; lia. }
  destruct (IH Hne) as (m & Hm & Hmax).
  destruct (decide (cr_Revision c <= cr_Revision m)).
  - exists m. split; [set_solver|]. by constructor.
  - exists c. split; [set_solver|]. constructor; [lia|].
    eapply Forall_impl; [exact Hmax|]. cbn. lia.
Qed.

(** The live backend a route or a domain refers to. *)
Definition live_backend (t : Tables) (id : string) : option ServiceBackendRef :=
  tb_backends t !! id ≫= fun b => if sh_Deleted (sb_Shared b) then None else Some b.

(** A live route as the projection shows it. *)
Definition project_route (t : Tables) (hr : HTTPRoute) : HTTPRouteProjection :=
  mkHTTPRouteProjection (hr_ID hr) (hr_Path hr) (hr_Priority hr)
    (row_backend (live_backend t (hr_BackendRefID hr))).

Lemma join_backend t id x :
  keyed (tb_backends t) -> x ∈ left_join (rows_where sb_ID id t) <-> x = live_backend t id.
Proof.
  intros Hk. rewrite elem_of_left_join.
  change (rows_where sb_ID id t) with (rows_where (M:=ServiceBackendRef) res_key id t).
  rewrite rows_where_key by done. unfold live_backend. cbn.
  destruct (tb_backends t !! id) as [b|]; cbn; [|destruct x; elem_solver].
  destruct (sh_Deleted (sb_Shared b)); destruct x; elem_solver.
Qed.

Lemma elem_of_projection_rows h t row :
  tables_wf t ->
  row ∈ projection_rows h t <->
  (tb_domains t !! h = Some (pr_domain row) /\ sh_Deleted (de_Shared (pr_domain row)) = false) /\
  (match pr_cert row with
   | Some c => c ∈ rows_where cr_Hostname h t /\ is_max_revision (rows_where cr_Hostname h t) c
   | None => rows_where cr_Hostname h t = []
   end) /\
  (match pr_route row with
   | Some r => r ∈ rows_where hr_Hostname h t
   | None => rows_where hr_Hostname h t = []
   end) /\
  pr_route_backend row = (pr_route row ≫= fun r => live_backend t (hr_BackendRefID r)) /\
  pr_binded row = live_backend t (de_BindedServiceID (pr_domain row)).
Proof.
  intros Hwf. assert (keyed (tb_backends t)) as Hkb by apply Hwf.
  assert (forall de, de ∈ rows_where de_Hostname h t <->
            tb_domains t !! h = Some de /\ sh_Deleted (de_Shared de) = false) as Hde.
  { intros de. change (rows_where de_Hostname h t) with
      (rows_where (M:=DomainEndpoint) res_key h t).
    rewrite rows_where_key by apply Hwf. cbn.
    destruct (tb_domains t !! h) as [e|]; [|elem_solver].
    destruct (sh_Deleted (de_Shared e)) eqn:E; rewrite ?elem_of_nil, ?list_elem_of_singleton;
      split; try (intros [[= <-] ?]); try intros ->; congruence || done. }
  assert (forall de, tb_domains t !! h = Some de -> de_Hostname de = h) as Hhost.
  { intros de. apply Hwf. }
  assert (forall oc, oc ∈ left_join (filter (is_max_revision (rows_where cr_Hostname h t))
             (rows_where cr_Hostname h t)) <->
    match oc with
    | Some c => c ∈ rows_where cr_Hostname h t /\ is_max_revision (rows_where cr_Hostname h t) c
    | None => rows_where cr_Hostname h t = []
    end) as Hcert.
  { intros oc. rewrite elem_of_left_join. destruct oc as [c|].
    - rewrite list_elem_of_filter. naive_solver.
    - split; [|by intros ->]. intros Hnil.
      destruct (decide (rows_where cr_Hostname h t = [])) as [|Hne]; [done|].
      destruct (exists_max_revision _ Hne) as (c & Hc & Hm).
      assert (c ∈ (nil : list CertificateRevision)) as []%elem_of_nil.
      rewrite <- Hnil. by apply list_elem_of_filter. }
  assert (forall hr x, x ∈ left_join (match hr with
      | Some hr => rows_where sb_ID (hr_BackendRefID hr) t | None => [] end) <->
    x = (hr ≫= fun r => live_backend t (hr_BackendRefID r))) as Hrb.
  { intros [hr|] x; [by apply join_backend|]. rewrite elem_of_left_join. destruct x; elem_solver. }
  unfold projection_rows. rewrite list_elem_of_bind. split.
  - intros (de & Hrow & Hin%Hde). pose proof (Hhost de (proj1 Hin)) as Hh. rewrite Hh in Hrow.
    apply list_elem_of_bind in Hrow as (oc & Hrow & Hoc%Hcert).
    apply list_elem_of_bind in Hrow as (hr & Hrow & Hhr%elem_of_left_join).
    apply list_elem_of_bind in Hrow as (rb & Hrow & Hrb'%Hrb).
    apply list_elem_of_bind in Hrow as (bb & Hrow & Hbb%join_backend); [|done].
    apply list_elem_of_singleton in Hrow as ->. cbn. done.
  - destruct row as [de oc hr rb bb]; cbn. intros (Hin & Hoc & Hhr & -> & ->).
    exists de. split; [|by apply Hde]. rewrite (Hhost de (proj1 Hin)).
    apply list_elem_of_bind. exists oc. split; [|by apply Hcert].
    apply list_elem_of_bind. exists hr. split; [|by apply elem_of_left_join].
    apply list_elem_of_bind. eexists. split; [|by apply Hrb].
    apply list_elem_of_bind. eexists. split; [|by apply join_backend].
    by apply list_elem_of_singleton.
Qed.

(** [seenRoutes] makes the loop emit each route once. *)
Lemma collect_routes_ids seen rs :
  NoDup (rp_ID <$> collect_routes seen rs) /\
  forall id, id ∈ (rp_ID <$> collect_routes seen rs) -> id ∉ seen.
Proof.
  revert seen. induction rs as [|row rs IH]; intros seen; cbn.
  { split; [constructor|]. intros id []%elem_of_nil. }
  destruct (present _) as [i|]; [|apply IH]. case_bool_decide as Hs; [apply IH|].
  destruct (IH ({[i]} ∪ seen)) as [Hnd Hout]. cbn. split.
  - constructor; [|done]. intros Hi%Hout. set_solver.
  - intros id [->|Hi%Hout]%elem_of_cons; set_solver.
Qed.

Lemma collect_routes_sound seen rs rp :
  rp ∈ collect_routes seen rs ->
  exists row, row ∈ rs /\ present (hr_ID <$> pr_route row) = Some (rp_ID rp) /\
    rp = row_route row (rp_ID rp).
Proof.
  revert seen. induction rs as [|row rs IH]; intros seen; cbn; [by intros []%elem_of_nil|].
  destruct (present _) as [i|] eqn:Hp; [case_bool_decide|]; cbn.
  - intros (row' & ? & ?)%IH. exists row'. set_solver.
  - intros [->|(row' & ? & ?)%IH]%elem_of_cons; [exists row|exists row']; set_solver.
  - intros (row' & ? & ?)%IH. exists row'. set_solver.
Qed.

Lemma collect_routes_complete seen rs row id :
  row ∈ rs -> present (hr_ID <$> pr_route row) = Some id -> id ∉ seen ->
  id ∈ (rp_ID <$> collect_routes seen rs).
Proof.
  revert seen. induction rs as [|row0 rs IH]; intros seen; [by intros []%elem_of_nil|].
  intros [->|Hin]%elem_of_cons Hp Hns; cbn.
  - rewrite Hp, bool_decide_eq_false_2 by done. cbn. set_solver.
  - destruct (present (hr_ID <$> pr_route row0)) as [i|]; [|by apply IH].
    case_bool_decide; [by apply IH|]. cbn. destruct (decide (id = i)) as [->|]; [set_solver|].
    apply elem_of_cons. right. apply IH; set_solver.
Qed.

(** The order of the query carries over to the routes of the projection. *)
Definition route_projection_leb (x y : HTTPRouteProjection) : bool :=
  route_leb (rp_Priority x) (len (rp_Path x)) (rp_ID x)
            (rp_Priority y) (len (rp_Path y)) (rp_ID y).

Lemma present_Some (o : option string) id : present o = Some id <-> o = Some id /\ id <> "".
Proof.
  unfold present. destruct o as [i|]; cbn; [|naive_solver]. case_bool_decide; naive_solver.
Qed.

Lemma row_route_leb row1 row2 rp1 rp2 :
  projection_leb row1 row2 = true ->
  present (hr_ID <$> pr_route row1) = Some (rp_ID rp1) -> rp1 = row_route row1 (rp_ID rp1) ->
  present (hr_ID <$> pr_route row2) = Some (rp_ID rp2) -> rp2 = row_route row2 (rp_ID rp2) ->
  route_projection_leb rp1 rp2 = true.
Proof.
  unfold projection_leb, route_projection_leb, http_route_leb.
  intros Hle [H1 _]%present_Some E1 [H2 _]%present_Some E2. rewrite E1, E2. cbn.
  destruct (pr_route row1) as [r1|], (pr_route row2) as [r2|]; cbn in *; try done.
  injection H1 as <-. by injection H2 as <-.
Qed.

Lemma collect_routes_sorted seen rs :
  StronglySorted (fun x y => projection_leb x y = true) rs ->
  StronglySorted (fun x y => route_projection_leb x y = true) (collect_routes seen rs).
Proof.
  revert seen. induction rs as [|row rs IH]; intros seen Hs; cbn; [constructor|].
  apply StronglySorted_inv in Hs as [Hs HF].
  destruct (present _) as [i|] eqn:Hp; [case_bool_decide|]; [by apply IH| |by apply IH].
  constructor; [by apply IH|]. apply Forall_forall. intros rp (row' & Hin & Hp' & E)%collect_routes_sound.
  rewrite Forall_forall in HF. eapply (row_route_leb row row'); eauto.
Qed.

Lemma projection_ok h d d' p :
  GetDomainEntryProjectionByDomain h d = (d', Ok p) ->
  exists first rs, p = projection_of_rows first (first :: rs) /\
    first :: rs ≡ₚ projection_rows h (rows d) /\
    StronglySorted (fun x y => projection_leb x y = true) (first :: rs).
Proof.
  unfold GetDomainEntryProjectionByDomain. intros (d1 & rs & Hs & Hr)%go_bind_Ok.
  destruct rs as [|first rs]; [done|]. injection Hr as _ <-. exists first, rs.
  split; [done|]. pose proof (select_perm (projection_rows h) projection_leb d) as Hp.
  pose proof (select_sorted (projection_rows h) projection_leb d) as Hso.
  rewrite Hs in Hp, Hso. eauto with luna.
Qed.

Lemma projected_route h t row id :
  tables_wf t -> row ∈ projection_rows h t -> present (hr_ID <$> pr_route row) = Some id ->
  exists hr, hr ∈ rows_where hr_Hostname h t /\ hr_ID hr = id /\ id <> "" /\
    row_route row id = project_route t hr.
Proof.
  intros Hwf Hrow [Hid Hne]%present_Some.
  apply elem_of_projection_rows in Hrow as (_ & _ & Hr & Hb & _); [|done].
  destruct (pr_route row) as [hr|] eqn:E; [|done]. injection Hid as <-.
  exists hr. split_and!; try done. unfold row_route, project_route. by rewrite Hb, E.
Qed.

(** The projection made of the rows of the join, in their order. *)
Lemma projection_cases h t first rs p :
  tables_wf t -> first :: rs ≡ₚ projection_rows h t ->
  StronglySorted (fun x y => projection_leb x y = true) (first :: rs) ->
  p = projection_of_rows first (first :: rs) ->
  exists de, tb_domains t !! h = Some de /\ sh_Deleted (de_Shared de) = false /\
    dp_Hostname p = h /\ dp_Deleted p = false /\ dp_NeedCert p = de_NeedCert de /\
    dp_BackendType p = de_BackendType de /\
    (exists oc, dp_Cert p = row_cert oc /\
       match oc with
       | Some c => c ∈ rows_where cr_Hostname h t /\
                   is_max_revision (rows_where cr_Hostname h t) c
       | None => rows_where cr_Hostname h t = []
       end) /\
    if is_L4 (de_BackendType de)
    then dp_HTTPRoutes p = [] /\
         dp_BindedBackendRef p = row_backend (live_backend t (de_BindedServiceID de))
    else dp_BindedBackendRef p = None /\ NoDup (rp_ID <$> dp_HTTPRoutes p) /\
         StronglySorted (fun x y => route_projection_leb x y = true) (dp_HTTPRoutes p) /\
         forall rp, rp ∈ dp_HTTPRoutes p <->
           exists hr, hr ∈ rows_where hr_Hostname h t /\ hr_ID hr <> "" /\
             rp = project_route t hr.
Proof.
  intros Hwf Hperm Hsort ->.
  assert (first ∈ projection_rows h t) as Hf by (rewrite <- Hperm; set_solver).
  apply elem_of_projection_rows in Hf as ([Hde Hdel] & Hcert & _ & _ & Hb); [|done].
  exists (pr_domain first). assert (de_Hostname (pr_domain first) = h) as Hh by (by apply Hwf).
  unfold projection_of_rows. destruct (is_L4 (de_BackendType (pr_domain first)));
    cbn [dp_Hostname dp_Deleted dp_NeedCert dp_BackendType dp_Cert dp_HTTPRoutes
         dp_BindedBackendRef]; (split_and!; try done; [by exists (pr_cert first)|..]).
  - by rewrite Hb.
  - apply collect_routes_ids.
  - by apply collect_routes_sorted.
  - intros rp. split.
    + intros (row & Hin & Hp & E)%collect_routes_sound. rewrite Hperm in Hin.
      destruct (projected_route h _ row _ Hwf Hin Hp) as (hr & ? & ? & ? & ?).
      exists hr. split_and!; congruence || done.
    + intros (hr & Hin & Hne & ->).
      set (row := mkProjectionRow (pr_domain first) (pr_cert first) (Some hr)
        (live_backend t (hr_BackendRefID hr)) (pr_binded first)).
      assert (row ∈ projection_rows h t) as Hrow.
      { apply elem_of_projection_rows; cbn; eauto 10. }
      assert (present (hr_ID <$> pr_route row) = Some (hr_ID hr)) as Hp by (by apply present_Some).
      pose proof Hrow as Hrow'. rewrite <- Hperm in Hrow'.
      destruct (proj1 (list_elem_of_fmap _ _ _) (collect_routes_complete ∅ _ _ _ Hrow' Hp
        (not_elem_of_empty _))) as (rp & Hid & Hrp).
      destruct (collect_routes_sound _ _ _ Hrp) as (row2 & Hin2 & Hp2 & E2). rewrite Hperm in Hin2.
      destruct (projected_route h _ row2 _ Hwf Hin2 Hp2) as (hr2 & Hr2 & Hid2 & _ & E3).
      assert (hr2 = hr) as ->; [|by rewrite <- E3, <- E2].
      apply elem_of_rows_where in Hr2 as ((k2 & Hk2) & _), Hin as ((k & Hk) & _).
      assert (keyed (tb_routes t)) as Hkey by apply Hwf.
      apply Hkey in Hk as ?, Hk2 as ?. cbn in *. congruence.
Qed.

(** C3. the projection of a domain.  A successful query returns the live domain
    row of the host; the certificate is one of the host's live revisions with
    the greatest revision number, absent only when there is none; an L4 domain
    carries its live bound backend and no routes; an L7 domain carries exactly
    the live routes of the host, each once, with their live backends, in the
    order priority descending, path length descending, id ascending. *)
Theorem projection_correct h d d' p :
  tables_wf (rows d) ->
  GetDomainEntryProjectionByDomain h d = (d', Ok p) ->
  exists de, tb_domains (rows d) !! h = Some de /\ sh_Deleted (de_Shared de) = false /\
    dp_Hostname p = h /\ dp_Deleted p = false /\ dp_NeedCert p = de_NeedCert de /\
    dp_BackendType p = de_BackendType de /\
    (exists oc, dp_Cert p = row_cert oc /\
       match oc with
       | Some c => c ∈ rows_where cr_Hostname h (rows d) /\
                   is_max_revision (rows_where cr_Hostname h (rows d)) c
       | None => rows_where cr_Hostname h (rows d) = []
       end) /\
    if is_L4 (de_BackendType de)
    then dp_HTTPRoutes p = [] /\
         dp_BindedBackendRef p = row_backend (live_backend (rows d) (de_BindedServiceID de))
    else dp_BindedBackendRef p = None /\ NoDup (rp_ID <$> dp_HTTPRoutes p) /\
         StronglySorted (fun x y => route_projection_leb x y = true) (dp_HTTPRoutes p) /\
         forall rp, rp ∈ dp_HTTPRoutes p <->
           exists hr, hr ∈ rows_where hr_Hostname h (rows d) /\ hr_ID hr <> "" /\
             rp = project_route (rows d) hr.
Proof.
  intros Hwf (first & rs & Hp & Hperm & Hsort)%projection_ok. by eapply projection_cases.
Qed.

End facts.

(** ** A concrete repository *)

Definition memory_gorm : Gorm Tables stmt (@stmt_effect plain_model) :=
  MemGorm false (@stmt_effect plain_model) (fun t => Z.of_nat (length (tb_snapshots t)) + 1).

(** A database in which every call succeeds. *)
Definition memory_db (t : Tables) : @db _ _ _ memory_gorm := mkMemDB t None [].

Definition sample_backend (id name : string) : ServiceBackendRef :=
  mkServiceBackendRef zero_Shared id ServiceBackendTypeSVC "" "default" name 80.
Definition sample_route (id path : string) (prio : Z) (backend : string) : HTTPRoute :=
  mkHTTPRoute zero_Shared id "a.example" path prio backend.
Definition sample_domain : DomainEndpoint :=
  mkDomainEndpoint zero_Shared "a.example" true BackendTypeL7HTTPS "".
Definition sample_cert (id : string) (rev : Z) : CertificateRevision :=
  mkCertificateRevision zero_Shared id "a.example" rev ProviderLetsEncrypt ChallengeTypeDNS01
    "bucket" "prefix" "c" "k" zero_time zero_time.

(** A domain with two revisions, two live routes and a deleted one. *)
Definition sample_tables : Tables :=
  mkTables {["a.example" := sample_domain]}
    {["b1" := sample_backend "b1" "web"; "b2" := sample_backend "b2" "api"]}
    {["r1" := sample_route "r1" "/" 0 "b1"; "r2" := sample_route "r2" "/api" 0 "b2";
      "r3" := set_hr_Deleted (sample_route "r3" "/old" 9 "b1") true]}
    ∅ {["c1" := sample_cert "c1" 1; "c2" := sample_cert "c2" 2]} [].

Lemma sample_tables_wf : tables_wf sample_tables.
Proof.
  unfold tables_wf. split_and!; [apply (bool_decide_unpack _); vm_compute; exact I..|constructor].
Qed.

Lemma upsert_then_get_witness :
  let r := sample_route "r9" "/new" 3 "b1" in
  let res := (GetResourceByField (GDB:=memory_gorm) HTTPRoute "id" "r9"
     (UpsertResource (GDB:=memory_gorm) r (memory_db sample_tables)).1).2 in
  is_ok res = true /\
  match res with Ok r' => r' = r | Err e => e <> ErrRecordNotFound end.
Proof.
  split; [by vm_compute|].
  apply (upsert_then_get (GDB:=memory_gorm) HTTPRoute _ "id" (sample_route "r9" "/new" 3 "b1")
    (memory_db sample_tables) _ known_routes sample_tables_wf eq_refl eq_refl eq_refl).
Defined.

Lemma delete_hides_rows_witness :
  let d1 := (DeleteResourceByField (GDB:=memory_gorm) HTTPRoute "hostname" "a.example"
               (memory_db sample_tables)).1 in
  (GetResourceByField (GDB:=memory_gorm) HTTPRoute "hostname" "a.example" d1).2
    <> Ok (sample_route "r1" "/" 0 "b1").
Proof.
  cbn zeta.
  apply (delete_hides_rows (GDB:=memory_gorm) HTTPRoute _ "hostname" "a.example"
    (memory_db sample_tables) _ known_routes). vm_compute. reflexivity.
Defined.

Lemma projection_correct_witness :
  match (GetDomainEntryProjectionByDomain (GDB:=memory_gorm) "a.example"
     (memory_db sample_tables)).2 with
  | Ok p => (rp_ID <$> dp_HTTPRoutes p) = ["r2"; "r1"] /\ (cr_ID <$> dp_Cert p) = Some "c2" /\
            exists de, tb_domains sample_tables !! "a.example" = Some de /\
              dp_NeedCert p = de_NeedCert de
  | Err _ => False
  end.
Proof.
  assert ((fun p => (rp_ID <$> dp_HTTPRoutes p, cr_ID <$> dp_Cert p)) <$>
    (GetDomainEntryProjectionByDomain (GDB:=memory_gorm) "a.example"
       (memory_db sample_tables)).2 = Ok (["r2"; "r1"], Some "c2")) as Hc
    by (vm_compute; reflexivity).
  destruct (GetDomainEntryProjectionByDomain (GDB:=memory_gorm) "a.example"
    (memory_db sample_tables)) as [d' [p|e]] eqn:E; cbn in *; [|discriminate Hc].
  destruct (projection_correct (GDB:=memory_gorm) "a.example" (memory_db sample_tables) d' p
    sample_tables_wf E) as (de & Hde & _ & _ & _ & Hnc & _).
  injection Hc as H1 H2. split; [exact H1|split; [exact H2|]]. exists de. split; [exact Hde|exact Hnc].
Defined.
