(* ===== verification/Replication.v ===== *)
(** * The replication messages: replication/replication.go, replication/proto_shim.go

    The messages exchanged between master and slave, their protobuf forms and
    the two conversions.  The transport delivers the protobuf form unchanged,
    so a slave receives [FromProto (ToProto x)] for a message [x]. *)

From S2P Require Import Prelude GoStrings GoTime Metadata.

Open Scope Z_scope.

(** ** replication.go *)

Record CertificateBundle := mkCertificateBundle {
  cb_Hostname : string;
  cb_Revision : Z;
  cb_TLSCrt : string;
  cb_TLSKey : string;
  cb_MetadataJSON : string;
}.

Record Snapshot := mkSnapshot {
  sn_NodeID : string;
  sn_CreatedAt : Time;
  sn_SnapshotRecordID : Z;
  sn_DNSRecords : list DNSRecord;
  sn_DomainEntries : list DomainEntryProjection;
  sn_Last : bool;
}.

Record ChangeNotification := mkChangeNotification {
  cn_NodeID : string;
  cn_CreatedAt : Time;
  cn_SnapshotRecordID : Z;
  cn_DNSRecord : option DNSRecord;
  cn_DomainEntry : option DomainEntryProjection;
}.

#[export] Instance Snapshot_eq_dec : EqDecision Snapshot.
Proof. solve_decision. Defined.
#[export] Instance ChangeNotification_eq_dec : EqDecision ChangeNotification.
Proof. solve_decision. Defined.

(** ** The generated message types (replpb) *)

Record Timestamp := mkTimestamp { ts_Seconds : Z; ts_Nanos : Z }.

Record pb_DNSRecord := mk_pb_DNSRecord {
  pdr_Id : string; pdr_Fqdn : string; pdr_RecordType : string; pdr_RoutingClass : string;
  pdr_TtlSeconds : Z; pdr_ValuesJson : string; pdr_RoutingKey : string;
  pdr_Enabled : bool; pdr_Deleted : bool;
}.

Record pb_ServiceBackendRef := mk_pb_ServiceBackendRef {
  psb_Id : string; psb_Type : string; psb_ArbitraryEndpoint : string;
  psb_ServiceNamespace : string; psb_ServiceName : string; psb_Port : Z;
}.

Record pb_HTTPRouteProjection := mk_pb_HTTPRouteProjection {
  prp_Id : string; prp_Path : string; prp_Priority : Z;
  prp_BackendRef : option pb_ServiceBackendRef;
}.

Record pb_CertificateRevision := mk_pb_CertificateRevision {
  pcr_Id : string; pcr_Hostname : string; pcr_Revision : Z; pcr_Provider : string;
  pcr_ChallengeType : string; pcr_ArtifactBucket : string; pcr_ArtifactPrefix : string;
  pcr_Sha256Crt : string; pcr_Sha256Key : string;
  pcr_NotBefore : option Timestamp; pcr_NotAfter : option Timestamp;
}.

Record pb_DomainEntryProjection := mk_pb_DomainEntryProjection {
  pdp_Hostname : string; pdp_BackendType : string; pdp_NeedCert : bool;
  pdp_Cert : option pb_CertificateRevision; pdp_HttpRoutes : list pb_HTTPRouteProjection;
  pdp_BindedBackendRef : option pb_ServiceBackendRef; pdp_Deleted : bool;
}.

Record pb_Snapshot := mk_pb_Snapshot {
  psn_NodeId : string; psn_CreatedAt : option Timestamp; psn_DnsRecords : list pb_DNSRecord;
  psn_DomainEntries : list pb_DomainEntryProjection; psn_SnapshotRecordId : Z; psn_Last : bool;
}.

(** [oneof entry] holds at most one of the two messages. *)
Inductive pb_Entry :=
  | ChangeNotification_DnsRecord (r : pb_DNSRecord)
  | ChangeNotification_DomainEntry (e : pb_DomainEntryProjection).

Record pb_ChangeNotification := mk_pb_ChangeNotification {
  pcn_NodeId : string; pcn_CreatedAt : option Timestamp; pcn_SnapshotRecordId : Z;
  pcn_Entry : option pb_Entry;
}.

(** ** proto_shim.go *)

Definition timeToProto (t : Time) : option Timestamp :=
  if IsZero t then None else Some (mkTimestamp (t_sec t) (t_nsec t)).

Definition timeFromProto (t : option Timestamp) : Time :=
  match t with
  | None => zero_time
  | Some t => Unix (ts_Seconds t) (ts_Nanos t)
  end.

Definition dnsRecordToProto (r : DNSRecord) : pb_DNSRecord :=
  mk_pb_DNSRecord (dr_ID r) (dr_FQDN r) (dr_RecordType r) (dr_RoutingClass r) (dr_TTLSeconds r)
    (dr_ValuesJSON r) (dr_RoutingKey r) (dr_Enabled r) (dr_Deleted r).

Definition dnsRecordFromProto (r : pb_DNSRecord) : DNSRecord :=
  mkDNSRecord (mkShared (pdr_Deleted r) zero_time zero_time) (pdr_Id r) (pdr_Fqdn r)
    (pdr_RecordType r) (pdr_RoutingClass r) (pdr_TtlSeconds r) (pdr_ValuesJson r)
    (pdr_RoutingKey r) (pdr_Enabled r).

Definition serviceBackendRefToProto (b : option ServiceBackendRef) : option pb_ServiceBackendRef :=
  (fun b => mk_pb_ServiceBackendRef (sb_ID b) (sb_Type b) (sb_ArbitraryEndpoint b)
     (sb_ServiceNamespace b) (sb_ServiceName b) (sb_Port b)) <$> b.

Definition serviceBackendRefFromProto (b : option pb_ServiceBackendRef)
    : option ServiceBackendRef :=
  (fun b => mkServiceBackendRef zero_Shared (psb_Id b) (psb_Type b) (psb_ArbitraryEndpoint b)
     (psb_ServiceNamespace b) (psb_ServiceName b) (psb_Port b)) <$> b.

Definition httpRouteProjectionToProto (r : HTTPRouteProjection) : pb_HTTPRouteProjection :=
  mk_pb_HTTPRouteProjection (rp_ID r) (rp_Path r) (rp_Priority r)
    (serviceBackendRefToProto (rp_BackendRef r)).

Definition httpRouteProjectionFromProto (r : pb_HTTPRouteProjection) : HTTPRouteProjection :=
  mkHTTPRouteProjection (prp_Id r) (prp_Path r) (prp_Priority r)
    (serviceBackendRefFromProto (prp_BackendRef r)).

Definition certificateRevisionToProto (c : option CertificateRevision)
    : option pb_CertificateRevision :=
  (fun c => mk_pb_CertificateRevision (cr_ID c) (cr_Hostname c) (cr_Revision c) (cr_Provider c)
     (cr_ChallengeType c) (cr_ArtifactBucket c) (cr_ArtifactPrefix c) (cr_SHA256Crt c)
     (cr_SHA256Key c) (timeToProto (cr_NotBefore c)) (timeToProto (cr_NotAfter c))) <$> c.

Definition certificateRevisionFromProto (c : option pb_CertificateRevision)
    : option CertificateRevision :=
  (fun c => mkCertificateRevision zero_Shared (pcr_Id c) (pcr_Hostname c) (pcr_Revision c)
     (pcr_Provider c) (pcr_ChallengeType c) (pcr_ArtifactBucket c) (pcr_ArtifactPrefix c)
     (pcr_Sha256Crt c) (pcr_Sha256Key c) (timeFromProto (pcr_NotBefore c))
     (timeFromProto (pcr_NotAfter c))) <$> c.

(** Neither direction touches [NeedCert]: the message field keeps its zero
    value. *)
Definition domainEntryProjectionToProto (p : DomainEntryProjection) : pb_DomainEntryProjection :=
  mk_pb_DomainEntryProjection (dp_Hostname p) (dp_BackendType p) false
    (certificateRevisionToProto (dp_Cert p)) (httpRouteProjectionToProto <$> dp_HTTPRoutes p)
    (serviceBackendRefToProto (dp_BindedBackendRef p)) (dp_Deleted p).

Definition domainEntryProjectionFromProto (p : pb_DomainEntryProjection) : DomainEntryProjection :=
  mkDomainEntryProjection (pdp_Hostname p) (pdp_Deleted p) false
    (certificateRevisionFromProto (pdp_Cert p)) (pdp_BackendType p)
    (httpRouteProjectionFromProto <$> pdp_HttpRoutes p)
    (serviceBackendRefFromProto (pdp_BindedBackendRef p)).

Definition SnapshotToProto (s : Snapshot) : pb_Snapshot :=
  mk_pb_Snapshot (sn_NodeID s) (timeToProto (sn_CreatedAt s))
    (dnsRecordToProto <$> sn_DNSRecords s)
    (domainEntryProjectionToProto <$> sn_DomainEntries s) (sn_SnapshotRecordID s) (sn_Last s).

Definition SnapshotFromProto (s : pb_Snapshot) : Snapshot :=
  mkSnapshot (psn_NodeId s) (timeFromProto (psn_CreatedAt s)) (psn_SnapshotRecordId s)
    (dnsRecordFromProto <$> psn_DnsRecords s)
    (domainEntryProjectionFromProto <$> psn_DomainEntries s) (psn_Last s).

(** The second assignment to [out.Entry] replaces the first. *)
Definition ChangeNotificationToProto (n : ChangeNotification) : pb_ChangeNotification :=
  let entry := (fun r => ChangeNotification_DnsRecord (dnsRecordToProto r)) <$> cn_DNSRecord n in
  let entry := match cn_DomainEntry n with
               | Some e => Some (ChangeNotification_DomainEntry (domainEntryProjectionToProto e))
               | None => entry
               end in
  mk_pb_ChangeNotification (cn_NodeID n) (timeToProto (cn_CreatedAt n))
    (cn_SnapshotRecordID n) entry.

Definition ChangeNotificationFromProto (n : pb_ChangeNotification) : ChangeNotification :=
  mkChangeNotification (pcn_NodeId n) (timeFromProto (pcn_CreatedAt n)) (pcn_SnapshotRecordId n)
    (match pcn_Entry n with
     | Some (ChangeNotification_DnsRecord r) => Some (dnsRecordFromProto r)
     | _ => None
     end)
    (match pcn_Entry n with
     | Some (ChangeNotification_DomainEntry e) => Some (domainEntryProjectionFromProto e)
     | _ => None
     end).

(** [ChangelogsFromSnapshot]: one notification per item, DNS records first. *)
Definition ChangelogsFromSnapshot (s : Snapshot) : list ChangeNotification :=
  ((fun r => mkChangeNotification (sn_NodeID s) (sn_CreatedAt s) (sn_SnapshotRecordID s)
               (Some r) None) <$> sn_DNSRecords s) ++
  ((fun e => mkChangeNotification (sn_NodeID s) (sn_CreatedAt s) (sn_SnapshotRecordID s)
               None (Some e)) <$> sn_DomainEntries s).

Definition SnapshotFromNotice (n : ChangeNotification) : Snapshot :=
  mkSnapshot (cn_NodeID n) (cn_CreatedAt n) (cn_SnapshotRecordID n)
    (option_list (cn_DNSRecord n)) (option_list (cn_DomainEntry n)) true.

(** ** What a message looks like on the other side *)

Definition wire_dns (r : DNSRecord) : DNSRecord :=
  mkDNSRecord (mkShared (dr_Deleted r) zero_time zero_time) (dr_ID r) (dr_FQDN r)
    (dr_RecordType r) (dr_RoutingClass r) (dr_TTLSeconds r) (dr_ValuesJSON r)
    (dr_RoutingKey r) (dr_Enabled r).

Definition wire_backend (b : ServiceBackendRef) : ServiceBackendRef :=
  mkServiceBackendRef zero_Shared (sb_ID b) (sb_Type b) (sb_ArbitraryEndpoint b)
    (sb_ServiceNamespace b) (sb_ServiceName b) (sb_Port b).

Definition wire_cert (c : CertificateRevision) : CertificateRevision :=
  mkCertificateRevision zero_Shared (cr_ID c) (cr_Hostname c) (cr_Revision c) (cr_Provider c)
    (cr_ChallengeType c) (cr_ArtifactBucket c) (cr_ArtifactPrefix c) (cr_SHA256Crt c)
    (cr_SHA256Key c) (cr_NotBefore c) (cr_NotAfter c).

Definition wire_route (r : HTTPRouteProjection) : HTTPRouteProjection :=
  mkHTTPRouteProjection (rp_ID r) (rp_Path r) (rp_Priority r) (wire_backend <$> rp_BackendRef r).

Definition wire_domain (p : DomainEntryProjection) : DomainEntryProjection :=
  mkDomainEntryProjection (dp_Hostname p) (dp_Deleted p) false (wire_cert <$> dp_Cert p)
    (dp_BackendType p) (wire_route <$> dp_HTTPRoutes p) (wire_backend <$> dp_BindedBackendRef p).

(** The times of a projection are normalised, as [time.Time] keeps them. *)
Definition times_ok (p : DomainEntryProjection) : Prop :=
  forall c, dp_Cert p = Some c -> valid_time (cr_NotBefore c) /\ valid_time (cr_NotAfter c).

Lemma time_roundtrip t : valid_time t -> timeFromProto (timeToProto t) = t.
Proof.
  intros H. unfold timeToProto, IsZero. case_bool_decide as E; [done|]. by apply Unix_valid.
Qed.

Lemma backend_roundtrip b :
  serviceBackendRefFromProto (serviceBackendRefToProto b) = wire_backend <$> b.
Proof. by destruct b. Qed.

Lemma route_roundtrip r : httpRouteProjectionFromProto (httpRouteProjectionToProto r) = wire_route r.
Proof. destruct r. unfold wire_route. cbn. by rewrite <- backend_roundtrip. Qed.

Lemma cert_roundtrip c :
  (forall c', c = Some c' -> valid_time (cr_NotBefore c') /\ valid_time (cr_NotAfter c')) ->
  certificateRevisionFromProto (certificateRevisionToProto c) = wire_cert <$> c.
Proof.
  destruct c as [c|]; [|done]. intros H. destruct (H c eq_refl). cbn.
  by rewrite !time_roundtrip by done.
Qed.

Lemma dns_roundtrip r : dnsRecordFromProto (dnsRecordToProto r) = wire_dns r.
Proof. done. Qed.

Lemma domain_roundtrip p :
  times_ok p -> domainEntryProjectionFromProto (domainEntryProjectionToProto p) = wire_domain p.
Proof.
  intros H. unfold domainEntryProjectionFromProto, wire_domain. cbn.
  rewrite cert_roundtrip, backend_roundtrip, <- list_fmap_compose by done.
  f_equal. apply list_fmap_ext. intros. apply route_roundtrip.
Qed.

Lemma snapshot_wire_fields s :
  Forall times_ok (sn_DomainEntries s) ->
  let s' := SnapshotFromProto (SnapshotToProto s) in
  sn_DNSRecords s' = wire_dns <$> sn_DNSRecords s /\
  sn_DomainEntries s' = wire_domain <$> sn_DomainEntries s /\
  sn_SnapshotRecordID s' = sn_SnapshotRecordID s /\ sn_Last s' = sn_Last s.
Proof.
  intros HF. unfold SnapshotFromProto, SnapshotToProto. cbn. split_and!; try done.
  - by rewrite <- list_fmap_compose.
  - rewrite <- list_fmap_compose. apply list_fmap_ext. intros i p Hp. apply domain_roundtrip.
    rewrite Forall_forall in HF. apply HF. by eapply list_elem_of_lookup_2.
Qed.

Lemma snapshot_wire s :
  valid_time (sn_CreatedAt s) -> Forall times_ok (sn_DomainEntries s) ->
  SnapshotFromProto (SnapshotToProto s) =
    mkSnapshot (sn_NodeID s) (sn_CreatedAt s) (sn_SnapshotRecordID s)
      (wire_dns <$> sn_DNSRecords s) (wire_domain <$> sn_DomainEntries s) (sn_Last s).
Proof.
  intros Ht HF. destruct (snapshot_wire_fields s HF) as (H1 & H2 & _).
  unfold SnapshotFromProto, SnapshotToProto in *. cbn in *. by rewrite time_roundtrip, H1, H2.
Qed.

Lemma notice_wire n :
  valid_time (cn_CreatedAt n) -> (forall e, cn_DomainEntry n = Some e -> times_ok e) ->
  ChangeNotificationFromProto (ChangeNotificationToProto n) =
    mkChangeNotification (cn_NodeID n) (cn_CreatedAt n) (cn_SnapshotRecordID n)
      (match cn_DomainEntry n with Some _ => None | None => wire_dns <$> cn_DNSRecord n end)
      (wire_domain <$> cn_DomainEntry n).
Proof.
  intros Ht He. unfold ChangeNotificationFromProto, ChangeNotificationToProto. cbn.
  rewrite time_roundtrip by done.
  destruct (cn_DomainEntry n) as [e|]; cbn; [by rewrite domain_roundtrip by auto|].
  by destruct (cn_DNSRecord n).
Qed.

(** C6. message round trip.  A snapshot chunk arrives with its node, time,
    cursor and last flag intact and its items in order; each item keeps every
    field except the row timestamps and the [NeedCert] flag of a domain entry,
    which always arrives false.  A change notification arrives with its cursor
    and its domain entry if it has one, else its DNS record. *)
Theorem replication_roundtrip (s : Snapshot) (n : ChangeNotification) :
  valid_time (sn_CreatedAt s) -> Forall times_ok (sn_DomainEntries s) ->
  valid_time (cn_CreatedAt n) -> (forall e, cn_DomainEntry n = Some e -> times_ok e) ->
  SnapshotFromProto (SnapshotToProto s) =
    mkSnapshot (sn_NodeID s) (sn_CreatedAt s) (sn_SnapshotRecordID s)
      (wire_dns <$> sn_DNSRecords s) (wire_domain <$> sn_DomainEntries s) (sn_Last s) /\
  ChangeNotificationFromProto (ChangeNotificationToProto n) =
    mkChangeNotification (cn_NodeID n) (cn_CreatedAt n) (cn_SnapshotRecordID n)
      (match cn_DomainEntry n with Some _ => None | None => wire_dns <$> cn_DNSRecord n end)
      (wire_domain <$> cn_DomainEntry n).
Proof.
  intros Ht HF Htn He. split; [by apply snapshot_wire|by apply notice_wire].
Qed.

(** The wire form is stable: forwarding a received message changes nothing. *)
Lemma wire_dns_idemp r : wire_dns (wire_dns r) = wire_dns r.
Proof. done. Qed.

Lemma wire_domain_idemp p : wire_domain (wire_domain p) = wire_domain p.
Proof.
  destruct p as [h de nc c ty rs b]. unfold wire_domain. cbn. f_equal.
  - by destruct c.
  - rewrite <- list_fmap_compose. apply list_fmap_ext. intros _ [i pt pr ref] _. by destruct ref.
  - by destruct b.
Qed.

Definition sample_notice : ChangeNotification :=
  mkChangeNotification "master" (mkTime 1700000000 5) 3
    (Some (mkDNSRecord zero_Shared "r1" "a.example." "A" "first" 60 "1.2.3.4" "" true)) None.

Definition sample_snapshot : Snapshot :=
  mkSnapshot "slave" (mkTime 1700000000 0) 7 []
    [mkDomainEntryProjection "a.example" false true None BackendTypeL7HTTPS [] None] true.

Lemma replication_roundtrip_witness :
  SnapshotFromProto (SnapshotToProto sample_snapshot) =
    mkSnapshot "slave" (mkTime 1700000000 0) 7 []
      [mkDomainEntryProjection "a.example" false false None BackendTypeL7HTTPS [] None] true /\
  ChangeNotificationFromProto (ChangeNotificationToProto sample_notice) = sample_notice.
Proof.
  apply (replication_roundtrip sample_snapshot sample_notice).
  - vm_compute; split; congruence.
  - apply Forall_singleton. intros c [=].
  - vm_compute; split; congruence.
  - intros e [=].
Defined.
