(* ===== verification/Hub.v ===== *)
(** * The subscription hub: engine/master/hub.go

    Each subscription owns a buffered channel; a broadcast offers the
    notification to every channel and drops it where the buffer is full.  The
    only reader of a channel is the handler that unsubscribes it when it
    returns, so a channel lives in the hub exactly as long as it is read. *)

From S2P Require Import Prelude GoStrings GoTime Metadata Replication.

Open Scope Z_scope.

(** ** Channels *)

(** A buffered Go channel. *)
Record chan (A : Type) := mkChan { ch_cap : nat; ch_buf : list A }.
Arguments mkChan {A} _ _.
Arguments ch_cap {A} _.
Arguments ch_buf {A} _.

(** [select { case ch <- a: default: }] *)
Definition try_send {A} (a : A) (ch : chan A) : chan A :=
  if bool_decide (length (ch_buf ch) < ch_cap ch)%nat
  then mkChan (ch_cap ch) (ch_buf ch ++ [a])
  else ch.

(** [a := <-ch] when the channel is not empty. *)
Definition receive {A} (ch : chan A) : option (A * chan A) :=
  match ch_buf ch with
  | [] => None
  | a :: buf => Some (a, mkChan (ch_cap ch) buf)
  end.

(** ** The hub *)

Abbreviation notice_chan := (chan ChangeNotification).

Record Hub := mkHub {
  hub_subscribers : gmap string (gmap Z notice_chan);
  hub_nextID : Z;
}.

Definition NewHub : Hub := mkHub ∅ 0.

Definition Subscribe (nodeID : string) (buffer : nat) (h : Hub) : Hub * Z :=
  let id := u64 (hub_nextID h + 1) in
  let subs := default ∅ (hub_subscribers h !! nodeID) in
  (mkHub (<[nodeID := <[id := mkChan buffer []]> subs]> (hub_subscribers h)) id, id).

Definition Unsubscribe (nodeID : string) (id : Z) (h : Hub) : Hub :=
  match hub_subscribers h !! nodeID with
  | None => h
  | Some nodeSubs =>
      match nodeSubs !! id with
      | None => h
      | Some _ =>
          let nodeSubs := delete id nodeSubs in
          if bool_decide (nodeSubs = ∅)
          then mkHub (delete nodeID (hub_subscribers h)) (hub_nextID h)
          else mkHub (<[nodeID := nodeSubs]> (hub_subscribers h)) (hub_nextID h)
      end
  end.

(** [for _, ch := range nodeSubs { select { case ch <- n: default: } }].  The
    sends to different channels do not interact, so the order in which [range]
    visits them does not matter. *)
Definition send_all (n : ChangeNotification) (nodeSubs : gmap Z notice_chan)
    : gmap Z notice_chan :=
  try_send n <$> nodeSubs.

Definition Publish (nodeID : string) (n : ChangeNotification) (h : Hub) : Hub :=
  mkHub (alter (send_all n) nodeID (hub_subscribers h)) (hub_nextID h).

Definition Boardcast (n : ChangeNotification) (h : Hub) : Hub :=
  mkHub (send_all n <$> hub_subscribers h) (hub_nextID h).

(** The channel of a subscription. *)
Definition hub_chan (nodeID : string) (id : Z) (h : Hub) : option notice_chan :=
  hub_subscribers h !! nodeID ≫= fun subs => subs !! id.

(** [notice := <-ch] in the handler of subscription [id]. *)
Definition Receive (nodeID : string) (id : Z) (h : Hub) : Hub * option ChangeNotification :=
  match hub_chan nodeID id h ≫= receive with
  | None => (h, None)
  | Some (n, ch) =>
      (mkHub (alter (<[id := ch]>) nodeID (hub_subscribers h)) (hub_nextID h), Some n)
  end.

(** ** Channel lemmas *)

Lemma hub_chan_subscribe nodeID buffer h :
  let '(h', id) := Subscribe nodeID buffer h in hub_chan nodeID id h' = Some (mkChan buffer []).
Proof.
  unfold Subscribe, hub_chan. cbn. rewrite lookup_insert_eq. cbn. by rewrite lookup_insert_eq.
Qed.

Lemma hub_chan_subscribe_ne nodeID id node buffer h :
  (nodeID, id) <> (node, (Subscribe node buffer h).2) ->
  hub_chan nodeID id (Subscribe node buffer h).1 = hub_chan nodeID id h.
Proof.
  unfold Subscribe, hub_chan. cbn. intros Hne.
  destruct (decide (nodeID = node)) as [->|]; [|by rewrite lookup_insert_ne].
  rewrite lookup_insert_eq. cbn. rewrite lookup_insert_ne by congruence.
  by destruct (hub_subscribers h !! node).
Qed.

Lemma hub_chan_boardcast nodeID id n h :
  hub_chan nodeID id (Boardcast n h) = try_send n <$> hub_chan nodeID id h.
Proof.
  unfold hub_chan, Boardcast. cbn. rewrite lookup_fmap.
  destruct (hub_subscribers h !! nodeID); cbn; [|done]. unfold send_all. by rewrite lookup_fmap.
Qed.

Lemma hub_chan_publish nodeID id node n h :
  hub_chan nodeID id (Publish node n h) =
  if decide (node = nodeID) then try_send n <$> hub_chan nodeID id h else hub_chan nodeID id h.
Proof.
  unfold hub_chan, Publish. cbn. case_decide as E.
  - subst. rewrite lookup_alter_eq. destruct (hub_subscribers h !! nodeID); cbn; [|done].
    unfold send_all. by rewrite lookup_fmap.
  - by rewrite lookup_alter_ne.
Qed.

Lemma hub_chan_unsubscribe nodeID id node sub h :
  hub_chan nodeID id (Unsubscribe node sub h) =
  if decide (nodeID = node /\ id = sub) then None else hub_chan nodeID id h.
Proof.
  unfold hub_chan, Unsubscribe.
  destruct (hub_subscribers h !! node) as [subs|] eqn:E1; cbn.
  2: { case_decide as Ed; [|done]. destruct Ed as [-> ->]. by rewrite E1. }
  destruct (subs !! sub) as [ch|] eqn:E2; cbn.
  2: { case_decide as Ed; [|done]. destruct Ed as [-> ->]. by rewrite E1. }
  case_bool_decide as Hempty; cbn; destruct (decide (nodeID = node)) as [->|Hn].
  - rewrite lookup_delete_eq, E1. cbn. case_decide as Ed; [done|].
    assert (delete sub subs !! id = None) as Hd by (by rewrite Hempty).
    rewrite lookup_delete_ne in Hd by naive_solver. done.
  - rewrite lookup_delete_ne by done. rewrite decide_False by naive_solver. done.
  - rewrite lookup_insert_eq, E1. cbn. case_decide as Ed.
    + destruct Ed as [_ ->]. by rewrite lookup_delete_eq.
    + by rewrite lookup_delete_ne by naive_solver.
  - rewrite lookup_insert_ne by done. rewrite decide_False by naive_solver. done.
Qed.

Lemma hub_chan_receive nodeID id node sub h :
  hub_chan nodeID id (Receive node sub h).1 =
  if decide (nodeID = node /\ id = sub)
  then match hub_chan nodeID id h ≫= receive with
       | Some (_, ch) => Some ch
       | None => hub_chan nodeID id h
       end
  else hub_chan nodeID id h.
Proof.
  unfold Receive. destruct (hub_chan node sub h ≫= receive) as [[n ch]|] eqn:E.
  2: { case_decide as Ed; [destruct Ed as [-> ->]; by rewrite E|done]. }
  unfold hub_chan in *. cbn. destruct (decide (nodeID = node)) as [->|Hn].
  - rewrite lookup_alter_eq. destruct (hub_subscribers h !! node) as [subs|]; [|done]. cbn in *.
    case_decide as Ed.
    + destruct Ed as [_ ->]. by rewrite lookup_insert_eq, E.
    + by rewrite lookup_insert_ne by naive_solver.
  - rewrite lookup_alter_ne by done. rewrite decide_False by naive_solver. done.
Qed.

(** ** Subscription ids *)

(** Every open subscription has an id handed out before. *)
Definition hub_ids (h : Hub) : Prop :=
  0 <= hub_nextID h < 2 ^ 64 /\
  forall nodeID id ch, hub_chan nodeID id h = Some ch -> 1 <= id <= hub_nextID h.

(** Operations on the hub, in the order the lock serialises them. *)
Inductive hub_op :=
  | OpSubscribe (nodeID : string) (buffer : nat)
  | OpUnsubscribe (nodeID : string) (id : Z)
  | OpPublish (nodeID : string) (n : ChangeNotification)
  | OpBoardcast (n : ChangeNotification)
  | OpReceive (nodeID : string) (id : Z).

#[export] Instance hub_op_eq_dec : EqDecision hub_op.
Proof. solve_decision. Defined.

Definition hub_step (h : Hub) (op : hub_op) : Hub :=
  match op with
  | OpSubscribe nodeID buffer => (Subscribe nodeID buffer h).1
  | OpUnsubscribe nodeID id => Unsubscribe nodeID id h
  | OpPublish nodeID n => Publish nodeID n h
  | OpBoardcast n => Boardcast n h
  | OpReceive nodeID id => (Receive nodeID id h).1
  end.

Definition hub_run (h : Hub) (ops : list hub_op) : Hub := foldl hub_step h ops.

Lemma hub_nextID_step h op :
  hub_nextID (hub_step h op) =
  match op with OpSubscribe _ _ => u64 (hub_nextID h + 1) | _ => hub_nextID h end.
Proof.
  destruct op; cbn; try done.
  - unfold Unsubscribe. by repeat case_match.
  - unfold Receive. by repeat case_match.
Qed.

Lemma hub_step_chan h op nodeID id ch :
  hub_chan nodeID id (hub_step h op) = Some ch ->
  (exists ch', hub_chan nodeID id h = Some ch') \/
  exists buffer, op = OpSubscribe nodeID buffer /\ id = (Subscribe nodeID buffer h).2.
Proof.
  destruct op as [node buffer|node sub|node n|n|node sub]; cbn [hub_step].
  - destruct (decide ((nodeID, id) = (node, (Subscribe node buffer h).2))) as [E|E].
    + injection E as -> ->. eauto.
    + rewrite hub_chan_subscribe_ne by done. eauto.
  - rewrite hub_chan_unsubscribe. case_decide; [done|eauto].
  - rewrite hub_chan_publish. case_decide; [|eauto]. destruct (hub_chan nodeID id h); eauto.
  - rewrite hub_chan_boardcast. destruct (hub_chan nodeID id h); eauto.
  - rewrite hub_chan_receive. case_decide; [|eauto]. destruct (hub_chan nodeID id h); eauto.
Qed.

Lemma hub_step_ids h op :
  hub_ids h -> hub_nextID h + 1 < 2 ^ 64 -> hub_ids (hub_step h op).
Proof.
  intros [Hn Hids] Hlt.
  assert (u64 (hub_nextID h + 1) = hub_nextID h + 1) as Hu by (apply u64_small; split; lia).
  assert (hub_nextID h <= hub_nextID (hub_step h op) < 2 ^ 64) as Hmono.
  { rewrite hub_nextID_step. destruct op; lia. }
  split; [lia|]. intros nodeID id ch [[ch' Hch]|(buffer & -> & ->)]%hub_step_chan.
  - apply Hids in Hch. lia.
  - cbn. lia.
Qed.

Definition is_subscribe (op : hub_op) : bool :=
  match op with OpSubscribe _ _ => true | _ => false end.

(** The number of subscriptions made so far. *)
Definition subscriptions (ops : list hub_op) : nat :=
  length (filter (fun op => is_subscribe op = true) ops).

Lemma subscriptions_cons op ops :
  subscriptions (op :: ops) = ((if is_subscribe op then 1 else 0) + subscriptions ops)%nat.
Proof. unfold subscriptions. rewrite filter_cons. by destruct (is_subscribe op). Qed.

Lemma hub_nextID_step_small h op :
  hub_ids h -> hub_nextID h + 1 < 2 ^ 64 ->
  hub_nextID (hub_step h op) = hub_nextID h + (if is_subscribe op then 1 else 0).
Proof.
  intros [Hn _] Hlt. rewrite hub_nextID_step. destruct op; cbn; try lia.
  apply u64_small; split; lia.
Qed.

Lemma hub_run_ids h ops :
  hub_ids h -> hub_nextID h + Z.of_nat (subscriptions ops) + 1 < 2 ^ 64 ->
  hub_ids (hub_run h ops) /\
  hub_nextID (hub_run h ops) = hub_nextID h + Z.of_nat (subscriptions ops).
Proof.
  revert h. induction ops as [|op ops IH]; intros h Hh Hlt; cbn [hub_run foldl].
  { by rewrite Z.add_0_r. }
  rewrite subscriptions_cons in *.
  pose proof (hub_nextID_step_small h op Hh ltac:(lia)) as Hn.
  destruct (IH (hub_step h op)) as [? E]; [apply hub_step_ids; [done|lia]|..].
  { rewrite Hn. destruct (is_subscribe op); lia. }
  split; [done|]. unfold hub_run in E. rewrite E, Hn. destruct (is_subscribe op); lia.
Qed.

(** ** Delivery *)

(** The notifications offered to a node's subscriptions. *)
Definition offered (nodeID : string) (ops : list hub_op) : list ChangeNotification :=
  ops ≫= fun op =>
    match op with
    | OpPublish node n => if decide (node = nodeID) then [n] else []
    | OpBoardcast n => [n]
    | _ => []
    end.

(** What the handler of a subscription takes from its channel. *)
Fixpoint received (nodeID : string) (id : Z) (h : Hub) (ops : list hub_op)
    : list ChangeNotification :=
  match ops with
  | [] => []
  | op :: ops =>
      (if decide (op = OpReceive nodeID id) then option_list (Receive nodeID id h).2 else [])
      ++ received nodeID id (hub_step h op) ops
  end.

(** One operation, seen from one open channel: what it adds, what it takes. *)
Lemma hub_step_delivery h op nodeID id ch :
  hub_ids h -> hub_nextID h + 1 < 2 ^ 64 ->
  hub_chan nodeID id h = Some ch -> op <> OpUnsubscribe nodeID id ->
  exists ch', hub_chan nodeID id (hub_step h op) = Some ch' /\ ch_cap ch' = ch_cap ch /\
    exists kept, sublist kept (offered nodeID [op]) /\
      ch_buf ch ++ kept =
        (if decide (op = OpReceive nodeID id) then option_list (Receive nodeID id h).2 else [])
        ++ ch_buf ch' /\
      (length (ch_buf ch) <= ch_cap ch -> length (ch_buf ch') <= ch_cap ch)%nat /\
      (length (ch_buf ch) < ch_cap ch -> kept = offered nodeID [op])%nat.
Proof.
  intros Hids Hlt Hch Hop.
  assert (forall n, exists ch', try_send n <$> hub_chan nodeID id h = Some ch' /\
    ch_cap ch' = ch_cap ch /\ exists kept, sublist kept [n] /\ ch_buf ch ++ kept = ch_buf ch' /\
      (length (ch_buf ch) <= ch_cap ch -> length (ch_buf ch') <= ch_cap ch)%nat /\
      (length (ch_buf ch) < ch_cap ch -> kept = [n])%nat) as Hsend.
  { intros n. rewrite Hch. eexists. split; [done|]. unfold try_send. case_bool_decide; cbn.
    - split; [done|]. exists [n]. rewrite length_app. cbn. split_and!; done || lia.
    - split; [done|]. exists []. rewrite app_nil_r. split_and!; apply sublist_nil_l || done || lia. }
  destruct op as [node buffer|node sub|node n|n|node sub]; cbn [hub_step].
  - rewrite hub_chan_subscribe_ne; [|].
    2: { intros [= -> ->]. apply Hids in Hch. cbn in Hch.
         rewrite u64_small in Hch by (destruct Hids; split; lia). lia. }
    exists ch. split_and!; [done..|]. exists []. rewrite decide_False by done.
    rewrite app_nil_r. done.
  - rewrite hub_chan_unsubscribe, decide_False by naive_solver.
    exists ch. split_and!; [done..|]. exists []. rewrite decide_False by done.
    rewrite app_nil_r. done.
  - rewrite hub_chan_publish. unfold offered. cbn [mbind list_bind]. rewrite app_nil_r.
    rewrite (decide_False (P := OpPublish node n = _)) by done.
    case_decide; [apply Hsend|]. exists ch. split_and!; [done..|]. exists [].
    by rewrite app_nil_r.
  - rewrite hub_chan_boardcast, decide_False by done. apply Hsend.
  - rewrite hub_chan_receive. unfold offered. cbn [mbind list_bind]. case_decide as Ed.
    + destruct Ed as [<- <-]. rewrite decide_True by done. unfold Receive. rewrite Hch. cbn.
      unfold receive. destruct (ch_buf ch) as [|a buf] eqn:Eb; cbn; eexists; (split; [done|]).
      * split; [done|]. exists []. by rewrite Eb.
      * split; [done|]. exists []. cbn. rewrite app_nil_r. split_and!; try done. lia.
    + rewrite decide_False by naive_solver. exists ch. split_and!; [done..|]. exists [].
      by rewrite !app_nil_r.
Qed.

Lemma offered_cons nodeID op ops :
  offered nodeID (op :: ops) = offered nodeID [op] ++ offered nodeID ops.
Proof. unfold offered. cbn [mbind list_bind]. by rewrite app_nil_r. Qed.

Lemma hub_run_delivery h ops nodeID id ch :
  hub_ids h -> hub_nextID h + Z.of_nat (subscriptions ops) + 1 < 2 ^ 64 ->
  hub_chan nodeID id h = Some ch -> (length (ch_buf ch) <= ch_cap ch)%nat ->
  OpUnsubscribe nodeID id ∉ ops ->
  exists ch', hub_chan nodeID id (hub_run h ops) = Some ch' /\
    (length (ch_buf ch') <= ch_cap ch)%nat /\
    sublist (received nodeID id h ops ++ ch_buf ch') (ch_buf ch ++ offered nodeID ops) /\
    (length (ch_buf ch) + length (offered nodeID ops) <= ch_cap ch ->
     received nodeID id h ops ++ ch_buf ch' = ch_buf ch ++ offered nodeID ops)%nat.
Proof.
  revert h ch. induction ops as [|op ops IH]; intros h ch Hids Hlt Hch Hlen Hun.
  { exists ch. cbn. by rewrite app_nil_r. }
  rewrite subscriptions_cons in Hlt. apply not_elem_of_cons in Hun as [Hop Hun].
  destruct (hub_step_delivery h op nodeID id ch) as
    (ch1 & Hch1 & Hcap & kept & Hsub & Hbuf & Hle & Hroom); [done|lia|done|congruence|].
  destruct (IH (hub_step h op) ch1) as (ch' & Hch' & Hl & Hs & Heq); try done.
  { apply hub_step_ids; [done|lia]. }
  { rewrite hub_nextID_step_small by (done || lia). destruct (is_subscribe op); lia. }
  { rewrite Hcap. auto. }
  exists ch'. rewrite Hcap in *. rewrite offered_cons. cbn [received].
  set (r := if decide _ then _ else _) in *. split_and!; [done..| |].
  - rewrite <- app_assoc. transitivity (r ++ ch_buf ch1 ++ offered nodeID ops).
    + by apply sublist_app.
    + rewrite app_assoc, <- Hbuf, <- app_assoc. by repeat apply sublist_app.
  - rewrite length_app. intros Hfit.
    assert (kept = offered nodeID [op]) as Hk.
    { destruct (offered nodeID [op]) eqn:E.
      - by apply sublist_nil_r.
      - apply Hroom. cbn in Hfit. lia. }
    rewrite <- app_assoc, Heq.
    + by rewrite app_assoc, <- Hbuf, Hk, <- app_assoc.
    + apply (f_equal length) in Hbuf. rewrite Hk, !length_app in Hbuf. lia.
Qed.


Definition sample_notices : list ChangeNotification :=
  (fun i => mkChangeNotification "master" zero_time i None None) <$> [1; 2; 3].

