(* ===== verification/MasterEngine.v ===== *)
(** * The master's replication side: engine/master/engine.go, engine/master/hub.go

    Broadcasting a change: read the row, append a record to the snapshot log,
    offer a notification to every subscriber.  Serving a snapshot: replay the
    log after a cursor in chunks of at most a thousand items. *)

From S2P Require Import Prelude GoStrings GoTime Metadata Gorm Repository Replication Hub.

Open Scope Z_scope.

Section master.
Context {GM : GormModel} {GDB : Gorm Tables stmt stmt_effect}.

Record Engine := mkEngine {
  en_NODE_ID : string;
  en_Repo : db;
  en_Hub : Hub;
}.

Definition on_Repo {A} (m : go db A) : go Engine A :=
  zoom en_Repo (fun d e => mkEngine (en_NODE_ID e) d (en_Hub e)) m.

Definition on_Hub (f : Hub -> Hub) : go Engine () :=
  modify (fun e => mkEngine (en_NODE_ID e) (en_Repo e) (f (en_Hub e))).

(** ** hub.go: publishing a change *)

Definition appendSnapshotRecord (syncType : SnapshotSyncType) (syncID : string)
    (action : SnapshotAction) : go Engine Z :=
  let record := mkSnapshotRecord 0 syncType syncID action zero_time in
  record ← on_Repo (AppendSnapshotRecord record);
  mret (sr_ID record).

Definition snapshotAction (deleted : bool) : SnapshotAction :=
  if deleted then SnapshotActionDelete else SnapshotActionUpsert.

Definition BoardcastDNSRecord (now : Time) (recordID : string) : go Engine () :=
  r ← attempt (on_Repo (GetResourceByField DNSRecord "id" recordID));
  match r with
  | Err e => if bool_decide (e = ErrRecordNotFound) then mret tt else throw e
  | Ok record =>
      snapshotRecordID ← appendSnapshotRecord SnapshotSyncTypeDNSRecord recordID
                           (snapshotAction (dr_Deleted record));
      e ← get_state;
      on_Hub (Boardcast (mkChangeNotification (en_NODE_ID e) now snapshotRecordID
                           (Some record) None))
  end.

Definition BoardcastDomainEndpointProjection (now : Time) (hostname : string) : go Engine () :=
  r ← attempt (on_Repo (GetDomainEntryProjectionByDomain hostname));
  match r with
  | Err e => if bool_decide (e = ErrRecordNotFound) then mret tt else throw e
  | Ok entry =>
      snapshotRecordID ← appendSnapshotRecord SnapshotSyncTypeDomainEntryProjection hostname
                           (snapshotAction (dp_Deleted entry));
      e ← get_state;
      on_Hub (Boardcast (mkChangeNotification (en_NODE_ID e) now snapshotRecordID
                           None (Some entry)))
  end.

(** ** api_manage.go: publishing a deletion *)

Definition broadcastDeletedDomainEntry (now : Time) (hostname : string) (entry : DomainEntryProjection)
    : go Engine () :=
  snapshotRecordID ← appendSnapshotRecord SnapshotSyncTypeDomainEntryProjection hostname
                       SnapshotActionDelete;
  e ← get_state;
  on_Hub (Boardcast (mkChangeNotification (en_NODE_ID e) now snapshotRecordID None (Some entry))).

Definition broadcastDeletedDNSRecord (now : Time) (record : DNSRecord) : go Engine () :=
  snapshotRecordID ← appendSnapshotRecord SnapshotSyncTypeDNSRecord (dr_ID record) SnapshotActionDelete;
  e ← get_state;
  on_Hub (Boardcast (mkChangeNotification (en_NODE_ID e) now snapshotRecordID (Some record) None)).

(** ** engine.go: serving a snapshot *)

Section snapshot.
(** The stream: the error, if any, of sending a chunk after those already
    sent; and the clock when the i-th chunk is started. *)
Context (send : list Snapshot -> Snapshot -> option error) (now : nat -> Time) (nodeID : string).

Record snapshot_loop := mkLoop {
  sl_Repo : db;
  sl_chunk : Snapshot;
  sl_count : Z;
  sl_lastSeen : Z;
  sl_sent : list Snapshot;
}.

Definition new_chunk (sent : nat) : Snapshot := mkSnapshot nodeID (now sent) 0 [] [] false.

Definition sendChunk (last : bool) : go snapshot_loop () := fun st =>
  let c := sl_chunk st in
  let chunk := mkSnapshot (sn_NodeID c) (sn_CreatedAt c) (sl_lastSeen st) (sn_DNSRecords c)
                 (sn_DomainEntries c) last in
  if bool_decide (sn_DNSRecords chunk = []) && bool_decide (sn_DomainEntries chunk = []) &&
     negb last
  then (mkLoop (sl_Repo st) chunk (sl_count st) (sl_lastSeen st) (sl_sent st), Ok tt)
  else match send (sl_sent st) chunk with
       | Some e => (mkLoop (sl_Repo st) chunk (sl_count st) (sl_lastSeen st) (sl_sent st), Err e)
       | None => (mkLoop (sl_Repo st) (new_chunk (S (length (sl_sent st)))) 0 (sl_lastSeen st)
                    (sl_sent st ++ [chunk]), Ok tt)
       end.

Definition loop_Repo {A} (m : go db A) : go snapshot_loop A :=
  zoom sl_Repo (fun d st => mkLoop d (sl_chunk st) (sl_count st) (sl_lastSeen st) (sl_sent st)) m.

Definition add_dns (item : DNSRecord) (c : Snapshot) : Snapshot :=
  mkSnapshot (sn_NodeID c) (sn_CreatedAt c) (sn_SnapshotRecordID c)
    (sn_DNSRecords c ++ [item]) (sn_DomainEntries c) (sn_Last c).

Definition add_domain (item : DomainEntryProjection) (c : Snapshot) : Snapshot :=
  mkSnapshot (sn_NodeID c) (sn_CreatedAt c) (sn_SnapshotRecordID c)
    (sn_DNSRecords c) (sn_DomainEntries c ++ [item]) (sn_Last c).

Definition count_item (f : Snapshot -> Snapshot) : go snapshot_loop () :=
  modify (fun st => mkLoop (sl_Repo st) (f (sl_chunk st)) (sl_count st + 1) (sl_lastSeen st)
                      (sl_sent st)).

Definition see_record (id : Z) : go snapshot_loop () :=
  modify (fun st => mkLoop (sl_Repo st) (sl_chunk st) (sl_count st) id (sl_sent st)).

(** The [switch record.SyncType]. *)
Definition add_item (record : SnapshotRecord) : go snapshot_loop () :=
  if bool_decide (sr_SyncType record = SnapshotSyncTypeDNSRecord) then
    r ← attempt (loop_Repo (GetResourceByField DNSRecord "id" (sr_SyncID record)));
    match r with Ok item => count_item (add_dns item) | Err _ => mret tt end
  else if bool_decide (sr_SyncType record = SnapshotSyncTypeDomainEntryProjection) then
    r ← attempt (loop_Repo (GetDomainEntryProjectionByDomain (sr_SyncID record)));
    match r with Ok item => count_item (add_domain item) | Err _ => mret tt end
  else mret tt.

Definition snapshot_record (record : SnapshotRecord) : go snapshot_loop () :=
  see_record (sr_ID record) ≫= fun _ =>
  add_item record ≫= fun _ =>
  st ← get_state;
  if bool_decide (1000 <= sl_count st) then sendChunk false else mret tt.

(** The chunks sent, whether or not the handler returns an error. *)
Definition handleGetSnapshot (snapshotRecordID : Z) (d : db) : db * list Snapshot * result () :=
  match ListSnapshotRecordsAfter snapshotRecordID d with
  | (d1, Err e) => (d1, [], Err e)
  | (d1, Ok records) =>
      let st := mkLoop d1 (new_chunk 0) 0 snapshotRecordID [] in
      let '(st', r) := (for_each snapshot_record records ≫= fun _ => sendChunk true) st in
      (sl_Repo st', sl_sent st', r)
  end.

End snapshot.

(** ** engine.go: serving a subscription *)

(** The branch a [select] takes in the loop of [handleSubscribe]. *)
Inductive select_case :=
  | CtxDone (err : error)
  | NoticeReady.

Inductive iteration :=
  | Continue (sent : ChangeNotification)
  | Blocked
  | Return (r : result ()).

(** One iteration; a return runs the deferred [Unsubscribe]. *)
Definition handleSubscribe_iter (send : ChangeNotification -> option error) (nodeID : string)
    (subID : Z) (c : select_case) (h : Hub) : Hub * iteration :=
  match c with
  | CtxDone err => (Unsubscribe nodeID subID h, Return (Err err))
  | NoticeReady =>
      match Receive nodeID subID h with
      | (h', None) => (h', Blocked)
      | (h', Some notice) =>
          let msg := mkChangeNotification (cn_NodeID notice) (cn_CreatedAt notice)
                       (cn_SnapshotRecordID notice) (cn_DNSRecord notice)
                       (cn_DomainEntry notice) in
          match send msg with
          | Some err => (Unsubscribe nodeID subID h', Return (Err err))
          | None => (h', Continue msg)
          end
      end
  end.

(** The buffer [handleSubscribe] asks for. *)
Definition subscribe_buffer : nat := 128.

(** ** engine.go: serving a certificate bundle *)

Definition handleFetchCertificateBundle
    (Bundles : option (string -> Z -> result (option CertificateBundle)))
    (hostname : string) (revision : Z) : result CertificateBundle :=
  match Bundles with
  | None => Err (errors_New "certificate bundle provider is not configured")
  | Some FetchCertificateBundle =>
      bundle ← FetchCertificateBundle hostname revision;
      match bundle with
      | None => Err (errors_New "certificate bundle not found")
      | Some b => mret (mkCertificateBundle (cb_Hostname b) (cb_Revision b) (cb_TLSCrt b)
                          (cb_TLSKey b) (cb_MetadataJSON b))
      end
  end.

End master.
