(* ===== verification/MasterFacts.v ===== *)
(** * Correctness of broadcasts and snapshots *)

From S2P Require Import Prelude GoStrings GoTime Metadata Gorm Repository RepositoryFacts.
From S2P Require Import Replication Hub MasterEngine.

Open Scope Z_scope.

(** ** Reading one live row *)

(** The row a key denotes, when it is not deleted. *)
Definition live_row {M} `{!Resource M} (t : Tables) (key : string) : option M :=
  res_get t !! key ≫= fun r => if res_deleted r then None else Some r.

Lemma rows_where_live {M} `{!Resource M} (t : Tables) key :
  keyed (res_get (M:=M) t) -> rows_where res_key key t = option_list (live_row (M:=M) t key).
Proof.
  intros Hk. rewrite rows_where_key by done. unfold live_row.
  destruct (res_get t !! key) as [r|]; cbn; [|done]. by destruct (res_deleted r).
Qed.

Lemma rows_where_live_row {M} {R : Resource M} t col v (r : M) :
  known M R -> tables_wf t -> r ∈ rows_where col v t -> live_row t (res_key r) = Some r /\ col r = v.
Proof.
  intros Hk Hwf Hr. apply elem_of_rows_where in Hr as ((k & Hin) & Hd & Hc).
  pose proof (get_keyed _ _ _ Hk Hwf _ _ Hin) as Hkey. cbn in Hkey. split; [|done].
  unfold live_row. rewrite Hkey, Hin. cbn. by rewrite Hd.
Qed.

Lemma snapshots_after_sorted after t :
  log_sorted (tb_snapshots t) -> log_sorted (snapshots_after after t).
Proof. apply StronglySorted_filter. Qed.

Lemma log_sorted_inj log x y :
  log_sorted log -> x ∈ log -> y ∈ log -> sr_ID x = sr_ID y -> x = y.
Proof.
  induction 1 as [|z log Hs IH HF]; [by intros ?%elem_of_nil|].
  rewrite Forall_forall in HF.
  intros [->|Hx]%elem_of_cons [->|Hy]%elem_of_cons E; auto; exfalso.
  - specialize (HF _ Hy). lia.
  - specialize (HF _ Hx). lia.
Qed.

Section facts.
Context {GM : GormModel} {GDB : Gorm Tables stmt stmt_effect}.

(** The projection a query may return for a host: the first row of some
    ordering of the join. *)
Definition projects (t : Tables) (h : string) (p : DomainEntryProjection) : Prop :=
  exists first rs, p = projection_of_rows first (first :: rs) /\
    first :: rs ≡ₚ projection_rows h t /\
    StronglySorted (fun x y => projection_leb x y = true) (first :: rs).

Lemma get_dns_rows id d : rows (GetResourceByField DNSRecord "id" id d).1 = rows d.
Proof. apply first_row_rows. Qed.

Lemma get_dns_ok id d r :
  tables_wf (rows d) ->
  (GetResourceByField DNSRecord "id" id d).2 = Ok r -> live_row (rows d) id = Some r.
Proof.
  intros Hwf Hr%first_row_ok.
  change (r ∈ rows_where (M:=DNSRecord) res_key id (rows d)) in Hr.
  rewrite rows_where_live in Hr by apply Hwf.
  destruct (live_row (rows d) id) as [r'|]; cbn in Hr.
  - apply list_elem_of_singleton in Hr. congruence.
  - by apply elem_of_nil in Hr.
Qed.

Lemma get_dns_not_found id d :
  tables_wf (rows d) ->
  (GetResourceByField DNSRecord "id" id d).2 = Err ErrRecordNotFound ->
  live_row (M:=DNSRecord) (rows d) id = None.
Proof.
  intros Hwf Hr%first_row_not_found.
  change (rows_where (M:=DNSRecord) res_key id (rows d) = []) in Hr.
  rewrite rows_where_live in Hr by apply Hwf. by destruct (live_row (rows d) id).
Qed.

Lemma get_projection_rows h d : rows (GetDomainEntryProjectionByDomain h d).1 = rows d.
Proof.
  unfold GetDomainEntryProjectionByDomain, mbind, go_bind.
  pose proof (select_rows (projection_rows h) projection_leb d) as H.
  destruct (select (projection_rows h) projection_leb d) as [d' [[|r l]|e]]; done.
Qed.

Lemma get_projection_ok h d p :
  (GetDomainEntryProjectionByDomain h d).2 = Ok p -> projects (rows d) h p.
Proof.
  intros H. eapply (projection_ok h d (GetDomainEntryProjectionByDomain h d).1).
  rewrite <- H. by destruct (GetDomainEntryProjectionByDomain h d).
Qed.

(** The join has a row exactly when the domain is live. *)
Lemma projection_rows_live h t :
  tables_wf t -> projection_rows h t = [] <-> live_row (M:=DomainEndpoint) t h = None.
Proof.
  intros Hwf. unfold live_row. cbn. split.
  - intros Hnil. destruct (tb_domains t !! h) as [de|] eqn:Ede; [|done]. cbn.
    destruct (sh_Deleted (de_Shared de)) eqn:Edel; [done|]. exfalso.
    set (certs := rows_where cr_Hostname h t).
    assert (exists oc, match oc with Some c => c ∈ certs /\ is_max_revision certs c
                       | None => certs = [] end) as [oc Hoc].
    { destruct (decide (certs = [])) as [E|E]; [by exists None|].
      destruct (exists_max_revision _ E) as (c & ? & ?). by exists (Some c). }
    assert (exists hr, match hr with Some r => r ∈ rows_where hr_Hostname h t
                       | None => rows_where hr_Hostname h t = [] end) as [hr Hhr].
    { destruct (rows_where hr_Hostname h t) as [|r l]; [by exists None|].
      exists (Some r). set_solver. }
    assert (mkProjectionRow de oc hr (hr ≫= fun r => live_backend t (hr_BackendRefID r))
      (live_backend t (de_BindedServiceID de)) ∈ projection_rows h t) as Hin.
    { apply elem_of_projection_rows; [done|]. cbn. eauto 10. }
    rewrite Hnil in Hin. by apply elem_of_nil in Hin.
  - intros Hnone. destruct (projection_rows h t) as [|row l] eqn:E; [done|].
    assert (row ∈ projection_rows h t) as Hin by (rewrite E; set_solver).
    apply elem_of_projection_rows in Hin as ([Hd Hdel] & _); [|done].
    rewrite Hd in Hnone. cbn in Hnone. by rewrite Hdel in Hnone.
Qed.

Lemma get_projection_not_found h d :
  tables_wf (rows d) ->
  (GetDomainEntryProjectionByDomain h d).2 = Err ErrRecordNotFound ->
  live_row (M:=DomainEndpoint) (rows d) h = None.
Proof.
  intros Hwf. rewrite <- projection_rows_live by done.
  unfold GetDomainEntryProjectionByDomain, mbind, go_bind.
  pose proof (select_perm (projection_rows h) projection_leb d) as Hp.
  pose proof (select_err (projection_rows h) projection_leb d) as He.
  destruct (select (projection_rows h) projection_leb d) as [d' [[|r l]|e]]; cbn; try done.
  - intros _. specialize (Hp [] eq_refl). by apply Permutation_nil in Hp.
  - intros [= ->]. by destruct (He ErrRecordNotFound).
Qed.

(** ** Broadcasts *)

(** A change published by a broadcast: its log record and its notification. *)
Definition published_as (action : SnapshotAction) (e e' : Engine) (syncType syncID : string)
    (n : ChangeNotification) : Prop :=
  exists record, rows (en_Repo e') = append_snapshot record (rows (en_Repo e)) /\
    sr_SyncType record = syncType /\ sr_SyncID record = syncID /\
    sr_Action record = action /\ cn_SnapshotRecordID n = sr_ID record /\
    Forall (fun r => sr_ID r < sr_ID record) (tb_snapshots (rows (en_Repo e))) /\
    en_Hub e' = Boardcast n (en_Hub e).

Definition published : Engine -> Engine -> string -> string -> ChangeNotification -> Prop :=
  published_as SnapshotActionUpsert.

(** No effect: the tables and the hub are as before. *)
Definition untouched (e e' : Engine) : Prop :=
  rows (en_Repo e') = rows (en_Repo e) /\ en_Hub e' = en_Hub e.

Lemma append_record_cases syncType syncID action e :
  let '(e', r) := appendSnapshotRecord syncType syncID action e in
  en_Hub e' = en_Hub e /\ en_NODE_ID e' = en_NODE_ID e /\
  match r with
  | Ok id => rows (en_Repo e') = append_snapshot
               (mkSnapshotRecord id syncType syncID action zero_time) (rows (en_Repo e)) /\
             Forall (fun r => sr_ID r < id) (tb_snapshots (rows (en_Repo e)))
  | Err _ => rows (en_Repo e') = rows (en_Repo e)
  end.
Proof.
  unfold appendSnapshotRecord, AppendSnapshotRecord, on_Repo, zoom.
  cbv [mbind go_bind mret go_ret].
  set (s := CreateSnapshot _). pose proof (exec_ok s (en_Repo e)) as Ho.
  pose proof (exec_err s (en_Repo e)) as Hr.
  destruct (exec s (en_Repo e)) as [d' [id|er]]; cbn in *;
    (split; [done|split; [done|]]); [|eauto].
  specialize (Ho id eq_refl). cbn in Ho. destruct (forallb _ _) eqn:E in Ho; [|done].
  injection Ho as Ho. split; [done|].
  apply Is_true_true, forallb_True in E. eapply Forall_impl; [exact E|]. cbn.
  intros x Hx. by apply bool_decide_unpack in Hx.
Qed.

(** The two broadcasts share their shape: look the item up, log it, offer it. *)
Lemma publish_cases {A} (read : go db A) (notfound : Tables -> Prop) (item : Tables -> A -> Prop)
    (deleted : A -> bool) (notice : string -> Z -> A -> ChangeNotification)
    (syncType syncID : string) e :
  (forall d, rows (read d).1 = rows d) ->
  (forall d, tables_wf (rows d) -> (read d).2 = Err ErrRecordNotFound -> notfound (rows d)) ->
  (forall d a, tables_wf (rows d) -> (read d).2 = Ok a -> item (rows d) a /\ deleted a = false) ->
  (forall node id a, cn_SnapshotRecordID (notice node id a) = id) ->
  tables_wf (rows (en_Repo e)) ->
  let '(e', r) := (r ← attempt (on_Repo read);
    match r with
    | Err er => if bool_decide (er = ErrRecordNotFound) then mret tt else throw er
    | Ok a => id ← appendSnapshotRecord syncType syncID (snapshotAction (deleted a));
              e ← get_state; on_Hub (Boardcast (notice (en_NODE_ID e) id a))
    end) e in
  match r with
  | Ok _ => (notfound (rows (en_Repo e)) /\ untouched e e') \/
            exists a id, item (rows (en_Repo e)) a /\
              published e e' syncType syncID (notice (en_NODE_ID e) id a)
  | Err _ => untouched e e'
  end.
Proof.
  intros Hrows Hnf Hok Hid Hwf.
  specialize (Hrows (en_Repo e)). specialize (Hnf (en_Repo e)). specialize (Hok (en_Repo e)).
  cbv [mbind go_bind attempt on_Repo zoom].
  destruct (read (en_Repo e)) as [d1 [a|er]]; cbn in Hrows, Hnf, Hok.
  - destruct (Hok a Hwf eq_refl) as [Hitem Hdel]. rewrite Hdel.
    set (e1 := mkEngine _ d1 _).
    pose proof (append_record_cases syncType syncID (snapshotAction false) e1) as H.
    destruct (appendSnapshotRecord _ _ _ e1) as [e2 [id|er]]; cbn in *; destruct H as (Hh & Hn & H).
    + right. exists a, id. split; [done|]. rewrite Hrows in H. destruct H as [H1 H2].
      rewrite Hn, Hh. eexists. split_and!; [exact H1|..]; done || apply Hid.
    + split; [by rewrite H|done].
  - case_bool_decide as E; cbn; [left|]; repeat split; eauto. apply Hnf; congruence.
Qed.

Lemma boardcast_dns_cases now id e :
  tables_wf (rows (en_Repo e)) ->
  let '(e', r) := BoardcastDNSRecord now id e in
  match r with
  | Ok _ =>
      (live_row (M:=DNSRecord) (rows (en_Repo e)) id = None /\ untouched e e') \/
      exists record logid, live_row (rows (en_Repo e)) id = Some record /\
        published e e' SnapshotSyncTypeDNSRecord id
          (mkChangeNotification (en_NODE_ID e) now logid (Some record) None)
  | Err _ => untouched e e'
  end.
Proof.
  intros Hwf.
  apply (publish_cases (GetResourceByField DNSRecord "id" id)
    (fun t => live_row (M:=DNSRecord) t id = None) (fun t r => live_row t id = Some r)
    (fun r => dr_Deleted r)
    (fun node logid r => mkChangeNotification node now logid (Some r) None)); try done.
  - apply get_dns_rows.
  - apply get_dns_not_found.
  - intros d r Hd Hr. pose proof (get_dns_ok _ _ _ Hd Hr) as Hl. split; [done|].
    unfold live_row in Hl. cbn in Hl. destruct (tb_dns (rows d) !! id) as [r'|]; [|done].
    cbn in Hl. destruct (sh_Deleted (dr_Shared r')) eqn:E; [done|]. by injection Hl as <-.
Qed.

(** Broadcasting.  A successful [BoardcastDNSRecord] either found no live
    record and did nothing, or appended one upsert record to the snapshot log,
    with an id above every earlier one, and offered every subscriber the live
    row under that id.  A failed one left the log and the subscribers alone. *)
Theorem boardcast_dns now id e :
  tables_wf (rows (en_Repo e)) ->
  let '(e', r) := BoardcastDNSRecord now id e in
  match r with
  | Ok _ =>
      (live_row (M:=DNSRecord) (rows (en_Repo e)) id = None /\ untouched e e') \/
      exists record logid, live_row (rows (en_Repo e)) id = Some record /\
        published e e' SnapshotSyncTypeDNSRecord id
          (mkChangeNotification (en_NODE_ID e) now logid (Some record) None)
  | Err _ => untouched e e'
  end.
Proof. apply boardcast_dns_cases. Qed.

(** A deletion is published, or nothing happens. *)
Lemma deletion_cases syncType syncID (notice : string -> Z -> ChangeNotification) e :
  (forall node id, cn_SnapshotRecordID (notice node id) = id) ->
  let '(e', r) := (snapshotRecordID ← appendSnapshotRecord syncType syncID SnapshotActionDelete;
                   e ← get_state;
                   on_Hub (Boardcast (notice (en_NODE_ID e) snapshotRecordID))) e in
  match r with
  | Ok _ => exists id, published_as SnapshotActionDelete e e' syncType syncID (notice (en_NODE_ID e) id)
  | Err _ => untouched e e'
  end.
Proof.
  intros Hid. pose proof (append_record_cases syncType syncID SnapshotActionDelete e) as H.
  cbv [mbind go_bind]. destruct (appendSnapshotRecord _ _ _ e) as [e1 [id|er]]; destruct H as (Hh & Hn & H).
  - cbn. exists id. destruct H as [H1 H2]. rewrite Hn, Hh. eexists. split_and!; [exact H1|..]; done || apply Hid.
  - by split.
Qed.

Lemma deleted_dns_cases now record e :
  let '(e', r) := broadcastDeletedDNSRecord now record e in
  match r with
  | Ok _ => exists id, published_as SnapshotActionDelete e e' SnapshotSyncTypeDNSRecord (dr_ID record)
              (mkChangeNotification (en_NODE_ID e) now id (Some record) None)
  | Err _ => untouched e e'
  end.
Proof. by apply (deletion_cases _ _ (fun node id => mkChangeNotification node now id (Some record) None)). Qed.

Lemma deleted_domain_cases now hostname entry e :
  let '(e', r) := broadcastDeletedDomainEntry now hostname entry e in
  match r with
  | Ok _ => exists id, published_as SnapshotActionDelete e e' SnapshotSyncTypeDomainEntryProjection hostname
              (mkChangeNotification (en_NODE_ID e) now id None (Some entry))
  | Err _ => untouched e e'
  end.
Proof. by apply (deletion_cases _ _ (fun node id => mkChangeNotification node now id None (Some entry))). Qed.

Lemma projects_deleted t h p : projects t h p -> dp_Deleted p = false.
Proof.
  intros (first & rs & -> & _ & _). unfold projection_of_rows. by destruct (is_L4 _).
Qed.

Lemma boardcast_domain now h e :
  tables_wf (rows (en_Repo e)) ->
  let '(e', r) := BoardcastDomainEndpointProjection now h e in
  match r with
  | Ok _ =>
      (live_row (M:=DomainEndpoint) (rows (en_Repo e)) h = None /\ untouched e e') \/
      exists p logid, projects (rows (en_Repo e)) h p /\
        published e e' SnapshotSyncTypeDomainEntryProjection h
          (mkChangeNotification (en_NODE_ID e) now logid None (Some p))
  | Err _ => untouched e e'
  end.
Proof.
  intros Hwf.
  apply (publish_cases (GetDomainEntryProjectionByDomain h)
    (fun t => live_row (M:=DomainEndpoint) t h = None) (fun t p => projects t h p) dp_Deleted
    (fun node logid p => mkChangeNotification node now logid None (Some p))); try done.
  - apply get_projection_rows.
  - apply get_projection_not_found.
  - intros d p Hd Hp. pose proof (get_projection_ok _ _ _ Hp). split; [done|].
    by eapply projects_deleted.
Qed.

(** ** Snapshots *)

(** No query fails while the snapshot is served. *)
Definition reads_succeed : Prop :=
  forall (R : Type) (f : Tables -> list R) leb d, is_ok (select f leb d).2 = true.

Lemma get_dns_total id d e :
  reads_succeed -> (GetResourceByField DNSRecord "id" id d).2 = Err e -> e = ErrRecordNotFound.
Proof.
  intros Hok.
  change (GetResourceByField DNSRecord "id" id) with
    (first_row (rows_where dr_ID id) (order_asc dr_ID)).
  unfold first_row. cbv [mbind go_bind]. pose proof (Hok _ (rows_where dr_ID id) (order_asc dr_ID) d) as H.
  destruct (select _ _ d) as [d' [[|r l]|er]]; cbn; [by intros [= <-]|done|done].
Qed.

Lemma get_projection_total h d e :
  reads_succeed -> (GetDomainEntryProjectionByDomain h d).2 = Err e -> e = ErrRecordNotFound.
Proof.
  intros Hok. unfold GetDomainEntryProjectionByDomain. cbv [mbind go_bind].
  pose proof (Hok _ (projection_rows h) projection_leb d) as H.
  destruct (select _ _ d) as [d' [[|r l]|er]]; cbn; [by intros [= <-]|done|done].
Qed.

Lemma list_snapshots_ok after d :
  reads_succeed -> tables_wf (rows d) ->
  exists d', ListSnapshotRecordsAfter after d = (d', Ok (snapshots_after after (rows d))) /\
    rows d' = rows d.
Proof.
  intros Hok Hwf. unfold ListSnapshotRecordsAfter.
  pose proof (Hok _ (snapshots_after after) snapshot_leb d) as Hs.
  pose proof (select_rows (snapshots_after after) snapshot_leb d) as Hr.
  pose proof (select_perm (snapshots_after after) snapshot_leb d) as Hp.
  pose proof (select_sorted (snapshots_after after) snapshot_leb d) as Hso.
  destruct (select _ _ d) as [d' [l|er]]; [|done]. cbn in *. exists d'.
  assert (l = snapshots_after after (rows d)) as ->; [|done].
  assert (log_sorted (snapshots_after after (rows d))) as Hlog
    by (apply snapshots_after_sorted, Hwf).
  apply (StronglySorted_unique_strong (fun x y => snapshot_leb x y = true)).
  - intros x y Hx Hy Hle1 Hle2. rewrite (Hp l eq_refl) in Hx. unfold snapshot_leb in *.
    apply bool_decide_eq_true in Hle1, Hle2. eapply log_sorted_inj; eauto. lia.
  - by apply Hso; [apply snapshot_order|].
  - eapply StronglySorted_weaken; [|exact Hlog]. intros x y Hxy. cbn in Hxy. apply bool_decide_eq_true. lia.
  - by apply Hp.
Qed.
(** What the log entries stand for now: for each entry, in order, the live row
    of its item; nothing for an item that is gone. *)
Inductive answers (t : Tables)
    : list SnapshotRecord -> list DNSRecord -> list DomainEntryProjection -> Prop :=
  | answers_nil : answers t [] [] []
  | answers_dns rs r dns domains :
      answers t rs dns domains -> sr_SyncType r = SnapshotSyncTypeDNSRecord ->
      answers t (rs ++ [r]) (dns ++ option_list (live_row t (sr_SyncID r))) domains
  | answers_domain rs r dns domains p :
      answers t rs dns domains -> sr_SyncType r = SnapshotSyncTypeDomainEntryProjection ->
      projects t (sr_SyncID r) p ->
      answers t (rs ++ [r]) dns (domains ++ [p])
  | answers_gone rs r dns domains :
      answers t rs dns domains -> sr_SyncType r = SnapshotSyncTypeDomainEntryProjection ->
      live_row (M:=DomainEndpoint) t (sr_SyncID r) = None ->
      answers t (rs ++ [r]) dns domains
  | answers_other rs r dns domains :
      answers t rs dns domains -> sr_SyncType r <> SnapshotSyncTypeDNSRecord ->
      sr_SyncType r <> SnapshotSyncTypeDomainEntryProjection ->
      answers t (rs ++ [r]) dns domains.

Definition chunk_size (c : Snapshot) : nat :=
  (length (sn_DNSRecords c) + length (sn_DomainEntries c))%nat.

(** The cursor after reading the entries [rs] from cursor [after]. *)
Definition cursor_after (after : Z) (rs : list SnapshotRecord) : Z :=
  default after (sr_ID <$> last rs).

(** A list of log entries cut into chunks: every chunk answers a run of
    consecutive entries and carries the id of the last of them; all but the
    last are full. *)
Inductive chunks_of (t : Tables) : Z -> list SnapshotRecord -> list Snapshot -> Prop :=
  | chunks_last after rs c :
      answers t rs (sn_DNSRecords c) (sn_DomainEntries c) ->
      sn_SnapshotRecordID c = cursor_after after rs -> sn_Last c = true ->
      (chunk_size c < 1000)%nat ->
      chunks_of t after rs [c]
  | chunks_more after rs rs' c cs :
      answers t rs (sn_DNSRecords c) (sn_DomainEntries c) ->
      sn_SnapshotRecordID c = cursor_after after rs -> sn_Last c = false ->
      chunk_size c = 1000%nat ->
      chunks_of t (sn_SnapshotRecordID c) rs' cs ->
      chunks_of t after (rs ++ rs') (c :: cs).

Lemma cursor_after_snoc after rs r : cursor_after after (rs ++ [r]) = sr_ID r.
Proof. unfold cursor_after. by rewrite last_snoc. Qed.

Section serving.
Context (send : list Snapshot -> Snapshot -> option error) (now : nat -> Time) (nodeID : string).
Context (Hreads : reads_succeed).

(** The loop between two entries: the open chunk answers the entries [rs] read
    since the cursor [after] of the previous chunk. *)
Definition loop_inv (t : Tables) (after : Z) (rs : list SnapshotRecord) (st : snapshot_loop)
    : Prop :=
  rows (sl_Repo st) = t /\
  answers t rs (sn_DNSRecords (sl_chunk st)) (sn_DomainEntries (sl_chunk st)) /\
  sl_count st = Z.of_nat (chunk_size (sl_chunk st)) /\
  sl_lastSeen st = cursor_after after rs.

Lemma add_item_inv t after rs r st :
  tables_wf t -> loop_inv t after rs st ->
  exists st', (see_record (sr_ID r) ≫= fun _ => add_item r) st = (st', Ok tt) /\
    loop_inv t after (rs ++ [r]) st' /\ sl_sent st' = sl_sent st /\
    sl_count st <= sl_count st' <= sl_count st + 1.
Proof.
  intros Hwf (Hrows & Hans & Hcnt & Hlast).
  cbv [mbind go_bind see_record modify add_item].
  case_bool_decide as E1; [|case_bool_decide as E2].
  - cbv [attempt loop_Repo zoom]. cbn [sl_Repo].
    pose proof (get_dns_rows (sr_SyncID r) (sl_Repo st)) as Hr.
    pose proof (get_dns_ok (sr_SyncID r) (sl_Repo st)) as Hok.
    pose proof (get_dns_not_found (sr_SyncID r) (sl_Repo st)) as Hnf.
    pose proof (fun e => get_dns_total (sr_SyncID r) (sl_Repo st) e Hreads) as Htot. rewrite Hrows in *.
    pose proof (answers_dns t rs r _ _ Hans E1) as Hstep.
    destruct (GetResourceByField DNSRecord "id" (sr_SyncID r) (sl_Repo st)) as [d1 [item|er]];
      cbn in *; eexists; (split; [done|]).
    + rewrite (Hok item Hwf eq_refl) in Hstep. unfold loop_inv, chunk_size. cbn.
      rewrite cursor_after_snoc, length_app. unfold chunk_size in Hcnt. cbn.
      split_and!; try done; lia.
    + rewrite (Htot er eq_refl) in Hnf. rewrite (Hnf Hwf eq_refl), app_nil_r in Hstep.
      unfold loop_inv. cbn. rewrite cursor_after_snoc. split_and!; try done; lia.
  - cbv [attempt loop_Repo zoom]. cbn [sl_Repo].
    pose proof (get_projection_rows (sr_SyncID r) (sl_Repo st)) as Hr.
    pose proof (get_projection_ok (sr_SyncID r) (sl_Repo st)) as Hok.
    pose proof (get_projection_not_found (sr_SyncID r) (sl_Repo st)) as Hnf.
    pose proof (fun e => get_projection_total (sr_SyncID r) (sl_Repo st) e Hreads) as Htot.
    rewrite Hrows in *.
    destruct (GetDomainEntryProjectionByDomain (sr_SyncID r) (sl_Repo st)) as [d1 [item|er]];
      cbn in *; eexists; (split; [done|]); unfold loop_inv; cbn; rewrite cursor_after_snoc.
    + pose proof (answers_domain t rs r _ _ _ Hans E2 (Hok item eq_refl)).
      unfold chunk_size in *. cbn. rewrite length_app. cbn. split_and!; try done; lia.
    + rewrite (Htot er eq_refl) in Hnf.
      pose proof (answers_gone t rs r _ _ Hans E2 (Hnf Hwf eq_refl)). split_and!; try done; lia.
  - eexists. split; [done|]. unfold loop_inv. cbn. rewrite cursor_after_snoc.
    pose proof (answers_other t rs r _ _ Hans E1 E2). split_and!; try done; lia.
Qed.

Context (Hsend : forall sent c, send sent c = None).

Lemma sendChunk_inv t after rs st last :
  loop_inv t after rs st -> (last = false -> 1000 <= sl_count st) ->
  exists st' c, sendChunk send now nodeID last st = (st', Ok tt) /\
    sl_sent st' = sl_sent st ++ [c] /\
    answers t rs (sn_DNSRecords c) (sn_DomainEntries c) /\
    sn_SnapshotRecordID c = cursor_after after rs /\ sn_Last c = last /\
    sl_count st = Z.of_nat (chunk_size c) /\
    loop_inv t (sn_SnapshotRecordID c) [] st' /\ sl_count st' = 0.
Proof.
  intros (Hrows & Hans & Hcnt & Hlast) Hfull. unfold sendChunk. cbn zeta.
  destruct (bool_decide _ && bool_decide _ && negb last) eqn:E.
  { apply andb_prop in E as [[E1 E2]%andb_prop E3].
    apply bool_decide_eq_true in E1, E2. destruct last; [done|]. exfalso. specialize (Hfull eq_refl).
    cbn in E1, E2. unfold chunk_size in Hcnt. rewrite E1, E2 in Hcnt. cbn in Hcnt. lia. }
  rewrite Hsend. eexists _, _. split; [done|]. cbn. split; [done|].
  split_and!; try done. unfold loop_inv. cbn. split_and!; try done. constructor.
Qed.

Lemma snapshot_record_inv t after rs r st :
  tables_wf t -> loop_inv t after rs st -> sl_count st < 1000 ->
  exists st', snapshot_record send now nodeID r st = (st', Ok tt) /\ sl_count st' < 1000 /\
    ((loop_inv t after (rs ++ [r]) st' /\ sl_sent st' = sl_sent st) \/
     exists c, sl_sent st' = sl_sent st ++ [c] /\
       answers t (rs ++ [r]) (sn_DNSRecords c) (sn_DomainEntries c) /\
       sn_SnapshotRecordID c = cursor_after after (rs ++ [r]) /\ sn_Last c = false /\
       chunk_size c = 1000%nat /\ loop_inv t (sn_SnapshotRecordID c) [] st').
Proof.
  intros Hwf Hinv Hlt.
  destruct (add_item_inv t after rs r st Hwf Hinv) as (st1 & Hrun & Hinv1 & Hsent & Hcnt).
  unfold snapshot_record. cbv [mbind go_bind see_record modify get_state] in *.
  rewrite Hrun. case_bool_decide as Hfull; [|exists st1; split_and!; auto; lia].
  destruct (sendChunk_inv t after (rs ++ [r]) st1 false Hinv1 ltac:(done))
    as (st2 & c & Hs & Hst & Hans & Hcur & Hl & Hc & Hinv2 & H0).
  exists st2. split; [done|]. split; [lia|]. right. exists c. rewrite Hst, Hsent.
  split_and!; try done. lia.
Qed.

Lemma snapshot_loop_run t records :
  tables_wf t -> forall after rs st, loop_inv t after rs st -> sl_count st < 1000 ->
  exists st' cs,
    (for_each (snapshot_record send now nodeID) records ≫= fun _ =>
       sendChunk send now nodeID true) st = (st', Ok tt) /\
    sl_sent st' = sl_sent st ++ cs /\ chunks_of t after (rs ++ records) cs /\
    rows (sl_Repo st') = t.
Proof.
  intros Hwf. induction records as [|r records IH]; intros after rs st Hinv Hlt.
  - destruct (sendChunk_inv t after rs st true Hinv ltac:(done))
      as (st' & c & Hs & Hst & Hans & Hcur & Hl & Hc & Hinv2 & H0).
    exists st', [c]. cbn [for_each]. cbv [mbind go_bind mret go_ret]. split; [done|].
    rewrite app_nil_r. split; [done|]. split; [|apply Hinv2]. apply chunks_last; try done. lia.
  - destruct (snapshot_record_inv t after rs r st Hwf Hinv Hlt)
      as (st1 & Hrun & Hlt1 & [[Hinv1 Hsent]|(c & Hst & Hans & Hcur & Hl & Hc & Hinv1)]).
    + destruct (IH after (rs ++ [r]) st1 Hinv1 Hlt1) as (st' & cs & Hr & Hs & Hch & Hrows).
      exists st', cs. cbn [for_each]. cbv [mbind go_bind] in *. rewrite Hrun.
      rewrite <- app_assoc in Hch. split_and!; try done. by rewrite Hs, Hsent.
    + destruct (IH (sn_SnapshotRecordID c) [] st1 Hinv1 Hlt1) as (st' & cs & Hr & Hs & Hch & Hrows).
      exists st', (c :: cs). cbn [for_each]. cbv [mbind go_bind] in *. rewrite Hrun.
      split; [done|]. rewrite Hs, Hst, <- app_assoc. split; [done|]. split; [|done].
      rewrite cons_middle, app_assoc. by apply chunks_more.
Qed.

Lemma snapshot_chunks after d :
  tables_wf (rows d) ->
  exists d' chunks, handleGetSnapshot send now nodeID after d = (d', chunks, Ok tt) /\
    rows d' = rows d /\ chunks_of (rows d) after (snapshots_after after (rows d)) chunks.
Proof.
  intros Hwf. unfold handleGetSnapshot.
  destruct (list_snapshots_ok after d Hreads Hwf) as (d1 & Hl & Hrows). rewrite Hl.
  destruct (snapshot_loop_run (rows d) (snapshots_after after (rows d)) Hwf after []
    (mkLoop d1 (new_chunk now nodeID 0) 0 after [])) as (st' & cs & Hr & Hs & Hch & Hrows');
    [..|cbn; lia|].
  { unfold loop_inv. cbn. split_and!; try done. constructor. }
  rewrite Hr. exists (sl_Repo st'), (sl_sent st'). rewrite Hs. done.
Qed.

(** Serving a snapshot.  When the database answers and the stream accepts
    the chunks, [handleGetSnapshot] succeeds and leaves the tables alone; the
    chunks answer exactly the log entries after the slave's cursor, in order:
    every chunk but the last holds a thousand items, only the last is marked
    so, and each chunk's cursor is the id of the last entry it covers, so a
    slave that stops after any chunk can resume from its cursor. *)
Theorem get_snapshot_chunks after d :
  tables_wf (rows d) ->
  exists d' chunks, handleGetSnapshot send now nodeID after d = (d', chunks, Ok tt) /\
    rows d' = rows d /\ chunks_of (rows d) after (snapshots_after after (rows d)) chunks.
Proof. apply snapshot_chunks. Qed.

End serving.
End facts.

(** ** Concrete runs *)

Lemma memory_reads : @reads_succeed plain_model memory_gorm.
Proof. intros R f leb d. by apply mem_select_ok. Qed.

Definition sample_dns (id : string) : DNSRecord :=
  mkDNSRecord zero_Shared id "a.example." DNSTypeA RoutingClassFirst 60 "[1.2.3.4]" "" true.

(** A log of four entries: a live DNS record, a deleted one, a live domain and
    an unknown domain. *)
Definition logged_tables : Tables :=
  mkTables (tb_domains sample_tables) (tb_backends sample_tables) (tb_routes sample_tables)
    {["d1" := sample_dns "d1"; "d2" := set_dr_Deleted (sample_dns "d2") true]}
    (tb_certs sample_tables)
    [mkSnapshotRecord 1 SnapshotSyncTypeDNSRecord "d1" SnapshotActionUpsert zero_time;
     mkSnapshotRecord 2 SnapshotSyncTypeDNSRecord "d2" SnapshotActionUpsert zero_time;
     mkSnapshotRecord 3 SnapshotSyncTypeDomainEntryProjection "a.example" SnapshotActionUpsert
       zero_time;
     mkSnapshotRecord 4 SnapshotSyncTypeDomainEntryProjection "b.example" SnapshotActionUpsert
       zero_time].

Lemma logged_tables_wf : tables_wf logged_tables.
Proof.
  unfold tables_wf. split_and!; [apply (bool_decide_unpack _); vm_compute; exact I..|].
  repeat constructor.
Qed.

Definition sample_engine : @Engine plain_model memory_gorm :=
  mkEngine "master" (memory_db logged_tables) NewHub.

Lemma boardcast_dns_witness :
  let '(e', r) := BoardcastDNSRecord zero_time "d1" sample_engine in
  is_ok r = true /\
  exists record logid, live_row logged_tables "d1" = Some record /\
    published sample_engine e' SnapshotSyncTypeDNSRecord "d1"
      (mkChangeNotification "master" zero_time logid (Some record) None).
Proof.
  pose proof (boardcast_dns zero_time "d1" sample_engine logged_tables_wf) as H.
  assert (is_ok (BoardcastDNSRecord zero_time "d1" sample_engine).2 = true) as Hok
    by (vm_compute; reflexivity).
  destruct (BoardcastDNSRecord zero_time "d1" sample_engine) as [e' [u|er]]; [|discriminate Hok].
  split; [reflexivity|]. destruct H as [[Hn _]|H]; [|exact H]. vm_compute in Hn. discriminate Hn.
Defined.

Lemma get_snapshot_chunks_witness :
  exists d' chunks,
    handleGetSnapshot (fun _ _ => None) (fun _ => zero_time) "edge-1" 1 (memory_db logged_tables) =
      (d', chunks, Ok tt) /\
    (sn_SnapshotRecordID <$> chunks) = [4] /\
    chunks_of logged_tables 1 (snapshots_after 1 logged_tables) chunks.
Proof.
  destruct (get_snapshot_chunks (fun _ _ => None) (fun _ => zero_time) "edge-1" memory_reads
    (fun _ _ => eq_refl) 1 (memory_db logged_tables) logged_tables_wf) as (d' & cs & Hr & _ & Hc).
  exists d', cs. split; [exact Hr|]. split; [|exact Hc].
  change cs with ((d', cs, @Ok () tt).1.2). rewrite <- Hr. vm_compute. reflexivity.
Defined.
