(* ===== verification/MetadataJson.v ===== *)
(** * encoding/json on the metadata model

    The slave keeps each cached item as the JSON text of its struct.  A JSON
    text is represented by its syntax tree; the encoders follow the [json] tags
    of repository/metadata (the fields of the embedded [Shared] are promoted),
    the decoders look fields up by those tags and leave the zero value where a
    field is missing. *)

From S2P Require Import Prelude GoStrings GoTime Metadata.

Open Scope Z_scope.

#[local] Unset Program Cases.
#[local] Obligation Tactic := idtac.

Inductive json :=
  | JNull
  | JBool (b : bool)
  | JNum (z : Z)
  | JString (s : string)
  | JTime (t : Time)
  | JArray (l : list json)
  | JObject (fields : list (string * json)).

(** A Go type with its encoding. *)
Class Json (A : Type) := {
  json_Marshal : A -> result json;
  json_Unmarshal : json -> result A;
  json_zero : A;
  json_roundtrip : forall a j, json_Marshal a = Ok j -> json_Unmarshal j = Ok a;
}.

Definition json_type_error (j : json) : error := errors_New "json: cannot unmarshal value".

#[export, program] Instance json_bool : Json bool := {
  json_Marshal b := Ok (JBool b);
  json_Unmarshal j := match j with JBool b => Ok b | JNull => Ok false | _ => Err (json_type_error j) end;
  json_zero := false;
}.
Next Obligation. by intros a j [= <-]. Qed.

#[export, program] Instance json_string : Json string := {
  json_Marshal s := Ok (JString s);
  json_Unmarshal j := match j with JString s => Ok s | JNull => Ok "" | _ => Err (json_type_error j) end;
  json_zero := "";
}.
Next Obligation. by intros a j [= <-]. Qed.

#[export, program] Instance json_Z : Json Z := {
  json_Marshal z := Ok (JNum z);
  json_Unmarshal j := match j with JNum z => Ok z | JNull => Ok 0 | _ => Err (json_type_error j) end;
  json_zero := 0;
}.
Next Obligation. by intros a j [= <-]. Qed.

(** [Time.MarshalJSON] rejects a year outside [0,9999]. *)
Definition json_time_ok (t : Time) : bool :=
  bool_decide (-62167219200 <= t_sec t < 253402300800).

#[export, program] Instance json_Time : Json Time := {
  json_Marshal t := if json_time_ok t then Ok (JTime t)
                    else Err (errors_New "Time.MarshalJSON: year outside of range [0,9999]");
  json_Unmarshal j := match j with JTime t => Ok t | JNull => Ok zero_time | _ => Err (json_type_error j) end;
  json_zero := zero_time;
}.
Next Obligation. intros a j. cbn. destruct (json_time_ok a); [by intros [= <-]|done]. Qed.

(** A struct is encoded as an object. *)
Class JsonStruct (A : Type) `{!Json A} :=
  json_object : forall (a : A) j, json_Marshal a = Ok j -> exists fields, j = JObject fields.

(** A pointer to a struct: [nil] is [null]. *)
#[export, program] Instance json_pointer `{JsonStruct A} : Json (option A) := {
  json_Marshal o := match o with None => Ok JNull | Some a => json_Marshal a end;
  json_Unmarshal j := match j with JNull => Ok None | _ => a ← json_Unmarshal j; mret (Some a) end;
  json_zero := None;
}.
Next Obligation.
  intros A HA Hs [a|] j; cbn; [|by intros [= <-]]. intros Hj.
  destruct (Hs _ _ Hj) as [fields ->]. by rewrite (json_roundtrip _ _ Hj).
Qed.

(** A slice. *)
Fixpoint map_result {A B} (f : A -> result B) (l : list A) : result (list B) :=
  match l with
  | [] => Ok []
  | a :: l => b ← f a; bs ← map_result f l; Ok (b :: bs)
  end.

Lemma map_result_roundtrip {A B} (f : A -> result B) (g : B -> result A) l l' :
  (forall a b, f a = Ok b -> g b = Ok a) -> map_result f l = Ok l' -> map_result g l' = Ok l.
Proof.
  intros Hfg. revert l'. induction l as [|a l IH]; cbn; intros l' H; [by simplify_eq|].
  apply result_bind_ok in H as (b & Hb & (bs & Hbs & H)%result_bind_ok). simplify_eq. cbn.
  by rewrite (Hfg _ _ Hb), (IH _ Hbs).
Qed.

#[export, program] Instance json_slice `{!Json A} : Json (list A) := {
  json_Marshal l := JArray <$> map_result json_Marshal l;
  json_Unmarshal j := match j with
                      | JArray l => map_result json_Unmarshal l
                      | JNull => Ok []
                      | _ => Err (json_type_error j)
                      end;
  json_zero := [];
}.
Next Obligation.
  intros A HA l j. cbn. destruct (map_result json_Marshal l) as [js|] eqn:E; cbn; [|done].
  intros [= <-]. eapply map_result_roundtrip; [|done]. apply json_roundtrip.
Qed.

(** A struct field. *)
Definition field {A} `{!Json A} (tag : string) (a : A) : result (string * json) :=
  pair tag <$> json_Marshal a.

Fixpoint find_field (tag : string) (fields : list (string * json)) : option json :=
  match fields with
  | [] => None
  | (k, j) :: fields => if String.eqb k tag then Some j else find_field tag fields
  end.

Definition get_field {A} `{!Json A} (tag : string) (fields : list (string * json)) : result A :=
  match find_field tag fields with
  | None => Ok json_zero
  | Some j => json_Unmarshal j
  end.

Definition as_object (j : json) : result (list (string * json)) :=
  match j with
  | JObject fields => Ok fields
  | JNull => Ok []
  | _ => Err (json_type_error j)
  end.

Lemma field_ok {A} `{!Json A} tag (a : A) f :
  field tag a = Ok f -> exists j, f = (tag, j) /\ json_Unmarshal j = Ok a.
Proof.
  unfold field. destruct (json_Marshal a) as [j|] eqn:E; cbn; [|done].
  intros [= <-]. exists j. split; [done|]. by apply json_roundtrip.
Qed.

(** Unfold an encoder that succeeded into its fields. *)
Ltac json_fields :=
  repeat match goal with
  | H : _ ≫= _ = Ok _ |- _ => apply result_bind_ok in H as (? & ? & H)
  | H : field _ _ = Ok _ |- _ => apply field_ok in H as (? & -> & H)
  | H : mret _ = Ok _ |- _ => injection H as <-
  end;
  unfold get_field;
  cbn [as_object mbind result_bind find_field String.eqb Ascii.eqb Bool.eqb];
  repeat match goal with
  | H : json_Unmarshal ?j = Ok _ |- context [json_Unmarshal ?j] =>
      rewrite H; cbn [mbind result_bind]
  end.

#[export, program] Instance json_DNSRecord : Json DNSRecord := {
  json_Marshal r :=
    f1 ← field "deleted" (sh_Deleted (dr_Shared r));
    f2 ← field "created_at" (sh_CreatedAt (dr_Shared r));
    f3 ← field "updated_at" (sh_UpdatedAt (dr_Shared r));
    f4 ← field "id" (dr_ID r);
    f5 ← field "fqdn" (dr_FQDN r);
    f6 ← field "record_type" (dr_RecordType r);
    f7 ← field "routing_class" (dr_RoutingClass r);
    f8 ← field "ttl_seconds" (dr_TTLSeconds r);
    f9 ← field "values_json" (dr_ValuesJSON r);
    f10 ← field "routing_key" (dr_RoutingKey r);
    f11 ← field "enabled" (dr_Enabled r);
    mret (JObject [f1; f2; f3; f4; f5; f6; f7; f8; f9; f10; f11]);
  json_Unmarshal j :=
    o ← as_object j;
    deleted ← get_field "deleted" o;
    created ← get_field "created_at" o;
    updated ← get_field "updated_at" o;
    id ← get_field "id" o;
    fqdn ← get_field "fqdn" o;
    ty ← get_field "record_type" o;
    class ← get_field "routing_class" o;
    ttl ← get_field "ttl_seconds" o;
    values ← get_field "values_json" o;
    key ← get_field "routing_key" o;
    enabled ← get_field "enabled" o;
    mret (mkDNSRecord (mkShared deleted created updated) id fqdn ty class ttl values key enabled);
  json_zero := zero_DNSRecord;
}.
Next Obligation.
  intros [[]] j H. cbv beta in H |- *. json_fields. done.
Qed.
#[export] Instance json_DNSRecord_struct : JsonStruct DNSRecord.
Proof. intros a j H. unfold json_Marshal, json_DNSRecord in H. json_fields. eauto. Qed.

#[export, program] Instance json_ServiceBackendRef : Json ServiceBackendRef := {
  json_Marshal b :=
    f1 ← field "deleted" (sh_Deleted (sb_Shared b));
    f2 ← field "created_at" (sh_CreatedAt (sb_Shared b));
    f3 ← field "updated_at" (sh_UpdatedAt (sb_Shared b));
    f4 ← field "id" (sb_ID b);
    f5 ← field "type" (sb_Type b);
    f6 ← field "arbitrary_endpoint" (sb_ArbitraryEndpoint b);
    f7 ← field "service_namespace" (sb_ServiceNamespace b);
    f8 ← field "service_name" (sb_ServiceName b);
    f9 ← field "service_port" (sb_Port b);
    mret (JObject [f1; f2; f3; f4; f5; f6; f7; f8; f9]);
  json_Unmarshal j :=
    o ← as_object j;
    deleted ← get_field "deleted" o;
    created ← get_field "created_at" o;
    updated ← get_field "updated_at" o;
    id ← get_field "id" o;
    ty ← get_field "type" o;
    endpoint ← get_field "arbitrary_endpoint" o;
    ns ← get_field "service_namespace" o;
    name ← get_field "service_name" o;
    port ← get_field "service_port" o;
    mret (mkServiceBackendRef (mkShared deleted created updated) id ty endpoint ns name port);
  json_zero := mkServiceBackendRef zero_Shared "" "" "" "" "" 0;
}.
Next Obligation.
  intros [[]] j H. cbv beta in H |- *. json_fields. done.
Qed.
#[export] Instance json_ServiceBackendRef_struct : JsonStruct ServiceBackendRef.
Proof. intros a j H. unfold json_Marshal, json_ServiceBackendRef in H. json_fields. eauto. Qed.

#[export, program] Instance json_CertificateRevision : Json CertificateRevision := {
  json_Marshal c :=
    f1 ← field "deleted" (sh_Deleted (cr_Shared c));
    f2 ← field "created_at" (sh_CreatedAt (cr_Shared c));
    f3 ← field "updated_at" (sh_UpdatedAt (cr_Shared c));
    f4 ← field "id" (cr_ID c);
    f5 ← field "hostname" (cr_Hostname c);
    f6 ← field "revision" (cr_Revision c);
    f7 ← field "provider" (cr_Provider c);
    f8 ← field "challenge_type" (cr_ChallengeType c);
    f9 ← field "artifact_bucket" (cr_ArtifactBucket c);
    f10 ← field "artifact_prefix" (cr_ArtifactPrefix c);
    f11 ← field "sha256_crt" (cr_SHA256Crt c);
    f12 ← field "sha256_key" (cr_SHA256Key c);
    f13 ← field "not_before" (cr_NotBefore c);
    f14 ← field "not_after" (cr_NotAfter c);
    mret (JObject [f1; f2; f3; f4; f5; f6; f7; f8; f9; f10; f11; f12; f13; f14]);
  json_Unmarshal j :=
    o ← as_object j;
    deleted ← get_field "deleted" o;
    created ← get_field "created_at" o;
    updated ← get_field "updated_at" o;
    id ← get_field "id" o;
    hostname ← get_field "hostname" o;
    revision ← get_field "revision" o;
    provider ← get_field "provider" o;
    challenge ← get_field "challenge_type" o;
    bucket ← get_field "artifact_bucket" o;
    prefix ← get_field "artifact_prefix" o;
    crt ← get_field "sha256_crt" o;
    key ← get_field "sha256_key" o;
    before ← get_field "not_before" o;
    after ← get_field "not_after" o;
    mret (mkCertificateRevision (mkShared deleted created updated) id hostname revision provider challenge bucket prefix crt
            key before after);
  json_zero := mkCertificateRevision zero_Shared "" "" 0 "" "" "" "" "" "" zero_time zero_time;
}.
Next Obligation.
  intros [[]] j H. cbv beta in H |- *. json_fields. done.
Qed.
#[export] Instance json_CertificateRevision_struct : JsonStruct CertificateRevision.
Proof. intros a j H. unfold json_Marshal, json_CertificateRevision in H. json_fields. eauto. Qed.

#[export, program] Instance json_HTTPRouteProjection : Json HTTPRouteProjection := {
  json_Marshal r :=
    f1 ← field "id" (rp_ID r);
    f2 ← field "path" (rp_Path r);
    f3 ← field "priority" (rp_Priority r);
    f4 ← field "backend_ref" (rp_BackendRef r);
    mret (JObject [f1; f2; f3; f4]);
  json_Unmarshal j :=
    o ← as_object j;
    id ← get_field "id" o;
    path ← get_field "path" o;
    priority ← get_field "priority" o;
    backend ← get_field "backend_ref" o;
    mret (mkHTTPRouteProjection id path priority backend);
  json_zero := mkHTTPRouteProjection "" "" 0 None;
}.
Next Obligation.
  intros [] j H. cbv beta in H |- *. json_fields. done.
Qed.
#[export] Instance json_HTTPRouteProjection_struct : JsonStruct HTTPRouteProjection.
Proof. intros a j H. unfold json_Marshal, json_HTTPRouteProjection in H. json_fields. eauto. Qed.

#[export, program] Instance json_DomainEntryProjection : Json DomainEntryProjection := {
  json_Marshal p :=
    f1 ← field "hostname" (dp_Hostname p);
    f2 ← field "deleted" (dp_Deleted p);
    f3 ← field "need_cert" (dp_NeedCert p);
    f4 ← field "cert" (dp_Cert p);
    f5 ← field "backend_type" (dp_BackendType p);
    f6 ← field "http_routes" (dp_HTTPRoutes p);
    f7 ← field "binded_backend_ref" (dp_BindedBackendRef p);
    mret (JObject [f1; f2; f3; f4; f5; f6; f7]);
  json_Unmarshal j :=
    o ← as_object j;
    hostname ← get_field "hostname" o;
    deleted ← get_field "deleted" o;
    need ← get_field "need_cert" o;
    cert ← get_field "cert" o;
    ty ← get_field "backend_type" o;
    routes ← get_field "http_routes" o;
    binded ← get_field "binded_backend_ref" o;
    mret (mkDomainEntryProjection hostname deleted need cert ty routes binded);
  json_zero := zero_DomainEntryProjection;
}.
Next Obligation.
  intros [] j H. cbv beta in H |- *. json_fields. done.
Qed.
#[export] Instance json_DomainEntryProjection_struct : JsonStruct DomainEntryProjection.
Proof. intros a j H. unfold json_Marshal, json_DomainEntryProjection in H. json_fields. eauto. Qed.

#[export, program] Instance json_DomainEndpoint : Json DomainEndpoint := {
  json_Marshal d :=
    f1 ← field "deleted" (sh_Deleted (de_Shared d));
    f2 ← field "created_at" (sh_CreatedAt (de_Shared d));
    f3 ← field "updated_at" (sh_UpdatedAt (de_Shared d));
    f4 ← field "hostname" (de_Hostname d);
    f5 ← field "need_cert" (de_NeedCert d);
    f6 ← field "backend_type" (de_BackendType d);
    f7 ← field "binded_service_ref" (de_BindedServiceID d);
    mret (JObject [f1; f2; f3; f4; f5; f6; f7]);
  json_Unmarshal j :=
    o ← as_object j;
    deleted ← get_field "deleted" o;
    created ← get_field "created_at" o;
    updated ← get_field "updated_at" o;
    hostname ← get_field "hostname" o;
    needCert ← get_field "need_cert" o;
    ty ← get_field "backend_type" o;
    service ← get_field "binded_service_ref" o;
    mret (mkDomainEndpoint (mkShared deleted created updated) hostname needCert ty service);
  json_zero := mkDomainEndpoint zero_Shared "" false "" "";
}.
Next Obligation.
  intros [[]] j H. cbv beta in H |- *. json_fields. done.
Qed.
#[export] Instance json_DomainEndpoint_struct : JsonStruct DomainEndpoint.
Proof. intros a j H. unfold json_Marshal, json_DomainEndpoint in H. json_fields. eauto. Qed.

#[export, program] Instance json_HTTPRoute : Json HTTPRoute := {
  json_Marshal r :=
    f1 ← field "deleted" (sh_Deleted (hr_Shared r));
    f2 ← field "created_at" (sh_CreatedAt (hr_Shared r));
    f3 ← field "updated_at" (sh_UpdatedAt (hr_Shared r));
    f4 ← field "id" (hr_ID r);
    f5 ← field "hostname" (hr_Hostname r);
    f6 ← field "path" (hr_Path r);
    f7 ← field "priority" (hr_Priority r);
    f8 ← field "backend_ref_id" (hr_BackendRefID r);
    mret (JObject [f1; f2; f3; f4; f5; f6; f7; f8]);
  json_Unmarshal j :=
    o ← as_object j;
    deleted ← get_field "deleted" o;
    created ← get_field "created_at" o;
    updated ← get_field "updated_at" o;
    id ← get_field "id" o;
    hostname ← get_field "hostname" o;
    path ← get_field "path" o;
    priority ← get_field "priority" o;
    ref ← get_field "backend_ref_id" o;
    mret (mkHTTPRoute (mkShared deleted created updated) id hostname path priority ref);
  json_zero := mkHTTPRoute zero_Shared "" "" "" 0 "";
}.
Next Obligation.
  intros [[]] j H. cbv beta in H |- *. json_fields. done.
Qed.
#[export] Instance json_HTTPRoute_struct : JsonStruct HTTPRoute.
Proof. intros a j H. unfold json_Marshal, json_HTTPRoute in H. json_fields. eauto. Qed.
