(* ===== verification/HostNames.v ===== *)
(** * Host names: utils/domain_name.go, ingress/utils.go

    Two packages normalise host names with the same rules, one returning an
    error and the other the empty string.  [canonical] describes the names they
    produce. *)

From Stdlib Require Import Ascii.
From S2P Require Import Prelude GoStrings GoTime Metadata.

Open Scope Z_scope.

(** ** hostnameLabelPattern *)

Definition label_char (c : ascii) : bool := is_lower c || is_digit c.
Definition inner_char (c : ascii) : bool := label_char c || bool_decide (c = "-"%char).

(** [^[a-z0-9](?:[a-z0-9-]{0,61}[a-z0-9])?$] *)
Definition label_bytes (l : list ascii) : bool :=
  match l with
  | [] => false
  | c :: rest =>
      label_char c &&
      match last rest with
      | None => true
      | Some z => label_char z && forallb inner_char rest && bool_decide (length rest <= 62)%nat
      end
  end.
Definition hostnameLabelPattern (label : string) : bool := label_bytes (bytes label).

(** ** utils/domain_name.go *)

Module utils.

Record DomainName := mkDomainName { Hostname : string; Wildcard : bool }.

(** The [for label := range labels] loop. *)
Fixpoint check_labels (labels : list string) : result () :=
  match labels with
  | [] => Ok tt
  | label :: labels =>
      if hostnameLabelPattern label then check_labels labels
      else Err (Errorf "invalid hostname label: %s" [label])
  end.

Definition sanitizeHostname (host : string) : result (string * bool) :=
  let host := TrimSpace (ToLower host) in
  if bool_decide (host = "") then Err (errors_New "hostname cannot be empty") else
  let wildcard := HasPrefix host "*." in
  let host := if wildcard then TrimPrefix host "*." else host in
  if bool_decide (host = "") || Contains host ".." || ContainsAny host "/\ "
  then Err (errors_New "invalid hostname")
  else
    check_labels (Split host "."%char) ≫= fun _ =>
    if wildcard then mret ("*." +:+ host, true) else mret (host, false).

Definition normalizeHost (host : string) : result (string * bool) :=
  let host := TrimSpace (ToLower host) in
  let host := TrimPrefix host "http://" in
  let host := TrimPrefix host "https://" in
  let host := cut_at host ":"%char in
  sanitizeHostname host.

Definition TryDomainName (f : string) : option DomainName :=
  match normalizeHost f with
  | Ok (hostname, wildcard) => Some (mkDomainName hostname wildcard)
  | Err _ => None
  end.

End utils.

(** ** ingress/utils.go *)

Definition sanitizeHostname (host : string) : string :=
  let host := TrimSpace (ToLower host) in
  if bool_decide (host = "") then "" else
  let wildcard := HasPrefix host "*." in
  let host := if wildcard then TrimPrefix host "*." else host in
  if bool_decide (host = "") || Contains host ".." || ContainsAny host "/\ " then "" else
  if forallb hostnameLabelPattern (Split host "."%char)
  then if wildcard then "*." +:+ host else host
  else "".

Definition normalizeHost (host : string) : string :=
  let host := TrimSpace (ToLower host) in
  let host := TrimPrefix host "http://" in
  let host := TrimPrefix host "https://" in
  let host := cut_at host ":"%char in
  sanitizeHostname host.

Definition buildUpstreamURL (protocol address : string) (port : Z) : string :=
  let protocol := TrimSpace (ToLower protocol) in
  let protocol := if bool_decide (protocol = "") then "http" else protocol in
  let address := TrimSpace address in
  if bool_decide (address = "") then ""
  else if HasPrefix address "http://" || HasPrefix address "https://" then address
  else if Contains address ":" then protocol +:+ "://" +:+ address
  else if bool_decide (0 < port) then protocol +:+ "://" +:+ address +:+ ":" +:+ FormatUint port
  else protocol +:+ "://" +:+ address.

Definition buildServiceAddress (name namespace : string) : string :=
  name +:+ "." +:+ namespace +:+ ".svc.cluster.local".

Definition backendAddress (ref : option ServiceBackendRef) : string :=
  match ref with
  | None => ""
  | Some ref =>
      if bool_decide (sb_Type ref = ServiceBackendTypeExternal)
      then TrimSpace (sb_ArbitraryEndpoint ref)
      else buildServiceAddress (sb_ServiceName ref) (sb_ServiceNamespace ref)
  end.

(** ** Canonical names *)

(** Labels joined by dots, possibly under a wildcard. *)
Definition canonical (wildcard : bool) (labels : list string) : string :=
  (if wildcard then "*." else "") +:+ Join labels ".".

Definition is_label (label : string) : Prop := hostnameLabelPattern label = true.

Definition is_canonical (wildcard : bool) (labels : list string) (h : string) : Prop :=
  labels <> [] /\ Forall is_label labels /\ h = canonical wildcard labels.

(** The characters of a canonical name. *)
Definition host_char (c : ascii) : bool :=
  inner_char c || bool_decide (c = "."%char) || bool_decide (c = "*"%char).

Lemma label_char_inner c : label_char c = true -> inner_char c = true.
Proof. unfold inner_char. by intros ->. Qed.

Lemma inner_host_char c : inner_char c = true -> host_char c = true.
Proof. unfold host_char. by intros ->. Qed.

Lemma host_char_plain c :
  host_char c = true ->
  lower_char c = c /\ is_space c = false /\ c <> "/"%char /\ c <> "\"%char /\ c <> ":"%char.
Proof. all_chars. Qed.

Lemma inner_char_no_dot c : inner_char c = true -> c <> "."%char /\ c <> "*"%char.
Proof. all_chars. Qed.

Lemma label_bytes_inner l : label_bytes l = true -> l <> [] /\ Forall (fun c => inner_char c = true) l.
Proof.
  destruct l as [|c rest]; [done|]. cbn. intros [Hc H]%andb_prop. split; [done|].
  constructor; [by apply label_char_inner|].
  destruct (last rest) as [z|] eqn:E.
  - apply andb_prop in H as [[_ H]%andb_prop _]. by apply forallb_Forall.
  - apply last_None in E as ->. constructor.
Qed.

Lemma elem_of_tail {A} (x : A) l : x ∈ tail l -> x ∈ l.
Proof. destruct l; [done|]. cbn. set_solver. Qed.

Lemma contains_dots_split l :
  contains_sub (bytes "..") l = true -> [] ∈ tail (split_bytes "."%char l).
Proof.
  induction l as [|a l IH]; [done|]. cbn [contains_sub]. intros [Hp|Hc]%orb_prop.
  - apply is_prefix_spec in Hp as [k Hk]. rewrite Hk. cbn. set_solver.
  - specialize (IH Hc). cbn. case_bool_decide; [by apply elem_of_tail|].
    by destruct (split_bytes "."%char l).
Qed.

(** The label list of a name and the name determine each other. *)
Lemma split_join_labels labels :
  labels <> [] -> Forall is_label labels -> Split (Join labels ".") "."%char = labels.
Proof.
  intros Hne HF. unfold Split, Join. rewrite bytes_of_bytes.
  change (bytes ".") with ["."%char]. rewrite split_join_bytes.
  - rewrite <- list_fmap_compose. rewrite <- (list_fmap_id labels) at 2.
    apply list_fmap_ext. intros i w _. apply of_bytes_bytes.
  - by destruct labels.
  - apply Forall_fmap. eapply Forall_impl; [exact HF|]. intros w Hw Hin. cbn in *.
    apply label_bytes_inner in Hw as [_ Hw]. rewrite Forall_forall in Hw.
    by apply Hw, inner_char_no_dot in Hin as [? _].
Qed.

Lemma join_split_labels s : Join (Split s "."%char) "." = s.
Proof.
  unfold Split, Join. change (bytes ".") with ["."%char].
  rewrite <- list_fmap_compose.
  rewrite (list_fmap_ext _ id) by (intros; apply bytes_of_bytes).
  rewrite list_fmap_id, join_split_bytes. apply of_bytes_bytes.
Qed.

Lemma join_labels_chars labels :
  Forall is_label labels -> Forall (fun c => host_char c = true) (bytes (Join labels ".")).
Proof.
  intros HF. unfold Join. rewrite bytes_of_bytes.
  induction HF as [|w ws Hw HF IH]; [constructor|].
  assert (Forall (fun c => host_char c = true) (bytes w)) as Hb.
  { apply label_bytes_inner in Hw as [_ Hw]. eapply Forall_impl; [exact Hw|].
    intros c. apply inner_host_char. }
  destruct ws as [|w' ws]; [done|].
  change (Forall (fun c => host_char c = true)
    (bytes w ++ bytes "." ++ join_bytes (bytes ".") ((fun w => bytes w) <$> (w' :: ws)))).
  rewrite !Forall_app. split_and!; [done|by repeat constructor|done].
Qed.

Lemma canonical_chars w labels :
  Forall is_label labels -> Forall (fun c => host_char c = true) (bytes (canonical w labels)).
Proof.
  intros HF%join_labels_chars. unfold canonical. rewrite bytes_app. apply Forall_app.
  split; [|done]. destruct w; by repeat constructor.
Qed.

(** Names over these characters are already lower-case and trimmed. *)
Lemma host_chars_fixed s :
  Forall (fun c => host_char c = true) (bytes s) -> TrimSpace (ToLower s) = s.
Proof.
  intros HF. assert (ToLower s = s) as ->.
  { unfold ToLower. rewrite <- (of_bytes_bytes s) at 2. f_equal.
    rewrite <- (list_fmap_id (bytes s)) at 2. apply list_fmap_ext.
    intros i c Hc%list_elem_of_lookup_2. rewrite Forall_forall in HF.
    by apply HF, host_char_plain in Hc as [? _]. }
  unfold TrimSpace. rewrite trim_func_id; [apply of_bytes_bytes|].
  rewrite Forall_forall in HF. split; intros c Hc; [apply head_Some_elem_of in Hc|apply last_Some_elem_of in Hc];
    by apply HF, host_char_plain in Hc as (_ & ? & _).
Qed.

Lemma join_labels_head labels :
  labels <> [] -> Forall is_label labels ->
  exists c l, bytes (Join labels ".") = c :: l /\ inner_char c = true.
Proof.
  intros Hne HF. destruct HF as [|w ws Hw HF]; [done|].
  apply label_bytes_inner in Hw as [Hnil Hw]. unfold Join. rewrite bytes_of_bytes. cbn.
  destruct (bytes w) as [|c l]; [done|]. apply Forall_cons in Hw as [Hc _].
  destruct ws; cbn; eauto.
Qed.

Lemma canonical_prefix w labels :
  labels <> [] -> Forall is_label labels -> HasPrefix (canonical w labels) "*." = w.
Proof.
  intros Hne HF. destruct w; [apply HasPrefix_app|].
  destruct (join_labels_head labels Hne HF) as (c & l & E & Hc).
  unfold HasPrefix, canonical. rewrite bytes_app, E. cbn.
  apply inner_char_no_dot in Hc as [_ Hc]. by rewrite bool_decide_eq_false_2 by congruence.
Qed.

Lemma labels_clean labels :
  labels <> [] -> Forall is_label labels ->
  bool_decide (Join labels "." = "") || Contains (Join labels ".") ".." ||
  ContainsAny (Join labels ".") "/\ " = false.
Proof.
  intros Hne HF. destruct (join_labels_head labels Hne HF) as (c & l & E & _).
  rewrite bool_decide_eq_false_2 by (intros He; by rewrite He in E). cbn.
  apply orb_false_iff. split.
  - destruct (Contains _ _) eqn:Ec; [|done]. apply contains_dots_split in Ec.
    assert ([] ∈ split_bytes "."%char (bytes (Join labels "."))) as Hin
      by (by apply elem_of_tail).
    assert ("" ∈ labels) as Hl.
    { rewrite <- (split_join_labels labels Hne HF). unfold Split.
      apply list_elem_of_fmap. by exists []. }
    rewrite Forall_forall in HF. by apply HF in Hl.
  - apply join_labels_chars in HF. unfold ContainsAny.
    destruct (existsb _ _) eqn:Ee; [|done]. apply existsb_exists in Ee as (x & Hx & Hin).
    rewrite Forall_forall in HF. apply list_elem_of_In, HF in Hx.
    by destruct x as [[] [] [] [] [] [] [] []]; vm_compute in Hx, Hin.
Qed.

Lemma check_labels_ok labels : utils.check_labels labels = Ok tt <-> Forall is_label labels.
Proof.
  induction labels as [|l ls IH]; cbn; [by split; [constructor|]|].
  rewrite Forall_cons, <- IH. unfold is_label. destruct (hostnameLabelPattern l); naive_solver.
Qed.

(** The names [sanitizeHostname] accepts, and what it returns for them. *)
Lemma sanitize_ok host h w :
  utils.sanitizeHostname host = Ok (h, w) <->
  TrimSpace (ToLower host) = h /\ exists labels, is_canonical w labels h.
Proof.
  unfold utils.sanitizeHostname. set (s := TrimSpace (ToLower host)). split.
  - case_bool_decide; [done|].
    set (rest := if HasPrefix s "*." then TrimPrefix s "*." else s).
    destruct (bool_decide (rest = "") || _ || _); [done|].
    intros ([] & Hl%check_labels_ok & H2)%result_bind_ok.
    assert (s = (if HasPrefix s "*." then "*." else "") +:+ rest) as Hs.
    { subst rest. destruct (HasPrefix s "*.") eqn:E; [|done].
      apply HasPrefix_spec in E as [t ->]. by rewrite TrimPrefix_app. }
    assert ((if HasPrefix s "*." then "*." else "") +:+ rest = h /\ HasPrefix s "*." = w) as [<- <-].
    { destruct (HasPrefix s "*."); injection H2 as <- <-; done. }
    split; [done|]. exists (Split rest "."%char). split_and!; [|done|].
    + unfold Split. intros E%fmap_nil_inv. by eapply split_bytes_cons.
    + unfold canonical. by rewrite join_split_labels.
  - intros [Hs (labels & Hne & HF & Hh)]. rewrite Hs, Hh.
    rewrite bool_decide_eq_false_2.
    2: { intros He. destruct (join_labels_head labels Hne HF) as (c & l & E & _).
         unfold canonical in He. apply (f_equal (fun x => bytes x)) in He.
         rewrite bytes_app, E in He. by destruct w. }
    rewrite canonical_prefix by done.
    assert ((if w then TrimPrefix (canonical w labels) "*." else canonical w labels) =
      Join labels ".") as ->.
    { unfold canonical. destruct w; [apply TrimPrefix_app|done]. }
    rewrite labels_clean, split_join_labels by done.
    rewrite (proj2 (check_labels_ok labels)) by done. by destruct w.
Qed.

Lemma sanitize_agree host :
  sanitizeHostname host = match utils.sanitizeHostname host with Ok (h, _) => h | Err _ => "" end.
Proof.
  unfold sanitizeHostname, utils.sanitizeHostname.
  set (s := TrimSpace (ToLower host)). case_bool_decide; [done|].
  set (rest := if HasPrefix s "*." then TrimPrefix s "*." else s).
  clearbody rest. generalize (HasPrefix s "*."). intros w.
  destruct (bool_decide (rest = "") || _ || _); [done|].
  destruct (forallb hostnameLabelPattern (Split rest "."%char)) eqn:E.
  - apply forallb_Forall, check_labels_ok in E. rewrite E. by destruct w.
  - destruct (utils.check_labels (Split rest "."%char)) as [[]|] eqn:E2; [|done].
    apply check_labels_ok, forallb_Forall in E2. congruence.
Qed.

(** The two normalisers agree.  The ingress package's [normalizeHost]
    returns the host of utils' [normalizeHost], and the empty string exactly
    when that one fails. *)
Theorem normalizers_agree host :
  normalizeHost host = match utils.normalizeHost host with Ok (h, _) => h | Err _ => "" end.
Proof. apply sanitize_agree. Qed.

Lemma normalize_sanitize_canonical w labels :
  Forall is_label labels ->
  normalizeHost (canonical w labels) = sanitizeHostname (canonical w labels).
Proof.
  intros HF%(canonical_chars w). unfold normalizeHost. rewrite host_chars_fixed by done.
  set (h := canonical w labels) in *. clearbody h. rewrite Forall_forall in HF.
  assert (":"%char ∉ bytes h) as Hcolon by (intros ?%HF; done).
  assert (forall p, ":"%char ∈ bytes p -> TrimPrefix h p = h) as Htrim.
  { intros p Hp. unfold TrimPrefix. destruct (HasPrefix h p) eqn:E; [|done].
    apply HasPrefix_spec in E as [t ->]. rewrite bytes_app in Hcolon. set_solver. }
  rewrite !Htrim by (cbn; set_solver). f_equal. unfold cut_at.
  rewrite take_until_notin by done. apply of_bytes_bytes.
Qed.

Lemma sanitize_canonical w labels :
  labels <> [] -> Forall is_label labels ->
  sanitizeHostname (canonical w labels) = canonical w labels.
Proof.
  intros Hne HF. rewrite sanitize_agree.
  rewrite (proj2 (sanitize_ok (canonical w labels) (canonical w labels) w)); [done|].
  split; [by apply host_chars_fixed, canonical_chars|]. by exists labels.
Qed.

Lemma sanitize_cases host :
  sanitizeHostname host = "" \/ exists w labels, is_canonical w labels (sanitizeHostname host).
Proof.
  rewrite sanitize_agree. destruct (utils.sanitizeHostname host) as [[h w]|e] eqn:E; [|by left].
  right. apply sanitize_ok in E as [_ [labels Hc]]. eauto.
Qed.

Lemma normalizeHost_fixed h w labels : is_canonical w labels h -> normalizeHost h = h.
Proof. intros (Hne & HF & ->). rewrite normalize_sanitize_canonical by done. by apply sanitize_canonical. Qed.

Lemma normalizeHost_idemp host : normalizeHost (normalizeHost host) = normalizeHost host.
Proof.
  assert (normalizeHost host = "" \/ exists w labels, is_canonical w labels (normalizeHost host))
    as [->|(w & labels & Hc)] by apply sanitize_cases; [by vm_compute|].
  by eapply normalizeHost_fixed.
Qed.

(** Normal forms.  [normalizeHost] returns the empty string or a canonical
    host name (dot-separated labels of the pattern, possibly under a
    wildcard), and every canonical name is its own normal form; so normalising
    twice is normalising once. *)
Theorem normalizeHost_canonical host :
  (normalizeHost host = "" \/ exists w labels, is_canonical w labels (normalizeHost host)) /\
  (forall w labels, is_canonical w labels host -> normalizeHost host = host) /\
  normalizeHost (normalizeHost host) = normalizeHost host.
Proof.
  split_and!; [apply sanitize_cases|apply normalizeHost_fixed|apply normalizeHost_idemp].
Qed.

Lemma normalizeHost_canonical_witness :
  normalizeHost "https://*.Example.com:8443" = "*.example.com" /\
  normalizeHost "*.example.com" = "*.example.com".
Proof.
  split; [by vm_compute|].
  apply (normalizeHost_canonical "*.example.com") with (w := true) (labels := ["example"; "com"]).
  split_and!; [done|by repeat constructor|by vm_compute].
Defined.
