(* ===== verification/GoPath.v ===== *)
(** * The parts of Go's [path/filepath] the program uses

    Slash-separated paths.  [Clean] works on the components: it drops empty
    ones and dots and lets each [..] remove the component before it. *)

From Stdlib Require Import Ascii.
From S2P Require Import Prelude GoStrings.

Open Scope Z_scope.

(** One step of [Clean] on the components so far, last one first. *)
Definition clean_step (rooted : bool) (acc : list string) (c : string) : list string :=
  if bool_decide (c = "") || bool_decide (c = ".") then acc
  else if bool_decide (c = "..") then
    match acc with
    | [] => if rooted then [] else [".."]
    | p :: acc' => if bool_decide (p = "..") then ".." :: acc else acc'
    end
  else c :: acc.

Definition is_rooted (p : string) : bool := HasPrefix p "/".

(** The components of a cleaned path. *)
Definition components (p : string) : list string :=
  reverse (foldl (clean_step (is_rooted p)) [] (Split p "/"%char)).

Definition of_components (rooted : bool) (cs : list string) : string :=
  if rooted then "/" +:+ Join cs "/"
  else match cs with [] => "." | _ => Join cs "/" end.

(** [filepath.Clean] *)
Definition path_Clean (p : string) : string := of_components (is_rooted p) (components p).

(** [filepath.Join] *)
Definition path_Join (elems : list string) : string :=
  match filter (fun e => e <> "") elems with
  | [] => ""
  | es => path_Clean (Join es "/")
  end.

Fixpoint strip_common (base target : list string) : list string * list string :=
  match base, target with
  | b :: base', t :: target' =>
      if bool_decide (b = t) then strip_common base' target' else (base, target)
  | _, _ => (base, target)
  end.

(** [filepath.Rel] *)
Definition path_Rel (base target : string) : result string :=
  let cannot := Errorf "Rel: can't make %s relative to %s" [target; base] in
  if bool_decide (is_rooted base = is_rooted target) then
    let '(b, t) := strip_common (components base) (components target) in
    if bool_decide (".." ∈ b) then Err cannot
    else Ok (of_components false (replicate (length b) ".." ++ t))
  else Err cannot.

(** ** Cleaned component lists *)

Definition no_slash (c : string) : Prop := "/"%char ∉ bytes c.

(** A component that [Clean] keeps as it is. *)
Definition plain (c : string) : Prop := c <> "" /\ c <> "." /\ c <> ".." /\ no_slash c.

(** Reversed component lists [Clean] can end with. *)
Fixpoint normal (rooted : bool) (acc : list string) : Prop :=
  match acc with
  | [] => True
  | c :: acc => (plain c \/ (c = ".." /\ rooted = false /\ Forall (fun p => p = "..") acc)) /\
                normal rooted acc
  end.

Lemma clean_step_plain rooted acc c : plain c -> clean_step rooted acc c = c :: acc.
Proof.
  intros (H1 & H2 & H3 & _). unfold clean_step. by rewrite !bool_decide_eq_false_2 by done.
Qed.

Lemma clean_step_keep rooted acc c : normal rooted (c :: acc) -> clean_step rooted acc c = c :: acc.
Proof.
  intros [[Hp|(-> & -> & HF)] _]; [by apply clean_step_plain|].
  by destruct HF as [|p acc -> HF]; vm_compute.
Qed.

Lemma clean_step_normal rooted acc c :
  no_slash c -> normal rooted acc -> normal rooted (clean_step rooted acc c).
Proof.
  intros Hc Hn. unfold clean_step. destruct (bool_decide (c = "") || _) eqn:E; [done|].
  apply orb_false_iff in E as [E1%bool_decide_eq_false E2%bool_decide_eq_false].
  case_bool_decide as E3.
  - destruct acc as [|p acc]; [by destruct rooted; cbn; auto|]. destruct Hn as [Hp Hn].
    case_bool_decide as E4; [|done]. subst p. cbn. split; [|done].
    destruct Hp as [(_ & _ & ? & _)|(_ & -> & HF)]; [done|]. right. by repeat constructor.
  - split; [|done]. left. by repeat split.
Qed.

Lemma clean_foldl_normal rooted acc cs :
  Forall no_slash cs -> normal rooted acc -> normal rooted (foldl (clean_step rooted) acc cs).
Proof.
  intros HF. revert acc. induction HF as [|c cs Hc HF IH]; intros acc Hn; cbn; [done|].
  by apply IH, clean_step_normal.
Qed.

Lemma clean_foldl_keep rooted acc : normal rooted acc ->
  foldl (clean_step rooted) [] (reverse acc) = acc.
Proof.
  induction acc as [|c acc IH]; intros Hn; [done|].
  rewrite reverse_cons, foldl_app. cbn [foldl]. rewrite IH by apply Hn. by apply clean_step_keep.
Qed.

Lemma split_slash_pieces s : Forall no_slash (Split s "/"%char).
Proof.
  unfold Split. apply Forall_fmap. eapply Forall_impl; [apply split_bytes_pieces|].
  intros w Hw. unfold no_slash. cbn. by rewrite bytes_of_bytes.
Qed.

Lemma components_normal p : normal (is_rooted p) (reverse (components p)).
Proof.
  unfold components. rewrite reverse_involutive.
  apply clean_foldl_normal; [apply split_slash_pieces|done].
Qed.

Lemma split_slash_app s t :
  no_slash s -> Split (s +:+ "/" +:+ t) "/"%char = s :: Split t "/"%char.
Proof.
  intros Hs. unfold Split. rewrite !bytes_app. change (bytes "/" ++ ?l) with ("/"%char :: l).
  rewrite split_bytes_app by done. cbn. f_equal. apply of_bytes_bytes.
Qed.

Lemma split_slash_join cs :
  cs <> [] -> Forall no_slash cs -> Split (Join cs "/") "/"%char = cs.
Proof.
  intros Hne HF. unfold Split, Join. rewrite bytes_of_bytes.
  change (bytes "/") with ["/"%char]. rewrite split_join_bytes.
  - rewrite <- list_fmap_compose. rewrite <- (list_fmap_id cs) at 2.
    apply list_fmap_ext. intros i w _. apply of_bytes_bytes.
  - by destruct cs.
  - by apply Forall_fmap.
Qed.

Lemma Join_single c sep : Join [c] sep = c.
Proof. apply of_bytes_bytes. Qed.

Lemma Join_cons c cs sep : cs <> [] -> Join (c :: cs) sep = c +:+ sep +:+ Join cs sep.
Proof.
  intros Hne. apply bytes_inj. unfold Join. rewrite !bytes_app, !bytes_of_bytes.
  by destruct cs.
Qed.

Lemma split_bytes_app_r sep l k :
  split_bytes sep (l ++ sep :: k) = split_bytes sep l ++ split_bytes sep k.
Proof.
  induction l as [|a l IH]; cbn; [by rewrite bool_decide_eq_true_2|].
  case_bool_decide; rewrite IH; [done|].
  pose proof (split_bytes_cons sep l). by destruct (split_bytes sep l).
Qed.

Lemma split_slash_app_r s t :
  Split (s +:+ "/" +:+ t) "/"%char = Split s "/"%char ++ Split t "/"%char.
Proof.
  unfold Split. rewrite !bytes_app.
  change (bytes "/" ++ ?l) with ("/"%char :: l). by rewrite split_bytes_app_r, fmap_app.
Qed.

Lemma is_rooted_app s t : s <> "" -> is_rooted (s +:+ t) = is_rooted s.
Proof.
  intros Hs. unfold is_rooted, HasPrefix. rewrite bytes_app.
  destruct (bytes s) as [|c l] eqn:E; [by apply bytes_nil in E|]. cbn.
  by destruct (bool_decide _).
Qed.

(** Appending plain components to a path. *)
Lemma components_app p cs :
  p <> "" -> cs <> [] -> Forall plain cs ->
  components (p +:+ "/" +:+ Join cs "/") = components p ++ cs.
Proof.
  intros Hp Hne HF. unfold components. rewrite is_rooted_app by done.
  rewrite split_slash_app_r, split_slash_join; [|done|].
  2: { eapply Forall_impl; [exact HF|]. by intros c (_ & _ & _ & ?). }
  rewrite foldl_app. generalize (foldl (clean_step (is_rooted p)) [] (Split p "/"%char)).
  intros acc. clear Hne. revert acc. induction HF as [|c cs Hc HF IH]; intros acc; cbn [foldl].
  - by rewrite app_nil_r.
  - rewrite clean_step_plain, IH by done. rewrite reverse_cons. by rewrite <- app_assoc.
Qed.

(** Cleaning does not change the components. *)
Lemma components_of_components rooted cs :
  normal rooted (reverse cs) -> is_rooted (of_components rooted cs) = rooted /\
  components (of_components rooted cs) = cs.
Proof.
  intros Hn.
  assert (Forall no_slash cs) as Hs.
  { clear -Hn. rewrite <- (reverse_involutive cs). apply Forall_reverse.
    induction (reverse cs) as [|c acc IH]; constructor; [|apply IH, Hn].
    destruct Hn as [[(_ & _ & _ & ?)|(-> & _)] _]; [done|]. unfold no_slash. cbn. set_solver. }
  assert (foldl (clean_step rooted) [] cs = reverse cs) as Hf.
  { rewrite <- (reverse_involutive cs) at 1. by apply clean_foldl_keep. }
  destruct rooted; cbn [of_components].
  - assert (is_rooted ("/" +:+ Join cs "/") = true) as Hr by apply HasPrefix_app.
    split; [done|]. unfold components. rewrite Hr.
    change ("/" +:+ Join cs "/") with ("" +:+ "/" +:+ Join cs "/").
    rewrite split_slash_app by (unfold no_slash; cbn; set_solver). cbn [foldl].
    change (clean_step true [] "") with ([] : list string).
    destruct cs as [|c cs]; [done|]. rewrite split_slash_join by done.
    by rewrite Hf, reverse_involutive.
  - destruct cs as [|c cs]; [by vm_compute|].
    assert (is_rooted (Join (c :: cs) "/") = false) as Hr.
    { destruct (is_rooted _) eqn:E; [|done]. exfalso. apply HasPrefix_spec in E as [t Ht].
      pose proof (split_slash_join (c :: cs) ltac:(done) Hs) as Hsp. rewrite Ht in Hsp.
      change ("/" +:+ t) with ("" +:+ "/" +:+ t) in Hsp.
      rewrite split_slash_app in Hsp by (unfold no_slash; cbn; set_solver).
      injection Hsp as <- _. rewrite reverse_cons in Hn. clear -Hn.
      induction (reverse cs) as [|x acc IH]; [|apply IH, Hn].
      destruct Hn as [[(? & _)|(? & _)] _]; done. }
    split; [done|]. unfold components. rewrite Hr, split_slash_join by done.
    by rewrite Hf, reverse_involutive.
Qed.

Lemma path_Clean_rooted p : is_rooted (path_Clean p) = is_rooted p.
Proof. apply components_of_components, components_normal. Qed.

Lemma path_Clean_components p : components (path_Clean p) = components p.
Proof. apply components_of_components, components_normal. Qed.

Lemma strip_common_app base t : strip_common base (base ++ t) = ([], t).
Proof.
  induction base as [|b base IH]; cbn; [by destruct t|]. by rewrite bool_decide_eq_true_2.
Qed.

(** The path below a directory, relative to it. *)
Lemma path_Rel_below base target cs :
  is_rooted target = is_rooted base -> components target = components base ++ cs ->
  path_Rel base target = Ok (of_components false cs).
Proof.
  intros Hr Hc. unfold path_Rel. rewrite bool_decide_eq_true_2 by done.
  rewrite Hc, strip_common_app. rewrite bool_decide_eq_false_2 by set_solver. done.
Qed.

(** [Join] of a directory and plain components. *)
Lemma path_Join_below root dir cs :
  root <> "" -> dir = Join cs "/" -> cs <> [] -> Forall plain cs -> forall file, plain file ->
  components (path_Join [root; dir; file]) = components root ++ cs ++ [file] /\
  is_rooted (path_Join [root; dir; file]) = is_rooted root.
Proof.
  intros Hroot -> Hne HF file Hfile.
  assert (Join cs "/" <> "") as Hdir.
  { destruct HF as [|c cs' (Hc & _) HF]; [done|]. intros He.
    destruct cs' as [|c' cs']; [|rewrite Join_cons in He by done];
      apply (f_equal (fun x => bytes x)) in He; unfold Join in He;
      rewrite ?bytes_app, ?bytes_of_bytes in He; cbn in He.
    - by apply bytes_nil in He.
    - apply app_eq_nil in He as [_ He]. discriminate He. }
  destruct Hfile as (Hf0 & Hf).
  unfold path_Join. rewrite !filter_cons_True, filter_nil by done.
  assert (Join [root; Join cs "/"; file] "/" = root +:+ "/" +:+ Join (cs ++ [file]) "/") as ->.
  { rewrite Join_cons by done. do 2 f_equal. clear -Hne.
    induction cs as [|c [|c' cs] IH]; [done|..].
    - cbn [app]. rewrite (Join_single c), !Join_cons by done. done.
    - rewrite (Join_cons c (c' :: cs)) by done. cbn [app].
      rewrite (Join_cons c (c' :: cs ++ [file])) by done.
      change (c' :: cs ++ [file]) with ((c' :: cs) ++ [file]). rewrite <- IH by done.
      rewrite !(Join_cons _ [file]) by done. by rewrite !app_string_assoc. }
  rewrite path_Clean_components, path_Clean_rooted, is_rooted_app by done.
  split; [|done]. apply components_app; [done|by destruct cs|].
  apply Forall_app. split; [done|]. by apply Forall_singleton.
Qed.

(** ** Joining *)

Lemma path_Clean_nonempty p : path_Clean p <> "".
Proof.
  intros E. pose proof (path_Clean_components p) as Hc. rewrite E in Hc.
  change (components "") with (@nil string) in Hc. unfold path_Clean in E. rewrite <- Hc in E.
  unfold of_components in E. destruct (is_rooted p); [|done].
  apply (f_equal (fun s => bytes s)) in E. by autorewrite with gostr in E.
Qed.

Lemma path_Join_two p q : p <> "" -> q <> "" -> path_Join [p; q] = path_Clean (p +:+ "/" +:+ q).
Proof.
  intros Hp Hq. unfold path_Join. rewrite !filter_cons_True, filter_nil by done.
  cbv iota. by rewrite Join_cons, Join_single by done.
Qed.

Lemma Join_plain cs : cs <> [] -> Forall plain cs -> Join cs "/" <> "".
Proof.
  intros Hne Hplain E. pose proof (split_slash_join cs Hne) as Hs. rewrite E in Hs.
  assert (Forall no_slash cs) as Hns
    by (eapply Forall_impl; [exact Hplain|]; by intros c (_ & _ & _ & ?)).
  specialize (Hs Hns). destruct cs as [|c [|]]; try done. injection Hs as <-.
  apply Forall_cons in Hplain as [(? & _) _]. done.
Qed.

(** Going down from [p] by plain components. *)
Lemma path_Join_down p cs :
  p <> "" -> cs <> [] -> Forall plain cs ->
  components (path_Join [p; Join cs "/"]) = components p ++ cs /\
  is_rooted (path_Join [p; Join cs "/"]) = is_rooted p /\ path_Join [p; Join cs "/"] <> "".
Proof.
  intros Hp Hne Hplain. rewrite path_Join_two by (first [done|by apply Join_plain]).
  rewrite path_Clean_components, path_Clean_rooted, components_app, is_rooted_app by done.
  split_and!; [done..|]. apply path_Clean_nonempty.
Qed.

(** A joined path is determined by its components. *)
Lemma path_Join_ext l l' :
  filter (fun e => e <> "") l <> [] -> filter (fun e => e <> "") l' <> [] ->
  components (path_Join l) = components (path_Join l') ->
  is_rooted (path_Join l) = is_rooted (path_Join l') -> path_Join l = path_Join l'.
Proof.
  unfold path_Join. destruct (filter _ l) as [|x xs]; [done|]. destruct (filter _ l') as [|y ys]; [done|].
  intros _ _. rewrite !path_Clean_components, !path_Clean_rooted. intros Hc Hr.
  unfold path_Clean. by rewrite Hc, Hr.
Qed.

(** Plain components joined one below the other. *)
Lemma path_Join_plain cs c :
  cs <> [] -> Forall plain (cs ++ [c]) -> path_Join [Join cs "/"; c] = Join (cs ++ [c]) "/".
Proof.
  intros Hne [HF Hc]%Forall_app. pose proof (Forall_singleton plain c) as [Hc' _]. specialize (Hc' Hc).
  assert (Forall no_slash cs) as Hs by (eapply Forall_impl; [exact HF|]; by intros x (_ & _ & _ & ?)).
  rewrite path_Join_two by (first [by apply Join_plain|apply Hc']).
  unfold path_Clean.
  assert (forall ds, ds <> [] -> Forall plain ds -> is_rooted (Join ds "/") = false /\ components (Join ds "/") = ds) as Hds.
  { intros ds Hn Hp. assert (normal false (reverse ds)) as Hnorm.
    { clear Hn. apply Forall_reverse in Hp. induction Hp as [|x l Hx Hp IH]; [done|]. split; [by left|done]. }
    destruct (components_of_components false ds Hnorm) as [H1 H2]. by destruct ds. }
  destruct (Hds cs Hne HF) as [Hr Hcomp].
  rewrite is_rooted_app by (by apply Join_plain).
  rewrite <- (Join_single c "/") at 1. rewrite components_app by (first [done|by apply Join_plain]).
  rewrite Hr, Hcomp. by destruct cs.
Qed.

Lemma Join_inj cs cs' :
  cs <> [] -> cs' <> [] -> Forall plain cs -> Forall plain cs' -> Join cs "/" = Join cs' "/" -> cs = cs'.
Proof.
  intros H1 H2 P1 P2 E.
  assert (forall l, Forall plain l -> Forall no_slash l) as Hs
    by (intros l Hl; eapply Forall_impl; [exact Hl|]; by intros x (_ & _ & _ & ?)).
  rewrite <- (split_slash_join cs), <- (split_slash_join cs'), E by auto. done.
Qed.
