(* ===== verification/GoFS.v ===== *)
(** * The parts of Go's [os] package the program uses

    A file system maps cleaned paths to files and directories.  A path can be
    denied, which makes every call on it fail with an error other than
    [os.ErrNotExist]. *)

From S2P Require Import Prelude GoStrings GoPath.

Open Scope Z_scope.

Inductive fs_node :=
  | FFile (content : string)
  | FDir.

Record FS := mkFS { fs_nodes : gmap string fs_node; fs_denied : gset string }.

Definition ErrNotExist (p : string) : error := Errorf "stat %s: no such file or directory" [p].
Definition ErrPermission (p : string) : error := Errorf "open %s: permission denied" [p].
Definition ErrIsDir (p : string) : error := Errorf "read %s: is a directory" [p].
Definition ErrNotDir (p : string) : error := Errorf "mkdir %s: not a directory" [p].

(** [os.IsNotExist(err)] *)
Definition IsNotExist (e : error) : bool :=
  bool_decide (err_format e = "stat %s: no such file or directory").

Definition os_Stat (p : string) (fs : FS) : result fs_node :=
  if bool_decide (p ∈ fs_denied fs) then Err (ErrPermission p)
  else match fs_nodes fs !! p with
       | None => Err (ErrNotExist p)
       | Some n => Ok n
       end.

Definition os_ReadFile (p : string) (fs : FS) : result string :=
  n ← os_Stat p fs;
  match n with
  | FFile content => Ok content
  | FDir => Err (ErrIsDir p)
  end.

Definition os_WriteFile (p content : string) : go FS () := fun fs =>
  if bool_decide (p ∈ fs_denied fs) then (fs, Err (ErrPermission p))
  else match fs_nodes fs !! p with
       | Some FDir => (fs, Err (ErrIsDir p))
       | _ => (mkFS (<[p := FFile content]> (fs_nodes fs)) (fs_denied fs), Ok tt)
       end.

(** The directory itself; its parents are not observed by the program. *)
Definition os_MkdirAll (p : string) : go FS () := fun fs =>
  if bool_decide (p ∈ fs_denied fs) then (fs, Err (ErrPermission p))
  else match fs_nodes fs !! p with
       | Some (FFile _) => (fs, Err (ErrNotDir p))
       | _ => (mkFS (<[p := FDir]> (fs_nodes fs)) (fs_denied fs), Ok tt)
       end.

(** The path and everything below it. *)
Definition os_RemoveAll (p : string) : go FS () := fun fs =>
  if bool_decide (p ∈ fs_denied fs) then (fs, Err (ErrPermission p))
  else (mkFS (filter (fun kv => kv.1 <> p /\ HasPrefix kv.1 (p +:+ "/") = false) (fs_nodes fs))
          (fs_denied fs), Ok tt).

(** A file, or a directory with nothing below it. *)
Definition os_Remove (p : string) : go FS () := fun fs =>
  match os_Stat p fs with
  | Err e => (fs, Err e)
  | Ok FDir =>
      if bool_decide (map_Forall (fun q _ => HasPrefix q (p +:+ "/") = false) (fs_nodes fs))
      then (mkFS (delete p (fs_nodes fs)) (fs_denied fs), Ok tt)
      else (fs, Err (Errorf "remove %s: directory not empty" [p]))
  | Ok (FFile _) => (mkFS (delete p (fs_nodes fs)) (fs_denied fs), Ok tt)
  end.

(** What [p] is called in the directory [dir] it lies in or below, and whether
    it lies below it. *)
Definition below (dir p : string) : option (string * bool) :=
  if bool_decide (is_rooted p = is_rooted dir) then
    match strip_common (components dir) (components p) with
    | ([], name :: rest) => Some (name, bool_decide (rest <> []))
    | _ => None
    end
  else None.

(** The entries of a directory, and which of them are directories. *)
Definition dir_entries (dir : string) (fs : FS) : gmap string bool :=
  foldr (fun '(p, n) entries =>
      match below dir p with
      | Some (name, deeper) =>
          <[name := default false (entries !! name) || deeper || match n with FDir => true | FFile _ => false end]> entries
      | None => entries
      end) ∅ (map_to_list (fs_nodes fs)).

(** [os.ReadDir]; the order of the entries is not observed. *)
Definition os_ReadDir (dir : string) (fs : FS) : result (list (string * bool)) :=
  let dir := path_Clean dir in
  let entries := dir_entries dir fs in
  if bool_decide (dir ∈ fs_denied fs) then Err (ErrPermission dir)
  else match fs_nodes fs !! dir with
       | Some (FFile _) => Err (ErrNotDir dir)
       | Some FDir => Ok (map_to_list entries)
       | None => if bool_decide (entries = ∅) then Err (ErrNotExist dir) else Ok (map_to_list entries)
       end.

Lemma os_WriteFile_ok p c fs fs' :
  os_WriteFile p c fs = (fs', Ok tt) ->
  fs' = mkFS (<[p := FFile c]> (fs_nodes fs)) (fs_denied fs) /\ p ∉ fs_denied fs.
Proof.
  unfold os_WriteFile. case_bool_decide; [done|].
  destruct (fs_nodes fs !! p) as [[]|]; naive_solver.
Qed.

Lemma os_MkdirAll_ok p fs fs' :
  os_MkdirAll p fs = (fs', Ok tt) ->
  fs' = mkFS (<[p := FDir]> (fs_nodes fs)) (fs_denied fs) /\ p ∉ fs_denied fs.
Proof.
  unfold os_MkdirAll. case_bool_decide; [done|].
  destruct (fs_nodes fs !! p) as [[]|]; naive_solver.
Qed.

Lemma os_ReadFile_ok p c fs :
  fs_nodes fs !! p = Some (FFile c) -> p ∉ fs_denied fs -> os_ReadFile p fs = Ok c.
Proof.
  intros Hp Hd. unfold os_ReadFile, os_Stat. by rewrite bool_decide_eq_false_2, Hp by done.
Qed.

Lemma dir_entries_dir dir fs p n name deeper :
  fs_nodes fs !! p = Some n -> below dir p = Some (name, deeper) -> deeper = true \/ n = FDir ->
  dir_entries dir fs !! name = Some true.
Proof.
  intros Hp%elem_of_map_to_list Hb Hd. unfold dir_entries.
  induction (map_to_list (fs_nodes fs)) as [|[q m] l IH]; [by apply elem_of_nil in Hp|]. cbn [foldr].
  apply elem_of_cons in Hp as [[= <- <-]|Hp].
  - rewrite Hb, lookup_insert_eq. f_equal. destruct Hd as [->| ->]; by rewrite ?orb_true_r.
  - specialize (IH Hp). destruct (below dir q) as [[name' deeper']|]; [|done].
    destruct (decide (name' = name)) as [->|]; [|by rewrite lookup_insert_ne]. by rewrite lookup_insert_eq, IH.
Qed.

(** A directory is listed with the directories on the way to its nodes. *)
Lemma os_ReadDir_dir dir fs p n name deeper :
  fs_nodes fs !! p = Some n -> below (path_Clean dir) p = Some (name, deeper) -> deeper = true \/ n = FDir ->
  path_Clean dir ∉ fs_denied fs -> (forall c, fs_nodes fs !! path_Clean dir <> Some (FFile c)) ->
  exists entries, os_ReadDir dir fs = Ok entries /\ (name, true) ∈ entries.
Proof.
  intros Hp Hb Hd Hden Hfile. pose proof (dir_entries_dir _ _ _ _ _ _ Hp Hb Hd) as He.
  exists (map_to_list (dir_entries (path_Clean dir) fs)). rewrite elem_of_map_to_list. split; [|done].
  unfold os_ReadDir. rewrite bool_decide_false by done.
  destruct (fs_nodes fs !! path_Clean dir) as [[c|]|]; [by destruct (Hfile c)|done|].
  rewrite bool_decide_false; [done|]. intros E. by rewrite E, lookup_empty in He.
Qed.
