(* ===== verification/CertLRU.v ===== *)
(** * The certificate cache: certLRU of ingress/tls_cert_resolver.go

    A doubly linked list of entries with a map from keys to list elements, as
    [container/list] and a Go map implement it, and a proof that it implements
    a list of distinct keys in order of use. *)

From S2P Require Import Prelude GoStrings.

Open Scope Z_scope.

Section lru.
Context {V : Type}.

(** A list element: its identity (the pointer) and its [certEntry]. *)
Record Element := mkElement { el_ref : nat; el_key : string; el_value : V }.

Record certLRU := mkCertLRU {
  lru_capacity : Z;
  lru_ll : list Element;               (* front first *)
  lru_entries : gmap string nat;       (* key to element *)
  lru_fresh : nat;                     (* the next element to allocate *)
}.

Definition newCertLRU (capacity : Z) : certLRU := mkCertLRU capacity [] ∅ 0.

Definition find_elem (ref : nat) (ll : list Element) : option Element :=
  snd <$> list_find (fun e => el_ref e = ref) ll.

Definition remove_elem (ref : nat) (ll : list Element) : list Element :=
  filter (fun e => el_ref e <> ref) ll.

(** [ll.MoveToFront(elem)], with the element's value as [f] leaves it. *)
Definition MoveToFront (ref : nat) (f : Element -> Element) (ll : list Element) : list Element :=
  match find_elem ref ll with
  | None => ll
  | Some e => f e :: remove_elem ref ll
  end.

Definition Get (key : string) (c : certLRU) : certLRU * option V :=
  match lru_entries c !! key with
  | None => (c, None)
  | Some ref =>
      (mkCertLRU (lru_capacity c) (MoveToFront ref id (lru_ll c)) (lru_entries c) (lru_fresh c),
       el_value <$> find_elem ref (lru_ll c))
  end.

(** [value == nil] returns at once. *)
Definition Add (key : string) (value : option V) (c : certLRU) : certLRU :=
  match value with
  | None => c
  | Some value =>
      match lru_entries c !! key with
      | Some ref =>
          mkCertLRU (lru_capacity c)
            (MoveToFront ref (fun e => mkElement (el_ref e) (el_key e) value) (lru_ll c))
            (lru_entries c) (lru_fresh c)
      | None =>
          let ref := lru_fresh c in
          let ll := mkElement ref key value :: lru_ll c in
          let entries := <[key := ref]> (lru_entries c) in
          match last ll with
          | Some oldest =>
              if bool_decide (lru_capacity c < Z.of_nat (length ll))
              then mkCertLRU (lru_capacity c) (remove_elem (el_ref oldest) ll)
                     (delete (el_key oldest) entries) (S ref)
              else mkCertLRU (lru_capacity c) ll entries (S ref)
          | None => mkCertLRU (lru_capacity c) ll entries (S ref)
          end
      end
  end.

Definition Delete (key : string) (c : certLRU) : certLRU :=
  match lru_entries c !! key with
  | None => c
  | Some ref =>
      mkCertLRU (lru_capacity c) (remove_elem ref (lru_ll c)) (delete key (lru_entries c))
        (lru_fresh c)
  end.

Definition Clear (c : certLRU) : certLRU :=
  mkCertLRU (lru_capacity c) [] ∅ (lru_fresh c).

(** ** The specification: keys and values, most recently used first *)

Abbreviation lru := (list (string * V)).

Definition lru_without (key : string) (l : lru) : lru := filter (fun kv => kv.1 <> key) l.

Definition lru_lookup (key : string) (l : lru) : option V :=
  (fun p => p.2.2) <$> list_find (fun kv => kv.1 = key) l.

Definition lru_get (key : string) (l : lru) : lru * option V :=
  match lru_lookup key l with
  | None => (l, None)
  | Some v => ((key, v) :: lru_without key l, Some v)
  end.

Definition lru_add (capacity : nat) (key : string) (v : V) (l : lru) : lru :=
  take capacity ((key, v) :: lru_without key l).

(** ** The refinement *)

Definition entry (e : Element) : string * V := (el_key e, el_value e).
Definition contents (c : certLRU) : lru := entry <$> lru_ll c.

(** Distinct references and keys, the map finds each element by its key, and
    the list is within capacity. *)
Record lru_wf (c : certLRU) : Prop := {
  wf_refs : NoDup (el_ref <$> lru_ll c);
  wf_keys : NoDup (el_key <$> lru_ll c);
  wf_entries : forall k ref, lru_entries c !! k = Some ref <->
    exists e, e ∈ lru_ll c /\ el_key e = k /\ el_ref e = ref;
  wf_fresh : Forall (fun e => el_ref e < lru_fresh c)%nat (lru_ll c);
  wf_capacity : Z.of_nat (length (lru_ll c)) <= lru_capacity c;
}.

Lemma find_elem_ok ll e :
  NoDup (el_ref <$> ll) -> e ∈ ll -> find_elem (el_ref e) ll = Some e.
Proof.
  intros Hnd Hin. unfold find_elem. induction ll as [|x ll IH]; [by apply elem_of_nil in Hin|].
  cbn in *. apply NoDup_cons in Hnd as [Hx Hnd]. case_decide as E.
  - apply elem_of_cons in Hin as [->|Hin]; [done|]. exfalso. apply Hx. rewrite E.
    by apply list_elem_of_fmap_2.
  - apply elem_of_cons in Hin as [->|Hin]; [done|]. specialize (IH Hnd Hin).
    by destruct (list_find (fun e0 => el_ref e0 = el_ref e) ll) as [[i y]|].
Qed.

(** Removing an element by reference removes its key from the contents. *)
Lemma remove_elem_contents ll e :
  NoDup (el_ref <$> ll) -> NoDup (el_key <$> ll) -> e ∈ ll ->
  entry <$> remove_elem (el_ref e) ll = lru_without (el_key e) (entry <$> ll).
Proof.
  intros Hr Hk Hin. unfold remove_elem, lru_without.
  assert (forall x, x ∈ ll -> el_ref x <> el_ref e <-> el_key x <> el_key e) as Hiff.
  { intros x Hx. split; intros Hne He; apply Hne.
    - by rewrite (NoDup_fmap_inj el_key ll x e).
    - by rewrite (NoDup_fmap_inj el_ref ll x e). }
  clear Hin. induction ll as [|x ll IH]; [done|].
  apply NoDup_cons in Hr as [_ Hr], Hk as [_ Hk].
  rewrite fmap_cons, !filter_cons. cbn [entry fst].
  assert (forall x, x ∈ ll -> el_ref x <> el_ref e <-> el_key x <> el_key e) as Hiff'
    by (intros y Hy; apply Hiff; set_solver).
  specialize (Hiff x ltac:(set_solver)). specialize (IH Hr Hk Hiff').
  destruct (decide (el_ref x <> el_ref e)) as [H|H].
  - rewrite decide_True by (by apply Hiff). rewrite fmap_cons. by f_equal.
  - rewrite decide_False by tauto. done.
Qed.

Lemma lru_lookup_contents c k :
  lru_wf c ->
  lru_lookup k (contents c) =
  lru_entries c !! k ≫= fun ref => el_value <$> find_elem ref (lru_ll c).
Proof.
  intros [Hr Hk He _ _]. unfold lru_lookup, contents.
  destruct (lru_entries c !! k) as [ref|] eqn:E; cbn.
  - apply He in E as (e & Hin & <- & <-). rewrite find_elem_ok by done. cbn. clear He.
    induction (lru_ll c) as [|x ll IH]; [by apply elem_of_nil in Hin|]. cbn in *.
    apply NoDup_cons in Hr as [_ Hr], Hk as [Hx Hk]. case_decide as E.
    + apply elem_of_cons in Hin as [->|Hin]; [done|]. exfalso. apply Hx. rewrite E.
      by apply list_elem_of_fmap_2.
    + apply elem_of_cons in Hin as [->|Hin]; [done|]. specialize (IH Hr Hk Hin).
      by destruct (list_find _ (entry <$> ll)) as [[i y]|].
  - destruct (list_find _ (entry <$> lru_ll c)) as [[i [k' v]]|] eqn:E2; [|done].
    apply list_find_Some in E2 as (Hi & Hkk & _). cbn in Hkk. subst k'.
    apply list_lookup_fmap_Some in Hi as (e & [= Hek Hev] & Hin%list_elem_of_lookup_2).
    assert (lru_entries c !! k = Some (el_ref e)) by (apply He; eauto). congruence.
Qed.

(** Removing one element keeps the rest of the invariant. *)
Lemma remove_wf cap ll entries fresh e :
  lru_wf (mkCertLRU cap ll entries fresh) -> e ∈ ll ->
  lru_wf (mkCertLRU cap (remove_elem (el_ref e) ll) (delete (el_key e) entries) fresh).
Proof.
  intros [Hr Hk He Hf Hc] Hin. cbn in *. unfold remove_elem. split; cbn.
  - by apply NoDup_fmap_filter.
  - by apply NoDup_fmap_filter.
  - intros k ref. rewrite lookup_delete_Some, He. split.
    + intros (Hne & e' & Hin' & <- & <-). exists e'. split_and!; try done.
      apply list_elem_of_filter. split; [|done]. intros E. apply Hne.
      by rewrite (NoDup_fmap_inj el_ref ll e' e).
    + intros (e' & [Hne Hin']%list_elem_of_filter & <- & <-). split; [|eauto].
      intros E. apply Hne. by rewrite (NoDup_fmap_inj el_key ll e' e).
  - rewrite Forall_forall in *. intros e' [_ ?]%list_elem_of_filter. auto.
  - pose proof (length_filter (fun x => el_ref x <> el_ref e) ll). lia.
Qed.

Lemma remove_elem_length ll e :
  NoDup (el_ref <$> ll) -> e ∈ ll -> length ll = S (length (remove_elem (el_ref e) ll)).
Proof.
  intros Hr Hin. unfold remove_elem. induction ll as [|x ll IH]; [by apply elem_of_nil in Hin|].
  cbn in Hr. apply NoDup_cons in Hr as [Hx Hr]. rewrite filter_cons.
  apply elem_of_cons in Hin as [->|Hin].
  - rewrite decide_False by tauto. cbn. f_equal. symmetry. f_equal. apply filter_keep.
    apply Forall_forall. intros y Hy E. apply Hx. rewrite <- E. by apply list_elem_of_fmap_2.
  - rewrite decide_True. { cbn. f_equal. auto. }
    intros E. apply Hx. rewrite E. by apply list_elem_of_fmap_2.
Qed.

(** Moving an element to the front, possibly with a new value. *)
Lemma move_front_wf cap ll entries fresh e v :
  lru_wf (mkCertLRU cap ll entries fresh) -> e ∈ ll ->
  lru_wf (mkCertLRU cap (mkElement (el_ref e) (el_key e) v :: remove_elem (el_ref e) ll)
            entries fresh).
Proof.
  intros Hwf Hin. destruct (remove_wf _ _ _ _ e Hwf Hin) as [Hr Hk He Hf Hc].
  pose proof (remove_elem_length ll e (wf_refs _ Hwf) Hin) as Hlen.
  destruct Hwf as [Hr0 Hk0 He0 Hf0 Hc0]. cbn in *.
  set (e' := mkElement (el_ref e) (el_key e) v). split; cbn.
  - apply NoDup_cons. split; [|done]. intros (x & E & [Hne _]%list_elem_of_filter)%list_elem_of_fmap.
    by apply Hne.
  - apply NoDup_cons. split; [|done].
    intros (x & E & [Hne Hx]%list_elem_of_filter)%list_elem_of_fmap. apply Hne.
    by rewrite (NoDup_fmap_inj el_key ll x e).
  - intros k ref. destruct (decide (k = el_key e)) as [->|Hk'].
    + assert (entries !! el_key e = Some (el_ref e)) as Hek by (apply He0; eauto).
      rewrite Hek. split.
      * intros [= <-]. exists e'. split_and!; try done. set_solver.
      * intros (x & [->|[Hne Hx]%list_elem_of_filter]%elem_of_cons & E & <-); [done|].
        exfalso. apply Hne. by rewrite (NoDup_fmap_inj el_key ll x e).
    + rewrite <- (lookup_delete_ne entries (el_key e)) by done. rewrite He. split.
      * intros (x & Hx & <- & <-). exists x. split_and!; try done. set_solver.
      * intros (x & [->|Hx]%elem_of_cons & <- & <-); [done|]. eauto.
  - constructor; [|done]. cbn. rewrite Forall_forall in Hf0. auto.
  - rewrite Hlen in Hc0. lia.
Qed.

Lemma wf_entry c k ref :
  lru_wf c -> lru_entries c !! k = Some ref ->
  exists e, e ∈ lru_ll c /\ el_key e = k /\ el_ref e = ref /\
    find_elem ref (lru_ll c) = Some e.
Proof.
  intros [Hr Hk He Hf Hc] E. apply He in E as (e & Hin & <- & <-).
  exists e. split_and!; try done. by apply find_elem_ok.
Qed.

Lemma lru_without_absent k (l : lru) : k ∉ l.*1 -> lru_without k l = l.
Proof.
  intros Hk. apply filter_keep. apply Forall_forall. intros kv Hkv E. apply Hk.
  rewrite <- E. by apply list_elem_of_fmap_2.
Qed.

Lemma contents_keys c : (contents c).*1 = el_key <$> lru_ll c.
Proof. unfold contents. rewrite <- list_fmap_compose. done. Qed.

Lemma wf_absent c k : lru_wf c -> lru_entries c !! k = None -> k ∉ (contents c).*1.
Proof.
  intros [_ _ He _ _] E. rewrite contents_keys. intros (e & -> & Hin)%list_elem_of_fmap.
  assert (lru_entries c !! el_key e = Some (el_ref e)) by (apply He; eauto). congruence.
Qed.

Lemma get_refines c k :
  lru_wf c -> lru_wf (Get k c).1 /\
  (contents (Get k c).1, (Get k c).2) = lru_get k (contents c).
Proof.
  intros Hwf. pose proof (lru_lookup_contents c k Hwf) as Hl. unfold Get, lru_get. rewrite Hl.
  destruct (lru_entries c !! k) as [ref|] eqn:E; cbn; [|done].
  destruct (wf_entry c k ref Hwf E) as (e & Hin & <- & <- & Hf). unfold MoveToFront. rewrite Hf.
  destruct c as [cap ll entries fresh]. cbn in *. split.
  - pose proof (move_front_wf cap ll entries fresh e (el_value e) Hwf Hin) as H.
    by destruct e.
  - assert (entry <$> remove_elem (el_ref e) ll = lru_without (el_key e) (entry <$> ll)) as Hrm
      by (apply remove_elem_contents; apply Hwf || done).
    unfold contents, remove_elem, lru_without in *. cbn. by rewrite Hrm.
Qed.

Lemma delete_refines c k :
  lru_wf c -> lru_wf (Delete k c) /\ contents (Delete k c) = lru_without k (contents c).
Proof.
  intros Hwf. unfold Delete. destruct (lru_entries c !! k) as [ref|] eqn:E.
  - destruct (wf_entry c k ref Hwf E) as (e & Hin & <- & <- & _).
    destruct c as [cap ll entries fresh]. cbn in *. split; [by apply remove_wf|].
    unfold contents. cbn. apply remove_elem_contents; apply Hwf || done.
  - split; [done|]. symmetry. by apply lru_without_absent, wf_absent.
Qed.

Lemma remove_last_elem (ll : list Element) x :
  NoDup (el_ref <$> (ll ++ [x])) -> remove_elem (el_ref x) (ll ++ [x]) = ll.
Proof.
  rewrite fmap_app. intros (_ & Hd & _)%NoDup_app. unfold remove_elem.
  rewrite filter_app, filter_cons_False, filter_nil, app_nil_r by tauto.
  apply filter_keep, Forall_forall. intros y Hy E. apply (Hd (el_ref y)).
  - by apply list_elem_of_fmap_2.
  - rewrite E. cbn. set_solver.
Qed.

(** Pushing a new element on the front. *)
Lemma push_wf cap ll entries fresh k v :
  lru_wf (mkCertLRU cap ll entries fresh) -> entries !! k = None ->
  lru_wf (mkCertLRU (cap + 1) (mkElement fresh k v :: ll) (<[k := fresh]> entries) (S fresh)).
Proof.
  intros [Hr Hk He Hf Hc] Habs. cbn in *. rewrite Forall_forall in Hf. split; cbn.
  - constructor; [|done]. intros (x & E & Hx)%list_elem_of_fmap. specialize (Hf _ Hx). lia.
  - constructor; [|done]. intros (x & E & Hx)%list_elem_of_fmap.
    assert (entries !! k = Some (el_ref x)) by (apply He; eauto). congruence.
  - intros k' ref. rewrite lookup_insert_Some, He. split.
    + intros [[<- <-]|(Hne & x & Hx & <- & <-)]; [|exists x; set_solver].
      exists (mkElement fresh k v). set_solver.
    + intros (x & [->|Hx]%elem_of_cons & <- & <-); [by left|]. right. split; [|eauto].
      intros ->. assert (entries !! el_key x = Some (el_ref x)) by (apply He; eauto). congruence.
  - constructor; [cbn; lia|]. apply Forall_forall. intros x Hx. specialize (Hf x Hx). lia.
  - lia.
Qed.

Lemma shrink_wf cap c :
  lru_wf c -> Z.of_nat (length (lru_ll c)) <= cap ->
  lru_wf (mkCertLRU cap (lru_ll c) (lru_entries c) (lru_fresh c)).
Proof. intros [Hr Hk He Hf _] Hc. by split. Qed.

Lemma add_refines c k v :
  lru_wf c -> 1 <= lru_capacity c ->
  lru_wf (Add k (Some v) c) /\
  contents (Add k (Some v) c) = lru_add (Z.to_nat (lru_capacity c)) k v (contents c).
Proof.
  intros Hwf Hcap. unfold Add, lru_add.
  destruct (lru_entries c !! k) as [ref|] eqn:E.
  - destruct (wf_entry c k ref Hwf E) as (e & Hin & <- & <- & Hf). unfold MoveToFront. rewrite Hf.
    destruct c as [cap ll entries fresh]. cbn [lru_capacity lru_ll lru_entries lru_fresh] in *.
    split; [by apply move_front_wf|].
    assert (entry <$> remove_elem (el_ref e) ll = lru_without (el_key e) (entry <$> ll)) as Hrm
      by (apply remove_elem_contents; apply Hwf || done).
    pose proof (remove_elem_length ll e (wf_refs _ Hwf) Hin) as Hlen.
    pose proof (wf_capacity _ Hwf) as Hc. unfold contents. cbn [lru_ll lru_capacity id] in *. rewrite fmap_cons, Hrm.
    symmetry. apply take_ge. rewrite <- Hrm. cbn. rewrite length_fmap. lia.
  - destruct c as [cap ll entries fresh]. cbn [lru_capacity lru_ll lru_entries lru_fresh] in *.
    pose proof (push_wf cap ll entries fresh k v Hwf E) as Hpush.
    pose proof (wf_absent _ _ Hwf E) as Habs. unfold contents in *. cbn [lru_ll] in *.
    pose proof (wf_capacity _ Hwf) as Hc. cbn in Hc. rewrite lru_without_absent by done.
    destruct (@List.exists_last _ (mkElement fresh k v :: ll)) as (ll' & x & Hll); [done|].
    rewrite Hll, last_snoc in *. assert (length ll = length ll') as Hlen.
    { apply (f_equal length) in Hll. rewrite length_app in Hll. cbn in Hll. lia. }
    assert (entry <$> (ll' ++ [x]) = (k, v) :: (entry <$> ll)) as Hcont by (by rewrite <- Hll).
    rewrite length_app. cbn [length]. case_bool_decide as Hover.
    + pose proof (remove_wf _ _ _ _ x Hpush ltac:(set_solver)) as Hrem.
      rewrite (remove_last_elem ll' x (wf_refs _ Hpush)) in *. cbn [lru_ll]. split.
      * apply (shrink_wf cap _ Hrem). cbn. lia.
      * rewrite <- Hcont, fmap_app. symmetry. apply take_app_length'.
        rewrite length_fmap. lia.
    + cbn [lru_ll]. split; [apply (shrink_wf cap _ Hpush); cbn; rewrite length_app; cbn; lia|].
      rewrite Hcont. symmetry. apply take_ge. cbn. rewrite length_fmap. lia.
Qed.

(** ** Whole runs *)

Inductive lru_op :=
  | OpGet (key : string)
  | OpAdd (key : string) (value : option V)
  | OpDelete (key : string)
  | OpClear.

Definition run_op (op : lru_op) (c : certLRU) : certLRU * option V :=
  match op with
  | OpGet key => Get key c
  | OpAdd key value => (Add key value c, None)
  | OpDelete key => (Delete key c, None)
  | OpClear => (Clear c, None)
  end.

Definition spec_op (capacity : nat) (op : lru_op) (l : lru) : lru * option V :=
  match op with
  | OpGet key => lru_get key l
  | OpAdd key (Some v) => (lru_add capacity key v l, None)
  | OpAdd key None => (l, None)
  | OpDelete key => (lru_without key l, None)
  | OpClear => ([], None)
  end.

(** The final state and the results of the operations. *)
Fixpoint run_ops {S} (step : lru_op -> S -> S * option V) (ops : list lru_op) (s : S)
    : S * list (option V) :=
  match ops with
  | [] => (s, [])
  | op :: ops =>
      let '(s, r) := step op s in
      let '(s, rs) := run_ops step ops s in (s, r :: rs)
  end.

Lemma run_op_capacity op c : lru_capacity (run_op op c).1 = lru_capacity c.
Proof.
  destruct op; cbn; try done.
  - unfold Get. by destruct (_ !! _).
  - unfold Add. by repeat case_match.
  - unfold Delete. by destruct (_ !! _).
Qed.

Lemma run_op_refines op c :
  lru_wf c -> 1 <= lru_capacity c ->
  lru_wf (run_op op c).1 /\
  (contents (run_op op c).1, (run_op op c).2) =
    spec_op (Z.to_nat (lru_capacity c)) op (contents c).
Proof.
  intros Hwf Hcap. destruct op as [k|k [v|]|k|]; cbn [run_op spec_op fst snd].
  - by apply get_refines.
  - destruct (add_refines c k v Hwf Hcap) as [? ->]. done.
  - done.
  - destruct (delete_refines c k Hwf) as [? ->]. done.
  - split; [|done]. split; cbn; try constructor; try lia.
    + by rewrite lookup_empty.
    + intros (e & []%elem_of_nil & _).
Qed.

Lemma run_ops_refines ops c :
  lru_wf c -> 1 <= lru_capacity c ->
  let '(c', rs) := run_ops run_op ops c in
  lru_wf c' /\ lru_capacity c' = lru_capacity c /\
  (contents c', rs) = run_ops (spec_op (Z.to_nat (lru_capacity c))) ops (contents c).
Proof.
  revert c. induction ops as [|op ops IH]; intros c Hwf Hcap; cbn; [done|].
  destruct (run_op_refines op c Hwf Hcap) as [Hwf1 Heq].
  pose proof (run_op_capacity op c) as Hc1. destruct (run_op op c) as [c1 r]. cbn in *.
  specialize (IH c1 Hwf1 ltac:(lia)). rewrite Hc1 in IH.
  destruct (run_ops run_op ops c1) as [c' rs]. destruct IH as (Hwf' & Hcap' & IH).
  split_and!; [done|done|]. rewrite <- Heq, <- IH. done.
Qed.

(** C9. the certificate cache is an LRU cache.  Whatever sequence of [Get],
    [Add], [Delete] and [Clear] is run on a new cache of positive capacity, the
    linked list and its map hold the keys and values of the specification in
    order of use, every [Get] returns what the specification returns, and the
    cache never holds more entries than its capacity. *)
Theorem lru_refinement capacity ops :
  1 <= capacity ->
  let '(c, rs) := run_ops run_op ops (newCertLRU capacity) in
  lru_wf c /\ (contents c, rs) = run_ops (spec_op (Z.to_nat capacity)) ops [] /\
  Z.of_nat (length (contents c)) <= capacity.
Proof.
  intros Hcap.
  assert (lru_wf (newCertLRU capacity)) as Hwf.
  { split; cbn; try constructor; try lia.
    - by rewrite lookup_empty.
    - intros (e & []%elem_of_nil & _). }
  pose proof (run_ops_refines ops _ Hwf Hcap) as H.
  destruct (run_ops run_op ops (newCertLRU capacity)) as [c rs]. destruct H as (Hw & Hc & Heq).
  split_and!; [done|done|]. unfold contents. rewrite length_fmap. cbn in Hc. rewrite <- Hc.
  apply Hw.
Qed.

End lru.
Arguments Element V : clear implicits.
Arguments certLRU V : clear implicits.

Lemma lru_refinement_witness :
  let ops := [OpAdd "a" (Some 1); OpAdd "b" (Some 2); OpGet "a"; OpAdd "c" (Some 3); OpGet "b"] in
  let '(c, rs) := run_ops run_op ops (newCertLRU 2) in
  (contents c, rs) = ([("c", 3); ("a", 1)], [None; None; Some 1; None; None]) /\
  Z.of_nat (length (contents c)) <= 2.
Proof.
  pose proof (lru_refinement 2
    [OpAdd "a" (Some 1); OpAdd "b" (Some 2); OpGet "a"; OpAdd "c" (Some 3); OpGet "b"]
    ltac:(lia)) as H.
  cbn zeta. destruct (run_ops _ _ _) as [c rs]. destruct H as (_ & H1 & H2).
  split; [|exact H2]. rewrite H1. vm_compute. reflexivity.
Defined.
