(* ===== verification/CertResolver.v ===== *)
(** * Finding certificates: LunaTLSCertResolver of ingress/tls_cert_resolver.go

    The candidate names of a host, the directory of a certificate, loading a
    key pair from disk into the LRU cache, and invalidating the cache when a
    file changes. *)

From Stdlib Require Import Ascii.
From S2P Require Import Prelude GoStrings GoTime Metadata HostNames GoPath GoFS CertLRU.

Open Scope Z_scope.

Definition DefaultIngressLRUSize : Z := 4096.

Definition resolveCertLRUSize (size : Z) : Z :=
  if bool_decide (size <= 0) then DefaultIngressLRUSize else size.

(** [parts] is never empty, and [parts[0]] is empty only for the empty name. *)
Definition certificateCandidates (hostname : string) : list string :=
  let parts := Split (sanitizeHostname hostname) "."%char in
  match parts with
  | [] => []
  | p :: _ =>
      if bool_decide (p = "") then []
      else Join parts "." ::
           ((fun i => "*." +:+ Join (drop i parts) ".") <$> seq 1 (length parts - 2))
  end.

Definition certificateDirectoryName (hostname : string) : string :=
  let hostname := sanitizeHostname hostname in
  if negb (HasPrefix hostname "*.") then hostname
  else path_Join [".wildcard"; TrimPrefix hostname "*."].

Definition CertificateDirectoryName (hostname : string) : string :=
  certificateDirectoryName hostname.

Definition hostnameFromCertificatePath (certRoot changedPath : string) : string :=
  let certRoot := path_Clean certRoot in
  let changedPath := path_Clean changedPath in
  match path_Rel certRoot changedPath with
  | Err _ => ""
  | Ok rel =>
      if bool_decide (rel = ".") || HasPrefix rel ".." then "" else
      match Split rel "/"%char with
      | [] => ""
      | p :: rest =>
          if bool_decide (p = ".wildcard") then
            match rest with
            | [] => ""
            | q :: _ => sanitizeHostname ("*." +:+ q)
            end
          else sanitizeHostname p
      end
  end.

Definition fileExists (p : string) (fs : FS) : bool :=
  match os_Stat p fs with
  | Err _ => false
  | Ok FDir => false
  | Ok (FFile _) => true
  end.

Definition hasCertificatePair (dir : string) (fs : FS) : bool :=
  fileExists (path_Join [dir; "tls.crt"]) fs && fileExists (path_Join [dir; "tls.key"]) fs.

Section resolver.
(** [tls.LoadX509KeyPair] on the contents of the two files. *)
Context {V : Type} (X509KeyPair : string -> string -> result V).

Record LunaTLSCertResolver := mkResolver {
  rs_certRoot : string;
  rs_certs : certLRU V;
}.

Definition NewLunaTLSCertResolver (certRoot : string) (lruSize : Z) : LunaTLSCertResolver :=
  mkResolver certRoot (newCertLRU (resolveCertLRUSize lruSize)).

Definition with_certs (r : LunaTLSCertResolver) (c : certLRU V) : LunaTLSCertResolver :=
  mkResolver (rs_certRoot r) c.

Definition resolver_Delete (hostname : string) (r : LunaTLSCertResolver) : LunaTLSCertResolver :=
  with_certs r (Delete (normalizeHost hostname) (rs_certs r)).

Definition DeleteCandidates (hostname : string) (r : LunaTLSCertResolver) : LunaTLSCertResolver :=
  with_certs r (foldl (fun c candidate => Delete candidate c) (rs_certs r)
                  (certificateCandidates hostname)).

Definition resolver_Clear (r : LunaTLSCertResolver) : LunaTLSCertResolver :=
  with_certs r (Clear (rs_certs r)).

Definition resolver_Put (hostname : string) (cert : option V)
    : go LunaTLSCertResolver () := fun r =>
  let hostname := sanitizeHostname hostname in
  if bool_decide (hostname = "") then (r, Err (errors_New "hostname is required"))
  else match cert with
       | None => (r, Err (errors_New "certificate is required"))
       | Some _ => (with_certs r (Add hostname cert (rs_certs r)), Ok tt)
       end.

Definition lookupPaths (certRoot hostname : string) : string * string :=
  let dirname := certificateDirectoryName hostname in
  (path_Join [certRoot; dirname; "tls.crt"], path_Join [certRoot; dirname; "tls.key"]).

Definition LoadX509KeyPair (fs : FS) (crt key : string) : result V :=
  c ← os_ReadFile crt fs;
  k ← os_ReadFile key fs;
  X509KeyPair c k.

(** The loop of [Load] over the candidates. *)
Fixpoint load_candidates (fs : FS) (hostname : string) (candidates : list string)
    (r : LunaTLSCertResolver) : LunaTLSCertResolver * result V :=
  match candidates with
  | [] => (r, Err (Errorf "certificate not found for hostname %q" [hostname]))
  | candidate :: candidates =>
      match Get candidate (rs_certs r) with
      | (c, Some cert) => (with_certs r c, Ok cert)
      | (c, None) =>
          let r := with_certs r c in
          let '(crt, key) := lookupPaths (rs_certRoot r) candidate in
          if negb (fileExists crt fs) || negb (fileExists key fs)
          then load_candidates fs hostname candidates r
          else match LoadX509KeyPair fs crt key with
               | Err e => (r, Err e)
               | Ok cert => (with_certs r (Add candidate (Some cert) (rs_certs r)), Ok cert)
               end
      end
  end.

Definition Load (fs : FS) (hostname : string) (r : LunaTLSCertResolver)
    : LunaTLSCertResolver * result V :=
  let hostname := sanitizeHostname hostname in
  if bool_decide (hostname = "") then (r, Err (errors_New "hostname is required"))
  else load_candidates fs hostname (certificateCandidates hostname) r.

Definition loadExactCertificate (fs : FS) (certRoot hostname : string) : result V :=
  let '(crt, key) := lookupPaths certRoot hostname in
  if negb (fileExists crt fs) || negb (fileExists key fs)
  then Err (Errorf "certificate not found for hostname %q" [hostname])
  else LoadX509KeyPair fs crt key.

Definition invalidateCacheForPaths (paths : list string) (r : LunaTLSCertResolver)
    : LunaTLSCertResolver :=
  foldl (fun r path =>
      let hostname := hostnameFromCertificatePath (rs_certRoot r) path in
      if bool_decide (hostname = "") then r
      else with_certs r (Delete hostname (rs_certs r))) r paths.

End resolver.
Arguments LunaTLSCertResolver V : clear implicits.
