(* ===== verification/CertResolverFacts.v ===== *)
(** * Certificate paths and the transparency of the certificate cache *)

From Stdlib Require Import Ascii.
From S2P Require Import Prelude GoStrings GoTime Metadata HostNames GoPath GoFS CertLRU.
From S2P Require Import CertResolver.

Open Scope Z_scope.

(** ** Directories *)

(** The path components of a certificate's directory. *)
Definition cert_components (w : bool) (labels : list string) : list string :=
  if w then [".wildcard"; Join labels "."] else [Join labels "."].

Lemma plain_host labels :
  labels <> [] -> Forall is_label labels -> plain (Join labels ".").
Proof.
  intros Hne HF. destruct (join_labels_head labels Hne HF) as (c & l & E & Hc).
  pose proof (join_labels_chars labels HF) as Hch. rewrite Forall_forall in Hch.
  assert (c <> "."%char) by (by apply inner_char_no_dot in Hc as [? _]).
  split_and!; try (intros ->; rewrite E in *; done || (injection E as <- _; done)).
  - intros He. rewrite He in E. done.
  - intros He. rewrite He in E. by injection E as <- _.
  - intros He. rewrite He in E. by injection E as <- _.
  - intros Hs%Hch. done.
Qed.

Lemma plain_cert_components w labels :
  labels <> [] -> Forall is_label labels -> Forall plain (cert_components w labels).
Proof.
  intros Hne HF. pose proof (plain_host labels Hne HF).
  assert (plain ".wildcard") by (split_and!; try done; unfold no_slash; cbn; set_solver).
  destruct w; cbn; by repeat apply Forall_cons_2.
Qed.

Lemma directory_canonical w labels :
  labels <> [] -> Forall is_label labels ->
  certificateDirectoryName (canonical w labels) = Join (cert_components w labels) "/".
Proof.
  intros Hne HF. unfold certificateDirectoryName. rewrite sanitize_canonical by done.
  rewrite canonical_prefix by done. destruct w; cbn [negb cert_components].
  - unfold canonical. rewrite TrimPrefix_app.
    pose proof (plain_cert_components true labels Hne HF) as Hp. cbn in Hp.
    unfold path_Join. rewrite !filter_cons_True, filter_nil.
    + unfold path_Clean. set (s := Join [".wildcard"; Join labels "."] "/").
      assert (components s = [".wildcard"; Join labels "."] /\ is_rooted s = false) as [-> ->].
      { apply Forall_cons in Hp as [H1 Hp]. apply Forall_cons in Hp as [H2 _].
        destruct (components_of_components false [".wildcard"; Join labels "."]) as [Hr Hc];
          [cbn; auto|done]. }
      done.
    + apply Forall_cons in Hp as [_ Hp]. apply Forall_cons in Hp as [H2 _]. apply H2.
    + done.
  - rewrite Join_single. done.
Qed.

#[export] Instance plain_dec c : Decision (plain c).
Proof. unfold plain, no_slash. apply _. Defined.

Lemma certificate_path_facts root h w labels file :
  root <> "" -> is_canonical w labels h -> plain file ->
  let p := path_Join [root; certificateDirectoryName h; file] in
  components p = components root ++ cert_components w labels ++ [file] /\
  is_rooted p = is_rooted root /\
  hostnameFromCertificatePath root p = h.
Proof.
  intros Hroot (Hne & HF & ->) Hfile. cbn zeta.
  pose proof (plain_cert_components w labels Hne HF) as Hplain.
  assert (cert_components w labels <> []) as Hcne by (by destruct w).
  destruct (path_Join_below root _ _ Hroot (directory_canonical w labels Hne HF) Hcne Hplain
    file Hfile) as [Hc Hr].
  split_and!; [done..|]. unfold hostnameFromCertificatePath.
  set (p := path_Join _) in *. clearbody p.
  rewrite (path_Rel_below (path_Clean root) (path_Clean p) (cert_components w labels ++ [file])).
  2: { by rewrite !path_Clean_rooted. }
  2: { by rewrite !path_Clean_components. }
  assert (Forall plain (cert_components w labels ++ [file])) as Hall
    by (apply Forall_app; split; [done|by apply Forall_singleton]).
  assert (of_components false (cert_components w labels ++ [file]) =
    Join (cert_components w labels ++ [file]) "/") as -> by (by destruct w).
  assert (Split (Join (cert_components w labels ++ [file]) "/") "/"%char =
    cert_components w labels ++ [file]) as Hsplit.
  { apply split_slash_join; [by destruct w|]. eapply Forall_impl; [exact Hall|].
    by intros c (_ & _ & _ & ?). }
  rewrite Hsplit.
  destruct (bool_decide _ || HasPrefix _ _) eqn:E.
  { exfalso. apply orb_prop in E as [E%bool_decide_eq_true|E].
    - rewrite E in Hsplit. change (Split "." "/"%char) with ["."] in Hsplit.
      by destruct w; discriminate Hsplit.
    - apply HasPrefix_spec in E as [t E]. destruct w; cbn [cert_components app] in E.
      + rewrite Join_cons in E by done.
        apply (f_equal (fun x => bytes x)) in E. rewrite !bytes_app in E. discriminate E.
      + rewrite Join_cons in E by done.
        destruct (join_labels_head labels Hne HF) as (c & l & Ec & Hch).
        apply (f_equal (fun x => bytes x)) in E. rewrite !bytes_app, Ec in E.
        injection E as -> _. by apply inner_char_no_dot in Hch as [? _]. }
  destruct w; cbn [cert_components app].
  - rewrite bool_decide_eq_true_2 by done. apply (sanitize_canonical true); done.
  - rewrite bool_decide_eq_false_2; [by apply (sanitize_canonical false)|].
    intros Ew. destruct (join_labels_head labels Hne HF) as (c & l & Ec & Hch).
    rewrite Ew in Ec. injection Ec as <- _. done.
Qed.

(** Certificate paths.  The files of a canonical host lie in a directory
    of their own below the certificate root, reached without leaving it, and a
    change to one of them is traced back to exactly that host: the path names
    its cache entry and no other. *)
Theorem certificate_path root h w labels file :
  root <> "" -> is_canonical w labels h -> plain file ->
  let p := path_Join [root; certificateDirectoryName h; file] in
  components p = components root ++ cert_components w labels ++ [file] /\
  is_rooted p = is_rooted root /\
  hostnameFromCertificatePath root p = h.
Proof. apply certificate_path_facts. Qed.

Lemma certificate_path_witness :
  let p := path_Join ["/var/cache/./certs"; certificateDirectoryName "*.example.com"; "tls.crt"] in
  p = "/var/cache/certs/.wildcard/example.com/tls.crt" /\
  hostnameFromCertificatePath "/var/cache/./certs" p = "*.example.com".
Proof.
  split; [by vm_compute|].
  apply (certificate_path "/var/cache/./certs" "*.example.com" true ["example"; "com"] "tls.crt").
  - done.
  - split_and!; [done|by repeat constructor|by vm_compute].
  - split_and!; try done. unfold no_slash. cbn. intros H.
    by repeat (apply elem_of_cons in H as [H|H]; [done|]); apply elem_of_nil in H.
Defined.

(** ** Candidates *)

Definition is_host (h : string) : Prop := exists w labels, is_canonical w labels h.

Lemma split_canonical w labels :
  labels <> [] -> Forall is_label labels ->
  Split (canonical w labels) "."%char = (if w then ["*"] else []) ++ labels.
Proof.
  intros Hne HF. destruct w; [|by apply split_join_labels].
  unfold canonical. rewrite <- (split_join_labels labels Hne HF) at 2. unfold Split.
  rewrite bytes_app. change (bytes "*." ++ ?l) with (["*"%char] ++ "."%char :: l).
  rewrite split_bytes_app by (intros ?%list_elem_of_singleton; done). done.
Qed.

Lemma candidates_hosts h c :
  is_host h -> c ∈ certificateCandidates h -> is_host c.
Proof.
  intros (w & labels & Hne & HF & ->). unfold certificateCandidates.
  rewrite sanitize_canonical, split_canonical by done.
  assert (Join ((if w then ["*"] else []) ++ labels) "." = canonical w labels) as Hj.
  { destruct w; [|done]. cbn [app]. by rewrite Join_cons. }
  destruct ((if w then ["*"] else []) ++ labels) as [|p ps] eqn:Ep; [by intros []%elem_of_nil|].
  case_bool_decide; [by intros []%elem_of_nil|]. rewrite Hj.
  intros [->|(i & -> & Hi)%list_elem_of_fmap]%elem_of_cons; [by exists w, labels|].
  apply elem_of_seq in Hi. rewrite <- Ep in *. exists true.
  exists (drop i ((if w then ["*"] else []) ++ labels)).
  split_and!; [|destruct w; cbn [app]|done].
  - intros E%(f_equal length). rewrite length_drop in E. cbn in E, Hi. lia.
  - destruct i as [|i]; [lia|]. cbn. by apply Forall_drop.
  - by apply Forall_drop.
Qed.

Lemma canonical_not_empty w labels h : is_canonical w labels h -> h <> "".
Proof.
  intros (Hne & HF & ->) E. destruct (join_labels_head labels Hne HF) as (c & l & Ec & _).
  apply (f_equal (fun x => bytes x)) in E. unfold canonical in E. rewrite bytes_app, Ec in E.
  by destruct w.
Qed.

(** ** The cache is transparent *)

Section transparency.
Context {V : Type} (X509KeyPair : string -> string -> result V).

(** Loading without a cache: the first candidate whose two files exist. *)
Fixpoint spec_load (fs : FS) (certRoot hostname : string) (candidates : list string) : result V :=
  match candidates with
  | [] => Err (Errorf "certificate not found for hostname %q" [hostname])
  | candidate :: candidates =>
      let '(crt, key) := lookupPaths certRoot candidate in
      if negb (fileExists crt fs) || negb (fileExists key fs)
      then spec_load fs certRoot hostname candidates
      else LoadX509KeyPair X509KeyPair fs crt key
  end.

(** Every cached certificate is the one on disk. *)
Record coherent (fs : FS) (r : LunaTLSCertResolver V) : Prop := {
  co_wf : lru_wf (rs_certs r);
  co_capacity : 1 <= lru_capacity (rs_certs r);
  co_hosts : forall k v, (k, v) ∈ contents (rs_certs r) -> is_host k;
  co_disk : forall k v, (k, v) ∈ contents (rs_certs r) ->
    loadExactCertificate X509KeyPair fs (rs_certRoot r) k = Ok v;
}.

Lemma elem_of_lru_get k (l : list (string * V)) kv :
  kv ∈ (lru_get k l).1 -> kv ∈ l.
Proof.
  unfold lru_get. destruct (lru_lookup k l) as [v|] eqn:E; [|done].
  unfold lru_lookup in E. apply fmap_Some in E as ([i [k' v']] & E & ->).
  apply list_find_Some in E as (Hi%list_elem_of_lookup_2 & Hk & _). cbn in *. subst.
  intros [->|[_ ?]%list_elem_of_filter]%elem_of_cons; done.
Qed.

Lemma elem_of_lru_lookup k v (l : list (string * V)) : lru_lookup k l = Some v -> (k, v) ∈ l.
Proof.
  unfold lru_lookup. intros ([i [k' v']] & E & ->)%fmap_Some.
  by apply list_find_Some in E as (Hi%list_elem_of_lookup_2 & <- & _).
Qed.

(** What [Get] does to the cache, seen through the specification. *)
Lemma get_coherent fs r k :
  coherent fs r ->
  coherent fs (with_certs r (Get k (rs_certs r)).1) /\
  (forall v, (Get k (rs_certs r)).2 = Some v -> (k, v) ∈ contents (rs_certs r)).
Proof.
  intros [Hwf Hcap Hh Hd]. destruct (get_refines (rs_certs r) k Hwf) as [Hwf' Heq].
  pose proof (run_op_capacity (OpGet k) (rs_certs r)) as Hc. cbn [run_op fst] in Hc.
  assert (contents (Get k (rs_certs r)).1 = (lru_get k (contents (rs_certs r))).1) as H1
    by (by rewrite <- Heq).
  assert ((Get k (rs_certs r)).2 = (lru_get k (contents (rs_certs r))).2) as H2
    by (by rewrite <- Heq).
  split.
  - split; cbn [rs_certs rs_certRoot with_certs]; [done|by rewrite Hc|..]; rewrite H1; intros k' v' Hin%elem_of_lru_get; eauto.
  - rewrite H2. unfold lru_get. intros v. destruct (lru_lookup k (contents (rs_certs r))) eqn:E; [|done].
    intros [= <-]. by apply elem_of_lru_lookup.
Qed.

Lemma add_coherent fs r k v :
  coherent fs r -> is_host k ->
  loadExactCertificate X509KeyPair fs (rs_certRoot r) k = Ok v ->
  coherent fs (with_certs r (Add k (Some v) (rs_certs r))).
Proof.
  intros [Hwf Hcap Hh Hd] Hk Hv. destruct (add_refines (rs_certs r) k v Hwf Hcap) as [Hwf' Heq].
  pose proof (run_op_capacity (OpAdd k (Some v)) (rs_certs r)) as Hc. cbn [run_op fst] in Hc.
  assert (forall kv, kv ∈ contents (Add k (Some v) (rs_certs r)) ->
    kv = (k, v) \/ kv ∈ contents (rs_certs r)) as Hin.
  { intros kv. rewrite Heq. unfold lru_add. intros Ht%elem_of_take.
    destruct Ht as (i & Hi%list_elem_of_lookup_2 & _).
    apply elem_of_cons in Hi as [->|[_ ?]%list_elem_of_filter]; auto. }
  split; cbn [rs_certs rs_certRoot with_certs]; [done|by rewrite Hc|..]; intros k' v' [[= -> ->]|Hkv]%Hin; eauto.
Qed.

Lemma delete_coherent fs r k :
  coherent fs r ->
  coherent fs (with_certs r (Delete k (rs_certs r))) /\
  (forall kv, kv ∈ contents (Delete k (rs_certs r)) -> kv.1 <> k /\ kv ∈ contents (rs_certs r)).
Proof.
  intros [Hwf Hcap Hh Hd]. destruct (delete_refines (rs_certs r) k Hwf) as [Hwf' Heq].
  pose proof (run_op_capacity (OpDelete k) (rs_certs r)) as Hc. cbn [run_op fst] in Hc.
  assert (forall kv, kv ∈ contents (Delete k (rs_certs r)) ->
    kv.1 <> k /\ kv ∈ contents (rs_certs r)) as Hin.
  { intros kv. rewrite Heq. by intros [? ?]%list_elem_of_filter. }
  split; [|done].
  split; cbn [rs_certs rs_certRoot with_certs]; [done|by rewrite Hc|..]; intros k' v' [_ ?]%Hin; eauto.
Qed.

(** A cached certificate is what the disk would give. *)
Lemma spec_load_head fs root h c cs v :
  loadExactCertificate X509KeyPair fs root c = Ok v -> spec_load fs root h (c :: cs) = Ok v.
Proof.
  unfold loadExactCertificate. cbn [spec_load]. destruct (lookupPaths root c) as [crt key].
  by destruct (_ || _).
Qed.

Lemma load_candidates_transparent fs h cs r :
  coherent fs r -> Forall is_host cs ->
  (load_candidates X509KeyPair fs h cs r).2 = spec_load fs (rs_certRoot r) h cs /\
  coherent fs (load_candidates X509KeyPair fs h cs r).1.
Proof.
  intros Hco HF. revert r Hco. induction HF as [|c cs Hc HF IH]; intros r Hco; [done|].
  cbn [load_candidates]. destruct (get_coherent fs r c Hco) as [Hco1 Hget].
  destruct (Get c (rs_certs r)) as [l [v|]]; cbn in Hco1, Hget.
  { split; [|done]. symmetry. apply spec_load_head. eapply co_disk; eauto. }
  cbn zeta. assert (rs_certRoot (with_certs r l) = rs_certRoot r) as Hroot by done.
  pose proof (IH _ Hco1) as IH1. rewrite Hroot in IH1 |- *. cbn [spec_load].
  destruct (lookupPaths (rs_certRoot r) c) as [crt key] eqn:Hp.
  destruct (_ || _) eqn:E; [done|].
  destruct (LoadX509KeyPair X509KeyPair fs crt key) as [v|e] eqn:El; [|done].
  split; [done|]. apply add_coherent; [done|done|].
  unfold loadExactCertificate. rewrite Hroot, Hp, E. done.
Qed.

(** The certificate of a host depends on its two files only. *)
Lemma loadExact_local fs fs' root k :
  os_Stat (lookupPaths root k).1 fs' = os_Stat (lookupPaths root k).1 fs ->
  os_Stat (lookupPaths root k).2 fs' = os_Stat (lookupPaths root k).2 fs ->
  loadExactCertificate X509KeyPair fs' root k = loadExactCertificate X509KeyPair fs root k.
Proof.
  unfold loadExactCertificate, LoadX509KeyPair, fileExists, os_ReadFile.
  destruct (lookupPaths root k) as [crt key]. cbn. by intros -> ->.
Qed.

Lemma invalidate_keeps paths (r : LunaTLSCertResolver V) :
  lru_wf (rs_certs r) ->
  let r' := invalidateCacheForPaths paths r in
  lru_wf (rs_certs r') /\ lru_capacity (rs_certs r') = lru_capacity (rs_certs r) /\
  rs_certRoot r' = rs_certRoot r /\
  (forall kv, kv ∈ contents (rs_certs r') -> kv ∈ contents (rs_certs r) /\
     forall p, p ∈ paths -> hostnameFromCertificatePath (rs_certRoot r) p <> "" ->
       hostnameFromCertificatePath (rs_certRoot r) p <> kv.1).
Proof.
  cbn zeta. unfold invalidateCacheForPaths. revert r.
  induction paths as [|p paths IH]; intros r Hwf; cbn [foldl].
  { split_and!; try done. intros kv Hin. split; [done|]. by intros p ?%elem_of_nil. }
  case_bool_decide as E.
  - destruct (IH r Hwf) as (H1 & H2 & H3 & H4). split_and!; try done.
    intros kv Hin. destruct (H4 kv Hin) as [H5 H6]. split; [done|].
    intros q [->|Hq]%elem_of_cons; [done|auto].
  - set (h := hostnameFromCertificatePath (rs_certRoot r) p) in *.
    destruct (delete_refines (rs_certs r) h Hwf) as [Hwf' Heq].
    pose proof (run_op_capacity (OpDelete h) (rs_certs r)) as Hc. cbn [run_op fst] in Hc.
    destruct (IH (with_certs r (Delete h (rs_certs r))) Hwf') as (H1 & H2 & H3 & H4).
    cbn in H2, H3, H4. split_and!; try done; [congruence|].
    intros kv Hin. destruct (H4 kv Hin) as [H5 H6]. rewrite Heq in H5.
    apply list_elem_of_filter in H5 as [Hne H5]. split; [done|].
    intros q [->|Hq]%elem_of_cons Hq0; [|auto]. intros He. by apply Hne.
Qed.

(** The cache agrees with a changed disk once every host whose files changed
    has been named by a path. *)
Lemma invalidate_coherent fs fs' paths r :
  coherent fs r ->
  (forall h, is_host h ->
     (exists p, p ∈ paths /\ hostnameFromCertificatePath (rs_certRoot r) p = h) \/
     os_Stat (lookupPaths (rs_certRoot r) h).1 fs' = os_Stat (lookupPaths (rs_certRoot r) h).1 fs /\
     os_Stat (lookupPaths (rs_certRoot r) h).2 fs' = os_Stat (lookupPaths (rs_certRoot r) h).2 fs) ->
  coherent fs' (invalidateCacheForPaths paths r).
Proof.
  intros [Hwf Hcap Hh Hd] Hfs. destruct (invalidate_keeps paths r Hwf) as (Hwf' & Hc & Hr & Hkeep).
  split; [done|by rewrite Hc|by intros k v [? _]%Hkeep; eauto|].
  intros k v [Hin Hout]%Hkeep. rewrite Hr, <- (Hd k v Hin). pose proof (Hh k v Hin) as Hk.
  destruct (Hfs k Hk) as [(p & Hp & E)|[H1 H2]]; [|by apply loadExact_local].
  destruct Hk as (w & labels & Hcan). exfalso.
  apply (Hout p Hp); [|exact E]. rewrite E. by eapply canonical_not_empty.
Qed.

Lemma load_transparent fs hostname r :
  coherent fs r ->
  (sanitizeHostname hostname <> "" ->
   (Load X509KeyPair fs hostname r).2 =
     spec_load fs (rs_certRoot r) (sanitizeHostname hostname) (certificateCandidates hostname)) /\
  coherent fs (Load X509KeyPair fs hostname r).1.
Proof.
  intros Hco.
  assert (sanitizeHostname (sanitizeHostname hostname) = sanitizeHostname hostname) as Hidem.
  { destruct (sanitize_cases hostname) as [->|(w & labels & Hne & HF & ->)]; [by vm_compute|].
    by apply sanitize_canonical. }
  assert (certificateCandidates (sanitizeHostname hostname) = certificateCandidates hostname) as Hcand.
  { unfold certificateCandidates. by rewrite Hidem. }
  split.
  - intros Hne. unfold Load. rewrite bool_decide_eq_false_2, Hcand by done.
    apply load_candidates_transparent; [done|]. apply Forall_forall. intros c. rewrite <- Hcand.
    apply candidates_hosts. by destruct (sanitize_cases hostname).
  - unfold Load. case_bool_decide as E; [done|]. apply load_candidates_transparent; [done|].
    apply Forall_forall. intros c. apply candidates_hosts. by destruct (sanitize_cases hostname).
Qed.

(** C8. the certificate cache is transparent.  As long as the cached entries
    are those on disk, [Load] returns what reading the disk would: the key pair
    of the first candidate name whose two files exist, and the cache stays so.
    When files change and every changed path is handed to
    [invalidateCacheForPaths], the cache agrees with the new disk again. *)
Theorem cache_transparent fs fs' paths hostname r :
  coherent fs r -> rs_certRoot r <> "" ->
  (forall p, p ∉ paths -> os_Stat p fs' = os_Stat p fs) ->
  (sanitizeHostname hostname <> "" ->
   (Load X509KeyPair fs hostname r).2 =
     spec_load fs (rs_certRoot r) (sanitizeHostname hostname) (certificateCandidates hostname)) /\
  coherent fs (Load X509KeyPair fs hostname r).1 /\
  coherent fs' (invalidateCacheForPaths paths r).
Proof.
  intros Hco Hroot Hfs. split_and!; [by apply load_transparent|by apply load_transparent|].
  - apply (invalidate_coherent fs); [done|]. intros h (w & labels & Hcan).
    assert (forall file, plain file ->
      path_Join [rs_certRoot r; certificateDirectoryName h; file] ∈ paths \/
      os_Stat (path_Join [rs_certRoot r; certificateDirectoryName h; file]) fs' =
      os_Stat (path_Join [rs_certRoot r; certificateDirectoryName h; file]) fs) as Hfile.
    { intros file _. destruct (decide (path_Join [rs_certRoot r; certificateDirectoryName h; file] ∈ paths)); auto. }
    assert (plain "tls.crt" /\ plain "tls.key") as [Hp1 Hp2] by (split; by apply (bool_decide_unpack _)).
    pose proof (certificate_path_facts (rs_certRoot r) h w labels _ Hroot Hcan Hp1) as (_ & _ & E1).
    pose proof (certificate_path_facts (rs_certRoot r) h w labels _ Hroot Hcan Hp2) as (_ & _ & E2).
    destruct (Hfile _ Hp1) as [H1|H1]; [left; eauto|]. destruct (Hfile _ Hp2) as [H2|H2]; [left; eauto|]. by right.
Qed.

End transparency.

(** ** A concrete run *)

Definition sample_pair (crt key : string) : result (string * string) := Ok (crt, key).

Definition sample_fs : FS :=
  mkFS {["/certs/.wildcard/example.com/tls.crt" := FFile "CRT";
         "/certs/.wildcard/example.com/tls.key" := FFile "KEY"]} ∅.

Definition renewed_fs : FS :=
  mkFS (<["/certs/.wildcard/example.com/tls.crt" := FFile "CRT2"]> (fs_nodes sample_fs)) ∅.

Lemma new_resolver_coherent {V} (pair : string -> string -> result V) fs root size :
  coherent pair fs (NewLunaTLSCertResolver root size).
Proof.
  unfold NewLunaTLSCertResolver. split; cbn.
  - split; cbn; try constructor; try done.
    + intros (e & []%elem_of_nil & _).
    + unfold resolveCertLRUSize, DefaultIngressLRUSize. case_bool_decide; lia.
  - unfold resolveCertLRUSize, DefaultIngressLRUSize. case_bool_decide; lia.
  - by intros k v ?%elem_of_nil.
  - by intros k v ?%elem_of_nil.
Qed.

Lemma cache_transparent_witness :
  let r := NewLunaTLSCertResolver "/certs" 16 in
  (Load sample_pair sample_fs "www.example.com" r).2 = Ok ("CRT", "KEY") /\
  coherent sample_pair renewed_fs
    (invalidateCacheForPaths ["/certs/.wildcard/example.com/tls.crt"] r).
Proof.
  cbn zeta. destruct (cache_transparent sample_pair sample_fs renewed_fs
    ["/certs/.wildcard/example.com/tls.crt"] "www.example.com"
    (NewLunaTLSCertResolver "/certs" 16)) as (H1 & _ & H2).
  - apply new_resolver_coherent.
  - discriminate.
  - intros p Hp. unfold os_Stat, renewed_fs. cbn. rewrite lookup_insert_ne; [done|].
    intros <-. apply Hp. apply elem_of_cons. by left.
  - split; [|exact H2]. rewrite H1 by (vm_compute; discriminate). vm_compute. reflexivity.
Defined.
