(* ===== verification/SlaveStore.v ===== *)
(** * The slave's local store: engine/slave/store_metadata.go, store_certfiles.go

    The SQLite cache of replicated items with the replication cursor, the
    transactions that apply snapshots and change notifications, and the
    certificate files on disk. *)

From S2P Require Import Prelude GoStrings GoTime Metadata Gorm Replication MetadataJson HostNames.
From S2P Require Import GoPath GoFS CertLRU CertResolver.

Open Scope Z_scope.

(** ** Tables *)

Record dnsRecordCacheRow := mkDnsRow {
  dc_ID : string;
  dc_FQDN : string;
  dc_RecordType : string;
  dc_DetailJSON : json;
}.

Record domainEntryCacheRow := mkDomainRow {
  ec_Hostname : string;
  ec_CertHostname : string;
  ec_CertRevision : Z;
  ec_DetailJSON : json;
}.

Record syncStateRow := mkSyncRow {
  ss_SnapshotRecordID : Z;
  ss_AffectedTable : string;
  ss_AffectedTableID : string;
  ss_CreatedAt : Z;
}.

Record SlaveTables := mkSlaveTables {
  st_dns : gmap string dnsRecordCacheRow;        (* by id *)
  st_domains : gmap string domainEntryCacheRow;  (* by hostname *)
  st_sync : gmap (Z * string) syncStateRow;      (* by record id and table *)
}.

Definition empty_slave : SlaveTables := mkSlaveTables ∅ ∅ ∅.

Inductive slave_stmt :=
  | UpsertDns (row : dnsRecordCacheRow)
  | DeleteDns (id : string)
  | UpsertDomain (row : domainEntryCacheRow)
  | DeleteDomain (hostname : string)
  | UpsertSync (row : syncStateRow).

(** [Create] with [OnConflict{UpdateAll: true}] and hard [Delete].  The second
    argument is the time gorm fills into [created_at]. *)
Definition slave_effect (s : slave_stmt) (now : Z) (t : SlaveTables) : result SlaveTables :=
  Ok match s with
  | UpsertDns row => mkSlaveTables (<[dc_ID row := row]> (st_dns t)) (st_domains t) (st_sync t)
  | DeleteDns id => mkSlaveTables (delete id (st_dns t)) (st_domains t) (st_sync t)
  | UpsertDomain row =>
      mkSlaveTables (st_dns t) (<[ec_Hostname row := row]> (st_domains t)) (st_sync t)
  | DeleteDomain h => mkSlaveTables (st_dns t) (delete h (st_domains t)) (st_sync t)
  | UpsertSync row =>
      mkSlaveTables (st_dns t) (st_domains t)
        (<[(ss_SnapshotRecordID row, ss_AffectedTable row) :=
             mkSyncRow (ss_SnapshotRecordID row) (ss_AffectedTable row) (ss_AffectedTableID row)
               now]> (st_sync t))
  end.

(** ** Certificate files *)

(** [json.Marshal] and [json.Unmarshal] of the metadata file, which the store
    keeps as text. *)
Class MetaText := {
  meta_Marshal : string -> Z -> string;
  meta_Unmarshal : string -> option (string * Z);
  meta_not_empty : forall h r, meta_Marshal h r <> "";
  meta_roundtrip : forall h r, meta_Unmarshal (meta_Marshal h r) = Some (h, r);
}.

Definition cert_file (certRoot hostname file : string) : string :=
  path_Join [path_Join [certRoot; CertificateDirectoryName hostname]; file].

Definition CheckCertificateBundle (certRoot hostname : string) (fs : FS) : result bool :=
  if bool_decide (TrimSpace hostname = "") then Err (errors_New "hostname is required") else
  let absent file := match os_Stat (cert_file certRoot hostname file) fs with
                     | Err e => IsNotExist e
                     | Ok _ => false
                     end in
  if absent "tls.crt" then Ok false
  else if absent "tls.key" then Ok false
  else match os_Stat (cert_file certRoot hostname "metadata.json") fs with
       | Err e => if IsNotExist e then Ok false
                  else Err (Errorf "failed to stat certificate files: %s" (err_args e))
       | Ok _ => Ok true
       end.

Section files.
Context {MT : MetaText}.

Definition writeCertificateBundle (certRoot : string) (bundle : CertificateBundle) : go FS () :=
  os_MkdirAll (path_Join [certRoot; CertificateDirectoryName (cb_Hostname bundle)]) ≫= fun _ =>
  os_WriteFile (cert_file certRoot (cb_Hostname bundle) "tls.crt") (cb_TLSCrt bundle) ≫= fun _ =>
  os_WriteFile (cert_file certRoot (cb_Hostname bundle) "tls.key") (cb_TLSKey bundle) ≫= fun _ =>
  os_WriteFile (cert_file certRoot (cb_Hostname bundle) "metadata.json")
    (if bool_decide (cb_MetadataJSON bundle = "")
     then meta_Marshal (cb_Hostname bundle) (cb_Revision bundle) else cb_MetadataJSON bundle).

Definition PutCertificateBundle (certRoot : string) (bundle : option CertificateBundle) : go FS () :=
  match bundle with
  | None => throw (errors_New "bundle is nil")
  | Some bundle => writeCertificateBundle certRoot bundle
  end.

Definition GetCertificateBundle (certRoot hostname : string) (revision : Z) (fs : FS)
    : result CertificateBundle :=
  if bool_decide (TrimSpace hostname = "") then Err (errors_New "hostname is required") else
  crt ← os_ReadFile (cert_file certRoot hostname "tls.crt") fs;
  key ← os_ReadFile (cert_file certRoot hostname "tls.key") fs;
  metadataJSON ← match os_ReadFile (cert_file certRoot hostname "metadata.json") fs with
                 | Ok m => Ok m
                 | Err e => if IsNotExist e then Ok "" else Err e
                 end;
  let bundle := mkCertificateBundle hostname revision crt key metadataJSON in
  if bool_decide (metadataJSON = "") then mret bundle
  else match meta_Unmarshal metadataJSON with
       | None => mret bundle
       | Some (h, r) =>
           mret (mkCertificateBundle (if bool_decide (TrimSpace h = "") then hostname else h)
                   (if bool_decide (r = 0) then revision else r) crt key metadataJSON)
       end.

Definition removeCertificateFiles (certRoot hostname : string) : go FS () := fun fs =>
  if bool_decide (TrimSpace certRoot = "") || bool_decide (TrimSpace hostname = "")
  then (fs, Ok tt)
  else match os_RemoveAll (path_Join [certRoot; CertificateDirectoryName hostname]) fs with
       | (fs', Err e) => (fs', if IsNotExist e then Ok tt else Err e)
       | (fs', Ok _) => (fs', Ok tt)
       end.

End files.

(** ** The store *)

Section store.
Context {SDB : Gorm SlaveTables slave_stmt slave_effect}.

Record LocalStore := mkLocalStore {
  ls_certRoot : string;
  ls_db : db;
  ls_fs : FS;
  ls_dnsChan : list (list DNSRecord);   (* what was sent to the DNS restore loop *)
  ls_fetches : list (string * Z);       (* the bundle fetches started in the background *)
}.

Definition on_db {A} (m : go db A) : go LocalStore A :=
  zoom ls_db (fun d s => mkLocalStore (ls_certRoot s) d (ls_fs s) (ls_dnsChan s) (ls_fetches s)) m.

Definition send_dns (items : list DNSRecord) : go LocalStore () :=
  modify (fun s => mkLocalStore (ls_certRoot s) (ls_db s) (ls_fs s) (ls_dnsChan s ++ [items])
                     (ls_fetches s)).

Definition start_fetch (hostname : string) (revision : Z) : go LocalStore () :=
  modify (fun s => mkLocalStore (ls_certRoot s) (ls_db s) (ls_fs s) (ls_dnsChan s)
                     (ls_fetches s ++ [(hostname, revision)])).

(** A [panic] unwinds through callers that drop errors. *)
Definition panic {S A} (e : error) : go S A :=
  throw (Errorf ("panic: " +:+ err_format e) (err_args e)).
Definition is_panic (e : error) : bool := HasPrefix (err_format e) "panic: ".
#[global] Arguments is_panic : simpl never.

(** A call whose error is dropped, but not its panic. *)
Definition drop_error {S} (m : go S ()) : go S () := fun s =>
  match m s with
  | (s', Err e) => if is_panic e then (s', Err e) else (s', Ok tt)
  | (s', Ok _) => (s', Ok tt)
  end.

Definition from_result {S A} (r : result A) : go S A := fun s => (s, r).

Definition run_stmt (s : slave_stmt) : go LocalStore () :=
  on_db (exec s) ≫= fun _ => mret tt.

Definition dealDNSRecords (input : DNSRecord) : go LocalStore () :=
  if dr_Deleted input then run_stmt (DeleteDns (dr_ID input))
  else
    payload ← from_result (json_Marshal input);
    run_stmt (UpsertDns (mkDnsRow (dr_ID input) (dr_FQDN input) (dr_RecordType input) payload))
      ≫= fun _ =>
    send_dns [input].

Definition dealDomainEntries (input : DomainEntryProjection) : go LocalStore () :=
  if dp_Deleted input then run_stmt (DeleteDomain (dp_Hostname input))
  else
    payload ← from_result (json_Marshal input);
    s ← get_state;
    cert ← match dp_Cert input with
           | None => mret ("", 0)
           | Some c =>
               let certHostname := dp_Hostname input in
               let certRevision := cr_Revision c in
               match CheckCertificateBundle (ls_certRoot s) certHostname (ls_fs s) with
               | Err e => panic e
               | Ok true => mret (certHostname, certRevision)
               | Ok false => start_fetch certHostname certRevision ≫= fun _ =>
                             mret (certHostname, certRevision)
               end
           end;
    run_stmt (UpsertDomain (mkDomainRow (dp_Hostname input) cert.1 cert.2 payload)).

Definition updateSnapshotRecordID (snapshotRecordID : Z) (table tableID : string)
    : go LocalStore () :=
  run_stmt (UpsertSync (mkSyncRow snapshotRecordID table tableID 0)).

(** [tx := s.db.Begin()] and, when a later call fails, the deferred
    [tx.Rollback()].  A panic leaves the transaction open. *)
Definition in_transaction (body : go LocalStore ()) : go LocalStore () := fun s =>
  match on_db begin_tx s with
  | (s1, Err e) => (s1, Err e)
  | (s1, Ok _) =>
      match body s1 with
      | (s2, Err e) => (s2, Err e)
      | (s2, Ok _) =>
          match on_db commit_tx s2 with
          | (s3, Ok _) => (s3, Ok tt)
          | (s3, Err e) =>
              (mkLocalStore (ls_certRoot s3) (rollback_tx (ls_db s3)) (ls_fs s3) (ls_dnsChan s3)
                 (ls_fetches s3), Err e)
          end
      end
  end.

Definition apply_dns (snapshotRecordID : Z) (r : DNSRecord) : go LocalStore () :=
  drop_error (dealDNSRecords r) ≫= fun _ =>
  drop_error (updateSnapshotRecordID snapshotRecordID "dns_records" (dr_ID r)).

Definition apply_domain (snapshotRecordID : Z) (p : DomainEntryProjection) : go LocalStore () :=
  drop_error (dealDomainEntries p) ≫= fun _ =>
  drop_error (updateSnapshotRecordID snapshotRecordID "domain_entries" (dp_Hostname p)).

Definition ApplySnapshot (snapshot : option Snapshot) : go LocalStore () :=
  match snapshot with
  | None => mret tt
  | Some snapshot =>
      in_transaction
        (for_each (apply_dns (sn_SnapshotRecordID snapshot)) (sn_DNSRecords snapshot) ≫= fun _ =>
         for_each (apply_domain (sn_SnapshotRecordID snapshot)) (sn_DomainEntries snapshot))
  end.

(** [ORDER BY snapshot_record_id desc, created_at desc] *)
Definition sync_leb (x y : syncStateRow) : bool :=
  bool_decide (ss_SnapshotRecordID y < ss_SnapshotRecordID x) ||
  (bool_decide (ss_SnapshotRecordID x = ss_SnapshotRecordID y) &&
   bool_decide (ss_CreatedAt y <= ss_CreatedAt x)).

Definition sync_rows (t : SlaveTables) : list syncStateRow := (map_to_list (st_sync t)).*2.

Definition GetSnapshotRecordID : go LocalStore Z :=
  r ← attempt (on_db (first_row sync_rows sync_leb));
  match r with
  | Ok row => mret (ss_SnapshotRecordID row)
  | Err e => if bool_decide (e = ErrRecordNotFound) then mret 0 else throw e
  end.

Definition ErrSnapshotOutOfOrder : error := errors_New "snapshot out of order".

(** The error of reading the cursor is dropped: the cursor is then zero. *)
Definition ApplyChangelog (changelog : option ChangeNotification) : go LocalStore () :=
  match changelog with
  | None => mret tt
  | Some changelog =>
      r ← attempt GetSnapshotRecordID;
      let cursor := match r with Ok c => c | Err _ => 0 end in
      let id := cn_SnapshotRecordID changelog in
      if bool_decide (id <= cursor) then mret tt
      else if bool_decide (u64 (cursor + 1) < id) then throw ErrSnapshotOutOfOrder
      else
        in_transaction
          (for_each (apply_dns id) (option_list (cn_DNSRecord changelog)) ≫= fun _ =>
           for_each (apply_domain id) (option_list (cn_DomainEntry changelog)))
  end.

Definition dns_rows_of (hostname : string) (t : SlaveTables) : list dnsRecordCacheRow :=
  filter (fun r => dc_FQDN r = hostname) (map_to_list (st_dns t)).*2.

(** [ORDER BY record_type asc, id asc] *)
Definition dns_row_leb (x y : dnsRecordCacheRow) : bool :=
  bool_decide (dc_RecordType x <> dc_RecordType y /\ (dc_RecordType x ≤ dc_RecordType y)%string) ||
  (bool_decide (dc_RecordType x = dc_RecordType y) && bool_decide (dc_ID x ≤ dc_ID y)%string).

Definition GetDNSRecordsByHostname (hostname : string) : go LocalStore (list DNSRecord) :=
  cacheRows ← on_db (select (dns_rows_of hostname) dns_row_leb);
  from_result (map_result (fun row => json_Unmarshal (dc_DetailJSON row)) cacheRows).

Definition GetDomainEntryByHostname (hostname : string) : go LocalStore DomainEntryProjection :=
  row ← on_db (first_row (fun t => option_list (st_domains t !! hostname)) (fun _ _ => true));
  from_result (json_Unmarshal (ec_DetailJSON row)).

End store.
