(* ===== verification/SlaveEngine.v ===== *)
(** * The slave engine: engine/slave/engine_subscriber.go, engine/slave/engine.go

    Catching up from snapshots, following change notifications, retrying with
    exponential backoff, and the health endpoint. *)

From S2P Require Import Prelude GoStrings GoTime Metadata Gorm Replication MetadataJson HostNames.
From S2P Require Import GoPath GoFS CertLRU CertResolver SlaveStore.

Open Scope Z_scope.

(** [io.EOF] *)
Definition EOF : error := errors_New "EOF".

Section engine.
Context {SDB : Gorm SlaveTables slave_stmt slave_effect} {MT : MetaText}.

(** What the successive [Recv] calls on a stream return; past the end the
    server has closed the stream. *)
Abbreviation stream A := (list (result (option A))).

(** ** engine_subscriber.go *)

Fixpoint recv_snapshots (s : stream Snapshot) : go LocalStore () :=
  match s with
  | [] => throw EOF
  | Err e :: _ => throw e
  | Ok None :: s => recv_snapshots s
  | Ok (Some snapshot) :: s =>
      ApplySnapshot (Some snapshot) ≫= fun _ =>
      if sn_Last snapshot then mret tt else recv_snapshots s
  end.

Definition CatchUpSnapshots (GetSnapshot : Z -> result (stream Snapshot)) (snapshotRecordID : Z)
    : go LocalStore () :=
  match GetSnapshot snapshotRecordID with
  | Err e => throw e
  | Ok s => recv_snapshots s
  end.

(** The loop over the notice stream; [calls] counts the snapshot streams opened
    so far, each of which meets the master in another state. *)
Fixpoint follow_notices (GetSnapshot : nat -> Z -> result (stream Snapshot)) (calls : nat)
    (cursor : Z) (notices : stream ChangeNotification) : go LocalStore () :=
  match notices with
  | [] => mret tt
  | Err e :: _ => if bool_decide (e = EOF) then mret tt else throw e
  | Ok None :: notices => follow_notices GetSnapshot calls cursor notices
  | Ok (Some notice) :: notices =>
      let id := cn_SnapshotRecordID notice in
      if bool_decide (id <= cursor) then follow_notices GetSnapshot calls cursor notices
      else if bool_decide (u64 (cursor + 1) < id) then
        CatchUpSnapshots (GetSnapshot calls) cursor ≫= fun _ =>
        newcursor ← GetSnapshotRecordID;
        follow_notices GetSnapshot (S calls) newcursor notices
      else
        ApplyChangelog (Some notice) ≫= fun _ =>
        follow_notices GetSnapshot calls id notices
  end.

Definition Subscribe (GetSnapshot : nat -> Z -> result (stream Snapshot))
    (open : result (stream ChangeNotification)) : go LocalStore () :=
  match open with
  | Err e => throw e
  | Ok notices =>
      cursor ← GetSnapshotRecordID;
      CatchUpSnapshots (GetSnapshot 0%nat) cursor ≫= fun _ =>
      cursor ← GetSnapshotRecordID;
      follow_notices GetSnapshot 1 cursor notices
  end.

(** The background fetch [dealDomainEntries] starts, when it runs. *)
Definition run_fetch (FetchCertificateBundle : string -> Z -> result (option CertificateBundle))
    (hostname : string) (revision : Z) : go LocalStore () := fun s =>
  match FetchCertificateBundle hostname revision with
  | Err _ | Ok None => (s, Ok tt)
  | Ok (Some bundle) =>
      let fs := (PutCertificateBundle (ls_certRoot s) (Some bundle) (ls_fs s)).1 in
      (mkLocalStore (ls_certRoot s) (ls_db s) fs (ls_dnsChan s) (ls_fetches s), Ok tt)
  end.

(** ** engine.go *)

(** [New] fills in the backoff bounds; durations are in nanoseconds. *)
Definition default_backoff (minB maxB : Z) : Z * Z :=
  (if bool_decide (minB <= 0) then 1000000000 else minB,
   if bool_decide (maxB <= 0) then 30 * 1000000000 else maxB).

(** [int64] arithmetic of [time.Duration]. *)
Definition i64 (x : Z) : Z := (x + 2 ^ 63) mod 2 ^ 64 - 2 ^ 63.

Definition next_backoff (maxB backoff : Z) : Z :=
  let backoff := i64 (backoff * 2) in
  if bool_decide (maxB < backoff) then maxB else backoff.

(** How one [Subscribe] attempt ended, seen by the loop of [Start]. *)
Inductive attempt_end :=
  | Finished                    (* no error *)
  | Failed                      (* an error, the context still live, the timer fired *)
  | Cancelled.                  (* the context was done *)

(** The waits between the attempts, and whether the loop returned. *)
Fixpoint retry_loop (maxB backoff : Z) (attempts : list attempt_end) : list Z * bool :=
  match attempts with
  | [] => ([], false)
  | Failed :: attempts =>
      let '(waits, done) := retry_loop maxB (next_backoff maxB backoff) attempts in
      (backoff :: waits, done)
  | _ :: _ => ([], true)
  end.

Inductive http_status := StatusOK | StatusMethodNotAllowed | StatusServiceUnavailable.

Definition handleHealthz (method : string) (ready : bool) : http_status :=
  if bool_decide (method <> "GET") then StatusMethodNotAllowed
  else if negb ready then StatusServiceUnavailable
  else StatusOK.

End engine.
