(* ===== verification/SlaveFacts.v ===== *)
(** * Correctness of the slave's store *)

From S2P Require Import Prelude GoStrings GoTime Metadata Gorm Replication MetadataJson HostNames.
From S2P Require Import GoPath GoFS CertLRU CertResolver SlaveStore SlaveEngine.

Open Scope Z_scope.

Section facts.
Context {SDB : Gorm SlaveTables slave_stmt slave_effect}.

Abbreviation tables s := (rows (ls_db s)).

(** ** Transactions are atomic *)

(** A computation that keeps the saved tables and fails only by panicking. *)
Definition in_tx (m : go LocalStore ()) : Prop :=
  forall s s' r, m s = (s', r) ->
    saved (ls_db s') = saved (ls_db s) /\ (forall e, r = Err e -> is_panic e = true).

Definition keeps_saved {A} (m : go LocalStore A) : Prop :=
  forall s, saved (ls_db (m s).1) = saved (ls_db s).

Lemma keeps_saved_bind {A B} (m : go LocalStore A) (k : A -> go LocalStore B) :
  keeps_saved m -> (forall a, keeps_saved (k a)) -> keeps_saved (m ≫= k).
Proof.
  intros Hm Hk s. specialize (Hm s). unfold mbind, go_bind.
  destruct (m s) as [s1 [a|e]]; cbn in *; [|done]. by rewrite Hk.
Qed.

Lemma keeps_saved_run st : keeps_saved (run_stmt st).
Proof.
  apply keeps_saved_bind; [|done]. intros s. unfold on_db, zoom.
  pose proof (exec_saved st (ls_db s)) as H. by destruct (exec st (ls_db s)).
Qed.

Lemma keeps_saved_dns r : keeps_saved (dealDNSRecords r).
Proof.
  unfold dealDNSRecords. case_match; [apply keeps_saved_run|].
  apply keeps_saved_bind; [done|intros payload].
  apply keeps_saved_bind; [apply keeps_saved_run|done].
Qed.

Lemma keeps_saved_domain p : keeps_saved (dealDomainEntries p).
Proof.
  unfold dealDomainEntries. case_match; [apply keeps_saved_run|].
  apply keeps_saved_bind; [done|intros payload].
  apply keeps_saved_bind; [done|intros s0].
  apply keeps_saved_bind; [|intros c; apply keeps_saved_run].
  destruct (dp_Cert p) as [c|]; [|done].
  destruct (CheckCertificateBundle _ _ _) as [[]|e]; done.
Qed.

Lemma in_tx_drop m : keeps_saved m -> in_tx (drop_error m).
Proof.
  intros Hm s s' r. unfold drop_error. specialize (Hm s).
  destruct (m s) as [s1 [[]|e]]; cbn in Hm; [by intros [= <- <-]|].
  destruct (is_panic e) eqn:E; intros [= <- <-]; naive_solver.
Qed.

Lemma in_tx_bind m (k : () -> go LocalStore ()) :
  in_tx m -> (forall a, in_tx (k a)) -> in_tx (m ≫= k).
Proof.
  intros Hm Hk s s' r. unfold mbind, go_bind. destruct (m s) as [s1 [a|e]] eqn:E.
  - intros H. destruct (Hm _ _ _ E) as [H1 _]. destruct (Hk _ _ _ _ H) as [H2 H3].
    split; [congruence|done].
  - intros [= <- <-]. destruct (Hm _ _ _ E) as [H1 H2]. split; [done|]. intros e' [= <-]. auto.
Qed.

Lemma in_tx_for_each {A} (body : A -> go LocalStore ()) l :
  (forall a, in_tx (body a)) -> in_tx (for_each body l).
Proof.
  intros Hb. induction l as [|a l IH]; cbn; [|by apply in_tx_bind].
  by intros s s' r [= <- <-].
Qed.

Lemma in_tx_apply_dns id r : in_tx (apply_dns id r).
Proof.
  apply in_tx_bind; [apply in_tx_drop, keeps_saved_dns|intros _].
  apply in_tx_drop, keeps_saved_run.
Qed.

Lemma in_tx_apply_domain id p : in_tx (apply_domain id p).
Proof.
  apply in_tx_bind; [apply in_tx_drop, keeps_saved_domain|intros _].
  apply in_tx_drop, keeps_saved_run.
Qed.

Lemma transaction_atomic body s s' e :
  in_tx body -> in_transaction body s = (s', Err e) -> is_panic e = false ->
  tables s' = tables s.
Proof.
  intros Hbody. unfold in_transaction, on_db, zoom.
  pose proof (begin_rows (ls_db s)) as Hb. pose proof (begin_ok (ls_db s)) as Hbo.
  destruct (begin_tx (ls_db s)) as [d1 [[]|e1]]; cbn in *; [|by intros [= <- _]].
  destruct (body _) as [s2 [[]|e2]] eqn:E2.
  - destruct (Hbody _ _ _ E2) as [Hsv _]. cbn in Hsv. rewrite Hbo in Hsv by done.
    pose proof (commit_err (ls_db s2)) as Hce. pose proof (commit_rows (ls_db s2)) as Hcr.
    destruct (commit_tx (ls_db s2)) as [d3 [[]|e3]]; cbn in *; [done|].
    intros [= <- _] _. cbn. apply rollback_rows. rewrite (Hce e3) by done. done.
  - intros [= _ <-] Hp. destruct (Hbody _ _ _ E2) as [_ H]. specialize (H _ eq_refl). congruence.
Qed.

Lemma cursor_read_rows s : tables (GetSnapshotRecordID s).1 = tables s.
Proof.
  unfold GetSnapshotRecordID. cbv [mbind go_bind attempt on_db zoom].
  pose proof (first_row_rows sync_rows sync_leb (ls_db s)) as H.
  destruct (first_row sync_rows sync_leb (ls_db s)) as [d [row|e]]; cbn in *; [done|].
  by case_bool_decide.
Qed.


(** ** The effect of applying, when the database does not fail *)

Record slave_reliable : Prop := {
  sr_select : forall (R : Type) (f : SlaveTables -> list R) leb d, is_ok (select f leb d).2 = true;
  sr_exec : forall st d, is_ok (exec st d).2 = true;
  sr_begin : forall d, is_ok (begin_tx d).2 = true;
  sr_commit : forall d, is_ok (commit_tx d).2 = true;
}.

(** Rows of the sync table sit under their own record id, which is positive. *)
Definition sync_wf (t : SlaveTables) : Prop :=
  map_Forall (fun k row => ss_SnapshotRecordID row = k.1 /\ 0 <= k.1) (st_sync t).

Definition cache_dns (m : gmap string dnsRecordCacheRow) (r : DNSRecord)
    : gmap string dnsRecordCacheRow :=
  if dr_Deleted r then delete (dr_ID r) m
  else match json_Marshal r with
       | Ok j => <[dr_ID r := mkDnsRow (dr_ID r) (dr_FQDN r) (dr_RecordType r) j]> m
       | Err _ => m
       end.

Definition domain_row (p : DomainEntryProjection) (j : json) : domainEntryCacheRow :=
  mkDomainRow (dp_Hostname p) (match dp_Cert p with Some _ => dp_Hostname p | None => "" end)
    (default 0 (cr_Revision <$> dp_Cert p)) j.

Definition cache_domain (m : gmap string domainEntryCacheRow) (p : DomainEntryProjection)
    : gmap string domainEntryCacheRow :=
  if dp_Deleted p then delete (dp_Hostname p) m
  else match json_Marshal p with
       | Ok j => <[dp_Hostname p := domain_row p j]> m
       | Err _ => m
       end.

(** The bundle check of an entry does not fail. *)
Definition checkable (s : LocalStore) (p : DomainEntryProjection) : Prop :=
  dp_Cert p <> None ->
  is_ok (CheckCertificateBundle (ls_certRoot s) (dp_Hostname p) (ls_fs s)) = true.

Definition same_files (s s' : LocalStore) : Prop :=
  ls_certRoot s' = ls_certRoot s /\ ls_fs s' = ls_fs s.

(** A computation that succeeds with the given effect on the cached items and
    the keys of the sync table. *)
Definition effect_on (s : LocalStore) (m : go LocalStore ())
    (fd : gmap string dnsRecordCacheRow -> gmap string dnsRecordCacheRow)
    (fe : gmap string domainEntryCacheRow -> gmap string domainEntryCacheRow)
    (ids : gset (Z * string)) : Prop :=
  exists s', m s = (s', Ok tt) /\ same_files s s' /\
    st_dns (tables s') = fd (st_dns (tables s)) /\
    st_domains (tables s') = fe (st_domains (tables s)) /\
    dom (st_sync (tables s')) = ids ∪ dom (st_sync (tables s)) /\
    ((forall i, i ∈ ids -> 0 <= i.1) -> sync_wf (tables s) -> sync_wf (tables s')).

Context (Hrel : slave_reliable).

Lemma run_stmt_ok st s :
  exists s' now, run_stmt st s = (s', Ok tt) /\ same_files s s' /\
    slave_effect st now (tables s) = Ok (tables s') /\
    ls_dnsChan s' = ls_dnsChan s /\ ls_fetches s' = ls_fetches s.
Proof.
  unfold run_stmt, on_db, zoom. cbv [mbind go_bind].
  pose proof (sr_exec Hrel st (ls_db s)) as Hok. pose proof (exec_ok st (ls_db s)) as He.
  destruct (exec st (ls_db s)) as [d [now|e]]; [|done]. cbn in *.
  eexists _, now. split; [done|]. split; [done|]. cbn. split; [by apply He|done].
Qed.

Lemma effect_bind s m1 m2 fd1 fe1 ids1 fd2 fe2 ids2 :
  effect_on s m1 fd1 fe1 ids1 ->
  (forall s', same_files s s' -> effect_on s' m2 fd2 fe2 ids2) ->
  effect_on s (m1 ≫= fun _ => m2) (fun m => fd2 (fd1 m)) (fun m => fe2 (fe1 m)) (ids2 ∪ ids1).
Proof using Type.
  clear Hrel.
  intros (s1 & E1 & Hf1 & Hd1 & He1 & Hi1 & Hw1) H2.
  destruct (H2 s1 Hf1) as (s2 & E2 & Hf2 & Hd2 & He2 & Hi2 & Hw2).
  exists s2. cbv [mbind go_bind]. rewrite E1, E2. destruct Hf1, Hf2.
  split_and!; try congruence; [split; congruence|..].
  - rewrite Hi2, Hi1. by rewrite (assoc_L (∪)).
  - intros Hid Hwf. apply Hw2; [|apply Hw1]; [..|done]; intros i Hi; apply Hid; set_solver.
Qed.

Lemma effect_drop s m fd fe ids : effect_on s m fd fe ids -> effect_on s (drop_error m) fd fe ids.
Proof using Type.
  clear Hrel. intros (s' & E & H). exists s'. unfold drop_error. by rewrite E. Qed.

Lemma effect_sync s id table tableID :
  effect_on s (updateSnapshotRecordID id table tableID) (fun m => m) (fun m => m) {[(id, table)]}.
Proof.
  unfold updateSnapshotRecordID. destruct (run_stmt_ok (UpsertSync (mkSyncRow id table tableID 0)) s)
    as (s' & now & E & Hf & Heff & _). injection Heff as Heff.
  exists s'. rewrite <- Heff. cbn. split_and!; try done; [by rewrite dom_insert_L|].
  intros Hid Hwf. apply map_Forall_insert_2; [|done]. cbn. split; [done|].
  apply (Hid (id, table)). set_solver.
Qed.

Lemma effect_deal_dns s r :
  is_ok (json_Marshal r) = true ->
  effect_on s (dealDNSRecords r) (fun m => cache_dns m r) (fun m => m) ∅.
Proof.
  intros Hj. unfold dealDNSRecords, cache_dns. destruct (dr_Deleted r).
  - destruct (run_stmt_ok (DeleteDns (dr_ID r)) s) as (s' & now & E & Hf & Heff & _).
    injection Heff as Heff. exists s'. rewrite <- Heff. cbn.
    split_and!; try done. by rewrite (left_id_L ∅ (∪)).
  - destruct (json_Marshal r) as [j|]; [|done].
    destruct (run_stmt_ok (UpsertDns (mkDnsRow (dr_ID r) (dr_FQDN r) (dr_RecordType r) j)) s)
      as (s' & now & E & Hf & Heff & _). injection Heff as Heff.
    unfold effect_on, from_result. cbv [mbind go_bind]. rewrite E.
    eexists. split; [done|]. cbn. rewrite <- Heff. cbn.
    split_and!; try done. by rewrite (left_id_L ∅ (∪)).
Qed.

Lemma effect_deal_domain s p :
  is_ok (json_Marshal p) = true -> checkable s p ->
  effect_on s (dealDomainEntries p) (fun m => m) (fun m => cache_domain m p) ∅.
Proof.
  intros Hj Hchk. unfold dealDomainEntries, cache_domain. destruct (dp_Deleted p).
  { destruct (run_stmt_ok (DeleteDomain (dp_Hostname p)) s) as (s' & now & E & Hf & Heff & _).
    injection Heff as Heff. exists s'. rewrite <- Heff. cbn.
    split_and!; try done. by rewrite (left_id_L ∅ (∪)). }
  destruct (json_Marshal p) as [j|]; [|done].
  unfold effect_on, from_result, get_state. cbv [mbind go_bind].
  assert (exists s1, match dp_Cert p with
    | None => mret ("", 0)
    | Some c => match CheckCertificateBundle (ls_certRoot s) (dp_Hostname p) (ls_fs s) with
        | Err e => panic e
        | Ok true => mret (dp_Hostname p, cr_Revision c)
        | Ok false => start_fetch (dp_Hostname p) (cr_Revision c) ≫= fun _ =>
                      mret (dp_Hostname p, cr_Revision c)
        end
    end s = (s1, Ok (match dp_Cert p with Some _ => dp_Hostname p | None => "" end,
                     default 0 (cr_Revision <$> dp_Cert p))) /\
    ls_db s1 = ls_db s /\ same_files s s1) as (s1 & E1 & Hdb & Hf1).
  { destruct (dp_Cert p) as [c|] eqn:Ec; [|by exists s].
    specialize (Hchk ltac:(congruence)).
    destruct (CheckCertificateBundle _ _ _) as [[]|]; [by exists s| |done].
    eexists. by split. }
  cbv [mbind go_bind] in E1. rewrite E1. cbn [fst snd].
  destruct (run_stmt_ok (UpsertDomain (domain_row p j)) s1) as (s' & now & E & Hf & Heff & _).
  injection Heff as Heff. rewrite Hdb in Heff. exists s'. destruct Hf1, Hf. rewrite <- Heff. cbn.
  split_and!; try done; [split; congruence|]. by rewrite (left_id_L ∅ (∪)).
Qed.

Lemma effect_ext s m fd fe ids fd' fe' ids' :
  effect_on s m fd fe ids -> (forall x, fd x = fd' x) -> (forall x, fe x = fe' x) -> ids = ids' ->
  effect_on s m fd' fe' ids'.
Proof using Type.
  clear Hrel. intros (s' & H) Hd He ->. exists s'. by rewrite <- Hd, <- He. Qed.

Lemma effect_apply_dns s id r :
  is_ok (json_Marshal r) = true ->
  effect_on s (apply_dns id r) (fun m => cache_dns m r) (fun m => m) {[(id, "dns_records")]}.
Proof.
  intros Hj. eapply effect_ext; [eapply effect_bind| | |].
  - by apply effect_drop, effect_deal_dns.
  - intros s' _. apply effect_drop, effect_sync.
  - done.
  - done.
  - by rewrite (right_id_L ∅ (∪)).
Qed.

Lemma effect_apply_domain s id p :
  is_ok (json_Marshal p) = true -> checkable s p ->
  effect_on s (apply_domain id p) (fun m => m) (fun m => cache_domain m p)
    {[(id, "domain_entries")]}.
Proof.
  intros Hj Hc. eapply effect_ext; [eapply effect_bind| | |].
  - by apply effect_drop, effect_deal_domain.
  - intros s' _. apply effect_drop, effect_sync.
  - done.
  - done.
  - by rewrite (right_id_L ∅ (∪)).
Qed.

(** The sync rows a list of items leaves. *)
Definition sync_ids {A} (id : Z) (table : string) (l : list A) : gset (Z * string) :=
  match l with [] => ∅ | _ => {[(id, table)]} end.

Lemma sync_ids_id {A B} id a b (l1 : list A) (l2 : list B) x :
  x ∈ sync_ids id a l1 ∪ sync_ids id b l2 -> x.1 = id.
Proof using Type.
  clear Hrel.
  rewrite elem_of_union. destruct l1, l2; cbn; rewrite ?elem_of_singleton, ?elem_of_empty;
    intros [Hx|Hx]; done || by subst.
Qed.

Lemma sync_ids_empty {A B} id a b (l1 : list A) (l2 : list B) :
  sync_ids id a l1 ∪ sync_ids id b l2 = ∅ <-> l1 = [] /\ l2 = [].
Proof using Type.
  clear Hrel.
  assert (forall x : Z * string, x ∈ (∅ : gset (Z * string)) -> False) as Hno by set_solver.
  destruct l1 as [|x1 l1], l2 as [|x2 l2]; cbn.
  - split; [done|]. intros _. by rewrite (left_id_L ∅ (∪)).
  - split; [|by intros [_ ?]]. intros H. destruct (Hno (id, b)). rewrite <- H. set_solver.
  - split; [|by intros [? _]]. intros H. destruct (Hno (id, a)). rewrite <- H. set_solver.
  - split; [|by intros [? _]]. intros H. destruct (Hno (id, a)). rewrite <- H. set_solver.
Qed.

Lemma effect_for_each {A} (body : A -> go LocalStore ()) fd fe id table l s :
  (forall a s', a ∈ l -> same_files s s' ->
     effect_on s' (body a) (fun m => fd m a) (fun m => fe m a) {[(id, table)]}) ->
  effect_on s (for_each body l) (fun m => foldl fd m l) (fun m => foldl fe m l)
    (sync_ids id table l).
Proof using Type.
  clear Hrel.
  revert s. induction l as [|a l IH]; intros s Hb.
  { exists s. split_and!; try done. cbn. by rewrite (left_id_L ∅ (∪)). }
  eapply effect_ext; [eapply effect_bind| | |].
  - apply Hb; [set_solver|done].
  - intros s1 [H1 H2]. apply IH. intros a' s2 Ha [H3 H4]. apply Hb; [set_solver|].
    split; congruence.
  - done.
  - done.
  - cbn. destruct l; cbn; set_solver.
Qed.

Lemma effect_transaction s m fd fe ids :
  (forall s', same_files s s' -> effect_on s' m fd fe ids) ->
  effect_on s (in_transaction m) fd fe ids.
Proof.
  intros Hm. unfold effect_on, in_transaction, on_db, zoom.
  pose proof (sr_begin Hrel (ls_db s)) as Hb. pose proof (begin_rows (ls_db s)) as Hbr.
  destruct (begin_tx (ls_db s)) as [d1 [[]|]]; [|done]. cbn in *.
  set (s1 := mkLocalStore _ d1 _ _ _). assert (same_files s s1) as Hf1 by done.
  destruct (Hm s1 Hf1) as (s2 & E & Hf2 & Hd & He & Hi & Hw). rewrite E.
  pose proof (sr_commit Hrel (ls_db s2)) as Hc. pose proof (commit_rows (ls_db s2)) as Hcr.
  destruct (commit_tx (ls_db s2)) as [d3 [[]|]]; [|done]. cbn in *. rewrite Hbr in *.
  eexists. split; [done|]. cbn. rewrite Hcr. by destruct Hf1, Hf2.
Qed.

(** What a snapshot does to the cache. *)
Lemma apply_snapshot_effect s sn :
  Forall (fun r => is_ok (json_Marshal r) = true) (sn_DNSRecords sn) ->
  Forall (fun p => is_ok (json_Marshal p) = true /\ checkable s p) (sn_DomainEntries sn) ->
  effect_on s (ApplySnapshot (Some sn))
    (fun m => foldl cache_dns m (sn_DNSRecords sn))
    (fun m => foldl cache_domain m (sn_DomainEntries sn))
    (sync_ids (sn_SnapshotRecordID sn) "dns_records" (sn_DNSRecords sn) ∪
     sync_ids (sn_SnapshotRecordID sn) "domain_entries" (sn_DomainEntries sn)).
Proof.
  intros HF1 HF2. rewrite Forall_forall in HF1. rewrite Forall_forall in HF2. unfold ApplySnapshot.
  apply effect_transaction. intros s1 [Hr1 Hf1].
  assert (forall {A B} (l : list A) (m : B), foldl (fun m _ => m) m l = m) as Hconst
    by (intros A B l; induction l; auto).
  eapply effect_ext; [eapply effect_bind| | |].
  - apply (effect_for_each _ cache_dns (fun m _ => m)). intros r s2 Hr _. by apply effect_apply_dns, HF1.
  - intros s2 [Hr2 Hf2]. apply (effect_for_each _ (fun m _ => m) cache_domain).
    intros p s3 Hp [Hr3 Hf3]. destruct (HF2 p Hp) as [Hj Hc]. apply effect_apply_domain; [done|].
    unfold checkable in *. by rewrite Hr3, Hf3, Hr2, Hf2, Hr1, Hf1.
  - intros x. cbn. by rewrite Hconst.
  - intros x. cbn. by rewrite Hconst.
  - by rewrite (comm_L (∪)).
Qed.

(** ** The cursor *)

(** The greatest record id in the sync table, zero when it is empty. *)
Definition is_cursor (t : SlaveTables) (c : Z) : Prop :=
  (forall k, k ∈ dom (st_sync t) -> k.1 <= c) /\
  (c = 0 \/ exists k, k ∈ dom (st_sync t) /\ k.1 = c) /\ 0 <= c.

Lemma is_cursor_unique t c c' : is_cursor t c -> is_cursor t c' -> c = c'.
Proof using Type.
  clear Hrel.
  intros (H1 & H2 & H3) (H4 & H5 & H6).
  assert (c <= c'); [destruct H2 as [->|(k & Hk & <-)]; [done|auto]|].
  assert (c' <= c); [destruct H5 as [->|(k & Hk & <-)]; [done|auto]|]. lia.
Qed.

Lemma sync_order : total_preorder sync_leb.
Proof using Type.
  clear Hrel.
  unfold sync_leb. split.
  - intros x y. rewrite !orb_true_iff, !andb_true_iff, !bool_decide_eq_true. lia.
  - intros x y z. rewrite !orb_true_iff, !andb_true_iff, !bool_decide_eq_true. lia.
Qed.

Lemma elem_of_sync_rows t row :
  row ∈ sync_rows t <-> exists k, st_sync t !! k = Some row.
Proof using Type.
  clear Hrel.
  unfold sync_rows. rewrite list_elem_of_fmap. split.
  - intros ([k r] & -> & H%elem_of_map_to_list). eauto.
  - intros [k H]. exists (k, row). split; [done|]. by apply elem_of_map_to_list.
Qed.

Lemma get_cursor s :
  sync_wf (tables s) ->
  exists s' c, GetSnapshotRecordID s = (s', Ok c) /\ is_cursor (tables s) c /\
    tables s' = tables s /\ same_files s s'.
Proof.
  intros Hwf. unfold GetSnapshotRecordID. cbv [mbind go_bind attempt on_db zoom].
  pose proof (first_row_rows sync_rows sync_leb (ls_db s)) as Hr.
  pose proof (first_row_ok sync_rows sync_leb (ls_db s)) as Hok.
  pose proof (first_row_least sync_rows sync_leb (ls_db s)) as Hl.
  pose proof (first_row_not_found sync_rows sync_leb (ls_db s)) as Hnf.
  assert (forall e, (first_row sync_rows sync_leb (ls_db s)).2 = Err e -> e = ErrRecordNotFound)
    as Htot.
  { intros e. unfold first_row. cbv [mbind go_bind].
    pose proof (sr_select Hrel _ sync_rows sync_leb (ls_db s)) as Hs.
    destruct (select _ _ _) as [d [[|x l]|e']]; cbn; [by intros [= <-]|done|done]. }
  destruct (first_row sync_rows sync_leb (ls_db s)) as [d [row|e]]; cbn in *.
  - exists (mkLocalStore (ls_certRoot s) d (ls_fs s) (ls_dnsChan s) (ls_fetches s)).
    exists (ss_SnapshotRecordID row). split_and!; try done.
    specialize (Hok row eq_refl). apply elem_of_sync_rows in Hok as [k Hk].
    destruct (Hwf _ _ Hk) as [Hid Hpos]. split_and!; [|right|lia].
    + intros k' [row' Hk']%elem_of_dom. destruct (Hwf _ _ Hk') as [<- _].
      specialize (Hl row sync_order eq_refl row'). unfold sync_leb in Hl.
      rewrite !orb_true_iff, !andb_true_iff, !bool_decide_eq_true in Hl.
      rewrite elem_of_sync_rows in Hl. specialize (Hl (ex_intro _ _ Hk')). lia.
    + exists k. split; [by eapply elem_of_dom_2|done].
  - rewrite (Htot e eq_refl). rewrite bool_decide_eq_true_2 by done.
    eexists _, 0. split; [done|]. split; [|done]. split; [|split; [by left|lia]].
    intros k [row Hk]%elem_of_dom. specialize (Hnf ltac:(by rewrite (Htot e eq_refl))).
    assert (row ∈ sync_rows (tables s)) as Hin by (apply elem_of_sync_rows; eauto).
    rewrite Hnf in Hin. by apply elem_of_nil in Hin.
Qed.

(** The cursor after new sync rows of one record id. *)
Lemma is_cursor_extend t t' c id ids :
  is_cursor t c -> dom (st_sync t') = ids ∪ dom (st_sync t) ->
  (forall k, k ∈ ids -> k.1 = id) -> c <= id -> ids <> ∅ -> is_cursor t' id.
Proof using Type.
  clear Hrel.
  intros (H1 & H2 & H3) Hd Hid Hle Hne. unfold is_cursor. rewrite Hd. split_and!; [| |lia].
  - intros k [Hk|Hk]%elem_of_union; [by rewrite (Hid k)|]. specialize (H1 k Hk). lia.
  - right. apply set_choose_L in Hne as [k Hk]. exists k. set_solver.
Qed.

Lemma is_cursor_same t t' c : is_cursor t c -> dom (st_sync t') = dom (st_sync t) -> is_cursor t' c.
Proof using Type.
  clear Hrel. intros H Hd. unfold is_cursor. by rewrite Hd. Qed.

(** What a change notification does, by its position relative to the cursor. *)
Lemma apply_changelog_effect s n c :
  sync_wf (tables s) -> is_cursor (tables s) c -> c + 1 < 2 ^ 64 ->
  (forall r, cn_DNSRecord n = Some r -> is_ok (json_Marshal r) = true) ->
  (forall p, cn_DomainEntry n = Some p -> is_ok (json_Marshal p) = true /\ checkable s p) ->
  (cn_SnapshotRecordID n <= c -> exists s', ApplyChangelog (Some n) s = (s', Ok tt) /\
     tables s' = tables s /\ same_files s s') /\
  (c + 1 < cn_SnapshotRecordID n -> exists s',
     ApplyChangelog (Some n) s = (s', Err ErrSnapshotOutOfOrder) /\ tables s' = tables s /\
     same_files s s') /\
  (cn_SnapshotRecordID n = c + 1 ->
     effect_on s (ApplyChangelog (Some n))
       (fun m => foldl cache_dns m (option_list (cn_DNSRecord n)))
       (fun m => foldl cache_domain m (option_list (cn_DomainEntry n)))
       (sync_ids (c + 1) "dns_records" (option_list (cn_DNSRecord n)) ∪
        sync_ids (c + 1) "domain_entries" (option_list (cn_DomainEntry n)))).
Proof.
  intros Hwf Hc Hlt Hj1 Hj2. destruct (get_cursor s Hwf) as (s1 & c' & E & Hc' & Ht & Hf).
  rewrite (is_cursor_unique _ _ _ Hc' Hc) in E.
  assert (u64 (c + 1) = c + 1) as Hu by (apply u64_small; destruct Hc as (_ & _ & ?); split; lia).
  unfold effect_on, ApplyChangelog. cbv [mbind go_bind attempt]. rewrite E, Hu. split_and!.
  - intros Hle. rewrite bool_decide_eq_true_2 by done. by exists s1.
  - intros Hgt. rewrite bool_decide_eq_false_2, bool_decide_eq_true_2 by lia. by exists s1.
  - intros Heq. rewrite !bool_decide_eq_false_2 by lia. rewrite Heq.
    pose proof (apply_snapshot_effect s1 (mkSnapshot "" zero_time (c + 1)
      (option_list (cn_DNSRecord n)) (option_list (cn_DomainEntry n)) true)) as H.
    cbn [sn_DNSRecords sn_DomainEntries sn_SnapshotRecordID] in H. unfold effect_on in H.
    rewrite Ht in H. destruct Hf as [Hf1 Hf2].
    destruct H as (s' & Hrun & [Hg1 Hg2] & H).
    { destruct (cn_DNSRecord n) as [r|]; [|constructor]. apply Forall_singleton. auto. }
    { destruct (cn_DomainEntry n) as [p|]; [|constructor]. apply Forall_singleton.
      destruct (Hj2 p eq_refl) as [? Hk]. split; [done|]. unfold checkable in *.
      by rewrite Hf1, Hf2. }
    exists s'. split; [exact Hrun|]. split; [split; congruence|exact H].
Qed.
End facts.
