(* ===== verification/Sync.v ===== *)
(** * Master and slave together

    The system of one master and one subscribed slave as a transition relation
    whose steps run the code of both sides, and the replication invariant:
    whatever is live on the master and was broadcast is either still ahead of
    the slave's cursor in the log, or cached by the slave in its current
    form. *)

From S2P Require Import Prelude GoStrings GoTime Metadata Gorm Repository RepositoryFacts.
From S2P Require Import Replication Hub MasterEngine MasterFacts MetadataJson HostNames GoPath.
From S2P Require Import GoFS CertLRU CertResolver SlaveStore SlaveEngine SlaveFacts.

Open Scope Z_scope.

(** ** Replicated items *)

(** What a log record refers to: a sync type and an id. *)
Abbreviation key := (string * string)%type (only parsing).

Definition record_key (r : SnapshotRecord) : key := (sr_SyncType r, sr_SyncID r).

Inductive item :=
  | ItemDNS (r : DNSRecord)
  | ItemDomain (p : DomainEntryProjection).

(** The form in which an item reaches the slave. *)
Definition wire (i : item) : item :=
  match i with
  | ItemDNS r => ItemDNS (wire_dns r)
  | ItemDomain p => ItemDomain (wire_domain p)
  end.

(** The live item of a key on the master. *)
Definition current (t : Tables) (k : key) (i : item) : Prop :=
  match i with
  | ItemDNS r => k.1 = SnapshotSyncTypeDNSRecord /\ live_row t k.2 = Some r
  | ItemDomain p => k.1 = SnapshotSyncTypeDomainEntryProjection /\ projects t k.2 p
  end.

(** The item a slave holds for a key. *)
Definition cached (st : SlaveTables) (k : key) (i : item) : Prop :=
  match i with
  | ItemDNS r => exists j, json_Marshal r = Ok j /\
      st_dns st !! k.2 = Some (mkDnsRow (dr_ID r) (dr_FQDN r) (dr_RecordType r) j)
  | ItemDomain p => exists j, json_Marshal p = Ok j /\ st_domains st !! k.2 = Some (domain_row p j)
  end.

Definition notice_item (n : ChangeNotification) : option (key * item) :=
  match cn_DomainEntry n, cn_DNSRecord n with
  | Some p, _ => Some ((SnapshotSyncTypeDomainEntryProjection, dp_Hostname p), ItemDomain p)
  | None, Some r => Some ((SnapshotSyncTypeDNSRecord, dr_ID r), ItemDNS r)
  | None, None => None
  end.

(** ** Items and their encodings *)

Lemma wire_dns_marshals r : is_ok (json_Marshal (wire_dns r)) = true.
Proof. by destruct r as [[]]. Qed.

(** The times of a projected certificate are zero. *)
Lemma projects_times t h p c :
  projects t h p -> dp_Cert p = Some c -> cr_NotBefore c = zero_time /\ cr_NotAfter c = zero_time.
Proof.
  intros (first & rs & -> & _ & _). unfold projection_of_rows.
  assert (forall oc, row_cert oc = Some c -> cr_NotBefore c = zero_time /\ cr_NotAfter c = zero_time)
    as Hrow.
  { intros oc. unfold row_cert. destruct (present _); cbn; [|done]. by intros [= <-]. }
  destruct (is_L4 _); cbn; apply Hrow.
Qed.

Lemma wire_backend_marshals b : is_ok (json_Marshal (wire_backend b)) = true.
Proof. by destruct b. Qed.

Lemma map_result_total {A B} (f : A -> result B) l :
  (forall a, a ∈ l -> is_ok (f a) = true) -> is_ok (map_result f l) = true.
Proof.
  induction l as [|a l IH]; intros Hf; cbn; [done|].
  pose proof (Hf a ltac:(set_solver)) as Ha. destruct (f a); [|done]. cbn.
  specialize (IH ltac:(set_solver)). by destruct (map_result f l).
Qed.

Lemma wire_route_marshals r : is_ok (json_Marshal (wire_route r)) = true.
Proof. by destruct r as [? ? ? [[]|]]. Qed.

Lemma field_total {A} `{!Json A} tag (a : A) :
  is_ok (json_Marshal a) = true -> exists f, field tag a = Ok f.
Proof. unfold field. destruct (json_Marshal a); [|done]. cbn. eauto. Qed.

Lemma wire_domain_marshals p :
  (forall c, dp_Cert p = Some c -> cr_NotBefore c = zero_time /\ cr_NotAfter c = zero_time) ->
  is_ok (json_Marshal (wire_domain p)) = true.
Proof.
  intros Hp. destruct p as [host del need cert ty routes binded].
  assert (is_ok (json_Marshal (wire_cert <$> cert)) = true) as Hcert.
  { destruct cert as [c|]; [|done]. destruct (Hp c eq_refl) as [H1 H2].
    destruct c. cbn in *. by subst. }
  assert (is_ok (json_Marshal (wire_route <$> routes)) = true) as Hroutes.
  { change (is_ok (JArray <$> map_result json_Marshal (wire_route <$> routes)) = true).
    assert (is_ok (map_result json_Marshal (wire_route <$> routes)) = true) as H.
    - apply map_result_total. intros r' (r & -> & _)%list_elem_of_fmap. apply wire_route_marshals.
    - by destruct (map_result json_Marshal (wire_route <$> routes)). }
  assert (is_ok (json_Marshal (wire_backend <$> binded)) = true) as Hb by (by destruct binded).
  unfold wire_domain, json_Marshal, json_DomainEntryProjection.
  cbn [dp_Hostname dp_Deleted dp_NeedCert dp_Cert dp_BackendType dp_HTTPRoutes dp_BindedBackendRef].
  destruct (field_total "cert" _ Hcert) as [f1 E1].
  destruct (field_total "http_routes" _ Hroutes) as [f2 E2].
  destruct (field_total "binded_backend_ref" _ Hb) as [f3 E3].
  rewrite E1, E2, E3. done.
Qed.

(** ** What applying a list of items leaves in the cache *)

Section caches.

Lemma cache_dns_same m r j :
  dr_Deleted r = false -> json_Marshal r = Ok j ->
  cache_dns m r !! dr_ID r = Some (mkDnsRow (dr_ID r) (dr_FQDN r) (dr_RecordType r) j).
Proof. intros Hd Hj. unfold cache_dns. rewrite Hd, Hj. apply lookup_insert_eq. Qed.

Lemma cache_dns_other m r k : k <> dr_ID r -> cache_dns m r !! k = m !! k.
Proof.
  intros Hk. unfold cache_dns. destruct (dr_Deleted r); [by rewrite lookup_delete_ne|].
  destruct (json_Marshal r); [by rewrite lookup_insert_ne|done].
Qed.

Lemma cache_domain_same m p j :
  dp_Deleted p = false -> json_Marshal p = Ok j ->
  cache_domain m p !! dp_Hostname p = Some (domain_row p j).
Proof. intros Hd Hj. unfold cache_domain. rewrite Hd, Hj. apply lookup_insert_eq. Qed.

Lemma cache_domain_other m p k : k <> dp_Hostname p -> cache_domain m p !! k = m !! k.
Proof.
  intros Hk. unfold cache_domain. destruct (dp_Deleted p); [by rewrite lookup_delete_ne|].
  destruct (json_Marshal p); [by rewrite lookup_insert_ne|done].
Qed.

(** A fold over keyed items: a key that occurs ends with one of its items, the
    others keep their value. *)
Lemma foldl_keyed {A R : Type} (f : gmap string R -> A -> gmap string R) (id : A -> string)
    (good : A -> R -> Prop) l m k :
  (forall m a, a ∈ l -> exists r, good a r /\ f m a !! id a = Some r) ->
  (forall m a k, k <> id a -> f m a !! k = m !! k) ->
  (k ∉ (id <$> l) -> foldl f m l !! k = m !! k) /\
  (k ∈ (id <$> l) -> exists a r, a ∈ l /\ id a = k /\ good a r /\ foldl f m l !! k = Some r).
Proof.
  intros Hsame Hother. revert m. induction l as [|a l IH] using rev_ind; intros m; cbn.
  { split; [done|]. by intros []%elem_of_nil. }
  rewrite foldl_app, fmap_app. cbn.
  destruct (IH ltac:(intros; apply Hsame; set_solver) m) as [IH1 IH2].
  destruct (decide (k = id a)) as [->|Hne].
  - split; [set_solver|]. intros _.
    destruct (Hsame (foldl f m l) a ltac:(set_solver)) as (r & Hg & Hl).
    exists a, r. split_and!; set_solver.
  - rewrite Hother by done. split; [set_solver|]. intros Hk.
    destruct IH2 as (a' & r & H1 & H2 & H3 & H4); [set_solver|].
    exists a', r. split_and!; set_solver.
Qed.

Lemma foldl_cache_dns l m k :
  Forall (fun r => dr_Deleted r = false) l ->
  (k ∉ (dr_ID <$> l) -> foldl cache_dns m (wire_dns <$> l) !! k = m !! k) /\
  (k ∈ (dr_ID <$> l) -> exists r j, r ∈ l /\ dr_ID r = k /\ json_Marshal (wire_dns r) = Ok j /\
     foldl cache_dns m (wire_dns <$> l) !! k =
       Some (mkDnsRow (dr_ID r) (dr_FQDN r) (dr_RecordType r) j)).
Proof.
  intros HF. rewrite Forall_forall in HF.
  destruct (foldl_keyed (fun m r => cache_dns m (wire_dns r)) dr_ID
    (fun r row => exists j, json_Marshal (wire_dns r) = Ok j /\
       row = mkDnsRow (dr_ID r) (dr_FQDN r) (dr_RecordType r) j) l m k) as [H1 H2].
  - intros m' r Hr. pose proof (wire_dns_marshals r) as Hm.
    destruct (json_Marshal (wire_dns r)) as [j|] eqn:Ej; [|done].
    eexists. split; [by exists j|].
    change (dr_ID r) with (dr_ID (wire_dns r)) at 1. rewrite (cache_dns_same _ _ j); [done|..|done].
    by apply (HF r).
  - intros m' r k' Hk. by apply cache_dns_other.
  - rewrite foldl_fmap. split; [done|]. intros Hk.
    destruct (H2 Hk) as (r & row & Hr & Hid & (j & Hj & ->) & Hl). exists r, j. done.
Qed.

Lemma foldl_cache_domain l m k :
  Forall (fun p => dp_Deleted p = false /\ is_ok (json_Marshal (wire_domain p)) = true) l ->
  (k ∉ (dp_Hostname <$> l) -> foldl cache_domain m (wire_domain <$> l) !! k = m !! k) /\
  (k ∈ (dp_Hostname <$> l) -> exists p j, p ∈ l /\ dp_Hostname p = k /\
     json_Marshal (wire_domain p) = Ok j /\
     foldl cache_domain m (wire_domain <$> l) !! k = Some (domain_row (wire_domain p) j)).
Proof.
  intros HF. rewrite Forall_forall in HF.
  destruct (foldl_keyed (fun m p => cache_domain m (wire_domain p)) dp_Hostname
    (fun p row => exists j, json_Marshal (wire_domain p) = Ok j /\
       row = domain_row (wire_domain p) j) l m k) as [H1 H2].
  - intros m' p Hp. destruct (HF p Hp) as [Hd Hm].
    destruct (json_Marshal (wire_domain p)) as [j|] eqn:Ej; [|done].
    eexists. split; [by exists j|].
    change (dp_Hostname p) with (dp_Hostname (wire_domain p)). by apply cache_domain_same.
  - intros m' p k' Hk. by apply cache_domain_other.
  - rewrite foldl_fmap. split; [done|]. intros Hk.
    destruct (H2 Hk) as (p & row & Hp & Hid & (j & Hj & ->) & Hl). exists p, j. done.
Qed.

End caches.

(** ** The log entries a chunk answers *)

Section answers.
Context {GM : GormModel} {GDB : Gorm Tables stmt stmt_effect}.

(** The items of a chunk or a notification, by key. *)
Definition carries (ds : list DNSRecord) (es : list DomainEntryProjection) (k : key) (i : item)
    : Prop :=
  match i with
  | ItemDNS r => r ∈ ds /\ k = (SnapshotSyncTypeDNSRecord, dr_ID r)
  | ItemDomain p => p ∈ es /\ k = (SnapshotSyncTypeDomainEntryProjection, dp_Hostname p)
  end.

Lemma live_dns_key t id r :
  tables_wf t -> live_row t id = Some r -> dr_ID r = id /\ dr_Deleted r = false.
Proof.
  intros Hwf. unfold live_row. cbn. destruct (tb_dns t !! id) as [r'|] eqn:E; [|done]. cbn.
  destruct (sh_Deleted (dr_Shared r')) eqn:Ed; [done|]. intros [= <-]. split; [|done].
  assert (keyed (tb_dns t)) as Hk by apply Hwf. by apply Hk in E.
Qed.

Lemma projects_live t h p :
  tables_wf t -> projects t h p ->
  dp_Hostname p = h /\ exists de, live_row (M:=DomainEndpoint) t h = Some de.
Proof.
  intros Hwf (first & rs & -> & Hperm & _).
  assert (first ∈ projection_rows h t) as Hin by (rewrite <- Hperm; set_solver).
  apply elem_of_projection_rows in Hin as ([Hd Hdel] & _); [|done].
  assert (keyed (tb_domains t)) as Hk by apply Hwf. pose proof (Hk _ _ Hd) as Hh. cbn in Hh.
  split.
  - unfold projection_of_rows. by destruct (is_L4 _).
  - exists (pr_domain first). unfold live_row. cbn. rewrite Hd. cbn. by rewrite Hdel.
Qed.

Lemma answers_current t rs ds es k i :
  tables_wf t -> answers t rs ds es -> carries ds es k i -> current t k i.
Proof.
  intros Hwf Hans. revert k i.
  induction Hans as [|rs r ds es Hans IH Hty|rs r ds es p Hans IH Hty Hp|rs r ds es Hans IH Hty Hn
    |rs r ds es Hans IH H1 H2]; intros k i; [by destruct i; intros [?%elem_of_nil _]|..]; try apply IH.
  - destruct i as [d|q]; [|by apply (IH k (ItemDomain q))].
    intros [[Hd|Hd]%elem_of_app ->]; [by apply (IH _ (ItemDNS d))|].
    destruct (live_row t (sr_SyncID r)) as [d'|] eqn:El; cbn in Hd; [|by apply elem_of_nil in Hd].
    apply list_elem_of_singleton in Hd as ->. split; [done|].
    destruct (live_dns_key _ _ _ Hwf El) as [-> _]. done.
  - destruct i as [d|q]; [by apply (IH k (ItemDNS d))|].
    intros [[Hq|Hq]%elem_of_app ->]; [by apply (IH _ (ItemDomain q))|].
    apply list_elem_of_singleton in Hq as ->. split; [done|].
    by destruct (projects_live _ _ _ Hwf Hp) as [-> _].
Qed.

Lemma answers_complete t rs ds es r i :
  tables_wf t -> answers t rs ds es -> r ∈ rs -> current t (record_key r) i ->
  exists i', carries ds es (record_key r) i'.
Proof.
  intros Hwf Hans. revert r i.
  induction Hans as [|rs r ds es Hans IH Hty|rs r ds es p Hans IH Hty Hp|rs r ds es Hans IH Hty Hn
    |rs r ds es Hans IH H1 H2]; intros r' i Hr Hc; [by apply elem_of_nil in Hr|..];
    apply elem_of_app in Hr as [Hr|Hr%list_elem_of_singleton].
  - destruct (IH r' i Hr Hc) as [[d|q] [Hin Hk]]; [exists (ItemDNS d)|exists (ItemDomain q)];
      split; set_solver.
  - subst r'. unfold current, record_key in Hc. cbn in Hc. rewrite Hty in Hc.
    destruct i as [d|q]; [|by destruct Hc]. destruct Hc as [_ Hl]. exists (ItemDNS d).
    rewrite Hl. unfold record_key. rewrite Hty. destruct (live_dns_key _ _ _ Hwf Hl) as [Hid _].
    split; [cbn; set_solver|by rewrite Hid].
  - destruct (IH r' i Hr Hc) as [[d|q] [Hin Hk]]; [exists (ItemDNS d)|exists (ItemDomain q)];
      split; set_solver.
  - subst r'. exists (ItemDomain p). unfold record_key. rewrite Hty.
    destruct (projects_live _ _ _ Hwf Hp) as [Hid _]. split; [set_solver|by rewrite Hid].
  - by apply (IH r' i).
  - subst r'. unfold current, record_key in Hc. cbn in Hc. rewrite Hty in Hc.
    destruct i as [d|q]; [by destruct Hc|]. destruct Hc as [_ Hq].
    destruct (projects_live _ _ _ Hwf Hq) as [_ [de Hde]]. congruence.
  - by apply (IH r' i).
  - subst r'. destruct i as [d|q]; destruct Hc as [Hc _]; by cbn in Hc.
Qed.

End answers.

(** ** The system *)

Section system.
Context {GM : GormModel} {GDB : Gorm Tables stmt stmt_effect}.
Context {SDB : Gorm SlaveTables slave_stmt slave_effect}.
Context (nodeID : string) (sub : Z).

(** The [dirty] keys are those written on the master since their last
    broadcast. *)
Record system := mkSystem {
  sy_master : Engine;
  sy_slave : LocalStore;
  sy_dirty : gset (string * string);
}.

Definition master_tables (y : system) : Tables := rows (en_Repo (sy_master y)).
Definition slave_tables (y : system) : SlaveTables := rows (ls_db (sy_slave y)).

(** Live domains have a host name. *)
Definition hosts_ok (t : Tables) : Prop :=
  forall h de, live_row (M:=DomainEndpoint) t h = Some de -> TrimSpace h <> "".

(** Auto-increment ids are positive and have not run out. *)
Definition log_ids_ok (t : Tables) : Prop :=
  Forall (fun r => 0 < sr_ID r < 2 ^ 64 - 1) (tb_snapshots t).

Definition received_snapshot (c : Snapshot) : Snapshot := SnapshotFromProto (SnapshotToProto c).
Definition received_notice (n : ChangeNotification) : ChangeNotification :=
  ChangeNotificationFromProto (ChangeNotificationToProto n).

(** [entry.Deleted = true] *)
Definition mark_deleted (p : DomainEntryProjection) : DomainEntryProjection :=
  mkDomainEntryProjection (dp_Hostname p) true (dp_NeedCert p) (dp_Cert p) (dp_BackendType p)
    (dp_HTTPRoutes p) (dp_BindedBackendRef p).

Definition gone_or_dirty (t : Tables) (dirty : gset (string * string)) (k : key) : Prop :=
  (forall i, ~ current t k i) \/ k ∈ dirty.

(** The master's own steps, with the keys that are dirty before and after. *)
Inductive master_step : Engine -> gset (string * string) -> Engine -> gset (string * string) -> Prop :=
  (** any change to the master's tables other than the log *)
  | step_write e e' dirty (keys : gset (string * string)) :
      en_Hub e' = en_Hub e -> tables_wf (rows (en_Repo e')) -> hosts_ok (rows (en_Repo e')) ->
      tb_snapshots (rows (en_Repo e')) = tb_snapshots (rows (en_Repo e)) ->
      (forall k i, k ∉ keys -> current (rows (en_Repo e')) k i <-> current (rows (en_Repo e)) k i) ->
      master_step e dirty e' (dirty ∪ keys)
  | step_boardcast_dns now id e e' r dirty :
      valid_time now -> BoardcastDNSRecord now id e = (e', r) -> log_ids_ok (rows (en_Repo e')) ->
      master_step e dirty e'
        (if is_ok r then dirty ∖ {[(SnapshotSyncTypeDNSRecord, id)]} else dirty)
  | step_boardcast_domain now h e e' r dirty :
      valid_time now -> BoardcastDomainEndpointProjection now h e = (e', r) ->
      log_ids_ok (rows (en_Repo e')) ->
      master_step e dirty e'
        (if is_ok r then dirty ∖ {[(SnapshotSyncTypeDomainEntryProjection, h)]} else dirty)
  (** the deletion of a record or a domain is broadcast; the key is dirty
      afterwards if it is live again *)
  | step_deleted_dns now record e e' r dirty dirty' :
      valid_time now -> dr_Deleted record = true ->
      broadcastDeletedDNSRecord now record e = (e', r) -> log_ids_ok (rows (en_Repo e')) ->
      dirty ⊆ dirty' -> gone_or_dirty (rows (en_Repo e)) dirty' (SnapshotSyncTypeDNSRecord, dr_ID record) ->
      master_step e dirty e' dirty'
  | step_deleted_domain now h t p e e' r dirty dirty' :
      valid_time now -> TrimSpace h <> "" -> tables_wf t -> projects t h p ->
      broadcastDeletedDomainEntry now h (mark_deleted p) e = (e', r) -> log_ids_ok (rows (en_Repo e')) ->
      dirty ⊆ dirty' -> gone_or_dirty (rows (en_Repo e)) dirty' (SnapshotSyncTypeDomainEntryProjection, h) ->
      master_step e dirty e' dirty'.

Inductive step : system -> system -> Prop :=
  | step_master e e' sl dirty dirty' :
      master_step e dirty e' dirty' -> step (mkSystem e sl dirty) (mkSystem e' sl dirty')
  (** the slave receives the next notification and applies it *)
  | step_notice e n h' sl sl' r dirty :
      Receive nodeID sub (en_Hub e) = (h', Some n) ->
      ApplyChangelog (Some (received_notice n)) sl = (sl', r) ->
      step (mkSystem e sl dirty) (mkSystem (mkEngine (en_NODE_ID e) (en_Repo e) h') sl' dirty)
  (** the slave catches up from its cursor; the stream may break after any
      number of chunks *)
  | step_catchup now received e d' chunks sl sl1 sl2 c r dirty :
      GetSnapshotRecordID sl = (sl1, Ok c) ->
      handleGetSnapshot (fun _ _ => None) now nodeID c (en_Repo e) = (d', chunks, Ok tt) ->
      CatchUpSnapshots (fun _ => Ok (take received ((fun c => Ok (Some (received_snapshot c))) <$> chunks)))
        c sl1 = (sl2, r) ->
      step (mkSystem e sl dirty)
        (mkSystem (mkEngine (en_NODE_ID e) d' (en_Hub e)) sl2 dirty).

(** ** The invariant *)

Definition pending (t : Tables) (c : Z) (k : key) : Prop :=
  exists r, r ∈ tb_snapshots t /\ record_key r = k /\ c < sr_ID r.

(** If the item is live on the master, the slave caches its current form. *)
Definition fresh (t : Tables) (st : SlaveTables) (k : key) : Prop :=
  (exists i, current t k i) -> exists i, current t k i /\ cached st k (wire i).

Definition item_ok (i : item) : Prop :=
  match i with
  | ItemDNS r => dr_Deleted r = false
  | ItemDomain p => TrimSpace (dp_Hostname p) <> "" /\ exists t, projects t (dp_Hostname p) p
  end.

(** The item of a deletion. *)
Definition item_gone (i : item) : Prop :=
  match i with
  | ItemDNS r => dr_Deleted r = true
  | ItemDomain p => TrimSpace (dp_Hostname p) <> "" /\
      exists t q, projects t (dp_Hostname p) q /\ p = mark_deleted q
  end.

(** A notification in flight stands for a log record, and its item is current
    unless the key was written again. *)
Definition good_notice (t : Tables) (dirty : gset (string * string)) (n : ChangeNotification)
    : Prop :=
  valid_time (cn_CreatedAt n) /\
  exists k i r, notice_item n = Some (k, i) /\ (item_ok i \/ item_gone i) /\
    r ∈ tb_snapshots t /\ sr_ID r = cn_SnapshotRecordID n /\ record_key r = k /\
    (k ∈ dirty \/ pending t (sr_ID r) k \/ (forall i', ~ current t k i') \/ current t k i).

Record inv (y : system) (c : Z) : Prop := {
  inv_wf : tables_wf (master_tables y);
  inv_hosts : hosts_ok (master_tables y);
  inv_log : log_ids_ok (master_tables y);
  inv_sync : sync_wf (slave_tables y);
  inv_cursor : is_cursor (slave_tables y) c;
  inv_behind : c = 0 \/ exists r, r ∈ tb_snapshots (master_tables y) /\ sr_ID r = c;
  inv_files : fs_denied (ls_fs (sy_slave y)) = ∅;
  inv_items : forall k, k ∈ sy_dirty y \/ pending (master_tables y) c k \/
    fresh (master_tables y) (slave_tables y) k;
  inv_notices : forall ch n, hub_chan nodeID sub (en_Hub (sy_master y)) = Some ch ->
    n ∈ ch_buf ch -> good_notice (master_tables y) (sy_dirty y) n;
}.

(** *** Facts about the parts *)

Lemma current_append record t k i :
  current (append_snapshot record t) k i <-> current t k i.
Proof. by destruct i. Qed.

Lemma pending_append record t c k : pending t c k -> pending (append_snapshot record t) c k.
Proof. intros (r & Hr & H). exists r. split; [|done]. cbn. set_solver. Qed.

Lemma carries_item_ok t ds es k i :
  tables_wf t -> hosts_ok t -> (forall k i, carries ds es k i -> current t k i) ->
  carries ds es k i -> item_ok i.
Proof.
  intros Hwf Hh Hcur Hc. pose proof (Hcur _ _ Hc) as Hk. destruct i as [r|p]; cbn in *.
  - destruct Hk as [_ Hl]. by apply (live_dns_key t k.2 r) in Hl as [_ ?].
  - destruct Hc as [_ ->]. destruct Hk as [_ Hp]. cbn in Hp.
    destruct (projects_live _ _ _ Hwf Hp) as [_ [de Hde]]. split; [by eapply Hh|eauto].
Qed.

Lemma item_ok_domain p :
  item_ok (ItemDomain p) ->
  dp_Deleted p = false /\ is_ok (json_Marshal (wire_domain p)) = true /\ times_ok p.
Proof.
  intros [_ [t Hp]]. split_and!; [by eapply projects_deleted| |].
  - apply wire_domain_marshals. intros c. by apply projects_times with (1 := Hp).
  - intros c Hc. destruct (projects_times _ _ _ _ Hp Hc) as [-> ->]. done.
Qed.

Lemma item_gone_domain p :
  item_gone (ItemDomain p) ->
  dp_Deleted p = true /\ is_ok (json_Marshal (wire_domain p)) = true /\ times_ok p.
Proof.
  intros (_ & t & q & Hp & ->). split_and!; [done| |].
  - apply wire_domain_marshals. intros c. by apply projects_times with (1 := Hp).
  - intros c Hc. by destruct (projects_times _ _ _ c Hp Hc) as [-> ->].
Qed.

(** A deleted item is not the current one. *)
Lemma gone_not_current t k i : tables_wf t -> item_gone i -> ~ current t k i.
Proof.
  intros Hwf Hg Hc. destruct i as [r|p].
  - destruct Hc as [_ Hl]. apply (live_dns_key _ _ _ Hwf) in Hl as [_ Hl]. cbn in Hg. congruence.
  - destruct Hc as [_ Hp]. apply item_gone_domain in Hg as [Hg _]. apply projects_deleted in Hp. congruence.
Qed.

Lemma item_any_domain p :
  item_ok (ItemDomain p) \/ item_gone (ItemDomain p) ->
  is_ok (json_Marshal (wire_domain p)) = true /\ times_ok p /\ TrimSpace (dp_Hostname p) <> "".
Proof.
  intros [H|H]; [pose proof (item_ok_domain _ H) as (_ & ? & ?)|pose proof (item_gone_domain _ H) as (_ & ? & ?)];
    (split_and!; [done..|]); apply H.
Qed.

Lemma checkable_ok (s : LocalStore) p :
  fs_denied (ls_fs s) = ∅ -> TrimSpace (dp_Hostname p) <> "" -> checkable s (wire_domain p).
Proof.
  intros Hfs Hh _. unfold CheckCertificateBundle.
  rewrite bool_decide_eq_false_2 by done.
  assert (forall f e, os_Stat f (ls_fs s) = Err e -> IsNotExist e = true) as Hst.
  { intros f e. unfold os_Stat. rewrite Hfs, bool_decide_eq_false_2 by set_solver.
    destruct (fs_nodes (ls_fs s) !! f); [done|]. by intros [= <-]. }
  repeat case_match; try done;
    match goal with
    | H1 : os_Stat _ _ = Err ?e, H2 : IsNotExist ?e = false |- _ => by rewrite (Hst _ _ H1) in H2
    end.
Qed.

(** The cache after applying good items. *)
Lemma cached_after s s' m ds es ids k :
  (forall r, r ∈ ds -> item_ok (ItemDNS r)) -> (forall p, p ∈ es -> item_ok (ItemDomain p)) ->
  effect_on s m (fun x => foldl cache_dns x (wire_dns <$> ds))
    (fun x => foldl cache_domain x (wire_domain <$> es)) ids ->
  m s = (s', Ok tt) ->
  (exists i, carries ds es k i /\ cached (rows (ls_db s')) k (wire i)) \/
  ((forall i, ~ carries ds es k i) /\
   forall t i, current t k i -> cached (rows (ls_db s)) k (wire i) ->
     cached (rows (ls_db s')) k (wire i)).
Proof.
  intros Hds Hes (s'' & E & _ & Hd & He & _) E'. rewrite E in E'. injection E' as ->.
  assert (Forall (fun r => dr_Deleted r = false) ds) as Fd by (by apply Forall_forall).
  assert (Forall (fun p => dp_Deleted p = false /\ is_ok (json_Marshal (wire_domain p)) = true) es)
    as Fe.
  { apply Forall_forall. intros p Hp. by apply Hes, item_ok_domain in Hp as (? & ? & _). }
  destruct (foldl_cache_dns ds (st_dns (rows (ls_db s))) k.2 Fd) as [Hd1 Hd2].
  destruct (foldl_cache_domain es (st_domains (rows (ls_db s))) k.2 Fe) as [He1 He2].
  destruct (decide (k.1 = SnapshotSyncTypeDNSRecord /\ k.2 ∈ (dr_ID <$> ds))) as [[Hk Hin]|Hn1].
  { left. destruct (Hd2 Hin) as (r & j & Hr & Hid & Hj & Hl). exists (ItemDNS r).
    split; [split; [done|]; destruct k; cbn in *; by subst|]. exists j. by rewrite Hd, Hl. }
  destruct (decide (k.1 = SnapshotSyncTypeDomainEntryProjection /\ k.2 ∈ (dp_Hostname <$> es)))
    as [[Hk Hin]|Hn2].
  { left. destruct (He2 Hin) as (p & j & Hp & Hid & Hj & Hl). exists (ItemDomain p).
    split; [split; [done|]; destruct k; cbn in *; by subst|]. exists j. by rewrite He, Hl. }
  right. split.
  - intros [r|p] [Hin ->]; [apply Hn1|apply Hn2]; (split; [done|]); cbn;
      by apply list_elem_of_fmap_2.
  - intros t [r|p] [Hk _] (j & Hj & Hl); exists j; (split; [done|]).
    + rewrite Hd, Hd1; [done|]. intros Hin. apply Hn1. done.
    + rewrite He, He1; [done|]. intros Hin. apply Hn2. done.
Qed.

(** Every cached item is still cached, in some form. *)
Definition retains (st st' : SlaveTables) : Prop :=
  (forall k, is_Some (st_dns st !! k) -> is_Some (st_dns st' !! k)) /\
  (forall k, is_Some (st_domains st !! k) -> is_Some (st_domains st' !! k)).

Lemma retains_refl st : retains st st.
Proof. by split. Qed.

Lemma retains_trans st1 st2 st3 : retains st1 st2 -> retains st2 st3 -> retains st1 st3.
Proof. intros [H1 H2] [H3 H4]. split; auto. Qed.

Lemma retains_effect s s' m ds es ids :
  (forall r, r ∈ ds -> item_ok (ItemDNS r)) -> (forall p, p ∈ es -> item_ok (ItemDomain p)) ->
  effect_on s m (fun x => foldl cache_dns x (wire_dns <$> ds))
    (fun x => foldl cache_domain x (wire_domain <$> es)) ids ->
  m s = (s', Ok tt) -> retains (rows (ls_db s)) (rows (ls_db s')).
Proof.
  intros Hds Hes (s'' & E & _ & Hd & He & _) E'. rewrite E in E'. injection E' as ->.
  assert (Forall (fun r => dr_Deleted r = false) ds) as Fd by (by apply Forall_forall).
  assert (Forall (fun p => dp_Deleted p = false /\ is_ok (json_Marshal (wire_domain p)) = true) es)
    as Fe.
  { apply Forall_forall. intros p Hp. by apply Hes, item_ok_domain in Hp as (? & ? & _). }
  split; intros k Hk.
  - rewrite Hd. destruct (foldl_cache_dns ds (st_dns (rows (ls_db s))) k Fd) as [H1 H2].
    destruct (decide (k ∈ (dr_ID <$> ds))) as [Hin|Hin]; [|by rewrite H1].
    destruct (H2 Hin) as (r & j & _ & _ & _ & ->). done.
  - rewrite He. destruct (foldl_cache_domain es (st_domains (rows (ls_db s))) k Fe) as [H1 H2].
    destruct (decide (k ∈ (dp_Hostname <$> es))) as [Hin|Hin]; [|by rewrite H1].
    destruct (H2 Hin) as (r & j & _ & _ & _ & ->). done.
Qed.

(** *** A notification stays good while it is in flight *)

Lemma good_notice_write t t' dirty keys n :
  tb_snapshots t' = tb_snapshots t ->
  (forall k i, k ∉ keys -> current t' k i <-> current t k i) ->
  good_notice t dirty n -> good_notice t' (dirty ∪ keys) n.
Proof.
  intros Elog Ecur (Hv & k & i & r & H1 & H2 & H3 & H4 & H5 & H6).
  split; [done|]. exists k, i, r. unfold pending in *. rewrite Elog. split_and!; try done.
  destruct (decide (k ∈ keys)); [set_solver|].
  destruct H6 as [?|[?|[Hn6|?]]]; [set_solver|auto|..]; right; right.
  - left. intros i' Hi'%Ecur; [|done]. by apply (Hn6 i').
  - right. by apply Ecur.
Qed.

Lemma good_notice_dirty t dirty dirty' n :
  (forall k, k ∈ dirty -> k ∈ dirty' \/ forall i, ~ current t k i) ->
  good_notice t dirty n -> good_notice t dirty' n.
Proof.
  intros Hdirty (Hv & k & i & r & H1 & H2 & H3 & H4 & H5 & H6).
  split; [done|]. exists k, i, r. split_and!; try done.
  destruct H6 as [Hk|[?|[?|?]]]; [|by auto..]. destruct (Hdirty k Hk); auto.
Qed.

Lemma good_notice_append t record dirty dirty' n :
  Forall (fun r => sr_ID r < sr_ID record) (tb_snapshots t) ->
  (forall k, k ∈ dirty -> k ∈ dirty' \/ k = record_key record) ->
  good_notice t dirty n -> good_notice (append_snapshot record t) dirty' n.
Proof.
  intros Hlt Hdiff (Hv & k & i & r & H1 & H2 & H3 & H4 & H5 & H6). rewrite Forall_forall in Hlt.
  split; [done|]. exists k, i, r. split_and!; try done; [cbn; set_solver|].
  destruct H6 as [Hk|[Hp|[Hn6|Hc6]]].
  - destruct (Hdiff k Hk) as [Hd1|Hd1]; [auto|]. right; left. exists record.
    split_and!; [cbn; set_solver|done|]. by apply Hlt.
  - right; left. by apply pending_append.
  - right; right; left. intros i1 Hi1%current_append. by apply (Hn6 i1).
  - right; right; right. by apply current_append.
Qed.

(** *** Steps preserve the invariant *)

Lemma inv_write e e' sl dirty keys c :
  inv (mkSystem e sl dirty) c ->
  en_Hub e' = en_Hub e -> tables_wf (rows (en_Repo e')) -> hosts_ok (rows (en_Repo e')) ->
  tb_snapshots (rows (en_Repo e')) = tb_snapshots (rows (en_Repo e)) ->
  (forall k i, k ∉ keys -> current (rows (en_Repo e')) k i <-> current (rows (en_Repo e)) k i) ->
  inv (mkSystem e' sl (dirty ∪ keys)) c.
Proof.
  intros [Hwf Hh Hlog Hsy Hcur Hbeh Hfs Hit Hno] Ehub Hwf' Hh' Elog Ecur.
  unfold master_tables, slave_tables in *. cbn in *.
  assert (forall c k, pending (rows (en_Repo e')) c k <-> pending (rows (en_Repo e)) c k) as Epend.
  { intros c' k. unfold pending. by rewrite Elog. }
  split; unfold master_tables, slave_tables, log_ids_ok in *; cbn; rewrite ?Elog; try done.
  - intros k. destruct (decide (k ∈ keys)); [set_solver|]. rewrite Epend.
    destruct (Hit k) as [?|[?|Hf]]; [set_solver|auto|]. right; right. intros [i Hi%Ecur]; [|done].
    destruct Hf as (i' & H1 & H2); [eauto|]. exists i'. by rewrite Ecur.
  - intros ch n Hch Hn. rewrite Ehub in Hch. by eapply good_notice_write, Hno.
Qed.

(** A broadcast that finds nothing, or fails, changes nothing. *)
Lemma inv_untouched e e' sl dirty dirty' c :
  inv (mkSystem e sl dirty) c -> untouched e e' ->
  (forall k, k ∈ dirty -> k ∈ dirty' \/ forall i, ~ current (rows (en_Repo e)) k i) ->
  inv (mkSystem e' sl dirty') c.
Proof.
  intros [Hwf Hh Hlog Hsy Hcur Hbeh Hfs Hit Hno] [Er Ehub] Hdirty.
  unfold master_tables, slave_tables in *. cbn in *.
  split; unfold master_tables, slave_tables in *; cbn; rewrite ?Er; try done.
  - intros k. destruct (Hit k) as [Hk|[?|?]]; [|auto|auto].
    destruct (Hdirty k Hk) as [?|Hn]; [auto|]. right; right. intros [i Hi]. by destruct (Hn i).
  - intros ch n Hch Hn. rewrite Ehub in Hch. by eapply good_notice_dirty, Hno.
Qed.

(** A broadcast that publishes an item or a deletion. *)
Lemma inv_published action e e' sl dirty dirty' c ty id n i :
  inv (mkSystem e sl dirty) c -> published_as action e e' ty id n -> log_ids_ok (rows (en_Repo e')) ->
  valid_time (cn_CreatedAt n) -> notice_item n = Some ((ty, id), i) -> item_ok i \/ item_gone i ->
  (forall k, k ∈ dirty -> k ∈ dirty' \/ k = (ty, id)) ->
  gone_or_dirty (rows (en_Repo e)) dirty' (ty, id) \/ current (rows (en_Repo e)) (ty, id) i ->
  inv (mkSystem e' sl dirty') c.
Proof.
  intros [Hwf Hh Hlog Hsy Hcur Hbeh Hfs Hit Hno]
    (record & Er & Hty & Hid & _ & Hnid & Hlt & Ehub) Hlog' Hv Hni Hok Hdiff Hci.
  unfold master_tables, slave_tables in *. cbn in *.
  assert (record ∈ tb_snapshots (rows (en_Repo e'))) as Hin by (rewrite Er; cbn; set_solver).
  assert (record_key record = (ty, id)) as Hkey by (unfold record_key; by rewrite Hty, Hid).
  rewrite Forall_forall in Hlt.
  split; unfold master_tables, slave_tables in *; cbn; try done.
  - rewrite Er. destruct Hwf as (? & ? & ? & ? & ? & Hs). repeat split; try done.
    apply StronglySorted_snoc; [done|]. by apply Forall_forall.
  - by rewrite Er.
  - rewrite Er. cbn. destruct Hbeh as [?|(r & Hr & ?)]; [auto|]. right. exists r. set_solver.
  - intros k. destruct (decide (k = (ty, id))) as [->|Hne].
    + right; left. exists record. split_and!; try done.
      unfold log_ids_ok in Hlog'. rewrite Forall_forall in Hlog'. specialize (Hlog' _ Hin).
      destruct Hbeh as [->|(r & Hr & <-)]; [lia|by apply Hlt].
    + rewrite Er. destruct (Hit k) as [Hk|[Hp|Hf]].
      * destruct (Hdiff k Hk); [auto|done].
      * right; left. by apply pending_append.
      * right; right. intros [i' Hi'%current_append]. destruct Hf as (i1 & H1 & H2); [eauto|].
        exists i1. by rewrite current_append.
  - intros ch n' Hch Hn'. rewrite Ehub, hub_chan_boardcast in Hch.
    destruct (hub_chan nodeID sub (en_Hub e)) as [ch0|] eqn:Ech; [|done]. injection Hch as <-.
    assert (n' ∈ ch_buf ch0 \/ n' = n) as [Hold|Hnew].
    { unfold try_send in Hn'. destruct (bool_decide _); [|auto]. cbn in Hn'.
      apply elem_of_app in Hn' as [?|?%list_elem_of_singleton]; auto. }
    + rewrite Er. eapply good_notice_append; [by apply Forall_forall| |by eapply Hno].
      by rewrite Hkey.
    + subst n'. split; [done|]. exists (ty, id), i, record. split_and!; try done.
      destruct Hci as [[Hn|Hd]|Hci]; [|by left|right; right; right; rewrite Er; by apply current_append].
      right; right; left. intros i1. rewrite Er, current_append. apply Hn.
Qed.

(** What a step of the master amounts to. *)
Inductive master_effect (e : Engine) (dirty : gset (string * string)) (e' : Engine)
    (dirty' : gset (string * string)) : Prop :=
  | effect_write keys :
      dirty' = dirty ∪ keys ->
      en_Hub e' = en_Hub e -> tables_wf (rows (en_Repo e')) -> hosts_ok (rows (en_Repo e')) ->
      tb_snapshots (rows (en_Repo e')) = tb_snapshots (rows (en_Repo e)) ->
      (forall k i, k ∉ keys -> current (rows (en_Repo e')) k i <-> current (rows (en_Repo e)) k i) ->
      master_effect e dirty e' dirty'
  | effect_none :
      untouched e e' -> (forall k, k ∈ dirty -> k ∈ dirty' \/ forall i, ~ current (rows (en_Repo e)) k i) ->
      master_effect e dirty e' dirty'
  | effect_publish action ty id n i :
      published_as action e e' ty id n -> log_ids_ok (rows (en_Repo e')) ->
      valid_time (cn_CreatedAt n) -> notice_item n = Some ((ty, id), i) -> item_ok i \/ item_gone i ->
      (forall k, k ∈ dirty -> k ∈ dirty' \/ k = (ty, id)) ->
      gone_or_dirty (rows (en_Repo e)) dirty' (ty, id) \/ current (rows (en_Repo e)) (ty, id) i ->
      master_effect e dirty e' dirty'.

Lemma boardcast_dns_effect now id e e' r dirty :
  tables_wf (rows (en_Repo e)) -> valid_time now -> BoardcastDNSRecord now id e = (e', r) ->
  log_ids_ok (rows (en_Repo e')) ->
  master_effect e dirty e' (if is_ok r then dirty ∖ {[(SnapshotSyncTypeDNSRecord, id)]} else dirty).
Proof.
  intros Hwf Hnow E Hlog.
  pose proof (boardcast_dns_cases now id e Hwf) as H. rewrite E in H. destruct r as [u|er]; cbn.
  - destruct H as [[Hn Hun]|(record & logid & Hl & Hpub)].
    + apply effect_none; [done|]. intros k Hk.
      destruct (decide (k = (SnapshotSyncTypeDNSRecord, id))) as [->|]; [right|left; set_solver].
      intros [d|p] [Hty Hd]; [cbn in Hd; congruence|done].
    + destruct (live_dns_key _ _ _ Hwf Hl) as [Hid Hdel].
      eapply (effect_publish _ _ _ _ _ _ _ _ (ItemDNS record)); try done; [cbn; by rewrite Hid|by left| |by right].
      intros k Hk. destruct (decide (k = (SnapshotSyncTypeDNSRecord, id))); set_solver.
  - apply effect_none; [done|]. auto.
Qed.

Lemma boardcast_domain_effect now h e e' r dirty :
  tables_wf (rows (en_Repo e)) -> hosts_ok (rows (en_Repo e)) -> valid_time now ->
  BoardcastDomainEndpointProjection now h e = (e', r) -> log_ids_ok (rows (en_Repo e')) ->
  master_effect e dirty e'
    (if is_ok r then dirty ∖ {[(SnapshotSyncTypeDomainEntryProjection, h)]} else dirty).
Proof.
  intros Hwf Hh Hnow E Hlog.
  pose proof (boardcast_domain now h e Hwf) as H. rewrite E in H. destruct r as [u|er]; cbn.
  - destruct H as [[Hn Hun]|(p & logid & Hp & Hpub)].
    + apply effect_none; [done|]. intros k Hk.
      destruct (decide (k = (SnapshotSyncTypeDomainEntryProjection, h))) as [->|];
        [right|left; set_solver].
      intros [d|p] [Hty Hd]; [done|]. destruct (projects_live _ _ _ Hwf Hd) as [_ [de Hde]].
      cbn in Hde. congruence.
    + destruct (projects_live _ _ _ Hwf Hp) as [Hid [de Hde]].
      eapply (effect_publish _ _ _ _ _ _ _ _ (ItemDomain p)); try done.
      * cbn. by rewrite Hid.
      * left. split; rewrite Hid; [by eapply Hh|by exists (rows (en_Repo e))].
      * intros k Hk. destruct (decide (k = (SnapshotSyncTypeDomainEntryProjection, h))); set_solver.
      * by right.
  - apply effect_none; [done|]. auto.
Qed.

Lemma deleted_effect ty id e e' (r : result ()) dirty dirty' i (n : Z -> ChangeNotification) :
  log_ids_ok (rows (en_Repo e')) -> dirty ⊆ dirty' ->
  gone_or_dirty (rows (en_Repo e)) dirty' (ty, id) -> item_gone i ->
  match r with
  | Ok _ => exists logid, published_as SnapshotActionDelete e e' ty id (n logid) /\
              valid_time (cn_CreatedAt (n logid)) /\ notice_item (n logid) = Some ((ty, id), i)
  | Err _ => untouched e e'
  end ->
  master_effect e dirty e' dirty'.
Proof.
  intros Hlog Hsub Hgd Hg H. destruct r as [u|er].
  - destruct H as (logid & Hpub & Hv & Hni).
    eapply (effect_publish _ _ _ _ SnapshotActionDelete); try done; [by right|set_solver|by left].
  - apply effect_none; [done|]. auto.
Qed.

Lemma master_step_effect e dirty e' dirty' :
  tables_wf (rows (en_Repo e)) -> hosts_ok (rows (en_Repo e)) ->
  master_step e dirty e' dirty' -> master_effect e dirty e' dirty'.
Proof.
  intros Hwf Hh Hstep.
  destruct Hstep as [e e' dirty keys H1 H2 H3 H4 H5|now id e e' r dirty H1 H2 H3
    |now h e e' r dirty H1 H2 H3|now record e e' r dirty dirty' H1 H2 H3 H4 H5 H6
    |now h t p e e' r dirty dirty' H1 H2 H3 H4 H5 H6 H7 H8].
  - by apply (effect_write _ _ _ _ keys).
  - by eapply boardcast_dns_effect.
  - by eapply boardcast_domain_effect.
  - pose proof (deleted_dns_cases now record e) as H. rewrite H3 in H.
    eapply (deleted_effect _ _ e e' r _ _ (ItemDNS record)
      (fun logid => mkChangeNotification (en_NODE_ID e) now logid (Some record) None)); try done.
    destruct r; [|done]. destruct H as [logid H]. by exists logid.
  - pose proof (deleted_domain_cases now h (mark_deleted p) e) as H. rewrite H5 in H.
    destruct (projects_live _ _ _ H3 H4) as [Hid _].
    eapply (deleted_effect _ _ e e' r _ _ (ItemDomain (mark_deleted p))
      (fun logid => mkChangeNotification (en_NODE_ID e) now logid None (Some (mark_deleted p)))); try done.
    + split; cbn; rewrite Hid; [done|]. by exists t, p.
    + destruct r; [|done]. destruct H as [logid H]. exists logid. split_and!; [exact H|done|].
      cbn. by rewrite Hid.
Qed.

(** The master's steps keep the invariant at the same cursor, and keep
    notifications good. *)
Lemma inv_master e dirty e' dirty' sl c :
  inv (mkSystem e sl dirty) c -> master_step e dirty e' dirty' -> inv (mkSystem e' sl dirty') c.
Proof.
  intros Hinv Hstep. destruct (master_step_effect e dirty e' dirty' (inv_wf _ _ Hinv) (inv_hosts _ _ Hinv) Hstep)
    as [keys -> H1 H2 H3 H4 H5|H1 H2|action ty id n i H1 H2 H3 H4 H5 H6 H7].
  - by eapply inv_write.
  - by eapply inv_untouched.
  - by eapply inv_published.
Qed.

Lemma good_notice_master e dirty e' dirty' n :
  tables_wf (rows (en_Repo e)) -> hosts_ok (rows (en_Repo e)) -> master_step e dirty e' dirty' ->
  good_notice (rows (en_Repo e)) dirty n -> good_notice (rows (en_Repo e')) dirty' n.
Proof.
  intros Hwf Hh Hstep Hn. destruct (master_step_effect e dirty e' dirty' Hwf Hh Hstep)
    as [keys -> H1 H2 H3 H4 H5|[H1 _] H2|action ty id m i H1 H2 H3 H4 H5 H6 H7].
  - by eapply good_notice_write.
  - rewrite H1. by eapply good_notice_dirty.
  - destruct H1 as (record & -> & Hty & Hid & _ & _ & Hlt & _).
    eapply good_notice_append; [done| |done]. unfold record_key. by rewrite Hty, Hid.
Qed.

Context (Hreads : reads_succeed) (Hrel : slave_reliable).

(** Rebuilding the invariant after the slave changed. *)
Lemma inv_slave e hub dirty sl sl' c c' :
  inv (mkSystem e sl dirty) c ->
  (forall ch n, hub_chan nodeID sub hub = Some ch -> n ∈ ch_buf ch ->
     exists ch0, hub_chan nodeID sub (en_Hub e) = Some ch0 /\ n ∈ ch_buf ch0) ->
  sync_wf (rows (ls_db sl')) -> is_cursor (rows (ls_db sl')) c' ->
  (c' = 0 \/ exists r, r ∈ tb_snapshots (rows (en_Repo e)) /\ sr_ID r = c') ->
  fs_denied (ls_fs sl') = ∅ ->
  (forall k, k ∈ dirty \/ pending (rows (en_Repo e)) c' k \/
     fresh (rows (en_Repo e)) (rows (ls_db sl')) k) ->
  forall d', rows d' = rows (en_Repo e) ->
  inv (mkSystem (mkEngine (en_NODE_ID e) d' hub) sl' dirty) c'.
Proof.
  intros [Hwf Hh Hlog Hsy Hcur Hbeh Hfs Hit Hno] Hhub Hs Hc Hb Hf Hi d' Hd.
  split; unfold master_tables, slave_tables in *; cbn in *; rewrite ?Hd; try done.
  intros ch n Hch Hn. destruct (Hhub ch n Hch Hn) as (ch0 & H1 & H2). by eapply Hno.
Qed.

Lemma inv_slave_only e dirty sl sl' c c' :
  inv (mkSystem e sl dirty) c ->
  sync_wf (rows (ls_db sl')) -> is_cursor (rows (ls_db sl')) c' ->
  (c' = 0 \/ exists r, r ∈ tb_snapshots (rows (en_Repo e)) /\ sr_ID r = c') ->
  fs_denied (ls_fs sl') = ∅ ->
  (forall k, k ∈ dirty \/ pending (rows (en_Repo e)) c' k \/
     fresh (rows (en_Repo e)) (rows (ls_db sl')) k) ->
  inv (mkSystem e sl' dirty) c'.
Proof.
  destruct e as [nid repo hub]. intros Hinv Hs Hc Hb Hf Hi.
  by apply (inv_slave _ hub dirty sl sl' c c' Hinv); eauto.
Qed.

Lemma receive_buffer e h' n :
  Receive nodeID sub (en_Hub e) = (h', Some n) ->
  (exists ch, hub_chan nodeID sub (en_Hub e) = Some ch /\ n ∈ ch_buf ch) /\
  (forall ch n', hub_chan nodeID sub h' = Some ch -> n' ∈ ch_buf ch ->
     exists ch0, hub_chan nodeID sub (en_Hub e) = Some ch0 /\ n' ∈ ch_buf ch0).
Proof.
  intros Hr. pose proof (hub_chan_receive nodeID sub nodeID sub (en_Hub e)) as Hc.
  rewrite Hr, decide_True in Hc by done. cbn in Hc. unfold Receive in Hr.
  destruct (hub_chan nodeID sub (en_Hub e)) as [ch0|] eqn:Ech; cbn in *; [|done].
  unfold receive in *. destruct (ch_buf ch0) as [|a buf] eqn:Eb; cbn in *; [done|].
  injection Hr as _ <-. split.
  - exists ch0. rewrite Eb. set_solver.
  - intros ch n' Hch Hn'. rewrite Hc in Hch. injection Hch as <-. exists ch0. rewrite Eb. set_solver.
Qed.

Lemma inv_cursor_bound y c : inv y c -> 0 <= c /\ c + 1 < 2 ^ 64.
Proof.
  intros H. pose proof (inv_cursor _ _ H) as (_ & _ & Hpos). split; [done|].
  pose proof (inv_log _ _ H) as Hl. unfold log_ids_ok in Hl. rewrite Forall_forall in Hl.
  destruct (inv_behind _ _ H) as [->|(r & Hr & <-)]; [lia|]. specialize (Hl r Hr). lia.
Qed.

(** The lists of items a notification carries. *)
Definition notice_dns (i : item) : list DNSRecord :=
  match i with ItemDNS r => [r] | ItemDomain _ => [] end.
Definition notice_domains (i : item) : list DomainEntryProjection :=
  match i with ItemDNS _ => [] | ItemDomain p => [p] end.

Lemma received_notice_items n k i :
  valid_time (cn_CreatedAt n) -> notice_item n = Some (k, i) -> item_ok i \/ item_gone i ->
  cn_SnapshotRecordID (received_notice n) = cn_SnapshotRecordID n /\
  option_list (cn_DNSRecord (received_notice n)) = wire_dns <$> notice_dns i /\
  option_list (cn_DomainEntry (received_notice n)) = wire_domain <$> notice_domains i /\
  (forall k' i', carries (notice_dns i) (notice_domains i) k' i' -> k' = k /\ i' = i) /\
  carries (notice_dns i) (notice_domains i) k i.
Proof.
  intros Hv Hni Hok. unfold received_notice. unfold notice_item in Hni.
  rewrite notice_wire; [|done|].
  2: { intros e He. rewrite He in Hni. injection Hni as _ <-. by apply item_any_domain. }
  destruct (cn_DomainEntry n) as [p|]; [|destruct (cn_DNSRecord n) as [r|]; [|done]];
    injection Hni as <- <-; cbn; split_and!; try done; try set_solver.
  - intros k' [r'|p'] [Hin ->]; [by apply elem_of_nil in Hin|].
    by apply list_elem_of_singleton in Hin as ->.
  - intros k' [r'|p'] [Hin ->]; [|by apply elem_of_nil in Hin].
    by apply list_elem_of_singleton in Hin as ->.
Qed.

(** The cache after a notification: the key has its new form, or the item is
    gone; other keys keep theirs. *)
Lemma notice_after s s' m ids i k k' :
  item_ok i \/ item_gone i -> carries (notice_dns i) (notice_domains i) k i ->
  effect_on s m (fun x => foldl cache_dns x (wire_dns <$> notice_dns i))
    (fun x => foldl cache_domain x (wire_domain <$> notice_domains i)) ids ->
  m s = (s', Ok tt) ->
  (k' = k /\ (item_gone i \/ cached (rows (ls_db s')) k (wire i))) \/
  (k' <> k /\ forall t j, current t k' j -> cached (rows (ls_db s)) k' (wire j) ->
     cached (rows (ls_db s')) k' (wire j)).
Proof.
  intros Hok Hcar (s'' & E & _ & Hd & He & _) E'. rewrite E in E'. injection E' as ->.
  destruct (decide (k' = k)) as [->|Hne]; [left|right]; (split; [done|]).
  - destruct Hok as [Hok|Hg]; [right|by left]. destruct i as [r|p]; destruct Hcar as [_ ->]; cbn in *.
    + pose proof (wire_dns_marshals r) as Hm. destruct (json_Marshal (wire_dns r)) as [j|] eqn:Ej; [|done].
      exists j. split; [done|]. rewrite Hd. exact (cache_dns_same _ (wire_dns r) j Hok Ej).
    + destruct (item_ok_domain p Hok) as (Hdel & Hm & _).
      destruct (json_Marshal (wire_domain p)) as [j|] eqn:Ej; [|done].
      exists j. split; [done|]. rewrite He. exact (cache_domain_same _ (wire_domain p) j Hdel Ej).
  - intros t [r|p] [Hty _] (j & Hj & Hl); exists j; (split; [done|]); destruct i as [r'|p'];
      destruct Hcar as [_ ->]; cbn in *; rewrite ?Hd, ?He; try done.
    + rewrite cache_dns_other; [done|]. intros Heq. apply Hne. destruct k'; cbn in *; by subst.
    + rewrite cache_domain_other; [done|]. intros Heq. apply Hne. destruct k'; cbn in *; by subst.
Qed.

(** What applying a notification in flight does, by its place in the log. *)
Lemma notice_effect e sl dirty c n k i :
  inv (mkSystem e sl dirty) c ->
  valid_time (cn_CreatedAt n) -> notice_item n = Some (k, i) -> item_ok i \/ item_gone i ->
  (cn_SnapshotRecordID n <= c -> exists s', ApplyChangelog (Some (received_notice n)) sl = (s', Ok tt) /\
     rows (ls_db s') = rows (ls_db sl) /\ same_files sl s') /\
  (c + 1 < cn_SnapshotRecordID n -> exists s',
     ApplyChangelog (Some (received_notice n)) sl = (s', Err ErrSnapshotOutOfOrder) /\
     rows (ls_db s') = rows (ls_db sl) /\ same_files sl s') /\
  (cn_SnapshotRecordID n = c + 1 ->
     effect_on sl (ApplyChangelog (Some (received_notice n)))
       (fun x => foldl cache_dns x (wire_dns <$> notice_dns i))
       (fun x => foldl cache_domain x (wire_domain <$> notice_domains i))
       (sync_ids (c + 1) "dns_records" (wire_dns <$> notice_dns i) ∪
        sync_ids (c + 1) "domain_entries" (wire_domain <$> notice_domains i))).
Proof.
  intros Hinv Hv Hni Hok.
  destruct (received_notice_items n k i Hv Hni Hok) as (Hid & Hds & Hes & _ & _).
  destruct (inv_cursor_bound _ _ Hinv) as [_ Hlt]. rewrite <- Hid, <- Hds, <- Hes.
  apply (apply_changelog_effect Hrel sl (received_notice n) c (inv_sync _ _ Hinv) (inv_cursor _ _ Hinv) Hlt).
  - intros d Hd. rewrite Hd in Hds. cbn in Hds. destruct i as [d'|p]; [|done].
    injection Hds as ->. apply wire_dns_marshals.
  - intros p Hp. rewrite Hp in Hes. cbn in Hes. destruct i as [d'|p']; [done|].
    injection Hes as ->. destruct (item_any_domain _ Hok) as (Hm & _ & Hhost).
    split; [done|]. apply checkable_ok; [exact (inv_files _ _ Hinv)|done].
Qed.

(** Applying a notification that is good. *)
Lemma inv_apply e n sl sl' r dirty c :
  inv (mkSystem e sl dirty) c -> good_notice (rows (en_Repo e)) dirty n ->
  ApplyChangelog (Some (received_notice n)) sl = (sl', r) ->
  exists c', inv (mkSystem e sl' dirty) c' /\
    (cn_SnapshotRecordID n = c + 1 -> c' = c + 1).
Proof.
  intros Hinv (Hv & k & i & rec & Hni & Hok & Hin & Hid & Hkey & Hgood) Happ.
  destruct (received_notice_items n k i Hv Hni Hok) as (_ & _ & _ & _ & Hcar).
  destruct (inv_cursor_bound _ _ Hinv) as [Hpos Hlt].
  pose proof Hinv as [Hwf Hh Hlog Hsy Hcur Hbeh Hfs Hit Hno].
  unfold master_tables, slave_tables in *. cbn [sy_master sy_slave sy_dirty] in *.
  destruct (notice_effect e sl dirty c n k i Hinv Hv Hni Hok) as (Hold & Hgap & Hnext).
  rewrite <- Hid in *.
  destruct (decide (sr_ID rec <= c)) as [Hle|Hnle]; [|destruct (decide (sr_ID rec = c + 1)) as [Heq|Hne]].
  - destruct (Hold Hle) as (s' & E & Ht & Hf1 & Hf2). rewrite E in Happ. injection Happ as <- _.
    exists c. split; [|lia]. eapply inv_slave_only; try done; rewrite ?Ht, ?Hf2; done.
  - specialize (Hnext Heq).
    pose proof Hnext as (s' & E & [_ Hf2] & _ & _ & Hids & Hsw). rewrite E in Happ.
    injection Happ as <- _.
    exists (c + 1). split; [|done]. eapply inv_slave_only; try done.
    + apply Hsw; [|done]. intros x Hx. apply sync_ids_id in Hx. lia.
    + eapply is_cursor_extend; [exact Hcur|exact Hids| |lia|].
      * intros x. apply sync_ids_id.
      * intros [E1 E2]%sync_ids_empty. by destruct i.
    + right. by exists rec.
    + by rewrite Hf2.
    + intros k'. destruct (notice_after sl s' _ _ i k k' Hok Hcar Hnext E) as [[-> Hca]|[Hnk Hkeep]].
      * destruct Hgood as [?|[Hp|[Hnl|Hcu]]]; [auto| |right; right|right; right].
        -- right; left. by rewrite Heq in Hp.
        -- intros [j Hj]. by destruct (Hnl j).
        -- intros _. exists i. split; [done|]. destruct Hca as [Hg|Hca]; [|done].
           by destruct (gone_not_current _ k i Hwf Hg).
      * destruct (Hit k') as [?|[(r' & Hr' & Hk' & Hlt')|Hfr]]; [auto| |right; right].
        -- destruct (decide (sr_ID r' = c + 1)) as [Heq'|].
           ++ assert (r' = rec) as -> by (eapply (log_sorted_inj (tb_snapshots (rows (en_Repo e))));
                try done; [apply Hwf|lia]).
              exfalso. apply Hnk. by rewrite <- Hk', Hkey.
           ++ right; left. exists r'. split_and!; try done. lia.
        -- intros Hl. destruct (Hfr Hl) as (j & Hj & Hcj). exists j. split; [done|]. by eapply Hkeep.
  - destruct Hgap as (s' & E & Ht & _ & Hf2); [lia|]. rewrite E in Happ. injection Happ as <- _.
    exists c. split; [|lia]. eapply inv_slave_only; try done; rewrite ?Ht, ?Hf2; done.
Qed.

(** A hub that holds fewer notifications. *)
Lemma inv_hub e hub sl dirty c :
  inv (mkSystem e sl dirty) c ->
  (forall ch n, hub_chan nodeID sub hub = Some ch -> n ∈ ch_buf ch ->
     exists ch0, hub_chan nodeID sub (en_Hub e) = Some ch0 /\ n ∈ ch_buf ch0) ->
  inv (mkSystem (mkEngine (en_NODE_ID e) (en_Repo e) hub) sl dirty) c.
Proof.
  intros Hinv Hhub. pose proof Hinv as [Hwf Hh Hlog Hsy Hcur Hbeh Hfs Hit Hno].
  by apply (inv_slave e hub dirty sl sl c c Hinv).
Qed.

Lemma inv_notice e h' n sl sl' r dirty c :
  inv (mkSystem e sl dirty) c -> Receive nodeID sub (en_Hub e) = (h', Some n) ->
  ApplyChangelog (Some (received_notice n)) sl = (sl', r) ->
  exists c', inv (mkSystem (mkEngine (en_NODE_ID e) (en_Repo e) h') sl' dirty) c'.
Proof.
  intros Hinv Hrec Happ. destruct (receive_buffer _ _ _ Hrec) as [(ch & Hch & Hn) Hbuf].
  destruct (inv_apply e n sl sl' r dirty c Hinv (inv_notices _ _ Hinv ch n Hch Hn) Happ) as (c' & Hinv' & _).
  exists c'. by apply inv_hub.
Qed.

(** *** Catching up *)

Lemma elem_of_snapshots_after c t r :
  r ∈ snapshots_after c t <-> r ∈ tb_snapshots t /\ c < sr_ID r.
Proof. unfold snapshots_after. rewrite list_elem_of_filter. tauto. Qed.

Lemma last_elem {A} (l : list A) : l <> [] -> exists l' x, l = l' ++ [x] /\ last l = Some x.
Proof.
  intros Hne. destruct (@List.exists_last _ l Hne) as (l' & x & ->). exists l', x.
  by rewrite last_snoc.
Qed.

(** The log entries split at the cursor of a chunk. *)
Lemma snapshots_after_split t c rs rs' :
  log_sorted (tb_snapshots t) -> snapshots_after c t = rs ++ rs' -> rs <> [] ->
  c < cursor_after c rs /\ snapshots_after (cursor_after c rs) t = rs' /\
  exists r, r ∈ tb_snapshots t /\ sr_ID r = cursor_after c rs.
Proof.
  intros Hs Hrs Hne. destruct (last_elem rs Hne) as (l & x & -> & Hl).
  rewrite cursor_after_snoc.
  assert (x ∈ snapshots_after c t) as Hx by (rewrite Hrs; set_solver).
  apply elem_of_snapshots_after in Hx as [Hx Hcx]. split; [done|]. split; [|eauto].
  pose proof (snapshots_after_sorted c t Hs) as Hs2. rewrite Hrs in Hs2.
  assert (snapshots_after (sr_ID x) t = filter (fun r => sr_ID x < sr_ID r) (snapshots_after c t))
    as ->.
  { unfold snapshots_after. rewrite list_filter_filter. apply list_filter_iff. intros r. lia. }
  rewrite Hrs. unfold log_sorted in Hs2. rewrite !StronglySorted_app in Hs2.
  destruct Hs2 as (H1 & (H2 & _ & _) & _).
  rewrite filter_app. rewrite (filter_keep _ rs').
  - assert (filter (fun r => sr_ID x < sr_ID r) (l ++ [x]) = []) as ->; [|done].
    apply filter_discard. apply Forall_forall. intros r [Hr|Hr]%elem_of_app.
    + specialize (H2 r x Hr ltac:(set_solver)). cbn in H2. lia.
    + apply list_elem_of_singleton in Hr as ->. lia.
  - apply Forall_forall. intros r Hr. apply (H1 x r); set_solver.
Qed.

(** The items of a chunk are current, and can be stored. *)
Lemma chunk_items e sl dirty c rs ds es :
  inv (mkSystem e sl dirty) c -> answers (rows (en_Repo e)) rs ds es ->
  (forall k i, carries ds es k i -> current (rows (en_Repo e)) k i) /\
  (forall d, d ∈ ds -> item_ok (ItemDNS d)) /\ (forall p, p ∈ es -> item_ok (ItemDomain p)).
Proof.
  intros [Hwf Hh Hlog Hsy Hcur Hbeh Hfs Hit Hno] Hans.
  unfold master_tables, slave_tables in *. cbn [sy_master sy_slave sy_dirty] in *. set (t := rows (en_Repo e)) in *.
  assert (forall k i, carries ds es k i -> current t k i) as Hcc by (intros k i; by apply answers_current with (rs := rs)).
  split_and!; [done|..].
  - intros d Hd. by eapply (carries_item_ok t ds es _ (ItemDNS d)).
  - intros p Hp. by eapply (carries_item_ok t ds es _ (ItemDomain p)).
Qed.

Lemma chunk_effect e sl dirty c chunk rs :
  inv (mkSystem e sl dirty) c ->
  answers (rows (en_Repo e)) rs (sn_DNSRecords chunk) (sn_DomainEntries chunk) ->
  effect_on sl (ApplySnapshot (Some (received_snapshot chunk)))
    (fun m => foldl cache_dns m (wire_dns <$> sn_DNSRecords chunk))
    (fun m => foldl cache_domain m (wire_domain <$> sn_DomainEntries chunk))
    (sync_ids (sn_SnapshotRecordID chunk) "dns_records" (wire_dns <$> sn_DNSRecords chunk) ∪
     sync_ids (sn_SnapshotRecordID chunk) "domain_entries" (wire_domain <$> sn_DomainEntries chunk)).
Proof.
  intros Hinv Hans. destruct (chunk_items _ _ _ _ _ _ _ Hinv Hans) as (_ & _ & Hdom).
  pose proof Hinv as [Hwf Hh Hlog Hsy Hcur Hbeh Hfs Hit Hno].
  unfold master_tables, slave_tables in *. cbn [sy_master sy_slave sy_dirty] in *.
  destruct (snapshot_wire_fields chunk) as (Wd & We & Wi & _).
  { apply Forall_forall. intros p Hp. by apply Hdom, item_ok_domain in Hp as (_ & _ & ?). }
  fold (received_snapshot chunk) in Wd, We, Wi.
  pose proof (apply_snapshot_effect Hrel sl (received_snapshot chunk)) as Heff. rewrite Wd, We, Wi in Heff.
  apply Heff; apply Forall_fmap, Forall_forall; [intros d _; apply wire_dns_marshals|].
  intros p Hp. pose proof (Hdom p Hp) as Hok. split; [by apply item_ok_domain|]. apply checkable_ok; [done|apply Hok].
Qed.

(** Applying a chunk keeps what is fresh and makes its items so. *)
Lemma chunk_fresh e sl dirty c chunk rs sl' :
  inv (mkSystem e sl dirty) c ->
  answers (rows (en_Repo e)) rs (sn_DNSRecords chunk) (sn_DomainEntries chunk) ->
  ApplySnapshot (Some (received_snapshot chunk)) sl = (sl', Ok tt) ->
  (forall k, fresh (rows (en_Repo e)) (rows (ls_db sl)) k -> fresh (rows (en_Repo e)) (rows (ls_db sl')) k) /\
  (forall r, r ∈ rs -> fresh (rows (en_Repo e)) (rows (ls_db sl')) (record_key r)) /\
  retains (rows (ls_db sl)) (rows (ls_db sl')).
Proof.
  intros Hinv Hans E. pose proof (chunk_effect _ _ _ _ _ _ Hinv Hans) as Heff.
  destruct (chunk_items _ _ _ _ _ _ _ Hinv Hans) as (Hcc & Hdn & Hdom).
  pose proof (inv_wf _ _ Hinv) as Hwf. unfold master_tables in Hwf. cbn [sy_master] in Hwf.
  split_and!; [| |by eapply retains_effect].
  - intros k Hf Hl. destruct (cached_after sl sl' _ _ _ _ k Hdn Hdom Heff E) as [(i & Hc & Hca)|[_ Hkeep]].
    + exists i. split; [by apply Hcc|done].
    + destruct (Hf Hl) as (i & Hi & Hci). exists i. split; [done|]. by eapply Hkeep.
  - intros r Hr [i Hi]. destruct (answers_complete _ rs _ _ r i Hwf Hans Hr Hi) as [i' Hc'].
    destruct (cached_after sl sl' _ _ _ _ (record_key r) Hdn Hdom Heff E) as [(i2 & Hc & Hca)|[Hn _]].
    + exists i2. split; [by apply Hcc|done].
    + by destruct (Hn i').
Qed.

Lemma inv_chunk e sl dirty c chunk rs rs' :
  inv (mkSystem e sl dirty) c ->
  answers (rows (en_Repo e)) rs (sn_DNSRecords chunk) (sn_DomainEntries chunk) ->
  snapshots_after c (rows (en_Repo e)) = rs ++ rs' ->
  sn_SnapshotRecordID chunk = cursor_after c rs ->
  exists sl' c', ApplySnapshot (Some (received_snapshot chunk)) sl = (sl', Ok tt) /\
    inv (mkSystem e sl' dirty) c' /\
    (chunk_size chunk <> 0%nat -> c' = cursor_after c rs /\
       snapshots_after c' (rows (en_Repo e)) = rs') /\
    (forall r, r ∈ rs -> fresh (rows (en_Repo e)) (rows (ls_db sl')) (record_key r)) /\
    (forall k, fresh (rows (en_Repo e)) (rows (ls_db sl)) k ->
       fresh (rows (en_Repo e)) (rows (ls_db sl')) k) /\
    retains (rows (ls_db sl)) (rows (ls_db sl')).
Proof.
  intros Hinv Hans Hrs Hid. destruct (inv_cursor_bound _ _ Hinv) as [Hpos _].
  pose proof (chunk_effect _ _ _ _ _ _ Hinv Hans) as (sl' & E & [_ Hf2] & _ & _ & Hids & Hsw). rewrite Hid in Hids, Hsw.
  destruct (chunk_fresh _ _ _ _ _ _ _ Hinv Hans E) as (Hkeepf & Hnew & Hret).
  pose proof Hinv as [Hwf Hh Hlog Hsy Hcur Hbeh Hfs Hit Hno].
  unfold master_tables, slave_tables in *. cbn [sy_master sy_slave sy_dirty] in *.
  set (t := rows (en_Repo e)) in *. set (ds := sn_DNSRecords chunk) in *.
  set (es := sn_DomainEntries chunk) in *. set (c1 := cursor_after c rs) in *.
  assert (rs = [] -> ds = [] /\ es = []) as Hnil.
  { intros ->. inversion Hans; [done|..];
      match goal with H : _ ++ [_] = [] |- _ => by apply app_eq_nil in H as [_ ?] end. }
  destruct (decide (ds = [] /\ es = [])) as [[Ed Ee]|Hitems].
  - exists sl', c. split; [done|]. split; [|split; [|done]].
    + eapply (inv_slave_only e dirty sl sl' c c Hinv); try done.
      * apply Hsw; [|done]. intros x Hx. rewrite Ed, Ee in Hx. cbn in Hx. set_solver.
      * eapply is_cursor_same; [exact Hcur|]. rewrite Hids, Ed, Ee. cbn.
        by rewrite !(left_id_L ∅ (∪)).
      * by rewrite Hf2.
      * intros k. destruct (Hit k) as [?|[?|?]]; auto.
    + unfold chunk_size. fold ds es. rewrite Ed, Ee. cbn. lia.
  - assert (rs <> []) as Hrsne by naive_solver.
    destruct (snapshots_after_split t c rs rs') as (Hlt & Hafter & Hlast); [apply Hwf|done|done|].
    fold c1 in Hlt, Hafter, Hlast. exists sl', c1. split; [done|]. split; [|done].
    eapply (inv_slave_only e dirty sl sl' c c1 Hinv); try done.
    + apply Hsw; [|done]. intros x Hx. apply sync_ids_id in Hx. lia.
    + eapply is_cursor_extend; [exact Hcur|exact Hids|intros x; apply sync_ids_id|lia|].
      intros [Ed Ee]%sync_ids_empty. apply Hitems. split; by eapply fmap_nil_inv.
    + by right.
    + by rewrite Hf2.
    + intros k. destruct (Hit k) as [?|[(r & Hr & Hk & Hcr)|?]]; [auto| |auto].
      assert (r ∈ rs ++ rs') as Hin by (rewrite <- Hrs; by apply elem_of_snapshots_after).
      apply elem_of_app in Hin as [Hin|Hin]; [right; right; rewrite <- Hk; auto|].
      right; left. rewrite <- Hafter in Hin. apply elem_of_snapshots_after in Hin as [? ?].
      by exists r.
Qed.

Lemma inv_chunks e dirty c rs chunks :
  chunks_of (rows (en_Repo e)) c rs chunks ->
  forall sl n sl' r, inv (mkSystem e sl dirty) c -> snapshots_after c (rows (en_Repo e)) = rs ->
  recv_snapshots (take n ((fun c => Ok (Some (received_snapshot c))) <$> chunks)) sl = (sl', r) ->
  (exists c', inv (mkSystem e sl' dirty) c') /\
  ((length chunks <= n)%nat -> r = Ok tt /\
     forall k, k ∉ dirty -> fresh (rows (en_Repo e)) (rows (ls_db sl')) k) /\
  retains (rows (ls_db sl)) (rows (ls_db sl')).
Proof.
  induction 1 as [c rs chunk Hans Hid Hlast Hsize|c rs rs' chunk chunks Hans Hid Hlast Hsize Hch IH];
    intros sl n sl' r Hinv Hrs; (destruct n as [|n]; cbn [take fmap list_fmap];
      [intros [= <- <-]; split_and!; [eauto|cbn; lia|apply retains_refl]|]); cbn [recv_snapshots];
    change (sn_Last (received_snapshot chunk)) with (sn_Last chunk); rewrite Hlast;
    cbv [mbind go_bind].
  - destruct (inv_chunk e sl dirty c chunk rs [] Hinv Hans) as (sl1 & c1 & E & Hinv1 & _ & Hnew & Hkeep & Hret);
      [by rewrite app_nil_r|done|].
    rewrite E. intros [= <- <-]. split; [eauto|]. split; [|done]. intros _. split; [done|]. intros k Hk.
    destruct (inv_items _ _ Hinv k) as [?|[(r & Hr & <- & Hcr)|Hf]]; [done| |by apply Hkeep].
    apply Hnew. rewrite <- Hrs. by apply elem_of_snapshots_after.
  - destruct (inv_chunk e sl dirty c chunk rs rs' Hinv Hans Hrs Hid)
      as (sl1 & c1 & E & Hinv1 & Hnext & _ & _ & Hret).
    rewrite E. destruct Hnext as [-> Hafter]; [lia|]. rewrite <- Hid in *.
    intros Hrec. destruct (IH sl1 n sl' r Hinv1 Hafter Hrec) as (H1 & H2 & H3).
    split; [done|]. split; [cbn; intros; apply H2; lia|by eapply retains_trans].
Qed.

Lemma inv_same_tables e sl sl' dirty c :
  inv (mkSystem e sl dirty) c -> rows (ls_db sl') = rows (ls_db sl) -> same_files sl sl' ->
  inv (mkSystem e sl' dirty) c.
Proof.
  intros [Hwf Hh Hlog Hsy Hcur Hbeh Hfs Hit Hno] Ht [_ Hf].
  unfold master_tables, slave_tables in *. cbn in *.
  split; unfold master_tables, slave_tables in *; cbn; rewrite ?Ht, ?Hf; done.
Qed.

Lemma inv_repo e d' sl dirty c :
  inv (mkSystem e sl dirty) c -> rows d' = rows (en_Repo e) ->
  inv (mkSystem (mkEngine (en_NODE_ID e) d' (en_Hub e)) sl dirty) c.
Proof.
  intros [Hwf Hh Hlog Hsy Hcur Hbeh Hfs Hit Hno] Hd. unfold master_tables, slave_tables in *.
  cbn in *. split; unfold master_tables, slave_tables in *; cbn; rewrite ?Hd; done.
Qed.

(** A slave that catches up, completely or not, keeps the invariant and every
    cached item. *)
Lemma inv_catchup now received e d' chunks sl sl1 sl2 c0 r dirty c :
  inv (mkSystem e sl dirty) c -> GetSnapshotRecordID sl = (sl1, Ok c0) ->
  handleGetSnapshot (fun _ _ => None) now nodeID c0 (en_Repo e) = (d', chunks, Ok tt) ->
  CatchUpSnapshots (fun _ => Ok (take received ((fun c => Ok (Some (received_snapshot c))) <$> chunks)))
    c0 sl1 = (sl2, r) ->
  (exists c', inv (mkSystem (mkEngine (en_NODE_ID e) d' (en_Hub e)) sl2 dirty) c') /\
  retains (rows (ls_db sl)) (rows (ls_db sl2)).
Proof.
  intros Hinv H1 H2 H3. destruct (get_cursor Hrel sl (inv_sync _ _ Hinv)) as (sl1' & c' & E & Hc' & Ht & Hf).
  rewrite H1 in E. injection E as -> ->.
  rewrite (is_cursor_unique _ _ _ Hc' (inv_cursor _ _ Hinv)) in *.
  pose proof (inv_same_tables _ _ _ _ _ Hinv Ht Hf) as Hinv1.
  destruct (snapshot_chunks (fun _ _ => None) now nodeID Hreads ltac:(done) c (en_Repo e)
    (inv_wf _ _ Hinv)) as (d2 & cs & E2 & Hd2 & Hch).
  rewrite H2 in E2. injection E2 as -> ->.
  destruct (inv_chunks e dirty c _ _ Hch sl1' received sl2 r Hinv1 eq_refl H3)
    as ([c2 Hinv2] & _ & Hret).
  split; [exists c2; by apply inv_repo|]. by rewrite <- Ht.
Qed.

Lemma inv_step y y' c : inv y c -> step y y' -> exists c', inv y' c'.
Proof.
  intros Hinv Hstep.
  destruct Hstep as [e e' sl dirty dirty' H|e n h' sl sl' r dirty H1 H2
    |now received e d' chunks sl sl1 sl2 c0 r dirty H1 H2 H3].
  - exists c. by eapply inv_master.
  - by eapply inv_notice.
  - by eapply inv_catchup.
Qed.

(** ** The theorems *)

(** Nothing stored, nothing in flight. *)
Definition initial (y : system) : Prop :=
  master_tables y = empty_tables /\ slave_tables y = empty_slave /\
  fs_denied (ls_fs (sy_slave y)) = ∅ /\ sy_dirty y = ∅ /\
  forall ch, hub_chan nodeID sub (en_Hub (sy_master y)) = Some ch -> ch_buf ch = [].

Lemma initial_inv y : initial y -> inv y 0.
Proof.
  intros (Hm & Hs & Hf & Hd & Hb).
  assert (forall k i, ~ current empty_tables k i) as Hnone.
  { intros k [r|p] [_ H]; [unfold live_row in H; cbn in H; by rewrite lookup_empty in H|].
    destruct (projects_live _ _ _ empty_tables_wf H) as [_ [de Hde]]. unfold live_row in Hde. cbn in Hde.
    by rewrite lookup_empty in Hde. }
  split; rewrite ?Hm, ?Hs; try done.
  - apply empty_tables_wf.
  - constructor.
  - split_and!; [|by left|lia]. cbn. intros k. rewrite dom_empty_L. set_solver.
  - by left.
  - intros k. right; right. intros [i Hi]. by destruct (Hnone k i).
  - intros ch n Hch Hn. rewrite (Hb ch Hch) in Hn. by apply elem_of_nil in Hn.
Qed.

Lemma reachable_inv y0 y : initial y0 -> rtc step y0 y -> exists c, inv y c.
Proof.
  intros Hi%initial_inv Hr. assert (exists c, inv y0 c) as Hinv by eauto. clear Hi.
  induction Hr as [y|y1 y2 y3 Hs Hr IH]; [done|].
  destruct Hinv as [c Hinv]. apply IH. by eapply inv_step.
Qed.

(** The replication invariant.  Starting from empty databases, after any
    interleaving of writes on the master, broadcasts, deliveries of whichever
    notifications the hub kept, and catch-ups broken off at any chunk: every
    item that is live on the master is marked as written since its last
    broadcast, or has a record in the log ahead of the slave's cursor, or is
    cached by the slave in its current form. *)
Theorem replication_invariant y0 y :
  initial y0 -> rtc step y0 y ->
  exists c, is_cursor (slave_tables y) c /\
    forall k, k ∈ sy_dirty y \/ pending (master_tables y) c k \/
      fresh (master_tables y) (slave_tables y) k.
Proof.
  intros Hi Hr. destruct (reachable_inv _ _ Hi Hr) as [c Hinv].
  exists c. split; [apply Hinv|apply Hinv].
Qed.

Lemma cached_domain_read (s : LocalStore) k p :
  cached (rows (ls_db s)) k (ItemDomain p) ->
  exists s', GetDomainEntryByHostname k.2 s = (s', Ok p).
Proof.
  intros (j & Hj & Hl). unfold GetDomainEntryByHostname, on_db, zoom. cbv [mbind go_bind].
  set (f := fun t : SlaveTables => option_list (st_domains t !! k.2)).
  set (leb := fun _ _ : domainEntryCacheRow => true).
  assert (exists d', first_row f leb (ls_db s) = (d', Ok (domain_row p j))) as [d' ->].
  { unfold first_row. cbv [mbind go_bind].
    pose proof (sr_select Hrel _ f leb (ls_db s)) as Hs.
    pose proof (select_perm f leb (ls_db s)) as Hp.
    destruct (select f leb (ls_db s)) as [d' [l|e]]; [|done]. cbn in *.
    specialize (Hp l eq_refl). unfold f in Hp. rewrite Hl in Hp. cbn in Hp.
    apply Permutation_singleton_r in Hp as ->. by exists d'. }
  unfold from_result. cbn [ec_DetailJSON domain_row]. rewrite (json_roundtrip _ _ Hj). by eexists.
Qed.


(** Convergence.  From any reachable state, a slave that catches up from its
    cursor receives the whole snapshot and applies it without error, and then
    every item that was broadcast since it was last written is cached in its
    current form; reading such a domain on the slave returns the projection the
    master has for it, as the wire carries it. *)
Theorem catchup_converges y0 y now :
  initial y0 -> rtc step y0 y ->
  exists c sl1 d' chunks sl2,
    GetSnapshotRecordID (sy_slave y) = (sl1, Ok c) /\
    handleGetSnapshot (fun _ _ => None) now nodeID c (en_Repo (sy_master y)) = (d', chunks, Ok tt) /\
    CatchUpSnapshots (fun _ => Ok ((fun c => Ok (Some (received_snapshot c))) <$> chunks)) c sl1 =
      (sl2, Ok tt) /\
    (forall k, k ∉ sy_dirty y -> fresh (master_tables y) (rows (ls_db sl2)) k) /\
    (forall h de, (SnapshotSyncTypeDomainEntryProjection, h) ∉ sy_dirty y ->
       live_row (M:=DomainEndpoint) (master_tables y) h = Some de ->
       (exists p, projects (master_tables y) h p) ->
       exists p sl3, projects (master_tables y) h p /\
         GetDomainEntryByHostname h sl2 = (sl3, Ok (wire_domain p))).
Proof.
  intros Hi Hr. destruct (reachable_inv _ _ Hi Hr) as [c Hinv]. destruct y as [e sl dirty].
  destruct (get_cursor Hrel sl (inv_sync _ _ Hinv)) as (sl1 & c' & E & Hc' & Ht & Hf).
  rewrite (is_cursor_unique _ _ _ Hc' (inv_cursor _ _ Hinv)) in *.
  pose proof (inv_same_tables _ _ _ _ _ Hinv Ht Hf) as Hinv1.
  destruct (snapshot_chunks (fun _ _ => None) now nodeID Hreads ltac:(done) c (en_Repo e)
    (inv_wf _ _ Hinv)) as (d2 & cs & E2 & Hd2 & Hch).
  destruct (recv_snapshots ((fun c => Ok (Some (received_snapshot c))) <$> cs) sl1) as [sl2 r] eqn:Er.
  destruct (inv_chunks e dirty c _ _ Hch sl1 (length cs) sl2 r Hinv1 eq_refl) as (_ & Hall & _).
  { by rewrite take_ge by (by rewrite length_fmap). }
  destruct (Hall ltac:(done)) as [-> Hfresh].
  exists c, sl1, d2, cs, sl2. split_and!; try done.
  intros h de Hk Hl [p0 Hp0].
  destruct (Hfresh _ Hk) as ([d|p] & [Hty Hp] & Hca); [by exists (ItemDomain p0)|done|].
  destruct (cached_domain_read _ _ _ Hca) as [sl3 Hread]. by exists p, sl3.
Qed.
End system.

(** ** A concrete run *)

Module Run.

Definition slave_gorm : Gorm SlaveTables slave_stmt slave_effect :=
  MemGorm false slave_effect (fun _ => 0).

#[local] Existing Instances plain_model memory_gorm slave_gorm.

Lemma slave_gorm_reliable : slave_reliable.
Proof. split; intros; try done. Qed.

Definition sample_master (t : Tables) : Engine :=
  mkEngine "master" (memory_db t) (Hub.Subscribe "edge-1" 128 NewHub).1.

Definition sample_slave : LocalStore :=
  mkLocalStore "/certs" (mkMemDB empty_slave None []) (mkFS ∅ ∅) [] [].

Definition written_tables : Tables := mkTables ∅ ∅ ∅ {["d1" := sample_dns "d1"]} ∅ [].

Definition y0 : system := mkSystem (sample_master empty_tables) sample_slave ∅.
Definition y1 : system :=
  mkSystem (sample_master written_tables) sample_slave
    (∅ ∪ {[(SnapshotSyncTypeDNSRecord, "d1")]}).
Definition y2 : system :=
  mkSystem (BoardcastDNSRecord zero_time "d1" (sample_master written_tables)).1 sample_slave
    ((∅ ∪ {[(SnapshotSyncTypeDNSRecord, "d1")]}) ∖ {[(SnapshotSyncTypeDNSRecord, "d1")]}).

Lemma y0_initial : initial "edge-1" 1 y0.
Proof. split_and!; try done. intros ch. vm_compute. by intros [= <-]. Qed.

Lemma write_d1 hub :
  master_step (mkEngine "master" (memory_db empty_tables) hub) ∅
    (mkEngine "master" (memory_db written_tables) hub) (∅ ∪ {[(SnapshotSyncTypeDNSRecord, "d1")]}).
Proof.
  apply step_write; try done.
  - unfold tables_wf, keyed. split_and!; try apply map_Forall_empty; [|constructor].
    by apply map_Forall_singleton.
  - intros [ty id] [r|p] Hk; [|done]. cbn.
    assert (ty = SnapshotSyncTypeDNSRecord -> id <> "d1") as Hid by (intros -> ->; set_solver).
    assert (live_row (M:=DNSRecord) empty_tables id = None) as He
      by (unfold live_row; cbn; by rewrite lookup_empty).
    split; intros [Hty Hl]; exfalso.
    + unfold live_row in Hl. cbn in Hl.
      by rewrite lookup_singleton_ne in Hl by (intros E; by apply Hid).
    + cbn in Hl. congruence.
Qed.

Lemma y0_y1 : step "edge-1" 1 y0 y1.
Proof. apply step_master, write_d1. Qed.

Lemma y1_y2 : step "edge-1" 1 y1 y2.
Proof.
  apply step_master, (step_boardcast_dns zero_time "d1" (sample_master written_tables)
    (BoardcastDNSRecord zero_time "d1" (sample_master written_tables)).1 (Ok tt)).
  - done.
  - vm_compute. reflexivity.
  - apply (bool_decide_unpack _). vm_compute. exact I.
Qed.

Lemma y0_y2 : rtc (step "edge-1" 1) y0 y2.
Proof. eapply rtc_l; [apply y0_y1|]. eapply rtc_l; [apply y1_y2|]. apply rtc_refl. Qed.

Lemma replication_invariant_witness :
  (SnapshotSyncTypeDNSRecord, "d1") ∉ sy_dirty y2 /\
  exists c, is_cursor (slave_tables y2) c /\
    forall k, k ∈ sy_dirty y2 \/ pending (master_tables y2) c k \/
      fresh (master_tables y2) (slave_tables y2) k.
Proof.
  split; [unfold y2; cbn; set_solver|].
  apply (replication_invariant "edge-1" 1 memory_reads slave_gorm_reliable y0 y2 y0_initial y0_y2).
Defined.


Definition caught_up : LocalStore * result () :=
  CatchUpSnapshots (fun _ => Ok (take 1 ((fun c => Ok (Some (received_snapshot c))) <$>
      (handleGetSnapshot (fun _ _ => None) (fun _ => zero_time) "edge-1" 0 (en_Repo (sy_master y2))).1.2)))
    0 (GetSnapshotRecordID (sy_slave y2)).1.


Lemma catchup_converges_witness :
  exists d' sl2, fresh (master_tables y2) (rows (ls_db sl2)) (SnapshotSyncTypeDNSRecord, "d1") /\
    rows d' = master_tables y2.
Proof.
  destruct (catchup_converges "edge-1" 1 memory_reads slave_gorm_reliable y0 y2 (fun _ => zero_time)
    y0_initial y0_y2) as (c & sl1 & d' & chunks & sl2 & _ & _ & _ & H & _).
  exists (en_Repo (sy_master y2)), sl2. split; [|reflexivity]. apply H.
  unfold y2. cbn. set_solver.
Defined.

End Run.
