(* ===== verification/Grpc.v ===== *)
(** * The gRPC transport: replication/replication_impl_server.go,
      replication/replication_impl_client.go

    The server wraps the engine's handlers and turns messages into their
    protobuf form; the client turns them back.  What gRPC does in between is
    an interface: one streaming call delivers a prefix of what the server sent,
    in order, and reports the end of the stream only when the handler returned
    without an error and everything arrived. *)

From S2P Require Import Prelude GoStrings GoTime Metadata Gorm Repository RepositoryFacts.
From S2P Require Import Replication Hub MasterEngine MasterFacts MetadataJson HostNames GoPath.
From S2P Require Import GoFS CertLRU CertResolver SlaveStore SlaveEngine.

Open Scope Z_scope.

(** [context.Canceled] *)
Definition Canceled : error := errors_New "context canceled".

(** ** Requests and responses of the service *)

Record pb_SnapshotRequest := mk_pb_SnapshotRequest { psr_NodeId : string; psr_SnapshotRecordId : Z }.
Record pb_SubscriptionRequest := mk_pb_SubscriptionRequest { pur_NodeId : string }.
Record pb_CertificateBundleRequest := mk_pb_CertificateBundleRequest {
  pbr_Hostname : string; pbr_Revision : Z;
}.
Record pb_CertificateBundleResponse := mk_pb_CertificateBundleResponse {
  pbs_Hostname : string; pbs_Revision : Z; pbs_TlsCrt : string; pbs_TlsKey : string;
  pbs_MetadataJson : string;
}.

(** ** What gRPC promises *)

(** A server-streaming call: the client's error on opening it; the error of the
    server's [Send] of a message after those already sent; and what the
    client's [Recv] calls return, given what was sent and how the handler
    returned. *)
Record call (M : Type) := mkCall {
  call_open : option error;
  call_send : list M -> M -> option error;
  call_recv : list M -> result () -> list (result (option M));
}.
Arguments mkCall {M} _ _ _.
Arguments call_open {M} _.
Arguments call_send {M} _ _ _.
Arguments call_recv {M} _ _ _.

(** The messages a client receives before the stream ends or breaks. *)
Definition arrived {M} (sent : list M) (n : nat) : list (result (option M)) :=
  (fun m => Ok (Some m)) <$> take n sent.

Class GRPCStream {M} (c : call M) : Prop := {
  recv_prefix : forall sent r, exists n e,
    call_recv c sent r = arrived sent n ++ [Err e] /\
    (e = EOF -> r = Ok tt /\ (length sent <= n)%nat);
}.

(** A call on which nothing goes wrong. *)
Definition perfect_call (M : Type) : call M :=
  mkCall None (fun _ _ => None)
    (fun sent r => arrived sent (length sent) ++
       [Err (match r with Ok _ => EOF | Err e =>
               if bool_decide (e = EOF) then errors_New "rpc error: EOF" else e end)]).

#[export] Instance perfect_stream M : GRPCStream (perfect_call M).
Proof.
  split. intros sent r. exists (length sent). eexists. split; [done|].
  destruct r as [[]|e]; [done|]. by case_bool_decide.
Qed.

(** A call whose connection holds. *)
Class GRPCReliable {M} (c : call M) : Prop := {
  reliable_open : call_open c = None;
  reliable_send : forall sent m, call_send c sent m = None;
  reliable_recv : forall sent, call_recv c sent (Ok tt) = arrived sent (length sent) ++ [Err EOF];
}.

#[export] Instance perfect_reliable M : GRPCReliable (perfect_call M).
Proof. by split. Qed.

(** A unary call, given how the handler returned. *)
Class GRPCUnary {R} (c : result R -> result (option R)) : Prop := {
  unary_response : forall r o, c r = Ok o -> exists a, o = Some a /\ r = Ok a;
}.

#[export] Instance unary_delivered R : GRPCUnary (fun r : result R => Some <$> r).
Proof. split. intros [a|e] o; [|done]. intros [= <-]. eauto. Qed.

(** ** replication_impl_server.go *)

Section server.
(** The state the handlers act on. *)
Context {W : Type}.

(** The handlers; a handler is given the error of each call of [send], and the
    calls that succeeded are part of its result. [handleSubscribe] is its entry
    and the iterations of its loop. *)
Definition GetSnapshotHandler : Type :=
  string -> Z -> (list (option Snapshot) -> option Snapshot -> option error) ->
  W -> W * list (option Snapshot) * result ().

Record SubscribeHandler := mkSubscribeHandler {
  sh_enter : string -> W -> W * Z;
  sh_iter : (option ChangeNotification -> option error) -> string -> Z -> select_case ->
            W -> W * iteration;
}.

Definition FetchCertificateBundleHandler : Type :=
  string -> Z -> W -> W * result (option CertificateBundle).

Record GRPCServer := mkGRPCServer {
  gs_getSnapshotHandler : option GetSnapshotHandler;
  gs_subscribeHandler : option SubscribeHandler;
  gs_fetchCertificateBundleHandler : option FetchCertificateBundleHandler;
}.

(** [func(snapshot *Snapshot) error] *)
Definition snapshot_callback (Send : list pb_Snapshot -> pb_Snapshot -> option error)
    (sent : list (option Snapshot)) (snapshot : option Snapshot) : option error :=
  match snapshot with
  | None => None
  | Some snapshot => Send (SnapshotToProto <$> omap id sent) (SnapshotToProto snapshot)
  end.

(** The state, the messages on the stream and the status of the call. *)
Definition server_GetSnapshot (s : option GRPCServer) (Send : list pb_Snapshot -> pb_Snapshot -> option error)
    (req : pb_SnapshotRequest) (w : W) : W * list pb_Snapshot * result () :=
  match s ≫= gs_getSnapshotHandler with
  | None => (w, [], Err (errors_New "get snapshot handler is not configured"))
  | Some getSnapshotHandler =>
      let '(w', sent, r) :=
        getSnapshotHandler (psr_NodeId req) (psr_SnapshotRecordId req) (snapshot_callback Send) w in
      (w', SnapshotToProto <$> omap id sent, r)
  end.

(** [func(notice *ChangeNotification) error] *)
Definition notice_callback (Send : pb_ChangeNotification -> option error)
    (notice : option ChangeNotification) : option error :=
  match notice with
  | None => None
  | Some notice => Send (ChangeNotificationToProto notice)
  end.

(** The status of the call, given what the handler returned. *)
Definition subscribe_status (r : result ()) : result () :=
  match r with
  | Err err => if bool_decide (err = Canceled) || bool_decide (err = EOF) then Ok tt else Err err
  | Ok _ => Ok tt
  end.

(** Entering the call: the subscription, or the status of a call that has no
    handler. *)
Definition server_Subscribe_enter (s : option GRPCServer) (req : pb_SubscriptionRequest) (w : W)
    : W * result Z :=
  match s ≫= gs_subscribeHandler with
  | None => (w, Err (errors_New "subscribe handler is not configured"))
  | Some h => let '(w', subID) := sh_enter h (pur_NodeId req) w in (w', Ok subID)
  end.

(** One iteration of the handler's loop inside the call. *)
Definition server_Subscribe_iter (s : option GRPCServer) (Send : pb_ChangeNotification -> option error)
    (req : pb_SubscriptionRequest) (subID : Z) (c : select_case) (w : W) : W * iteration :=
  match s ≫= gs_subscribeHandler with
  | None => (w, Return (Err (errors_New "subscribe handler is not configured")))
  | Some h =>
      match sh_iter h (notice_callback Send) (pur_NodeId req) subID c w with
      | (w', Return r) => (w', Return (subscribe_status r))
      | wi => wi
      end
  end.

Definition server_FetchCertificateBundle (s : option GRPCServer) (req : pb_CertificateBundleRequest)
    (w : W) : W * result pb_CertificateBundleResponse :=
  match s ≫= gs_fetchCertificateBundleHandler with
  | None => (w, Err (errors_New "fetch certificate bundle handler is not configured"))
  | Some fetchCertificateBundleHandler =>
      match fetchCertificateBundleHandler (pbr_Hostname req) (pbr_Revision req) w with
      | (w', Err err) => (w', Err err)
      | (w', Ok None) => (w', Err (errors_New "certificate bundle not found"))
      | (w', Ok (Some bundle)) =>
          (w', Ok (mk_pb_CertificateBundleResponse (cb_Hostname bundle) (cb_Revision bundle)
                     (cb_TLSCrt bundle) (cb_TLSKey bundle) (cb_MetadataJSON bundle)))
      end
  end.

End server.
Arguments SubscribeHandler W : clear implicits.
Arguments GRPCServer W : clear implicits.

(** ** replication_impl_client.go *)

(** The stub of a streaming method of the service, and of a unary one: the call
    carries the request to the server's method. *)
Definition stub_streaming {W Req M} (c : call M)
    (method : (list M -> M -> option error) -> Req -> W -> W * list M * result ()) (req : Req)
    : go W (list (result (option M))) := fun w =>
  match call_open c with
  | Some err => (w, Err err)
  | None => let '(w', sent, status) := method (call_send c) req w in (w', Ok (call_recv c sent status))
  end.

Definition stub_unary {W Req R} (c : result R -> result (option R)) (method : Req -> W -> W * result R)
    (req : Req) : go W (option R) := fun w =>
  let '(w', r) := method req w in (w', c r).

Definition grpcSnapshotStream_Recv (msg : result (option pb_Snapshot)) : result (option Snapshot) :=
  match msg with
  | Err err => Err err
  | Ok msg => Ok (SnapshotFromProto <$> msg)
  end.

Definition grpcNoticeStream_Recv (msg : result (option pb_ChangeNotification))
    : result (option ChangeNotification) :=
  match msg with
  | Err err => Err err
  | Ok msg => Ok (ChangeNotificationFromProto <$> msg)
  end.

Section client.
Context {W : Type}.

Definition client_GetSnapshot (stub : pb_SnapshotRequest -> go W (list (result (option pb_Snapshot))))
    (nodeID : string) (snapshotRecordID : Z) : go W (list (result (option Snapshot))) :=
  stream ← stub (mk_pb_SnapshotRequest nodeID snapshotRecordID);
  mret (grpcSnapshotStream_Recv <$> stream).

Definition client_Subscribe
    (stub : pb_SubscriptionRequest -> go W (list (result (option pb_ChangeNotification))))
    (nodeID : string) : go W (list (result (option ChangeNotification))) :=
  stream ← stub (mk_pb_SubscriptionRequest nodeID);
  mret (grpcNoticeStream_Recv <$> stream).

Definition client_FetchCertificateBundle
    (stub : pb_CertificateBundleRequest -> go W (option pb_CertificateBundleResponse))
    (hostname : string) (revision : Z) : go W (option CertificateBundle) :=
  resp ← stub (mk_pb_CertificateBundleRequest hostname revision);
  match resp with
  | None => throw (errors_New "certificate bundle response is nil")
  | Some resp =>
      mret (Some (mkCertificateBundle (pbs_Hostname resp) (pbs_Revision resp) (pbs_TlsCrt resp)
                    (pbs_TlsKey resp) (pbs_MetadataJson resp)))
  end.

(** engine_subscriber.go: the engine's call, when it may have no client. *)
Definition engine_FetchCertificateBundle
    (grpcClient : option (pb_CertificateBundleRequest -> go W (option pb_CertificateBundleResponse)))
    (hostname : string) (revision : Z) : go W (option CertificateBundle) :=
  match grpcClient with
  | None => mret None
  | Some stub => client_FetchCertificateBundle stub hostname revision
  end.

End client.

(** ** engine/master/engine.go: the handlers the master registers *)

Section master_server.
Context {GM : GormModel} {GDB : Gorm Tables stmt stmt_effect}.
Context (now : nat -> Time) (Bundles : option (string -> Z -> result (option CertificateBundle))).

Definition master_getSnapshot : GetSnapshotHandler (W:=Engine) :=
  fun nodeID snapshotRecordID send e =>
    let '(d, sent, r) := handleGetSnapshot (fun sent c => send (Some <$> sent) (Some c)) now nodeID
                           snapshotRecordID (en_Repo e) in
    (mkEngine (en_NODE_ID e) d (en_Hub e), Some <$> sent, r).

Definition master_subscribe : SubscribeHandler Engine :=
  mkSubscribeHandler
    (fun nodeID e =>
       let '(h, subID) := Hub.Subscribe nodeID subscribe_buffer (en_Hub e) in
       (mkEngine (en_NODE_ID e) (en_Repo e) h, subID))
    (fun send nodeID subID c e =>
       let '(h, i) := handleSubscribe_iter (fun n => send (Some n)) nodeID subID c (en_Hub e) in
       (mkEngine (en_NODE_ID e) (en_Repo e) h, i)).

Definition master_fetch : FetchCertificateBundleHandler (W:=Engine) :=
  fun hostname revision e => (e, Some <$> handleFetchCertificateBundle Bundles hostname revision).

Definition master_server : GRPCServer Engine :=
  mkGRPCServer (Some master_getSnapshot) (Some master_subscribe) (Some master_fetch).

(** A call from the client through the server to the engine. *)
Definition call_GetSnapshot (c : call pb_Snapshot) : string -> Z -> go Engine (list (result (option Snapshot))) :=
  client_GetSnapshot (stub_streaming c (server_GetSnapshot (Some master_server))).

Definition call_FetchCertificateBundle
    (c : result pb_CertificateBundleResponse -> result (option pb_CertificateBundleResponse))
    : string -> Z -> go Engine (option CertificateBundle) :=
  engine_FetchCertificateBundle (Some (stub_unary c (server_FetchCertificateBundle (Some master_server)))).

End master_server.

(** ** A stream that breaks *)

Section breaking.
Context {GM : GormModel} {GDB : Gorm Tables stmt stmt_effect}.
Context (send : list Snapshot -> Snapshot -> option error) (now : nat -> Time) (nodeID : string).

Abbreviation never := (fun (_ : list Snapshot) (_ : Snapshot) => @None error).

(** [m] on the real stream and [m'] on one that accepts everything: either they
    agree, or [m] stopped with an error and a part of what [m'] sends. *)
Definition breaks_off (m m' : go snapshot_loop ()) : Prop :=
  forall st, m st = m' st \/
    (is_ok (m st).2 = false /\ sl_sent (m st).1 `prefix_of` sl_sent (m' st).1).

Definition only_sends (m : go snapshot_loop ()) : Prop :=
  forall st, sl_sent st `prefix_of` sl_sent (m st).1.

Lemma breaks_off_refl m : breaks_off m m.
Proof. by left. Qed.

Lemma breaks_off_bind m m' (k k' : () -> go snapshot_loop ()) :
  breaks_off m m' -> (forall u, breaks_off (k u) (k' u)) -> (forall u, only_sends (k' u)) ->
  breaks_off (m ≫= k) (m' ≫= k').
Proof.
  intros Hm Hk Hs st. cbv [mbind go_bind]. destruct (Hm st) as [->|[He Hp]].
  - destruct (m' st) as [st1 [u|e]]; [apply Hk|by left].
  - right. destruct (m st) as [st1 [u|e]]; [done|]. split; [done|]. cbn in *.
    destruct (m' st) as [st2 [u|e2]]; cbn in *; [|done]. etrans; [exact Hp|apply Hs].
Qed.

Lemma only_sends_bind {A} (m : go snapshot_loop A) (k : A -> go snapshot_loop ()) :
  (forall st, sl_sent st `prefix_of` sl_sent (m st).1) -> (forall a, only_sends (k a)) ->
  only_sends (m ≫= k).
Proof.
  intros Hm Hk st. cbv [mbind go_bind]. specialize (Hm st). destruct (m st) as [st1 [a|e]]; [|done].
  etrans; [exact Hm|apply Hk].
Qed.

Lemma sendChunk_breaks last : breaks_off (sendChunk send now nodeID last) (sendChunk never now nodeID last).
Proof.
  intros st. unfold sendChunk. cbn zeta. destruct (_ && _ && _); [by left|].
  destruct (send _ _); [|by left]. right. cbn. split; [done|]. by apply prefix_app_r.
Qed.

Lemma sendChunk_sends last : only_sends (sendChunk never now nodeID last).
Proof.
  intros st. unfold sendChunk. cbn zeta. destruct (_ && _ && _); [done|]. cbn. by apply prefix_app_r.
Qed.

Lemma add_item_sent record st : sl_sent (add_item record st).1 = sl_sent st.
Proof.
  unfold add_item, loop_Repo, zoom, attempt, count_item, modify. cbv [mbind go_bind].
  repeat case_bool_decide; [| |done].
  - by destruct (GetResourceByField _ _ _ _) as [d [?|?]].
  - by destruct (GetDomainEntryProjectionByDomain _ _) as [d [?|?]].
Qed.

Lemma snapshot_record_breaks record :
  breaks_off (snapshot_record send now nodeID record) (snapshot_record never now nodeID record) /\
  only_sends (snapshot_record never now nodeID record).
Proof.
  assert (forall st, only_sends (if bool_decide (1000 <= sl_count st) then sendChunk never now nodeID false else mret tt))
    as Hs by (intros st; case_bool_decide; [apply sendChunk_sends|by intros ?]).
  assert (only_sends (st ← get_state; if bool_decide (1000 <= sl_count st) then sendChunk never now nodeID false else mret tt))
    as Hs' by (intros st; apply Hs).
  split.
  - unfold snapshot_record. apply breaks_off_bind; [apply breaks_off_refl| |]; intros [].
    + apply breaks_off_bind; [apply breaks_off_refl| |done]. intros [] st. cbv [mbind go_bind get_state].
      case_bool_decide; [apply sendChunk_breaks|by left].
    + apply only_sends_bind; [|done]. intros st. by rewrite add_item_sent.
  - apply only_sends_bind; [done|]. intros []. apply only_sends_bind; [|done].
    intros st. by rewrite add_item_sent.
Qed.

Lemma loop_breaks records :
  breaks_off (for_each (snapshot_record send now nodeID) records ≫= fun _ => sendChunk send now nodeID true)
    (for_each (snapshot_record never now nodeID) records ≫= fun _ => sendChunk never now nodeID true).
Proof.
  assert (forall rs, only_sends (for_each (snapshot_record never now nodeID) rs)) as Hs.
  { induction rs as [|r rs IH]; cbn [for_each]; [by intros ?|].
    apply only_sends_bind; [apply snapshot_record_breaks|done]. }
  apply breaks_off_bind; [|intros _; apply sendChunk_breaks|intros _; apply sendChunk_sends].
  induction records as [|r rs IH]; cbn [for_each]; [apply breaks_off_refl|].
  apply breaks_off_bind; [apply snapshot_record_breaks|done|done].
Qed.

(** *** The handler leaves the tables alone *)

Definition reads_only (m : go snapshot_loop ()) : Prop :=
  forall st, rows (sl_Repo (m st).1) = rows (sl_Repo st).

Lemma reads_only_bind {A} (m : go snapshot_loop A) (k : A -> go snapshot_loop ()) :
  (forall st, rows (sl_Repo (m st).1) = rows (sl_Repo st)) -> (forall a, reads_only (k a)) ->
  reads_only (m ≫= k).
Proof.
  intros Hm Hk st. cbv [mbind go_bind]. specialize (Hm st). destruct (m st) as [st1 [a|e]]; [|done].
  etrans; [apply Hk|exact Hm].
Qed.

Lemma sendChunk_reads last : reads_only (sendChunk send now nodeID last).
Proof. intros st. unfold sendChunk. cbn zeta. destruct (_ && _ && _); [done|]. by destruct (send _ _). Qed.

Lemma add_item_reads record : reads_only (add_item record).
Proof.
  intros st. unfold add_item, loop_Repo, zoom, attempt, count_item, modify. cbv [mbind go_bind].
  repeat case_bool_decide; [| |done].
  - pose proof (get_dns_rows (sr_SyncID record) (sl_Repo st)) as Hd.
    by destruct (GetResourceByField _ _ _ _) as [d [?|?]].
  - pose proof (get_projection_rows (sr_SyncID record) (sl_Repo st)) as Hd.
    by destruct (GetDomainEntryProjectionByDomain _ _) as [d [?|?]].
Qed.

Lemma loop_reads records :
  reads_only (for_each (snapshot_record send now nodeID) records ≫= fun _ => sendChunk send now nodeID true).
Proof.
  apply reads_only_bind; [|intros _; apply sendChunk_reads].
  induction records as [|r rs IH]; cbn [for_each]; [done|].
  apply reads_only_bind; [|done]. apply reads_only_bind; [done|]. intros [].
  apply reads_only_bind; [apply add_item_reads|]. intros [] st. cbv [mbind go_bind get_state].
  case_bool_decide; [apply sendChunk_reads|done].
Qed.

(** Serving a snapshot on a stream that may break: the chunks sent are the
    first of those a whole stream carries. *)
Lemma snapshot_breaks after d :
  let '(d', sent, r) := handleGetSnapshot send now nodeID after d in
  let '(_, chunks, r') := handleGetSnapshot never now nodeID after d in
  rows d' = rows d /\ sent `prefix_of` chunks /\ (is_ok r = true -> sent = chunks /\ r' = r).
Proof.
  unfold handleGetSnapshot. pose proof (select_rows (snapshots_after after) snapshot_leb d) as Hr.
  change (select (snapshots_after after) snapshot_leb) with (ListSnapshotRecordsAfter after) in Hr.
  destruct (ListSnapshotRecordsAfter after d) as [d1 [records|e]]; [|done]. cbn in Hr.
  set (st := mkLoop _ _ _ _ _).
  pose proof (loop_breaks records st) as Hb. pose proof (loop_reads records st) as Hrd.
  destruct (mbind (M := go _) _ (for_each (snapshot_record send _ _) _) st) as [st1 r] eqn:E1.
  destruct (mbind (M := go _) _ (for_each (snapshot_record never _ _) _) st) as [st2 r'] eqn:E2.
  cbn in Hrd. split; [by rewrite Hrd|].
  destruct Hb as [[= -> ->]|[He Hp]]; [done|]. cbn in *. split; [done|]. by rewrite He.
Qed.

End breaking.

(** ** Fetching a bundle *)

(** What a slave gets from the master's handler, if the call gets through. *)
Lemma call_fetch {GM : GormModel} {GDB : Gorm Tables stmt stmt_effect} now Bundles c hostname revision e :
  GRPCUnary c ->
  let '(e', r) := call_FetchCertificateBundle now Bundles c hostname revision e in
  e' = e /\ match r with
            | Ok o => exists b, o = Some b /\ handleFetchCertificateBundle Bundles hostname revision = Ok b
            | Err _ => True
            end.
Proof.
  intros Hc. unfold call_FetchCertificateBundle, engine_FetchCertificateBundle, client_FetchCertificateBundle, stub_unary.
  unfold server_FetchCertificateBundle. cbn [mbind option_bind gs_fetchCertificateBundleHandler master_server].
  unfold master_fetch. cbn [pbr_Hostname pbr_Revision]. cbv [mbind go_bind].
  destruct (handleFetchCertificateBundle Bundles hostname revision) as [b|err]; cbn [fmap result_fmap].
  - destruct (c (Ok _)) as [o|err] eqn:E; [|done]. apply unary_response in E as (a & -> & [= <-]).
    split; [done|]. exists b. by destruct b.
  - destruct (c (Err err)) as [o|err'] eqn:E; [|done]. by apply unary_response in E as (a & _ & ?).
Qed.
