(* ===== verification/Session.v ===== *)
(** * A slave's sessions over gRPC

    Master, transport and slave as a transition relation: the master changes
    and broadcasts, the handlers of open subscriptions send what their channels
    hold, and the slave subscribes, catches up, follows the notices and starts
    again after any failure.  The replication invariant holds throughout, and
    the cursor the slave's loop keeps is the one its store has. *)

From S2P Require Import Prelude GoStrings GoTime Metadata Gorm Repository RepositoryFacts.
From S2P Require Import Replication Hub MasterEngine MasterFacts MetadataJson HostNames GoPath.
From S2P Require Import GoFS CertLRU CertResolver SlaveStore SlaveEngine SlaveFacts Sync Grpc.

Open Scope Z_scope.

(** ** The slave's loop, one iteration at a time *)

Section loop.
Context {SDB : Gorm SlaveTables slave_stmt slave_effect} {MT : MetaText}.

(** The notice skips a record the slave has not seen. *)
Definition missed (cursor : Z) (notice : ChangeNotification) : bool :=
  negb (bool_decide (cn_SnapshotRecordID notice <= cursor)) &&
  bool_decide (u64 (cursor + 1) < cn_SnapshotRecordID notice).

(** The loop's body for a notice; the value is the cursor afterwards. *)
Definition follow_iter (GetSnapshot : Z -> result (list (result (option Snapshot)))) (cursor : Z)
    (notice : ChangeNotification) : go LocalStore Z :=
  if bool_decide (cn_SnapshotRecordID notice <= cursor) then mret cursor
  else if missed cursor notice then CatchUpSnapshots GetSnapshot cursor ≫= fun _ => GetSnapshotRecordID
  else ApplyChangelog (Some notice) ≫= fun _ => mret (cn_SnapshotRecordID notice).

(** The loop is its iterations. *)
Lemma follow_notices_iter GetSnapshot calls cursor notice notices s :
  follow_notices GetSnapshot calls cursor (Ok (Some notice) :: notices) s =
  (follow_iter (GetSnapshot calls) cursor notice ≫= fun cursor' =>
   follow_notices GetSnapshot (if missed cursor notice then S calls else calls) cursor' notices) s.
Proof.
  unfold follow_iter, missed. cbn [follow_notices]. cbv [mbind go_bind mret go_ret].
  destruct (bool_decide (_ <= cursor)); [done|]. cbn [negb andb]. destruct (bool_decide _).
  - destruct (CatchUpSnapshots _ _ _) as [s1 [u|e]]; done.
  - destruct (ApplyChangelog _ _) as [s1 [u|e]]; done.
Qed.

End loop.

(** ** The network *)

Section net.
Context {GM : GormModel} {GDB : Gorm Tables stmt stmt_effect}.
Context {SDB : Gorm SlaveTables slave_stmt slave_effect} {MT : MetaText}.
Context (nodeID : string) (Bundles : option (string -> Z -> result (option CertificateBundle))).

(** A [Subscribe] call: the messages sent and not yet received, and the status
    once the server's method has returned. *)
Record open_call := mkOpenCall {
  oc_wire : list pb_ChangeNotification;
  oc_status : option (result ());
}.

(** Where the slave is in [Subscribe]: not in it, or with a stream opened by the
    call of subscription [sub], or in the loop with its cursor. *)
Inductive session :=
  | Idle
  | Opened (sub : Z)
  | Following (sub : Z) (cursor : Z).

Record net := mkNet {
  nt_master : Engine;
  nt_slave : LocalStore;
  nt_dirty : gset (string * string);
  nt_calls : gmap Z open_call;
  nt_session : session;
}.

Definition on_master {A} (m : go Engine A) : go (Engine * LocalStore) A :=
  zoom fst (fun e s => (e, s.2)) m.
Definition on_slave {A} (m : go LocalStore A) : go (Engine * LocalStore) A :=
  zoom snd (fun sl s => (s.1, sl)) m.

(** [CatchUpSnapshots] over a call to the master. *)
Definition catch_up (c : call pb_Snapshot) (now : nat -> Time) (cursor : Z) : go (Engine * LocalStore) () :=
  stream ← attempt (on_master (call_GetSnapshot now Bundles c nodeID cursor));
  on_slave (CatchUpSnapshots (fun _ => stream) cursor).

(** [Subscribe] from the opened stream to its loop. *)
Definition session_begin (c : call pb_Snapshot) (now : nat -> Time) : go (Engine * LocalStore) Z :=
  cursor ← on_slave GetSnapshotRecordID;
  catch_up c now cursor ≫= fun _ =>
  on_slave GetSnapshotRecordID.

(** An iteration of the loop, which opens a snapshot stream when it needs one. *)
Definition session_follow (c : call pb_Snapshot) (now : nat -> Time) (cursor : Z) (notice : ChangeNotification)
    : go (Engine * LocalStore) Z :=
  stream ← (if missed cursor notice
            then attempt (on_master (call_GetSnapshot now Bundles c nodeID cursor))
            else mret (Ok []));
  on_slave (follow_iter (fun _ => stream) cursor notice).

Abbreviation server now := (Some (master_server now Bundles)).
Abbreviation request := (mk_pb_SubscriptionRequest nodeID).

(** The session after a part of [Subscribe] returned. *)
Definition next_session (sub : Z) (r : result Z) : session :=
  match r with Ok cursor => Following sub cursor | Err _ => Idle end.

Definition serve_call (oc : open_call) (i : iteration) : open_call :=
  match i with
  | Continue msg => mkOpenCall (oc_wire oc ++ [ChangeNotificationToProto msg]) (oc_status oc)
  | Blocked => oc
  | Return r => mkOpenCall (oc_wire oc) (Some r)
  end.

Inductive net_step : net -> net -> Prop :=
  | net_master e e' sl dirty dirty' calls s :
      master_step e dirty e' dirty' ->
      net_step (mkNet e sl dirty calls s) (mkNet e' sl dirty' calls s)
  (** the slave opens its notice stream *)
  | net_subscribe now e e' sub sl dirty calls :
      server_Subscribe_enter (server now) request e = (e', Ok sub) ->
      net_step (mkNet e sl dirty calls Idle)
        (mkNet e' sl dirty (<[sub := mkOpenCall [] None]> calls) (Opened sub))
  (** it catches up; the snapshot call may fail or break *)
  | net_begin c now e e' sub sl sl' r dirty calls :
      GRPCStream c -> session_begin c now (e, sl) = ((e', sl'), r) ->
      net_step (mkNet e sl dirty calls (Opened sub)) (mkNet e' sl' dirty calls (next_session sub r))
  (** the handler of any open call runs an iteration *)
  | net_serve now Send sub sel oc e e' i sl dirty calls s :
      calls !! sub = Some oc -> oc_status oc = None ->
      server_Subscribe_iter (server now) Send request sub sel e = (e', i) ->
      net_step (mkNet e sl dirty calls s) (mkNet e' sl dirty (<[sub := serve_call oc i]> calls) s)
  (** the slave receives the next notice of its stream *)
  | net_recv c now sub cursor m wire status e e' sl sl' r dirty calls :
      GRPCStream c -> calls !! sub = Some (mkOpenCall (m :: wire) status) ->
      session_follow c now cursor (ChangeNotificationFromProto m) (e, sl) = ((e', sl'), r) ->
      net_step (mkNet e sl dirty calls (Following sub cursor))
        (mkNet e' sl' dirty (<[sub := mkOpenCall wire status]> calls) (next_session sub r))
  (** its stream ends, or breaks with whatever was on it *)
  | net_end err sub cursor oc e sl dirty calls :
      calls !! sub = Some oc -> (err = EOF -> oc_wire oc = [] /\ oc_status oc = Some (Ok tt)) ->
      net_step (mkNet e sl dirty calls (Following sub cursor)) (mkNet e sl dirty calls Idle).

(** ** What a snapshot call carries *)

Context (Hreads : reads_succeed) (Hrel : slave_reliable).

Lemma call_snapshot c now cursor e :
  GRPCStream c -> tables_wf (rows (en_Repo e)) ->
  let '(e', r) := call_GetSnapshot now Bundles c nodeID cursor e in
  exists d', e' = mkEngine (en_NODE_ID e) d' (en_Hub e) /\ rows d' = rows (en_Repo e) /\
  match r with
  | Err err => call_open c = Some err
  | Ok stream => exists d2 chunks r2 n err,
      handleGetSnapshot (fun _ _ => None) now nodeID cursor (en_Repo e) = (d2, chunks, r2) /\
      stream = take n ((fun c => Ok (Some (received_snapshot c))) <$> chunks) ++ [Err err] /\
      (err = EOF -> r2 = Ok tt /\ (length chunks <= n)%nat) /\ (GRPCReliable c -> err = EOF)
  end.
Proof.
  intros Hc Hwf. unfold call_GetSnapshot, client_GetSnapshot, stub_streaming. cbv [mbind go_bind mret go_ret].
  destruct (call_open c) as [err|]; [by exists (en_Repo e); destruct e|].
  unfold server_GetSnapshot. cbn [mbind option_bind gs_getSnapshotHandler master_server].
  unfold master_getSnapshot. cbn [psr_NodeId psr_SnapshotRecordId].
  set (send := fun sent c0 => snapshot_callback _ (Some <$> sent) (Some c0)).
  pose proof (fun H => snapshot_chunks send now nodeID Hreads H cursor (en_Repo e) Hwf) as Hwhole.
  pose proof (snapshot_breaks send now nodeID cursor (en_Repo e)) as H.
  destruct (handleGetSnapshot send now nodeID cursor (en_Repo e)) as [[d' sent] st].
  destruct (handleGetSnapshot (fun _ _ => None) now nodeID cursor (en_Repo e)) as [[d2 chunks] r2].
  destruct H as (Hrows & [rest ->] & Hok). exists d'. split; [done|]. split; [done|].
  assert (omap id (Some <$> sent) = sent) as -> by (clear; induction sent as [|? ? IH]; cbn; [done|by rewrite IH]).
  destruct (recv_prefix (c := c) (SnapshotToProto <$> sent) st) as (n & err & Hrecv & He).
  rewrite length_fmap in He.
  exists d2, (sent ++ rest), r2, (n `min` length sent)%nat, err. split; [done|]. split_and!.
  - rewrite Hrecv. unfold arrived. rewrite fmap_app. cbn [fmap list_fmap]. f_equal.
    rewrite <- take_take, <- !fmap_take, <- !list_fmap_compose.
    by rewrite take_app_length.
  - intros E. destruct (He E) as [-> Hn]. destruct (Hok eq_refl) as [Hs ->]. split; [done|].
    rewrite <- Hs. lia.
  - intros Hre. destruct Hwhole as (d3 & cs & [= -> -> ->] & _); [intros; apply reliable_send|].
    rewrite reliable_recv in Hrecv. by apply app_inj_2 in Hrecv as [_ [= <-]].
Qed.

Lemma recv_cut stream err s s' r :
  recv_snapshots (stream ++ [Err err]) s = (s', r) ->
  exists r', recv_snapshots stream s = (s', r') /\ (r' = Ok tt -> r = Ok tt).
Proof.
  revert s. induction stream as [|[[sn|]|e] stream IH]; intros s; cbn [app recv_snapshots].
  - intros [= <- <-]. by eexists.
  - cbv [mbind go_bind]. destruct (ApplySnapshot (Some sn) s) as [s1 [u|e]].
    + destruct (sn_Last sn); [intros [= <- <-]; by eexists|apply IH].
    + intros [= <- <-]. by eexists.
  - apply IH.
  - intros [= <- <-]. by eexists.
Qed.

(** ** The invariant *)

(** The replication invariant, whichever subscriptions the node has. *)
Definition node_inv (e : Engine) (sl : LocalStore) (dirty : gset (string * string)) (c : Z) : Prop :=
  forall sub, inv nodeID sub (mkSystem e sl dirty) c.

Definition good_message (t : Tables) (dirty : gset (string * string)) (m : pb_ChangeNotification) : Prop :=
  exists n, m = ChangeNotificationToProto n /\ good_notice t dirty n.

Record net_inv (w : net) (c : Z) : Prop := {
  ni_node : node_inv (nt_master w) (nt_slave w) (nt_dirty w) c;
  ni_wire : forall sub oc, nt_calls w !! sub = Some oc ->
    Forall (good_message (rows (en_Repo (nt_master w))) (nt_dirty w)) (oc_wire oc);
  ni_cursor : forall sub cursor, nt_session w = Following sub cursor -> cursor = c;
}.

(** Each subscription's invariant has the one cursor of the store. *)
Lemma node_inv_collect e sl dirty :
  (forall sub, exists c, inv nodeID sub (mkSystem e sl dirty) c) ->
  exists c, node_inv e sl dirty c.
Proof.
  intros H. destruct (H 0) as [c Hc]. exists c. intros sub. destruct (H sub) as [c' Hc'].
  by rewrite (is_cursor_unique _ _ _ (inv_cursor _ _ _ _ Hc) (inv_cursor _ _ _ _ Hc')).
Qed.

Lemma node_cursor e sl dirty c c' :
  node_inv e sl dirty c -> is_cursor (rows (ls_db sl)) c' -> c' = c.
Proof. intros H Hc. exact (is_cursor_unique _ _ _ Hc (inv_cursor _ _ _ _ (H 0))). Qed.

(** Reading the cursor. *)
Lemma node_read e sl dirty c :
  node_inv e sl dirty c ->
  exists sl', GetSnapshotRecordID sl = (sl', Ok c) /\ node_inv e sl' dirty c /\
    rows (ls_db sl') = rows (ls_db sl).
Proof.
  intros H. destruct (get_cursor Hrel sl (inv_sync _ _ _ _ (H 0))) as (sl' & c' & E & Hc & Ht & Hf).
  rewrite (node_cursor _ _ _ _ _ H Hc) in E. exists sl'. split; [done|]. split; [|done].
  intros sub. by eapply inv_same_tables.
Qed.

(** Catching up over any call keeps the invariant; over a perfect one it
    succeeds and brings every broadcast item. *)
Lemma node_catch_up c now cursor e sl dirty e' sl' r :
  GRPCStream c -> node_inv e sl dirty cursor ->
  catch_up c now cursor (e, sl) = ((e', sl'), r) ->
  (exists c', node_inv e' sl' dirty c') /\ rows (en_Repo e') = rows (en_Repo e) /\ en_Hub e' = en_Hub e /\
  (GRPCReliable c -> r = Ok tt /\
     forall k, k ∉ dirty -> fresh (rows (en_Repo e)) (rows (ls_db sl')) k).
Proof.
  intros Hc Hinv. unfold catch_up, on_master, on_slave, attempt, zoom. cbv [mbind go_bind]. cbn [fst snd].
  pose proof (call_snapshot c now cursor e Hc (inv_wf _ _ _ _ (Hinv 0))) as H.
  destruct (call_GetSnapshot now Bundles c nodeID cursor e) as [e1 stream].
  destruct H as (d' & -> & Hd & H). cbn [fst snd].
  destruct (CatchUpSnapshots _ cursor sl) as [sl1 r1] eqn:E. intros [= <- <- <-]. cbn [en_Repo en_Hub].
  destruct stream as [stream|err].
  2: { injection E as <- <-. split_and!; try done; [exists cursor|].
       - intros sub. apply inv_repo; [apply Hinv|done].
       - intros Hre. by rewrite reliable_open in H. }
  destruct H as (d2 & chunks & r2 & n & err & H1 & -> & He & Hre).
  destruct (snapshot_chunks (fun _ _ => None) now nodeID Hreads ltac:(done) cursor (en_Repo e)
    (inv_wf _ _ _ _ (Hinv 0))) as (d3 & cs & E2 & _ & Hch).
  rewrite H1 in E2. injection E2 as -> -> ->.
  destruct (recv_cut _ _ _ _ _ E) as (r' & E' & Hr').
  pose proof (fun sub => inv_chunks nodeID sub Hreads Hrel e dirty cursor _ _ Hch sl n sl1 r' (Hinv sub) eq_refl E') as Hall.
  split_and!; try done.
  - apply node_inv_collect. intros sub. destruct (Hall sub) as ([c' Hc'] & _). exists c'. by apply inv_repo.
  - intros Hc'. destruct (Hall 0) as (_ & Hdone & _). destruct (He (Hre Hc')) as [_ Hn].
    destruct (Hdone Hn) as [-> Hf]. auto.
Qed.

(** Catching up and reading the cursor again. *)
Lemma node_resync c now cursor e sl dirty e' sl' r :
  GRPCStream c -> node_inv e sl dirty cursor ->
  (catch_up c now cursor ≫= fun _ => on_slave GetSnapshotRecordID) (e, sl) = ((e', sl'), r) ->
  (exists c', node_inv e' sl' dirty c' /\ (forall cur, r = Ok cur -> cur = c')) /\
  rows (en_Repo e') = rows (en_Repo e) /\ en_Hub e' = en_Hub e /\
  (GRPCReliable c -> is_ok r = true /\
     forall k, k ∉ dirty -> fresh (rows (en_Repo e)) (rows (ls_db sl')) k).
Proof.
  intros Hc Hinv. cbv [mbind go_bind].
  destruct (catch_up c now cursor (e, sl)) as [[e2 sl2] r2] eqn:E2.
  destruct (node_catch_up _ _ _ _ _ _ _ _ _ Hc Hinv E2) as ([c2 Hinv2] & Hrows & Hhub & Hall).
  destruct r2 as [u|err].
  - destruct (node_read _ _ _ _ Hinv2) as (sl3 & E3 & Hinv3 & Ht).
    unfold on_slave, zoom. cbn [fst snd]. rewrite E3. intros [= <- <- <-]. split_and!; try done.
    + exists c2. split; [done|]. by intros ? [= ->].
    + intros Hre. split; [done|]. rewrite Ht. by apply Hall.
  - intros [= <- <- <-]. split_and!; try done; [by exists c2|]. intros Hre. by destruct (Hall Hre).
Qed.

(** The first part of [Subscribe]. *)
Lemma node_begin c now e sl dirty e' sl' r c0 :
  GRPCStream c -> node_inv e sl dirty c0 -> session_begin c now (e, sl) = ((e', sl'), r) ->
  (exists c', node_inv e' sl' dirty c' /\ (forall cursor, r = Ok cursor -> cursor = c')) /\
  rows (en_Repo e') = rows (en_Repo e) /\ en_Hub e' = en_Hub e /\
  (GRPCReliable c -> is_ok r = true /\
     forall k, k ∉ dirty -> fresh (rows (en_Repo e)) (rows (ls_db sl')) k).
Proof.
  intros Hc Hinv. destruct (node_read _ _ _ _ Hinv) as (sl1 & E1 & Hinv1 & _).
  assert (on_slave GetSnapshotRecordID (e, sl) = ((e, sl1), Ok c0)) as E
    by (unfold on_slave, zoom; cbn [snd]; by rewrite E1).
  unfold session_begin. cbv [mbind go_bind]. rewrite E. by apply node_resync.
Qed.

Lemma session_follow_missed c now cursor n s :
  missed cursor n = true ->
  session_follow c now cursor n s = (catch_up c now cursor ≫= fun _ => on_slave GetSnapshotRecordID) s.
Proof.
  intros Hm. unfold session_follow, follow_iter, catch_up. rewrite Hm.
  assert (bool_decide (cn_SnapshotRecordID n <= cursor) = false) as ->.
  { unfold missed in Hm. by destruct (bool_decide (_ <= _)). }
  cbv [mbind go_bind on_slave on_master zoom attempt].
  destruct (call_GetSnapshot _ _ _ _ _ _) as [e' stream]. cbn [snd].
  by destruct (CatchUpSnapshots _ _ _) as [sl' [u|err]].
Qed.

(** An iteration of the loop on a good notice. *)
Lemma node_follow c now cursor n e sl dirty e' sl' r :
  GRPCStream c -> node_inv e sl dirty cursor -> good_notice (rows (en_Repo e)) dirty n ->
  session_follow c now cursor (received_notice n) (e, sl) = ((e', sl'), r) ->
  (exists c', node_inv e' sl' dirty c' /\ (forall cur, r = Ok cur -> cur = c')) /\
  rows (en_Repo e') = rows (en_Repo e) /\ en_Hub e' = en_Hub e.
Proof.
  intros Hc Hinv Hn. destruct (missed cursor (received_notice n)) eqn:Em.
  { rewrite session_follow_missed by done. intros H.
    by destruct (node_resync _ _ _ _ _ _ _ _ _ Hc Hinv H) as (? & ? & ? & _). }
  unfold session_follow, follow_iter. rewrite Em. cbv [mbind go_bind mret go_ret on_slave zoom].
  cbn [fst snd]. unfold missed in Em. destruct (inv_cursor_bound _ _ _ _ (Hinv 0)) as [Hpos Hlt].
  rewrite u64_small in Em by (split; lia). case_bool_decide as Hle; cbn [negb andb] in Em.
  { intros [= <- <- <-]. split_and!; try done. exists cursor. split; [done|]. by intros ? [= ->]. }
  apply bool_decide_eq_false in Em.
  change (cn_SnapshotRecordID (received_notice n)) with (cn_SnapshotRecordID n) in *.
  destruct (ApplyChangelog (Some (received_notice n)) sl) as [sl1 ra] eqn:Ea.
  pose proof (fun sub => inv_apply nodeID sub Hreads Hrel e n sl sl1 ra dirty cursor (Hinv sub) Hn Ea) as Happ.
  destruct (node_inv_collect e sl1 dirty) as [c' Hc'];
    [intros sub; destruct (Happ sub) as (c' & ? & _); by exists c'|].
  assert (cn_SnapshotRecordID n = c') as Hid.
  { destruct (Happ 0) as (c2 & Hc2 & Hnext).
    rewrite <- (node_cursor _ _ _ _ _ Hc' (inv_cursor _ _ _ _ Hc2)). lia. }
  destruct ra as [u|err]; intros [= <- <- <-]; (split_and!; try done); exists c'; (split; [done|]); [|done].
  by intros ? [= <-].
Qed.

(** ** The handlers of open calls *)

(** Every notification in the one hub is in the other. *)
Definition holds_less (h' h : Hub) : Prop :=
  forall sub ch n, hub_chan nodeID sub h' = Some ch -> n ∈ ch_buf ch ->
    exists ch0, hub_chan nodeID sub h = Some ch0 /\ n ∈ ch_buf ch0.

Lemma holds_less_unsubscribe sub h' h : holds_less h' h -> holds_less (Unsubscribe nodeID sub h') h.
Proof. intros H sub' ch n. rewrite hub_chan_unsubscribe. case_decide; [done|]. apply H. Qed.

Lemma holds_less_receive sub h : holds_less (Receive nodeID sub h).1 h.
Proof.
  intros sub' ch n. rewrite hub_chan_receive. case_decide; [|eauto].
  destruct (hub_chan nodeID sub' h) as [ch0|] eqn:E; cbn; [|done]. unfold receive.
  destruct (ch_buf ch0) as [|a buf] eqn:Eb; [intros [= <-]; eauto|].
  intros [= <-] Hn. exists ch0. rewrite Eb. split; [done|]. cbn in Hn. set_solver.
Qed.

Lemma holds_less_subscribe buffer h : holds_less (Hub.Subscribe nodeID buffer h).1 h.
Proof.
  intros sub ch n. pose proof (hub_chan_subscribe nodeID buffer h) as Hnew.
  pose proof (hub_chan_subscribe_ne nodeID sub nodeID buffer h) as Hold.
  destruct (Hub.Subscribe nodeID buffer h) as [h' id]. cbn [fst snd] in *.
  destruct (decide (sub = id)) as [->|Hne].
  - intros E. rewrite Hnew in E. injection E as <-. by intros ?%elem_of_nil.
  - rewrite Hold by congruence. eauto.
Qed.

Lemma node_hub e hub sl dirty c :
  node_inv e sl dirty c -> holds_less hub (en_Hub e) ->
  node_inv (mkEngine (en_NODE_ID e) (en_Repo e) hub) sl dirty c.
Proof. intros H Hless sub. apply inv_hub; [apply H|]. intros ch n. apply Hless. Qed.

Lemma subscribe_iter_hub now Send sub sel e e' i :
  server_Subscribe_iter (server now) Send request sub sel e = (e', i) ->
  (exists h', e' = mkEngine (en_NODE_ID e) (en_Repo e) h' /\ holds_less h' (en_Hub e)) /\
  (forall msg, i = Continue msg ->
     exists ch, hub_chan nodeID sub (en_Hub e) = Some ch /\ msg ∈ ch_buf ch).
Proof.
  unfold server_Subscribe_iter. cbn [mbind option_bind gs_subscribeHandler master_server master_subscribe sh_iter pur_NodeId].
  unfold handleSubscribe_iter.
  assert (holds_less (en_Hub e) (en_Hub e)) as Hrefl by (intros ? ? ?; eauto).
  destruct sel as [err|].
  { intros [= <- <-]. split; [|done]. eexists. split; [done|]. by apply holds_less_unsubscribe. }
  pose proof (holds_less_receive sub (en_Hub e)) as Hless.
  destruct (Receive nodeID sub (en_Hub e)) as [h' [n|]] eqn:Er; cbn [fst] in Hless.
  2: { intros [= <- <-]. split; [|done]. by eexists. }
  destruct (notice_callback Send _) as [err|].
  - intros [= <- <-]. split; [|done]. eexists. split; [done|]. by apply holds_less_unsubscribe.
  - intros [= <- <-]. split; [by eexists|]. intros msg [= <-].
    destruct (receive_buffer nodeID sub Hreads Hrel e h' n Er) as [(ch & Hch & Hn) _]. exists ch. split; [done|].
    by destruct n.
Qed.

(** ** Steps and runs *)

Lemma good_message_same t t' dirty : t' = t -> forall m, good_message t dirty m -> good_message t' dirty m.
Proof. by intros ->. Qed.

Lemma net_inv_step w w' c : net_inv w c -> net_step w w' -> exists c', net_inv w' c'.
Proof.
  intros [Hnode Hwire Hcur] Hstep.
  destruct Hstep as [e e' sl dirty dirty' calls s H|now e e' sub sl dirty calls H
    |sc now e e' sub sl sl' r dirty calls Hc H|now Send sub sel oc e e' i sl dirty calls s Hoc Hst H
    |sc now sub cursor m wire status e e' sl sl' r dirty calls Hc Hoc H|err sub cursor oc e sl dirty calls Hoc He];
    cbn [nt_master nt_slave nt_dirty nt_calls nt_session] in *.
  - exists c. split; cbn; [|intros sub oc Hoc|done].
    + intros sub. eapply inv_master; [apply Hnode|done].
    + eapply Forall_impl; [by eapply Hwire|]. intros m (n & -> & Hn). exists n. split; [done|].
      eapply good_notice_master; try done; apply (Hnode 0).
  - injection H as <- <-. exists c. split; cbn; [|intros sub' oc|done].
    + apply node_hub; [done|]. apply holds_less_subscribe.
    + intros [[_ <-]|[_ Hoc]]%lookup_insert_Some; [constructor|by eapply Hwire].
  - destruct (node_begin _ _ _ _ _ _ _ _ _ Hc Hnode H) as ((c' & Hc' & Hr) & Hrows & _ & _).
    exists c'. split; cbn; [done|rewrite Hrows; apply Hwire|].
    intros sub' cursor. destruct r; cbn; [|done]. intros [= _ <-]. by apply Hr.
  - destruct (subscribe_iter_hub _ _ _ _ _ _ _ H) as ((h' & -> & Hless) & Hmsg).
    exists c. split; cbn; [by apply node_hub| |done]. intros sub' oc'.
    intros [[<- <-]|[_ Hoc']]%lookup_insert_Some; [|by eapply Hwire].
    destruct i as [msg| |r]; cbn; [|by eapply Hwire..].
    apply Forall_app. split; [by eapply Hwire|]. apply Forall_singleton. exists msg. split; [done|].
    destruct (Hmsg msg eq_refl) as (ch & Hch & Hin). by eapply (inv_notices _ _ _ _ (Hnode sub)).
  - pose proof (Hwire _ _ Hoc) as Hw. apply Forall_cons_1 in Hw as [(n & -> & Hn) Hw].
    rewrite (Hcur _ _ eq_refl) in H.
    destruct (node_follow _ _ _ _ _ _ _ _ _ _ Hc Hnode Hn H) as ((c' & Hc' & Hr) & Hrows & _).
    exists c'. split; cbn; [done| |].
    + rewrite Hrows. intros sub' oc' [[_ <-]|[_ Hoc']]%lookup_insert_Some; [done|by eapply Hwire].
    + intros sub' cursor'. destruct r; cbn; [|done]. intros [= _ <-]. by apply Hr.
  - by exists c.
Qed.

(** Empty databases and no subscription. *)
Definition net_initial (w : net) : Prop :=
  rows (en_Repo (nt_master w)) = empty_tables /\ rows (ls_db (nt_slave w)) = empty_slave /\
  fs_denied (ls_fs (nt_slave w)) = ∅ /\ nt_dirty w = ∅ /\
  hub_subscribers (en_Hub (nt_master w)) = ∅ /\ nt_calls w = ∅ /\ nt_session w = Idle.

Lemma net_initial_inv w : net_initial w -> net_inv w 0.
Proof.
  intros (Hm & Hs & Hf & Hd & Hh & Hc & Hse). split.
  - intros sub. apply initial_inv; [done..|]. unfold initial. split_and!; try done. cbn. intros ch. unfold hub_chan. by rewrite Hh.
  - rewrite Hc. intros sub oc. by rewrite lookup_empty.
  - by rewrite Hse.
Qed.

Lemma net_reachable_inv w0 w : net_initial w0 -> rtc net_step w0 w -> exists c, net_inv w c.
Proof.
  intros Hi%net_initial_inv Hr. assert (exists c, net_inv w0 c) as Hinv by eauto. clear Hi.
  induction Hr as [w|w1 w2 w3 Hs Hr IH]; [done|].
  destruct Hinv as [c Hinv]. apply IH. by eapply net_inv_step.
Qed.



End net.

(** ** A concrete run *)

Module NetRun.

#[local] Existing Instances plain_model memory_gorm Run.slave_gorm.

Definition clock : nat -> Time := fun _ => zero_time.
Definition clean : call pb_Snapshot := perfect_call pb_Snapshot.
Definition key1 : string * string := (SnapshotSyncTypeDNSRecord, "d1").

Definition engine (t : Tables) : Engine := mkEngine "master" (memory_db t) NewHub.

(** A record is written and broadcast, the slave subscribes and catches up, the
    record is broadcast again, and the notice reaches the slave. *)
Definition w0 : net := mkNet (engine empty_tables) Run.sample_slave ∅ ∅ Idle.
Definition e1 : Engine := (BoardcastDNSRecord zero_time "d1" (engine Run.written_tables)).1.
Definition dirty1 : gset (string * string) := (∅ ∪ {[key1]}) ∖ {[key1]}.
Definition e2 : Engine := (server_Subscribe_enter (Some (master_server clock None)) (mk_pb_SubscriptionRequest "edge-1") e1).1.
Definition opened : net := mkNet e2 Run.sample_slave dirty1 (<[1 := mkOpenCall [] None]> ∅) (Opened 1).
Definition begun : (Engine * LocalStore) * result Z := session_begin "edge-1" None clean clock (e2, Run.sample_slave).
Definition e3 : Engine := (BoardcastDNSRecord zero_time "d1" begun.1.1).1.
Definition served : Engine * iteration :=
  server_Subscribe_iter (Some (master_server clock None)) (fun _ => None) (mk_pb_SubscriptionRequest "edge-1") 1
    NoticeReady e3.
Definition sent : open_call := serve_call (mkOpenCall [] None) served.2.
Definition notice : pb_ChangeNotification :=
  ChangeNotificationToProto (mkChangeNotification "master" zero_time 2 (Some (sample_dns "d1")) None).
Definition followed : (Engine * LocalStore) * result Z :=
  session_follow "edge-1" None clean clock 1 (ChangeNotificationFromProto notice) (served.1, begun.1.2).
Definition final : net :=
  mkNet followed.1.1 followed.1.2 (dirty1 ∖ {[key1]})
    (<[1 := mkOpenCall [] None]> (<[1 := sent]> (<[1 := mkOpenCall [] None]> ∅))) (Following 1 2).

(** A call and what it returned. *)
Lemma ran {S A} (p : S * A) r : p.2 = r -> p = (p.1, r).
Proof. by destruct p; intros <-. Qed.

Lemma ran2 {S T A} (p : (S * T) * A) r : p.2 = r -> p = ((p.1.1, p.1.2), r).
Proof. by destruct p as [[] ?]; intros <-. Qed.

Lemma w0_initial : net_initial w0.
Proof. by split_and!. Qed.

Lemma w0_opened : rtc (net_step "edge-1" None) w0 opened.
Proof.
  eapply rtc_l; [apply net_master, Run.write_d1|].
  eapply rtc_l; [apply net_master, (step_boardcast_dns zero_time "d1" _ e1 (Ok tt))|].
  - done.
  - apply ran. vm_compute. reflexivity.
  - apply (bool_decide_unpack _). vm_compute. exact I.
  - apply rtc_once. apply (net_subscribe _ _ clock). apply ran. vm_compute. reflexivity.
Qed.

Lemma opened_final : rtc (net_step "edge-1" None) opened final.
Proof.
  eapply rtc_l; [apply (net_begin _ _ clean clock e2 begun.1.1 1 _ begun.1.2 (Ok 1));
    [apply _|apply (ran2 begun); vm_compute; reflexivity]|].
  eapply rtc_l; [apply net_master, (step_boardcast_dns zero_time "d1" _ e3 (Ok tt))|].
  - done.
  - apply ran. vm_compute. reflexivity.
  - apply (bool_decide_unpack _). vm_compute. exact I.
  - eapply rtc_l; [eapply (net_serve _ _ clock (fun _ => None) 1 NoticeReady (mkOpenCall [] None) e3 served.1 served.2)|].
    + apply lookup_insert_eq.
    + done.
    + apply surjective_pairing.
    + apply rtc_once. eapply (net_recv _ _ clean clock 1 1 notice [] None served.1 followed.1.1 _ followed.1.2 (Ok 2)).
      * apply _.
      * rewrite lookup_insert_eq. by vm_compute.
      * apply (ran2 followed). vm_compute. reflexivity.
Qed.



End NetRun.
