(* ===== verification/DnsStore.v ===== *)
(** * The DNS record store: dns/types.go, dns/cache.go

    Records are kept per name and id; an index from questions to the records
    that answer them is rebuilt, question by question, on every change. *)

From Stdlib Require Import Ascii.
From S2P Require Import Prelude GoStrings GoTime Metadata.

Open Scope Z_scope.

(** The tables of github.com/miekg/dns: the number of a type name and back. *)
Class MiekgDNS := {
  StringToType : string -> option Z;
  TypeToString : Z -> string;
  (** type names are written without a bar *)
  type_name_no_bar : forall ty n, StringToType ty = Some n -> "|"%char ∉ bytes ty;
  (** the types the engine renders are in the table *)
  type_names_known : forall ty, ty ∈ ["A"; "AAAA"; "CNAME"; "TXT"; "MX"; "NS"; "SRV"; "CAA"] ->
    is_Some (StringToType ty);
}.

Record DNSQuestion := mkDNSQuestion { q_FQDN : string; q_RecordType : DNSRecordType }.

#[export] Instance DNSQuestion_eq_dec : EqDecision DNSQuestion.
Proof. solve_decision. Defined.

Record DNSAnswerSet := mkDNSAnswerSet {
  as_Question : DNSQuestion;
  as_Found : bool;
  as_Records : list DNSRecord;
}.

Record ChangeEffect := mkChangeEffect {
  ce_FQDN : string;
  ce_RecordType : DNSRecordType;
  ce_Action : string;
  ce_RecordsAffected : Z;
}.

Section dns.
Context {DT : MiekgDNS} {MR : MapRange}.

Definition normalizeFQDN (value : string) : string :=
  let value := TrimSpace (ToLower value) in
  let value := TrimSuffix value "." in
  if bool_decide (value = "") then "" else value +:+ ".".

Definition normalizeRecordType (value : DNSRecordType) : DNSRecordType :=
  let value := ToUpper (TrimSpace value) in
  if bool_decide (value = "") then ""
  else match StringToType value with
       | Some _ => value
       | None => ""
       end.

Definition normalizeQuestion (question : DNSQuestion) : DNSQuestion :=
  mkDNSQuestion (normalizeFQDN (q_FQDN question)) (normalizeRecordType (q_RecordType question)).

Definition dnsCacheKey (question : DNSQuestion) : string :=
  let question := normalizeQuestion question in
  q_FQDN question +:+ "|" +:+ q_RecordType question.

Definition questionFromRecord (record : DNSRecord) : DNSQuestion :=
  mkDNSQuestion (dr_FQDN record) (dr_RecordType record).

(** ** cache.go *)

Record dnsMemoryStore := mkStore {
  byKey : gmap string (list DNSRecord);
  byDomain : gmap string (gmap string DNSRecord);
}.

Definition newDNSMemoryStore : dnsMemoryStore := mkStore ∅ ∅.

Definition answerSetLocked (question : DNSQuestion) (s : dnsMemoryStore) : DNSAnswerSet :=
  let question := normalizeQuestion question in
  match byKey s !! dnsCacheKey question with
  | None => mkDNSAnswerSet question false []
  | Some records => mkDNSAnswerSet question (bool_decide (records <> [])) records
  end.

Definition Lookup (question : DNSQuestion) (s : dnsMemoryStore) : DNSAnswerSet * bool :=
  let question := normalizeQuestion question in
  match byKey s !! dnsCacheKey question with
  | None => (mkDNSAnswerSet question false [], false)
  | Some records => (mkDNSAnswerSet question (bool_decide (records <> [])) records, true)
  end.

(** The three [continue] guards of the rebuild loop. *)
Definition answers_question (question : DNSQuestion) (record : DNSRecord) : bool :=
  dr_Enabled record &&
  bool_decide (normalizeFQDN (dr_FQDN record) = q_FQDN question) &&
  bool_decide (dr_RecordType record = q_RecordType question).

Definition rebuildQuestionLocked (fqdn : string) (recordType : DNSRecordType)
    (s : dnsMemoryStore) : dnsMemoryStore :=
  let question := normalizeQuestion (mkDNSQuestion fqdn recordType) in
  let key := dnsCacheKey question in
  let records :=
    d ← range (byDomain s);
    r ← range d.2;
    if answers_question question r.2 then [r.2] else [] in
  match records with
  | [] => mkStore (delete key (byKey s)) (byDomain s)
  | _ => mkStore (<[key := records]> (byKey s)) (byDomain s)
  end.

Definition with_byDomain (s : dnsMemoryStore) (m : gmap string (gmap string DNSRecord))
    : dnsMemoryStore := mkStore (byKey s) m.

Definition upsertLocked (record : DNSRecord) (s : dnsMemoryStore) : dnsMemoryStore :=
  let record := set_dr_FQDN record (normalizeFQDN (dr_FQDN record)) in
  let s :=
    match byDomain s !! dr_FQDN record with
    | None => with_byDomain s (<[dr_FQDN record := ∅]> (byDomain s))
    | Some domainRecords =>
        match domainRecords !! dr_ID record with
        | None => s
        | Some existing =>
            rebuildQuestionLocked (dr_FQDN existing) (dr_RecordType existing)
              (with_byDomain s (<[dr_FQDN record := delete (dr_ID record) domainRecords]> (byDomain s)))
        end
    end in
  let domainRecords := default ∅ (byDomain s !! dr_FQDN record) in
  rebuildQuestionLocked (dr_FQDN record) (dr_RecordType record)
    (with_byDomain s (<[dr_FQDN record := <[dr_ID record := record]> domainRecords]> (byDomain s))).

Definition Restore (records : list DNSRecord) (s : dnsMemoryStore) : dnsMemoryStore :=
  foldl (fun s record => upsertLocked record s) newDNSMemoryStore records.

Definition Add (record : DNSRecord) (s : dnsMemoryStore) : dnsMemoryStore * DNSAnswerSet :=
  let s := upsertLocked record s in
  (s, answerSetLocked (questionFromRecord record) s).

Definition domain_not_found (domainID : string) : error := Errorf "domain %q not found" [domainID].
Definition record_not_found (recordID : string) : error :=
  Errorf "dns record %q not found" [recordID].

(** [apply] runs on the record after it was taken out; when it fails the record
    stays out. *)
Definition Modify (domainID recordID : string) (apply : DNSRecord -> result DNSRecord)
    : go dnsMemoryStore (DNSRecord * DNSAnswerSet) := fun s =>
  match byDomain s !! domainID with
  | None => (s, Err (domain_not_found domainID))
  | Some domainRecords =>
      match domainRecords !! recordID with
      | None => (s, Err (record_not_found recordID))
      | Some record =>
          let s := rebuildQuestionLocked (dr_FQDN record) (dr_RecordType record)
                     (with_byDomain s (<[domainID := delete recordID domainRecords]> (byDomain s))) in
          match apply record with
          | Err e => (s, Err e)
          | Ok record =>
              let s := upsertLocked record s in
              (s, Ok (record, answerSetLocked (questionFromRecord record) s))
          end
      end
  end.

Definition Delete (domainID recordID : string)
    : go dnsMemoryStore (DNSRecord * DNSAnswerSet) := fun s =>
  match byDomain s !! domainID with
  | None => (s, Err (domain_not_found domainID))
  | Some domainRecords =>
      match domainRecords !! recordID with
      | None => (s, Err (record_not_found recordID))
      | Some record =>
          let domainRecords := delete recordID domainRecords in
          let m := if bool_decide (domainRecords = ∅) then delete domainID (byDomain s)
                   else <[domainID := domainRecords]> (byDomain s) in
          let s := rebuildQuestionLocked (dr_FQDN record) (dr_RecordType record)
                     (with_byDomain s m) in
          (s, Ok (record, answerSetLocked (questionFromRecord record) s))
      end
  end.

Definition RefreshQuestion (question : DNSQuestion) (s : dnsMemoryStore) : dnsMemoryStore :=
  let question := normalizeQuestion question in
  rebuildQuestionLocked (q_FQDN question) (q_RecordType question) s.

Definition Clear (s : dnsMemoryStore) : dnsMemoryStore := newDNSMemoryStore.

(** ** dns-add.go, dns-mod.go, dns-del.go *)

Definition validate_add (record : DNSRecord) : result () :=
  if bool_decide (dr_ID record = "") then Err (errors_New "record id is required")
  else if bool_decide (normalizeFQDN (dr_FQDN record) = "") then Err (errors_New "fqdn is required")
  else if bool_decide (normalizeRecordType (dr_RecordType record) = "")
  then Err (errors_New "record type is required")
  else Ok tt.

Definition change_effect (answerSet : DNSAnswerSet) (action : string) : ChangeEffect :=
  mkChangeEffect (q_FQDN (as_Question answerSet)) (q_RecordType (as_Question answerSet)) action 1.

Definition AddRecord (input : DNSRecord) : go dnsMemoryStore ChangeEffect := fun s =>
  match validate_add input with
  | Err e => (s, Err e)
  | Ok _ =>
      let record := set_dr_FQDN input (normalizeFQDN (dr_FQDN input)) in
      let record := set_dr_RecordType record (normalizeRecordType (dr_RecordType record)) in
      let '(s, answerSet) := Add record s in
      (s, Ok (change_effect answerSet "add"))
  end.

Record ModifyRecordInput := mkModifyRecordInput {
  mi_DomainID : string;
  mi_RecordID : string;
  mi_FQDN : string;
  mi_RecordType : DNSRecordType;
  mi_TTLSeconds : Z;
  mi_ValuesJSON : string;
  mi_Enabled : bool;
}.

Definition validate_modify (i : ModifyRecordInput) : result () :=
  if bool_decide (mi_DomainID i = "") then Err (errors_New "domain id is required")
  else if bool_decide (mi_RecordID i = "") then Err (errors_New "record id is required")
  else if bool_decide (normalizeFQDN (mi_FQDN i) = "") then Err (errors_New "fqdn is required")
  else if bool_decide (normalizeRecordType (mi_RecordType i) = "")
  then Err (errors_New "record type is required")
  else Ok tt.

Definition apply_modify (i : ModifyRecordInput) (r : DNSRecord) : DNSRecord :=
  mkDNSRecord (dr_Shared r) (dr_ID r) (normalizeFQDN (mi_FQDN i))
    (normalizeRecordType (mi_RecordType i)) (dr_RoutingClass r) (mi_TTLSeconds i)
    (mi_ValuesJSON i) (dr_RoutingKey r) (mi_Enabled i).

Definition ModifyRecord (input : ModifyRecordInput) : go dnsMemoryStore ChangeEffect := fun s =>
  match validate_modify input with
  | Err e => (s, Err e)
  | Ok _ =>
      match Modify (mi_DomainID input) (mi_RecordID input)
              (fun record => Ok (apply_modify input record)) s with
      | (s, Err e) => (s, Err e)
      | (s, Ok (_, answerSet)) => (s, Ok (change_effect answerSet "mod"))
      end
  end.

Definition validate_delete (domainID recordID : string) : result () :=
  if bool_decide (domainID = "") then Err (errors_New "domain id is required")
  else if bool_decide (recordID = "") then Err (errors_New "record id is required")
  else Ok tt.

Definition DeleteRecord (domainID recordID : string) : go dnsMemoryStore ChangeEffect := fun s =>
  match validate_delete domainID recordID with
  | Err e => (s, Err e)
  | Ok _ =>
      match Delete domainID recordID s with
      | (s, Err e) => (s, Err e)
      | (s, Ok (_, answerSet)) => (s, Ok (change_effect answerSet "del"))
      end
  end.

End dns.
