(* ===== verification/DnsStoreFacts.v ===== *)
(** * The DNS record store answers questions from the stored records

    The store is compared with a plain map from name and id to record: after
    any sequence of operations, the index built question by question holds, for
    every question, exactly the enabled records of that map with the question's
    name and type. *)

From Stdlib Require Import Ascii.
From S2P Require Import Prelude GoStrings GoTime Metadata DnsStore.

Open Scope Z_scope.

(** ** Normalization *)

Lemma dot_suffix_fixed x : x <> "" -> ToLower x = x -> TrimSpace x = x ->
  TrimSpace (ToLower (x +:+ ".")) = x +:+ ".".
Proof.
  intros Hx Hl Ht. assert (ToLower (x +:+ ".") = x +:+ ".") as ->.
  { apply bytes_inj. unfold ToLower in *. autorewrite with gostr. rewrite fmap_app.
    f_equal. apply (f_equal (fun s => bytes s)) in Hl. by autorewrite with gostr in Hl. }
  apply bytes_inj. unfold TrimSpace in *. autorewrite with gostr. apply trim_func_id.
  apply (f_equal (fun s => bytes s)) in Ht. autorewrite with gostr in Ht.
  pose proof (trim_func_trimmed is_space (bytes x)) as [Hh _]. rewrite Ht in Hh. split.
  - destruct (bytes x) as [|b l] eqn:E; [|exact Hh].
    destruct Hx. apply bytes_inj. by rewrite E.
  - intros a. cbn. rewrite last_snoc. by intros [= <-].
Qed.

Lemma normalizeFQDN_shape v :
  normalizeFQDN v = "" \/
  exists w, w <> "" /\ normalizeFQDN v = w +:+ "." /\ TrimSpace (ToLower (w +:+ ".")) = w +:+ ".".
Proof.
  unfold normalizeFQDN. set (x := TrimSpace (ToLower v)).
  case_bool_decide as Hx; [by left|]. right. exists (TrimSuffix x ".").
  split_and!; [done..|].
  assert (ToLower x = x) as Hl by (unfold x; by rewrite TrimSpace_ToLower, ToLower_idemp).
  assert (TrimSpace x = x) as Ht by (unfold x; by rewrite TrimSpace_idemp).
  destruct (HasSuffix x ".") eqn:Hs.
  - apply HasSuffix_spec in Hs as [w Hw]. rewrite Hw in *. by rewrite TrimSuffix_app, Hl, Ht.
  - rewrite TrimSuffix_none in * by done. by apply dot_suffix_fixed.
Qed.

Lemma normalizeFQDN_idemp v : normalizeFQDN (normalizeFQDN v) = normalizeFQDN v.
Proof.
  destruct (normalizeFQDN_shape v) as [->|(w & Hw & -> & Ht)]; [by vm_compute|].
  unfold normalizeFQDN at 1. rewrite Ht, TrimSuffix_app. by rewrite bool_decide_false.
Qed.

Section dns.
Context {DT : MiekgDNS} {MR : MapRange}.

Lemma normalizeRecordType_idemp v :
  normalizeRecordType (normalizeRecordType v) = normalizeRecordType v.
Proof.
  unfold normalizeRecordType at 2 3. case_bool_decide as He; [by vm_compute|].
  destruct (StringToType (ToUpper (TrimSpace v))) as [n|] eqn:Hn; [|by vm_compute].
  unfold normalizeRecordType. rewrite TrimSpace_ToUpper, TrimSpace_idemp, ToUpper_idemp.
  by rewrite bool_decide_false, Hn.
Qed.

Lemma normalizeRecordType_no_bar v : "|"%char ∉ bytes (normalizeRecordType v).
Proof.
  unfold normalizeRecordType. case_bool_decide; [apply not_elem_of_nil|].
  destruct (StringToType _) as [n|] eqn:Hn; [by eapply type_name_no_bar|apply not_elem_of_nil].
Qed.

Lemma normalizeQuestion_idemp q : normalizeQuestion (normalizeQuestion q) = normalizeQuestion q.
Proof.
  unfold normalizeQuestion. cbn. by rewrite normalizeFQDN_idemp, normalizeRecordType_idemp.
Qed.

(** A normalized question. *)
Definition question_ok (q : DNSQuestion) : Prop := normalizeQuestion q = q.

Lemma split_at_bar (a b a' b' : list ascii) :
  "|"%char ∉ b -> "|"%char ∉ b' -> a ++ "|"%char :: b = a' ++ "|"%char :: b' -> a = a' /\ b = b'.
Proof.
  intros Hb Hb' H. apply (f_equal reverse) in H. rewrite !reverse_app, !reverse_cons in H.
  rewrite <- !(assoc_L (++)) in H. cbn in H.
  assert (forall (x y : list ascii) u v, "|"%char ∉ x -> "|"%char ∉ y ->
    x ++ "|"%char :: u = y ++ "|"%char :: v -> x = y /\ u = v) as Hsplit.
  { clear. induction x as [|c x IH]; intros [|d y] u v Hx Hy E; cbn in E.
    - by injection E.
    - injection E as <- _. destruct Hy. by left.
    - injection E as -> _. destruct Hx. by left.
    - injection E as -> E. rewrite not_elem_of_cons in Hx, Hy.
      destruct (IH y u v) as [-> ->]; naive_solver. }
  apply Hsplit in H as [H1 H2]; [|by rewrite elem_of_reverse..].
  split; [by apply (inj reverse)|by apply (inj reverse)].
Qed.

Lemma dnsCacheKey_inj q q' :
  question_ok q -> question_ok q' -> dnsCacheKey q = dnsCacheKey q' -> q = q'.
Proof.
  unfold question_ok, dnsCacheKey. intros Hq Hq'. rewrite Hq, Hq'. intros H.
  apply (f_equal (fun s => bytes s)) in H. autorewrite with gostr in H. cbn in H.
  assert (forall q, normalizeQuestion q = q -> "|"%char ∉ bytes (q_RecordType q)) as Hb.
  { intros x Hx. rewrite <- Hx. apply normalizeRecordType_no_bar. }
  apply split_at_bar in H as [H1 H2]; [|by apply Hb..].
  apply bytes_inj in H1, H2. destruct q, q'; cbn in *; congruence.
Qed.

(** ** The index *)

(** The record stored under a name and an id. *)
Definition holds (s : dnsMemoryStore) (fqdn id : string) : option DNSRecord :=
  byDomain s !! fqdn ≫= fun d => d !! id.

Definition rows_ok (s : dnsMemoryStore) : Prop :=
  forall fqdn id r, holds s fqdn id = Some r ->
    dr_FQDN r = fqdn /\ dr_ID r = id /\ normalizeFQDN fqdn = fqdn.

(** The records a question must be answered with, in any order. *)
Definition is_answer (s : dnsMemoryStore) (q : DNSQuestion) (l : list DNSRecord) : Prop :=
  NoDup l /\
  forall r, r ∈ l <-> exists fqdn id, holds s fqdn id = Some r /\ answers_question q r = true.

Definition index_at (s : dnsMemoryStore) (q : DNSQuestion) : Prop :=
  is_answer s q (default [] (byKey s !! dnsCacheKey q)) /\ byKey s !! dnsCacheKey q <> Some [].

Record store_wf (s : dnsMemoryStore) : Prop := {
  wf_rows : rows_ok s;
  wf_index : forall q, question_ok q -> index_at s q;
}.

Lemma rebuild_records s q :
  rows_ok s ->
  is_answer s q (d ← range (byDomain s); r ← range d.2; if answers_question q r.2 then [r.2] else []).
Proof.
  intros Hrows. split.
  - apply NoDup_bind.
    + intros [f1 m1] [f2 m2] y H1 H2 Hy1 Hy2. apply elem_of_range in H1, H2.
      apply list_elem_of_bind in Hy1 as ([i1 r1] & Hy1 & E1), Hy2 as ([i2 r2] & Hy2 & E2). cbn in *.
      apply elem_of_range in E1, E2.
      destruct (answers_question q r1), (answers_question q r2); try set_solver.
      apply list_elem_of_singleton in Hy1, Hy2. subst.
      destruct (Hrows f1 i1 r2) as (? & _ & _); [unfold holds; by rewrite H1|].
      destruct (Hrows f2 i2 r2) as (? & _ & _); [unfold holds; by rewrite H2|].
      congruence.
    + intros [f m] H. apply elem_of_range in H. cbn. apply NoDup_bind.
      * intros [i1 r1] [i2 r2] y H1 H2 Hy1 Hy2. apply elem_of_range in H1, H2. cbn in *.
        destruct (answers_question q r1), (answers_question q r2); try set_solver.
        apply list_elem_of_singleton in Hy1, Hy2. subst.
        destruct (Hrows f i1 r2) as (_ & ? & _); [unfold holds; by rewrite H|].
        destruct (Hrows f i2 r2) as (_ & ? & _); [unfold holds; by rewrite H|].
        congruence.
      * intros [i r] _. cbn. destruct (answers_question q r); [apply NoDup_singleton|constructor].
      * eapply NoDup_fmap_1, NoDup_fst_range.
    + eapply NoDup_fmap_1, NoDup_fst_range.
  - intros r. rewrite list_elem_of_bind. split.
    + intros ([f m] & H & Hf). apply elem_of_range in Hf.
      apply list_elem_of_bind in H as ([i r'] & H & Hi). apply elem_of_range in Hi. cbn in *.
      destruct (answers_question q r') eqn:Ha; [|by apply elem_of_nil in H].
      apply list_elem_of_singleton in H. subst. exists f, i. unfold holds. by rewrite Hf.
    + intros (f & i & H & Ha). unfold holds in H.
      destruct (byDomain s !! f) as [m|] eqn:Hf; [|done]. cbn in H.
      exists (f, m). split; [|by apply elem_of_range]. apply list_elem_of_bind. exists (i, r).
      split; [cbn; rewrite Ha; by left|by apply elem_of_range].
Qed.

Lemma rebuild_byDomain fqdn ty s : byDomain (rebuildQuestionLocked fqdn ty s) = byDomain s.
Proof. unfold rebuildQuestionLocked. by destruct (_ ≫= _). Qed.

Lemma rebuild_holds fqdn ty s f i : holds (rebuildQuestionLocked fqdn ty s) f i = holds s f i.
Proof. unfold holds. by rewrite rebuild_byDomain. Qed.

Lemma is_answer_ext s s' q l :
  (forall r, (exists f i, holds s' f i = Some r /\ answers_question q r = true) <->
        (exists f i, holds s f i = Some r /\ answers_question q r = true)) ->
  is_answer s q l -> is_answer s' q l.
Proof. intros He [Hn Hl]. split; [done|]. intros r. by rewrite Hl, He. Qed.

Lemma rebuild_index_same fqdn ty s :
  rows_ok s ->
  index_at (rebuildQuestionLocked fqdn ty s) (normalizeQuestion (mkDNSQuestion fqdn ty)).
Proof.
  intros Hrows. pose proof (rebuild_records s (normalizeQuestion (mkDNSQuestion fqdn ty)) Hrows) as H.
  split.
  - eapply is_answer_ext; [intros; setoid_rewrite rebuild_holds; reflexivity|].
    unfold rebuildQuestionLocked. destruct (_ ≫= _) as [|r l]; cbn -[dnsCacheKey].
    + by rewrite lookup_delete_eq.
    + by rewrite lookup_insert_eq.
  - unfold rebuildQuestionLocked. destruct (_ ≫= _) as [|r l]; cbn -[dnsCacheKey].
    + by rewrite lookup_delete_eq.
    + by rewrite lookup_insert_eq.
Qed.

Lemma rebuild_index_other fqdn ty s q :
  question_ok q -> q <> normalizeQuestion (mkDNSQuestion fqdn ty) ->
  index_at s q -> index_at (rebuildQuestionLocked fqdn ty s) q.
Proof.
  intros Hq Hne [Hi He].
  assert (dnsCacheKey (normalizeQuestion (mkDNSQuestion fqdn ty)) <> dnsCacheKey q) as Hk.
  { intros E. apply Hne. symmetry. apply dnsCacheKey_inj; [apply normalizeQuestion_idemp|done..]. }
  assert (byKey (rebuildQuestionLocked fqdn ty s) !! dnsCacheKey q = byKey s !! dnsCacheKey q) as Hb.
  { unfold rebuildQuestionLocked. destruct (_ ≫= _) as [|r l]; cbn -[dnsCacheKey].
    - by rewrite lookup_delete_ne.
    - by rewrite lookup_insert_ne. }
  split; rewrite Hb; [|done].
  eapply is_answer_ext; [intros; setoid_rewrite rebuild_holds; reflexivity|done].
Qed.

(** A change of the rows that only concerns record [r] is repaired by a rebuild
    of the question [r] answers. *)
Lemma rebuild_repairs s s' r :
  rows_ok s' -> normalizeFQDN (dr_FQDN r) = dr_FQDN r ->
  byKey s' = byKey s ->
  (forall q, question_ok q -> index_at s q) ->
  (forall f i x, x <> r -> holds s' f i = Some x <-> holds s f i = Some x) ->
  store_wf (rebuildQuestionLocked (dr_FQDN r) (dr_RecordType r) s').
Proof.
  intros Hrows Hn Hk Hi Hx. split.
  - intros f i x. rewrite rebuild_holds. apply Hrows.
  - intros q Hq.
    destruct (decide (q = normalizeQuestion (mkDNSQuestion (dr_FQDN r) (dr_RecordType r))))
      as [->|Hne]; [by apply rebuild_index_same|].
    apply rebuild_index_other; [done..|]. destruct (Hi q Hq) as [Ha He].
    split; rewrite Hk; [|done]. eapply is_answer_ext; [|exact Ha].
    assert (answers_question q r = false) as Hr.
    { apply not_true_is_false. unfold answers_question. intros H.
      apply andb_true_iff in H as [H Ht]. apply andb_true_iff in H as [_ Hf].
      apply bool_decide_eq_true in Hf, Ht. apply Hne. unfold question_ok, normalizeQuestion in *.
      cbn. rewrite <- Hq at 1. rewrite <- Ht, <- Hf, normalizeFQDN_idemp. done. }
    intros x. split; intros (f & i & H & Hax); exists f, i; (split; [|done]);
      (destruct (decide (x = r)) as [->|]; [congruence|by apply Hx]).
Qed.

Lemma holds_domain s d m f i :
  holds (with_byDomain s (<[d := m]> (byDomain s))) f i =
  if decide (f = d) then m !! i else holds s f i.
Proof.
  unfold holds. cbn. destruct (decide (f = d)) as [->|]; by rewrite ?lookup_insert_eq, ?lookup_insert_ne.
Qed.

(** The rows after record [r] was put under its own name and id. *)
Definition holds_put (s s' : dnsMemoryStore) (r : DNSRecord) : Prop :=
  forall f i, holds s' f i = if decide (f = dr_FQDN r /\ i = dr_ID r) then Some r else holds s f i.

(** The rows after the entry [(d, id)] was taken out. *)
Definition holds_out (s s' : dnsMemoryStore) (d id : string) : Prop :=
  forall f i, holds s' f i = if decide (f = d /\ i = id) then None else holds s f i.

Lemma take_out s s1 d id r :
  store_wf s -> holds s d id = Some r -> byKey s1 = byKey s -> holds_out s s1 d id ->
  let s' := rebuildQuestionLocked (dr_FQDN r) (dr_RecordType r) s1 in
  store_wf s' /\ holds_out s s' d id.
Proof.
  intros [Hrows Hi] Hr Hk Ho. cbn zeta.
  destruct (Hrows d id r Hr) as (Hd & Hid & Hn). split.
  - apply (rebuild_repairs s); [|congruence|done|done|].
    + intros f i x. rewrite Ho. case_decide; [done|apply Hrows].
    + intros f i x Hx. rewrite Ho. case_decide as Hc; [|done].
      destruct Hc as [-> ->]. rewrite Hr. split; congruence.
  - intros f i. rewrite rebuild_holds. apply Ho.
Qed.

Lemma put_in s r :
  store_wf s -> normalizeFQDN (dr_FQDN r) = dr_FQDN r -> holds s (dr_FQDN r) (dr_ID r) = None ->
  let m := default ∅ (byDomain s !! dr_FQDN r) in
  let s' := rebuildQuestionLocked (dr_FQDN r) (dr_RecordType r)
    (with_byDomain s (<[dr_FQDN r := <[dr_ID r := r]> m]> (byDomain s))) in
  store_wf s' /\ holds_put s s' r.
Proof.
  intros [Hrows Hi] Hn Hfree. cbn zeta.
  set (s1 := with_byDomain s _).
  assert (holds_put s s1 r) as Hp.
  { intros f i. unfold s1. rewrite holds_domain. destruct (decide (f = dr_FQDN r)) as [->|Hne].
    - destruct (decide (i = dr_ID r)) as [->|Hni].
      + rewrite decide_True, lookup_insert_eq by done. done.
      + rewrite decide_False, lookup_insert_ne by naive_solver. unfold holds.
        by destruct (byDomain s !! dr_FQDN r); cbn; rewrite ?lookup_empty.
    - by rewrite decide_False by naive_solver. }
  split.
  - apply (rebuild_repairs s); [|done..|].
    + intros f i x. rewrite Hp. case_decide as Hc; [|apply Hrows].
      intros [= <-]. destruct Hc as [-> ->]. done.
    + intros f i x Hx. rewrite Hp. case_decide as Hc; [|done].
      destruct Hc as [-> ->]. rewrite Hfree. split; congruence.
  - intros f i. rewrite rebuild_holds. apply Hp.
Qed.

Lemma upsert_wf s r :
  store_wf s ->
  let r' := set_dr_FQDN r (normalizeFQDN (dr_FQDN r)) in
  store_wf (upsertLocked r s) /\ holds_put s (upsertLocked r s) r'.
Proof.
  intros Hwf. cbn zeta. set (r' := set_dr_FQDN r (normalizeFQDN (dr_FQDN r))).
  assert (normalizeFQDN (dr_FQDN r') = dr_FQDN r') as Hn by apply normalizeFQDN_idemp.
  unfold upsertLocked. fold r'.
  set (s1 := match byDomain s !! dr_FQDN r' with None => _ | Some _ => _ end).
  assert (store_wf s1 /\ holds_out s s1 (dr_FQDN r') (dr_ID r')) as [Hwf1 Ho].
  { unfold s1. destruct (byDomain s !! dr_FQDN r') as [m|] eqn:Hm.
    - destruct (m !! dr_ID r') as [x|] eqn:Hx.
      + apply take_out; [done|unfold holds; by rewrite Hm|done|].
        intros f i. rewrite holds_domain. destruct (decide (f = dr_FQDN r')) as [->|].
        * destruct (decide (i = dr_ID r')) as [->|].
          -- rewrite decide_True by done. apply lookup_delete_eq.
          -- rewrite decide_False, lookup_delete_ne by naive_solver. unfold holds. by rewrite Hm.
        * by rewrite decide_False by naive_solver.
      + split; [done|]. intros f i. case_decide as Hc; [|done]. destruct Hc as [-> ->].
        unfold holds. by rewrite Hm.
    - assert (forall f i, holds (with_byDomain s (<[dr_FQDN r' := ∅]> (byDomain s))) f i
                     = holds s f i) as He.
      { intros f i. rewrite holds_domain. case_decide as Hc; [|done]. subst f. unfold holds.
        by rewrite Hm, lookup_empty. }
      destruct Hwf as [Hrows Hi]. split; [split|].
      + intros f i x. rewrite He. apply Hrows.
      + intros q Hq. destruct (Hi q Hq) as [Ha Hne]. split; [|done].
        apply (is_answer_ext s); [intros; setoid_rewrite He; reflexivity|done].
      + intros f i. rewrite He. case_decide as Hc; [|done]. destruct Hc as [-> ->].
        unfold holds. by rewrite Hm. }
  destruct (put_in s1 r' Hwf1 Hn) as [Hw2 Hp]; [rewrite Ho; by rewrite decide_True|].
  split; [exact Hw2|]. intros f i. rewrite (Hp f i). case_decide as Hc; [done|].
  rewrite Ho. by rewrite decide_False.
Qed.

(** ** The store as a map from name and id to record *)

Abbreviation catalog := (gmap (string * string) DNSRecord).

Definition refines (s : dnsMemoryStore) (m : catalog) : Prop :=
  store_wf s /\ forall f i, holds s f i = m !! (f, i).

Definition catalog_put (r : DNSRecord) (m : catalog) : catalog :=
  let r := set_dr_FQDN r (normalizeFQDN (dr_FQDN r)) in <[(dr_FQDN r, dr_ID r) := r]> m.

Inductive dns_op :=
  | OpRestore (records : list DNSRecord)
  | OpAdd (input : DNSRecord)
  | OpModify (input : ModifyRecordInput)
  | OpDelete (domainID recordID : string)
  | OpRefresh (question : DNSQuestion)
  | OpClear.

Definition dns_step (s : dnsMemoryStore) (op : dns_op) : dnsMemoryStore :=
  match op with
  | OpRestore records => Restore records s
  | OpAdd input => (AddRecord input s).1
  | OpModify input => (ModifyRecord input s).1
  | OpDelete domainID recordID => (DeleteRecord domainID recordID s).1
  | OpRefresh question => RefreshQuestion question s
  | OpClear => Clear s
  end.

Definition catalog_step (m : catalog) (op : dns_op) : catalog :=
  match op with
  | OpRestore records => foldl (fun m r => catalog_put r m) ∅ records
  | OpAdd input =>
      if is_ok (validate_add input)
      then catalog_put (set_dr_RecordType input (normalizeRecordType (dr_RecordType input))) m
      else m
  | OpModify i =>
      match is_ok (validate_modify i), m !! (mi_DomainID i, mi_RecordID i) with
      | true, Some r => catalog_put (apply_modify i r) (delete (mi_DomainID i, mi_RecordID i) m)
      | _, _ => m
      end
  | OpDelete domainID recordID =>
      if is_ok (validate_delete domainID recordID) then delete (domainID, recordID) m else m
  | OpRefresh _ => m
  | OpClear => ∅
  end.

Lemma refines_new : refines newDNSMemoryStore ∅.
Proof.
  split; [split|].
  - intros f i r H. unfold holds in H. cbn in H. by rewrite lookup_empty in H.
  - intros q _. split; cbn; rewrite lookup_empty; [|done]. split; [constructor|].
    intros r. split; [by intros ?%elem_of_nil|]. intros (f & i & H & _). unfold holds in H.
    cbn in H. by rewrite lookup_empty in H.
  - intros f i. unfold holds. cbn. by rewrite !lookup_empty.
Qed.

Lemma refines_put s m r : refines s m -> refines (upsertLocked r s) (catalog_put r m).
Proof.
  intros [Hwf Hm]. destruct (upsert_wf s r Hwf) as [Hw Hp]. split; [done|]. intros f i.
  unfold catalog_put. rewrite Hp. case_decide as Hc.
  - destruct Hc as [-> ->]. by rewrite lookup_insert_eq.
  - rewrite lookup_insert_ne by naive_solver. apply Hm.
Qed.

Lemma refines_restore records s m :
  refines s m ->
  refines (foldl (fun s r => upsertLocked r s) s records) (foldl (fun m r => catalog_put r m) m records).
Proof.
  revert s m. induction records as [|r records IH]; intros s m H; [done|]. cbn.
  by apply IH, refines_put.
Qed.

Lemma refines_out s s1 m d id r :
  refines s m -> holds s d id = Some r -> byKey s1 = byKey s -> holds_out s s1 d id ->
  refines (rebuildQuestionLocked (dr_FQDN r) (dr_RecordType r) s1) (delete (d, id) m).
Proof.
  intros [Hwf Hm] Hr Hk Ho. destruct (take_out s s1 d id r Hwf Hr Hk Ho) as [Hw Ho'].
  split; [done|]. intros f i. rewrite Ho'. case_decide as Hc.
  - destruct Hc as [-> ->]. by rewrite lookup_delete_eq.
  - rewrite lookup_delete_ne by naive_solver. apply Hm.
Qed.

Lemma holds_out_delete s d id m :
  byDomain s !! d = Some m ->
  holds_out s (with_byDomain s (<[d := delete id m]> (byDomain s))) d id.
Proof.
  intros Hm f i. rewrite holds_domain. destruct (decide (f = d)) as [->|].
  - destruct (decide (i = id)) as [->|].
    + rewrite decide_True by done. apply lookup_delete_eq.
    + rewrite decide_False, lookup_delete_ne by naive_solver. unfold holds. by rewrite Hm.
  - by rewrite decide_False by naive_solver.
Qed.

Lemma holds_out_domain s d id m :
  byDomain s !! d = Some m -> delete id m = ∅ ->
  holds_out s (with_byDomain s (delete d (byDomain s))) d id.
Proof.
  intros Hm He f i. unfold holds. cbn. destruct (decide (f = d)) as [->|].
  - rewrite lookup_delete_eq. cbn. case_decide as Hc; [done|].
    rewrite Hm. cbn. rewrite <- (lookup_delete_ne m id i) by naive_solver.
    by rewrite He, lookup_empty.
  - by rewrite lookup_delete_ne, decide_False by naive_solver.
Qed.

(** [Delete] finds exactly the catalogued records, and takes them out. *)
Lemma refines_Delete s m d id :
  refines s m ->
  refines (Delete d id s).1 (delete (d, id) m) /\
  (is_ok (Delete d id s).2 = true <-> is_Some (m !! (d, id))).
Proof.
  intros Hs. destruct (Hs) as [Hwf Hm]. pose proof (Hm d id) as Hd. unfold holds in Hd.
  unfold Delete. destruct (byDomain s !! d) as [dm|] eqn:Hdm; cbn in Hd.
  - destruct (dm !! id) as [r|] eqn:Hr.
    + rewrite <- Hd. cbn. split; [|naive_solver].
      apply (refines_out s _ m d id r Hs); [unfold holds; by rewrite Hdm|done|].
      case_bool_decide as He; [by eapply holds_out_domain|by apply holds_out_delete].
    + rewrite delete_id by done. rewrite <- Hd. split; [done|].
      cbn. split; [done|intros [? [=]]].
  - rewrite delete_id by done. rewrite <- Hd. split; [done|].
    cbn. split; [done|intros [? [=]]].
Qed.

Lemma refines_Modify s m d id f :
  refines s m ->
  match m !! (d, id) with
  | None => (Modify d id (fun r => Ok (f r)) s).1 = s
  | Some r => refines (Modify d id (fun r => Ok (f r)) s).1 (catalog_put (f r) (delete (d, id) m))
  end.
Proof.
  intros Hs. destruct (Hs) as [Hwf Hm]. pose proof (Hm d id) as Hd. unfold holds in Hd.
  unfold Modify. destruct (byDomain s !! d) as [dm|] eqn:Hdm; cbn in Hd; [|by rewrite <- Hd].
  destruct (dm !! id) as [r|] eqn:Hr; rewrite <- Hd; [|done]. cbn. apply refines_put.
  apply (refines_out s _ m d id r Hs); [unfold holds; by rewrite Hdm|done|].
  by apply holds_out_delete.
Qed.

Lemma refines_refresh s m q : refines s m -> refines (RefreshQuestion q s) m.
Proof.
  intros [[Hrows Hi] Hm]. unfold RefreshQuestion. split; [split|].
  - intros f i r. rewrite rebuild_holds. apply Hrows.
  - intros q' Hq'. match goal with |- context [rebuildQuestionLocked ?f ?t s] =>
      destruct (decide (q' = normalizeQuestion (mkDNSQuestion f t))) as [->|] end.
    + by apply rebuild_index_same.
    + apply rebuild_index_other; auto.
  - intros f i. by rewrite rebuild_holds.
Qed.

Lemma refines_step s m op : refines s m -> refines (dns_step s op) (catalog_step m op).
Proof.
  intros Hs. destruct op as [records|r|i|d id|q|]; cbn -[Modify Delete RefreshQuestion].
  - apply refines_restore, refines_new.
  - unfold AddRecord. destruct (validate_add r); [|done]. cbn.
    pose proof (refines_put s m (set_dr_FQDN (set_dr_RecordType r (normalizeRecordType
      (dr_RecordType r))) (normalizeFQDN (dr_FQDN r))) Hs) as Hp.
    unfold catalog_put in *. cbn in *. rewrite normalizeFQDN_idemp in Hp. exact Hp.
  - unfold ModifyRecord. destruct (validate_modify i); [|done]. cbn -[Modify].
    pose proof (refines_Modify s m (mi_DomainID i) (mi_RecordID i) (apply_modify i) Hs) as H.
    destruct (Modify _ _ _ s) as [s' [[rec ans]|err]]; cbn -[Modify] in *;
      destruct (m !! (mi_DomainID i, mi_RecordID i)); [done|by subst|done|by subst].
  - unfold DeleteRecord. destruct (validate_delete d id); [|done]. cbn -[Delete].
    destruct (refines_Delete s m d id Hs) as [H _].
    by destruct (Delete d id s) as [s' [[rec ans]|err]].
  - by apply refines_refresh.
  - apply refines_new.
Qed.

Lemma refines_run ops s m :
  refines s m -> refines (foldl dns_step s ops) (foldl catalog_step m ops).
Proof.
  revert s m. induction ops as [|op ops IH]; intros s m H; [done|]. by apply IH, refines_step.
Qed.

Lemma lookup_answer s m q :
  refines s m ->
  let a := (Lookup q s).1 in
  as_Question a = normalizeQuestion q /\
  as_Found a = bool_decide (as_Records a <> []) /\
  (Lookup q s).2 = as_Found a /\
  NoDup (as_Records a) /\
  (forall r, r ∈ as_Records a <->
     m !! (dr_FQDN r, dr_ID r) = Some r /\ answers_question (normalizeQuestion q) r = true).
Proof.
  intros [[Hrows Hi] Hm]. cbn zeta.
  destruct (Hi (normalizeQuestion q) (normalizeQuestion_idemp q)) as [[Hnd Hl] Hne].
  unfold Lookup. destruct (byKey s !! dnsCacheKey (normalizeQuestion q)) as [l|] eqn:Hk;
    cbn -[normalizeQuestion] in *.
  - split_and!; try done; [by rewrite bool_decide_true by congruence|]. intros r. rewrite Hl. split.
    + intros (f & i & Hh & Ha). destruct (Hrows f i r Hh) as (-> & -> & _).
      by rewrite <- Hm.
    + intros [Hr Ha]. eexists _, _. by rewrite Hm.
  - split_and!; try done. intros r. rewrite Hl. split.
    + intros (f & i & Hh & Ha). destruct (Hrows f i r Hh) as (-> & -> & _).
      by rewrite <- Hm.
    + intros [Hr Ha]. eexists _, _. by rewrite Hm.
Qed.

(** C12. the store refines a catalog.  After any sequence of restores, additions,
    modifications, deletions and refreshes, in whatever order maps are walked,
    a lookup finds the question's name and type normalized, and its records
    are, each once, exactly the enabled records of the catalog with that name
    and type; the lookup reports a hit exactly when there is one. *)
Theorem dns_store_refines ops q :
  let s := foldl dns_step newDNSMemoryStore ops in
  let m := foldl catalog_step ∅ ops in
  let a := (Lookup q s).1 in
  as_Question a = normalizeQuestion q /\
  as_Found a = bool_decide (as_Records a <> []) /\
  (Lookup q s).2 = as_Found a /\
  NoDup (as_Records a) /\
  (forall r, r ∈ as_Records a <->
     m !! (dr_FQDN r, dr_ID r) = Some r /\ dr_Enabled r = true /\
     dr_FQDN r = normalizeFQDN (q_FQDN q) /\ dr_RecordType r = normalizeRecordType (q_RecordType q)).
Proof.
  cbn zeta. pose proof (refines_run ops _ _ refines_new) as Href.
  destruct (lookup_answer _ _ q Href) as (H1 & H2 & H3 & H4 & H5). split_and!; [done..|].
  intros r. rewrite H5. unfold answers_question. rewrite !andb_true_iff, !bool_decide_eq_true.
  split.
  - intros (Hm & (He & Hf) & Ht). destruct Href as [[Hrows _] Hm'].
    destruct (Hrows (dr_FQDN r) (dr_ID r) r) as (_ & _ & Hn); [by rewrite Hm'|].
    cbn in Hf. rewrite Hn in Hf. done.
  - intros (Hm & He & Hf & Ht). cbn.
    assert (normalizeFQDN (dr_FQDN r) = normalizeFQDN (q_FQDN q)) by (by rewrite Hf, normalizeFQDN_idemp).
    done.
Qed.

(** Deleting.  [DeleteRecord] succeeds exactly on a record in the catalog,
    and then no question is answered with that record until it is added again;
    on failure the store is unchanged. *)
Theorem delete_record ops domainID recordID :
  let s := foldl dns_step newDNSMemoryStore ops in
  let m := foldl catalog_step ∅ ops in
  let '(s', res) := DeleteRecord domainID recordID s in
  (is_ok res = true <->
     domainID <> "" /\ recordID <> "" /\ is_Some (m !! (domainID, recordID))) /\
  (is_ok res = true -> forall q r, r ∈ as_Records (Lookup q s').1 ->
     ~ (dr_FQDN r = domainID /\ dr_ID r = recordID)) /\
  (is_ok res = false -> s' = s).
Proof.
  cbn zeta. pose proof (refines_run ops _ _ refines_new) as Href.
  set (s := foldl dns_step _ ops) in *. set (m := foldl catalog_step _ ops) in *.
  unfold DeleteRecord, validate_delete. case_bool_decide as Hd; [naive_solver|].
  case_bool_decide as Hi; [naive_solver|]. cbn [is_ok].
  destruct (refines_Delete s m domainID recordID Href) as [Hout Hok].
  assert (is_ok (Delete domainID recordID s).2 = false -> (Delete domainID recordID s).1 = s) as Hsame.
  { unfold Delete. destruct (byDomain s !! domainID) as [dm|]; [|done]. by destruct (dm !! recordID). }
  destruct (Delete domainID recordID s) as [s' [[rec ans]|err]]; cbn -[Lookup] in *.
  - split_and!; [naive_solver| |done]. intros _ q x Hx [<- <-].
    destruct (lookup_answer _ _ q Hout) as (_ & _ & _ & _ & H). apply H in Hx as [Hx _].
    by rewrite lookup_delete_eq in Hx.
  - split_and!; [naive_solver|done|by intros; apply Hsame].
Qed.

End dns.

(** ** A run *)

Module DnsRun.

Definition type_table : list (string * Z) :=
  [("A", 1); ("NS", 2); ("CNAME", 5); ("MX", 15); ("TXT", 16); ("AAAA", 28); ("SRV", 33); ("CAA", 257)].

Definition type_number (ty : string) : option Z :=
  snd <$> find (fun kv => bool_decide (kv.1 = ty)) type_table.

Definition type_name (n : Z) : string :=
  default "" (fst <$> find (fun kv => bool_decide (kv.2 = n)) type_table).

#[program] Definition sample_types : MiekgDNS :=
  {| StringToType := type_number; TypeToString := type_name |}.
Next Obligation.
  intros ty n H. unfold type_number in H.
  destruct (find _ type_table) as [[k v]|] eqn:E; [|done].
  apply find_some in E as [Hin Hk]. apply bool_decide_eq_true in Hk. cbn in Hk. subst k.
  assert (Forall (fun kv => "|"%char ∉ bytes kv.1) type_table) as Hall
    by (apply (bool_decide_unpack _); vm_compute; exact I).
  rewrite List.Forall_forall in Hall. by apply (Hall (ty, v)).
Qed.
Next Obligation.
  intros ty H. repeat (apply elem_of_cons in H as [->|H]; [by vm_compute; eauto|]).
  by apply elem_of_nil in H.
Qed.

Definition a_record (fqdn id : string) (enabled : bool) : DNSRecord :=
  mkDNSRecord zero_Shared id fqdn "a" RoutingClassFirst 60 "10.0.0.1" "" enabled.

Definition sample_ops : list dns_op :=
  [OpAdd (a_record " WWW.Example.com" "r1" true); OpAdd (a_record "www.example.com." "r2" true);
   OpAdd (a_record "www.example.com." "r3" false); OpDelete "www.example.com." "r1"].

Lemma dns_store_refines_witness :
  let s := foldl (dns_step (DT:=sample_types) (MR:=canonical_range)) newDNSMemoryStore sample_ops in
  let a := (Lookup (DT:=sample_types) (mkDNSQuestion "WWW.example.com" "A") s).1 in
  (dr_ID <$> as_Records a) = ["r2"] /\ NoDup (as_Records a).
Proof.
  split; [by vm_compute|].
  apply (dns_store_refines (DT:=sample_types) (MR:=canonical_range) sample_ops
    (mkDNSQuestion "WWW.example.com" "A")).
Defined.

Lemma delete_record_witness :
  let s := foldl (dns_step (DT:=sample_types) (MR:=canonical_range)) newDNSMemoryStore sample_ops in
  is_ok (DeleteRecord (DT:=sample_types) (MR:=canonical_range) "www.example.com." "r2" s).2 = true /\
  (is_ok (DeleteRecord (DT:=sample_types) (MR:=canonical_range) "www.example.com" "r2" s).2 = false ->
   (DeleteRecord (DT:=sample_types) (MR:=canonical_range) "www.example.com" "r2" s).1 = s).
Proof.
  split; [by vm_compute|].
  pose proof (delete_record (DT:=sample_types) (MR:=canonical_range) sample_ops
    "www.example.com" "r2") as H. cbn zeta in H.
  destruct (DeleteRecord _ _ _) as [s' res]. destruct H as (_ & _ & H). exact H.
Defined.

End DnsRun.
