(* ===== verification/GoNet.v ===== *)
(** * The parts of Go's [net] package the program uses: net.IP

    An [IP] is its bytes, four or sixteen of them, as Go's [net.IP] slices;
    [ParseIP] returns the sixteen-byte form.  [nil] is [None]. *)

From Stdlib Require Import Ascii.
From S2P Require Import Prelude GoStrings.

Open Scope Z_scope.

Abbreviation IP := (list Z).

Definition v4_prefix : list Z := [0; 0; 0; 0; 0; 0; 0; 0; 0; 0; 255; 255].

Definition IPv4 (q : list Z) : IP := v4_prefix ++ q.

(** [IP.To4] *)
Definition To4 (ip : IP) : option IP :=
  if bool_decide (length ip = 4%nat) then Some ip
  else if bool_decide (length ip = 16%nat) && bool_decide (take 12 ip = v4_prefix)
  then Some (drop 12 ip)
  else None.

(** ** Parsing *)

(** One decimal field: digits, no leading zero, at most 255. *)
Definition dec_octet (l : list ascii) : option Z :=
  match l with
  | "0"%char :: _ :: _ => None
  | _ => digits_value l ≫= fun n => if bool_decide (n <= 255) then Some n else None
  end.

Definition v4_fields (l : list ascii) : option (list Z) :=
  match split_bytes "."%char l with
  | [a; b; c; d] =>
      a ← dec_octet a; b ← dec_octet b; c ← dec_octet c; d ← dec_octet d; Some [a; b; c; d]
  | _ => None
  end.

Definition hex_val (c : ascii) : option Z :=
  let n := Z.of_nat (nat_of_ascii c) in
  if is_digit c then Some (n - 48)
  else if bool_decide (97 <= n <= 102) then Some (n - 87)
  else if bool_decide (65 <= n <= 70) then Some (n - 55)
  else None.

(** The longest run of hexadecimal digits, and what follows it. *)
Fixpoint hex_run (l : list ascii) : list Z * list ascii :=
  match l with
  | [] => ([], [])
  | c :: l' =>
      match hex_val c with
      | None => ([], l)
      | Some v => let '(vs, rest) := hex_run l' in (v :: vs, rest)
      end
  end.

Definition hex_group (vs : list Z) : Z := foldl (fun acc v => 16 * acc + v) 0 vs.

(** The loop over the groups of an IPv6 address; [groups] is the number of
    groups still to fill, [ell] the position of the ellipsis. *)
Fixpoint v6_loop (groups : nat) (s : list ascii) (ip : list Z) (ell : option nat)
    : option (list Z * option nat * list ascii) :=
  match groups with
  | O => Some (ip, ell, s)
  | S groups =>
      let '(vs, rest) := hex_run s in
      let ip' := ip ++ [hex_group vs / 256; hex_group vs mod 256] in
      if bool_decide (length vs = 0%nat) || bool_decide (4 < length vs)%nat then None
      else
        match rest with
        | [] => Some (ip', ell, [])
        | c :: rest =>
            if bool_decide (c = "."%char) then
              if bool_decide (ell = None) && bool_decide (length ip <> 12%nat) then None
              else if bool_decide (16 < length ip + 4)%nat then None
              else q ← v4_fields s; Some (ip ++ q, ell, [])
            else if bool_decide (c = ":"%char) then
              match rest with
              | [] => None
              | c :: rest' =>
                  if bool_decide (c = ":"%char) then
                    if bool_decide (ell = None) then
                      match rest' with
                      | [] => Some (ip', Some (length ip'), [])
                      | _ => v6_loop groups rest' ip' (Some (length ip'))
                      end
                    else None
                  else v6_loop groups rest ip' ell
              end
            else None
        end
  end.

Definition v6_expand (ip : list Z) (ell : option nat) : option (list Z) :=
  match ell with
  | None => if bool_decide (length ip = 16%nat) then Some ip else None
  | Some e =>
      if bool_decide (length ip = 16%nat) then None
      else Some (take e ip ++ replicate (16 - length ip) 0 ++ drop e ip)
  end.

Definition parse_v6 (l : list ascii) : option (list Z) :=
  let run s ell :=
    '(ip, ell, rest) ← v6_loop 8 s [] ell;
    if bool_decide (rest = []) then v6_expand ip ell else None in
  match l with
  | ":"%char :: ":"%char :: l' =>
      match l' with [] => Some (replicate 16 0) | _ => run l' (Some 0%nat) end
  | _ => run l None
  end.

(** The first of [.], [:] and [%] decides what is parsed; zones are refused. *)
Fixpoint ip_kind (l : list ascii) : option ascii :=
  match l with
  | [] => None
  | c :: l => if bool_decide (c ∈ ["."; ":"; "%"]%char) then Some c else ip_kind l
  end.

Definition ParseIP (s : string) : option IP :=
  let l := bytes s in
  match ip_kind l with
  | Some "."%char => IPv4 <$> v4_fields l
  | Some ":"%char => if bool_decide ("%"%char ∈ l) then None else parse_v6 l
  | _ => None
  end.

(** ** Printing *)

Definition v4_string (q : list Z) : string := Join (Itoa <$> q) ".".

Definition hex_char (v : Z) : ascii :=
  ascii_of_nat (Z.to_nat (if bool_decide (v < 10) then v + 48 else v + 87)).

(** Hexadecimal without leading zeros. *)
Definition hex_string (g : Z) : list ascii :=
  let ds := [g / 4096; g / 256 mod 16; g / 16 mod 16; g mod 16] in
  hex_char <$> (match drop_while (fun d => bool_decide (d = 0)) ds with [] => [0] | ds => ds end).

Fixpoint v6_groups (ip : list Z) : list Z :=
  match ip with
  | hi :: lo :: ip => 256 * hi + lo :: v6_groups ip
  | _ => []
  end.

Definition zero_run (gs : list Z) : nat :=
  length gs - length (drop_while (fun g => bool_decide (g = 0)) gs).

(** The first longest run of at least two zero groups: its start and length. *)
Fixpoint longest_run (i : nat) (gs : list Z) (best : nat * nat) : nat * nat :=
  match gs with
  | [] => best
  | _ :: gs' =>
      let l := zero_run gs in
      longest_run (S i) gs' (if bool_decide (2 <= l)%nat && bool_decide (best.2 < l)%nat
                             then (i, l) else best)
  end.

Definition v6_string (ip : list Z) : string :=
  let gs := v6_groups ip in
  let '(start, l) := longest_run 0 gs (0%nat, 0%nat) in
  let text gs := join_bytes [":"%char] (hex_string <$> gs) in
  of_bytes (if bool_decide (l = 0%nat) then text gs
            else text (take start gs) ++ [":"; ":"]%char ++ text (drop (start + l) gs)).

Definition hex_byte (b : Z) : list ascii := [hex_char (b / 16); hex_char (b mod 16)].

(** [IP.String] *)
Definition IP_String (ip : IP) : string :=
  match To4 ip with
  | Some q => v4_string q
  | None =>
      match ip with
      | [] => "<nil>"
      | _ => if bool_decide (length ip = 16%nat) then v6_string ip
             else of_bytes ("?"%char :: (ip ≫= hex_byte))
      end
  end.

Example parse_v4_full : ParseIP "10.0.0.1" = Some (IPv4 [10; 0; 0; 1]).
Proof. vm_compute. reflexivity. Qed.
Example parse_v4_zero : ParseIP "10.0.00.1" = None.
Proof. vm_compute. reflexivity. Qed.
Example parse_v6_ellipsis :
  ParseIP "2001:db8::1" = Some [32; 1; 13; 184; 0; 0; 0; 0; 0; 0; 0; 0; 0; 0; 0; 1].
Proof. vm_compute. reflexivity. Qed.
Example parse_v6_mapped : ParseIP "::ffff:10.0.0.1" = Some (IPv4 [10; 0; 0; 1]).
Proof. vm_compute. reflexivity. Qed.
Example print_v6_compressed :
  IP_String [32; 1; 13; 184; 0; 0; 0; 0; 0; 0; 0; 0; 0; 0; 0; 1] = "2001:db8::1".
Proof. vm_compute. reflexivity. Qed.

(** ** The decimal form reads back *)

Definition octet (n : Z) : Prop := 0 <= n <= 255.

Lemma octet_text n : octet n ->
  dec_octet (bytes (Itoa n)) = Some n /\ Forall (fun c => is_digit c = true) (bytes (Itoa n)).
Proof.
  intros [H1 H2].
  assert (forall k, (k <= 255)%nat ->
    bool_decide (dec_octet (bytes (Itoa (Z.of_nat k))) = Some (Z.of_nat k) /\
      Forall (fun c => is_digit c = true) (bytes (Itoa (Z.of_nat k)))) = true) as H.
  { intros k Hk.
    assert (forallb (fun k => bool_decide (dec_octet (bytes (Itoa (Z.of_nat k))) = Some (Z.of_nat k) /\
      Forall (fun c => is_digit c = true) (bytes (Itoa (Z.of_nat k))))) (seq 0 256) = true) as Hall
      by (vm_compute; reflexivity).
    rewrite forallb_forall in Hall. apply Hall. apply in_seq. lia. }
  specialize (H (Z.to_nat n)). rewrite Z2Nat.id in H by lia.
  apply bool_decide_eq_true in H; [done|]. lia.
Qed.

Lemma digits_no_char c l :
  is_digit c = false -> Forall (fun c => is_digit c = true) l -> c ∉ l.
Proof. intros Hc Hl Hin. rewrite Forall_forall in Hl. rewrite Hl in Hc; done. Qed.

Lemma ip_kind_digits l l' :
  Forall (fun c => is_digit c = true) l -> ip_kind (l ++ "."%char :: l') = Some "."%char.
Proof.
  induction 1 as [|c l Hc Hl IH]; [done|]. cbn. rewrite bool_decide_false; [done|].
  intros H. repeat (apply elem_of_cons in H as [->|H]; [done|]). by apply elem_of_nil in H.
Qed.

Lemma ParseIP_v4_string q :
  length q = 4%nat -> Forall octet q -> ParseIP (v4_string q) = Some (IPv4 q).
Proof.
  intros Hl Hq. destruct q as [|a [|b [|c [|d [|]]]]]; try done.
  apply Forall_cons in Hq as [Ha Hq]. apply Forall_cons in Hq as [Hb Hq].
  apply Forall_cons in Hq as [Hc Hq]. apply Forall_cons in Hq as [Hd _].
  apply octet_text in Ha as [Ha Ha'], Hb as [Hb Hb'], Hc as [Hc Hc'], Hd as [Hd Hd'].
  unfold ParseIP, v4_string, Join. rewrite bytes_of_bytes.
  set (ws := (fun w => bytes w) <$> (Itoa <$> [a; b; c; d])).
  assert (split_bytes "."%char (join_bytes (bytes ".") ws) = ws) as Hs.
  { apply split_join_bytes; [done|]. unfold ws. cbn. repeat (constructor; [by apply digits_no_char|]).
    constructor. }
  assert (ip_kind (join_bytes (bytes ".") ws) = Some "."%char) as ->.
  { unfold ws. cbn -[Itoa ip_kind]. by apply ip_kind_digits. }
  unfold v4_fields. rewrite Hs. unfold ws. cbn -[Itoa dec_octet IPv4].
  by rewrite Ha, Hb, Hc, Hd.
Qed.
