(* ===== verification/GoURL.v ===== *)
(** * The parts of Go's net/url the program uses

    Percent decoding, query strings, and what becomes of the target of a
    request between a client and a server. *)

From Stdlib Require Import Ascii.
From S2P Require Import Prelude GoStrings GoNet.

Open Scope Z_scope.

(** The parts of a parsed URL the program looks at. *)
Record URL := mkURL { u_Scheme : string; u_Host : string; u_Path : string; u_RawQuery : string }.

(** [unescape]: in a query [+] stands for a space. *)
Fixpoint unescape (plus : bool) (l : list ascii) : option (list ascii) :=
  match l with
  | [] => Some []
  | c :: l =>
      if bool_decide (c = "%"%char) then
        match l with
        | h1 :: h2 :: l =>
            v1 ← hex_val h1; v2 ← hex_val h2; rest ← unescape plus l;
            Some (ascii_of_nat (Z.to_nat (16 * v1 + v2)) :: rest)
        | _ => None
        end
      else rest ← unescape plus l;
           Some ((if plus && bool_decide (c = "+"%char) then " "%char else c) :: rest)
  end.

Definition QueryUnescape (s : string) : option string := (fun l => of_bytes l) <$> unescape true (bytes s).

(** [strings.Cut] at a byte. *)
Fixpoint cut_bytes (sep : ascii) (l : list ascii) : list ascii * list ascii :=
  match l with
  | [] => ([], [])
  | c :: l => if bool_decide (c = sep) then ([], l)
              else let '(before, after) := cut_bytes sep l in (c :: before, after)
  end.
Definition Cut (s : string) (sep : ascii) : string * string :=
  let '(before, after) := cut_bytes sep (bytes s) in (of_bytes before, of_bytes after).

(** [ParseQuery]: the pairs in order; a piece with a semicolon, or one that
    does not decode, is left out. *)
Definition query_pair (piece : string) : option (string * string) :=
  if bool_decide (piece = "") || ContainsAny piece ";" then None
  else let '(key, value) := Cut piece "="%char in
       key ← QueryUnescape key; value ← QueryUnescape value; Some (key, value).
Definition ParseQuery (query : string) : list (string * string) := omap query_pair (Split query "&"%char).

(** [Values.Get] *)
Definition query_Get (values : list (string * string)) (key : string) : string :=
  match list_find (fun kv => kv.1 = key) values with Some (_, kv) => kv.2 | None => "" end.

(** A control byte. *)
Definition is_control (c : ascii) : bool :=
  bool_decide (nat_of_ascii c < 32)%nat || bool_decide (nat_of_ascii c = 127%nat).

(** Whether [url.Parse] accepts what follows the host: no control byte, and a
    fragment that decodes. *)
Definition url_target_ok (target : string) : bool :=
  negb (existsb is_control (bytes target)) &&
  bool_decide (is_Some (unescape false (cut_bytes "#"%char (bytes target)).2)).

(** The path and the query a server is sent: the fragment stays behind. *)
Definition split_target (target : string) : string * string :=
  let '(before, _) := Cut target "#"%char in Cut before "?"%char.

(** ** Targets made of safe bytes *)

(** Bytes that mean themselves in the value of a query. *)
Definition query_safe_char (c : ascii) : bool :=
  negb (in_cutset "%+&;#= " c) && negb (is_control c).
Definition query_safe (s : string) : bool := forallb query_safe_char (bytes s).

Lemma query_safe_spec s c :
  query_safe s = true -> c ∈ bytes s -> c ∉ bytes "%+&;#= " /\ is_control c = false.
Proof.
  unfold query_safe. rewrite forallb_Forall, Forall_forall. intros H Hc. specialize (H c Hc).
  unfold query_safe_char in H. apply andb_true_iff in H as [H1 H2].
  apply negb_true_iff in H1, H2. split; [|done]. intros Hin. apply in_cutset_spec in Hin. congruence.
Qed.

Lemma unescape_id plus l : "%"%char ∉ l -> "+"%char ∉ l -> unescape plus l = Some l.
Proof.
  induction l as [|c l IH]; intros H1 H2; [done|]. cbn.
  rewrite bool_decide_false by (intros ->; set_solver). rewrite IH by set_solver. cbn.
  rewrite (bool_decide_false (c = "+"%char)) by (intros ->; set_solver). by rewrite andb_false_r.
Qed.

Lemma QueryUnescape_safe s : query_safe s = true -> QueryUnescape s = Some s.
Proof.
  intros H. unfold QueryUnescape. rewrite unescape_id; [cbn; by rewrite of_bytes_bytes|..];
    intros Hc; destruct (query_safe_spec s _ H Hc) as [Hn _]; apply Hn; cbn; set_solver.
Qed.

Lemma cut_bytes_app sep l k : sep ∉ l -> cut_bytes sep (l ++ sep :: k) = (l, k).
Proof.
  induction l as [|c l IH]; cbn; intros H; [by rewrite bool_decide_true|].
  rewrite bool_decide_false by (intros ->; set_solver). by rewrite IH by set_solver.
Qed.

Lemma cut_bytes_none sep l : sep ∉ l -> cut_bytes sep l = (l, []).
Proof.
  induction l as [|c l IH]; cbn; intros H; [done|].
  rewrite bool_decide_false by (intros ->; set_solver). by rewrite IH by set_solver.
Qed.

Lemma Cut_app s sep t :
  sep ∉ bytes s -> Cut (s +:+ String sep t) sep = (s, t).
Proof.
  intros H. unfold Cut. rewrite bytes_app. change (bytes (String sep t)) with (sep :: bytes t).
  rewrite cut_bytes_app by done. by rewrite !of_bytes_bytes.
Qed.

Lemma Cut_none s sep : sep ∉ bytes s -> Cut s sep = (s, "").
Proof. intros H. unfold Cut. rewrite cut_bytes_none by done. by rewrite of_bytes_bytes. Qed.

(** The piece [key=value] of a query. *)
Lemma query_pair_safe key value :
  query_safe key = true -> query_safe value = true -> key <> "" ->
  query_pair (key +:+ "=" +:+ value) = Some (key, value).
Proof.
  intros Hk Hv Hne. unfold query_pair.
  rewrite bool_decide_false. 2: { destruct key; [done|]. intros [=]. }
  assert (ContainsAny (key +:+ "=" +:+ value) ";" = false) as ->.
  { unfold ContainsAny. apply not_true_iff_false. rewrite existsb_exists. intros (c & Hc & Hin).
    apply in_cutset_spec in Hin. apply list_elem_of_In in Hc. cbn in Hin. rewrite !bytes_app in Hc.
    apply list_elem_of_singleton in Hin as ->. rewrite !elem_of_app in Hc. destruct Hc as [Hc|[Hc|Hc]].
    - destruct (query_safe_spec _ _ Hk Hc) as [H _]. apply H. cbn. set_solver.
    - cbn in Hc. set_solver.
    - destruct (query_safe_spec _ _ Hv Hc) as [H _]. apply H. cbn. set_solver. }
  cbn [orb]. change ("=" +:+ value) with (String "="%char value). rewrite (Cut_app key "="%char value).
  2: { intros Hc. destruct (query_safe_spec _ _ Hk Hc) as [H _]. apply H. cbn. set_solver. }
  by rewrite !QueryUnescape_safe.
Qed.
