(* ===== verification/K8sObjects.v ===== *)
(** * Kubernetes objects

    What the bridges use of k8s.io/apimachinery: [unstructured.Unstructured]
    with its nested accessors, and the typed Ingress and Service objects, of
    which only the fields the program reads are kept. *)

From S2P Require Import Prelude.

Open Scope Z_scope.

(** A [map[string]interface{}] and the accessors on it.  An accessor gives
    [None], or no elements, when the field is missing or has another type; an
    element of a slice that is not itself a map is [None]. *)
Class Unstructured := {
  k8s_map : Type;
  k8s_obj : Type;
  Object : k8s_obj -> k8s_map;
  GetNamespace : k8s_obj -> string;
  GetName : k8s_obj -> string;
  GetGeneration : k8s_obj -> Z;
  GetResourceVersion : k8s_obj -> string;
  NestedString : k8s_map -> list string -> option string;
  NestedSlice : k8s_map -> list string -> list (option k8s_map);
  NestedStringSlice : k8s_map -> list string -> list string;
  NestedInt64 : k8s_map -> list string -> option Z;
}.

(** The value of an accessor whose [found] result is dropped. *)
Definition nested_string `{Unstructured} (m : k8s_map) (fields : list string) : string :=
  default "" (NestedString m fields).
Definition nested_int64 `{Unstructured} (m : k8s_map) (fields : list string) : Z :=
  default 0 (NestedInt64 m fields).

(** networking/v1 Ingress *)

Record IngressServiceBackend := mkIngressServiceBackend {
  isb_Name : string;
  isb_PortName : string;
  isb_PortNumber : Z;
}.

Record HTTPIngressPath := mkHTTPIngressPath {
  hip_Path : string;
  hip_PathType : option string;
  hip_Service : option IngressServiceBackend;
  (** the whole path object as [json.Marshal] writes it *)
  hip_JSON : string;
}.

Record IngressRule := mkIngressRule {
  ir_Host : string;
  ir_HTTP : option (list HTTPIngressPath);
}.

Record Ingress := mkIngress {
  ing_Namespace : string;
  ing_Name : string;
  ing_Generation : Z;
  ing_Annotations : option (gmap string string);
  ing_IngressClassName : option string;
  ing_Rules : list IngressRule;
  (** the hosts of each entry of [Spec.TLS] *)
  ing_TLS : list (list string);
}.

Definition PathTypeExact : string := "Exact".

(** core/v1 Service *)

Record Service := mkService {
  svc_Namespace : string;
  svc_Name : string;
  svc_Type : string;
  svc_ExternalName : string;
}.

Definition ServiceTypeExternalName : string := "ExternalName".

(** What an informer hands to its callbacks: an object, the tombstone of a
    deleted one with the namespace and name it had if these are known, or a
    value of another type. *)
Inductive informer_object `{Unstructured} :=
  | ObjIngress (ing : Ingress)
  | ObjService (svc : Service)
  | ObjUnstructured (obj : k8s_obj)
  | ObjDeletedFinalStateUnknown (meta : option (string * string))
  | ObjOther.

(** ** Objects as trees

    The accessors on decoded JSON, as the documentation of the package
    describes them: an instance of [Unstructured] for concrete objects. *)

Inductive tree :=
  | TString (s : string)
  | TInt (n : Z)
  | TList (l : list tree)
  | TMap (fields : list (string * tree)).

Fixpoint tree_field (fields : list string) (t : tree) : option tree :=
  match fields with
  | [] => Some t
  | f :: fields =>
      match t with
      | TMap kvs => kv ← list_find (fun kv => kv.1 = f) kvs; tree_field fields kv.2.2
      | _ => None
      end
  end.

Definition tree_string (t : tree) (fields : list string) : option string :=
  match tree_field fields t with Some (TString s) => Some s | _ => None end.

Definition tree_objects : Unstructured := {|
  k8s_map := tree;
  k8s_obj := tree;
  Object := fun t => t;
  GetNamespace := fun t => default "" (tree_string t ["metadata"; "namespace"]);
  GetName := fun t => default "" (tree_string t ["metadata"; "name"]);
  GetGeneration := fun t =>
    match tree_field ["metadata"; "generation"] t with Some (TInt n) => n | _ => 0 end;
  GetResourceVersion := fun t => default "" (tree_string t ["metadata"; "resourceVersion"]);
  NestedString := tree_string;
  NestedSlice := fun t fields =>
    match tree_field fields t with
    | Some (TList l) => (fun e => match e with TMap _ => Some e | _ => None end) <$> l
    | _ => []
    end;
  NestedStringSlice := fun t fields =>
    match tree_field fields t with
    | Some (TList l) =>
        default [] (mapM (fun e => match e with TString s => Some s | _ => None end) l)
    | _ => []
    end;
  NestedInt64 := fun t fields =>
    match tree_field fields t with Some (TInt n) => Some n | _ => None end
|}.
