(* ===== verification/DnsEngine.v ===== *)
(** * The DNS engine: dns/engine.go, dns/resolve.go, dns/forward.go, dns/k8s_bridge.go, dns/geoip.go

    Answering queries from the cluster's records, the record store and an
    upstream server, rendering records as resource records, and keeping the
    store in step with its two sources of records. *)

From Stdlib Require Import Ascii.
From S2P Require Import Prelude GoStrings GoTime Metadata DnsStore GoNet K8sObjects.

Open Scope Z_scope.

(** ** Messages of github.com/miekg/dns *)

Inductive rdata :=
  | RR_A (A : IP)
  | RR_AAAA (AAAA : IP)
  | RR_CNAME (Target : string)
  | RR_TXT (Txt : list string)
  | RR_NS (Ns : string)
  | RR_MX (Preference : Z) (Mx : string)
  | RR_SRV (Priority Weight Port : Z) (Target : string)
  | RR_CAA (Flag : Z) (Tag Value : string)
  | RR_other.

Record RR := mkRR {
  rr_Name : string;
  rr_Rrtype : Z;
  rr_Class : Z;
  rr_Ttl : Z;
  rr_data : rdata;
}.

#[export] Instance rdata_eq_dec : EqDecision rdata.
Proof. solve_decision. Defined.
#[export] Instance RR_eq_dec : EqDecision RR.
Proof. solve_decision. Defined.

Definition ClassINET : Z := 1.
Definition RcodeSuccess : Z := 0.
Definition RcodeServerFailure : Z := 2.
Definition RcodeNameError : Z := 3.

Record Question := mkQuestion { q_Name : string; q_Qtype : Z }.

Record Msg := mkMsg {
  m_Id : Z;
  m_Response : bool;
  m_RecursionDesired : bool;
  m_Rcode : Z;
  m_Question : list Question;
  m_Answer : list RR;
  m_Ns : list RR;
  m_Extra : list RR;
}.

Definition set_answer (m : Msg) (rcode : Z) (answer : list RR) : Msg :=
  mkMsg (m_Id m) (m_Response m) (m_RecursionDesired m) rcode (m_Question m) answer (m_Ns m) (m_Extra m).

(** [Msg.SetReply], [Msg.SetQuestion] and [Client.ExchangeContext].  The last
    one gives [None] on an error, [Some None] on a nil response. *)
Class MiekgMsg := {
  SetReply : Msg -> Msg;
  SetQuestion : string -> Z -> Msg;
  ExchangeContext : Msg -> string -> option (option Msg);
  (** a reply starts as a successful response without answers *)
  SetReply_fresh : forall req, m_Answer (SetReply req) = [] /\ m_Rcode (SetReply req) = RcodeSuccess;
}.

(** ** splitValues *)

Definition value_part (part : string) : list string :=
  let part := TrimSpace (Trim part (of_bytes [ascii_of_nat 34])) in
  if bool_decide (part = "") then [] else [part].

Definition splitValues (values : string) : list string :=
  let raw := TrimSpace values in
  if bool_decide (raw = "") then []
  else
    let raw := if Contains raw "[" then TrimSuffix (TrimPrefix raw "[") "]" else raw in
    Split raw "," ≫= value_part.

(** ** toRR *)

Section rendering.
Context {DT : MiekgDNS}.

Definition invalid_value (ty value : string) : error :=
  Errorf ("invalid " +:+ ty +:+ " record value %q") [value].

Definition atoi_error (s : string) : error := Errorf "strconv.Atoi: parsing %q" [s].

Definition strconv_Atoi (s : string) : result Z :=
  match Atoi s with Some n => Ok n | None => Err (atoi_error s) end.

Definition mx_data (value : string) : result rdata :=
  match SplitN value " " 2 with
  | [pref; mx] =>
      match Atoi (TrimSpace pref) with
      | None => Err (Errorf "invalid MX preference %q" [pref])
      | Some preference => Ok (RR_MX (u16 preference) (normalizeFQDN mx))
      end
  | _ => Err (invalid_value "MX" value)
  end.

Definition srv_data (value : string) : result rdata :=
  match Fields value with
  | [p; w; po; target] =>
      priority ← strconv_Atoi p;
      weight ← strconv_Atoi w;
      port ← strconv_Atoi po;
      Ok (RR_SRV (u16 priority) (u16 weight) (u16 port) (normalizeFQDN target))
  | _ => Err (invalid_value "SRV" value)
  end.

Definition caa_data (value : string) : result rdata :=
  match SplitN value " " 3 with
  | [flag; tag; v] =>
      flagValue ← strconv_Atoi (TrimSpace flag);
      Ok (RR_CAA (u8 flagValue) (TrimSpace tag) (Trim (TrimSpace v) (of_bytes [ascii_of_nat 34])))
  | _ => Err (invalid_value "CAA" value)
  end.

(** The [switch] on the record type. *)
Definition value_data (recordType : DNSRecordType) (value : string) : result rdata :=
  let ty := normalizeRecordType recordType in
  if bool_decide (ty = DNSTypeA) then
    match ParseIP value ≫= To4 with
    | None => Err (invalid_value "A" value)
    | Some ip => Ok (RR_A ip)
    end
  else if bool_decide (ty = DNSTypeAAAA) then
    match ParseIP value with
    | None => Err (invalid_value "AAAA" value)
    | Some ip => Ok (RR_AAAA ip)
    end
  else if bool_decide (ty = DNSTypeCNAME) then Ok (RR_CNAME (normalizeFQDN value))
  else if bool_decide (ty = DNSTypeTXT) then Ok (RR_TXT [value])
  else if bool_decide (ty = DNSTypeNS) then Ok (RR_NS (normalizeFQDN value))
  else if bool_decide (ty = DNSTypeMX) then mx_data value
  else if bool_decide (ty = DNSTypeSRV) then srv_data value
  else if bool_decide (ty = DNSTypeCAA) then caa_data value
  else Err (Errorf "unsupported record type %q" [recordType]).

Definition record_header (record : DNSRecord) : rdata -> RR :=
  mkRR (normalizeFQDN (dr_FQDN record))
    (default 0 (StringToType (normalizeRecordType (dr_RecordType record))))
    ClassINET (dr_TTLSeconds record).

Fixpoint render_values (record : DNSRecord) (values : list string) : result (list RR) :=
  match values with
  | [] => Ok []
  | value :: values =>
      d ← value_data (dr_RecordType record) value;
      rrs ← render_values record values;
      Ok (record_header record d :: rrs)
  end.

Definition toRR (record : DNSRecord) : result (list RR) :=
  render_values record (splitValues (dr_ValuesJSON record)).

(** ** forward.go *)

Definition errForwardUnavailable : error := errors_New "dns forward unavailable".

Record ForwarderConfig := mkForwarderConfig {
  fc_Enabled : bool;
  fc_Servers : list string;
  fc_Timeout : Z;   (* nanoseconds *)
}.

Definition DefaultForwarderConfig : ForwarderConfig :=
  mkForwarderConfig false ["1.1.1.1:53"] (5 * 1000000000).

Definition NewForwarder (cfg : ForwarderConfig) : ForwarderConfig :=
  if bool_decide (fc_Timeout cfg <= 0)
  then mkForwarderConfig (fc_Enabled cfg) (fc_Servers cfg) (5 * 1000000000) else cfg.

Context {MM : MiekgMsg}.

Fixpoint try_servers (query : Msg) (servers : list string) : result Msg :=
  match servers with
  | [] => Err errForwardUnavailable
  | server :: servers =>
      let server := TrimSpace server in
      if bool_decide (server = "") then try_servers query servers
      else match ExchangeContext query server with
           | Some (Some resp) => Ok resp
           | _ => try_servers query servers
           end
  end.

Definition Forward (f : ForwarderConfig) (req : Msg) : result Msg :=
  if negb (fc_Enabled f) || bool_decide (fc_Servers f = []) then Err errForwardUnavailable
  else try_servers (mkMsg (m_Id req) false true RcodeSuccess (m_Question req) [] [] []) (fc_Servers f).

Definition rrToRecord (question : DNSQuestion) (index : Z) (rr : RR) : option DNSRecord :=
  let record values :=
    mkDNSRecord zero_Shared
      ("forward:" +:+ q_FQDN question +:+ ":" +:+ q_RecordType question +:+ ":" +:+ Itoa index)
      (normalizeFQDN (rr_Name rr)) (q_RecordType question) "" (rr_Ttl rr) values "" true in
  match rr_data rr with
  | RR_A ip => Some (record (IP_String ip))
  | RR_AAAA ip => Some (record (IP_String ip))
  | RR_CNAME target => Some (record (normalizeFQDN target))
  | RR_TXT txt => Some (record (Join txt ","))
  | RR_NS ns => Some (record (normalizeFQDN ns))
  | RR_MX pref mx => Some (record (Itoa pref +:+ " " +:+ normalizeFQDN mx))
  | RR_SRV p w port target =>
      Some (record (Itoa p +:+ " " +:+ Itoa w +:+ " " +:+ Itoa port +:+ " " +:+ normalizeFQDN target))
  | RR_CAA flag tag value => Some (record (Itoa flag +:+ " " +:+ tag +:+ " " +:+ value))
  | RR_other => None
  end.

Fixpoint answers_to_records (question : DNSQuestion) (index : Z) (answers : list RR)
    : list DNSRecord :=
  match answers with
  | [] => []
  | rr :: answers =>
      match rrToRecord question index rr with
      | None => answers_to_records question (index + 1) answers
      | Some record => record :: answers_to_records question (index + 1) answers
      end
  end.

Definition forwarder_Lookup (f : ForwarderConfig) (question : DNSQuestion) : result DNSAnswerSet :=
  let question := normalizeQuestion question in
  resp ← Forward f (SetQuestion (q_FQDN question) (default 0 (StringToType (q_RecordType question))));
  let records := answers_to_records question 0 (m_Answer resp) in
  Ok (mkDNSAnswerSet question (bool_decide (records <> [])) records).

End rendering.

(** ** k8s_bridge.go *)

(** [json.Marshal] of a list of ASCII strings. *)
Definition json_char (c : ascii) : list ascii :=
  let n := Z.of_nat (nat_of_ascii c) in
  let backslash := ascii_of_nat 92 in
  if bool_decide (c = ascii_of_nat 34) || bool_decide (c = backslash) then [backslash; c]
  else if bool_decide (n = 8) then [backslash; "b"%char]
  else if bool_decide (n = 12) then [backslash; "f"%char]
  else if bool_decide (n = 10) then [backslash; "n"%char]
  else if bool_decide (n = 13) then [backslash; "r"%char]
  else if bool_decide (n = 9) then [backslash; "t"%char]
  else if bool_decide (n < 32) || bool_decide (c ∈ ["<"; ">"; "&"]%char)
  then [backslash; "u"%char; "0"%char; "0"%char] ++ hex_byte n
  else [c].

Definition json_string_text (s : string) : list ascii :=
  [ascii_of_nat 34] ++ (bytes s ≫= json_char) ++ [ascii_of_nat 34].

Definition json_strings_text (values : list string) : string :=
  of_bytes (["["%char] ++ join_bytes [","%char] (json_string_text <$> values) ++ ["]"%char]).

Definition buildRecordFQDN (domain label : string) : string :=
  let domain := TrimSuffix (TrimSpace domain) "." in
  let label := TrimSpace label in
  if bool_decide (label = "") || bool_decide (label = "@") then domain
  else TrimSuffix label "." +:+ "." +:+ domain.

Definition compactStrings (values : list string) : list string :=
  values ≫= fun value =>
    let value := TrimSpace value in if bool_decide (value = "") then [] else [value].

Definition parseUint64OrDefault (value : string) (fallback : Z) : Z :=
  let value := TrimSpace value in
  if bool_decide (value = "") then fallback else default fallback (ParseUint value).

Record K8sBridge := mkK8sBridge { kb_records : gmap string (list DNSRecord) }.

Section bridge.
Context {DT : MiekgDNS} {MR : MapRange} {UN : Unstructured}.

(** The iteration of the record loop for element [idx]. *)
Definition parse_item (domainID domain : string) (idx : nat) (item : k8s_map) : list DNSRecord :=
  let recordType := normalizeRecordType (nested_string item ["type"]) in
  if bool_decide (recordType = "") then []
  else
    let values := compactStrings (NestedStringSlice item ["values"]) in
    if bool_decide (values = []) then []
    else
      let label := nested_string item ["name"] in
      let ttl := match NestedInt64 item ["ttl"] with
                 | Some ttl64 => if bool_decide (0 <= ttl64) then u32 ttl64 else 60
                 | None => 60
                 end in
      [mkDNSRecord zero_Shared (domainID +:+ ":" +:+ Itoa (Z.of_nat idx)) (buildRecordFQDN domain label)
         recordType "simple" ttl (json_strings_text values) "" true].

Definition parse_items (domainID domain : string) (items : list (option k8s_map)) : list DNSRecord :=
  mjoin (imap (fun idx item => match item with
                               | None => []
                               | Some item => parse_item domainID domain idx item
                               end) items).

(** The generation the source computes is not part of the result. *)
Definition object_generation (obj : k8s_obj) : Z :=
  let generation := u64 (GetGeneration obj) in
  let generation := if bool_decide (generation = 0)
                    then parseUint64OrDefault (GetResourceVersion obj) 1 else generation in
  if bool_decide (generation = 0) then 1 else generation.

Definition parseDNSDomainRecordState (obj : k8s_obj) : option (string * list DNSRecord) :=
  let namespace := GetNamespace obj in
  let name := GetName obj in
  if bool_decide (namespace = "") || bool_decide (name = "") then None
  else
    let domain := TrimSpace (nested_string (Object obj) ["spec"; "domain"]) in
    if bool_decide (domain = "") then None
    else
      let domainID := "k8s:" +:+ namespace +:+ ":" +:+ name in
      Some (namespace +:+ "/" +:+ name,
            parse_items domainID domain (NestedSlice (Object obj) ["spec"; "records"])).

Definition bridge_matches (question : DNSQuestion) (record : DNSRecord) : bool :=
  bool_decide (normalizeFQDN (dr_FQDN record) = q_FQDN question) &&
  bool_decide (normalizeRecordType (dr_RecordType record) = q_RecordType question) &&
  dr_Enabled record.

Definition bridge_Lookup (b : K8sBridge) (question : DNSQuestion) : DNSAnswerSet * bool :=
  let question := normalizeQuestion question in
  let records := state ← range (kb_records b);
                 record ← state.2;
                 if bridge_matches question record then [record] else [] in
  match records with
  | [] => (mkDNSAnswerSet question false [], false)
  | _ => (mkDNSAnswerSet question true records, true)
  end.

(** [sort.Strings] *)
Definition sort_Strings (keys : list string) : list string := merge_sort String.le keys.

Definition flattenRecordsLocked (b : K8sBridge) : list DNSRecord :=
  key ← sort_Strings (range (kb_records b)).*1;
  default [] (kb_records b !! key).

(** The informer callbacks; [onChange] receives the flattened records. *)
Definition bridge_store (obj : k8s_obj) (b : K8sBridge) : option K8sBridge :=
  '(key, records) ← parseDNSDomainRecordState obj;
  Some (mkK8sBridge (<[key := records]> (kb_records b))).

Definition bridge_delete (namespace name : string) (b : K8sBridge) : K8sBridge :=
  mkK8sBridge (delete (namespace +:+ "/" +:+ name) (kb_records b)).

Definition bridge_load (items : list k8s_obj) (b : K8sBridge) : K8sBridge :=
  foldl (fun b obj => default b (bridge_store obj b)) b items.

End bridge.

(** ** geoip.go *)

(** The location database and the distance on its coordinates, with the order
    of the floating point distances. *)
Class GeoIP := {
  Coordinates : Type;
  geo_dist : Type;
  geo_lookup : IP -> option Coordinates;
  Haversine : Coordinates -> Coordinates -> geo_dist;
  MaxFloat64 : geo_dist;
  dist_lt : geo_dist -> geo_dist -> bool;
}.

(** [sort.SliceStable] by insertion: an element moves left past the elements it
    is less than.  [sorted] is kept in reverse. *)
Fixpoint insert_stable {A} (less : A -> A -> bool) (x : A) (sorted : list A) : list A :=
  match sorted with
  | [] => [x]
  | y :: sorted' => if less x y then y :: insert_stable less x sorted' else x :: sorted
  end.

Definition SliceStable {A} (less : A -> A -> bool) (l : list A) : list A :=
  reverse (foldl (fun sorted x => insert_stable less x sorted) [] l).

Section geo.
Context {GI : GeoIP}.

Definition value_dist (client : Coordinates) (value : string) : geo_dist :=
  match ParseIP value with
  | None => MaxFloat64
  | Some ip => match geo_lookup ip with
               | None => MaxFloat64
               | Some coords => Haversine client coords
               end
  end.

Definition sortRecordValuesByDistance (client : Coordinates) (record : DNSRecord) : DNSRecord :=
  if bool_decide (dr_RecordType record <> "A") && bool_decide (dr_RecordType record <> "AAAA")
  then record
  else
    let values := splitValues (dr_ValuesJSON record) in
    if bool_decide (length values <= 1)%nat then record
    else
      let entries := (fun value => (value, value_dist client value)) <$> values in
      let sorted := SliceStable (fun x y => dist_lt x.2 y.2) entries in
      set_dr_ValuesJSON record (Join sorted.*1 ",").

(** [remote] is the address of the client, when it has one. *)
Definition ApplyGeoSort (remote : option IP) (records : list DNSRecord) : list DNSRecord :=
  match remote with
  | None => records
  | Some clientIP =>
      match geo_lookup clientIP with
      | None => records
      | Some clientCoords => sortRecordValuesByDistance clientCoords <$> records
      end
  end.

End geo.

(** ** engine.go, resolve.go *)

Section engine.
Context {DT : MiekgDNS} {MR : MapRange} {MM : MiekgMsg} {UN : Unstructured} {GI : GeoIP}.

Record Engine := mkEngine {
  e_store : dnsMemoryStore;
  e_forwarder : ForwarderConfig;
  e_geo : bool;                    (* whether a location database is open *)
  e_k8sBridge : option K8sBridge;
  e_baseDNS : list DNSRecord;
  e_k8sDNS : list DNSRecord;
}.

Definition with_store (e : Engine) (s : dnsMemoryStore) : Engine :=
  mkEngine s (e_forwarder e) (e_geo e) (e_k8sBridge e) (e_baseDNS e) (e_k8sDNS e).

Definition RestoreRecords (records : list DNSRecord) (e : Engine) : Engine :=
  mkEngine (Restore (records ++ e_k8sDNS e) (e_store e)) (e_forwarder e) (e_geo e) (e_k8sBridge e)
    records (e_k8sDNS e).

Definition replaceK8sRecords (records : list DNSRecord) (e : Engine) : Engine :=
  mkEngine (Restore (e_baseDNS e ++ records) (e_store e)) (e_forwarder e) (e_geo e) (e_k8sBridge e)
    (e_baseDNS e) records.

Definition with_bridge (e : Engine) (b : K8sBridge) : Engine :=
  replaceK8sRecords (flattenRecordsLocked b)
    (mkEngine (e_store e) (e_forwarder e) (e_geo e) (Some b) (e_baseDNS e) (e_k8sDNS e)).

(** [initK8sBridge], with the callback of [SetOnChange] run at once. *)
Definition initK8sBridge (e : Engine) : Engine := with_bridge e (mkK8sBridge ∅).

(** [geo] and [k8s]: whether the location database could be opened and whether
    the bridge is enabled and could be created. *)
Definition NewEngine (forwarderCfg : ForwarderConfig) (geo k8s : bool) : Engine :=
  let forwarderCfg :=
    if bool_decide (fc_Servers forwarderCfg = []) && bool_decide (fc_Timeout forwarderCfg = 0)
       && negb (fc_Enabled forwarderCfg)
    then DefaultForwarderConfig else forwarderCfg in
  let engine := mkEngine newDNSMemoryStore (NewForwarder forwarderCfg) geo None [] [] in
  if k8s then initK8sBridge engine else engine.

Definition storeObject (obj : k8s_obj) (e : Engine) : Engine :=
  match e_k8sBridge e ≫= bridge_store obj with
  | None => e
  | Some b => with_bridge e b
  end.

Definition deleteObject (namespace name : string) (e : Engine) : Engine :=
  match e_k8sBridge e with
  | None => e
  | Some b => with_bridge e (bridge_delete namespace name b)
  end.

Definition LoadInitial (items : list k8s_obj) (e : Engine) : Engine :=
  match e_k8sBridge e with
  | None => e
  | Some b => with_bridge e (bridge_load items b)
  end.

Definition RefreshAll (e : Engine) : Engine := with_store e (Clear (e_store e)).

(** The record store, then the upstream server. *)
Definition store_or_forward (e : Engine) (question : DNSQuestion) : result DNSAnswerSet :=
  match Lookup question (e_store e) with
  | (answerSet, true) => Ok answerSet
  | (_, false) =>
      match forwarder_Lookup (e_forwarder e) question with
      | Ok answerSet => if as_Found answerSet then Ok answerSet
                        else Ok (mkDNSAnswerSet question false [])
      | Err _ => Ok (mkDNSAnswerSet question false [])
      end
  end.

Definition engine_Lookup (e : Engine) (question : DNSQuestion) : result DNSAnswerSet :=
  let question := normalizeQuestion question in
  if bool_decide (q_FQDN question = "") then Err (errors_New "fqdn is required")
  else if bool_decide (q_RecordType question = "") then Err (errors_New "record type is required")
  else
    match e_k8sBridge e with
    | Some b => match bridge_Lookup b question with
                | (answerSet, true) => Ok answerSet
                | (_, false) => store_or_forward e question
                end
    | None => store_or_forward e question
    end.

(** The loop over the records of an answer set: the resource records appended
    so far, and whether every record could be rendered. *)
Fixpoint render_records (records : list DNSRecord) (answer : list RR) : list RR * bool :=
  match records with
  | [] => (answer, true)
  | record :: records =>
      match toRR record with
      | Err _ => (answer, false)
      | Ok rrs => render_records records (answer ++ rrs)
      end
  end.

(** The loop over the questions: the answers so far, and whether it ran through. *)
Fixpoint serve_questions (e : Engine) (remote : option IP) (questions : list Question)
    (answer : list RR) : list RR * bool :=
  match questions with
  | [] => (answer, true)
  | q :: questions =>
      match engine_Lookup e (mkDNSQuestion (q_Name q) (TypeToString (q_Qtype q))) with
      | Err _ => (answer, false)
      | Ok result =>
          if as_Found result then
            let records := if e_geo e then ApplyGeoSort remote (as_Records result)
                           else as_Records result in
            match render_records records answer with
            | (answer, false) => (answer, false)
            | (answer, true) => serve_questions e remote questions answer
            end
          else serve_questions e remote questions answer
      end
  end.

(** The message [serveDNS] writes. *)
Definition serveDNS (e : Engine) (remote : option IP) (req : Msg) : Msg :=
  let resp := SetReply req in
  match m_Question req with
  | [] => resp
  | questions =>
      match serve_questions e remote questions (m_Answer resp) with
      | (answer, false) => set_answer resp RcodeServerFailure answer
      | (answer, true) =>
          set_answer resp (if bool_decide (answer = []) then RcodeNameError else m_Rcode resp) answer
      end
  end.

(** [DNSRestoreLoop] of engine/slave/engine.go: every batch received from the
    channel is restored. *)
Definition DNSRestoreLoop (batches : list (list DNSRecord)) (e : Engine) : Engine :=
  foldl (fun e items => RestoreRecords items e) e batches.

End engine.
