(* ===== verification/DnsEngineFacts.v ===== *)
(** * The DNS engine: what is rendered, forwarded, sorted and served *)

From Stdlib Require Import Ascii.
From S2P Require Import Prelude GoStrings GoTime Metadata DnsStore DnsStoreFacts GoNet DnsEngine.

Open Scope Z_scope.

(** ** The comma separated values *)

Definition quote : ascii := ascii_of_nat 34.

(** A value that survives the splitting of a value list. *)
Definition plain_value (v : string) : Prop :=
  v <> "" /\ TrimSpace v = v /\ ","%char ∉ bytes v /\ quote ∉ bytes v.

Definition is_quote : ascii -> bool := in_cutset (of_bytes [quote]).

Lemma no_quote l : quote ∉ l -> drop_while is_quote l = l.
Proof.
  intros Hq. apply drop_while_id. intros a Ha. apply not_true_is_false. intros H.
  apply in_cutset_spec in H. rewrite bytes_of_bytes in H. apply list_elem_of_singleton in H. subst.
  destruct l; [done|]. injection Ha as ->. destruct Hq. by left.
Qed.

Lemma trim_quotes_id v : quote ∉ bytes v -> Trim v (of_bytes [quote]) = v.
Proof.
  intros Hq. apply bytes_inj. unfold Trim. rewrite bytes_of_bytes. fold is_quote.
  unfold trim_func, trim_left, trim_right. rewrite (no_quote (bytes v)) by done.
  rewrite no_quote by (by rewrite elem_of_reverse). apply reverse_involutive.
Qed.

Lemma drop_quote l : drop_while is_quote (quote :: l) = drop_while is_quote l.
Proof. reflexivity. Qed.

Lemma trim_quotes_quoted v :
  quote ∉ bytes v -> v <> "" -> Trim (of_bytes ([quote] ++ bytes v ++ [quote])) (of_bytes [quote]) = v.
Proof.
  intros Hq Hne. apply bytes_inj. unfold Trim. rewrite !bytes_of_bytes. fold is_quote.
  unfold trim_func, trim_left, trim_right. cbn [app]. rewrite drop_quote.
  rewrite (drop_while_id _ (bytes v ++ [quote])).
  - rewrite reverse_app. change (reverse [quote] ++ reverse (bytes v)) with (quote :: reverse (bytes v)).
    rewrite drop_quote, no_quote by (by rewrite elem_of_reverse). apply reverse_involutive.
  - destruct (bytes v) as [|c l] eqn:E; [destruct Hne; apply bytes_inj; by rewrite E|].
    pose proof (no_quote (c :: l) Hq) as Hd. cbn in Hd. intros a [= <-].
    destruct (is_quote c) eqn:Ec; [|done]. apply (f_equal length) in Hd. cbn in Hd.
    destruct (drop_while_suffix is_quote l) as (k & Hk & _).
    apply (f_equal length) in Hk. rewrite length_app in Hk. lia.
Qed.

Lemma value_part_plain v : plain_value v -> value_part v = [v].
Proof.
  intros (Hne & Ht & _ & Hq). unfold value_part. fold quote. rewrite trim_quotes_id by done.
  by rewrite Ht, bool_decide_false.
Qed.

Lemma value_parts f vs :
  (forall v, v ∈ vs -> value_part (f v) = [v]) -> (f <$> vs) ≫= value_part = vs.
Proof.
  induction vs as [|v vs IH]; intros H; [done|]. cbn. rewrite H by (by left). cbn. f_equal.
  apply IH. intros w Hw. apply H. by right.
Qed.

Lemma join_bytes_ends sep (ws : list (list ascii)) w :
  last ws = Some w -> w <> [] -> last (join_bytes sep ws) = last w.
Proof.
  intros Hl Hw. induction ws as [|x ws IH]; [done|]. destruct ws as [|y ws].
  - by injection Hl as ->.
  - change (join_bytes sep (x :: y :: ws)) with (x ++ sep ++ join_bytes sep (y :: ws)).
    rewrite (assoc_L (++)), last_app. rewrite IH by done.
    destruct (last w) eqn:E; [done|]. by apply last_None in E.
Qed.

Lemma join_bytes_head sep (w : list ascii) ws :
  w <> [] -> head (join_bytes sep (w :: ws)) = head w.
Proof. intros Hw. destruct w; [done|]. by destruct ws. Qed.

Lemma join_bytes_elem sep (ws : list (list ascii)) c :
  c ∈ join_bytes sep ws -> c ∈ sep \/ exists w, w ∈ ws /\ c ∈ w.
Proof.
  induction ws as [|x ws IH]; [by intros ?%elem_of_nil|]. destruct ws as [|y ws].
  - cbn. intros H. right. exists x. split; [by left|done].
  - change (join_bytes sep (x :: y :: ws)) with (x ++ sep ++ join_bytes sep (y :: ws)).
    rewrite !elem_of_app. intros [H|[H|H]]; [|by left|].
    + right. exists x. split; [by left|done].
    + apply IH in H as [H|(w & Hw & H)]; [by left|]. right. exists w. split; [by right|done].
Qed.

Lemma bytes_nonempty v : v <> "" -> bytes v <> [].
Proof. intros H E. apply H, bytes_inj. by rewrite E. Qed.

Lemma plain_trimmed v : TrimSpace v = v -> trimmed is_space (bytes v).
Proof.
  intros Ht. apply (f_equal (fun s => bytes s)) in Ht. unfold TrimSpace in Ht.
  rewrite bytes_of_bytes in Ht. rewrite <- Ht. apply trim_func_trimmed.
Qed.

Lemma contains_char_false c l : c ∉ l -> contains_sub [c] l = false.
Proof.
  induction l as [|a l IH]; intros H; [done|]. rewrite not_elem_of_cons in H. destruct H as [H1 H2].
  cbn. rewrite bool_decide_false by done. cbn. by apply IH.
Qed.

(** Joined plain values split back, unless a bracket makes the text look like
    a JSON list. *)
Lemma splitValues_join vs :
  Forall plain_value vs -> Forall (fun v => "["%char ∉ bytes v) vs -> splitValues (Join vs ",") = vs.
Proof.
  intros Hp Hb. destruct vs as [|v0 vs0]; [by vm_compute|].
  set (vs := v0 :: vs0) in *. set (ws := (fun v => bytes v) <$> vs).
  rewrite Forall_forall in Hp. rewrite Forall_forall in Hb.
  assert (Join vs "," = of_bytes (join_bytes [","%char] ws)) as -> by reflexivity.
  unfold splitValues.
  assert (TrimSpace (of_bytes (join_bytes [","%char] ws)) = of_bytes (join_bytes [","%char] ws)) as ->.
  { apply bytes_inj. unfold TrimSpace. rewrite !bytes_of_bytes. apply trim_func_id. split.
    - destruct (Hp v0) as (Hn & Ht & _); [by left|]. unfold ws, vs. cbn [fmap list_fmap].
      rewrite join_bytes_head by (by apply bytes_nonempty). by apply plain_trimmed.
    - destruct (last vs) as [v|] eqn:El; [|by apply last_None in El].
      assert (v ∈ vs) as Hv by (apply last_Some in El as [l' ->]; set_solver).
      destruct (Hp v Hv) as (Hn & Ht & _).
      rewrite (join_bytes_ends _ ws (bytes v)); [by apply plain_trimmed| |by apply bytes_nonempty].
      unfold ws. by rewrite fmap_last, El. }
  rewrite bool_decide_false.
  2:{ intros E. apply (f_equal (fun s => head (bytes s))) in E. rewrite bytes_of_bytes in E.
      unfold ws, vs in E. cbn [fmap list_fmap] in E. destruct (Hp v0) as (Hn & _); [by left|].
      apply bytes_nonempty in Hn. rewrite join_bytes_head in E by done. by destruct (bytes v0). }
  assert (Contains (of_bytes (join_bytes [","%char] ws)) "[" = false) as ->.
  { unfold Contains. rewrite bytes_of_bytes. apply contains_char_false.
    intros H. apply join_bytes_elem in H as [H|(w & Hw & H)]; [by apply list_elem_of_singleton in H|].
    apply list_elem_of_fmap in Hw as (v & -> & Hv). by apply (Hb v). }
  unfold Split. rewrite bytes_of_bytes, split_join_bytes; [|done|].
  - unfold ws. rewrite <- list_fmap_compose. apply value_parts. intros v Hv. cbn.
    rewrite of_bytes_bytes. by apply value_part_plain, Hp.
  - apply Forall_forall. intros w Hw. apply list_elem_of_fmap in Hw as (v & -> & Hv).
    by apply (Hp v).
Qed.

(** A value whose JSON text is the value in quotes. *)
Definition json_plain (v : string) : Prop :=
  plain_value v /\ Forall (fun c => json_char c = [c]) (bytes v).

Lemma json_string_plain v :
  Forall (fun c => json_char c = [c]) (bytes v) -> json_string_text v = [quote] ++ bytes v ++ [quote].
Proof.
  intros H. unfold json_string_text. fold quote. f_equal. f_equal.
  induction H as [|c l Hc Hl IH]; [done|]. cbn. by rewrite Hc, IH.
Qed.

(** The JSON text of plain values splits into the values. *)
Lemma splitValues_json vs : Forall json_plain vs -> splitValues (json_strings_text vs) = vs.
Proof.
  intros Hp. destruct vs as [|v0 vs0]; [by vm_compute|]. set (vs := v0 :: vs0) in *.
  rewrite Forall_forall in Hp. unfold splitValues, json_strings_text.
  set (body := join_bytes [","%char] (json_string_text <$> vs)).
  assert (TrimSpace (of_bytes (["["%char] ++ body ++ ["]"%char])) =
          of_bytes (["["%char] ++ body ++ ["]"%char])) as ->.
  { apply bytes_inj. unfold TrimSpace. rewrite !bytes_of_bytes. apply trim_func_id. split.
    - intros a [= <-]. reflexivity.
    - rewrite (assoc_L (++)), last_snoc. intros a [= <-]. reflexivity. }
  rewrite bool_decide_false by done.
  assert (Contains (of_bytes (["["%char] ++ body ++ ["]"%char])) "[" = true) as ->.
  { unfold Contains. rewrite bytes_of_bytes. done. }
  assert (TrimSuffix (TrimPrefix (of_bytes (["["%char] ++ body ++ ["]"%char])) "[") "]" =
          of_bytes body) as ->.
  { rewrite !of_bytes_app. change (of_bytes ["["%char]) with "[". change (of_bytes ["]"%char]) with "]".
    rewrite TrimPrefix_app. apply TrimSuffix_app. }
  unfold Split. rewrite bytes_of_bytes. unfold body. rewrite split_join_bytes; [|done|].
  - rewrite <- list_fmap_compose. apply value_parts. intros v Hv. cbn beta.
    destruct (Hp v Hv) as [(Hn & Ht & Hc & Hq) Hj]. unfold compose.
    rewrite json_string_plain by done. unfold value_part. fold quote.
    rewrite trim_quotes_quoted by done. by rewrite Ht, bool_decide_false.
  - apply Forall_forall. intros w Hw. apply list_elem_of_fmap in Hw as (v & -> & Hv).
    destruct (Hp v Hv) as [(Hn & Ht & Hc & Hq) Hj]. rewrite json_string_plain by done.
    rewrite !elem_of_app, !list_elem_of_singleton. intros [H|[H|H]]; done.
Qed.

(** ** Words *)

Definition word_char (c : ascii) : bool :=
  negb (is_space c) && bool_decide (c <> ","%char) && bool_decide (c <> quote) &&
  bool_decide (c <> "["%char).

(** A non-empty text without white space, comma, quote or bracket. *)
Definition word (s : string) : Prop := s <> "" /\ Forall (fun c => word_char c = true) (bytes s).

Lemma word_char_spec c : word_char c = true ->
  is_space c = false /\ c <> ","%char /\ c <> quote /\ c <> "["%char /\ c <> " "%char.
Proof.
  unfold word_char. rewrite !andb_true_iff, !bool_decide_eq_true, negb_true_iff.
  intros (((H1 & H2) & H3) & H4). split_and!; try done. intros ->. by vm_compute in H1.
Qed.

Lemma word_no_space s : word s -> no_space s.
Proof.
  intros [_ H]. eapply Forall_impl; [exact H|]. intros c Hc. by destruct (word_char_spec c Hc).
Qed.

Lemma word_not_in s c : word s -> c ∈ bytes s ->
  c <> ","%char /\ c <> quote /\ c <> "["%char /\ c <> " "%char.
Proof.
  intros [_ H] Hc. rewrite Forall_forall in H. apply H in Hc. by destruct (word_char_spec c Hc).
Qed.

Lemma digit_word c : is_digit c = true -> word_char c = true.
Proof. intros H. destruct c as [[] [] [] [] [] [] [] []]; try discriminate H; reflexivity. Qed.

Lemma word_Itoa n : 0 <= n -> word (Itoa n).
Proof.
  intros Hn. destruct (Itoa_digits n Hn) as (Hd & Hne & _). split; [by intros E; apply Hne; rewrite E|].
  eapply Forall_impl; [exact Hd|]. intros c. apply digit_word.
Qed.

Lemma word_v4 q : length q = 4%nat -> Forall octet q -> word (v4_string q).
Proof.
  intros Hl Hq. unfold v4_string, Join. split.
  - destruct q as [|a q]; [done|]. apply Forall_cons in Hq as [Ha _]. intros E.
    apply (f_equal (fun s => head (bytes s))) in E. rewrite bytes_of_bytes in E.
    cbn [fmap list_fmap] in E. destruct Ha as [Ha _]. apply Itoa_digits in Ha as (_ & Hne & _).
    rewrite join_bytes_head in E by done. by destruct (bytes (Itoa a)).
  - rewrite bytes_of_bytes. apply Forall_forall. intros c Hc.
    apply join_bytes_elem in Hc as [Hc|(w & Hw & Hc)].
    + by apply list_elem_of_singleton in Hc as ->.
    + apply list_elem_of_fmap in Hw as (s & -> & Hs). apply list_elem_of_fmap in Hs as (n & -> & Hn).
      rewrite Forall_forall in Hq. destruct (Hq n Hn) as [Hn0 _].
      apply Itoa_digits in Hn0 as (Hd & _). rewrite Forall_forall in Hd. by apply digit_word, Hd.
Qed.

(** Words with single spaces between them are one plain value. *)
Lemma plain_words ws : ws <> [] -> Forall word ws ->
  plain_value (Join ws " ") /\ "["%char ∉ bytes (Join ws " ").
Proof.
  intros Hne Hw. destruct ws as [|w0 ws0]; [done|]. set (ws := w0 :: ws0) in *.
  rewrite Forall_forall in Hw.
  assert (forall c, c ∈ bytes (Join ws " ") -> c <> ","%char /\ c <> quote /\ c <> "["%char) as Hc.
  { intros c. unfold Join. rewrite bytes_of_bytes. intros Hc.
    apply join_bytes_elem in Hc as [Hc|(w & Hin & Hc)].
    - by apply list_elem_of_singleton in Hc as ->.
    - apply list_elem_of_fmap in Hin as (s & -> & Hs).
      destruct (word_not_in s c (Hw s Hs) Hc) as (? & ? & ? & _). done. }
  split; [|intros H; by destruct (Hc _ H) as (_ & _ & ?)].
  split_and!; [| |intros H; by destruct (Hc _ H) as (? & ? & _)..].
  - intros E. apply (f_equal (fun s => head (bytes s))) in E. unfold Join in E.
    rewrite bytes_of_bytes in E. destruct (Hw w0) as [Hn _]; [by left|].
    apply bytes_nonempty in Hn. unfold ws in E. cbn [fmap list_fmap] in E.
    rewrite join_bytes_head in E by done. by destruct (bytes w0).
  - apply bytes_inj. unfold TrimSpace, Join. rewrite !bytes_of_bytes. apply trim_func_id. split.
    + destruct (Hw w0) as [Hn Hf]; [by left|]. unfold ws. cbn [fmap list_fmap].
      rewrite join_bytes_head by (by apply bytes_nonempty).
      apply trimmed_nospace, word_no_space. by split.
    + destruct (last ws) as [v|] eqn:El; [|by apply last_None in El].
      assert (v ∈ ws) as Hv by (apply last_Some in El as [l' ->]; set_solver).
      destruct (Hw v Hv) as [Hn Hf].
      rewrite (join_bytes_ends _ _ (bytes v)); [| |by apply bytes_nonempty].
      * apply trimmed_nospace, word_no_space. by split.
      * by rewrite fmap_last, El.
Qed.

Lemma split_words ws : ws <> [] -> Forall word ws -> splitValues (Join ws " ") = [Join ws " "].
Proof.
  intros Hne Hw. destruct (plain_words ws Hne Hw) as [Hp Hb].
  rewrite <- (splitValues_join [Join ws " "]) by (by apply Forall_singleton).
  f_equal. unfold Join at 2. cbn. by rewrite of_bytes_bytes.
Qed.

Lemma Join_one w sep : Join [w] sep = w.
Proof. unfold Join. cbn. apply of_bytes_bytes. Qed.

Lemma Join_more w w' ws sep : Join (w :: w' :: ws) sep = w +:+ sep +:+ Join (w' :: ws) sep.
Proof.
  apply bytes_inj. unfold Join.
  change ((fun w => bytes w) <$> w :: w' :: ws)
    with (bytes w :: bytes w' :: ((fun w => bytes w) <$> ws)).
  autorewrite with gostr. reflexivity.
Qed.

Lemma splitn_step a (b : string) n :
  " "%char ∉ bytes a ->
  SplitN (a +:+ " " +:+ b) " " (S (S n)) = a :: SplitN b " " (S n).
Proof.
  intros Ha. unfold SplitN. autorewrite with gostr.
  change (bytes " ") with [" "%char]. cbn [app]. cbn [splitn_bytes].
  rewrite bool_decide_true by set_solver.
  rewrite take_until_app by done. cbn [fmap list_fmap]. rewrite of_bytes_bytes.
  f_equal. rewrite <- Nat.add_1_r, <- drop_drop, drop_app_length. reflexivity.
Qed.

Lemma SplitN_one b : SplitN b " " 1 = [b].
Proof. unfold SplitN. cbn. by rewrite of_bytes_bytes. Qed.

(** ** Forwarded answers *)

Section forwarding.
Context {DT : MiekgDNS} {MM : MiekgMsg}.

(** The record data an upstream answer must have for its type, with names that
    are one word after normalization. *)
Definition forwardable (ty : DNSRecordType) (d : rdata) : Prop :=
  match d with
  | RR_A ip => ty = DNSTypeA /\ length ip = 4%nat /\ Forall octet ip
  | RR_CNAME target => ty = DNSTypeCNAME /\ word (normalizeFQDN target)
  | RR_TXT txt => ty = DNSTypeTXT /\ exists v, txt = [v] /\ plain_value v /\ "["%char ∉ bytes v
  | RR_NS ns => ty = DNSTypeNS /\ word (normalizeFQDN ns)
  | RR_MX pref mx => ty = DNSTypeMX /\ 0 <= pref < 2 ^ 16 /\ word (normalizeFQDN mx)
  | RR_SRV p w port target =>
      ty = DNSTypeSRV /\ 0 <= p < 2 ^ 16 /\ 0 <= w < 2 ^ 16 /\ 0 <= port < 2 ^ 16 /\
      word (normalizeFQDN target)
  | RR_CAA flag tag value => ty = DNSTypeCAA /\ 0 <= flag < 2 ^ 8 /\ word tag /\ word value
  | _ => False
  end.

(** The data with the names it carries normalized. *)
Definition normal_data (d : rdata) : rdata :=
  match d with
  | RR_CNAME target => RR_CNAME (normalizeFQDN target)
  | RR_NS ns => RR_NS (normalizeFQDN ns)
  | RR_MX pref mx => RR_MX pref (normalizeFQDN mx)
  | RR_SRV p w port target => RR_SRV p w port (normalizeFQDN target)
  | d => d
  end.

Lemma Atoi_word n : 0 <= n < 2 ^ 16 -> Atoi (TrimSpace (Itoa n)) = Some n /\ u16 n = n.
Proof.
  intros Hn. rewrite TrimSpace_nospace by (apply word_no_space, word_Itoa; lia).
  split; [apply Atoi_Itoa; lia|by apply Z.mod_small].
Qed.

Lemma no_space_in w : word w -> " "%char ∉ bytes w.
Proof. intros Hw H. by destruct (word_not_in w _ Hw H) as (_ & _ & _ & ?). Qed.

Lemma mx_text n mx : 0 <= n < 2 ^ 16 -> word mx -> normalizeFQDN mx = mx ->
  mx_data (Itoa n +:+ " " +:+ mx) = Ok (RR_MX n mx).
Proof.
  intros Hn Hw Hf. unfold mx_data.
  rewrite splitn_step, SplitN_one by (apply no_space_in, word_Itoa; lia).
  destruct (Atoi_word n Hn) as [-> ->]. by rewrite Hf.
Qed.

Lemma srv_text p w port t :
  0 <= p < 2 ^ 16 -> 0 <= w < 2 ^ 16 -> 0 <= port < 2 ^ 16 -> word t -> normalizeFQDN t = t ->
  srv_data (Itoa p +:+ " " +:+ Itoa w +:+ " " +:+ Itoa port +:+ " " +:+ t) = Ok (RR_SRV p w port t).
Proof.
  intros Hp Hw Hport Ht Hf. unfold srv_data.
  assert (forall n, 0 <= n -> no_space (Itoa n) /\ Itoa n <> "") as Hi.
  { intros n Hn. apply word_Itoa in Hn as Hn'. split; [by apply word_no_space|by destruct Hn']. }
  rewrite !Fields_cons by (apply Hi; lia).
  rewrite Fields_one by (first [by apply word_no_space|by destruct Ht]).
  unfold strconv_Atoi. rewrite !Atoi_Itoa by lia. cbn.
  unfold u16. rewrite !Z.mod_small by lia. by rewrite Hf.
Qed.

Lemma caa_text n tag v : 0 <= n < 2 ^ 8 -> word tag -> word v ->
  caa_data (Itoa n +:+ " " +:+ tag +:+ " " +:+ v) = Ok (RR_CAA n tag v).
Proof.
  intros Hn Ht Hv. unfold caa_data.
  rewrite splitn_step by (apply no_space_in, word_Itoa; lia).
  rewrite splitn_step, SplitN_one by (by apply no_space_in).
  assert (0 <= n < 2 ^ 16) as Hn' by lia. destruct (Atoi_word n Hn') as [Ha _].
  unfold strconv_Atoi. rewrite Ha. cbn [mbind result_bind]. unfold u8.
  rewrite Z.mod_small by lia. rewrite !TrimSpace_nospace by (by apply word_no_space).
  fold quote. rewrite trim_quotes_id; [done|].
  intros H. by destruct (word_not_in v _ Hv H) as (_ & ? & _).
Qed.

Ltac pick_type :=
  unfold value_data;
  match goal with H : normalizeRecordType ?t = ?t |- _ => rewrite H end;
  rewrite ?bool_decide_false by done; rewrite bool_decide_true by done.

(** Each forwardable answer is stored as one value that renders to it. *)
Lemma forwardable_value ty d q i rr record :
  normalizeRecordType ty = ty -> forwardable ty d -> q_RecordType q = ty -> rr_data rr = d ->
  rrToRecord q i rr = Some record ->
  splitValues (dr_ValuesJSON record) = [dr_ValuesJSON record] /\
  value_data ty (dr_ValuesJSON record) = Ok (normal_data d).
Proof.
  intros Hty Hf Hq Hd Hr. unfold rrToRecord in Hr. rewrite Hd in Hr.
  assert (forall w, word w -> splitValues w = [w]) as Hone.
  { intros w Hw. rewrite <- (Join_one w " ") at 1 2. by apply split_words; [|apply Forall_singleton]. }
  destruct d as [ip|ip|t|txt|ns|pref mx|p w port t|fl tag v|]; cbn in Hf; try done;
    injection Hr as <-; cbn [dr_ValuesJSON normal_data].
  - destruct Hf as (-> & Hl & Ho).
    assert (IP_String ip = v4_string ip) as ->
      by (unfold IP_String, To4; by rewrite bool_decide_true).
    split; [by apply Hone, word_v4|]. pick_type. rewrite ParseIP_v4_string by done.
    cbn. unfold To4. destruct ip as [|a [|b [|c [|e [|]]]]]; done.
  - destruct Hf as (-> & Hw). split; [by apply Hone|]. pick_type. by rewrite normalizeFQDN_idemp.
  - destruct Hf as (-> & v & -> & Hp & Hb). rewrite Join_one. split; [|by pick_type].
    rewrite <- (splitValues_join [v]) by (by apply Forall_singleton). by rewrite Join_one.
  - destruct Hf as (-> & Hw). split; [by apply Hone|]. pick_type. by rewrite normalizeFQDN_idemp.
  - destruct Hf as (-> & Hn & Hw). split.
    + rewrite <- (Join_one (normalizeFQDN mx) " "), <- Join_more. apply split_words; [done|].
      repeat (apply Forall_cons; split); [apply word_Itoa; lia|done|constructor].
    + pick_type. apply mx_text; [done..|apply normalizeFQDN_idemp].
  - destruct Hf as (-> & Hp & Hw & Hport & Ht). split.
    + rewrite <- (Join_one (normalizeFQDN t) " "), <- !Join_more. apply split_words; [done|].
      repeat (apply Forall_cons; split); [apply word_Itoa; lia..|done|constructor].
    + pick_type. apply srv_text; [done..|apply normalizeFQDN_idemp].
  - destruct Hf as (-> & Hn & Htag & Hv). split.
    + rewrite <- (Join_one v " "), <- !Join_more. apply split_words; [done|].
      repeat (apply Forall_cons; split); [apply word_Itoa; lia|done|done|constructor].
    + pick_type. by apply caa_text.
Qed.

(** Forwarding is faithful.  An upstream answer of the question's own type
    (an address, alias, text, name server, mail or service record or a CAA
    record, with names that are one word) is turned into a record that renders to the
    same data with its names normalized, under the normalized owner name and
    with the upstream's time to live. *)
Theorem forward_roundtrip q i rr :
  question_ok q -> forwardable (q_RecordType q) (rr_data rr) ->
  exists record, rrToRecord q i rr = Some record /\
    toRR record = Ok [mkRR (normalizeFQDN (rr_Name rr)) (default 0 (StringToType (q_RecordType q)))
                        ClassINET (rr_Ttl rr) (normal_data (rr_data rr))].
Proof.
  intros Hq Hf.
  assert (normalizeRecordType (q_RecordType q) = q_RecordType q) as Hty
    by exact (f_equal q_RecordType Hq).
  destruct (rrToRecord q i rr) as [record|] eqn:Hr.
  2:{ unfold rrToRecord in Hr. by destruct (rr_data rr). }
  exists record. split; [done|].
  destruct (forwardable_value _ _ q i rr record Hty Hf eq_refl eq_refl Hr) as [Hs Hv].
  assert (dr_RecordType record = q_RecordType q /\ dr_FQDN record = normalizeFQDN (rr_Name rr) /\
          dr_TTLSeconds record = rr_Ttl rr) as (Ht & Hn & Hl).
  { unfold rrToRecord in Hr. by destruct (rr_data rr); simplify_eq. }
  unfold toRR. rewrite Hs. cbn. rewrite Ht, Hv. cbn. unfold record_header.
  by rewrite Ht, Hty, Hn, Hl, normalizeFQDN_idemp.
Qed.

(** ** No address ends in a dot *)

Lemma v4_fields_dot t : v4_fields (t ++ ["."%char]) = None.
Proof.
  unfold v4_fields.
  assert (exists ws, split_bytes "."%char (t ++ ["."%char]) = ws ++ [[]]) as [ws ->].
  { induction t as [|c t [ws IH]]; [by exists [[]]|]. cbn. rewrite IH. case_bool_decide.
    - by exists ([] :: ws).
    - destruct ws as [|w ws]; cbn; [|by exists ((c :: w) :: ws)].
      pose proof (f_equal (join_bytes ["."%char]) IH) as E. rewrite join_split_bytes in E.
      by destruct t. }
  destruct ws as [|a [|b [|c [|d ws]]]]; try done.
  - cbn [app]. destruct (dec_octet a); [cbn|done]. destruct (dec_octet b); [cbn|done].
    by destruct (dec_octet c).
  - cbn [app]. by destruct ws.
Qed.

Lemma hex_run_dot t : exists vs t', hex_run (t ++ ["."%char]) = (vs, t' ++ ["."%char]) /\
  (length t' <= length t)%nat.
Proof.
  induction t as [|c t (vs & t' & IH & Hl)]; cbn; [by exists [], []|].
  destruct (hex_val c); [|by exists [], (c :: t)]. rewrite IH. exists (z :: vs), t'.
  split; [done|lia].
Qed.

Lemma v6_loop_dot groups t ip ell ip' ell' rest :
  v6_loop groups (t ++ ["."%char]) ip ell = Some (ip', ell', rest) -> rest <> [].
Proof.
  revert t ip ell. induction groups as [|groups IH]; intros t ip ell; cbn [v6_loop].
  - intros [= <- <- <-]. by destruct t.
  - destruct (hex_run_dot t) as (vs & t' & -> & _).
    destruct (_ || _); [done|]. destruct t' as [|c t']; cbn [app].
    + rewrite bool_decide_true by done. destruct (_ && _); [done|]. case_bool_decide; [done|].
      by rewrite v4_fields_dot.
    + case_bool_decide.
      { destruct (_ && _); [done|]. case_bool_decide; [done|]. by rewrite v4_fields_dot. }
      case_bool_decide; [|done]. destruct t' as [|d t']; cbn [app].
      * rewrite bool_decide_false by done. apply (IH []).
      * case_bool_decide; [|apply (IH (d :: t'))]. case_bool_decide; [|done].
        destruct t' as [|x t'']; cbn [app]; [apply (IH [])|apply (IH (x :: t''))].
Qed.

Lemma parse_v6_dot t : parse_v6 (t ++ ["."%char]) = None.
Proof.
  assert (forall t ell, ('(ip, ell, rest) ← v6_loop 8 (t ++ ["."%char]) [] ell;
    if bool_decide (rest = []) then v6_expand ip ell else None) = None) as Hrun.
  { intros u ell. destruct (v6_loop 8 _ [] ell) as [[[ip ell'] rest]|] eqn:E; [|done]. cbn.
    apply v6_loop_dot in E. by rewrite bool_decide_false. }
  unfold parse_v6. destruct t as [|a [|b t]]; [apply (Hrun [])| |].
  - destruct a as [[] [] [] [] [] [] [] []]; apply (Hrun [_]).
  - destruct (decide (a = ":"%char)) as [->|Ha].
    + destruct (decide (b = ":"%char)) as [->|Hb].
      * cbn [app]. destruct t as [|c t]; [apply (Hrun [])|apply (Hrun (c :: t))].
      * cbn [app]. destruct b as [[] [] [] [] [] [] [] []]; try done; apply (Hrun (":"%char :: _ :: t)).
    + cbn [app]. destruct a as [[] [] [] [] [] [] [] []]; try done; apply (Hrun (_ :: b :: t)).
Qed.

Lemma ParseIP_dot w : ParseIP (w +:+ ".") = None.
Proof.
  unfold ParseIP. autorewrite with gostr. change (bytes ".") with ["."%char].
  destruct (ip_kind _) as [c|]; [|done]. rewrite v4_fields_dot, parse_v6_dot.
  destruct c as [[] [] [] [] [] [] [] []]; try done; by case_bool_decide.
Qed.

(** An alias in an upstream answer to an address question.  The record made
    from it has the question's type, so that it cannot be rendered. *)
Theorem forwarded_alias_fails q i rr target :
  q_RecordType q ∈ [DNSTypeA; DNSTypeAAAA] -> question_ok q ->
  rr_data rr = RR_CNAME target -> word (normalizeFQDN target) ->
  exists record e, rrToRecord q i rr = Some record /\ toRR record = Err e.
Proof.
  intros Hty Hq Hd Hw. unfold rrToRecord. rewrite Hd.
  assert (normalizeRecordType (q_RecordType q) = q_RecordType q) as Hn
    by exact (f_equal q_RecordType Hq).
  eexists. enough (exists e, value_data (q_RecordType q) (normalizeFQDN target) = Err e) as [e He].
  { exists e. split; [reflexivity|]. unfold toRR. cbn [dr_ValuesJSON].
    rewrite <- (Join_one (normalizeFQDN target) " "), split_words; [|done|by apply Forall_singleton].
    rewrite Join_one. cbn. by rewrite He. }
  destruct (normalizeFQDN_shape target) as [E|(w & _ & E & _)].
  { rewrite E in Hw. by destruct Hw. }
  rewrite E. unfold value_data. rewrite Hn, ParseIP_dot.
  apply elem_of_cons in Hty as [->|Hty]; [eexists; reflexivity|].
  apply elem_of_cons in Hty as [->|Hty]; [eexists; reflexivity|]. by apply elem_of_nil in Hty.
Qed.

End forwarding.

(** ** Sorting by distance *)

Section sorting.
Context {A : Type} (less : A -> A -> bool).

Lemma insert_stable_perm x l : insert_stable less x l ≡ₚ x :: l.
Proof.
  induction l as [|y l IH]; cbn; [done|]. destruct (less x y); [|done]. rewrite IH. constructor.
Qed.

Lemma foldl_insert_perm l acc :
  foldl (fun sorted x => insert_stable less x sorted) acc l ≡ₚ l ++ acc.
Proof.
  revert acc. induction l as [|x l IH]; intros acc; cbn; [done|].
  rewrite IH, insert_stable_perm. symmetry. apply Permutation_middle.
Qed.

Lemma SliceStable_perm l : SliceStable less l ≡ₚ l.
Proof. unfold SliceStable. by rewrite reverse_Permutation, foldl_insert_perm, app_nil_r. Qed.

(** [less] is the strict part of a total preorder. *)
Definition strict_weak : Prop :=
  (forall x y, less x y = true -> less y x = false) /\
  (forall x y z, less x y = false -> less y z = false -> less x z = false).

Lemma insert_stable_sorted x l :
  strict_weak -> StronglySorted (fun a b => less a b = false) l ->
  StronglySorted (fun a b => less a b = false) (insert_stable less x l).
Proof.
  intros [Hasym Htr] Hs. induction Hs as [|y l Hs IH Hy]; cbn; [by repeat constructor|].
  destruct (less x y) eqn:E.
  - constructor; [done|]. rewrite insert_stable_perm. constructor; [by apply Hasym|done].
  - constructor; [by constructor|]. constructor; [done|].
    eapply Forall_impl; [exact Hy|]. cbn. eauto.
Qed.

Lemma StronglySorted_reverse (R : A -> A -> Prop) l :
  StronglySorted R l -> StronglySorted (fun x y => R y x) (reverse l).
Proof.
  induction 1 as [|x l Hs IH Hx]; [constructor|]. rewrite reverse_cons. apply StronglySorted_app.
  split_and!; [|done|by repeat constructor].
  intros y z Hy Hz%list_elem_of_singleton. subst. rewrite Forall_forall in Hx.
  apply Hx. by rewrite elem_of_reverse in Hy.
Qed.

Lemma SliceStable_sorted l :
  strict_weak -> StronglySorted (fun a b => less b a = false) (SliceStable less l).
Proof.
  intros Hw. unfold SliceStable. apply (StronglySorted_reverse (fun a b => less a b = false)).
  assert (forall acc, StronglySorted (fun a b => less a b = false) acc ->
    StronglySorted (fun a b => less a b = false)
      (foldl (fun sorted x => insert_stable less x sorted) acc l)) as H; [|apply H; constructor].
  induction l as [|x l IH]; intros acc Hacc; cbn; [done|]. by apply IH, insert_stable_sorted.
Qed.

End sorting.

Section geo.
Context {GI : GeoIP}.

(** Sorting by distance loses nothing.  The values of an address record with
    plain values are a permutation of what they were, none of them nearer to
    the client than one before it, and nothing else of the record changes. *)
Theorem geo_sort client record :
  let values := splitValues (dr_ValuesJSON record) in
  let record' := sortRecordValuesByDistance client record in
  let values' := splitValues (dr_ValuesJSON record') in
  Forall (fun v => plain_value v /\ "["%char ∉ bytes v) values ->
  values' ≡ₚ values /\
  record' = set_dr_ValuesJSON record (dr_ValuesJSON record') /\
  (dr_RecordType record ∈ [DNSTypeA; DNSTypeAAAA] ->
   strict_weak dist_lt ->
   StronglySorted (fun x y => dist_lt y x = false) (value_dist client <$> values')).
Proof.
  cbn zeta. intros Hp. unfold sortRecordValuesByDistance.
  destruct (_ && _) eqn:Hty.
  { split_and!; [reflexivity|by destruct record|]. intros Ht _.
    apply andb_true_iff in Hty as [H1 H2]. apply bool_decide_eq_true in H1, H2.
    by apply elem_of_cons in Ht as [Ht|Ht%list_elem_of_singleton]. }
  clear Hty. set (values := splitValues (dr_ValuesJSON record)) in *.
  case_bool_decide as Hl.
  { split_and!; [reflexivity|by destruct record|]. intros _ _. fold values.
    destruct values as [|v [|]]; cbn in *; [constructor|repeat constructor|lia]. }
  set (less := fun x y : string * geo_dist => dist_lt x.2 y.2).
  set (entries := (fun value => (value, value_dist client value)) <$> values).
  pose proof (SliceStable_perm less entries) as Hperm.
  set (sorted := SliceStable less entries) in *.
  assert (sorted.*1 ≡ₚ values) as Hv.
  { rewrite Hperm. unfold entries. by rewrite <- list_fmap_compose, list_fmap_id. }
  assert (splitValues (Join sorted.*1 ",") = sorted.*1) as Hs.
  { apply splitValues_join; rewrite Hv; (eapply Forall_impl; [exact Hp|]); by intros ? []. }
  cbn [dr_ValuesJSON set_dr_ValuesJSON]. rewrite Hs. split_and!; [done|done|].
  intros _ Hw. assert (value_dist client <$> sorted.*1 = sorted.*2) as ->.
  { rewrite <- list_fmap_compose. apply list_fmap_ext. intros k [v d] Hk.
    assert ((v, d) ∈ entries) as Hin by (rewrite <- Hperm; by apply list_elem_of_lookup_2 in Hk).
    unfold entries in Hin. apply list_elem_of_fmap in Hin as (v' & [= -> ->] & _). done. }
  assert (strict_weak less) as Hlw.
  { destruct Hw as [H1 H2]. split; [intros; by apply H1|]. intros x y z. apply H2. }
  pose proof (SliceStable_sorted less entries Hlw) as Hsort. fold sorted in Hsort.
  clear Hv Hs Hperm. clearbody sorted. induction Hsort as [|x l Hl' IH Hx]; cbn; [constructor|]. constructor; [done|].
  by apply Forall_fmap.
Qed.

End geo.
