(* ===== verification/DnsServe.v ===== *)
(** * The DNS engine as a whole: its two sources of records and its responses *)

From Stdlib Require Import Ascii.
From S2P Require Import Prelude GoStrings GoTime Metadata DnsStore DnsStoreFacts GoNet K8sObjects.
From S2P Require Import DnsEngine.
From S2P Require Import DnsEngineFacts.

Open Scope Z_scope.

(** ** Records read from the cluster *)

Section cluster.
Context {DT : MiekgDNS} {MR : MapRange} {UN : Unstructured}.

Lemma compactStrings_spec values :
  Forall (fun v => v <> "" /\ TrimSpace v = v) (compactStrings values).
Proof.
  unfold compactStrings. induction values as [|v values IH]; cbn; [constructor|].
  case_bool_decide; [done|]. constructor; [|done]. by rewrite TrimSpace_idemp.
Qed.

Definition from_item (domainID domain : string) (items : list (option k8s_map)) (r : DNSRecord)
    (idx : nat) (item : k8s_map) : Prop :=
  items !! idx = Some (Some item) /\
  dr_ID r = domainID +:+ ":" +:+ Itoa (Z.of_nat idx) /\
  dr_FQDN r = buildRecordFQDN domain (nested_string item ["name"]) /\
  dr_RecordType r = normalizeRecordType (nested_string item ["type"]) /\ dr_RecordType r <> "" /\
  dr_Enabled r = true /\ 0 <= dr_TTLSeconds r < 2 ^ 32 /\
  dr_ValuesJSON r = json_strings_text (compactStrings (NestedStringSlice item ["values"])) /\
  compactStrings (NestedStringSlice item ["values"]) <> [].

Lemma elem_of_imap_join {A B} (f : nat -> A -> list B) l b :
  b ∈ mjoin (imap f l) <-> exists i a, l !! i = Some a /\ b ∈ f i a.
Proof.
  rewrite list_elem_of_join. split.
  - intros (bs & Hb & H). apply elem_of_lookup_imap_1 in H as (i & a & -> & Ha). eauto.
  - intros (i & a & Ha & Hb). exists (f i a). split; [done|]. by eapply elem_of_lookup_imap_2.
Qed.

Lemma parse_items_spec domainID domain items r :
  r ∈ parse_items domainID domain items -> exists idx item, from_item domainID domain items r idx item.
Proof.
  unfold parse_items. rewrite elem_of_imap_join. intros (idx & [item|] & Hi & Hr); [|by apply elem_of_nil in Hr].
  exists idx, item. unfold parse_item in Hr. case_bool_decide as Ht; [by apply elem_of_nil in Hr|].
  case_bool_decide as Hv; [by apply elem_of_nil in Hr|]. apply list_elem_of_singleton in Hr as ->.
  split_and!; try done; cbn.
  - destruct (NestedInt64 item ["ttl"]) as [n|]; [|lia]. case_bool_decide; [|lia].
    apply Z.mod_pos_bound. lia.
  - destruct (NestedInt64 item ["ttl"]) as [n|]; [|lia]. case_bool_decide; [|lia].
    apply Z.mod_pos_bound. lia.
Qed.

(** A DNSDomainRecord object.  Every record read from it has a known type, an
    id that determines the item it came from, and values that split back into
    the item's values when these need no quoting. *)
Theorem dns_object_records obj key records r :
  parseDNSDomainRecordState obj = Some (key, records) -> r ∈ records ->
  exists idx item,
    from_item ("k8s:" +:+ GetNamespace obj +:+ ":" +:+ GetName obj)
      (TrimSpace (nested_string (Object obj) ["spec"; "domain"])) (NestedSlice (Object obj) ["spec"; "records"]) r idx item /\
    (forall r' idx' item', r' ∈ records ->
       from_item ("k8s:" +:+ GetNamespace obj +:+ ":" +:+ GetName obj)
         (TrimSpace (nested_string (Object obj) ["spec"; "domain"])) (NestedSlice (Object obj) ["spec"; "records"])
         r' idx' item' -> dr_ID r' = dr_ID r -> idx' = idx) /\
    (Forall json_plain (compactStrings (NestedStringSlice item ["values"])) ->
     splitValues (dr_ValuesJSON r) = compactStrings (NestedStringSlice item ["values"])).
Proof.
  unfold parseDNSDomainRecordState. destruct (_ || _); [done|]. case_bool_decide; [done|].
  intros [= <- <-] Hr. destruct (parse_items_spec _ _ _ _ Hr) as (idx & item & Hf).
  exists idx, item. split_and!; [done| |].
  - intros r' idx' item' _ Hf' E. destruct Hf as (_ & Hid & _), Hf' as (_ & Hid' & _).
    rewrite Hid, Hid' in E. apply (f_equal (fun s => bytes s)) in E. autorewrite with gostr in E.
    apply app_inv_head in E. injection E as E. apply bytes_inj, Itoa_inj in E. lia.
  - intros Hp. destruct Hf as (_ & _ & _ & _ & _ & _ & _ & -> & _). by apply splitValues_json.
Qed.

Lemma elem_of_flatten b r :
  r ∈ flattenRecordsLocked b <-> exists key l, kb_records b !! key = Some l /\ r ∈ l.
Proof.
  unfold flattenRecordsLocked. rewrite list_elem_of_bind. split.
  - intros (key & Hr & Hk). destruct (kb_records b !! key) as [l|] eqn:E; [eauto|].
    by apply elem_of_nil in Hr.
  - intros (key & l & Hl & Hr). exists key. rewrite Hl. split; [done|].
    unfold sort_Strings. rewrite merge_sort_Permutation. apply list_elem_of_fmap.
    exists (key, l). split; [done|by apply elem_of_range].
Qed.

Lemma bridge_lookup b q :
  let bq := bridge_Lookup b q in
  as_Question bq.1 = normalizeQuestion q /\
  (forall r, r ∈ as_Records bq.1 <->
     r ∈ flattenRecordsLocked b /\ bridge_matches (normalizeQuestion q) r = true) /\
  bq.2 = bool_decide (as_Records bq.1 <> []) /\ as_Found bq.1 = bq.2.
Proof.
  cbn zeta. unfold bridge_Lookup. set (records := _ ≫= _).
  assert (forall r, r ∈ records <->
     r ∈ flattenRecordsLocked b /\ bridge_matches (normalizeQuestion q) r = true) as Hr.
  { intros r. rewrite elem_of_flatten. unfold records. rewrite list_elem_of_bind. split.
    - intros ([key l] & H & Hk). apply elem_of_range in Hk.
      apply list_elem_of_bind in H as (x & H & Hx). cbn in Hx.
      destruct (bridge_matches _ x) eqn:E; [|by apply elem_of_nil in H].
      apply list_elem_of_singleton in H as ->. eauto.
    - intros [(key & l & Hl & Hr) Hm]. exists (key, l). split; [|by apply elem_of_range].
      apply list_elem_of_bind. exists r. rewrite Hm. split; [by left|done]. }
  destruct records as [|x xs]; cbn -[normalizeQuestion]; split_and!; done.
Qed.

End cluster.

(** ** The engine's records *)

Section engine.
Context {DT : MiekgDNS} {MR : MapRange} {MM : MiekgMsg} {UN : Unstructured} {GI : GeoIP}.

Inductive engine_op :=
  | EngRestore (records : list DNSRecord)
  | EngStore (obj : k8s_obj)
  | EngDelete (namespace name : string)
  | EngLoad (items : list k8s_obj).

Definition engine_step (e : Engine) (op : engine_op) : Engine :=
  match op with
  | EngRestore records => RestoreRecords records e
  | EngStore obj => storeObject obj e
  | EngDelete namespace name => deleteObject namespace name e
  | EngLoad items => LoadInitial items e
  end.

(** What the engine should serve: the last restored batch, and the records of
    the cluster's objects by namespace and name. *)
Record sources := mkSources { so_base : list DNSRecord; so_objects : gmap string (list DNSRecord) }.

Definition put_object (m : gmap string (list DNSRecord)) (obj : k8s_obj)
    : gmap string (list DNSRecord) :=
  match parseDNSDomainRecordState obj with
  | None => m
  | Some (key, records) => <[key := records]> m
  end.

Definition sources_step (k8s : bool) (s : sources) (op : engine_op) : sources :=
  match op with
  | EngRestore records => mkSources records (so_objects s)
  | EngStore obj => if k8s then mkSources (so_base s) (put_object (so_objects s) obj) else s
  | EngDelete namespace name =>
      if k8s then mkSources (so_base s) (delete (namespace +:+ "/" +:+ name) (so_objects s)) else s
  | EngLoad items => if k8s then mkSources (so_base s) (foldl put_object (so_objects s) items) else s
  end.

Definition catalog_of (records : list DNSRecord) : gmap (string * string) DNSRecord :=
  foldl (fun m r => catalog_put r m) ∅ records.

(** The engine keeps its sources and the store restored from both. *)
Record engine_inv (k8s : bool) (cfg : ForwarderConfig) (e : Engine) (s : sources) : Prop := {
  ei_base : e_baseDNS e = so_base s;
  ei_bridge : e_k8sBridge e = if k8s then Some (mkK8sBridge (so_objects s)) else None;
  ei_k8s : e_k8sDNS e = if k8s then flattenRecordsLocked (mkK8sBridge (so_objects s)) else [];
  ei_store : refines (e_store e) (catalog_of (e_baseDNS e ++ e_k8sDNS e));
  ei_forwarder : e_forwarder e = cfg;
}.

Lemma restore_refines records s : refines (Restore records s) (catalog_of records).
Proof. unfold Restore, catalog_of. apply refines_restore, refines_new. Qed.

Lemma with_bridge_inv cfg e s m :
  engine_inv true cfg e s -> engine_inv true cfg (with_bridge e (mkK8sBridge m)) (mkSources (so_base s) m).
Proof.
  intros [Hb _ _ _ Hf]. split; cbn; [done..|apply (restore_refines _ newDNSMemoryStore)|done].
Qed.

Lemma bridge_store_put obj b :
  default b (bridge_store obj b) = mkK8sBridge (put_object (kb_records b) obj).
Proof.
  unfold bridge_store, put_object. destruct (parseDNSDomainRecordState obj) as [[k l]|]; [done|].
  by destruct b.
Qed.

Lemma bridge_load_put items b :
  bridge_load items b = mkK8sBridge (foldl put_object (kb_records b) items).
Proof.
  unfold bridge_load. revert b. induction items as [|obj items IH]; intros b; cbn; [by destruct b|].
  by rewrite IH, bridge_store_put.
Qed.

Lemma engine_step_inv k8s cfg e s op :
  engine_inv k8s cfg e s -> engine_inv k8s cfg (engine_step e op) (sources_step k8s s op).
Proof.
  intros H. destruct (H) as [Hb Hbr Hk Hs Hf]. destruct op as [records|obj|ns name|items]; cbn.
  - split; cbn; [done..|apply (restore_refines _ newDNSMemoryStore)|done].
  - unfold storeObject. rewrite Hbr. destruct k8s; cbn; [|done].
    unfold bridge_store, put_object. destruct (parseDNSDomainRecordState obj) as [[k l]|]; cbn.
    + by apply with_bridge_inv.
    + by destruct s.
  - unfold deleteObject. rewrite Hbr. destruct k8s; [|done]. by apply with_bridge_inv.
  - unfold LoadInitial. rewrite Hbr. destruct k8s; [|done]. rewrite bridge_load_put.
    by apply with_bridge_inv.
Qed.

Lemma engine_run_inv k8s cfg ops e s :
  engine_inv k8s cfg e s ->
  engine_inv k8s cfg (foldl engine_step e ops) (foldl (sources_step k8s) s ops).
Proof.
  revert e s. induction ops as [|op ops IH]; intros e s H; [done|]. by apply IH, engine_step_inv.
Qed.

Lemma NewEngine_inv cfg geo k8s :
  engine_inv k8s (e_forwarder (NewEngine cfg geo k8s)) (NewEngine cfg geo k8s) (mkSources [] ∅).
Proof.
  unfold NewEngine. destruct k8s; split; cbn; try done.
  - apply (restore_refines _ newDNSMemoryStore).
  - apply refines_new.
Qed.

(** The records of [m] that answer a question. *)
Definition stored_answer (m : gmap (string * string) DNSRecord) (q : DNSQuestion) (r : DNSRecord)
    : Prop := m !! (dr_FQDN r, dr_ID r) = Some r /\ answers_question q r = true.

Lemma store_lookup e m q :
  refines (e_store e) m -> question_ok q ->
  exists a, store_or_forward e q = Ok a /\ as_Question a = q /\
    ((exists r, stored_answer m q r) -> forall r, r ∈ as_Records a <-> stored_answer m q r) /\
    ((forall r, ~ stored_answer m q r) -> fc_Enabled (e_forwarder e) = false -> as_Found a = false).
Proof.
  intros Hs Hid. destruct (lookup_answer _ _ q Hs) as (H1 & H2 & H3 & _ & H5). rewrite Hid in *.
  unfold store_or_forward. destruct (Lookup q (e_store e)) as [a hit]. cbn in H1, H2, H3, H5.
  rewrite <- H3 in H2. destruct hit.
  - exists a. split_and!; [done..|]. intros Hno _.
    destruct (as_Records a) as [|r l]; [done|]. destruct (Hno r). apply H5. by left.
  - assert (as_Records a = []) as Hnil.
    { destruct (as_Records a) as [|r l]; [done|]. by rewrite bool_decide_true in H2. }
    rewrite Hnil in H5.
    assert (forall P : Prop, (exists r, stored_answer m q r) -> P) as Hno.
    { intros P (r & Hr). exfalso. by apply H5, elem_of_nil in Hr. }
    unfold forwarder_Lookup. rewrite Hid. unfold Forward.
    destruct (negb (fc_Enabled (e_forwarder e)) || _) eqn:Hen.
    { exists (mkDNSAnswerSet q false []). by split_and!. }
    destruct (try_servers _ _) as [resp|er]; cbn -[normalizeQuestion].
    + destruct (bool_decide (answers_to_records q 0 (m_Answer resp) <> []));
        eexists; (split_and!; [done|done|intros Hex; by apply Hno|]);
        intros _ Hd; by rewrite Hd in Hen.
    + eexists. split_and!; [done|done|intros Hex; by apply Hno|done].
Qed.


(** The restore loop keeps the last batch only: whatever it received before, the
    engine is as if only the last batch had been restored. *)
Lemma restore_loop_last_eq batches batch e :
  DNSRestoreLoop (batches ++ [batch]) e = RestoreRecords batch e.
Proof.
  unfold DNSRestoreLoop. rewrite foldl_app. cbn.
  assert (e_k8sDNS (foldl (fun e items => RestoreRecords items e) e batches) = e_k8sDNS e /\
          e_forwarder (foldl (fun e items => RestoreRecords items e) e batches) = e_forwarder e /\
          e_geo (foldl (fun e items => RestoreRecords items e) e batches) = e_geo e /\
          e_k8sBridge (foldl (fun e items => RestoreRecords items e) e batches) = e_k8sBridge e)
    as (Hk & Hf & Hg & Hb).
  { revert e. induction batches as [|b batches IH]; intros e; cbn; [done|].
    destruct (IH (RestoreRecords b e)) as (-> & -> & -> & ->). done. }
  unfold RestoreRecords at 1. by rewrite Hk, Hf, Hg, Hb.
Qed.

(** ** Responses *)

(** What is answered to one question. *)
Definition question_answers (e : Engine) (remote : option IP) (q : Question) : result (list RR) :=
  a ← engine_Lookup e (mkDNSQuestion (q_Name q) (TypeToString (q_Qtype q)));
  if as_Found a
  then mjoin <$> mapM toRR (if e_geo e then ApplyGeoSort remote (as_Records a) else as_Records a)
  else Ok [].

Lemma render_records_spec records answer :
  match mapM toRR records with
  | Ok rrs => render_records records answer = (answer ++ mjoin rrs, true)
  | Err _ => (render_records records answer).2 = false /\
             exists more, (render_records records answer).1 = answer ++ more
  end.
Proof.
  revert answer. induction records as [|r records IH]; intros answer; cbn; [by rewrite app_nil_r|].
  destruct (toRR r) as [rr|er]; cbn; [|split; [done|exists []; by rewrite app_nil_r]].
  specialize (IH (answer ++ rr)). destruct (mapM toRR records) as [rrs|er]; cbn.
  - rewrite IH. by rewrite (assoc_L (++)).
  - destruct IH as [H (more & ->)]. split; [done|]. exists (rr ++ more). by rewrite (assoc_L (++)).
Qed.

Lemma serve_questions_spec e remote qs answer :
  match mapM (question_answers e remote) qs with
  | Ok rrs => serve_questions e remote qs answer = (answer ++ mjoin rrs, true)
  | Err _ => (serve_questions e remote qs answer).2 = false
  end.
Proof.
  revert answer. induction qs as [|q qs IH]; intros answer; cbn; [by rewrite app_nil_r|].
  destruct (question_answers e remote q) as [rr|er] eqn:Hqa; unfold question_answers in Hqa;
    (destruct (engine_Lookup e _) as [a|er']; [|try done]); cbn in Hqa; destruct (as_Found a); try done.
  - set (records := if e_geo e then _ else _) in *.
    pose proof (render_records_spec records answer) as Hr.
    destruct (mapM toRR records) as [rrs|er]; [|done]. cbn in Hqa. injection Hqa as <-.
    rewrite Hr. specialize (IH (answer ++ mjoin rrs)).
    destruct (mapM (question_answers e remote) qs); cbn; [|done].
    rewrite IH. by rewrite (assoc_L (++)).
  - injection Hqa as <-. specialize (IH answer). by destruct (mapM (question_answers e remote) qs).
  - set (records := if e_geo e then _ else _) in *.
    pose proof (render_records_spec records answer) as Hr.
    destruct (mapM toRR records) as [rrs|er']; [done|]. destruct Hr as [H _]. cbn.
    by destruct (render_records records answer) as [a' []].
Qed.

(** C13. responses.  A request without question gets the bare reply.  Otherwise, when
    every question can be looked up and its records rendered, the response
    carries their resource records in order, as a success when there are any
    and as a name error when there are none; when one cannot, the response is a
    server failure. *)
Theorem serve_dns e remote req :
  let resp := serveDNS e remote req in
  match m_Question req, mapM (question_answers e remote) (m_Question req) with
  | [], _ => resp = SetReply req
  | _, Ok rrs => m_Answer resp = mjoin rrs /\
                 m_Rcode resp = if bool_decide (mjoin rrs = []) then RcodeNameError else RcodeSuccess
  | _, Err _ => m_Rcode resp = RcodeServerFailure
  end.
Proof.
  cbn zeta. unfold serveDNS. destruct (SetReply_fresh req) as [Ha Hc].
  destruct (m_Question req) as [|q qs]; [done|]. set (questions := q :: qs). rewrite Ha.
  pose proof (serve_questions_spec e remote questions []) as H.
  destruct (mapM (question_answers e remote) questions) as [rrs|er].
  - rewrite H. cbn. by rewrite Hc.
  - by destruct (serve_questions e remote questions []) as [answer []].
Qed.

End engine.

(** ** A run *)

Module ServeRun.

#[local] Existing Instance DnsRun.sample_types.
#[local] Existing Instance canonical_range.

(** An upstream server that knows one address. *)
#[program] Definition sample_msgs : MiekgMsg := {|
  SetReply req := mkMsg (m_Id req) true (m_RecursionDesired req) RcodeSuccess (m_Question req) [] [] [];
  SetQuestion name ty := mkMsg 7 false true RcodeSuccess [mkQuestion name ty] [] [] [];
  ExchangeContext q server :=
    Some (Some (set_answer q RcodeSuccess [mkRR "Up.example." 1 ClassINET 30 (RR_A [10; 0; 0; 9])]))
|}.
Next Obligation. done. Qed.
#[local] Existing Instance sample_msgs.

(** DNSDomainRecord objects with one record each. *)
Record sample_object := mkSampleObject {
  ob_namespace : string; ob_name : string; ob_domain : string;
  ob_label : string; ob_type : string; ob_values : list string }.

Definition sample_k8s : Unstructured := {|
  k8s_obj := sample_object;
  k8s_map := sample_object;
  Object := fun o => o;
  GetNamespace := ob_namespace;
  GetName := ob_name;
  GetGeneration := fun _ => 1;
  GetResourceVersion := fun _ => "1";
  NestedString := fun o f =>
    Some (if bool_decide (f = ["spec"; "domain"]) then ob_domain o
          else if bool_decide (f = ["type"]) then ob_type o else ob_label o);
  NestedSlice := fun o _ => [Some o];
  NestedStringSlice := fun o _ => ob_values o;
  NestedInt64 := fun _ _ => None
|}.
#[local] Existing Instance sample_k8s.

(** Addresses are located by their last byte. *)
Definition sample_geo : GeoIP := {|
  Coordinates := Z;
  geo_dist := Z;
  geo_lookup := fun ip => last ip;
  Haversine := fun a b => Z.abs (a - b);
  MaxFloat64 := 1000;
  dist_lt := Z.ltb
|}.
#[local] Existing Instance sample_geo.

Definition web_object : sample_object :=
  mkSampleObject "prod" "web" "example.com" "www" "a" ["10.0.0.1"; " 10.0.0.2 "].
Definition web : k8s_obj (Unstructured:=sample_k8s) := web_object.
Definition web_item : k8s_map (Unstructured:=sample_k8s) := web_object.

Definition upstream : RR := mkRR "Mail.Example.com" 15 ClassINET 300 (RR_MX 10 "MX1.Example.com").

Lemma forward_roundtrip_witness :
  exists record, rrToRecord (mkDNSQuestion "mail.example.com." "MX") 0 upstream = Some record /\
    toRR record = Ok [mkRR "mail.example.com." 15 ClassINET 300 (RR_MX 10 "mx1.example.com.")].
Proof.
  destruct (forward_roundtrip (mkDNSQuestion "mail.example.com." "MX") 0 upstream)
    as (record & H1 & H2).
  - by vm_compute.
  - cbn. split_and!; [done|lia|lia|]. split; [by vm_compute|].
    apply (bool_decide_unpack _). vm_compute. exact I.
  - exists record. split; [exact H1|]. rewrite H2. vm_compute. reflexivity.
Defined.

Lemma forwarded_alias_fails_witness :
  exists record e,
    rrToRecord (mkDNSQuestion "www.example.com." "A") 0
      (mkRR "www.example.com." 5 ClassINET 60 (RR_CNAME "edge.example.com.")) = Some record /\
    toRR record = Err e.
Proof.
  apply (forwarded_alias_fails (mkDNSQuestion "www.example.com." "A") 0
    (mkRR "www.example.com." 5 ClassINET 60 (RR_CNAME "edge.example.com.")) "edge.example.com.").
  - by left.
  - by vm_compute.
  - reflexivity.
  - split; [by vm_compute|]. apply (bool_decide_unpack _). vm_compute. exact I.
Defined.

Definition client : Coordinates (GeoIP:=sample_geo) := 3.

Definition geo_record : DNSRecord :=
  mkDNSRecord zero_Shared "r1" "www.example.com." "A" RoutingClassGeo 60 "10.0.0.9,10.0.0.2,10.0.0.4" "" true.

Lemma geo_sort_witness :
  dr_ValuesJSON (sortRecordValuesByDistance (GI:=sample_geo) client geo_record) = "10.0.0.2,10.0.0.4,10.0.0.9" /\
  splitValues (dr_ValuesJSON (sortRecordValuesByDistance (GI:=sample_geo) client geo_record)) ≡ₚ
    splitValues (dr_ValuesJSON geo_record).
Proof.
  split; [by vm_compute|]. apply (geo_sort (GI:=sample_geo) client geo_record).
  assert (splitValues (dr_ValuesJSON geo_record) = ["10.0.0.9"; "10.0.0.2"; "10.0.0.4"]) as ->
    by (vm_compute; reflexivity).
  repeat (apply Forall_cons; split); [..|constructor];
    (split; [split_and!|]); apply (bool_decide_unpack _); vm_compute; exact I.
Defined.

Lemma dns_object_records_witness :
  exists key records r idx item,
    parseDNSDomainRecordState web = Some (key, records) /\ r ∈ records /\
    from_item "k8s:prod:web" "example.com" [Some web_item] r idx item /\
    dr_FQDN r = "www.example.com".
Proof.
  destruct (parseDNSDomainRecordState web) as [[key records]|] eqn:E; [|by vm_compute in E].
  assert (exists r, r ∈ records /\ dr_FQDN r = "www.example.com") as (r & Hr & Hn).
  { vm_compute in E. injection E as <- <-. eexists. split; [by left|reflexivity]. }
  destruct (dns_object_records web key records r E Hr) as (idx & item & Hf & _).
  exists key, records, r, idx, item. split; [reflexivity|]. split; [exact Hr|]. split; [|exact Hn].
  exact Hf.
Defined.

Definition base_record : DNSRecord :=
  mkDNSRecord zero_Shared "b1" "api.example.com" "A" RoutingClassFirst 60 "10.0.1.1" "" true.


Lemma serve_dns_witness :
  let e := NewEngine (mkForwarderConfig true ["10.9.9.9:53"] 0) false true in
  let resp := serveDNS e None (mkMsg 1 false true 0 [mkQuestion "up.example" 1] [] [] []) in
  m_Answer resp = [mkRR "up.example." 1 ClassINET 30 (RR_A [10; 0; 0; 9])] /\ m_Rcode resp = RcodeSuccess.
Proof.
  cbn zeta. set (e := NewEngine (mkForwarderConfig true ["10.9.9.9:53"] 0) false true).
  pose proof (serve_dns e None (mkMsg 1 false true 0 [mkQuestion "up.example" 1] [] [] [])) as H.
  cbn zeta in H. cbn [m_Question] in H.
  assert (mapM (question_answers e None) [mkQuestion "up.example" 1] =
    Ok [[mkRR "up.example." 1 ClassINET 30 (RR_A [10; 0; 0; 9])]]) as Hm by (vm_compute; reflexivity).
  rewrite Hm in H. exact H.
Defined.

End ServeRun.
