(* ===== verification/SlaveEngineFacts.v ===== *)
(** * The slave: retries, certificate files, and what its DNS engine serves *)

From Stdlib Require Import Ascii.
From S2P Require Import Prelude GoStrings GoTime Metadata Gorm Replication MetadataJson HostNames.
From S2P Require Import GoPath GoFS CertLRU CertResolver CertResolverFacts SlaveStore SlaveEngine.
From S2P Require Import DnsStore DnsStoreFacts GoNet K8sObjects DnsEngine DnsServe.

Open Scope Z_scope.

(** ** Retries *)

Lemma i64_small x : -2 ^ 63 <= x < 2 ^ 63 -> i64 x = x.
Proof. intros H. unfold i64. rewrite Z.mod_small; lia. Qed.

Lemma next_backoff_spec maxB b :
  0 < b <= maxB -> maxB * 2 < 2 ^ 63 -> next_backoff maxB b = Z.min (b * 2) maxB.
Proof.
  intros Hb Hm. unfold next_backoff. rewrite i64_small by lia. case_bool_decide; lia.
Qed.

Lemma retry_waits maxB b attempts i w :
  0 < b <= maxB -> maxB * 2 < 2 ^ 63 ->
  (retry_loop maxB b attempts).1 !! i = Some w -> w = Z.min (b * 2 ^ Z.of_nat i) maxB.
Proof.
  intros Hb Hm. revert b i Hb. induction attempts as [|a attempts IH]; intros b i Hb; [done|].
  destruct a; cbn; [done| |done].
  specialize (IH (next_backoff maxB b)). rewrite next_backoff_spec in * by done.
  destruct (retry_loop _ _ attempts) as [waits fin]. destruct i as [|i]; cbn in *.
  - intros [= <-]. lia.
  - intros H. rewrite (IH i) by (first [done|lia]). rewrite Nat2Z.inj_succ, Z.pow_succ_r by lia.
    assert (0 < 2 ^ Z.of_nat i) by (apply Z.pow_pos_nonneg; lia). nia.
Qed.

Lemma retry_length maxB b n a rest :
  a <> Failed -> length (retry_loop maxB b (replicate n Failed ++ a :: rest)).1 = n /\
  (retry_loop maxB b (replicate n Failed ++ a :: rest)).2 = true.
Proof.
  intros Ha. revert b. induction n as [|n IH]; intros b; cbn; [by destruct a|].
  specialize (IH (next_backoff maxB b)). destruct (retry_loop _ _ _) as [waits fin]. cbn in *.
  destruct IH as [-> ->]. done.
Qed.

(** C16. retries.  With the configured bounds (or their defaults) the wait before
    the [i]-th retry is the smaller bound doubled [i] times, never above the
    larger bound; the loop ends with the first attempt that does not fail. *)
Theorem retry_schedule minB maxB n a rest i w :
  let '(lo, hi) := default_backoff minB maxB in
  lo <= hi -> hi * 2 < 2 ^ 63 -> a <> Failed ->
  let '(waits, fin) := retry_loop hi lo (replicate n Failed ++ a :: rest) in
  fin = true /\ length waits = n /\
  (waits !! i = Some w -> w = Z.min (lo * 2 ^ Z.of_nat i) hi).
Proof.
  destruct (default_backoff minB maxB) as [lo hi] eqn:E. intros Hle Hhi Ha.
  assert (0 < lo) as Hlo by (unfold default_backoff in E; injection E as <- <-; case_bool_decide; lia).
  destruct (retry_length hi lo n a rest Ha) as [Hl Hf].
  pose proof (retry_waits hi lo (replicate n Failed ++ a :: rest) i w (conj Hlo Hle) Hhi) as Hw.
  destruct (retry_loop _ _ _) as [waits fin]. cbn in *. done.
Qed.

Lemma retry_schedule_witness :
  let '(waits, fin) := retry_loop (30 * 1000000000) 1000000000
    (replicate 7 Failed ++ [Finished]) in
  fin = true /\ length waits = 7%nat /\
  (waits !! 6%nat = Some 30000000000 -> 30000000000 = Z.min (1000000000 * 2 ^ 6) 30000000000).
Proof.
  pose proof (retry_schedule 0 0 7 Finished [] 6 30000000000) as H.
  change (default_backoff 0 0) with (1000000000, 30 * 1000000000) in H. cbv beta iota in H.
  apply H; [lia|lia|discriminate].
Defined.

(** ** Certificate files *)

Section bundles.
Context {MT : MetaText}.

Lemma cert_file_join root h w labels file :
  root <> "" -> is_canonical w labels h -> plain file ->
  cert_file root h file = path_Join [root; certificateDirectoryName h; file] /\
  path_Join [root; CertificateDirectoryName h] <> cert_file root h file.
Proof.
  intros Hroot (Hne & HF & ->) Hfile. unfold cert_file, CertificateDirectoryName.
  pose proof (plain_cert_components w labels Hne HF) as Hplain.
  assert (cert_components w labels <> []) as Hcne by (by destruct w).
  rewrite directory_canonical by done. set (cs := cert_components w labels) in *.
  destruct (path_Join_down root cs Hroot Hcne Hplain) as (Hd1 & Hd2 & Hd3).
  destruct (path_Join_down _ [file] Hd3 ltac:(done) ltac:(by apply Forall_singleton)) as (Hf1 & Hf2 & _).
  rewrite Join_single in Hf1, Hf2.
  destruct (path_Join_below root _ cs Hroot eq_refl Hcne Hplain file Hfile) as [Hb1 Hb2].
  split.
  - apply path_Join_ext.
    + by rewrite filter_cons_True.
    + by rewrite filter_cons_True.
    + by rewrite Hf1, Hd1, Hb1, (assoc_L (++)).
    + by rewrite Hf2, Hd2, Hb2.
  - intros E. apply (f_equal (fun p => length (components p))) in E.
    rewrite Hf1, length_app in E. cbn in E. lia.
Qed.

(** Files of one host, and files of two hosts, are different files. *)
Lemma cert_file_inj root h h' w w' labels labels' f f' :
  root <> "" -> is_canonical w labels h -> is_canonical w' labels' h' -> plain f -> plain f' ->
  cert_file root h f = cert_file root h' f' -> h = h' /\ f = f'.
Proof.
  intros Hroot Hh Hh' Hf Hf' E.
  destruct (cert_file_join root h w labels f Hroot Hh Hf) as [E1 _].
  destruct (cert_file_join root h' w' labels' f' Hroot Hh' Hf') as [E2 _].
  destruct (certificate_path_facts root h w labels f Hroot Hh Hf) as (C1 & _ & H1).
  destruct (certificate_path_facts root h' w' labels' f' Hroot Hh' Hf') as (C2 & _ & H2).
  rewrite E1, E2 in E. rewrite E in H1, C1. split; [congruence|].
  rewrite C1 in C2. apply (f_equal last) in C2.
  rewrite !(assoc_L (++)), !last_snoc in C2. by injection C2.
Qed.

Lemma plain_files : plain "tls.crt" /\ plain "tls.key" /\ plain "metadata.json".
Proof. split_and!; apply (bool_decide_unpack _); vm_compute; exact I. Qed.

(** The metadata text that is written. *)
Definition written_metadata (b : CertificateBundle) : string :=
  if bool_decide (cb_MetadataJSON b = "") then meta_Marshal (cb_Hostname b) (cb_Revision b)
  else cb_MetadataJSON b.

Lemma put_bundle_nodes root b fs fs' w labels :
  root <> "" -> is_canonical w labels (cb_Hostname b) ->
  PutCertificateBundle root (Some b) fs = (fs', Ok tt) ->
  let file f := cert_file root (cb_Hostname b) f in
  fs_denied fs' = fs_denied fs /\
  fs_nodes fs' =
    <[file "metadata.json" := FFile (written_metadata b)]>
      (<[file "tls.key" := FFile (cb_TLSKey b)]>
        (<[file "tls.crt" := FFile (cb_TLSCrt b)]>
          (<[path_Join [root; CertificateDirectoryName (cb_Hostname b)] := FDir]> (fs_nodes fs)))) /\
  Forall (fun f => file f ∉ fs_denied fs) ["tls.crt"; "tls.key"; "metadata.json"].
Proof.
  intros Hroot Hh. cbn [PutCertificateBundle]. unfold writeCertificateBundle. intros H. cbn zeta.
  apply go_bind_Ok in H as (fs1 & [] & H1%os_MkdirAll_ok & H).
  apply go_bind_Ok in H as (fs2 & [] & H2%os_WriteFile_ok & H).
  apply go_bind_Ok in H as (fs3 & [] & H3%os_WriteFile_ok & H4%os_WriteFile_ok).
  destruct H1 as [-> D1], H2 as [-> D2], H3 as [-> D3], H4 as [-> D4]. cbn in *.
  split_and!; [done..|]. by repeat (apply Forall_cons; split); [..|constructor].
Qed.

Lemma dir_not_file root h h' w w' labels labels' f :
  root <> "" -> is_canonical w labels h -> is_canonical w' labels' h' -> plain f ->
  path_Join [root; CertificateDirectoryName h] <> cert_file root h' f.
Proof.
  intros Hroot Hh Hh' Hf E. destruct (cert_file_join root h' w' labels' f Hroot Hh' Hf) as [E2 _].
  destruct (certificate_path_facts root h' w' labels' f Hroot Hh' Hf) as (C2 & _ & _).
  destruct Hh as (Hne & HF & ->). pose proof (plain_cert_components w labels Hne HF) as Hplain.
  assert (cert_components w labels <> []) as Hcne by (by destruct w).
  destruct (path_Join_down root _ Hroot Hcne Hplain) as (Hd & _).
  unfold CertificateDirectoryName in E. rewrite directory_canonical, E2 in E by done.
  rewrite E, C2 in Hd. apply app_inv_head in Hd.
  destruct w, w'; cbn in Hd; try done. injection Hd as Hd _. destruct Hh' as (Hne' & HF' & _).
  destruct (join_labels_head labels' Hne' HF') as (c & l & Ec & Hc). rewrite Hd in Ec.
  injection Ec as <- _. by apply inner_char_no_dot in Hc as [? _].
Qed.

Lemma os_ReadFile_Stat p fs c : os_ReadFile p fs = Ok c -> exists n, os_Stat p fs = Ok n.
Proof. unfold os_ReadFile. destruct (os_Stat p fs) as [n|e]; [eauto|done]. Qed.

(** After a bundle of a canonical host was stored, it is
    found, and reading the host's bundle gives its certificate and key, with
    the host and revision the metadata names; the bundles of other canonical
    hosts read as before. *)
Lemma certificate_bundles root b fs fs' w labels revision :
  root <> "" -> is_canonical w labels (cb_Hostname b) -> TrimSpace (cb_Hostname b) <> "" ->
  PutCertificateBundle root (Some b) fs = (fs', Ok tt) ->
  CheckCertificateBundle root (cb_Hostname b) fs' = Ok true /\
  (exists b', GetCertificateBundle root (cb_Hostname b) revision fs' = Ok b' /\
     cb_TLSCrt b' = cb_TLSCrt b /\ cb_TLSKey b' = cb_TLSKey b /\
     cb_MetadataJSON b' = written_metadata b /\
     (cb_MetadataJSON b = "" -> cb_Hostname b' = cb_Hostname b /\
        cb_Revision b' = if bool_decide (cb_Revision b = 0) then revision else cb_Revision b)) /\
  (forall h' w' labels', is_canonical w' labels' h' -> h' <> cb_Hostname b ->
     GetCertificateBundle root h' revision fs' = GetCertificateBundle root h' revision fs).
Proof.
  intros Hroot Hh Htrim Hput. destruct plain_files as (Pc & Pk & Pm).
  destruct (put_bundle_nodes root b fs fs' w labels Hroot Hh Hput) as (Hden & Hnodes & Hok).
  set (file f := cert_file root (cb_Hostname b) f) in *.
  apply Forall_cons in Hok as [Oc Hok]. apply Forall_cons in Hok as [Ok' Hok].
  apply Forall_cons in Hok as [Om _].
  assert (forall f f', plain f -> plain f' -> f <> f' -> file f <> file f') as Hne.
  { intros f f' Hf Hf' Hd E. apply Hd. by eapply cert_file_inj in E as [_ ?]. }
  assert (os_ReadFile (file "tls.crt") fs' = Ok (cb_TLSCrt b)) as Rc.
  { apply os_ReadFile_ok; [|by rewrite Hden]. rewrite Hnodes.
    rewrite !lookup_insert_ne by (by apply Hne). by rewrite lookup_insert_eq. }
  assert (os_ReadFile (file "tls.key") fs' = Ok (cb_TLSKey b)) as Rk.
  { apply os_ReadFile_ok; [|by rewrite Hden]. rewrite Hnodes.
    rewrite lookup_insert_ne by (by apply Hne). by rewrite lookup_insert_eq. }
  assert (os_ReadFile (file "metadata.json") fs' = Ok (written_metadata b)) as Rm.
  { apply os_ReadFile_ok; [|by rewrite Hden]. rewrite Hnodes. by rewrite lookup_insert_eq. }
  split_and!.
  - unfold CheckCertificateBundle. rewrite bool_decide_false by done. fold (file "tls.crt").
    fold (file "tls.key"). fold (file "metadata.json").
    destruct (os_ReadFile_Stat _ _ _ Rc) as [? ->], (os_ReadFile_Stat _ _ _ Rk) as [? ->],
      (os_ReadFile_Stat _ _ _ Rm) as [? ->]. done.
  - unfold GetCertificateBundle. rewrite bool_decide_false by done. fold (file "tls.crt").
    fold (file "tls.key"). fold (file "metadata.json"). rewrite Rc, Rk, Rm.
    unfold written_metadata. case_bool_decide as Hm; cbn.
    + rewrite bool_decide_false by apply meta_not_empty. rewrite meta_roundtrip.
      rewrite (bool_decide_false (TrimSpace (cb_Hostname b) = "")) by done. eexists. split; [done|]. done.
    + rewrite bool_decide_false by done.
      destruct (meta_Unmarshal (cb_MetadataJSON b)) as [[h r]|]; eexists; (split; [done|]); done.
  - intros h' w' labels' Hh' Hd.
    assert (forall f, plain f -> os_ReadFile (cert_file root h' f) fs' = os_ReadFile (cert_file root h' f) fs)
      as Hread.
    { intros f Hf. unfold os_ReadFile, os_Stat. rewrite Hden, Hnodes.
      assert (forall f0, plain f0 -> file f0 <> cert_file root h' f) as Hother
        by (intros f0 Hf0 E; apply Hd; by eapply cert_file_inj in E as [? _]).
      rewrite !lookup_insert_ne by (first [by apply Hother|by eapply dir_not_file]). done. }
    unfold GetCertificateBundle. by rewrite !Hread.
Qed.

End bundles.

(** ** What the slave's DNS engine serves *)

Section served.
Context {SDB : Gorm SlaveTables slave_stmt slave_effect}.
Context {DT : MiekgDNS} {MR : MapRange} {MM : MiekgMsg} {UN : Unstructured} {GI : GeoIP}.

(** Every batch sent to the restore loop holds one record. *)
Definition single_batches (s : LocalStore) : Prop :=
  Forall (fun batch => exists r, batch = [r]) (ls_dnsChan s).

Lemma single_on_db {A} (m : go db A) : preserves single_batches (on_db m).
Proof. intros s Hs. unfold on_db, zoom. by destruct (m (ls_db s)). Qed.

Lemma single_send r : preserves single_batches (send_dns [r]).
Proof.
  intros s Hs. unfold single_batches in *. cbn. apply Forall_app. split; [done|].
  apply Forall_singleton. eauto.
Qed.

Lemma single_drop (m : go LocalStore ()) :
  preserves single_batches m -> preserves single_batches (drop_error m).
Proof.
  intros Hm s Hs. specialize (Hm s Hs). unfold drop_error.
  destruct (m s) as [s' [[]|e]]; cbn in *; [done|]. by destruct (is_panic e).
Qed.

Lemma single_from {A} (r : result A) : preserves single_batches (from_result r).
Proof. by intros s Hs. Qed.

Lemma single_run st : preserves single_batches (run_stmt st).
Proof. unfold run_stmt. apply preserves_bind; [apply single_on_db|]. intros. apply preserves_ret. Qed.

Lemma single_dns id r : preserves single_batches (apply_dns id r).
Proof.
  unfold apply_dns. apply preserves_bind; [|intros; apply single_drop, single_run].
  apply single_drop. unfold dealDNSRecords. case_match; [apply single_run|].
  apply preserves_bind; [apply single_from|intros payload].
  apply preserves_bind; [apply single_run|intros _; apply single_send].
Qed.

Lemma single_domain id p : preserves single_batches (apply_domain id p).
Proof.
  unfold apply_domain. apply preserves_bind; [|intros; apply single_drop, single_run].
  apply single_drop. unfold dealDomainEntries. case_match; [apply single_run|].
  apply preserves_bind; [apply single_from|intros payload].
  apply preserves_bind; [by intros s Hs|intros s0].
  apply preserves_bind; [|intros; apply single_run].
  destruct (dp_Cert p) as [c|]; [|apply preserves_ret].
  destruct (CheckCertificateBundle _ _ _) as [[]|e]; [apply preserves_ret| |by intros s Hs].
  apply preserves_bind; [by intros s Hs|intros _; apply preserves_ret].
Qed.

Lemma single_transaction body :
  preserves single_batches body -> preserves single_batches (in_transaction body).
Proof.
  intros Hb s Hs. unfold in_transaction. pose proof (single_on_db begin_tx s Hs) as H1.
  destruct (on_db begin_tx s) as [s1 [[]|e]]; [|done]. specialize (Hb s1 H1).
  destruct (body s1) as [s2 [[]|e]]; [|done]. pose proof (single_on_db commit_tx s2 Hb) as H3.
  by destruct (on_db commit_tx s2) as [s3 [[]|e]].
Qed.

Inductive slave_input :=
  | InSnapshot (s : option Snapshot)
  | InNotice (n : option ChangeNotification).

Definition slave_input_step (s : LocalStore) (i : slave_input) : LocalStore :=
  match i with
  | InSnapshot sn => (ApplySnapshot sn s).1
  | InNotice n => (ApplyChangelog n s).1
  end.

Lemma single_step s i : single_batches s -> single_batches (slave_input_step s i).
Proof.
  intros Hs. destruct i as [sn|n]; cbn.
  - destruct sn as [sn|]; [|done]. apply single_transaction; [|done].
    apply preserves_bind; [|intros _]; apply preserves_for_each; intros;
      [apply single_dns|apply single_domain].
  - destruct n as [n|]; [|done]. unfold ApplyChangelog. apply preserves_bind; [|intros r|done].
    + apply preserves_attempt. unfold GetSnapshotRecordID.
      apply preserves_bind; [apply preserves_attempt, single_on_db|intros r].
      destruct r; [apply preserves_ret|]. case_bool_decide; [apply preserves_ret|apply preserves_throw].
    + case_bool_decide; [apply preserves_ret|]. case_bool_decide; [apply preserves_throw|].
      apply single_transaction, preserves_bind; [|intros _]; apply preserves_for_each; intros;
        [apply single_dns|apply single_domain].
Qed.

Lemma restored_batch batches (e : Engine) :
  Forall (fun batch => exists r, batch = [r]) batches ->
  e_k8sDNS e = [] -> refines (e_store e) ∅ ->
  exists m, refines (e_store (DNSRestoreLoop batches e)) m /\
    (forall k k' r r', m !! k = Some r -> m !! k' = Some r' -> r = r').
Proof.
  intros Hb Hk He. destruct batches as [|b bs _] using rev_ind.
  - exists ∅. split; [done|]. intros k k' r r' H. by rewrite lookup_empty in H.
  - rewrite restore_loop_last_eq. exists (catalog_of (b ++ e_k8sDNS e)). split.
    + apply (restore_refines _ newDNSMemoryStore).
    + rewrite Hk, app_nil_r. apply Forall_app in Hb as [_ Hb].
      apply Forall_cons in Hb as [(r0 & ->) _]. cbn. unfold catalog_put. intros k k' r r' H H'.
      apply lookup_singleton_Some in H as [_ <-]. apply lookup_singleton_Some in H' as [_ <-]. done.
Qed.

(** C15. the slave serves one replicated record.  Whatever snapshots and notifications a
    slave applied, its restore loop hands the DNS engine one record at a time,
    each replacing what was restored before: any two records found in the
    engine's store, for whatever questions, are the same record. *)
Theorem slave_serves_one inputs s cfg geo q q' r r' :
  ls_dnsChan s = [] ->
  let s' := foldl slave_input_step s inputs in
  let e := DNSRestoreLoop (ls_dnsChan s') (NewEngine cfg geo false) in
  r ∈ as_Records (Lookup q (e_store e)).1 -> r' ∈ as_Records (Lookup q' (e_store e)).1 -> r = r'.
Proof.
  intros Hs. cbn zeta.
  assert (single_batches (foldl slave_input_step s inputs)) as Hb.
  { assert (single_batches s) as H0 by (unfold single_batches; rewrite Hs; constructor).
    clear Hs. revert s H0. induction inputs as [|i inputs IH]; intros s H0; [done|].
    cbn. by apply IH, single_step. }
  destruct (restored_batch _ (NewEngine cfg geo false) Hb eq_refl refines_new) as (m & Hm & Hone).
  intros H H'.
  destruct (lookup_answer _ _ q Hm) as (_ & _ & _ & _ & L). apply L in H as [H _].
  destruct (lookup_answer _ _ q' Hm) as (_ & _ & _ & _ & L'). apply L' in H' as [H' _].
  by eapply Hone.
Qed.

End served.

(** ** A run *)

Module SlaveRun.

(** A metadata text: a number that codes the host and the revision. *)
#[program] Definition sample_meta : MetaText := {|
  meta_Marshal h r := Itoa (Zpos (encode (h, r)));
  meta_Unmarshal t := digits_value (bytes t) ≫= fun n => decode (Z.to_pos n)
|}.
Next Obligation.
  intros h r E. destruct (Itoa_digits (Zpos (encode (h, r)))) as (_ & Hne & _); [lia|].
  apply Hne. by rewrite E.
Qed.
Next Obligation.
  intros h r. cbv beta. destruct (Itoa_digits (Zpos (encode (h, r)))) as (Hd & Hne & Hv); [lia|].
  assert (digits_value (bytes (Itoa (Zpos (encode (h, r))))) = Some (Zpos (encode (h, r)))) as ->.
  { unfold digits_value. destruct (bytes (Itoa _)) as [|c l]; [done|].
    apply forallb_Forall in Hd. rewrite Hd. f_equal. exact Hv. }
  cbn -[decode encode]. apply decode_encode.
Qed.

Definition bundle : CertificateBundle := mkCertificateBundle "www.example.com" 3 "CRT" "KEY" "".

Definition stored : FS := (PutCertificateBundle (MT:=sample_meta) "/certs" (Some bundle) (mkFS ∅ ∅)).1.

Lemma certificate_bundles_witness :
  CheckCertificateBundle "/certs" "www.example.com" stored = Ok true /\
  is_ok (GetCertificateBundle (MT:=sample_meta) "/certs" "www.example.com" 1 stored) = true.
Proof.
  destruct (certificate_bundles (MT:=sample_meta) "/certs" bundle (mkFS ∅ ∅) stored false
    ["www"; "example"; "com"] 1) as (H1 & (b' & H2 & _) & _).
  - done.
  - split_and!; [done|by repeat constructor|by vm_compute].
  - by vm_compute.
  - unfold stored. cbn [PutCertificateBundle]. vm_compute. reflexivity.
  - split; [exact H1|]. change (cb_Hostname bundle) with "www.example.com" in H2.
    rewrite H2. reflexivity.
Defined.

Definition slave_gorm : Gorm SlaveTables slave_stmt slave_effect :=
  MemGorm false slave_effect (fun _ => 0).
#[local] Existing Instances slave_gorm canonical_range DnsRun.sample_types ServeRun.sample_msgs
  ServeRun.sample_k8s ServeRun.sample_geo.

Definition empty_store : LocalStore :=
  mkLocalStore "/certs" (mkMemDB empty_slave None []) (mkFS ∅ ∅) [] [].

Definition address (id fqdn : string) : DNSRecord :=
  mkDNSRecord zero_Shared id fqdn "A" RoutingClassFirst 60 "10.0.0.1" "" true.

Definition two_records : list slave_input :=
  [InSnapshot (Some (mkSnapshot "edge-1" zero_time 2 [address "r1" "www.example.com"; address "r2" "api.example.com"] [] true))].

Definition served : Engine :=
  DNSRestoreLoop (ls_dnsChan (foldl slave_input_step empty_store two_records))
    (NewEngine (mkForwarderConfig false [] 0) false false).

Lemma slave_serves_one_witness :
  as_Records (Lookup (mkDNSQuestion "www.example.com" "A") (e_store served)).1 = [] /\
  exists r r', r ∈ as_Records (Lookup (mkDNSQuestion "api.example.com" "A") (e_store served)).1 /\
    r' ∈ as_Records (Lookup (mkDNSQuestion "API.example.com." "a") (e_store served)).1 /\ r = r'.
Proof.
  split; [by vm_compute|].
  assert (set_dr_FQDN (address "r2" "") "api.example.com." ∈
    as_Records (Lookup (mkDNSQuestion "api.example.com" "A") (e_store served)).1) as H1
    by (vm_compute; left).
  assert (set_dr_FQDN (address "r2" "") "api.example.com." ∈
    as_Records (Lookup (mkDNSQuestion "API.example.com." "a") (e_store served)).1) as H2
    by (vm_compute; left).
  eexists _, _. split; [exact H1|]. split; [exact H2|].
  apply (slave_serves_one two_records empty_store (mkForwarderConfig false [] 0) false
    (mkDNSQuestion "api.example.com" "A") (mkDNSQuestion "API.example.com." "a") _ _ eq_refl H1 H2).
Defined.

End SlaveRun.
