(* ===== verification/ClientHello.v ===== *)
(** * The server name of a TLS client hello: ingress/engine_tls.go

    The parser reads a frame by position.  An index or a slice outside the
    frame is a panic of the Go program; here it is the outcome [Panic], as is a
    loop that runs out of the fuel it was given. *)

From Stdlib Require Import Ascii.
From S2P Require Import Prelude GoStrings.

Open Scope Z_scope.

Inductive outcome (A : Type) :=
  | Ret (a : A)
  | Fail (e : error)
  | Panic.
Arguments Ret {A} _.
Arguments Fail {A} _.
Arguments Panic {A}.

#[export] Instance outcome_ret : MRet outcome := fun A a => Ret a.
#[export] Instance outcome_bind : MBind outcome := fun A B k m =>
  match m with Ret a => k a | Fail e => Fail e | Panic => Panic end.

Definition ErrUnexpectedEOF : error := errors_New "unexpected EOF".
Definition ErrBufferFull : error := errors_New "bufio: buffer full".

Abbreviation frame := (list Z).

Definition flen (f : frame) : Z := Z.of_nat (length f).

(** [frame[i]] *)
Definition index (f : frame) (i : Z) : outcome Z :=
  if bool_decide (0 <= i) then
    match f !! Z.to_nat i with Some b => Ret b | None => Panic end
  else Panic.

(** [string(frame[i:j])] *)
Definition slice (f : frame) (i j : Z) : outcome string :=
  if bool_decide (0 <= i <= j /\ j <= flen f)
  then Ret (of_bytes ((fun b => ascii_of_nat (Z.to_nat b)) <$> take (Z.to_nat (j - i)) (drop (Z.to_nat i) f)))
  else Panic.

(** [int(frame[i])<<8 | int(frame[i+1])] *)
Definition be16 (f : frame) (i : Z) : outcome Z :=
  hi ← index f i; lo ← index f (i + 1); Ret (Z.lor (Z.shiftl hi 8) lo).

(** The loop over the entries of a server name list. *)
Fixpoint name_loop (fuel : nat) (f : frame) (i listEnd : Z) : outcome (option string) :=
  match fuel with
  | O => Panic
  | S fuel =>
      if bool_decide (i + 3 <= listEnd /\ i + 3 <= flen f) then
        nameType ← index f i;
        nameLen ← be16 f (i + 1);
        let i := i + 3 in
        if bool_decide (i + nameLen > listEnd \/ i + nameLen > flen f) then Fail ErrUnexpectedEOF
        else if bool_decide (nameType = 0) then
          name ← slice f i (i + nameLen); Ret (Some name)
        else name_loop fuel f (i + nameLen) listEnd
      else Ret None
  end.

(** The loop over the extensions. *)
Fixpoint extension_loop (fuel : nat) (f : frame) (pos stop : Z) : outcome string :=
  match fuel with
  | O => Panic
  | S fuel =>
      if bool_decide (pos + 4 <= stop) then
        extType ← be16 f pos;
        extSize ← be16 f (pos + 2);
        let pos := pos + 4 in
        if bool_decide (pos + extSize > stop) then Fail ErrUnexpectedEOF
        else if bool_decide (extType = 0) then
          if bool_decide (pos + 2 > stop) then Fail ErrUnexpectedEOF
          else
            listLen ← be16 f pos;
            let i := pos + 2 in
            found ← name_loop (S (length f)) f i (i + listLen);
            match found with
            | Some name => Ret name
            | None => extension_loop fuel f (pos + extSize) stop
            end
        else extension_loop fuel f (pos + extSize) stop
      else Fail (errors_New "sni not found")
  end.

Definition parseTLSClientHelloServerName (f : frame) : outcome string :=
  if bool_decide (flen f < 43) then Fail (errors_New "invalid tls frame") else
  b0 ← index f 0;
  if bool_decide (b0 <> 22) then Fail (errors_New "invalid tls frame") else
  let pos := 5 in
  b5 ← index f pos;
  if bool_decide (b5 <> 1) then Fail (errors_New "not client hello") else
  let pos := pos + 4 + 2 + 32 in
  if bool_decide (pos >= flen f) then Fail ErrUnexpectedEOF else
  sessionIDLen ← index f pos;
  let pos := pos + 1 + sessionIDLen in
  if bool_decide (pos + 2 > flen f) then Fail ErrUnexpectedEOF else
  cipherLen ← be16 f pos;
  let pos := pos + 2 + cipherLen in
  if bool_decide (pos >= flen f) then Fail ErrUnexpectedEOF else
  compressionLen ← index f pos;
  let pos := pos + 1 + compressionLen in
  if bool_decide (pos + 2 > flen f) then Fail ErrUnexpectedEOF else
  extLen ← be16 f pos;
  let pos := pos + 2 in
  let stop := pos + extLen in
  if bool_decide (stop > flen f) then Fail ErrUnexpectedEOF else
  extension_loop (S (length f)) f pos stop.

(** The buffer of [bufio.NewReader]. *)
Definition peek_buffer : Z := 4096.

(** [reader.Peek(n)], on a connection that sends [input] before its deadline. *)
Definition Peek (input : frame) (n : Z) : outcome frame :=
  if bool_decide (n > peek_buffer) then Fail ErrBufferFull
  else if bool_decide (n > flen input) then Fail ErrUnexpectedEOF
  else Ret (take (Z.to_nat n) input).

Definition PeekServerName (input : frame) : outcome string :=
  header ← Peek input 5;
  b0 ← index header 0;
  if bool_decide (flen header < 5) || bool_decide (b0 <> 22)
  then Fail (errors_New "not a tls handshake")
  else
    recordLen ← be16 header 3;
    frame ← Peek input (5 + recordLen);
    parseTLSClientHelloServerName frame.

(** ** No input makes the parser panic *)

Definition bytes_ok (f : frame) : Prop := Forall (fun b => 0 <= b < 256) f.

Lemma index_ok f i : bytes_ok f -> 0 <= i < flen f -> exists b, index f i = Ret b /\ 0 <= b < 256.
Proof.
  intros Hf Hi. unfold index. rewrite bool_decide_true by lia.
  destruct (lookup_lt_is_Some_2 f (Z.to_nat i)) as [b Hb]; [unfold flen in Hi; lia|].
  rewrite Hb. exists b. split; [done|]. unfold bytes_ok in Hf. rewrite Forall_lookup in Hf. eauto.
Qed.

Lemma lor_bytes hi lo : 0 <= hi -> 0 <= lo < 256 -> Z.lor (Z.shiftl hi 8) lo = 256 * hi + lo.
Proof.
  intros Hhi Hlo. rewrite Z.shiftl_mul_pow2 by lia. change (2 ^ 8) with 256.
  pose proof (Z.add_lor_land (hi * 256) lo) as Hsum.
  assert (Z.land (hi * 256) lo = 0) as Hl; [|lia].
  apply Z.bits_inj'. intros n Hn. rewrite Z.land_spec, Z.bits_0.
  destruct (decide (n < 8)).
  - change 256 with (2 ^ 8). rewrite Z.mul_pow2_bits_low by lia. done.
  - assert (Z.testbit lo n = false) as ->; [|by rewrite andb_false_r].
    destruct (decide (lo = 0)) as [->|]; [apply Z.bits_0|].
    apply Z.bits_above_log2; [lia|]. assert (Z.log2 lo < 8); [|lia].
    apply Z.log2_lt_pow2; lia.
Qed.

Lemma be16_ok f i : bytes_ok f -> 0 <= i -> i + 2 <= flen f ->
  exists n, be16 f i = Ret n /\ 0 <= n < 65536.
Proof.
  intros Hf Hi Hl. unfold be16.
  destruct (index_ok f i Hf) as (hi & -> & Hhi); [lia|].
  destruct (index_ok f (i + 1) Hf) as (lo & -> & Hlo); [lia|]. cbn.
  eexists. split; [done|]. rewrite lor_bytes by lia. lia.
Qed.

Lemma slice_ok f i j : 0 <= i <= j -> j <= flen f -> exists s, slice f i j = Ret s.
Proof. intros H1 H2. unfold slice. rewrite bool_decide_true by lia. eauto. Qed.

Lemma name_loop_ok fuel f i listEnd :
  bytes_ok f -> 0 <= i -> (0 < fuel)%nat -> flen f - i < Z.of_nat fuel ->
  name_loop fuel f i listEnd <> Panic.
Proof.
  intros Hf. revert i. induction fuel as [|fuel IH]; intros i Hi H0 Hfuel; [lia|].
  cbn [name_loop]. case_bool_decide as Hc; [|done]. destruct Hc as [Hc1 Hc2].
  destruct (index_ok f i Hf) as (ty & -> & _); [lia|]. cbn [mbind outcome_bind].
  destruct (be16_ok f (i + 1) Hf) as (n & -> & Hn); [lia..|]. cbn [mbind outcome_bind].
  case_bool_decide as Hc3; [done|]. case_bool_decide.
  - destruct (slice_ok f (i + 3) (i + 3 + n)) as [s ->]; [lia|lia|done].
  - apply IH; lia.
Qed.

Lemma extension_loop_ok fuel f pos stop :
  bytes_ok f -> 0 <= pos -> stop <= flen f -> (0 < fuel)%nat -> stop - pos < Z.of_nat fuel ->
  extension_loop fuel f pos stop <> Panic.
Proof.
  intros Hf. revert pos. induction fuel as [|fuel IH]; intros pos Hp Hs H0 Hfuel; [lia|].
  cbn [extension_loop]. case_bool_decide as Hc; [|done].
  destruct (be16_ok f pos Hf) as (ty & -> & _); [lia..|].
  destruct (be16_ok f (pos + 2) Hf) as (sz & -> & Hsz); [lia..|]. cbn [mbind outcome_bind].
  case_bool_decide as Hc2; [done|]. case_bool_decide; [|apply IH; lia].
  case_bool_decide as Hc3; [done|].
  destruct (be16_ok f (pos + 4) Hf) as (n & -> & Hn); [lia..|]. cbn [mbind outcome_bind].
  pose proof (name_loop_ok (S (length f)) f (pos + 4 + 2) (pos + 4 + 2 + n) Hf) as Hl.
  destruct (name_loop _ _ _ _) as [[name|]|e|]; cbn; [done|apply IH; lia|done|].
  exfalso. apply Hl; [lia|lia|unfold flen; lia|done].
Qed.

Lemma parse_never_panics f : bytes_ok f -> parseTLSClientHelloServerName f <> Panic.
Proof.
  intros Hf. unfold parseTLSClientHelloServerName. case_bool_decide; [done|].
  destruct (index_ok f 0 Hf) as (b0 & -> & _); [lia|]. cbn [mbind outcome_bind].
  case_bool_decide; [done|]. destruct (index_ok f 5 Hf) as (b5 & -> & _); [lia|].
  cbn [mbind outcome_bind]. case_bool_decide; [done|]. case_bool_decide; [done|].
  destruct (index_ok f (5 + 4 + 2 + 32) Hf) as (sid & -> & Hsid); [lia|]. cbn [mbind outcome_bind].
  case_bool_decide; [done|].
  destruct (be16_ok f (5 + 4 + 2 + 32 + 1 + sid) Hf) as (cl & -> & Hcl); [lia..|].
  cbn [mbind outcome_bind]. case_bool_decide; [done|].
  destruct (index_ok f (5 + 4 + 2 + 32 + 1 + sid + 2 + cl) Hf) as (col & -> & Hcol); [lia|].
  cbn [mbind outcome_bind]. case_bool_decide; [done|].
  destruct (be16_ok f (5 + 4 + 2 + 32 + 1 + sid + 2 + cl + 1 + col) Hf) as (el & -> & Hel); [lia..|].
  cbn [mbind outcome_bind]. case_bool_decide; [done|].
  apply extension_loop_ok; [done|lia..|unfold flen in *; lia].
Qed.

(** Whatever bytes a client sends, the frame is read
    within its bounds and the loops end: peeking at the server name gives a
    name or an error, and never panics. *)
Lemma peek_never_panics input :
  bytes_ok input -> PeekServerName input <> Panic.
Proof.
  intros Hin. assert (forall n, Peek input n <> Panic) as Hpk.
  { intros n. unfold Peek. by repeat case_bool_decide. }
  assert (forall n fr, Peek input n = Ret fr -> bytes_ok fr /\ (0 <= n -> flen fr = n)) as Hfr.
  { intros n fr. unfold Peek. repeat case_bool_decide; try done. intros [= <-].
    split; [by apply Forall_take|]. intros Hn. unfold flen in *. rewrite length_take. lia. }
  unfold PeekServerName. destruct (Peek input 5) as [header|e|] eqn:E5; cbn; [|done|by destruct (Hpk 5)].
  destruct (Hfr _ _ E5) as [Hh Hlen]. specialize (Hlen ltac:(lia)).
  destruct (index_ok header 0 Hh) as (b0 & -> & _); [lia|]. cbn. destruct (_ || _); [done|].
  destruct (be16_ok header 3 Hh) as (n & -> & Hn); [lia..|]. cbn.
  destruct (Peek input (5 + n)) as [f|e|] eqn:Ef; cbn; [|done|by destruct (Hpk (5 + n))].
  destruct (Hfr _ _ Ef) as [Hf _]. apply parse_never_panics. done.
Qed.

(** ** The loops end: the fuel does not decide the result *)

Lemma name_loop_fuel a b f i listEnd :
  bytes_ok f -> 0 <= i -> (0 < a)%nat -> (0 < b)%nat ->
  flen f - i < 3 * Z.of_nat a -> flen f - i < 3 * Z.of_nat b ->
  name_loop a f i listEnd = name_loop b f i listEnd.
Proof.
  intros Hf. revert b i. induction a as [|a IH]; intros [|b] i Hi Ha Hb Hfa Hfb; [lia..|].
  cbn [name_loop]. case_bool_decide as Hc; [|done]. destruct Hc as [Hc1 Hc2].
  destruct (index_ok f i Hf) as (ty & -> & _); [lia|]. cbn [mbind outcome_bind].
  destruct (be16_ok f (i + 1) Hf) as (n & -> & Hn); [lia..|]. cbn [mbind outcome_bind].
  case_bool_decide as Hc3; [done|]. case_bool_decide; [done|]. apply IH; lia.
Qed.

Lemma extension_loop_fuel a b f pos stop :
  bytes_ok f -> 0 <= pos -> stop <= flen f -> (0 < a)%nat -> (0 < b)%nat ->
  stop - pos < 4 * Z.of_nat a -> stop - pos < 4 * Z.of_nat b ->
  extension_loop a f pos stop = extension_loop b f pos stop.
Proof.
  intros Hf. revert b pos. induction a as [|a IH]; intros [|b] pos Hp Hs Ha Hb Hfa Hfb; [lia..|].
  cbn [extension_loop]. case_bool_decide as Hc; [|done].
  destruct (be16_ok f pos Hf) as (ty & -> & _); [lia..|].
  destruct (be16_ok f (pos + 2) Hf) as (sz & -> & Hsz); [lia..|]. cbn [mbind outcome_bind].
  assert (pos + 4 + sz <= stop -> extension_loop a f (pos + 4 + sz) stop = extension_loop b f (pos + 4 + sz) stop)
    as Hrec.
  { intros Hle. apply IH; lia. }
  case_bool_decide as Hc2; [done|]. case_bool_decide; [|apply Hrec; lia].
  case_bool_decide as Hc3; [done|].
  destruct (be16_ok f (pos + 4) Hf) as (n & -> & Hn); [lia..|]. cbn [mbind outcome_bind].
  destruct (name_loop _ _ _ _) as [[name|]|e|]; cbn; [done|apply Hrec; lia|done..].
Qed.

(** ** Client hellos as TLS lays them out *)

Definition enc16 (n : nat) : frame := [Z.of_nat n / 256; Z.of_nat n mod 256].
Definition enc24 (n : nat) : frame :=
  [Z.of_nat n / 65536; Z.of_nat n / 256 mod 256; Z.of_nat n mod 256].

Definition vec8 (d : frame) : frame := Z.of_nat (length d) :: d.
Definition vec16 (d : frame) : frame := enc16 (length d) ++ d.

Record hello := mkHello {
  h_version : frame;
  h_random : frame;
  h_session : frame;
  h_ciphers : frame;
  h_compression : frame;
  h_extensions : list (Z * frame);
}.

Definition enc_extension (e : Z * frame) : frame := enc16 (Z.to_nat e.1) ++ vec16 e.2.

Definition enc_extensions (es : list (Z * frame)) : frame := es ≫= enc_extension.

Definition enc_hello (h : hello) : frame :=
  let body := h_version h ++ h_random h ++ vec8 (h_session h) ++ vec16 (h_ciphers h) ++
              vec8 (h_compression h) ++ vec16 (enc_extensions (h_extensions h)) in
  let handshake := 1 :: enc24 (length body) ++ body in
  [22; 3; 1] ++ vec16 handshake.

(** The server name extension for one host name. *)
Definition host_name_data (name : frame) : frame := vec16 (0 :: vec16 name).

Definition name_bytes (s : string) : frame := (fun c => Z.of_nat (nat_of_ascii c)) <$> bytes s.

Record hello_ok (h : hello) : Prop := {
  ho_version : length (h_version h) = 2%nat;
  ho_random : length (h_random h) = 32%nat;
  ho_session : flen (h_session h) < 256;
  ho_ciphers : flen (h_ciphers h) < 65536;
  ho_compression : flen (h_compression h) < 256;
  ho_extensions : flen (enc_extensions (h_extensions h)) < 65536;
}.

Lemma flen_app f g : flen (f ++ g) = flen f + flen g.
Proof. unfold flen. rewrite length_app. lia. Qed.

Lemma flen_cons b f : flen (b :: f) = 1 + flen f.
Proof. unfold flen. cbn [length]. lia. Qed.

(** Reading [F] at a position, given how [F] is put together there. *)
Lemma index_in F f b g p : F = f ++ b :: g -> p = flen f -> index F p = Ret b.
Proof.
  intros -> ->. unfold index, flen. rewrite bool_decide_true by lia.
  by rewrite Nat2Z.id, list_lookup_middle.
Qed.

Lemma be16_in F f n g p :
  F = f ++ enc16 n ++ g -> p = flen f -> Z.of_nat n < 65536 -> be16 F p = Ret (Z.of_nat n).
Proof.
  intros HF -> Hn. unfold be16, enc16 in *. cbn [app] in HF.
  rewrite (index_in F f _ _ _ HF eq_refl). cbn [mbind outcome_bind].
  rewrite (index_in F (f ++ [Z.of_nat n / 256]) (Z.of_nat n mod 256) g).
  - cbn [mbind outcome_bind].
    rewrite lor_bytes; [f_equal; pose proof (Z.div_mod (Z.of_nat n) 256); lia| |].
    + apply Z.div_pos; lia.
    + apply Z.mod_pos_bound. lia.
  - rewrite HF. by rewrite <- (assoc_L (++)).
  - rewrite flen_app. done.
Qed.

Lemma slice_in F f name g p q :
  F = f ++ name_bytes name ++ g -> p = flen f -> q = flen f + flen (name_bytes name) ->
  slice F p q = Ret name.
Proof.
  intros -> -> ->. unfold slice. rewrite bool_decide_true by (rewrite !flen_app; unfold flen; lia).
  f_equal.
  replace (Z.to_nat (flen f + flen (name_bytes name) - flen f)) with (length (name_bytes name))
    by (unfold flen; lia).
  unfold flen. rewrite Nat2Z.id, drop_app_length, take_app_length.
  apply bytes_inj. rewrite bytes_of_bytes. unfold name_bytes. rewrite <- list_fmap_compose.
  rewrite <- (list_fmap_id (bytes name)) at 2. apply list_fmap_ext. intros k c _. cbn.
  rewrite Nat2Z.id. apply ascii_nat_embedding.
Qed.

Lemma flen_enc16 n : flen (enc16 n) = 2.
Proof. done. Qed.
Lemma flen_enc24 n : flen (enc24 n) = 3.
Proof. done. Qed.
Lemma flen_vec16 d : flen (vec16 d) = 2 + flen d.
Proof. unfold vec16. rewrite flen_app. done. Qed.
Lemma flen_vec8 d : flen (vec8 d) = 1 + flen d.
Proof. apply flen_cons. Qed.
Lemma flen_pos f : 0 <= flen f.
Proof. unfold flen. lia. Qed.
Lemma flen_nil : flen [] = 0.
Proof. done. Qed.

Create HintDb flen discriminated.
#[local] Hint Rewrite flen_app flen_cons flen_enc16 flen_enc24 flen_vec16 flen_vec8 flen_nil : flen.

Ltac flen_lia :=
  autorewrite with flen in *;
  repeat match goal with
  | |- context [flen ?f] => lazymatch goal with H : 0 <= flen f |- _ => fail | _ => pose proof (flen_pos f) end
  | H : context [flen ?f] |- _ =>
      lazymatch goal with H' : 0 <= flen f |- _ => fail | _ => pose proof (flen_pos f) end
  end; lia.

(** Close [F = _] goals: the same frame with its parts grouped another way. *)
Ltac same_frame := subst; unfold enc_extension, host_name_data, vec16, vec8; cbn [fst snd];
  rewrite <- ?(assoc_L (++)); cbn [app]; rewrite <- ?(assoc_L (++)); reflexivity.

(** An extension that is not the server name is skipped. *)
Lemma skip_extension fuel F f t d g stop :
  F = f ++ enc_extension (t, d) ++ g ->
  0 < t < 65536 -> flen d < 65536 -> flen f + 4 + flen d <= stop ->
  extension_loop (S fuel) F (flen f) stop = extension_loop fuel F (flen f + 4 + flen d) stop.
Proof.
  intros HF Ht Hd Hstop. cbn [extension_loop]. rewrite bool_decide_true by flen_lia.
  rewrite (be16_in F f (Z.to_nat t) (vec16 d ++ g) (flen f)); [|same_frame|done|lia].
  cbn [mbind outcome_bind].
  rewrite (be16_in F (f ++ enc16 (Z.to_nat t)) (length d) (d ++ g) (flen f + 2)); [|same_frame|flen_lia|exact Hd].
  cbn [mbind outcome_bind]. fold (flen d).
  rewrite bool_decide_false by flen_lia. by rewrite bool_decide_false by lia.
Qed.

(** The server name extension is found. *)
Lemma find_extension fuel F f name g stop :
  F = f ++ enc_extension (0, host_name_data (name_bytes name)) ++ g ->
  flen (name_bytes name) < 65531 -> flen f + 9 + flen (name_bytes name) <= stop -> stop <= flen F ->
  extension_loop (S fuel) F (flen f) stop = Ret name.
Proof.
  intros HF Hn Hstop Hlen. set (nb := name_bytes name) in *.
  cbn [extension_loop]. rewrite bool_decide_true by flen_lia.
  rewrite (be16_in F f (Z.to_nat 0) (vec16 (host_name_data nb) ++ g) (flen f)); [|same_frame|done|lia].
  cbn [mbind outcome_bind].
  rewrite (be16_in F (f ++ enc16 0) (length (host_name_data nb)) (host_name_data nb ++ g)
    (flen f + 2));
    [|same_frame|flen_lia|fold (flen (host_name_data nb)); unfold host_name_data; flen_lia].
  cbn [mbind outcome_bind]. fold (flen (host_name_data nb)).
  assert (flen (host_name_data nb) = 5 + flen nb) as Hh by (unfold host_name_data; flen_lia).
  rewrite Hh. rewrite bool_decide_false by flen_lia. rewrite bool_decide_true by done.
  rewrite bool_decide_false by flen_lia.
  rewrite (be16_in F (f ++ enc16 0 ++ enc16 (length (host_name_data nb))) (length (0 :: vec16 nb))
    ((0 :: vec16 nb) ++ g) (flen f + 4)); [|same_frame|flen_lia|fold (flen (0 :: vec16 nb)); flen_lia].
  cbn [mbind outcome_bind]. fold (flen (0 :: vec16 nb)).
  assert (flen (0 :: vec16 nb) = 3 + flen nb) as Hl by flen_lia. rewrite Hl.
  cbn [name_loop]. rewrite bool_decide_true by flen_lia.
  set (pre := f ++ enc16 0 ++ enc16 (length (host_name_data nb)) ++ enc16 (length (0 :: vec16 nb))).
  assert (flen pre = flen f + 6) as Hpre by (unfold pre; flen_lia).
  rewrite (index_in F pre 0 (vec16 nb ++ g) (flen f + 4 + 2)); [|unfold pre; same_frame|lia].
  cbn [mbind outcome_bind].
  rewrite (be16_in F (pre ++ [0]) (length nb) (nb ++ g) (flen f + 4 + 2 + 1));
    [|unfold pre; same_frame|flen_lia|fold (flen nb); lia].
  cbn [mbind outcome_bind]. fold (flen nb). rewrite bool_decide_false by flen_lia.
  rewrite bool_decide_true by done.
  rewrite (slice_in F (pre ++ [0] ++ enc16 (length nb)) name g);
    [done|unfold pre, nb; same_frame|flen_lia|fold nb; flen_lia].
Qed.

Lemma skip_extensions fuel F f pre g stop :
  F = f ++ enc_extensions pre ++ g -> Forall (fun e => 0 < e.1 < 65536 /\ flen e.2 < 65536) pre ->
  flen f + flen (enc_extensions pre) <= stop ->
  extension_loop (length pre + fuel) F (flen f) stop =
  extension_loop fuel F (flen f + flen (enc_extensions pre)) stop.
Proof.
  revert f. induction pre as [|[t d] pre IH]; intros f HF Hpre Hstop.
  { unfold enc_extensions. cbn. by rewrite Z.add_0_r. }
  apply Forall_cons in Hpre as [[Ht Hd] Hpre]. cbn [fst snd] in *.
  change (enc_extensions ((t, d) :: pre)) with (enc_extension (t, d) ++ enc_extensions pre) in *.
  assert (flen (enc_extension (t, d)) = 4 + flen d) as He by (unfold enc_extension; cbn [fst snd]; flen_lia).
  autorewrite with flen in *. rewrite He in *. cbn [length Nat.add].
  rewrite (skip_extension _ F f t d (enc_extensions pre ++ g));
    [|rewrite HF; by rewrite <- (assoc_L (++))|done|done|pose proof (flen_pos (enc_extensions pre)); lia].
  replace (flen f + 4 + flen d) with (flen (f ++ enc_extension (t, d))) by (rewrite flen_app; lia).
  rewrite IH; [f_equal; rewrite flen_app; lia| |done|rewrite flen_app; lia].
  rewrite HF. by rewrite <- !(assoc_L (++)).
Qed.

Definition names_host (h : hello) (name : string) : Prop :=
  exists pre post, h_extensions h = pre ++ (0, host_name_data (name_bytes name)) :: post /\
    Forall (fun e => 0 < e.1 < 65536 /\ flen e.2 < 65536) pre.

Lemma length_extensions pre : (length pre <= length (enc_extensions pre))%nat.
Proof.
  induction pre as [|e pre IH]; [done|].
  change (enc_extensions (e :: pre)) with (enc_extension e ++ enc_extensions pre).
  rewrite length_app. unfold enc_extension. rewrite length_app. cbn. lia.
Qed.

Lemma parse_extensions F f h name :
  names_host h name -> F = f ++ enc_extensions (h_extensions h) ->
  flen (enc_extensions (h_extensions h)) < 65536 ->
  extension_loop (S (length F)) F (flen f) (flen F) = Ret name.
Proof.
  intros (pre & post & Hex & Hpre) HF Hlen. rewrite Hex in HF, Hlen.
  unfold enc_extensions in HF, Hlen. rewrite bind_app in HF, Hlen. fold (enc_extensions pre) in HF, Hlen.
  change (((0, host_name_data (name_bytes name)) :: post) ≫= enc_extension)
    with (enc_extension (0, host_name_data (name_bytes name)) ++ enc_extensions post) in HF, Hlen.
  assert (flen (enc_extension (0, host_name_data (name_bytes name))) = 9 + flen (name_bytes name)) as He
    by (unfold enc_extension, host_name_data; cbn [fst snd]; flen_lia).
  remember (enc_extension (0, host_name_data (name_bytes name))) as ext eqn:Hext.
  rewrite !flen_app, He in Hlen.
  assert (flen F = flen f + (flen (enc_extensions pre) + (9 + flen (name_bytes name) + flen (enc_extensions post))))
    as HFl by (rewrite HF, !flen_app, He; lia).
  pose proof (length_extensions pre) as Hl.
  assert (length pre <= length F)%nat as HlF by (unfold flen in *; lia).
  replace (S (length F)) with (length pre + S (length F - length pre))%nat by lia.
  pose proof (flen_pos (enc_extensions pre)). pose proof (flen_pos (enc_extensions post)).
  rewrite (skip_extensions _ F f pre (ext ++ enc_extensions post));
    [|done|done|pose proof (flen_pos (name_bytes name)); lia].
  rewrite <- flen_app.
  apply (find_extension _ F (f ++ enc_extensions pre) name (enc_extensions post)).
  - rewrite HF, Hext. by rewrite <- (assoc_L (++)).
  - lia.
  - rewrite flen_app. lia.
  - lia.
Qed.

Lemma parse_hello h name :
  hello_ok h -> names_host h name -> parseTLSClientHelloServerName (enc_hello h) = Ret name.
Proof.
  intros [Hv Hr Hs Hc Hco He] Hname. set (F := enc_hello h).
  assert (flen (h_version h) = 2) as Hv' by (unfold flen; lia).
  assert (flen (h_random h) = 32) as Hr' by (unfold flen; lia).
  set (exts := enc_extensions (h_extensions h)) in *.
  set (body := h_version h ++ h_random h ++ vec8 (h_session h) ++ vec16 (h_ciphers h) ++
    vec8 (h_compression h) ++ vec16 exts).
  set (hdr := [22; 3; 1] ++ enc16 (length (1 :: enc24 (length body) ++ body)) ++ [1] ++ enc24 (length body)).
  assert (F = hdr ++ body) as HF by (unfold F, enc_hello; fold exts; fold body; unfold hdr; same_frame).
  assert (flen hdr = 9) as Hhdr by (unfold hdr; flen_lia).
  set (p1 := hdr ++ h_version h ++ h_random h).
  assert (flen p1 = 43) as Hp1 by (unfold p1; rewrite !flen_app; lia).
  set (p2 := p1 ++ vec8 (h_session h)). set (p3 := p2 ++ vec16 (h_ciphers h)).
  set (p4 := p3 ++ vec8 (h_compression h)). set (p5 := p4 ++ enc16 (length exts)).
  assert (flen p2 = 43 + 1 + flen (h_session h)) as Hp2 by (unfold p2; flen_lia).
  assert (flen p3 = flen p2 + 2 + flen (h_ciphers h)) as Hp3 by (unfold p3; flen_lia).
  assert (flen p4 = flen p3 + 1 + flen (h_compression h)) as Hp4 by (unfold p4; flen_lia).
  assert (flen p5 = flen p4 + 2) as Hp5 by (unfold p5; flen_lia).
  assert (F = p5 ++ exts) as HF5 by (rewrite HF; unfold p5, p4, p3, p2, p1, body; same_frame).
  assert (flen F = flen p5 + flen exts) as HlF by (rewrite HF5, flen_app; done).
  pose proof (flen_pos (h_session h)). pose proof (flen_pos (h_ciphers h)).
  pose proof (flen_pos (h_compression h)). pose proof (flen_pos exts).
  unfold parseTLSClientHelloServerName. rewrite bool_decide_false by lia.
  rewrite (index_in F [] 22 (drop 1 F) 0) by (rewrite ?HF; reflexivity). cbn [mbind outcome_bind].
  rewrite bool_decide_false by lia.
  rewrite (index_in F ([22; 3; 1] ++ enc16 (length (1 :: enc24 (length body) ++ body))) 1
    (enc24 (length body) ++ body) 5);
    [|rewrite HF; unfold hdr; same_frame|flen_lia]. cbn [mbind outcome_bind].
  rewrite bool_decide_false by lia. rewrite bool_decide_false by lia.
  rewrite (index_in F p1 (flen (h_session h)) (h_session h ++ vec16 (h_ciphers h) ++
    vec8 (h_compression h) ++ vec16 exts)); [|rewrite HF; unfold p1, body, flen; same_frame|lia].
  cbn [mbind outcome_bind]. rewrite bool_decide_false by lia.
  rewrite (be16_in F p2 (length (h_ciphers h)) (h_ciphers h ++ vec8 (h_compression h) ++ vec16 exts));
    [|rewrite HF; unfold p2, p1, body; same_frame|lia|exact Hc].
  cbn [mbind outcome_bind]. fold (flen (h_ciphers h)). rewrite bool_decide_false by lia.
  rewrite (index_in F p3 (flen (h_compression h)) (h_compression h ++ vec16 exts));
    [|rewrite HF; unfold p3, p2, p1, body, flen; same_frame|lia].
  cbn [mbind outcome_bind]. rewrite bool_decide_false by lia.
  rewrite (be16_in F p4 (length exts) exts);
    [|rewrite HF; unfold p4, p3, p2, p1, body; same_frame|lia|exact He].
  cbn [mbind outcome_bind]. fold (flen exts). rewrite bool_decide_false by lia.
  match goal with |- extension_loop _ _ ?p ?q = _ =>
    assert (p = flen p5) as Ep by lia; assert (q = flen F) as Eq by lia; rewrite Eq, Ep end.
  exact (parse_extensions F p5 h name Hname HF5 He).
Qed.

(** For every client hello as TLS lays it out that
    names a host, whatever comes before and after the server name, the host
    name is found when the record fits the buffer of 4096 bytes; a longer
    record is refused. *)
Lemma peek_server_name h name rest :
  hello_ok h -> names_host h name -> flen (enc_hello h) < 65541 ->
  PeekServerName (enc_hello h ++ rest) =
  if bool_decide (flen (enc_hello h) <= peek_buffer) then Ret name else Fail ErrBufferFull.
Proof.
  intros Hok Hname Hsz. pose proof (parse_hello h name Hok Hname) as Hparse.
  assert (exists hs, enc_hello h = [22; 3; 1] ++ vec16 hs) as [hs Hh] by (eexists; reflexivity).
  rewrite Hh in *. autorewrite with flen in Hsz.
  assert (flen ([22; 3; 1] ++ vec16 hs) = 5 + flen hs) as Hl by flen_lia.
  pose proof (flen_pos hs). pose proof (flen_pos rest).
  unfold PeekServerName.
  assert (Peek (([22; 3; 1] ++ vec16 hs) ++ rest) 5 = Ret ([22; 3; 1] ++ enc16 (length hs))) as ->.
  { unfold Peek, peek_buffer. rewrite bool_decide_false by lia.
    rewrite bool_decide_false by (rewrite flen_app; lia). done. }
  cbn [mbind outcome_bind].
  rewrite (index_in _ [] 22 ([3; 1] ++ enc16 (length hs))) by reflexivity. cbn [mbind outcome_bind].
  replace (bool_decide (flen ([22; 3; 1] ++ enc16 (length hs)) < 5) || bool_decide (22 <> 22)) with false
    by reflexivity.
  rewrite (be16_in _ [22; 3; 1] (length hs) []) by (first [by rewrite app_nil_r|reflexivity|unfold flen in Hsz; lia]).
  cbn [mbind outcome_bind]. fold (flen hs). unfold Peek, peek_buffer. rewrite Hl.
  case_bool_decide as Hc.
  - rewrite bool_decide_false by lia. done.
  - rewrite bool_decide_false by (rewrite flen_app; lia). rewrite bool_decide_true by lia.
    cbn [mbind outcome_bind].
    replace (Z.to_nat (5 + flen hs)) with (length ([22; 3; 1] ++ vec16 hs)) by (unfold flen in *; lia).
    by rewrite take_app_length.
Qed.

(** ** A hello *)

Definition sample_hello : hello :=
  mkHello [3; 3] (replicate 32 7) [] [19; 1; 19; 2] [0]
    [(10, vec16 [0; 29]); (0, host_name_data (name_bytes "www.example.com")); (23, [])].

(** C22. the loops over a client hello end.  On a frame of any bytes, from any
    position, the loop over the entries of a name list finishes within one
    more than a third of the bytes it is given, and the loop over the
    extensions within one more than a quarter: with that many iterations
    allowed or more, the result is the same, and it is a name or an error and
    neither an iteration too few nor a read outside the frame.  So peeking at
    the server name of any input returns. *)
Theorem hello_loops_end f :
  bytes_ok f ->
  (forall fuel i listEnd, 0 <= i -> flen f / 3 < Z.of_nat fuel ->
     name_loop fuel f i listEnd = name_loop (S (length f)) f i listEnd /\ name_loop fuel f i listEnd <> Panic) /\
  (forall fuel pos stop, 0 <= pos -> stop <= flen f -> flen f / 4 < Z.of_nat fuel ->
     extension_loop fuel f pos stop = extension_loop (S (length f)) f pos stop /\
     extension_loop fuel f pos stop <> Panic) /\
  PeekServerName f <> Panic.
Proof.
  intros Hf. pose proof (flen_pos f) as Hpos. assert (Z.of_nat (S (length f)) = flen f + 1) as Hl by (unfold flen; lia).
  split; [|split; [|by apply peek_never_panics]].
  - intros fuel i listEnd Hi Hfuel.
    pose proof (Z.div_pos (flen f) 3). pose proof (Z.mul_succ_div_gt (flen f) 3).
    assert (name_loop fuel f i listEnd = name_loop (S (length f)) f i listEnd) as E.
    { apply name_loop_fuel; try done; lia. }
    split; [exact E|]. rewrite E. apply name_loop_ok; try done; lia.
  - intros fuel pos stop Hp Hs Hfuel.
    pose proof (Z.div_pos (flen f) 4). pose proof (Z.mul_succ_div_gt (flen f) 4).
    assert (extension_loop fuel f pos stop = extension_loop (S (length f)) f pos stop) as E.
    { apply extension_loop_fuel; try done; lia. }
    split; [exact E|]. rewrite E. apply extension_loop_ok; try done; lia.
Qed.

Lemma hello_loops_end_witness :
  PeekServerName (enc_hello sample_hello) <> Panic /\
  extension_loop 26 (enc_hello sample_hello) 54 90 = Ret "www.example.com".
Proof.
  assert (bytes_ok (enc_hello sample_hello)) as Hf by (apply (bool_decide_unpack _); vm_compute; exact I).
  destruct (hello_loops_end (enc_hello sample_hello) Hf) as (_ & Hext & Hpeek). split; [exact Hpeek|].
  destruct (Hext 26%nat 54 90) as [E _]; [lia|by vm_compute|by vm_compute|].
  rewrite E. vm_compute. reflexivity.
Defined.
