(* ===== verification/CertWatch.v ===== *)
(** * Watching the certificate files: ingress/tls_cert_file_provider_nonwindows.go

    The watcher keeps an inotify watch on every certificate directory, reads
    the kernel's events as bytes, and hands the changed paths to the resolver,
    which drops what it has cached for them. *)

From Stdlib Require Import Ascii.
From S2P Require Import Prelude GoStrings GoTime Metadata HostNames GoPath GoFS CertLRU CertResolver ClientHello.

Open Scope Z_scope.

(** ** The directories to watch *)

Definition sub_directories (dir : string) (fs : FS) : list string :=
  match os_ReadDir dir fs with
  | Err _ => []
  | Ok entries => omap (fun '(name, isDir) => if (isDir : bool) then Some name else None) entries
  end.

Definition collectWatchDirectories (certRoot : string) (fs : FS) : gset string :=
  if bool_decide (TrimSpace certRoot = "") then ∅
  else
    {[certRoot]} ∪
    list_to_set (sub_directories certRoot fs ≫= fun name =>
      let dir := path_Join [certRoot; name] in
      dir :: (if bool_decide (name <> ".wildcard") then []
              else (fun wildcard => path_Join [dir; wildcard]) <$> sub_directories dir fs)).

(** ** The kernel's side *)

(** An inotify instance.  [ino_watched]: the directories it watches, by their
    descriptors; [ino_used]: the descriptors it has given out, which it does
    not give out again.  Adding a watch for a directory that is watched gives
    its descriptor.  [ino_room]: how many watches can be added for certain. *)
Class Inotify := {
  inotify : Type;
  ino_watched : inotify -> gmap Z string;
  ino_used : inotify -> gset Z;
  ino_room : inotify -> Z;
  InotifyInit1 : result inotify;
  InotifyAddWatch : string -> go inotify Z;
  InotifyRmWatch : Z -> go inotify ();
  init_empty : forall k, InotifyInit1 = Ok k -> ino_watched k = ∅;
  used_watched : forall k wd, is_Some (ino_watched k !! wd) -> wd ∈ ino_used k;
  add_ok : forall path k wd, (InotifyAddWatch path k).2 = Ok wd ->
    0 <= wd < 2 ^ 31 /\ (ino_watched k !! wd = Some path \/ wd ∉ ino_used k) /\
    ino_watched (InotifyAddWatch path k).1 = <[wd := path]> (ino_watched k) /\
    ino_used (InotifyAddWatch path k).1 = {[wd]} ∪ ino_used k;
  add_err : forall path k e, (InotifyAddWatch path k).2 = Err e ->
    ino_watched (InotifyAddWatch path k).1 = ino_watched k /\ ino_used (InotifyAddWatch path k).1 = ino_used k;
  add_room : forall path k, 0 < ino_room k ->
    ino_room k - 1 <= ino_room (InotifyAddWatch path k).1 /\ is_ok (InotifyAddWatch path k).2 = true;
  rm_watch : forall wd k,
    ino_watched (InotifyRmWatch wd k).1 = delete wd (ino_watched k) /\
    ino_used (InotifyRmWatch wd k).1 = ino_used k /\ ino_room k <= ino_room (InotifyRmWatch wd k).1;
}.

(** ** The watcher *)

Section watcher.
Context {IN : Inotify} {MR : MapRange}.

(** [cw_fd]: the inotify instance behind the file descriptor. *)
Record certWatcher := mkWatcher {
  cw_fd : inotify;
  cw_watches : gmap string Z;
  cw_paths : gmap Z string;
}.

Definition with_fd (f : inotify -> inotify) (w : certWatcher) : certWatcher :=
  mkWatcher (f (cw_fd w)) (cw_watches w) (cw_paths w).

(** The keys of a set that is a map of empty structs. *)
Definition range_set (s : gset string) : list string := (range (gset_to_gmap () s)).*1.

(** The body of the loop over the watches. *)
Definition drop_watch (paths : gset string) (w : certWatcher) (entry : string * Z) : certWatcher :=
  let '(path, wd) := entry in
  if bool_decide (path ∈ paths) then w
  else mkWatcher (InotifyRmWatch wd (cw_fd w)).1 (delete path (cw_watches w)) (delete wd (cw_paths w)).

(** The body of the loop over the directories; a watch that cannot be added is
    passed over. *)
Definition add_watch (w : certWatcher) (path : string) : certWatcher :=
  match cw_watches w !! path with
  | Some _ => w
  | None =>
      match InotifyAddWatch path (cw_fd w) with
      | (fd, Err _) => mkWatcher fd (cw_watches w) (cw_paths w)
      | (fd, Ok wd) =>
          let watchID := u32 wd in
          mkWatcher fd (<[path := watchID]> (cw_watches w)) (<[watchID := path]> (cw_paths w))
      end
  end.

(** [refresh] never fails. *)
Definition refresh (certRoot : string) (fs : FS) (w : certWatcher) : certWatcher :=
  let paths := collectWatchDirectories certRoot fs in
  foldl add_watch (foldl (drop_watch paths) w (range (cw_watches w))) (range_set paths).

(** [newCertWatcher], up to starting [run] *)
Definition newCertWatcher (certRoot : string) (fs : FS) : result certWatcher :=
  fd ← InotifyInit1;
  Ok (refresh certRoot fs (mkWatcher fd ∅ ∅)).

(** *** Events *)

(** The header of an event: four 32-bit numbers in the machine's byte order,
    which is little-endian on the machines the program is built for. *)
Definition SizeofInotifyEvent : Z := 16.

Definition le32 (f : frame) (i : Z) : outcome Z :=
  b0 ← index f i; b1 ← index f (i + 1); b2 ← index f (i + 2); b3 ← index f (i + 3);
  Ret (Z.lor (Z.shiftl (Z.lor (Z.shiftl (Z.lor (Z.shiftl b3 8) b2) 8) b1) 8) b0).

Definition event_path (paths : gmap Z string) (wd : Z) (name : string) : option string :=
  let basePath := default "" (paths !! wd) in
  if bool_decide (basePath <> "") then
    if bool_decide (name = "") then Some basePath else Some (path_Join [basePath; name])
  else None.

Definition nul : string := String Ascii.zero "".

(** The loop over the events of a buffer. *)
Fixpoint event_loop (fuel : nat) (paths : gmap Z string) (buf : frame) (n offset : Z) (changed : gset string)
    : outcome (gset string) :=
  match fuel with
  | O => Panic
  | S fuel =>
      if bool_decide (offset + SizeofInotifyEvent <= n) then
        wd ← le32 buf offset;
        eventLen ← le32 buf (offset + 12);
        nameBytes ← slice buf (offset + SizeofInotifyEvent) (offset + SizeofInotifyEvent + eventLen);
        let name := TrimRight nameBytes nul in
        event_loop fuel paths buf n (offset + (SizeofInotifyEvent + eventLen))
          (match event_path paths wd name with Some path => {[path]} ∪ changed | None => changed end)
      else Ret changed
  end.

Definition parseChangedPaths (w : certWatcher) (buf : frame) (n : Z) : outcome (list string) :=
  changed ← event_loop (S (length buf)) (cw_paths w) buf n 0 ∅;
  Ret (range_set changed).

(** *** The loop that reads events *)

(** What a read of the descriptor gives: the buffer and how much of it is new,
    or an error, which may be that the call was interrupted. *)
Inductive read_result := ReadBytes (buf : frame) (n : Z) | ReadInterrupted | ReadFailed.

Context {V : Type}.
Abbreviation watched := (certWatcher * LunaTLSCertResolver V)%type.

Definition run_step (certRoot : string) (fs : FS) (buf : frame) (n : Z) (s : watched) : outcome watched :=
  let '(w, r) := s in
  changedPaths ← parseChangedPaths w buf n;
  if bool_decide (changedPaths = []) then Ret (w, r)
  else Ret (refresh certRoot fs w, invalidateCacheForPaths changedPaths r).

(** [run] until the watcher is closed, on what the reads give and the file
    system each of them finds. *)
Fixpoint run (certRoot : string) (reads : list (FS * read_result)) (s : watched) : outcome watched :=
  match reads with
  | [] => Ret s
  | (fs, ReadBytes buf n) :: reads => s ← run_step certRoot fs buf n s; run certRoot reads s
  | (_, ReadInterrupted) :: reads => run certRoot reads s
  | (_, ReadFailed) :: _ => Ret s
  end.

(** *** Starting it *)

(** [restartWatcher]: closing a watcher closes its descriptor. *)
Definition restartWatcher (certRoot : string) (fs : FS) : go (option certWatcher) () := fun _ =>
  if bool_decide (TrimSpace certRoot = "")
  then (None, Err (errors_New "certificate root is required to start watcher"))
  else match os_Stat certRoot fs with
       | Err e => (None, Err e)
       | Ok (FFile _) => (None, Err (Errorf "certificate root %q is not a directory" [certRoot]))
       | Ok FDir => match newCertWatcher certRoot fs with
                    | Err e => (None, Err e)
                    | Ok w => (Some w, Ok tt)
                    end
       end.

Definition Start (r : LunaTLSCertResolver V) (fs : FS) : go (option certWatcher) () :=
  restartWatcher (rs_certRoot r) fs.

End watcher.
