(* ===== verification/CertWatchFacts.v ===== *)
(** * The cache follows the disk

    The events of a buffer are read back as they were laid out, the watches are
    those of the certificate directories, and the cache of the resolver agrees
    with the disk after every batch of events that names the hosts whose files
    changed. *)

From Stdlib Require Import Ascii.
From S2P Require Import Prelude GoStrings GoTime Metadata HostNames GoPath GoFS CertLRU CertResolver CertResolverFacts.
From S2P Require Import ClientHello CertWatch.

Open Scope Z_scope.

(** ** Events as the kernel lays them out *)

Definition enc_le32 (n : Z) : frame := [n mod 256; n / 256 mod 256; n / 65536 mod 256; n / 16777216].

(** The name is padded with zero bytes. *)
Record ino_event := mkEvent {
  ev_wd : Z;
  ev_mask : Z;
  ev_cookie : Z;
  ev_name : string;
  ev_pad : nat;
}.

Definition padded (name : string) (pad : nat) : string := of_bytes (bytes name ++ replicate pad Ascii.zero).

Definition enc_event (e : ino_event) : frame :=
  enc_le32 (ev_wd e) ++ enc_le32 (ev_mask e) ++ enc_le32 (ev_cookie e) ++
  enc_le32 (flen (name_bytes (padded (ev_name e) (ev_pad e)))) ++ name_bytes (padded (ev_name e) (ev_pad e)).

Definition enc_events (es : list ino_event) : frame := es ≫= enc_event.

Definition event_ok (e : ino_event) : Prop :=
  0 <= ev_wd e < 2 ^ 32 /\ Ascii.zero ∉ bytes (ev_name e) /\
  flen (name_bytes (padded (ev_name e) (ev_pad e))) < 2 ^ 32.

Lemma le32_in F f n g p : F = f ++ enc_le32 n ++ g -> p = flen f -> 0 <= n < 2 ^ 32 -> le32 F p = Ret n.
Proof.
  intros HF -> Hn. unfold le32, enc_le32 in *. cbn [app] in HF.
  rewrite (index_in F f _ _ _ HF eq_refl). cbn [mbind outcome_bind].
  rewrite (index_in F (f ++ [n mod 256]) (n / 256 mod 256) (n / 65536 mod 256 :: n / 16777216 :: g) (flen f + 1));
    [|by rewrite HF, <- (assoc_L (++))|rewrite flen_app; reflexivity].
  rewrite (index_in F (f ++ [n mod 256; n / 256 mod 256]) (n / 65536 mod 256) (n / 16777216 :: g) (flen f + 2));
    [|by rewrite HF, <- (assoc_L (++))|rewrite flen_app; reflexivity].
  rewrite (index_in F (f ++ [n mod 256; n / 256 mod 256; n / 65536 mod 256]) (n / 16777216) g (flen f + 3));
    [|by rewrite HF, <- (assoc_L (++))|rewrite flen_app; reflexivity].
  cbn [mbind outcome_bind]. f_equal. change (2 ^ 32) with 4294967296 in Hn.
  assert (0 <= n / 16777216 < 256) as H3 by (Z.to_euclidean_division_equations; lia).
  pose proof (Z.mod_pos_bound (n / 65536) 256). pose proof (Z.mod_pos_bound (n / 256) 256).
  pose proof (Z.mod_pos_bound n 256). rewrite (lor_bytes (n / 16777216)) by lia.
  rewrite (lor_bytes (256 * _ + _)) by lia. rewrite lor_bytes by lia.
  clear. Z.to_euclidean_division_equations. lia.
Qed.

Lemma trim_padded name pad : Ascii.zero ∉ bytes name -> TrimRight (padded name pad) nul = name.
Proof.
  intros Hz. unfold TrimRight, padded, trim_right. rewrite bytes_of_bytes, reverse_app, reverse_replicate.
  assert (forall l, trim_left (in_cutset nul) (replicate pad Ascii.zero ++ l) = trim_left (in_cutset nul) l) as ->.
  { intros l. induction pad as [|pad IH]; [done|]. exact IH. }
  assert (trim_left (in_cutset nul) (reverse (bytes name)) = reverse (bytes name)) as ->.
  { destruct (reverse (bytes name)) as [|c l] eqn:E; [done|]. cbn.
    assert (c <> Ascii.zero) as Hc.
    { intros ->. apply Hz. rewrite <- elem_of_reverse, E. apply elem_of_cons. by left. }
    assert (in_cutset nul c = false) as ->; [|done]. unfold in_cutset. apply bool_decide_eq_false.
    change (bytes nul) with [Ascii.zero]. by rewrite list_elem_of_singleton. }
  rewrite reverse_involutive. apply of_bytes_bytes.
Qed.

Lemma flen_event e : flen (enc_event e) = 16 + flen (name_bytes (padded (ev_name e) (ev_pad e))).
Proof. unfold enc_event. rewrite !flen_app. unfold enc_le32. cbn [flen length]. unfold flen; cbn; lia. Qed.

(** The paths that a batch of events reports. *)
Definition reported (paths : gmap Z string) (es : list ino_event) : list string :=
  omap (fun e => event_path paths (ev_wd e) (ev_name e)) es.

Lemma event_loop_events fuel paths F f es g changed n :
  Forall event_ok es -> F = f ++ enc_events es ++ g -> n = flen f + flen (enc_events es) -> (length es < fuel)%nat ->
  event_loop fuel paths F n (flen f) changed = Ret (list_to_set (reported paths es) ∪ changed).
Proof.
  intros Hes. revert fuel f changed. induction Hes as [|e es (Hwd & Hz & Hlen) Hes IH]; intros [|fuel] f changed HF Hn Hfuel;
    [cbn in Hfuel; lia| |cbn in Hfuel; lia|]; cbn [event_loop].
  - change (flen (enc_events [])) with 0 in Hn.
    rewrite bool_decide_false by (unfold SizeofInotifyEvent; lia). f_equal. cbn. set_solver.
  - unfold enc_events in HF, Hn. cbn [mbind list_bind] in HF, Hn. fold (enc_events es) in HF, Hn.
    rewrite flen_app, flen_event in Hn. pose proof (flen_pos (enc_events es)).
    set (name := padded (ev_name e) (ev_pad e)) in *. pose proof (flen_pos (name_bytes name)).
    rewrite bool_decide_true by (unfold SizeofInotifyEvent; lia).
    set (l0 := enc_le32 (ev_wd e)). set (l1 := enc_le32 (ev_mask e)). set (l2 := enc_le32 (ev_cookie e)).
    set (l3 := enc_le32 (flen (name_bytes name))).
    assert (enc_event e = l0 ++ l1 ++ l2 ++ l3 ++ name_bytes name) as He by done.
    rewrite He in HF.
    rewrite (le32_in F f (ev_wd e) (l1 ++ l2 ++ l3 ++ name_bytes name ++ enc_events es ++ g) (flen f));
      [|rewrite HF; unfold l0; rewrite <- ?(assoc_L (++)); reflexivity|done|done]. cbn [mbind outcome_bind].
    rewrite (le32_in F (f ++ l0 ++ l1 ++ l2) (flen (name_bytes name)) (name_bytes name ++ enc_events es ++ g) (flen f + 12));
      [|rewrite HF; unfold l3; rewrite <- ?(assoc_L (++)); reflexivity|rewrite !flen_app; reflexivity|lia]. cbn [mbind outcome_bind].
    assert (flen (f ++ l0 ++ l1 ++ l2 ++ l3) = flen f + 16) as Hl by (rewrite !flen_app; reflexivity).
    rewrite (slice_in F (f ++ l0 ++ l1 ++ l2 ++ l3) name (enc_events es ++ g));
      [|rewrite HF; rewrite <- ?(assoc_L (++)); reflexivity|unfold SizeofInotifyEvent; lia|unfold SizeofInotifyEvent; lia].
    cbn [mbind outcome_bind]. cbv zeta. assert (TrimRight name nul = ev_name e) as -> by by apply trim_padded.
    assert (flen f + (SizeofInotifyEvent + flen (name_bytes name)) = flen (f ++ enc_event e)) as ->
      by (rewrite flen_app, flen_event; done).
    rewrite (IH fuel (f ++ enc_event e)); [| |rewrite flen_app, flen_event; fold name; lia|cbn in Hfuel; lia].
    + f_equal. unfold reported. cbn [omap list_omap].
      destruct (event_path paths (ev_wd e) (ev_name e)); cbn; set_solver.
    + rewrite HF, He. rewrite <- ?(assoc_L (++)). reflexivity.
Qed.

Lemma length_events es : Z.of_nat (length es) <= flen (enc_events es).
Proof.
  induction es as [|e es IH]; [done|]. unfold enc_events. cbn [mbind list_bind length]. fold (enc_events es).
  rewrite flen_app, flen_event. pose proof (flen_pos (name_bytes (padded (ev_name e) (ev_pad e)))). lia.
Qed.

(** ** The watches *)

Section watches.
Context {IN : Inotify} {MR : MapRange}.

(** The two maps of the watcher are inverse to each other, and know of every
    watch of the kernel. *)
Record watcher_ok (w : certWatcher) : Prop := {
  wo_inverse : forall path wd, cw_watches w !! path = Some wd <-> cw_paths w !! wd = Some path;
  wo_used : forall path wd, cw_paths w !! wd = Some path -> wd ∈ ino_used (cw_fd w) /\ path <> "";
  wo_kernel : forall path wd, ino_watched (cw_fd w) !! wd = Some path -> cw_paths w !! wd = Some path;
}.

(** No directory the watcher watches was removed. *)
Definition all_live (w : certWatcher) : Prop :=
  forall path wd, cw_paths w !! wd = Some path -> ino_watched (cw_fd w) !! wd = Some path.

Lemma elem_of_range_set (s : gset string) p : p ∈ range_set s <-> p ∈ s.
Proof.
  unfold range_set. rewrite list_elem_of_fmap. split.
  - intros ([q []] & -> & Hq%elem_of_range). by apply lookup_gset_to_gmap_Some in Hq as [? _].
  - intros Hp. exists (p, ()). split; [done|]. apply elem_of_range. by apply lookup_gset_to_gmap_Some.
Qed.

Lemma length_range_set (s : gset string) : length (range_set s) = size s.
Proof.
  unfold range_set. rewrite length_fmap, range_perm, length_map_to_list. by rewrite <- size_dom, dom_gset_to_gmap.
Qed.

Lemma drop_watch_ok paths w path wd :
  watcher_ok w -> cw_watches w !! path = Some wd ->
  let w' := drop_watch paths w (path, wd) in
  watcher_ok w' /\ (all_live w -> all_live w') /\ ino_used (cw_fd w') = ino_used (cw_fd w) /\
  ino_room (cw_fd w) <= ino_room (cw_fd w') /\
  cw_watches w' = if bool_decide (path ∈ paths) then cw_watches w else delete path (cw_watches w).
Proof.
  intros [Hinv Hused Hk] Hw. cbn zeta. unfold drop_watch. case_bool_decide; [done|].
  destruct (rm_watch wd (cw_fd w)) as (Er & Eu & Eup).
  assert (forall q v, q <> path -> cw_watches w !! q = Some v -> v <> wd) as Hne.
  { intros q v Hq Hv ->. apply Hinv in Hv. apply Hinv in Hw. congruence. }
  split_and!; cbn [cw_fd cw_watches cw_paths]; [|..|done|done|done].
  - split; cbn [cw_fd cw_watches cw_paths].
    + intros q v. rewrite !lookup_delete_Some, Hinv. split; intros [H1 H2]; (split; [|done]).
      * intros <-. apply Hinv in H2. by apply (Hne q wd).
      * intros <-. apply Hinv in H2. congruence.
    + intros q v [_ H2]%lookup_delete_Some. rewrite Eu. by eapply Hused.
    + intros q v. rewrite Er, !lookup_delete_Some. intros [H1 H2]. split; [done|by apply Hk].
  - intros Hl q v. cbn [cw_fd cw_watches cw_paths]. rewrite Er, !lookup_delete_Some. intros [H1 H2]. auto.
Qed.

Lemma add_watch_ok w path :
  watcher_ok w -> path <> "" ->
  let w' := add_watch w path in
  watcher_ok w' /\ (all_live w -> all_live w') /\
  (forall q wd, cw_watches w !! q = Some wd -> cw_watches w' !! q = Some wd) /\
  (forall q, is_Some (cw_watches w' !! q) -> is_Some (cw_watches w !! q) \/ q = path) /\
  (forall wd, wd ∈ ino_used (cw_fd w) -> ino_watched (cw_fd w) !! wd = None -> ino_watched (cw_fd w') !! wd = None) /\
  (forall wd, wd ∈ ino_used (cw_fd w) -> wd ∈ ino_used (cw_fd w')) /\
  (0 < ino_room (cw_fd w) -> ino_room (cw_fd w) - 1 <= ino_room (cw_fd w') /\ is_Some (cw_watches w' !! path)).
Proof.
  intros [Hinv Hused Hk] Hne. cbn zeta. unfold add_watch.
  destruct (cw_watches w !! path) as [wd0|] eqn:E0; [split_and!; try done; auto; intros; split; [lia|eauto]|].
  pose proof (add_ok path (cw_fd w)) as Hok. pose proof (add_err path (cw_fd w)) as Herr.
  pose proof (add_room path (cw_fd w)) as Hup.
  destruct (InotifyAddWatch path (cw_fd w)) as [fd [wd|e]]; cbn [fst snd] in *.
  - destruct (Hok wd eq_refl) as (Hr & Hold & Ew & Eu). clear Hok Herr.
    assert (u32 wd = wd) as -> by (unfold u32; apply Z.mod_small; lia).
    destruct Hold as [Hold|Hold]; [apply Hk, Hinv in Hold; congruence|].
    assert (cw_paths w !! wd = None) as Hfresh.
    { destruct (cw_paths w !! wd) as [q|] eqn:Eq; [|done]. by apply Hused in Eq as [? _]. }
    split_and!; cbn [cw_fd cw_watches cw_paths].
    + split; cbn [cw_fd cw_watches cw_paths].
      * intros q v. destruct (decide (q = path)) as [->|Hq], (decide (v = wd)) as [->|Hv];
          rewrite ?lookup_insert_eq, ?lookup_insert_ne by done; rewrite ?E0, ?Hfresh; try naive_solver.
      * intros q v. rewrite Eu, lookup_insert_Some. intros [[-> ->]|[_ H2]]; [set_solver|].
        apply Hused in H2 as [? ?]. set_solver.
      * intros q v. rewrite Ew, !lookup_insert_Some. intros [?|[? ?]]; [by left|right; auto].
    + intros Hl q v. cbn [cw_fd cw_watches cw_paths]. rewrite Ew, !lookup_insert_Some. intros [?|[? ?]]; [by left|right; auto].
    + intros q v Hq. rewrite lookup_insert_ne; [done|congruence].
    + intros q [v [[-> _]|[_ Hv]]%lookup_insert_Some]; [by right|left; eauto].
    + intros v Hv Hn. rewrite Ew, lookup_insert_ne; [done|]. intros ->. done.
    + intros v Hv. rewrite Eu. set_solver.
    + intros Hu. destruct (Hup Hu) as [? _]. split; [done|]. rewrite lookup_insert_eq. eauto.
  - destruct (Herr e eq_refl) as [Ew Eu]. clear Hok Herr.
    split_and!; cbn [cw_fd cw_watches cw_paths]; [|by intros Hl q v Hq; cbn in *; rewrite Ew; auto|by auto|by auto|..].
    + split; cbn [cw_fd cw_watches cw_paths]; [done|by rewrite Eu|by rewrite Ew].
    + intros v _. by rewrite Ew.
    + intros v. by rewrite Eu.
    + intros Hu. by destruct (Hup Hu).
Qed.

Lemma drop_watches_ok paths l w :
  watcher_ok w -> NoDup l.*1 -> (forall path wd, (path, wd) ∈ l -> cw_watches w !! path = Some wd) ->
  let w' := foldl (drop_watch paths) w l in
  watcher_ok w' /\ (all_live w -> all_live w') /\ ino_used (cw_fd w') = ino_used (cw_fd w) /\
  ino_room (cw_fd w) <= ino_room (cw_fd w') /\
  (forall q wd, q ∈ paths -> cw_watches w !! q = Some wd -> cw_watches w' !! q = Some wd) /\
  (forall q wd, cw_watches w' !! q = Some wd -> cw_watches w !! q = Some wd /\ (q ∈ paths \/ q ∉ l.*1)) /\
  (forall wd, ino_watched (cw_fd w) !! wd = None -> ino_watched (cw_fd w') !! wd = None).
Proof.
  cbn zeta. revert w. induction l as [|[path wd] l IH]; intros w Hw Hnd Hl; cbn [foldl].
  { split_and!; auto; [lia|]. intros q v Hq. split; [done|]. right. apply not_elem_of_nil. }
  cbn [fmap list_fmap fst] in Hnd. apply NoDup_cons in Hnd as [Hnin Hnd].
  destruct (drop_watch_ok paths w path wd Hw) as (H1 & H2 & H3 & H4 & H5); [apply Hl; set_solver|].
  destruct (IH (drop_watch paths w (path, wd)) H1 Hnd) as (I1 & I2 & I3 & I4 & I5 & I6 & I7).
  { intros q v Hq. rewrite H5. assert (cw_watches w !! q = Some v) as Hv by (apply Hl; set_solver).
    case_bool_decide; [done|]. rewrite lookup_delete_ne; [done|]. intros ->. apply Hnin.
    apply list_elem_of_fmap. by exists (q, v). }
  split_and!; [done|by auto|congruence|lia|..].
  - intros q v Hq Hv. apply I5; [done|]. rewrite H5. case_bool_decide; [done|]. rewrite lookup_delete_ne; [done|congruence].
  - intros q v [Hv Hor]%I6. rewrite H5 in Hv. case_bool_decide as Hp.
    + split; [done|]. destruct Hor as [?|Hor]; [by left|]. cbn [fmap list_fmap fst].
      destruct (decide (q = path)) as [->|]; [by left|right; set_solver].
    + apply lookup_delete_Some in Hv as [Hne Hv]. split; [done|]. cbn [fmap list_fmap fst]. set_solver.
  - intros v Hv. apply I7. unfold drop_watch. case_bool_decide; [done|]. cbn [cw_fd].
    destruct (rm_watch wd (cw_fd w)) as (-> & _). by apply lookup_delete_None; right.
Qed.

Lemma add_watches_ok l w :
  watcher_ok w -> Forall (fun path => path <> "") l ->
  let w' := foldl add_watch w l in
  watcher_ok w' /\ (all_live w -> all_live w') /\
  (forall q wd, cw_watches w !! q = Some wd -> cw_watches w' !! q = Some wd) /\
  (forall q, is_Some (cw_watches w' !! q) -> is_Some (cw_watches w !! q) \/ q ∈ l) /\
  (forall wd, wd ∈ ino_used (cw_fd w) -> ino_watched (cw_fd w) !! wd = None -> ino_watched (cw_fd w') !! wd = None) /\
  (Z.of_nat (length l) <= ino_room (cw_fd w) -> forall q, q ∈ l -> is_Some (cw_watches w' !! q)).
Proof.
  cbn zeta. intros Hw HF. revert w Hw. induction HF as [|path l Hne HF IH]; intros w Hw; cbn [foldl].
  { split_and!; auto. intros _. by intros q ?%elem_of_nil. }
  destruct (add_watch_ok w path Hw Hne) as (H1 & H2 & H3 & H4 & H5 & H6 & H7).
  destruct (IH _ H1) as (I1 & I2 & I3 & I4 & I5 & I6). split_and!; [done|by auto|by auto|..].
  - intros q [Hq|?]%I4; [|right; set_solver]. apply H4 in Hq as [? | ->]; [by left|right; set_solver].
  - intros v Hu Hn. apply I5; auto.
  - cbn [length]. intros Hu. destruct H7 as [Hu' [wd Hwd]]; [lia|].
    intros q [->|Hq]%elem_of_cons; [exists wd; by apply I3|]. apply I6; [lia|done].
Qed.

Lemma collected_nonempty certRoot fs p : p ∈ collectWatchDirectories certRoot fs -> p <> "".
Proof.
  assert (forall d name, d <> "" -> path_Join [d; name] <> "") as Hj.
  { intros d name Hd. unfold path_Join. rewrite filter_cons_True by done.
    destruct (filter _ [name]); apply path_Clean_nonempty. }
  unfold collectWatchDirectories. case_bool_decide as E; [set_solver|].
  assert (certRoot <> "") as Hr by (by intros ->).
  intros [Hp%elem_of_singleton|Hp%elem_of_list_to_set]%elem_of_union; [by subst|].
  apply list_elem_of_bind in Hp as (name & Hp & _). apply elem_of_cons in Hp as [->|Hp]; [by apply Hj|].
  case_bool_decide; [by apply elem_of_nil in Hp|]. apply list_elem_of_fmap in Hp as (wild & -> & _).
  by apply Hj, Hj.
Qed.

(** A refresh makes the watches those of the directories, as far as the kernel
    lets it. *)
Lemma refresh_ok certRoot fs w :
  watcher_ok w ->
  let w' := refresh certRoot fs w in
  watcher_ok w' /\ (all_live w -> all_live w') /\
  (forall q, is_Some (cw_watches w' !! q) -> q ∈ collectWatchDirectories certRoot fs) /\
  (Z.of_nat (size (collectWatchDirectories certRoot fs)) <= ino_room (cw_fd w) ->
     forall q, q ∈ collectWatchDirectories certRoot fs -> is_Some (cw_watches w' !! q)) /\
  (forall q wd, q ∈ collectWatchDirectories certRoot fs -> cw_watches w !! q = Some wd ->
     cw_watches w' !! q = Some wd /\
     (ino_watched (cw_fd w) !! wd = None -> ino_watched (cw_fd w') !! wd = None)).
Proof.
  intros Hw. cbn zeta. unfold refresh. set (paths := collectWatchDirectories certRoot fs).
  destruct (drop_watches_ok paths (range (cw_watches w)) w Hw) as (D1 & D2 & D3 & D4 & D5 & D6 & D7).
  { apply NoDup_fst_range. }
  { intros q v Hq. by apply elem_of_range. }
  destruct (add_watches_ok (range_set paths) _ D1) as (A1 & A2 & A3 & A4 & A5 & A6).
  { apply Forall_forall. intros q Hq%elem_of_range_set. by eapply collected_nonempty. }
  split_and!; [done|by auto|..].
  - intros q [[v Hv]|Hq%elem_of_range_set]%A4; [|done]. apply D6 in Hv as [Hv [?|Hn]]; [done|]. exfalso. apply Hn.
    apply list_elem_of_fmap. exists (q, v). split; [done|]. by apply elem_of_range.
  - intros Hu q Hq. apply A6; [rewrite length_range_set; fold paths in Hu; lia|by apply elem_of_range_set].
  - intros q v Hq Hv. split; [by apply A3, D5|]. intros Hn. apply A5; [|by apply D7]. rewrite D3.
    apply (wo_inverse _ Hw) in Hv. by apply (wo_used _ Hw) in Hv as [? _].
Qed.

Lemma new_watcher_ok certRoot fs w : newCertWatcher certRoot fs = Ok w -> watcher_ok w /\ all_live w.
Proof.
  unfold newCertWatcher. destruct InotifyInit1 as [fd|e] eqn:E; [|done]. cbn. intros [= <-].
  assert (watcher_ok (mkWatcher fd ∅ ∅)) as Hw.
  { split; cbn; [by intros; rewrite !lookup_empty|by intros ? ? ?%lookup_empty_Some|].
    intros q v. by rewrite (init_empty _ E), lookup_empty. }
  destruct (refresh_ok certRoot fs _ Hw) as (H1 & H2 & _). split; [done|]. apply H2.
  intros q v Hq. cbn in Hq. by apply lookup_empty_Some in Hq.
Qed.

(** A directory that was removed and made again before the watcher looked: its
    descriptor is kept, which the kernel has dropped, and it is not watched
    again. *)
Lemma recreated_unwatched certRoot fs w q wd :
  watcher_ok w -> q ∈ collectWatchDirectories certRoot fs ->
  cw_watches w !! q = Some wd -> ino_watched (cw_fd w) !! wd = None ->
  forall wd', ino_watched (cw_fd (refresh certRoot fs w)) !! wd' <> Some q.
Proof.
  intros Hw Hq Hwd Hn wd' Hwd'. destruct (refresh_ok certRoot fs w Hw) as (H1 & _ & _ & _ & H5).
  destruct (H5 q wd Hq Hwd) as [Hk Hn']. specialize (Hn' Hn).
  pose proof (wo_kernel _ H1 _ _ Hwd') as Hw'%(wo_inverse _ H1).
  assert (wd' = wd) as -> by congruence. congruence.
Qed.

End watches.

(** ** Every certificate is watched *)

Definition readable (dir : string) (fs : FS) : Prop :=
  path_Clean dir ∉ fs_denied fs /\ forall c, fs_nodes fs !! path_Clean dir <> Some (FFile c).

Lemma below_components dir p name rest :
  is_rooted p = is_rooted dir -> components p = components dir ++ name :: rest ->
  below (path_Clean dir) p = Some (name, bool_decide (rest <> [])).
Proof.
  intros Hr Hc. unfold below. rewrite path_Clean_rooted, bool_decide_true by done.
  by rewrite path_Clean_components, Hc, strip_common_app.
Qed.

Lemma elem_of_sub_directories dir fs name :
  (exists entries, os_ReadDir dir fs = Ok entries /\ (name, true) ∈ entries) -> name ∈ sub_directories dir fs.
Proof.
  intros (entries & E & Hin). unfold sub_directories. rewrite E. apply list_elem_of_omap. by exists (name, true).
Qed.

(** The directory of a host, with what lies in it. *)
Lemma host_dir root h w labels :
  root <> "" -> is_canonical w labels h ->
  let dir := path_Join [root; certificateDirectoryName h] in
  dir <> "" /\ forall file, plain file -> path_Join [dir; file] = path_Join [root; certificateDirectoryName h; file].
Proof.
  intros Hroot Hcan. pose proof Hcan as (Hne & HF & ->). cbn zeta.
  pose proof (plain_cert_components w labels Hne HF) as Hplain.
  assert (cert_components w labels <> []) as Hcne by (by destruct w).
  rewrite (directory_canonical w labels Hne HF).
  destruct (path_Join_down root _ Hroot Hcne Hplain) as (Hc & Hr & Hd). split; [done|]. intros file Hfile.
  assert (file <> "") as Hf by apply Hfile.
  pose proof (Join_plain _ Hcne Hplain) as Hjne.
  destruct (path_Join_below root _ _ Hroot eq_refl Hcne Hplain file Hfile) as [Hc' Hr'].
  destruct (path_Join_down _ [file] Hd) as (Hc2 & Hr2 & _); [done|by apply Forall_singleton|].
  rewrite Join_single in Hc2, Hr2. apply path_Join_ext; [by rewrite filter_cons_True by done..| |].
  - rewrite Hc2, Hc, Hc'. by rewrite <- (assoc_L (++)).
  - by rewrite Hr2, Hr, Hr'.
Qed.

Lemma certificate_collected root h w labels fs file node :
  TrimSpace root <> "" -> is_canonical w labels h -> plain file ->
  fs_nodes fs !! path_Join [root; certificateDirectoryName h; file] = Some node ->
  readable root fs -> (w = true -> readable (path_Join [root; ".wildcard"]) fs) ->
  path_Join [root; certificateDirectoryName h] ∈ collectWatchDirectories root fs.
Proof.
  intros Htrim Hcan Hfile Hnode [Hr1 Hr2] Hwild. unfold collectWatchDirectories. rewrite bool_decide_false by done.
  assert (root <> "") as Hroot by (by intros ->).
  destruct (certificate_path_facts root h w labels file Hroot Hcan Hfile) as (Hc & Hrt & _).
  pose proof Hcan as (Hne & HF & ->). rewrite (directory_canonical w labels Hne HF) in *.
  set (p := path_Join [root; _; file]) in *.
  apply elem_of_union_r, elem_of_list_to_set, list_elem_of_bind.
  destruct w; cbn [cert_components app] in *.
  - exists ".wildcard". split.
    + apply elem_of_cons. right. rewrite bool_decide_false by (intros H; by apply H).
      apply list_elem_of_fmap. exists (Join labels ".").
      pose proof (plain_cert_components true labels Hne HF) as Hplain. cbn [cert_components] in Hplain.
      apply Forall_cons in Hplain as [Hp1 Hp2]. pose proof (Forall_cons_1 _ _ _ Hp2) as [Hp3 _].
      destruct (path_Join_down root [".wildcard"] Hroot) as (Hd1 & Hd2 & Hd3); [done|by apply Forall_singleton|].
      rewrite Join_single in Hd1, Hd2, Hd3. split.
      * destruct (path_Join_down _ [Join labels "."] Hd3) as (He1 & He2 & _); [done|by apply Forall_singleton|].
        rewrite Join_single in He1, He2.
        destruct (path_Join_down root [".wildcard"; Join labels "."] Hroot) as (Hf1 & Hf2 & _);
          [done|by repeat apply Forall_cons_2|].
        apply path_Join_ext; [rewrite filter_cons_True by done; done..| |].
        -- rewrite Hf1, He1, Hd1. by rewrite <- (assoc_L (++)).
        -- by rewrite Hf2, He2, Hd2.
      * apply elem_of_sub_directories. destruct (Hwild eq_refl) as [Hw1 Hw2].
        eapply (os_ReadDir_dir _ fs p node _ true); [done| |by left|done|done].
        rewrite (below_components _ p (Join labels ".") [file]); [done|by rewrite Hrt, Hd2|].
        rewrite Hc, Hd1. by rewrite <- (assoc_L (++)).
    + apply elem_of_sub_directories. eapply (os_ReadDir_dir _ fs p node _ true); [done| |by left|done|done].
      by rewrite (below_components _ p ".wildcard" [Join labels "."; file]).
  - exists (Join labels "."). split; [rewrite Join_single; apply elem_of_cons; by left|].
    apply elem_of_sub_directories. eapply (os_ReadDir_dir _ fs p node _ true); [done| |by left|done|done].
    by rewrite (below_components _ p (Join labels ".") [file]).
Qed.

Section follows.
Context {IN : Inotify} {MR : MapRange} {V : Type} (X509KeyPair : string -> string -> result V).

(** C11. every certificate is watched.  When the kernel has room for watches of
    the directories to watch, a refresh leaves the watcher with watches of exactly the directories to watch, in two
    maps inverse to each other; the directory of every host that has a file
    there is one of them, the kernel watches it unless it dropped one of the
    watches before, and an event for a file in it names the file's path, which
    is traced back to the host. *)
Theorem certificates_watched certRoot fs w :
  watcher_ok w -> Z.of_nat (size (collectWatchDirectories certRoot fs)) <= ino_room (cw_fd w) ->
  let w' := refresh certRoot fs w in
  watcher_ok w' /\
  (forall dir, is_Some (cw_watches w' !! dir) <-> dir ∈ collectWatchDirectories certRoot fs) /\
  (forall h wild labels file node,
     TrimSpace certRoot <> "" -> is_canonical wild labels h -> plain file ->
     fs_nodes fs !! path_Join [certRoot; certificateDirectoryName h; file] = Some node ->
     readable certRoot fs -> readable (path_Join [certRoot; ".wildcard"]) fs ->
     exists wd, (all_live w -> ino_watched (cw_fd w') !! wd = Some (path_Join [certRoot; certificateDirectoryName h])) /\
       exists path, event_path (cw_paths w') wd file = Some path /\
         path = path_Join [certRoot; certificateDirectoryName h; file] /\
         hostnameFromCertificatePath certRoot path = h).
Proof.
  intros Hw Hup. destruct (refresh_ok certRoot fs w Hw) as (H1 & H2 & H3 & H4 & _).
  pose proof (H4 Hup) as Hall. cbn zeta. set (w' := refresh certRoot fs w) in *.
  split_and!; [done|by split; auto|].
  intros h wild labels file node Htrim Hcan Hfile Hnode Hr Hr'.
  assert (certRoot <> "") as Hroot by (by intros ->).
  destruct (Hall (path_Join [certRoot; certificateDirectoryName h])) as [wd Hwd%(wo_inverse _ H1)].
  { by eapply certificate_collected. }
  destruct (host_dir certRoot h wild labels Hroot Hcan) as [Hd Hj].
  exists wd. split; [intros Hl; by apply H2|].
  exists (path_Join [certRoot; certificateDirectoryName h; file]). split_and!; [|done|].
  - unfold event_path. rewrite Hwd. cbn [default]. rewrite bool_decide_true by done.
    rewrite bool_decide_false by apply Hfile. by rewrite Hj.
  - by eapply certificate_path_facts.
Qed.

(** Every host whose files differ is named by a reported path. *)
Definition names_changes (certRoot : string) (paths : list string) (fs fs' : FS) : Prop :=
  forall h, is_host h ->
    (exists p, p ∈ paths /\ hostnameFromCertificatePath certRoot p = h) \/
    os_Stat (lookupPaths certRoot h).1 fs' = os_Stat (lookupPaths certRoot h).1 fs /\
    os_Stat (lookupPaths certRoot h).2 fs' = os_Stat (lookupPaths certRoot h).2 fs.

Definition after_events (certRoot : string) (fs : FS) (es : list ino_event) (w : certWatcher) : certWatcher :=
  if bool_decide (reported (cw_paths w) es = []) then w else refresh certRoot fs w.

(** Reads of the kernel's events, between a file system and a later one, that
    name every change of a certificate; the rest of the buffer is what earlier
    reads left there. *)
Inductive reads_of (certRoot : string) : certWatcher -> FS -> list (FS * read_result) -> FS -> Prop :=
  | reads_none w fs : reads_of certRoot w fs [] fs
  | reads_interrupted w fs fs0 reads fs' :
      reads_of certRoot w fs reads fs' -> reads_of certRoot w fs ((fs0, ReadInterrupted) :: reads) fs'
  | reads_events w fs fs1 es rest reads fs' :
      Forall event_ok es -> names_changes certRoot (reported (cw_paths w) es) fs fs1 ->
      reads_of certRoot (after_events certRoot fs1 es w) fs1 reads fs' ->
      reads_of certRoot w fs ((fs1, ReadBytes (enc_events es ++ rest) (flen (enc_events es))) :: reads) fs'.

Lemma run_step_events certRoot fs es rest w (r : LunaTLSCertResolver V) :
  Forall event_ok es ->
  exists paths, (forall p, p ∈ paths <-> p ∈ reported (cw_paths w) es) /\
    run_step certRoot fs (enc_events es ++ rest) (flen (enc_events es)) (w, r) =
    Ret (after_events certRoot fs es w, invalidateCacheForPaths paths r).
Proof.
  intros Hes. unfold run_step, parseChangedPaths.
  rewrite (event_loop_events _ (cw_paths w) _ [] es rest) by
    (first [done|reflexivity|pose proof (length_events es); rewrite length_app; unfold flen in *; lia]).
  cbn [mbind outcome_bind]. set (paths := range_set (list_to_set (reported (cw_paths w) es) ∪ ∅)).
  assert (forall p, p ∈ paths <-> p ∈ reported (cw_paths w) es) as Hp.
  { intros p. unfold paths. rewrite elem_of_range_set. set_solver. }
  exists paths. split; [done|]. unfold after_events.
  assert (paths = [] <-> reported (cw_paths w) es = []) as E.
  { split; intros E; apply elem_of_nil_inv; intros p Hin; [apply Hp in Hin|apply Hp in Hin]; rewrite E in Hin;
      by apply elem_of_nil in Hin. }
  rewrite (bool_decide_ext _ _ E). case_bool_decide as Hn; [|done]. by rewrite (proj2 E Hn).
Qed.

(** C10. the cache follows the disk.  Whatever batches the kernel's events are
    read in, as long as they name every host whose certificate files changed,
    the watcher reads them without leaving its buffer, its maps stay inverse to
    each other, and the cache of the resolver agrees with the disk as of the
    last read: every certificate it holds is the one on disk. *)
Theorem cache_follows_disk fs fs' reads w r :
  coherent X509KeyPair fs r -> watcher_ok w -> reads_of (rs_certRoot r) w fs reads fs' ->
  exists w' r', run (rs_certRoot r) reads (w, r) = Ret (w', r') /\ rs_certRoot r' = rs_certRoot r /\
    watcher_ok w' /\ coherent X509KeyPair fs' r' /\
    forall hostname, sanitizeHostname hostname <> "" ->
      (Load X509KeyPair fs' hostname r').2 =
      spec_load X509KeyPair fs' (rs_certRoot r) (sanitizeHostname hostname) (certificateCandidates hostname).
Proof.
  intros Hco Hw Hreads. remember (rs_certRoot r) as root eqn:Eroot. revert r Eroot Hco Hw.
  induction Hreads as [w fs|w fs fs0 reads fs' H IH|w fs fs1 es rest reads fs' Hes Hn H IH];
    intros r Eroot Hco Hw; cbn [run]; [|by apply IH|].
  - exists w, r. split_and!; [done|done|done|done|]. intros hostname Hne. rewrite Eroot. by apply load_transparent.
  - destruct (run_step_events root fs1 es rest w r Hes) as (paths & Hp & ->). cbn [mbind outcome_bind].
    pose proof (invalidate_keeps paths r (co_wf _ _ _ Hco)) as (_ & _ & Hr & _).
    destruct (IH (invalidateCacheForPaths paths r)) as (w' & r' & Hrun & Hr' & Hrest); [by rewrite Hr| | |].
    + apply (invalidate_coherent _ fs); [done|]. intros h Hh. rewrite <- Eroot.
      destruct (Hn h Hh) as [(p & Hin & E)|?]; [left|by right]. exists p. split; [by apply Hp|done].
    + unfold after_events. case_bool_decide; [done|]. by apply refresh_ok.
    + exists w', r'. by rewrite Hrun.
Qed.

End follows.

(** ** A concrete run *)

Section memory.

Record mem_ino := mkIno { mo_given : gset Z; mo_watched : gmap Z string }.

Definition mo_used (k : mem_ino) : gset Z := mo_given k ∪ dom (mo_watched k).
Definition mo_top (k : mem_ino) : Z := foldr Z.max 0 (elements (mo_used k)).

Lemma mo_top_ge k wd : wd ∈ mo_used k -> wd <= mo_top k.
Proof.
  intros Hin%elem_of_elements. unfold mo_top. induction (elements (mo_used k)) as [|x l IH]; [by apply elem_of_nil in Hin|].
  cbn [foldr]. apply elem_of_cons in Hin as [->|Hin%IH]; lia.
Qed.

Lemma mo_top_le k m : 0 <= m -> (forall wd, wd ∈ mo_used k -> wd <= m) -> mo_top k <= m.
Proof.
  intros Hm Hall. unfold mo_top.
  assert (Forall (fun wd => wd <= m) (elements (mo_used k))) as HF.
  { apply Forall_forall. intros wd Hwd%elem_of_elements. by apply Hall. }
  induction HF; cbn [foldr]; lia.
Qed.

Lemma mo_top_pos k : 0 <= mo_top k.
Proof. unfold mo_top. induction (elements (mo_used k)); cbn [foldr]; lia. Qed.

Definition mo_add (path : string) : go mem_ino Z := fun k =>
  let wd := mo_top k + 1 in
  if bool_decide (wd < 2 ^ 31) then (mkIno (mo_used k) (<[wd := path]> (mo_watched k)), Ok wd)
  else (k, Err (errors_New "no space left on device")).

Definition mo_rm (wd : Z) : go mem_ino () := fun k => (mkIno (mo_used k) (delete wd (mo_watched k)), Ok tt).

#[local] Obligation Tactic := idtac.
#[program] Definition memory_inotify : Inotify := {|
  inotify := mem_ino;
  ino_watched := mo_watched;
  ino_used := mo_used;
  ino_room k := 2 ^ 31 - 1 - mo_top k;
  InotifyInit1 := Ok (mkIno ∅ ∅);
  InotifyAddWatch := mo_add;
  InotifyRmWatch := mo_rm;
|}.
Next Obligation. by intros k [= <-]. Qed.
Next Obligation. intros k wd ?%elem_of_dom. unfold mo_used. set_solver. Qed.
Next Obligation.
  intros path k wd. unfold mo_add. pose proof (mo_top_pos k). case_bool_decide; [|done]. intros [= <-]. split; [lia|].
  split; [right; intros ?%mo_top_ge; lia|]. split; [done|]. unfold mo_used. cbn. rewrite dom_insert_L. set_solver.
Qed.
Next Obligation. intros path k e. unfold mo_add. by case_bool_decide. Qed.
Next Obligation.
  intros path k Hr. unfold mo_add. rewrite bool_decide_true by lia. split; [|done]. cbn [fst].
  assert (mo_top (mkIno (mo_used k) (<[mo_top k + 1 := path]> (mo_watched k))) <= mo_top k + 1) as H; [|lia].
  pose proof (mo_top_pos k). apply mo_top_le; [lia|]. intros wd. unfold mo_used at 1. cbn. rewrite dom_insert_L.
  intros [?%mo_top_ge|[->%elem_of_singleton_1|Hd]%elem_of_union]%elem_of_union; [lia|lia|].
  assert (wd ∈ mo_used k) as ?%mo_top_ge by (unfold mo_used; set_solver). lia.
Qed.
Next Obligation.
  intros wd k. assert (mo_used (mo_rm wd k).1 = mo_used k) as E.
  { unfold mo_used. cbn. rewrite dom_delete_L. unfold mo_used. set_solver. }
  split_and!; [done|exact E|]. unfold mo_top. rewrite E. lia.
Qed.

End memory.

Module WatchRun.

#[local] Existing Instances memory_inotify canonical_range.

Definition fresh : certWatcher := mkWatcher (IN:=memory_inotify) (mkIno ∅ ∅) ∅ ∅.
Definition watcher : certWatcher := refresh "/certs" sample_fs fresh.

Lemma watcher_wf : watcher_ok watcher.
Proof. by apply (new_watcher_ok "/certs" sample_fs). Qed.

Definition wild_dir : string := "/certs/.wildcard/example.com".

Lemma certificates_watched_witness :
  exists wd, ino_watched (cw_fd watcher) !! wd = Some wild_dir /\
    exists path, event_path (cw_paths watcher) wd "tls.crt" = Some path /\
      hostnameFromCertificatePath "/certs" path = "*.example.com".
Proof.
  assert (watcher_ok fresh) as Hf.
  { split; cbn; [by intros; rewrite !lookup_empty|by intros ? ? ?%lookup_empty_Some|by intros ? ? ?%lookup_empty_Some]. }
  destruct (certificates_watched "/certs" sample_fs fresh Hf) as (_ & _ & H); [by vm_compute|].
  destruct (H "*.example.com" true ["example"; "com"] "tls.crt" (FFile "CRT")) as (wd & Hl & path & Hp & _ & Hh).
  - vm_compute. discriminate.
  - split_and!; [discriminate|apply (bool_decide_unpack _); vm_compute; exact I|vm_compute; reflexivity].
  - apply (bool_decide_unpack _). vm_compute. exact I.
  - vm_compute. reflexivity.
  - split; [apply (bool_decide_unpack _); vm_compute; exact I|]. intros c. vm_compute. discriminate.
  - split; [apply (bool_decide_unpack _); vm_compute; exact I|]. intros c. vm_compute. discriminate.
  - assert (path_Join ["/certs"; certificateDirectoryName "*.example.com"] = wild_dir) as E by (vm_compute; reflexivity).
    rewrite E in Hl. fold watcher in Hl, Hp. exists wd. split; [|exists path; split; [exact Hp|exact Hh]].
    apply Hl. intros q v Hq. exfalso. exact (lookup_empty_Some _ _ Hq).
Defined.

(** The certificate is renewed, and the kernel reports the file. *)
Definition renewal : ino_event := mkEvent 1 8 0 "tls.crt" 9.
Definition reads : list (FS * read_result) :=
  [(sample_fs, ReadInterrupted);
   (renewed_fs, ReadBytes (enc_events [renewal] ++ replicate 32 7) (flen (enc_events [renewal])))].

Lemma reads_renewal : reads_of "/certs" watcher sample_fs reads renewed_fs.
Proof.
  apply reads_interrupted, reads_events; [| |apply reads_none].
  - apply Forall_singleton. split_and!; [by vm_compute..|apply (bool_decide_unpack _); vm_compute; exact I|by vm_compute].
  - intros h (w & labels & Hcan). set (p := wild_dir +:+ "/tls.crt").
    assert (reported (cw_paths watcher) [renewal] = [p]) as -> by (vm_compute; reflexivity).
    assert (forall file, plain file -> path_Join ["/certs"; certificateDirectoryName h; file] = p ->
      hostnameFromCertificatePath "/certs" p = h) as Hback.
    { intros file Hfile <-. by eapply certificate_path_facts. }
    assert (forall q, q <> p -> os_Stat q renewed_fs = os_Stat q sample_fs) as Hsame.
    { intros q Hq. unfold os_Stat, renewed_fs. cbn [fs_nodes fs_denied]. by rewrite lookup_insert_ne. }
    assert (plain "tls.crt" /\ plain "tls.key") as [Hp1 Hp2] by (split; by apply (bool_decide_unpack _)).
    unfold lookupPaths. cbn [fst snd].
    destruct (decide (path_Join ["/certs"; certificateDirectoryName h; "tls.crt"] = p)) as [E|E1].
    { left. exists p. split; [apply elem_of_cons; by left|by apply (Hback _ Hp1)]. }
    destruct (decide (path_Join ["/certs"; certificateDirectoryName h; "tls.key"] = p)) as [E|E2].
    { left. exists p. split; [apply elem_of_cons; by left|by apply (Hback _ Hp2)]. }
    right. by split; apply Hsame.
Qed.

Definition loaded : LunaTLSCertResolver (string * string) :=
  (Load sample_pair sample_fs "www.example.com" (NewLunaTLSCertResolver "/certs" 16)).1.

(** The certificate is cached, renewed, and loaded again as renewed. *)
Lemma cache_follows_disk_witness :
  (Load sample_pair renewed_fs "www.example.com" loaded).2 = Ok ("CRT", "KEY") /\
  exists w' r', run "/certs" reads (watcher, loaded) = Ret (w', r') /\
    (Load sample_pair renewed_fs "www.example.com" r').2 = Ok ("CRT2", "KEY").
Proof.
  split; [vm_compute; reflexivity|].
  assert (coherent sample_pair sample_fs loaded) as Hco.
  { apply load_transparent, new_resolver_coherent. }
  destruct (cache_follows_disk sample_pair sample_fs renewed_fs reads watcher loaded Hco watcher_wf reads_renewal)
    as (w' & r' & Hrun & _ & _ & _ & Hload).
  exists w', r'. split; [exact Hrun|]. rewrite Hload by (vm_compute; discriminate). vm_compute. reflexivity.
Defined.

(** When the kernel's queue overflows it reports the descriptor -1, which
    names no directory: nothing is invalidated. *)
Lemma overflow_ignored (w : certWatcher) (r : LunaTLSCertResolver (string * string)) :
  cw_paths w !! (2 ^ 32 - 1) = None ->
  run_step "/certs" renewed_fs (enc_events [mkEvent (2 ^ 32 - 1) 16384 0 "" 0]) 16 (w, r) = Ret (w, r).
Proof.
  intros Hn. destruct (run_step_events sample_pair "/certs" renewed_fs [mkEvent (2 ^ 32 - 1) 16384 0 "" 0] [] w r) as (paths & Hp & E).
  { apply Forall_singleton. split_and!; [by vm_compute..|apply (bool_decide_unpack _); vm_compute; exact I|by vm_compute]. }
  rewrite app_nil_r in E. change (flen (enc_events [mkEvent (2 ^ 32 - 1) 16384 0 "" 0])) with 16 in E. rewrite E.
  assert (reported (cw_paths w) [mkEvent (2 ^ 32 - 1) 16384 0 "" 0] = []) as Er.
  { unfold reported. cbn [omap list_omap ev_wd ev_name]. unfold event_path. by rewrite Hn. }
  assert (paths = []) as -> by (apply elem_of_nil_inv; intros p Hin%Hp; rewrite Er in Hin; by apply elem_of_nil in Hin).
  unfold after_events. by rewrite Er, bool_decide_true by done.
Qed.

End WatchRun.
