(* ===== verification/IngressBridge.v ===== *)
(** * The ingress engine's view of the cluster: ingress/k8s_bridge.go,
      k8s_bridge_ingress.go, k8s_bridge_gateway.go

    Ingress and Gateway API objects are turned into route tables by host, or by
    port, which are rebuilt from all objects after every change.  A request is
    answered by the best matching route of its table. *)

From Stdlib Require Import Ascii.
From S2P Require Import Prelude GoStrings GoTime Metadata HostNames K8sObjects.

Open Scope Z_scope.

(** ** types.go *)

Abbreviation RouteKind := string (only parsing).
Definition RouteKindHTTP : RouteKind := "http".
Definition RouteKindHTTPS : RouteKind := "https".
Definition RouteKindGRPC : RouteKind := "grpc".
Definition RouteKindTLSTerminate : RouteKind := "tls-terminate".
Definition RouteKindTLSPassthrough : RouteKind := "tls-passthrough".
Definition RouteKindTCP : RouteKind := "tcp".
Definition RouteKindUDP : RouteKind := "udp".

Record BackendBinding := mkBackendBinding {
  bb_ID : string;
  bb_Hostname : string;
  bb_ServiceID : string;
  bb_Namespace : string;
  bb_Name : string;
  bb_Address : string;
  bb_Port : Z;
  bb_Protocol : RouteKind;
  bb_RouteVersion : Z;
  bb_Path : string;
  bb_Priority : Z;
  bb_BackendJSON : string;
  bb_BackendRef : option ServiceBackendRef;
  bb_DomainEntryID : string;
}.

Record ResolvedRoute := mkResolvedRoute {
  rr_Hostname : string;
  rr_RouteVersion : Z;
  rr_Protocol : RouteKind;
  rr_RouteJSON : string;
  rr_BindingID : string;
}.

Record K8sResolvedBackend := mkK8sResolvedBackend {
  kr_Kind : RouteKind;
  kr_Hostname : string;
  kr_Port : Z;
  kr_Binding : BackendBinding;
  kr_Route : option ResolvedRoute;
}.

(** ** Materialized routes *)

Inductive k8sRoutePathKind := k8sRoutePathPrefix | k8sRoutePathExact.

#[export] Instance k8sRoutePathKind_eq_dec : EqDecision k8sRoutePathKind.
Proof. solve_decision. Defined.

Record k8sMaterializedRoute := mkMaterialized {
  mr_kind : RouteKind;
  mr_binding : BackendBinding;
  mr_route : ResolvedRoute;
  mr_hostname : string;
  mr_port : Z;
  mr_path : string;
  mr_pathKind : k8sRoutePathKind;
  mr_listener : string;
  mr_routeOrder : Z;
}.

Definition materializedToResolved (route : k8sMaterializedRoute) : K8sResolvedBackend :=
  mkK8sResolvedBackend (mr_kind route) (mr_hostname route) (mr_port route) (mr_binding route)
    (Some (mr_route route)).

(** ** Choosing a route *)

Definition normalizeIngressPath (path : string) : string :=
  let path := TrimSpace path in
  if bool_decide (path = "") || negb (HasPrefix path "/") then "/" else path.

Definition k8sPathMatches (pathKind : k8sRoutePathKind) (routePath requestPath : string) : bool :=
  let routePath := normalizeIngressPath routePath in
  let requestPath := normalizeIngressPath requestPath in
  match pathKind with
  | k8sRoutePathExact => bool_decide (requestPath = routePath)
  | k8sRoutePathPrefix =>
      if bool_decide (routePath = "/") then true
      else if bool_decide (requestPath = routePath) then true
      else if negb (HasPrefix requestPath routePath) then false
      else HasPrefix (TrimPrefix requestPath routePath) "/"
  end.

Definition compareK8sRoutePriority (left right : k8sMaterializedRoute) : Z :=
  if bool_decide (mr_pathKind left <> mr_pathKind right) then
    if bool_decide (mr_pathKind left = k8sRoutePathExact) then 1 else -1
  else if bool_decide (len (mr_path left) <> len (mr_path right)) then
    if bool_decide (len (mr_path right) < len (mr_path left))%nat then 1 else -1
  else if bool_decide (mr_routeOrder left <> mr_routeOrder right) then
    if bool_decide (mr_routeOrder left < mr_routeOrder right) then 1 else -1
  else if bool_decide (bb_ID (mr_binding left) <> bb_ID (mr_binding right)) then
    if bool_decide (bb_ID (mr_binding right) ≤ bb_ID (mr_binding left))%string then 1 else -1
  else 0.

Definition better_route (candidate selected : k8sMaterializedRoute) : bool :=
  bool_decide (compareK8sRoutePriority candidate selected > 0).

Definition route_candidate (requestPath : string) (kind : RouteKind) (c : k8sMaterializedRoute) : bool :=
  bool_decide (mr_kind c = kind) && k8sPathMatches (mr_pathKind c) (mr_path c) requestPath.

Definition selectK8sRoute (routes : list k8sMaterializedRoute) (requestPath : string)
    (kind : RouteKind) : option k8sMaterializedRoute :=
  foldl (fun selected candidate =>
           if route_candidate requestPath kind candidate
           then pick_best better_route selected candidate else selected) None routes.

(** ** The state of the bridge *)

Record k8sGatewayListenerState := mkListener {
  gl_name : string;
  gl_protocol : string;
  gl_hostname : string;
  gl_port : Z;
  gl_tlsMode : string;
  gl_routeKind : RouteKind;
}.

Record k8sGatewayState := mkGateway {
  gw_name : string;
  gw_namespace : string;
  gw_listeners : gmap string k8sGatewayListenerState;
}.

Record k8sBackendRef := mkK8sBackendRef { kb_namespace : string; kb_name : string; kb_port : Z }.

Record k8sParentRef := mkParentRef { pr_gatewayKey : string; pr_sectionName : string }.

Record k8sHTTPRouteRuleState := mkRouteRule {
  ru_path : string;
  ru_pathKind : k8sRoutePathKind;
  ru_backend : k8sBackendRef;
}.

Record k8sHTTPRouteState := mkHTTPRouteState {
  hs_name : string;
  hs_namespace : string;
  hs_hostnames : list string;
  hs_parentRefs : list k8sParentRef;
  hs_rules : list k8sHTTPRouteRuleState;
}.

Record k8sL4RouteState := mkL4RouteState {
  ls4_name : string;
  ls4_namespace : string;
  ls4_hostnames : list string;
  ls4_parentRefs : list k8sParentRef;
  ls4_backend : k8sBackendRef;
}.

(** The objects seen so far, by namespace and name. *)
Record resources := mkResources {
  rs_ingresses : gmap string Ingress;
  rs_services : gmap string Service;
  rs_gateways : gmap string k8sGatewayState;
  rs_httpRoutes : gmap string k8sHTTPRouteState;
  rs_grpcRoutes : gmap string k8sHTTPRouteState;
  rs_tlsRoutes : gmap string k8sL4RouteState;
  rs_tcpRoutes : gmap string k8sL4RouteState;
  rs_udpRoutes : gmap string k8sL4RouteState;
}.

(** The route tables built from them. *)
Record resolved := mkResolved {
  httpResolved : gmap string (list k8sMaterializedRoute);
  httpsResolved : gmap string (list k8sMaterializedRoute);
  grpcResolved : gmap string (list k8sMaterializedRoute);
  tlsResolved : gmap string (list k8sMaterializedRoute);
  tcpResolved : gmap Z (list k8sMaterializedRoute);
  udpResolved : gmap Z (list k8sMaterializedRoute);
}.

Definition no_routes : resolved := mkResolved ∅ ∅ ∅ ∅ ∅ ∅.

Record K8sBridge := mkBridge {
  br_ingressClass : string;
  br_resources : resources;
  br_resolved : resolved;
}.

Definition NewK8sBridgeWithClients (ingressClass : string) : K8sBridge :=
  mkBridge (TrimSpace ingressClass) (mkResources ∅ ∅ ∅ ∅ ∅ ∅ ∅ ∅) no_routes.

(** ** Appending to a table *)

Inductive slot :=
  | HttpSlot (host : string)
  | HttpsSlot (host : string)
  | GrpcSlot (host : string)
  | TlsSlot (host : string)
  | TcpSlot (port : Z)
  | UdpSlot (port : Z).

#[export] Instance slot_eq_dec : EqDecision slot.
Proof. solve_decision. Defined.

(** [m[k] = append(m[k], r)] *)
Definition append_at `{Countable K} (k : K) (r : k8sMaterializedRoute)
    (m : gmap K (list k8sMaterializedRoute)) : gmap K (list k8sMaterializedRoute) :=
  <[k := default [] (m !! k) ++ [r]]> m.

Definition emit (t : resolved) (e : slot * k8sMaterializedRoute) : resolved :=
  let '(s, r) := e in
  match s with
  | HttpSlot h => mkResolved (append_at h r (httpResolved t)) (httpsResolved t) (grpcResolved t)
                    (tlsResolved t) (tcpResolved t) (udpResolved t)
  | HttpsSlot h => mkResolved (httpResolved t) (append_at h r (httpsResolved t)) (grpcResolved t)
                     (tlsResolved t) (tcpResolved t) (udpResolved t)
  | GrpcSlot h => mkResolved (httpResolved t) (httpsResolved t) (append_at h r (grpcResolved t))
                    (tlsResolved t) (tcpResolved t) (udpResolved t)
  | TlsSlot h => mkResolved (httpResolved t) (httpsResolved t) (grpcResolved t)
                   (append_at h r (tlsResolved t)) (tcpResolved t) (udpResolved t)
  | TcpSlot p => mkResolved (httpResolved t) (httpsResolved t) (grpcResolved t) (tlsResolved t)
                   (append_at p r (tcpResolved t)) (udpResolved t)
  | UdpSlot p => mkResolved (httpResolved t) (httpsResolved t) (grpcResolved t) (tlsResolved t)
                   (tcpResolved t) (append_at p r (udpResolved t))
  end.

Definition routes_at (s : slot) (t : resolved) : list k8sMaterializedRoute :=
  match s with
  | HttpSlot h => default [] (httpResolved t !! h)
  | HttpsSlot h => default [] (httpsResolved t !! h)
  | GrpcSlot h => default [] (grpcResolved t !! h)
  | TlsSlot h => default [] (tlsResolved t !! h)
  | TcpSlot p => default [] (tcpResolved t !! p)
  | UdpSlot p => default [] (udpResolved t !! p)
  end.

(** ** Resolving a request *)

Definition kind_slot (kind : RouteKind) (host : string) : option slot :=
  if bool_decide (kind = RouteKindHTTP) then Some (HttpSlot host)
  else if bool_decide (kind = RouteKindHTTPS) then Some (HttpsSlot host)
  else if bool_decide (kind = RouteKindGRPC) then Some (GrpcSlot host)
  else if bool_decide (kind = RouteKindTLSTerminate) || bool_decide (kind = RouteKindTLSPassthrough)
  then Some (TlsSlot host)
  else None.

Definition resolveHostPath (kind : RouteKind) (host requestPath : string) (b : K8sBridge)
    : option K8sResolvedBackend :=
  let host := normalizeHost host in
  if bool_decide (host = "") then None
  else
    let requestPath := normalizeIngressPath requestPath in
    s ← kind_slot kind host;
    selected ← selectK8sRoute (routes_at s (br_resolved b)) requestPath kind;
    Some (materializedToResolved selected).

Definition resolvePort (kind : RouteKind) (port : Z) (b : K8sBridge) : option K8sResolvedBackend :=
  let routes := if bool_decide (kind = RouteKindTCP) then routes_at (TcpSlot port) (br_resolved b)
                else if bool_decide (kind = RouteKindUDP) then routes_at (UdpSlot port) (br_resolved b)
                else [] in
  materializedToResolved <$> head routes.

Definition ResolveRequest (host requestPath : string) (b : K8sBridge) : option BackendBinding :=
  kr_Binding <$> resolveHostPath RouteKindHTTP host requestPath b.
Definition ResolveHTTPS (host requestPath : string) (b : K8sBridge) : option K8sResolvedBackend :=
  resolveHostPath RouteKindHTTPS host requestPath b.
Definition ResolveTLS (serverName : string) (b : K8sBridge) : option K8sResolvedBackend :=
  resolveHostPath RouteKindTLSTerminate serverName "/" b.
Definition ResolveTLSPassthrough (serverName : string) (b : K8sBridge) : option K8sResolvedBackend :=
  resolveHostPath RouteKindTLSPassthrough serverName "/" b.

(** ** Routes of Ingress objects *)

Definition resolveIngressBackendServiceAddressLocked (rs : resources) (namespace name : string)
    : option string :=
  svc ← rs_services rs !! (namespace +:+ "/" +:+ name);
  if bool_decide (svc_Type svc <> ServiceTypeExternalName) then None
  else
    let address := normalizeHost (svc_ExternalName svc) in
    if bool_decide (address = "") then None else Some address.

Definition ingress_service_port (service : IngressServiceBackend) : Z :=
  let servicePort := if bool_decide (isb_PortNumber service > 0) then u32 (isb_PortNumber service) else 80 in
  if bool_decide (isb_PortName service <> "") && bool_decide (servicePort = 0) then 80 else servicePort.

Definition ingress_path_kind (path : HTTPIngressPath) : k8sRoutePathKind :=
  if bool_decide (hip_PathType path = Some PathTypeExact) then k8sRoutePathExact else k8sRoutePathPrefix.

(** The route of the [idx]-th path of a rule for [host]. *)
Definition ingress_route (rs : resources) (ing : Ingress) (host : string) (idx : nat)
    (path : HTTPIngressPath) (service : IngressServiceBackend) : k8sMaterializedRoute :=
  let serviceAddress := default (buildServiceAddress (isb_Name service) (ing_Namespace ing))
    (resolveIngressBackendServiceAddressLocked rs (ing_Namespace ing) (isb_Name service)) in
  let bindingID := "k8s:ingress:" +:+ ing_Namespace ing +:+ ":" +:+ ing_Name ing +:+ ":" +:+ host
                   +:+ ":" +:+ Itoa (Z.of_nat idx) in
  let generation := u64 (ing_Generation ing) in
  let routeVersion := if bool_decide (generation = 0) then 1 else generation in
  let normalizedPath := normalizeIngressPath (hip_Path path) in
  {| mr_kind := RouteKindHTTP;
     mr_binding :=
       {| bb_ID := bindingID; bb_Hostname := host;
          bb_ServiceID := ing_Namespace ing +:+ "/" +:+ isb_Name service;
          bb_Namespace := ing_Namespace ing; bb_Name := isb_Name service;
          bb_Address := serviceAddress; bb_Port := ingress_service_port service;
          bb_Protocol := RouteKindHTTP; bb_RouteVersion := routeVersion;
          bb_Path := normalizedPath; bb_Priority := 0; bb_BackendJSON := hip_JSON path;
          bb_BackendRef := None; bb_DomainEntryID := "" |};
     mr_route :=
       {| rr_Hostname := host; rr_RouteVersion := routeVersion; rr_Protocol := RouteKindHTTP;
          rr_RouteJSON := hip_JSON path; rr_BindingID := bindingID |};
     mr_hostname := host;
     mr_port := 80;
     mr_path := normalizedPath;
     mr_pathKind := ingress_path_kind path;
     mr_listener := "";
     mr_routeOrder := 0 |}.

Definition ingress_path_routes (rs : resources) (ing : Ingress) (host : string) (idx : nat)
    (path : HTTPIngressPath) : list (slot * k8sMaterializedRoute) :=
  match hip_Service path with
  | None => []
  | Some service => [(HttpSlot host, ingress_route rs ing host idx path service)]
  end.

Definition ingress_rule_routes (rs : resources) (ing : Ingress) (rule : IngressRule)
    : list (slot * k8sMaterializedRoute) :=
  let host := normalizeHost (ir_Host rule) in
  match ir_HTTP rule with
  | None => []
  | Some paths =>
      if bool_decide (host = "") then [] else concat (imap (ingress_path_routes rs ing host) paths)
  end.

(** ** Routes of Gateway API objects *)

Definition routeKindFromListener (name protocol tlsMode : string) : RouteKind :=
  let name := ToLower (TrimSpace name) in
  let protocol := ToUpper (TrimSpace protocol) in
  if bool_decide (name = "web") then RouteKindHTTP
  else if bool_decide (name = "websecure") then RouteKindHTTPS
  else if bool_decide (protocol = "HTTP") then RouteKindHTTP
  else if bool_decide (protocol = "HTTPS") then RouteKindHTTPS
  else if bool_decide (protocol = "GRPC") || bool_decide (protocol = "HTTPS+GRPC") then RouteKindGRPC
  else if bool_decide (protocol = "TLS") then RouteKindTLSTerminate
  else if bool_decide (protocol = "TCP") then RouteKindTCP
  else if bool_decide (protocol = "UDP") then RouteKindUDP
  else RouteKindHTTP.

Definition effectiveHosts (routeHosts : list string) (listenerHost : string) : list string :=
  match routeHosts with
  | _ :: _ => filter (fun h => h <> "") (normalizeHost <$> routeHosts)
  | [] => let normalized := normalizeHost listenerHost in
          if bool_decide (normalized = "") then [] else [normalized]
  end.

Definition listenerAllowsKind (listener : k8sGatewayListenerState) (kind : RouteKind) : bool :=
  let own := gl_routeKind listener in
  if bool_decide (kind = RouteKindHTTP) then bool_decide (own = RouteKindHTTP)
  else if bool_decide (kind = RouteKindHTTPS) then bool_decide (own = RouteKindHTTPS)
  else if bool_decide (kind = RouteKindGRPC)
  then bool_decide (own = RouteKindGRPC) || bool_decide (own = RouteKindHTTP)
  else if bool_decide (kind = RouteKindTLSTerminate) || bool_decide (kind = RouteKindTLSPassthrough)
  then bool_decide (own = RouteKindTLSTerminate)
  else if bool_decide (kind = RouteKindTCP) then bool_decide (own = RouteKindTCP)
  else if bool_decide (kind = RouteKindUDP) then bool_decide (own = RouteKindUDP)
  else false.

Definition backendProtocolForRouteKind (kind : RouteKind) : RouteKind :=
  if bool_decide (kind = RouteKindHTTPS) then RouteKindHTTP else kind.

Definition newMaterializedRoute (kind : RouteKind) (namespace routeName host : string) (port : Z)
    (backend : k8sBackendRef) (raw : string) (order : nat) : k8sMaterializedRoute :=
  let bindingID := "k8s:" +:+ kind +:+ ":" +:+ namespace +:+ ":" +:+ routeName +:+ ":"
                   +:+ kb_name backend +:+ ":" +:+ Itoa (Z.of_nat order) in
  {| mr_kind := kind;
     mr_binding :=
       {| bb_ID := bindingID; bb_Hostname := host;
          bb_ServiceID := kb_namespace backend +:+ "/" +:+ kb_name backend;
          bb_Namespace := kb_namespace backend; bb_Name := kb_name backend;
          bb_Address := buildServiceAddress (kb_name backend) (kb_namespace backend);
          bb_Port := kb_port backend; bb_Protocol := backendProtocolForRouteKind kind;
          bb_RouteVersion := 1; bb_Path := ""; bb_Priority := 0; bb_BackendJSON := raw;
          bb_BackendRef := None; bb_DomainEntryID := "" |};
     mr_route :=
       {| rr_Hostname := host; rr_RouteVersion := 1; rr_Protocol := kind; rr_RouteJSON := raw;
          rr_BindingID := bindingID |};
     mr_hostname := host;
     mr_port := port;
     mr_path := "/";
     mr_pathKind := k8sRoutePathPrefix;
     mr_listener := "";
     mr_routeOrder := Z.of_nat order |}.

(** [materialized.path = ...; materialized.pathKind = ...; materialized.listener = ...] *)
Definition at_path (path : string) (pathKind : k8sRoutePathKind) (listener : string)
    (r : k8sMaterializedRoute) : k8sMaterializedRoute :=
  mkMaterialized (mr_kind r) (mr_binding r) (mr_route r) (mr_hostname r) (mr_port r) path pathKind
    listener (mr_routeOrder r).
(** [materialized.kind = kind] *)
Definition of_kind (kind : RouteKind) (r : k8sMaterializedRoute) : k8sMaterializedRoute :=
  mkMaterialized kind (mr_binding r) (mr_route r) (mr_hostname r) (mr_port r) (mr_path r)
    (mr_pathKind r) (mr_listener r) (mr_routeOrder r).

(** [json.Marshal] of a struct without exported fields, such as
    [k8sHTTPRouteRuleState] and [k8sBackendRef]. *)
Definition marshal_unexported : string := "{}".

Definition section_matches (parentRef : k8sParentRef) (listener : k8sGatewayListenerState) : bool :=
  bool_decide (pr_sectionName parentRef = "") || bool_decide (gl_name listener = pr_sectionName parentRef).

(** The routes of every rule of an HTTPRoute or GRPCRoute on one listener. *)
Definition rule_routes (to : string -> option slot) (kind : RouteKind) (route : k8sHTTPRouteState)
    (listener : k8sGatewayListenerState) : list (slot * k8sMaterializedRoute) :=
  host ← effectiveHosts (hs_hostnames route) (gl_hostname listener);
  concat (imap (fun idx rule =>
    let materialized := newMaterializedRoute kind (hs_namespace route) (hs_name route) host
                          (gl_port listener) (ru_backend rule) marshal_unexported idx in
    let materialized := at_path (ru_path rule) (ru_pathKind rule) (gl_name listener) materialized in
    match to host with Some s => [(s, materialized)] | None => [] end) (hs_rules route)).

Definition http_listener_routes (route : k8sHTTPRouteState) (parentRef : k8sParentRef)
    (listener : k8sGatewayListenerState) : list (slot * k8sMaterializedRoute) :=
  let emittedKind := gl_routeKind listener in
  if negb (section_matches parentRef listener) then []
  else if bool_decide (emittedKind <> RouteKindHTTP) && bool_decide (emittedKind <> RouteKindHTTPS) then []
  else rule_routes (kind_slot emittedKind) emittedKind route listener.

Definition grpc_listener_routes (route : k8sHTTPRouteState) (parentRef : k8sParentRef)
    (listener : k8sGatewayListenerState) : list (slot * k8sMaterializedRoute) :=
  if negb (section_matches parentRef listener) then []
  else if negb (listenerAllowsKind listener RouteKindGRPC) then []
  else rule_routes (fun host => Some (GrpcSlot host)) RouteKindGRPC route listener.

Definition l4_slot (kind : RouteKind) (host : string) (port : Z) : list slot :=
  if bool_decide (kind = RouteKindTLSTerminate) || bool_decide (kind = RouteKindTLSPassthrough)
  then if bool_decide (host <> "") then [TlsSlot host] else []
  else if bool_decide (kind = RouteKindTCP) then [TcpSlot port]
  else if bool_decide (kind = RouteKindUDP) then [UdpSlot port]
  else [].

Definition l4_listener_routes (kind : RouteKind) (route : k8sL4RouteState) (parentRef : k8sParentRef)
    (listener : k8sGatewayListenerState) : list (slot * k8sMaterializedRoute) :=
  if negb (section_matches parentRef listener) then []
  else if negb (listenerAllowsKind listener kind) then []
  else
    let hosts := effectiveHosts (ls4_hostnames route) (gl_hostname listener) in
    host ← (match hosts with [] => [gl_hostname listener] | _ => hosts end);
    let materialized := newMaterializedRoute kind (ls4_namespace route) (ls4_name route) host
                          (gl_port listener) (ls4_backend route) marshal_unexported 0 in
    let materialized := at_path (mr_path materialized) (mr_pathKind materialized) (gl_name listener)
                          materialized in
    let materialized := if bool_decide (kind = RouteKindTLSTerminate)
                           && EqualFold (gl_tlsMode listener) "Passthrough"
                        then of_kind RouteKindTLSPassthrough materialized else materialized in
    (fun s => (s, materialized)) <$> l4_slot (mr_kind materialized) host (gl_port listener).

(** ** Reading Gateway API objects *)

Section objects.
Context {UN : Unstructured} {MR : MapRange}.

(** The [raw.(map[string]interface{})] elements of a nested slice. *)
Definition nested_maps (m : k8s_map) (fields : list string) : list k8s_map :=
  omap id (NestedSlice m fields).

Definition parse_listener (listeners : gmap string k8sGatewayListenerState) (item : k8s_map)
    : gmap string k8sGatewayListenerState :=
  let name := nested_string item ["name"] in
  if bool_decide (name = "") then listeners
  else
    let protocol := nested_string item ["protocol"] in
    let tlsMode := nested_string item ["tls"; "mode"] in
    <[name := {| gl_name := name; gl_protocol := ToUpper (TrimSpace protocol);
                 gl_hostname := nested_string item ["hostname"];
                 gl_port := u32 (nested_int64 item ["port"]);
                 gl_tlsMode := TrimSpace tlsMode;
                 gl_routeKind := routeKindFromListener name protocol tlsMode |}]> listeners.

Definition parseGatewayState (obj : k8s_obj) : k8sGatewayState :=
  {| gw_name := GetName obj; gw_namespace := GetNamespace obj;
     gw_listeners := foldl parse_listener ∅ (nested_maps (Object obj) ["spec"; "listeners"]) |}.

Definition parse_parent (obj item : k8s_map) : option k8sParentRef :=
  let name := nested_string item ["name"] in
  if bool_decide (name = "") then None
  else
    let namespace := nested_string item ["namespace"] in
    let namespace := if bool_decide (namespace = "") then nested_string obj ["metadata"; "namespace"]
                     else namespace in
    Some (mkParentRef (namespace +:+ "/" +:+ name) (nested_string item ["sectionName"])).

Definition parseParentRefs (obj : k8s_map) : list k8sParentRef :=
  omap (parse_parent obj) (nested_maps obj ["spec"; "parentRefs"]).

Definition parse_backend (defaultNamespace : string) (item : k8s_map) : option k8sBackendRef :=
  let name := nested_string item ["name"] in
  if bool_decide (name = "") then None
  else
    let namespace := nested_string item ["namespace"] in
    let port := u32 (nested_int64 item ["port"]) in
    Some (mkK8sBackendRef (if bool_decide (namespace = "") then defaultNamespace else namespace) name
            (if bool_decide (port = 0) then 80 else port)).

Definition parseFirstBackendRef (obj : k8s_map) (defaultNamespace : string) : option k8sBackendRef :=
  head (omap (parse_backend defaultNamespace) (nested_maps obj ["backendRefs"])).

(** The path and path kind of the first match of a rule. *)
Definition parse_match (item : k8s_map) : string * k8sRoutePathKind :=
  match NestedSlice item ["matches"] with
  | Some m :: _ =>
      (match NestedString m ["path"; "value"] with
       | Some matchPath => if bool_decide (matchPath = "") then "/" else normalizeIngressPath matchPath
       | None => "/"
       end,
       match NestedString m ["path"; "type"] with
       | Some matchType => if EqualFold matchType "Exact" then k8sRoutePathExact else k8sRoutePathPrefix
       | None => k8sRoutePathPrefix
       end)
  | _ => ("/", k8sRoutePathPrefix)
  end.

Definition parse_rule (namespace : string) (item : k8s_map) : option k8sHTTPRouteRuleState :=
  let '(path, pathKind) := parse_match item in
  backend ← parseFirstBackendRef item namespace;
  Some (mkRouteRule path pathKind backend).

Definition parseHTTPRouteState (obj : k8s_obj) : k8sHTTPRouteState :=
  {| hs_name := GetName obj; hs_namespace := GetNamespace obj;
     hs_hostnames := NestedStringSlice (Object obj) ["spec"; "hostnames"];
     hs_parentRefs := parseParentRefs (Object obj);
     hs_rules := omap (parse_rule (GetNamespace obj)) (nested_maps (Object obj) ["spec"; "rules"]) |}.

Definition parseL4RouteState (obj : k8s_obj) : option k8sL4RouteState :=
  backend ← head (omap (fun item => parseFirstBackendRef item (GetNamespace obj))
                    (nested_maps (Object obj) ["spec"; "rules"]));
  if bool_decide (kb_name backend = "") then None
  else
    Some {| ls4_name := GetName obj; ls4_namespace := GetNamespace obj;
            ls4_hostnames := NestedStringSlice (Object obj) ["spec"; "hostnames"];
            ls4_parentRefs := parseParentRefs (Object obj);
            ls4_backend := backend |}.

(** ** Rebuilding the tables *)

Definition rebuildIngressRoutesLocked (rs : resources) (t : resolved) : resolved :=
  foldl emit t ('(_, ing) ← range (rs_ingresses rs);
                rule ← ing_Rules ing;
                ingress_rule_routes rs ing rule).

(** What a route emits: the listeners of every gateway it names. *)
Definition parent_routes (gateways : gmap string k8sGatewayState) (parentRefs : list k8sParentRef)
    (routes : k8sParentRef -> k8sGatewayListenerState -> list (slot * k8sMaterializedRoute))
    : list (slot * k8sMaterializedRoute) :=
  parentRef ← parentRefs;
  match gateways !! pr_gatewayKey parentRef with
  | None => []
  | Some gateway => '(_, listener) ← range (gw_listeners gateway); routes parentRef listener
  end.

Definition materializeHTTPFamilyLocked (rs : resources) (route : k8sHTTPRouteState)
    : list (slot * k8sMaterializedRoute) :=
  parent_routes (rs_gateways rs) (hs_parentRefs route) (http_listener_routes route).
Definition materializeGRPCFamilyLocked (rs : resources) (route : k8sHTTPRouteState)
    : list (slot * k8sMaterializedRoute) :=
  parent_routes (rs_gateways rs) (hs_parentRefs route) (grpc_listener_routes route).
Definition materializeL4Locked (rs : resources) (kind : RouteKind) (route : k8sL4RouteState)
    : list (slot * k8sMaterializedRoute) :=
  parent_routes (rs_gateways rs) (ls4_parentRefs route) (l4_listener_routes kind route).

Definition rebuildGatewayRoutesLocked (rs : resources) (t : resolved) : resolved :=
  let t := foldl emit t ('(_, route) ← range (rs_httpRoutes rs); materializeHTTPFamilyLocked rs route) in
  let t := foldl emit t ('(_, route) ← range (rs_grpcRoutes rs); materializeGRPCFamilyLocked rs route) in
  let t := foldl emit t ('(_, route) ← range (rs_tlsRoutes rs);
                         materializeL4Locked rs RouteKindTLSTerminate route) in
  let t := foldl emit t ('(_, route) ← range (rs_tcpRoutes rs); materializeL4Locked rs RouteKindTCP route) in
  foldl emit t ('(_, route) ← range (rs_udpRoutes rs); materializeL4Locked rs RouteKindUDP route).

Definition rebuildRoutesLocked (b : K8sBridge) : K8sBridge :=
  let rs := br_resources b in
  mkBridge (br_ingressClass b) rs
    (rebuildGatewayRoutesLocked rs (rebuildIngressRoutesLocked rs no_routes)).

(** ** The informer callbacks *)

Definition matchesIngressClass (expected : string) (ing : Ingress) : bool :=
  if bool_decide (expected = "") then false
  else
    match ing_IngressClassName ing with
    | Some ""%string | None =>
        match ing_Annotations ing with
        | Some annotations =>
            bool_decide (default "" (annotations !! "kubernetes.io/ingress.class") = expected)
        | None => false
        end
    | Some class => bool_decide (class = expected)
    end.

Definition object_key (namespace name : string) : string := namespace +:+ "/" +:+ name.

Definition with_ingresses (f : gmap string Ingress -> gmap string Ingress) (rs : resources) : resources :=
  mkResources (f (rs_ingresses rs)) (rs_services rs) (rs_gateways rs) (rs_httpRoutes rs)
    (rs_grpcRoutes rs) (rs_tlsRoutes rs) (rs_tcpRoutes rs) (rs_udpRoutes rs).
Definition with_services (f : gmap string Service -> gmap string Service) (rs : resources) : resources :=
  mkResources (rs_ingresses rs) (f (rs_services rs)) (rs_gateways rs) (rs_httpRoutes rs)
    (rs_grpcRoutes rs) (rs_tlsRoutes rs) (rs_tcpRoutes rs) (rs_udpRoutes rs).
Definition with_gateways (f : gmap string k8sGatewayState -> gmap string k8sGatewayState)
    (rs : resources) : resources :=
  mkResources (rs_ingresses rs) (rs_services rs) (f (rs_gateways rs)) (rs_httpRoutes rs)
    (rs_grpcRoutes rs) (rs_tlsRoutes rs) (rs_tcpRoutes rs) (rs_udpRoutes rs).
Definition with_httpRoutes (f : gmap string k8sHTTPRouteState -> gmap string k8sHTTPRouteState)
    (rs : resources) : resources :=
  mkResources (rs_ingresses rs) (rs_services rs) (rs_gateways rs) (f (rs_httpRoutes rs))
    (rs_grpcRoutes rs) (rs_tlsRoutes rs) (rs_tcpRoutes rs) (rs_udpRoutes rs).
Definition with_grpcRoutes (f : gmap string k8sHTTPRouteState -> gmap string k8sHTTPRouteState)
    (rs : resources) : resources :=
  mkResources (rs_ingresses rs) (rs_services rs) (rs_gateways rs) (rs_httpRoutes rs)
    (f (rs_grpcRoutes rs)) (rs_tlsRoutes rs) (rs_tcpRoutes rs) (rs_udpRoutes rs).
Definition with_tlsRoutes (f : gmap string k8sL4RouteState -> gmap string k8sL4RouteState)
    (rs : resources) : resources :=
  mkResources (rs_ingresses rs) (rs_services rs) (rs_gateways rs) (rs_httpRoutes rs)
    (rs_grpcRoutes rs) (f (rs_tlsRoutes rs)) (rs_tcpRoutes rs) (rs_udpRoutes rs).
Definition with_tcpRoutes (f : gmap string k8sL4RouteState -> gmap string k8sL4RouteState)
    (rs : resources) : resources :=
  mkResources (rs_ingresses rs) (rs_services rs) (rs_gateways rs) (rs_httpRoutes rs)
    (rs_grpcRoutes rs) (rs_tlsRoutes rs) (f (rs_tcpRoutes rs)) (rs_udpRoutes rs).
Definition with_udpRoutes (f : gmap string k8sL4RouteState -> gmap string k8sL4RouteState)
    (rs : resources) : resources :=
  mkResources (rs_ingresses rs) (rs_services rs) (rs_gateways rs) (rs_httpRoutes rs)
    (rs_grpcRoutes rs) (rs_tlsRoutes rs) (rs_tcpRoutes rs) (f (rs_udpRoutes rs)).

(** Change the objects and leave the tables. *)
Definition with_resources (f : resources -> resources) (b : K8sBridge) : K8sBridge :=
  mkBridge (br_ingressClass b) (f (br_resources b)) (br_resolved b).
(** Change the objects and rebuild the tables. *)
Definition update_resources (f : resources -> resources) (b : K8sBridge) : K8sBridge :=
  rebuildRoutesLocked (with_resources f b).

Definition storeIngress (obj : informer_object) (b : K8sBridge) : K8sBridge :=
  match obj with
  | ObjIngress ing =>
      let key := object_key (ing_Namespace ing) (ing_Name ing) in
      if negb (matchesIngressClass (br_ingressClass b) ing)
      then update_resources (with_ingresses (delete key)) b
      else update_resources (with_ingresses (<[key := ing]>)) b
  | _ => b
  end.

Definition storeService (obj : informer_object) (b : K8sBridge) : K8sBridge :=
  match obj with
  | ObjService svc =>
      update_resources (with_services (<[object_key (svc_Namespace svc) (svc_Name svc) := svc]>)) b
  | _ => b
  end.

Definition storeGatewayUnstructured (obj : k8s_obj) (b : K8sBridge) : K8sBridge :=
  let state := parseGatewayState obj in
  update_resources (with_gateways (<[object_key (gw_namespace state) (gw_name state) := state]>)) b.
Definition storeHTTPRouteUnstructured (obj : k8s_obj) (b : K8sBridge) : K8sBridge :=
  let state := parseHTTPRouteState obj in
  update_resources (with_httpRoutes (<[object_key (hs_namespace state) (hs_name state) := state]>)) b.
Definition storeGRPCRouteUnstructured (obj : k8s_obj) (b : K8sBridge) : K8sBridge :=
  let state := parseHTTPRouteState obj in
  update_resources (with_grpcRoutes (<[object_key (hs_namespace state) (hs_name state) := state]>)) b.
Definition storeTLSRouteUnstructured (obj : k8s_obj) (b : K8sBridge) : K8sBridge :=
  match parseL4RouteState obj with
  | Some state =>
      update_resources (with_tlsRoutes (<[object_key (ls4_namespace state) (ls4_name state) := state]>)) b
  | None => b
  end.
Definition storeTCPRouteUnstructured (obj : k8s_obj) (b : K8sBridge) : K8sBridge :=
  match parseL4RouteState obj with
  | Some state =>
      update_resources (with_tcpRoutes (<[object_key (ls4_namespace state) (ls4_name state) := state]>)) b
  | None => b
  end.
Definition storeUDPRouteUnstructured (obj : k8s_obj) (b : K8sBridge) : K8sBridge :=
  match parseL4RouteState obj with
  | Some state =>
      update_resources (with_udpRoutes (<[object_key (ls4_namespace state) (ls4_name state) := state]>)) b
  | None => b
  end.

(** [asUnstructured]: an object of another type is ignored. *)
Definition as_unstructured (store : k8s_obj -> K8sBridge -> K8sBridge) (obj : informer_object)
    (b : K8sBridge) : K8sBridge :=
  match obj with ObjUnstructured o => store o b | _ => b end.

Definition deleteByNamespaceName (deleter : string -> string -> K8sBridge -> K8sBridge)
    (obj : informer_object) (b : K8sBridge) : K8sBridge :=
  match obj with
  | ObjIngress ing => deleter (ing_Namespace ing) (ing_Name ing) b
  | ObjService svc => deleter (svc_Namespace svc) (svc_Name svc) b
  | ObjUnstructured o => deleter (GetNamespace o) (GetName o) b
  | ObjDeletedFinalStateUnknown (Some (namespace, name)) => deleter namespace name b
  | ObjDeletedFinalStateUnknown None | ObjOther => b
  end.

(** [deleteIngress], [deleteService], [deleteGatewayKey] and [deleteRouteKey]:
    drop the object and rebuild. *)
Definition delete_key (drop : string -> resources -> resources) (obj : informer_object)
    (b : K8sBridge) : K8sBridge :=
  deleteByNamespaceName (fun namespace name => update_resources (drop (object_key namespace name))) obj b.

(** The kinds of objects watched. *)
Inductive watched :=
  | WIngress | WService | WGateway | WHTTPRoute | WGRPCRoute | WTLSRoute | WTCPRoute | WUDPRoute.

Definition store (w : watched) : informer_object -> K8sBridge -> K8sBridge :=
  match w with
  | WIngress => storeIngress
  | WService => storeService
  | WGateway => as_unstructured storeGatewayUnstructured
  | WHTTPRoute => as_unstructured storeHTTPRouteUnstructured
  | WGRPCRoute => as_unstructured storeGRPCRouteUnstructured
  | WTLSRoute => as_unstructured storeTLSRouteUnstructured
  | WTCPRoute => as_unstructured storeTCPRouteUnstructured
  | WUDPRoute => as_unstructured storeUDPRouteUnstructured
  end.

Definition drop_of (w : watched) (key : string) : resources -> resources :=
  match w with
  | WIngress => with_ingresses (delete key)
  | WService => with_services (delete key)
  | WGateway => with_gateways (delete key)
  | WHTTPRoute => with_httpRoutes (delete key)
  | WGRPCRoute => with_grpcRoutes (delete key)
  | WTLSRoute => with_tlsRoutes (delete key)
  | WTCPRoute => with_tcpRoutes (delete key)
  | WUDPRoute => with_udpRoutes (delete key)
  end.

Definition remove (w : watched) : informer_object -> K8sBridge -> K8sBridge := delete_key (drop_of w).

(** ** Loading *)

(** What the API server lists; an error instead of a list where the request
    fails. *)
Record cluster_lists := mkClusterLists {
  cl_ingresses : result (list Ingress);
  cl_services : result (list Service);
  cl_gateway_objects : watched -> result (list k8s_obj);
}.

Definition loadInitialIngresses (l : cluster_lists) : go K8sBridge () :=
  match cl_ingresses l with
  | Err e => throw (Errorf "list ingresses: %w" [err_format e])
  | Ok items =>
      modify (fun b => foldl (fun b ing =>
        if matchesIngressClass (br_ingressClass b) ing
        then with_resources (with_ingresses (<[object_key (ing_Namespace ing) (ing_Name ing) := ing]>)) b
        else b) b items)
  end.

Definition loadInitialServices (l : cluster_lists) : go K8sBridge () :=
  match cl_services l with
  | Err e => throw (Errorf "list services: %w" [err_format e])
  | Ok items =>
      modify (fun b => foldl (fun b svc =>
        with_resources (with_services (<[object_key (svc_Namespace svc) (svc_Name svc) := svc]>)) b)
        b items)
  end.

(** A kind of object that cannot be listed is skipped. *)
Definition load_gateway_objects (l : cluster_lists) (w : watched) (b : K8sBridge) : K8sBridge :=
  match cl_gateway_objects l w with
  | Err _ => b
  | Ok items => foldl (fun b obj => store w (ObjUnstructured obj) b) b items
  end.

Definition loadInitialGateways (l : cluster_lists) (b : K8sBridge) : K8sBridge :=
  foldl (fun b w => load_gateway_objects l w b) b
    [WGateway; WHTTPRoute; WGRPCRoute; WTLSRoute; WTCPRoute; WUDPRoute].

Definition LoadInitial (l : cluster_lists) : go K8sBridge () :=
  loadInitialIngresses l ;;
  loadInitialServices l ;;
  modify (loadInitialGateways l) ;;
  modify rebuildRoutesLocked.

Definition ListIngresses (b : K8sBridge) : list Ingress := (range (rs_ingresses (br_resources b))).*2.

End objects.
