(* ===== verification/IngressBridgeFacts.v ===== *)
(** * The cluster routes of the ingress engine: theorems

    What paths a route matches; which route is chosen; that the tables offer
    exactly the routes of the objects seen, whatever the order in which Go walks
    its maps. *)

From Stdlib Require Import Ascii.
From S2P Require Import Prelude GoStrings GoTime Metadata HostNames K8sObjects IngressBridge.

Open Scope Z_scope.

(** ** Paths *)

Lemma normalizeIngressPath_slash p : HasPrefix (normalizeIngressPath p) "/" = true.
Proof.
  unfold normalizeIngressPath. case_bool_decide; cbn [orb]; [done|].
  by destruct (HasPrefix (TrimSpace p) "/") eqn:E; cbn [negb].
Qed.

Lemma normalizeIngressPath_idemp p :
  normalizeIngressPath (normalizeIngressPath p) = normalizeIngressPath p.
Proof.
  assert (forall q, normalizeIngressPath q = "/" \/
    (normalizeIngressPath q = TrimSpace q /\ TrimSpace q <> "" /\ HasPrefix (TrimSpace q) "/" = true)) as Hc.
  { intros q. unfold normalizeIngressPath. case_bool_decide; cbn [orb]; [by left|].
    destruct (HasPrefix (TrimSpace q) "/"); cbn [negb]; auto. }
  destruct (Hc p) as [-> | (-> & Hne & Hp)]; [done|].
  unfold normalizeIngressPath. rewrite TrimSpace_idemp, Hp, bool_decide_eq_false_2; done.
Qed.

(** The elements of a path, between its slashes. *)
Definition path_elements (p : string) : list string := Split p "/"%char.

Lemma split_bytes_app_sep sep l k :
  split_bytes sep (l ++ sep :: k) = split_bytes sep l ++ split_bytes sep k.
Proof.
  induction l as [|a l IH]; cbn; [by rewrite bool_decide_eq_true_2|].
  case_bool_decide; [by rewrite IH|]. rewrite IH.
  destruct (split_bytes sep l) eqn:E; [by apply split_bytes_cons in E|done].
Qed.

Lemma fmap_bytes_of_bytes (ws : list (list ascii)) :
  (fun w => bytes w) <$> ((fun w => of_bytes w) <$> ws) = ws.
Proof. induction ws as [|w ws IH]; cbn; [done|]. by rewrite bytes_of_bytes, IH. Qed.

Lemma join_bytes_app sep vs w ws :
  vs <> [] -> join_bytes sep (vs ++ w :: ws) = join_bytes sep vs ++ sep ++ join_bytes sep (w :: ws).
Proof.
  intros Hne. induction vs as [|v [|v' vs] IH]; [done|done|].
  change (join_bytes sep ((v :: v' :: vs) ++ w :: ws))
    with (v ++ sep ++ join_bytes sep ((v' :: vs) ++ w :: ws)).
  rewrite IH by done. cbn [join_bytes]. by rewrite <- !app_assoc.
Qed.

Lemma path_elements_prefix p q :
  path_elements p `prefix_of` path_elements q <-> q = p \/ exists rest, q = p +:+ "/" +:+ rest.
Proof.
  unfold path_elements, Split. split.
  - intros [k Hk].
    assert (exists ws, split_bytes "/" (bytes q) = split_bytes "/" (bytes p) ++ ws) as [ws Hws].
    { exists ((fun w => bytes w) <$> k). rewrite <- (fmap_bytes_of_bytes (split_bytes _ (bytes q))), Hk.
      by rewrite fmap_app, fmap_bytes_of_bytes. }
    apply (f_equal (join_bytes ["/"%char])) in Hws. rewrite join_split_bytes in Hws.
    destruct ws as [|w ws].
    + left. apply bytes_inj. by rewrite Hws, app_nil_r, join_split_bytes.
    + right. exists (of_bytes (join_bytes ["/"%char] (w :: ws))). apply bytes_inj.
      rewrite Hws, !bytes_app, bytes_of_bytes, join_bytes_app by apply split_bytes_cons.
      by rewrite join_split_bytes.
  - intros [->|[rest ->]]; [done|].
    rewrite !bytes_app. cbn [app]. change (bytes "/") with ["/"%char]. cbn [app].
    rewrite split_bytes_app_sep, fmap_app. by apply prefix_app_r.
Qed.

(** ** Choosing a route *)

Lemma selectK8sRoute_filter routes p kind :
  selectK8sRoute routes p kind =
    foldl (pick_best better_route) None (filter (fun c => route_candidate p kind c = true) routes).
Proof.
  unfold selectK8sRoute. generalize (@None k8sMaterializedRoute).
  induction routes as [|c routes IH]; intros acc; cbn [foldl]; [done|].
  rewrite filter_cons, IH. destruct (route_candidate p kind c) eqn:E; [|done].
  rewrite decide_True by done. done.
Qed.

(** [better_route] orders routes lexicographically. *)
Definition ranks_below (a b : k8sMaterializedRoute) : Prop := compareK8sRoutePriority a b <= 0.

Lemma better_false a b : better_route a b = false <-> ranks_below a b.
Proof.
  unfold better_route, ranks_below. rewrite bool_decide_eq_false. lia.
Qed.

(** The four criteria, most significant first: exact before prefix, longer
    path, smaller order, larger binding id. *)
Definition ranks_lex (a b : k8sMaterializedRoute) : Prop :=
  let rank r := match mr_pathKind r with k8sRoutePathExact => 1 | k8sRoutePathPrefix => 0 end in
  rank a < rank b \/ (rank a = rank b /\
    ((len (mr_path a) < len (mr_path b))%nat \/ (len (mr_path a) = len (mr_path b) /\
      (mr_routeOrder b < mr_routeOrder a \/ (mr_routeOrder a = mr_routeOrder b /\
        (bb_ID (mr_binding a) ≤ bb_ID (mr_binding b))%string))))).

Lemma ranks_below_lex a b : ranks_below a b <-> ranks_lex a b.
Proof.
  unfold ranks_below, ranks_lex, compareK8sRoutePriority.
  destruct (decide (mr_pathKind a = mr_pathKind b)) as [Hk|Hk];
    [rewrite bool_decide_eq_false_2 by tauto|rewrite bool_decide_eq_true_2 by done].
  2: { destruct (mr_pathKind a), (mr_pathKind b); try done; case_bool_decide; try done; lia. }
  rewrite Hk. destruct (decide (len (mr_path a) = len (mr_path b))) as [Hl|Hl];
    [rewrite bool_decide_eq_false_2 by tauto|rewrite bool_decide_eq_true_2 by done].
  2: { case_bool_decide; lia. }
  destruct (decide (mr_routeOrder a = mr_routeOrder b)) as [Ho|Ho];
    [rewrite bool_decide_eq_false_2 by tauto|rewrite bool_decide_eq_true_2 by done].
  2: { case_bool_decide; lia. }
  rewrite Hl, Ho.
  destruct (decide (bb_ID (mr_binding a) = bb_ID (mr_binding b))) as [Hi|Hi];
    [rewrite bool_decide_eq_false_2 by tauto|rewrite bool_decide_eq_true_2 by done].
  { rewrite Hi. split; [|done]. intros _. do 3 (right; split; [done|]). reflexivity. }
  case_bool_decide as Hle.
  - split; [done|]. intros [?|[_ [?|[_ [?|[_ Hge]]]]]]; try lia. exfalso. by apply Hi, (anti_symm String.le).
  - split; [|done]. intros _. do 3 (right; split; [done|]).
    by destruct (String.le_total (bb_ID (mr_binding a)) (bb_ID (mr_binding b))).
Qed.

Lemma ranks_refl a : ranks_below a a.
Proof. apply ranks_below_lex. do 3 (right; split; [done|]). reflexivity. Qed.

Lemma ranks_trans a b c : ranks_below a b -> ranks_below b c -> ranks_below a c.
Proof.
  rewrite !ranks_below_lex. unfold ranks_lex.
  intros [?|[? [?|[? [?|[? Hab]]]]]] [?|[? [?|[? [?|[? Hbc]]]]]]; try lia.
  do 3 (right; split; [lia|]). by etrans.
Qed.

Lemma ranks_total a b : ranks_below a b \/ ranks_below b a.
Proof.
  rewrite !ranks_below_lex. unfold ranks_lex. cbn zeta.
  generalize (match mr_pathKind a with k8sRoutePathExact => 1 | k8sRoutePathPrefix => 0 end).
  generalize (match mr_pathKind b with k8sRoutePathExact => 1 | k8sRoutePathPrefix => 0 end). intros y x.
  destruct (Z.lt_trichotomy x y) as [?|[?|?]]; [tauto| |tauto].
  destruct (Nat.lt_trichotomy (len (mr_path a)) (len (mr_path b))) as [?|[?|?]]; [tauto| |auto 7].
  destruct (Z.lt_trichotomy (mr_routeOrder a) (mr_routeOrder b)) as [?|[?|?]]; [auto 10| |auto 10].
  destruct (String.le_total (bb_ID (mr_binding a)) (bb_ID (mr_binding b))); [left|right]; auto 12.
Qed.

(** Two routes that rank equally have the same criteria. *)
Lemma ranks_antisym a b :
  ranks_below a b -> ranks_below b a ->
  mr_pathKind a = mr_pathKind b /\ len (mr_path a) = len (mr_path b) /\
  bb_ID (mr_binding a) = bb_ID (mr_binding b).
Proof.
  rewrite !ranks_below_lex. unfold ranks_lex.
  intros [?|[? [?|[? [?|[? Hab]]]]]] [?|[? [?|[? [?|[? Hba]]]]]]; try lia.
  split; [|split; [lia|by apply (anti_symm String.le)]].
  by destruct (mr_pathKind a), (mr_pathKind b).
Qed.

(** The chosen route is a candidate that no candidate beats. *)
Lemma selectK8sRoute_spec routes p kind :
  match selectK8sRoute routes p kind with
  | Some r => r ∈ routes /\ route_candidate p kind r = true /\
              forall c, c ∈ routes -> route_candidate p kind c = true -> ranks_below c r
  | None => forall c, c ∈ routes -> route_candidate p kind c = false
  end.
Proof.
  rewrite selectK8sRoute_filter. set (l := filter _ routes).
  assert (forall c, c ∈ l <-> route_candidate p kind c = true /\ c ∈ routes) as Hl
    by (intros c; unfold l; by rewrite list_elem_of_filter).
  destruct (foldl _ None l) as [r|] eqn:E.
  - destruct (proj1 (Hl r) (foldl_pick_best_elem _ _ _ E)) as [Hc Hr].
    split_and!; [done..|]. intros c Hin Hcand. apply better_false.
    refine (foldl_pick_best_max _ _ _ _ _ _ E c _); [| | |by apply Hl].
    + intros x. apply better_false, ranks_refl.
    + intros x y z. rewrite !better_false. apply ranks_trans.
    + intros x y. rewrite better_false. intros Hb.
      destruct (ranks_total x y) as [H%better_false|H]; [congruence|done].
  - apply foldl_pick_best_None in E. intros c Hc. destruct (route_candidate p kind c) eqn:Ec; [|done].
    assert (c ∈ l) as Hin by by apply Hl. rewrite E in Hin. by apply elem_of_nil in Hin.
Qed.

(** ** The tables *)

Lemma routes_at_append `{Countable K} (k k' : K) r (m : gmap K (list k8sMaterializedRoute)) :
  default [] (append_at k r m !! k') = default [] (m !! k') ++ (if decide (k = k') then [r] else []).
Proof.
  unfold append_at. destruct (decide (k = k')) as [->|Hne].
  - by rewrite lookup_insert_eq.
  - by rewrite lookup_insert_ne, app_nil_r.
Qed.

Lemma routes_at_emit1 s t e :
  routes_at s (emit t e) = routes_at s t ++ (if decide (e.1 = s) then [e.2] else []).
Proof.
  destruct e as [s' r], s, s'; cbn [emit routes_at httpResolved httpsResolved grpcResolved tlsResolved
    tcpResolved udpResolved fst snd]; rewrite ?routes_at_append;
    repeat case_decide; simplify_eq; rewrite ?app_nil_r; done.
Qed.

Lemma routes_at_emit s t es :
  routes_at s (foldl emit t es) = routes_at s t ++ (filter (fun e => e.1 = s) es).*2.
Proof.
  revert t. induction es as [|e es IH]; intros t; cbn [foldl]; [by rewrite app_nil_r|].
  rewrite IH, routes_at_emit1, <- app_assoc, filter_cons. f_equal. by case_decide.
Qed.

Section tables.
Context {UN : Unstructured} {MR : MapRange}.

(** Everything a rebuild appends, in order. *)
Definition emissions (rs : resources) : list (slot * k8sMaterializedRoute) :=
  ('(_, ing) ← range (rs_ingresses rs); rule ← ing_Rules ing; ingress_rule_routes rs ing rule) ++
  ('(_, route) ← range (rs_httpRoutes rs); materializeHTTPFamilyLocked rs route) ++
  ('(_, route) ← range (rs_grpcRoutes rs); materializeGRPCFamilyLocked rs route) ++
  ('(_, route) ← range (rs_tlsRoutes rs); materializeL4Locked rs RouteKindTLSTerminate route) ++
  ('(_, route) ← range (rs_tcpRoutes rs); materializeL4Locked rs RouteKindTCP route) ++
  ('(_, route) ← range (rs_udpRoutes rs); materializeL4Locked rs RouteKindUDP route).

Lemma routes_at_rebuild s b :
  routes_at s (br_resolved (rebuildRoutesLocked b)) =
    (filter (fun e => e.1 = s) (emissions (br_resources b))).*2.
Proof.
  unfold rebuildRoutesLocked, rebuildGatewayRoutesLocked, rebuildIngressRoutesLocked, emissions.
  cbn [br_resolved]. rewrite !routes_at_emit, !filter_app, !fmap_app, <- !app_assoc.
  assert (routes_at s no_routes = []) as -> by (by destruct s; cbn; rewrite lookup_empty). done.
Qed.

(** ** The routes a set of objects offers *)

(** A listener of a gateway that a route names as its parent. *)
Definition attached (rs : resources) (parents : list k8sParentRef)
    (listener : k8sGatewayListenerState) : Prop :=
  exists parentRef gateway name,
    parentRef ∈ parents /\ rs_gateways rs !! pr_gatewayKey parentRef = Some gateway /\
    gw_listeners gateway !! name = Some listener /\ section_matches parentRef listener = true.

Definition rule_route (kind : RouteKind) (route : k8sHTTPRouteState)
    (listener : k8sGatewayListenerState) (host : string) (idx : nat) (rule : k8sHTTPRouteRuleState)
    : k8sMaterializedRoute :=
  at_path (ru_path rule) (ru_pathKind rule) (gl_name listener)
    (newMaterializedRoute kind (hs_namespace route) (hs_name route) host (gl_port listener)
       (ru_backend rule) marshal_unexported idx).

Definition l4_route (kind emitted : RouteKind) (route : k8sL4RouteState)
    (listener : k8sGatewayListenerState) (host : string) : k8sMaterializedRoute :=
  of_kind emitted (at_path "/" k8sRoutePathPrefix (gl_name listener)
    (newMaterializedRoute kind (ls4_namespace route) (ls4_name route) host (gl_port listener)
       (ls4_backend route) marshal_unexported 0)).

(** The host names a TLS, TCP or UDP route is emitted for. *)
Definition l4_hosts (route : k8sL4RouteState) (listener : k8sGatewayListenerState) : list string :=
  let hosts := effectiveHosts (ls4_hostnames route) (gl_hostname listener) in
  match hosts with [] => [gl_hostname listener] | _ => hosts end.

Definition tls_kind (listener : k8sGatewayListenerState) : RouteKind :=
  if EqualFold (gl_tlsMode listener) "Passthrough" then RouteKindTLSPassthrough else RouteKindTLSTerminate.

Inductive offers (rs : resources) : slot -> k8sMaterializedRoute -> Prop :=
  | offers_ingress key ing rule paths idx path service :
      rs_ingresses rs !! key = Some ing -> rule ∈ ing_Rules ing -> ir_HTTP rule = Some paths ->
      normalizeHost (ir_Host rule) <> "" -> paths !! idx = Some path -> hip_Service path = Some service ->
      offers rs (HttpSlot (normalizeHost (ir_Host rule)))
        (ingress_route rs ing (normalizeHost (ir_Host rule)) idx path service)
  | offers_http key route listener host idx rule :
      rs_httpRoutes rs !! key = Some route -> attached rs (hs_parentRefs route) listener ->
      gl_routeKind listener = RouteKindHTTP ->
      host ∈ effectiveHosts (hs_hostnames route) (gl_hostname listener) ->
      hs_rules route !! idx = Some rule ->
      offers rs (HttpSlot host) (rule_route RouteKindHTTP route listener host idx rule)
  | offers_https key route listener host idx rule :
      rs_httpRoutes rs !! key = Some route -> attached rs (hs_parentRefs route) listener ->
      gl_routeKind listener = RouteKindHTTPS ->
      host ∈ effectiveHosts (hs_hostnames route) (gl_hostname listener) ->
      hs_rules route !! idx = Some rule ->
      offers rs (HttpsSlot host) (rule_route RouteKindHTTPS route listener host idx rule)
  | offers_grpc key route listener host idx rule :
      rs_grpcRoutes rs !! key = Some route -> attached rs (hs_parentRefs route) listener ->
      gl_routeKind listener = RouteKindGRPC \/ gl_routeKind listener = RouteKindHTTP ->
      host ∈ effectiveHosts (hs_hostnames route) (gl_hostname listener) ->
      hs_rules route !! idx = Some rule ->
      offers rs (GrpcSlot host) (rule_route RouteKindGRPC route listener host idx rule)
  | offers_tls key route listener host :
      rs_tlsRoutes rs !! key = Some route -> attached rs (ls4_parentRefs route) listener ->
      gl_routeKind listener = RouteKindTLSTerminate -> host ∈ l4_hosts route listener -> host <> "" ->
      offers rs (TlsSlot host) (l4_route RouteKindTLSTerminate (tls_kind listener) route listener host)
  | offers_tcp key route listener host :
      rs_tcpRoutes rs !! key = Some route -> attached rs (ls4_parentRefs route) listener ->
      gl_routeKind listener = RouteKindTCP -> host ∈ l4_hosts route listener ->
      offers rs (TcpSlot (gl_port listener)) (l4_route RouteKindTCP RouteKindTCP route listener host)
  | offers_udp key route listener host :
      rs_udpRoutes rs !! key = Some route -> attached rs (ls4_parentRefs route) listener ->
      gl_routeKind listener = RouteKindUDP -> host ∈ l4_hosts route listener ->
      offers rs (UdpSlot (gl_port listener)) (l4_route RouteKindUDP RouteKindUDP route listener host).

Lemma elem_of_concat_imap {A B} (f : nat -> A -> list B) l x :
  x ∈ concat (imap f l) <-> exists i y, l !! i = Some y /\ x ∈ f i y.
Proof.
  rewrite list_elem_of_In, in_concat. split.
  - intros (k & Hk & Hx). apply list_elem_of_In in Hk, Hx.
    apply elem_of_lookup_imap in Hk as (i & y & -> & Hy). eauto.
  - intros (i & y & Hy & Hx). exists (f i y). rewrite <- !list_elem_of_In. split; [|done].
    by apply elem_of_lookup_imap_2.
Qed.

Lemma elem_of_ranged {V B} (m : gmap string V) (f : V -> list B) x :
  x ∈ ('(_, v) ← range m; f v) <-> exists k v, m !! k = Some v /\ x ∈ f v.
Proof.
  rewrite list_elem_of_bind. split.
  - intros ([k v] & Hx & Hr). apply elem_of_range in Hr. eauto.
  - intros (k & v & Hk & Hx). exists (k, v). split; [done|]. by apply elem_of_range.
Qed.

Lemma elem_of_parents rs parents f x :
  (forall p l, section_matches p l = false -> f p l = []) ->
  (forall p p' l, section_matches p l = true -> section_matches p' l = true -> f p l = f p' l) ->
  x ∈ parent_routes (rs_gateways rs) parents f <->
  exists listener, attached rs parents listener /\
    exists p, section_matches p listener = true /\ x ∈ f p listener.
Proof.
  intros Hno Hsame. unfold parent_routes. rewrite list_elem_of_bind. split.
  - intros (p & Hx & Hp). destruct (rs_gateways rs !! pr_gatewayKey p) as [gw|] eqn:Eg; [|by apply elem_of_nil in Hx].
    apply elem_of_ranged in Hx as (n & l & Hl & Hx).
    destruct (section_matches p l) eqn:Es; [|rewrite Hno in Hx by done; by apply elem_of_nil in Hx].
    exists l. split; [by exists p, gw, n|eauto].
  - intros (l & (p & gw & n & Hp & Hg & Hn & Hs) & p' & Hs' & Hx). exists p. split; [|done].
    rewrite Hg. apply elem_of_ranged. exists n, l. split; [done|]. by rewrite (Hsame p p').
Qed.

Lemma elem_of_ingress_rule rs ing rule x :
  x ∈ ingress_rule_routes rs ing rule <->
  exists paths idx path service, ir_HTTP rule = Some paths /\ normalizeHost (ir_Host rule) <> "" /\
    paths !! idx = Some path /\ hip_Service path = Some service /\
    x = (HttpSlot (normalizeHost (ir_Host rule)),
         ingress_route rs ing (normalizeHost (ir_Host rule)) idx path service).
Proof.
  unfold ingress_rule_routes. destruct (ir_HTTP rule) as [paths|].
  2: { split; [by intros ?%elem_of_nil|]. naive_solver. }
  case_bool_decide as Hh; [split; [by intros ?%elem_of_nil|naive_solver]|].
  rewrite elem_of_concat_imap. unfold ingress_path_routes. split.
  - intros (i & path & Hi & Hx). destruct (hip_Service path) as [svc|] eqn:Es; [|by apply elem_of_nil in Hx].
    apply list_elem_of_singleton in Hx. by eauto 10.
  - intros (paths' & i & path & svc & [= <-] & _ & Hi & Hs & ->). exists i, path. split; [done|].
    rewrite Hs. by apply list_elem_of_singleton.
Qed.

Lemma elem_of_rule_routes to kind route listener x :
  x ∈ rule_routes to kind route listener <->
  exists host idx rule s, host ∈ effectiveHosts (hs_hostnames route) (gl_hostname listener) /\
    hs_rules route !! idx = Some rule /\ to host = Some s /\
    x = (s, rule_route kind route listener host idx rule).
Proof.
  unfold rule_routes. rewrite list_elem_of_bind. split.
  - intros (host & Hx & Hh). apply elem_of_concat_imap in Hx as (i & rule & Hi & Hx).
    destruct (to host) as [s|] eqn:Et; [|by apply elem_of_nil in Hx].
    apply list_elem_of_singleton in Hx. by eauto 10.
  - intros (host & i & rule & s & Hh & Hi & Ht & ->). exists host. split; [|done].
    apply elem_of_concat_imap. exists i, rule. split; [done|]. rewrite Ht. by apply list_elem_of_singleton.
Qed.

Lemma elem_of_http rs route x :
  x ∈ materializeHTTPFamilyLocked rs route <->
  exists listener host idx rule s, attached rs (hs_parentRefs route) listener /\
    (gl_routeKind listener = RouteKindHTTP \/ gl_routeKind listener = RouteKindHTTPS) /\
    host ∈ effectiveHosts (hs_hostnames route) (gl_hostname listener) /\ hs_rules route !! idx = Some rule /\
    kind_slot (gl_routeKind listener) host = Some s /\
    x = (s, rule_route (gl_routeKind listener) route listener host idx rule).
Proof.
  unfold materializeHTTPFamilyLocked. rewrite elem_of_parents; unfold http_listener_routes.
  2: { intros p l Hs. by rewrite Hs. }
  2: { intros p p' l Hs Hs'. by rewrite Hs, Hs'. }
  split.
  - intros (l & Ha & p & Hs & Hx). rewrite Hs in Hx. cbn [negb] in Hx.
    destruct (bool_decide (gl_routeKind l <> RouteKindHTTP) && bool_decide (gl_routeKind l <> RouteKindHTTPS))
      eqn:Ek; [by apply elem_of_nil in Hx|].
    apply elem_of_rule_routes in Hx as (host & i & rule & s & ? & ? & ? & ->). exists l, host, i, rule, s.
    split_and!; try done. apply andb_false_iff in Ek as [E|E]; apply bool_decide_eq_false in E;
      apply dec_stable in E; auto.
  - intros (l & host & i & rule & s & Ha & Hk & Hh & Hr & Hs & ->). exists l. split; [done|].
    destruct Ha as (p & gw & n & _ & _ & _ & Hsec). exists p. split; [done|]. rewrite Hsec. cbn [negb].
    replace (bool_decide _ && bool_decide _) with false.
    2: { symmetry. apply andb_false_iff. rewrite !bool_decide_eq_false. naive_solver. }
    apply elem_of_rule_routes. eauto 10.
Qed.

Lemma elem_of_grpc rs route x :
  x ∈ materializeGRPCFamilyLocked rs route <->
  exists listener host idx rule, attached rs (hs_parentRefs route) listener /\
    (gl_routeKind listener = RouteKindGRPC \/ gl_routeKind listener = RouteKindHTTP) /\
    host ∈ effectiveHosts (hs_hostnames route) (gl_hostname listener) /\ hs_rules route !! idx = Some rule /\
    x = (GrpcSlot host, rule_route RouteKindGRPC route listener host idx rule).
Proof.
  assert (forall l, listenerAllowsKind l RouteKindGRPC = true <->
    gl_routeKind l = RouteKindGRPC \/ gl_routeKind l = RouteKindHTTP) as Hallow.
  { intros l. unfold listenerAllowsKind. rewrite (bool_decide_eq_false_2 (RouteKindGRPC = RouteKindHTTP)),
      (bool_decide_eq_false_2 (RouteKindGRPC = RouteKindHTTPS)), (bool_decide_eq_true_2 (RouteKindGRPC = _)) by done.
    by rewrite orb_true_iff, !bool_decide_eq_true. }
  unfold materializeGRPCFamilyLocked. rewrite elem_of_parents; unfold grpc_listener_routes.
  2: { intros p l Hs. by rewrite Hs. }
  2: { intros p p' l Hs Hs'. by rewrite Hs, Hs'. }
  split.
  - intros (l & Ha & p & Hs & Hx). rewrite Hs in Hx. cbn [negb] in Hx.
    destruct (listenerAllowsKind l RouteKindGRPC) eqn:Ek; [|by apply elem_of_nil in Hx].
    apply elem_of_rule_routes in Hx as (host & i & rule & s & ? & ? & [= <-] & ->).
    apply Hallow in Ek. eauto 10.
  - intros (l & host & i & rule & Ha & Hk & Hh & Hr & ->). exists l. split; [done|].
    destruct Ha as (p & gw & n & _ & _ & _ & Hsec). exists p. split; [done|]. rewrite Hsec. cbn [negb].
    rewrite (proj2 (Hallow l)) by done. apply elem_of_rule_routes. eauto 10.
Qed.

Lemma elem_of_l4 rs kind route x :
  x ∈ materializeL4Locked rs kind route <->
  exists listener host s, attached rs (ls4_parentRefs route) listener /\
    listenerAllowsKind listener kind = true /\ host ∈ l4_hosts route listener /\
    let emitted := if bool_decide (kind = RouteKindTLSTerminate) then tls_kind listener else kind in
    s ∈ l4_slot emitted host (gl_port listener) /\ x = (s, l4_route kind emitted route listener host).
Proof.
  unfold materializeL4Locked. rewrite elem_of_parents; unfold l4_listener_routes.
  2: { intros p l Hs. by rewrite Hs. }
  2: { intros p p' l Hs Hs'. by rewrite Hs, Hs'. }
  assert (forall l host,
    (if bool_decide (kind = RouteKindTLSTerminate) && EqualFold (gl_tlsMode l) "Passthrough"
     then of_kind RouteKindTLSPassthrough
       (at_path "/" k8sRoutePathPrefix (gl_name l) (newMaterializedRoute kind (ls4_namespace route)
          (ls4_name route) host (gl_port l) (ls4_backend route) marshal_unexported 0))
     else at_path "/" k8sRoutePathPrefix (gl_name l) (newMaterializedRoute kind (ls4_namespace route)
          (ls4_name route) host (gl_port l) (ls4_backend route) marshal_unexported 0)) =
    l4_route kind (if bool_decide (kind = RouteKindTLSTerminate) then tls_kind l else kind)
      route l host) as Heq.
  { intros l host. unfold l4_route, tls_kind. case_bool_decide as Hk; cbn [andb]; [|done].
    subst kind. by destruct (EqualFold _ _). }
  split.
  - intros (l & Ha & p & Hs & Hx). rewrite Hs in Hx. cbn [negb] in Hx.
    destruct (listenerAllowsKind l kind) eqn:Ek; [|by apply elem_of_nil in Hx]. cbn [negb] in Hx.
    apply list_elem_of_bind in Hx as (host & Hx & Hh). cbn zeta in Hx. cbn [mr_path mr_pathKind newMaterializedRoute] in Hx.
    rewrite Heq in Hx. apply list_elem_of_fmap in Hx as (s & -> & Hsl). exists l, host, s.
    split; [exact Ha|]. split; [exact Ek|]. split; [exact Hh|]. split; [exact Hsl|reflexivity].
  - intros (l & host & s & Ha & Hk & Hh & Hsl & ->). exists l. split; [done|].
    destruct Ha as (p & gw & n & _ & _ & _ & Hsec). exists p. split; [done|]. rewrite Hsec, Hk. cbn [negb].
    apply list_elem_of_bind. exists host. split; [|done]. cbn zeta. cbn [mr_path mr_pathKind newMaterializedRoute].
    rewrite Heq. apply list_elem_of_fmap. exists s. split; [done|exact Hsl].
Qed.
Lemma listener_allows_l4 l kind :
  kind = RouteKindTLSTerminate \/ kind = RouteKindTCP \/ kind = RouteKindUDP ->
  listenerAllowsKind l kind = bool_decide (gl_routeKind l = kind).
Proof. by intros [->|[->| ->]]. Qed.

Lemma tls_slots l host port s :
  s ∈ l4_slot (tls_kind l) host port <-> host <> "" /\ s = TlsSlot host.
Proof.
  unfold tls_kind. destruct (EqualFold _ _); unfold l4_slot;
    rewrite ?(bool_decide_eq_true_2 (RouteKindTLSPassthrough = RouteKindTLSPassthrough)),
      ?(bool_decide_eq_true_2 (RouteKindTLSTerminate = RouteKindTLSTerminate)), ?orb_true_r by done;
    cbn [orb]; case_bool_decide; elem_solver.
Qed.

(** The tables hold exactly the offered routes. *)
Lemma emissions_offers rs s r : (s, r) ∈ emissions rs <-> offers rs s r.
Proof.
  unfold emissions. rewrite !elem_of_app, !elem_of_ranged. split.
  - intros [H|[H|[H|[H|[H|H]]]]]; destruct H as (k & v & Hk & Hx).
    + apply list_elem_of_bind in Hx as (rule & Hx & Hr).
      apply elem_of_ingress_rule in Hx as (paths & i & path & svc & ? & ? & ? & ? & ?). simplify_eq.
      by eapply offers_ingress.
    + apply elem_of_http in Hx as (l & host & i & rule & s' & ? & [Hl|Hl] & ? & ? & Hs & ?); simplify_eq;
        rewrite Hl in *; injection Hs as <-; [by eapply offers_http|by eapply offers_https].
    + apply elem_of_grpc in Hx as (l & host & i & rule & ? & ? & ? & ? & ?). simplify_eq.
      by eapply offers_grpc.
    + apply elem_of_l4 in Hx as (l & host & s' & ? & Hl & ? & Hs & ?). rewrite listener_allows_l4 in Hl by auto.
      apply bool_decide_eq_true in Hl. rewrite bool_decide_eq_true_2 in * by done.
      apply tls_slots in Hs as [? ->]. simplify_eq. by eapply offers_tls.
    + apply elem_of_l4 in Hx as (l & host & s' & ? & Hl & ? & Hs & ?). rewrite listener_allows_l4 in Hl by auto.
      apply bool_decide_eq_true in Hl. apply list_elem_of_singleton in Hs. simplify_eq. by eapply offers_tcp.
    + apply elem_of_l4 in Hx as (l & host & s' & ? & Hl & ? & Hs & ?). rewrite listener_allows_l4 in Hl by auto.
      apply bool_decide_eq_true in Hl. apply list_elem_of_singleton in Hs. simplify_eq. by eapply offers_udp.
  - intros H. destruct H as [k ing rule paths i path svc Hk Hr|k route l host i rule Hk Ha Hl|
      k route l host i rule Hk Ha Hl|k route l host i rule Hk Ha Hl|k route l host Hk Ha Hl|
      k route l host Hk Ha Hl|k route l host Hk Ha Hl].
    + left. exists k, ing. split; [done|]. apply list_elem_of_bind. exists rule. split; [|done].
      apply elem_of_ingress_rule. eauto 10.
    + right; left. exists k, route. split; [done|]. apply elem_of_http. rewrite <- Hl.
      exists l, host, i, rule, (HttpSlot host). split_and!; auto. by rewrite Hl.
    + right; left. exists k, route. split; [done|]. apply elem_of_http. rewrite <- Hl.
      exists l, host, i, rule, (HttpsSlot host). split_and!; auto. by rewrite Hl.
    + do 2 right; left. exists k, route. split; [done|]. apply elem_of_grpc. eauto 10.
    + do 3 right; left. exists k, route. split; [done|]. apply elem_of_l4.
      exists l, host, (TlsSlot host). rewrite listener_allows_l4, bool_decide_eq_true by auto.
      split_and!; auto. cbn zeta. rewrite bool_decide_eq_true_2 by done. split; [by apply tls_slots|done].
    + do 4 right; left. exists k, route. split; [done|]. apply elem_of_l4.
      exists l, host, (TcpSlot (gl_port l)). rewrite listener_allows_l4, bool_decide_eq_true by auto.
      split_and!; auto. cbn zeta. split; [by apply list_elem_of_singleton|done].
    + do 5 right. exists k, route. split; [done|]. apply elem_of_l4.
      exists l, host, (UdpSlot (gl_port l)). rewrite listener_allows_l4, bool_decide_eq_true by auto.
      split_and!; auto. cbn zeta. split; [by apply list_elem_of_singleton|done].
Qed.

Lemma routes_at_offers b s r :
  r ∈ routes_at s (br_resolved (rebuildRoutesLocked b)) <-> offers (br_resources b) s r.
Proof.
  rewrite routes_at_rebuild, <- emissions_offers, list_elem_of_fmap. split.
  - intros ([s' r'] & -> & Hin). apply list_elem_of_filter in Hin as [Hs Hin]. cbn in Hs. by subst.
  - intros Hin. exists (s, r). split; [done|]. by apply list_elem_of_filter.
Qed.
(** ** Histories *)

Inductive bridge_event :=
  | Stored (w : watched) (obj : informer_object)
  | Removed (w : watched) (obj : informer_object).

Definition apply_event (b : K8sBridge) (e : bridge_event) : K8sBridge :=
  match e with
  | Stored w obj => store w obj b
  | Removed w obj => remove w obj b
  end.

(** A bridge after its initial load and some informer callbacks. *)
Definition bridge_after (ingressClass : string) (l : cluster_lists) (es : list bridge_event) : K8sBridge :=
  foldl apply_event (LoadInitial l (NewK8sBridgeWithClients ingressClass)).1 es.

Record bridge_ok (class : string) (b : K8sBridge) : Prop := {
  ok_class : br_ingressClass b = class;
  ok_ingresses : forall key ing, rs_ingresses (br_resources b) !! key = Some ing ->
    matchesIngressClass class ing = true /\ key = object_key (ing_Namespace ing) (ing_Name ing);
}.

Definition consistent (b : K8sBridge) : Prop := br_resolved b = br_resolved (rebuildRoutesLocked b).

(** A change of the objects that does not touch the Ingress objects, or stores
    one of the class, or deletes one. *)
Definition keeps_class (class : string) (f : resources -> resources) (rs : resources) : Prop :=
  rs_ingresses (f rs) = rs_ingresses rs \/
  (exists key, rs_ingresses (f rs) = delete key (rs_ingresses rs)) \/
  (exists ing, matchesIngressClass class ing = true /\
     rs_ingresses (f rs) = <[object_key (ing_Namespace ing) (ing_Name ing) := ing]> (rs_ingresses rs)).

Lemma ok_update class f b :
  bridge_ok class b -> keeps_class class f (br_resources b) ->
  bridge_ok class (with_resources f b) /\ bridge_ok class (update_resources f b).
Proof.
  intros [Hc Hi] Hf.
  assert (forall key ing, rs_ingresses (f (br_resources b)) !! key = Some ing ->
    matchesIngressClass class ing = true /\ key = object_key (ing_Namespace ing) (ing_Name ing)) as Hnew.
  { intros key ing. destruct Hf as [-> |[[k ->]|(ing' & Hm & ->)]]; [apply Hi| |].
    - rewrite lookup_delete_Some. intros [_ ?]. by apply Hi.
    - rewrite lookup_insert_Some. intros [[<- <-]|[_ ?]]; [done|by apply Hi]. }
  by split; split.
Qed.

Lemma update_consistent f b : consistent (update_resources f b).
Proof. done. Qed.

Lemma ok_rebuild class b : bridge_ok class b -> bridge_ok class (rebuildRoutesLocked b).
Proof. intros [Hc Hi]. by split. Qed.

Lemma rebuild_consistent b : consistent (rebuildRoutesLocked b).
Proof. done. Qed.

#[local] Opaque rebuildRoutesLocked consistent.

(** Every callback leaves the bridge as it is or changes the objects and
    rebuilds the tables. *)
Lemma apply_event_shape b e :
  apply_event b e = b \/
  exists f, apply_event b e = update_resources f b /\ keeps_class (br_ingressClass b) f (br_resources b).
Proof.
  assert (forall f, rs_ingresses (f (br_resources b)) = rs_ingresses (br_resources b) ->
    update_resources f b = b \/ exists g, update_resources f b = update_resources g b /\
      keeps_class (br_ingressClass b) g (br_resources b)) as Hf by (intros f ?; right; exists f; split; [done|by left]).
  destruct e as [[] obj|w obj]; cbn [apply_event store].
  - destruct obj as [ing| | | |]; cbn [storeIngress]; [|by left..]. right.
    destruct (matchesIngressClass (br_ingressClass b) ing) eqn:Em; cbn [negb]; (eexists; split; [done|]);
      right; [right; by exists ing|left; by eexists].
  - destruct obj as [|svc| | |]; [by left|by apply Hf|by left..].
  - destruct obj as [| |o| |]; [by left..|by apply Hf|by left|by left].
  - destruct obj as [| |o| |]; [by left..|by apply Hf|by left|by left].
  - destruct obj as [| |o| |]; [by left..|by apply Hf|by left|by left].
  - destruct obj as [| |o| |]; [by left..| |by left|by left]. cbn.
    unfold storeTLSRouteUnstructured. destruct (parseL4RouteState o); [by apply Hf|by left].
  - destruct obj as [| |o| |]; [by left..| |by left|by left]. cbn.
    unfold storeTCPRouteUnstructured. destruct (parseL4RouteState o); [by apply Hf|by left].
  - destruct obj as [| |o| |]; [by left..| |by left|by left]. cbn.
    unfold storeUDPRouteUnstructured. destruct (parseL4RouteState o); [by apply Hf|by left].
  - unfold remove, delete_key. assert (forall ns name, keeps_class (br_ingressClass b)
      (drop_of w (object_key ns name)) (br_resources b)) as Hdrop.
    { intros ns name. destruct w; [right; left; by eexists|by left..]. }
    destruct obj as [| | |[[ns name]|]|]; cbn [deleteByNamespaceName]; [right; by eexists..|by left|by left].
Qed.

Lemma apply_event_ok class b e :
  bridge_ok class b -> bridge_ok class (apply_event b e) /\ (consistent b -> consistent (apply_event b e)).
Proof.
  intros Hb. destruct (apply_event_shape b e) as [-> |(f & -> & Hf)]; [done|].
  rewrite (ok_class _ _ Hb) in Hf. split; [by eapply ok_update|intros; apply update_consistent].
Qed.

Lemma foldl_bridge_ok {A} class (f : K8sBridge -> A -> K8sBridge) l b :
  (forall b a, bridge_ok class b -> bridge_ok class (f b a)) ->
  bridge_ok class b -> bridge_ok class (foldl f b l).
Proof. intros Hf. revert b. induction l as [|a l IH]; intros b Hb; cbn; auto. Qed.

Lemma new_ok class : bridge_ok (TrimSpace class) (NewK8sBridgeWithClients class).
Proof. split; [done|]. intros key ing H. cbn in H. by rewrite lookup_empty in H. Qed.

Lemma preserves_modify {S} (P : S -> Prop) f : (forall s, P s -> P (f s)) -> preserves P (modify f).
Proof. intros Hf s Hs. by apply Hf. Qed.

Lemma load_preserves class l : preserves (bridge_ok class) (LoadInitial l).
Proof.
  unfold LoadInitial, loadInitialIngresses, loadInitialServices.
  repeat (apply preserves_bind; [|intros _]); try case_match; try apply preserves_throw;
    apply preserves_modify; intros b Hb.
  - apply foldl_bridge_ok; [|done]. intros b' ing Hb'. pose proof (ok_class _ _ Hb') as Hc.
    case_match eqn:Em; [|done]. rewrite Hc in Em. eapply ok_update; [done|]. right; right. by exists ing.
  - apply foldl_bridge_ok; [|done]. intros b' svc Hb'. eapply ok_update; [done|]. by left.
  - apply foldl_bridge_ok; [|done]. intros b' w Hb'. unfold load_gateway_objects.
    destruct (cl_gateway_objects l w); [|done]. apply foldl_bridge_ok; [|done].
    intros b'' o Hb''. by apply (apply_event_ok _ b'' (Stored w (ObjUnstructured o))).
  - by apply ok_rebuild.
Qed.

Lemma load_consistent l b b' : LoadInitial l b = (b', Ok tt) -> consistent b'.
Proof.
  unfold LoadInitial. intros (b1 & [] & _ & H1)%go_bind_Ok.
  apply go_bind_Ok in H1 as (b2 & [] & _ & H2). apply go_bind_Ok in H2 as (b3 & [] & _ & H3).
  injection H3 as <-. apply rebuild_consistent.
Qed.

Lemma bridge_after_ok class l es :
  (LoadInitial l (NewK8sBridgeWithClients class)).2 = Ok tt ->
  bridge_ok (TrimSpace class) (bridge_after class l es) /\ consistent (bridge_after class l es).
Proof.
  intros Hl. unfold bridge_after.
  pose proof (load_preserves _ l _ (new_ok class)) as Hok.
  destruct (LoadInitial l (NewK8sBridgeWithClients class)) as [b r] eqn:E. cbn [fst snd] in *. subst r.
  pose proof (load_consistent _ _ _ E) as Hcons. clear E. revert b Hok Hcons.
  induction es as [|e es IH]; intros b Hok Hcons; cbn [foldl]; [done|].
  destruct (apply_event_ok _ _ e Hok) as [H1 H2].
  apply IH; [exact H1|exact (H2 Hcons)].
Qed.

#[local] Transparent rebuildRoutesLocked consistent.

Lemma routes_at_consistent b s r :
  consistent b -> r ∈ routes_at s (br_resolved b) <-> offers (br_resources b) s r.
Proof. intros Hc. rewrite Hc. apply routes_at_offers. Qed.

(** What resolving a host and path must answer. *)
Definition resolves (rs : resources) (kind : RouteKind) (host path : string)
    (answer : option K8sResolvedBackend) : Prop :=
  match kind_slot kind (normalizeHost host) with
  | Some s =>
      match answer with
      | Some k => normalizeHost host <> "" /\ exists r, k = materializedToResolved r /\ offers rs s r /\
          route_candidate path kind r = true /\
          forall r', offers rs s r' -> route_candidate path kind r' = true -> ranks_below r' r
      | None => normalizeHost host = "" \/ forall r, offers rs s r -> route_candidate path kind r = false
      end
  | None => answer = None
  end.

Lemma candidate_normalized p kind r : route_candidate (normalizeIngressPath p) kind r = route_candidate p kind r.
Proof. unfold route_candidate, k8sPathMatches. by rewrite normalizeIngressPath_idemp. Qed.

Lemma resolve_spec b kind host path :
  consistent b -> resolves (br_resources b) kind host path (resolveHostPath kind host path b).
Proof.
  intros Hc. unfold resolves, resolveHostPath. cbn zeta. case_bool_decide as Hh.
  { destruct (kind_slot _ _); auto. }
  destruct (kind_slot kind (normalizeHost host)) as [s|] eqn:Es; [|done]. cbn [mbind option_bind].
  pose proof (selectK8sRoute_spec (routes_at s (br_resolved b)) (normalizeIngressPath path) kind) as Hsel.
  pose proof (fun r => routes_at_consistent b s r Hc) as Hm.
  destruct (selectK8sRoute _ _ _) as [r|]; cbn [mbind option_bind].
  - destruct Hsel as (Hin & Hcand & Hmax). rewrite candidate_normalized in Hcand.
    split; [done|]. exists r. split_and!; [done|by apply Hm|done|].
    intros r' Hr' Hc'. apply Hmax; [by apply Hm|by rewrite candidate_normalized].
  - right. intros r Hr. rewrite <- candidate_normalized. by apply Hsel, Hm.
Qed.
End tables.

(** A prefix path matches a request exactly when it is the root or its
    elements, between slashes, are the first elements of the request's path; an
    exact path matches only itself.  Both paths are trimmed, and a path that does
    not begin with a slash counts as the root. *)
Theorem k8s_path_matches route request :
  let r := normalizeIngressPath route in
  let q := normalizeIngressPath request in
  (k8sPathMatches k8sRoutePathExact route request = true <-> q = r) /\
  (k8sPathMatches k8sRoutePathPrefix route request = true <->
     r = "/" \/ path_elements r `prefix_of` path_elements q).
Proof.
  cbn zeta. unfold k8sPathMatches. set (r := normalizeIngressPath route). set (q := normalizeIngressPath request).
  rewrite path_elements_prefix. split; [apply bool_decide_eq_true|].
  case_bool_decide as Hr; [by split; [left|]|]. case_bool_decide as Hq; [by split; [auto|]|].
  destruct (HasPrefix q r) eqn:Ep; cbn [negb].
  - apply HasPrefix_spec in Ep as [t ->]. rewrite TrimPrefix_app, HasPrefix_spec. split.
    + intros [t' ->]. eauto.
    + intros [?|[?|[rest Hrest]]]; [done..|]. exists rest. apply bytes_inj.
      apply (f_equal (fun s => bytes s)) in Hrest. rewrite !bytes_app in Hrest. simplify_list_eq.
      by rewrite bytes_app.
  - split; [done|]. intros [?|[?|[rest Hrest]]]; [done..|]. rewrite Hrest, HasPrefix_app in Ep. done.
Qed.

(** C17. After the initial load and any sequence of callbacks, a request is
    answered by a route that the objects seen so far offer for its host, that
    matches its path, and that no other matching route outranks; it is not
    answered exactly when no offered route matches.  A TCP or UDP port is answered
    by a route offered for the port, if there is one.  Every Ingress kept is of the
    configured class. *)
Theorem bridge_resolves {UN : Unstructured} {MR : MapRange} class l es :
  (LoadInitial l (NewK8sBridgeWithClients class)).2 = Ok tt ->
  let b := bridge_after class l es in
  (forall kind host path,
     resolves (br_resources b) kind host path (resolveHostPath kind host path b)) /\
  (forall port, match resolvePort RouteKindTCP port b with
     | Some k => exists r, k = materializedToResolved r /\ offers (br_resources b) (TcpSlot port) r
     | None => forall r, ~ offers (br_resources b) (TcpSlot port) r end) /\
  (forall port, match resolvePort RouteKindUDP port b with
     | Some k => exists r, k = materializedToResolved r /\ offers (br_resources b) (UdpSlot port) r
     | None => forall r, ~ offers (br_resources b) (UdpSlot port) r end) /\
  (forall key ing, rs_ingresses (br_resources b) !! key = Some ing ->
     matchesIngressClass (TrimSpace class) ing = true).
Proof.
  intros Hl b. destruct (bridge_after_ok class l es Hl) as [Hok Hcons]. fold b in Hok, Hcons.
  assert (forall s, match materializedToResolved <$> head (routes_at s (br_resolved b)) with
    | Some k => exists r, k = materializedToResolved r /\ offers (br_resources b) s r
    | None => forall r, ~ offers (br_resources b) s r end) as Hport.
  { intros s. pose proof (fun r => routes_at_consistent b s r Hcons) as Hm.
    destruct (routes_at s (br_resolved b)) as [|r rs]; cbn.
    - intros r Hr%Hm. by apply elem_of_nil in Hr.
    - exists r. split; [done|]. apply Hm. set_solver. }
  split_and!; [by intros; apply resolve_spec|intros; apply (Hport (TcpSlot _))|
    intros; apply (Hport (UdpSlot _))|]. intros key ing Hk. by apply (ok_ingresses _ _ Hok) in Hk as [??].
Qed.


(** ** A concrete run *)

Module BridgeRun.

#[local] Existing Instance tree_objects.
#[local] Existing Instance canonical_range.

Definition backend (name : string) (port : Z) : IngressServiceBackend := mkIngressServiceBackend name "" port.

Definition shop : Ingress :=
  mkIngress "prod" "shop" 3 None (Some "luna")
    [mkIngressRule "Shop.Example.com"
       (Some [mkHTTPIngressPath "/" None (Some (backend "front" 8080)) "{}";
              mkHTTPIngressPath "/api" None (Some (backend "api" 0)) "{}"])] [].

Definition gateway : tree :=
  TMap [("metadata", TMap [("namespace", TString "prod"); ("name", TString "edge")]);
        ("spec", TMap [("listeners", TList
          [TMap [("name", TString "db"); ("protocol", TString "tcp"); ("port", TInt 5432)]])])].

Definition db_route : tree :=
  TMap [("metadata", TMap [("namespace", TString "prod"); ("name", TString "db")]);
        ("spec", TMap
          [("parentRefs", TList [TMap [("name", TString "edge")]]);
           ("rules", TList [TMap [("backendRefs", TList
              [TMap [("name", TString "postgres"); ("port", TInt 5432)]])]])])].

Definition lists : cluster_lists := {|
  cl_ingresses := Ok [shop; mkIngress "prod" "other" 1 None (Some "nginx") [] []];
  cl_services := Ok [mkService "prod" "api" ServiceTypeExternalName "Api.Example.net"];
  cl_gateway_objects := fun w => match w with WGateway => Ok [gateway] | _ => Err (errors_New "not found") end
|}.

Definition history : list bridge_event := [Stored WTCPRoute (ObjUnstructured db_route)].

Definition after : K8sBridge := bridge_after "luna" lists history.

Lemma bridge_resolves_witness :
  (exists r, resolveHostPath RouteKindHTTP "SHOP.example.com:80" "/api/cart" after =
       Some (materializedToResolved r) /\
     bb_Address (mr_binding r) = "api.example.net" /\
     offers (br_resources after) (HttpSlot "shop.example.com") r) /\
  (exists r, resolvePort RouteKindTCP 5432 after = Some (materializedToResolved r) /\
     bb_Address (mr_binding r) = "postgres.prod.svc.cluster.local" /\
     offers (br_resources after) (TcpSlot 5432) r).
Proof.
  destruct (bridge_resolves "luna" lists history) as (Hr & Ht & _); [vm_compute; reflexivity|].
  fold after in Hr, Ht. specialize (Hr RouteKindHTTP "SHOP.example.com:80" "/api/cart"). specialize (Ht 5432).
  assert ((fun k => bb_Address (kr_Binding k)) <$>
    resolveHostPath RouteKindHTTP "SHOP.example.com:80" "/api/cart" after = Some "api.example.net") as Ha
    by (vm_compute; reflexivity).
  assert ((fun k => bb_Address (kr_Binding k)) <$> resolvePort RouteKindTCP 5432 after =
    Some "postgres.prod.svc.cluster.local") as Hp by (vm_compute; reflexivity).
  assert (kind_slot RouteKindHTTP (normalizeHost "SHOP.example.com:80") = Some (HttpSlot "shop.example.com")) as Hs
    by (vm_compute; reflexivity).
  unfold resolves in Hr. rewrite Hs in Hr. revert Hr Ht Ha Hp. generalize after as b. intros b.
  generalize (resolveHostPath RouteKindHTTP "SHOP.example.com:80" "/api/cart" b).
  generalize (resolvePort RouteKindTCP 5432 b). intros [k'|] [k|];
    [|intros _ _ Ha _; discriminate Ha|intros _ _ _ Hp; discriminate Hp|intros _ _ Ha _; discriminate Ha].
  intros (_ & r & -> & Ho & _) (r' & -> & Ho') [= Ha] [= Hp]. eauto 10.
Defined.

End BridgeRun.
