(* ===== verification/Informers.v ===== *)
(** * The informers behind the ingress bridge: ingress/utils.go,
      ingress/k8s_bridge.go, k8s_bridge_gateway.go

    An informer holds the objects of the cluster it has seen and reports every
    change of them to the bridge's callbacks.  What the bridge keeps is what
    its informers have seen. *)

From S2P Require Import Prelude GoStrings GoNet Metadata HostNames K8sObjects IngressBridge IngressBridgeFacts.

Open Scope Z_scope.

(** ** The bridge's namespace and its handlers *)

(** [pod]: the namespace of the process. *)
Definition bridge_namespace (pod namespace : string) : string :=
  let namespace := if bool_decide (namespace = "") then pod else namespace in
  if bool_decide (namespace = "") then "default" else namespace.

#[export] Instance watched_eq_dec : EqDecision watched.
Proof. solve_decision. Defined.

Section informers.
Context {UN : Unstructured} {MR : MapRange}.

(** [cache.ResourceEventHandlerFuncs] *)
Inductive informer_event :=
  | Added (obj : informer_object)
  | Updated (old new : informer_object)
  | Deleted (obj : informer_object).

Definition registerGatewayInformer (add update del : informer_object -> K8sBridge -> K8sBridge)
    (e : informer_event) : K8sBridge -> K8sBridge :=
  match e with
  | Added obj => add obj
  | Updated _ newObj => update newObj
  | Deleted obj => del obj
  end.

(** The handlers registered for a kind of object. *)
Definition handlers (w : watched) : informer_event -> K8sBridge -> K8sBridge :=
  registerGatewayInformer (store w) (store w) (remove w).

(** ** The informers *)

(** An object of a kind under its key. *)
Definition is_object (w : watched) (key : string) (obj : informer_object) : Prop :=
  match w, obj with
  | WIngress, ObjIngress ing => key = object_key (ing_Namespace ing) (ing_Name ing)
  | WService, ObjService svc => key = object_key (svc_Namespace svc) (svc_Name svc)
  | (WIngress | WService), _ => False
  | _, ObjUnstructured o => key = object_key (GetNamespace o) (GetName o)
  | _, _ => False
  end.

(** What an informer of a kind reports, given the objects it has seen: a new
    object, another version of one, or again the same, and that one is gone,
    with its last version or with a tombstone. *)
Inductive reports (w : watched) : gmap string informer_object -> string -> informer_event -> gmap string informer_object -> Prop :=
  | reports_add m key obj :
      m !! key = None -> is_object w key obj -> reports w m key (Added obj) (<[key := obj]> m)
  | reports_update m key old new :
      m !! key = Some old -> is_object w key new -> reports w m key (Updated old new) (<[key := new]> m)
  | reports_delete m key obj :
      m !! key = Some obj -> reports w m key (Deleted obj) (delete key m)
  | reports_tombstone m namespace name obj :
      m !! object_key namespace name = Some obj ->
      reports w m (object_key namespace name) (Deleted (ObjDeletedFinalStateUnknown (Some (namespace, name))))
        (delete (object_key namespace name) m).

(** The informers' objects and the bridge. *)
Record watching := mkWatching { wt_seen : watched -> gmap string informer_object; wt_bridge : K8sBridge }.

Definition set_seen (w : watched) (m : gmap string informer_object) (seen : watched -> gmap string informer_object)
    : watched -> gmap string informer_object :=
  fun w' => if decide (w' = w) then m else seen w'.

Inductive watch_step : watching -> watching -> Prop :=
  | watch s w key e m :
      reports w (wt_seen s w) key e m ->
      watch_step s (mkWatching (set_seen w m (wt_seen s)) (handlers w e (wt_bridge s))).

(** ** What the bridge keeps of an object *)

Inductive entry :=
  | EIngress (ing : Ingress)
  | EService (svc : Service)
  | EGateway (g : k8sGatewayState)
  | EHTTP (r : k8sHTTPRouteState)
  | EL4 (r : k8sL4RouteState).

Definition kept (w : watched) (key : string) (rs : resources) : option entry :=
  match w with
  | WIngress => EIngress <$> rs_ingresses rs !! key
  | WService => EService <$> rs_services rs !! key
  | WGateway => EGateway <$> rs_gateways rs !! key
  | WHTTPRoute => EHTTP <$> rs_httpRoutes rs !! key
  | WGRPCRoute => EHTTP <$> rs_grpcRoutes rs !! key
  | WTLSRoute => EL4 <$> rs_tlsRoutes rs !! key
  | WTCPRoute => EL4 <$> rs_tcpRoutes rs !! key
  | WUDPRoute => EL4 <$> rs_udpRoutes rs !! key
  end.

(** A route of the fourth layer without a backend cannot be read. *)
Definition readable (w : watched) (obj : informer_object) : bool :=
  match w, obj with
  | (WTLSRoute | WTCPRoute | WUDPRoute), ObjUnstructured o => bool_decide (is_Some (parseL4RouteState o))
  | _, _ => true
  end.

Definition entry_of (class : string) (w : watched) (obj : informer_object) : option entry :=
  match w, obj with
  | WIngress, ObjIngress ing => if matchesIngressClass class ing then Some (EIngress ing) else None
  | WService, ObjService svc => Some (EService svc)
  | WGateway, ObjUnstructured o => Some (EGateway (parseGatewayState o))
  | (WHTTPRoute | WGRPCRoute), ObjUnstructured o => Some (EHTTP (parseHTTPRouteState o))
  | (WTLSRoute | WTCPRoute | WUDPRoute), ObjUnstructured o => EL4 <$> parseL4RouteState o
  | _, _ => None
  end.

Lemma l4_key o st : parseL4RouteState o = Some st -> ls4_namespace st = GetNamespace o /\ ls4_name st = GetName o.
Proof.
  unfold parseL4RouteState. destruct (head _) as [backend|]; [|done]. cbn. case_bool_decide; [done|].
  by intros [= <-].
Qed.

Lemma resources_update f b : br_resources (update_resources f b) = f (br_resources b).
Proof. done. Qed.

(** What is kept when one of the maps is changed at a key. *)
Ltac kept_change :=
  rewrite ?resources_update; let Hk := fresh in case_decide as Hk;
  [destruct Hk as [-> ->]; cbn; rewrite ?lookup_insert_eq, ?lookup_delete_eq; done
  |match goal with |- kept ?w ?key _ = _ => destruct w end; cbn; try done;
   (rewrite lookup_insert_ne || rewrite lookup_delete_ne); [done|intros <-; by apply Hk]].

(** Storing an object replaces what is kept under its key, and nothing else. *)
Lemma kept_store w key obj b w' key' :
  is_object w key obj ->
  kept w' key' (br_resources (store w obj b)) =
  if decide (w' = w /\ key' = key) then
    if readable w obj then entry_of (br_ingressClass b) w obj else kept w' key' (br_resources b)
  else kept w' key' (br_resources b).
Proof.
  intros Ho. destruct w, obj as [ing|svc|o|meta|]; try done; cbn in Ho; subst key;
    cbn [store as_unstructured readable entry_of].
  - unfold storeIngress. destruct (matchesIngressClass _ ing); cbn [negb]; kept_change.
  - unfold storeService. kept_change.
  - unfold storeGatewayUnstructured. kept_change.
  - unfold storeHTTPRouteUnstructured. kept_change.
  - unfold storeGRPCRouteUnstructured. kept_change.
  - unfold storeTLSRouteUnstructured. destruct (parseL4RouteState o) as [st|] eqn:E; [|by case_decide].
    destruct (l4_key o st E) as [-> ->]. kept_change.
  - unfold storeTCPRouteUnstructured. destruct (parseL4RouteState o) as [st|] eqn:E; [|by case_decide].
    destruct (l4_key o st E) as [-> ->]. kept_change.
  - unfold storeUDPRouteUnstructured. destruct (parseL4RouteState o) as [st|] eqn:E; [|by case_decide].
    destruct (l4_key o st E) as [-> ->]. kept_change.
Qed.

Lemma kept_drop w key b w' key' :
  kept w' key' (br_resources (update_resources (drop_of w key) b)) =
  if decide (w' = w /\ key' = key) then None else kept w' key' (br_resources b).
Proof. destruct w; cbn [drop_of]; kept_change. Qed.

(** The object that is gone, in whatever form it is reported. *)
Definition names (w : watched) (key : string) (obj : informer_object) : Prop :=
  is_object w key obj \/
  exists namespace name, obj = ObjDeletedFinalStateUnknown (Some (namespace, name)) /\ key = object_key namespace name.

Lemma kept_remove w key obj b w' key' :
  names w key obj ->
  kept w' key' (br_resources (remove w obj b)) =
  if decide (w' = w /\ key' = key) then None else kept w' key' (br_resources b).
Proof.
  intros [Ho|(namespace & name & -> & ->)]; [|apply kept_drop].
  destruct w, obj as [ing|svc|o|meta|]; try done; cbn in Ho; subst key; apply kept_drop.
Qed.

(** ** The bridge follows its informers *)

(** The objects are under their keys; what is kept under a key that is seen is
    what its object says, if it can be read; what is kept under another key is
    what was kept at the start, or nothing. *)
Record follows (start : resources) (s : watching) : Prop := {
  fo_objects : forall w key obj, wt_seen s w !! key = Some obj -> is_object w key obj;
  fo_seen : forall w key obj, wt_seen s w !! key = Some obj -> readable w obj = true ->
    kept w key (br_resources (wt_bridge s)) = entry_of (br_ingressClass (wt_bridge s)) w obj;
  fo_rest : forall w key, wt_seen s w !! key = None ->
    kept w key (br_resources (wt_bridge s)) = None \/
    kept w key (br_resources (wt_bridge s)) = kept w key start;
}.

Lemma handlers_class w e b : br_ingressClass (handlers w e b) = br_ingressClass b.
Proof.
  assert (forall w obj, br_ingressClass (store w obj b) = br_ingressClass b) as Hs.
  { intros [] []; try done; cbn; unfold storeIngress, storeTLSRouteUnstructured, storeTCPRouteUnstructured,
      storeUDPRouteUnstructured; repeat case_match; done. }
  destruct e as [obj|old new|obj]; cbn; [apply Hs|apply Hs|].
  by destruct obj as [| | |[[]|]|].
Qed.

(** A report changes the objects and what is kept at one key. *)
Lemma seen_set w m seen w' : set_seen w m seen w' = if decide (w' = w) then m else seen w'.
Proof. done. Qed.

Lemma follows_put start s w key obj e :
  is_object w key obj -> handlers w e (wt_bridge s) = store w obj (wt_bridge s) ->
  follows start s ->
  follows start (mkWatching (set_seen w (<[key := obj]> (wt_seen s w)) (wt_seen s)) (handlers w e (wt_bridge s))).
Proof.
  intros Ho He [H1 H2 H3]. constructor; cbn [wt_seen wt_bridge]; intros w' key'; rewrite ?handlers_class, seen_set.
  - intros obj'. case_decide as Hw; [subst w'|apply H1]. rewrite lookup_insert_Some. intros [[<- <-]|[_ ?]]; auto.
  - intros obj' Hs Hr. rewrite He, (kept_store w key) by done. case_decide as Hw; [subst w'|].
    + apply lookup_insert_Some in Hs as [[<- <-]|[Hne Hs]].
      * rewrite decide_True by done. by rewrite Hr.
      * rewrite decide_False by naive_solver. auto.
    + rewrite decide_False by naive_solver. auto.
  - intros Hs. rewrite He, (kept_store w key) by done. case_decide as Hw; [subst w'|].
    + apply lookup_insert_None in Hs as [Hs Hne]. rewrite decide_False by naive_solver. auto.
    + rewrite decide_False by naive_solver. auto.
Qed.

Lemma follows_drop start s w key obj :
  names w key obj -> follows start s ->
  follows start (mkWatching (set_seen w (delete key (wt_seen s w)) (wt_seen s)) (handlers w (Deleted obj) (wt_bridge s))).
Proof.
  intros Ho [H1 H2 H3]. constructor; cbn [wt_seen wt_bridge]; intros w' key'; rewrite ?handlers_class, seen_set; cbn [handlers registerGatewayInformer].
  - intros obj'. case_decide as Hw; [subst w'|apply H1]. rewrite lookup_delete_Some. intros [_ ?]; auto.
  - intros obj' Hs Hr. rewrite (kept_remove w key) by done. case_decide as Hw; [subst w'|].
    + apply lookup_delete_Some in Hs as [Hne Hs]. rewrite decide_False by naive_solver. auto.
    + rewrite decide_False by naive_solver. auto.
  - intros Hs. rewrite (kept_remove w key) by done. destruct (decide (w' = w /\ key' = key)) as [|Hk]; [by left|].
    apply H3. case_decide as Hw; [subst w'|done]. apply lookup_delete_None in Hs as [<-|?]; [by destruct Hk|done].
Qed.

Lemma follows_step start s s' : follows start s -> watch_step s s' -> follows start s'.
Proof.
  intros Hf Hs. destruct Hs as [s w key e m' Hr]. remember (wt_seen s w) as m eqn:Em.
  destruct Hr as [m key obj _ Ho|m key old new _ Ho|m key obj Hm|m namespace name obj Hm]; subst m.
  - by apply (follows_put start s w key obj (Added obj)).
  - by apply (follows_put start s w key new (Updated old new)).
  - apply follows_drop; [|done]. left. by apply (fo_objects _ _ Hf).
  - apply follows_drop; [|done]. right. by eexists _, _.
Qed.

(** The bridge when its informers start. *)
Definition starting (b : K8sBridge) : watching := mkWatching (fun _ => ∅) b.

Lemma follows_run b s : rtc watch_step (starting b) s -> follows (br_resources b) s.
Proof.
  assert (follows (br_resources b) (starting b)) as H0.
  { constructor; cbn; [intros ???; by rewrite lookup_empty..|auto]. }
  revert H0. generalize (starting b). intros s0 H0 Hr. induction Hr as [|s1 s2 s3 H12 _ IH]; [done|].
  by apply IH, (follows_step _ s1).
Qed.

(** The callbacks keep the tables in step with the objects. *)
Lemma watch_events s s' : rtc watch_step s s' -> exists es, wt_bridge s' = foldl apply_event (wt_bridge s) es.
Proof.
  induction 1 as [s|s1 s2 s3 [s0 w key e m _] _ [es IH]]; [by exists []|]. cbn in IH.
  exists ((match e with Added obj => Stored w obj | Updated _ obj => Stored w obj | Deleted obj => Removed w obj end) :: es).
  rewrite IH. by destruct e.
Qed.


(** ** What the informers do not bring *)

(** A report about another object leaves what is kept. *)
Lemma report_other w m key e m' b w' key' :
  (forall key obj, m !! key = Some obj -> is_object w key obj) -> reports w m key e m' ->
  ~ (w' = w /\ key' = key) -> kept w' key' (br_resources (handlers w e b)) = kept w' key' (br_resources b).
Proof.
  intros Hm Hr Hne. destruct Hr as [m key obj _ Ho|m key old new _ Ho|m key obj Hk|m namespace name obj Hk]; cbn [handlers registerGatewayInformer].
  1-2: by rewrite (kept_store w key), decide_False.
  - by rewrite (kept_remove w key), decide_False; [..|left; apply Hm].
  - by rewrite (kept_remove w (object_key namespace name)), decide_False; [..|right; eexists _, _].
Qed.

(** A route that can no longer be read stays as it was. *)
Lemma unreadable_stays w obj b : readable w obj = false -> store w obj b = b.
Proof.
  unfold readable. destruct w, obj; try done; intros H%bool_decide_eq_false; cbn;
    unfold storeTLSRouteUnstructured, storeTCPRouteUnstructured, storeUDPRouteUnstructured;
    destruct (parseL4RouteState _); done || (exfalso; apply H; eauto).
Qed.

End informers.

(** ** [Stop]

    The goroutine that waits for the context and the deferred call of the
    engine both stop a bridge: each looks whether the channel is closed, and
    then closes it. *)
Inductive stopper := Looking | Closing | Stopped.
Inductive stop_channel := ChanOpen | ChanClosed | ChanPanic.

Record stopping := mkStopping { sp_chan : stop_channel; sp_first : stopper; sp_second : stopper }.

Definition stop_call (c : stop_channel) (k : stopper) : stop_channel * stopper :=
  match k, c with
  | Looking, ChanOpen => (ChanOpen, Closing)
  | Looking, _ => (c, Stopped)
  | Closing, ChanOpen => (ChanClosed, Stopped)
  | Closing, _ => (ChanPanic, Closing)
  | Stopped, _ => (c, Stopped)
  end.

Inductive stop_step : stopping -> stopping -> Prop :=
  | stop_first s : stop_step s (let '(c, k) := stop_call (sp_chan s) (sp_first s) in mkStopping c k (sp_second s))
  | stop_second s : stop_step s (let '(c, k) := stop_call (sp_chan s) (sp_second s) in mkStopping c (sp_first s) k).

(** One call after the other closes the channel once. *)
Lemma stops_in_turn s :
  rtc stop_step (mkStopping ChanClosed Stopped Looking) s -> sp_chan s = ChanClosed.
Proof.
  assert (forall s, sp_chan s = ChanClosed /\ sp_first s = Stopped /\ sp_second s <> Closing ->
    forall s', rtc stop_step s s' -> sp_chan s' = ChanClosed /\ sp_first s' = Stopped /\ sp_second s' <> Closing) as H.
  { intros s0 H0 s' Hr. induction Hr as [|s1 s2 s3 H12 _ IH]; [done|]. apply IH. destruct H0 as (E1 & E2 & E3).
    destruct H12 as [s1|s1]; rewrite E1, ?E2; [done|]. by destruct (sp_second s1) eqn:E. }
  intros Hr. by destruct (H (mkStopping ChanClosed Stopped Looking) ltac:(done) s Hr).
Qed.

(** Two calls at once can close it twice, which panics. *)
Lemma stops_at_once :
  exists s, rtc stop_step (mkStopping ChanOpen Looking Looking) s /\ sp_chan s = ChanPanic.
Proof.
  eexists. split; [|shelve]. eapply rtc_l; [apply stop_first|]. eapply rtc_l; [apply stop_second|].
  eapply rtc_l; [apply stop_first|]. eapply rtc_l; [apply stop_second|]. apply rtc_refl. Unshelve. done.
Qed.

(** ** Concrete informers *)

Module InformerRun.
Import BridgeRun.
#[local] Existing Instance tree_objects.
#[local] Existing Instance canonical_range.

Definition loaded : K8sBridge := (LoadInitial lists (NewK8sBridgeWithClients "luna")).1.

(** The Ingress as the informer sees it, and then of another class. *)
Definition shop_elsewhere : Ingress := mkIngress "prod" "shop" 4 None (Some "nginx") [] [].

Definition first : watching :=
  mkWatching (set_seen WIngress (<["prod/shop" := ObjIngress shop]> ∅) (wt_seen (starting loaded)))
    (handlers WIngress (Added (ObjIngress shop)) loaded).
Definition seen : watching :=
  mkWatching (set_seen WIngress (<["prod/shop" := ObjIngress shop_elsewhere]> (wt_seen first WIngress)) (wt_seen first))
    (handlers WIngress (Updated (ObjIngress shop) (ObjIngress shop_elsewhere)) (wt_bridge first)).

Lemma informers_run : rtc watch_step (starting loaded) seen.
Proof.
  apply (rtc_l _ _ first).
  - exact (watch (starting loaded) WIngress "prod/shop" _ _ (reports_add WIngress ∅ "prod/shop" (ObjIngress shop) eq_refl eq_refl)).
  - apply rtc_once. exact (watch first WIngress "prod/shop" _ _
      (reports_update WIngress (wt_seen first WIngress) "prod/shop" (ObjIngress shop) (ObjIngress shop_elsewhere) eq_refl eq_refl)).
Qed.


(** An object that is deleted between the initial load and the informers' own
    list is never reported, and stays. *)
Lemma loaded_stays : is_Some (kept WIngress "prod/shop" (br_resources (wt_bridge (starting loaded)))).
Proof. vm_compute. eauto. Qed.

End InformerRun.
