(* ===== verification/IngressEngine.v ===== *)
(** * The ingress engine: ingress/store.go, engine.go, engine_http.go, engine_tls.go

    Requests are routed by host and path: from the cluster's route tables, else
    from the bindings remembered from earlier requests, else from the domain
    entry a slave has replicated.  TLS connections are dispatched by the server
    name of their ClientHello. *)

From Stdlib Require Import Ascii.
From S2P Require Import Prelude GoStrings GoTime Metadata HostNames K8sObjects IngressBridge ClientHello CertLRU CertResolver.

Open Scope Z_scope.

(** ** store.go: remembered bindings *)

Abbreviation memoryStore := (gmap string (list BackendBinding)) (only parsing).

Definition newMemoryStore : memoryStore := ∅.

Definition parseBindingPath (binding : BackendBinding) : string :=
  if bool_decide (bb_Path binding = "") then "/" else bb_Path binding.

Definition parseBindingPriority (binding : BackendBinding) : Z := bb_Priority binding.

Definition bindingMatchesPath (binding : BackendBinding) (requestPath : string) : bool :=
  let path := parseBindingPath binding in
  if bool_decide (path = "/") || bool_decide (path = "") then true
  else if bool_decide (len requestPath < len path)%nat then false
  else HasPrefix requestPath path.

Definition betterBinding (requestPath : string) (left right : BackendBinding) : bool :=
  let leftPriority := parseBindingPriority left in
  let rightPriority := parseBindingPriority right in
  if bool_decide (leftPriority <> rightPriority) then bool_decide (leftPriority > rightPriority)
  else
    let leftPath := parseBindingPath left in
    let rightPath := parseBindingPath right in
    if bool_decide (len leftPath <> len rightPath) then bool_decide (len rightPath < len leftPath)%nat
    else bindingMatchesPath left requestPath && negb (bindingMatchesPath right requestPath).

Definition allowed_protocol (allowed : option (list RouteKind)) (candidate : BackendBinding) : bool :=
  match allowed with
  | None => true
  | Some protocols => bool_decide (bb_Protocol candidate ∈ protocols)
  end.

Definition selectLocked (hostname requestPath : string) (allowed : option (list RouteKind))
    (s : memoryStore) : option BackendBinding :=
  foldl (fun selected candidate =>
           if allowed_protocol allowed candidate
           then pick_best (betterBinding requestPath) selected candidate else selected)
    None (default [] (s !! hostname)).

Definition Get (hostname requestPath : string) (s : memoryStore) : option BackendBinding :=
  selectLocked (normalizeHost hostname) requestPath None s.

Definition GetByProtocol (hostname requestPath : string) (protocols : list RouteKind) (s : memoryStore)
    : option BackendBinding :=
  selectLocked (normalizeHost hostname) requestPath (Some protocols) s.

Definition Put (binding : BackendBinding) (s : memoryStore) : memoryStore :=
  let host := normalizeHost (bb_Hostname binding) in
  <[host := default [] (s !! host) ++ [binding]]> s.

Definition Delete (hostname : string) (s : memoryStore) : memoryStore :=
  delete (normalizeHost hostname) s.

Definition Clear (s : memoryStore) : memoryStore := ∅.

(** The readers the engine is given: [GetDomainEntryByHostname] of a slave's
    read-only cache, or [GetDomainEntryProjectionByDomain] of a repository.  A
    slave may have no cache. *)
Definition RouteLookupReader : Type := string -> result (option DomainEntryProjection).
Definition ReplicaReader : Type := option RouteLookupReader.

Definition lookupRouteFromReadOnlyCache (slave : ReplicaReader) (hostname : string)
    : result (option DomainEntryProjection) :=
  match slave with
  | None => Ok None
  | Some cache => cache hostname
  end.

(** ** Routes of a domain entry *)

Definition httpRouteMatches (path requestPath : string) : bool :=
  if bool_decide (path = "") || bool_decide (path = "/") then true
  else
    let requestPath := if bool_decide (requestPath = "") then "/" else requestPath in
    HasPrefix requestPath path.

Definition better_http_route (route selected : HTTPRouteProjection) : bool :=
  bool_decide (rp_Priority route > rp_Priority selected) ||
  (bool_decide (rp_Priority route = rp_Priority selected) &&
   bool_decide (len (rp_Path selected) < len (rp_Path route))%nat).

Definition selectHTTPRoute (routes : list HTTPRouteProjection) (requestPath : string)
    : option HTTPRouteProjection :=
  foldl (fun selected route =>
           if httpRouteMatches (rp_Path route) requestPath
           then pick_best better_http_route selected route else selected) None routes.

Definition bindingFromProjection (entry : DomainEntryProjection) (requestPath : string) (kind : RouteKind)
    : option BackendBinding :=
  if bool_decide (kind = RouteKindHTTP) || bool_decide (kind = RouteKindHTTPS)
     || bool_decide (kind = RouteKindGRPC) then
    route ← selectHTTPRoute (dp_HTTPRoutes entry) requestPath;
    ref ← rp_BackendRef route;
    Some {| bb_ID := rp_ID route; bb_Hostname := dp_Hostname entry; bb_ServiceID := "";
            bb_Namespace := sb_ServiceNamespace ref; bb_Name := sb_ServiceName ref;
            bb_Address := backendAddress (Some ref); bb_Port := sb_Port ref;
            bb_Protocol := if bool_decide (kind = RouteKindGRPC) then RouteKindGRPC else RouteKindHTTP;
            bb_RouteVersion := 1; bb_Path := rp_Path route; bb_Priority := rp_Priority route;
            bb_BackendJSON := ""; bb_BackendRef := Some ref; bb_DomainEntryID := "" |}
  else if bool_decide (kind = RouteKindTLSTerminate) || bool_decide (kind = RouteKindTLSPassthrough)
     || bool_decide (kind = RouteKindTCP) || bool_decide (kind = RouteKindUDP) then
    ref ← dp_BindedBackendRef entry;
    Some {| bb_ID := sb_ID ref; bb_Hostname := dp_Hostname entry; bb_ServiceID := "";
            bb_Namespace := sb_ServiceNamespace ref; bb_Name := sb_ServiceName ref;
            bb_Address := backendAddress (Some ref); bb_Port := sb_Port ref; bb_Protocol := kind;
            bb_RouteVersion := 0; bb_Path := ""; bb_Priority := 0; bb_BackendJSON := "";
            bb_BackendRef := Some ref; bb_DomainEntryID := "" |}
  else None.

Definition normalizeProxyPathPrefix (path : string) : string :=
  let path := TrimSpace path in
  if bool_decide (path = "") || negb (HasPrefix path "/") then "/" else path.

(** ** engine.go *)

Record ProxyTarget := mkProxyTarget {
  pt_Hostname : string;
  pt_Port : Z;
  pt_UpstreamURL : string;
  pt_Protocol : string;
  pt_PathPrefix : string;
}.

(** [RouteResult]: [None] is [Found: false]. *)
Definition RouteResult : Type := option ProxyTarget.

Record EngineOptions := mkEngineOptions {
  op_HTTPListenAddr : string;
  op_TLSListenAddr : string;
  op_K8sEnabled : bool;
  op_K8sIngressClass : string;
  op_MasterHTTP01ProxyURL : string;
}.

Record Engine := mkEngine {
  en_opts : EngineOptions;
  en_repo : option RouteLookupReader;
  en_slave : option ReplicaReader;
  en_k8sBridge : option K8sBridge;
  en_k8sLoaded : bool;
  en_memory : memoryStore;
}.

Definition with_memory (f : memoryStore -> memoryStore) (e : Engine) : Engine :=
  mkEngine (en_opts e) (en_repo e) (en_slave e) (en_k8sBridge e) (en_k8sLoaded e) (f (en_memory e)).
Definition with_bridge (b : K8sBridge) (e : Engine) : Engine :=
  mkEngine (en_opts e) (en_repo e) (en_slave e) (Some b) (en_k8sLoaded e) (en_memory e).

Definition InjectRepository (repo : RouteLookupReader) (e : Engine) : Engine :=
  mkEngine (en_opts e) (Some repo) (en_slave e) (en_k8sBridge e) (en_k8sLoaded e) (en_memory e).
Definition InjectSlave (slave : ReplicaReader) (e : Engine) : Engine :=
  mkEngine (en_opts e) (en_repo e) (Some slave) (en_k8sBridge e) (en_k8sLoaded e) (en_memory e).

(** The listeners are opened and closed in Lifecycle; [in_cluster] is the error with which the
    cluster's configuration or clients cannot be created, if any, and
    [has_resolver] whether a certificate resolver is given. *)
Definition NewEngine (opts : EngineOptions) (has_resolver : bool) (in_cluster : option error) : result Engine :=
  if bool_decide (TrimSpace (op_HTTPListenAddr opts) = "") && bool_decide (TrimSpace (op_TLSListenAddr opts) = "")
  then Err (errors_New "at least one ingress listen address is required")
  else if bool_decide (TrimSpace (op_TLSListenAddr opts) <> "") && negb has_resolver
  then Err (errors_New "tls certificate resolver is required when tls listen address is configured")
  else
    let engine := mkEngine opts None None None false newMemoryStore in
    if op_K8sEnabled opts then
      match in_cluster with
      | Some err => Err err
      | None => Ok (with_bridge (NewK8sBridgeWithClients (op_K8sIngressClass opts)) engine)
      end
    else Ok engine.

Definition BindContext {UN : Unstructured} {MR : MapRange} (l : cluster_lists) : go Engine () := fun e =>
  match en_k8sBridge e with
  | Some b =>
      if en_k8sLoaded e then (e, Ok tt)
      else
        match LoadInitial l b with
        | (b, Err err) => (with_bridge b e, Err err)
        | (b, Ok _) =>
            (mkEngine (en_opts e) (en_repo e) (en_slave e) (Some b) true (en_memory e), Ok tt)
        end
  | None => (e, Ok tt)
  end.

(** The engine together with its certificate resolver, if that is the one with
    a cache. *)
Definition RefreshAll {V} (er : Engine * option (LunaTLSCertResolver V))
    : Engine * option (LunaTLSCertResolver V) :=
  (with_memory Clear er.1, resolver_Clear <$> er.2).
Definition RefreshCertificateHost {V} (hostname : string)
    (er : Engine * option (LunaTLSCertResolver V)) : Engine * option (LunaTLSCertResolver V) :=
  (er.1, DeleteCandidates hostname <$> er.2).
Definition RefreshHost (hostname : string) (e : Engine) : Engine := with_memory (Delete hostname) e.

(** The upstream a binding names; [resultFromBinding] also remembers the
    binding. *)
Definition target_of (hostname : string) (binding : BackendBinding) : option ProxyTarget :=
  let upstreamURL := buildUpstreamURL (bb_Protocol binding) (bb_Address binding) (bb_Port binding) in
  if bool_decide (upstreamURL = "") then None
  else Some (mkProxyTarget hostname 0 upstreamURL (bb_Protocol binding)
               (normalizeProxyPathPrefix (bb_Path binding))).

Definition resultFromBinding (hostname : string) (binding : BackendBinding) : go Engine RouteResult := fun e =>
  match target_of hostname binding with
  | None => (e, Err (Errorf "service binding %q has no valid upstream" [bb_ID binding]))
  | Some target => (with_memory (Put binding) e, Ok (Some target))
  end.

Definition resultFromProjection (hostname requestPath : string) (kind : RouteKind)
    (entry : DomainEntryProjection) : go Engine RouteResult :=
  match bindingFromProjection entry requestPath kind with
  | None => mret None
  | Some binding => resultFromBinding hostname binding
  end.

(** The first half of [routeByKind]: the cluster's answer. *)
Definition k8s_binding (hostname requestPath : string) (kind : RouteKind) (e : Engine)
    : option BackendBinding :=
  b ← en_k8sBridge e;
  if bool_decide (kind = RouteKindHTTPS) then kr_Binding <$> ResolveHTTPS hostname requestPath b
  else ResolveRequest hostname requestPath b.

(** A [nil] result without an error, which the slave's lookup can give, is
    handled like [Found: false] by the only caller. *)
Definition routeByKind (host requestPath : string) (kind : RouteKind) : go Engine RouteResult := fun e =>
  let hostname := normalizeHost host in
  if bool_decide (hostname = "") then (e, Err (errors_New "host is required"))
  else
    match k8s_binding hostname requestPath kind e with
    | Some binding => resultFromBinding hostname binding e
    | None =>
    match Get hostname requestPath (en_memory e) with
    | Some binding => resultFromBinding hostname binding e
    | None =>
    match en_slave e with
    | Some slave =>
        match lookupRouteFromReadOnlyCache slave hostname with
        | Ok (Some entry) => resultFromProjection hostname requestPath kind entry e
        | Ok None => (e, Ok None)
        | Err err => (e, Err err)
        end
    | None =>
    match en_repo e with
    | Some repo =>
        match repo hostname with
        | Ok (Some entry) => resultFromProjection hostname requestPath kind entry e
        | Ok None | Err _ => (e, Ok None)
        end
    | None => (e, Ok None)
    end end end end.

Definition Route (host requestPath : string) : go Engine RouteResult :=
  routeByKind host requestPath RouteKindHTTP.
Definition RouteHTTPS (host requestPath : string) : go Engine RouteResult :=
  routeByKind host requestPath RouteKindHTTPS.

(** ** engine_http.go *)

Definition trimMatchedPrefix (prefix path : string) : string :=
  if bool_decide (path = "") then "/"
  else if bool_decide (prefix = "/") || bool_decide (prefix = "") then path
  else
    let trimmed := TrimPrefix path prefix in
    if bool_decide (trimmed = "") then "/"
    else if negb (HasPrefix trimmed "/") then "/" +:+ trimmed
    else trimmed.

Definition rewriteUpstreamPath (prefix requestPath rawPath : string) : string * string :=
  let prefix := normalizeProxyPathPrefix prefix in
  let requestPath := if bool_decide (requestPath = "") then "/" else requestPath in
  (trimMatchedPrefix prefix requestPath,
   if bool_decide (rawPath = "") then rawPath else trimMatchedPrefix prefix rawPath).

Definition acmeHTTP01Prefix : string := "/.well-known/acme-challenge/".

(** The parts of a request the engine reads. *)
Record Request := mkRequest {
  rq_Host : string;
  rq_Path : string;
  rq_RawPath : string;
  rq_RawQuery : string;
  rq_ForwardedProto : string;
}.

(** What is done with a request: forwarded to a URL with the given path, raw
    path and query, or answered with a status. *)
Inductive reply :=
  | Proxy (upstream path rawPath rawQuery : string)
  | StatusInternalServerError (message : error)
  | StatusNotFound.

Section http.
(** Whether [url.Parse] accepts a string. *)
Context (url_Parse : string -> bool).

Definition serveACMEHTTP01Proxy (e : Engine) (r : Request) : reply :=
  let target := TrimRight (op_MasterHTTP01ProxyURL (en_opts e)) "/" in
  if negb (url_Parse target) then StatusInternalServerError (errors_New "invalid acme http01 proxy url")
  else Proxy target (rq_Path r) (rq_RawPath r) (rq_RawQuery r).

Definition serveHTTP (r : Request) (e : Engine) : Engine * reply :=
  if HasPrefix (rq_Path r) acmeHTTP01Prefix && bool_decide (TrimSpace (op_MasterHTTP01ProxyURL (en_opts e)) <> "")
  then (e, serveACMEHTTP01Proxy e r)
  else
    let '(e, result) :=
      (if EqualFold (rq_ForwardedProto r) "https" then RouteHTTPS (rq_Host r) (rq_Path r) e
       else Route (rq_Host r) (rq_Path r) e) in
    match result with
    | Err err => (e, StatusInternalServerError err)
    | Ok None => (e, StatusNotFound)
    | Ok (Some target) =>
        if negb (url_Parse (pt_UpstreamURL target))
        then (e, StatusInternalServerError (errors_New "invalid upstream url"))
        else
          let '(path, rawPath) := rewriteUpstreamPath (pt_PathPrefix target) (rq_Path r) (rq_RawPath r) in
          (e, Proxy (pt_UpstreamURL target) path rawPath (rq_RawQuery r))
    end.

(** ** engine_tls.go *)

Definition resolveMemoryBackend (serverName : string) (kind : RouteKind) (e : Engine)
    : option K8sResolvedBackend :=
  binding ← GetByProtocol serverName "/" [kind] (en_memory e);
  Some (mkK8sResolvedBackend kind (normalizeHost serverName) 0 binding None).

Definition resolveTLSPassthroughBackend (serverName : string) (e : Engine) : option K8sResolvedBackend :=
  match en_k8sBridge e with
  | None => resolveMemoryBackend serverName RouteKindTLSPassthrough e
  | Some b =>
      match ResolveTLSPassthrough serverName b with
      | Some backend => Some backend
      | None => resolveMemoryBackend serverName RouteKindTLSPassthrough e
      end
  end.

Definition resolveTLSRouteBackend (serverName : string) (e : Engine) : option K8sResolvedBackend :=
  match en_k8sBridge e ≫= ResolveTLS serverName with
  | Some backend => Some backend
  | None => resolveMemoryBackend serverName RouteKindTLSTerminate e
  end.

(** The name whose certificate the handshake presents. *)
Definition certificate_name (serverName helloServerName : string) : string :=
  let name := normalizeHost helloServerName in
  if bool_decide (name = "") then serverName else name.

(** What becomes of a TLS connection: closed, copied to an upstream as it is,
    decrypted and copied to an upstream, or decrypted and served as HTTP under
    the host name [serverName], as HTTPS. *)
Inductive conn_action :=
  | CloseConn
  | CloseOnPanic
  | PassThrough (address : string) (port : Z)
  | ProxyPlain (address : string) (port : Z)
  | ServeHTTPS (serverName : string).

(** [serveConn] on a connection that starts with [input]; [handshake] says
    whether the handshake with the certificate of a name succeeds. *)
Definition serveConn (input : frame) (handshake : string -> bool) (e : Engine) : conn_action :=
  match PeekServerName input with
  | Panic => CloseOnPanic
  | Fail _ => CloseConn
  | Ret name =>
      let serverName := normalizeHost name in
      if bool_decide (serverName = "") then CloseConn
      else
        match resolveTLSPassthroughBackend serverName e with
        | Some b => PassThrough (bb_Address (kr_Binding b)) (bb_Port (kr_Binding b))
        | None =>
            if negb (handshake (certificate_name serverName name)) then CloseConn
            else
              match resolveTLSRouteBackend serverName e with
              | Some b => ProxyPlain (bb_Address (kr_Binding b)) (bb_Port (kr_Binding b))
              | None => ServeHTTPS serverName
              end
        end
  end.

(** The request the HTTP handler sees on a decrypted connection. *)
Definition https_request (serverName : string) (r : Request) : Request :=
  mkRequest serverName (rq_Path r) (rq_RawPath r) (rq_RawQuery r) "https".

End http.
