(* ===== verification/IngressEngineFacts.v ===== *)
(** * The ingress engine: theorems

    Which route of a domain entry answers a request, how paths are rewritten,
    what is remembered between requests, and what becomes of a TLS connection. *)

From Stdlib Require Import Ascii.
From S2P Require Import Prelude GoStrings GoTime Metadata HostNames K8sObjects IngressBridge IngressBridgeFacts ClientHello CertLRU CertResolver IngressEngine.

Open Scope Z_scope.

(** ** Choosing a route of a domain entry *)

Lemma foldl_guarded {A} (guard : A -> bool) better (l : list A) acc :
  foldl (fun selected c => if guard c then pick_best better selected c else selected) acc l =
  foldl (pick_best better) acc (filter (fun c => guard c = true) l).
Proof.
  revert acc. induction l as [|c l IH]; intros acc; cbn [foldl]; [done|].
  rewrite filter_cons, IH. destruct (guard c); [|done]. by rewrite decide_True.
Qed.

(** A request for a domain entry is answered by a route whose path is a
    prefix of the request's path, of the highest priority among those, and of the
    longest path among these; it is not answered exactly when no route matches. *)
Theorem select_http_route routes requestPath :
  match selectHTTPRoute routes requestPath with
  | Some r => r ∈ routes /\ httpRouteMatches (rp_Path r) requestPath = true /\
      forall c, c ∈ routes -> httpRouteMatches (rp_Path c) requestPath = true ->
        rp_Priority c < rp_Priority r \/
        (rp_Priority c = rp_Priority r /\ (len (rp_Path c) <= len (rp_Path r))%nat)
  | None => forall c, c ∈ routes -> httpRouteMatches (rp_Path c) requestPath = false
  end.
Proof.
  unfold selectHTTPRoute. rewrite foldl_guarded. set (l := filter _ routes).
  assert (forall c, c ∈ l <-> httpRouteMatches (rp_Path c) requestPath = true /\ c ∈ routes) as Hl
    by (intros c; unfold l; by rewrite list_elem_of_filter).
  assert (forall x y, better_http_route x y = false <->
    rp_Priority x < rp_Priority y \/
    (rp_Priority x = rp_Priority y /\ (len (rp_Path x) <= len (rp_Path y))%nat)) as Hb.
  { intros x y. unfold better_http_route.
    rewrite orb_false_iff, andb_false_iff, !bool_decide_eq_false. lia. }
  destruct (foldl _ None l) as [r|] eqn:E.
  - destruct (proj1 (Hl r) (foldl_pick_best_elem _ _ _ E)) as [Hm Hr]. split_and!; [done..|].
    intros c Hc Hcm. apply Hb. refine (foldl_pick_best_max _ _ _ _ _ _ E c _); [| | |by apply Hl].
    + intros x. apply Hb. lia.
    + intros x y z. rewrite !Hb. lia.
    + intros x y Hxy. apply Hb. destruct (better_http_route x y) eqn:Exy; [|done].
      assert (~ (better_http_route x y = false)) as Hn by congruence. rewrite Hb in Hn. lia.
  - apply foldl_pick_best_None in E. intros c Hc.
    destruct (httpRouteMatches (rp_Path c) requestPath) eqn:Ec; [|done].
    assert (c ∈ l) as Hin by by apply Hl. rewrite E in Hin. by apply elem_of_nil in Hin.
Qed.

(** ** Paths sent upstream *)

Lemma trimMatchedPrefix_slash prefix path :
  path = "" \/ HasPrefix path "/" = true -> HasPrefix (trimMatchedPrefix prefix path) "/" = true.
Proof.
  unfold trimMatchedPrefix. case_bool_decide as Hp; [done|]. intros [?|Hs]; [done|].
  destruct (_ || _); [done|]. cbn zeta. case_bool_decide; [done|].
  destruct (HasPrefix (TrimPrefix path prefix) "/") eqn:E; cbn [negb]; [done|]. apply HasPrefix_app.
Qed.

Lemma HasPrefix_nonempty s : HasPrefix s "/" = true -> s <> "".
Proof. by intros H ->. Qed.

Lemma app_slash_nonempty (s t : string) : s +:+ "/" +:+ t <> "".
Proof. intros E. apply (f_equal (fun x => bytes x)) in E. rewrite !bytes_app in E. by destruct (bytes s). Qed.

(** The path sent upstream begins with a slash.  The matched prefix is
    removed when the request's path goes on with a slash, or ends there; a request
    that does not begin with the prefix, or one matched by the root, keeps its
    path.  The same holds of the raw path, which stays empty when it is empty. *)
Theorem rewrite_upstream_path prefix request raw :
  let pre := normalizeProxyPathPrefix prefix in
  let rewritten := rewriteUpstreamPath prefix request raw in
  (request = "" \/ HasPrefix request "/" = true -> HasPrefix rewritten.1 "/" = true) /\
  (forall rest, pre <> "/" -> request = pre +:+ "/" +:+ rest -> rewritten.1 = "/" +:+ rest) /\
  (pre <> "/" -> request = pre -> rewritten.1 = "/") /\
  (request <> "" -> pre = "/" \/ (HasPrefix request pre = false /\ HasPrefix request "/" = true) ->
     rewritten.1 = request) /\
  (rewritten.2 = if bool_decide (raw = "") then "" else (rewriteUpstreamPath prefix raw raw).1).
Proof.
  cbn zeta. unfold rewriteUpstreamPath. cbn [fst snd]. set (pre := normalizeProxyPathPrefix prefix).
  assert (pre <> "") as Hpre.
  { unfold pre, normalizeProxyPathPrefix. cbn zeta. case_bool_decide; cbn [orb]; [done|].
    by destruct (HasPrefix (TrimSpace prefix) "/"). }
  split_and!.
  - intros H. apply trimMatchedPrefix_slash. case_bool_decide; auto.
  - intros rest Hne ->. rewrite bool_decide_eq_false_2 by apply app_slash_nonempty.
    unfold trimMatchedPrefix. rewrite !bool_decide_eq_false_2 by (done || apply app_slash_nonempty).
    cbn [orb]. cbn zeta. rewrite TrimPrefix_app, HasPrefix_app. by rewrite bool_decide_eq_false_2.
  - intros Hne ->. rewrite bool_decide_eq_false_2 by done. unfold trimMatchedPrefix.
    rewrite !bool_decide_eq_false_2 by done. cbn [orb]. cbn zeta.
    assert (TrimPrefix pre pre = "") as -> by (by rewrite <- (TrimPrefix_app pre ""), app_string_nil_r).
    by rewrite bool_decide_eq_true_2.
  - intros Hne Hc. rewrite bool_decide_eq_false_2 by done. unfold trimMatchedPrefix.
    rewrite (bool_decide_eq_false_2 (request = "")) by done.
    destruct (bool_decide (pre = "/") || bool_decide (pre = "")) eqn:Eo; [done|].
    apply orb_false_iff in Eo as [Eo _]. apply bool_decide_eq_false in Eo.
    destruct Hc as [?|[Hp Hs]]; [done|]. unfold TrimPrefix. rewrite Hp. cbn zeta.
    by rewrite bool_decide_eq_false_2, Hs.
  - case_bool_decide; [done|]. done.
Qed.

(** ** Remembered bindings *)

Lemma Get_filter host path s :
  Get host path s = foldl (pick_best (betterBinding path)) None (default [] (s !! normalizeHost host)).
Proof. unfold Get, selectLocked. rewrite foldl_guarded, filter_keep; [done|]. by apply Forall_forall. Qed.

Lemma Get_none host path s : s !! normalizeHost host = None -> Get host path s = None.
Proof. intros H. by rewrite Get_filter, H. Qed.

Lemma pick_best_replicate {A} better (b : A) n :
  foldl (pick_best better) None (replicate (S n) b) = Some b.
Proof.
  cbn. induction n as [|n IH]; cbn; [done|]. by destruct (better b b).
Qed.

Lemma Get_replicate host path s n b :
  s !! normalizeHost host = Some (replicate (S n) b) -> Get host path s = Some b.
Proof. intros H. rewrite Get_filter, H. apply pick_best_replicate. Qed.

(** An engine without a cluster that remembers one binding for a host, [n+1]
    times. *)
Record remembers (host : string) (t : ProxyTarget) (b : BackendBinding) (n : nat) (e : Engine) : Prop := {
  rm_bridge : en_k8sBridge e = None;
  rm_host : normalizeHost (bb_Hostname b) = normalizeHost host;
  rm_target : target_of (normalizeHost host) b = Some t;
  rm_entries : en_memory e !! normalizeHost host = Some (replicate (S n) b);
}.

Lemma remembers_step host t b n e path kind :
  normalizeHost host <> "" -> remembers host t b n e ->
  (routeByKind host path kind e).2 = Ok (Some t) /\
  remembers host t b (S n) (routeByKind host path kind e).1.
Proof.
  intros Hne [Hk Hh Ht He]. unfold routeByKind. cbn zeta. rewrite bool_decide_eq_false_2 by done.
  unfold k8s_binding. rewrite Hk. cbn [mbind option_bind].
  rewrite (Get_replicate (normalizeHost host) path (en_memory e) n b) by (by rewrite normalizeHost_idemp).
  unfold resultFromBinding. rewrite Ht. split; [done|]. cbn [fst]. split; [done..|].
  cbn [with_memory en_memory]. unfold Put. rewrite Hh, He, lookup_insert_eq.
  change (Some (replicate (S n) b ++ [b]) = Some (replicate (S (S n)) b)). by rewrite <- replicate_S_end.
Qed.

(** The readers answer for the host they are asked about. *)
Definition reader_ok (r : RouteLookupReader) : Prop :=
  forall h entry, r h = Ok (Some entry) -> normalizeHost (dp_Hostname entry) = h.

Definition readers_ok (e : Engine) : Prop :=
  (forall slave, en_slave e = Some (Some slave) -> reader_ok slave) /\
  (forall repo, en_repo e = Some repo -> reader_ok repo).

Lemma bindingFromProjection_host entry path kind b :
  bindingFromProjection entry path kind = Some b -> bb_Hostname b = dp_Hostname entry.
Proof.
  unfold bindingFromProjection. destruct (_ || _).
  - intros (route & _ & (ref & _ & [= <-])%bind_Some)%bind_Some. done.
  - destruct (_ || _); [|done]. intros (ref & _ & [= <-])%bind_Some. done.
Qed.

(** The domain entry the engine finds for a host. *)
Definition engine_entry (hostname : string) (e : Engine) : result (option DomainEntryProjection) :=
  match en_slave e, en_repo e with
  | Some slave, _ => lookupRouteFromReadOnlyCache slave hostname
  | None, Some repo => match repo hostname with Ok entry => Ok entry | Err _ => Ok None end
  | None, None => Ok None
  end.

(** The answer to a request when neither the cluster nor an earlier request
    gives one. *)
Definition uncached (hostname path : string) (kind : RouteKind) (e : Engine) : Engine * result RouteResult :=
  match engine_entry hostname e with
  | Err err => (e, Err err)
  | Ok None => (e, Ok None)
  | Ok (Some entry) => resultFromProjection hostname path kind entry e
  end.

Lemma routeByKind_uncached host path kind e :
  normalizeHost host <> "" -> k8s_binding (normalizeHost host) path kind e = None ->
  Get (normalizeHost host) path (en_memory e) = None ->
  routeByKind host path kind e = uncached (normalizeHost host) path kind e.
Proof.
  intros Hne Hk Hg. unfold routeByKind, uncached, engine_entry. cbn zeta.
  rewrite bool_decide_eq_false_2, Hk, Hg by done.
  destruct (en_slave e) as [slave|]; [done|]. destruct (en_repo e) as [repo|]; [|done].
  by destruct (repo (normalizeHost host)) as [[entry|]|].
Qed.

Lemma engine_entry_host hostname e entry :
  readers_ok e -> engine_entry hostname e = Ok (Some entry) -> normalizeHost (dp_Hostname entry) = hostname.
Proof.
  intros [Hs Hr]. unfold engine_entry. destruct (en_slave e) as [[slave|]|]; cbn; [by apply Hs|done|].
  destruct (en_repo e) as [repo|]; [|done]. specialize (Hr repo eq_refl).
  destruct (repo hostname) as [o|] eqn:E; [|done]. intros [= ->]. by apply Hr.
Qed.


(** ** Refreshing *)

Lemma resultFromBinding_answer hostname binding f e :
  (resultFromBinding hostname binding (with_memory f e)).2 = (resultFromBinding hostname binding e).2.
Proof. unfold resultFromBinding. by destruct (target_of hostname binding). Qed.

Lemma resultFromProjection_answer hostname path kind entry f e :
  (resultFromProjection hostname path kind entry (with_memory f e)).2 =
  (resultFromProjection hostname path kind entry e).2.
Proof.
  unfold resultFromProjection. destruct (bindingFromProjection entry path kind); [|done].
  apply resultFromBinding_answer.
Qed.

Lemma uncached_answer hostname path kind f e :
  (uncached hostname path kind (with_memory f e)).2 = (uncached hostname path kind e).2.
Proof.
  unfold uncached, engine_entry. cbn [with_memory en_slave en_repo].
  destruct (match en_slave e with Some _ => _ | None => _ end) as [[entry|]|]; [|done..].
  apply resultFromProjection_answer.
Qed.

(** Refreshing a host makes the next request to it be answered from the
    cluster or the replicated domain entry again, and leaves the answers for every
    other host as they were. *)
Theorem refresh_host e host :
  (forall path kind, normalizeHost host <> "" -> k8s_binding (normalizeHost host) path kind e = None ->
     (routeByKind host path kind (RefreshHost host e)).2 = (uncached (normalizeHost host) path kind e).2) /\
  (forall other path kind, normalizeHost other <> normalizeHost host ->
     (routeByKind other path kind (RefreshHost host e)).2 = (routeByKind other path kind e).2).
Proof.
  unfold RefreshHost. split.
  - intros path kind Hne Hk. rewrite routeByKind_uncached; [apply uncached_answer|done|done|].
    apply Get_none. cbn [with_memory en_memory]. unfold Delete. rewrite normalizeHost_idemp.
    apply lookup_delete_eq.
  - intros other path kind Hne.
    assert (Get (normalizeHost other) path (en_memory (with_memory (Delete host) e)) =
            Get (normalizeHost other) path (en_memory e)) as Hget.
    { rewrite !Get_filter. cbn [with_memory en_memory]. unfold Delete.
      rewrite normalizeHost_idemp. by rewrite lookup_delete_ne. }
    unfold routeByKind. cbn zeta. case_bool_decide; [done|]. rewrite Hget.
    change (k8s_binding (normalizeHost other) path kind (with_memory (Delete host) e))
      with (k8s_binding (normalizeHost other) path kind e).
    clear Hget. destruct (k8s_binding _ _ _ e); [apply resultFromBinding_answer|].
    destruct (Get (normalizeHost other) path (en_memory e)); [apply resultFromBinding_answer|]. cbn [with_memory en_slave en_repo].
    destruct (en_slave e) as [slave|].
    + destruct (lookupRouteFromReadOnlyCache slave _) as [[entry|]|]; [apply resultFromProjection_answer|done..].
    + destruct (en_repo e) as [repo|]; [|done].
      destruct (repo _) as [[entry|]|]; [apply resultFromProjection_answer|done..].
Qed.

(** ** TLS connections *)

(** Only HTTP bindings are ever remembered. *)
Definition http_memory (s : gmap string (list BackendBinding)) : Prop :=
  forall k l, s !! k = Some l -> Forall (fun b => bb_Protocol b = RouteKindHTTP) l.

Definition http_tables (b : K8sBridge) : Prop :=
  forall host r, r ∈ routes_at (HttpSlot host) (br_resolved b) \/ r ∈ routes_at (HttpsSlot host) (br_resolved b) ->
    bb_Protocol (mr_binding r) = RouteKindHTTP.

Record engine_ok (e : Engine) : Prop := {
  eo_memory : http_memory (en_memory e);
  eo_tables : forall b, en_k8sBridge e = Some b -> http_tables b;
}.

Section runs.
Context {UN : Unstructured} {MR : MapRange}.

Lemma rebuilt_http b : http_tables (rebuildRoutesLocked b).
Proof.
  intros host r. rewrite !routes_at_offers. intros [H|H]; inversion H; subst; done.
Qed.

Lemma event_http b ev : http_tables b -> http_tables (apply_event b ev).
Proof.
  intros Hb. destruct (apply_event_shape b ev) as [-> |(f & -> & _)]; [done|]. apply rebuilt_http.
Qed.
Lemma load_http l : preserves http_tables (LoadInitial l).
Proof.
  assert (forall f b, http_tables b -> http_tables (with_resources f b)) as Hw by (intros f b Hb; exact Hb).
  assert (forall A (f : K8sBridge -> A -> K8sBridge) items b, (forall b a, http_tables b -> http_tables (f b a)) ->
    http_tables b -> http_tables (foldl f b items)) as Hfold.
  { intros A f items b Hf. revert b. induction items as [|a items IH]; intros b Hb; cbn; auto. }
  unfold LoadInitial, loadInitialIngresses, loadInitialServices.
  repeat (apply preserves_bind; [|intros _]); try case_match; try apply preserves_throw;
    apply preserves_modify; intros b Hb.
  - apply Hfold; [|done]. intros b' ing Hb'. case_match; [by apply Hw|done].
  - apply Hfold; [|done]. intros b' svc Hb'. by apply Hw.
  - apply Hfold; [|done]. intros b' w Hb'. unfold load_gateway_objects.
    destruct (cl_gateway_objects l w); [|done]. apply Hfold; [|done].
    intros b'' o Hb''. by apply (event_http b'' (Stored w (ObjUnstructured o))).
  - apply rebuilt_http.
Qed.

Lemma k8s_binding_http hostname path kind e b :
  engine_ok e -> k8s_binding hostname path kind e = Some b -> bb_Protocol b = RouteKindHTTP.
Proof.
  intros [_ Ht]. unfold k8s_binding. intros (br & Hbr & H)%bind_Some. specialize (Ht br Hbr).
  assert (forall kind' k, kind' = RouteKindHTTP \/ kind' = RouteKindHTTPS ->
    resolveHostPath kind' hostname path br = Some k -> bb_Protocol (kr_Binding k) = RouteKindHTTP) as Hres.
  { clear H. intros kind' k Hk'. unfold resolveHostPath. cbn zeta. case_bool_decide; [done|].
    intros (s & Hs & (r & Hr & [= <-])%bind_Some)%bind_Some.
    pose proof (selectK8sRoute_spec (routes_at s (br_resolved br)) (normalizeIngressPath path) kind') as Hsel.
    rewrite Hr in Hsel. destruct Hsel as [Hin _]. apply (Ht (normalizeHost hostname)).
    destruct Hk' as [-> | ->];
      [change (Some (HttpSlot (normalizeHost hostname)) = Some s) in Hs; left
      |change (Some (HttpsSlot (normalizeHost hostname)) = Some s) in Hs; right]; by injection Hs as <-. }
  case_bool_decide; unfold ResolveRequest, ResolveHTTPS in H; apply fmap_Some in H as (k & Hk & ->);
    (eapply Hres; [|exact Hk]); auto.
Qed.

Lemma Put_http b s : bb_Protocol b = RouteKindHTTP -> http_memory s -> http_memory (Put b s).
Proof.
  intros Hb Hs k l. unfold Put. rewrite lookup_insert_Some. intros [[_ <-]|[_ Hl]]; [|by eapply Hs].
  apply Forall_app. split; [|by apply Forall_singleton].
  destruct (s !! normalizeHost (bb_Hostname b)) eqn:E; cbn; [by eapply Hs|constructor].
Qed.

Lemma routeByKind_ok host path kind :
  kind = RouteKindHTTP \/ kind = RouteKindHTTPS -> preserves engine_ok (routeByKind host path kind).
Proof.
  intros Hk e He.
  assert (forall b hostname, bb_Protocol b = RouteKindHTTP -> engine_ok (resultFromBinding hostname b e).1) as Hput.
  { intros b hostname Hb. unfold resultFromBinding. destruct (target_of hostname b); [|done].
    destruct He as [Hm Ht]. split; [by apply Put_http|exact Ht]. }
  assert (forall hostname entry, engine_ok (resultFromProjection hostname path kind entry e).1) as Hproj.
  { intros hostname entry. unfold resultFromProjection.
    destruct (bindingFromProjection entry path kind) as [b|] eqn:Eb; [|done]. apply Hput.
    revert Eb. unfold bindingFromProjection.
    assert (kind <> RouteKindGRPC) as Hg by (by destruct Hk as [-> | ->]).
    rewrite (bool_decide_eq_false_2 (kind = RouteKindGRPC)) by done.
    assert (bool_decide (kind = RouteKindHTTP) || bool_decide (kind = RouteKindHTTPS) = true) as ->.
    { rewrite orb_true_iff, !bool_decide_eq_true. done. }
    cbn [orb]. intros (route & _ & (ref & _ & [= <-])%bind_Some)%bind_Some. done. }
  unfold routeByKind. cbn zeta. case_bool_decide; [done|].
  destruct (k8s_binding _ _ _ e) as [b|] eqn:Ek; [by eapply Hput, k8s_binding_http|].
  destruct (Get _ _ _) as [b|] eqn:Eg.
  { apply Hput. rewrite Get_filter in Eg. apply foldl_pick_best_elem in Eg.
    destruct (en_memory e !! _) as [l|] eqn:El; [|by apply elem_of_nil in Eg].
    pose proof (eo_memory _ He _ _ El) as HF. rewrite Forall_forall in HF. by apply HF. }
  destruct (en_slave e) as [slave|].
  - destruct (lookupRouteFromReadOnlyCache _ _) as [[entry|]|]; [apply Hproj|done..].
  - destruct (en_repo e) as [repo|]; [|done]. destruct (repo _) as [[entry|]|]; [apply Hproj|done..].
Qed.

(** ** Histories of the engine *)

Inductive engine_op :=
  | Serve (r : Request)
  | Refresh (hostname : string)
  | ClearAll
  | ClusterEvent (ev : bridge_event)
  | Bind (l : cluster_lists)
  | UseSlave (slave : ReplicaReader)
  | UseRepository (repo : RouteLookupReader).

Definition engine_step (url_Parse : string -> bool) (e : Engine) (op : engine_op) : Engine :=
  match op with
  | Serve r => (serveHTTP url_Parse r e).1
  | Refresh hostname => RefreshHost hostname e
  | ClearAll => (RefreshAll (V:=()) (e, None)).1
  | ClusterEvent ev =>
      match en_k8sBridge e with Some b => with_bridge (apply_event b ev) e | None => e end
  | Bind l => (BindContext l e).1
  | UseSlave slave => InjectSlave slave e
  | UseRepository repo => InjectRepository repo e
  end.

Lemma serveHTTP_ok url_Parse r e : engine_ok e -> engine_ok (serveHTTP url_Parse r e).1.
Proof.
  intros He. unfold serveHTTP. destruct (_ && _); [exact He|].
  assert (forall e' (res : result RouteResult), engine_ok e' ->
    engine_ok (match res with
     | Err err => (e', StatusInternalServerError err)
     | Ok None => (e', StatusNotFound)
     | Ok (Some target) =>
         if negb (url_Parse (pt_UpstreamURL target))
         then (e', StatusInternalServerError (errors_New "invalid upstream url"))
         else let '(path, rawPath) := rewriteUpstreamPath (pt_PathPrefix target) (rq_Path r) (rq_RawPath r) in
              (e', Proxy (pt_UpstreamURL target) path rawPath (rq_RawQuery r))
     end).1) as Hreply.
  { intros e' [[t|]|err] H; [|exact H..]. destruct (negb _); [exact H|].
    destruct (rewriteUpstreamPath _ _ _). exact H. }
  destruct (EqualFold (rq_ForwardedProto r) "https").
  - pose proof (routeByKind_ok (rq_Host r) (rq_Path r) RouteKindHTTPS (or_intror eq_refl) e He) as Hr.
    unfold RouteHTTPS. destruct (routeByKind _ _ _ e) as [e' res]. exact (Hreply e' res Hr).
  - pose proof (routeByKind_ok (rq_Host r) (rq_Path r) RouteKindHTTP (or_introl eq_refl) e He) as Hr.
    unfold Route. destruct (routeByKind _ _ _ e) as [e' res]. exact (Hreply e' res Hr).
Qed.

Lemma engine_step_ok url_Parse e op : engine_ok e -> engine_ok (engine_step url_Parse e op).
Proof.
  intros He. pose proof He as [Hm Ht]. destruct op as [r|h| |ev|l|s|rp]; cbn [engine_step].
  - by apply serveHTTP_ok.
  - split; [|exact Ht]. intros k l. cbn. unfold Delete. rewrite lookup_delete_Some. intros [_ ?]. by eapply Hm.
  - split; [|exact Ht]. intros k l. cbn. unfold Clear. by rewrite lookup_empty.
  - destruct (en_k8sBridge e) as [b|] eqn:Eb; [|done]. split; [done|]. intros b' [= <-].
    by apply event_http, Ht.
  - unfold BindContext. destruct (en_k8sBridge e) as [b|] eqn:Eb; [|done]. destruct (en_k8sLoaded e); [done|].
    pose proof (load_http l b (Ht b eq_refl)) as Hl. destruct (LoadInitial l b) as [b' [[]|err]];
      (split; [done|by intros b'' [= <-]]).
  - by split.
  - by split.
Qed.

Lemma new_engine_ok opts has in_cluster e : NewEngine opts has in_cluster = Ok e -> engine_ok e.
Proof.
  assert (http_memory ∅) as Hempty by (intros k l; by rewrite lookup_empty).
  assert (forall class, http_tables (NewK8sBridgeWithClients class)) as Hnew.
  { intros class host r [H|H]; cbn in H; rewrite lookup_empty in H; by apply elem_of_nil in H. }
  unfold NewEngine. destruct (_ && _); [discriminate|]. destruct (_ && _); [discriminate|].
  destruct (op_K8sEnabled opts).
  - destruct in_cluster; [discriminate|]. intros [= <-]. split; [exact Hempty|]. intros b Hb.
    apply (inj Some) in Hb as <-. apply Hnew.
  - intros [= <-]. split; [exact Hempty|]. intros b [=].
Qed.

Lemma memory_no_tls serverName kind e :
  engine_ok e -> kind <> RouteKindHTTP -> resolveMemoryBackend serverName kind e = None.
Proof.
  intros [Hm _] Hk. unfold resolveMemoryBackend, GetByProtocol, selectLocked. rewrite foldl_guarded, filter_discard; [done|].
  destruct (en_memory e !! _) as [l|] eqn:El; [|constructor]. specialize (Hm _ _ El).
  eapply Forall_impl; [exact Hm|]. intros b Hb. cbn.
  rewrite Hb, bool_decide_eq_true. intros Hin%list_elem_of_singleton. by apply Hk.
Qed.

(** What is done with a connection whose client hello names a host. *)
Definition tls_dispatch_spec (e : Engine) (handshake : string -> bool) (serverName : string) : conn_action :=
  if bool_decide (serverName = "") then CloseConn
  else
    match en_k8sBridge e ≫= ResolveTLSPassthrough serverName with
    | Some b => PassThrough (bb_Address (kr_Binding b)) (bb_Port (kr_Binding b))
    | None =>
        if handshake serverName then
          match en_k8sBridge e ≫= ResolveTLS serverName with
          | Some b => ProxyPlain (bb_Address (kr_Binding b)) (bb_Port (kr_Binding b))
          | None => ServeHTTPS serverName
          end
        else CloseConn
    end.
End runs.

(** C20. In every history of an engine: no bytes a client sends make reading
    its server name panic; a client hello that names a host and fits the buffer is
    passed through, decrypted for a TLS route, or served as HTTPS under that name
    with that name's certificate, as the cluster's TLS routes alone decide (nothing
    remembered from HTTP requests does); a longer one is refused. *)
Theorem tls_dispatch {UN : Unstructured} {MR : MapRange} opts has in_cluster e0 url_Parse ops :
  NewEngine opts has in_cluster = Ok e0 ->
  let e := foldl (engine_step url_Parse) e0 ops in
  (forall input handshake, bytes_ok input -> serveConn input handshake e <> CloseOnPanic) /\
  (forall h name rest handshake,
     hello_ok h -> names_host h name -> flen (enc_hello h) < 65541 ->
     serveConn (enc_hello h ++ rest) handshake e =
       if bool_decide (flen (enc_hello h) <= peek_buffer)
       then tls_dispatch_spec e handshake (normalizeHost name) else CloseConn).
Proof.
  intros Hnew. cbn zeta. assert (engine_ok (foldl (engine_step url_Parse) e0 ops)) as Hok.
  { apply new_engine_ok in Hnew. revert e0 Hnew. induction ops as [|op ops IH]; intros e0 H; cbn; [done|].
    by apply IH, engine_step_ok. }
  revert Hok. generalize (foldl (engine_step url_Parse) e0 ops) as e. intros e Hok. split.
  - intros input handshake Hin. unfold serveConn. pose proof (peek_never_panics input Hin) as Hp.
    destruct (PeekServerName input); [|done|done]. cbn zeta. case_bool_decide; [done|].
    destruct (resolveTLSPassthroughBackend _ _); [done|]. destruct (negb _); [done|].
    by destruct (resolveTLSRouteBackend _ _).
  - intros h name rest handshake Hh Hn Hsz. unfold serveConn. rewrite (peek_server_name h name rest) by done.
    case_bool_decide; [|done]. unfold tls_dispatch_spec. cbn zeta. case_bool_decide as Hne; [done|].
    assert (resolveTLSPassthroughBackend (normalizeHost name) e =
      en_k8sBridge e ≫= ResolveTLSPassthrough (normalizeHost name)) as ->.
    { unfold resolveTLSPassthroughBackend. rewrite memory_no_tls by done.
      destruct (en_k8sBridge e); cbn; [|done]. by destruct (ResolveTLSPassthrough _ _). }
    assert (resolveTLSRouteBackend (normalizeHost name) e =
      en_k8sBridge e ≫= ResolveTLS (normalizeHost name)) as ->.
    { unfold resolveTLSRouteBackend. rewrite memory_no_tls by done. by destruct (_ ≫= _). }
    assert (certificate_name (normalizeHost name) name = normalizeHost name) as ->.
    { unfold certificate_name. cbn zeta. by rewrite bool_decide_eq_false_2. }
    destruct (_ ≫= ResolveTLSPassthrough _); [done|]. by destruct (handshake _).
Qed.

(** ** Concrete runs *)

Module EngineRun.

#[local] Existing Instance tree_objects.
#[local] Existing Instance canonical_range.

Definition svc (name : string) : ServiceBackendRef :=
  mkServiceBackendRef (mkShared false zero_time zero_time) name "svc" "" "prod" name 8080.

Definition entry : DomainEntryProjection :=
  mkDomainEntryProjection "shop.example.com" false false None "l7-http"
    [mkHTTPRouteProjection "r1" "/" 0 (Some (svc "front"));
     mkHTTPRouteProjection "r2" "/api" 0 (Some (svc "api"))] None.

Definition reader : RouteLookupReader := fun h =>
  Ok (if bool_decide (h = "shop.example.com") then Some entry else None).

Definition opts (k8s : bool) : EngineOptions := mkEngineOptions ":80" ":443" k8s "luna" "".

Definition start : Engine := mkEngine (opts false) None (Some (Some reader)) None false newMemoryStore.

Definition api_target : ProxyTarget :=
  mkProxyTarget "shop.example.com" 0 "http://api.prod.svc.cluster.local:8080" "http" "/api".


Lemma tls_dispatch_witness :
  serveConn (enc_hello sample_hello) (fun _ => true)
    (foldl (engine_step (fun _ => true)) (mkEngine (opts false) None None None false newMemoryStore)
       [UseSlave (Some reader); Serve (mkRequest "shop.example.com" "/" "" "" "")]) =
  ServeHTTPS "www.example.com".
Proof.
  destruct (tls_dispatch (opts false) true None (mkEngine (opts false) None None None false newMemoryStore)
    (fun _ => true) [UseSlave (Some reader); Serve (mkRequest "shop.example.com" "/" "" "" "")]) as [_ H];
    [vm_compute; reflexivity|].
  specialize (H sample_hello "www.example.com" [] (fun _ => true)). rewrite app_nil_r in H. rewrite H.
  - vm_compute. reflexivity.
  - split; by vm_compute.
  - exists [(10, vec16 [0; 29])], [(23, [])]. split; [reflexivity|].
    apply Forall_singleton. cbn. split; [lia|by vm_compute].
  - by vm_compute.
Defined.

End EngineRun.
