(* ===== verification/Conns.v ===== *)
(** * Connections and client addresses: ingress/engine_tls.go, engine_http.go,
      dns/geoip.go

    Copying a connection to its upstream, with the two goroutines and what each
    of them closes; the listener with one connection; the middlewares; and the
    address of a client. *)

From Stdlib Require Import Ascii.
From S2P Require Import Prelude GoStrings GoNet SlaveEngine.

Open Scope Z_scope.

(** ** Addresses *)

(** The position of the last colon, and of a byte. *)
Definition index_byte (c : ascii) (l : list ascii) : option nat := fst <$> list_find (fun x => x = c) l.
Definition last_index (c : ascii) (l : list ascii) : option nat :=
  (fun i => (length l - 1 - i)%nat) <$> index_byte c (reverse l).

(** [net.SplitHostPort]: the host and the port. *)
Definition SplitHostPort (hostport : string) : option (string * string) :=
  let l := bytes hostport in
  i ← last_index ":"%char l;
  let rest (host : list ascii) (j k : nat) :=
    if bool_decide ("["%char ∈ drop j l) || bool_decide ("]"%char ∈ drop k l) then None
    else Some (of_bytes host, of_bytes (drop (S i) l)) in
  match l with
  | "["%char :: _ =>
      end_ ← index_byte "]"%char l;
      if bool_decide (S end_ = i) then rest (take (end_ - 1) (drop 1 l)) 1%nat (S end_) else None
  | _ => if bool_decide (":"%char ∈ take i l) then None else rest (take i l) O O
  end.

(** [net.JoinHostPort] *)
Definition JoinHostPort (host port : string) : string :=
  if bool_decide (":"%char ∈ bytes host) then "[" +:+ host +:+ "]:" +:+ port else host +:+ ":" +:+ port.

(** engine_tls.go: [addr.String()], when there is an address *)
Definition ingressRemoteIP (addr : option string) : string :=
  match addr with
  | None => ""
  | Some addr =>
      match SplitHostPort (TrimSpace addr) with
      | Some (host, _) => host
      | None => TrimSpace addr
      end
  end.

(** engine_http.go: given the two headers and the address of the request *)
Definition ingressClientIP (forwardedFor realIP remoteAddr : string) : string :=
  if bool_decide (TrimSpace forwardedFor <> "")
  then TrimSpace (default "" (head (Split (TrimSpace forwardedFor) ","%char)))
  else if bool_decide (TrimSpace realIP <> "") then TrimSpace realIP
  else match SplitHostPort (TrimSpace remoteAddr) with
       | Some (host, _) => host
       | None => TrimSpace remoteAddr
       end.

(** dns/geoip.go: an address of a UDP or TCP socket, or another one *)
Inductive net_addr := SocketAddr (ip : option IP) | OtherAddr (text : string).

Definition remoteAddrIP (addr : option net_addr) : option IP :=
  match addr with
  | None => None
  | Some (SocketAddr ip) => ip
  | Some (OtherAddr text) =>
      match SplitHostPort text with
      | None => ParseIP text
      | Some (host, _) => ParseIP host
      end
  end.

(** ** Handlers *)

(** [NewHTTPHandler]: the loop over the middlewares, from the last. *)
Definition NewHTTPHandler {H} (serveHTTP : H) (middlewares : list (H -> H)) : H :=
  foldl (fun handler m => m handler) serveHTTP (reverse middlewares).

(** The listener of one connection; [sl_conn] is the one not accepted yet. *)
Record singleConnListener (C : Type) := mkSingle { sl_conn : option C; sl_closed : bool }.
Arguments mkSingle {C}.
Arguments sl_conn {C}.
Arguments sl_closed {C}.

Definition Accept {C} : go (singleConnListener C) C := fun l =>
  if sl_closed l then (l, Err EOF)
  else match sl_conn l with
       | None => (l, Err EOF)
       | Some conn => (mkSingle None (sl_closed l), Ok conn)
       end.

(** ** [proxyStream] *)

(** The client's connection and the one to the upstream. *)
Inductive side := Client | Upstream.

#[export] Instance side_eq_dec : EqDecision side.
Proof. solve_decision. Defined.

Definition opposite (d : side) : side := match d with Client => Upstream | Upstream => Client end.

(** A connection: what its peer has sent, how much of that was read, whether the
    peer has finished, what was written to the peer, whether it was closed here,
    and whether it failed. *)
Record conn := mkConn {
  c_sent : list ascii;
  c_read : nat;
  c_fin : bool;
  c_out : list ascii;
  c_closed : bool;
  c_broken : bool;
}.

(** A goroutine of [copyConn]: inside [io.Copy], about to close the
    destination, about to close the reader, or finished. *)
Inductive copier := Copying | CloseDst | CloseReader | Done.

Record stream := mkStream {
  st_client : conn;
  st_upstream : conn;
  st_up : copier;       (* reads the client, writes the upstream *)
  st_down : copier;
}.

Definition the_conn (s : stream) (d : side) : conn :=
  match d with Client => st_client s | Upstream => st_upstream s end.
(** The goroutine that reads the connection. *)
Definition reader_of (s : stream) (d : side) : copier :=
  match d with Client => st_up s | Upstream => st_down s end.

Definition set_conn (d : side) (c : conn) (s : stream) : stream :=
  match d with
  | Client => mkStream c (st_upstream s) (st_up s) (st_down s)
  | Upstream => mkStream (st_client s) c (st_up s) (st_down s)
  end.
Definition set_reader (d : side) (k : copier) (s : stream) : stream :=
  match d with
  | Client => mkStream (st_client s) (st_upstream s) k (st_down s)
  | Upstream => mkStream (st_client s) (st_upstream s) (st_up s) k
  end.

Definition close (c : conn) : conn := mkConn (c_sent c) (c_read c) (c_fin c) (c_out c) true (c_broken c).
Definition take_bytes (n : nat) (c : conn) : conn :=
  mkConn (c_sent c) (c_read c + n) (c_fin c) (c_out c) (c_closed c) (c_broken c).
Definition put_bytes (l : list ascii) (c : conn) : conn :=
  mkConn (c_sent c) (c_read c) (c_fin c) (c_out c ++ l) (c_closed c) (c_broken c).
Definition usable (c : conn) : Prop := c_closed c = false /\ c_broken c = false.
Definition unread (c : conn) : list ascii := drop (c_read c) (c_sent c).

(** [proxyStream] up to the start of its goroutines: the connections when the
    upstream answers, else the client's, closed. *)
Definition proxyStream (dial : string -> result conn) (src : conn) (host : string) (port : Z)
    : result stream * conn :=
  match dial (JoinHostPort host (Itoa port)) with
  | Err e => (Err e, close src)
  | Ok target => (Ok (mkStream src target Copying Copying), src)
  end.

(** What the peers and the goroutines do. *)
Inductive stream_step : stream -> stream -> Prop :=
  (** a peer sends, finishes, or its connection fails *)
  | peer_sends s d l :
      c_fin (the_conn s d) = false ->
      stream_step s (set_conn d (let c := the_conn s d in
        mkConn (c_sent c ++ l) (c_read c) (c_fin c) (c_out c) (c_closed c) (c_broken c)) s)
  | peer_finishes s d :
      stream_step s (set_conn d (let c := the_conn s d in
        mkConn (c_sent c) (c_read c) true (c_out c) (c_closed c) (c_broken c)) s)
  | peer_breaks s d :
      stream_step s (set_conn d (let c := the_conn s d in
        mkConn (c_sent c) (c_read c) (c_fin c) (c_out c) (c_closed c) true) s)
  (** a goroutine copies what it reads, all of it *)
  | copy s d n :
      reader_of s d = Copying -> usable (the_conn s d) -> usable (the_conn s (opposite d)) ->
      (0 < n <= length (unread (the_conn s d)))%nat ->
      stream_step s
        (set_conn (opposite d) (put_bytes (take n (unread (the_conn s d))) (the_conn s (opposite d)))
           (set_conn d (take_bytes n (the_conn s d)) s))
  (** or a part, the rest of what it read being lost *)
  | copy_fails s d n m :
      reader_of s d = Copying -> usable (the_conn s d) -> ~ usable (the_conn s (opposite d)) ->
      (0 < n <= length (unread (the_conn s d)))%nat -> (m <= n)%nat -> (c_closed (the_conn s (opposite d)) = true -> m = 0%nat) ->
      stream_step s
        (set_reader d CloseDst
          (set_conn (opposite d) (put_bytes (take m (unread (the_conn s d))) (the_conn s (opposite d)))
             (set_conn d (take_bytes n (the_conn s d)) s)))
  (** or comes to the end of what there is to read *)
  | copy_ends s d :
      reader_of s d = Copying ->
      (c_fin (the_conn s d) = true /\ unread (the_conn s d) = [] \/ ~ usable (the_conn s d)) ->
      stream_step s (set_reader d CloseDst s)
  | closes_dst s d :
      reader_of s d = CloseDst ->
      stream_step s (set_reader d CloseReader (set_conn (opposite d) (close (the_conn s (opposite d))) s))
  | closes_reader s d :
      reader_of s d = CloseReader ->
      stream_step s (set_reader d Done (set_conn d (close (the_conn s d)) s)).

(** ** Properties *)

Lemma accept_none {C} n :
  Nat.iter n (fun l => (Accept l).1) (@mkSingle C None false) = mkSingle None false.
Proof. induction n as [|n IH]; [done|]. by rewrite Nat.iter_succ, IH. Qed.

(** The connection is accepted once, and then there is none. *)
Lemma accept_once {C} (conn : C) n :
  let l := mkSingle (Some conn) false in
  (Accept l).2 = Ok conn /\ (Accept (Nat.iter n (fun l => (Accept l).1) (Accept l).1)).2 = Err EOF.
Proof. cbn zeta. split; [done|]. change (Accept (mkSingle (Some conn) false)).1 with (@mkSingle C None false). by rewrite accept_none. Qed.

(** The first middleware sees a request first. *)
Lemma middlewares_in_order {H} (h : H) m ms : NewHTTPHandler h (m :: ms) = m (NewHTTPHandler h ms).
Proof. unfold NewHTTPHandler. by rewrite reverse_cons, foldl_app. Qed.

(** The goroutine that reads [d] and the connections it works on. *)
Record copy_inv (s : stream) (d : side) : Prop := {
  ci_read : (c_read (the_conn s d) <= length (c_sent (the_conn s d)))%nat;
  ci_out : exists k, (k <= c_read (the_conn s d))%nat /\
    c_out (the_conn s (opposite d)) = take k (c_sent (the_conn s d)) /\
    (reader_of s d = Copying -> k = c_read (the_conn s d));
  ci_dst : reader_of s d = CloseReader \/ reader_of s d = Done -> c_closed (the_conn s (opposite d)) = true;
  ci_reader : reader_of s d = Done -> c_closed (the_conn s d) = true;
}.

Definition stream_inv (s : stream) : Prop := forall d, copy_inv s d.

Lemma copy_inv_same s s' d :
  the_conn s' d = the_conn s d -> c_out (the_conn s' (opposite d)) = c_out (the_conn s (opposite d)) ->
  c_closed (the_conn s' (opposite d)) = c_closed (the_conn s (opposite d)) -> reader_of s' d = reader_of s d ->
  copy_inv s d -> copy_inv s' d.
Proof. intros E1 E2 E3 E4 [H1 H2 H3 H4]. constructor; rewrite ?E1, ?E2, ?E3, ?E4; done. Qed.

(** What another step of the same connections leaves of the invariant: the
    peer's bytes and its end, a failure, a close. *)
Lemma copy_inv_grows s s' d l :
  c_sent (the_conn s' d) = c_sent (the_conn s d) ++ l -> c_read (the_conn s' d) = c_read (the_conn s d) ->
  c_out (the_conn s' (opposite d)) = c_out (the_conn s (opposite d)) ->
  (c_closed (the_conn s d) = true -> c_closed (the_conn s' d) = true) ->
  (c_closed (the_conn s (opposite d)) = true -> c_closed (the_conn s' (opposite d)) = true) ->
  reader_of s' d = reader_of s d ->
  copy_inv s d -> copy_inv s' d.
Proof.
  intros E1 E2 E3 C1 C2 E4 [H1 (k & Hk & Ho & Hc) H3 H4]. constructor; rewrite ?E1, ?E2, ?E3, ?E4; auto.
  - rewrite length_app. lia.
  - exists k. split_and!; [done| |done]. rewrite take_app_le; [done|lia].
Qed.

Lemma copy_inv_copied s s' d n m :
  c_sent (the_conn s' d) = c_sent (the_conn s d) -> c_read (the_conn s' d) = (c_read (the_conn s d) + n)%nat ->
  c_out (the_conn s' (opposite d)) = c_out (the_conn s (opposite d)) ++ take m (unread (the_conn s d)) ->
  reader_of s d = Copying -> (n <= length (unread (the_conn s d)))%nat -> (m <= n)%nat ->
  reader_of s' d = Copying /\ m = n \/ reader_of s' d = CloseDst ->
  copy_inv s d -> copy_inv s' d.
Proof.
  intros E1 E2 E3 Hc Hn Hm Hr [H1 (k & Hk & Ho & Heq) _ _]. specialize (Heq Hc). subst k.
  unfold unread in *. rewrite length_drop in Hn.
  constructor; rewrite ?E1, ?E2, ?E3; [lia| |destruct Hr as [[-> _]| ->]; naive_solver..].
  exists (c_read (the_conn s d) + m)%nat. split_and!; [lia|by rewrite Ho, take_take_drop|].
  destruct Hr as [[_ ->]| ->]; done.
Qed.

Lemma copy_inv_moved s s' d :
  the_conn s' d = the_conn s d \/ the_conn s' d = close (the_conn s d) ->
  the_conn s' (opposite d) = the_conn s (opposite d) \/ the_conn s' (opposite d) = close (the_conn s (opposite d)) ->
  reader_of s' d <> Copying ->
  (reader_of s' d = CloseReader \/ reader_of s' d = Done -> c_closed (the_conn s' (opposite d)) = true) ->
  (reader_of s' d = Done -> c_closed (the_conn s' d) = true) ->
  copy_inv s d -> copy_inv s' d.
Proof.
  intros E1 E2 Hr C1 C2 [H1 (k & Hk & Ho & _) _ _].
  assert (c_sent (the_conn s' d) = c_sent (the_conn s d) /\ c_read (the_conn s' d) = c_read (the_conn s d)) as [S1 R1]
    by (by destruct E1 as [->| ->]).
  assert (c_out (the_conn s' (opposite d)) = c_out (the_conn s (opposite d))) as O1 by (by destruct E2 as [->| ->]).
  constructor; rewrite ?S1, ?R1, ?O1; [done|exists k; naive_solver|done|done].
Qed.

Lemma stream_inv_step s s' : stream_inv s -> stream_step s s' -> stream_inv s'.
Proof.
  intros Hinv Hs d'. pose proof (Hinv d') as Hd.
  destruct Hs as [s d l Hf|s d|s d|s d n Hc Hu1 Hu2 Hn|s d n m Hc Hu1 Hu2 Hn Hm Hz|s d Hc He|s d Hc|s d Hc].
  1: by apply (copy_inv_grows s _ d' (if bool_decide (d = d') then l else [])); try done; destruct d, d'; cbn; rewrite ?app_nil_r.
  1-2: by apply (copy_inv_grows s _ d' []); try done; destruct d, d'; cbn; rewrite ?app_nil_r.
  1-5: destruct (decide (d' = d)) as [->|Hne];
    [|apply (copy_inv_grows s _ d' []); try done; destruct d, d'; cbn; rewrite ?app_nil_r; done].
  - apply (copy_inv_copied s _ d n n); try done; try lia; destruct d; cbn in *; auto.
  - apply (copy_inv_copied s _ d n m); try done; try lia; destruct d; cbn in *; auto.
  - apply (copy_inv_moved s _ d); try done; destruct d; cbn in *; auto; naive_solver.
  - apply (copy_inv_moved s _ d); try done; destruct d; cbn in *; auto; naive_solver.
  - apply (copy_inv_moved s _ d); try done; destruct d; cbn in *; auto; try naive_solver; intros _;
      apply (ci_dst _ _ Hd); auto.
Qed.

(** Two connections that were just made. *)
Definition new_conn (c : conn) : Prop := c_read c = 0%nat /\ c_out c = [] /\ c_closed c = false.

Lemma stream_inv_new src target :
  new_conn src -> new_conn target -> stream_inv (mkStream src target Copying Copying).
Proof.
  intros (R1 & O1 & _) (R2 & O2 & _) []; constructor; cbn; try naive_solver; try lia; exists 0%nat; cbn;
    rewrite ?R1, ?R2, ?O1, ?O2; split_and!; auto; lia.
Qed.

(** Once a direction is over nothing is copied any more. *)
Lemma done_stops s s' d :
  stream_inv s -> reader_of s d = Done -> stream_step s s' ->
  reader_of s' d = Done /\ forall d', c_out (the_conn s' d') = c_out (the_conn s d').
Proof.
  intros Hinv Hd Hs. pose proof (ci_dst _ _ (Hinv d) (or_intror Hd)) as C1. pose proof (ci_reader _ _ (Hinv d) Hd) as C2.
  assert (forall d', c_closed (the_conn s d') = true) as Hcl by (intros d'; destruct d, d'; done).
  destruct Hs as [s e l Hf|s e|s e|s e n Hc [Hu _] Hu2 Hn|s e n m Hc [Hu _] Hu2 Hn Hm Hz|s e Hc He|s e Hc|s e Hc].
  4-5: by rewrite Hcl in Hu.
  all: destruct d, e; cbn in *; try congruence; split; try done; by intros [].
Qed.

#[export] Instance usable_dec c : Decision (usable c).
Proof. unfold usable. apply _. Defined.

(** How far a goroutine is from its end. *)
Definition stages_left (k : copier) : nat :=
  match k with Copying => 3 | CloseDst => 2 | CloseReader => 1 | Done => 0 end.

(** A goroutine waits for its peer to send or to finish. *)
Definition waits (s : stream) (d : side) : Prop :=
  reader_of s d = Copying /\ usable (the_conn s d) /\ c_fin (the_conn s d) = false /\ unread (the_conn s d) = [].

Lemma copier_progress s d :
  reader_of s d <> Done ->
  waits s d \/
  exists s', stream_step s s' /\
    ((stages_left (reader_of s' d) < stages_left (reader_of s d))%nat \/
     (c_read (the_conn s d) < c_read (the_conn s' d))%nat).
Proof.
  intros Hd. destruct (reader_of s d) eqn:Hr; [| | |done].
  - destruct (decide (usable (the_conn s d))) as [Hu|Hu].
    2: { right. eexists. split; [apply copy_ends; [done|by right]|]. left. destruct d; cbn; lia. }
    destruct (unread (the_conn s d)) as [|b l] eqn:Hl.
    { destruct (c_fin (the_conn s d)) eqn:Hf; [|by left].
      right. eexists. split; [apply copy_ends; [done|by left]|]. left. destruct d; cbn; lia. }
    right. assert (0 < length (unread (the_conn s d)) <= length (unread (the_conn s d)))%nat as Hn by (rewrite Hl; cbn; lia).
    destruct (decide (usable (the_conn s (opposite d)))) as [Hu2|Hu2].
    + eexists. split; [by apply (copy s d (length (unread (the_conn s d))))|]. right. destruct d; cbn in *; lia.
    + eexists. split; [apply (copy_fails s d (length (unread (the_conn s d))) 0); try done; lia|].
      right. destruct d; cbn in *; lia.
  - right. eexists. split; [by apply closes_dst|]. left. destruct d; cbn; lia.
  - right. eexists. split; [by apply closes_reader|]. left. destruct d; cbn; lia.
Qed.


(** ** A concrete connection *)

Module ConnRun.

Definition idle : conn := mkConn [] 0 false [] false false.
Definition dial (addr : string) : result conn := if bool_decide (addr = "10.0.0.9:8443") then Ok idle else Err EOF.
Definition request : list ascii := bytes "GET".
Definition response : list ascii := bytes "OK".

(** The client has asked and finished; the upstream has answered. *)
Definition asked : conn := mkConn request 3 true [] false false.
Definition answered : conn := mkConn response 0 false request false false.
Definition exchanged : stream := mkStream asked answered Copying Copying.

Lemma exchange : rtc stream_step (mkStream idle idle Copying Copying) exchanged.
Proof.
  eapply rtc_l; [apply (peer_sends _ Client request); done|].
  eapply rtc_l; [apply (copy _ Client 3); [done|split; done|split; done|cbn; lia]|].
  eapply rtc_l; [apply (peer_sends _ Upstream response); done|].
  eapply rtc_l; [apply (peer_finishes _ Client)|]. apply rtc_refl.
Qed.


(** A client that finishes sending loses the answer: the goroutine that copied
    the request closes both connections. *)
Lemma half_close_truncates :
  exists s, rtc stream_step exchanged s /\ st_up s = Done /\ st_down s = Done /\
    c_sent (st_upstream s) = response /\ c_out (st_client s) = [].
Proof.
  eexists. split.
  - eapply rtc_l; [apply (copy_ends _ Client); [done|by left]|].
    eapply rtc_l; [apply (closes_dst _ Client); done|].
    eapply rtc_l; [apply (closes_reader _ Client); done|].
    eapply rtc_l; [apply (copy_ends _ Upstream); [done|right; by intros []]|].
    eapply rtc_l; [apply (closes_dst _ Upstream); done|].
    eapply rtc_l; [apply (closes_reader _ Upstream); done|]. apply rtc_refl.
  - done.
Qed.

End ConnRun.

Example split_forms :
  SplitHostPort "10.0.0.1:53" = Some ("10.0.0.1", "53") /\ SplitHostPort "[::1]:53" = Some ("::1", "53") /\
  SplitHostPort "::1:53" = None /\ SplitHostPort "host" = None /\ ingressClientIP " 1.2.3.4 , 5.6.7.8" "" "" = "1.2.3.4".
Proof. by vm_compute. Qed.
