(* ===== verification/Plan.v ===== *)
(** * Change plans: lnctl/builder.go

    A builder collects what exists for a host and what is wanted, and [Build]
    computes the creations, updates and deletions that lead from one to the
    other.  The three slice differences of the source have the same text up to
    the type of the rows; here they are one definition over the tables of the
    repository, instantiated three times. *)

From Stdlib Require Import Ascii.
From S2P Require Import Prelude GoStrings GoTime Metadata Repository.

Open Scope Z_scope.

(** ** Plans *)

Abbreviation PlanAction := string (only parsing).
Definition PlanActionCreate : PlanAction := "create".
Definition PlanActionUpdate : PlanAction := "update".
Definition PlanActionDelete : PlanAction := "delete".

(** [DNSRecordChange], [DomainEndpointChange], [ServiceBackendRefChange] and
    [HTTPRouteChange]. *)
Record Change (M : Type) := mkChange {
  ch_Action : PlanAction;
  ch_Current : option M;
  ch_Desired : option M;
}.
Arguments mkChange {M} _ _ _.
Arguments ch_Action {M} _.
Arguments ch_Current {M} _.
Arguments ch_Desired {M} _.

#[export] Instance Change_eq_dec {M} `{EqDecision M} : EqDecision (Change M).
Proof. solve_decision. Defined.

Record Plan := mkPlan {
  pl_Hostname : string;
  pl_DNSRecords : list (Change DNSRecord);
  pl_DomainEndpoints : list (Change DomainEndpoint);
  pl_ServiceBackendRefs : list (Change ServiceBackendRef);
  pl_HTTPRoutes : list (Change HTTPRoute);
}.

Record BackendTarget := mkBackendTarget {
  bt_Type : ServiceBackendType;
  bt_ArbitraryEndpoint : string;
  bt_ServiceNamespace : string;
  bt_ServiceName : string;
  bt_Port : Z;
}.

Record RouteSpec := mkRouteSpec { rs_Path : string; rs_Backend : BackendTarget }.

Record Builder := mkBuilder {
  b_hostname : string;
  b_existingProjection : option DomainEntryProjection;
  b_existingDNSRecords : list DNSRecord;
  b_desiredBackendType : BackendType;
  b_desiredNeedCert : bool;
  b_desiredL4Backend : option BackendTarget;
  b_desiredRoutes : list RouteSpec;
  b_desiredDNSRecords : list DNSRecord;
}.

(** ** Names and identifiers *)

Definition normalizeBuilderPath (path : string) : string :=
  let path := TrimSpace path in
  if bool_decide (path = "") || negb (HasPrefix path "/") then "/" else path.

(** The replacer of [sanitizeBuilderIDPart], which works byte by byte. *)
Definition replace_byte (c : ascii) : list ascii :=
  if bool_decide (c ∈ bytes "/.: ") then bytes "_"
  else if bool_decide (c = "*"%char) then bytes "wildcard"
  else [c].

Definition sanitizeBuilderIDPart (value : string) : string :=
  let value := TrimSpace (ToLower value) in
  let value := of_bytes (bytes value ≫= replace_byte) in
  let value := Trim value "_" in
  if bool_decide (value = "") then "root" else value.

Definition defaultDNSRecordID (record : DNSRecord) : string :=
  let parts := ["dns"; sanitizeBuilderIDPart (dr_FQDN record);
                sanitizeBuilderIDPart (dr_RecordType record)] in
  let parts := if bool_decide (TrimSpace (dr_RoutingKey record) = "") then parts
               else parts ++ [sanitizeBuilderIDPart (dr_RoutingKey record)] in
  Join parts ":".

Definition isL4BackendType (kind : BackendType) : bool :=
  bool_decide (kind = BackendTypeL4TLSPassthrough) ||
  bool_decide (kind = BackendTypeL4TLSTermination).

Definition isL7BackendType (kind : BackendType) : bool :=
  bool_decide (kind = BackendTypeL7HTTP) || bool_decide (kind = BackendTypeL7HTTPS) ||
  bool_decide (kind = BackendTypeL7HTTPBoth).

Definition backendRefID (b : Builder) (key : string) : string :=
  "backend:" +:+ b_hostname b +:+ ":" +:+ sanitizeBuilderIDPart key.

Definition routeID (b : Builder) (path : string) : string :=
  "route:" +:+ b_hostname b +:+ ":" +:+ sanitizeBuilderIDPart path.

(** ** Collecting what is wanted *)

Definition NewBuilder (hostname : string) : Builder :=
  mkBuilder (TrimSpace hostname) None [] "" false None [] [].

Definition WithExistingProjection (entry : option DomainEntryProjection) (b : Builder) : Builder :=
  mkBuilder (b_hostname b) entry (b_existingDNSRecords b) (b_desiredBackendType b)
    (b_desiredNeedCert b) (b_desiredL4Backend b) (b_desiredRoutes b) (b_desiredDNSRecords b).

Definition WithExistingDNSRecords (records : list DNSRecord) (b : Builder) : Builder :=
  mkBuilder (b_hostname b) (b_existingProjection b) records (b_desiredBackendType b)
    (b_desiredNeedCert b) (b_desiredL4Backend b) (b_desiredRoutes b) (b_desiredDNSRecords b).

(** What the [As...] methods share: the kind of the host, whether it needs a
    certificate, its backend, and its routes, which the L7 kinds keep. *)
Definition set_desired (kind : BackendType) (needCert : bool) (l4 : option BackendTarget)
    (routes : list RouteSpec) (b : Builder) : Builder :=
  mkBuilder (b_hostname b) (b_existingProjection b) (b_existingDNSRecords b) kind needCert l4
    routes (b_desiredDNSRecords b).

Definition AsL4TLSPassthrough (backend : BackendTarget) (b : Builder) : Builder :=
  set_desired BackendTypeL4TLSPassthrough false (Some backend) [] b.
Definition AsL4TLSTermination (backend : BackendTarget) (b : Builder) : Builder :=
  set_desired BackendTypeL4TLSTermination true (Some backend) [] b.
Definition AsL7HTTP (b : Builder) : Builder :=
  set_desired BackendTypeL7HTTP false None (b_desiredRoutes b) b.
Definition AsL7HTTPS (b : Builder) : Builder :=
  set_desired BackendTypeL7HTTPS true None (b_desiredRoutes b) b.
Definition AsL7HTTPBoth (b : Builder) : Builder :=
  set_desired BackendTypeL7HTTPBoth true None (b_desiredRoutes b) b.

Definition Route (path : string) (backend : BackendTarget) (b : Builder) : Builder :=
  set_desired (b_desiredBackendType b) (b_desiredNeedCert b) (b_desiredL4Backend b)
    (b_desiredRoutes b ++ [mkRouteSpec (normalizeBuilderPath path) backend]) b.

Definition WantDNS (record : DNSRecord) (b : Builder) : Builder :=
  mkBuilder (b_hostname b) (b_existingProjection b) (b_existingDNSRecords b)
    (b_desiredBackendType b) (b_desiredNeedCert b) (b_desiredL4Backend b) (b_desiredRoutes b)
    (b_desiredDNSRecords b ++ [record]).

(** ** The rows that are wanted *)

Definition buildDesiredDomainEndpoint (b : Builder) : DomainEndpoint :=
  mkDomainEndpoint zero_Shared (b_hostname b) (b_desiredNeedCert b) (b_desiredBackendType b)
    (match b_desiredL4Backend b with Some _ => backendRefID b "l4" | None => "" end).

Definition buildBackendRef (b : Builder) (key : string) (target : BackendTarget)
    : ServiceBackendRef :=
  let typ := if bool_decide (bt_Type target = "") then ServiceBackendTypeSVC else bt_Type target in
  mkServiceBackendRef zero_Shared (backendRefID b key) typ
    (TrimSpace (bt_ArbitraryEndpoint target)) (TrimSpace (bt_ServiceNamespace target))
    (TrimSpace (bt_ServiceName target)) (bt_Port target).

Definition desired_route (b : Builder) (hostname : string) (route : RouteSpec) : HTTPRoute :=
  mkHTTPRoute zero_Shared (routeID b (rs_Path route)) hostname (rs_Path route)
    (i32 (Z.of_nat (len (rs_Path route)))) (backendRefID b (rs_Path route)).

Definition buildDesiredL7Resources (b : Builder) (hostname : string)
    : list HTTPRoute * list ServiceBackendRef :=
  (desired_route b hostname <$> b_desiredRoutes b,
   (fun route => buildBackendRef b (rs_Path route) (rs_Backend route)) <$> b_desiredRoutes b).

Definition buildDesiredDNSRecords (b : Builder) : list DNSRecord :=
  (fun record => if bool_decide (TrimSpace (dr_ID record) = "")
                 then set_dr_ID record (defaultDNSRecordID record) else record)
  <$> b_desiredDNSRecords b.

(** ** The rows that exist *)

Definition currentBindedServiceID (entry : option DomainEntryProjection) : string :=
  match entry ≫= dp_BindedBackendRef with Some ref => sb_ID ref | None => "" end.

Definition currentDomainEndpoint (b : Builder) : option DomainEndpoint :=
  (fun p => mkDomainEndpoint (mkShared (dp_Deleted p) zero_time zero_time) (dp_Hostname p)
              (dp_NeedCert p) (dp_BackendType p) (currentBindedServiceID (Some p)))
  <$> b_existingProjection b.

Definition currentL4BackendRef (b : Builder) : option ServiceBackendRef :=
  b_existingProjection b ≫= dp_BindedBackendRef.

Definition currentHTTPRoutes (b : Builder) : list HTTPRoute :=
  match b_existingProjection b with
  | None => []
  | Some p =>
      (fun route => mkHTTPRoute zero_Shared (rp_ID route) (dp_Hostname p) (rp_Path route)
         (rp_Priority route)
         (match rp_BackendRef route with Some ref => sb_ID ref | None => "" end))
      <$> dp_HTTPRoutes p
  end.

(** ** Differences *)

(** [map[item.ID] = item] over a slice: the last item of an identifier wins. *)
Definition by_id {M} `{!Resource M} (items : list M) : gmap string M :=
  foldl (fun m item => <[res_key item := item]> m) ∅ items.

(** [sort.Slice] by an identifier. *)
Definition sort_by {A} (key : A -> string) (l : list A) : list A :=
  merge_sort (fun x y => String.le (key x) (key y)) l.

Section diff.
Context {MR : MapRange}.

(** The loop of [currentL7BackendRefs] that collects the backends by id. *)
Definition see_backend (seen : gmap string ServiceBackendRef) (route : HTTPRouteProjection)
    : gmap string ServiceBackendRef :=
  match rp_BackendRef route with
  | None => seen
  | Some ref => if bool_decide (sb_ID ref = "") then seen else <[sb_ID ref := ref]> seen
  end.

Definition currentL7BackendRefs (b : Builder) : list ServiceBackendRef :=
  match b_existingProjection b with
  | None => []
  | Some p => sort_by sb_ID ((range (foldl see_backend ∅ (dp_HTTPRoutes p))).*2)
  end.

Context {M : Type} `{!Resource M, !EqDecision M}.

(** [serviceBackendRefChangeID], [httpRouteChangeID], [dnsRecordChangeID] *)
Definition change_id (change : Change M) : string :=
  match ch_Desired change, ch_Current change with
  | Some d, _ => res_key d
  | None, Some c => res_key c
  | None, None => ""
  end.

(** [diffDomainEndpoint], [diffServiceBackendRef].  [reflect.DeepEqual] on
    rows whose times are in UTC is equality. *)
Definition diff_one (current desired : option M) : list (Change M) :=
  match current, desired with
  | None, None => []
  | None, Some d => [mkChange PlanActionCreate None (Some d)]
  | Some c, None => [mkChange PlanActionDelete (Some c) None]
  | Some c, Some d => if bool_decide (c = d) then []
                      else [mkChange PlanActionUpdate (Some c) (Some d)]
  end.

(** The body of the first loop, over the wanted rows. *)
Definition wanted_change (currentMap : gmap string M) (id : string) (item : M) : list (Change M) :=
  match currentMap !! id with
  | None => [mkChange PlanActionCreate None (Some item)]
  | Some currentItem => if bool_decide (currentItem = item) then []
                        else [mkChange PlanActionUpdate (Some currentItem) (Some item)]
  end.

(** The body of the second loop, over the rows that exist. *)
Definition surplus_change (desiredMap : gmap string M) (id : string) (item : M) : list (Change M) :=
  match desiredMap !! id with
  | Some _ => []
  | None => [mkChange PlanActionDelete (Some item) None]
  end.

Definition diff_many (current desired : list M) : list (Change M) :=
  let currentMap := by_id current in
  let desiredMap := by_id desired in
  let out := (range desiredMap ≫= fun kv => wanted_change currentMap kv.1 kv.2) ++
             (range currentMap ≫= fun kv => surplus_change desiredMap kv.1 kv.2) in
  sort_by change_id out.

End diff.

Section build.
Context {MR : MapRange}.

Definition diffDomainEndpoint : option DomainEndpoint -> option DomainEndpoint ->
  list (Change DomainEndpoint) := diff_one.
Definition diffServiceBackendRef : option ServiceBackendRef -> option ServiceBackendRef ->
  list (Change ServiceBackendRef) := diff_one.
Definition diffServiceBackendRefs : list ServiceBackendRef -> list ServiceBackendRef ->
  list (Change ServiceBackendRef) := diff_many.
Definition diffHTTPRoutes : list HTTPRoute -> list HTTPRoute -> list (Change HTTPRoute) := diff_many.
Definition diffDNSRecords : list DNSRecord -> list DNSRecord -> list (Change DNSRecord) := diff_many.

(** The changes of backends and routes for an L4 host and for an L7 host. *)
Definition l4_changes (b : Builder) (backend : BackendTarget)
    : list (Change ServiceBackendRef) * list (Change HTTPRoute) :=
  let desiredBackend := buildBackendRef b "l4" backend in
  (diffServiceBackendRef (currentL4BackendRef b) (Some desiredBackend) ++
     (currentL7BackendRefs b ≫= fun backend => diffServiceBackendRef (Some backend) None),
   diffHTTPRoutes (currentHTTPRoutes b) []).

Definition l7_changes (b : Builder) (hostname : string)
    : list (Change ServiceBackendRef) * list (Change HTTPRoute) :=
  let '(desiredRoutes, desiredBackends) := buildDesiredL7Resources b hostname in
  (diffServiceBackendRefs (currentL7BackendRefs b) desiredBackends ++
     match currentL4BackendRef b with
     | Some current => diffServiceBackendRef (Some current) None
     | None => []
     end,
   diffHTTPRoutes (currentHTTPRoutes b) desiredRoutes).

(** A kind that is neither L4 nor L7 takes the branch of the L7 kinds. *)
Definition Build (b : Builder) : result Plan :=
  if bool_decide (b_hostname b = "") then Err (errors_New "hostname is required")
  else if bool_decide (b_desiredBackendType b = "") then Err (errors_New "backend type is required")
  else
    let desiredDomain := buildDesiredDomainEndpoint b in
    let finish := fun changes =>
      Ok (mkPlan (b_hostname b)
            (diffDNSRecords (b_existingDNSRecords b) (buildDesiredDNSRecords b))
            (diffDomainEndpoint (currentDomainEndpoint b) (Some desiredDomain))
            (fst changes) (snd changes)) in
    if isL4BackendType (b_desiredBackendType b) then
      match b_desiredL4Backend b with
      | None => Err (errors_New "l4 backend is required")
      | Some backend => finish (l4_changes b backend)
      end
    else if isL7BackendType (b_desiredBackendType b) && bool_decide (b_desiredRoutes b = [])
    then Err (errors_New "at least one l7 route is required")
    else finish (l7_changes b (de_Hostname desiredDomain)).

End build.
