(* ===== verification/PlanFacts.v ===== *)
(** * Correctness of change plans

    What a list of changes does to a table, and that the changes [Build]
    computes lead from what exists to what is wanted. *)

From Stdlib Require Import Ascii.
From S2P Require Import Prelude GoStrings GoTime Metadata Repository Plan.

Open Scope Z_scope.

(** ** What changes do to a table *)

Section changes.
Context {M : Type} `{!Resource M}.

(** The row a change writes, or [Some None] for the row it deletes, when it is
    about identifier [id]. *)
Definition change_outcome (id : string) (c : Change M) : option (option M) :=
  if bool_decide (ch_Action c = PlanActionCreate) || bool_decide (ch_Action c = PlanActionUpdate)
  then d ← ch_Desired c; if bool_decide (res_key d = id) then Some (Some d) else None
  else if bool_decide (ch_Action c = PlanActionDelete)
  then r ← ch_Current c; if bool_decide (res_key r = id) then Some None else None
  else None.

Lemma change_outcome_create id o (d : M) :
  change_outcome id (mkChange PlanActionCreate o (Some d)) =
  if bool_decide (res_key d = id) then Some (Some d) else None.
Proof. done. Qed.

Lemma change_outcome_update id o (d : M) :
  change_outcome id (mkChange PlanActionUpdate o (Some d)) =
  if bool_decide (res_key d = id) then Some (Some d) else None.
Proof. done. Qed.

Lemma change_outcome_delete id (r : M) o :
  change_outcome id (mkChange PlanActionDelete (Some r) o) =
  if bool_decide (res_key r = id) then Some None else None.
Proof. done. Qed.

(** The last change about [id] decides; [None]: the row is not touched. *)
Definition outcome (cs : list (Change M)) (id : string) : option (option M) :=
  foldl (fun acc c => match change_outcome id c with Some o => Some o | None => acc end) None cs.

(** Carrying changes out on a map from identifiers to rows. *)
Definition carry_out (m : gmap string M) (cs : list (Change M)) : gmap string M :=
  foldl (fun m c =>
    if bool_decide (ch_Action c = PlanActionCreate) || bool_decide (ch_Action c = PlanActionUpdate)
    then match ch_Desired c with Some d => <[res_key d := d]> m | None => m end
    else if bool_decide (ch_Action c = PlanActionDelete)
    then match ch_Current c with Some r => delete (res_key r) m | None => m end
    else m) m cs.

Lemma outcome_snoc cs c id :
  outcome (cs ++ [c]) id =
  match change_outcome id c with Some o => Some o | None => outcome cs id end.
Proof. unfold outcome. by rewrite foldl_app. Qed.

Lemma outcome_app cs cs' id :
  outcome (cs ++ cs') id = match outcome cs' id with Some o => Some o | None => outcome cs id end.
Proof.
  induction cs' as [|c cs' IH] using rev_ind; [by rewrite app_nil_r|].
  rewrite app_assoc, !outcome_snoc. by destruct (change_outcome id c).
Qed.

Lemma carry_out_snoc m cs c id :
  carry_out m (cs ++ [c]) !! id =
  match change_outcome id c with Some o => o | None => carry_out m cs !! id end.
Proof.
  unfold carry_out, change_outcome. rewrite foldl_app. cbn.
  destruct (bool_decide _ || bool_decide _).
  - destruct (ch_Desired c) as [d|]; cbn; [|done].
    case_bool_decide as E; [subst; by rewrite lookup_insert_eq|by rewrite lookup_insert_ne].
  - destruct (bool_decide _); [|done]. destruct (ch_Current c) as [r|]; cbn; [|done].
    case_bool_decide as E; [subst; by rewrite lookup_delete_eq|by rewrite lookup_delete_ne].
Qed.

(** Carrying changes out is deciding every identifier by its last change. *)
Lemma carry_out_outcome m cs id :
  carry_out m cs !! id = match outcome cs id with Some o => o | None => m !! id end.
Proof.
  induction cs as [|c cs IH] using rev_ind; [done|].
  rewrite carry_out_snoc, outcome_snoc. by destruct (change_outcome id c).
Qed.

Lemma outcome_None cs id :
  (forall c, c ∈ cs -> change_outcome id c = None) -> outcome cs id = None.
Proof.
  induction cs as [|c cs IH] using rev_ind; intros H; [done|].
  rewrite outcome_snoc, (H c), IH; [done| |]; intros; try apply H; set_solver.
Qed.

(** A single change about [id] is the outcome. *)
Lemma outcome_unique cs c id :
  c ∈ cs -> (forall c', c' ∈ cs -> c' = c \/ change_outcome id c' = None) ->
  is_Some (change_outcome id c) -> outcome cs id = change_outcome id c.
Proof.
  intros Hc Hu [o Ho]. induction cs as [|c' cs IH] using rev_ind; [set_solver|].
  rewrite outcome_snoc. destruct (Hu c') as [->|Hn]; [set_solver| |].
  - by rewrite Ho.
  - rewrite Hn. apply elem_of_app in Hc as [Hc|Hc].
    + apply IH; [done|]. intros c'' Hc''. apply Hu. set_solver.
    + apply list_elem_of_singleton in Hc as ->. congruence.
Qed.

End changes.

(** ** Differences *)

Section by_id.
Context {M : Type} `{!Resource M}.

Lemma by_id_snoc (l : list M) x : by_id (l ++ [x]) = <[res_key x := x]> (by_id l).
Proof. unfold by_id. by rewrite foldl_app. Qed.

Lemma by_id_key (l : list M) id x : by_id l !! id = Some x -> res_key x = id /\ x ∈ l.
Proof.
  induction l as [|y l IH] using rev_ind; [done|]. rewrite by_id_snoc.
  destruct (decide (res_key y = id)) as [<-|Hne].
  - rewrite lookup_insert_eq. intros [= ->]. set_solver.
  - rewrite lookup_insert_ne by done. intros [? ?]%IH. set_solver.
Qed.

Lemma by_id_is_Some (l : list M) x : x ∈ l -> is_Some (by_id l !! res_key x).
Proof.
  induction l as [|y l IH] using rev_ind; [by intros ?%elem_of_nil|]. rewrite by_id_snoc.
  rewrite elem_of_app, list_elem_of_singleton. intros [Hx| ->].
  - destruct (decide (res_key y = res_key x)) as [->|Hne];
      [rewrite lookup_insert_eq|rewrite lookup_insert_ne by done]; eauto.
  - rewrite lookup_insert_eq. eauto.
Qed.

(** With distinct identifiers the map holds every item. *)
Lemma by_id_elem (l : list M) x : NoDup (res_key <$> l) -> x ∈ l -> by_id l !! res_key x = Some x.
Proof.
  intros Hnd Hx. destruct (by_id_is_Some l x Hx) as [y Hy]. rewrite Hy. f_equal.
  destruct (by_id_key _ _ _ Hy) as [Hk Hin]. by eapply NoDup_fmap_inj.
Qed.

End by_id.

Section diff.
Context {M : Type} `{!Resource M, !EqDecision M}.
Implicit Types (cm dm : gmap string M).

(** The map's keys are the rows' identifiers. *)
Definition keys_match (m : gmap string M) : Prop := forall k x, m !! k = Some x -> res_key x = k.

Lemma by_id_keys l : keys_match (by_id l).
Proof. intros k x H. by apply by_id_key in H as [? _]. Qed.

(** One step of the difference: the change between two optional rows. *)
Lemma diff_one_outcome (x y : option M) id :
  (forall r, x = Some r -> res_key r = id) -> (forall r, y = Some r -> res_key r = id) ->
  outcome (diff_one x y) id = (if bool_decide (x = y) then None else Some y) /\
  forall c, c ∈ diff_one x y -> change_id c = id.
Proof.
  intros Hx Hy. unfold diff_one.
  destruct x as [c|], y as [d|]; try specialize (Hx c eq_refl); try specialize (Hy d eq_refl).
  - destruct (decide (c = d)) as [->|Hne].
    + rewrite !bool_decide_eq_true_2 by done. split; [done|]. by intros ? ?%elem_of_nil.
    + assert (Some c <> Some d) by (intros [= ?]; done).
      rewrite !bool_decide_eq_false_2 by done. split; [|intros c' ->%list_elem_of_singleton; done].
      unfold outcome. cbn. by rewrite change_outcome_update, bool_decide_eq_true_2.
  - rewrite bool_decide_eq_false_2 by done. split; [|intros c' ->%list_elem_of_singleton; done].
    unfold outcome. cbn. by rewrite change_outcome_delete, bool_decide_eq_true_2.
  - rewrite bool_decide_eq_false_2 by done. split; [|intros c' ->%list_elem_of_singleton; done].
    unfold outcome. cbn. by rewrite change_outcome_create, bool_decide_eq_true_2.
  - rewrite bool_decide_eq_true_2 by done. split; [done|]. by intros ? ?%elem_of_nil.
Qed.

(** What becomes of a wanted row, whatever the row it replaces is called. *)
Lemma diff_one_wanted (x : option M) (d : M) :
  outcome (diff_one x (Some d)) (res_key d) = if bool_decide (x = Some d) then None else Some (Some d).
Proof.
  unfold diff_one. destruct x as [c|].
  - destruct (decide (c = d)) as [->|Hne]; [by rewrite !bool_decide_eq_true_2|].
    assert (Some c <> Some d) by (intros [= ?]; done).
    rewrite !bool_decide_eq_false_2 by done. unfold outcome. cbn.
    by rewrite change_outcome_update, bool_decide_eq_true_2.
  - rewrite bool_decide_eq_false_2 by done. unfold outcome. cbn.
    by rewrite change_outcome_create, bool_decide_eq_true_2.
Qed.

Lemma diff_one_unwanted (x : option M) id :
  (forall r, x = Some r -> res_key r <> id) -> outcome (diff_one x None) id = None.
Proof.
  intros Hx. destruct x as [r|]; [|done]. unfold outcome. cbn.
  by rewrite change_outcome_delete, bool_decide_eq_false_2 by (by apply Hx).
Qed.

Lemma diff_one_ne (x y : option M) id c :
  c ∈ diff_one x y -> change_id c <> id -> change_outcome id c = None.
Proof.
  unfold diff_one, change_id.
  destruct x as [r|], y as [d|]; try case_bool_decide; rewrite ?elem_of_nil, ?list_elem_of_singleton;
    try done; intros -> Hne; cbn in Hne;
    rewrite ?change_outcome_create, ?change_outcome_update, ?change_outcome_delete;
    by rewrite bool_decide_eq_false_2.
Qed.

Lemma diff_one_single (x y : option M) c l : diff_one x y = c :: l -> l = [].
Proof.
  unfold diff_one. destruct x as [a|], y as [d|]; [destruct (bool_decide (a = d))|..];
    intros HE; by simplify_eq.
Qed.

(** A list of changes that is the difference of two maps, in some order. *)
Definition difference (cm dm : gmap string M) (cs : list (Change M)) : Prop :=
  forall c, c ∈ cs <-> exists id, c ∈ diff_one (cm !! id) (dm !! id).

Lemma difference_ids cm dm cs c :
  keys_match cm -> keys_match dm -> difference cm dm cs ->
  c ∈ cs <-> c ∈ diff_one (cm !! change_id c) (dm !! change_id c).
Proof.
  intros Hc Hd Hdiff. rewrite (Hdiff c). split; [|by eauto]. intros [id Hin].
  destruct (diff_one_outcome (cm !! id) (dm !! id) id) as [_ He]; eauto.
  by rewrite (He c Hin).
Qed.

Lemma difference_outcome cm dm cs id :
  keys_match cm -> keys_match dm -> difference cm dm cs ->
  outcome cs id = if bool_decide (cm !! id = dm !! id) then None else Some (dm !! id).
Proof.
  intros Hc Hd Hdiff.
  destruct (diff_one_outcome (cm !! id) (dm !! id) id) as [Ho He]; eauto.
  rewrite <- Ho. destruct (diff_one (cm !! id) (dm !! id)) as [|c l] eqn:E.
  - apply outcome_None. intros c Hin. pose proof Hin as Hin'. apply Hdiff in Hin' as [id' Hin'].
    apply (diff_one_ne _ _ _ _ Hin'). intros Hid.
    apply (difference_ids _ _ _ _ Hc Hd Hdiff) in Hin. rewrite Hid, E in Hin. set_solver.
  - assert (l = []) as ->.
    { by eapply diff_one_single. }
    assert (change_id c = id) as Hid by (apply He; set_solver).
    assert (outcome [c] id = change_outcome id c) as Hone.
    { unfold outcome. cbn. by destruct (change_outcome id c). }
    rewrite Hone. apply outcome_unique.
    + apply Hdiff. exists id. rewrite E. set_solver.
    + intros c' Hc'. destruct (decide (change_id c' = id)) as [Hid'|Hne].
      * left. apply (difference_ids _ _ _ _ Hc Hd Hdiff) in Hc'.
        rewrite Hid', E in Hc'. set_solver.
      * right. apply Hdiff in Hc' as [id' Hc']. by eapply diff_one_ne.
    + rewrite <- Hone, Ho. destruct (decide (cm !! id = dm !! id)) as [Heq|Hne].
      * exfalso. revert E. rewrite Heq. unfold diff_one.
        destruct (dm !! id); [by rewrite bool_decide_eq_true_2|done].
      * rewrite bool_decide_eq_false_2 by done. eauto.
Qed.

Lemma difference_carry_out cm dm cs :
  keys_match cm -> keys_match dm -> difference cm dm cs -> carry_out cm cs = dm.
Proof.
  intros Hc Hd Hdiff. apply map_eq. intros id.
  rewrite carry_out_outcome, (difference_outcome cm dm) by done. by case_bool_decide.
Qed.

End diff.

Lemma seen_backend l k ref :
  foldl see_backend ∅ l !! k = Some ref ->
  sb_ID ref = k /\ exists rp, rp ∈ l /\ rp_BackendRef rp = Some ref.
Proof.
  revert k. induction l as [|rp l IH] using rev_ind; intros k; [done|]. rewrite foldl_app. cbn.
  assert (foldl see_backend ∅ l !! k = Some ref ->
    sb_ID ref = k /\ exists rp', rp' ∈ l ++ [rp] /\ rp_BackendRef rp' = Some ref) as Hold.
  { intros (Hk & rp' & Hin & E)%IH. split; [done|]. exists rp'. split; [set_solver|done]. }
  unfold see_backend at 1. destruct (rp_BackendRef rp) as [ref'|] eqn:E; [|done].
  destruct (bool_decide _); [done|].
  destruct (decide (sb_ID ref' = k)) as [Hk|Hne]; [|by rewrite lookup_insert_ne].
  subst k. rewrite lookup_insert_eq. intros [= ->]. split; [done|]. exists rp.
  split; [set_solver|done].
Qed.

(** ** The differences of slices *)

Section sorting.
Context {A : Type} (key : A -> string).

Lemma sort_by_perm l : sort_by key l ≡ₚ l.
Proof. apply merge_sort_Permutation. Qed.

Lemma sort_by_sorted l : StronglySorted (fun x y => String.le (key x) (key y)) (sort_by key l).
Proof.
  apply StronglySorted_merge_sort; intros x y; [intros z|]; cbn.
  - by transitivity (key y).
  - apply (total String.le).
Qed.

(** Sorting by distinct identifiers has one result, whatever the input order. *)
Lemma sort_by_unique l l' : NoDup (key <$> l) -> l ≡ₚ l' -> sort_by key l = sort_by key l'.
Proof.
  intros Hnd Hp. eapply (StronglySorted_unique_strong (fun x y => String.le (key x) (key y)));
    [|apply sort_by_sorted..|].
  - intros x y Hx Hy H1 H2. rewrite sort_by_perm in Hx, Hy. rewrite <- Hp in Hy.
    apply (NoDup_fmap_inj key l); try done. by apply (anti_symm String.le).
  - by rewrite !sort_by_perm.
Qed.

(** Distinct identifiers in order are in strict order. *)
Lemma sort_by_strict l : NoDup (key <$> l) ->
  StronglySorted (fun x y => String.le (key x) (key y) /\ key x <> key y) (sort_by key l).
Proof.
  intros Hnd. rewrite <- (sort_by_perm l) in Hnd. pose proof (sort_by_sorted l) as Hs.
  induction Hs as [|x l' Hs IH HF]; [constructor|]. cbn in Hnd. apply NoDup_cons in Hnd as [Hx Hnd].
  constructor; [auto|]. apply Forall_forall. intros y Hy. rewrite Forall_forall in HF.
  split; [auto|]. intros E. apply Hx. rewrite E. by apply list_elem_of_fmap_2.
Qed.

Lemma bind_keys_sublist {K : Type} (f : K -> list A) (k : K -> string) l :
  (forall x, x ∈ l -> key <$> f x `sublist_of` [k x]) -> key <$> (l ≫= f) `sublist_of` k <$> l.
Proof.
  induction l as [|x l IH]; intros Hf; [done|]. cbn. rewrite fmap_app.
  apply (sublist_app _ [k x]); [apply Hf; set_solver|]. apply IH. intros y Hy. apply Hf. set_solver.
Qed.

End sorting.

Section diff_many.
Context {MR : MapRange} {M : Type} `{!Resource M, !EqDecision M}.
Implicit Types (cm dm : gmap string M).

(** The two loops, before sorting. *)
Definition changes_of cm dm : list (Change M) :=
  (range dm ≫= fun kv => wanted_change cm kv.1 kv.2) ++
  (range cm ≫= fun kv => surplus_change dm kv.1 kv.2).

Lemma wanted_change_one cm id item : wanted_change cm id item = diff_one (cm !! id) (Some item).
Proof. unfold wanted_change, diff_one. by destruct (cm !! id). Qed.

Lemma elem_of_changes cm dm c :
  c ∈ changes_of cm dm <-> exists id, c ∈ diff_one (cm !! id) (dm !! id).
Proof.
  unfold changes_of. rewrite elem_of_app, !list_elem_of_bind. split.
  - intros [([id x] & Hc & Hx)|([id x] & Hc & Hx)]; apply elem_of_range in Hx; cbn in *;
      exists id; rewrite Hx.
    + by rewrite <- wanted_change_one.
    + unfold surplus_change in Hc. destruct (dm !! id); [by apply elem_of_nil in Hc|done].
  - intros [id Hc]. destruct (dm !! id) as [d|] eqn:Hd.
    + left. exists (id, d). split; [by rewrite wanted_change_one|by apply elem_of_range].
    + right. destruct (cm !! id) as [r|] eqn:Hr; [|by apply elem_of_nil in Hc].
      exists (id, r). split; [unfold surplus_change; cbn; by rewrite Hd|by apply elem_of_range].
Qed.

Lemma wanted_ids cm dm :
  keys_match cm -> keys_match dm ->
  change_id <$> (range dm ≫= fun kv => wanted_change cm kv.1 kv.2) `sublist_of` (range dm).*1.
Proof.
  intros Hcm Hdm. apply bind_keys_sublist. intros [id x] Hx%elem_of_range. cbn.
  rewrite wanted_change_one. specialize (Hdm _ _ Hx). unfold diff_one, change_id.
  destruct (cm !! id) as [r|]; [destruct (bool_decide (r = x))|]; cbn;
    rewrite ?Hdm; auto using sublist_nil_l.
Qed.

Lemma surplus_ids cm dm :
  keys_match cm ->
  change_id <$> (range cm ≫= fun kv => surplus_change dm kv.1 kv.2) `sublist_of` (range cm).*1.
Proof.
  intros Hcm. apply bind_keys_sublist. intros [id x] Hx%elem_of_range. cbn.
  specialize (Hcm _ _ Hx). unfold surplus_change, change_id.
  destruct (dm !! id); cbn; rewrite ?Hcm; auto using sublist_nil_l.
Qed.

Lemma changes_ids_nodup cm dm :
  keys_match cm -> keys_match dm -> NoDup (change_id <$> changes_of cm dm).
Proof.
  intros Hcm Hdm. unfold changes_of. rewrite fmap_app. apply NoDup_app. split_and!.
  - eapply sublist_NoDup; [|by apply wanted_ids]. apply NoDup_fst_range.
  - intros id Hw Hs.
    assert (id ∈ (range dm).*1) as Hid
      by (eapply elem_of_submseteq; [exact Hw|]; apply sublist_submseteq; by apply wanted_ids).
    apply list_elem_of_fmap in Hid as ([id' x] & -> & Hx%elem_of_range). cbn in *.
    apply list_elem_of_fmap in Hs as (c & -> & Hc). apply list_elem_of_bind in Hc as ([id r] & Hc & Hr).
    apply elem_of_range in Hr. unfold surplus_change in Hc. cbn in Hc.
    destruct (dm !! id) eqn:Hd; [by apply elem_of_nil in Hc|].
    apply list_elem_of_singleton in Hc as ->. cbn in Hx. rewrite (Hcm _ _ Hr) in Hx. congruence.
  - eapply sublist_NoDup; [|by apply surplus_ids]. apply NoDup_fst_range.
Qed.

Lemma diff_many_difference current desired :
  difference (by_id current) (by_id desired) (diff_many (M:=M) current desired).
Proof. intros c. unfold diff_many. rewrite sort_by_perm. apply elem_of_changes. Qed.

Lemma diff_many_outcome current desired id :
  outcome (diff_many (M:=M) current desired) id =
  if bool_decide (by_id current !! id = by_id desired !! id) then None
  else Some (by_id desired !! id).
Proof. apply difference_outcome; [apply by_id_keys..|apply diff_many_difference]. Qed.

Lemma diff_many_strict current desired :
  StronglySorted (fun x y => String.le (change_id x) (change_id y) /\ change_id x <> change_id y)
    (diff_many (M:=M) current desired).
Proof. apply sort_by_strict, changes_ids_nodup; apply by_id_keys. Qed.

End diff_many.

(** The order in which Go walks the two maps does not show. *)
Lemma diff_many_order {M} `{!Resource M, !EqDecision M} (MR1 MR2 : MapRange) (current desired : list M) :
  diff_many (MR:=MR1) current desired = diff_many (MR:=MR2) current desired.
Proof.
  apply sort_by_unique; [apply changes_ids_nodup; apply by_id_keys|].
  by rewrite !range_perm.
Qed.

(** C24. differences.  The changes computed between two slices of rows, carried
    out on the rows that exist, give exactly the rows that are wanted; a row is
    changed exactly when it differs; every identifier is changed once, in
    increasing order; and the result does not depend on the order in which Go
    walks its maps. *)
Theorem plan_difference {M} `{!Resource M, !EqDecision M} (MR : MapRange) (current desired : list M) :
  let changes := diff_many (MR:=MR) current desired in
  carry_out (by_id current) changes = by_id desired /\
  (forall id, id ∈ change_id <$> changes <-> by_id current !! id <> by_id desired !! id) /\
  StronglySorted (fun x y => String.le (change_id x) (change_id y) /\ change_id x <> change_id y)
    changes /\
  forall MR' : MapRange, diff_many (MR:=MR') current desired = changes.
Proof.
  intros changes. split_and!.
  - apply difference_carry_out; [apply by_id_keys..|apply diff_many_difference].
  - intros id. rewrite list_elem_of_fmap. split.
    + intros (c & -> & Hc).
      apply (difference_ids _ _ _ _ (by_id_keys _) (by_id_keys _) (diff_many_difference _ _)) in Hc.
      intros E. rewrite E in Hc. unfold diff_one in Hc. destruct (by_id desired !! _) as [x|].
      * rewrite bool_decide_eq_true_2 in Hc by done. by apply elem_of_nil in Hc.
      * by apply elem_of_nil in Hc.
    + intros Hne. pose proof (diff_many_outcome current desired id) as Ho.
      rewrite bool_decide_eq_false_2 in Ho by done.
      destruct (diff_one_outcome (by_id current !! id) (by_id desired !! id) id) as [Ho' He];
        [intros r Hr; by eapply by_id_keys..|].
      rewrite bool_decide_eq_false_2 in Ho' by done.
      destruct (diff_one (by_id current !! id) (by_id desired !! id)) as [|c l] eqn:E; [done|].
      exists c. split; [symmetry; apply He; set_solver|].
      apply diff_many_difference. exists id. rewrite E. set_solver.
  - apply diff_many_strict.
  - intros MR'. apply diff_many_order.
Qed.
