(* ===== verification/Acme.v ===== *)
(** * Certificates: engine/master/acme, engine/master/cert_reconciler.go

    Issuing a certificate for a host (resolve the account, obtain the
    certificate while answering its challenge, record the revision, store the
    bundle, broadcast the host) and the loop that decides when to issue.

    lego, the X.509 parser and the bundle store are interfaces.  lego solves a
    challenge by calling back the provider it is given, so what it may do to
    the master's state is what the provider's two methods do. *)

From S2P Require Import Prelude GoStrings GoTime Metadata Gorm Repository Replication Hub MasterEngine.

Open Scope Z_scope.

(** ** What is not part of the program *)

(** [certificate.Resource] *)
Record CertResource := mkCertResource {
  rc_Domain : string;
  rc_Certificate : string;
  rc_IssuerCertificate : string;
  rc_PrivateKey : string;
}.

(** lego: its client, and [Certificate.Obtain], which may only touch the state
    through the challenge provider. *)
Class Lego := {
  client : Type;
  NewClient : string -> string -> result client;
  RegisterWithExternalAccountBinding : client -> string -> string -> result ();
  Register : client -> result ();
  SetDNS01Provider : client -> result ();
  SetHTTP01Provider : client -> result ();
  client_Obtain : forall {S : Type}, client -> (string -> string -> string -> go S ()) ->
    (string -> string -> string -> go S ()) -> list string -> go S (option CertResource);
  client_Obtain_preserves : forall {S : Type} (P : S -> Prop) c present cleanup domains,
    (forall domain token keyAuth, preserves P (present domain token keyAuth)) ->
    (forall domain token keyAuth, preserves P (cleanup domain token keyAuth)) ->
    preserves P (client_Obtain c present cleanup domains);
  (** [dns01.GetChallengeInfo]: the name and the value of the TXT record *)
  GetChallengeInfo : string -> string -> string * string;
  LEDirectoryProduction : string;
  DefaultPropagationTimeout : Z;
  DefaultPollingInterval : Z;
}.

(** [pem.Decode] and [x509.ParseCertificate] on the first block, [sha256] and
    the encoders of two small JSON texts. *)
Class Crypto := {
  pem_Decode : string -> option string;
  x509_ParseCertificate : string -> result (Time * Time);
  sha256_hex : string -> string;
  bundle_metadata : string -> Z -> Time -> Time -> string;
  json_string_array : list string -> string;
}.

(** The bundle store, an interface of the source too. *)
Class BundleStore := {
  bundles : Type;
  PutCertificateBundle : CertificateBundle -> go bundles ();
}.

(** ** The HTTP-01 registry: acme/http01.go *)

Abbreviation http01Registry := (gmap string string).
Definition NewHTTP01Registry : http01Registry := ∅.
Definition registry_Set (token keyAuthorization : string) (r : http01Registry) : http01Registry :=
  <[token := keyAuthorization]> r.
Definition registry_Get (token : string) (r : http01Registry) : option string := r !! token.
Definition registry_Delete (token : string) (r : http01Registry) : http01Registry := delete token r.
Definition http01Path (token : string) : string := "/.well-known/acme-challenge/" +:+ token.

(** ** Configuration: acme/service.go *)

Record Config := mkConfig {
  cf_DefaultProvider : ACMEProvider;
  cf_DefaultEmail : string;
  cf_DefaultEABKID : string;
  cf_DefaultEABHMACKey : string;
  cf_DefaultArtifactBucket : string;
  cf_ArtifactPrefix : string;
  cf_DNS01TTL : Z;
  cf_HTTP01Priority : Z;
  cf_DNS01Timeout : Z;
  cf_DNS01Interval : Z;
}.

Record IssueRequest := mkIssueRequest {
  ir_Hostname : string;
  ir_Provider : ACMEProvider;
  ir_ChallengeType : ChallengeType;
  ir_Email : string;
  ir_EABKID : string;
  ir_EABHMACKey : string;
}.

Record IssuerConfig := mkIssuerConfig {
  ic_Provider : ACMEProvider;
  ic_Email : string;
  ic_Directory : string;
  ic_EABKID : string;
  ic_EABHMACKey : string;
}.

Definition zeroSSLDirectoryURL : string := "https://acme.zerossl.com/v2/DV90".

(** [if a == "" { a = b }] *)
Definition or_else (a b : string) : string := if bool_decide (a = "") then b else a.

Section acme.
Context {GM : GormModel} {GDB : Gorm Tables stmt stmt_effect} {LG : Lego} {CR : Crypto}
  {BS : BundleStore}.

(** The defaults [NewService] fills in. *)
Definition NewService_config (cfg : Config) : Config :=
  mkConfig (or_else (cf_DefaultProvider cfg) ProviderLetsEncrypt) (cf_DefaultEmail cfg)
    (cf_DefaultEABKID cfg) (cf_DefaultEABHMACKey cfg) (cf_DefaultArtifactBucket cfg)
    (cf_ArtifactPrefix cfg)
    (if bool_decide (cf_DNS01TTL cfg = 0) then 60 else cf_DNS01TTL cfg)
    (if bool_decide (cf_HTTP01Priority cfg = 0) then 100000 else cf_HTTP01Priority cfg)
    (if bool_decide (cf_DNS01Timeout cfg <= 0) then DefaultPropagationTimeout
     else cf_DNS01Timeout cfg)
    (if bool_decide (cf_DNS01Interval cfg <= 0) then DefaultPollingInterval
     else cf_DNS01Interval cfg).

Definition resolveIssuerConfig (cfg : Config) (req : IssueRequest) : result IssuerConfig :=
  let email := or_else (TrimSpace (ir_Email req)) (TrimSpace (cf_DefaultEmail cfg)) in
  if bool_decide (email = "") then Err (errors_New "acme email is required")
  else if bool_decide (ir_Provider req = ProviderLetsEncrypt) then
    Ok (mkIssuerConfig (ir_Provider req) email LEDirectoryProduction "" "")
  else if bool_decide (ir_Provider req = ProviderZeroSSL) then
    let eabKID := or_else (TrimSpace (ir_EABKID req)) (TrimSpace (cf_DefaultEABKID cfg)) in
    let eabHMACKey := or_else (TrimSpace (ir_EABHMACKey req)) (TrimSpace (cf_DefaultEABHMACKey cfg)) in
    if bool_decide (eabKID = "") || bool_decide (eabHMACKey = "")
    then Err (errors_New "zerossl requires eab kid and hmac key")
    else Ok (mkIssuerConfig (ir_Provider req) email zeroSSLDirectoryURL eabKID eabHMACKey)
  else Err (Errorf "unsupported acme provider %q" [ir_Provider req]).

(** ** helpers.go, bundle.go *)

Definition certificateArtifactPrefix (prefix hostname : string) (revision : Z) : string :=
  let prefix := or_else (Trim (TrimSpace prefix) "/") "certificates" in
  prefix +:+ "/" +:+ hostname +:+ "/" +:+ FormatUint revision.

Definition newline : string := String (Ascii.ascii_of_nat 10) EmptyString.

(** A [nil] slice for an empty certificate. *)
Definition certificateFullChain (certificatePEM issuerPEM : string) : string :=
  let certificatePEM := TrimSpace certificatePEM in
  let issuerPEM := TrimSpace issuerPEM in
  if bool_decide (len certificatePEM = 0%nat) then ""
  else if bool_decide (len issuerPEM = 0%nat) || Contains certificatePEM issuerPEM
  then certificatePEM +:+ newline
  else certificatePEM +:+ newline +:+ issuerPEM +:+ newline.

(** The bundle, and the revision's validity and hashes. *)
Definition buildBundleAndRevision (resource : option CertResource) (revision : Z)
    : result (CertificateBundle * (Time * Time) * (string * string)) :=
  match resource with
  | None => Err (errors_New "certificate resource is nil")
  | Some resource =>
      let fullChain := certificateFullChain (rc_Certificate resource) (rc_IssuerCertificate resource) in
      match pem_Decode fullChain with
      | None => Err (errors_New "decode certificate pem")
      | Some block =>
          cert ← x509_ParseCertificate block;
          mret (mkCertificateBundle (rc_Domain resource) revision fullChain (rc_PrivateKey resource)
                  (bundle_metadata (rc_Domain resource) revision cert.1 cert.2),
                cert, (sha256_hex fullChain, sha256_hex (rc_PrivateKey resource)))
      end
  end.

(** ** The master's state the service works on

    [Certs] is the reconciler the engine may have: its notification channel
    and the hosts being issued. *)

Record CertReconciler := mkCertReconciler {
  cc_notifyCh : chan string;
  cc_inFlight : gset string;
}.

Record Master := mkMaster {
  ms_Engine : Engine;
  ms_http01 : option http01Registry;
  ms_bundles : option bundles;
  ms_Certs : option CertReconciler;
}.

Definition on_Engine {A} (m : go Engine A) : go Master A :=
  zoom ms_Engine (fun e s => mkMaster e (ms_http01 s) (ms_bundles s) (ms_Certs s)) m.
Definition set_http01 (r : option http01Registry) (s : Master) : Master :=
  mkMaster (ms_Engine s) r (ms_bundles s) (ms_Certs s).
Definition set_bundles (b : option bundles) (s : Master) : Master :=
  mkMaster (ms_Engine s) (ms_http01 s) b (ms_Certs s).
Definition set_Certs (c : option CertReconciler) (s : Master) : Master :=
  mkMaster (ms_Engine s) (ms_http01 s) (ms_bundles s) c.

Section service.
(** The configuration with its defaults, and the handler [notifier] that
    [engine.go] gives the service. *)
Context (cfg : Config) (notifier : string -> go Master ()).

(** ** Answering challenges: challenge_provider.go, dns01.go, http01.go *)

Section provider.
Context (domain : DomainEndpoint) (challengeType : ChallengeType).

Definition dns01RecordID (token : string) : string :=
  "acme-dns01-" +:+ de_Hostname domain +:+ "-" +:+ token.

Definition challenge_record (name token keyAuth : string) : DNSRecord :=
  let info := GetChallengeInfo name keyAuth in
  mkDNSRecord zero_Shared (dns01RecordID token) info.1 DNSTypeTXT RoutingClassFirst
    (cf_DNS01TTL cfg) (json_string_array [info.2]) "" true.

Definition presentDNS01 (name token keyAuth : string) : go Master () :=
  on_Engine (on_Repo (UpsertResource (challenge_record name token keyAuth))) ≫= fun _ =>
  notifier (de_Hostname domain).

Definition cleanupDNS01 (token : string) : go Master () :=
  on_Engine (on_Repo (DeleteResourceByField DNSRecord "id" (dns01RecordID token))) ≫= fun _ =>
  notifier (de_Hostname domain).

Definition presentHTTP01 (token keyAuth : string) : go Master () :=
  s ← get_state;
  match ms_http01 s with
  | None => throw (errors_New "http01 challenge store is required")
  | Some r => modify (set_http01 (Some (registry_Set token keyAuth r)))
  end.

Definition cleanupHTTP01 (token : string) : go Master () :=
  s ← get_state;
  match ms_http01 s with
  | None => mret tt
  | Some r => modify (set_http01 (Some (registry_Delete token r)))
  end.

Definition Present (name token keyAuth : string) : go Master () :=
  if bool_decide (challengeType = ChallengeTypeDNS01) then presentDNS01 name token keyAuth
  else if bool_decide (challengeType = ChallengeTypeHTTP01) then presentHTTP01 token keyAuth
  else throw (Errorf "unsupported challenge type %q" [challengeType]).

Definition CleanUp (name token keyAuth : string) : go Master () :=
  if bool_decide (challengeType = ChallengeTypeDNS01) then cleanupDNS01 token
  else if bool_decide (challengeType = ChallengeTypeHTTP01) then cleanupHTTP01 token
  else throw (Errorf "unsupported challenge type %q" [challengeType]).

(** ** issuer_factory.go, issuer_lego.go *)

(** [LegoIssuerFactory.New]: an account is registered before the provider's
    name is checked. *)
Definition issuers_New (config : IssuerConfig) : result client :=
  c ← NewClient (ic_Email config) (ic_Directory config);
  _ ← (if bool_decide (ic_Provider config = ProviderZeroSSL)
       then RegisterWithExternalAccountBinding c (ic_EABKID config) (ic_EABHMACKey config)
       else Register c);
  if bool_decide (ic_Provider config = ProviderLetsEncrypt) ||
     bool_decide (ic_Provider config = ProviderZeroSSL)
  then Ok c else Err (Errorf "unsupported acme provider %q" [ic_Provider config]).

Definition Obtain (c : client) (domains : list string) : go Master (option CertResource) :=
  if bool_decide (domains = []) then throw (errors_New "domains are required")
  else
    _ ← lift (if bool_decide (challengeType = ChallengeTypeDNS01) then SetDNS01Provider c
              else if bool_decide (challengeType = ChallengeTypeHTTP01) then SetHTTP01Provider c
              else Err (Errorf "unsupported challenge type %q" [challengeType]));
    client_Obtain c Present CleanUp domains.

End provider.

(** ** Issuing: service.go *)

(** Any failure to read the latest revision starts again at one. *)
Definition nextRevision (hostname : string) : go Master Z :=
  r ← attempt (on_Engine (on_Repo (GetLatestCertificateRevision hostname)));
  match r with
  | Err _ => mret 1
  | Ok cert => mret (u64 (cr_Revision cert + 1))
  end.

(** [if s.bundles != nil { s.bundles.PutCertificateBundle(bundle) }] *)
Definition put_bundle (bundle : CertificateBundle) : go Master () := fun s =>
  match ms_bundles s with
  | None => (s, Ok tt)
  | Some b => let '(b', r) := PutCertificateBundle bundle b in (set_bundles (Some b') s, r)
  end.

(** The revision recorded for an issued certificate. *)
Definition issued_revision (req : IssueRequest) (provider : ACMEProvider) (hostname id : string)
    (revision : Z) (validity : Time * Time) (hashes : string * string) : CertificateRevision :=
  mkCertificateRevision zero_Shared id hostname revision provider (ir_ChallengeType req)
    (cf_DefaultArtifactBucket cfg)
    (certificateArtifactPrefix (cf_ArtifactPrefix cfg) hostname revision)
    hashes.1 hashes.2 validity.1 validity.2.

(** [certSuffix]: what the second call of [idSuffix] returns; the first names
    the order in log messages only. *)
Definition IssueCertificate (certSuffix : string) (req : IssueRequest) : go Master CertificateRevision :=
  domain ← on_Engine (on_Repo (GetDomainEndpointByHostname (ir_Hostname req)));
  issuerCfg ← lift (resolveIssuerConfig cfg req);
  revisionNumber ← nextRevision (de_Hostname domain);
  issuer ← lift (issuers_New issuerCfg);
  resource ← Obtain domain (ir_ChallengeType req) issuer [de_Hostname domain];
  built ← lift (buildBundleAndRevision resource revisionNumber);
  let '(certBundle, validity, hashes) := built in
  let cert := issued_revision req (ic_Provider issuerCfg) (de_Hostname domain)
                ("certrev-" +:+ certSuffix) revisionNumber validity hashes in
  on_Engine (on_Repo (UpsertResource cert)) ≫= fun _ =>
  put_bundle certBundle ≫= fun _ =>
  notifier (de_Hostname domain) ≫= fun _ =>
  mret cert.

(** ** Deciding when to issue: cert_reconciler.go *)

(** [renewBefore], and the provider asked for: the one of the configuration
    before [NewService] filled in its default. *)
Context (renewBefore : Z) (issueProvider : ACMEProvider).

Definition on_Certs (f : CertReconciler -> CertReconciler) (s : Master) : Master :=
  set_Certs (f <$> ms_Certs s) s.

Definition Notify (fqdn : string) : go Master () :=
  let fqdn := TrimSpace (ToLower fqdn) in
  if bool_decide (fqdn = "") then mret tt
  else modify (on_Certs (fun c => mkCertReconciler (try_send fqdn (cc_notifyCh c)) (cc_inFlight c))).

(** [begin]: whether the host was not being issued, and now is. *)
Definition begin (fqdn : string) : go Master bool := fun s =>
  match ms_Certs s with
  | None => (s, Ok false)
  | Some c =>
      if bool_decide (fqdn ∈ cc_inFlight c) then (s, Ok false)
      else (set_Certs (Some (mkCertReconciler (cc_notifyCh c) ({[fqdn]} ∪ cc_inFlight c))) s, Ok true)
  end.

Definition end_ (fqdn : string) (s : Master) : Master :=
  on_Certs (fun c => mkCertReconciler (cc_notifyCh c) (cc_inFlight c ∖ {[fqdn]})) s.

Definition challengeTypeForDomain (domain : DomainEndpoint) : ChallengeType :=
  let ty := de_BackendType domain in
  if bool_decide (ty = BackendTypeL7HTTP) || bool_decide (ty = BackendTypeL7HTTPS) ||
     bool_decide (ty = BackendTypeL7HTTPBoth)
  then ChallengeTypeHTTP01 else ChallengeTypeDNS01.

Definition shouldIssue (now : Time) (domain : DomainEndpoint) : go Master bool :=
  r ← attempt (on_Engine (on_Repo (GetActiveCertificateForDomain (Some domain))));
  match r with
  | Ok (Some cert) =>
      if IsZero (cr_NotAfter cert) then mret true
      else mret (negb (time_After (cr_NotAfter cert) (time_Add now renewBefore)))
  | _ => mret true
  end.

Definition issue_request (domain : DomainEndpoint) : IssueRequest :=
  mkIssueRequest (de_Hostname domain) issueProvider (challengeTypeForDomain domain) "" "" "".

Definition reconcileDomain (now : Time) (certSuffix : string) (domain : DomainEndpoint) : go Master () :=
  if negb (de_NeedCert domain) then mret tt
  else
    started ← begin (de_Hostname domain);
    if negb started then mret tt
    else defer (end_ (de_Hostname domain)) (
      should ← shouldIssue now domain;
      if negb should then mret tt
      else IssueCertificate certSuffix (issue_request domain) ≫= fun _ => mret tt).

(** [scan] ignores the errors of single domains. *)
Definition scan (now : Time) (certSuffix : string -> string) : go Master () :=
  domains ← on_Engine (on_Repo (ListResource DomainEndpoint "hostname"));
  for_each (fun domain => ignore (reconcileDomain now (certSuffix (de_Hostname domain)) domain)) domains.

Definition reconcileHostname (now : Time) (certSuffix : string) (fqdn : string) : go Master () :=
  domain ← on_Engine (on_Repo (GetDomainEndpointByHostname fqdn));
  reconcileDomain now certSuffix domain.

(** One round of [run]: the ticker or the notification channel. *)
Inductive wakeup := Tick | Notified.

Definition run_round (now : Time) (certSuffix : string -> string) (w : wakeup) : go Master () :=
  match w with
  | Tick => ignore (scan now certSuffix)
  | Notified =>
      s ← get_state;
      match ms_Certs s with
      | None => mret tt
      | Some c =>
          match receive (cc_notifyCh c) with
          | None => mret tt
          | Some (fqdn, ch) =>
              modify (set_Certs (Some (mkCertReconciler ch (cc_inFlight c)))) ≫= fun _ =>
              ignore (reconcileHostname now (certSuffix fqdn) fqdn)
          end
      end
  end.

End service.

Definition defaultCertReconcileInterval : Z := 5 * 60 * 1000000000.
Definition defaultCertRenewBefore : Z := 30 * 24 * 3600 * 1000000000.

(** [NewCertReconciler]: the state it starts with and its two durations. *)
Definition NewCertReconciler (interval renewBefore : Z) : CertReconciler * Z * Z :=
  (mkCertReconciler (mkChan 128 []) ∅,
   if bool_decide (interval <= 0) then defaultCertReconcileInterval else interval,
   if bool_decide (renewBefore <= 0) then defaultCertRenewBefore else renewBefore).

End acme.
