(* ===== verification/ManageAPI.v ===== *)
(** * The manage API: engine/master/api_manage.go, engine/master/api.go

    The HTTP interface of the master: applying a plan in one transaction and
    broadcasting what it changed, reading and writing single rows, and serving
    HTTP-01 challenges.  A request body is the syntax tree of its JSON text or
    the error of the parser; a path is one the multiplexer has cleaned. *)

From Stdlib Require Import Ascii.
From S2P Require Import Prelude GoStrings GoTime Metadata Gorm Repository Replication Hub MasterEngine.
From S2P Require Import MetadataJson Plan Acme.

Open Scope Z_scope.

#[local] Unset Program Cases.
#[local] Obligation Tactic := idtac.

(** ** Plans as JSON: the structs of lnctl have no tags *)

#[export, program] Instance json_Change `{JsonStruct M} : Json (Change M) := {
  json_Marshal c :=
    f1 ← field "Action" (ch_Action c);
    f2 ← field "Current" (ch_Current c);
    f3 ← field "Desired" (ch_Desired c);
    mret (JObject [f1; f2; f3]);
  json_Unmarshal j :=
    o ← as_object j;
    action ← get_field "Action" o;
    current ← get_field "Current" o;
    desired ← get_field "Desired" o;
    mret (mkChange action current desired);
  json_zero := mkChange "" None None;
}.
Next Obligation. intros M HM HS [] j H. cbv beta in H |- *. json_fields. done. Qed.

#[export, program] Instance json_Plan : Json Plan := {
  json_Marshal p :=
    f1 ← field "Hostname" (pl_Hostname p);
    f2 ← field "DNSRecords" (pl_DNSRecords p);
    f3 ← field "DomainEndpoints" (pl_DomainEndpoints p);
    f4 ← field "ServiceBackendRefs" (pl_ServiceBackendRefs p);
    f5 ← field "HTTPRoutes" (pl_HTTPRoutes p);
    mret (JObject [f1; f2; f3; f4; f5]);
  json_Unmarshal j :=
    o ← as_object j;
    hostname ← get_field "Hostname" o;
    dns ← get_field "DNSRecords" o;
    domains ← get_field "DomainEndpoints" o;
    refs ← get_field "ServiceBackendRefs" o;
    routes ← get_field "HTTPRoutes" o;
    mret (mkPlan hostname dns domains refs routes);
  json_zero := mkPlan "" [] [] [] [];
}.
Next Obligation. intros [] j H. cbv beta in H |- *. json_fields. done. Qed.

(** ** Requests and responses *)

Record Request := mkRequest {
  rq_Method : string;
  rq_Path : string;
  rq_Query : string -> string;   (* [r.URL.Query().Get] *)
  rq_Body : result json;
}.

Inductive body :=
  | NoBody
  | Text (s : string)
  | ErrorText (e : error)
  | JSON (j : result json).

Record Response := mkResponse { rp_Status : Z; rp_Body : body }.

Definition StatusOK : Z := 200.
Definition StatusNoContent : Z := 204.
Definition StatusBadRequest : Z := 400.
Definition StatusNotFound : Z := 404.
Definition StatusMethodNotAllowed : Z := 405.
Definition StatusInternalServerError : Z := 500.
Definition StatusNotImplemented : Z := 501.

Definition http_Error (e : error) (status : Z) : Response := mkResponse status (ErrorText e).
Definition http_NotFound : Response := mkResponse StatusNotFound (Text "404 page not found").
Definition method_not_allowed : Response :=
  http_Error (errors_New "method not allowed") StatusMethodNotAllowed.
Definition writeJSON {A} `{!Json A} (status : Z) (value : A) : Response :=
  mkResponse status (JSON (json_Marshal value)).

Definition handleLookupError (e : error) : Response :=
  if bool_decide (e = ErrRecordNotFound) then http_NotFound
  else http_Error e StatusInternalServerError.

Definition parseManageResourcePath (path : string) : string * string :=
  let path := Trim (TrimPrefix path "/manage/") "/" in
  if bool_decide (path = "") then ("", "")
  else match Split path "/"%char with
       | [] => ("", "")
       | resource :: rest => (resource, Join rest "/")
       end.

(** ** api_http01_memory.go: the registry of an API that is given none *)

Definition newMemoryHTTP01Registry : http01Registry := ∅.
Definition memory_Set (token keyAuthorization : string) (items : http01Registry) : http01Registry :=
  <[token := keyAuthorization]> items.
Definition memory_Get (token : string) (items : http01Registry) : option string := items !! token.
Definition memory_Delete (token : string) (items : http01Registry) : http01Registry := delete token items.

(** The registry of [NewAPI]. *)
Definition NewAPI (http01 : option http01Registry) : http01Registry :=
  default newMemoryHTTP01Registry http01.

Section manage.
Context {GM : GormModel} {GDB : Gorm Tables stmt stmt_effect} {BS : BundleStore} {MR : MapRange}.
(** The clock, read at each broadcast. *)
Context (clock : Engine -> Time).

(** ** Applying a plan *)

Record planBroadcasts := mkPlanBroadcasts {
  pb_deletedDomainEntries : list DomainEntryProjection;
  pb_deletedDNSRecords : list DNSRecord;
  pb_domainHosts : gmap string ();
  pb_dnsRecordIDs : gmap string ();
}.

(** The transaction and what will be broadcast after it. *)
Record PlanTx := mkPlanTx { px_txRepo : GormRepository; px_broadcasts : planBroadcasts }.

Definition on_tx {A} (m : go db A) : go PlanTx A :=
  zoom px_txRepo (fun r s => mkPlanTx r (px_broadcasts s)) (on_repo m).

Definition note (f : planBroadcasts -> planBroadcasts) : go PlanTx () :=
  modify (fun s => mkPlanTx (px_txRepo s) (f (px_broadcasts s))).

Definition note_host (hostname : string) (b : planBroadcasts) : planBroadcasts :=
  let hostname := TrimSpace hostname in
  if bool_decide (hostname = "") then b
  else mkPlanBroadcasts (pb_deletedDomainEntries b) (pb_deletedDNSRecords b)
         (<[hostname := tt]> (pb_domainHosts b)) (pb_dnsRecordIDs b).

Definition note_record (id : string) (b : planBroadcasts) : planBroadcasts :=
  let id := TrimSpace id in
  if bool_decide (id = "") then b
  else mkPlanBroadcasts (pb_deletedDomainEntries b) (pb_deletedDNSRecords b)
         (pb_domainHosts b) (<[id := tt]> (pb_dnsRecordIDs b)).

Definition note_deleted_entry (p : DomainEntryProjection) (b : planBroadcasts) : planBroadcasts :=
  mkPlanBroadcasts (pb_deletedDomainEntries b ++ [p]) (pb_deletedDNSRecords b)
    (pb_domainHosts b) (pb_dnsRecordIDs b).

Definition note_deleted_record (r : DNSRecord) (b : planBroadcasts) : planBroadcasts :=
  mkPlanBroadcasts (pb_deletedDomainEntries b) (pb_deletedDNSRecords b ++ [r])
    (pb_domainHosts b) (pb_dnsRecordIDs b).

(** The four loops over the changes have one shape: the [switch] on the
    action, an upsert followed by [upserted], or [deleting] followed by the
    deletion by key. *)
Definition apply_change {M} `{!Resource M} (field : string) (upserted deleting : M -> go PlanTx ())
    (change : Change M) : go PlanTx () :=
  if bool_decide (ch_Action change = PlanActionCreate) ||
     bool_decide (ch_Action change = PlanActionUpdate) then
    match ch_Desired change with
    | None => mret tt
    | Some desired => on_tx (UpsertResource desired) ≫= fun _ => upserted desired
    end
  else if bool_decide (ch_Action change = PlanActionDelete) then
    match ch_Current change with
    | None => mret tt
    | Some current =>
        deleting current ≫= fun _ => on_tx (DeleteResourceByField M field (res_key current))
    end
  else mret tt.

Definition nothing {M : Type} (_ : M) : go PlanTx () := mret tt.

(** [if current, err := ...; err == nil && current != nil] *)
Definition note_projection (d : DomainEndpoint) : go PlanTx () :=
  r ← attempt (on_tx (GetDomainEntryProjectionByDomain (de_Hostname d)));
  match r with
  | Ok current => note (note_deleted_entry current)
  | Err _ => mret tt
  end.

Definition apply_changes (plan : Plan) : go PlanTx () :=
  for_each (apply_change "id" nothing nothing) (pl_HTTPRoutes plan) ≫= fun _ =>
  for_each (apply_change "id" nothing nothing) (pl_ServiceBackendRefs plan) ≫= fun _ =>
  for_each (apply_change "hostname" (fun d => note (note_host (de_Hostname d))) note_projection)
    (pl_DomainEndpoints plan) ≫= fun _ =>
  for_each (apply_change "id" (fun r => note (note_record (dr_ID r)))
              (fun r => note (note_deleted_record r)))
    (pl_DNSRecords plan) ≫= fun _ =>
  note (note_host (pl_Hostname plan)).

(** From [Begin] to [Commit], with the deferred [Rollback]. *)
Definition plan_transaction (plan : Plan) (d : db) : db * result planBroadcasts :=
  match Begin (NewGormRepository d) with
  | (txRepo, Err e) => (gr_db txRepo, Err e)
  | (txRepo, Ok _) =>
      let start := mkPlanTx txRepo (mkPlanBroadcasts [] [] ∅ ∅) in
      let '(s, r) := (apply_changes plan ≫= fun _ =>
                      zoom px_txRepo (fun r s => mkPlanTx r (px_broadcasts s)) Commit) start in
      match r with
      | Ok _ => (gr_db (px_txRepo s), Ok (px_broadcasts s))
      | Err e => (gr_db ((Rollback (px_txRepo s)).1), Err e)
      end
  end.

(** A broadcast of the engine at the time of its clock. *)
Definition broadcast (m : Time -> go Engine ()) : go Master () :=
  on_Engine (fun e => m (clock e) e).

Definition notify_cert (hostname : string) : go Master () :=
  s ← get_state;
  match ms_Certs s with
  | None => mret tt
  | Some _ =>
      r ← attempt (on_Engine (on_Repo (GetDomainEndpointByHostname hostname)));
      match r with
      | Ok domain => if de_NeedCert domain then Notify hostname else mret tt
      | Err e => if bool_decide (e = ErrRecordNotFound) then mret tt else throw e
      end
  end.

(** After the commit. *)
Definition publish_plan (b : planBroadcasts) : go Master () :=
  for_each (fun entry => broadcast (fun now =>
      broadcastDeletedDomainEntry now (dp_Hostname entry) (set_dp_Deleted entry true)))
    (pb_deletedDomainEntries b) ≫= fun _ =>
  for_each (fun record => broadcast (fun now =>
      broadcastDeletedDNSRecord now (set_dr_Deleted record true)))
    (pb_deletedDNSRecords b) ≫= fun _ =>
  for_each (fun hostname => notify_cert hostname ≫= fun _ =>
      broadcast (fun now => BoardcastDomainEndpointProjection now hostname))
    (range (pb_domainHosts b)).*1 ≫= fun _ =>
  for_each (fun recordID => broadcast (fun now => BoardcastDNSRecord now recordID))
    (range (pb_dnsRecordIDs b)).*1.

Definition applyPlan (plan : Plan) : go Master () :=
  broadcasts ← on_Engine (on_Repo (plan_transaction plan));
  publish_plan broadcasts.

(** ** Handlers *)

(** Decode the request's body into a value of type [A]. *)
Definition decode {A} `{!Json A} (r : Request) : result A := j ← rq_Body r; json_Unmarshal j.

(** A handler: the response, and what it did to the master. *)
Definition handler := Request -> Master -> Master * Response.

(** Answer with the result of a call. *)
Definition respond {A} (m : go Master A) (ok : A -> Response) (err : error -> Response) (s : Master)
    : Master * Response :=
  let '(s', r) := m s in (s', match r with Ok a => ok a | Err e => err e end).

Definition server_error (e : error) : Response := http_Error e StatusInternalServerError.

Definition handlePlan : handler := fun r s =>
  if bool_decide (rq_Method r = "POST") then
    match decode (A:=Plan) r with
    | Err e => (s, http_Error e StatusBadRequest)
    | Ok plan => respond (applyPlan plan) (fun _ => writeJSON StatusOK plan) server_error s
    end
  else (s, method_not_allowed).

Definition handleDomainEntryProjectionQuery : handler := fun r s =>
  if bool_decide (rq_Method r = "GET") then
    let hostname := TrimSpace (rq_Query r "hostname") in
    if bool_decide (hostname = "")
    then (s, http_Error (errors_New "hostname is required") StatusBadRequest)
    else respond (on_Engine (on_Repo (GetDomainEntryProjectionByDomain hostname)))
           (writeJSON StatusOK) handleLookupError s
  else (s, method_not_allowed).

Definition handleDNSRecordsQuery : handler := fun r s =>
  if bool_decide (rq_Method r = "GET") then
    let fqdn := TrimSpace (rq_Query r "fqdn") in
    let recordType := TrimSpace (rq_Query r "record_type") in
    if bool_decide (fqdn = "") || bool_decide (recordType = "")
    then (s, http_Error (errors_New "fqdn and record_type are required") StatusBadRequest)
    else respond (on_Engine (on_Repo (ListDNSRecordsByQuestion fqdn recordType)))
           (writeJSON StatusOK) server_error s
  else (s, method_not_allowed).

(** The cases of the [switch resource] in the four resource handlers. *)
Definition list_rows (M : Type) `{!Resource M, !Json M} (s : Master) : Master * Response :=
  respond (on_Engine (on_Repo (ListResource M "id"))) (writeJSON StatusOK) server_error s.

Definition get_row (M : Type) `{!Resource M, !Json M} (id : string) (s : Master) : Master * Response :=
  respond (on_Engine (on_Repo (GetResourceByField M "id" id))) (writeJSON StatusOK)
    handleLookupError s.

Definition put_row {M : Type} `{!Resource M, !Json M} (set_key : M -> string -> M) (id : string)
    (r : Request) (s : Master) : Master * Response :=
  match decode (A:=M) r with
  | Err e => (s, http_Error e StatusBadRequest)
  | Ok item =>
      let item := set_key item id in
      respond (on_Engine (on_Repo (UpsertResource item))) (fun _ => writeJSON StatusOK item)
        server_error s
  end.

Definition delete_row (M : Type) `{!Resource M} (id : string) (s : Master) : Master * Response :=
  respond (on_Engine (on_Repo (DeleteResourceByField M "id" id)))
    (fun _ => mkResponse StatusNoContent NoBody) server_error s.

Definition unsupported (resource : string) : Response :=
  http_Error (Errorf "unsupported resource %q" [resource]) StatusBadRequest.

Definition set_de_Hostname (d : DomainEndpoint) (h : string) : DomainEndpoint :=
  mkDomainEndpoint (de_Shared d) h (de_NeedCert d) (de_BackendType d) (de_BindedServiceID d).
Definition set_sb_ID (b : ServiceBackendRef) (id : string) : ServiceBackendRef :=
  mkServiceBackendRef (sb_Shared b) id (sb_Type b) (sb_ArbitraryEndpoint b)
    (sb_ServiceNamespace b) (sb_ServiceName b) (sb_Port b).
Definition set_hr_ID (r : HTTPRoute) (id : string) : HTTPRoute :=
  mkHTTPRoute (hr_Shared r) id (hr_Hostname r) (hr_Path r) (hr_Priority r) (hr_BackendRefID r).

(** [switch resource] *)
Definition switch_resource {A} (resource : string) (domains refs routes dns default : A) : A :=
  if bool_decide (resource = "domain_endpoints") then domains
  else if bool_decide (resource = "service_backend_refs") then refs
  else if bool_decide (resource = "http_routes") then routes
  else if bool_decide (resource = "dns_records") then dns
  else default.

Definition handleListResource (resource : string) (s : Master) : Master * Response :=
  switch_resource resource (list_rows DomainEndpoint s) (list_rows ServiceBackendRef s)
    (list_rows HTTPRoute s) (list_rows DNSRecord s) (s, unsupported resource).

Definition handleGetResource (resource id : string) (s : Master) : Master * Response :=
  switch_resource resource (get_row DomainEndpoint id s) (get_row ServiceBackendRef id s)
    (get_row HTTPRoute id s) (get_row DNSRecord id s) (s, unsupported resource).

Definition handlePutResource (r : Request) (resource id : string) (s : Master) : Master * Response :=
  switch_resource resource (put_row set_de_Hostname id r s) (put_row set_sb_ID id r s)
    (put_row set_hr_ID id r s) (put_row set_dr_ID id r s) (s, unsupported resource).

Definition handleDeleteResource (resource id : string) (s : Master) : Master * Response :=
  switch_resource resource (delete_row DomainEndpoint id s) (delete_row ServiceBackendRef id s)
    (delete_row HTTPRoute id s) (delete_row DNSRecord id s) (s, unsupported resource).

Definition id_required : Response := http_Error (errors_New "resource id is required") StatusBadRequest.

Definition handleResource : handler := fun r s =>
  let '(resource, id) := parseManageResourcePath (rq_Path r) in
  if bool_decide (resource = "") then (s, http_NotFound)
  else if bool_decide (rq_Method r = "GET") then
    if bool_decide (id = "") then handleListResource resource s
    else handleGetResource resource id s
  else if bool_decide (rq_Method r = "PUT") then
    if bool_decide (id = "") then (s, id_required) else handlePutResource r resource id s
  else if bool_decide (rq_Method r = "DELETE") then
    if bool_decide (id = "") then (s, id_required) else handleDeleteResource resource id s
  else (s, method_not_allowed).

(** [newManageAPI]: the multiplexer. *)
Definition newManageAPI : handler := fun r s =>
  if bool_decide (rq_Path r = "/manage/plan") then handlePlan r s
  else if bool_decide (rq_Path r = "/manage/query/domain-entry-projection")
  then handleDomainEntryProjectionQuery r s
  else if bool_decide (rq_Path r = "/manage/query/dns-records") then handleDNSRecordsQuery r s
  else if HasPrefix (rq_Path r) "/manage/" then handleResource r s
  else (s, http_NotFound).

(** ** api.go *)

Definition SetHTTP01Challenge (token keyAuthorization : string) (s : Master) : Master :=
  set_http01 (registry_Set token keyAuthorization <$> ms_http01 s) s.
Definition DeleteHTTP01Challenge (token : string) (s : Master) : Master :=
  set_http01 (registry_Delete token <$> ms_http01 s) s.

Definition handleHealthz : handler := fun r s =>
  if bool_decide (rq_Method r = "GET") then (s, mkResponse StatusOK (Text ("ok" +:+ newline)))
  else (s, method_not_allowed).

Definition handleHTTP01Challenge : handler := fun r s =>
  if bool_decide (rq_Method r = "GET") || bool_decide (rq_Method r = "HEAD") then
    let token := TrimSpace (TrimPrefix (rq_Path r) "/.well-known/acme-challenge/") in
    if bool_decide (token = "") || Contains token "/" then (s, http_NotFound)
    else match ms_http01 s ≫= registry_Get token with
         | None => (s, http_NotFound)
         | Some keyAuth =>
             (s, mkResponse StatusOK (if bool_decide (rq_Method r = "HEAD") then NoBody
                                      else Text keyAuth))
         end
  else (s, method_not_allowed).

(** The multiplexer of [API.Handler]; [manage]: whether [SetManageHandler] was
    called. *)
Definition Handler (manage : bool) : handler := fun r s =>
  if bool_decide (rq_Path r = "/healthz") then handleHealthz r s
  else if HasPrefix (rq_Path r) "/.well-known/acme-challenge/" then handleHTTP01Challenge r s
  else if HasPrefix (rq_Path r) "/manage/" then
    if manage then newManageAPI r s
    else (s, http_Error (errors_New "not implemented") StatusNotImplemented)
  else (s, http_NotFound).

End manage.
