(* ===== verification/ManageFacts.v ===== *)
(** * Correctness of the manage API *)

From S2P Require Import Prelude GoStrings GoTime Metadata Gorm Repository RepositoryFacts.
From S2P Require Import Replication Hub MasterEngine MasterFacts MetadataJson Plan PlanFacts Acme ManageAPI.

Open Scope Z_scope.

(** The tables of the master's repository. *)
Abbreviation ms_tables s := (rows (en_Repo (ms_Engine s))).

Section facts.
Context {GM : GormModel} {GDB : Gorm Tables stmt stmt_effect} {BS : BundleStore} {MR : MapRange}.

Abbreviation tx_db s := (gr_db (px_txRepo s)).

(** ** The transaction is atomic *)

(** A transaction begun at tables [t0]: it can be rolled back to them, or it
    never started and nothing was written. *)
Definition tx_open (t0 : Tables) (s : PlanTx) : Prop :=
  gr_tx (px_txRepo s) = true /\
  match gr_err (px_txRepo s) with
  | None => saved (tx_db s) = Some t0
  | Some _ => rows (tx_db s) = t0
  end.

Lemma tx_open_on_tx {A} t0 (m : go db A) :
  (forall d, saved (m d).1 = saved d) -> preserves (tx_open t0) (on_tx m).
Proof.
  intros Hm [r b] [Htx Hs]. unfold on_tx, zoom, on_repo. cbn in *. specialize (Hm (gr_db r)).
  destruct (gr_err r) as [e|] eqn:E; cbn.
  - split; [done|]. cbn. by rewrite E.
  - destruct (m (gr_db r)) as [d res]; cbn in *. split; [done|]. cbn. congruence.
Qed.

Lemma exec_stmt_saved s d : saved (exec_stmt s d).1 = saved d.
Proof.
  unfold exec_stmt, mbind, go_bind. pose proof (exec_saved s d) as H.
  by destruct (exec s d) as [d' [id|e]].
Qed.

Lemma get_projection_saved h d : saved (GetDomainEntryProjectionByDomain h d).1 = saved d.
Proof.
  unfold GetDomainEntryProjectionByDomain, mbind, go_bind.
  pose proof (select_saved (projection_rows h) projection_leb d) as H.
  by destruct (select _ _ d) as [d' [[|r l]|e]].
Qed.

(** What every step of the plan keeps, the plan keeps. *)
Section preservation.
Context (P : PlanTx -> Prop).
Context (Hexec : forall st, preserves P (on_tx (exec_stmt st))).
Context (Hread : forall h, preserves P (on_tx (GetDomainEntryProjectionByDomain h))).
Context (Hhost : forall h, preserves P (note (note_host h))).
Context (Hrecord : forall id, preserves P (note (note_record id))).
Context (Hentry : forall p, preserves P (note (note_deleted_entry p))).
Context (Hdeleted : forall r, preserves P (note (note_deleted_record r))).

Lemma change_preserves {M} {R : Resource M} field (up del : M -> go PlanTx ()) c :
  (forall x, preserves P (up x)) -> (forall x, preserves P (del x)) ->
  preserves P (apply_change field up del c).
Proof.
  intros Hup Hdel. unfold apply_change.
  destruct (_ || _); [destruct (ch_Desired c)|destruct (bool_decide _); [destruct (ch_Current c)|]];
    try apply preserves_ret; apply preserves_bind; intros; auto; apply Hexec.
Qed.

Lemma note_projection_preserves d : preserves P (note_projection d).
Proof.
  apply preserves_bind; [apply preserves_attempt, Hread|].
  intros [p|e]; [apply Hentry|apply preserves_ret].
Qed.

Lemma changes_preserve plan : preserves P (apply_changes plan).
Proof.
  unfold apply_changes.
  repeat (apply preserves_bind; [apply preserves_for_each; intros c _; apply change_preserves;
    intros x; auto using note_projection_preserves; apply preserves_ret|intros _]).
  apply Hhost.
Qed.

End preservation.

Lemma tx_open_changes t0 plan : preserves (tx_open t0) (apply_changes plan).
Proof.
  apply changes_preserve; [intros st|intros h|by intros f s H..]; apply tx_open_on_tx; intros d;
    [apply exec_stmt_saved|apply get_projection_saved].
Qed.

Lemma plan_start t0 d txRepo r :
  rows d = t0 -> Begin (NewGormRepository d) = (txRepo, r) ->
  r = Ok tt /\ tx_open t0 (mkPlanTx txRepo (mkPlanBroadcasts [] [] ∅ ∅)) /\ rows (gr_db txRepo) = t0.
Proof.
  intros <-. unfold Begin. cbn. pose proof (begin_rows d) as Hr. pose proof (begin_ok d) as Hok.
  destruct (begin_tx d) as [d' [[]|e]]; intros [= <- <-]; unfold tx_open; cbn in *; eauto.
Qed.

Lemma plan_rollback d plan d' e :
  plan_transaction plan d = (d', Err e) -> rows d' = rows d.
Proof.
  unfold plan_transaction. destruct (Begin _) as [txRepo r] eqn:HB.
  apply (plan_start (rows d)) in HB as (-> & Hopen & _); [|done].
  pose proof (tx_open_changes (rows d) plan _ Hopen) as H1. cbv [mbind go_bind].
  destruct (apply_changes plan _) as [s1 [[]|e1]]; cbn in H1.
  - unfold zoom, Commit. destruct H1 as [Htx Hs]. rewrite Htx.
    destruct (gr_err (px_txRepo s1)) as [e1|] eqn:E; cbn.
    + unfold Rollback. rewrite Htx, E. by intros [= <- _].
    + pose proof (commit_err (tx_db s1)) as Hc.
      destruct (commit_tx (tx_db s1)) as [d2 [[]|e2]]; cbn; [done|].
      intros [= <- _]. apply rollback_rows. cbn in Hc |- *. by rewrite (Hc e2 eq_refl).
  - intros [= <- _]. unfold Rollback. destruct H1 as [Htx Hs]. rewrite Htx.
    destruct (gr_err (px_txRepo s1)) as [e2|]; cbn; [done|]. by apply rollback_rows.
Qed.

(** ** What a committed plan did to a table *)

Section table.
Context {M : Type} {R : Resource M}.
Implicit Types (m : gmap string M) (cs : list (Change M)).

(** No live row. *)
Definition dead m (id : string) : Prop := forall r, m !! id = Some r -> res_deleted r = true.

(** [m'] is [m] after the changes: rows no change is about are as before, the
    others are as the last change about them says, up to what gorm adds. *)
Definition rows_after m cs m' : Prop := forall id,
  match outcome cs id with
  | None => m' !! id = m !! id
  | Some (Some d) => exists old, m' !! id = Some (stored old d)
  | Some None => dead m' id
  end.

Lemma rows_after_app m cs1 m1 cs2 m2 :
  rows_after m cs1 m1 -> rows_after m1 cs2 m2 -> rows_after m (cs1 ++ cs2) m2.
Proof.
  intros H1 H2 id. specialize (H1 id). specialize (H2 id). rewrite outcome_app.
  destruct (outcome cs2 id) as [[d|]|]; [done..|].
  destruct (outcome cs1 id) as [[d|]|]; unfold dead in *; by rewrite H2.
Qed.

Lemma rows_after_upsert m o a d :
  a = PlanActionCreate \/ a = PlanActionUpdate ->
  rows_after m [mkChange a o (Some d)] (<[res_key d := stored (m !! res_key d) d]> m).
Proof.
  intros Ha id. unfold outcome. cbn [foldl].
  destruct Ha as [-> | ->]; rewrite ?change_outcome_create, ?change_outcome_update;
    (case_bool_decide as E; [subst; rewrite lookup_insert_eq; eauto|by rewrite lookup_insert_ne]).
Qed.

Lemma rows_after_delete `{!ResourceLaws M} m r o :
  keyed m ->
  rows_after m [mkChange PlanActionDelete (Some r) o]
    ((fun x => if live_where res_key (res_key r) x then res_delete x else x) <$> m).
Proof.
  intros Hm id. unfold outcome. cbn [foldl]. rewrite change_outcome_delete.
  case_bool_decide as E.
  - intros x. rewrite lookup_fmap. intros (y & Hy & ->)%fmap_Some. unfold live_where.
    rewrite (Hm _ _ Hy), bool_decide_eq_true_2, andb_true_r by done.
    destruct (res_deleted y) eqn:Ed; cbn; [done|]. apply res_delete_deleted.
  - rewrite lookup_fmap. destruct (m !! id) as [y|] eqn:Hy; [|done]. cbn. unfold live_where.
    rewrite (Hm _ _ Hy), bool_decide_eq_false_2, andb_false_r by congruence. done.
Qed.

(** Nothing but the table of [M] changed, and that as the changes say. *)
Definition table_after cs (t t' : Tables) : Prop :=
  exists m', t' = res_put m' t /\ keyed m' /\ rows_after (res_get t) cs m'.

End table.

(** A computation in the transaction that writes nothing. *)
Definition quiet {A} (m : go PlanTx A) : Prop := forall s,
  rows (tx_db (m s).1) = rows (tx_db s) /\ gr_err (px_txRepo (m s).1) = gr_err (px_txRepo s).

Lemma quiet_note f : quiet (note f).
Proof. done. Qed.

Lemma quiet_projection d : quiet (note_projection d).
Proof.
  intros [r b]. unfold note_projection. cbv [mbind go_bind attempt on_tx zoom on_repo]. cbn.
  destruct (gr_err r) as [e|] eqn:E; [done|].
  pose proof (get_projection_rows (de_Hostname d) (gr_db r)) as H.
  by destruct (GetDomainEntryProjectionByDomain _ _) as [d' [p|e]].
Qed.

(** A statement in a transaction that is open. *)
Lemma on_tx_exec st s s' :
  gr_err (px_txRepo s) = None -> on_tx (exec_stmt st) s = (s', Ok tt) ->
  gr_err (px_txRepo s') = None /\ exists id, stmt_effect st id (rows (tx_db s)) = Ok (rows (tx_db s')).
Proof.
  destruct s as [r b]. cbn. unfold on_tx, zoom, on_repo. cbn. intros ->.
  destruct (exec_stmt st (gr_db r)) as [d' res] eqn:E. intros [= <- ->]. cbn. split; [done|].
  by eapply exec_stmt_ok.
Qed.

Lemma apply_change_after {M} {R : Resource M} field (up del : M -> go PlanTx ()) c s s' :
  known M R -> find_column (M:=M) field = Ok res_key ->
  (forall x, quiet (up x)) -> (forall x, quiet (del x)) ->
  gr_err (px_txRepo s) = None -> tables_wf (rows (tx_db s)) ->
  apply_change field up del c s = (s', Ok tt) ->
  gr_err (px_txRepo s') = None /\ table_after [c] (rows (tx_db s)) (rows (tx_db s')).
Proof.
  intros Hk Hf Hup Hdel He Hwf. pose proof (known_laws _ _ Hk) as HL.
  pose proof (get_keyed _ _ _ Hk Hwf) as Hkeyed. unfold apply_change.
  assert (forall s, gr_err (px_txRepo s) = None -> (forall id, outcome [c] id = None) ->
    rows (tx_db s) = rows (tx_db s) -> keyed (res_get (M:=M) (rows (tx_db s))) ->
    table_after [c] (rows (tx_db s)) (rows (tx_db s))) as Hid.
  { intros s0 _ Ho _ Hk0. exists (res_get (rows (tx_db s0))). split_and!; [by rewrite res_put_get|done|].
    intros id. by rewrite Ho. }
  destruct c as [a cur des]. cbn [ch_Action ch_Current ch_Desired].
  destruct (bool_decide (a = PlanActionCreate) || bool_decide (a = PlanActionUpdate)) eqn:Ea.
  - destruct des as [d|].
    + intros (s1 & [] & H1 & H2)%go_bind_Ok.
      apply on_tx_exec in H1 as (He1 & id & H1); [|done]. cbn in H1. injection H1 as H1.
      destruct (Hup d s1) as [Hr Hg]. rewrite H2 in Hr, Hg. cbn in Hr, Hg.
      split; [congruence|]. exists (<[res_key d := stored (res_get (rows (tx_db s)) !! res_key d) d]>
        (res_get (rows (tx_db s)))). split_and!; [congruence|by apply keyed_insert|].
      apply rows_after_upsert. apply orb_true_iff in Ea as [Ea|Ea];
        apply bool_decide_eq_true in Ea; auto.
    + intros [= <-]. split; [done|]. apply Hid; try done. intros id. unfold outcome, change_outcome. cbn.
      by rewrite Ea.
  - destruct (bool_decide (a = PlanActionDelete)) eqn:Ed.
    + apply bool_decide_eq_true in Ed as ->. destruct cur as [r|].
      * intros (s1 & [] & H1 & H2)%go_bind_Ok. destruct (Hdel r s) as [Hr Hg].
        rewrite H1 in Hr, Hg. cbn in Hr, Hg.
        apply on_tx_exec in H2 as (He1 & id & H2); [|congruence]. split; [done|].
        rewrite Hr in H2. cbn in H2. rewrite Hf in H2. cbn in H2. injection H2 as H2.
        eexists. split_and!; [symmetry; exact H2|by apply keyed_fmap|by apply rows_after_delete].
      * intros [= <-]. split; [done|]. by apply Hid.
    + intros [= <-]. split; [done|]. apply Hid; try done. intros id.
      unfold outcome, change_outcome. cbn. by rewrite Ea, Ed.
Qed.

Lemma res_put_put M (R : Resource M) m1 m2 t :
  known M R -> res_put m2 (res_put m1 t) = res_put m2 t.
Proof. by destruct 1. Qed.

Lemma table_after_app {M} {R : Resource M} cs1 cs2 t t1 t2 :
  known M R -> table_after (R:=R) cs1 t t1 -> table_after (R:=R) cs2 t1 t2 ->
  table_after (R:=R) (cs1 ++ cs2) t t2.
Proof.
  intros Hk (m1 & -> & Hk1 & H1) (m2 & -> & Hk2 & H2). pose proof (known_laws _ _ Hk) as HL.
  exists m2. rewrite res_put_put by done. split_and!; [done..|].
  rewrite res_get_put in H2. by eapply rows_after_app.
Qed.

Lemma table_after_nil {M} {R : Resource M} t :
  known M R -> tables_wf t -> table_after (R:=R) [] t t.
Proof.
  intros Hk Hwf. pose proof (known_laws _ _ Hk) as HL. exists (res_get t).
  by split_and!; [rewrite res_put_get|apply get_keyed|].
Qed.

Lemma table_after_wf {M} {R : Resource M} cs t t' :
  known M R -> table_after (R:=R) cs t t' -> tables_wf t -> tables_wf t'.
Proof. intros Hk (m & -> & Hm & _) Hwf. by apply put_wf. Qed.

Lemma apply_loop_after {M} {R : Resource M} field (up del : M -> go PlanTx ()) cs s s' :
  known M R -> find_column (M:=M) field = Ok res_key ->
  (forall x, quiet (up x)) -> (forall x, quiet (del x)) ->
  gr_err (px_txRepo s) = None -> tables_wf (rows (tx_db s)) ->
  for_each (apply_change field up del) cs s = (s', Ok tt) ->
  gr_err (px_txRepo s') = None /\ tables_wf (rows (tx_db s')) /\
  table_after cs (rows (tx_db s)) (rows (tx_db s')).
Proof.
  intros Hk Hf Hup Hdel. revert s. induction cs as [|c cs IH]; intros s He Hwf; cbn.
  - intros [= <-]. eauto using table_after_nil.
  - intros (s1 & [] & H1 & H2)%go_bind_Ok.
    apply apply_change_after in H1 as [He1 Ht1]; [|done..].
    apply IH in H2 as (He2 & Hwf2 & Ht2); [|done|by eapply table_after_wf].
    split_and!; [done..|]. by apply (table_after_app [c] cs _ _ _ Hk Ht1).
Qed.

(** The tables after a committed plan: each of the four as its changes say. *)
Definition plan_after (plan : Plan) (t t' : Tables) : Prop :=
  rows_after (tb_routes t) (pl_HTTPRoutes plan) (tb_routes t') /\
  rows_after (tb_backends t) (pl_ServiceBackendRefs plan) (tb_backends t') /\
  rows_after (tb_domains t) (pl_DomainEndpoints plan) (tb_domains t') /\
  rows_after (tb_dns t) (pl_DNSRecords plan) (tb_dns t') /\
  tb_certs t' = tb_certs t.

Lemma apply_changes_after plan s s' :
  gr_err (px_txRepo s) = None -> tables_wf (rows (tx_db s)) ->
  apply_changes plan s = (s', Ok tt) ->
  gr_err (px_txRepo s') = None /\ tables_wf (rows (tx_db s')) /\
  plan_after plan (rows (tx_db s)) (rows (tx_db s')) /\
  tb_snapshots (rows (tx_db s')) = tb_snapshots (rows (tx_db s)).
Proof.
  intros He Hwf. unfold apply_changes.
  intros (s1 & [] & H1 & (s2 & [] & H2 & (s3 & [] & H3 & (s4 & [] & H4 & H5)%go_bind_Ok)%go_bind_Ok)%go_bind_Ok)%go_bind_Ok.
  apply apply_loop_after in H1 as (He1 & Hwf1 & m1 & E1 & _ & Hm1);
    [|constructor|done|by intros x y..|done|done].
  apply apply_loop_after in H2 as (He2 & Hwf2 & m2 & E2 & _ & Hm2);
    [|constructor|done|by intros x y..|done|done].
  apply apply_loop_after in H3 as (He3 & Hwf3 & m3 & E3 & _ & Hm3);
    [|constructor|done|intros x; apply quiet_note|intros x; apply quiet_projection|done|done].
  apply apply_loop_after in H4 as (He4 & Hwf4 & m4 & E4 & _ & Hm4);
    [|constructor|done|intros x; apply quiet_note|intros x; apply quiet_note|done|done].
  injection H5 as <-. cbn. rewrite E4, E3, E2, E1 in *. unfold plan_after. cbn in *. done.
Qed.

Lemma apply_changes_err plan s :
  gr_err (px_txRepo (apply_changes plan s).1) = gr_err (px_txRepo s).
Proof.
  pose (P := fun s0 => gr_err (px_txRepo s0) = gr_err (px_txRepo s)).
  assert (forall A (m : go db A), preserves P (on_tx m)) as Htx.
  { intros A m [r b] H. unfold P, on_tx, zoom, on_repo in *. cbn in *.
    destruct (gr_err r) eqn:E; cbn; [by rewrite E|by destruct (m (gr_db r))]. }
  apply (changes_preserve P); try done; try (by intros f s0 H); intros; apply Htx.
Qed.

(** A committed plan. *)
Lemma plan_committed d plan d' b :
  tables_wf (rows d) -> plan_transaction plan d = (d', Ok b) ->
  plan_after plan (rows d) (rows d') /\ tables_wf (rows d') /\
  tb_snapshots (rows d') = tb_snapshots (rows d) /\ saved d' = None.
Proof.
  intros Hwf. unfold plan_transaction. destruct (Begin _) as [txRepo r] eqn:HB.
  apply (plan_start (rows d)) in HB as (-> & Hopen & Hrows); [|done].
  set (start := mkPlanTx _ _) in *. pose proof (apply_changes_err plan start) as Herr.
  pose proof (tx_open_changes (rows d) plan _ Hopen) as H1. cbv [mbind go_bind].
  pose proof (apply_changes_after plan start) as Hafter.
  destruct (apply_changes plan start) as [s1 [[]|e1]]; [|done]. cbn in Herr, H1.
  unfold zoom, Commit. destruct H1 as [Htx Hs]. rewrite Htx.
  destruct (gr_err (px_txRepo s1)) as [e1|] eqn:E; [done|].
  pose proof (commit_ok (tx_db s1)) as Hok. pose proof (commit_rows (tx_db s1)) as Hcr.
  destruct (commit_tx (tx_db s1)) as [d2 [[]|e2]]; [|done]. intros [= <- <-]. cbn in *.
  rewrite Hcr. rewrite Hrows in Hafter. destruct (Hafter s1) as (_ & Hwf' & Hp & Hlog); [done..|].
  by rewrite (Hok eq_refl).
Qed.

(** ** What a committed plan will broadcast *)

Lemma for_each_reaches {S A} (P : S -> Prop) (body : A -> go S ()) l a s s' :
  for_each body l s = (s', Ok tt) -> a ∈ l ->
  (forall s s', body a s = (s', Ok tt) -> P s') -> (forall x, preserves P (body x)) -> P s'.
Proof.
  intros Hrun Ha Hreach Hpres. revert s Hrun.
  induction l as [|x l IH]; [by apply elem_of_nil in Ha|]. cbn.
  intros s (s1 & [] & H1 & H2)%go_bind_Ok. apply elem_of_cons in Ha as [->|Ha]; [|by eapply IH].
  apply Hreach in H1. pose proof (preserves_for_each P body l) as Hp.
  specialize (Hp (fun x _ => Hpres x) s1 H1). by rewrite H2 in Hp.
Qed.

(** Changes that write a row, and changes that delete one. *)
Definition upserts {M} (c : Change M) (d : M) : Prop :=
  (ch_Action c = PlanActionCreate \/ ch_Action c = PlanActionUpdate) /\ ch_Desired c = Some d.
Definition deletes {M} (c : Change M) (r : M) : Prop :=
  ch_Action c = PlanActionDelete /\ ch_Current c = Some r.

Lemma apply_upserts {M} {R : Resource M} field (up del : M -> go PlanTx ()) c d s s' :
  upserts c d -> apply_change field up del c s = (s', Ok tt) -> exists s1, up d s1 = (s', Ok tt).
Proof.
  intros [Ha Hd]. unfold apply_change.
  assert (bool_decide (ch_Action c = PlanActionCreate) ||
          bool_decide (ch_Action c = PlanActionUpdate) = true) as ->.
  { apply orb_true_iff. rewrite !bool_decide_eq_true. done. }
  rewrite Hd. intros (s1 & [] & _ & H)%go_bind_Ok. eauto.
Qed.

Lemma apply_deletes {M} {R : Resource M} field (up del : M -> go PlanTx ()) c r s s' :
  deletes c r -> apply_change field up del c s = (s', Ok tt) ->
  exists s1, del r s = (s1, Ok tt) /\ px_broadcasts s' = px_broadcasts s1.
Proof.
  intros [Ha Hr]. unfold apply_change. rewrite Ha, Hr. cbn.
  intros (s1 & [] & H1 & H2)%go_bind_Ok. exists s1. split; [done|].
  revert H2. unfold on_tx, zoom, on_repo. destruct (gr_err _); [done|].
  destruct (DeleteResourceByField _ _ _ _). by intros [= <-].
Qed.

(** Properties of the broadcasts noted so far that later notes keep. *)
Definition notes (P : planBroadcasts -> Prop) (s : PlanTx) : Prop := P (px_broadcasts s).

Definition kept (P : planBroadcasts -> Prop) : Prop :=
  (forall h b, P b -> P (note_host h b)) /\ (forall id b, P b -> P (note_record id b)) /\
  (forall p b, P b -> P (note_deleted_entry p b)) /\ (forall r b, P b -> P (note_deleted_record r b)).

Lemma notes_on_tx {A} P (m : go db A) : preserves (notes P) (on_tx m).
Proof.
  intros [r b] H. unfold notes, on_tx, zoom, on_repo in *. cbn.
  destruct (gr_err r); [done|by destruct (m (gr_db r))].
Qed.

Lemma notes_change {M} {R : Resource M} P field (up del : M -> go PlanTx ()) c :
  (forall x, preserves (notes P) (up x)) -> (forall x, preserves (notes P) (del x)) ->
  preserves (notes P) (apply_change field up del c).
Proof. intros Hu Hd. apply change_preserves; try done; intros; apply notes_on_tx. Qed.

Lemma kept_record id : kept (fun b => is_Some (pb_dnsRecordIDs b !! id)).
Proof.
  split_and!; try done; intros x b H.
  - unfold note_host. by case_match.
  - unfold note_record. case_match; [done|]. cbn.
    destruct (decide (TrimSpace x = id)) as [->|Hne];
      [rewrite lookup_insert_eq|rewrite lookup_insert_ne by done]; eauto.
Qed.

Lemma kept_host h : kept (fun b => is_Some (pb_domainHosts b !! h)).
Proof.
  split_and!; try done; intros x b H.
  - unfold note_host. case_match; [done|]. cbn.
    destruct (decide (TrimSpace x = h)) as [->|Hne];
      [rewrite lookup_insert_eq|rewrite lookup_insert_ne by done]; eauto.
  - unfold note_record. by case_match.
Qed.

Lemma kept_deleted r : kept (fun b => r ∈ pb_deletedDNSRecords b).
Proof.
  split_and!; try done; intros x b H.
  - unfold note_host. by case_match.
  - unfold note_record. by case_match.
  - unfold note_deleted_record. cbn. set_solver.
Qed.

(** What the broadcasts of a plan contain once every change was applied. *)
Definition plan_noted (plan : Plan) (b : planBroadcasts) : Prop :=
  (forall c r, c ∈ pl_DNSRecords plan -> upserts c r -> TrimSpace (dr_ID r) <> "" ->
     is_Some (pb_dnsRecordIDs b !! TrimSpace (dr_ID r))) /\
  (forall c r, c ∈ pl_DNSRecords plan -> deletes c r -> r ∈ pb_deletedDNSRecords b) /\
  (forall c d, c ∈ pl_DomainEndpoints plan -> upserts c d -> TrimSpace (de_Hostname d) <> "" ->
     is_Some (pb_domainHosts b !! TrimSpace (de_Hostname d))) /\
  (TrimSpace (pl_Hostname plan) <> "" -> is_Some (pb_domainHosts b !! TrimSpace (pl_Hostname plan))).

Lemma note_record_in id b :
  TrimSpace id <> "" -> is_Some (pb_dnsRecordIDs (note_record id b) !! TrimSpace id).
Proof.
  intros H. unfold note_record. rewrite bool_decide_eq_false_2 by done. cbn.
  rewrite lookup_insert_eq. eauto.
Qed.

Lemma note_host_in h b :
  TrimSpace h <> "" -> is_Some (pb_domainHosts (note_host h b) !! TrimSpace h).
Proof.
  intros H. unfold note_host. rewrite bool_decide_eq_false_2 by done. cbn.
  rewrite lookup_insert_eq. eauto.
Qed.

Lemma dns_loop_keeps P c : kept P ->
  preserves (notes P) (apply_change "id" (fun r => note (note_record (dr_ID r)))
                         (fun r => note (note_deleted_record r)) c).
Proof. intros (Hh & Hr & He & Hd). apply notes_change; intros x s H; [by apply Hr|by apply Hd]. Qed.

Lemma apply_changes_noted plan s s' :
  apply_changes plan s = (s', Ok tt) -> plan_noted plan (px_broadcasts s').
Proof.
  unfold apply_changes.
  intros (s1 & [] & _ & (s2 & [] & _ & (s3 & [] & H3 & (s4 & [] & H4 & [= <-])%go_bind_Ok)%go_bind_Ok)%go_bind_Ok)%go_bind_Ok.
  cbn. unfold plan_noted. split_and!.
  - intros c r Hc Hu Hne. apply kept_record.
    apply (for_each_reaches (notes (fun b => is_Some (pb_dnsRecordIDs b !! TrimSpace (dr_ID r)))) _ _ c _ _ H4 Hc).
    + intros t t' (t1 & [= <-])%(apply_upserts _ _ _ _ _ _ _ Hu). by apply note_record_in.
    + intros x. apply dns_loop_keeps, kept_record.
  - intros c r Hc Hu. apply kept_deleted.
    apply (for_each_reaches (notes (fun b => r ∈ pb_deletedDNSRecords b)) _ _ c _ _ H4 Hc).
    + intros t t' (t1 & [= <-] & Hb)%(apply_deletes _ _ _ _ _ _ _ Hu). unfold notes. rewrite Hb. cbn.
      set_solver.
    + intros x. apply dns_loop_keeps, kept_deleted.
  - intros c d Hc Hu Hne. apply kept_host.
    set (P := fun b => is_Some (pb_domainHosts b !! TrimSpace (de_Hostname d))).
    assert (notes P s3) as Hs3.
    { apply (for_each_reaches (notes P) _ _ c _ _ H3 Hc).
      - intros t t' (t1 & [= <-])%(apply_upserts _ _ _ _ _ _ _ Hu). by apply note_host_in.
      - intros x. apply notes_change; intros y.
        + intros t Ht. by apply kept_host.
        + apply note_projection_preserves; [intros; apply notes_on_tx|].
          intros p t Ht. by apply kept_host. }
    pose proof (preserves_for_each (notes P) _ (pl_DNSRecords plan)
      (fun c _ => dns_loop_keeps P c (kept_host _)) s3 Hs3) as Hs4.
    by rewrite H4 in Hs4.
  - apply note_host_in.
Qed.

(** ** Publishing *)

(** The tables are as before except for records appended to the log. *)
Definition grows (t t' : Tables) : Prop :=
  tb_domains t' = tb_domains t /\ tb_backends t' = tb_backends t /\ tb_routes t' = tb_routes t /\
  tb_dns t' = tb_dns t /\ tb_certs t' = tb_certs t /\
  exists new, tb_snapshots t' = tb_snapshots t ++ new.

(** A record of the log between [t] and [t']. *)
Definition logged (t t' : Tables) (syncType syncID : string) (action : SnapshotAction) : Prop :=
  exists new record, tb_snapshots t' = tb_snapshots t ++ new /\ record ∈ new /\
    sr_SyncType record = syncType /\ sr_SyncID record = syncID /\ sr_Action record = action.

#[local] Instance grows_preorder : PreOrder grows.
Proof.
  split.
  - intros t. unfold grows. split_and!; try done. exists []. by rewrite app_nil_r.
  - intros t1 t2 t3 (?&?&?&?&?& n1 & E1) (?&?&?&?&?& n2 & E2). unfold grows.
    split_and!; try congruence. exists (n1 ++ n2). by rewrite E2, E1, app_assoc.
Qed.

Lemma logged_grows t0 t1 t2 t3 syncType syncID action :
  grows t0 t1 -> logged t1 t2 syncType syncID action -> grows t2 t3 ->
  logged t0 t3 syncType syncID action.
Proof.
  intros (_&_&_&_&_& n1 & E1) (n2 & record & E2 & Hin & Hr) (_&_&_&_&_& n3 & E3).
  exists (n1 ++ n2 ++ n3), record. split; [|split; [set_solver|done]].
  by rewrite E3, E2, E1, !app_assoc.
Qed.

Lemma published_grows action e e' syncType syncID n :
  tables_wf (rows (en_Repo e)) -> published_as action e e' syncType syncID n ->
  grows (rows (en_Repo e)) (rows (en_Repo e')) /\ tables_wf (rows (en_Repo e')) /\
  logged (rows (en_Repo e)) (rows (en_Repo e')) syncType syncID action.
Proof.
  intros Hwf (record & Hrows & Hty & Hid & Hact & _ & Hlt & _). rewrite Hrows. split_and!.
  - unfold grows. cbn. split_and!; try done. by eexists.
  - destruct Hwf as (?&?&?&?&?& Hlog). repeat split; try done. cbn. by apply StronglySorted_snoc.
  - exists [record], record. split_and!; try done. set_solver.
Qed.

(** A call that only publishes: the log grows, and [Q] holds when it succeeds. *)
Definition publishes (m : go Master ()) (Q : Tables -> Tables -> Prop) : Prop := forall s,
  tables_wf (ms_tables s) ->
  grows (ms_tables s) (ms_tables (m s).1) /\ tables_wf (ms_tables (m s).1) /\
  ((m s).2 = Ok tt -> Q (ms_tables s) (ms_tables (m s).1)).

(** What stays true when the log grows before and after. *)
Definition stable (Q : Tables -> Tables -> Prop) : Prop := forall t0 t1 t2 t3,
  grows t0 t1 -> Q t1 t2 -> grows t2 t3 -> Q t0 t3.

Lemma publishes_bind m k Q1 Q2 :
  stable Q1 -> stable Q2 -> publishes m Q1 -> publishes k Q2 ->
  publishes (m ≫= fun _ => k) (fun t t' => Q1 t t' /\ Q2 t t').
Proof.
  intros HQ1 HQ2 Hm Hk s Hwf. specialize (Hm s Hwf). cbv [mbind go_bind].
  destruct (m s) as [s1 [[]|e]]; cbn in Hm; destruct Hm as (Hg & Hwf1 & Hq); [|done].
  specialize (Hk s1 Hwf1). destruct (k s1) as [s2 r]; cbn in *. destruct Hk as (Hg2 & Hwf2 & Hq2).
  split_and!; [by etrans|done|]. intros Hr. split.
  - eapply HQ1; [reflexivity|by apply Hq|done].
  - eapply HQ2; [exact Hg|by apply Hq2|reflexivity].
Qed.

Lemma publishes_for_each {A} (body : A -> go Master ()) (Q : A -> Tables -> Tables -> Prop) l :
  (forall a, stable (Q a)) -> (forall a, publishes (body a) (Q a)) ->
  publishes (for_each body l) (fun t t' => forall a, a ∈ l -> Q a t t').
Proof.
  intros HQ Hb. induction l as [|a l IH]; cbn.
  - intros s Hwf. cbn. split_and!; [reflexivity|done|]. intros _ a Ha. by apply elem_of_nil in Ha.
  - assert (stable (fun t t' => forall a, a ∈ l -> Q a t t')) as Hs
      by (intros t0 t1 t2 t3 H1 H H2 x Hx; by eapply HQ; eauto).
    intros s Hwf. destruct (publishes_bind _ _ _ _ (HQ a) Hs (Hb a) IH s Hwf) as (Hg & Hwf' & Hq).
    split_and!; [done..|]. intros Hr. destruct (Hq Hr) as [Ha Hl].
    intros x [->|Hx]%elem_of_cons; auto.
Qed.

Lemma publishes_broadcast clock (m : Time -> go Engine ()) Q :
  (forall e now, tables_wf (rows (en_Repo e)) ->
     let '(e', r) := m now e in
     grows (rows (en_Repo e)) (rows (en_Repo e')) /\ tables_wf (rows (en_Repo e')) /\
     (r = Ok tt -> Q (rows (en_Repo e)) (rows (en_Repo e')))) ->
  publishes (broadcast clock m) Q.
Proof.
  intros Hm s Hwf. unfold broadcast, on_Engine, zoom. cbn.
  specialize (Hm (ms_Engine s) (clock (ms_Engine s)) Hwf).
  by destruct (m _ (ms_Engine s)) as [e' r].
Qed.

(** A row is published when it is live. *)
Definition dns_published (id : string) (t t' : Tables) : Prop :=
  live_row (M:=DNSRecord) t id = None \/
  logged t t' SnapshotSyncTypeDNSRecord id SnapshotActionUpsert.

Definition domain_published (h : string) (t t' : Tables) : Prop :=
  live_row (M:=DomainEndpoint) t h = None \/
  logged t t' SnapshotSyncTypeDomainEntryProjection h SnapshotActionUpsert.

Lemma stable_logged ty id action : stable (fun t t' => logged t t' ty id action).
Proof. intros t0 t1 t2 t3. by apply logged_grows. Qed.

Lemma stable_published_dns id : stable (dns_published id).
Proof.
  intros t0 t1 t2 t3 Hg [Hn|Hl] Hg'; [left|right; by eapply logged_grows].
  destruct Hg as (_&_&_& E &_). revert Hn. unfold live_row. cbn. by rewrite E.
Qed.

Lemma stable_published_domain h : stable (domain_published h).
Proof.
  intros t0 t1 t2 t3 Hg [Hn|Hl] Hg'; [left|right; by eapply logged_grows].
  destruct Hg as (E &_). revert Hn. unfold live_row. cbn. by rewrite E.
Qed.

Lemma untouched_grows e e' :
  tables_wf (rows (en_Repo e)) -> untouched e e' ->
  grows (rows (en_Repo e)) (rows (en_Repo e')) /\ tables_wf (rows (en_Repo e')).
Proof. intros Hwf [E _]. rewrite E. by split. Qed.

Lemma publishes_dns clock id :
  publishes (broadcast clock (fun now => BoardcastDNSRecord now id)) (dns_published id).
Proof.
  apply publishes_broadcast. intros e now Hwf. pose proof (boardcast_dns_cases now id e Hwf) as H.
  destruct (BoardcastDNSRecord now id e) as [e' [[]|er]].
  - destruct H as [[Hn Hu]|(record & logid & Hl & Hp)].
    + destruct (untouched_grows _ _ Hwf Hu). split_and!; [done..|]. by left.
    + destruct (published_grows _ _ _ _ _ _ Hwf Hp) as (?&?&?). split_and!; [done..|]. by right.
  - destruct (untouched_grows _ _ Hwf H). by split_and!.
Qed.

Lemma publishes_domain clock h :
  publishes (broadcast clock (fun now => BoardcastDomainEndpointProjection now h)) (domain_published h).
Proof.
  apply publishes_broadcast. intros e now Hwf. pose proof (boardcast_domain now h e Hwf) as H.
  destruct (BoardcastDomainEndpointProjection now h e) as [e' [[]|er]].
  - destruct H as [[Hn Hu]|(p & logid & Hl & Hp)].
    + destruct (untouched_grows _ _ Hwf Hu). split_and!; [done..|]. by left.
    + destruct (published_grows _ _ _ _ _ _ Hwf Hp) as (?&?&?). split_and!; [done..|]. by right.
  - destruct (untouched_grows _ _ Hwf H). by split_and!.
Qed.

Lemma publishes_deleted_dns clock record :
  publishes (broadcast clock (fun now => broadcastDeletedDNSRecord now record))
    (fun t t' => logged t t' SnapshotSyncTypeDNSRecord (dr_ID record) SnapshotActionDelete).
Proof.
  apply publishes_broadcast. intros e now Hwf. pose proof (deleted_dns_cases now record e) as H.
  destruct (broadcastDeletedDNSRecord now record e) as [e' [[]|er]].
  - destruct H as [id Hp]. by destruct (published_grows _ _ _ _ _ _ Hwf Hp) as (?&?&?).
  - destruct (untouched_grows _ _ Hwf H). by split_and!.
Qed.

Lemma publishes_deleted_domain clock h p :
  publishes (broadcast clock (fun now => broadcastDeletedDomainEntry now h p))
    (fun t t' => logged t t' SnapshotSyncTypeDomainEntryProjection h SnapshotActionDelete).
Proof.
  apply publishes_broadcast. intros e now Hwf. pose proof (deleted_domain_cases now h p e) as H.
  destruct (broadcastDeletedDomainEntry now h p e) as [e' [[]|er]].
  - destruct H as [id Hp]. by destruct (published_grows _ _ _ _ _ _ Hwf Hp) as (?&?&?).
  - destruct (untouched_grows _ _ Hwf H). by split_and!.
Qed.

Lemma publishes_notify h : publishes (notify_cert h) (fun _ _ => True).
Proof.
  intros s Hwf. unfold notify_cert. cbv [mbind go_bind get_state attempt on_Engine on_Repo zoom].
  destruct (ms_Certs s) as [c|]; [|by split_and!]. cbn.
  pose proof (first_row_rows (rows_where de_Hostname h) (order_asc de_Hostname)
    (en_Repo (ms_Engine s))) as H.
  unfold GetDomainEndpointByHostname.
  destruct (first_row _ _ _) as [d' [domain|e]]; cbn in H.
  - destruct (de_NeedCert domain); unfold Notify; [destruct (bool_decide _)|]; cbn; by rewrite H.
  - destruct (bool_decide _); cbn; by rewrite H.
Qed.

(** What publishing the broadcasts of a plan logs. *)
Definition broadcasts_logged (b : planBroadcasts) (t t' : Tables) : Prop :=
  ((forall p, p ∈ pb_deletedDomainEntries b ->
      logged t t' SnapshotSyncTypeDomainEntryProjection (dp_Hostname p) SnapshotActionDelete) /\
   (forall r, r ∈ pb_deletedDNSRecords b ->
      logged t t' SnapshotSyncTypeDNSRecord (dr_ID r) SnapshotActionDelete)) /\
  (forall h, is_Some (pb_domainHosts b !! h) -> domain_published h t t') /\
  (forall id, is_Some (pb_dnsRecordIDs b !! id) -> dns_published id t t').

Lemma elem_of_range_keys (m : gmap string ()) k : k ∈ (range m).*1 <-> is_Some (m !! k).
Proof.
  rewrite list_elem_of_fmap. split.
  - intros ([k' []] & -> & H%elem_of_range). eauto.
  - intros [[] H]. exists (k, tt). split; [done|]. by apply elem_of_range.
Qed.

Lemma stable_forall {A} (l : list A) (Q : A -> Tables -> Tables -> Prop) :
  (forall a, stable (Q a)) -> stable (fun t t' => forall a, a ∈ l -> Q a t t').
Proof. intros HQ t0 t1 t2 t3 H1 H H2 a Ha. by eapply HQ; eauto. Qed.

Lemma stable_and Q1 Q2 : stable Q1 -> stable Q2 -> stable (fun t t' => Q1 t t' /\ Q2 t t').
Proof. intros H1 H2 t0 t1 t2 t3 Hg [? ?] Hg'. split; eauto. Qed.

Lemma publishes_weaken m (Q Q' : Tables -> Tables -> Prop) :
  (forall t t', Q t t' -> Q' t t') -> publishes m Q -> publishes m Q'.
Proof. intros HQ Hm s Hwf. destruct (Hm s Hwf) as (?&?&?). split_and!; auto. Qed.

Lemma publishes_plan clock b : publishes (publish_plan clock b) (broadcasts_logged b).
Proof.
  assert (forall h, stable (fun t t' => True /\ domain_published h t t')) as Hsh
    by (intros h; apply stable_and; [done|apply stable_published_domain]).
  eapply publishes_weaken; cycle 1.
  - unfold publish_plan.
    apply publishes_bind; [| |apply publishes_for_each; intros p; [|apply publishes_deleted_domain]|
      apply publishes_bind; [| |apply publishes_for_each; intros r; [|apply publishes_deleted_dns]|
        apply publishes_bind; [| |apply publishes_for_each; intros h;
            [|apply publishes_bind; [| |apply publishes_notify|apply publishes_domain]]|
          apply publishes_for_each; intros id; [|apply publishes_dns]]]];
      repeat first [apply stable_and | apply stable_forall; intros ? | apply Hsh
        | apply stable_logged | apply stable_published_dns | apply stable_published_domain | done].
  - intros t t' (Hde & Hdr & Hh & Hid). unfold broadcasts_logged. split_and!; [done..| |].
    + intros h Hin. apply Hh. by apply elem_of_range_keys.
    + intros id Hin. apply Hid. by apply elem_of_range_keys.
Qed.

(** Publication after the commit, in terms of the plan. *)
Definition plan_published (plan : Plan) (t t' : Tables) : Prop :=
  (forall c r, c ∈ pl_DNSRecords plan -> upserts c r -> TrimSpace (dr_ID r) <> "" ->
     live_row (M:=DNSRecord) t' (TrimSpace (dr_ID r)) = None \/
     logged t t' SnapshotSyncTypeDNSRecord (TrimSpace (dr_ID r)) SnapshotActionUpsert) /\
  (forall c r, c ∈ pl_DNSRecords plan -> deletes c r ->
     logged t t' SnapshotSyncTypeDNSRecord (dr_ID r) SnapshotActionDelete) /\
  (forall h, TrimSpace h <> "" ->
     h = pl_Hostname plan \/ (exists c d, c ∈ pl_DomainEndpoints plan /\ upserts c d /\ h = de_Hostname d) ->
     live_row (M:=DomainEndpoint) t' (TrimSpace h) = None \/
     logged t t' SnapshotSyncTypeDomainEntryProjection (TrimSpace h) SnapshotActionUpsert).

Lemma plan_noted_published plan b t t1 t' :
  plan_noted plan b -> tb_snapshots t1 = tb_snapshots t -> grows t1 t' ->
  broadcasts_logged b t1 t' -> plan_published plan t t'.
Proof.
  intros (Hn1 & Hn2 & Hn3 & Hn4) Hlog Hg ((_ & Hb2) & Hb3 & Hb4).
  assert (forall ty id a, logged t1 t' ty id a -> logged t t' ty id a) as Hl.
  { intros ty id a. unfold logged. by rewrite Hlog. }
  assert (forall h, domain_published h t1 t' -> live_row (M:=DomainEndpoint) t' h = None \/
    logged t t' SnapshotSyncTypeDomainEntryProjection h SnapshotActionUpsert) as Hd.
  { intros h [Hd|Hd]; [left|right; auto]. revert Hd. unfold live_row. cbn.
    destruct Hg as (E & _). by rewrite E. }
  unfold plan_published. split_and!.
  - intros c r Hc Hu Hne. destruct (Hb4 _ (Hn1 _ _ Hc Hu Hne)) as [Hd'|Hd']; [left|right; auto].
    revert Hd'. unfold live_row. cbn. destruct Hg as (_&_&_& E &_). by rewrite E.
  - eauto.
  - intros h Hne [->|(c & d & Hc & Hu & ->)]; apply Hd, Hb3; eauto.
Qed.

Lemma plan_after_grows plan t t1 t' : plan_after plan t t1 -> grows t1 t' -> plan_after plan t t'.
Proof.
  intros (H1 & H2 & H3 & H4 & H5) (E1 & E2 & E3 & E4 & E5 & _). unfold plan_after.
  by rewrite E1, E2, E3, E4, E5.
Qed.

Lemma plan_transaction_noted plan d d' b :
  plan_transaction plan d = (d', Ok b) -> plan_noted plan b.
Proof.
  unfold plan_transaction. destruct (Begin _) as [txRepo [[]|e]]; [|done].
  set (start := mkPlanTx _ _). cbv [mbind go_bind].
  pose proof (apply_changes_noted plan start) as Hn.
  destruct (apply_changes plan start) as [s1 [[]|e1]]; [|done]. unfold zoom.
  destruct (Commit _) as [r [[]|e]]; [|done]. intros [= <- <-]. by apply Hn.
Qed.

Lemma apply_plan_cases clock plan s :
  tables_wf (ms_tables s) ->
  let '(s', r) := applyPlan clock plan s in
  let t := ms_tables s in
  let t' := ms_tables s' in
  (t' = t /\ en_Hub (ms_Engine s') = en_Hub (ms_Engine s) /\ r <> Ok tt) \/
  (plan_after plan t t' /\ tables_wf t' /\ (exists new, tb_snapshots t' = tb_snapshots t ++ new) /\
   (r = Ok tt -> plan_published plan t t')).
Proof.
  intros Hwf. unfold applyPlan. cbv [mbind go_bind on_Engine on_Repo zoom].
  pose proof (plan_rollback (en_Repo (ms_Engine s)) plan) as Hrb.
  pose proof (plan_committed (en_Repo (ms_Engine s)) plan) as Hcm.
  pose proof (plan_transaction_noted plan (en_Repo (ms_Engine s))) as Hnt.
  destruct (plan_transaction plan _) as [d' [b|e]].
  - destruct (Hcm d' b Hwf eq_refl) as (Hp & Hwf' & Hlog & _).
    set (s1 := mkMaster _ _ _ _). destruct (publishes_plan clock b s1 Hwf') as (Hg & Hwf2 & Hq).
    destruct (publish_plan clock b s1) as [s2 r]. cbn in Hg, Hwf2, Hq. right. split_and!.
    + by eapply plan_after_grows.
    + done.
    + destruct Hg as (_&_&_&_&_& new & E). exists new. by rewrite E, Hlog.
    + intros Hr. eapply plan_noted_published; eauto.
  - left. cbn. by rewrite (Hrb d' e eq_refl).
Qed.


End facts.
