(* ===== verification/PlanConverges.v ===== *)
(** * From a wish to the tables

    A client reads the projection of a host, describes what it wants with the
    builder, and sends the plan to the master: afterwards the tables hold what
    was asked for. *)

From S2P Require Import Prelude GoStrings GoTime Metadata Gorm Repository RepositoryFacts.
From S2P Require Import Replication Hub MasterEngine MasterFacts MetadataJson Plan PlanFacts Acme ManageAPI ManageFacts.

Open Scope Z_scope.

Section converges.
Context {GM : GormModel} {GDB : Gorm Tables stmt stmt_effect} {BS : BundleStore} {MR : MapRange}.

(** ** Rows that hold what is wanted *)

(** A row that shows the wanted values without having been written. *)
Definition shows_domain (d r : DomainEndpoint) : Prop :=
  de_Hostname r = de_Hostname d /\ de_NeedCert r = de_NeedCert d /\
  de_BackendType r = de_BackendType d /\
  (is_L4 (de_BackendType d) = true -> de_BindedServiceID r = de_BindedServiceID d).
Definition shows_route (d r : HTTPRoute) : Prop :=
  hr_ID r = hr_ID d /\ hr_Hostname r = hr_Hostname d /\ hr_Path r = hr_Path d /\
  hr_Priority r = hr_Priority d /\ hr_BackendRefID r = hr_BackendRefID d.
Definition shows_backend (d r : ServiceBackendRef) : Prop := row_backend (Some r) = Some d.

(** The live row of [d]'s key shows [d], or is what gorm stored for [d]. *)
Definition holds {M} {R : Resource M} (shows : M -> M -> Prop) (t : Tables) (d : M) : Prop :=
  exists r, live_row t (res_key d) = Some r /\ (shows d r \/ exists old, r = stored old d).

Lemma converge_row {M} {R : Resource M} `{!EqDecision M} (shows : M -> M -> Prop) t t' cs cur (d : M) :
  rows_after (res_get t) cs (res_get t') ->
  outcome cs (res_key d) = (if bool_decide (cur = Some d) then None else Some (Some d)) ->
  res_deleted d = false ->
  (cur = Some d -> exists r, live_row t (res_key d) = Some r /\ shows d r) ->
  holds shows t' d.
Proof.
  intros Hafter Ho Hd Hcur. specialize (Hafter (res_key d)). rewrite Ho in Hafter.
  case_bool_decide as E.
  - destruct (Hcur E) as (r & Hr & Hs). exists r. split; [|auto]. unfold live_row in *.
    by rewrite Hafter.
  - destruct Hafter as [old Hold]. exists (stored old d). split; [|eauto]. unfold live_row.
    rewrite Hold. cbn. by rewrite stored_deleted, Hd.
Qed.

(** ** What the projection says about the tables *)

Lemma projects_cases t h p : tables_wf t -> projects t h p ->
  exists de, live_row t h = Some de /\ de_Hostname de = h /\
    dp_Hostname p = h /\ dp_Deleted p = false /\ dp_NeedCert p = de_NeedCert de /\
    dp_BackendType p = de_BackendType de /\
    if is_L4 (de_BackendType de)
    then dp_HTTPRoutes p = [] /\
         dp_BindedBackendRef p = row_backend (live_backend t (de_BindedServiceID de))
    else dp_BindedBackendRef p = None /\
         forall rp, rp ∈ dp_HTTPRoutes p <->
           exists hr, hr ∈ rows_where hr_Hostname h t /\ hr_ID hr <> "" /\ rp = project_route t hr.
Proof.
  intros Hwf (first & rs & Hp & Hperm & Hsort).
  destruct (projection_cases h t first rs p Hwf Hperm Hsort Hp)
    as (de & Hde & Hdel & Hh & Hd & Hn & Hb & _ & Hrest).
  exists de. split_and!; try done.
  - unfold live_row. cbn. rewrite Hde. cbn. by rewrite Hdel.
  - assert (keyed (tb_domains t)) as Hkd by apply Hwf. by apply Hkd.
  - destruct (is_L4 _); [done|]. destruct Hrest as (? & _ & _ & ?). done.
Qed.

(** The backend a projection shows is a live row. *)
Lemma shown_backend t id ref :
  tables_wf t -> row_backend (live_backend t id) = Some ref ->
  sb_ID ref = id /\ id <> "" /\ exists r, live_row t id = Some r /\ shows_backend ref r.
Proof.
  intros Hwf. unfold live_backend. destruct (tb_backends t !! id) as [r|] eqn:E; cbn; [|done].
  assert (keyed (tb_backends t)) as Hkb by apply Hwf. assert (sb_ID r = id) as Hid by (by apply Hkb).
  destruct (sh_Deleted (sb_Shared r)) eqn:Ed; [done|]. intros Href. pose proof Href as Hs.
  unfold row_backend in Href. apply fmap_Some in Href as (i & Hp & ->).
  apply present_Some in Hp as [[= <-] Hne]. cbn. split_and!; [done|congruence|].
  exists r. split; [|done]. unfold live_row. cbn. rewrite E. cbn. by rewrite Ed.
Qed.

(** ** The builder reads the tables *)

(** The builder was given what the master answered for its host: the
    projection, or nothing when the host is not live; the DNS records are rows
    of the table; and no live route of the host is hidden from the projection,
    which shows routes of L7 hosts only. *)
Definition reads (b : Builder) (t : Tables) : Prop :=
  match b_existingProjection b with
  | Some p => projects t (b_hostname b) p
  | None => live_row (M:=DomainEndpoint) t (b_hostname b) = None
  end /\
  (forall r, r ∈ b_existingDNSRecords b -> live_row t (dr_ID r) = Some r) /\
  (forall id r, live_row (M:=HTTPRoute) t id = Some r -> hr_Hostname r = b_hostname b ->
     id ∈ (hr_ID <$> currentHTTPRoutes b)).

Lemma current_domain_row b t d :
  tables_wf t -> reads b t -> currentDomainEndpoint b = Some d ->
  de_Hostname d = b_hostname b /\
  ((is_L4 (de_BackendType d) = true -> de_BindedServiceID d <> "") ->
   exists r, live_row t (b_hostname b) = Some r /\ shows_domain d r).
Proof.
  intros Hwf [Hp _]. unfold currentDomainEndpoint.
  destruct (b_existingProjection b) as [p|]; [|done]. intros [= <-].
  destruct (projects_cases _ _ _ Hwf Hp) as (de & Hl & Hh & Hph & _ & Hn & Hb & Hrest).
  cbn. split; [done|]. intros Hne. exists de. split; [done|].
  unfold shows_domain. cbn. split_and!; [congruence..|].
  intros H4. specialize (Hne H4). rewrite Hb in H4. rewrite H4 in Hrest. destruct Hrest as [_ Hbind].
  unfold currentBindedServiceID in *. cbn in *. destruct (dp_BindedBackendRef p) as [ref|]; [|done].
  symmetry in Hbind. by apply shown_backend in Hbind as (-> & _ & _).
Qed.

(** A current route is a live row of the host. *)
Lemma current_route_row b t d :
  tables_wf t -> reads b t -> d ∈ currentHTTPRoutes b ->
  hr_Hostname d = b_hostname b /\ hr_Shared d = zero_Shared /\
  exists r, live_row t (hr_ID d) = Some r /\
    (hr_BackendRefID d <> "" -> shows_route d r).
Proof.
  intros Hwf [Hp _]. unfold currentHTTPRoutes.
  destruct (b_existingProjection b) as [p|]; [|by intros ?%elem_of_nil].
  destruct (projects_cases _ _ _ Hwf Hp) as (de & Hl & Hh & Hph & _ & _ & _ & Hrest).
  intros (rp & -> & Hrp)%list_elem_of_fmap. cbn. split; [done|]. split; [done|].
  destruct (is_L4 _); [destruct Hrest as [E _]; rewrite E in Hrp; by apply elem_of_nil in Hrp|].
  destruct Hrest as [_ Hr]. apply Hr in Hrp as (hr & Hin & _ & ->). cbn.
  apply rows_where_live_row in Hin as [Hlive Hhost]; [|constructor|done].
  exists hr. split; [done|]. unfold shows_route. cbn.
  destruct (row_backend (live_backend t (hr_BackendRefID hr))) as [ref|] eqn:Hb; [|done].
  intros _. apply shown_backend in Hb as (-> & _ & _); [|done]. split_and!; congruence.
Qed.

(** A backend of a current route is a live row. *)
Lemma current_backend_row b t ref :
  tables_wf t -> reads b t -> ref ∈ currentL7BackendRefs b ->
  exists r, live_row t (sb_ID ref) = Some r /\ shows_backend ref r.
Proof.
  intros Hwf [Hp _]. unfold currentL7BackendRefs.
  destruct (b_existingProjection b) as [p|]; [|by intros ?%elem_of_nil].
  destruct (projects_cases _ _ _ Hwf Hp) as (de & Hl & Hh & Hph & _ & _ & _ & Hrest).
  rewrite sort_by_perm, list_elem_of_fmap. intros ([k ref'] & -> & Hin%elem_of_range). cbn.
  apply seen_backend in Hin as (Hk & rp & Hrp & Href).
  destruct (is_L4 _); [destruct Hrest as [E _]; rewrite E in Hrp; by apply elem_of_nil in Hrp|].
  destruct Hrest as [_ Hr]. apply Hr in Hrp as (hr & Hin & _ & ->). cbn in Href.
  by apply shown_backend in Href as (-> & _ & Hrow).
Qed.

Lemma current_l4_row b t ref :
  tables_wf t -> reads b t -> currentL4BackendRef b = Some ref ->
  exists r, live_row t (sb_ID ref) = Some r /\ shows_backend ref r.
Proof.
  intros Hwf [Hp _]. unfold currentL4BackendRef.
  destruct (b_existingProjection b) as [p|]; [|done]. cbn. intros Href.
  destruct (projects_cases _ _ _ Hwf Hp) as (de & Hl & Hh & Hph & _ & _ & _ & Hrest).
  destruct (is_L4 _); [|destruct Hrest; congruence]. destruct Hrest as [_ E].
  rewrite E in Href. by apply shown_backend in Href as (-> & _ & Hrow).
Qed.

(** ** What is wanted, and when identifiers clash *)

Definition desired_routes (b : Builder) : list HTTPRoute :=
  if isL4BackendType (b_desiredBackendType b) then []
  else (buildDesiredL7Resources b (b_hostname b)).1.

Definition desired_backends (b : Builder) : list ServiceBackendRef :=
  if isL4BackendType (b_desiredBackendType b)
  then match b_desiredL4Backend b with Some backend => [buildBackendRef b "l4" backend] | None => [] end
  else (buildDesiredL7Resources b (b_hostname b)).2.

(** The identifiers of the kind of backend that is wanted and of the kind that
    is given up are different. *)
Definition no_clash (b : Builder) : Prop :=
  if isL4BackendType (b_desiredBackendType b)
  then forall ref, ref ∈ currentL7BackendRefs b -> sb_ID ref <> backendRefID b "l4"
  else forall ref, currentL4BackendRef b = Some ref -> by_id (desired_backends b) !! sb_ID ref = None.

Lemma build_cases b plan :
  Build b = Ok plan ->
  pl_Hostname plan = b_hostname b /\
  pl_DNSRecords plan = diffDNSRecords (b_existingDNSRecords b) (buildDesiredDNSRecords b) /\
  pl_DomainEndpoints plan = diffDomainEndpoint (currentDomainEndpoint b) (Some (buildDesiredDomainEndpoint b)) /\
  pl_HTTPRoutes plan = diffHTTPRoutes (currentHTTPRoutes b) (desired_routes b) /\
  pl_ServiceBackendRefs plan =
    if isL4BackendType (b_desiredBackendType b)
    then diffServiceBackendRef (currentL4BackendRef b) (head (desired_backends b)) ++
         (currentL7BackendRefs b ≫= fun ref => diffServiceBackendRef (Some ref) None)
    else diffServiceBackendRefs (currentL7BackendRefs b) (desired_backends b) ++
         diffServiceBackendRef (currentL4BackendRef b) None.
Proof.
  unfold Build. destruct (bool_decide _); [done|]. destruct (bool_decide _); [done|].
  unfold desired_routes, desired_backends.
  destruct (isL4BackendType (b_desiredBackendType b)).
  - destruct (b_desiredL4Backend b) as [backend|]; [|done]. by intros [= <-].
  - destruct (_ && _); [done|]. intros [= <-]. cbn. split_and!; done.
Qed.

(** ** Convergence *)

Lemma build_l4 b plan :
  Build b = Ok plan -> isL4BackendType (b_desiredBackendType b) = true ->
  exists backend, b_desiredL4Backend b = Some backend.
Proof.
  unfold Build. destruct (bool_decide _); [done|]. destruct (bool_decide _); [done|].
  intros H H4. rewrite H4 in H. destruct (b_desiredL4Backend b) as [backend|]; [|done]. eauto.
Qed.

Lemma converge_domain b plan t t' :
  tables_wf t -> reads b t -> Build b = Ok plan -> plan_after plan t t' ->
  holds shows_domain t' (buildDesiredDomainEndpoint b).
Proof.
  intros Hwf Hr Hb (_ & _ & Hd & _). destruct (build_cases _ _ Hb) as (_ & _ & Ed & _ & _).
  rewrite Ed in Hd. eapply converge_row; [exact Hd|apply diff_one_wanted|done|].
  intros Hcur. destruct (current_domain_row b t _ Hwf Hr Hcur) as [_ H]. apply H. cbn.
  intros H4. destruct (build_l4 _ _ Hb H4) as [backend ->]. done.
Qed.

(** A wanted row of a difference of slices. *)
Lemma converge_many {M} {R : Resource M} `{!EqDecision M} (shows : M -> M -> Prop) t t' cs
    (current desired : list M) id d :
  rows_after (res_get t) cs (res_get t') ->
  outcome cs id = outcome (diff_many current desired) id ->
  by_id desired !! id = Some d -> res_deleted d = false ->
  (d ∈ current -> exists r, live_row t (res_key d) = Some r /\ shows d r) ->
  holds shows t' d.
Proof.
  intros Hafter Ho Hd Hdel Hcur. destruct (by_id_key _ _ _ Hd) as [<- _].
  eapply (converge_row shows t t' cs (by_id current !! res_key d)); [done| |done|].
  - rewrite Ho, diff_many_outcome, Hd. done.
  - intros [_ Hin]%by_id_key. auto.
Qed.

Lemma desired_route_fields b d : d ∈ desired_routes b ->
  res_deleted d = false /\ hr_BackendRefID d <> "".
Proof.
  unfold desired_routes. destruct (isL4BackendType _); [by intros ?%elem_of_nil|].
  intros (route & -> & _)%list_elem_of_fmap. done.
Qed.

Lemma desired_backend_live b d : d ∈ desired_backends b -> res_deleted d = false.
Proof.
  unfold desired_backends. destruct (isL4BackendType _).
  - destruct (b_desiredL4Backend b); [|by intros ?%elem_of_nil]. by intros ->%list_elem_of_singleton.
  - by intros (route & -> & _)%list_elem_of_fmap.
Qed.

Lemma converge_routes b plan t t' id d :
  tables_wf t -> reads b t -> Build b = Ok plan -> plan_after plan t t' ->
  by_id (desired_routes b) !! id = Some d -> holds shows_route t' d.
Proof.
  intros Hwf Hr Hb (Hd & _) Hid. destruct (build_cases _ _ Hb) as (_ & _ & _ & Er & _).
  destruct (by_id_key _ _ _ Hid) as [_ Hin]. destruct (desired_route_fields _ _ Hin) as [Hdel Hne].
  eapply converge_many; [exact Hd|by rewrite Er|exact Hid|done|].
  intros Hc. destruct (current_route_row b t d Hwf Hr Hc) as (_ & _ & r & Hl & Hs). eauto.
Qed.

(** No other live route of the host is left. *)
Lemma converge_no_stale b plan t t' id r :
  reads b t -> Build b = Ok plan -> plan_after plan t t' ->
  live_row (M:=HTTPRoute) t' id = Some r -> hr_Hostname r = b_hostname b ->
  is_Some (by_id (desired_routes b) !! id).
Proof.
  intros Hr Hb (Hd & _) Hl Hh. destruct (build_cases _ _ Hb) as (_ & _ & _ & Er & _).
  specialize (Hd id). rewrite Er in Hd. unfold diffHTTPRoutes in Hd. rewrite diff_many_outcome in Hd.
  case_bool_decide as E.
  - rewrite <- E. destruct Hr as (_ & _ & Hcover). unfold live_row in Hl. cbn in Hl.
    rewrite Hd in Hl. destruct (proj1 (list_elem_of_fmap _ _ _) (Hcover id r Hl Hh)) as (x & -> & Hx).
    exact (by_id_is_Some (currentHTTPRoutes b) x Hx).
  - destruct (by_id (desired_routes b) !! id) as [d|]; [eauto|]. exfalso.
    unfold live_row in Hl. cbn in Hl. destruct (tb_routes t' !! id) as [x|] eqn:Ex; [|done].
    specialize (Hd x Ex). cbn in Hl, Hd. rewrite Hd in Hl. done.
Qed.

Lemma converge_backends b plan t t' id d :
  tables_wf t -> reads b t -> no_clash b -> Build b = Ok plan -> plan_after plan t t' ->
  by_id (desired_backends b) !! id = Some d -> holds shows_backend t' d.
Proof.
  intros Hwf Hr Hnc Hb (_ & Hd & _) Hid. destruct (build_cases _ _ Hb) as (_ & _ & _ & _ & Er).
  destruct (by_id_key _ _ _ Hid) as [Hk Hin]. pose proof (desired_backend_live _ _ Hin) as Hdel.
  unfold no_clash in Hnc. destruct (isL4BackendType (b_desiredBackendType b)) eqn:H4.
  - destruct (build_l4 _ _ Hb H4) as [backend Hbk].
    unfold desired_backends in Er, Hin. rewrite H4, Hbk in Er, Hin.
    apply list_elem_of_singleton in Hin as ->. cbn [head] in Er.
    eapply (converge_row shows_backend t t' _ (currentL4BackendRef b)); [exact Hd| |done|].
    + rewrite Er, outcome_app, outcome_None; [apply diff_one_wanted|].
      intros c (ref & Hc & Href)%list_elem_of_bind. apply (diff_one_ne _ _ _ _ Hc).
      apply list_elem_of_singleton in Hc as ->. by apply Hnc.
    + intros Hcur. by apply (current_l4_row b t _ Hwf Hr).
  - eapply converge_many; [exact Hd| |exact Hid|done|].
    + rewrite Er, outcome_app. unfold diffServiceBackendRef. rewrite diff_one_unwanted; [done|].
      intros ref Href <-.
      apply Hnc in Href. cbn in Hid. congruence.
    + intros Hc. by apply (current_backend_row b t _ Hwf Hr).
Qed.

Lemma converge_dns b plan t t' id d :
  reads b t -> Build b = Ok plan -> plan_after plan t t' ->
  by_id (buildDesiredDNSRecords b) !! id = Some d -> dr_Deleted d = false -> holds eq t' d.
Proof.
  intros (_ & Hr & _) Hb (_ & _ & _ & Hd & _) Hid Hdel.
  destruct (build_cases _ _ Hb) as (_ & Er & _).
  eapply converge_many; [exact Hd|by rewrite Er|exact Hid|done|]. intros Hc. exists d. eauto.
Qed.


End converges.

(** ** A concrete run *)

Module PlanRun.

Definition no_bundles : BundleStore := {| bundles := (); PutCertificateBundle := fun _ => mret tt |}.

#[local] Existing Instances plain_model memory_gorm no_bundles canonical_range.

Definition sample_master : Master := mkMaster sample_engine None None None.

Definition sample_projection : DomainEntryProjection :=
  match (GetDomainEntryProjectionByDomain "a.example" (memory_db logged_tables)).2 with
  | Ok p => p
  | Err _ => zero_DomainEntryProjection
  end.

Definition target (name : string) : BackendTarget := mkBackendTarget "" "" "default" name 80.

(** The host keeps its kind, gives up its two routes and gets two others. *)
Definition sample_builder : Builder :=
  WantDNS (mkDNSRecord zero_Shared "" "a.example." DNSTypeA RoutingClassFirst 60 "[9.9.9.9]" "" true)
    (Route "/shop" (target "shop") (Route "/" (target "front") (AsL7HTTPS
      (WithExistingProjection (Some sample_projection) (NewBuilder " a.example "))))).

Definition sample_plan : Plan :=
  match Build sample_builder with Ok p => p | Err _ => mkPlan "" [] [] [] [] end.

Definition clock (e : Engine) : Time := zero_time.

Lemma sample_built : Build sample_builder = Ok sample_plan.
Proof. vm_compute. reflexivity. Qed.

Lemma sample_reads : reads sample_builder logged_tables.
Proof.
  split; [|split].
  - apply (get_projection_ok "a.example" (memory_db logged_tables)). vm_compute. reflexivity.
  - intros r Hr. apply elem_of_nil in Hr. destruct Hr.
  - assert (map_Forall (fun id r => id ∈ hr_ID <$> currentHTTPRoutes sample_builder \/
      res_deleted r = true) (tb_routes logged_tables)) as Hall
      by (apply (bool_decide_unpack _); vm_compute; exact I).
    intros id r Hl _. unfold live_row in Hl. change (tb_routes logged_tables !! id ≫=
      (fun r => if res_deleted r then None else Some r) = Some r) in Hl.
    destruct (tb_routes logged_tables !! id) as [x|] eqn:E; [|discriminate Hl]. cbn in Hl.
    destruct (Hall id x E) as [H|H]; [exact H|]. cbn in H. rewrite H in Hl. discriminate Hl.
Qed.

Lemma sample_no_clash : no_clash sample_builder.
Proof. intros ref H. vm_compute in H. discriminate H. Qed.



(** Identifiers are not injective on paths: of two such routes only the later
    is kept. *)
Lemma route_ids_collide b : routeID b "/a/b" = routeID b "/a_b" /\ routeID b "/" = routeID b "/root".
Proof. split; reflexivity. Qed.

(** A host with a route for path /l4 that becomes an L4 host: the plan writes
    the new backend and then deletes it. *)
Definition clashing_builder : Builder :=
  AsL4TLSPassthrough (target "tls") (WithExistingProjection
    (Some (mkDomainEntryProjection "a.example" false false None BackendTypeL7HTTP
      [mkHTTPRouteProjection "route:a.example:l4" "/l4" 3
         (Some (mkServiceBackendRef zero_Shared "backend:a.example:l4" ServiceBackendTypeSVC "" "default"
                  "web" 80))] None))
    (NewBuilder "a.example")).

Lemma clash_loses_backend :
  (fun plan => outcome (pl_ServiceBackendRefs plan) (backendRefID clashing_builder "l4"))
    <$> Build clashing_builder = Ok (Some None).
Proof. vm_compute. reflexivity. Qed.

End PlanRun.
