(* ===== verification/AcmeFacts.v ===== *)
(** * Correctness of issuing certificates *)

From S2P Require Import Prelude GoStrings GoTime Metadata Gorm Repository RepositoryFacts.
From S2P Require Import Replication Hub MasterEngine MasterFacts MetadataJson Plan PlanFacts Acme ManageAPI ManageFacts.

Open Scope Z_scope.

Section facts.
Context {GM : GormModel} {GDB : Gorm Tables stmt stmt_effect} {LG : Lego} {CR : Crypto}
  {BS : BundleStore}.
Context (cfg : Config) (clock : Engine -> Time).

(** The handler [engine.go] gives the service: broadcast the host. *)
Definition notifier (hostname : string) : go Master () :=
  broadcast clock (fun now => BoardcastDomainEndpointProjection now hostname).

(** ** What answering a challenge may do *)

(** Only DNS records and the log may differ. *)
Definition challenged (t t' : Tables) : Prop :=
  tb_domains t' = tb_domains t /\ tb_backends t' = tb_backends t /\ tb_routes t' = tb_routes t /\
  tb_certs t' = tb_certs t /\ tables_wf t' /\
  exists new, tb_snapshots t' = tb_snapshots t ++ new.

Lemma challenged_refl t : tables_wf t -> challenged t t.
Proof. intros H. unfold challenged. split_and!; try done. exists []. by rewrite app_nil_r. Qed.

Lemma challenged_grows t t1 t' : challenged t t1 -> grows t1 t' -> tables_wf t' -> challenged t t'.
Proof.
  intros (?&?&?&?&?& n1 & E1) (?&?&?&_&?& n2 & E2) Hwf. unfold challenged.
  split_and!; try congruence. exists (n1 ++ n2). by rewrite E2, E1, app_assoc.
Qed.

Lemma challenged_dns t t1 m :
  challenged t t1 -> keyed m -> challenged t (res_put (M:=DNSRecord) m t1).
Proof.
  intros (?&?&?&?& Hwf & new & E) Hm. unfold challenged. cbn. split_and!; try done; [|by exists new].
  exact (put_wf DNSRecord _ m t1 known_dns Hm Hwf).
Qed.

(** The parts of the master that answering a challenge leaves alone. *)
Definition answering (s0 s : Master) : Prop :=
  challenged (ms_tables s0) (ms_tables s) /\ ms_Certs s = ms_Certs s0 /\ ms_bundles s = ms_bundles s0.

Lemma notifier_answering s0 h : preserves (answering s0) (notifier h).
Proof.
  intros s (Hc & HC & HB). assert (tables_wf (ms_tables s)) as Hwf by apply Hc.
  destruct (publishes_domain clock h s Hwf) as (Hg & Hwf' & _). unfold notifier.
  split; [by eapply challenged_grows|]. unfold broadcast, on_Engine, zoom.
  by destruct (BoardcastDomainEndpointProjection _ _ _).
Qed.

(** A repository call made from the master. *)
Lemma on_repo_engine {A} (m : go db A) s s' r :
  on_Engine (on_Repo m) s = (s', r) ->
  exists d', m (en_Repo (ms_Engine s)) = (d', r) /\ ms_tables s' = rows d' /\
    ms_Certs s' = ms_Certs s /\ ms_bundles s' = ms_bundles s /\
    en_Hub (ms_Engine s') = en_Hub (ms_Engine s).
Proof.
  unfold on_Engine, on_Repo, zoom. destruct (m _) as [d' r']. intros [= <- <-]. by exists d'.
Qed.

Lemma dns_stmt_answering s0 st :
  (forall id t t', tables_wf t -> stmt_effect st id t = Ok t' ->
     exists m, keyed m /\ t' = res_put (M:=DNSRecord) m t) ->
  preserves (answering s0) (on_Engine (on_Repo (exec_stmt st))).
Proof.
  intros Hst s (Hc & HC & HB). destruct (on_Engine _ s) as [s' r] eqn:E.
  apply on_repo_engine in E as (d' & E & Hrows & HC' & HB' & _). cbn.
  split; [|split; congruence]. rewrite Hrows. destruct r as [[]|e].
  - apply exec_stmt_ok in E as [id E]. apply Hst in E as (m & Hm & ->); [|apply Hc].
    by apply challenged_dns.
  - apply exec_stmt_err in E as ->. done.
Qed.

Lemma upsert_dns_answering s0 (r : DNSRecord) :
  preserves (answering s0) (on_Engine (on_Repo (UpsertResource r))).
Proof.
  apply dns_stmt_answering. intros id t t' Hwf [= <-]. eexists. split; [|reflexivity].
  exact (keyed_insert _ _ r (get_keyed DNSRecord _ t known_dns Hwf)).
Qed.

Lemma delete_dns_answering s0 id :
  preserves (answering s0) (on_Engine (on_Repo (DeleteResourceByField DNSRecord "id" id))).
Proof.
  apply dns_stmt_answering. intros i t t' Hwf [= <-]. eexists. split; [|reflexivity].
  exact (keyed_fmap _ _ (get_keyed DNSRecord _ t known_dns Hwf)).
Qed.

(** lego touches the master through the provider only: what the provider's
    primitive calls keep, obtaining a certificate keeps. *)
Section provider.
Context (P : Master -> Prop).
Context (Hupsert : forall r : DNSRecord, preserves P (on_Engine (on_Repo (UpsertResource r)))).
Context (Hdelete : forall id, preserves P (on_Engine (on_Repo (DeleteResourceByField DNSRecord "id" id)))).
Context (Hnotify : forall h, preserves P (notifier h)).
Context (Hhttp01 : forall r, preserves P (modify (set_http01 r))).

Lemma get_state_preserves : preserves P (get_state (S:=Master)).
Proof. by intros s H. Qed.

Lemma Present_preserves domain ty name token keyAuth :
  preserves P (Present cfg notifier domain ty name token keyAuth).
Proof.
  unfold Present, presentDNS01, presentHTTP01.
  destruct (bool_decide _); [|destruct (bool_decide _)].
  - apply preserves_bind; [apply Hupsert|]. intros _. apply Hnotify.
  - apply preserves_bind; [apply get_state_preserves|]. intros s.
    destruct (ms_http01 s); [apply Hhttp01|apply preserves_throw].
  - apply preserves_throw.
Qed.

Lemma CleanUp_preserves domain ty name token keyAuth :
  preserves P (CleanUp notifier domain ty name token keyAuth).
Proof.
  unfold CleanUp, cleanupDNS01, cleanupHTTP01.
  destruct (bool_decide _); [|destruct (bool_decide _)].
  - apply preserves_bind; [apply Hdelete|]. intros _. apply Hnotify.
  - apply preserves_bind; [apply get_state_preserves|]. intros s.
    destruct (ms_http01 s); [apply Hhttp01|apply preserves_ret].
  - apply preserves_throw.
Qed.

Lemma Obtain_preserves domain ty c domains :
  preserves P (Obtain cfg notifier domain ty c domains).
Proof.
  unfold Obtain. destruct (bool_decide _); [apply preserves_throw|].
  apply preserves_bind; [by intros s H|]. intros _. apply client_Obtain_preserves.
  - intros. apply Present_preserves.
  - intros. apply CleanUp_preserves.
Qed.

End provider.

Lemma Obtain_answering s0 domain ty c domains :
  preserves (answering s0) (Obtain cfg notifier domain ty c domains).
Proof.
  apply Obtain_preserves; intros x; [apply upsert_dns_answering|apply delete_dns_answering|
    apply notifier_answering|by intros s H].
Qed.

(** ** Reading before issuing *)

Lemma first_row_call {R} (f : Tables -> list R) leb s s' x :
  on_Engine (on_Repo (first_row f leb)) s = (s', Ok x) ->
  x ∈ f (ms_tables s) /\ ms_tables s' = ms_tables s /\ ms_Certs s' = ms_Certs s /\
  ms_bundles s' = ms_bundles s.
Proof.
  intros (d' & E & Hrows & HC & HB & _)%on_repo_engine.
  pose proof (first_row_rows f leb (en_Repo (ms_Engine s))) as Hr. rewrite E in Hr. cbn in Hr.
  pose proof (first_row_ok f leb (en_Repo (ms_Engine s)) x) as Hx. rewrite E in Hx.
  split_and!; [by apply Hx|congruence..].
Qed.

(** The next revision: one past the greatest live one, or one when there is
    none or when reading failed. *)
Definition next_of (h : string) (t : Tables) (rev : Z) : Prop :=
  (exists c, c ∈ rows_where cr_Hostname h t /\ is_max_revision (rows_where cr_Hostname h t) c /\
     rev = u64 (cr_Revision c + 1)) \/
  (rev = 1 /\ (reads_succeed -> rows_where cr_Hostname h t = [])).

Lemma next_revision h s s' rev :
  nextRevision h s = (s', Ok rev) ->
  ms_tables s' = ms_tables s /\ ms_Certs s' = ms_Certs s /\ ms_bundles s' = ms_bundles s /\
  next_of h (ms_tables s) rev.
Proof.
  unfold nextRevision. intros (s1 & r & H1 & H2)%go_bind_Ok. unfold attempt in H1.
  destruct (on_Engine (on_Repo (GetLatestCertificateRevision h)) s) as [s2 r2] eqn:E.
  injection H1 as <- <-. set (f := rows_where cr_Hostname h) in *.
  set (leb := then_by revision_desc (order_asc cr_ID)).
  assert (total_preorder leb) as Hleb by (unfold leb; eauto with luna).
  destruct r2 as [c|e].
  - assert (forall r', r' ∈ f (ms_tables s) -> leb c r' = true) as Hleast.
    { apply on_repo_engine in E as (d' & E & _). eapply first_row_least; [exact Hleb|].
      unfold GetLatestCertificateRevision in E. fold f leb in E. by rewrite E. }
    apply first_row_call in E as (Hc & Ht & HC & HB). injection H2 as <- <-.
    assert (is_max_revision (f (ms_tables s)) c) as Hmax.
    { apply Forall_forall. intros r' Hr'%Hleast. unfold leb, then_by, revision_desc in Hr'.
      apply andb_true_iff in Hr' as [Hr' _]. by apply bool_decide_eq_true in Hr'. }
    split_and!; try done. left. eauto.
  - apply on_repo_engine in E as (d' & E & Hrows & HC & HB & _). injection H2 as <- <-.
    pose proof (first_row_rows f leb (en_Repo (ms_Engine s))) as Hr.
    unfold GetLatestCertificateRevision in E. fold f leb in E. rewrite E in Hr. cbn in Hr.
    split_and!; try congruence. right. split; [done|]. intros Hreads.
    assert (e = ErrRecordNotFound) as ->.
    { specialize (Hreads _ f leb (en_Repo (ms_Engine s))). revert E Hreads.
      unfold first_row, mbind, go_bind. destruct (select f leb _) as [d2 [[|x l]|e2]]; cbn; try done.
      by intros [= _ <-]. }
    eapply (first_row_not_found f leb). by rewrite E.
Qed.

Lemma put_bundle_ok bundle s s' :
  put_bundle bundle s = (s', Ok tt) ->
  ms_Engine s' = ms_Engine s /\ ms_Certs s' = ms_Certs s /\
  match ms_bundles s with
  | None => ms_bundles s' = None
  | Some b => exists b', PutCertificateBundle bundle b = (b', Ok tt) /\ ms_bundles s' = Some b'
  end.
Proof.
  unfold put_bundle. destruct (ms_bundles s) as [b|] eqn:E; [|by intros [= <-]].
  destruct (PutCertificateBundle bundle b) as [b' r]. intros [= <- ->]. cbn. eauto.
Qed.

Lemma built_bundle resource rev bundle validity hashes :
  buildBundleAndRevision resource rev = Ok (bundle, validity, hashes) ->
  cb_Revision bundle = rev /\ hashes = (sha256_hex (cb_TLSCrt bundle), sha256_hex (cb_TLSKey bundle)).
Proof.
  unfold buildBundleAndRevision. destruct resource as [r|]; [|done].
  destruct (pem_Decode _); [|done]. intros (cert & _ & H)%result_bind_ok. by injection H as <- _ <-.
Qed.

(** A stored revision: the certificates gain one row, nothing else changes. *)
Lemma upsert_cert (cert : CertificateRevision) s s' :
  on_Engine (on_Repo (UpsertResource cert)) s = (s', Ok tt) ->
  exists old, ms_tables s' = res_put (M:=CertificateRevision)
    (<[cr_ID cert := stored old cert]> (tb_certs (ms_tables s))) (ms_tables s) /\
    ms_Certs s' = ms_Certs s /\ ms_bundles s' = ms_bundles s.
Proof.
  intros (d' & E & Hrows & HC & HB & _)%on_repo_engine. apply exec_stmt_ok in E as [id E].
  injection E as E. eexists. split_and!; [rewrite Hrows, <- E; reflexivity|done..].
Qed.

(** What a successful issue leaves in the master. *)
Definition issued (req : IssueRequest) (s s' : Master) (cert : CertificateRevision) : Prop :=
  let t := ms_tables s in
  let t' := ms_tables s' in
  let h := ir_Hostname req in
  cr_Hostname cert = h /\ next_of h t (cr_Revision cert) /\
  (exists old, tb_certs t' = <[cr_ID cert := stored old cert]> (tb_certs t)) /\
  tb_domains t' = tb_domains t /\ tb_backends t' = tb_backends t /\ tb_routes t' = tb_routes t /\
  (exists bundle, cb_Revision bundle = cr_Revision cert /\
     cr_SHA256Crt cert = sha256_hex (cb_TLSCrt bundle) /\
     cr_SHA256Key cert = sha256_hex (cb_TLSKey bundle) /\
     match ms_bundles s with
     | None => ms_bundles s' = None
     | Some b => exists b', PutCertificateBundle bundle b = (b', Ok tt) /\ ms_bundles s' = Some b'
     end) /\
  logged t t' SnapshotSyncTypeDomainEntryProjection h SnapshotActionUpsert.

Lemma issue_cases suffix req s s' cert :
  tables_wf (ms_tables s) ->
  IssueCertificate cfg notifier suffix req s = (s', Ok cert) ->
  live_row (M:=DomainEndpoint) (ms_tables s) (ir_Hostname req) <> None /\
  issued req s s' cert.
Proof.
  intros Hwf. unfold IssueCertificate.
  intros (s1 & de & H1 & (s2 & icfg & H2 & (s3 & rev & H3 & (s4 & c & H4 & (s5 & res & H5 &
    (s6 & [[bundle validity] hashes] & H6 & (s7 & [] & H7 & (s8 & [] & H8 & (s9 & [] & H9 & H10)%go_bind_Ok
    )%go_bind_Ok)%go_bind_Ok)%go_bind_Ok)%go_bind_Ok)%go_bind_Ok)%go_bind_Ok)%go_bind_Ok)%go_bind_Ok.
  apply first_row_call in H1 as (Hde & T1 & C1 & B1).
  apply rows_where_live_row in Hde as [Hlive Hhost]; [|apply known_domains|done]. cbn in Hlive.
  rewrite Hhost in *. split; [congruence|].
  apply lift_ok in H2 as [-> _]. apply next_revision in H3 as (T3 & C3 & B3 & Hnext).
  apply lift_ok in H4 as [-> _]. apply lift_ok in H6 as [-> Hbuilt].
  assert (answering s3 s5) as ((D5 & K5 & R5 & Ce5 & Hwf5 & new & L5) & C5 & B5).
  { assert (answering s3 s3) as H0 by (split; [apply challenged_refl; congruence|done]).
    pose proof (Obtain_answering s3 de (ir_ChallengeType req) c [ir_Hostname req] s3 H0) as H.
    by rewrite H5 in H. }
  apply upsert_cert in H7 as (old & T7 & C7 & B7).
  apply put_bundle_ok in H8 as (E8 & C8 & B8).
  assert (tables_wf (ms_tables s8)) as Hwf8.
  { rewrite E8, T7. exact (put_wf CertificateRevision _ _ _ known_certs
      (keyed_insert _ _ _ (get_keyed CertificateRevision _ _ known_certs Hwf5)) Hwf5). }
  destruct (publishes_domain clock (ir_Hostname req) s8 Hwf8) as (Hg & _ & Hq).
  fold (notifier (ir_Hostname req)) in Hg, Hq. rewrite H9 in Hg, Hq. cbn in Hg, Hq.
  specialize (Hq eq_refl). injection H10 as <- <-.
  destruct (built_bundle _ _ _ _ _ Hbuilt) as [Hbrev ->].
  rewrite E8, T7 in Hg, Hq. destruct Hg as (D9 & K9 & R9 & _ & Ce9 & new9 & L9).
  cbn in D9, K9, R9, Ce9, L9.
  assert (ms_bundles s9 = ms_bundles s8) as B9.
  { revert H9. unfold notifier, broadcast, on_Engine, zoom.
    destruct (BoardcastDomainEndpointProjection _ _ _). by intros [= <- _]. }
  unfold issued. cbn. rewrite T1 in Hnext. split_and!; try congruence.
  - exists old. rewrite Ce9. by rewrite Ce5, T3, T1.
  - exists bundle. split_and!; try done. rewrite B7, B5, B3, B1 in B8. by rewrite B9.
  - destruct Hq as [Hn|(n & record & Ln & Hin & Hr)].
    + exfalso. unfold live_row in Hn, Hlive. cbn in Hn, Hlive. rewrite D5, T3, T1 in Hn. congruence.
    + exists (new ++ n), record. split; [|split; [set_solver|done]].
      rewrite Ln. cbn. by rewrite L5, T3, T1, app_assoc.
Qed.

(** C32. issuing.  When [IssueCertificate] succeeds, the host was live; one
    revision was added, numbered one past the host's greatest live revision, or
    one when it has none (or reading it failed); the stored bundle has that
    number and its certificate and key have the recorded hashes; nothing but
    certificates, DNS records and the log changed; and the host was entered in
    the log. *)
Theorem issue_certificate suffix req s s' cert :
  tables_wf (ms_tables s) ->
  IssueCertificate cfg notifier suffix req s = (s', Ok cert) ->
  live_row (M:=DomainEndpoint) (ms_tables s) (ir_Hostname req) <> None /\
  issued req s s' cert.
Proof. apply issue_cases. Qed.

(** ** Deciding when to issue *)

Lemma latest_max h d c :
  (first_row (rows_where cr_Hostname h) (then_by revision_desc (order_asc cr_ID)) d).2 = Ok c ->
  c ∈ rows_where cr_Hostname h (rows d) /\ is_max_revision (rows_where cr_Hostname h (rows d)) c.
Proof.
  intros Hc. split; [by eapply first_row_ok|]. apply Forall_forall. intros c' Hc'.
  pose proof (first_row_least _ _ d c (then_by_order _ _ revision_desc_order
    (order_asc_order cr_ID)) Hc c' Hc') as H.
  apply andb_true_iff in H as [H _]. by apply bool_decide_eq_true in H.
Qed.

(** The active certificate, when the database answers. *)
Lemma active_certificate domain d :
  reads_succeed ->
  rows (GetActiveCertificateForDomain (Some domain) d).1 = rows d /\
  let h := TrimSpace (de_Hostname domain) in
  match (GetActiveCertificateForDomain (Some domain) d).2 with
  | Ok (Some c) => h <> "" /\ c ∈ rows_where cr_Hostname h (rows d) /\
                   is_max_revision (rows_where cr_Hostname h (rows d)) c
  | Ok None => h = "" \/ rows_where cr_Hostname h (rows d) = []
  | Err _ => False
  end.
Proof.
  intros Hreads. unfold GetActiveCertificateForDomain. cbn zeta.
  set (h := TrimSpace (de_Hostname domain)). destruct (decide (h = "")) as [E|Hne].
  { rewrite bool_decide_eq_true_2 by done. cbn. auto. }
  rewrite bool_decide_eq_false_2 by done. cbv [mbind go_bind attempt].
  set (leb := then_by revision_desc (order_asc cr_ID)).
  pose proof (first_row_rows (rows_where cr_Hostname h) leb d) as Hr.
  pose proof (latest_max h d) as Hm. pose proof (first_row_not_found (rows_where cr_Hostname h) leb d) as Hn.
  assert (forall e, (first_row (rows_where cr_Hostname h) leb d).2 = Err e -> e = ErrRecordNotFound) as He.
  { intros e. specialize (Hreads _ (rows_where cr_Hostname h) leb d). revert Hreads.
    unfold first_row, mbind, go_bind. destruct (select _ leb d) as [d2 [[|x l]|e2]]; cbn; try done.
    by intros _ [= <-]. }
  fold leb in Hm. destruct (first_row _ leb d) as [d' [c|e]]; cbn in *.
  - split; [done|]. split; [done|]. by apply Hm.
  - rewrite (He e eq_refl), bool_decide_eq_true_2 by done. cbn. rewrite (He e eq_refl) in Hn. auto.
Qed.

Section reconcile.
Context (renewBefore : Z) (issueProvider : ACMEProvider) (now : Time).

(** A certificate that need not be renewed yet. *)
Definition fresh (c : CertificateRevision) : Prop :=
  cr_NotAfter c <> zero_time /\ nanos now + renewBefore < nanos (cr_NotAfter c).

Lemma should_issue domain s :
  reads_succeed ->
  let '(s', r) := shouldIssue renewBefore now domain s in
  let h := TrimSpace (de_Hostname domain) in
  ms_tables s' = ms_tables s /\ ms_Certs s' = ms_Certs s /\ ms_bundles s' = ms_bundles s /\
  ((r = Ok true /\ (h = "" \/ rows_where cr_Hostname h (ms_tables s) = [])) \/
   exists c, h <> "" /\ c ∈ rows_where cr_Hostname h (ms_tables s) /\
     is_max_revision (rows_where cr_Hostname h (ms_tables s)) c /\
     ((r = Ok true /\ ~ fresh c) \/ (r = Ok false /\ fresh c))).
Proof.
  intros Hreads. unfold shouldIssue. cbv [mbind go_bind attempt on_Engine on_Repo zoom].
  destruct (active_certificate domain (en_Repo (ms_Engine s)) Hreads) as [Hr Ha].
  destruct (GetActiveCertificateForDomain (Some domain) _) as [d' [[c|]|e]]; cbn in Hr, Ha; [| |done].
  - assert (time_After (cr_NotAfter c) (time_Add now renewBefore) = true <->
      nanos now + renewBefore < nanos (cr_NotAfter c)) as Hafter.
    { unfold time_After. rewrite bool_decide_eq_true, nanos_add. done. }
    unfold IsZero. case_bool_decide as Hz; cbn; (split; [done|]); (split; [done|]); (split; [done|]);
      right; exists c; destruct Ha as (? & ? & ?); (split_and!; [done..|]).
    + left. split; [done|]. by intros [? _].
    + destruct (time_After _ _) eqn:E; [right|left]; (split; [done|]).
      * split; [done|]. by apply Hafter.
      * intros [_ Hlt%Hafter]. done.
  - cbn. split_and!; try done. left. done.
Qed.

(** Issuing does not touch the reconciler's own state. *)
Lemma issue_keeps_certs suffix req certs :
  preserves (fun s => ms_Certs s = certs) (IssueCertificate cfg notifier suffix req).
Proof.
  set (P := fun s => ms_Certs s = certs).
  assert (forall A (m : go Engine A), preserves P (on_Engine m)) as He.
  { intros A m s H. unfold on_Engine, zoom. by destruct (m (ms_Engine s)). }
  assert (forall h, preserves P (notifier h)) as Hn by (intros h; apply He).
  assert (forall A (r : result A), preserves P (lift r)) as Hl by (by intros A r s H).
  assert (forall b, preserves P (put_bundle b)) as Hp.
  { intros b s H. unfold put_bundle. destruct (ms_bundles s); [|done].
    by destruct (PutCertificateBundle _ _). }
  assert (forall de ty c ds, preserves P (Obtain cfg notifier de ty c ds)) as Ho.
  { intros de ty c ds. apply Obtain_preserves; intros x; [apply He..|by intros s H]. }
  assert (forall h, preserves P (nextRevision h)) as Hr.
  { intros h. apply preserves_bind; [apply preserves_attempt, He|]. intros [c|e]; apply preserves_ret. }
  unfold IssueCertificate.
  repeat (apply preserves_bind; [first [apply He|apply Hl|apply Ho|apply Hr|apply Hp|apply Hn]|intros ?]).
  destruct a4 as [[bundle validity] hashes].
  repeat (apply preserves_bind; [first [apply He|apply Hp|apply Hn]|intros ?]). apply preserves_ret.
Qed.

(** What [reconcileDomain] did: nothing, or the issue it asked for. *)
Definition left_alone (s s' : Master) (r : result ()) : Prop :=
  r = Ok tt /\ ms_tables s' = ms_tables s /\ ms_bundles s' = ms_bundles s.
Definition issue_attempted (suffix : string) (domain : DomainEndpoint) (s s' : Master) (r : result ()) : Prop :=
  exists s1 s2 res, ms_tables s1 = ms_tables s /\ ms_bundles s1 = ms_bundles s /\
    IssueCertificate cfg notifier suffix (issue_request issueProvider domain) s1 = (s2, res) /\
    ms_tables s' = ms_tables s2 /\ ms_bundles s' = ms_bundles s2 /\ r = ((fun _ => tt) <$> res).

Lemma reconcile_cases suffix domain s c :
  reads_succeed -> ms_Certs s = Some c ->
  let '(s', r) := reconcileDomain cfg notifier renewBefore issueProvider now suffix domain s in
  let h := TrimSpace (de_Hostname domain) in
  let certs := rows_where cr_Hostname h (ms_tables s) in
  ms_Certs s' = Some c /\
  ((left_alone s s' r /\ (de_NeedCert domain = false \/ de_Hostname domain ∈ cc_inFlight c \/
      exists x, x ∈ certs /\ is_max_revision certs x /\ fresh x)) \/
   (issue_attempted suffix domain s s' r /\ de_NeedCert domain = true /\
    de_Hostname domain ∉ cc_inFlight c /\
    (h = "" \/ certs = [] \/ exists x, x ∈ certs /\ is_max_revision certs x /\ ~ fresh x))).
Proof.
  intros Hreads Hc. unfold reconcileDomain.
  destruct (de_NeedCert domain) eqn:Hneed; cbn [negb]; [|by split; [|left; split; [|left]]].
  cbv [mbind go_bind]. unfold begin. rewrite Hc.
  destruct (bool_decide (de_Hostname domain ∈ cc_inFlight c)) eqn:Hin.
  { apply bool_decide_eq_true in Hin. cbn. split; [done|]. left. split; [done|]. by right; left. }
  apply bool_decide_eq_false in Hin. cbn [negb]. set (s1 := set_Certs _ s).
  assert (forall s2, ms_Certs s2 = ms_Certs s1 -> ms_Certs (end_ (de_Hostname domain) s2) = Some c) as Hend.
  { intros s2 E. unfold end_, on_Certs. rewrite E. unfold s1. destruct c as [ch F]. cbn in *.
    do 2 f_equal. set_solver. }
  unfold defer. pose proof (should_issue domain s1 Hreads) as Hs.
  destruct (shouldIssue renewBefore now domain s1) as [s2 r]. destruct Hs as (T2 & C2 & B2 & Hs).
  assert (r = Ok true -> let '(s3, res) := IssueCertificate cfg notifier suffix
      (issue_request issueProvider domain) s2 in
      ms_Certs s3 = ms_Certs s1 /\
      issue_attempted suffix domain s (end_ (de_Hostname domain) s3) ((fun _ => tt) <$> res)) as Hissue.
  { intros _. pose proof (issue_keeps_certs suffix (issue_request issueProvider domain) (ms_Certs s1) s2 C2) as H.
    destruct (IssueCertificate _ _ _ _ s2) as [s3 res] eqn:E. split; [done|].
    exists s2, s3, res. by rewrite T2, B2. }
  destruct Hs as [[-> Hnone]|(x & Hne & Hx & Hmax & [[-> Hf]|[-> Hf]])]; cbn [negb].
  - specialize (Hissue eq_refl). destruct (IssueCertificate _ _ _ _ s2) as [s3 [cert|e]];
      destruct Hissue as [HC Hi]; (split; [by apply Hend|]); right; (split; [done|]); split_and!; try done;
      destruct Hnone; auto.
  - specialize (Hissue eq_refl). destruct (IssueCertificate _ _ _ _ s2) as [s3 [cert|e]];
      destruct Hissue as [HC Hi]; (split; [by apply Hend|]); right; (split; [done|]); split_and!; try done; eauto 6.
  - split; [by apply Hend|]. left. split; [|eauto 6]. unfold left_alone. cbn. by rewrite T2, B2.
Qed.

(** C33. reconciling.  When the database answers: the set of hosts being issued
    is as before afterwards, so no host stays blocked; a host that needs no
    certificate, that is being issued already, or whose newest revisions are
    all valid beyond the renewal window is left alone; and a host that needs
    one, is not being issued and has no newest revision that is valid beyond
    the window is issued, with the challenge that fits its kind. *)
Theorem reconcile_domain suffix domain s c :
  reads_succeed -> ms_Certs s = Some c ->
  let '(s', r) := reconcileDomain cfg notifier renewBefore issueProvider now suffix domain s in
  let h := TrimSpace (de_Hostname domain) in
  let certs := rows_where cr_Hostname h (ms_tables s) in
  ms_Certs s' = Some c /\
  (left_alone s s' r \/ issue_attempted suffix domain s s' r) /\
  (de_NeedCert domain = false \/ de_Hostname domain ∈ cc_inFlight c \/
   (h <> "" /\ certs <> [] /\ forall x, x ∈ certs -> is_max_revision certs x -> fresh x) ->
   left_alone s s' r) /\
  (de_NeedCert domain = true -> de_Hostname domain ∉ cc_inFlight c ->
   (forall x, x ∈ certs -> is_max_revision certs x -> ~ fresh x) ->
   issue_attempted suffix domain s s' r).
Proof.
  intros Hreads Hc. pose proof (reconcile_cases suffix domain s c Hreads Hc) as H.
  destruct (reconcileDomain _ _ _ _ _ _ _ _) as [s' r].
  destruct H as [HC [[Hl Hwhy]|(Hi & Hn & Hf & Hwhy)]]; (split; [done|]).
  - split; [by left|]. split; [done|]. intros Hn Hf Hnone. exfalso.
    destruct Hwhy as [Hw|[Hw|(x & Hx & Hm & Hw)]]; [congruence|done|by apply (Hnone x)].
  - split; [by right|]. split; [|done]. intros Hw. exfalso.
    destruct Hw as [Hw|[Hw|(Hne & Hcs & Hall)]]; [congruence|done|].
    destruct Hwhy as [Hw|[Hw|(x & Hx & Hm & Hw)]]; [done|done|]. by apply Hw, Hall.
Qed.

End reconcile.

(** ** Challenges *)

(** Presenting an HTTP-01 challenge makes the master's API serve it; cleaning
    it up makes it disappear. *)
Lemma http01_served domain name token keyAuth q body reg s :
  ms_http01 s = Some reg -> TrimSpace token = token -> token <> "" -> Contains token "/" = false ->
  let request := mkRequest "GET" (http01Path token) q body in
  let s1 := (Present cfg notifier domain ChallengeTypeHTTP01 name token keyAuth s).1 in
  let s2 := (CleanUp notifier domain ChallengeTypeHTTP01 name token keyAuth s1).1 in
  handleHTTP01Challenge request s1 = (s1, mkResponse StatusOK (Text keyAuth)) /\
  handleHTTP01Challenge request s2 = (s2, http_NotFound).
Proof.
  intros Hreg Htrim Hne Hslash. cbn zeta.
  assert (bool_decide (ChallengeTypeHTTP01 = ChallengeTypeDNS01) = false) as E1 by reflexivity.
  assert (bool_decide (ChallengeTypeHTTP01 = ChallengeTypeHTTP01) = true) as E2 by reflexivity.
  unfold Present, CleanUp. rewrite E1, E2. unfold presentHTTP01, cleanupHTTP01.
  cbv [mbind go_bind get_state]. rewrite Hreg. cbn. unfold handleHTTP01Challenge, http01Path. cbn [rq_Method rq_Path].
  assert (bool_decide (token = "") = false) as E3 by (by apply bool_decide_eq_false).
  change (bool_decide ("GET" = "GET")) with true. change (bool_decide ("GET" = "HEAD")) with false.
  rewrite TrimPrefix_app, Htrim, E3, Hslash. cbn.
  unfold registry_Get, registry_Set, registry_Delete. cbn.
  rewrite lookup_insert_eq, lookup_delete_eq. done.
Qed.

(** A DNS-01 challenge record is stored but not broadcast: every log record
    the call appends is about the host, so no slave learns of the record. *)
Lemma dns01_unpublished domain name token keyAuth s :
  tables_wf (ms_tables s) ->
  let s' := (Present cfg notifier domain ChallengeTypeDNS01 name token keyAuth s).1 in
  exists new, tb_snapshots (ms_tables s') = tb_snapshots (ms_tables s) ++ new /\
    Forall (fun r => sr_SyncType r = SnapshotSyncTypeDomainEntryProjection) new.
Proof.
  intros Hwf. unfold Present. rewrite bool_decide_eq_true_2 by done.
  unfold presentDNS01. cbv [mbind go_bind].
  assert (answering s s) as Hs by (split; [by apply challenged_refl|done]).
  pose proof (upsert_dns_answering s (challenge_record cfg domain name token keyAuth) s Hs) as Ha.
  destruct (on_Engine (on_Repo (UpsertResource _)) s) as [s1 r] eqn:E.
  assert (tb_snapshots (ms_tables s1) = tb_snapshots (ms_tables s)) as Hlog.
  { apply on_repo_engine in E as (d' & E & -> & _). destruct r as [[]|e].
    - apply exec_stmt_ok in E as [id E]. injection E as <-. done.
    - by apply exec_stmt_err in E as ->. }
  destruct r as [[]|e]; [|exists []; by rewrite app_nil_r].
  destruct Ha as ((_&_&_&_& Hwf1 & _) & _). unfold notifier, broadcast, on_Engine, zoom.
  pose proof (boardcast_domain (clock (ms_Engine s1)) (de_Hostname domain) (ms_Engine s1) Hwf1) as Hb.
  destruct (BoardcastDomainEndpointProjection _ _ _) as [e' [[]|er]]; cbn in *.
  - destruct Hb as [[_ [Hu _]]|(p & logid & _ & record & Hrows & Hty & _)].
    + exists []. by rewrite Hu, Hlog, app_nil_r.
    + exists [record]. rewrite Hrows. cbn. rewrite Hlog. split; [done|]. by constructor.
  - destruct Hb as [Hu _]. exists []. by rewrite Hu, Hlog, app_nil_r.
Qed.

End facts.

(** ** A concrete run *)

Module AcmeRun.

(** A lego that solves one challenge and returns a certificate. *)
#[program] Definition sample_lego : Lego := {|
  client := ();
  NewClient := fun _ _ => Ok tt;
  RegisterWithExternalAccountBinding := fun _ _ _ => Ok tt;
  Register := fun _ => Ok tt;
  SetDNS01Provider := fun _ => Ok tt;
  SetHTTP01Provider := fun _ => Ok tt;
  client_Obtain := fun S _ present cleanup domains =>
    let name := hd "" domains in
    present name "token" "token.key" ≫= fun _ =>
    cleanup name "token" "token.key" ≫= fun _ =>
    mret (Some (mkCertResource name "CERT" "CA" "KEY"));
  GetChallengeInfo := fun name keyAuth => ("_acme-challenge." +:+ name +:+ ".", keyAuth);
  LEDirectoryProduction := "https://acme.example/directory";
  DefaultPropagationTimeout := 60000000000;
  DefaultPollingInterval := 2000000000;
|}.
Next Obligation.
  intros S P c present cleanup domains Hp Hc. apply preserves_bind; [apply Hp|]. intros _.
  apply preserves_bind; [apply Hc|]. intros _. apply preserves_ret.
Qed.

Definition year_ahead : Time := mkTime 31536000 0.

Definition sample_crypto : Crypto := {|
  pem_Decode := fun s => if bool_decide (s = "") then None else Some s;
  x509_ParseCertificate := fun _ => Ok (mkTime 0 0, year_ahead);
  sha256_hex := fun s => "sha256:" +:+ s;
  bundle_metadata := fun h rev _ _ => h +:+ "@" +:+ FormatUint rev;
  json_string_array := fun l => Join l ",";
|}.

(** A store that keeps bundles, or refuses them all. *)
Definition sample_bundles (refuse : bool) : BundleStore := {|
  bundles := list CertificateBundle;
  PutCertificateBundle := fun b l => if refuse then (l, Err (errors_New "put s3 object"))
                                     else (b :: l, Ok tt);
|}.

#[local] Existing Instances plain_model memory_gorm sample_lego sample_crypto.

Definition sample_config : Config :=
  NewService_config (mkConfig "" "ops@a.example" "" "" "bucket" "/certs/" 0 0 0 0).

Definition sample_master (refuse : bool) : Master (BS:=sample_bundles refuse) :=
  mkMaster (BS:=sample_bundles refuse) sample_engine (Some NewHTTP01Registry)
    (Some []) (Some (NewCertReconciler 0 0).1.1).

Definition clock (e : Engine) : Time := zero_time.

Definition sample_request : IssueRequest :=
  mkIssueRequest "a.example" ProviderLetsEncrypt ChallengeTypeHTTP01 "" "" "".

Lemma issue_certificate_witness :
  exists s' cert, IssueCertificate (BS:=sample_bundles false) sample_config
      (notifier (BS:=sample_bundles false) clock) "1" sample_request (sample_master false) =
      (s', Ok cert) /\ cr_Revision cert = 3 /\
    issued (BS:=sample_bundles false) sample_request (sample_master false) s' cert.
Proof.
  assert ((fun c => cr_Revision c) <$> (IssueCertificate (BS:=sample_bundles false) sample_config
    (notifier (BS:=sample_bundles false) clock) "1" sample_request (sample_master false)).2 = Ok 3) as Hr
    by (vm_compute; reflexivity).
  pose proof (issue_certificate (BS:=sample_bundles false) sample_config clock "1" sample_request
    (sample_master false)) as H.
  destruct (IssueCertificate (BS:=sample_bundles false) sample_config
    (notifier (BS:=sample_bundles false) clock) "1" sample_request (sample_master false)) as [s' [cert|e]];
    [|discriminate Hr].
  exists s', cert. split; [reflexivity|]. cbn in Hr. injection Hr as Hr. split; [exact Hr|].
  exact (proj2 (H s' cert logged_tables_wf eq_refl)).
Defined.

(** A host with a certificate that expired is issued. *)
Lemma reconcile_domain_witness :
  let '(s', r) := reconcileDomain (BS:=sample_bundles false) sample_config
    (notifier (BS:=sample_bundles false) clock) defaultCertRenewBefore ProviderLetsEncrypt
    (mkTime 0 0) "1" sample_domain (sample_master false) in
  r = Ok tt /\ issue_attempted (BS:=sample_bundles false) sample_config clock ProviderLetsEncrypt "1"
    sample_domain (sample_master false) s' r.
Proof.
  pose proof (reconcile_domain (BS:=sample_bundles false) sample_config clock defaultCertRenewBefore
    ProviderLetsEncrypt (mkTime 0 0) "1" sample_domain (sample_master false) _ memory_reads eq_refl) as H.
  assert ((reconcileDomain (BS:=sample_bundles false) sample_config
    (notifier (BS:=sample_bundles false) clock) defaultCertRenewBefore ProviderLetsEncrypt
    (mkTime 0 0) "1" sample_domain (sample_master false)).2 = Ok tt) as Hr by (vm_compute; reflexivity).
  destruct (reconcileDomain (BS:=sample_bundles false) sample_config
    (notifier (BS:=sample_bundles false) clock) defaultCertRenewBefore ProviderLetsEncrypt
    (mkTime 0 0) "1" sample_domain (sample_master false)) as [s' r].
  split; [exact Hr|]. destruct H as (_ & _ & _ & H). apply H; [reflexivity|apply not_elem_of_empty|].
  intros x Hx _ [Hz _]. apply Hz.
  assert (Forall (fun x => cr_NotAfter x = zero_time)
    (rows_where cr_Hostname "a.example" logged_tables)) as HF
    by (apply (bool_decide_unpack _); vm_compute; exact I).
  rewrite Forall_forall in HF. exact (HF x Hx).
Defined.

(** When the store refuses the bundle, the revision is recorded already: the
    call fails, and the host is not tried again. *)
Lemma refused_bundle_not_retried :
  let '(s', r) := IssueCertificate (BS:=sample_bundles true) sample_config
    (notifier (BS:=sample_bundles true) clock) "1" sample_request (sample_master true) in
  r = Err (errors_New "put s3 object") /\
  (shouldIssue (BS:=sample_bundles true) defaultCertRenewBefore (mkTime 0 0) sample_domain s').2 = Ok false.
Proof. vm_compute. split; reflexivity. Qed.

(** The reconciler asks for the provider of the configuration it was given,
    before the service fills in its default: an empty provider never issues. *)
Lemma empty_provider_refused :
  (reconcileDomain (BS:=sample_bundles false) sample_config
    (notifier (BS:=sample_bundles false) clock) defaultCertRenewBefore ""
    (mkTime 0 0) "1" sample_domain (sample_master false)).2 =
  Err (Errorf "unsupported acme provider %q" [""]).
Proof. vm_compute. reflexivity. Qed.

End AcmeRun.
