(* ===== verification/Materialize.v ===== *)
(** * Writing the cluster's hosts into the repository

    engine/master/k8s_bridge/bridge_materialized.go, with the helpers the
    master's bridges share.  A bridge computes, for the hosts an event is
    about, the rows they should have; the functions here bring the tables to
    them and report the hosts whose rows were written. *)

From Stdlib Require Import Ascii.
From S2P Require Import Prelude GoStrings GoTime Metadata Gorm Repository Replication Hub MasterEngine.
From S2P Require Import Plan Acme ManageAPI.

Open Scope Z_scope.

(** ** Helpers of gateway.go and ingress.go *)

Definition normalizeHost (host : string) : string :=
  let host := TrimSpace (ToLower host) in
  let host := TrimPrefix host "http://" in
  let host := TrimPrefix host "https://" in
  let host := cut_at host ":"%char in
  TrimSuffix host ".".

Definition normalizeArbitraryEndpoint (value : string) : string := TrimSuffix (TrimSpace value) ".".

Definition normalizePath (path : string) : string :=
  let path := TrimSpace path in
  if HasPrefix path "/" then path else "/".

(** [for _, value := range values { if n := normalizeHost(value); n != "" {...} }] *)
Definition normalizeHosts (values : list string) : list string :=
  values ≫= fun value =>
    let normalized := normalizeHost value in
    if bool_decide (normalized = "") then [] else [normalized].

(** The keys of a [map[string]struct{}], sorted. *)
Definition mapKeys (values : gset string) : list string := sort_by (fun key => key) (elements values).

Definition diffKeys (oldSet newSet : gset string) : list string :=
  sort_by (fun key => key) (elements (oldSet ∖ newSet)).

Definition diffStrings (oldValues newValues : list string) : list string :=
  filter (fun value => value ∉ (list_to_set newValues : gset string)) oldValues.

(** ** The rows of a host *)

Record domainMaterialized := mkDomainMaterialized {
  dm_domain : DomainEndpoint;
  dm_backends : list ServiceBackendRef;
  dm_routes : list HTTPRoute;
}.

Definition zero_domainMaterialized : domainMaterialized :=
  mkDomainMaterialized (mkDomainEndpoint zero_Shared "" false "" "") [] [].

(** The comparisons of [managedDomainUnchanged]. *)
Definition same_domain (existing domain : DomainEndpoint) : bool :=
  bool_decide (de_Hostname existing = de_Hostname domain) &&
  bool_decide (de_NeedCert existing = de_NeedCert domain) &&
  bool_decide (de_BackendType existing = de_BackendType domain) &&
  bool_decide (de_BindedServiceID existing = de_BindedServiceID domain).

Definition same_route (current route : HTTPRoute) : bool :=
  bool_decide (hr_Hostname current = hr_Hostname route) &&
  bool_decide (hr_Path current = hr_Path route) &&
  bool_decide (hr_Priority current = hr_Priority route) &&
  bool_decide (hr_BackendRefID current = hr_BackendRefID route).

Definition same_backend (current backend : ServiceBackendRef) : bool :=
  bool_decide (sb_Type current = sb_Type backend) &&
  bool_decide (sb_ArbitraryEndpoint current = sb_ArbitraryEndpoint backend) &&
  bool_decide (sb_ServiceNamespace current = sb_ServiceNamespace backend) &&
  bool_decide (sb_ServiceName current = sb_ServiceName backend) &&
  bool_decide (sb_Port current = sb_Port backend).

(** The loop over the wanted rows: each is among the current ones. *)
Definition all_current {M} `{!Resource M} (same : M -> M -> bool) (current wanted : list M) : bool :=
  let currentMap := by_id current in
  forallb (fun row => match currentMap !! res_key row with
                      | Some cur => same cur row
                      | None => false
                      end) wanted.

Definition managedDomainUnchanged (existing : option DomainEndpoint) (currentRoutes : list HTTPRoute)
    (currentBackends : list ServiceBackendRef) (item : domainMaterialized) : bool :=
  match existing with
  | None => false
  | Some existing =>
      same_domain existing (dm_domain item) &&
      bool_decide (length currentRoutes = length (dm_routes item)) &&
      bool_decide (length currentBackends = length (dm_backends item)) &&
      all_current same_route currentRoutes (dm_routes item) &&
      all_current same_backend currentBackends (dm_backends item)
  end.

(** Backends with this prefix belong to the bridges. *)
Definition managed_backend (id : string) : bool := HasPrefix id "k8s:backend:".

Section sync.
Context {GM : GormModel} {GDB : Gorm Tables stmt stmt_effect} {BS : BundleStore} {MR : MapRange}.

(** [if err != nil && !errors.Is(err, gorm.ErrRecordNotFound) { return err }] *)
Definition unless_not_found {A} (none : A) (m : go db A) : go db A :=
  r ← attempt m;
  match r with
  | Ok a => mret a
  | Err e => if bool_decide (e = ErrRecordNotFound) then mret none else throw e
  end.

Definition delete_route (id : string) : go db () := DeleteResourceByField HTTPRoute "id" id.
Definition delete_backend (id : string) : go db () := DeleteResourceByField ServiceBackendRef "id" id.

(** The loop over the current routes that drops those not wanted any more,
    each with the backend only it used. *)
Definition drop_stale_route (nextRouteIDs nextBackendIDs : gset string) (entry : string * HTTPRoute)
    : go db () :=
  let '(id, route) := entry in
  if bool_decide (id ∈ nextRouteIDs) then mret tt
  else
    delete_route id ≫= fun _ =>
    if managed_backend (hr_BackendRefID route) && bool_decide (hr_BackendRefID route ∉ nextBackendIDs)
    then delete_backend (hr_BackendRefID route)
    else mret tt.

Definition drop_stale_binding (nextBackendIDs : gset string) (existing : option DomainEndpoint) : go db () :=
  match existing with
  | Some existing =>
      let id := de_BindedServiceID existing in
      if bool_decide (id <> "") && managed_backend id && bool_decide (id ∉ nextBackendIDs)
      then delete_backend id
      else mret tt
  | None => mret tt
  end.

Definition write_item (existing : option DomainEndpoint) (currentRoutes : list HTTPRoute)
    (item : domainMaterialized) : go db () :=
  let nextBackendIDs := list_to_set (sb_ID <$> dm_backends item) in
  let nextRouteIDs := list_to_set (hr_ID <$> dm_routes item) in
  UpsertResource (dm_domain item) ≫= fun _ =>
  for_each UpsertResource (dm_backends item) ≫= fun _ =>
  for_each UpsertResource (dm_routes item) ≫= fun _ =>
  for_each (drop_stale_route nextRouteIDs nextBackendIDs) (range (by_id currentRoutes)) ≫= fun _ =>
  drop_stale_binding nextBackendIDs existing.

Definition upsertManagedDomain (item : domainMaterialized) : go db bool :=
  let hostname := de_Hostname (dm_domain item) in
  existing ← unless_not_found None (GetDomainEndpointByHostname hostname ≫= fun d => mret (Some d));
  currentRoutes ← unless_not_found [] (ListHTTPRoutesByHostname hostname);
  currentBackends ← unless_not_found [] (ListServiceBindingsByHostname hostname);
  if managedDomainUnchanged existing currentRoutes currentBackends item then mret false
  else write_item existing currentRoutes item ≫= fun _ => mret true.

(** Drop a route of a host that goes away, with its backend. *)
Definition drop_route (route : HTTPRoute) : go db () :=
  delete_route (hr_ID route) ≫= fun _ =>
  if managed_backend (hr_BackendRefID route) then delete_backend (hr_BackendRefID route) else mret tt.

(** A failure to list the routes is not reported: they stay. *)
Definition deleteManagedDomain (hostname : string) : go db bool :=
  domain ← unless_not_found None (GetDomainEndpointByHostname hostname ≫= fun d => mret (Some d));
  match domain with
  | None => mret false
  | Some domain =>
      routes ← attempt (ListHTTPRoutesByHostname (de_Hostname domain));
      match routes with
      | Ok routes => for_each drop_route routes
      | Err _ => mret tt
      end ≫= fun _ =>
      (if bool_decide (de_BindedServiceID domain <> "") && managed_backend (de_BindedServiceID domain)
       then delete_backend (de_BindedServiceID domain) else mret tt) ≫= fun _ =>
      DeleteResourceByField DomainEndpoint "hostname" (de_Hostname domain) ≫= fun _ =>
      mret true
  end.

(** ** Bringing a set of hosts up to date *)

Definition on_db {A} (m : go db A) : go Master A := on_Engine (on_Repo m).

(** [repo.MarkCertificateDesired]: the engine registers the reconciler's
    [Notify] as the notifier when it has a reconciler. *)
Definition mark_certificate_desired (hostname : string) : go Master () :=
  s ← get_state;
  match MarkCertificateDesired (bool_decide (is_Some (ms_Certs s))) hostname with
  | Some hostname => Notify hostname
  | None => mret tt
  end.

(** The hosts seen, and those of them whose rows were written or deleted. *)
Record synced := mkSynced {
  sy_seen : gset string;
  sy_changedAffected : list string;
  sy_changedRemoved : list string;
}.

Definition saw (host : string) (acc : synced) : synced :=
  mkSynced ({[host]} ∪ sy_seen acc) (sy_changedAffected acc) (sy_changedRemoved acc).
Definition add_affected (host : string) (acc : synced) : synced :=
  mkSynced (sy_seen acc) (sy_changedAffected acc ++ [host]) (sy_changedRemoved acc).
Definition add_removed (host : string) (acc : synced) : synced :=
  mkSynced (sy_seen acc) (sy_changedAffected acc) (sy_changedRemoved acc ++ [host]).

Definition sync_host (next : gmap string domainMaterialized) (acc : synced) (host : string)
    : go Master synced :=
  let host := normalizeHost host in
  if bool_decide (host = "") || bool_decide (host ∈ sy_seen acc) then mret acc
  else
    let acc := saw host acc in
    match next !! host with
    | None =>
        changed ← on_db (deleteManagedDomain host);
        mret (if (changed : bool) then add_removed host acc else acc)
    | Some item =>
        changed ← on_db (upsertManagedDomain item);
        (if de_NeedCert (dm_domain item) then mark_certificate_desired (de_Hostname (dm_domain item))
         else mret tt) ≫= fun _ =>
        mret (if (changed : bool) then add_affected host acc else acc)
    end.

Fixpoint sync_hosts (next : gmap string domainMaterialized) (hosts : list string) (acc : synced)
    : go Master synced :=
  match hosts with
  | [] => mret acc
  | host :: hosts => acc ← sync_host next acc host; sync_hosts next hosts acc
  end.

(** The second loop deletes: it is the first with nothing wanted. *)
Definition syncDomainSet (next : gmap string domainMaterialized) (affectedHosts removedHosts : list string)
    : go Master (list string * list string) :=
  acc ← sync_hosts next affectedHosts (mkSynced ∅ [] []);
  acc ← sync_hosts ∅ removedHosts acc;
  mret (sy_changedAffected acc, sy_changedRemoved acc).

(** ** The callbacks [engine.go] gives the bridges *)

Context (clock : Engine -> Time).

Definition onDomainChange (fqdn : string) : go Master () :=
  broadcast clock (fun now => BoardcastDomainEndpointProjection now fqdn).

Definition onDnsChange (records : list DNSRecord) : go Master () :=
  for_each (fun record => broadcast clock (fun now => BoardcastDNSRecord now (dr_ID record))) records.

End sync.
