(* ===== verification/MaterializeFacts.v ===== *)
(** * The tables after the cluster's hosts are written

    What [upsertManagedDomain], [deleteManagedDomain] and [syncDomainSet] make
    of the tables, for every host they are about and for every host they are
    not about. *)

From Stdlib Require Import Ascii.
From S2P Require Import Prelude GoStrings GoTime Metadata Gorm Repository RepositoryFacts.
From S2P Require Import Replication Hub MasterEngine MasterFacts MetadataJson Plan PlanFacts Acme ManageAPI ManageFacts PlanConverges Materialize.

Open Scope Z_scope.

(** ** Hosts and the identifiers of their rows *)

(** The bridges write the host into the sixth part of an identifier:
    [k8s:backend:ingress:<namespace>:<name>:<host>:<index>]. *)
Definition id_host (id : string) : option string := Split id ":"%char !! 5%nat.

Definition managed_id (id : string) : bool := HasPrefix id "k8s:".

Lemma managed_backend_id id : managed_backend id = true -> managed_id id = true.
Proof.
  unfold managed_backend, managed_id. rewrite !HasPrefix_spec. intros [t ->].
  exists ("backend:" +:+ t). done.
Qed.

Lemma managed_backend_nonempty id : managed_backend id = true -> id <> "".
Proof. intros H ->. done. Qed.

(** Identifiers of the bridges name the host of the row that carries or uses
    them: nobody else points at a managed backend, or takes a managed
    identifier, for another host. *)
Definition owned_route (r : HTTPRoute) : Prop :=
  (managed_id (hr_ID r) = true -> id_host (hr_ID r) = Some (hr_Hostname r)) /\
  (managed_backend (hr_BackendRefID r) = true -> id_host (hr_BackendRefID r) = Some (hr_Hostname r)).
Definition owned_domain (d : DomainEndpoint) : Prop :=
  managed_backend (de_BindedServiceID d) = true -> id_host (de_BindedServiceID d) = Some (de_Hostname d).

#[export] Instance owned_route_dec r : Decision (owned_route r).
Proof. unfold owned_route. apply _. Defined.
#[export] Instance owned_domain_dec d : Decision (owned_domain d).
Proof. unfold owned_domain. apply _. Defined.

Definition owned (t : Tables) : Prop :=
  (forall id r, live_row (M:=HTTPRoute) t id = Some r -> owned_route r) /\
  (forall h d, live_row (M:=DomainEndpoint) t h = Some d -> owned_domain d).

(** The wanted rows of host [h] are what a bridge builds. *)
Record item_ok (h : string) (item : domainMaterialized) : Prop := {
  io_host : de_Hostname (dm_domain item) = h;
  io_nonempty : h <> "";
  io_domain_live : res_deleted (dm_domain item) = false;
  io_domain : owned_domain (dm_domain item);
  io_routes : forall r, r ∈ dm_routes item ->
    hr_Hostname r = h /\ res_deleted r = false /\ managed_id (hr_ID r) = true /\ owned_route r;
  io_route_ids : NoDup (hr_ID <$> dm_routes item);
  io_backends : forall b, b ∈ dm_backends item -> res_deleted b = false /\ id_host (sb_ID b) = Some h;
}.

(** Nothing but the rows of [h] changed. *)
Record touches (h : string) (t t' : Tables) : Prop := {
  to_domains : forall k, k <> h -> live_row (M:=DomainEndpoint) t' k = live_row t k;
  to_routes : forall id r, hr_Hostname r <> h ->
    live_row (M:=HTTPRoute) t' id = Some r <-> live_row t id = Some r;
  to_backends : forall id, id_host id <> Some h ->
    live_row (M:=ServiceBackendRef) t' id = live_row t id;
  to_rest : tb_dns t' = tb_dns t /\ tb_certs t' = tb_certs t /\ tb_snapshots t' = tb_snapshots t;
}.

#[export] Instance touches_preorder h : PreOrder (touches h).
Proof.
  split.
  - intros t. by split.
  - intros t1 t2 t3 [D1 R1 B1 E1] [D2 R2 B2 E2]. split.
    + intros k Hk. by rewrite D2, D1.
    + intros id r Hr. by rewrite R2, R1.
    + intros id Hid. by rewrite B2, B1.
    + destruct E1 as (?&?&?), E2 as (?&?&?). split_and!; congruence.
Qed.

Section statements.
Context {GM : GormModel} {GDB : Gorm Tables stmt stmt_effect}.

(** ** One statement *)

Lemma upsert_rows {M} {R : Resource M} (r : M) d d' :
  UpsertResource r d = (d', Ok tt) ->
  exists old, rows d' = res_put (<[res_key r := stored old r]> (res_get (rows d))) (rows d).
Proof. intros (id & [= <-])%exec_stmt_ok. eauto. Qed.

Definition without {M} {R : Resource M} (key : string) (t : Tables) : Tables :=
  res_put ((fun r : M => if live_where res_key key r then res_delete r else r) <$> res_get t) t.

Lemma delete_rows {M} {R : Resource M} field key d d' :
  find_column (M:=M) field = Ok res_key ->
  DeleteResourceByField M field key d = (d', Ok tt) -> rows d' = without (M:=M) key (rows d).
Proof.
  intros Hf (id & H)%exec_stmt_ok. cbn in H. rewrite Hf in H. cbn in H. by injection H as <-.
Qed.

Lemma preserves_upsert {M} {R : Resource M} (P : Tables -> Prop) (r : M) :
  (forall old t, P t -> P (res_put (<[res_key r := stored old r]> (res_get t)) t)) ->
  preserves (fun d => P (rows d)) (UpsertResource r).
Proof.
  intros HP d Hd. destruct (UpsertResource r d) as [d' [[]|e]] eqn:E; cbn.
  - apply upsert_rows in E as [old ->]. auto.
  - by rewrite (exec_stmt_err _ _ _ _ E).
Qed.

Lemma preserves_delete {M} {R : Resource M} (P : Tables -> Prop) field key :
  find_column (M:=M) field = Ok res_key -> (forall t, P t -> P (without (M:=M) key t)) ->
  preserves (fun d => P (rows d)) (DeleteResourceByField M field key).
Proof.
  intros Hf HP d Hd. destruct (DeleteResourceByField M field key d) as [d' [[]|e]] eqn:E; cbn.
  - rewrite (delete_rows _ _ _ _ Hf E). auto.
  - by rewrite (exec_stmt_err _ _ _ _ E).
Qed.

Lemma preserves_read {A} (P : Tables -> Prop) (m : go db A) :
  (forall d, rows (m d).1 = rows d) -> preserves (fun d => P (rows d)) m.
Proof. intros H d. by rewrite H. Qed.

Lemma live_insert {M} {R : Resource M} t (r : M) old k :
  known M R -> res_deleted r = false ->
  live_row (res_put (<[res_key r := stored old r]> (res_get t)) t) k =
  if bool_decide (k = res_key r) then Some (stored old r) else live_row t k.
Proof.
  intros Hk Hd. pose proof (known_laws _ _ Hk). unfold live_row. rewrite res_get_put.
  case_bool_decide as E.
  - subst. rewrite lookup_insert_eq. cbn. by rewrite stored_deleted, Hd.
  - by rewrite lookup_insert_ne.
Qed.

Lemma live_without {M} {R : Resource M} t key k :
  known M R -> tables_wf t ->
  live_row (M:=M) (without (M:=M) key t) k =
  if bool_decide (k = key) then None else live_row t k.
Proof.
  intros Hk Hwf. pose proof (known_laws _ _ Hk). unfold live_row, without.
  rewrite res_get_put, lookup_fmap. destruct (res_get t !! k) as [r|] eqn:E; cbn; [|by case_bool_decide].
  pose proof (get_keyed _ _ _ Hk Hwf _ _ E) as Hr. cbn in Hr. unfold live_where. rewrite Hr.
  destruct (res_deleted r) eqn:Ed; cbn; [rewrite Ed; by case_bool_decide|].
  case_bool_decide; [by rewrite res_delete_deleted|by rewrite Ed].
Qed.

Lemma insert_wf {M} {R : Resource M} t (r : M) old :
  known M R -> tables_wf t -> tables_wf (res_put (<[res_key r := stored old r]> (res_get t)) t).
Proof. intros Hk Hwf. by apply put_wf; [|apply keyed_insert, get_keyed|]. Qed.

Lemma without_wf {M} {R : Resource M} t key :
  known M R -> tables_wf t -> tables_wf (without (M:=M) key t).
Proof.
  intros Hk Hwf. pose proof (known_laws _ _ Hk). by apply put_wf; [|apply keyed_fmap, get_keyed|].
Qed.

(** A live row sits under its own key. *)
Lemma live_key {M} {R : Resource M} t k (r : M) :
  known M R -> tables_wf t -> live_row t k = Some r -> res_key r = k /\ res_deleted r = false.
Proof.
  intros Hk Hwf. unfold live_row. destruct (res_get t !! k) as [r'|] eqn:E; [|done]. cbn.
  destruct (res_deleted r') eqn:Ed; [done|]. intros [= <-].
  by rewrite (get_keyed _ _ _ Hk Hwf _ _ E).
Qed.

End statements.

Section host.
Context {GM : GormModel} {GDB : Gorm Tables stmt stmt_effect} {MR : MapRange}.
Context (h : string) (t0 : Tables).

(** ** What every statement about [h] keeps

    The tables are well-formed and owned, and since [t0] only rows of [h]
    changed. *)
Definition managed (t : Tables) : Prop := tables_wf t /\ owned t /\ touches h t0 t.

Lemma stored_domain_host old (d : DomainEndpoint) : de_Hostname (stored old d) = de_Hostname d.
Proof. exact (stored_key old d). Qed.

Lemma stored_route_id old (r : HTTPRoute) : hr_ID (stored old r) = hr_ID r.
Proof. exact (stored_key old r). Qed.

Lemma stored_owned_domain old d : owned_domain d -> owned_domain (stored old d).
Proof.
  unfold owned_domain. intros Hd.
  rewrite (stored_column old d "binded_service_ref" de_BindedServiceID) by first [set_solver|right; set_solver].
  by rewrite stored_domain_host.
Qed.

Lemma stored_hostname old r : hr_Hostname (stored old r) = hr_Hostname r.
Proof. apply (stored_column old r "hostname" hr_Hostname); [set_solver|right; set_solver]. Qed.

Lemma stored_owned_route old r : owned_route r -> owned_route (stored old r).
Proof.
  unfold owned_route. intros Hr. rewrite stored_hostname, stored_route_id.
  by rewrite (stored_column old r "backend_ref_id" hr_BackendRefID) by first [set_solver|right; set_solver].
Qed.

Lemma managed_put_domain (d : DomainEndpoint) old t :
  de_Hostname d = h -> res_deleted d = false -> owned_domain d -> managed t ->
  managed (res_put (<[res_key d := stored old d]> (res_get t)) t).
Proof.
  intros Hh Hd Ho (Hwf & [Or Od] & Ht). split_and!; [by apply insert_wf; [constructor|]|split|etrans; [exact Ht|split]].
  - exact Or.
  - intros k d'. rewrite live_insert by (done || constructor). case_bool_decide; [|apply Od].
    intros [= <-]. by apply stored_owned_domain.
  - intros k Hk. rewrite live_insert by (done || constructor). rewrite bool_decide_eq_false_2; [done|].
    cbn. congruence.
  - done.
  - done.
  - done.
Qed.

Lemma managed_put_backend (b : ServiceBackendRef) old t :
  res_deleted b = false -> id_host (sb_ID b) = Some h -> managed t ->
  managed (res_put (<[res_key b := stored old b]> (res_get t)) t).
Proof.
  intros Hd Hid (Hwf & [Or Od] & Ht). split_and!; [by apply insert_wf; [constructor|]|split|etrans; [exact Ht|split]].
  - exact Or.
  - exact Od.
  - done.
  - done.
  - intros id Hne. rewrite live_insert by (done || constructor). rewrite bool_decide_eq_false_2; [done|].
    cbn. congruence.
  - done.
Qed.

Lemma managed_put_route (r : HTTPRoute) old t :
  hr_Hostname r = h -> res_deleted r = false -> managed_id (hr_ID r) = true -> owned_route r -> managed t ->
  managed (res_put (<[res_key r := stored old r]> (res_get t)) t).
Proof.
  intros Hh Hd Hid Ho (Hwf & [Or Od] & Ht). split_and!; [by apply insert_wf; [constructor|]|split|etrans; [exact Ht|split]].
  - intros id r'. rewrite live_insert by (done || constructor). case_bool_decide; [|apply Or].
    intros [= <-]. by apply stored_owned_route.
  - exact Od.
  - done.
  - intros id r' Hr'. rewrite live_insert by (done || constructor). case_bool_decide as E; [|done].
    cbn in E. subst id. split.
    + intros [= <-]. rewrite stored_hostname in Hr'. congruence.
    + intros Hl. destruct (live_key _ _ _ known_routes Hwf Hl) as [Hk _]. cbn in Hk.
      destruct (Or _ _ Hl) as [Ho1 _]. rewrite Hk in Ho1. specialize (Ho1 Hid).
      destruct Ho as [Ho2 _]. specialize (Ho2 Hid). congruence.
  - done.
  - done.
Qed.

Lemma managed_drop_route id t :
  (forall r, live_row (M:=HTTPRoute) t id = Some r -> hr_Hostname r = h) -> managed t ->
  managed (without (M:=HTTPRoute) id t).
Proof.
  intros Hh (Hwf & [Or Od] & Ht). split_and!; [by apply without_wf; [constructor|]|split|etrans; [exact Ht|split]].
  - intros k r. rewrite live_without by (done || constructor). case_bool_decide; [done|apply Or].
  - exact Od.
  - done.
  - intros k r Hr. rewrite live_without by (done || constructor). case_bool_decide as E; [|done].
    subst k. split; [done|]. intros Hl. by destruct Hr, (Hh r Hl).
  - done.
  - done.
Qed.

Lemma managed_drop_backend id t :
  id_host id = Some h -> managed t -> managed (without (M:=ServiceBackendRef) id t).
Proof.
  intros Hh (Hwf & [Or Od] & Ht). split_and!; [by apply without_wf; [constructor|]|split|etrans; [exact Ht|split]].
  - exact Or.
  - exact Od.
  - done.
  - done.
  - intros k Hk. rewrite live_without by (done || constructor). rewrite bool_decide_eq_false_2; [done|].
    congruence.
  - done.
Qed.

Lemma managed_drop_domain t : managed t -> managed (without (M:=DomainEndpoint) h t).
Proof.
  intros (Hwf & [Or Od] & Ht). split_and!; [by apply without_wf; [constructor|]|split|etrans; [exact Ht|split]].
  - exact Or.
  - intros k d. rewrite live_without by (done || constructor). case_bool_decide; [done|apply Od].
  - intros k Hk. rewrite live_without by (done || constructor). by rewrite bool_decide_eq_false_2.
  - done.
  - done.
  - done.
Qed.

(** A route that was one of [h]'s at [t0] is not another host's now. *)
Lemma managed_route_host id r t :
  managed t -> live_row (M:=HTTPRoute) t0 id = Some r -> hr_Hostname r = h ->
  forall r', live_row (M:=HTTPRoute) t id = Some r' -> hr_Hostname r' = h.
Proof.
  intros (_ & _ & Ht) Hr Hh r' Hr'. destruct (decide (hr_Hostname r' = h)) as [|Hne]; [done|].
  apply (to_routes _ _ _ Ht) in Hr'; [|done]. congruence.
Qed.

(** ** The loops *)

Lemma preserves_managed_routes_drop cur NR NB :
  (forall r, r ∈ cur -> live_row t0 (hr_ID r) = Some r /\ hr_Hostname r = h /\ owned_route r) ->
  preserves (fun d => managed (rows d))
    (for_each (drop_stale_route NR NB) (range (by_id cur))).
Proof.
  intros Hcur. apply preserves_for_each. intros [id r] Hin%elem_of_range. unfold drop_stale_route.
  apply by_id_key in Hin as [Hk Hin]. destruct (Hcur r Hin) as (Hl & Hh & _ & Ho). cbn in Hk. rewrite Hk in Hl.
  destruct (bool_decide (id ∈ NR)); [apply preserves_ret|]. apply preserves_bind; [|intros _].
  - apply preserves_delete; [done|]. intros t Ht. apply managed_drop_route; [|done].
    by eapply managed_route_host.
  - destruct (managed_backend (hr_BackendRefID r) && _) eqn:E; [|apply preserves_ret].
    apply andb_true_iff in E as [E _].
    apply preserves_delete; [done|]. intros t Ht. apply managed_drop_backend; [|done].
    rewrite Ho by done. by rewrite Hh.
Qed.

Lemma preserves_managed_write existing cur item :
  item_ok h item ->
  (forall r, r ∈ cur -> live_row t0 (hr_ID r) = Some r /\ hr_Hostname r = h /\ owned_route r) ->
  (forall d, existing = Some d -> de_Hostname d = h /\ owned_domain d) ->
  preserves (fun d => managed (rows d)) (write_item existing cur item).
Proof.
  intros Hok Hcur Hex. unfold write_item.
  apply preserves_bind; [|intros _; apply preserves_bind; [|intros _; apply preserves_bind;
    [|intros _; apply preserves_bind; [|intros _]]]].
  - apply preserves_upsert. intros old t. apply managed_put_domain; apply Hok.
  - apply preserves_for_each. intros b Hb. destruct (io_backends _ _ Hok b Hb).
    apply preserves_upsert. intros old t. by apply managed_put_backend.
  - apply preserves_for_each. intros r Hr. destruct (io_routes _ _ Hok r Hr) as (?&?&?&?).
    apply preserves_upsert. intros old t. by apply managed_put_route.
  - by apply preserves_managed_routes_drop.
  - destruct existing as [d|]; [|apply preserves_ret]. unfold drop_stale_binding. destruct (Hex d eq_refl) as [Hh Ho].
    destruct (bool_decide _ && managed_backend _ && _) eqn:E; [|apply preserves_ret].
    apply andb_true_iff in E as [[_ E]%andb_true_iff _].
    apply preserves_delete; [done|]. intros t. apply managed_drop_backend. rewrite Ho by done. by rewrite Hh.
Qed.

End host.

(** ** The rows a host should have are there *)

Section serves.
Context {GM : GormModel} {GDB : Gorm Tables stmt stmt_effect} {MR : MapRange}.

(** Each wanted row is live, as an equal row or as what gorm stored for it,
    and the host has no other route. *)
Record serves (t : Tables) (item : domainMaterialized) : Prop := {
  se_domain : holds (fun d r => same_domain r d = true) t (dm_domain item);
  se_backends : forall id b, by_id (dm_backends item) !! id = Some b ->
    holds (fun d r => same_backend r d = true) t b;
  se_routes : forall r, r ∈ dm_routes item -> holds (fun d r => same_route r d = true) t r;
  se_no_other : forall id r, live_row t id = Some r ->
    hr_Hostname r = de_Hostname (dm_domain item) -> id ∈ hr_ID <$> dm_routes item;
}.

Lemma by_id_cons {M} {R : Resource M} (x : M) l k :
  by_id (x :: l) !! k =
  match by_id l !! k with Some y => Some y | None => if bool_decide (k = res_key x) then Some x else None end.
Proof.
  induction l as [|y l IH] using rev_ind.
  - unfold by_id. cbn. case_bool_decide; subst; [apply lookup_insert_eq|by rewrite lookup_insert_ne].
  - rewrite app_comm_cons, !by_id_snoc. destruct (decide (k = res_key y)) as [->|Hne].
    + by rewrite !lookup_insert_eq.
    + rewrite !lookup_insert_ne by done. exact IH.
Qed.

Lemma upserts_rows {M} {R : Resource M} (l : list M) d d' :
  known M R -> for_each UpsertResource l d = (d', Ok tt) ->
  exists m, rows d' = res_put m (rows d) /\ forall k,
    match by_id l !! k with
    | Some r => exists old, m !! k = Some (stored old r)
    | None => m !! k = res_get (rows d) !! k
    end.
Proof.
  intros Hk. pose proof (known_laws _ _ Hk) as HL. revert d. induction l as [|r l IH]; intros d; cbn [for_each].
  - intros [= <-]. exists (res_get (rows d)). by rewrite res_put_get.
  - intros (d1 & [] & H1 & H2)%go_bind_Ok. apply upsert_rows in H1 as [old H1].
    destruct (IH _ H2) as (m & Hm & Hlk). exists m. rewrite Hm, H1, res_put_put by done.
    split; [done|]. intros k. rewrite by_id_cons. specialize (Hlk k).
    destruct (by_id l !! k) as [r'|]; [done|]. rewrite Hlk, H1, res_get_put.
    case_bool_decide; [subst; rewrite lookup_insert_eq; eauto|by rewrite lookup_insert_ne].
Qed.

(** A loop that succeeds visits each element from a state where [I] holds. *)
Lemma for_each_visits {S A} (I P : S -> Prop) (body : A -> go S ()) l a s s' :
  for_each body l s = (s', Ok tt) -> a ∈ l -> I s ->
  (forall x, x ∈ l -> preserves I (body x)) ->
  (forall s s', I s -> body a s = (s', Ok tt) -> P s') ->
  (forall x, x ∈ l -> preserves (fun s => I s /\ P s) (body x)) -> P s'.
Proof.
  revert s. induction l as [|x l IH]; intros s; [by intros _ ?%elem_of_nil|]. cbn.
  intros (s1 & [] & H1 & H2)%go_bind_Ok Ha Hs HI Hreach Hkeep.
  assert (I s1) as Hs1.
  { pose proof (HI x ltac:(set_solver) s Hs) as Hx. by rewrite H1 in Hx. }
  apply elem_of_cons in Ha as [->|Ha].
  - pose proof (preserves_for_each (fun s => I s /\ P s) body l) as Hp.
    specialize (Hp ltac:(intros y Hy; apply Hkeep; set_solver) s1).
    rewrite H2 in Hp. apply Hp. split; [done|]. exact (Hreach s s1 Hs H1).
  - apply (IH s1 H2 Ha Hs1); [intros y Hy; apply HI; set_solver|exact Hreach|intros y Hy; apply Hkeep; set_solver].
Qed.

(** What the deletions after the writes keep: the domain row, the wanted rows,
    and the absence of every row. *)
Definition only_drops (NR NB : gset string) (t1 t : Tables) : Prop :=
  tables_wf t /\ (forall k, live_row (M:=DomainEndpoint) t k = live_row t1 k) /\
  (forall id, id ∈ NB -> live_row (M:=ServiceBackendRef) t id = live_row t1 id) /\
  (forall id, id ∈ NR -> live_row (M:=HTTPRoute) t id = live_row t1 id) /\
  (forall id r, live_row (M:=HTTPRoute) t id = Some r -> live_row t1 id = Some r).

Lemma only_drops_route NR NB t1 id t :
  id ∉ NR -> only_drops NR NB t1 t -> only_drops NR NB t1 (without (M:=HTTPRoute) id t).
Proof.
  intros Hid (Hwf & Hd & Hb & Hr & Hl). split_and!; [by apply without_wf; [constructor|]|done|done|..].
  - intros k Hk. rewrite live_without by (done || constructor).
    rewrite bool_decide_eq_false_2 by (intros ->; done). auto.
  - intros k r. rewrite live_without by (done || constructor). case_bool_decide; [done|apply Hl].
Qed.

Lemma only_drops_backend NR NB t1 id t :
  id ∉ NB -> only_drops NR NB t1 t -> only_drops NR NB t1 (without (M:=ServiceBackendRef) id t).
Proof.
  intros Hid (Hwf & Hd & Hb & Hr & Hl). split_and!; [by apply without_wf; [constructor|]|done| |done..].
  intros k Hk. rewrite live_without by (done || constructor).
  rewrite bool_decide_eq_false_2 by (intros ->; done). auto.
Qed.

Lemma drop_stale_only_drops NR NB t1 entry :
  preserves (fun d => only_drops NR NB t1 (rows d)) (drop_stale_route NR NB entry).
Proof.
  destruct entry as [id r]. unfold drop_stale_route.
  destruct (bool_decide (id ∈ NR)) eqn:E; [apply preserves_ret|]. apply bool_decide_eq_false in E.
  apply preserves_bind; [|intros _].
  - apply preserves_delete; [done|]. intros t. by apply only_drops_route.
  - destruct (managed_backend _ && _) eqn:E2; [|apply preserves_ret].
    apply andb_true_iff in E2 as [_ E2%bool_decide_eq_true].
    apply preserves_delete; [done|]. intros t. by apply only_drops_backend.
Qed.

Lemma drop_binding_only_drops NR NB t1 existing :
  preserves (fun d => only_drops NR NB t1 (rows d)) (drop_stale_binding NB existing).
Proof.
  destruct existing as [d|]; [|apply preserves_ret]. unfold drop_stale_binding.
  destruct (bool_decide _ && _ && _) eqn:E; [|apply preserves_ret].
  apply andb_true_iff in E as [_ E%bool_decide_eq_true].
  apply preserves_delete; [done|]. intros t. by apply only_drops_backend.
Qed.

(** A stale route is gone after the loop. *)
Lemma drop_stale_gone NR NB cur id d d' :
  tables_wf (rows d) -> for_each (drop_stale_route NR NB) (range (by_id cur)) d = (d', Ok tt) ->
  is_Some (by_id cur !! id) -> id ∉ NR -> live_row (M:=HTTPRoute) (rows d') id = None.
Proof.
  intros Hwf Hrun [r Hr] Hid.
  apply (for_each_visits (fun d0 => only_drops NR NB (rows d) (rows d0))
    (fun d0 => live_row (M:=HTTPRoute) (rows d0) id = None) _ _ (id, r) _ _ Hrun).
  - by apply elem_of_range.
  - by split_and!.
  - intros x _. apply drop_stale_only_drops.
  - intros s s' (Hs & _). unfold drop_stale_route. rewrite bool_decide_eq_false_2 by done.
    intros (s1 & [] & H1 & H2)%go_bind_Ok. apply delete_rows in H1; [|done].
    assert (tables_wf (rows s1)) as Hs1 by (rewrite H1; by apply without_wf; [constructor|]).
    assert (live_row (M:=HTTPRoute) (rows s1) id = None) as Hn.
    { rewrite H1, live_without by (done || constructor). by rewrite bool_decide_eq_true_2. }
    destruct (managed_backend _ && _); [|by injection H2 as <-].
    apply delete_rows in H2; [|done]. by rewrite H2.
  - intros [k x] Hx s [Hs Hn]. split; [by apply drop_stale_only_drops|].
    pose proof (drop_stale_only_drops NR NB (rows s) (k, x) s) as Hk. cbv beta in Hk.
    destruct Hk as (_ & _ & _ & _ & Hl); [split_and!; try done; apply Hs|].
    destruct (live_row (rows (drop_stale_route NR NB (k, x) s).1) id) as [y|] eqn:Ey; [|done].
    apply Hl in Ey. congruence.
Qed.

Lemma upserts_wf {M} {R : Resource M} (l : list M) d d' :
  known M R -> tables_wf (rows d) -> for_each UpsertResource l d = (d', Ok tt) -> tables_wf (rows d').
Proof.
  intros Hk Hwf Hrun.
  pose proof (preserves_for_each (fun d => tables_wf (rows d)) UpsertResource l) as Hp.
  specialize (Hp ltac:(intros r _; apply preserves_upsert; intros old t; by apply insert_wf) d Hwf).
  by rewrite Hrun in Hp.
Qed.

(** A row written by the loop holds what was wanted. *)
Lemma upserts_hold {M} {R : Resource M} (shows : M -> M -> Prop) (l : list M) d d' id r :
  known M R -> for_each UpsertResource l d = (d', Ok tt) ->
  (forall r, r ∈ l -> res_deleted r = false) -> by_id l !! id = Some r -> holds shows (rows d') r.
Proof.
  intros Hk Hrun Hd Hr. pose proof (known_laws _ _ Hk) as HL.
  destruct (upserts_rows l d d' Hk Hrun) as (m & Hm & Hl).
  pose proof (by_id_key _ _ _ Hr) as [Hkey Hin]. specialize (Hl id). rewrite Hr in Hl.
  destruct Hl as [old Hl]. exists (stored old r). split; [|eauto].
  unfold live_row. rewrite Hm, res_get_put, Hkey, Hl. cbn. by rewrite stored_deleted, (Hd r Hin).
Qed.

Lemma write_serves h existing cur item d d' :
  tables_wf (rows d) -> item_ok h item ->
  (forall id r, live_row (rows d) id = Some r -> hr_Hostname r = h -> is_Some (by_id cur !! id)) ->
  write_item existing cur item d = (d', Ok tt) -> serves (rows d') item.
Proof.
  intros Hwf Hok Hcur. unfold write_item.
  set (NB := list_to_set (sb_ID <$> dm_backends item) : gset string).
  set (NR := list_to_set (hr_ID <$> dm_routes item) : gset string).
  intros (d1 & [] & H1 & (d2 & [] & H2 & (d3 & [] & H3 & (d4 & [] & H4 & H5)%go_bind_Ok)%go_bind_Ok)%go_bind_Ok)%go_bind_Ok.
  apply upsert_rows in H1 as [old H1].
  assert (tables_wf (rows d1)) as Hwf1 by (rewrite H1; by apply insert_wf; [constructor|]).
  pose proof (upserts_wf _ _ _ known_backends Hwf1 H2) as Hwf2.
  pose proof (upserts_wf _ _ _ known_routes Hwf2 H3) as Hwf3.
  destruct (upserts_rows _ _ _ known_backends H2) as (mb & Hmb & _).
  destruct (upserts_rows _ _ _ known_routes H3) as (mr & Hmr & Hr3).
  assert (only_drops NR NB (rows d3) (rows d4)) as H4'.
  { pose proof (preserves_for_each (fun d => only_drops NR NB (rows d3) (rows d))
      (drop_stale_route NR NB) (range (by_id cur))) as Hp.
    specialize (Hp ltac:(intros x _; apply drop_stale_only_drops) d3 ltac:(by split_and!)).
    by rewrite H4 in Hp. }
  assert (only_drops NR NB (rows d3) (rows d')) as (_ & Hd & Hb & Hr & Hl).
  { pose proof (drop_binding_only_drops NR NB (rows d3) existing d4 H4') as Hp. by rewrite H5 in Hp. }
  assert (only_drops NR NB (rows d4) (rows d')) as (_ & _ & _ & _ & Hl4).
  { pose proof (drop_binding_only_drops NR NB (rows d4) existing d4) as Hp.
    rewrite H5 in Hp. apply Hp. split_and!; try done. apply H4'. }
  split.
  - exists (stored old (dm_domain item)). split; [|eauto]. rewrite Hd, Hmr.
    change (live_row (rows d2) (res_key (dm_domain item)) = Some (stored old (dm_domain item))).
    rewrite Hmb. change (live_row (rows d1) (res_key (dm_domain item)) = Some (stored old (dm_domain item))).
    rewrite H1, live_insert by first [constructor|apply Hok]. by rewrite bool_decide_eq_true_2.
  - intros id b Hid. destruct (upserts_hold (fun d r => same_backend r d = true) _ _ _ _ _
      known_backends H2 (fun b Hb => proj1 (io_backends _ _ Hok b Hb)) Hid) as (r & Hr' & Hs).
    exists r. split; [|done]. apply by_id_key in Hid as [Hid Hin]. rewrite Hb, Hmr; [done|].
    apply elem_of_list_to_set. by apply (list_elem_of_fmap_2 sb_ID).
  - intros r Hin. assert (by_id (dm_routes item) !! hr_ID r = Some r) as Hid
      by exact (by_id_elem (dm_routes item) r (io_route_ids _ _ Hok) Hin).
    destruct (upserts_hold (fun d r => same_route r d = true) _ _ _ _ _
      known_routes H3 (fun r Hr => proj1 (proj2 (io_routes _ _ Hok r Hr))) Hid) as (r' & Hr' & Hs).
    exists r'. split; [|done]. rewrite Hr; [done|].
    apply elem_of_list_to_set. by apply (list_elem_of_fmap_2 hr_ID).
  - intros id r Hlive Hh. destruct (decide (id ∈ NR)) as [Hin|Hout]; [by apply elem_of_list_to_set in Hin|].
    exfalso. assert (live_row (M:=HTTPRoute) (rows d) id = Some r) as Hold.
    { apply Hl in Hlive. revert Hlive. unfold live_row. rewrite Hmr. cbn. specialize (Hr3 id).
      destruct (by_id (dm_routes item) !! id) as [x|] eqn:Ex.
      - apply by_id_key in Ex as [<- Hx]. destruct Hout. apply elem_of_list_to_set.
        by apply (list_elem_of_fmap_2 hr_ID).
      - rewrite Hr3, Hmb, H1. done. }
    rewrite (io_host _ _ Hok) in Hh. pose proof (Hcur id r Hold Hh) as Hs.
    pose proof (drop_stale_gone NR NB cur id d3 d4 Hwf3 H4 Hs Hout) as Hn.
    apply Hl4 in Hlive. congruence.
Qed.

(** ** Nothing is written when the rows are already there *)

Lemma by_id_perm_live {M} {R : Resource M} col v t l id (r : M) :
  known M R -> tables_wf t -> l ≡ₚ rows_where col v t -> by_id l !! id = Some r ->
  live_row t id = Some r.
Proof.
  intros Hk Hwf Hp Hid. apply by_id_key in Hid as [<- Hin]. rewrite Hp in Hin.
  by apply rows_where_live_row in Hin as [? _].
Qed.

Lemma live_row_where {M} {R : Resource M} col t id (r : M) :
  known M R -> tables_wf t -> live_row t id = Some r -> r ∈ rows_where col (col r) t.
Proof.
  intros Hk Hwf Hl. pose proof (live_key _ _ _ Hk Hwf Hl) as [_ Hd].
  apply elem_of_rows_where. split_and!; [|done|done]. exists id. revert Hl. unfold live_row.
  destruct (res_get t !! id) as [r'|]; [|done]. cbn. destruct (res_deleted r'); [done|]. by intros [= <-].
Qed.

Lemma rows_where_NoDup {M} {R : Resource M} col v t :
  known M R -> tables_wf t -> NoDup (res_key <$> rows_where (M:=M) col v t).
Proof.
  intros Hk Hwf. unfold rows_where, live_rows. do 2 apply NoDup_fmap_filter.
  pose proof (get_keyed _ _ _ Hk Hwf) as Hkey.
  assert (res_key <$> (map_to_list (res_get (M:=M) t)).*2 = (map_to_list (res_get (M:=M) t)).*1) as ->.
  { rewrite <- list_fmap_compose. apply list_fmap_ext. intros i [k r] Hi. cbn.
    apply list_elem_of_lookup_2, elem_of_map_to_list in Hi. by apply Hkey. }
  apply NoDup_fst_map_to_list.
Qed.

Lemma unchanged_serves h item t existing cur backends :
  tables_wf t -> item_ok h item ->
  (forall d, existing = Some d -> live_row t h = Some d) ->
  cur ≡ₚ rows_where hr_Hostname h t ->
  (forall id b, by_id backends !! id = Some b -> live_row t id = Some b) ->
  managedDomainUnchanged existing cur backends item = true -> serves t item.
Proof.
  intros Hwf Hok Hex Hcur Hbk. unfold managedDomainUnchanged. destruct existing as [d|]; [|done].
  rewrite !andb_true_iff, !bool_decide_eq_true. intros ((((Hd & Hlr) & Hlb) & Hr) & Hb).
  unfold all_current in Hr, Hb. rewrite forallb_Forall, Forall_forall in Hr.
  rewrite forallb_Forall, Forall_forall in Hb.
  assert (forall r, r ∈ dm_routes item -> exists c, by_id cur !! hr_ID r = Some c /\ same_route c r = true) as Hr'.
  { intros r Hin. specialize (Hr r Hin). cbn in Hr. destruct (by_id cur !! hr_ID r) as [c|]; [eauto|done]. }
  split.
  - exists d. split; [|by left]. change (live_row t (de_Hostname (dm_domain item)) = Some d).
    rewrite (io_host _ _ Hok). by apply Hex.
  - intros id b [<- Hin]%by_id_key. specialize (Hb b Hin). cbn in Hb.
    destruct (by_id backends !! sb_ID b) as [c|] eqn:E; [|done]. exists c. split; [by apply Hbk|by left].
  - intros r Hin. destruct (Hr' r Hin) as (c & Hc & Hs). exists c. split; [|by left].
    by eapply (by_id_perm_live hr_Hostname); [constructor|..].
  - intros id r Hl Hh. rewrite (io_host _ _ Hok) in Hh.
    pose proof (live_key _ _ _ known_routes Hwf Hl) as [Hk _]. cbn in Hk. subst id.
    assert (r ∈ cur) as Hin by (rewrite Hcur, <- Hh; by eapply live_row_where; [constructor|..]).
    assert (hr_ID <$> dm_routes item ≡ₚ hr_ID <$> cur) as ->; [|by apply list_elem_of_fmap_2].
    apply submseteq_length_Permutation; [|by rewrite !length_fmap, Hlr].
    apply NoDup_submseteq; [apply Hok|]. intros x (r' & -> & Hr0)%list_elem_of_fmap.
    destruct (Hr' r' Hr0) as (c & [Hc1 Hc2]%by_id_key & _). cbn in Hc1. rewrite <- Hc1.
    by apply list_elem_of_fmap_2.
Qed.

End serves.

(** ** One host *)

Section one_host.
Context {GM : GormModel} {GDB : Gorm Tables stmt stmt_effect} {MR : MapRange}.

Lemma unless_not_found_cases {A} (none : A) (m : go db A) d :
  let '(d', r) := unless_not_found none m d in
  (m d).1 = d' /\ (r = (m d).2 \/ ((m d).2 = Err ErrRecordNotFound /\ r = Ok none)).
Proof.
  unfold unless_not_found, attempt. cbv [mbind go_bind]. destruct (m d) as [d' [a|e]]; cbn; [by split; [|left]|].
  destruct (bool_decide (e = ErrRecordNotFound)) eqn:E; cbn; [|by split; [|left]].
  apply bool_decide_eq_true in E as ->. by split; [|right].
Qed.

(** Reading the row of a host that may not be there. *)
Lemma existing_domain h d : tables_wf (rows d) ->
  let '(d', r) := unless_not_found None (GetDomainEndpointByHostname h ≫= fun x => mret (Some x)) d in
  rows d' = rows d /\ forall o, r = Ok o -> o = live_row (rows d) h.
Proof.
  intros Hwf. pose proof (unless_not_found_cases None (GetDomainEndpointByHostname h ≫= fun x => mret (Some x)) d) as H.
  destruct (unless_not_found _ _ d) as [d' r]. destruct H as [H1 H2]. revert H1 H2.
  cbv [mbind go_bind]. unfold GetDomainEndpointByHostname.
  pose proof (first_row_rows (rows_where de_Hostname h) (order_asc de_Hostname) d) as Hr.
  pose proof (first_row_ok (rows_where de_Hostname h) (order_asc de_Hostname) d) as Hok.
  pose proof (first_row_not_found (rows_where de_Hostname h) (order_asc de_Hostname) d) as Hnf.
  pose proof (rows_where_live (M:=DomainEndpoint) (rows d) h (get_keyed _ _ _ known_domains Hwf)) as Hl.
  change (rows_where res_key h (rows d)) with (rows_where de_Hostname h (rows d)) in Hl.
  destruct (first_row _ _ d) as [d1 [x|e]]; cbn in *; intros <- Hres; (split; [done|]); intros o ->.
  - destruct Hres as [[= ->]|[[=] _]]. specialize (Hok x eq_refl). rewrite Hl in Hok.
    destruct (live_row (rows d) h) as [y|]; cbn in Hok; [|by apply elem_of_nil in Hok].
    apply list_elem_of_singleton in Hok. congruence.
  - destruct Hres as [[=]|[[= ->] [= ->]]]. specialize (Hnf eq_refl). rewrite Hl in Hnf.
    by destruct (live_row (rows d) h).
Qed.

(** Listing rows, where an empty list is not an error. *)
Lemma current_rows {A} (f : Tables -> list A) leb d :
  let '(d', r) := unless_not_found [] (select f leb) d in
  rows d' = rows d /\ forall l, r = Ok l -> l ≡ₚ f (rows d).
Proof.
  pose proof (unless_not_found_cases [] (select f leb) d) as H.
  destruct (unless_not_found _ _ d) as [d' r]. destruct H as [<- H2]. split; [apply select_rows|].
  intros l ->. destruct H2 as [H2|[H2 _]].
  - by apply select_perm with leb.
  - by apply select_err in H2.
Qed.

Lemma binding_rows_live h t b :
  tables_wf t ->
  b ∈ (b ← live_rows (M:=ServiceBackendRef) t; r ← rows_where hr_Hostname h t;
       if bool_decide (hr_BackendRefID r = sb_ID b) then [b] else []) ->
  live_row t (sb_ID b) = Some b.
Proof.
  intros Hwf. rewrite list_elem_of_bind. intros (b' & Hb & Hin).
  apply list_elem_of_bind in Hb as (r & Hb & _). destruct (bool_decide _); [|by apply elem_of_nil in Hb].
  apply list_elem_of_singleton in Hb as ->.
  assert (b' ∈ rows_where sb_ID (sb_ID b') t) as Hw.
  { apply elem_of_rows_where. apply elem_of_live_rows in Hin as [? ?]. done. }
  by apply (rows_where_live_row t sb_ID (sb_ID b') b' known_backends Hwf) in Hw as [? _].
Qed.

Lemma owned_current h t cur :
  tables_wf t -> owned t -> cur ≡ₚ rows_where hr_Hostname h t ->
  forall r, r ∈ cur -> live_row t (hr_ID r) = Some r /\ hr_Hostname r = h /\ owned_route r.
Proof.
  intros Hwf [Ho _] Hc r Hr. rewrite Hc in Hr.
  apply (rows_where_live_row _ _ _ _ known_routes Hwf) in Hr as [Hl Hh]. split_and!; [done..|]. eauto.
Qed.

Lemma managed_refl h t : tables_wf t -> owned t -> managed h t t.
Proof. intros Hwf Ho. split_and!; done. Qed.

(** Bringing a host up to date.  Whatever happens only its rows change; when
    it succeeds they are the wanted ones, and they already were when nothing
    is reported changed. *)
Lemma upsert_managed h item d :
  tables_wf (rows d) -> owned (rows d) -> item_ok h item ->
  let '(d', r) := upsertManagedDomain item d in
  managed h (rows d) (rows d') /\
  forall changed, r = Ok changed ->
    serves (rows d') item /\ (changed = false -> rows d' = rows d).
Proof.
  intros Hwf Ho Hok. unfold upsertManagedDomain. rewrite (io_host _ _ Hok).
  cbv beta iota delta [mbind go_bind].
  pose proof (existing_domain h d Hwf) as H1. cbv beta iota delta [mbind go_bind] in H1.
  destruct (unless_not_found None _ d) as [d1 r1]. destruct H1 as [E1 H1].
  destruct r1 as [existing|e]; [|rewrite E1; split; [by apply managed_refl|done]].
  specialize (H1 existing eq_refl). unfold ListHTTPRoutesByHostname.
  pose proof (current_rows (rows_where hr_Hostname h) http_route_leb d1) as H2.
  destruct (unless_not_found [] _ d1) as [d2 r2]. destruct H2 as [E2 H2]. rewrite E1 in *.
  destruct r2 as [cur|e]; [|rewrite E2; split; [by apply managed_refl|done]].
  specialize (H2 cur eq_refl). unfold ListServiceBindingsByHostname.
  match goal with |- context [unless_not_found [] (select ?f ?leb) d2] =>
    pose proof (current_rows f leb d2) as H3; destruct (unless_not_found [] (select f leb) d2) as [d3 r3] end.
  destruct H3 as [E3 H3]. rewrite E2 in *.
  destruct r3 as [bks|e]; [|rewrite E3; split; [by apply managed_refl|done]].
  specialize (H3 bks eq_refl). rewrite <- E3 in *. clear E1 E2.
  assert (forall r, r ∈ cur -> live_row (rows d3) (hr_ID r) = Some r /\ hr_Hostname r = h /\ owned_route r) as Hcur
    by by apply owned_current.
  destruct (managedDomainUnchanged existing cur bks item) eqn:Eu.
  - split; [by apply managed_refl|]. intros changed [= <-]. split; [|done].
    apply (unchanged_serves h item (rows d3) existing cur bks); try done; [by intros x E; rewrite <- E|].
    intros id b [<- Hin]%by_id_key.
    rewrite H3 in Hin. by eapply binding_rows_live.
  - pose proof (preserves_managed_write h (rows d3) existing cur item Hok Hcur) as Hp.
    specialize (Hp ltac:(intros x ->; pose proof (live_key _ _ _ known_domains Hwf (eq_sym H1)) as [Hk _];
      split; [exact Hk|by eapply Ho]) d3 (managed_refl _ _ Hwf Ho)).
    pose proof (write_serves h existing cur item d3) as Hs.
    destruct (write_item existing cur item d3) as [d4 [[]|e]]; (split; [done|]); [|done].
    intros changed [= <-]. split; [|done]. apply Hs; try done. intros id r Hl Hh.
    pose proof (live_key _ _ _ known_routes Hwf Hl) as [Hk _]. cbn in Hk. subst id.
    assert (r ∈ cur) as Hin by (rewrite H2, <- Hh; by eapply live_row_where; [constructor|..]).
    exact (by_id_is_Some cur r Hin).
Qed.

(** ** A host that goes away *)

Lemma drop_route_managed h t0 r :
  live_row t0 (hr_ID r) = Some r -> hr_Hostname r = h -> owned_route r ->
  preserves (fun d => managed h t0 (rows d)) (drop_route r).
Proof.
  intros Hl Hh [_ Ho]. unfold drop_route. apply preserves_bind; [|intros _].
  - apply preserves_delete; [done|]. intros t Ht. apply managed_drop_route; [|done].
    by eapply managed_route_host.
  - destruct (managed_backend _) eqn:E; [|apply preserves_ret].
    apply preserves_delete; [done|]. intros t. apply managed_drop_backend. rewrite Ho by done. by rewrite Hh.
Qed.

(** No route appears. *)
Definition fewer_routes (t0 t : Tables) : Prop :=
  tables_wf t /\ forall id r, live_row (M:=HTTPRoute) t id = Some r -> live_row t0 id = Some r.

Lemma drop_route_fewer t0 r : preserves (fun d => fewer_routes t0 (rows d)) (drop_route r).
Proof.
  unfold drop_route. apply preserves_bind; [|intros _; destruct (managed_backend _); [|apply preserves_ret]].
  - apply preserves_delete; [done|]. intros t [Ht Hl]. split; [by apply without_wf; [constructor|]|].
    intros id x. rewrite live_without by (done || constructor). case_bool_decide; [done|apply Hl].
  - apply preserves_delete; [done|]. intros t [Ht Hl]. by split; [apply without_wf; [constructor|]|].
Qed.

Lemma drop_routes_gone h t0 l d d' r :
  (forall r, r ∈ l -> live_row t0 (hr_ID r) = Some r /\ hr_Hostname r = h /\ owned_route r) ->
  managed h t0 (rows d) -> for_each drop_route l d = (d', Ok tt) -> r ∈ l ->
  live_row (M:=HTTPRoute) (rows d') (hr_ID r) = None.
Proof.
  intros Hl Hm Hrun Hin.
  apply (for_each_visits (fun d => managed h t0 (rows d))
    (fun d => live_row (M:=HTTPRoute) (rows d) (hr_ID r) = None) _ _ r _ _ Hrun Hin Hm).
  - intros x Hx. destruct (Hl x Hx) as (?&?&?). by apply drop_route_managed.
  - intros s s' (Hwf & _). unfold drop_route. intros (s1 & [] & H1 & H2)%go_bind_Ok.
    apply delete_rows in H1; [|done].
    assert (live_row (M:=HTTPRoute) (rows s1) (hr_ID r) = None) as Hn.
    { rewrite H1, live_without by (done || constructor). by rewrite bool_decide_eq_true_2. }
    destruct (managed_backend _); [|by injection H2 as <-].
    apply delete_rows in H2; [|done]. by rewrite H2.
  - intros x Hx. destruct (Hl x Hx) as (Hx1 & Hx2 & Hx3). intros s [Hs Hn].
    split; [by apply drop_route_managed|].
    destruct (drop_route_fewer (rows s) x s) as [_ Hf]; [by split; [apply Hs|]|].
    destruct (live_row (rows (drop_route x s).1) (hr_ID r)) as [y|] eqn:Ey; [|done].
    apply Hf in Ey. congruence.
Qed.

End one_host.

(** ** Many hosts *)

(** The rows of [h] are as they were. *)
Record spared (h : string) (t t' : Tables) : Prop := {
  sp_domain : live_row (M:=DomainEndpoint) t' h = live_row t h;
  sp_routes : forall id r, hr_Hostname r = h ->
    live_row (M:=HTTPRoute) t' id = Some r <-> live_row t id = Some r;
  sp_backends : forall id, id_host id = Some h ->
    live_row (M:=ServiceBackendRef) t' id = live_row t id;
}.

#[export] Instance spared_preorder h : PreOrder (spared h).
Proof.
  split.
  - intros t. by split.
  - intros t1 t2 t3 [D1 R1 B1] [D2 R2 B2]. split.
    + by rewrite D2, D1.
    + intros id r Hr. by rewrite R2, R1.
    + intros id Hid. by rewrite B2, B1.
Qed.

Lemma touches_spared h h' t t' : touches h t t' -> h' <> h -> spared h' t t'.
Proof.
  intros [D R B _] Hne. split; [by apply D|intros id r <-; by apply R|].
  intros id Hid. apply B. congruence.
Qed.

(** The tables apart from the bridges' three. *)
Definition same_rest (t t' : Tables) : Prop :=
  tb_dns t' = tb_dns t /\ tb_certs t' = tb_certs t /\ tb_snapshots t' = tb_snapshots t.

Section many_hosts.
Context {GM : GormModel} {GDB : Gorm Tables stmt stmt_effect} {BS : BundleStore} {MR : MapRange}.

Lemma serves_spared h t t' item : item_ok h item -> spared h t t' -> serves t item -> serves t' item.
Proof.
  intros Hok [D R B] [(d & Hd & Hds) Hb Hr Ho]. pose proof (io_host _ _ Hok) as Hh. split.
  - exists d. split; [|done]. change (live_row t' (de_Hostname (dm_domain item)) = Some d).
    rewrite Hh, D, <- Hh. exact Hd.
  - intros id b Hib. destruct (Hb id b Hib) as (r & Hr' & Hs). exists r. split; [|done].
    apply by_id_key in Hib as [_ Hin]. destruct (io_backends _ _ Hok b Hin) as [_ Hid].
    rewrite B; [done|exact Hid].
  - intros r Hin. destruct (Hr r Hin) as (r' & Hr' & Hs). exists r'. split; [|done].
    apply R; [|done]. destruct (io_routes _ _ Hok r Hin) as [Hrh _].
    destruct Hs as [Hs|[old ->]].
    + unfold same_route in Hs. repeat apply andb_true_iff in Hs as [Hs _].
      apply bool_decide_eq_true in Hs. congruence.
    + rewrite stored_hostname. congruence.
  - intros id r Hl Hrh. eapply Ho; [|done]. apply R; [congruence|done].
Qed.

(** What the cluster wants of [h] is in the tables. *)
Definition settled (next : gmap string domainMaterialized) (h : string) (t : Tables) : Prop :=
  match next !! h with
  | Some item => serves t item
  | None => live_row (M:=DomainEndpoint) t h = None
  end.

Definition items_ok (next : gmap string domainMaterialized) : Prop := map_Forall item_ok next.

Lemma settled_spared next h t t' : items_ok next -> spared h t t' -> settled next h t -> settled next h t'.
Proof.
  intros Hok Hsp. unfold settled. destruct (next !! h) as [item|] eqn:E.
  - apply serves_spared with h; [by apply Hok|done].
  - by rewrite (sp_domain _ _ _ Hsp).
Qed.

(** The routes a listing returned, if it returned any, are dropped. *)
Lemma drop_listed h t routes d :
  tables_wf t -> owned t -> rows d = t ->
  (forall l, routes = Ok l -> l ≡ₚ rows_where hr_Hostname h t) ->
  let '(d', r) := match routes with Ok routes => for_each drop_route routes | Err _ => mret tt end d in
  managed h t (rows d') /\
  (r = Ok tt -> is_ok routes = true -> forall id x, live_row (rows d') id = Some x -> hr_Hostname x <> h).
Proof.
  intros Hwf Ho Ed Hp. assert (managed h t (rows d)) as Hm by (rewrite Ed; by apply managed_refl).
  destruct routes as [routes|e]; [|done].
  specialize (Hp routes eq_refl). pose proof (owned_current h _ _ Hwf Ho Hp) as Hcur.
  pose proof (preserves_for_each (fun d => managed h t (rows d)) drop_route routes) as Hpr.
  specialize (Hpr ltac:(intros x Hx; destruct (Hcur x Hx) as (?&?&?); by apply drop_route_managed) d Hm).
  pose proof (preserves_for_each (fun d => fewer_routes t (rows d)) drop_route routes) as Hfr.
  specialize (Hfr ltac:(intros x _; apply drop_route_fewer) d ltac:(cbv beta; by rewrite Ed)).
  destruct (for_each drop_route routes d) as [d' r] eqn:Er. cbn in Hpr, Hfr. split; [done|].
  intros -> _ id x Hl Hh. pose proof (live_key _ _ _ known_routes (proj1 Hpr) Hl) as [Hid _].
  cbn in Hid. subst id. apply Hfr in Hl as Hl1.
  assert (x ∈ routes) as Hin by (rewrite Hp, <- Hh; by eapply live_row_where; [constructor|..]).
  by rewrite (drop_routes_gone h t routes d d' x Hcur Hm Er Hin) in Hl.
Qed.

(** The backend bound to the host is dropped. *)
Lemma drop_bound h t dom d :
  owned_domain dom -> de_Hostname dom = h -> managed h t (rows d) ->
  let '(d', r) := (if bool_decide (de_BindedServiceID dom <> "") && managed_backend (de_BindedServiceID dom)
                   then delete_backend (de_BindedServiceID dom) else mret tt) d in
  managed h t (rows d') /\ forall id, live_row (M:=HTTPRoute) (rows d') id = live_row (rows d) id.
Proof.
  intros Ho Hk Hm. destruct (bool_decide _ && _) eqn:E; [|done]. apply andb_true_iff in E as [_ E].
  assert (preserves (fun d => managed h t (rows d)) (delete_backend (de_BindedServiceID dom))) as Hpr.
  { apply preserves_delete; [done|]. intros t'. apply managed_drop_backend. rewrite <- Hk. by apply Ho. }
  specialize (Hpr d Hm).
  destruct (delete_backend (de_BindedServiceID dom) d) as [d' [[]|e]] eqn:Ed; (split; [done|]).
  - apply delete_rows in Ed; [|done]. by rewrite Ed.
  - by rewrite (exec_stmt_err _ _ _ _ Ed).
Qed.

(** A host that goes away.  Whatever happens only its rows change; when it
    succeeds the host is gone, with its routes unless they could not be
    listed. *)
Lemma delete_managed h d :
  tables_wf (rows d) -> owned (rows d) ->
  let '(d', r) := deleteManagedDomain h d in
  managed h (rows d) (rows d') /\
  forall changed, r = Ok changed ->
    live_row (M:=DomainEndpoint) (rows d') h = None /\ (changed = false -> rows d' = rows d) /\
    (changed = true -> reads_succeed ->
       forall id r, live_row (rows d') id = Some r -> hr_Hostname r <> h).
Proof.
  intros Hwf Ho. unfold deleteManagedDomain. cbv beta iota delta [mbind go_bind].
  pose proof (existing_domain h d Hwf) as H1. cbv beta iota delta [mbind go_bind] in H1.
  destruct (unless_not_found None _ d) as [d1 r1]. destruct H1 as [E1 H1].
  destruct r1 as [[dom|]|e]; cbv beta iota zeta delta [mret go_ret throw];
    [|rewrite E1; split; [by apply managed_refl|];
      intros changed [= <-]; split_and!; [by rewrite <- (H1 None)|done..]
     |rewrite E1; by split; [apply managed_refl|]].
  specialize (H1 _ eq_refl). rewrite <- E1 in *. clear E1.
  pose proof (live_key _ _ _ known_domains Hwf (eq_sym H1)) as [Hk _]. cbn in Hk.
  pose proof (proj2 Ho h dom (eq_sym H1)) as Hod. rewrite Hk.
  unfold attempt, ListHTTPRoutesByHostname.
  pose proof (select_rows (rows_where hr_Hostname h) http_route_leb d1) as E2.
  pose proof (select_perm (rows_where hr_Hostname h) http_route_leb d1) as Hp.
  pose proof (fun Hr : reads_succeed => Hr _ (rows_where hr_Hostname h) http_route_leb d1) as Hread.
  destruct (select _ _ d1) as [d2 routes]. cbn in E2, Hp, Hread.
  pose proof (drop_listed h (rows d1) routes d2 Hwf Ho E2 Hp) as H3.
  cbv beta iota zeta delta [mret go_ret] in H3.
  match type of H3 with context [let (_, _) := ?m in _] => destruct m as [d3 [[]|e]] end;
    destruct H3 as [Hm Hgone]; [|done].
  pose proof (drop_bound h (rows d1) dom d3 Hod Hk Hm) as H4. cbv beta iota zeta delta [mret go_ret] in H4.
  match type of H4 with context [let (_, _) := ?m in _] => destruct m as [d4 [[]|e]] end;
    destruct H4 as [Hm4 Hr4]; [|done].
  assert (preserves (fun d => managed h (rows d1) (rows d)) (DeleteResourceByField DomainEndpoint "hostname" h)) as Hpr.
  { apply preserves_delete; [done|]. intros t. apply managed_drop_domain. }
  specialize (Hpr d4 Hm4).
  destruct (DeleteResourceByField DomainEndpoint "hostname" h d4) as [d5 [[]|e]] eqn:Ed; (split; [done|]); [|done].
  apply delete_rows in Ed; [|done]. intros changed [= <-]. rewrite Ed. split_and!; [|done|].
  - rewrite live_without by first [by constructor|apply Hm4]. by rewrite bool_decide_eq_true_2.
  - intros _ Hr id r. change (live_row (rows d4) id = Some r -> hr_Hostname r <> h). rewrite Hr4.
    apply Hgone; [done|by apply Hread].
Qed.

(** ** Bringing a set of hosts up to date *)

Definition good (t : Tables) : Prop := tables_wf t /\ owned t.

Definition changed (acc : synced) : list string := sy_changedAffected acc ++ sy_changedRemoved acc.

Lemma on_db_cases {A} (m : go db A) s :
  let '(s', r) := on_db m s in
  (m (en_Repo (ms_Engine s))).2 = r /\ ms_tables s' = rows (m (en_Repo (ms_Engine s))).1.
Proof. unfold on_db, on_Engine, on_Repo, zoom. by destruct (m _) as [d' r]. Qed.

Lemma mark_desired_tables hostname s : exists s',
  mark_certificate_desired hostname s = (s', Ok tt) /\ ms_tables s' = ms_tables s.
Proof.
  unfold mark_certificate_desired. cbv [mbind go_bind get_state].
  destruct (MarkCertificateDesired _ _) as [x|]; [|by eexists].
  unfold Notify. destruct (bool_decide _); by eexists.
Qed.

(** What one step of the loops does, in terms of the host it is about. *)
Definition host_synced (next : gmap string domainMaterialized) (acc : synced) (n : string)
    (t t' : Tables) (r : result synced) : Prop :=
  good t' /\ same_rest t t' /\ (forall h, h <> n \/ n = "" \/ h ∈ sy_seen acc -> spared h t t') /\
  forall acc', r = Ok acc' ->
    (forall h, h ∈ sy_seen acc' <-> (h = n /\ n <> "") \/ h ∈ sy_seen acc) /\
    (n <> "" -> n ∉ sy_seen acc -> settled next n t') /\
    (forall h, h ∉ changed acc' -> spared h t t') /\ changed acc ⊆ changed acc'.

Lemma managed_good h t t' : managed h t t' ->
  good t' /\ same_rest t t' /\ forall h', h' <> h -> spared h' t t'.
Proof.
  intros (Hwf & Ho & Ht). split; [done|]. split; [exact (to_rest _ _ _ Ht)|].
  intros h'. by apply touches_spared.
Qed.

(** The host's rows are written or deleted by [m], and reported by [add]. *)
Lemma host_synced_intro next acc n t t' r acc' b :
  n <> "" -> n ∉ sy_seen acc -> managed n t t' ->
  (r = Ok acc' \/ exists e, r = Err e) ->
  (r = Ok acc' -> settled next n t' /\ (b = false -> t' = t) /\ sy_seen acc' = {[n]} ∪ sy_seen acc /\
     changed acc ⊆ changed acc' /\ (b = true -> n ∈ changed acc')) ->
  host_synced next acc n t t' r.
Proof.
  intros Hn Hseen Hm Hr Hok. destruct (managed_good _ _ _ Hm) as (Hg & Hrest & Hsp).
  split; [done|]. split; [done|]. split.
  - intros h [Hh|[Hh|Hh]]; apply Hsp; [done|by destruct Hn|]. by intros ->.
  - intros acc1 ->. destruct Hr as [[= ->]|[e [=]]]. destruct (Hok eq_refl) as (Hs & Hb & Hse & Hsub & Hin).
    split_and!; [|done| |done].
    + intros h. rewrite Hse. set_solver.
    + intros h Hh. destruct b; [|by rewrite Hb]. apply Hsp. intros ->. by apply Hh, Hin.
Qed.

Lemma sync_host_ok next acc host s :
  items_ok next -> good (ms_tables s) ->
  let '(s', r) := sync_host next acc host s in
  host_synced next acc (normalizeHost host) (ms_tables s) (ms_tables s') r.
Proof.
  intros Hitems [Hwf Ho]. unfold sync_host. set (n := normalizeHost host).
  destruct (bool_decide (n = "") || bool_decide (n ∈ sy_seen acc)) eqn:E.
  { split; [done|]. split; [done|]. split; [done|]. intros acc' [= <-]. apply orb_true_iff in E. rewrite !bool_decide_eq_true in E.
    split_and!; [|intros; naive_solver|done|done]. intros h. split; [naive_solver|].
    intros [[-> Hne]|Hh]; [|done]. by destruct E. }
  apply orb_false_iff in E as [En%bool_decide_eq_false Es%bool_decide_eq_false].
  cbv beta iota delta [mbind go_bind]. destruct (next !! n) as [item|] eqn:Ei.
  - pose proof (upsert_managed n item (en_Repo (ms_Engine s)) Hwf Ho (Hitems _ _ Ei)) as Hu.
    pose proof (on_db_cases (upsertManagedDomain item) s) as Hdb.
    destruct (upsertManagedDomain item _) as [d' r0]. cbn in Hdb.
    destruct (on_db (upsertManagedDomain item) s) as [s1 r1]. destruct Hdb as [<- Et].
    destruct Hu as [Hm Hu]. rewrite <- Et in *.
    destruct r0 as [b|e].
    + assert (exists s2, (if de_NeedCert (dm_domain item)
        then mark_certificate_desired (de_Hostname (dm_domain item)) else mret tt) s1 = (s2, Ok tt) /\
        ms_tables s2 = ms_tables s1) as (s2 & -> & Es2).
      { destruct (de_NeedCert _); [apply mark_desired_tables|by eexists]. }
      destruct (Hu b eq_refl) as [Hs Hb]. cbv beta iota delta [mret go_ret]. rewrite Es2.
      eapply (host_synced_intro _ _ _ _ _ _ _ b En Es Hm); [by left|]. intros _.
      split_and!; [unfold settled; by rewrite Ei|done|by destruct b|destruct b|intros ->];
        unfold changed; cbn; set_solver.
    + eapply (host_synced_intro _ _ _ _ _ _ acc false En Es Hm); [by right; eexists|done].
  - pose proof (delete_managed n (en_Repo (ms_Engine s)) Hwf Ho) as Hu.
    pose proof (on_db_cases (deleteManagedDomain n) s) as Hdb.
    destruct (deleteManagedDomain n _) as [d' r0]. cbn in Hdb.
    destruct (on_db (deleteManagedDomain n) s) as [s1 r1]. destruct Hdb as [<- Et].
    destruct Hu as [Hm Hu]. rewrite <- Et in *.
    destruct r0 as [b|e].
    + destruct (Hu b eq_refl) as (Hs & Hb & _).
      eapply (host_synced_intro _ _ _ _ _ _ _ b En Es Hm); [by left|]. intros _.
      split_and!; [unfold settled; by rewrite Ei|done|by destruct b|destruct b|intros ->];
        unfold changed; cbn; set_solver.
    + eapply (host_synced_intro _ _ _ _ _ _ acc false En Es Hm); [by right; eexists|done].
Qed.

Lemma elem_of_normalizeHosts_cons h x l :
  h ∈ normalizeHosts (x :: l) <-> (h = normalizeHost x /\ normalizeHost x <> "") \/ h ∈ normalizeHosts l.
Proof.
  unfold normalizeHosts. cbn [mbind list_bind]. rewrite elem_of_app. case_bool_decide; elem_solver.
Qed.

Lemma elem_of_normalizeHosts h l :
  h ∈ normalizeHosts l <-> h <> "" /\ exists x, x ∈ l /\ h = normalizeHost x.
Proof.
  induction l as [|x l IH].
  - split; [by intros ?%elem_of_nil|]. intros (_ & x & Hx%elem_of_nil & _). done.
  - rewrite elem_of_normalizeHosts_cons, IH. setoid_rewrite elem_of_cons. naive_solver.
Qed.

Lemma normalizeHosts_app l k : normalizeHosts (l ++ k) = normalizeHosts l ++ normalizeHosts k.
Proof. unfold normalizeHosts. by rewrite bind_app. Qed.

Lemma sync_hosts_ok next hosts acc s :
  items_ok next -> good (ms_tables s) ->
  let '(s', r) := sync_hosts next hosts acc s in
  let t := ms_tables s in
  let t' := ms_tables s' in
  good t' /\ same_rest t t' /\
  (forall h, h ∉ normalizeHosts hosts \/ h ∈ sy_seen acc -> spared h t t') /\
  forall acc', r = Ok acc' ->
    (forall h, h ∈ sy_seen acc' <-> h ∈ normalizeHosts hosts \/ h ∈ sy_seen acc) /\
    (forall h, h ∈ normalizeHosts hosts -> h ∉ sy_seen acc -> settled next h t') /\
    (forall h, h ∉ changed acc' -> spared h t t') /\ changed acc ⊆ changed acc'.
Proof.
  intros Hitems. revert acc s. induction hosts as [|x hosts IH]; intros acc s Hg; cbn [sync_hosts].
  { split; [done|]. split; [done|]. split; [done|]. intros acc' [= <-]. split_and!; [|by intros h ?%elem_of_nil|done|done].
    intros h. split; [auto|]. intros [?%elem_of_nil|?]; done. }
  pose proof (sync_host_ok next acc x s Hitems Hg) as H1. cbv beta iota delta [mbind go_bind].
  destruct (sync_host next acc x s) as [s1 [acc1|e]]; cycle 1.
  { destruct H1 as (Hg1 & Hrest & Hsp & _). split; [done|]. split; [done|]. split; [|done].
    intros h Hh. apply Hsp. rewrite elem_of_normalizeHosts_cons in Hh.
    destruct (decide (h = normalizeHost x)); [|by left]. right. destruct (decide (normalizeHost x = "")); naive_solver. }
  destruct H1 as (Hg1 & Hrest & Hsp & H1). destruct (H1 acc1 eq_refl) as (Hseen & Hset & Hch & Hsub).
  pose proof (IH acc1 s1 Hg1) as H2. destruct (sync_hosts next hosts acc1 s1) as [s2 r].
  destruct H2 as (Hg2 & Hrest2 & Hsp2 & H2). split; [done|]. split; [|split].
  - destruct Hrest as (?&?&?), Hrest2 as (?&?&?). split_and!; congruence.
  - intros h Hh. rewrite elem_of_normalizeHosts_cons in Hh. etrans; [apply Hsp|apply Hsp2].
    + destruct (decide (h = normalizeHost x)); [|by left]. right.
      destruct (decide (normalizeHost x = "")); naive_solver.
    + rewrite Hseen. naive_solver.
  - intros acc' ->. destruct (H2 acc' eq_refl) as (Hseen2 & Hset2 & Hch2 & Hsub2). split_and!.
    + intros h. rewrite Hseen2, Hseen, elem_of_normalizeHosts_cons. naive_solver.
    + intros h Hh Hns. destruct (decide (h ∈ sy_seen acc1)) as [Hs1|Hs1].
      * apply settled_spared with (ms_tables s1); [done|by apply Hsp2; right|].
        apply Hseen in Hs1 as [[-> Hne]|?]; [by apply Hset|done].
      * apply Hset2; [|done]. apply elem_of_normalizeHosts_cons in Hh as [[-> Hne]|Hh]; [|done].
        destruct Hs1. apply Hseen. by left.
    + intros h Hh. etrans; [apply Hch|by apply Hch2]. intros Hin. by apply Hh, Hsub2.
    + by etrans.
Qed.

Lemma syncDomainSet_ok next affectedHosts removedHosts s :
  good (ms_tables s) -> items_ok next ->
  let '(s', r) := syncDomainSet next affectedHosts removedHosts s in
  let t := ms_tables s in
  let t' := ms_tables s' in
  good t' /\ same_rest t t' /\
  (forall h, h ∉ normalizeHosts (affectedHosts ++ removedHosts) -> spared h t t') /\
  forall changedAffected changedRemoved, r = Ok (changedAffected, changedRemoved) ->
    (forall h, h ∈ normalizeHosts affectedHosts -> settled next h t') /\
    (forall h, h ∈ normalizeHosts removedHosts -> h ∉ normalizeHosts affectedHosts ->
       live_row (M:=DomainEndpoint) t' h = None) /\
    (forall h, h ∉ changedAffected ++ changedRemoved -> spared h t t').
Proof.
  intros Hgood Hitems. unfold syncDomainSet. cbv beta iota delta [mbind go_bind].
  pose proof (sync_hosts_ok next affectedHosts (mkSynced ∅ [] []) s Hitems Hgood) as H1.
  destruct (sync_hosts next affectedHosts _ s) as [s1 [acc1|e]]; destruct H1 as (Hg1 & Hr1 & Hsp1 & H1); cycle 1.
  { split; [done|]. split; [done|]. split; [|done]. intros h Hh. apply Hsp1. left.
    rewrite normalizeHosts_app, not_elem_of_app in Hh. apply Hh. }
  destruct (H1 acc1 eq_refl) as (Hseen1 & Hset1 & Hch1 & _).
  assert (items_ok ∅) as Hnone by apply map_Forall_empty.
  pose proof (sync_hosts_ok ∅ removedHosts acc1 s1 Hnone Hg1) as H2.
  destruct (sync_hosts ∅ removedHosts acc1 s1) as [s2 r2]. destruct H2 as (Hg2 & Hr2 & Hsp2 & H2).
  assert (same_rest (ms_tables s) (ms_tables s2)) as Hrest
    by (destruct Hr1 as (?&?&?), Hr2 as (?&?&?); split_and!; congruence).
  assert (forall h, h ∉ normalizeHosts (affectedHosts ++ removedHosts) -> spared h (ms_tables s) (ms_tables s2)) as Hsp.
  { intros h Hh. rewrite normalizeHosts_app, not_elem_of_app in Hh.
    etrans; [apply Hsp1|apply Hsp2]; left; apply Hh. }
  destruct r2 as [acc2|e]; (split; [done|]; split; [done|]; split; [done|]); [|done].
  intros ca cr [= <- <-]. destruct (H2 acc2 eq_refl) as (_ & Hset2 & Hch2 & Hsub2). split_and!.
  - intros h Hh. apply settled_spared with (ms_tables s1); [done| |].
    + apply Hsp2. right. apply Hseen1. by left.
    + apply Hset1; [done|apply not_elem_of_empty].
  - intros h Hh Hna. specialize (Hset2 h Hh). unfold settled in Hset2. rewrite lookup_empty in Hset2.
    apply Hset2. rewrite Hseen1. intros [?|[]%not_elem_of_empty]; done.
  - intros h Hh. etrans; [apply Hch1|by apply Hch2]. intros Hin. by apply Hh, Hsub2.
Qed.


(** A host served on the fourth layer has a backend and no routes.  Its
    backend is never among those listed for the host, so it is written and
    reported at every resync. *)
Lemma l4_always_changed h item b d d' changed :
  tables_wf (rows d) -> owned (rows d) -> item_ok h item -> dm_routes item = [] -> dm_backends item = [b] ->
  upsertManagedDomain item d = (d', Ok changed) -> changed = true.
Proof.
  intros Hwf Ho Hok Er Eb. unfold upsertManagedDomain. rewrite (io_host _ _ Hok).
  intros (d1 & existing & _ & (d2 & cur & H2 & (d3 & bks & H3 & H4)%go_bind_Ok)%go_bind_Ok)%go_bind_Ok.
  unfold ListHTTPRoutesByHostname in H2. unfold ListServiceBindingsByHostname in H3.
  pose proof (current_rows (rows_where hr_Hostname h) http_route_leb d1) as Hc. rewrite H2 in Hc.
  destruct Hc as [E2 Hc]. specialize (Hc cur eq_refl).
  match type of H3 with unless_not_found [] (select ?f ?leb) d2 = _ => pose proof (current_rows f leb d2) as Hb end.
  rewrite H3 in Hb. destruct Hb as [E3 Hb]. specialize (Hb bks eq_refl).
  destruct (managedDomainUnchanged existing cur bks item) eqn:Eu.
  - exfalso. unfold managedDomainUnchanged in Eu. destruct existing as [x|]; [|done].
    rewrite !andb_true_iff, !bool_decide_eq_true, Er, Eb in Eu. destruct Eu as ((((_ & Hl) & Hlb) & _) & _).
    destruct cur; [|done]. rewrite E2 in Hb. apply Permutation_nil_l in Hc.
    destruct bks as [|b' bks]; [done|]. assert (b' ∈ b' :: bks) as Hin by set_solver. rewrite Hb in Hin.
    apply list_elem_of_bind in Hin as (x' & Hin & _). rewrite <- Hc in Hin. by apply elem_of_nil in Hin.
  - apply go_bind_Ok in H4 as (_ & [] & _ & [= _ <-]). done.
Qed.

End many_hosts.
