(* ===== verification/MasterIngress.v ===== *)
(** * The master's Ingress bridge: engine/master/k8s_bridge/ingress.go

    The bridge keeps the Ingresses of its class and the Services of its
    namespace, turns the Ingresses of a host into the rows the host should
    have, and writes them when an informer reports a change. *)

From Stdlib Require Import Ascii.
From S2P Require Import Prelude GoStrings GoTime Metadata Gorm Repository Replication Hub MasterEngine.
From S2P Require Import Plan Acme ManageAPI K8sObjects Materialize.

Open Scope Z_scope.

Record IngressBridge := mkIngressBridge {
  ib_ingressClass : string;
  ib_ingresses : gmap string Ingress;
  ib_services : gmap string Service;
}.

Definition NewIngressBridgeWithClient (ingressClass : string) : IngressBridge :=
  mkIngressBridge (TrimSpace ingressClass) ∅ ∅.

Definition namespaced (namespace name : string) : string := namespace +:+ "/" +:+ name.

(** ** Reading an Ingress *)

Definition matchesIngressClass (expected : string) (ing : Ingress) : bool :=
  if bool_decide (expected = "") then false
  else
    match ing_IngressClassName ing with
    | Some class => if bool_decide (class <> "") then bool_decide (class = expected)
                    else match ing_Annotations ing with
                         | Some annotations =>
                             bool_decide (default "" (annotations !! "kubernetes.io/ingress.class") = expected)
                         | None => false
                         end
    | None => match ing_Annotations ing with
              | Some annotations =>
                  bool_decide (default "" (annotations !! "kubernetes.io/ingress.class") = expected)
              | None => false
              end
    end.

(** The hosts of the rules, then of the TLS entries: each once, sorted. *)
Definition ingressHosts (ing : Ingress) : list string :=
  mapKeys (list_to_set (normalizeHosts (ir_Host <$> ing_Rules ing) ++ normalizeHosts (mjoin (ing_TLS ing)))).

Definition ingressTLSHostSet (ing : Ingress) : gset string :=
  list_to_set (normalizeHosts (mjoin (ing_TLS ing))).

Definition ingressServicePort (service : IngressServiceBackend) : Z :=
  if bool_decide (0 < isb_PortNumber service) then u32 (isb_PortNumber service) else 80.

Definition ingressReferencesService (ing : Ingress) (serviceName : string) : bool :=
  bool_decide (serviceName <> "") &&
  existsb (fun rule => match ir_HTTP rule with
                       | None => false
                       | Some paths =>
                           existsb (fun path => match hip_Service path with
                                                | Some service => bool_decide (isb_Name service = serviceName)
                                                | None => false
                                                end) paths
                       end) (ing_Rules ing).

(** ** The rows of a host *)

Definition resolveIngressBackendServiceAddress (b : IngressBridge) (namespace name : string) : option string :=
  match ib_services b !! namespaced namespace name with
  | None => None
  | Some svc =>
      if bool_decide (svc_Type svc = ServiceTypeExternalName) then
        let address := normalizeArbitraryEndpoint (svc_ExternalName svc) in
        if bool_decide (address = "") then None else Some address
      else None
  end.

(** [fmt.Sprintf("k8s:%s:ingress:%s:%s:%s:%d", ...)] *)
Definition ingress_id (kind : string) (ing : Ingress) (host : string) (idx : nat) : string :=
  "k8s:" +:+ kind +:+ ":ingress:" +:+ ing_Namespace ing +:+ ":" +:+ ing_Name ing +:+ ":" +:+ host +:+ ":" +:+
  Itoa (Z.of_nat idx).

Definition ingress_backend (b : IngressBridge) (ing : Ingress) (host : string) (idx : nat)
    (service : IngressServiceBackend) : ServiceBackendRef :=
  let backendID := ingress_id "backend" ing host idx in
  match resolveIngressBackendServiceAddress b (ing_Namespace ing) (isb_Name service) with
  | Some resolved =>
      mkServiceBackendRef zero_Shared backendID ServiceBackendTypeExternal resolved "" ""
        (ingressServicePort service)
  | None =>
      mkServiceBackendRef zero_Shared backendID ServiceBackendTypeSVC "" (ing_Namespace ing)
        (isb_Name service) (ingressServicePort service)
  end.

Definition ingress_route (ing : Ingress) (host : string) (idx : nat) (path : HTTPIngressPath) : HTTPRoute :=
  let priority := i32 (Z.of_nat (len (normalizePath (hip_Path path)))) in
  let priority := if bool_decide (hip_PathType path = Some PathTypeExact)
                  then i32 (priority + 100000) else priority in
  mkHTTPRoute zero_Shared (ingress_id "route" ing host idx) host (normalizePath (hip_Path path)) priority
    (ingress_id "backend" ing host idx).

(** The loop over the paths of a rule: a path without a Service is skipped,
    and keeps its index. *)
Definition rule_rows (b : IngressBridge) (ing : Ingress) (host : string) (rule : IngressRule)
    : list (ServiceBackendRef * HTTPRoute) :=
  mjoin (imap (fun idx path => match hip_Service path with
                               | None => []
                               | Some service =>
                                   [(ingress_backend b ing host idx service, ingress_route ing host idx path)]
                               end) (default [] (ir_HTTP rule))).

Definition ingress_domain (ing : Ingress) (host : string) : DomainEndpoint :=
  let tls := bool_decide (host ∈ ingressTLSHostSet ing) in
  mkDomainEndpoint zero_Shared host tls (if tls then BackendTypeL7HTTPS else BackendTypeL7HTTP) "".

(** The loop over the rules of an Ingress. *)
Definition add_rule (b : IngressBridge) (hostSet : gset string) (ing : Ingress)
    (out : gmap string domainMaterialized) (rule : IngressRule) : gmap string domainMaterialized :=
  let host := normalizeHost (ir_Host rule) in
  if bool_decide (host = "") || bool_decide (host ∉ hostSet) then out
  else
    let item := default zero_domainMaterialized (out !! host) in
    let rows := rule_rows b ing host rule in
    <[host := mkDomainMaterialized (ingress_domain ing host) (dm_backends item ++ rows.*1)
                (dm_routes item ++ rows.*2)]> out.

Section ingress.
Context {GM : GormModel} {GDB : Gorm Tables stmt stmt_effect} {BS : BundleStore} {MR : MapRange}.

(** One backend per identifier, the last one, in order of the identifiers. *)
Definition dedupBackends (item : domainMaterialized) : domainMaterialized :=
  mkDomainMaterialized (dm_domain item) (sort_by sb_ID (range (by_id (dm_backends item))).*2) (dm_routes item).

Definition materializeByHost (b : IngressBridge) (hosts : list string) : gmap string domainMaterialized :=
  let hostSet := list_to_set (normalizeHosts hosts) in
  let out := foldl (fun out entry => foldl (add_rule b hostSet entry.2) out (ing_Rules entry.2)) ∅
               (range (ib_ingresses b)) in
  dedupBackends <$> out.

(** ** Events

    A callback works on the bridge and on the master behind it. *)

Context (clock : Engine -> Time).

Definition on_master {B A} (m : go Master A) : go (B * Master) A :=
  zoom snd (fun s st => (st.1, s)) m.
Definition set_bridge {B} (b : B) : go (B * Master) () := modify (fun st => (b, st.2)).
Definition get_bridge {B} : go (B * Master) B := fun st => (st, Ok st.1).

Definition syncHosts (affectedHosts removedHosts : list string) : go (IngressBridge * Master) () :=
  b ← get_bridge;
  let next := materializeByHost b affectedHosts in
  '(changedAffected, changedRemoved) ← on_master (syncDomainSet next affectedHosts removedHosts);
  for_each (fun host => on_master (onDomainChange clock host)) changedAffected ≫= fun _ =>
  for_each (fun host => on_master (onDomainChange clock host)) changedRemoved.

(** The API server's answers to the two [List] calls. *)
Definition LoadInitial (ingresses : result (list Ingress)) (services : result (list Service))
    : go (IngressBridge * Master) () :=
  match ingresses with
  | Err e => throw (Errorf "list ingresses: %w" (err_format e :: err_args e))
  | Ok list =>
      match services with
      | Err e => throw (Errorf "list services: %w" (err_format e :: err_args e))
      | Ok services =>
          b ← get_bridge;
          let matching := filter (fun ing => matchesIngressClass (ib_ingressClass b) ing = true) list in
          let svcs := foldl (fun m svc => <[namespaced (svc_Namespace svc) (svc_Name svc) := svc]> m) ∅ services in
          let ings := foldl (fun m ing => <[namespaced (ing_Namespace ing) (ing_Name ing) := ing]> m) ∅ matching in
          let affected : gset string := list_to_set (matching ≫= ingressHosts) in
          set_bridge (mkIngressBridge (ib_ingressClass b) ings svcs) ≫= fun _ =>
          syncHosts (mapKeys affected) []
      end
  end.

Context {UN : Unstructured}.

(** The hosts of the Ingress stored under a key. *)
Definition stored_hosts (b : IngressBridge) (key : string) : gset string :=
  match ib_ingresses b !! key with Some old => list_to_set (ingressHosts old) | None => ∅ end.

Definition storeIngress (obj : informer_object) : go (IngressBridge * Master) () :=
  match obj with
  | ObjIngress ing =>
      b ← get_bridge;
      let key := namespaced (ing_Namespace ing) (ing_Name ing) in
      let oldHosts := stored_hosts b key in
      if matchesIngressClass (ib_ingressClass b) ing then
        set_bridge (mkIngressBridge (ib_ingressClass b) (<[key := ing]> (ib_ingresses b)) (ib_services b)) ≫= fun _ =>
        let newHosts : gset string := list_to_set (ingressHosts ing) in
        ignore (syncHosts (mapKeys newHosts) (diffKeys (oldHosts ∪ newHosts) newHosts))
      else
        set_bridge (mkIngressBridge (ib_ingressClass b) (delete key (ib_ingresses b)) (ib_services b)) ≫= fun _ =>
        ignore (syncHosts [] (mapKeys oldHosts))
  | _ => mret tt
  end.

(** The namespace and the name of a deleted object, when they are known. *)
Definition deleted_key (obj : informer_object) : option (string * string) :=
  match obj with
  | ObjIngress ing => Some (ing_Namespace ing, ing_Name ing)
  | ObjService svc => Some (svc_Namespace svc, svc_Name svc)
  | ObjUnstructured o => Some (GetNamespace o, GetName o)
  | ObjDeletedFinalStateUnknown meta => meta
  | ObjOther => None
  end.

Definition deleteByNamespaceName {B} (obj : informer_object)
    (deleter : string -> string -> go (B * Master) ()) : go (B * Master) () :=
  match deleted_key obj with
  | Some (namespace, name) => deleter namespace name
  | None => mret tt
  end.

Definition deleteIngress (obj : informer_object) : go (IngressBridge * Master) () :=
  deleteByNamespaceName obj (fun namespace name =>
    b ← get_bridge;
    let key := namespaced namespace name in
    let oldHosts := stored_hosts b key in
    set_bridge (mkIngressBridge (ib_ingressClass b) (delete key (ib_ingresses b)) (ib_services b)) ≫= fun _ =>
    ignore (syncHosts [] (mapKeys oldHosts))).

(** The hosts of the Ingresses of a namespace that use a Service. *)
Definition service_hosts (b : IngressBridge) (namespace name : string) : gset string :=
  list_to_set (range (ib_ingresses b) ≫= fun entry =>
    if bool_decide (ing_Namespace entry.2 = namespace) && ingressReferencesService entry.2 name
    then ingressHosts entry.2 else []).

Definition resync_service (namespace name : string) : go (IngressBridge * Master) () :=
  b ← get_bridge;
  let affected := service_hosts b namespace name in
  if bool_decide (affected = ∅) then mret tt else ignore (syncHosts (mapKeys affected) []).

Definition storeService (obj : informer_object) : go (IngressBridge * Master) () :=
  match obj with
  | ObjService svc =>
      b ← get_bridge;
      set_bridge (mkIngressBridge (ib_ingressClass b) (ib_ingresses b)
        (<[namespaced (svc_Namespace svc) (svc_Name svc) := svc]> (ib_services b))) ≫= fun _ =>
      resync_service (svc_Namespace svc) (svc_Name svc)
  | _ => mret tt
  end.

Definition deleteService (obj : informer_object) : go (IngressBridge * Master) () :=
  deleteByNamespaceName obj (fun namespace name =>
    b ← get_bridge;
    set_bridge (mkIngressBridge (ib_ingressClass b) (ib_ingresses b)
      (delete (namespaced namespace name) (ib_services b))) ≫= fun _ =>
    resync_service namespace name).

End ingress.
