(* ===== verification/MasterIngressFacts.v ===== *)
(** * What the master's Ingress bridge wants of a host

    The rows [materializeByHost] computes are those of the Ingresses' paths,
    one route and one backend for each, with identifiers that name the host. *)

From Stdlib Require Import Ascii.
From S2P Require Import Prelude GoStrings GoTime Metadata Gorm Repository RepositoryFacts.
From S2P Require Import Replication Hub MasterEngine MasterFacts MetadataJson Plan PlanFacts Acme ManageAPI ManageFacts PlanConverges.
From S2P Require Import K8sObjects Materialize MaterializeFacts MasterIngress.

Open Scope Z_scope.

(** ** Identifiers *)

Definition no_colon (s : string) : Prop := ":"%char ∉ bytes s.

#[export] Instance no_colon_dec s : Decision (no_colon s).
Proof. unfold no_colon. apply _. Defined.

Lemma Split_colon s t : no_colon s -> Split (s +:+ ":" +:+ t) ":"%char = s :: Split t ":"%char.
Proof.
  intros Hs. unfold Split. rewrite !bytes_app. cbn [bytes String.list_ascii_of_string app].
  rewrite split_bytes_app by done. cbn. by rewrite of_bytes_bytes.
Qed.

Lemma Split_one s : no_colon s -> Split s ":"%char = [s].
Proof. intros Hs. unfold Split. rewrite split_bytes_none by done. cbn. by rewrite of_bytes_bytes. Qed.

Lemma Itoa_no_colon n : no_colon (Itoa (Z.of_nat n)).
Proof.
  unfold no_colon. intros Hin. destruct (Itoa_digits (Z.of_nat n)) as [Hd _]; [lia|].
  rewrite Forall_forall in Hd. by specialize (Hd _ Hin).
Qed.

Lemma TrimSuffix_bytes s p : bytes (TrimSuffix s p) ⊆ bytes s.
Proof.
  unfold TrimSuffix. destruct (HasSuffix s p) eqn:E; [|done].
  apply HasSuffix_spec in E as [t ->]. rewrite bytes_of_bytes, bytes_app.
  intros c Hc. by apply elem_of_take in Hc as (i & Hi%list_elem_of_lookup_2 & _).
Qed.

(** A normalized host holds no colon. *)
Lemma normalizeHost_no_colon host : no_colon (normalizeHost host).
Proof.
  unfold no_colon, normalizeHost. intros Hin%TrimSuffix_bytes. unfold cut_at in Hin.
  rewrite bytes_of_bytes in Hin. by apply take_until_out in Hin.
Qed.

(** Kubernetes names hold no colon. *)
Definition named (namespace name : string) : Prop := no_colon namespace /\ no_colon name.

Lemma ingress_id_parts kind ing host idx :
  no_colon kind -> named (ing_Namespace ing) (ing_Name ing) -> no_colon host ->
  Split (ingress_id kind ing host idx) ":"%char =
  ["k8s"; kind; "ingress"; ing_Namespace ing; ing_Name ing; host; Itoa (Z.of_nat idx)].
Proof.
  intros Hk [Hns Hn] Hh. unfold ingress_id.
  change ("k8s:" +:+ ?x) with ("k8s" +:+ ":" +:+ x). rewrite Split_colon by (by compute_done).
  change (":ingress:" +:+ ?x) with (":" +:+ "ingress" +:+ ":" +:+ x).
  rewrite Split_colon by done. rewrite Split_colon by (by compute_done).
  rewrite !Split_colon by done. by rewrite Split_one by apply Itoa_no_colon.
Qed.

Lemma ingress_id_inj kind ing ing' host host' idx idx' :
  no_colon kind -> named (ing_Namespace ing) (ing_Name ing) -> named (ing_Namespace ing') (ing_Name ing') ->
  no_colon host -> no_colon host' -> ingress_id kind ing host idx = ingress_id kind ing' host' idx' ->
  ing_Namespace ing = ing_Namespace ing' /\ ing_Name ing = ing_Name ing' /\ host = host' /\ idx = idx'.
Proof.
  intros Hk Hn Hn' Hh Hh' E. apply (f_equal (fun id => Split id ":"%char)) in E.
  rewrite !ingress_id_parts in E by done. injection E as E1 E2 E3 E4. apply Itoa_inj in E4.
  split_and!; try done. lia.
Qed.

Lemma ingress_id_host kind ing host idx :
  no_colon kind -> named (ing_Namespace ing) (ing_Name ing) -> no_colon host ->
  id_host (ingress_id kind ing host idx) = Some host.
Proof. intros. unfold id_host. by rewrite ingress_id_parts. Qed.

Lemma ingress_id_managed kind ing host idx : managed_id (ingress_id kind ing host idx) = true.
Proof. unfold managed_id, ingress_id. apply HasPrefix_app. Qed.

(** ** The rows of one rule *)

Lemma elem_of_join_imap {A B} (f : nat -> A -> list B) l y :
  y ∈ mjoin (imap f l) <-> exists i a, l !! i = Some a /\ y ∈ f i a.
Proof.
  rewrite list_elem_of_join. split.
  - intros (ys & Hy & Hin). apply elem_of_lookup_imap in Hin as (i & a & -> & Hi). eauto.
  - intros (i & a & Hi & Hy). exists (f i a). split; [done|]. apply elem_of_lookup_imap. eauto.
Qed.

(** At most one element for each index, whose key tells the index. *)
Lemma NoDup_join_imap {A B} (key : B -> string) (f : nat -> A -> list B) (g : nat -> string) l :
  (forall i j, g i = g j -> i = j) -> (forall i a y, y ∈ f i a -> key y = g i) ->
  (forall i a, (length (f i a) <= 1)%nat) -> NoDup (key <$> mjoin (imap f l)).
Proof.
  revert f g. induction l as [|a l IH]; intros f g Hg Hkey Hlen; cbn; [constructor|].
  rewrite fmap_app. apply NoDup_app. split_and!.
  - specialize (Hlen 0%nat a). destruct (f 0%nat a) as [|y [|y' ys]]; cbn in *; [constructor|apply NoDup_singleton|lia].
  - intros x (y & -> & Hy)%list_elem_of_fmap (y' & E & Hy')%list_elem_of_fmap.
    apply (elem_of_join_imap (f ∘ S)) in Hy' as (i & a' & _ & Hy').
    rewrite (Hkey _ _ _ Hy), (Hkey _ _ _ Hy') in E. by apply Hg in E.
  - apply (IH (f ∘ S) (g ∘ S)); [intros i j E%Hg; lia|intros i a' y; apply Hkey|intros; apply Hlen].
Qed.

Definition path_rows (b : IngressBridge) (ing : Ingress) (host : string) (idx : nat) (path : HTTPIngressPath)
    : list (ServiceBackendRef * HTTPRoute) :=
  match hip_Service path with
  | None => []
  | Some service => [(ingress_backend b ing host idx service, ingress_route ing host idx path)]
  end.

Lemma rule_rows_join b ing host rule :
  rule_rows b ing host rule = mjoin (imap (path_rows b ing host) (default [] (ir_HTTP rule))).
Proof. done. Qed.

Lemma elem_of_rule_rows b ing host rule x :
  x ∈ rule_rows b ing host rule <->
  exists idx path service, default [] (ir_HTTP rule) !! idx = Some path /\ hip_Service path = Some service /\
    x = (ingress_backend b ing host idx service, ingress_route ing host idx path).
Proof.
  rewrite rule_rows_join, elem_of_join_imap. unfold path_rows. split.
  - intros (i & path & Hi & Hx). destruct (hip_Service path) as [service|] eqn:E; [|by apply elem_of_nil in Hx].
    apply list_elem_of_singleton in Hx as ->. eauto 10.
  - intros (i & path & service & Hi & Hs & ->). exists i, path. rewrite Hs. split; [done|elem_solver].
Qed.

(** A column of the rows that holds their identifier. *)
Definition id_column (kind : string) (key : ServiceBackendRef * HTTPRoute -> string) : Prop :=
  no_colon kind /\ forall b ing host idx path service,
    key (ingress_backend b ing host idx service, ingress_route ing host idx path) = ingress_id kind ing host idx.

Lemma route_id_column : id_column "route" (fun x => hr_ID x.2).
Proof. split; [compute_done|done]. Qed.

Lemma backend_id b ing host idx service :
  sb_ID (ingress_backend b ing host idx service) = ingress_id "backend" ing host idx.
Proof. unfold ingress_backend. by destruct (resolveIngressBackendServiceAddress _ _ _). Qed.

Lemma backend_id_column : id_column "backend" (fun x => sb_ID x.1).
Proof. split; [compute_done|]. intros. apply backend_id. Qed.

Lemma rule_rows_ids kind key b ing host rule :
  id_column kind key -> named (ing_Namespace ing) (ing_Name ing) -> no_colon host ->
  NoDup (key <$> rule_rows b ing host rule).
Proof.
  intros [Hk Hkey] Hn Hh. rewrite rule_rows_join.
  apply (NoDup_join_imap key _ (ingress_id kind ing host)).
  - intros i j E. by apply ingress_id_inj in E as (_ & _ & _ & ?).
  - intros i path y. unfold path_rows. destruct (hip_Service path); [|by intros ?%elem_of_nil].
    intros ->%list_elem_of_singleton. apply Hkey.
  - intros i path. unfold path_rows. destruct (hip_Service path); cbn; lia.
Qed.

(** ** The rules of a host *)

Section rules.
Context {MR : MapRange}.

(** Every rule of every Ingress, in the order the bridge visits them. *)
Definition visits (b : IngressBridge) : list (Ingress * IngressRule) :=
  range (ib_ingresses b) ≫= fun entry => pair entry.2 <$> ing_Rules entry.2.

Definition rules_of (b : IngressBridge) (h : string) : list (Ingress * IngressRule) :=
  filter (fun v => normalizeHost (ir_Host v.2) = h) (visits b).

(** What the bridge wants of [h]: the domain the last rule gives, and the rows
    of every rule. *)
Definition ingress_item (b : IngressBridge) (h : string) : option domainMaterialized :=
  v ← last (rules_of b h);
  Some (mkDomainMaterialized (ingress_domain v.1 h)
          (rules_of b h ≫= fun v => (rule_rows b v.1 h v.2).*1)
          (rules_of b h ≫= fun v => (rule_rows b v.1 h v.2).*2)).

Lemma add_rules_flat b hs l out :
  foldl (fun out entry => foldl (add_rule b hs entry.2) out (ing_Rules entry.2)) out l =
  foldl (fun out v => add_rule b hs v.1 out v.2) out
    (l ≫= fun entry : string * Ingress => pair entry.2 <$> ing_Rules entry.2).
Proof.
  revert out. induction l as [|e l IH]; intros out; cbn; [done|]. rewrite IH, foldl_app. f_equal.
  generalize out. induction (ing_Rules e.2) as [|r rs IHr]; intros o; cbn; [done|]. apply IHr.
Qed.

Lemma add_rules_lookup b hs vs h : h <> "" -> h ∈ hs ->
  foldl (fun out v => add_rule b hs v.1 out v.2) ∅ vs !! h =
  let mine := filter (fun v => normalizeHost (ir_Host v.2) = h) vs in
  v ← last mine;
  Some (mkDomainMaterialized (ingress_domain v.1 h) (mine ≫= fun v => (rule_rows b v.1 h v.2).*1)
          (mine ≫= fun v => (rule_rows b v.1 h v.2).*2)).
Proof.
  intros Hne Hin. induction vs as [|v vs IH] using rev_ind; [done|].
  rewrite foldl_app, filter_app. cbn [foldl]. unfold add_rule at 1. cbv zeta in IH |- *.
  destruct (decide (normalizeHost (ir_Host v.2) = h)) as [E|E].
  - rewrite E, filter_cons_True, filter_nil, last_snoc, !bind_app by done. cbn [mbind option_bind].
    rewrite bool_decide_eq_false_2, bool_decide_eq_false_2 by (done || naive_solver). cbn [orb].
    rewrite lookup_insert_eq. f_equal. cbn [list_bind mbind]. rewrite !app_nil_r, IH.
    destruct (last (filter _ vs)) as [v'|] eqn:El; cbn; [done|]. apply last_None in El. by rewrite El.
  - rewrite filter_cons_False, filter_nil, app_nil_r by done.
    destruct (bool_decide _ || bool_decide _); [done|]. by rewrite lookup_insert_ne.
Qed.

Lemma add_rules_outside b hs vs h : h = "" \/ h ∉ hs ->
  foldl (fun out v => add_rule b hs v.1 out v.2) ∅ vs !! h = None.
Proof.
  intros Hh. induction vs as [|v vs IH] using rev_ind; [done|]. rewrite foldl_app. cbn [foldl].
  unfold add_rule at 1. destruct (bool_decide _ || bool_decide _) eqn:E; [done|].
  apply orb_false_iff in E as [E1%bool_decide_eq_false E2%bool_decide_eq_false].
  rewrite lookup_insert_ne; [done|]. naive_solver.
Qed.

(** The rows of a host do not depend on the other hosts asked for. *)
Lemma materialize_lookup b hosts h :
  materializeByHost b hosts !! h =
  if bool_decide (h ∈ normalizeHosts hosts) then dedupBackends <$> ingress_item b h else None.
Proof.
  unfold materializeByHost. rewrite lookup_fmap, add_rules_flat. fold (visits b).
  case_bool_decide as E.
  - apply elem_of_normalizeHosts in E as Hn. destruct Hn as [Hne _].
    rewrite add_rules_lookup by (done || by apply elem_of_list_to_set). done.
  - rewrite add_rules_outside; [done|]. right. by rewrite elem_of_list_to_set.
Qed.

End rules.

(** ** The wanted rows are well-formed *)

(** What the API server guarantees of an Ingress, and the rules of one Ingress
    have different hosts. *)
Definition ingress_ok (ing : Ingress) : Prop :=
  named (ing_Namespace ing) (ing_Name ing) /\ NoDup (normalizeHosts (ir_Host <$> ing_Rules ing)).

Definition bridge_ok (b : IngressBridge) : Prop :=
  map_Forall (fun key ing => key = namespaced (ing_Namespace ing) (ing_Name ing) /\ ingress_ok ing)
    (ib_ingresses b).

#[export] Instance ingress_ok_dec ing : Decision (ingress_ok ing).
Proof. unfold ingress_ok, named. apply _. Defined.
#[export] Instance bridge_ok_dec b : Decision (bridge_ok b).
Proof. unfold bridge_ok. apply _. Defined.

Lemma rules_for_host rules h :
  NoDup (normalizeHosts (ir_Host <$> rules)) -> h <> "" ->
  (length (filter (fun rule => normalizeHost (ir_Host rule) = h) rules) <= 1)%nat.
Proof.
  intros Hnd Hne. induction rules as [|rule rules IH]; [cbn; lia|].
  unfold normalizeHosts in Hnd. cbn in Hnd. apply NoDup_app in Hnd as (_ & Hdis & Hnd).
  destruct (decide (normalizeHost (ir_Host rule) = h)) as [E|E];
    [rewrite filter_cons_True by done|rewrite filter_cons_False by done; by apply IH]. cbn [length].
  rewrite filter_discard; [done|]. apply Forall_forall. intros rule' Hin E'.
  apply (Hdis h).
  - rewrite E, bool_decide_eq_false_2 by done. elem_solver.
  - change (h ∈ normalizeHosts (ir_Host <$> rules)). apply elem_of_normalizeHosts. split; [done|].
    exists (ir_Host rule'). split; [by apply list_elem_of_fmap_2|done].
Qed.

Section item.
Context {MR : MapRange}.

Lemma elem_of_rules_of b h v :
  v ∈ rules_of b h <->
  (exists key, ib_ingresses b !! key = Some v.1) /\ v.2 ∈ ing_Rules v.1 /\ normalizeHost (ir_Host v.2) = h.
Proof.
  unfold rules_of, visits. rewrite list_elem_of_filter, list_elem_of_bind. split.
  - intros [Hh ([key ing] & Hv & Hin)]. apply elem_of_range in Hin.
    apply list_elem_of_fmap in Hv as (rule & -> & Hr). naive_solver.
  - intros ([key Hk] & Hr & Hh). split; [done|]. exists (key, v.1). split; [|by apply elem_of_range].
    apply list_elem_of_fmap. exists v.2. by destruct v.
Qed.

Lemma rules_of_split b h :
  rules_of b h = range (ib_ingresses b) ≫= fun entry =>
    pair entry.2 <$> filter (fun rule => normalizeHost (ir_Host rule) = h) (ing_Rules entry.2).
Proof.
  unfold rules_of, visits. induction (range (ib_ingresses b)) as [|e l IH]; [done|]. cbn [mbind list_bind].
  rewrite filter_app, IH. f_equal. clear IH. induction (ing_Rules e.2) as [|r rs IHr]; [done|]. rewrite fmap_cons.
  rewrite !filter_cons. cbn [snd]. case_decide; [rewrite fmap_cons|]; by rewrite IHr.
Qed.

(** One rule of each Ingress, and no Ingress twice. *)
Lemma rules_of_NoDup b h : bridge_ok b -> h <> "" ->
  NoDup ((fun v => namespaced (ing_Namespace v.1) (ing_Name v.1)) <$> rules_of b h).
Proof.
  intros Hok Hne. rewrite rules_of_split.
  pose proof (NoDup_fst_range (ib_ingresses b)) as Hnd.
  assert (forall e, e ∈ range (ib_ingresses b) -> ib_ingresses b !! e.1 = Some e.2) as Hin
    by (intros [k i]; apply elem_of_range).
  induction (range (ib_ingresses b)) as [|e l IH]; [constructor|]. cbn in Hnd |- *.
  apply NoDup_cons in Hnd as [Hfresh Hnd]. rewrite fmap_app. apply NoDup_app. split_and!.
  - destruct (Hok _ _ (Hin e ltac:(set_solver))) as [_ [_ Hrules]].
    pose proof (rules_for_host _ h Hrules Hne) as Hlen.
    destruct (filter _ (ing_Rules e.2)) as [|r [|r' rs]]; cbn in *; [constructor|apply NoDup_singleton|lia].
  - intros x (v & -> & Hv)%list_elem_of_fmap (v' & E & Hv')%list_elem_of_fmap.
    apply list_elem_of_fmap in Hv as (r & -> & _).
    apply list_elem_of_bind in Hv' as (e' & Hv' & He'). apply list_elem_of_fmap in Hv' as (r' & -> & _).
    cbn in E. destruct (Hok _ _ (Hin e ltac:(set_solver))) as [E1 _].
    destruct (Hok _ _ (Hin e' ltac:(set_solver))) as [E2 _]. apply Hfresh.
    rewrite E1, E, <- E2. by apply list_elem_of_fmap_2.
  - apply IH; [done|]. intros e' He'. apply Hin. set_solver.
Qed.

Lemma by_id_dedup item : by_id (dm_backends (dedupBackends item)) = by_id (dm_backends item).
Proof.
  unfold dedupBackends. cbn. set (m := by_id (dm_backends item)).
  assert (forall k x, m !! k = Some x -> sb_ID x = k) as Hk by (intros k x [? _]%by_id_key; done).
  set (l := sort_by sb_ID (range m).*2).
  assert (l ≡ₚ (map_to_list m).*2) as Hl
    by (unfold l; by rewrite sort_by_perm, range_perm).
  assert (NoDup (sb_ID <$> l)) as Hnd.
  { rewrite Hl, <- list_fmap_compose.
    rewrite (list_fmap_ext _ fst); [apply NoDup_fst_map_to_list|].
    intros i [k x] Hi%list_elem_of_lookup_2%elem_of_map_to_list. by apply Hk. }
  apply map_eq. intros k. destruct (m !! k) as [x|] eqn:E.
  - assert (x ∈ l) as Hin. { rewrite Hl. apply list_elem_of_fmap. exists (k, x). split; [done|].
      by apply elem_of_map_to_list. }
    pose proof (by_id_elem l x Hnd Hin) as Hx. cbn in Hx. by rewrite (Hk _ _ E) in Hx.
  - destruct (by_id l !! k) as [x|] eqn:Ex; [|done]. apply by_id_key in Ex as [<- Hin].
    rewrite Hl in Hin. apply list_elem_of_fmap in Hin as ([k' x'] & -> & Hin%elem_of_map_to_list).
    cbn in E. rewrite (Hk _ _ Hin), Hin in E. done.
Qed.

Lemma elem_of_dedup item x : x ∈ dm_backends (dedupBackends item) -> x ∈ dm_backends item.
Proof.
  unfold dedupBackends. cbn. rewrite sort_by_perm, range_perm.
  intros ([k y] & -> & Hin%elem_of_map_to_list)%list_elem_of_fmap. by apply by_id_key in Hin as [_ ?].
Qed.

End item.

Section wanted.
Context {MR : MapRange}.

(** A path of an Ingress that serves [h]. *)
Definition serving_path (b : IngressBridge) (h : string) (ing : Ingress) (idx : nat) (path : HTTPIngressPath)
    (service : IngressServiceBackend) : Prop :=
  exists key rule, ib_ingresses b !! key = Some ing /\ rule ∈ ing_Rules ing /\
    normalizeHost (ir_Host rule) = h /\ default [] (ir_HTTP rule) !! idx = Some path /\
    hip_Service path = Some service.

Lemma elem_of_host_rows b h x :
  x ∈ (rules_of b h ≫= fun v => rule_rows b v.1 h v.2) <->
  exists ing idx path service, serving_path b h ing idx path service /\
    x = (ingress_backend b ing h idx service, ingress_route ing h idx path).
Proof.
  rewrite list_elem_of_bind. split.
  - intros ([ing rule] & Hx & ([key Hk] & Hr & Hh)%elem_of_rules_of).
    apply elem_of_rule_rows in Hx as (idx & path & service & Hp & Hs & ->).
    exists ing, idx, path, service. split; [|done]. exists key, rule. done.
  - intros (ing & idx & path & service & (key & rule & Hk & Hr & Hh & Hp & Hs) & ->).
    exists (ing, rule). split; [|apply elem_of_rules_of; naive_solver].
    apply elem_of_rule_rows. eauto 10.
Qed.

Lemma bind_fmap {A B C} (f : A -> list B) (g : B -> C) l :
  (l ≫= fun a => g <$> f a) = g <$> (l ≫= f).
Proof. induction l as [|a l IH]; cbn; [done|]. by rewrite fmap_app, <- IH. Qed.

Lemma serving_named b h ing idx path service :
  bridge_ok b -> serving_path b h ing idx path service -> named (ing_Namespace ing) (ing_Name ing).
Proof. intros Hok (key & rule & Hk & _). apply (Hok _ _ Hk). Qed.

Lemma host_row_ids kind key b h : id_column kind key -> bridge_ok b -> h <> "" -> no_colon h ->
  NoDup (key <$> (rules_of b h ≫= fun v => rule_rows b v.1 h v.2)).
Proof.
  intros Hcol Hok Hne Hc. pose proof Hcol as [Hkind Hkey].
  rewrite <- bind_fmap. pose proof (rules_of_NoDup b h Hok Hne) as Hnd.
  apply NoDup_bind.
  - intros [ing1 r1] [ing2 r2] id H1 H2 Hid1 Hid2. eapply NoDup_fmap_inj; [exact Hnd|done..|].
    apply list_elem_of_fmap in Hid1 as (y1 & -> & Hy1), Hid2 as (y2 & E & Hy2).
    apply elem_of_rule_rows in Hy1 as (i1 & p1 & s1 & _ & _ & ->), Hy2 as (i2 & p2 & s2 & _ & _ & ->).
    apply elem_of_rules_of in H1 as ([k1 Hk1] & _), H2 as ([k2 Hk2] & _). cbn in *.
    destruct (Hok _ _ Hk1) as [_ [Hn1 _]], (Hok _ _ Hk2) as [_ [Hn2 _]].
    rewrite !Hkey in E. apply ingress_id_inj in E as (-> & -> & _); done.
  - intros [ing rule] ([key' Hk] & _)%elem_of_rules_of. destruct (Hok _ _ Hk) as [_ [Hn _]].
    by apply (rule_rows_ids kind).
  - by apply NoDup_fmap_1 in Hnd.
Qed.

Lemma host_rows_split b h :
  (rules_of b h ≫= fun v => (rule_rows b v.1 h v.2).*1) = (rules_of b h ≫= fun v => rule_rows b v.1 h v.2).*1 /\
  (rules_of b h ≫= fun v => (rule_rows b v.1 h v.2).*2) = (rules_of b h ≫= fun v => rule_rows b v.1 h v.2).*2.
Proof. split; apply bind_fmap. Qed.

Lemma ingress_item_ok b h item :
  bridge_ok b -> h <> "" -> no_colon h -> ingress_item b h = Some item -> item_ok h (dedupBackends item).
Proof.
  intros Hok Hne Hc. unfold ingress_item. destruct (last (rules_of b h)) as [v|]; [|done]. cbn.
  destruct (host_rows_split b h) as [-> ->]. intros [= <-]. split; try done.
  - intros r Hr. cbn in Hr. apply list_elem_of_fmap in Hr as (x & -> & Hin).
    apply elem_of_host_rows in Hin as (ing & idx & path & service & Hs & ->).
    pose proof (serving_named _ _ _ _ _ _ Hok Hs) as Hn.
    split; [done|]. split; [done|]. split; [exact (ingress_id_managed "route" ing h idx)|]. split; intros _.
    + exact (ingress_id_host "route" ing h idx ltac:(compute_done) Hn Hc).
    + exact (ingress_id_host "backend" ing h idx ltac:(compute_done) Hn Hc).
  - cbn [dm_routes dedupBackends]. rewrite <- list_fmap_compose.
    exact (host_row_ids _ _ b h route_id_column Hok Hne Hc).
  - intros x Hx%elem_of_dedup. cbn in Hx. apply list_elem_of_fmap in Hx as (y & -> & Hin).
    apply elem_of_host_rows in Hin as (ing & idx & path & service & Hs & ->).
    pose proof (serving_named _ _ _ _ _ _ Hok Hs) as Hn. cbn [fst]. rewrite backend_id.
    split; [unfold ingress_backend; by destruct (resolveIngressBackendServiceAddress _ _ _)|].
    exact (ingress_id_host "backend" ing h idx ltac:(compute_done) Hn Hc).
Qed.

Lemma materialize_items_ok b hosts : bridge_ok b -> items_ok (materializeByHost b hosts).
Proof.
  intros Hok h item. rewrite materialize_lookup. case_bool_decide as E; [|done].
  apply elem_of_normalizeHosts in E as (Hne & x & _ & ->).
  intros (item0 & Hi & ->)%fmap_Some. apply (ingress_item_ok b); [done..|apply normalizeHost_no_colon|done].
Qed.

End wanted.
