(* ===== verification/MasterGateway.v ===== *)
(** * The master's Gateway bridge: engine/master/k8s_bridge/gateway.go,
    gateway_httproute.go, gateway_tlsroute.go

    The bridge keeps the Gateways, HTTPRoutes, TLSRoutes and Services of its
    namespace and turns the routes attached to a host's listeners into the rows
    the host should have. *)

From Stdlib Require Import Ascii.
From S2P Require Import Prelude GoStrings GoTime Metadata Gorm Repository Replication Hub MasterEngine.
From S2P Require Import Plan Acme ManageAPI K8sObjects Materialize MasterIngress.

Open Scope Z_scope.

(** ** State *)

Record gatewayListener := mkGatewayListener {
  gl_name : string;
  gl_protocol : string;
  gl_hostname : string;
  gl_passthrough : bool;
}.

Record gatewayState := mkGatewayState { gw_key : string; gw_listeners : list gatewayListener }.

Record parentRef := mkParentRef { pr_gatewayKey : string; pr_sectionName : string }.

Record backendRef := mkBackendRef { br_namespace : string; br_name : string; br_port : Z }.

Record httpRouteRule := mkHTTPRouteRule { hrr_path : string; hrr_exact : bool; hrr_backend : backendRef }.

Record httpRouteState := mkHTTPRouteState {
  hrs_key : string;
  hrs_name : string;
  hrs_namespace : string;
  hrs_hostnames : list string;
  hrs_parents : list parentRef;
  hrs_rules : list httpRouteRule;
}.

Record tlsRouteState := mkTLSRouteState {
  tls_key : string;
  tls_name : string;
  tls_namespace : string;
  tls_hostnames : list string;
  tls_parents : list parentRef;
  tls_backend : backendRef;
}.

Record GatewayBridge := mkGatewayBridge {
  gb_gateways : gmap string gatewayState;
  gb_httpRoutes : gmap string httpRouteState;
  gb_tlsRoutes : gmap string tlsRouteState;
  gb_services : gmap string Service;
}.

Definition NewGatewayBridgeWithClient : GatewayBridge := mkGatewayBridge ∅ ∅ ∅ ∅.

Definition with_gateways (f : gmap string gatewayState -> gmap string gatewayState) (b : GatewayBridge) :=
  mkGatewayBridge (f (gb_gateways b)) (gb_httpRoutes b) (gb_tlsRoutes b) (gb_services b).
Definition with_httpRoutes (f : gmap string httpRouteState -> gmap string httpRouteState) (b : GatewayBridge) :=
  mkGatewayBridge (gb_gateways b) (f (gb_httpRoutes b)) (gb_tlsRoutes b) (gb_services b).
Definition with_tlsRoutes (f : gmap string tlsRouteState -> gmap string tlsRouteState) (b : GatewayBridge) :=
  mkGatewayBridge (gb_gateways b) (gb_httpRoutes b) (f (gb_tlsRoutes b)) (gb_services b).
Definition with_services (f : gmap string Service -> gmap string Service) (b : GatewayBridge) :=
  mkGatewayBridge (gb_gateways b) (gb_httpRoutes b) (gb_tlsRoutes b) (f (gb_services b)).

(** ** Reading the objects *)

Section parsing.
Context {UN : Unstructured}.

(** The elements of a slice that are maps. *)
Definition map_items (m : k8s_map) (fields : list string) : list k8s_map := omap id (NestedSlice m fields).

Definition parse_listener (item : k8s_map) : gatewayListener :=
  mkGatewayListener (nested_string item ["name"])
    (ToUpper (TrimSpace (nested_string item ["protocol"])))
    (nested_string item ["hostname"])
    (EqualFold (TrimSpace (nested_string item ["tls"; "mode"])) "Passthrough").

Definition parseGatewayState (obj : k8s_obj) : gatewayState :=
  mkGatewayState (namespaced (GetNamespace obj) (GetName obj))
    (parse_listener <$> map_items (Object obj) ["spec"; "listeners"]).

Definition parse_parent (obj : k8s_obj) (item : k8s_map) : parentRef :=
  let namespace := or_else (nested_string item ["namespace"]) (GetNamespace obj) in
  mkParentRef (namespaced namespace (nested_string item ["name"])) (nested_string item ["sectionName"]).

Definition parse_parents (obj : k8s_obj) : list parentRef :=
  parse_parent obj <$> map_items (Object obj) ["spec"; "parentRefs"].

(** The first backend of a rule that has a name. *)
Definition parse_backend (obj : k8s_obj) (defaultPort : Z) (item : k8s_map) : option backendRef :=
  let name := nested_string item ["name"] in
  if bool_decide (name = "") then None
  else
    let namespace := or_else (nested_string item ["namespace"]) (GetNamespace obj) in
    let port := u32 (nested_int64 item ["port"]) in
    Some (mkBackendRef namespace name (if bool_decide (port = 0) then defaultPort else port)).

Definition first_backend (obj : k8s_obj) (defaultPort : Z) (rule : k8s_map) : option backendRef :=
  head (omap (parse_backend obj defaultPort) (map_items rule ["backendRefs"])).

(** The path of the first match of a rule, when that is a map. *)
Definition parse_match (rule : k8s_map) : string * bool :=
  match NestedSlice rule ["matches"] with
  | Some item :: _ =>
      let path := match NestedString item ["path"; "value"] with
                  | Some value => or_else value "/"
                  | None => "/"
                  end in
      let exact := match NestedString item ["path"; "type"] with
                   | Some typ => EqualFold typ "Exact"
                   | None => false
                   end in
      (path, exact)
  | _ => ("/", false)
  end.

Definition parse_rule (obj : k8s_obj) (rule : k8s_map) : option httpRouteRule :=
  let '(path, exact) := parse_match rule in
  mkHTTPRouteRule path exact <$> first_backend obj 80 rule.

Definition parseHTTPRouteState (obj : k8s_obj) : httpRouteState :=
  mkHTTPRouteState (namespaced (GetNamespace obj) (GetName obj)) (GetName obj) (GetNamespace obj)
    (NestedStringSlice (Object obj) ["spec"; "hostnames"]) (parse_parents obj)
    (omap (parse_rule obj) (map_items (Object obj) ["spec"; "rules"])).

(** A TLSRoute without a backend is not kept. *)
Definition parseTLSRouteState (obj : k8s_obj) : option tlsRouteState :=
  backend ← head (omap (first_backend obj 443) (map_items (Object obj) ["spec"; "rules"]));
  Some (mkTLSRouteState (namespaced (GetNamespace obj) (GetName obj)) (GetName obj) (GetNamespace obj)
          (NestedStringSlice (Object obj) ["spec"; "hostnames"]) (parse_parents obj) backend).

Definition routeHostsFromDeletedObject (obj : informer_object) : list string :=
  match obj with
  | ObjUnstructured item => normalizeHosts (NestedStringSlice (Object item) ["spec"; "hostnames"])
  | _ => []
  end.

End parsing.

(** ** Hosts *)

Definition gatewayHosts (state : gatewayState) : list string :=
  normalizeHosts (gl_hostname <$> gw_listeners state).

Section hosts.
Context {MR : MapRange}.

Definition collectHostsLocked (b : GatewayBridge) : list string :=
  mapKeys (list_to_set
    ((range (gb_gateways b) ≫= fun gw => gatewayHosts gw.2) ++
     (range (gb_httpRoutes b) ≫= fun route => normalizeHosts (hrs_hostnames route.2)) ++
     (range (gb_tlsRoutes b) ≫= fun route => normalizeHosts (tls_hostnames route.2)))).

(** ** The rows of a host *)

Definition resolveServiceBackendRef (b : GatewayBridge) (backend : ServiceBackendRef) : ServiceBackendRef :=
  if bool_decide (sb_Type backend <> ServiceBackendTypeSVC) || bool_decide (sb_ServiceNamespace backend = "") ||
     bool_decide (sb_ServiceName backend = "")
  then backend
  else
    match gb_services b !! namespaced (sb_ServiceNamespace backend) (sb_ServiceName backend) with
    | None => backend
    | Some svc =>
        if bool_decide (svc_Type svc <> ServiceTypeExternalName) then backend
        else
          let endpoint := normalizeArbitraryEndpoint (svc_ExternalName svc) in
          if bool_decide (endpoint = "") then backend
          else mkServiceBackendRef (sb_Shared backend) (sb_ID backend) ServiceBackendTypeExternal endpoint "" ""
                 (sb_Port backend)
    end.

(** The hosts of a route on a listener: its own, or else the listener's. *)
Definition hosts_for_route (hostnames : list string) (listener : gatewayListener) : list string :=
  if bool_decide (hostnames = []) && bool_decide (gl_hostname listener <> "")
  then [gl_hostname listener] else hostnames.

(** The listeners a route's parent reference selects. *)
Definition selected_listeners (b : GatewayBridge) (parent : parentRef) : list gatewayListener :=
  match gb_gateways b !! pr_gatewayKey parent with
  | None => []
  | Some gw => filter (fun listener => pr_sectionName parent = "" \/ pr_sectionName parent = gl_name listener)
                 (gw_listeners gw)
  end.

(** [fmt.Sprintf("k8s:%s:gateway:%s:%s:%s:%d:%d", ...)] *)
Definition gateway_id (kind : string) (route : httpRouteState) (host : string) (idx ruleIdx : nat) : string :=
  "k8s:" +:+ kind +:+ ":gateway:" +:+ hrs_namespace route +:+ ":" +:+ hrs_name route +:+ ":" +:+ host +:+ ":" +:+
  Itoa (Z.of_nat idx) +:+ ":" +:+ Itoa (Z.of_nat ruleIdx).

Definition gateway_backend (b : GatewayBridge) (route : httpRouteState) (host : string) (idx ruleIdx : nat)
    (rule : httpRouteRule) : ServiceBackendRef :=
  resolveServiceBackendRef b
    (mkServiceBackendRef zero_Shared (gateway_id "backend" route host idx ruleIdx) ServiceBackendTypeSVC ""
       (br_namespace (hrr_backend rule)) (br_name (hrr_backend rule)) (br_port (hrr_backend rule))).

Definition gateway_route (route : httpRouteState) (host : string) (idx ruleIdx : nat) (rule : httpRouteRule)
    : HTTPRoute :=
  let path := normalizePath (hrr_path rule) in
  let priority := i32 (Z.of_nat (len path)) in
  mkHTTPRoute zero_Shared (gateway_id "route" route host idx ruleIdx) host path
    (if hrr_exact rule then i32 (priority + 100000) else priority) (gateway_id "backend" route host idx ruleIdx).

(** The domain row an HTTP or HTTPS listener gives.  The source fills in a
    type that depends on the listener's protocol and then, in a [switch] on
    that type, changes it again; [NeedCert] was just set from the protocol. *)
Definition http_domain (listener : gatewayListener) (host : string) : DomainEndpoint :=
  let https := bool_decide (gl_protocol listener = "HTTPS") in
  let needCert := https in
  let kind := if https then BackendTypeL7HTTPS else BackendTypeL7HTTP in
  if https then
    mkDomainEndpoint zero_Shared host true
      (if bool_decide (kind = BackendTypeL7HTTP) then BackendTypeL7HTTPBoth else BackendTypeL7HTTPS) ""
  else
    let both := bool_decide (gl_protocol listener = "HTTP") && needCert &&
                (bool_decide (kind = BackendTypeL7HTTPS) || bool_decide (kind = BackendTypeL7HTTPBoth)) in
    mkDomainEndpoint zero_Shared host needCert (if both then BackendTypeL7HTTPBoth else kind) "".

(** One host of an HTTPRoute on one listener. *)
Definition add_http_host (b : GatewayBridge) (hostSet : gset string) (route : httpRouteState)
    (listener : gatewayListener) (out : gmap string domainMaterialized) (entry : nat * string)
    : gmap string domainMaterialized :=
  let idx := entry.1 in
  let host := normalizeHost entry.2 in
  if bool_decide (host ∉ hostSet) || bool_decide (host = "") then out
  else
    let item := default zero_domainMaterialized (out !! host) in
    <[host := mkDomainMaterialized (http_domain listener host)
                (dm_backends item ++ imap (gateway_backend b route host idx) (hrs_rules route))
                (dm_routes item ++ imap (gateway_route route host idx) (hrs_rules route))]> out.

(** [for idx, host := range hosts] *)
Definition enumerate {A} (l : list A) : list (nat * A) := imap pair l.

Definition add_http_listener (b : GatewayBridge) (hostSet : gset string) (route : httpRouteState)
    (out : gmap string domainMaterialized) (listener : gatewayListener) : gmap string domainMaterialized :=
  if bool_decide (gl_protocol listener = "HTTP") || bool_decide (gl_protocol listener = "HTTPS")
  then foldl (add_http_host b hostSet route listener) out
         (enumerate (hosts_for_route (hrs_hostnames route) listener))
  else out.

Definition add_http_route (b : GatewayBridge) (hostSet : gset string) (out : gmap string domainMaterialized)
    (route : httpRouteState) : gmap string domainMaterialized :=
  foldl (fun out parent => foldl (add_http_listener b hostSet route) out (selected_listeners b parent)) out
    (hrs_parents route).

(** [fmt.Sprintf("k8s:backend:gateway-tls:%s:%s:%s:%d", ...)] *)
Definition tls_backend_id (route : tlsRouteState) (host : string) (idx : nat) : string :=
  "k8s:backend:gateway-tls:" +:+ tls_namespace route +:+ ":" +:+ tls_name route +:+ ":" +:+ host +:+ ":" +:+
  Itoa (Z.of_nat idx).

(** One host of a TLSRoute: what was collected for it before is replaced. *)
Definition tls_item (b : GatewayBridge) (route : tlsRouteState) (listener : gatewayListener) (host : string)
    (idx : nat) : domainMaterialized :=
  let backendID := tls_backend_id route host idx in
  mkDomainMaterialized
    (mkDomainEndpoint zero_Shared host (negb (gl_passthrough listener))
       (if gl_passthrough listener then BackendTypeL4TLSPassthrough else BackendTypeL4TLSTermination) backendID)
    [resolveServiceBackendRef b
       (mkServiceBackendRef zero_Shared backendID ServiceBackendTypeSVC "" (br_namespace (tls_backend route))
          (br_name (tls_backend route)) (br_port (tls_backend route)))]
    [].

Definition add_tls_host (b : GatewayBridge) (hostSet : gset string) (route : tlsRouteState)
    (listener : gatewayListener) (out : gmap string domainMaterialized) (entry : nat * string)
    : gmap string domainMaterialized :=
  let host := normalizeHost entry.2 in
  if bool_decide (host ∉ hostSet) || bool_decide (host = "") then out
  else <[host := tls_item b route listener host entry.1]> out.

Definition add_tls_listener (b : GatewayBridge) (hostSet : gset string) (route : tlsRouteState)
    (out : gmap string domainMaterialized) (listener : gatewayListener) : gmap string domainMaterialized :=
  if bool_decide (gl_protocol listener = "TLS")
  then foldl (add_tls_host b hostSet route listener) out
         (enumerate (hosts_for_route (tls_hostnames route) listener))
  else out.

Definition add_tls_route (b : GatewayBridge) (hostSet : gset string) (out : gmap string domainMaterialized)
    (route : tlsRouteState) : gmap string domainMaterialized :=
  foldl (fun out parent => foldl (add_tls_listener b hostSet route) out (selected_listeners b parent)) out
    (tls_parents route).

(** The first row of each identifier. *)
Fixpoint dedupe {M} `{!Resource M} (seen : gset string) (l : list M) : list M :=
  match l with
  | [] => []
  | x :: l => if bool_decide (res_key x ∈ seen) then dedupe seen l
              else x :: dedupe ({[res_key x]} ∪ seen) l
  end.
Definition dedupeServiceBackendRefs (l : list ServiceBackendRef) : list ServiceBackendRef :=
  if bool_decide (length l < 2)%nat then l else dedupe ∅ l.
Definition dedupeHTTPRoutes (l : list HTTPRoute) : list HTTPRoute :=
  if bool_decide (length l < 2)%nat then l else dedupe ∅ l.

Definition materializeByHostLocked (b : GatewayBridge) (hosts : list string) : gmap string domainMaterialized :=
  let hostSet := list_to_set (normalizeHosts hosts) in
  let out := foldl (fun out route => add_http_route b hostSet out route.2) ∅ (range (gb_httpRoutes b)) in
  let out := foldl (fun out route => add_tls_route b hostSet out route.2) out (range (gb_tlsRoutes b)) in
  (fun item => mkDomainMaterialized (dm_domain item) (dedupeServiceBackendRefs (dm_backends item))
                 (dedupeHTTPRoutes (dm_routes item))) <$> out.

End hosts.

(** ** Events *)

Section events.
Context {GM : GormModel} {GDB : Gorm Tables stmt stmt_effect} {BS : BundleStore} {MR : MapRange}.
Context {UN : Unstructured} (clock : Engine -> Time).

Definition syncHostsLocked (affectedHosts removedHosts : list string) : go (GatewayBridge * Master) () :=
  b ← get_bridge;
  let next := materializeByHostLocked b affectedHosts in
  '(changedAffected, changedRemoved) ← on_master (syncDomainSet next affectedHosts removedHosts);
  for_each (fun host => on_master (onDomainChange clock host)) changedRemoved ≫= fun _ =>
  for_each (fun host => on_master (onDomainChange clock host)) changedAffected.

(** Change the bridge; the hosts that no object names any more are removed. *)
Definition update_bridge (f : GatewayBridge -> GatewayBridge) (affected : list string) : go (GatewayBridge * Master) () :=
  b ← get_bridge;
  let oldHosts := collectHostsLocked b in
  let b' := f b in
  set_bridge b' ≫= fun _ =>
  ignore (syncHostsLocked affected (diffStrings oldHosts (collectHostsLocked b'))).

Definition as_unstructured (obj : informer_object) : option k8s_obj :=
  match obj with ObjUnstructured o => Some o | _ => None end.

Definition storeGateway (obj : informer_object) : go (GatewayBridge * Master) () :=
  match as_unstructured obj with
  | None => mret tt
  | Some obj =>
      let state := parseGatewayState obj in
      update_bridge (with_gateways <[gw_key state := state]>) (gatewayHosts state)
  end.

Definition storeHTTPRoute (obj : informer_object) : go (GatewayBridge * Master) () :=
  match as_unstructured obj with
  | None => mret tt
  | Some obj =>
      let state := parseHTTPRouteState obj in
      update_bridge (with_httpRoutes <[hrs_key state := state]>) (normalizeHosts (hrs_hostnames state))
  end.

(** An update that leaves a TLSRoute without a backend keeps its old state. *)
Definition storeTLSRoute (obj : informer_object) : go (GatewayBridge * Master) () :=
  match as_unstructured obj with
  | None => mret tt
  | Some obj =>
      match parseTLSRouteState obj with
      | Some state =>
          update_bridge (with_tlsRoutes <[tls_key state := state]>) (normalizeHosts (tls_hostnames state))
      | None => update_bridge id []
      end
  end.

(** What [deleteByNamespaceName] removes from a map. *)
Definition drop_key {A} (obj : informer_object) (m : gmap string A) : gmap string A :=
  match deleted_key obj with
  | Some (namespace, name) => delete (namespaced namespace name) m
  | None => m
  end.

Definition deleteGateway (obj : informer_object) : go (GatewayBridge * Master) () :=
  update_bridge (with_gateways (drop_key obj)) [].

Definition deleteHTTPRoute (obj : informer_object) : go (GatewayBridge * Master) () :=
  b ← get_bridge;
  set_bridge (with_httpRoutes (drop_key obj) b) ≫= fun _ =>
  ignore (syncHostsLocked (routeHostsFromDeletedObject obj) []).

Definition deleteTLSRoute (obj : informer_object) : go (GatewayBridge * Master) () :=
  b ← get_bridge;
  set_bridge (with_tlsRoutes (drop_key obj) b) ≫= fun _ =>
  ignore (syncHostsLocked (routeHostsFromDeletedObject obj) []).

Definition storeService (obj : informer_object) : go (GatewayBridge * Master) () :=
  match obj with
  | ObjService svc =>
      b ← get_bridge;
      update_bridge (with_services <[namespaced (svc_Namespace svc) (svc_Name svc) := svc]>) (collectHostsLocked b)
  | _ => mret tt
  end.

Definition deleteService (obj : informer_object) : go (GatewayBridge * Master) () :=
  b ← get_bridge;
  update_bridge (with_services (drop_key obj)) (collectHostsLocked b).

(** ** The initial load

    The API server's answers; a failure to list the TLSRoutes is not an
    error, and leaves the map as it is. *)
Record gateway_lists := mkGatewayLists {
  gw_list : result (list k8s_obj);
  hr_list : result (list k8s_obj);
  tr_list : result (list k8s_obj);
  sv_list : result (list Service);
}.

Definition loadGateways (l : gateway_lists) : go (GatewayBridge * Master) () :=
  match gw_list l with
  | Err e => throw e
  | Ok items =>
      b ← get_bridge;
      set_bridge (with_gateways (fun _ => foldl (fun m obj => let state := parseGatewayState obj in
                                                 <[gw_key state := state]> m) ∅ items) b)
  end.

Definition loadHTTPRoutes (l : gateway_lists) : go (GatewayBridge * Master) () :=
  match hr_list l with
  | Err e => throw e
  | Ok items =>
      b ← get_bridge;
      set_bridge (with_httpRoutes (fun _ => foldl (fun m obj => let state := parseHTTPRouteState obj in
                                                   <[hrs_key state := state]> m) ∅ items) b)
  end.

Definition loadTLSRoutes (l : gateway_lists) : go (GatewayBridge * Master) () :=
  match tr_list l with
  | Err _ => mret tt
  | Ok items =>
      b ← get_bridge;
      set_bridge (with_tlsRoutes (fun _ => foldl (fun m obj => match parseTLSRouteState obj with
                                                               | Some state => <[tls_key state := state]> m
                                                               | None => m
                                                               end) ∅ items) b)
  end.

Definition loadServices (l : gateway_lists) : go (GatewayBridge * Master) () :=
  match sv_list l with
  | Err e => throw e
  | Ok items =>
      b ← get_bridge;
      set_bridge (with_services (fun _ => foldl (fun m svc =>
        <[namespaced (svc_Namespace svc) (svc_Name svc) := svc]> m) ∅ items) b)
  end.

Definition gateway_LoadInitial (l : gateway_lists) : go (GatewayBridge * Master) () :=
  loadGateways l ≫= fun _ =>
  loadHTTPRoutes l ≫= fun _ =>
  loadTLSRoutes l ≫= fun _ =>
  loadServices l ≫= fun _ =>
  b ← get_bridge;
  syncHostsLocked (collectHostsLocked b) [].

End events.
