(* ===== verification/MasterGatewayFacts.v ===== *)
(** * What the master's Gateway bridge wants of a host

    The rows [materializeByHostLocked] computes carry identifiers that name
    the host and are each wanted once; and a host is never given the type
    that serves both protocols. *)

From Stdlib Require Import Ascii.
From S2P Require Import Prelude GoStrings GoTime Metadata Gorm Repository RepositoryFacts.
From S2P Require Import Replication Hub MasterEngine MasterFacts MetadataJson Plan PlanFacts Acme ManageAPI ManageFacts PlanConverges.
From S2P Require Import K8sObjects Materialize MaterializeFacts MasterIngress MasterIngressFacts MasterGateway.

Open Scope Z_scope.

(** ** Identifiers *)

Lemma gateway_id_host kind route host idx ruleIdx :
  no_colon kind -> named (hrs_namespace route) (hrs_name route) -> no_colon host ->
  id_host (gateway_id kind route host idx ruleIdx) = Some host.
Proof.
  intros Hk [Hns Hn] Hh. unfold id_host, gateway_id.
  change ("k8s:" +:+ ?x) with ("k8s" +:+ ":" +:+ x). rewrite Split_colon by compute_done.
  change (":gateway:" +:+ ?x) with (":" +:+ "gateway" +:+ ":" +:+ x).
  rewrite Split_colon by done. rewrite Split_colon by compute_done. by rewrite !Split_colon by done.
Qed.

Lemma tls_backend_id_host route host idx :
  named (tls_namespace route) (tls_name route) -> no_colon host ->
  id_host (tls_backend_id route host idx) = Some host.
Proof.
  intros [Hns Hn] Hh. unfold id_host, tls_backend_id.
  change ("k8s:backend:gateway-tls:" +:+ ?x) with ("k8s" +:+ ":" +:+ "backend" +:+ ":" +:+ "gateway-tls" +:+ ":" +:+ x).
  rewrite !Split_colon by compute_done. by rewrite !Split_colon by done.
Qed.

Lemma resolve_keeps b backend :
  sb_ID (resolveServiceBackendRef b backend) = sb_ID backend /\
  sb_Shared (resolveServiceBackendRef b backend) = sb_Shared backend.
Proof.
  unfold resolveServiceBackendRef. destruct (bool_decide _ || _ || _); [done|].
  destruct (gb_services b !! _) as [svc|]; [|done].
  destruct (bool_decide (svc_Type svc <> _)); [done|]. by destruct (bool_decide (_ = "")).
Qed.

(** ** Rows of a host before duplicates are dropped *)

Record rows_ok (h : string) (item : domainMaterialized) : Prop := {
  ro_host : de_Hostname (dm_domain item) = h;
  ro_nonempty : h <> "";
  ro_live : res_deleted (dm_domain item) = false;
  ro_domain : owned_domain (dm_domain item);
  ro_routes : forall r, r ∈ dm_routes item ->
    hr_Hostname r = h /\ res_deleted r = false /\ managed_id (hr_ID r) = true /\ owned_route r;
  ro_backends : forall b, b ∈ dm_backends item -> res_deleted b = false /\ id_host (sb_ID b) = Some h;
}.

Definition all_rows_ok (out : gmap string domainMaterialized) : Prop := map_Forall rows_ok out.

Definition named_bridge (b : GatewayBridge) : Prop :=
  map_Forall (fun _ route => named (hrs_namespace route) (hrs_name route)) (gb_httpRoutes b) /\
  map_Forall (fun _ route => named (tls_namespace route) (tls_name route)) (gb_tlsRoutes b).

Lemma foldl_preserves {A B} (P : A -> Prop) (f : A -> B -> A) l a :
  P a -> (forall a x, x ∈ l -> P a -> P (f a x)) -> P (foldl f a l).
Proof.
  revert a. induction l as [|x l IH]; intros a Ha Hf; cbn; [done|].
  apply IH; [apply Hf; [set_solver|done]|]. intros a' y Hy. apply Hf. set_solver.
Qed.

Section rows.
Context {MR : MapRange} (b : GatewayBridge) (hostSet : gset string).

Lemma http_domain_fields listener host :
  de_Hostname (http_domain listener host) = host /\ res_deleted (http_domain listener host) = false /\
  de_BindedServiceID (http_domain listener host) = "".
Proof. unfold http_domain. by destruct (bool_decide (gl_protocol listener = "HTTPS")). Qed.

Lemma add_http_host_ok route listener out entry :
  named (hrs_namespace route) (hrs_name route) -> all_rows_ok out ->
  all_rows_ok (add_http_host b hostSet route listener out entry).
Proof.
  intros Hn Hout. unfold add_http_host. destruct entry as [idx name]. cbn [fst snd].
  set (host := normalizeHost name). assert (no_colon host) as Hc by apply normalizeHost_no_colon.
  destruct (bool_decide (host ∉ hostSet) || bool_decide (host = "")) eqn:E; [done|].
  apply orb_false_iff in E as [_ Hne%bool_decide_eq_false].
  apply map_Forall_insert_2; [|done]. destruct (http_domain_fields listener host) as (E1 & E2 & E3).
  assert (forall item, item = default zero_domainMaterialized (out !! host) ->
    (forall r, r ∈ dm_routes item -> hr_Hostname r = host /\ res_deleted r = false /\
       managed_id (hr_ID r) = true /\ owned_route r) /\
    (forall x, x ∈ dm_backends item -> res_deleted x = false /\ id_host (sb_ID x) = Some host)) as Hitem.
  { intros item ->. destruct (out !! host) as [item|] eqn:Eo; cbn.
    - destruct (Hout _ _ Eo). done.
    - by split; intros ? ?%elem_of_nil. }
  destruct (Hitem _ eq_refl) as [Hr Hb]. split; cbn [dm_domain dm_routes dm_backends]; [done..| | |].
  - unfold owned_domain. rewrite E3. done.
  - intros r [Hin|Hin]%elem_of_app; [by apply Hr|].
    apply elem_of_lookup_imap in Hin as (ruleIdx & rule & -> & _).
    split; [done|]. split; [done|]. split; [apply HasPrefix_app|]. split; intros _;
      apply gateway_id_host; (done || compute_done).
  - intros x [Hin|Hin]%elem_of_app; [by apply Hb|].
    apply elem_of_lookup_imap in Hin as (ruleIdx & rule & -> & _). unfold gateway_backend.
    match goal with |- context [resolveServiceBackendRef b ?x] => destruct (resolve_keeps b x) as [-> Es] end.
    split; [cbn [res_deleted backends_resource]; by rewrite Es|].
    apply gateway_id_host; (done || compute_done).
Qed.

Lemma add_tls_host_ok route listener out entry :
  named (tls_namespace route) (tls_name route) -> all_rows_ok out ->
  all_rows_ok (add_tls_host b hostSet route listener out entry).
Proof.
  intros Hn Hout. unfold add_tls_host. destruct entry as [idx name]. cbn [fst snd].
  set (host := normalizeHost name). assert (no_colon host) as Hc by apply normalizeHost_no_colon.
  destruct (bool_decide (host ∉ hostSet) || bool_decide (host = "")) eqn:E; [done|].
  apply orb_false_iff in E as [_ Hne%bool_decide_eq_false].
  apply map_Forall_insert_2; [|done]. split; cbn [dm_domain dm_routes dm_backends tls_item]; [done..| | |].
  - intros _. by apply tls_backend_id_host.
  - by intros r ?%elem_of_nil.
  - intros x ->%list_elem_of_singleton.
    match goal with |- context [resolveServiceBackendRef b ?x] => destruct (resolve_keeps b x) as [-> Es] end.
    split; [cbn [res_deleted backends_resource]; by rewrite Es|]. by apply tls_backend_id_host.
Qed.

Lemma add_http_route_ok route out :
  named (hrs_namespace route) (hrs_name route) -> all_rows_ok out -> all_rows_ok (add_http_route b hostSet out route).
Proof.
  intros Hn Hout. unfold add_http_route. apply foldl_preserves; [done|]. intros out1 parent _ H1.
  apply foldl_preserves; [done|]. intros out2 listener _ H2. unfold add_http_listener.
  destruct (bool_decide _ || _); [|done]. apply foldl_preserves; [done|]. intros out3 entry _. by apply add_http_host_ok.
Qed.

Lemma add_tls_route_ok route out :
  named (tls_namespace route) (tls_name route) -> all_rows_ok out -> all_rows_ok (add_tls_route b hostSet out route).
Proof.
  intros Hn Hout. unfold add_tls_route. apply foldl_preserves; [done|]. intros out1 parent _ H1.
  apply foldl_preserves; [done|]. intros out2 listener _ H2. unfold add_tls_listener.
  destruct (bool_decide _); [|done]. apply foldl_preserves; [done|]. intros out3 entry _. by apply add_tls_host_ok.
Qed.

End rows.

(** ** Duplicates *)

Lemma elem_of_dedupe {M} {R : Resource M} seen (l : list M) x : x ∈ dedupe seen l -> x ∈ l /\ res_key x ∉ seen.
Proof.
  revert seen. induction l as [|y l IH]; intros seen; cbn; [by intros ?%elem_of_nil|].
  case_bool_decide; [intros [? ?]%IH; split; [set_solver|done]|].
  intros [->|Hin]%elem_of_cons; [split; [set_solver|done]|]. apply IH in Hin as [? ?]. set_solver.
Qed.

Lemma dedupe_NoDup {M} {R : Resource M} seen (l : list M) : NoDup (res_key <$> dedupe seen l).
Proof.
  revert seen. induction l as [|y l IH]; intros seen; cbn; [constructor|].
  case_bool_decide; [done|]. cbn. constructor; [|done].
  intros (x & E & [_ Hx]%elem_of_dedupe)%list_elem_of_fmap. set_solver.
Qed.

(** The first row of an identifier is kept. *)
Lemma dedupe_first {M} {R : Resource M} seen (l : list M) x :
  x ∈ l -> res_key x ∉ seen -> exists y, y ∈ dedupe seen l /\ res_key y = res_key x.
Proof.
  revert seen. induction l as [|y l IH]; intros seen; [by intros ?%elem_of_nil|]. cbn.
  intros [->|Hin]%elem_of_cons Hs.
  - rewrite bool_decide_eq_false_2 by done. exists y. split; [set_solver|done].
  - case_bool_decide; [by apply IH|]. destruct (decide (res_key x = res_key y)) as [E|E].
    + exists y. split; [set_solver|done].
    + destruct (IH ({[res_key y]} ∪ seen) Hin) as (z & Hz & Ez); [set_solver|]. exists z. split; [set_solver|done].
Qed.

Section wanted.
Context {MR : MapRange}.

Lemma gateway_items_ok b hosts : named_bridge b -> items_ok (materializeByHostLocked b hosts).
Proof.
  intros [Hh Ht] h item. unfold materializeByHostLocked. rewrite lookup_fmap.
  intros (item0 & Hi & ->)%fmap_Some. revert Hi.
  match goal with |- ?out !! h = _ -> _ => assert (all_rows_ok out) as Hout end.
  { apply foldl_preserves; [apply foldl_preserves; [apply map_Forall_empty|]|].
    - intros out [key route] Hin%elem_of_range Ho. apply add_http_route_ok; [apply (Hh _ _ Hin)|done].
    - intros out [key route] Hin%elem_of_range Ho. apply add_tls_route_ok; [apply (Ht _ _ Hin)|done]. }
  intros Hi. destruct (Hout _ _ Hi) as [R1 R2 R3 R4 R5 R6]. split; cbn [dm_domain dm_routes dm_backends]; try done.
  - intros r. unfold dedupeHTTPRoutes. case_bool_decide; [apply R5|]. intros [? _]%elem_of_dedupe. by apply R5.
  - unfold dedupeHTTPRoutes. case_bool_decide as El; [|exact (dedupe_NoDup ∅ (dm_routes item0))].
    destruct (dm_routes item0) as [|r [|r' rs]]; cbn in *; [constructor|apply NoDup_singleton|lia].
  - intros x. unfold dedupeServiceBackendRefs. case_bool_decide; [apply R6|]. intros [? _]%elem_of_dedupe. by apply R6.
Qed.

(** The [switch] that would combine the protocols of two listeners looks at a
    type that was overwritten just before, so a host of both an HTTP and an
    HTTPS listener gets the type of the one visited last. *)
Lemma never_both listener host : de_BackendType (http_domain listener host) <> BackendTypeL7HTTPBoth.
Proof.
  unfold http_domain. destruct (bool_decide (gl_protocol listener = "HTTPS")); cbn; [done|].
  by destruct (bool_decide (gl_protocol listener = "HTTP")).
Qed.

End wanted.
