(* ===== verification/MasterDns.v ===== *)
(** * The master's DNS bridge: engine/master/k8s_bridge/dns.go, bridge.go

    The bridge keeps the records of the DNSDomainRecord objects of its
    namespace and makes the repository's records of the cluster those; the
    three bridges together are what the engine loads at start. *)

From Stdlib Require Import Ascii.
From S2P Require Import Prelude GoStrings GoTime Metadata DnsStore GoNet K8sObjects DnsEngine.
From S2P Require Import Gorm Repository Replication Hub MasterEngine Plan Acme ManageAPI.
From S2P Require Import Materialize MasterIngress MasterGateway.

Open Scope Z_scope.

Record DNSBridge := mkDNSBridge { db_records : gmap string (list DNSRecord) }.

Definition NewDNSBridgeWithClient : DNSBridge := mkDNSBridge ∅.

Definition joinDNSLabel (label domain : string) : string :=
  let label := TrimSpace label in
  let domain := Trim (TrimSpace domain) "." in
  if bool_decide (label = "") || bool_decide (label = "@") then domain
  else Trim label "." +:+ "." +:+ domain.

(** The eight types the program knows, whose constants are their names. *)
Definition normalizeRecordType (recordType : string) : DNSRecordType :=
  let ty := ToUpper (TrimSpace recordType) in
  if bool_decide (ty ∈ [DNSTypeA; DNSTypeAAAA; DNSTypeCNAME; DNSTypeTXT; DNSTypeMX; DNSTypeNS; DNSTypeSRV; DNSTypeCAA])
  then ty else "".

Section parsing.
Context {UN : Unstructured}.

(** The iteration of the record loop for element [idx]. *)
Definition parse_record (domainID domain : string) (idx : nat) (item : option k8s_map) : list DNSRecord :=
  match item with
  | None => []
  | Some item =>
      let recordType := normalizeRecordType (nested_string item ["type"]) in
      if bool_decide (recordType = "") then []
      else
        let values := compactStrings (NestedStringSlice item ["values"]) in
        if bool_decide (values = []) then []
        else
          let ttl := match NestedInt64 item ["ttl"] with
                     | Some ttl64 => if bool_decide (0 <= ttl64) then u32 ttl64 else 60
                     | None => 60
                     end in
          [mkDNSRecord zero_Shared (domainID +:+ ":" +:+ Itoa (Z.of_nat idx))
             (joinDNSLabel (nested_string item ["name"]) domain) recordType RoutingClassFirst ttl
             (json_strings_text values) "" true]
  end.

(** The generation the source computes from the object is not used. *)
Definition parseDNSDomainRecordState (obj : k8s_obj) : option (string * list DNSRecord) :=
  let namespace := GetNamespace obj in
  let name := GetName obj in
  if bool_decide (namespace = "") || bool_decide (name = "") then None
  else
    let domain := TrimSpace (nested_string (Object obj) ["spec"; "domain"]) in
    if bool_decide (domain = "") then None
    else
      let domainID := "k8s:" +:+ namespace +:+ ":" +:+ name in
      Some (namespaced namespace name,
            mjoin (imap (parse_record domainID domain) (NestedSlice (Object obj) ["spec"; "records"]))).

End parsing.

(** The identifiers of the cluster's records. *)
Definition cluster_record (id : string) : bool := HasPrefix id "k8s:".

Section dns.
Context {GM : GormModel} {GDB : Gorm Tables stmt stmt_effect} {BS : BundleStore} {MR : MapRange}.

Definition flattenRecordsLocked (b : DNSBridge) : list DNSRecord :=
  key ← sort_by (fun key => key) (range (db_records b)).*1; default [] (db_records b !! key).

(** [records[i]] is upserted as it is; a cluster record that is not among
    them any more is deleted. *)
Definition syncDNSRecords (records : list DNSRecord) : go db () :=
  existing ← ListResource DNSRecord "id";
  let existingByID := by_id (filter (fun record => cluster_record (dr_ID record) = true) existing) in
  let nextIDs : gset string := list_to_set (dr_ID <$> records) in
  for_each UpsertResource records ≫= fun _ =>
  for_each (fun id => if bool_decide (id ∈ nextIDs) then mret tt
                      else DeleteResourceByField DNSRecord "id" id) (range existingByID).*1.

Context {UN : Unstructured} (clock : Engine -> Time).

Definition syncRecords (records : list DNSRecord) : go Master () :=
  on_db (syncDNSRecords records) ≫= fun _ => onDnsChange clock records.

(** Change the records of the bridge and bring the repository up to date. *)
Definition resync_dns (f : gmap string (list DNSRecord) -> gmap string (list DNSRecord))
    : go (DNSBridge * Master) () :=
  b ← get_bridge;
  let b' := mkDNSBridge (f (db_records b)) in
  set_bridge b' ≫= fun _ =>
  on_master (syncRecords (flattenRecordsLocked b')).

Definition storeObject (obj : informer_object) : go (DNSBridge * Master) () :=
  match as_unstructured obj ≫= parseDNSDomainRecordState with
  | None => mret tt
  | Some (key, records) => ignore (resync_dns <[key := records]>)
  end.

Definition updateObject (obj : informer_object) : go (DNSBridge * Master) () := storeObject obj.

Definition deleteObject (obj : informer_object) : go (DNSBridge * Master) () :=
  deleteByNamespaceName obj (fun namespace name => ignore (resync_dns (delete (namespaced namespace name)))).

Definition dns_LoadInitial (items : result (list k8s_obj)) : go (DNSBridge * Master) () :=
  match items with
  | Err e => throw (Errorf "list dnsdomainrecords: %w" (err_format e :: err_args e))
  | Ok items =>
      resync_dns (fun _ => foldl (fun m obj => match parseDNSDomainRecordState obj with
                                               | Some (key, records) => <[key := records]> m
                                               | None => m
                                               end) ∅ items)
  end.

(** ** bridge.go *)

Record Bridge := mkBridge {
  bg_DNS : DNSBridge;
  bg_Ingress : IngressBridge;
  bg_Gateway : GatewayBridge;
}.

Definition New (ingressClass : string) : Bridge :=
  mkBridge NewDNSBridgeWithClient (NewIngressBridgeWithClient ingressClass) NewGatewayBridgeWithClient.

Definition on_DNS {A} (m : go (DNSBridge * Master) A) : go (Bridge * Master) A :=
  zoom (fun st => (bg_DNS st.1, st.2))
    (fun r st => (mkBridge r.1 (bg_Ingress st.1) (bg_Gateway st.1), r.2)) m.
Definition on_Ingress {A} (m : go (IngressBridge * Master) A) : go (Bridge * Master) A :=
  zoom (fun st => (bg_Ingress st.1, st.2))
    (fun r st => (mkBridge (bg_DNS st.1) r.1 (bg_Gateway st.1), r.2)) m.
Definition on_Gateway {A} (m : go (GatewayBridge * Master) A) : go (Bridge * Master) A :=
  zoom (fun st => (bg_Gateway st.1, st.2))
    (fun r st => (mkBridge (bg_DNS st.1) (bg_Ingress st.1) r.1, r.2)) m.

(** What the API server lists. *)
Record cluster_lists := mkClusterLists {
  cl_records : result (list k8s_obj);
  cl_ingresses : result (list Ingress);
  cl_services : result (list Service);
  cl_gateway : gateway_lists;
}.

Definition bridge_LoadInitial (l : cluster_lists) : go (Bridge * Master) () :=
  on_DNS (dns_LoadInitial (cl_records l)) ≫= fun _ =>
  on_Ingress (LoadInitial clock (cl_ingresses l) (cl_services l)) ≫= fun _ =>
  on_Gateway (gateway_LoadInitial clock (cl_gateway l)).

(** What an informer reports to the bridges. *)
Inductive event :=
  | DNSStored (obj : informer_object) | DNSDeleted (obj : informer_object)
  | IngressStored (obj : informer_object) | IngressDeleted (obj : informer_object)
  | IngressServiceStored (obj : informer_object) | IngressServiceDeleted (obj : informer_object)
  | GatewayStored (obj : informer_object) | GatewayDeleted (obj : informer_object)
  | HTTPRouteStored (obj : informer_object) | HTTPRouteDeleted (obj : informer_object)
  | TLSRouteStored (obj : informer_object) | TLSRouteDeleted (obj : informer_object)
  | GatewayServiceStored (obj : informer_object) | GatewayServiceDeleted (obj : informer_object).

Definition handle (e : event) : go (Bridge * Master) () :=
  match e with
  | DNSStored obj => on_DNS (storeObject obj)
  | DNSDeleted obj => on_DNS (deleteObject obj)
  | IngressStored obj => on_Ingress (storeIngress clock obj)
  | IngressDeleted obj => on_Ingress (deleteIngress clock obj)
  | IngressServiceStored obj => on_Ingress (MasterIngress.storeService clock obj)
  | IngressServiceDeleted obj => on_Ingress (MasterIngress.deleteService clock obj)
  | GatewayStored obj => on_Gateway (storeGateway clock obj)
  | GatewayDeleted obj => on_Gateway (deleteGateway clock obj)
  | HTTPRouteStored obj => on_Gateway (storeHTTPRoute clock obj)
  | HTTPRouteDeleted obj => on_Gateway (deleteHTTPRoute clock obj)
  | TLSRouteStored obj => on_Gateway (storeTLSRoute clock obj)
  | TLSRouteDeleted obj => on_Gateway (deleteTLSRoute clock obj)
  | GatewayServiceStored obj => on_Gateway (MasterGateway.storeService clock obj)
  | GatewayServiceDeleted obj => on_Gateway (MasterGateway.deleteService clock obj)
  end.

End dns.
