(* ===== verification/MasterK8sFacts.v ===== *)
(** * The master's bridges and the repository

    What the bridges' events make of the tables: the hosts of the Ingresses
    and the records of the cluster are in them, and every event keeps them
    well-formed. *)

From Stdlib Require Import Ascii.
From S2P Require Import Prelude GoStrings GoTime Metadata DnsStore GoNet K8sObjects DnsEngine.
From S2P Require Import Gorm Repository RepositoryFacts.
From S2P Require Import Replication Hub MasterEngine MasterFacts MetadataJson Plan PlanFacts Acme ManageAPI ManageFacts PlanConverges.
From S2P Require Import Materialize MaterializeFacts MasterIngress MasterIngressFacts MasterGateway MasterGatewayFacts MasterDns.

Open Scope Z_scope.

(** ** Growing the log changes no row *)

Section grows.
Context {GM : GormModel}.

Lemma grows_live {M} {R : Resource M} t t' k :
  known M R -> grows t t' -> live_row (M:=M) t' k = live_row t k.
Proof.
  intros Hk (E1 & E2 & E3 & E4 & E5 & _). unfold live_row. destruct Hk; cbn; by rewrite ?E1, ?E2, ?E3, ?E4, ?E5.
Qed.

Lemma grows_spared h t t' : grows t t' -> spared h t t'.
Proof.
  intros Hg. split.
  - by apply grows_live; [constructor|].
  - intros id r _. by rewrite (grows_live t t' id known_routes Hg).
  - intros id _. by apply grows_live; [constructor|].
Qed.

Lemma grows_owned t t' : grows t t' -> owned t -> owned t'.
Proof.
  intros Hg [Hr Hd]. split.
  - intros id r. rewrite (grows_live t t' id known_routes Hg). apply Hr.
  - intros h d. rewrite (grows_live t t' h known_domains Hg). apply Hd.
Qed.

End grows.

Section ingress.
Context {GM : GormModel} {GDB : Gorm Tables stmt stmt_effect} {BS : BundleStore} {MR : MapRange}.

(** ** The hosts of the Ingresses in the tables *)

Definition has_rule (b : IngressBridge) (h : string) (ing : Ingress) : Prop :=
  exists key rule, ib_ingresses b !! key = Some ing /\ rule ∈ ing_Rules ing /\ normalizeHost (ir_Host rule) = h.

(** The rows of [h] are those of the Ingresses with a rule for it; a host
    without a rule is not there. *)
Definition ingress_served (b : IngressBridge) (h : string) (t : Tables) : Prop :=
  ((exists ing, has_rule b h ing /\ holds (fun d r => same_domain r d = true) t (ingress_domain ing h)) /\
   (forall ing idx path service, serving_path b h ing idx path service ->
      holds (fun d r => same_route r d = true) t (ingress_route ing h idx path) /\
      holds (fun d r => same_backend r d = true) t (ingress_backend b ing h idx service)) /\
   (forall id r, live_row t id = Some r -> hr_Hostname r = h ->
      exists ing idx path service, serving_path b h ing idx path service /\ id = ingress_id "route" ing h idx)) \/
  ((forall ing, ~ has_rule b h ing) /\ live_row (M:=DomainEndpoint) t h = None).

Lemma settled_served b hosts h t :
  bridge_ok b -> h ∈ normalizeHosts hosts -> settled (materializeByHost b hosts) h t -> ingress_served b h t.
Proof.
  intros Hok Hin. unfold settled. rewrite materialize_lookup, bool_decide_eq_true_2 by done.
  apply elem_of_normalizeHosts in Hin as (Hne & x & _ & Eh).
  assert (no_colon h) as Hc by (rewrite Eh; apply normalizeHost_no_colon).
  unfold ingress_item. destruct (last (rules_of b h)) as [v|] eqn:El; cbn [option_map fmap option_fmap mbind option_bind].
  - destruct (host_rows_split b h) as [-> ->]. set (rws := rules_of b h ≫= _). intros [Hd Hb Hr Ho]. left.
    assert (v ∈ rules_of b h) as Hv by (by apply last_Some_elem_of).
    apply elem_of_rules_of in Hv as ([key Hk] & Hrule & Hh). split_and!.
    + exists v.1. split; [by exists key, v.2|exact Hd].
    + intros ing idx path service Hs.
      assert ((ingress_backend b ing h idx service, ingress_route ing h idx path) ∈ rws) as Hrow
        by (apply elem_of_host_rows; eauto 10). split.
      * apply Hr. by apply (list_elem_of_fmap_2 snd) in Hrow.
      * apply (Hb (ingress_id "backend" ing h idx)). rewrite by_id_dedup. cbn [dm_backends].
        rewrite <- (backend_id b ing h idx service).
        assert (NoDup (sb_ID <$> rws.*1)) as Hnd
          by (rewrite <- list_fmap_compose; exact (host_row_ids _ _ b h backend_id_column Hok Hne Hc)).
        apply (list_elem_of_fmap_2 fst) in Hrow. exact (by_id_elem rws.*1 _ Hnd Hrow).
    + intros id r Hl Hrh. specialize (Ho id r Hl Hrh). cbn in Ho.
      apply list_elem_of_fmap in Ho as (r' & -> & Hr'). apply list_elem_of_fmap in Hr' as (row & -> & Hrow).
      apply elem_of_host_rows in Hrow as (ing & idx & path & service & Hs & ->). eauto 10.
  - intros Hn. right. split; [|done]. intros ing (key & rule & Hk & Hr & Hh). apply last_None in El.
    assert ((ing, rule) ∈ rules_of b h) as Hv by (apply elem_of_rules_of; eauto). by rewrite El in Hv; apply elem_of_nil in Hv.
Qed.

(** Publishing the reported hosts, as the bridges do. *)
Lemma publish_hosts clock (hosts : list string) :
  publishes (for_each (onDomainChange clock) hosts)
    (fun t t' => forall h, h ∈ hosts -> domain_published h t t').
Proof.
  apply publishes_for_each; [apply stable_published_domain|]. intros h. apply publishes_domain.
Qed.

Lemma on_master_run {B A} (m : go Master A) (b : B) s :
  on_master m (b, s) = let '(s', r) := m s in ((b, s'), r).
Proof. done. Qed.

Lemma on_master_each {B A} (f : A -> go Master ()) l (b : B) s :
  for_each (fun a => on_master (f a)) l (b, s) = let '(s', r) := for_each f l s in ((b, s'), r).
Proof.
  revert s. induction l as [|a l IH]; intros s; cbn; [done|]. cbv [mbind go_bind].
  rewrite on_master_run. destruct (f a s) as [s1 [[]|e]]; [apply IH|done].
Qed.

(** Writing wanted rows and publishing the reported hosts, in either order of
    the two reports. *)
Definition sync_and_publish (clock : Engine -> Time) (swap : bool) (next : gmap string domainMaterialized)
    (affected removed : list string) : go Master () :=
  '(ca, cr) ← syncDomainSet next affected removed;
  for_each (onDomainChange clock) (if swap then cr else ca) ≫= fun _ =>
  for_each (onDomainChange clock) (if swap then ca else cr).

(** A host is as it was, or gone, or in the log. *)
Definition accounted (h : string) (t t' : Tables) : Prop :=
  spared h t t' \/ live_row (M:=DomainEndpoint) t' h = None \/
  logged t t' SnapshotSyncTypeDomainEntryProjection h SnapshotActionUpsert.

Lemma sync_and_publish_ok clock swap next affected removed s :
  good (ms_tables s) -> items_ok next ->
  let '(s', r) := sync_and_publish clock swap next affected removed s in
  let t := ms_tables s in
  let t' := ms_tables s' in
  good t' /\
  (r = Ok tt ->
    (forall h, h ∈ normalizeHosts affected -> settled next h t') /\
    (forall h, h ∈ normalizeHosts removed -> h ∉ normalizeHosts affected ->
       live_row (M:=DomainEndpoint) t' h = None) /\
    (forall h, accounted h t t')).
Proof.
  intros [Hwf Ho] Hitems. unfold sync_and_publish. cbv beta iota delta [mbind go_bind].
  pose proof (syncDomainSet_ok next affected removed s (conj Hwf Ho) Hitems) as H.
  destruct (syncDomainSet next affected removed s) as [s1 [[ca cr]|e]]; destruct H as (Hg1 & Hrest & _ & H); [|done].
  destruct (H ca cr eq_refl) as (Hset & Hrem & Hsp). clear H.
  pose proof (publishes_bind _ _ _ _ (stable_forall _ _ stable_published_domain) (stable_forall _ _ stable_published_domain)
    (publish_hosts clock (if swap then cr else ca)) (publish_hosts clock (if swap then ca else cr)) s1 (proj1 Hg1)) as Hp.
  cbv beta iota delta [mbind go_bind] in Hp.
  match type of Hp with context [ms_tables ?m.1] => destruct m as [s2 r] end. cbn in Hp.
  destruct Hp as (Hgr & Hwf2 & Hq). split; [split; [done|by eapply grows_owned; [|apply Hg1]]|].
  intros ->. specialize (Hq eq_refl). split_and!.
  - intros h Hh. eapply settled_spared; [done|by apply grows_spared|auto].
  - intros h Hh Hna. rewrite (grows_live _ _ h known_domains Hgr). auto.
  - intros h. destruct (decide (h ∈ ca ++ cr)) as [Hin|Hout]; [|left; etrans; [by apply Hsp|by apply grows_spared]].
    assert (domain_published h (ms_tables s1) (ms_tables s2)) as [Hn|Hl].
    { destruct Hq as [Hq1 Hq2]. apply elem_of_app in Hin. destruct swap, Hin; auto. }
    + right; left. by rewrite (grows_live _ _ h known_domains Hgr).
    + right; right. destruct Hrest as (_ & _ & E). revert Hl. unfold logged. by rewrite E.
Qed.

(** The Ingress bridge's synchronization. *)
Lemma ingress_sync_run clock b s affected removed :
  syncHosts clock affected removed (b, s) =
  let '(s', r) := sync_and_publish clock false (materializeByHost b affected) affected removed s in ((b, s'), r).
Proof.
  unfold syncHosts, sync_and_publish. cbv beta iota delta [mbind go_bind get_bridge fst].
  rewrite on_master_run. destruct (syncDomainSet _ _ _ s) as [s1 [[ca cr]|e]]; [|done].
  rewrite on_master_each. destruct (for_each (onDomainChange clock) ca s1) as [s2 [[]|e]]; [|done].
  by rewrite on_master_each.
Qed.

Lemma ingress_sync_ok clock b s affected removed :
  bridge_ok b -> good (ms_tables s) ->
  let '((b', s'), r) := syncHosts clock affected removed (b, s) in
  let t := ms_tables s in
  let t' := ms_tables s' in
  b' = b /\ good t' /\
  (r = Ok tt ->
    (forall h, h ∈ normalizeHosts affected -> ingress_served b h t') /\
    (forall h, h ∈ normalizeHosts removed -> h ∉ normalizeHosts affected ->
       live_row (M:=DomainEndpoint) t' h = None) /\
    (forall h, accounted h t t')).
Proof.
  intros Hok Hg. rewrite ingress_sync_run.
  pose proof (sync_and_publish_ok clock false _ affected removed s Hg (materialize_items_ok b affected Hok)) as H.
  destruct (sync_and_publish _ _ _ _ _ s) as [s' r]. destruct H as [Hg' H]. split; [done|]. split; [done|].
  intros Hr. destruct (H Hr) as (Hset & Hrem & Hacc). split_and!; [|done..].
  intros h Hh. eapply settled_served; [done|exact Hh|auto].
Qed.


(** ** The records of the cluster *)

Lemma list_records d d' l :
  ListResource DNSRecord "id" d = (d', Ok l) -> rows d' = rows d /\ l ≡ₚ live_rows (rows d).
Proof.
  intros H. change (select (live_rows (M:=DNSRecord)) (order_asc dr_ID) d = (d', Ok l)) in H.
  pose proof (select_rows (live_rows (M:=DNSRecord)) (order_asc dr_ID) d) as Hr.
  pose proof (select_perm (live_rows (M:=DNSRecord)) (order_asc dr_ID) d) as Hp.
  rewrite H in Hr, Hp. split; [done|by apply Hp].
Qed.

(** The row of a record that is listed, or not listed, as an old one. *)
Lemma existing_records d l id :
  tables_wf (rows d) -> l ≡ₚ live_rows (M:=DNSRecord) (rows d) ->
  is_Some (by_id (filter (fun record => cluster_record (dr_ID record) = true) l) !! id) <->
  cluster_record id = true /\ is_Some (live_row (M:=DNSRecord) (rows d) id).
Proof.
  intros Hwf Hl. split.
  - intros [r [<- [Hc Hin]%list_elem_of_filter]%by_id_key]. rewrite Hl in Hin. split; [done|].
    apply elem_of_live_rows in Hin as [Hk Hd].
    assert (r ∈ rows_where dr_ID (dr_ID r) (rows d)) as Hw by (by apply elem_of_rows_where).
    apply (rows_where_live_row _ _ _ _ known_dns Hwf) in Hw as [Hw _]. eauto.
  - intros [Hc [r Hr]]. pose proof (live_key _ _ _ known_dns Hwf Hr) as [Hid Hd]. cbn in Hid. subst id.
    refine (by_id_is_Some (filter (fun record => cluster_record (dr_ID record) = true) l) r _).
    apply list_elem_of_filter. split; [done|]. rewrite Hl. apply elem_of_live_rows. split; [|done].
    exists (dr_ID r). revert Hr. unfold live_row. destruct (res_get (rows d) !! dr_ID r) as [x|]; [|done]. cbn.
    destruct (dr_Deleted x); [done|]. by intros [= ->].
Qed.

(** The deletions of old records. *)
Definition drop_record (nextIDs : gset string) (id : string) : go db () :=
  if bool_decide (id ∈ nextIDs) then mret tt else DeleteResourceByField DNSRecord "id" id.

Definition records_drop (nextIDs : gset string) (old : list string) (t0 t : Tables) : Prop :=
  tables_wf t /\ tb_domains t = tb_domains t0 /\ tb_backends t = tb_backends t0 /\ tb_routes t = tb_routes t0 /\
  tb_certs t = tb_certs t0 /\ tb_snapshots t = tb_snapshots t0 /\
  forall id, live_row (M:=DNSRecord) t id = live_row t0 id \/
    (live_row (M:=DNSRecord) t id = None /\ id ∈ old /\ id ∉ nextIDs).

Lemma records_drop_step nextIDs old t0 id : id ∈ old ->
  preserves (fun d => records_drop nextIDs old t0 (rows d)) (drop_record nextIDs id).
Proof.
  intros Hid. unfold drop_record. destruct (bool_decide (id ∈ nextIDs)) eqn:E; [apply preserves_ret|].
  apply bool_decide_eq_false in E. apply preserves_delete; [done|].
  intros t (Hwf & E1 & E2 & E3 & E4 & E5 & Hl). split; [by apply without_wf; [constructor|]|].
  split_and!; [done..|]. intros k. rewrite live_without by (done || constructor).
  case_bool_decide as Ek; [right; by subst|apply Hl].
Qed.

Lemma records_dropped nextIDs old d d' id :
  tables_wf (rows d) -> for_each (drop_record nextIDs) old d = (d', Ok tt) -> id ∈ old -> id ∉ nextIDs ->
  live_row (M:=DNSRecord) (rows d') id = None.
Proof.
  intros Hwf Hrun Hid Hn.
  apply (for_each_visits (fun d0 => tables_wf (rows d0)) (fun d0 => live_row (M:=DNSRecord) (rows d0) id = None)
    _ _ id _ _ Hrun Hid Hwf).
  - intros x Hx. unfold drop_record. destruct (bool_decide _); [apply preserves_ret|].
    apply preserves_delete; [done|]. intros t. by apply without_wf; constructor.
  - intros s s' Hs. unfold drop_record. rewrite bool_decide_eq_false_2 by done. intros H%delete_rows; [|done].
    rewrite H, live_without by (done || constructor). by rewrite bool_decide_eq_true_2.
  - intros x Hx s [Hs Hl]. unfold drop_record. destruct (bool_decide _); [done|].
    apply (preserves_delete (fun t => tables_wf t /\ live_row (M:=DNSRecord) t id = None)); [done| |done].
    intros t [Ht Hlt]. split; [by apply without_wf; [constructor|]|].
    rewrite live_without by (done || constructor). by case_bool_decide.
Qed.

(** C29. the cluster's records in the tables.  After a successful
    synchronization every given record is live as gorm stored it, the last one
    of an identifier; every other record of the cluster is deleted; and the
    records that are not the cluster's, and every other table, are as they
    were. *)
Theorem sync_dns_records records d d' :
  tables_wf (rows d) -> Forall (fun r => dr_Deleted r = false) records ->
  syncDNSRecords records d = (d', Ok tt) ->
  let t := rows d in
  let t' := rows d' in
  (forall id, match by_id records !! id with
              | Some r => holds eq t' r
              | None => live_row (M:=DNSRecord) t' id = if cluster_record id then None else live_row t id
              end) /\
  tables_wf t' /\ tb_domains t' = tb_domains t /\ tb_backends t' = tb_backends t /\ tb_routes t' = tb_routes t /\
  tb_certs t' = tb_certs t /\ tb_snapshots t' = tb_snapshots t.
Proof.
  intros Hwf Hd. rewrite Forall_forall in Hd. unfold syncDNSRecords.
  set (nextIDs := list_to_set (dr_ID <$> records) : gset string).
  intros (d1 & l & H1 & (d2 & [] & H2 & H3)%go_bind_Ok)%go_bind_Ok. apply list_records in H1 as [E1 Hl].
  rewrite <- E1 in Hwf, Hl |- *. clear E1.
  pose proof (upserts_wf _ _ _ known_dns Hwf H2) as Hwf2.
  destruct (upserts_rows _ _ _ known_dns H2) as (m & Hm & Hm2).
  set (old := (range (by_id _)).*1) in H3.
  change (for_each (drop_record nextIDs) old d2 = (d', Ok tt)) in H3.
  assert (records_drop nextIDs old (rows d2) (rows d')) as (Hwf3 & E1 & E2 & E3 & E4 & E5 & Hdrop).
  { pose proof (preserves_for_each (fun d => records_drop nextIDs old (rows d2) (rows d)) (drop_record nextIDs) old) as Hp.
    specialize (Hp ltac:(intros x Hx; by apply records_drop_step) d2). rewrite H3 in Hp. apply Hp.
    split_and!; try done. by left. }
  assert (forall id, id ∈ old <-> cluster_record id = true /\ is_Some (live_row (M:=DNSRecord) (rows d1) id)) as Hold.
  { intros id. rewrite <- existing_records by done. unfold old. rewrite list_elem_of_fmap. split.
    - intros ([k x] & -> & Hk%elem_of_range). eauto.
    - intros [x Hx]. exists (id, x). split; [done|]. by apply elem_of_range. }
  split; [|rewrite Hm in E1, E2, E3, E4, E5; by split_and!].
  intros id. destruct (by_id records !! id) as [r|] eqn:Er.
  - destruct (upserts_hold eq _ _ _ _ _ known_dns H2 Hd Er) as (x & Hx & Hs). exists x. split; [|done].
    pose proof (by_id_key _ _ _ Er) as [_ Hin].
    destruct (Hdrop (res_key r)) as [->|(_ & _ & Hnot)]; [done|]. destruct Hnot.
    apply elem_of_list_to_set. by apply (list_elem_of_fmap_2 dr_ID).
  - assert (live_row (M:=DNSRecord) (rows d2) id = live_row (rows d1) id) as E.
    { specialize (Hm2 id). rewrite Er in Hm2. unfold live_row. rewrite Hm. cbn. by rewrite Hm2. }
    assert (id ∉ nextIDs) as Hn.
    { intros (r & -> & Hr)%elem_of_list_to_set%list_elem_of_fmap.
      destruct (by_id_is_Some records r Hr) as [x Hx]. cbn in Hx. congruence. }
    destruct (cluster_record id) eqn:Ec.
    + destruct (decide (id ∈ old)) as [Hin|Hout]; [exact (records_dropped nextIDs old d2 d' id Hwf2 H3 Hin Hn)|].
      destruct (Hdrop id) as [->|[? _]]; [|done]. rewrite E. rewrite Hold in Hout.
      destruct (live_row (rows d1) id); [|done]. destruct Hout. eauto.
    + destruct (Hdrop id) as [->|(_ & Hin & _)]; [done|]. apply Hold in Hin as [? _]. congruence.
Qed.

End ingress.
