(* ===== verification/MasterEvents.v ===== *)
(** * Every event of the cluster keeps the master's tables in order

    The three bridges of engine/master/k8s_bridge over their life: the initial
    load and any sequence of informer callbacks, whether the database fails in
    between or not. *)

From Stdlib Require Import Ascii.
From S2P Require Import Prelude GoStrings GoTime Metadata DnsStore GoNet K8sObjects DnsEngine.
From S2P Require Import Gorm Repository RepositoryFacts.
From S2P Require Import Replication Hub MasterEngine MasterFacts MetadataJson Plan PlanFacts Acme ManageAPI ManageFacts PlanConverges.
From S2P Require Import Materialize MaterializeFacts MasterIngress MasterIngressFacts MasterGateway MasterGatewayFacts.
From S2P Require Import MasterDns MasterK8sFacts.

Open Scope Z_scope.

(** Run the steps that read and set a bridge. *)
Ltac go_run := cbv beta iota zeta delta [mbind go_bind get_bridge set_bridge modify]; cbn [fst snd].

(** ** What the API server guarantees of its objects *)

Section objects.
Context {UN : Unstructured}.

Definition named_obj (o : k8s_obj) : Prop := named (GetNamespace o) (GetName o).

Definition object_ok (obj : informer_object) : Prop :=
  match obj with
  | ObjIngress ing => ingress_ok ing
  | ObjUnstructured o => named_obj o
  | _ => True
  end.

Definition event_object (e : event) : informer_object :=
  match e with
  | DNSStored obj | DNSDeleted obj | IngressStored obj | IngressDeleted obj
  | IngressServiceStored obj | IngressServiceDeleted obj | GatewayStored obj | GatewayDeleted obj
  | HTTPRouteStored obj | HTTPRouteDeleted obj | TLSRouteStored obj | TLSRouteDeleted obj
  | GatewayServiceStored obj | GatewayServiceDeleted obj => obj
  end.

Definition listed_ok {A} (P : A -> Prop) (r : result (list A)) : Prop :=
  match r with Ok l => Forall P l | Err _ => True end.

Definition lists_ok (l : cluster_lists) : Prop :=
  listed_ok ingress_ok (cl_ingresses l) /\ listed_ok named_obj (hr_list (cl_gateway l)) /\
  listed_ok named_obj (tr_list (cl_gateway l)).

End objects.

Section invariant.
Context {GM : GormModel} {GDB : Gorm Tables stmt stmt_effect} {BS : BundleStore} {MR : MapRange}.
Context {UN : Unstructured} (clock : Engine -> Time).

(** A bridge in order, on a master in order. *)
Definition in_order {B} (ok : B -> Prop) (st : B * Master) : Prop := ok st.1 /\ good (ms_tables st.2).

(** ** Publishing and the DNS bridge *)

Lemma publishes_in_order {B} (ok : B -> Prop) m Q :
  publishes m Q -> preserves (fun s => good (ms_tables s)) m.
Proof.
  intros Hm s [Hwf Ho]. destruct (Hm s Hwf) as (Hg & Hwf' & _). split; [done|]. by eapply grows_owned.
Qed.

Lemma on_master_in_order {B A} (ok : B -> Prop) (m : go Master A) :
  preserves (fun s => good (ms_tables s)) m -> preserves (in_order ok) (on_master m).
Proof.
  intros Hm [b s] [Hb Hs]. rewrite on_master_run. specialize (Hm s Hs). by destruct (m s) as [s' r].
Qed.

Lemma on_db_good {A} (m : go db A) :
  preserves (fun d => good (rows d)) m -> preserves (fun s => good (ms_tables s)) (on_db m).
Proof.
  intros Hm s Hs. pose proof (on_db_cases m s) as H. specialize (Hm _ Hs). destruct (on_db m s) as [s' r].
  destruct H as [_ E]. cbn. by rewrite E.
Qed.

Lemma syncDNSRecords_good records : preserves (fun d => good (rows d)) (syncDNSRecords records).
Proof.
  assert (forall m t, keyed m -> good t -> good (res_put (M:=DNSRecord) m t)) as Hput.
  { intros m t Hm [Hwf Ho]. split; [by apply put_wf; [constructor|..]|exact Ho]. }
  unfold syncDNSRecords. apply preserves_bind; [|intros l; apply preserves_bind; [|intros _]].
  - apply (preserves_read (fun t => good t)). intros d. apply select_rows.
  - apply preserves_for_each. intros r _. apply preserves_upsert. intros old t Ht. apply Hput; [|done].
    apply keyed_insert. exact (get_keyed _ _ _ known_dns (proj1 Ht)).
  - apply preserves_for_each. intros id _. destruct (bool_decide _); [apply preserves_ret|].
    apply preserves_delete; [done|]. intros t Ht. apply Hput; [|done].
    apply keyed_fmap. exact (get_keyed _ _ _ known_dns (proj1 Ht)).
Qed.

Lemma syncRecords_good records : preserves (fun s => good (ms_tables s)) (syncRecords clock records).
Proof.
  unfold syncRecords. apply preserves_bind; [apply on_db_good, syncDNSRecords_good|intros _].
  eapply (publishes_in_order (fun _ : () => True)). unfold onDnsChange.
  apply (publishes_for_each _ (fun r => dns_published (dr_ID r))); intros r; [apply stable_published_dns|apply publishes_dns].
Qed.

Lemma resync_dns_in_order f : preserves (in_order (fun _ => True)) (resync_dns clock f).
Proof.
  intros [b s] H. unfold resync_dns. cbv [mbind go_bind get_bridge set_bridge modify]; cbn [fst snd].
  by apply (on_master_in_order (fun _ : DNSBridge => True)); [apply syncRecords_good|].
Qed.

(** ** The Ingress bridge *)

Lemma syncHosts_in_order affected removed : preserves (in_order bridge_ok) (syncHosts clock affected removed).
Proof.
  intros [b s] [Hb Hs]. pose proof (ingress_sync_ok clock b s affected removed Hb Hs) as H.
  destruct (syncHosts clock affected removed (b, s)) as [[b' s'] r]. by destruct H as (-> & Hg & _).
Qed.

(** A call from a bridge in order. *)
Lemma run_in_order {B A} (ok : B -> Prop) (m : go (B * Master) A) b s :
  preserves (in_order ok) m -> ok b -> good (ms_tables s) -> in_order ok (m (b, s)).1.
Proof. intros Hm Hb Hs. by apply Hm. Qed.

Lemma delete_bridge_ok b key :
  bridge_ok b -> bridge_ok (mkIngressBridge (ib_ingressClass b) (delete key (ib_ingresses b)) (ib_services b)).
Proof. intros Hb. by apply map_Forall_delete. Qed.

Lemma storeIngress_in_order obj : object_ok obj -> preserves (in_order bridge_ok) (storeIngress clock obj).
Proof.
  intros Ho [b s] [Hb Hs]. destruct obj as [ing|svc|o|meta|]; try done. unfold storeIngress.
  go_run. destruct (matchesIngressClass (ib_ingressClass b) ing); go_run.
  - apply run_in_order; [apply preserves_ignore, syncHosts_in_order| |done].
    apply map_Forall_insert_2; done.
  - apply run_in_order; [apply preserves_ignore, syncHosts_in_order| |done]. by apply delete_bridge_ok.
Qed.

Lemma deleteIngress_in_order obj : preserves (in_order bridge_ok) (deleteIngress clock obj).
Proof.
  intros [b s] [Hb Hs]. unfold deleteIngress, deleteByNamespaceName.
  destruct (deleted_key obj) as [[namespace name]|]; [|done]. go_run.
  apply run_in_order; [apply preserves_ignore, syncHosts_in_order| |done]. by apply delete_bridge_ok.
Qed.

Lemma resync_service_in_order namespace name : preserves (in_order bridge_ok) (resync_service clock namespace name).
Proof.
  intros [b s] [Hb Hs]. unfold resync_service. go_run.
  destruct (bool_decide _); [done|]. by apply run_in_order; [apply preserves_ignore, syncHosts_in_order|..].
Qed.

Lemma ingress_services_in_order obj :
  preserves (in_order bridge_ok) (MasterIngress.storeService clock obj) /\
  preserves (in_order bridge_ok) (MasterIngress.deleteService clock obj).
Proof.
  split; intros [b s] [Hb Hs].
  - destruct obj; try done. unfold MasterIngress.storeService. go_run.
    by apply run_in_order; [apply resync_service_in_order|..].
  - unfold MasterIngress.deleteService, deleteByNamespaceName. destruct (deleted_key obj) as [[namespace name]|]; [|done].
    go_run. by apply run_in_order; [apply resync_service_in_order|..].
Qed.

Lemma ingress_load_in_order ings svcs :
  listed_ok ingress_ok ings -> preserves (in_order bridge_ok) (LoadInitial clock ings svcs).
Proof.
  intros Hl [b s] [Hb Hs]. unfold LoadInitial. destruct ings as [ings|e]; [|done].
  destruct svcs as [svcs|e]; [|done]. go_run.
  apply run_in_order; [apply syncHosts_in_order| |done]. cbn in Hl. rewrite Forall_forall in Hl.
  unfold bridge_ok. cbn [ib_ingresses]. apply foldl_preserves; [apply map_Forall_empty|].
  intros m ing [_ Hin]%list_elem_of_filter Hm. apply map_Forall_insert_2; [|done]. split; [done|auto].
Qed.

(** ** The Gateway bridge *)

Lemma gateway_sync_run affected removed b s :
  syncHostsLocked clock affected removed (b, s) =
  let '(s', r) := sync_and_publish clock true (materializeByHostLocked b affected) affected removed s in ((b, s'), r).
Proof.
  unfold syncHostsLocked, sync_and_publish. cbv beta iota delta [mbind go_bind get_bridge fst].
  rewrite on_master_run. destruct (syncDomainSet _ _ _ s) as [s1 [[ca cr]|e]]; [|done].
  rewrite on_master_each. destruct (for_each (onDomainChange clock) cr s1) as [s2 [[]|e]]; [|done].
  by rewrite on_master_each.
Qed.

Lemma gateway_sync_in_order affected removed : preserves (in_order named_bridge) (syncHostsLocked clock affected removed).
Proof.
  intros [b s] [Hb Hs]. rewrite gateway_sync_run.
  pose proof (sync_and_publish_ok clock true _ affected removed s Hs (gateway_items_ok b affected Hb)) as H.
  destruct (sync_and_publish _ _ _ _ _ s) as [s' r]. by destruct H as [Hg _].
Qed.

Lemma update_bridge_in_order f affected :
  (forall b, named_bridge b -> named_bridge (f b)) -> preserves (in_order named_bridge) (update_bridge clock f affected).
Proof.
  intros Hf [b s] [Hb Hs]. unfold update_bridge. go_run.
  apply run_in_order; [apply preserves_ignore, gateway_sync_in_order|auto|done].
Qed.

Lemma drop_key_Forall {A} obj (P : string -> A -> Prop) (m : gmap string A) :
  map_Forall P m -> map_Forall P (drop_key obj m).
Proof. intros Hm. unfold drop_key. destruct (deleted_key obj) as [[? ?]|]; [by apply map_Forall_delete|done]. Qed.

Lemma parseTLS_named o state : named_obj o -> parseTLSRouteState o = Some state ->
  named (tls_namespace state) (tls_name state).
Proof.
  intros Ho. unfold parseTLSRouteState. destruct (head _) as [x|]; [|done]. by intros [= <-].
Qed.

Lemma gateway_stores_in_order obj : object_ok obj ->
  preserves (in_order named_bridge) (storeGateway clock obj) /\
  preserves (in_order named_bridge) (storeHTTPRoute clock obj) /\
  preserves (in_order named_bridge) (storeTLSRoute clock obj) /\
  preserves (in_order named_bridge) (MasterGateway.storeService clock obj).
Proof.
  intros Ho. unfold storeGateway, storeHTTPRoute, storeTLSRoute, MasterGateway.storeService.
  destruct obj as [ing|svc|o|meta|]; cbn [as_unstructured]; split_and!; try apply preserves_ret.
  - intros [b s] H. go_run. by apply update_bridge_in_order.
  - apply update_bridge_in_order. done.
  - apply update_bridge_in_order. intros b [H1 H2]. split; [|done]. by apply map_Forall_insert_2.
  - destruct (parseTLSRouteState o) as [state|] eqn:E; apply update_bridge_in_order; [|done].
    intros b [H1 H2]. split; [done|]. apply map_Forall_insert_2; [|done]. by eapply parseTLS_named.
Qed.

Lemma gateway_deletes_in_order obj :
  preserves (in_order named_bridge) (deleteGateway clock obj) /\
  preserves (in_order named_bridge) (deleteHTTPRoute clock obj) /\
  preserves (in_order named_bridge) (deleteTLSRoute clock obj) /\
  preserves (in_order named_bridge) (MasterGateway.deleteService clock obj).
Proof.
  split_and!.
  - by apply update_bridge_in_order.
  - intros [b s] [[H1 H2] Hs]. unfold deleteHTTPRoute. go_run.
    apply run_in_order; [apply preserves_ignore, gateway_sync_in_order| |done].
    split; [by apply drop_key_Forall|done].
  - intros [b s] [[H1 H2] Hs]. unfold deleteTLSRoute. go_run.
    apply run_in_order; [apply preserves_ignore, gateway_sync_in_order| |done].
    split; [done|by apply drop_key_Forall].
  - intros [b s] H. unfold MasterGateway.deleteService. go_run. by apply update_bridge_in_order.
Qed.

Lemma set_in_order {B} (ok : B -> Prop) (f : B -> B) :
  (forall b, ok b -> ok (f b)) -> preserves (in_order ok) (b ← get_bridge; set_bridge (f b)).
Proof. intros Hf [b s] [Hb Hs]. go_run. split; [by apply Hf|done]. Qed.

Lemma gateway_load_in_order l :
  listed_ok named_obj (hr_list l) -> listed_ok named_obj (tr_list l) ->
  preserves (in_order named_bridge) (gateway_LoadInitial clock l).
Proof.
  intros Hh Ht. unfold gateway_LoadInitial.
  apply preserves_bind; [|intros _; apply preserves_bind; [|intros _; apply preserves_bind;
    [|intros _; apply preserves_bind; [|intros _; apply preserves_bind; [|intros b; apply gateway_sync_in_order]]]]].
  - unfold loadGateways. destruct (gw_list l) as [items|e]; [|apply preserves_throw]. by apply set_in_order.
  - unfold loadHTTPRoutes. destruct (hr_list l) as [items|e]; [|apply preserves_throw]. cbn in Hh.
    rewrite Forall_forall in Hh. apply set_in_order. intros b [H1 H2]. split; [|done]. cbn.
    apply foldl_preserves; [apply map_Forall_empty|]. intros m o Ho Hm. apply map_Forall_insert_2; [by apply Hh|done].
  - unfold loadTLSRoutes. destruct (tr_list l) as [items|e]; [|apply preserves_ret]. cbn in Ht.
    rewrite Forall_forall in Ht. apply set_in_order. intros b [H1 H2]. split; [done|]. cbn.
    apply foldl_preserves; [apply map_Forall_empty|]. intros m o Ho Hm.
    destruct (parseTLSRouteState o) as [state|] eqn:E; [|done]. apply map_Forall_insert_2; [|done].
    eapply parseTLS_named; [by apply Ht|done].
  - unfold loadServices. destruct (sv_list l) as [items|e]; [|apply preserves_throw]. by apply set_in_order.
  - by intros [b s] H.
Qed.

(** ** All three bridges *)

Definition cluster_ok (st : Bridge * Master) : Prop :=
  bridge_ok (bg_Ingress st.1) /\ named_bridge (bg_Gateway st.1) /\ good (ms_tables st.2).

Lemma on_DNS_ok {A} (m : go (DNSBridge * Master) A) :
  preserves (in_order (fun _ => True)) m -> preserves cluster_ok (on_DNS m).
Proof.
  intros Hm [br s] (Hi & Hg & Hs). unfold on_DNS, zoom. cbn [fst snd].
  pose proof (run_in_order _ m (bg_DNS br) s Hm I Hs) as [_ Hs']. by destruct (m _) as [[b' s'] r].
Qed.

Lemma on_Ingress_ok {A} (m : go (IngressBridge * Master) A) :
  preserves (in_order bridge_ok) m -> preserves cluster_ok (on_Ingress m).
Proof.
  intros Hm [br s] (Hi & Hg & Hs). unfold on_Ingress, zoom. cbn [fst snd].
  pose proof (run_in_order _ m (bg_Ingress br) s Hm Hi Hs) as [Hb' Hs']. by destruct (m _) as [[b' s'] r].
Qed.

Lemma on_Gateway_ok {A} (m : go (GatewayBridge * Master) A) :
  preserves (in_order named_bridge) m -> preserves cluster_ok (on_Gateway m).
Proof.
  intros Hm [br s] (Hi & Hg & Hs). unfold on_Gateway, zoom. cbn [fst snd].
  pose proof (run_in_order _ m (bg_Gateway br) s Hm Hg Hs) as [Hb' Hs']. by destruct (m _) as [[b' s'] r].
Qed.

Lemma dns_events_in_order obj :
  preserves (in_order (fun _ => True)) (storeObject clock obj) /\
  preserves (in_order (fun _ => True)) (deleteObject clock obj).
Proof.
  split.
  - unfold storeObject. destruct (as_unstructured obj ≫= _) as [[key records]|]; [|apply preserves_ret].
    exact (preserves_ignore _ _ (resync_dns_in_order <[key := records]>)).
  - unfold deleteObject, deleteByNamespaceName. destruct (deleted_key obj) as [[namespace name]|]; [|apply preserves_ret].
    exact (preserves_ignore _ _ (resync_dns_in_order (delete (namespaced namespace name)))).
Qed.

Lemma handle_ok e : object_ok (event_object e) -> preserves cluster_ok (handle clock e).
Proof.
  intros He. destruct e as [obj|obj|obj|obj|obj|obj|obj|obj|obj|obj|obj|obj|obj|obj]; cbn in He; unfold handle.
  - exact (on_DNS_ok _ (proj1 (dns_events_in_order obj))).
  - exact (on_DNS_ok _ (proj2 (dns_events_in_order obj))).
  - exact (on_Ingress_ok _ (storeIngress_in_order obj He)).
  - exact (on_Ingress_ok _ (deleteIngress_in_order obj)).
  - exact (on_Ingress_ok _ (proj1 (ingress_services_in_order obj))).
  - exact (on_Ingress_ok _ (proj2 (ingress_services_in_order obj))).
  - exact (on_Gateway_ok _ (proj1 (gateway_stores_in_order obj He))).
  - exact (on_Gateway_ok _ (proj1 (gateway_deletes_in_order obj))).
  - exact (on_Gateway_ok _ (proj1 (proj2 (gateway_stores_in_order obj He)))).
  - exact (on_Gateway_ok _ (proj1 (proj2 (gateway_deletes_in_order obj)))).
  - exact (on_Gateway_ok _ (proj1 (proj2 (proj2 (gateway_stores_in_order obj He))))).
  - exact (on_Gateway_ok _ (proj1 (proj2 (proj2 (gateway_deletes_in_order obj))))).
  - exact (on_Gateway_ok _ (proj2 (proj2 (proj2 (gateway_stores_in_order obj He))))).
  - exact (on_Gateway_ok _ (proj2 (proj2 (proj2 (gateway_deletes_in_order obj))))).
Qed.

Lemma load_ok l : lists_ok l -> preserves cluster_ok (bridge_LoadInitial clock l).
Proof.
  intros (Hi & Hh & Ht). unfold bridge_LoadInitial.
  apply preserves_bind; [|intros _; apply preserves_bind; [|intros _]].
  - apply on_DNS_ok. unfold dns_LoadInitial. destruct (cl_records l); [apply resync_dns_in_order|apply preserves_throw].
  - by apply on_Ingress_ok, ingress_load_in_order.
  - by apply on_Gateway_ok, gateway_load_in_order.
Qed.

(** The bridges over their life: the initial load, which may fail, then the
    informers' events. *)
Definition run_events (es : list event) (st : Bridge * Master) : Bridge * Master :=
  foldl (fun st e => (handle clock e st).1) st es.


End invariant.
