(* ===== verification/MasterRun.v ===== *)
(** * The master's bridges on a small cluster

    Concrete runs: an Ingress loaded, synchronized and deleted, the records of
    the cluster, and the behaviours that surprise. *)

From Stdlib Require Import Ascii.
From S2P Require Import Prelude GoStrings GoTime Metadata DnsStore GoNet K8sObjects DnsEngine.
From S2P Require Import Gorm Repository RepositoryFacts.
From S2P Require Import Replication Hub MasterEngine MasterFacts MetadataJson Plan PlanFacts Acme ManageAPI ManageFacts PlanConverges.
From S2P Require Import Materialize MaterializeFacts MasterIngress MasterIngressFacts MasterGateway MasterGatewayFacts.
From S2P Require Import MasterDns MasterK8sFacts MasterEvents.

Open Scope Z_scope.

(** ** Events the bridges do not carry out *)

Section silent.
Context {GM : GormModel} {GDB : Gorm Tables stmt stmt_effect} {BS : BundleStore} {MR : MapRange}.
Context {UN : Unstructured} (clock : Engine -> Time).

(** A host that is gone is not published: no record of the log tells a
    follower to drop it. *)
Lemma gone_not_published h s :
  tables_wf (ms_tables s) -> live_row (M:=DomainEndpoint) (ms_tables s) h = None ->
  ms_tables (onDomainChange clock h s).1 = ms_tables s.
Proof.
  intros Hwf Hn. unfold onDomainChange, broadcast, on_Engine, zoom.
  pose proof (boardcast_domain (clock (ms_Engine s)) h (ms_Engine s) Hwf) as H.
  destruct (BoardcastDomainEndpointProjection _ h (ms_Engine s)) as [e' [[]|e]]; cbn.
  - destruct H as [[_ [E _]]|(p & logid & Hp & _)]; [exact E|].
    destruct (projects_cases _ _ _ Hwf Hp) as (de & Hl & _). exfalso.
    assert (Some de = None) as E by exact (eq_trans (eq_sym Hl) Hn). discriminate E.
  - by destruct H as [E _].
Qed.

(** A deletion the informer missed carries no object, so the hosts of the
    deleted route are not known and their rows stay. *)
Lemma tombstone_ignored meta b s :
  (deleteHTTPRoute clock (ObjDeletedFinalStateUnknown meta) (b, s)).1.2 = s /\
  (deleteTLSRoute clock (ObjDeletedFinalStateUnknown meta) (b, s)).1.2 = s.
Proof. done. Qed.

(** Two rules for a host in one Ingress share their identifiers. *)
Lemma rules_share_ids b ing host rule1 rule2 path1 path2 service1 service2 :
  default [] (ir_HTTP rule1) !! 0%nat = Some path1 -> hip_Service path1 = Some service1 ->
  default [] (ir_HTTP rule2) !! 0%nat = Some path2 -> hip_Service path2 = Some service2 ->
  exists r1 r2, r1 ∈ rule_rows b ing host rule1 /\ r2 ∈ rule_rows b ing host rule2 /\ hr_ID r1.2 = hr_ID r2.2.
Proof.
  intros H1 S1 H2 S2. do 2 eexists. split_and!; [apply elem_of_rule_rows; eauto 10..|]. done.
Qed.

End silent.

(** Ownership, decided on the tables. *)
Lemma owned_tables t :
  map_Forall (fun _ r => sh_Deleted (hr_Shared r) = true \/ owned_route r) (tb_routes t) ->
  map_Forall (fun _ d => sh_Deleted (de_Shared d) = true \/ owned_domain d) (tb_domains t) -> owned t.
Proof.
  intros Hr Hd. split.
  - intros id r. unfold live_row. cbn. destruct (tb_routes t !! id) as [x|] eqn:E; [|done]. cbn.
    destruct (Hr _ _ E) as [->|?]; [done|]. destruct (sh_Deleted _); [done|]. by intros [= <-].
  - intros h d. unfold live_row. cbn. destruct (tb_domains t !! h) as [x|] eqn:E; [|done]. cbn.
    destruct (Hd _ _ E) as [->|?]; [done|]. destruct (sh_Deleted _); [done|]. by intros [= <-].
Qed.

Module ClusterRun.

#[local] Existing Instances plain_model memory_gorm PlanRun.no_bundles canonical_range tree_objects.

Definition clock (e : Engine) : Time := zero_time.
Definition sample_master : Master := mkMaster sample_engine None None None.

Definition path (p name : string) : HTTPIngressPath :=
  mkHTTPIngressPath p None (Some (mkIngressServiceBackend name "" 8080)) "{}".

Definition shop : Ingress :=
  mkIngress "prod" "shop" 1 None (Some "luna")
    [mkIngressRule "Shop.Example" (Some [path "/" "front"; path "/api" "api"])] [["shop.example"]].

(** Another Ingress that serves a path of the same host, without TLS. *)
Definition blog : Ingress :=
  mkIngress "prod" "blog" 1 None (Some "luna") [mkIngressRule "shop.example" (Some [path "/blog" "blog"])] [].

Definition bridge (ings : list Ingress) : IngressBridge :=
  mkIngressBridge "luna" (foldl (fun m ing => <[namespaced (ing_Namespace ing) (ing_Name ing) := ing]> m) ∅ ings) ∅.

Lemma logged_tables_owned : owned logged_tables.
Proof. apply owned_tables; apply (bool_decide_unpack _); vm_compute; exact I. Qed.

Lemma shop_bridge_ok : bridge_ok (bridge [shop]).
Proof. apply (bool_decide_unpack _). vm_compute. exact I. Qed.

Definition wanted : gmap string domainMaterialized := materializeByHost (bridge [shop]) ["shop.example"].



(** A record of the cluster that is gone, one that is new, and one that is
    not the cluster's. *)
Definition cluster_dns (id : string) : DNSRecord :=
  mkDNSRecord zero_Shared id "b.example" DNSTypeA RoutingClassFirst 60 "[5.6.7.8]" "" true.

Definition dns_tables : Tables :=
  mkTables ∅ ∅ ∅ {["k8s:prod:old:0" := cluster_dns "k8s:prod:old:0"; "d1" := sample_dns "d1"]} ∅ [].

Lemma dns_tables_wf : tables_wf dns_tables.
Proof. unfold tables_wf. split_and!; [apply (bool_decide_unpack _); vm_compute; exact I..|constructor]. Qed.

Lemma sync_dns_records_witness :
  exists d', syncDNSRecords [cluster_dns "k8s:prod:new:0"] (memory_db dns_tables) = (d', Ok tt) /\
    holds eq (rows d') (cluster_dns "k8s:prod:new:0") /\
    live_row (M:=DNSRecord) (rows d') "k8s:prod:old:0" = None /\
    live_row (rows d') "d1" = Some (sample_dns "d1").
Proof.
  pose proof (sync_dns_records [cluster_dns "k8s:prod:new:0"] (memory_db dns_tables)) as H.
  assert ((syncDNSRecords [cluster_dns "k8s:prod:new:0"] (memory_db dns_tables)).2 = Ok tt) as Hr
    by (vm_compute; reflexivity).
  destruct (syncDNSRecords _ (memory_db dns_tables)) as [d' r]. cbn [snd] in Hr. subst r.
  exists d'. split; [reflexivity|].
  destruct (H d' dns_tables_wf ltac:(repeat constructor) eq_refl) as [Hrows _].
  split; [exact (Hrows "k8s:prod:new:0")|]. split; [exact (Hrows "k8s:prod:old:0")|exact (Hrows "d1")].
Defined.

Definition lists : cluster_lists :=
  mkClusterLists (Ok []) (Ok [shop; blog]) (Ok []) (mkGatewayLists (Ok []) (Ok []) (Err (errors_New "not found")) (Ok [])).


(** Deleting one of two Ingresses of a host deletes the host, though the other
    one still serves it. *)
Lemma deleting_one_removes_both :
  let st := (deleteIngress clock (ObjIngress blog)
               ((LoadInitial clock (Ok [shop; blog]) (Ok []) (bridge [], sample_master)).1)).1 in
  is_Some (ib_ingresses st.1 !! "prod/shop") /\
  live_row (M:=DomainEndpoint) (ms_tables st.2) "shop.example" = None.
Proof. split; [vm_compute; by eexists|by vm_compute]. Qed.

(** Whether a host of two Ingresses needs a certificate depends on the order
    in which the map of Ingresses is walked. *)
#[program] Definition reverse_range : MapRange := {| range := fun _ _ _ _ m => reverse (map_to_list m) |}.
Next Obligation. intros. cbn. by rewrite reverse_Permutation. Qed.

Lemma certificate_depends_on_order :
  (de_NeedCert ∘ dm_domain) <$> (@materializeByHost canonical_range (bridge [shop; blog]) ["shop.example"] !! "shop.example") <>
  (de_NeedCert ∘ dm_domain) <$> (@materializeByHost reverse_range (bridge [shop; blog]) ["shop.example"] !! "shop.example").
Proof. by vm_compute. Qed.

End ClusterRun.
