(* ===== verification/S3Bundles.v ===== *)
(** * The S3 bundle provider: engine/master/s3_bundle_provider.go

    Where the master keeps the certificate bundles: under the host's name for
    the newest one, and under the host's name and the revision for each of
    them.  The object store behind the MinIO client is an interface. *)

From Stdlib Require Import Ascii.
From S2P Require Import Prelude GoStrings GoPath GoNet GoURL Replication SlaveStore.

Open Scope Z_scope.

(** ** The configuration *)

Record S3Config := mkS3Config {
  s3_Endpoint : string;
  s3_Bucket : string;
  s3_AccessKeyID : string;
  s3_SecretAccessKey : string;
  s3_SessionToken : string;
  s3_InsecureSkipVerify : bool;
  s3_HTTPTimeout : Z;   (* nanoseconds *)
}.

Definition normalizeS3Config (cfg : S3Config) : S3Config :=
  mkS3Config (s3_Endpoint cfg) (TrimSpace (s3_Bucket cfg)) (s3_AccessKeyID cfg) (s3_SecretAccessKey cfg)
    (s3_SessionToken cfg) (s3_InsecureSkipVerify cfg)
    (if bool_decide (s3_HTTPTimeout cfg <= 0) then 10 * 1000000000 else s3_HTTPTimeout cfg).

(** [url_Parse]: what net/url makes of the endpoint. *)
Definition parseMinioEndpoint (url_Parse : string -> result URL) (raw : string) : result (string * bool) :=
  match url_Parse raw with
  | Err e => Err (Errorf "parse s3 endpoint: %w" (err_format e :: err_args e))
  | Ok u =>
      if bool_decide (u_Scheme u = "") || bool_decide (u_Host u = "")
      then Err (errors_New "s3 endpoint must be absolute")
      else if bool_decide (u_Path u <> "") && bool_decide (u_Path u <> "/")
      then Err (Errorf "s3 endpoint path is not supported: %q" [u_Path u])
      else if bool_decide (u_Scheme u = "http") then Ok (u_Host u, false)
      else if bool_decide (u_Scheme u = "https") then Ok (u_Host u, true)
      else Err (Errorf "unsupported s3 endpoint scheme %q" [u_Scheme u])
  end.

(** The host and the security the client is opened with, or why it is not. *)
Definition newMinioClient (url_Parse : string -> result URL) (cfg : S3Config) : result (string * bool) :=
  let cfg := normalizeS3Config cfg in
  if bool_decide (TrimSpace (s3_Endpoint cfg) = "") then Err (errors_New "s3 endpoint is required")
  else if bool_decide (TrimSpace (s3_Bucket cfg) = "") then Err (errors_New "s3 bucket is required")
  else if bool_decide (TrimSpace (s3_AccessKeyID cfg) = "") then Err (errors_New "s3 access key id is required")
  else if bool_decide (TrimSpace (s3_SecretAccessKey cfg) = "")
  then Err (errors_New "s3 secret access key is required")
  else parseMinioEndpoint url_Parse (s3_Endpoint cfg).

(** ** The object store *)

(** Objects by bucket and key.  A call can fail; a failed write may or may not
    have taken effect.  While [s3_up] holds the store answers. *)
Class ObjectStore := {
  s3 : Type;
  s3_objects : s3 -> gmap (string * string) string;
  s3_up : s3 -> bool;
  (** the open reader, by what reading it to the end gives *)
  GetObject : string -> string -> go s3 (result string);
  PutObject : string -> string -> string -> go s3 ();
  get_objects : forall bucket key s, s3_objects (GetObject bucket key s).1 = s3_objects s;
  get_ok : forall bucket key s body, (GetObject bucket key s).2 = Ok (Ok body) ->
    s3_objects s !! (bucket, key) = Some body;
  get_up : forall bucket key s, s3_up s = true ->
    s3_up (GetObject bucket key s).1 = true /\
    forall body, s3_objects s !! (bucket, key) = Some body -> (GetObject bucket key s).2 = Ok (Ok body);
  put_ok : forall bucket key body s, (PutObject bucket key body s).2 = Ok tt ->
    s3_objects (PutObject bucket key body s).1 = <[(bucket, key) := body]> (s3_objects s);
  put_err : forall bucket key body s e, (PutObject bucket key body s).2 = Err e ->
    s3_objects (PutObject bucket key body s).1 = s3_objects s \/
    s3_objects (PutObject bucket key body s).1 = <[(bucket, key) := body]> (s3_objects s);
  put_up : forall bucket key body s, s3_up s = true ->
    s3_up (PutObject bucket key body s).1 = true /\ (PutObject bucket key body s).2 = Ok tt;
}.

(** ** Locations *)

Record certificateLocation := mkLocation {
  lc_bucket : string;
  lc_latestPrefix : string;
  lc_revisionPrefix : string;
}.

(** The name a host's bundles are kept under. *)
Definition location_name (hostname : string) : string :=
  TrimSuffix (Trim (ToLower (TrimSpace hostname)) "/") ".".

Definition certificate_location (bucket hostname : string) (revision : Z) : result certificateLocation :=
  let normalized := location_name hostname in
  if bool_decide (normalized = "") then Err (errors_New "hostname is required")
  else Ok (mkLocation bucket normalized (path_Join [normalized; FormatUint revision])).

Definition objectKey (prefix name : string) : string :=
  if bool_decide (prefix = "") then name else path_Join [prefix; name].

Section provider.
Context {OS : ObjectStore} {MT : MetaText} (bucket : string).

(** ** Objects *)

Definition readObject (key : string) : go s3 string :=
  r ← attempt (GetObject bucket key);
  match r with
  | Ok (Ok body) => mret body
  | Ok (Err e) => throw (Errorf "read s3 object s3://%s/%s: %w" (bucket :: key :: err_format e :: err_args e))
  | Err e => throw (Errorf "get s3 object s3://%s/%s: %w" (bucket :: key :: err_format e :: err_args e))
  end.

Definition writeObject (body key : string) : go s3 () :=
  r ← attempt (PutObject bucket key body);
  match r with
  | Ok _ => mret tt
  | Err e => throw (Errorf "put s3 object s3://%s/%s: %w" (bucket :: key :: err_format e :: err_args e))
  end.

(** ** Bundles *)

(** The metadata of the revision, or else of the newest bundle. *)
Definition FetchCertificateBundle (hostname : string) (revision : Z) : go s3 CertificateBundle :=
  location ← lift (certificate_location bucket hostname revision);
  crt ← readObject (objectKey (lc_revisionPrefix location) "tls.crt");
  key ← readObject (objectKey (lc_revisionPrefix location) "tls.key");
  metadata ← attempt (readObject (objectKey (lc_revisionPrefix location) "metadata.json"));
  metadataJSON ← match metadata with
                 | Ok metadataJSON => mret metadataJSON
                 | Err _ => readObject (objectKey (lc_latestPrefix location) "metadata.json")
                 end;
  mret (mkCertificateBundle hostname revision crt key metadataJSON).

(** A body under the newest and under the revision's prefix. *)
Definition write_both (location : certificateLocation) (name body : string) : go s3 () :=
  for_each (writeObject body)
    [objectKey (lc_latestPrefix location) name; objectKey (lc_revisionPrefix location) name].

(** Storing a bundle; a nil provider or bundle is refused before. *)
Definition PutCertificateBundle (bundle : CertificateBundle) : go s3 () :=
  location ← lift (certificate_location bucket (cb_Hostname bundle) (cb_Revision bundle));
  write_both location "tls.crt" (cb_TLSCrt bundle) ≫= fun _ =>
  write_both location "tls.key" (cb_TLSKey bundle) ≫= fun _ =>
  let metadataJSON := if bool_decide (len (cb_MetadataJSON bundle) = 0%nat)
                      then meta_Marshal (cb_Hostname bundle) (cb_Revision bundle)
                      else cb_MetadataJSON bundle in
  write_both location "metadata.json" metadataJSON.

End provider.

(** [NewS3CertificateBundleProvider]: the bucket the provider works on. *)
Definition NewS3CertificateBundleProvider (url_Parse : string -> result URL) (cfg : S3Config) : result string :=
  _ ← newMinioClient url_Parse (normalizeS3Config cfg);
  mret (s3_Bucket (normalizeS3Config cfg)).
