(* ===== verification/S3BundleFacts.v ===== *)
(** * Certificate bundles in the object store

    The object store with its key layout is a map from hosts and revisions to
    bundles; a bundle stored by the master reaches a slave's files. *)

From Stdlib Require Import Ascii.
From S2P Require Import Prelude GoStrings GoTime Metadata GoPath GoFS Gorm Repository RepositoryFacts Replication Hub MasterEngine.
From S2P Require Import HostNames CertLRU CertResolver CertResolverFacts SlaveStore SlaveEngine SlaveEngineFacts Grpc S3Bundles.

Open Scope Z_scope.

(** ** Keys *)

Ltac plain_list := cbn [app]; repeat (apply Forall_cons_2; [done|]); apply Forall_nil_2.

Lemma FormatUint_plain n : 0 <= n -> plain (FormatUint n).
Proof.
  intros Hn. destruct (Itoa_digits n Hn) as (Hd & Hne & _).
  change (bytes (Itoa n)) with (bytes (FormatUint n)) in *.
  assert (forall c, is_digit c = false -> c ∉ bytes (FormatUint n)) as Hc.
  { intros c Hc Hin. rewrite Forall_forall in Hd. specialize (Hd _ Hin). congruence. }
  split_and!.
  - intros E. by rewrite E in Hne.
  - intros E. apply (Hc "."%char eq_refl). rewrite E. cbn. set_solver.
  - intros E. apply (Hc "."%char eq_refl). rewrite E. cbn. set_solver.
  - apply (Hc "/"%char eq_refl).
Qed.

(** The key of a file of a revision, and of the newest bundle. *)
Definition revision_key (name : string) (revision : Z) (file : string) : string :=
  objectKey (path_Join [name; FormatUint revision]) file.

Lemma latest_key_join name file : plain name -> plain file -> objectKey name file = Join [name; file] "/".
Proof.
  intros Hn Hf. unfold objectKey. rewrite bool_decide_false by apply Hn.
  pose proof (path_Join_plain [name] file ltac:(done)) as H. rewrite Join_single in H.
  apply H. plain_list.
Qed.

Lemma revision_key_join name revision file :
  plain name -> 0 <= revision -> plain file ->
  revision_key name revision file = Join [name; FormatUint revision; file] "/".
Proof.
  intros Hn Hr Hf. pose proof (FormatUint_plain revision Hr) as Hp. unfold revision_key, objectKey.
  assert (path_Join [name; FormatUint revision] = Join [name; FormatUint revision] "/") as ->.
  { pose proof (path_Join_plain [name] (FormatUint revision) ltac:(done)) as H. rewrite Join_single in H.
    apply H. plain_list. }
  rewrite bool_decide_false by (apply Join_plain; [done|plain_list]).
  by rewrite path_Join_plain by (first [done|plain_list]).
Qed.

Lemma revision_key_inj n r f n' r' f' :
  plain n -> 0 <= r -> plain f -> plain n' -> 0 <= r' -> plain f' ->
  revision_key n r f = revision_key n' r' f' -> n = n' /\ r = r' /\ f = f'.
Proof.
  intros. pose proof (FormatUint_plain r ltac:(done)). pose proof (FormatUint_plain r' ltac:(done)).
  rewrite !revision_key_join in H5 by done.
  apply Join_inj in H5; [|done..|plain_list|plain_list].
  injection H5 as -> Hr ->. apply Itoa_inj in Hr. done.
Qed.

Lemma latest_not_revision n f n' r f' :
  plain n -> plain f -> plain n' -> 0 <= r -> plain f' -> objectKey n f <> revision_key n' r f'.
Proof.
  intros ????? E. pose proof (FormatUint_plain r ltac:(done)).
  rewrite latest_key_join, revision_key_join in E by done.
  apply Join_inj in E; [done|done..|plain_list|plain_list].
Qed.

(** ** The store as a map *)

Section store.
Context {OS : ObjectStore} {MT : MetaText} (bucket : string).

(** The certificate, key and metadata kept for a revision, when all are there. *)
Definition kept (objects : gmap (string * string) string) (name : string) (revision : Z)
    : option (string * string * string) :=
  crt ← objects !! (bucket, revision_key name revision "tls.crt");
  key ← objects !! (bucket, revision_key name revision "tls.key");
  metadata ← objects !! (bucket, revision_key name revision "metadata.json");
  Some (crt, key, metadata).

(** What [PutCertificateBundle] writes as metadata. *)
Definition kept_metadata (b : CertificateBundle) : string :=
  if bool_decide (len (cb_MetadataJSON b) = 0%nat) then meta_Marshal (cb_Hostname b) (cb_Revision b)
  else cb_MetadataJSON b.

(** Only keys of [keys] differ. *)
Definition changes (keys : gset string) (o o' : gmap (string * string) string) : Prop :=
  forall k, k.2 ∉ keys -> o' !! k = o !! k.

Lemma write_object keys body key s :
  key ∈ keys -> let '(s', r) := writeObject bucket body key s in
  changes keys (s3_objects s) (s3_objects s') /\
  (r = Ok tt -> s3_objects s' = <[(bucket, key) := body]> (s3_objects s)) /\
  (s3_up s = true -> s3_up s' = true /\ r = Ok tt).
Proof.
  intros Hk. unfold writeObject, attempt. cbv beta iota delta [mbind go_bind].
  pose proof (put_ok bucket key body s) as Hok. pose proof (put_err bucket key body s) as Herr.
  pose proof (put_up bucket key body s) as Hup.
  destruct (PutObject bucket key body s) as [s' [[]|e]]; cbn in *.
  - split; [|by split; [|intros Hu; destruct (Hup Hu)]]. rewrite Hok by done.
    intros k Hk'. rewrite lookup_insert_ne; [done|]. intros <-. done.
  - split; [|split; [done|]].
    + intros k Hk'. destruct (Herr e eq_refl) as [-> | ->]; [done|].
      rewrite lookup_insert_ne; [done|]. intros <-. done.
    + intros Hu. destruct (Hup Hu) as [_ H]. discriminate H.
Qed.

Lemma write_both_spec keys location name body s :
  objectKey (lc_latestPrefix location) name ∈ keys -> objectKey (lc_revisionPrefix location) name ∈ keys ->
  let '(s', r) := write_both bucket location name body s in
  changes keys (s3_objects s) (s3_objects s') /\
  (r = Ok tt -> s3_objects s' = <[(bucket, objectKey (lc_revisionPrefix location) name) := body]>
     (<[(bucket, objectKey (lc_latestPrefix location) name) := body]> (s3_objects s))) /\
  (s3_up s = true -> s3_up s' = true /\ r = Ok tt).
Proof.
  intros H1 H2. unfold write_both. cbn [for_each]. cbv beta iota delta [mbind go_bind].
  pose proof (write_object keys body _ s H1) as W1.
  destruct (writeObject bucket body _ s) as [s1 [[]|e]]; destruct W1 as (C1 & E1 & U1).
  - pose proof (write_object keys body _ s1 H2) as W2.
    destruct (writeObject bucket body _ s1) as [s2 [[]|e]]; destruct W2 as (C2 & E2 & U2); cbn.
    + split_and!; [intros k Hk; by rewrite C2, C1| |naive_solver].
      intros _. rewrite E2, E1 by done. done.
    + split_and!; [intros k Hk; by rewrite C2, C1|done|naive_solver].
  - split_and!; [done..|naive_solver].
Qed.

(** ** Storing *)

Definition bundle_files : list string := ["tls.crt"; "tls.key"; "metadata.json"].

Definition bundle_keys (name : string) (revision : Z) : gset string :=
  list_to_set ((objectKey name <$> bundle_files) ++ (revision_key name revision <$> bundle_files)).

Lemma plain_bundle_files f : f ∈ bundle_files -> plain f.
Proof. destruct plain_files as (?&?&?). unfold bundle_files. set_solver. Qed.

Lemma bundle_keys_other n r n' r' f :
  plain n -> 0 <= r -> plain n' -> 0 <= r' -> (n', r') <> (n, r) -> f ∈ bundle_files ->
  revision_key n' r' f ∉ bundle_keys n r.
Proof.
  intros Hn Hr Hn' Hr' Hd Hf%plain_bundle_files. unfold bundle_keys.
  rewrite elem_of_list_to_set, elem_of_app, !list_elem_of_fmap.
  intros [(f' & E & Hf'%plain_bundle_files)|(f' & E & Hf'%plain_bundle_files)].
  - symmetry in E. by apply latest_not_revision in E.
  - apply revision_key_inj in E as (-> & -> & _); done.
Qed.

Lemma kept_changes keys o o' n r :
  changes keys o o' -> (forall f, f ∈ bundle_files -> revision_key n r f ∉ keys) -> kept o' n r = kept o n r.
Proof.
  intros Hc Hk. unfold kept.
  rewrite !(Hc (bucket, revision_key n r _)) by (apply Hk; unfold bundle_files; set_solver). done.
Qed.

(** The objects after all writes of a bundle. *)
Definition put_objects (name : string) (b : CertificateBundle) (o : gmap (string * string) string) :=
  foldl (fun o '(file, body) =>
           <[(bucket, revision_key name (cb_Revision b) file) := body]> (<[(bucket, objectKey name file) := body]> o))
    o [("tls.crt", cb_TLSCrt b); ("tls.key", cb_TLSKey b); ("metadata.json", kept_metadata b)].

Lemma kept_put_objects name b o :
  plain name -> 0 <= cb_Revision b ->
  kept (put_objects name b o) name (cb_Revision b) = Some (cb_TLSCrt b, cb_TLSKey b, kept_metadata b).
Proof.
  intros Hn Hr. destruct plain_files as (Pc & Pk & Pm).
  assert (forall f f', plain f -> plain f' -> f <> f' ->
    (bucket, revision_key name (cb_Revision b) f) <> (bucket, revision_key name (cb_Revision b) f')) as N1.
  { intros f f' Hf Hf' Hd [= E]. by apply revision_key_inj in E as (_ & _ & ?). }
  assert (forall f f', plain f -> plain f' ->
    (bucket, objectKey name f) <> (bucket, revision_key name (cb_Revision b) f')) as N2.
  { intros f f' Hf Hf' [= E]. by apply latest_not_revision in E. }
  unfold kept, put_objects. cbn [foldl].
  rewrite !lookup_insert_eq.
  do 2 rewrite (lookup_insert_ne _ (bucket, revision_key name (cb_Revision b) "metadata.json")) by (by apply N1).
  do 2 rewrite (lookup_insert_ne _ (bucket, objectKey name "metadata.json")) by (by apply N2).
  rewrite !lookup_insert_eq.
  rewrite (lookup_insert_ne _ (bucket, revision_key name (cb_Revision b) "tls.key")) by (by apply N1).
  rewrite (lookup_insert_ne _ (bucket, objectKey name "tls.key")) by (by apply N2).
  by rewrite lookup_insert_eq.
Qed.

Lemma put_writes b s :
  location_name (cb_Hostname b) <> "" ->
  let name := location_name (cb_Hostname b) in
  let '(s', r) := PutCertificateBundle bucket b s in
  changes (bundle_keys name (cb_Revision b)) (s3_objects s) (s3_objects s') /\
  (r = Ok tt -> s3_objects s' = put_objects name b (s3_objects s)) /\
  (s3_up s = true -> s3_up s' = true /\ r = Ok tt).
Proof.
  intros Hne name. unfold PutCertificateBundle, certificate_location. fold name.
  rewrite (bool_decide_false (name = "")) by done. cbv beta iota delta [lift mbind go_bind]. fold (kept_metadata b).
  set (loc := mkLocation bucket name (path_Join [name; FormatUint (cb_Revision b)])).
  assert (forall f, f ∈ bundle_files ->
    objectKey (lc_latestPrefix loc) f ∈ bundle_keys name (cb_Revision b) /\
    objectKey (lc_revisionPrefix loc) f ∈ bundle_keys name (cb_Revision b)) as Hk.
  { intros f Hf. unfold bundle_keys. rewrite !elem_of_list_to_set, !elem_of_app.
    split; [left|right]; by apply list_elem_of_fmap_2. }
  assert (forall f body s, f ∈ bundle_files -> let '(s', r) := write_both bucket loc f body s in
    changes (bundle_keys name (cb_Revision b)) (s3_objects s) (s3_objects s') /\
    (r = Ok tt -> s3_objects s' = <[(bucket, objectKey (lc_revisionPrefix loc) f) := body]>
       (<[(bucket, objectKey (lc_latestPrefix loc) f) := body]> (s3_objects s))) /\
    (s3_up s = true -> s3_up s' = true /\ r = Ok tt)) as W.
  { intros f body s0 Hf. destruct (Hk f Hf). by apply write_both_spec. }
  pose proof (W "tls.crt" (cb_TLSCrt b) s ltac:(unfold bundle_files; set_solver)) as W1.
  destruct (write_both bucket loc "tls.crt" _ s) as [s1 [[]|e]]; destruct W1 as (C1 & E1 & U1);
    [|split_and!; [done|done|naive_solver]].
  pose proof (W "tls.key" (cb_TLSKey b) s1 ltac:(unfold bundle_files; set_solver)) as W2.
  destruct (write_both bucket loc "tls.key" _ s1) as [s2 [[]|e]]; destruct W2 as (C2 & E2 & U2);
    [|by split_and!; [intros k Hin; rewrite C2, C1|done|naive_solver]].
  pose proof (W "metadata.json" (kept_metadata b) s2 ltac:(unfold bundle_files; set_solver)) as W3.
  destruct (write_both bucket loc "metadata.json" _ s2) as [s3 r]; destruct W3 as (C3 & E3 & U3).
  split_and!; [intros k Hin; by rewrite C3, C2, C1| |naive_solver].
  intros ->. rewrite E3, E2, E1 by done. done.
Qed.

(** ** Fetching *)

Lemma read_object key s :
  let '(s', r) := readObject bucket key s in
  s3_objects s' = s3_objects s /\
  (forall body, r = Ok body -> s3_objects s !! (bucket, key) = Some body) /\
  (s3_up s = true -> s3_up s' = true /\
     forall body, s3_objects s !! (bucket, key) = Some body -> r = Ok body).
Proof.
  unfold readObject, attempt. cbv beta iota delta [mbind go_bind].
  pose proof (get_objects bucket key s) as Ho. pose proof (get_ok bucket key s) as Hok.
  pose proof (get_up bucket key s) as Hup.
  destruct (GetObject bucket key s) as [s' [[body|e]|e]]; cbn in *; (split; [done|]);
    (split; [naive_solver|]); intros Hu; destruct (Hup Hu) as [? Hb]; (split; [done|]);
    intros body' Hb'; specialize (Hb _ Hb'); naive_solver.
Qed.

(** Fetching reads, answers with the certificate and the key of the revision,
    and with the revision's metadata or, when that could not be read, with the
    newest bundle's. *)
Lemma fetch_reads h revision s :
  location_name h <> "" ->
  let name := location_name h in
  let '(s', r) := FetchCertificateBundle bucket h revision s in
  let o := s3_objects s in
  s3_objects s' = o /\
  (forall b, r = Ok b -> cb_Hostname b = h /\ cb_Revision b = revision /\
     o !! (bucket, revision_key name revision "tls.crt") = Some (cb_TLSCrt b) /\
     o !! (bucket, revision_key name revision "tls.key") = Some (cb_TLSKey b) /\
     (o !! (bucket, revision_key name revision "metadata.json") = Some (cb_MetadataJSON b) \/
      o !! (bucket, objectKey name "metadata.json") = Some (cb_MetadataJSON b))) /\
  (s3_up s = true -> forall c k m, kept o name revision = Some (c, k, m) ->
     r = Ok (mkCertificateBundle h revision c k m)).
Proof.
  intros Hne name. unfold FetchCertificateBundle, certificate_location. fold name.
  rewrite (bool_decide_false (name = "")) by done. cbv beta iota delta [lift mbind go_bind attempt mret go_ret].
  cbn [lc_revisionPrefix lc_latestPrefix]. unfold kept.
  fold (revision_key name revision "tls.crt") (revision_key name revision "tls.key")
    (revision_key name revision "metadata.json").
  pose proof (read_object (revision_key name revision "tls.crt") s) as R1.
  destruct (readObject bucket _ s) as [s1 [crt|e]]; destruct R1 as (O1 & K1 & U1).
  2: { split_and!; [done..|]. intros Hu c k m (crt & Hc & _)%bind_Some. destruct (U1 Hu) as [_ H].
       by specialize (H _ Hc). }
  specialize (K1 _ eq_refl).
  pose proof (read_object (revision_key name revision "tls.key") s1) as R2.
  destruct (readObject bucket _ s1) as [s2 [key|e]]; destruct R2 as (O2 & K2 & U2); rewrite O1 in *.
  2: { split_and!; [congruence|done|]. intros Hu c k m (? & _ & (key & Hk & _)%bind_Some)%bind_Some.
       destruct (U1 Hu) as [Hu1 _]. destruct (U2 Hu1) as [_ H]. by specialize (H _ Hk). }
  specialize (K2 _ eq_refl).
  pose proof (read_object (revision_key name revision "metadata.json") s2) as R3.
  destruct (readObject bucket _ s2) as [s3 [meta|e]]; destruct R3 as (O3 & K3 & U3); rewrite O2 in *.
  - specialize (K3 _ eq_refl). split_and!; [congruence| |].
    + intros b [= <-]. cbn. eauto 10.
    + intros _ c k m. rewrite K1, K2, K3. by intros [= <- <- <-].
  - pose proof (read_object (objectKey name "metadata.json") s3) as R4.
    assert (s3_up s = true -> forall c k m, kept (s3_objects s) name revision = Some (c, k, m) -> False) as Hnone.
    { intros Hu c k m (? & _ & (? & _ & (meta & Hm & _)%bind_Some)%bind_Some)%bind_Some.
      destruct (U1 Hu) as [Hu1 _]. destruct (U2 Hu1) as [Hu2 _]. destruct (U3 Hu2) as [_ H]. by specialize (H _ Hm). }
    destruct (readObject bucket _ s3) as [s4 [meta|e']]; destruct R4 as (O4 & K4 & _); rewrite O3 in *;
      (split; [congruence|]); (split; [|intros Hu c k m Hk; by destruct (Hnone Hu c k m)]); [|done].
    specialize (K4 _ eq_refl). intros b [= <-]. cbn. eauto 10.
Qed.

Lemma bundle_put b s :
  plain (location_name (cb_Hostname b)) -> 0 <= cb_Revision b ->
  let name := location_name (cb_Hostname b) in
  let '(s', r) := PutCertificateBundle bucket b s in
  (r = Ok tt -> kept (s3_objects s') name (cb_Revision b) = Some (cb_TLSCrt b, cb_TLSKey b, kept_metadata b)) /\
  (forall name' revision', plain name' -> 0 <= revision' -> (name', revision') <> (name, cb_Revision b) ->
     kept (s3_objects s') name' revision' = kept (s3_objects s) name' revision') /\
  (s3_up s = true -> r = Ok tt /\ s3_up s' = true).
Proof.
  intros Hp Hr name. pose proof (put_writes b s (proj1 Hp)) as H. cbn zeta in H. fold name in H.
  destruct (PutCertificateBundle bucket b s) as [s' r]. destruct H as (Hc & Ho & Hu).
  split_and!; [|intros n r' Hn Hr' Hd|naive_solver].
  - intros ->. rewrite Ho by done. by apply kept_put_objects.
  - eapply kept_changes; [exact Hc|]. intros f. by apply bundle_keys_other.
Qed.

(** C34. the object store as a map from hosts and revisions to bundles.  A
    stored bundle is kept under its host and revision, whatever happens to
    later writes the bundles of other hosts and revisions stay, and while the
    store answers storing succeeds.  Fetching changes nothing; it answers with
    the certificate and the key of the revision asked for, and while the store
    answers with the whole bundle that is kept. *)
Theorem bundle_store :
  (forall b s, plain (location_name (cb_Hostname b)) -> 0 <= cb_Revision b ->
     let name := location_name (cb_Hostname b) in
     let '(s', r) := PutCertificateBundle bucket b s in
     (r = Ok tt ->
        kept (s3_objects s') name (cb_Revision b) = Some (cb_TLSCrt b, cb_TLSKey b, kept_metadata b)) /\
     (forall name' revision', plain name' -> 0 <= revision' -> (name', revision') <> (name, cb_Revision b) ->
        kept (s3_objects s') name' revision' = kept (s3_objects s) name' revision') /\
     (s3_up s = true -> r = Ok tt /\ s3_up s' = true)) /\
  (forall h revision s, location_name h <> "" ->
     let name := location_name h in
     let '(s', r) := FetchCertificateBundle bucket h revision s in
     let o := s3_objects s in
     s3_objects s' = o /\
     (forall b, r = Ok b -> cb_Hostname b = h /\ cb_Revision b = revision /\
        o !! (bucket, revision_key name revision "tls.crt") = Some (cb_TLSCrt b) /\
        o !! (bucket, revision_key name revision "tls.key") = Some (cb_TLSKey b) /\
        (o !! (bucket, revision_key name revision "metadata.json") = Some (cb_MetadataJSON b) \/
         o !! (bucket, objectKey name "metadata.json") = Some (cb_MetadataJSON b))) /\
     (s3_up s = true -> forall c k m, kept o name revision = Some (c, k, m) ->
        r = Ok (mkCertificateBundle h revision c k m))).
Proof. split; [exact bundle_put|exact fetch_reads]. Qed.

(** ** From the master to a slave *)

Lemma kept_metadata_not_empty b : kept_metadata b <> "".
Proof.
  unfold kept_metadata. case_bool_decide as E; [apply meta_not_empty|].
  intros H. rewrite H in E. by apply E.
Qed.

Context {SDB : Gorm SlaveTables slave_stmt slave_effect}.
Context {GM : GormModel} {GDB : Gorm Tables stmt stmt_effect}.

(** What a slave gets when it asks the master for a bundle over a gRPC call. *)
Definition fetched (c : result pb_CertificateBundleResponse -> result (option pb_CertificateBundleResponse))
    (now : nat -> Time) (e : Engine) (s : s3) (hostname : string) (revision : Z) : result (option CertificateBundle) :=
  (call_FetchCertificateBundle now (Some (fun h r => Some <$> (FetchCertificateBundle bucket h r s).2)) c
     hostname revision e).2.

(** C35. a bundle's way to a slave.  When the master has stored a bundle, and
    the store answers, a slave that fetches the host's revision over gRPC gets
    its certificate, key and metadata if the call gets through; and when the
    slave could write its files, the host's bundle is found there and reads back
    the same. *)
Theorem bundle_reaches_slave b s s' (slave : LocalStore) c now e :
  plain (location_name (cb_Hostname b)) -> 0 <= cb_Revision b ->
  PutCertificateBundle bucket b s = (s', Ok tt) -> s3_up s' = true ->
  GRPCUnary c -> is_ok (fetched c now e s' (cb_Hostname b) (cb_Revision b)) = true ->
  let sent := mkCertificateBundle (cb_Hostname b) (cb_Revision b) (cb_TLSCrt b) (cb_TLSKey b) (kept_metadata b) in
  fetched c now e s' (cb_Hostname b) (cb_Revision b) = Ok (Some sent) /\
  let '(slave', _) := run_fetch (fetched c now e s') (cb_Hostname b) (cb_Revision b) slave in
  forall w labels, is_canonical w labels (cb_Hostname b) -> TrimSpace (cb_Hostname b) <> "" ->
    ls_certRoot slave <> "" ->
    (SlaveStore.PutCertificateBundle (ls_certRoot slave) (Some sent) (ls_fs slave)).2 = Ok tt ->
    CheckCertificateBundle (ls_certRoot slave) (cb_Hostname b) (ls_fs slave') = Ok true /\
    exists b', GetCertificateBundle (ls_certRoot slave) (cb_Hostname b) (cb_Revision b) (ls_fs slave') = Ok b' /\
      cb_TLSCrt b' = cb_TLSCrt b /\ cb_TLSKey b' = cb_TLSKey b /\ cb_MetadataJSON b' = kept_metadata b.
Proof.
  intros Hp Hr Hput Hup Hc Hthrough sent.
  assert (fetched c now e s' (cb_Hostname b) (cb_Revision b) = Ok (Some sent)) as Hsent.
  { unfold fetched in *.
    pose proof (call_fetch now (Some (fun h r => Some <$> (FetchCertificateBundle bucket h r s').2)) c
      (cb_Hostname b) (cb_Revision b) e Hc) as Hcall.
    destruct (call_FetchCertificateBundle _ _ _ _ _ _) as [e' [o|err]]; [|done].
    destruct Hcall as (_ & b' & -> & Hcall). cbn [snd].
    assert (Ok b' = Ok sent) as [= ->]; [|done]. rewrite <- Hcall. clear Hcall.
    pose proof (bundle_put b s Hp Hr) as H. cbn zeta in H. rewrite Hput in H. destruct H as (Hk & _).
    pose proof (fetch_reads (cb_Hostname b) (cb_Revision b) s' (proj1 Hp)) as H. cbn zeta in H.
    unfold handleFetchCertificateBundle.
    destruct (FetchCertificateBundle bucket _ _ s') as [s1 r]. destruct H as (_ & _ & H).
    cbn [snd]. by rewrite (H Hup _ _ _ (Hk eq_refl)). }
  split; [done|]. unfold run_fetch. rewrite Hsent. cbn [fmap result_fmap].
  intros w labels Hcan Ht Hroot Hw. cbn [ls_fs].
  destruct (SlaveStore.PutCertificateBundle _ (Some sent) (ls_fs slave)) as [fs' r] eqn:E. cbn in Hw. subst r.
  destruct (certificate_bundles (ls_certRoot slave) sent (ls_fs slave) fs' w labels (cb_Revision b) Hroot Hcan Ht E)
    as (Hcheck & (b' & Hget & H1 & H2 & H3 & _) & _).
  split; [done|]. exists b'. split_and!; [done..|]. rewrite H3. unfold written_metadata. cbn [cb_MetadataJSON sent].
  by rewrite bool_decide_false by apply kept_metadata_not_empty.
Qed.

End store.

(** ** A reference store

    Objects in memory; [true] in the schedule makes a call fail before it has
    an effect, and past the end of the schedule every call succeeds. *)
Record MemS3 := mkMemS3 { ms3_objects : gmap (string * string) string; ms3_faults : list bool }.

Definition s3_call {A} (m : gmap (string * string) string -> gmap (string * string) string * result A) : go MemS3 A :=
  fun s => match ms3_faults s with
           | true :: faults => (mkMemS3 (ms3_objects s) faults, Err (errors_New "connection reset"))
           | _ => let '(o, r) := m (ms3_objects s) in (mkMemS3 o (tail (ms3_faults s)), r)
           end.

#[local] Obligation Tactic := idtac.
#[export, program] Instance memory_s3 : ObjectStore := {|
  s3 := MemS3;
  s3_objects := ms3_objects;
  s3_up := fun s => bool_decide (ms3_faults s = []);
  GetObject := fun bucket key => s3_call (fun o =>
    (o, Ok match o !! (bucket, key) with
           | Some body => Ok body
           | None => Err (errors_New "The specified key does not exist.")
           end));
  PutObject := fun bucket key body => s3_call (fun o => (<[(bucket, key) := body]> o, Ok tt));
|}.
Next Obligation. by intros ?? [o [|[] ?]]. Qed.
Next Obligation. intros ?? [o [|[] ?]] body; cbn; destruct (o !! _) eqn:E; try done; by intros [= <-]. Qed.
Next Obligation.
  intros ?? [o f] H%bool_decide_eq_true. cbn in H. subst f. cbn. split; [done|]. intros body ->. done.
Qed.
Next Obligation. by intros ??? [o [|[] ?]]. Qed.
Next Obligation. intros ??? [o [|[] ?]] e; try done; by left. Qed.
Next Obligation. intros ??? [o f] H%bool_decide_eq_true. cbn in H. by subst f. Qed.

Module BundleRun.

#[local] Existing Instances SlaveRun.sample_meta SlaveRun.slave_gorm.

Definition bundle : CertificateBundle := mkCertificateBundle "WWW.example.com." 3 "CRT3" "KEY3" "".
Definition host_bundle : CertificateBundle := mkCertificateBundle "www.example.com" 4 "CRT4" "KEY4" "META4".
Definition empty : MemS3 := mkMemS3 ∅ [].
Definition after (b : CertificateBundle) (s : MemS3) : MemS3 := (PutCertificateBundle "certs" b s).1.

Lemma bundle_plain : plain (location_name (cb_Hostname bundle)).
Proof. apply (bool_decide_unpack _). vm_compute. exact I. Qed.

(** Two revisions of a host are kept side by side. *)
Lemma bundle_store_witness :
  let s := after host_bundle (after bundle empty) in
  kept "certs" (s3_objects s) "www.example.com" 3 = Some ("CRT3", "KEY3", kept_metadata bundle) /\
  (FetchCertificateBundle "certs" "www.example.com" 4 s).2 = Ok host_bundle.
Proof.
  destruct (bundle_store "certs") as [Hput Hfetch].
  pose proof (Hput host_bundle (after bundle empty) ltac:(apply (bool_decide_unpack _); vm_compute; exact I)
    ltac:(cbn; lia)) as H2.
  pose proof (Hput bundle empty bundle_plain ltac:(cbn; lia)) as H1. cbn zeta in H1, H2 |- *.
  unfold after. unfold after in H2.
  destruct (PutCertificateBundle (OS:=memory_s3) "certs" bundle empty) as [s1 r1]. destruct H1 as (K1 & _ & U1).
  destruct (U1 eq_refl) as [-> Hu1]. specialize (K1 eq_refl). cbn [fst] in H2 |- *.
  destruct (PutCertificateBundle (OS:=memory_s3) "certs" host_bundle s1) as [s2 r2]. destruct H2 as (K2 & O2 & U2).
  destruct (U2 Hu1) as [-> Hu2]. specialize (K2 eq_refl). cbn [fst]. split.
  - rewrite (O2 "www.example.com" 3); [exact K1|exact bundle_plain|lia|by intros [=]].
  - pose proof (Hfetch "www.example.com" 4 s2 ltac:(by vm_compute)) as H. cbn zeta in H.
    destruct (FetchCertificateBundle (OS:=memory_s3) "certs" "www.example.com" 4 s2) as [s3 r]. destruct H as (_ & _ & H).
    exact (H Hu2 _ _ _ K2).
Defined.

Lemma bundle_reaches_slave_witness :
  let slave := (run_fetch (fetched "certs" (fun r => Some <$> r) (fun _ => zero_time)
                             (mkEngine "master" (memory_db empty_tables) NewHub) (after host_bundle empty))
                  "www.example.com" 4 SlaveRun.empty_store).1 in
  exists b', GetCertificateBundle "/certs" "www.example.com" 4 (ls_fs slave) = Ok b' /\
    cb_TLSCrt b' = "CRT4" /\ cb_TLSKey b' = "KEY4" /\ cb_MetadataJSON b' = "META4".
Proof.
  pose proof (bundle_reaches_slave "certs" host_bundle empty (after host_bundle empty) SlaveRun.empty_store
    (fun r => Some <$> r) (fun _ => zero_time) (mkEngine "master" (memory_db empty_tables) NewHub)
    ltac:(apply (bool_decide_unpack _); vm_compute; exact I) ltac:(cbn; lia) ltac:(vm_compute; reflexivity)
    ltac:(vm_compute; reflexivity) _ ltac:(vm_compute; reflexivity)) as [_ H].
  cbn zeta in H |- *. change (cb_Hostname host_bundle) with "www.example.com" in H.
  change (cb_Revision host_bundle) with 4 in H.
  destruct (run_fetch _ "www.example.com" 4 SlaveRun.empty_store) as [slave r]. cbn [fst].
  destruct (H false ["www"; "example"; "com"]) as [_ (b' & Hget & H1 & H2 & H3)].
  - split_and!; [done|by repeat constructor|by vm_compute].
  - by vm_compute.
  - done.
  - vm_compute. reflexivity.
  - exists b'. split_and!; [exact Hget|exact H1|exact H2|exact H3].
Defined.

(** A write that fails half way leaves the newest certificate beside the key
    of the one before it. *)
Lemma torn_newest :
  let s := mkMemS3 (ms3_objects (after bundle empty)) [false; false; true] in
  let o := s3_objects (after host_bundle s) in
  o !! ("certs", "www.example.com/tls.crt") = Some "CRT4" /\ o !! ("certs", "www.example.com/tls.key") = Some "KEY3".
Proof. by vm_compute. Qed.

(** A read of the revision's metadata that fails is answered with the newest
    bundle's metadata, which is another revision's. *)
Lemma stale_metadata :
  let s := mkMemS3 (ms3_objects (after bundle (after host_bundle empty))) [false; false; true] in
  cb_MetadataJSON <$> (FetchCertificateBundle "certs" "www.example.com" 4 s).2 = Ok (kept_metadata bundle).
Proof. by vm_compute. Qed.

End BundleRun.
