(* ===== verification/GoFlag.v ===== *)
(** * Go's flag package, and the values its flags read: strconv.ParseBool,
      strconv.ParseInt with base 0, time.ParseDuration *)

From Stdlib Require Import Ascii SpecFloat.
From S2P Require Import Prelude GoStrings GoURL.

Open Scope Z_scope.

(** [strconv.ParseBool] *)
Definition ParseBool (s : string) : option bool :=
  if bool_decide (s ∈ ["1"; "t"; "T"; "TRUE"; "true"; "True"]) then Some true
  else if bool_decide (s ∈ ["0"; "f"; "F"; "FALSE"; "false"; "False"]) then Some false
  else None.

(** ** [strconv.ParseInt(s, 0, 64)] *)

Definition digit_of (base : Z) (c : ascii) : option Z :=
  let d := if is_digit c then digit_val c
           else if is_lower (lower_char c) then Z.of_nat (nat_of_ascii (lower_char c)) - 97 + 10
           else 36 in
  if bool_decide (d < base) then Some d else None.

(** The digits in a base; an underscore is skipped. *)
Fixpoint based_value (base acc : Z) (l : list ascii) : option Z :=
  match l with
  | [] => Some acc
  | c :: l => if bool_decide (c = "_"%char) then based_value base acc l
              else d ← digit_of base c; based_value base (base * acc + d) l
  end.

(** The base prefix, lower cased, and what follows. *)
Definition base_prefix (l : list ascii) : option (Z * list ascii) :=
  match l with
  | "0"%char :: c :: l =>
      let c := lower_char c in
      if bool_decide (c = "b"%char) then Some (2, l)
      else if bool_decide (c = "o"%char) then Some (8, l)
      else if bool_decide (c = "x"%char) then Some (16, l)
      else None
  | _ => None
  end.

(** [underscoreOK]: an underscore stands between digits, or between the prefix
    and a digit.  [prev]: whether a digit or the prefix comes right before. *)
Fixpoint underscores_ok (prev : bool) (l : list ascii) : bool :=
  match l with
  | [] => true
  | c :: l' =>
      if bool_decide (c = "_"%char)
      then prev && match l' with [] => false | d :: _ => negb (bool_decide (d = "_"%char)) end && underscores_ok false l'
      else underscores_ok true l'
  end.

Definition ParseInt0_unsigned (l : list ascii) : option Z :=
  match l with
  | [] => None
  | _ =>
      let '(prefixed, base, ds) :=
        match base_prefix l with
        | Some (b, ds) => (true, b, ds)
        | None => match l with "0"%char :: ((_ :: _) as ds) => (true, 8, ds) | _ => (false, 10, l) end
        end in
      if bool_decide (ds = []) || negb (underscores_ok prefixed ds) then None else based_value base 0 ds
  end.

Definition ParseInt0 (s : string) : option Z :=
  let n := match bytes s with
           | "-"%char :: ds => Z.opp <$> ParseInt0_unsigned ds
           | "+"%char :: ds => ParseInt0_unsigned ds
           | ds => ParseInt0_unsigned ds
           end in
  n ≫= fun n => if bool_decide (-2 ^ 63 <= n < 2 ^ 63) then Some n else None.

(** ** [time.ParseDuration] *)

(** float64 *)
Definition float_of (z : Z) : spec_float := binary_normalize 53 1024 z 0 false.
Definition float_mul : spec_float -> spec_float -> spec_float := SFmul 53 1024.
Definition float_div : spec_float -> spec_float -> spec_float := SFdiv 53 1024.

(** [uint64(x)] for a float that is not negative and in range. *)
Definition float_trunc (x : spec_float) : Z :=
  match x with
  | S754_finite _ m e => Z.shiftl (Zpos m) e
  | _ => 0
  end.

(** [leadingInt] *)
Fixpoint leadingInt (x : Z) (l : list ascii) : option (Z * list ascii) :=
  match l with
  | c :: l' =>
      if is_digit c then
        if bool_decide (2 ^ 63 / 10 < x) then None
        else let x := x * 10 + digit_val c in
             if bool_decide (2 ^ 63 < x) then None else leadingInt x l'
      else Some (x, l)
  | [] => Some (x, [])
  end.

(** [leadingFraction] *)
Fixpoint leadingFraction (x : Z) (scale : spec_float) (overflow : bool) (l : list ascii)
    : Z * spec_float * list ascii :=
  match l with
  | c :: l' =>
      if is_digit c then
        if overflow then leadingFraction x scale true l'
        else if bool_decide ((2 ^ 63 - 1) / 10 < x) then leadingFraction x scale true l'
        else let y := x * 10 + digit_val c in
             if bool_decide (2 ^ 63 < y) then leadingFraction x scale true l'
             else leadingFraction y (float_mul scale (float_of 10)) false l'
      else (x, scale, l)
  | [] => (x, scale, [])
  end.

(** [unitMap]; the micro sign and the Greek letter are two bytes each. *)
Definition duration_unit (u : list ascii) : option Z :=
  let named s := bool_decide (u = s) in
  if named (bytes "ns") then Some 1
  else if named (bytes "us") || named ["194"%char; "181"%char; "s"%char] || named ["206"%char; "188"%char; "s"%char]
  then Some 1000
  else if named (bytes "ms") then Some 1000000
  else if named (bytes "s") then Some 1000000000
  else if named (bytes "m") then Some 60000000000
  else if named (bytes "h") then Some 3600000000000
  else None.

Definition number_char (c : ascii) : bool := is_digit c || bool_decide (c = "."%char).

(** The unit: up to the next number. *)
Fixpoint span_unit (l : list ascii) : list ascii * list ascii :=
  match l with
  | [] => ([], [])
  | c :: l' => if number_char c then ([], l) else let '(u, rest) := span_unit l' in (c :: u, rest)
  end.

(** A number with its fraction: the value, the fraction, its scale, and the
    rest. *)
Definition duration_number (l : list ascii) : option (Z * Z * spec_float * list ascii) :=
  '(v, l1) ← leadingInt 0 l;
  let pre := negb (bool_decide (length l1 = length l)) in
  match l1 with
  | "."%char :: l2 =>
      let '(f, scale, l3) := leadingFraction 0 (float_of 1) false l2 in
      if pre || negb (bool_decide (length l3 = length l2)) then Some (v, f, scale, l3) else None
  | _ => if pre then Some (v, 0, float_of 1, l1) else None
  end.

(** One element of the sum, in nanoseconds, and the rest. *)
Definition duration_element (l : list ascii) : option (Z * list ascii) :=
  '(v, f, scale, l) ← duration_number l;
  let '(u, rest) := span_unit l in
  unit ← duration_unit u;
  if bool_decide (2 ^ 63 / unit < v) then None
  else
    let v := v * unit in
    let v := if bool_decide (0 < f) then v + float_trunc (float_mul (float_of f) (float_div (float_of unit) scale)) else v in
    if bool_decide (2 ^ 63 < v) then None else Some (v, rest).

(** The loop; every element is at least one byte long. *)
Fixpoint duration_sum (fuel : nat) (d : Z) (l : list ascii) : option Z :=
  match fuel, l with
  | _, [] => Some d
  | O, _ => None
  | S fuel, _ =>
      '(v, rest) ← duration_element l;
      if bool_decide (2 ^ 63 < d + v) then None else duration_sum fuel (d + v) rest
  end.

Definition ParseDuration (s : string) : option Z :=
  let '(neg, l) := match bytes s with
                   | "-"%char :: l => (true, l)
                   | "+"%char :: l => (false, l)
                   | l => (false, l)
                   end in
  if bool_decide (l = ["0"%char]) then Some 0
  else if bool_decide (l = []) then None
  else
    d ← duration_sum (length l) 0 l;
    if (neg : bool) then Some (- d) else if bool_decide (2 ^ 63 - 1 < d) then None else Some d.

(** ** Flags *)

(** A boolean flag, or one that takes a value it can read. *)
Inductive flag_kind := FValue (ok : string -> bool) | FBool.

Definition FString : flag_kind := FValue (fun _ => true).

(** What an argument is: not a flag, the terminator, a flag's name with the
    value after its equals sign, or malformed. *)
Inductive flag_arg :=
  | NotFlag | Terminator | Malformed
  | Flag (name : string) (value : option string).

(** The name of a flag and the value after its first equals sign, which is not
    looked for at the first byte. *)
Definition flag_name (l : list ascii) : flag_arg :=
  match l with
  | [] => Malformed
  | c :: l' =>
      if bool_decide (c = "-"%char) || bool_decide (c = "="%char) then Malformed
      else if bool_decide ("="%char ∈ l') then
        let '(before, after) := cut_bytes "="%char l' in Flag (of_bytes (c :: before)) (Some (of_bytes after))
      else Flag (of_bytes l) None
  end.

Definition classify_arg (s : string) : flag_arg :=
  match bytes s with
  | "-"%char :: c :: l =>
      if bool_decide (c = "-"%char) then match l with [] => Terminator | _ => flag_name l end
      else flag_name (c :: l)
  | _ => NotFlag
  end.

(** [flag.ErrHelp] *)
Definition ErrHelp : error := errors_New "flag: help requested".

(** [FlagSet.Parse]: the assignments in order, and the arguments left. *)
Fixpoint flag_Parse (kind : string -> option flag_kind) (args : list string)
    : result (list (string * string) * list string) :=
  match args with
  | [] => Ok ([], [])
  | s :: rest =>
      match classify_arg s with
      | NotFlag => Ok ([], args)
      | Terminator => Ok ([], rest)
      | Malformed => Err (Errorf "bad flag syntax: %s" [s])
      | Flag name value =>
          match kind name, value with
          | None, _ =>
              if bool_decide (name = "help") || bool_decide (name = "h") then Err ErrHelp
              else Err (Errorf "flag provided but not defined: -%s" [name])
          | Some FBool, Some v =>
              match ParseBool v with
              | None => Err (Errorf "invalid boolean value %q for -%s" [v; name])
              | Some _ => '(set, remaining) ← flag_Parse kind rest; Ok ((name, v) :: set, remaining)
              end
          | Some FBool, None => '(set, remaining) ← flag_Parse kind rest; Ok ((name, "true") :: set, remaining)
          | Some (FValue ok), Some v =>
              if ok v then '(set, remaining) ← flag_Parse kind rest; Ok ((name, v) :: set, remaining)
              else Err (Errorf "invalid value %q for flag -%s" [v; name])
          | Some (FValue ok), None =>
              match rest with
              | [] => Err (Errorf "flag needs an argument: -%s" [name])
              | v :: rest =>
                  if ok v then '(set, remaining) ← flag_Parse kind rest; Ok ((name, v) :: set, remaining)
                  else Err (Errorf "invalid value %q for flag -%s" [v; name])
              end
          end
      end
  end.

(** The value of a variable some flags set: the last assignment. *)
Definition flag_value (names : list string) (default : string) (set : list (string * string)) : string :=
  foldl (fun value '(name, v) => if bool_decide (name ∈ names) then v else value) default set.

Definition strings_flags (names : list string) (name : string) : option flag_kind :=
  if bool_decide (name ∈ names) then Some FString else None.

(** ** Lemmas *)

(** Every element takes a part of the text, so the length is enough fuel. *)
Lemma leadingInt_shorter x l v rest : leadingInt x l = Some (v, rest) -> (length rest <= length l)%nat.
Proof.
  revert x. induction l as [|c l IH]; intros x; cbn [leadingInt]; [by intros [= <- <-]|].
  destruct (is_digit c); [|by intros [= <- <-]]. do 2 (case_bool_decide; [done|]). intros Hr%IH. cbn. lia.
Qed.

Lemma leadingFraction_shorter x scale o l : (length (leadingFraction x scale o l).2 <= length l)%nat.
Proof.
  revert x scale o. induction l as [|c l IH]; intros x scale o; cbn [leadingFraction]; [done|].
  destruct (is_digit c); [|done]. destruct o; [|case_bool_decide; [|case_bool_decide]]; cbn [length];
    etrans; try apply IH; lia.
Qed.

Lemma span_unit_length l : (length (span_unit l).1 + length (span_unit l).2 = length l)%nat.
Proof.
  induction l as [|c l IH]; [done|]. cbn [span_unit]. destruct (number_char c); [done|].
  destruct (span_unit l) as [u rest]. cbn in *. lia.
Qed.

Lemma duration_number_shorter l v f scale rest :
  duration_number l = Some (v, f, scale, rest) -> (length rest <= length l)%nat.
Proof.
  unfold duration_number. destruct (leadingInt 0 l) as [[w l1]|] eqn:E; [|done]. cbn [mbind option_bind].
  apply leadingInt_shorter in E. set (pre := negb _).
  assert (forall c (l2 : list ascii), l1 = c :: l2 ->
    (length (leadingFraction 0 (float_of 1) false l2).2 <= length l1)%nat) as Hf.
  { intros c l2 ->. cbn. etrans; [apply leadingFraction_shorter|lia]. }
  destruct l1 as [|[[] [] [] [] [] [] [] []] l2]; try (destruct pre; [|done]; intros [= <- <- <- <-]; exact E).
  specialize (Hf _ l2 eq_refl). destruct (leadingFraction _ _ _ l2) as [[f' s'] l3]. cbn [snd] in Hf.
  destruct (_ || _); [|done]. intros [= <- <- <- <-]. lia.
Qed.

Lemma duration_unit_nonempty u n : duration_unit u = Some n -> u <> [].
Proof. by intros H ->. Qed.

Lemma duration_element_shorter l v rest :
  duration_element l = Some (v, rest) -> (length rest < length l)%nat.
Proof.
  unfold duration_element. destruct (duration_number l) as [[[[w f] scale] l1]|] eqn:E; [|done]. cbn [mbind option_bind].
  apply duration_number_shorter in E. pose proof (span_unit_length l1) as Hs.
  destruct (span_unit l1) as [u r]. cbn in Hs. destruct (duration_unit u) as [n|] eqn:Hu; [|done].
  apply duration_unit_nonempty in Hu. cbn [mbind option_bind]. case_bool_decide; [done|]. cbn zeta.
  destruct (bool_decide (2 ^ 63 < _)); [done|]. intros [= <- <-]. destruct u; [done|]. cbn in Hs. lia.
Qed.

Lemma duration_sum_fuel fuel d l :
  (length l <= fuel)%nat -> duration_sum fuel d l = duration_sum (length l) d l.
Proof.
  revert d l. assert (forall n fuel d l, (length l <= n)%nat -> (n <= fuel)%nat ->
    duration_sum fuel d l = duration_sum n d l) as H.
  { induction n as [|n IH]; intros fuel' d l Hl Hf; [destruct l; [by destruct fuel'|cbn in Hl; lia]|].
    destruct fuel' as [|fuel']; [lia|]. cbn [duration_sum]. destruct l as [|c l]; [done|].
    destruct (duration_element (c :: l)) as [[v rest]|] eqn:E; [|done]. cbn [mbind option_bind].
    apply duration_element_shorter in E. case_bool_decide; [done|]. apply IH; cbn in *; lia. }
  intros d l Hl. by apply H.
Qed.

Example ParseDuration_mixed : ParseDuration "1h15m30.918s" = Some 4530918000000.
Proof. vm_compute. reflexivity. Qed.
Example ParseDuration_bad : ParseDuration "5" = None /\ ParseDuration "" = None /\ ParseDuration "-1.5us" = Some (-1500).
Proof. vm_compute. done. Qed.
Example ParseInt0_forms :
  ParseInt0 "4096" = Some 4096 /\ ParseInt0 "0x1_0" = Some 16 /\ ParseInt0 "010" = Some 8 /\ ParseInt0 "1__0" = None.
Proof. vm_compute. done. Qed.
