(* ===== verification/Lnctl.v ===== *)
(** * The command line client: lnctl/client.go, cmd/lnctl

    The client of the manage API, an interface with two implementations, and
    the commands that query the master, keep plans in a directory of files and
    have them applied. *)

From Stdlib Require Import Ascii.
From S2P Require Import Prelude GoStrings GoTime GoPath GoFS GoURL Metadata Gorm Repository Replication Hub MasterEngine.
From S2P Require Import MetadataJson Plan Acme ManageAPI GoFlag.

Open Scope Z_scope.

(** ** client.go: the interface *)

(** A client is used through its state, which stands for what is behind it. *)
Class ClientInterface := {
  client : Type;
  QueryDomainEntryProjection : string -> go client DomainEntryProjection;
  QueryDNSRecords : string -> string -> go client (list DNSRecord);
  ApplyPlan : option Plan -> go client Plan;
}.

Section remote.
Context {GM : GormModel} {GDB : Gorm Tables stmt stmt_effect} {BS : BundleStore} {MR : MapRange}.
Context (clock : Engine -> Time).

(** *** The way to the master *)

(** What the server of net/http makes of a request line: a target with a space
    is malformed, and every other one goes to the master's handler. *)
Definition serve (method target : string) (body : option json) (s : Master) : Master * Response :=
  let '(path, query) := split_target target in
  if ContainsAny (path +:+ query) " " then (s, mkResponse StatusBadRequest (Text "400 Bad Request"))
  else Handler clock true
         (mkRequest method path (query_Get (ParseQuery query))
            match body with Some j => Ok j | None => Err (errors_New "EOF") end) s.

(** A connection to a master at an address.  A call ends with the response,
    with the error of reading the response's body, or with an error before
    that; a call that ends with an error may have reached the master.  While
    the connection is up calls end with the response. *)
Class HTTPTransport := {
  conn : Type;
  conn_master : conn -> Master;
  conn_address : conn -> string;
  conn_up : conn -> bool;
  http_Do : string -> string -> option json -> go conn (result Response);
  http_address : forall method url body c, conn_address (http_Do method url body c).1 = conn_address c;
  http_ok : forall method target body c resp,
    HasPrefix target "/" = true -> url_target_ok target = true ->
    (http_Do method (conn_address c +:+ target) body c).2 = Ok (Ok resp) ->
    serve method target body (conn_master c) =
      (conn_master (http_Do method (conn_address c +:+ target) body c).1, resp);
  http_err : forall method target body c,
    HasPrefix target "/" = true -> url_target_ok target = true ->
    (forall resp, (http_Do method (conn_address c +:+ target) body c).2 <> Ok (Ok resp)) ->
    conn_master (http_Do method (conn_address c +:+ target) body c).1 = conn_master c \/
    conn_master (http_Do method (conn_address c +:+ target) body c).1 =
      (serve method target body (conn_master c)).1;
  http_up : forall method target body c,
    HasPrefix target "/" = true -> url_target_ok target = true -> conn_up c = true ->
    conn_up (http_Do method (conn_address c +:+ target) body c).1 = true /\
    exists resp, (http_Do method (conn_address c +:+ target) body c).2 = Ok (Ok resp);
}.

Context {HT : HTTPTransport} (baseURL : string).

(** *** The client *)

(** The text of a response, for a message. *)
Definition body_text (b : body) : list string :=
  match b with
  | NoBody | JSON _ => []
  | Text s => [TrimSpace s]
  | ErrorText e => err_format e :: err_args e
  end.

(** The JSON text of a response; a value that could not be encoded left none. *)
Definition body_json (b : body) : result json :=
  match b with
  | JSON (Ok j) => Ok j
  | JSON (Err _) | NoBody => Err (errors_New "unexpected end of JSON input")
  | Text _ | ErrorText _ => Err (errors_New "invalid character")
  end.

Definition wrap (message : string) (e : error) : error := Errorf message (err_format e :: err_args e).

Definition rawAbsoluteRequest (method path : string) (body : option json) : go conn ManageAPI.body :=
  if url_target_ok path then
    r ← attempt (http_Do method (baseURL +:+ path) body);
    match r with
    | Err e => throw (wrap "request failed: %w" e)
    | Ok (Err e) => throw (wrap "read response: %w" e)
    | Ok (Ok resp) =>
        if bool_decide (400 <= rp_Status resp)
        then throw (Errorf "master returned %s: %s" (Itoa (rp_Status resp) :: body_text (rp_Body resp)))
        else mret (rp_Body resp)
    end
  else throw (errors_New "build request: net/url: invalid URL").

Definition rawQuery (path : string) : go conn ManageAPI.body := rawAbsoluteRequest "GET" path None.

(** [json.Unmarshal(body, &out)] with its error. *)
Definition unmarshal {A} `{!Json A} (message : string) (b : ManageAPI.body) : go conn A :=
  match body_json b ≫= json_Unmarshal with
  | Ok out => mret out
  | Err e => throw (wrap message e)
  end.

Definition remote_QueryDomainEntryProjection (hostname : string) : go conn DomainEntryProjection :=
  let hostname := TrimSpace hostname in
  if bool_decide (hostname = "") then throw (errors_New "hostname is required")
  else
    body ← rawQuery ("/manage/query/domain-entry-projection?hostname=" +:+ hostname);
    unmarshal "decode domain entry projection response: %w" body.

Definition remote_QueryDNSRecords (fqdn recordType : string) : go conn (list DNSRecord) :=
  let fqdn := TrimSpace fqdn in
  let recordType := TrimSpace recordType in
  if bool_decide (fqdn = "") || bool_decide (recordType = "")
  then throw (errors_New "fqdn and recordType are required")
  else
    body ← rawQuery ("/manage/query/dns-records?fqdn=" +:+ fqdn +:+ "&record_type=" +:+ recordType);
    unmarshal "decode dns records response: %w" body.

Definition remote_ApplyPlan (plan : option Plan) : go conn Plan :=
  match plan with
  | None => throw (errors_New "plan is required")
  | Some plan =>
      match json_Marshal plan with
      | Err e => throw (wrap "marshal plan request: %w" e)
      | Ok body =>
          respBody ← rawAbsoluteRequest "POST" "/manage/plan" (Some body);
          unmarshal "decode plan response: %w" respBody
      end
  end.

Definition Client : ClientInterface := {|
  client := conn;
  QueryDomainEntryProjection := remote_QueryDomainEntryProjection;
  QueryDNSRecords := remote_QueryDNSRecords;
  ApplyPlan := remote_ApplyPlan;
|}.

End remote.

(** [NewClient] *)
Definition NewClient (baseURL : string) : string := TrimRight baseURL "/".

(** ** io.go: the plan store *)

(** [json.MarshalIndent] and [json.Unmarshal] on the text of a file. *)
Class JsonText := {
  json_print : json -> string;
  json_parse : string -> result json;
  json_print_parse : forall j, json_parse (json_print j +:+ newline) = Ok j;
}.

Definition plan_name_char (c : ascii) : bool :=
  is_lower c || is_upper c || is_digit c || in_cutset "._-" c.

(** [planNamePattern] *)
Definition plan_name_ok (name : string) : bool :=
  bool_decide (name <> "") && forallb plan_name_char (bytes name).

Definition newPlanStore (dir : string) : result string :=
  let dir := TrimSpace dir in
  if bool_decide (dir = "") then Err (errors_New "plan store dir is required") else Ok dir.

Definition store_path (dir name : string) : result string :=
  let name := TrimSpace name in
  if bool_decide (name = "") then Err (errors_New "plan name is required")
  else if plan_name_ok name then Ok (path_Join [dir; name +:+ ".json"])
  else Err (Errorf "invalid plan name %q" [name]).

Section store.
Context {JT : JsonText} (dir : string).

Definition wrapped {S A} (message : string) (m : go S A) : go S A :=
  r ← attempt m; match r with Ok a => mret a | Err e => throw (wrap message e) end.

Definition store_Save (name : string) (plan : option Plan) : go FS () :=
  match plan with
  | None => throw (errors_New "plan is required")
  | Some plan =>
      path ← lift (store_path dir name);
      wrapped "create store dir: %w" (os_MkdirAll dir) ≫= fun _ =>
      body ← wrapped "marshal plan: %w" (lift (json_Marshal plan));
      wrapped "write plan file: %w" (os_WriteFile path (json_print body +:+ newline))
  end.

Definition store_Load (name : string) : go FS Plan :=
  path ← lift (store_path dir name);
  body ← wrapped "read plan file: %w" (fun fs => (fs, os_ReadFile path fs));
  wrapped "decode plan file: %w" (lift (json_parse body ≫= json_Unmarshal)).

Definition store_Delete (name : string) : go FS () :=
  path ← lift (store_path dir name);
  wrapped "delete plan file: %w" (os_Remove path).

Definition store_Exists (name : string) (fs : FS) : bool :=
  match store_path dir name with
  | Err _ => false
  | Ok path => is_ok (os_Stat path fs)
  end.

End store.

(** ** app.go, commands.go *)

(** Standard input: whether it is a terminal, and its contents. *)
Record Stdin := mkStdin { si_charDevice : result bool; si_body : result string }.

Inductive output := OutJSON (j : json) | OutUsage | OutError (e : error).

(** What was written; writing to a closed stream fails. *)
Record Stdout := mkStdout { so_written : list output; so_closed : bool }.

Section app.
Context {CI : ClientInterface} {JT : JsonText}.

Record App := mkApp {
  app_client : client;
  app_store : string;
  app_fs : FS;
  app_stdin : option Stdin;
  app_stdout : Stdout;
}.

Definition on_client {A} (m : go client A) : go App A :=
  zoom app_client (fun c a => mkApp c (app_store a) (app_fs a) (app_stdin a) (app_stdout a)) m.
Definition on_fs {A} (m : go FS A) : go App A :=
  zoom app_fs (fun fs a => mkApp (app_client a) (app_store a) fs (app_stdin a) (app_stdout a)) m.

Definition write_out (o : output) : go App () := fun a =>
  if so_closed (app_stdout a) then (a, Err (errors_New "write /dev/stdout: file already closed"))
  else (mkApp (app_client a) (app_store a) (app_fs a) (app_stdin a)
          (mkStdout (so_written (app_stdout a) ++ [o]) false), Ok tt).

Definition printJSON {A} `{!Json A} (value : A) : go App () :=
  body ← lift (json_Marshal value); write_out (OutJSON body).

(** The error of the usage text is dropped. *)
Definition printUsage : go App () := ignore (write_out OutUsage).

Definition loadBody (inline filePath : string) : go App string :=
  let inline := TrimSpace inline in
  let filePath := TrimSpace filePath in
  a ← get_state;
  let read_stdin := match app_stdin a with
                    | None => Err (errors_New "invalid argument")
                    | Some si => si_body si
                    end in
  if bool_decide (inline <> "") && bool_decide (filePath <> "") then throw (errors_New "use only one of -d or -f")
  else if bool_decide (inline <> "") then mret inline
  else if bool_decide (filePath = "-") then lift read_stdin
  else if bool_decide (filePath <> "") then lift (os_ReadFile filePath (app_fs a))
  else match app_stdin a with
       | None => mret ""
       | Some si =>
           terminal ← lift (si_charDevice si);
           if (terminal : bool) then mret "" else lift read_stdin
       end.

Definition decodePlanInput (inline filePath : string) : go App (option Plan) :=
  body ← wrapped "load plan body: %w" (loadBody inline filePath);
  if bool_decide (len body = 0%nat) then mret None
  else plan ← wrapped "decode plan body: %w" (lift (json_parse body ≫= json_Unmarshal)); mret (Some plan).

Definition executeQueryDomain (args : list string) : go App () :=
  '(set, remaining) ← lift (flag_Parse (strings_flags ["hostname"]) args);
  if bool_decide (remaining = []) then
    value ← on_client (QueryDomainEntryProjection (flag_value ["hostname"] "" set));
    printJSON value
  else throw (errors_New "usage: lnctl query domain --hostname HOSTNAME").

Definition executeQueryDNS (args : list string) : go App () :=
  '(set, remaining) ← lift (flag_Parse (strings_flags ["fqdn"; "record-type"]) args);
  if bool_decide (remaining = []) then
    value ← on_client (QueryDNSRecords (flag_value ["fqdn"] "" set) (flag_value ["record-type"] "" set));
    printJSON value
  else throw (errors_New "usage: lnctl query dns --fqdn FQDN --record-type TYPE").

Definition executeQueryCommand (args : list string) : go App () :=
  match args with
  | [] => throw (errors_New "usage: lnctl query <domain|dns> [flags]")
  | target :: args =>
      if bool_decide (target = "domain") then executeQueryDomain args
      else if bool_decide (target = "dns") then executeQueryDNS args
      else throw (Errorf "unsupported query target %q" [target])
  end.

Definition executeApplyCommand (args : list string) : go App () :=
  match args with
  | [name] =>
      a ← get_state;
      plan ← on_fs (store_Load (app_store a) name);
      applied ← on_client (ApplyPlan (Some plan));
      printJSON applied
  | _ => throw (errors_New "usage: lnctl apply <plan-name>")
  end.

Definition executeBuildCreate (name : string) (args : list string) : go App () :=
  '(set, remaining) ← lift (flag_Parse (strings_flags ["d"; "f"]) args);
  if bool_decide (remaining = []) then
    a ← get_state;
    if store_Exists (app_store a) name (app_fs a) then throw (Errorf "plan %q already exists" [name])
    else
      plan ← decodePlanInput (flag_value ["d"] "" set) (flag_value ["f"] "" set);
      let plan := default (mkPlan "" [] [] [] []) plan in
      on_fs (store_Save (app_store a) name (Some plan)) ≫= fun _ =>
      printJSON plan
  else throw (errors_New "usage: lnctl build create <plan-name> [-f FILE|-d JSON]").

Definition executeBuildShow (name : string) (args : list string) : go App () :=
  match args with
  | [] =>
      a ← get_state;
      plan ← on_fs (store_Load (app_store a) name);
      printJSON plan
  | _ => throw (errors_New "usage: lnctl build show <plan-name>")
  end.

Definition executeBuildEdit (name : string) (args : list string) : go App () :=
  '(set, remaining) ← lift (flag_Parse (strings_flags ["d"; "f"]) args);
  if bool_decide (remaining = []) then
    plan ← decodePlanInput (flag_value ["d"] "" set) (flag_value ["f"] "" set);
    match plan with
    | None => throw (errors_New "edited plan body is required, use -d, -f, or stdin")
    | Some plan =>
        a ← get_state;
        if store_Exists (app_store a) name (app_fs a) then
          on_fs (store_Save (app_store a) name (Some plan)) ≫= fun _ =>
          printJSON plan
        else throw (Errorf "plan %q does not exist" [name])
    end
  else throw (errors_New "usage: lnctl build edit <plan-name> [-f FILE|-d JSON]").

Definition executeBuildDelete (name : string) (args : list string) : go App () :=
  match args with
  | [] => a ← get_state; on_fs (store_Delete (app_store a) name)
  | _ => throw (errors_New "usage: lnctl build delete <plan-name>")
  end.

Definition executeBuildCommand (args : list string) : go App () :=
  match args with
  | action :: name :: args =>
      if bool_decide (action = "create") then executeBuildCreate name args
      else if bool_decide (action = "show") then executeBuildShow name args
      else if bool_decide (action = "edit") then executeBuildEdit name args
      else if bool_decide (action = "delete") then executeBuildDelete name args
      else throw (Errorf "unsupported build action %q" [action])
  | _ => throw (errors_New "usage: lnctl build <create|show|edit|delete> <plan-name> [flags]")
  end.

Definition executeCommand (command : string) (args : list string) : go App () :=
  if bool_decide (command = "query") then executeQueryCommand args
  else if bool_decide (command = "apply") then executeApplyCommand args
  else if bool_decide (command = "build") then executeBuildCommand args
  else if bool_decide (command = "help") then printUsage
  else throw (Errorf "unsupported command %q" [command]).

(** *** The command line *)

Record globalConfig := mkGlobalConfig {
  gc_baseURL : string;
  gc_storeDir : string;
  gc_command : string;
  gc_commandArgs : list string;
  gc_help : bool;
}.

Definition envOr (value fallback : string) : string :=
  let v := TrimSpace value in if bool_decide (v <> "") then v else fallback.

(** [manageURL]: the value of the environment variable; [home]: the home
    directory. *)
Definition parseGlobalConfig (manageURL home : string) (args : list string) : result globalConfig :=
  let kind name := if bool_decide (name ∈ ["h"; "help"]) then Some FBool else strings_flags ["master"; "store"] name in
  '(set, rest) ← flag_Parse kind args;
  let help := default false (ParseBool (flag_value ["h"; "help"] "false" set)) in
  Ok (mkGlobalConfig
        (flag_value ["master"] (envOr manageURL "http://luna-master.luna-edge.svc.cluster.local:8080") set)
        (flag_value ["store"] (path_Join [home; ".lnctl"]) set)
        (default "" (head rest)) (tail rest) help).

(** [Main]: the process ends with the exit code; [connect] opens the client
    for a base URL, and is left with what is behind it.  Errors are written to
    the standard error, which is kept with the output here. *)
Definition Main (manageURL home : string) (connect : string -> client) (fs : FS) (stdin : Stdin) (args : list string)
    : list output * option client * FS * Z :=
  match parseGlobalConfig manageURL home args with
  | Err e => ([OutError e], None, fs, 1)
  | Ok cfg =>
      if gc_help cfg || bool_decide (gc_command cfg = "") then ([OutUsage], None, fs, 0)
      else match newPlanStore (gc_storeDir cfg) with
           | Err e => ([OutError e], None, fs, 1)
           | Ok store =>
               let '(a, r) := executeCommand (gc_command cfg) (gc_commandArgs cfg)
                 (mkApp (connect (NewClient (gc_baseURL cfg))) store fs (Some stdin) (mkStdout [] false)) in
               let written := so_written (app_stdout a) in
               match r with
               | Ok _ => (written, Some (app_client a), app_fs a, 0)
               | Err e => (written ++ [OutError e], Some (app_client a), app_fs a, 1)
               end
           end
  end.

End app.
