(* ===== verification/LnctlFacts.v ===== *)
(** * The command line client

    The plan store is a map from names to plans, the client's calls are the
    master's operations, and a plan that was built and applied is the one the
    master carried out. *)

From Stdlib Require Import Ascii.
From S2P Require Import Prelude GoStrings GoTime GoPath GoFS GoURL Metadata Gorm Repository RepositoryFacts.
From S2P Require Import Replication Hub MasterEngine MasterFacts MetadataJson Plan Acme ManageAPI ManageFacts PlanConverges GoFlag Lnctl.

Open Scope Z_scope.

(** ** The plan store *)

Lemma wrapped_ok {S A} message (m : go S A) s s' a :
  wrapped message m s = (s', Ok a) <-> m s = (s', Ok a).
Proof. unfold wrapped, attempt, mbind, go_bind. destruct (m s) as [s1 [a1|e]]; cbn; naive_solver. Qed.

Lemma plan_name_plain name : plan_name_ok name = true -> plain (name +:+ ".json").
Proof.
  unfold plan_name_ok. rewrite andb_true_iff, forallb_Forall, Forall_forall. intros [_ H].
  assert (forall suffix, bytes (name +:+ ".json") <> suffix \/ (5 <= length suffix)%nat) as Hlen.
  { intros suffix. destruct (decide (bytes (name +:+ ".json") = suffix)) as [<-|]; [right|by left].
    rewrite bytes_app, length_app. cbn. lia. }
  assert (forall s, (len s < 5)%nat -> name +:+ ".json" <> s) as Hne.
  { intros s Hs E. destruct (Hlen (bytes s)) as [Hd|Hd]; [by rewrite E in Hd|]. unfold len in Hs. lia. }
  split_and!; [apply Hne; cbn; lia..|]. unfold no_slash. rewrite bytes_app, elem_of_app.
  intros [Hin|Hin]; [|cbn in Hin; set_solver]. specialize (H _ Hin). discriminate H.
Qed.

Lemma store_path_inv dir name path :
  store_path dir name = Ok path ->
  plan_name_ok (TrimSpace name) = true /\ path = path_Join [dir; TrimSpace name +:+ ".json"].
Proof.
  unfold store_path. case_bool_decide; [done|]. destruct (plan_name_ok _); [|done]. by intros [= <-].
Qed.

Section store.
Context {JT : JsonText} (dir : string) (Hdir : dir <> "").

Lemma store_path_components name path :
  store_path dir name = Ok path -> components path = components dir ++ [TrimSpace name +:+ ".json"].
Proof.
  intros [Hok ->]%store_path_inv. pose proof (plan_name_plain _ Hok) as Hp.
  destruct (path_Join_down dir [TrimSpace name +:+ ".json"] Hdir ltac:(done)) as [H _];
    [by apply Forall_singleton|]. by rewrite Join_single in H.
Qed.

Lemma store_path_inj name name' path :
  store_path dir name = Ok path -> store_path dir name' = Ok path -> TrimSpace name = TrimSpace name'.
Proof.
  intros H1%store_path_components H2%store_path_components. rewrite H1 in H2.
  apply app_inv_head in H2. injection H2 as H2. by apply app_string_inj_r in H2.
Qed.

Lemma store_path_not_dir name : store_path dir name <> Ok dir.
Proof.
  intros H%store_path_components. apply (f_equal length) in H. rewrite length_app in H. cbn in H. lia.
Qed.

(** Loading reads one file. *)
Lemma store_Load_eq name fs :
  store_Load dir name fs =
  (fs, match store_path dir name with
       | Err e => Err e
       | Ok path =>
           match os_ReadFile path fs with
           | Err e => Err (wrap "read plan file: %w" e)
           | Ok body =>
               match json_parse body ≫= json_Unmarshal with
               | Err e => Err (wrap "decode plan file: %w" e)
               | Ok plan => Ok plan
               end
           end
       end).
Proof.
  unfold store_Load, wrapped, attempt, lift. generalize (@json_Unmarshal Plan _). intros unm.
  cbv beta iota delta [mbind go_bind mret go_ret throw].
  destruct (store_path dir name) as [path|]; [|done]. destruct (os_ReadFile path fs) as [body|]; [|done].
  destruct (result_bind _ _ unm (json_parse body)); done.
Qed.

(** What the store holds under a name depends on the node at its path. *)
Definition same_plan (name : string) (fs fs' : FS) : Prop :=
  (store_Load dir name fs').2 = (store_Load dir name fs).2 /\
  store_Exists dir name fs' = store_Exists dir name fs.

Lemma same_plan_nodes name fs fs' :
  fs_denied fs' = fs_denied fs ->
  (forall path, store_path dir name = Ok path -> fs_nodes fs' !! path = fs_nodes fs !! path) ->
  same_plan name fs fs'.
Proof.
  intros Hd Hn. unfold same_plan, store_Exists. rewrite !store_Load_eq. cbn [snd].
  destruct (store_path dir name) as [path|]; [|done]. specialize (Hn path eq_refl).
  assert (os_Stat path fs' = os_Stat path fs) as E by (unfold os_Stat; by rewrite Hd, Hn).
  assert (os_ReadFile path fs' = os_ReadFile path fs) as Er by (unfold os_ReadFile; by rewrite E).
  by rewrite E, Er.
Qed.

(** A failed or successful save touches the directory and the plan's own file. *)
Lemma save_nodes name plan fs :
  let '(fs', r) := store_Save dir name plan fs in
  fs_denied fs' = fs_denied fs /\
  (forall name' path, store_path dir name' = Ok path -> TrimSpace name' <> TrimSpace name ->
     fs_nodes fs' !! path = fs_nodes fs !! path) /\
  (r = Ok tt -> exists p path j, plan = Some p /\ store_path dir name = Ok path /\ json_Marshal p = Ok j /\
     fs_nodes fs' !! path = Some (FFile (json_print j +:+ newline)) /\ path ∉ fs_denied fs').
Proof.
  unfold store_Save. destruct plan as [p|]; [|done]. unfold lift at 1. cbv beta iota delta [mbind go_bind].
  destruct (store_path dir name) as [path|] eqn:Hp; [|done].
  unfold wrapped, attempt. cbv beta iota delta [mbind go_bind mret go_ret throw lift].
  unfold os_MkdirAll. case_bool_decide as D1; [done|].
  assert (forall name' q, store_path dir name' = Ok q -> q <> dir) as Hnd.
  { intros name' q Hq ->. by apply store_path_not_dir in Hq. }
  assert (forall name' q, store_path dir name' = Ok q -> TrimSpace name' <> TrimSpace name -> q <> path) as Hnp.
  { intros name' q Hq Hd ->. apply Hd. by eapply store_path_inj. }
  destruct (fs_nodes fs !! dir) as [[]|] eqn:Edir; [done|..].
  all: destruct (json_Marshal p) as [j|] eqn:Ej;
    [|cbn; split_and!; [done|intros n q Hq _; by rewrite lookup_insert_ne by (symmetry; by eapply Hnd)|done]].
  all: unfold os_WriteFile; cbn [fs_denied fs_nodes]; case_bool_decide as D2; cbn;
    [split_and!; [done|intros n q Hq _; by rewrite lookup_insert_ne by (symmetry; by eapply Hnd)|done]|].
  all: rewrite (lookup_insert_ne _ dir path) by (symmetry; by eapply Hnd).
  all: destruct (fs_nodes fs !! path) as [[]|] eqn:Epath; cbn.
  all: (split; [done|]); (split; [intros n q Hq Hd; rewrite ?(lookup_insert_ne _ path q) by (symmetry; by eapply Hnp);
    by rewrite lookup_insert_ne by (symmetry; by eapply Hnd)|]); try done.
  all: intros _; exists p, path, j; split_and!; [done..| |done]; by rewrite lookup_insert_eq.
Qed.

Lemma load_saved name path j p fs :
  store_path dir name = Ok path -> json_Marshal p = Ok j ->
  fs_nodes fs !! path = Some (FFile (json_print j +:+ newline)) -> path ∉ fs_denied fs ->
  store_Load dir name fs = (fs, Ok p) /\ store_Exists dir name fs = true.
Proof.
  intros Hp Hj Hn Hd. rewrite store_Load_eq. unfold store_Exists. rewrite Hp, (os_ReadFile_ok _ _ _ Hn Hd).
  rewrite json_print_parse. change (Ok j ≫= json_Unmarshal) with (@json_Unmarshal Plan _ j).
  rewrite (json_roundtrip _ _ Hj). split; [done|].
  unfold os_Stat. by rewrite bool_decide_false, Hn by done.
Qed.

(** The plan store.  A saved plan is found and loaded back as it was saved,
    until it is deleted; saving and deleting, successful or not, leave the
    plans of every other name alone. *)
Theorem plan_store name plan fs :
  let '(fs', r) := store_Save dir name plan fs in
  (forall name', TrimSpace name' <> TrimSpace name -> same_plan name' fs fs') /\
  (r = Ok tt -> exists p, plan = Some p /\ store_Load dir name fs' = (fs', Ok p) /\
     store_Exists dir name fs' = true /\
     let '(fs'', r') := store_Delete dir name fs' in
     r' = Ok tt /\ store_Exists dir name fs'' = false /\
     forall name', TrimSpace name' <> TrimSpace name -> same_plan name' fs' fs'').
Proof.
  pose proof (save_nodes name plan fs) as H. destruct (store_Save dir name plan fs) as [fs' r].
  destruct H as (Hd & Ho & Hok). split.
  - intros name' Hne. apply same_plan_nodes; [done|]. intros path Hp. by eapply Ho.
  - intros ->. destruct (Hok eq_refl) as (p & path & j & -> & Hp & Hj & Hn & Hden). exists p.
    destruct (load_saved name path j p fs' Hp Hj Hn Hden) as [Hl He]. split_and!; [done..|].
    assert (os_Stat path fs' = Ok (FFile (json_print j +:+ newline))) as Hs
      by (unfold os_Stat; by rewrite bool_decide_false, Hn by done).
    unfold store_Delete, lift, wrapped, attempt, os_Remove. cbv beta iota delta [mbind go_bind mret go_ret].
    rewrite Hp, Hs. cbn. split_and!; [done|..].
    + unfold store_Exists. rewrite Hp. unfold os_Stat. cbn.
      rewrite bool_decide_false by done. by rewrite lookup_delete_eq.
    + intros name' Hne. apply same_plan_nodes; [done|]. intros q Hq. cbn.
      rewrite lookup_delete_ne; [done|]. intros <-. apply Hne. by eapply store_path_inj.
Qed.

End store.

(** ** The client and the master *)

Lemma split_target_query path query :
  "#"%char ∉ bytes path -> "#"%char ∉ bytes query -> "?"%char ∉ bytes path ->
  split_target (path +:+ String "?"%char query) = (path, query).
Proof.
  intros H1 H2 H3. unfold split_target. rewrite Cut_none; [by rewrite Cut_app|].
  rewrite bytes_app, elem_of_app. cbn. set_solver.
Qed.

Lemma target_ok s : "#"%char ∉ bytes s -> Forall (fun c => is_control c = false) (bytes s) -> url_target_ok s = true.
Proof.
  intros Hf Hc. unfold url_target_ok. rewrite cut_bytes_none by done. cbn. rewrite andb_true_r.
  apply negb_true_iff, not_true_iff_false. rewrite existsb_exists. intros (c & Hin & E).
  apply list_elem_of_In in Hin. rewrite Forall_forall in Hc. rewrite Hc in E by done. done.
Qed.

Lemma target_ok_query path query :
  Forall (fun c => c ∉ bytes "# " /\ is_control c = false) (bytes path) ->
  Forall (fun c => c ∉ bytes "# ") (bytes query) -> Forall (fun c => is_control c = false) (bytes query) ->
  url_target_ok (path +:+ query) = true.
Proof.
  rewrite !Forall_forall. intros Hp Hq Hc. apply target_ok; rewrite bytes_app.
  - rewrite elem_of_app. intros [H|H]; [destruct (Hp _ H) as [Hn _]; apply Hn|apply (Hq _ H)]; cbn; set_solver.
  - apply Forall_app. rewrite !Forall_forall. split; [intros c H; apply (Hp _ H)|done].
Qed.

Section remote.
Context {GM : GormModel} {GDB : Gorm Tables stmt stmt_effect} {BS : BundleStore} {MR : MapRange}.
Context (clock : Engine -> Time) {HT : HTTPTransport clock}.

(** A request to the master's address. *)
Lemma raw_request method path body c :
  HasPrefix path "/" = true -> url_target_ok path = true ->
  let served := serve clock method path body (conn_master clock c) in
  let '(c', r) := rawAbsoluteRequest clock (conn_address clock c) method path body c in
  conn_address clock c' = conn_address clock c /\
  match r with
  | Ok b => conn_master clock c' = served.1 /\ rp_Body served.2 = b /\ rp_Status served.2 < 400
  | Err _ => conn_master clock c' = conn_master clock c \/ conn_master clock c' = served.1
  end /\
  (conn_up clock c = true -> conn_up clock c' = true /\ conn_master clock c' = served.1 /\
     (rp_Status served.2 < 400 -> r = Ok (rp_Body served.2))).
Proof.
  intros Hp Hu. cbn zeta. unfold rawAbsoluteRequest. rewrite Hu.
  unfold attempt. cbv beta iota delta [mbind go_bind].
  pose proof (http_address clock method (conn_address clock c +:+ path) body c) as Ha.
  pose proof (http_ok clock method path body c) as Hok. pose proof (http_err clock method path body c Hp Hu) as Herr.
  pose proof (http_up clock method path body c Hp Hu) as Hup.
  destruct (http_Do clock method _ body c) as [c' [[resp|e]|e]]; cbn [fst snd] in *.
  - specialize (Hok resp Hp Hu eq_refl). rewrite Hok. cbn [fst snd].
    case_bool_decide as Hs; cbn; (split; [done|]).
    + split; [by right|]. intros Hcu. destruct (Hup Hcu) as [? _]. split_and!; [done..|lia].
    + split; [split_and!; [done..|lia]|]. intros Hcu. by destruct (Hup Hcu) as [? _].
  - split; [done|]. split; [by apply Herr|]. intros Hcu. by destruct (Hup Hcu) as [_ [? ?]].
  - split; [done|]. split; [by apply Herr|]. intros Hcu. by destruct (Hup Hcu) as [_ [? ?]].
Qed.

(** *** Plans *)

Lemma serve_plan j s :
  serve clock "POST" "/manage/plan" (Some j) s =
  match json_Unmarshal (A:=Plan) j with
  | Err e => (s, http_Error e StatusBadRequest)
  | Ok plan => respond (applyPlan clock plan) (fun _ => writeJSON StatusOK plan) server_error s
  end.
Proof. reflexivity. Qed.

(** A call of the client against the operation of the master it stands for.
    When the call succeeds the master did the operation, and it gave what the
    client returns; when it fails the master was not reached, or only its answer was lost
    or was an error.  While the connection is up the call succeeds when
    the operation does with a value that has a JSON text. *)
Definition answers {A} `{!Json A} (m : go Master A) (c c' : conn clock) (r : result A) : Prop :=
  match r with
  | Ok v => m (conn_master clock c) = (conn_master clock c', Ok v)
  | Err _ => conn_master clock c' = conn_master clock c \/ conn_master clock c' = (m (conn_master clock c)).1
  end /\
  conn_address clock c' = conn_address clock c /\
  (conn_up clock c = true -> conn_up clock c' = true /\
     forall v, (m (conn_master clock c)).2 = Ok v -> is_ok (json_Marshal v) = true -> r = Ok v).

(** A request whose answer is the JSON text of an operation's result. *)
Lemma request_answers {A} `{!Json A} (m : go Master A) method target body message (fails : error -> Response) c :
  HasPrefix target "/" = true -> url_target_ok target = true -> (forall e, 400 <= rp_Status (fails e)) ->
  serve clock method target body (conn_master clock c) =
    respond m (writeJSON StatusOK) fails (conn_master clock c) ->
  let '(c', r) := (rawAbsoluteRequest clock (conn_address clock c) method target body ≫=
                   unmarshal clock message) c in
  answers m c c' r.
Proof.
  intros Hp Hu Hf Hs. cbv beta iota delta [mbind go_bind].
  pose proof (raw_request method target body c Hp Hu) as H. cbn zeta in H. rewrite Hs in H. unfold respond in H.
  destruct (rawAbsoluteRequest _ _ _ _ _ c) as [c' r]. unfold answers.
  destruct (m (conn_master clock c)) as [s' ra]. destruct H as (Ha & Hr & Hup). cbn [fst snd] in *.
  destruct r as [b|e].
  - destruct Hr as (Hm & Hb & Hst). destruct ra as [v|e]; [|exfalso; specialize (Hf e); lia].
    unfold writeJSON in Hb. cbn [rp_Body] in Hb. subst b. unfold unmarshal.
    destruct (json_Marshal v) as [j|e] eqn:Ej; cbn [body_json].
    + change (Ok j ≫= json_Unmarshal) with (json_Unmarshal (A:=A) j). rewrite (json_roundtrip _ _ Ej). cbn.
      split_and!; [by rewrite Hm|done|]. intros Hcu. destruct (Hup Hcu) as (? & _). split; [done|].
      by intros v' [= <-].
    + cbn. split_and!; [by right|done|]. intros Hcu. destruct (Hup Hcu) as (? & _). split; [done|].
      intros v' [= <-]. by rewrite Ej.
  - split_and!; [done..|]. intros Hcu. destruct (Hup Hcu) as (? & _ & H3). split; [done|].
    intros v ->. by specialize (H3 eq_refl).
Qed.

Lemma apply_answers plan c :
  let '(c', r) := remote_ApplyPlan clock (conn_address clock c) (Some plan) c in
  answers (applyPlan clock plan ≫= fun _ => mret plan) c c' r.
Proof.
  unfold remote_ApplyPlan. destruct (json_Marshal plan) as [j|e] eqn:Ej.
  - apply (request_answers _ "POST" "/manage/plan" (Some j) _ server_error); [done..|].
    rewrite serve_plan, (json_roundtrip _ _ Ej). unfold respond. cbv beta iota delta [mbind go_bind].
    by destruct (applyPlan clock plan (conn_master clock c)) as [s' [[]|e]].
  - cbn. unfold answers. split_and!; [by left|done|]. intros Hcu. split; [done|].
    intros v. cbv beta iota delta [mbind go_bind].
    destruct (applyPlan clock plan (conn_master clock c)) as [s' [[]|e']]; [|done]. intros [= <-]. by rewrite Ej.
Qed.

(** *** Queries *)

Lemma serve_query method path query body s :
  Forall (fun c => c ∉ bytes "#? ") (bytes path) -> Forall (fun c => c ∉ bytes "# ") (bytes query) ->
  serve clock method (path +:+ String "?"%char query) body s =
  Handler clock true (mkRequest method path (query_Get (ParseQuery query))
    match body with Some j => Ok j | None => Err (errors_New "EOF") end) s.
Proof.
  rewrite !Forall_forall. intros Hp Hq. unfold serve.
  rewrite split_target_query; [|intros H; apply (Hp _ H); cbn; set_solver|intros H; apply (Hq _ H); cbn; set_solver|
    intros H; apply (Hp _ H); cbn; set_solver].
  assert (ContainsAny (path +:+ query) " " = false) as ->; [|done].
  unfold ContainsAny. apply not_true_iff_false. rewrite existsb_exists.
  intros (c & Hc%list_elem_of_In & Hin%in_cutset_spec). rewrite bytes_app, elem_of_app in Hc.
  cbn in Hin. apply list_elem_of_singleton in Hin as ->.
  destruct Hc as [H|H]; [apply (Hp _ H)|apply (Hq _ H)]; cbn; set_solver.
Qed.

Lemma safe_value key h :
  query_safe key = true -> query_safe h = true ->
  Forall (fun c => c ∉ bytes "# ") (bytes (key +:+ "=" +:+ h)) /\ "&"%char ∉ bytes (key +:+ "=" +:+ h) /\
  Forall (fun c => is_control c = false) (bytes (key +:+ "=" +:+ h)).
Proof.
  intros Hk Hh.
  assert (forall c, c ∈ bytes (key +:+ "=" +:+ h) -> c ∉ bytes "%+&;# " /\ is_control c = false) as H.
  { intros c. rewrite !bytes_app, !elem_of_app. intros [Hc|[Hc|Hc]].
    - destruct (query_safe_spec _ _ Hk Hc) as [Hn ?]. split; [|done]. intros Hx. apply Hn. cbn in Hx |- *. set_solver.
    - cbn in Hc. apply list_elem_of_singleton in Hc as ->. split; [cbn; set_solver|done].
    - destruct (query_safe_spec _ _ Hh Hc) as [Hn ?]. split; [|done]. intros Hx. apply Hn. cbn in Hx |- *. set_solver. }
  split_and!.
  - rewrite Forall_forall. intros c Hc Hx. destruct (H c Hc) as [Hn _]. apply Hn. cbn in Hx |- *. set_solver.
  - intros Hc. destruct (H _ Hc) as [Hn _]. apply Hn. cbn. set_solver.
  - rewrite Forall_forall. intros c Hc. apply (H c Hc).
Qed.

Lemma ParseQuery_one key h :
  query_safe key = true -> query_safe h = true -> key <> "" ->
  ParseQuery (key +:+ "=" +:+ h) = [(key, h)].
Proof.
  intros Hk Hh Hne. destruct (safe_value key h Hk Hh) as (_ & Ha & _).
  unfold ParseQuery, Split. rewrite split_bytes_none by done. cbn [fmap list_fmap omap list_omap].
  by rewrite of_bytes_bytes, query_pair_safe.
Qed.

Lemma ParseQuery_cons key h rest :
  query_safe key = true -> query_safe h = true -> key <> "" ->
  ParseQuery ((key +:+ "=" +:+ h) +:+ String "&"%char rest) = (key, h) :: ParseQuery rest.
Proof.
  intros Hk Hh Hne. destruct (safe_value key h Hk Hh) as (_ & Ha & _).
  unfold ParseQuery, Split. rewrite bytes_app. change (bytes (String "&"%char rest)) with ("&"%char :: bytes rest).
  rewrite split_bytes_app by done. cbn [fmap list_fmap omap list_omap].
  by rewrite of_bytes_bytes, query_pair_safe.
Qed.

Lemma serve_projection h s :
  query_safe h = true -> h <> "" -> TrimSpace h = h ->
  serve clock "GET" ("/manage/query/domain-entry-projection?hostname=" +:+ h) None s =
  respond (on_Engine (on_Repo (GetDomainEntryProjectionByDomain h))) (writeJSON StatusOK) handleLookupError s.
Proof.
  intros Hs Hne Ht. destruct (safe_value "hostname" h eq_refl Hs) as (Hq & _).
  change ("/manage/query/domain-entry-projection?hostname=" +:+ h)
    with ("/manage/query/domain-entry-projection" +:+ String "?"%char ("hostname" +:+ "=" +:+ h)).
  rewrite serve_query; [|by apply (bool_decide_unpack _); vm_compute|done].
  rewrite (ParseQuery_one "hostname" h eq_refl Hs) by done.
  change (Handler clock true ?r s) with (handleDomainEntryProjectionQuery r s).
  unfold handleDomainEntryProjectionQuery. cbn [rq_Method rq_Query]. rewrite bool_decide_true by done.
  change (query_Get [("hostname", h)] "hostname") with h. rewrite Ht. by rewrite bool_decide_false.
Qed.

Lemma serve_dns_records f t s :
  query_safe f = true -> query_safe t = true -> f <> "" -> t <> "" -> TrimSpace f = f -> TrimSpace t = t ->
  serve clock "GET" ("/manage/query/dns-records?fqdn=" +:+ f +:+ "&record_type=" +:+ t) None s =
  respond (on_Engine (on_Repo (ListDNSRecordsByQuestion f t))) (writeJSON StatusOK) server_error s.
Proof.
  intros Hf Ht Nf Nt Tf Tt. destruct (safe_value "fqdn" f eq_refl Hf) as (Hq1 & _).
  destruct (safe_value "record_type" t eq_refl Ht) as (Hq2 & _).
  assert ("/manage/query/dns-records?fqdn=" +:+ f +:+ "&record_type=" +:+ t =
    "/manage/query/dns-records" +:+ String "?"%char (("fqdn" +:+ "=" +:+ f) +:+
      String "&"%char ("record_type" +:+ "=" +:+ t))) as ->.
  { rewrite !app_string_assoc. reflexivity. }
  rewrite serve_query; [|by apply (bool_decide_unpack _); vm_compute|].
  2: { rewrite bytes_app. apply Forall_app. split; [done|].
       change (bytes (String ?c ?s)) with (c :: bytes s). constructor; [cbn; set_solver|done]. }
  rewrite (ParseQuery_cons "fqdn" f _ eq_refl Hf) by done.
  rewrite (ParseQuery_one "record_type" t eq_refl Ht) by done.
  change (Handler clock true ?r s) with (handleDNSRecordsQuery r s).
  unfold handleDNSRecordsQuery. cbn [rq_Method rq_Query]. rewrite bool_decide_true by done.
  change (query_Get [("fqdn", f); ("record_type", t)] "fqdn") with f.
  change (query_Get [("fqdn", f); ("record_type", t)] "record_type") with t. rewrite Tf, Tt.
  by rewrite (bool_decide_false (f = "")), (bool_decide_false (t = "")).
Qed.

(** C39. the client is the master's operations from afar.  On a master's address
    the three calls of the client answer the master's operations: applying the
    plan, the projection of a host, and the DNS records of a question; the
    names that are asked about are the trimmed arguments, when they are made of bytes
    that need no escaping in a URL. *)
Theorem remote_client c :
  (forall plan, let '(c', r) := remote_ApplyPlan clock (conn_address clock c) (Some plan) c in
     answers (applyPlan clock plan ≫= fun _ => mret plan) c c' r) /\
  (forall hostname, TrimSpace hostname <> "" -> query_safe (TrimSpace hostname) = true ->
     let '(c', r) := remote_QueryDomainEntryProjection clock (conn_address clock c) hostname c in
     answers (on_Engine (on_Repo (GetDomainEntryProjectionByDomain (TrimSpace hostname)))) c c' r) /\
  (forall fqdn recordType, TrimSpace fqdn <> "" -> TrimSpace recordType <> "" ->
     query_safe (TrimSpace fqdn) = true -> query_safe (TrimSpace recordType) = true ->
     let '(c', r) := remote_QueryDNSRecords clock (conn_address clock c) fqdn recordType c in
     answers (on_Engine (on_Repo (ListDNSRecordsByQuestion (TrimSpace fqdn) (TrimSpace recordType)))) c c' r).
Proof.
  split; [intros; apply apply_answers|]. split.
  - intros h Hne Hs. unfold remote_QueryDomainEntryProjection. rewrite bool_decide_false by done.
    apply (request_answers _ "GET" _ None _ handleLookupError); [done| |intros e; unfold handleLookupError; by case_bool_decide|].
    + destruct (safe_value "hostname" _ eq_refl Hs) as (Hq & _ & Hc).
      change ("/manage/query/domain-entry-projection?hostname=" +:+ TrimSpace h)
        with ("/manage/query/domain-entry-projection?" +:+ "hostname" +:+ "=" +:+ TrimSpace h).
      apply target_ok_query; [apply (bool_decide_unpack _); vm_compute; exact I|done..].
    + apply serve_projection; [done..|apply TrimSpace_idemp].
  - intros f t Nf Nt Hf Ht. unfold remote_QueryDNSRecords.
    rewrite (bool_decide_false (TrimSpace f = "")), (bool_decide_false (TrimSpace t = "")) by done. cbn [orb].
    apply (request_answers _ "GET" _ None _ server_error); [done| |done|].
    + destruct (safe_value "fqdn" _ eq_refl Hf) as (Hq1 & _ & Hc1), (safe_value "record_type" _ eq_refl Ht) as (Hq2 & _ & Hc2).
      assert ("/manage/query/dns-records?fqdn=" +:+ TrimSpace f +:+ "&record_type=" +:+ TrimSpace t =
        "/manage/query/dns-records?" +:+ ("fqdn" +:+ "=" +:+ TrimSpace f) +:+ "&" +:+ ("record_type" +:+ "=" +:+ TrimSpace t))
        as -> by (rewrite !app_string_assoc; reflexivity).
      assert (forall P, P "&"%char -> Forall P (bytes ("fqdn" +:+ "=" +:+ TrimSpace f)) ->
        Forall P (bytes ("record_type" +:+ "=" +:+ TrimSpace t)) ->
        Forall P (bytes (("fqdn" +:+ "=" +:+ TrimSpace f) +:+ "&" +:+ ("record_type" +:+ "=" +:+ TrimSpace t)))) as HF.
      { intros P Ha H1 H2. rewrite (bytes_app (_ +:+ _)), (bytes_app "&"). repeat (apply Forall_app; split); try done.
        by apply Forall_singleton. }
      apply target_ok_query; [apply (bool_decide_unpack _); vm_compute; exact I|..]; apply HF; try done.
      cbn. set_solver.
    + apply serve_dns_records; try done; apply TrimSpace_idemp.
Qed.

End remote.

(** ** Commands *)

Section cli.
Context {CI : ClientInterface} {JT : JsonText}.

Lemma loadBody_state inline filePath a : (loadBody inline filePath a).1 = a.
Proof.
  unfold loadBody, lift, get_state, throw. cbv beta iota delta [mbind go_bind mret go_ret].
  repeat case_bool_decide; cbn; try done. destruct (app_stdin a) as [si|]; cbn; [|done].
  by destruct (si_charDevice si) as [[]|].
Qed.

Lemma decodePlanInput_state inline filePath a : (decodePlanInput inline filePath a).1 = a.
Proof.
  unfold decodePlanInput, wrapped, attempt, lift, throw. generalize (@json_Unmarshal Plan _). intros unm.
  cbv beta iota delta [mbind go_bind mret go_ret].
  pose proof (loadBody_state inline filePath a) as H. destruct (loadBody inline filePath a) as [a' [body|e]]; cbn in *;
    [|done]. subst a'. case_bool_decide; [done|]. by destruct (result_bind _ _ unm (json_parse body)).
Qed.

(** What a command printed. *)
Definition printed (a a' : App) (j : json) : Prop :=
  so_written (app_stdout a') = so_written (app_stdout a) ++ [OutJSON j].

Lemma printJSON_ok {A} `{!Json A} (value : A) a a' :
  printJSON value a = (a', Ok tt) ->
  exists j, json_Marshal value = Ok j /\ printed a a' j /\
    app_client a' = app_client a /\ app_store a' = app_store a /\ app_fs a' = app_fs a.
Proof.
  unfold printJSON. intros (a1 & j & Hj%lift_ok & H)%go_bind_Ok. destruct Hj as [-> Hj].
  unfold write_out in H. destruct (so_closed _); [done|]. injection H as <-. exists j. done.
Qed.

(** A plan that was created is in the store, and was printed. *)
Lemma create_ok name args a a' :
  app_store a <> "" -> executeBuildCreate name args a = (a', Ok tt) ->
  exists plan j, json_Marshal plan = Ok j /\ printed a a' j /\
    app_client a' = app_client a /\ app_store a' = app_store a /\
    store_Load (app_store a) name (app_fs a') = (app_fs a', Ok plan).
Proof.
  intros Hdir. unfold executeBuildCreate.
  intros (a1 & [set rest] & [-> _]%lift_ok & H)%go_bind_Ok. case_bool_decide; [|done].
  apply go_bind_Ok in H as (a1 & a0 & [= <- <-] & H). destruct (store_Exists _ _ _); [done|].
  apply go_bind_Ok in H as (a1 & input & Hin & H).
  pose proof (decodePlanInput_state (flag_value ["d"] "" set) (flag_value ["f"] "" set) a) as Hst.
  rewrite Hin in Hst. cbn in Hst. subst a1.
  apply go_bind_Ok in H as (a1 & [] & Hsave & (j & Hj & Hp & Hc & Hs & Hf)%printJSON_ok).
  set (plan := default _ input) in *. unfold on_fs, zoom in Hsave.
  pose proof (save_nodes (app_store a) Hdir name (Some plan) (app_fs a)) as Hn.
  destruct (store_Save _ _ _ _) as [fs' r]. injection Hsave as <- ->.
  destruct Hn as (_ & _ & Hn). destruct (Hn eq_refl) as (p & path & j' & [= <-] & Hpath & Hj' & Hnode & Hden).
  cbn in Hf. rewrite Hf. exists plan, j. split_and!; [done..|].
  by apply (load_saved (app_store a) name path j' plan fs' Hpath Hj').
Qed.

(** Applying hands the stored plan to the client. *)
Lemma apply_ok name plan a a' :
  store_Load (app_store a) name (app_fs a) = (app_fs a, Ok plan) ->
  executeApplyCommand [name] a = (a', Ok tt) ->
  exists applied j, ApplyPlan (Some plan) (app_client a) = (app_client a', Ok applied) /\
    json_Marshal applied = Ok j /\ printed a a' j.
Proof.
  intros Hl. unfold executeApplyCommand.
  intros (a1 & a0 & [= <- <-] & (a2 & p & Hp & (a3 & applied & Ha & (j & Hj & Hpr & Hc & _)%printJSON_ok)%go_bind_Ok
    )%go_bind_Ok)%go_bind_Ok.
  unfold on_fs, zoom in Hp. rewrite Hl in Hp. injection Hp as <- <-.
  unfold on_client, zoom in Ha. cbn in Ha. destruct (ApplyPlan (Some plan) (app_client a)) as [c r].
  injection Ha as <- ->. cbn in Hc, Hpr. exists applied, j. rewrite Hc. done.
Qed.

(** The process carries out the command its arguments name, on the master and
    the directory they give, and exits with 1 exactly when it fails. *)
Lemma main_command manageURL home connect fs stdin master dir command args :
  classify_arg command = NotFlag -> command <> "" -> TrimSpace dir <> "" ->
  Main manageURL home connect fs stdin ("--master" :: master :: "--store" :: dir :: command :: args) =
  let '(a, r) := executeCommand command args
    (mkApp (connect (TrimRight master "/")) (TrimSpace dir) fs (Some stdin) (mkStdout [] false)) in
  (so_written (app_stdout a) ++ match r with Ok _ => [] | Err e => [OutError e] end, Some (app_client a), app_fs a,
   match r with Ok _ => 0 | Err _ => 1 end).
Proof.
  intros Hc Hne Hdir. unfold Main.
  assert (parseGlobalConfig manageURL home ("--master" :: master :: "--store" :: dir :: command :: args) =
    Ok (mkGlobalConfig master dir command args false)) as ->.
  { unfold parseGlobalConfig. cbn -[classify_arg]. rewrite Hc. by vm_compute. }
  cbn [gc_help gc_command gc_storeDir gc_commandArgs gc_baseURL orb]. rewrite bool_decide_false by done.
  unfold newPlanStore. rewrite bool_decide_false by done. unfold NewClient.
  destruct (executeCommand _ _ _) as [a [[]|e]]; [|done]. by rewrite app_nil_r.
Qed.

End cli.

Section applies.
Context {GM : GormModel} {GDB : Gorm Tables stmt stmt_effect} {BS : BundleStore} {MR : MapRange}.
Context (clock : Engine -> Time) {HT : HTTPTransport clock} {JT : JsonText} (baseURL : string).
#[local] Instance remote : ClientInterface := Client clock baseURL.

(** From a plan's text to the master's tables.  When [lnctl build create]
    and then [lnctl apply] succeed, the plan that was created, and shown both
    times, is the one the master applied, and nothing else was done to it. *)
Theorem lnctl_applies name args (a a1 a2 : App) :
  app_store a <> "" -> conn_address clock (app_client a) = baseURL ->
  executeCommand "build" ("create" :: name :: args) a = (a1, Ok tt) ->
  executeCommand "apply" [name] a1 = (a2, Ok tt) ->
  exists plan j, json_Marshal plan = Ok j /\
    so_written (app_stdout a2) = so_written (app_stdout a) ++ [OutJSON j; OutJSON j] /\
    applyPlan clock plan (conn_master clock (app_client a)) = (conn_master clock (app_client a2), Ok tt).
Proof.
  intros Hdir Haddr Hb Ha.
  change (executeBuildCreate name args a = (a1, Ok tt)) in Hb. change (executeApplyCommand [name] a1 = (a2, Ok tt)) in Ha.
  destruct (create_ok name args a a1 Hdir Hb) as (plan & j & Hj & Hp1 & Hc & Hs & Hl).
  rewrite <- Hs in Hl. destruct (apply_ok name plan a1 a2 Hl Ha) as (applied & j' & Happ & Hj' & Hp2).
  pose proof (apply_answers clock plan (app_client a1)) as H. rewrite Hc, Haddr in H.
  change (remote_ApplyPlan clock baseURL (Some plan) (app_client a1) = (app_client a2, Ok applied)) in Happ.
  rewrite Hc in Happ. rewrite Happ in H. destruct H as [H _].
  apply go_bind_Ok in H as (s & [] & Happly & Hret). injection Hret as -> <-.
  rewrite Hj in Hj'. injection Hj' as <-. exists plan, j. split_and!; [done| |exact Happly].
  unfold printed in Hp1, Hp2. by rewrite Hp2, Hp1, <- app_assoc.
Qed.

End applies.

(** ** A reference transport and a reference text

    The transport calls the master's server while it is up. *)
Section direct.
Context {GM : GormModel} {GDB : Gorm Tables stmt stmt_effect} {BS : BundleStore} {MR : MapRange}.
Context (clock : Engine -> Time).

Record Direct := mkDirect { dc_master : Master; dc_up : bool }.
Definition direct_address : string := "http://master".

Definition direct_Do (method url : string) (body : option json) : go Direct (result Response) := fun c =>
  if dc_up c then
    let '(s, resp) := serve clock method (TrimPrefix url direct_address) body (dc_master c) in
    (mkDirect s true, Ok (Ok resp))
  else (c, Err (errors_New "connection refused")).

#[local] Obligation Tactic := idtac.
#[program] Definition direct_transport : HTTPTransport clock := {|
  conn := Direct;
  conn_master := dc_master;
  conn_address := fun _ => direct_address;
  conn_up := dc_up;
  http_Do := direct_Do;
|}.
Next Obligation. done. Qed.
Next Obligation.
  intros method target body [s []] resp _ _; unfold direct_Do; cbn [dc_up dc_master]; [|done].
  rewrite TrimPrefix_app. destruct (serve _ _ _ _ _) as [s' resp']. by intros [= <-].
Qed.
Next Obligation.
  intros method target body [s []] _ _; unfold direct_Do; cbn [dc_up dc_master]; [|by left].
  rewrite TrimPrefix_app. destruct (serve _ _ _ _ _) as [s' resp']. by right.
Qed.
Next Obligation.
  intros method target body [s []] _ _; unfold direct_Do; cbn [dc_up dc_master]; [|done].
  rewrite TrimPrefix_app. destruct (serve _ _ _ _ _) as [s' resp']. intros _. split; [done|]. by exists resp'.
Qed.

End direct.

Section text.

Definition json_leaf : Type := bool + Z + string + (Z * Z).

Fixpoint json_tree (j : json) : gen_tree json_leaf :=
  match j with
  | JNull => GenNode 0 []
  | JBool b => GenLeaf (inl (inl (inl b)))
  | JNum z => GenLeaf (inl (inl (inr z)))
  | JString s => GenLeaf (inl (inr s))
  | JTime t => GenLeaf (inr (t_sec t, t_nsec t))
  | JArray l => GenNode 1 (json_tree <$> l)
  | JObject fields => GenNode 2 (fields ≫= fun kv => [GenLeaf (inl (inr kv.1)); json_tree kv.2])
  end.

(** The fields of an object, from its keys and values in turn. *)
Fixpoint tree_fields (l : list (option string * json)) : list (string * json) :=
  match l with
  | (Some key, _) :: (_, value) :: l => (key, value) :: tree_fields l
  | _ => []
  end.

Definition tree_string (t : gen_tree json_leaf) : option string :=
  match t with GenLeaf (inl (inr s)) => Some s | _ => None end.

Fixpoint tree_json (t : gen_tree json_leaf) : json :=
  match t with
  | GenLeaf (inl (inl (inl b))) => JBool b
  | GenLeaf (inl (inl (inr z))) => JNum z
  | GenLeaf (inl (inr s)) => JString s
  | GenLeaf (inr (sec, nsec)) => JTime (mkTime sec nsec)
  | GenNode 1 l => JArray (tree_json <$> l)
  | GenNode 2 l => JObject (tree_fields ((fun t => (tree_string t, tree_json t)) <$> l))
  | GenNode _ _ => JNull
  end.

Lemma tree_json_tree : forall j, tree_json (json_tree j) = j.
Proof.
  fix IH 1. intros [| | | |[]|l|fields]; [done..| |]; cbn; f_equal.
  - induction l as [|j l IHl]; cbn; [done|]. by rewrite IH, IHl.
  - induction fields as [|[k j] fields IHl]; cbn; [done|]. by rewrite IH, IHl.
Qed.

#[local] Instance json_eq_dec : EqDecision json.
Proof. intros x y. refine (cast_if (decide (json_tree x = json_tree y))); [|naive_solver].
  rewrite <- (tree_json_tree x), <- (tree_json_tree y). by f_equal.
Defined.
#[local] Instance json_countable : Countable json := inj_countable' json_tree tree_json tree_json_tree.

(** The binary digits of a number, lowest first. *)
Fixpoint pos_text (p : positive) : string :=
  match p with
  | xH => ""
  | xO p => String "0"%char (pos_text p)
  | xI p => String "1"%char (pos_text p)
  end.
Fixpoint text_pos (s : string) : positive :=
  match s with
  | String "0"%char s => xO (text_pos s)
  | String "1"%char s => xI (text_pos s)
  | _ => xH
  end.

Lemma text_pos_text p suffix : text_pos suffix = xH -> text_pos (pos_text p +:+ suffix) = p.
Proof. intros H. induction p as [p IH|p IH|]; [exact (f_equal xI IH)|exact (f_equal xO IH)|exact H]. Qed.

#[program] Definition sample_text : JsonText := {|
  json_print j := pos_text (encode j);
  json_parse s := match countable.decode (text_pos s) with Some j => Ok j | None => Err (errors_New "invalid character") end;
|}.
Next Obligation. intros j. cbv beta. rewrite text_pos_text by done. by rewrite decode_encode. Qed.

End text.

Module LnctlRun.

#[local] Existing Instances plain_model memory_gorm PlanRun.no_bundles canonical_range sample_text.

Definition clock : Engine -> Time := PlanRun.clock.
#[local] Instance transport : HTTPTransport clock := direct_transport clock.
#[local] Instance client_instance : ClientInterface := Client clock direct_address.

Definition connection : conn clock := mkDirect PlanRun.sample_master true.

Definition plan_text : string :=
  match json_Marshal PlanRun.sample_plan with Ok j => json_print j | Err _ => "" end.

Definition start : App :=
  mkApp (connection : client) "/home/.lnctl" (mkFS ∅ ∅) None (mkStdout [] false).

Definition created : App := (executeCommand "build" ["create"; "shop"; "-d"; plan_text] start).1.
Definition applied : App := (executeCommand "apply" ["shop"] created).1.

Lemma with_result {A B} (p : A * B) b : p.2 = b -> p = (p.1, b).
Proof. by destruct p as [a b'] ; intros <-. Qed.

Lemma created_ok : (executeCommand "build" ["create"; "shop"; "-d"; plan_text] start).2 = Ok tt.
Proof. vm_compute. reflexivity. Qed.
Lemma applied_ok : (executeCommand "apply" ["shop"] created).2 = Ok tt.
Proof. vm_compute. reflexivity. Qed.


Lemma lnctl_applies_witness :
  exists plan j, json_Marshal plan = Ok j /\ so_written (app_stdout applied) = [OutJSON j; OutJSON j] /\
    applyPlan clock plan PlanRun.sample_master = (conn_master clock (app_client applied), Ok tt).
Proof.
  apply (lnctl_applies clock direct_address "shop" ["-d"; plan_text] start created applied).
  - done.
  - done.
  - exact (with_result _ _ created_ok).
  - exact (with_result _ _ applied_ok).
Defined.

Lemma plan_store_witness :
  let fs' := (store_Save "/home/.lnctl" "shop" (Some PlanRun.sample_plan) (mkFS ∅ ∅)).1 in
  store_Load "/home/.lnctl" "shop" fs' = (fs', Ok PlanRun.sample_plan).
Proof.
  pose proof (plan_store "/home/.lnctl" ltac:(done) "shop" (Some PlanRun.sample_plan) (mkFS ∅ ∅)) as H.
  assert ((store_Save "/home/.lnctl" "shop" (Some PlanRun.sample_plan) (mkFS ∅ ∅)).2 = Ok tt) as Hr
    by (vm_compute; reflexivity).
  destruct (store_Save _ _ _ _) as [fs' r]. cbn [snd] in Hr. destruct H as [_ H].
  destruct (H Hr) as (p & [= <-] & Hl & _). exact Hl.
Defined.

Lemma sample_applies : (applyPlan clock PlanRun.sample_plan PlanRun.sample_master).2 = Ok tt.
Proof. vm_compute. reflexivity. Qed.
Lemma sample_marshals : is_ok (json_Marshal PlanRun.sample_plan) = true.
Proof. vm_compute. reflexivity. Qed.

Lemma remote_client_witness :
  let '(c', r) := remote_ApplyPlan clock direct_address (Some PlanRun.sample_plan) connection in
  r = Ok PlanRun.sample_plan /\
  applyPlan clock PlanRun.sample_plan PlanRun.sample_master = (conn_master clock c', Ok tt).
Proof.
  destruct (remote_client clock connection) as [H _]. specialize (H PlanRun.sample_plan).
  change (conn_address clock connection) with direct_address in H.
  destruct (remote_ApplyPlan clock direct_address (Some PlanRun.sample_plan) connection) as [c' r].
  unfold answers in H. change (conn_master clock connection) with PlanRun.sample_master in H.
  destruct H as (Hr & _ & Hup). destruct (Hup eq_refl) as [_ Hok]. clear Hup.
  assert (r = Ok PlanRun.sample_plan) as ->.
  { apply Hok; [|exact sample_marshals]. pose proof sample_applies as Ha.
    cbv beta iota delta [mbind go_bind mret go_ret].
    destruct (applyPlan clock PlanRun.sample_plan PlanRun.sample_master) as [s ra]. cbn [snd] in Ha. by rewrite Ha. }
  split; [reflexivity|]. apply go_bind_Ok in Hr as (s & [] & Ha & Hs). rewrite Ha. apply (f_equal fst) in Hs.
  change (s = conn_master clock c') in Hs. by rewrite Hs.
Defined.

(** A name that needs escaping is not escaped: the master is asked about
    another host. *)
Lemma unescaped_name :
  (remote_QueryDomainEntryProjection clock direct_address "a.example&x=y" connection).2 =
  (remote_QueryDomainEntryProjection clock direct_address "a.example" connection).2.
Proof. vm_compute. reflexivity. Qed.

End LnctlRun.
