(* ===== verification/MockClient.v ===== *)
(** * The client's double: lnctl/mock_client.go

    A client that keeps the tables in a database of its own, with a log of the
    calls it got.  It works on the tables directly: rows are saved and deleted
    outright, and read whether or not they are marked as deleted. *)

From Stdlib Require Import Ascii.
From S2P Require Import Prelude GoStrings GoTime GoNet GoURL Metadata Gorm Repository RepositoryFacts Replication Hub MasterEngine.
From S2P Require Import MetadataJson Plan Acme ManageAPI GoFlag Lnctl.

Open Scope Z_scope.

Record MockClientInput := mkMockClientInput {
  mi_ID : Z;
  mi_Kind : string;
  mi_Target : string;
  mi_RecordType : string;
  mi_Payload : json;   (* its text *)
  (* [CreatedAt] is filled in by gorm and never read *)
}.

(** ** Its address *)

Definition memoryEnabled (mode memory : string) : bool :=
  let mode := ToLower (TrimSpace mode) in
  let memory := ToLower (TrimSpace memory) in
  bool_decide (mode = "memory") || bool_decide (memory = "1") || bool_decide (memory = "true") ||
  bool_decide (memory = "yes").

(** [url_Parse]: what net/url makes of the address. *)
Definition normalizeMockSQLiteURL (url_Parse : string -> result URL) (raw : string) : result string :=
  let raw := TrimSpace raw in
  if bool_decide (raw = "") then Err (errors_New "sqlite url is required")
  else if HasPrefix raw "file:" || bool_decide (raw = ":memory:") then Ok raw
  else
    match url_Parse raw with
    | Err e => Err (wrap "parse sqlite url: %w" e)
    | Ok parsed =>
        if bool_decide (u_Scheme parsed <> "sqlite")
        then Err (Errorf "unsupported sqlite url scheme %q" [u_Scheme parsed])
        else
          let query := query_Get (ParseQuery (u_RawQuery parsed)) in
          if memoryEnabled (query "mode") (query "memory") then
            let name := TrimPrefix (u_Host parsed +:+ u_Path parsed) "/" in
            if bool_decide (name = "") then Ok "file::memory:?cache=shared"
            else
              let cache := if bool_decide (query "cache" = "") then "shared" else query "cache" in
              Ok ("file:" +:+ name +:+ "?mode=memory&cache=" +:+ cache)
          else
            let path := u_Host parsed +:+ u_Path parsed in
            if bool_decide (TrimSpace path = "")
            then Err (errors_New "sqlite file path is required when not using memory mode")
            else if bool_decide (u_RawQuery parsed <> "") then Ok (path +:+ "?" +:+ u_RawQuery parsed)
            else Ok path
    end.

(** ** Its database *)

Record MockTables := mkMockTables { mk_tables : Tables; mk_inputs : list MockClientInput }.

Inductive mock_stmt : Type :=
  | Save (M : Type) (R : Resource M) (row : M)
  | Delete (M : Type) (R : Resource M) (key : string)
  | CreateInput (input : MockClientInput).
Arguments Save {M R} _.
Arguments Delete M {R} _.

Section mock.
Context {GM : GormModel}.

Definition on_tables (f : Tables -> Tables) (t : MockTables) : MockTables :=
  mkMockTables (f (mk_tables t)) (mk_inputs t).

(** [tx.Save(row)] and [tx.Delete(&M{}, "key = ?", key)] on the tables. *)
Definition save_row {M} `{!Resource M} (row : M) (t : Tables) : Tables :=
  res_put (<[res_key row := stored (res_get t !! res_key row) row]> (res_get t)) t.
Definition delete_key (M : Type) `{!Resource M} (key : string) (t : Tables) : Tables :=
  res_put (delete key (res_get (M:=M) t)) t.

Definition mock_effect (s : mock_stmt) (id : Z) (t : MockTables) : result MockTables :=
  match s with
  | @Save M R row => Ok (on_tables (save_row row) t)
  | @Delete M R key => Ok (on_tables (delete_key M key) t)
  | CreateInput input =>
      if forallb (fun i => bool_decide (mi_ID i < id)) (mk_inputs t)
      then Ok (mkMockTables (mk_tables t)
             (mk_inputs t ++ [mkMockClientInput id (mi_Kind input) (mi_Target input) (mi_RecordType input) (mi_Payload input)]))
      else Err (errors_New "UNIQUE constraint failed: lnctl_mock_inputs.id")
  end.

Context {MDB : Gorm MockTables mock_stmt mock_effect}.

Definition run_mock (s : mock_stmt) : go db () := exec s ≫= fun _ => mret tt.

Definition recordInput (kind target recordType : string) (payload : result json) : go db () :=
  body ← wrapped "marshal mock input payload: %w" (lift payload);
  wrapped "save mock input: %w" (run_mock (CreateInput (mkMockClientInput 0 kind target recordType body))).

(** ** Queries *)

(** The rows of a table with a text in a column, deleted or not. *)
Definition all_where {M} `{!Resource M} (col : M -> string) (value : string) (t : MockTables) : list M :=
  filter (fun r => col r = value) ((map_to_list (res_get (mk_tables t))).*2).

Definition find_backend (message id : string) : go db ServiceBackendRef :=
  wrapped message (first_row (all_where sb_ID id) (order_asc sb_ID)).

(** [Order("priority desc, path asc")] *)
Definition mock_route_leb (x y : HTTPRoute) : bool :=
  then_by (fun x y => bool_decide (hr_Priority y <= hr_Priority x)) (order_asc hr_Path) x y.

Definition mock_route (route : HTTPRoute) : go db HTTPRouteProjection :=
  if bool_decide (hr_BackendRefID route <> "") then
    backend ← find_backend "query route backend ref: %w" (hr_BackendRefID route);
    mret (mkHTTPRouteProjection (hr_ID route) (hr_Path route) (hr_Priority route) (Some backend))
  else mret (mkHTTPRouteProjection (hr_ID route) (hr_Path route) (hr_Priority route) None).

(** [for _, x := range l { out = append(out, f(x)) }] with early return. *)
Fixpoint collect {S A B} (f : A -> go S B) (l : list A) : go S (list B) :=
  match l with
  | [] => mret []
  | x :: l => y ← f x; ys ← collect f l; mret (y :: ys)
  end.

Definition mock_QueryDomainEntryProjection (hostname : string) : go db DomainEntryProjection :=
  let hostname := TrimSpace hostname in
  if bool_decide (hostname = "") then throw (errors_New "hostname is required")
  else
    recordInput "query_domain_entry_projection" hostname "" (Ok (JObject [("hostname", JString hostname)])) ≫= fun _ =>
    found ← attempt (first_row (all_where de_Hostname hostname) (order_asc de_Hostname));
    match found with
    | Err e =>
        if bool_decide (e = ErrRecordNotFound)
        then throw (Errorf "domain entry projection not found for hostname %q" [hostname])
        else throw (wrap "query domain endpoint: %w" e)
    | Ok endpoint =>
        binded ← (if bool_decide (de_BindedServiceID endpoint <> "")
                  then backend ← find_backend "query binded backend ref: %w" (de_BindedServiceID endpoint); mret (Some backend)
                  else mret None);
        rows ← wrapped "query http routes: %w" (select (all_where hr_Hostname hostname) mock_route_leb);
        routes ← collect mock_route rows;
        mret (mkDomainEntryProjection (de_Hostname endpoint) (sh_Deleted (de_Shared endpoint)) (de_NeedCert endpoint)
                None (de_BackendType endpoint) routes binded)
    end.

Definition mock_QueryDNSRecords (fqdn recordType : string) : go db (list DNSRecord) :=
  let fqdn := TrimSpace fqdn in
  let recordType := TrimSpace recordType in
  if bool_decide (fqdn = "") || bool_decide (recordType = "")
  then throw (errors_New "fqdn and recordType are required")
  else
    recordInput "query_dns_records" fqdn recordType
      (Ok (JObject [("fqdn", JString fqdn); ("record_type", JString recordType)])) ≫= fun _ =>
    wrapped "query dns records: %w"
      (select (fun t => filter (fun r => dr_FQDN r = fqdn /\ dr_RecordType r = recordType)
                          ((map_to_list (tb_dns (mk_tables t))).*2)) (order_asc dr_ID)).

(** ** Plans *)

(** [fmt.Errorf("... %q: %w", key, err)] *)
Definition wrapped_key {S A} (message key : string) (m : go S A) : go S A :=
  r ← attempt m; match r with Ok a => mret a | Err e => throw (Errorf message (key :: err_format e :: err_args e)) end.

(** The four functions that apply a change; [kind] is what messages call the
    table. *)
Definition mock_change {M} `{!Resource M} (kind : string) (change : Change M) : go db () :=
  if bool_decide (ch_Action change = PlanActionCreate) || bool_decide (ch_Action change = PlanActionUpdate) then
    match ch_Desired change with
    | None => throw (Errorf (kind +:+ " desired value is required for %s") [ch_Action change])
    | Some desired => wrapped_key ("save " +:+ kind +:+ " %q: %w") (res_key desired) (run_mock (Save desired))
    end
  else if bool_decide (ch_Action change = PlanActionDelete) then
    match ch_Current change with
    | None => throw (errors_New (kind +:+ " current value is required for delete"))
    | Some current => wrapped_key ("delete " +:+ kind +:+ " %q: %w") (res_key current) (run_mock (Delete M (res_key current)))
    end
  else throw (Errorf ("unsupported " +:+ kind +:+ " action %q") [ch_Action change]).

Definition applyDomainEndpointChange : Change DomainEndpoint -> go db () := mock_change "domain endpoint".
Definition applyServiceBackendRefChange : Change ServiceBackendRef -> go db () := mock_change "service backend ref".
Definition applyHTTPRouteChange : Change HTTPRoute -> go db () := mock_change "http route".
Definition applyDNSRecordChange : Change DNSRecord -> go db () := mock_change "dns record".

(** [db.Transaction(fc)] *)
Definition mock_transaction (fc : go db ()) : go db () := fun d =>
  match begin_tx d with
  | (d, Err e) => (d, Err e)
  | (d, Ok _) =>
      match fc d with
      | (d, Err e) => (rollback_tx d, Err e)
      | (d, Ok _) => match commit_tx d with
                     | (d, Err e) => (rollback_tx d, Err e)
                     | (d, Ok _) => (d, Ok tt)
                     end
      end
  end.

Definition mock_changes (plan : Plan) : go db () :=
  for_each applyDomainEndpointChange (pl_DomainEndpoints plan) ≫= fun _ =>
  for_each applyServiceBackendRefChange (pl_ServiceBackendRefs plan) ≫= fun _ =>
  for_each applyHTTPRouteChange (pl_HTTPRoutes plan) ≫= fun _ =>
  for_each applyDNSRecordChange (pl_DNSRecords plan).

Definition mock_ApplyPlan (plan : option Plan) : go db Plan :=
  match plan with
  | None => throw (errors_New "plan is required")
  | Some plan =>
      recordInput "apply_plan" (TrimSpace (pl_Hostname plan)) "" (json_Marshal plan) ≫= fun _ =>
      mock_transaction (mock_changes plan) ≫= fun _ =>
      mret plan
  end.

(** The client, opened on the database of an address: [open] opens it and
    creates its tables.  A client that cannot be opened is nil. *)
Definition NewMockClient (url_Parse : string -> result URL) (open : string -> result db) (sqliteURL : string) : option db :=
  match normalizeMockSQLiteURL url_Parse sqliteURL ≫= open with
  | Ok d => Some d
  | Err _ => None
  end.

(** The second implementation of the client's interface. *)
Definition MockClient : ClientInterface := {|
  client := db;
  QueryDomainEntryProjection := mock_QueryDomainEntryProjection;
  QueryDNSRecords := mock_QueryDNSRecords;
  ApplyPlan := mock_ApplyPlan;
|}.

End mock.
