(* ===== verification/MockFacts.v ===== *)
(** * The client's double agrees with the master

    Applying a plan to the double is atomic, and it leaves what the master
    leaves: a row exactly where the master has a live one. *)

From Stdlib Require Import Ascii.
From S2P Require Import Prelude GoStrings GoTime Metadata Gorm Repository RepositoryFacts.
From S2P Require Import Replication Hub MasterEngine MasterFacts MetadataJson Plan PlanFacts Acme ManageAPI ManageFacts PlanConverges.
From S2P Require Import GoURL GoFlag Lnctl LnctlFacts MockClient.

Open Scope Z_scope.

Section mock.
Context {GM : GormModel} {MDB : Gorm MockTables mock_stmt mock_effect}.

Lemma wrapped_key_ok {S A} message key (m : go S A) s s' a :
  wrapped_key message key m s = (s', Ok a) <-> m s = (s', Ok a).
Proof. unfold wrapped_key, attempt, mbind, go_bind. destruct (m s) as [s1 [a1|e]]; cbn; naive_solver. Qed.

Lemma run_mock_ok st d d' :
  run_mock st d = (d', Ok tt) -> exists id, mock_effect st id (rows d) = Ok (rows d').
Proof.
  unfold run_mock. cbv beta iota delta [mbind go_bind]. pose proof (exec_ok st d) as H.
  destruct (exec st d) as [d1 [id|e]]; [|done]. intros [= <-]. exists id. by apply H.
Qed.

(** A call keeps the saved tables of the open transaction. *)
Definition keeps_saved {A} (m : go db A) : Prop := forall d, saved (m d).1 = saved d.

Lemma keeps_run st : keeps_saved (run_mock st).
Proof.
  intros d. unfold run_mock. cbv beta iota delta [mbind go_bind]. pose proof (exec_saved st d) as H.
  by destruct (exec st d) as [d1 [id|e]].
Qed.

Lemma keeps_change {M} {R : Resource M} kind (c : Change M) : keeps_saved (mock_change kind c).
Proof.
  intros d. unfold mock_change, wrapped_key, attempt.
  destruct (_ || _); [destruct (ch_Desired c) as [x|]; [|done]|
    case_bool_decide; [destruct (ch_Current c) as [x|]; [|done]|done]];
    cbv beta iota delta [mbind go_bind];
    match goal with |- context [run_mock ?st d] => pose proof (keeps_run st d) as Hs; destruct (run_mock st d) as [d1 [[]|e]] end;
    exact Hs.
Qed.

Lemma keeps_for_each {A} (body : A -> go db ()) l : (forall x, keeps_saved (body x)) -> keeps_saved (for_each body l).
Proof.
  intros Hb. induction l as [|x l IH]; intros d; [done|]. cbn. cbv beta iota delta [mbind go_bind].
  pose proof (Hb x d) as H. destruct (body x d) as [d1 [[]|e]]; cbn in *; [|done]. by rewrite IH.
Qed.

Lemma keeps_bind {A B} (m : go db A) (k : A -> go db B) :
  keeps_saved m -> (forall a, keeps_saved (k a)) -> keeps_saved (m ≫= k).
Proof.
  intros Hm Hk d. cbv beta iota delta [mbind go_bind]. pose proof (Hm d) as H.
  destruct (m d) as [d1 [a|e]]; cbn in *; [by rewrite Hk|done].
Qed.

Lemma keeps_changes plan : keeps_saved (mock_changes plan).
Proof.
  unfold mock_changes. repeat (apply keeps_bind; [|intros _]); apply keeps_for_each; intros x; apply keeps_change.
Qed.

(** ** What the changes do *)

(** Only one table changed, as the changes say. *)
Definition mock_after {M} {R : Resource M} (cs : list (Change M)) (t t' : MockTables) : Prop :=
  table_after cs (mk_tables t) (mk_tables t') /\ mk_inputs t' = mk_inputs t.

Lemma mock_change_after {M} {R : Resource M} kind (c : Change M) d d' :
  known M R -> tables_wf (mk_tables (rows d)) -> mock_change kind c d = (d', Ok tt) ->
  mock_after [c] (rows d) (rows d').
Proof.
  intros Hk Hwf. pose proof (known_laws _ _ Hk) as HL. pose proof (get_keyed _ _ _ Hk Hwf) as Hkeyed.
  unfold mock_change. destruct c as [a cur des]. cbn [ch_Action ch_Current ch_Desired].
  destruct (bool_decide (a = PlanActionCreate) || bool_decide (a = PlanActionUpdate)) eqn:Ea.
  - destruct des as [x|]; [|done]. intros (id & H)%wrapped_key_ok%run_mock_ok. cbn in H. injection H as H.
    rewrite <- H. split; [|done]. eexists. split_and!; [reflexivity|by apply keyed_insert|].
    apply rows_after_upsert. apply orb_true_iff in Ea as [Ea|Ea]; apply bool_decide_eq_true in Ea; auto.
  - destruct (bool_decide (a = PlanActionDelete)) eqn:Ed; [|done]. apply bool_decide_eq_true in Ed. subst a. destruct cur as [x|]; [|done].
    intros (id & H)%wrapped_key_ok%run_mock_ok. cbn in H. injection H as H. rewrite <- H. split; [|done].
    eexists. split_and!; [reflexivity|by apply map_Forall_delete|].
    clear Ea. intros id'. unfold outcome. cbn [foldl]. rewrite change_outcome_delete. case_bool_decide as E.
    + intros r. rewrite E. by rewrite lookup_delete_eq.
    + by rewrite lookup_delete_ne by congruence.
Qed.

Lemma mock_loop_after {M} {R : Resource M} kind (cs : list (Change M)) d d' :
  known M R -> tables_wf (mk_tables (rows d)) -> for_each (mock_change kind) cs d = (d', Ok tt) ->
  mock_after cs (rows d) (rows d') /\ tables_wf (mk_tables (rows d')).
Proof.
  intros Hk. revert d. induction cs as [|c cs IH]; intros d Hwf; cbn.
  - intros [= <-]. split; [|done]. split; [by apply table_after_nil|done].
  - intros (d1 & [] & H1 & H2)%go_bind_Ok. apply mock_change_after in H1 as [H1 I1]; [|done..].
    apply IH in H2 as [[H2 I2] Hwf2]; [|by eapply table_after_wf]. split; [|done].
    split; [|congruence]. by apply (table_after_app [c] cs _ _ _ Hk H1).
Qed.

Lemma mock_changes_after plan d d' :
  tables_wf (mk_tables (rows d)) -> mock_changes plan d = (d', Ok tt) ->
  plan_after plan (mk_tables (rows d)) (mk_tables (rows d')) /\ mk_inputs (rows d') = mk_inputs (rows d).
Proof.
  intros Hwf. unfold mock_changes.
  intros (d1 & [] & H1 & (d2 & [] & H2 & (d3 & [] & H3 & H4)%go_bind_Ok)%go_bind_Ok)%go_bind_Ok.
  apply mock_loop_after in H1 as [[(m1 & E1 & _ & Hm1) I1] Hwf1]; [|constructor|done].
  apply mock_loop_after in H2 as [[(m2 & E2 & _ & Hm2) I2] Hwf2]; [|constructor|done].
  apply mock_loop_after in H3 as [[(m3 & E3 & _ & Hm3) I3] Hwf3]; [|constructor|done].
  apply mock_loop_after in H4 as [[(m4 & E4 & _ & Hm4) I4] _]; [|constructor|done].
  split; [|congruence]. rewrite E4, E3, E2, E1 in *. unfold plan_after. cbn in *. done.
Qed.

(** ** Applying a plan *)

Lemma transaction_cases (fc : go db ()) d :
  keeps_saved fc ->
  let '(d', r) := mock_transaction fc d in
  match r with
  | Ok _ => exists d1 d2, rows d1 = rows d /\ fc d1 = (d2, Ok tt) /\ rows d' = rows d2
  | Err _ => rows d' = rows d
  end.
Proof.
  intros Hs. unfold mock_transaction. pose proof (begin_rows d) as B1. pose proof (begin_ok d) as B2.
  destruct (begin_tx d) as [d1 [[]|e]]; cbn in B1, B2; [|done]. specialize (B2 eq_refl).
  pose proof (Hs d1) as S1. destruct (fc d1) as [d2 [[]|e]] eqn:Ef; cbn in S1.
  - pose proof (commit_rows d2) as C1. pose proof (commit_err d2) as C2.
    destruct (commit_tx d2) as [d3 [[]|e]]; cbn in *; [by exists d1, d2|].
    apply rollback_rows. by rewrite (C2 e eq_refl), S1.
  - apply rollback_rows. by rewrite S1.
Qed.

Lemma record_cases kind target recordType payload d :
  let '(d', r) := recordInput kind target recordType payload d in
  match r with
  | Ok _ => exists id j, payload = Ok j /\
      rows d' = mkMockTables (mk_tables (rows d)) (mk_inputs (rows d) ++ [mkMockClientInput id kind target recordType j])
  | Err _ => rows d' = rows d
  end.
Proof.
  unfold recordInput, wrapped, attempt, lift, run_mock, throw. cbv beta iota delta [mbind go_bind mret go_ret].
  destruct payload as [j|e]; cbn; [|done].
  set (st := CreateInput _). pose proof (exec_ok st d) as Hok. pose proof (exec_err st d) as Herr.
  destruct (exec st d) as [d1 [id|e]]; cbn in Hok, Herr |- *; [|by apply (Herr e)].
  specialize (Hok id eq_refl). destruct (forallb _ _); [|done]. injection Hok as <-. by exists id, j.
Qed.

Lemma mock_apply_cases plan d :
  tables_wf (mk_tables (rows d)) ->
  let '(d', r) := mock_ApplyPlan (Some plan) d in
  let t := rows d in
  let t' := rows d' in
  match r with
  | Ok p => p = plan /\ plan_after plan (mk_tables t) (mk_tables t') /\
      exists id j, json_Marshal plan = Ok j /\
        mk_inputs t' = mk_inputs t ++ [mkMockClientInput id "apply_plan" (TrimSpace (pl_Hostname plan)) "" j]
  | Err _ => mk_tables t' = mk_tables t /\ exists logged, mk_inputs t' = mk_inputs t ++ logged /\ (length logged <= 1)%nat
  end.
Proof.
  intros Hwf. unfold mock_ApplyPlan.
  generalize (record_cases "apply_plan" (TrimSpace (pl_Hostname plan)) "" (json_Marshal plan) d).
  generalize (json_Marshal plan). intros payload HR. cbv beta iota delta [mbind go_bind].
  destruct (recordInput _ _ _ _ d) as [d1 [[]|e]].
  2: { rewrite HR. split; [done|]. exists []. split; [by rewrite app_nil_r|cbn; lia]. }
  destruct HR as (id & j & -> & HR).
  pose proof (transaction_cases (mock_changes plan) d1 (keeps_changes plan)) as HT.
  destruct (mock_transaction _ d1) as [d2 [[]|e]].
  - destruct HT as (d3 & d4 & E3 & Hc & E4).
    assert (tables_wf (mk_tables (rows d3))) as Hwf3 by (rewrite E3, HR; exact Hwf).
    destruct (mock_changes_after plan d3 d4 Hwf3 Hc) as [Hp Hi]. cbn. split; [done|].
    rewrite E4. rewrite E3, HR in Hp, Hi. cbn in Hp, Hi. split; [done|]. by exists id, j.
  - cbn. rewrite HT, HR. cbn. split; [done|]. eexists. split; [done|]. cbn. lia.
Qed.

(** The double is atomic.  Applying a plan to the double logs the call and
    carries out every change of the plan, as the master would, or leaves every
    table as it was. *)
Theorem mock_apply plan d :
  tables_wf (mk_tables (rows d)) ->
  let '(d', r) := mock_ApplyPlan (Some plan) d in
  let t := rows d in
  let t' := rows d' in
  match r with
  | Ok p => p = plan /\ plan_after plan (mk_tables t) (mk_tables t') /\
      exists id j, json_Marshal plan = Ok j /\
        mk_inputs t' = mk_inputs t ++ [mkMockClientInput id "apply_plan" (TrimSpace (pl_Hostname plan)) "" j]
  | Err _ => mk_tables t' = mk_tables t /\ exists logged, mk_inputs t' = mk_inputs t ++ logged /\ (length logged <= 1)%nat
  end.
Proof. apply mock_apply_cases. Qed.

(** ** Tables without rows marked as deleted *)

Definition live_table {M} {R : Resource M} (m : gmap string M) : Prop :=
  map_Forall (fun _ r => res_deleted r = false) m.

Definition live_tables (t : Tables) : Prop :=
  live_table (tb_domains t) /\ live_table (tb_backends t) /\ live_table (tb_routes t) /\ live_table (tb_dns t).

Definition live_changes {M} {R : Resource M} (cs : list (Change M)) : Prop :=
  Forall (fun c => forall d, ch_Desired c = Some d -> res_deleted d = false) cs.

Definition live_plan (plan : Plan) : Prop :=
  live_changes (pl_DomainEndpoints plan) /\ live_changes (pl_ServiceBackendRefs plan) /\
  live_changes (pl_HTTPRoutes plan) /\ live_changes (pl_DNSRecords plan).

Lemma live_put {M} {R : Resource M} (m : gmap string M) t :
  known M R -> live_table m -> live_tables t -> live_tables (res_put m t).
Proof. intros Hk Hm (H1 & H2 & H3 & H4). by destruct Hk. Qed.

Lemma mock_change_live {M} {R : Resource M} kind (c : Change M) d d' :
  known M R -> (forall t, live_tables t -> live_table (res_get (M:=M) t)) -> live_changes [c] ->
  live_tables (mk_tables (rows d)) ->
  mock_change kind c d = (d', Ok tt) -> live_tables (mk_tables (rows d')).
Proof.
  intros Hk Hg Hc Hl. unfold live_changes in Hc. apply Forall_cons in Hc as [Hc _]. pose proof (Hg _ Hl) as Hm. unfold mock_change.
  destruct (_ || _).
  - destruct (ch_Desired c) as [x|] eqn:Ex; [|done]. intros (id & H)%wrapped_key_ok%run_mock_ok.
    cbn in H. injection H as H. rewrite <- H. apply live_put; [done| |done].
    apply map_Forall_insert_2; [|done]. rewrite stored_deleted. by apply Hc.
  - case_bool_decide; [|done]. destruct (ch_Current c) as [x|]; [|done].
    intros (id & E)%wrapped_key_ok%run_mock_ok. cbn in E. injection E as E. rewrite <- E.
    apply live_put; [done| |done]. by apply map_Forall_delete.
Qed.

Lemma mock_loop_live {M} {R : Resource M} kind (cs : list (Change M)) d d' :
  known M R -> (forall t, live_tables t -> live_table (res_get (M:=M) t)) -> live_changes cs ->
  live_tables (mk_tables (rows d)) ->
  for_each (mock_change kind) cs d = (d', Ok tt) -> live_tables (mk_tables (rows d')).
Proof.
  intros Hk Hg Hc. revert d. induction Hc as [|c cs Hc Hcs IH]; intros d Hl; cbn; [by intros [= <-]|].
  intros (d1 & [] & H1 & H2)%go_bind_Ok. apply (IH d1); [|done].
  eapply (mock_change_live _ c); [done..| |done|exact H1]. unfold live_changes. apply Forall_cons; split; [exact Hc|constructor].
Qed.

Lemma mock_changes_live plan d d' :
  live_plan plan -> live_tables (mk_tables (rows d)) -> mock_changes plan d = (d', Ok tt) ->
  live_tables (mk_tables (rows d')).
Proof.
  intros (P1 & P2 & P3 & P4) Hl. unfold mock_changes.
  intros (d1 & [] & H1 & (d2 & [] & H2 & (d3 & [] & H3 & H4)%go_bind_Ok)%go_bind_Ok)%go_bind_Ok.
  apply mock_loop_live in H1; [|constructor|by intros t (?&?&?&?)|done|done].
  apply mock_loop_live in H2; [|constructor|by intros t (?&?&?&?)|done|done].
  apply mock_loop_live in H3; [|constructor|by intros t (?&?&?&?)|done|done].
  apply mock_loop_live in H4; [done|constructor|by intros t (?&?&?&?)|done|done].
Qed.

Lemma mock_apply_live plan d d' p :
  live_plan plan -> live_tables (mk_tables (rows d)) -> mock_ApplyPlan (Some plan) d = (d', Ok p) ->
  live_tables (mk_tables (rows d')).
Proof.
  intros Hp Hl. unfold mock_ApplyPlan. intros (d1 & [] & H1 & (d2 & [] & H2 & H3)%go_bind_Ok)%go_bind_Ok.
  apply (f_equal fst) in H3. cbn in H3. subst d2.
  pose proof (record_cases "apply_plan" (TrimSpace (pl_Hostname plan)) "" (json_Marshal plan) d) as HR.
  rewrite H1 in HR. destruct HR as (id & j & _ & HR).
  pose proof (transaction_cases (mock_changes plan) d1 (keeps_changes plan)) as HT. rewrite H2 in HT.
  destruct HT as (d3 & d4 & E3 & Hc & E4). rewrite E4. eapply mock_changes_live; [done| |exact Hc].
  by rewrite E3, HR.
Qed.

(** ** The double and the master *)

(** The master's live rows and the double's rows: a row in one where there is
    one in the other, the same or the same wanted row, up to what gorm adds. *)
Definition agree {M} {R : Resource M} (m m' : gmap string M) : Prop := forall id,
  match m !! id ≫= fun r => if res_deleted r then None else Some r, m' !! id with
  | None, None => True
  | Some r, Some r' => r = r' \/ exists old old' x, r = stored old x /\ r' = stored old' x
  | _, _ => False
  end.

Lemma outcome_live {M} {R : Resource M} (cs : list (Change M)) id d :
  live_changes cs -> outcome cs id = Some (Some d) -> res_deleted d = false.
Proof.
  intros Hl. induction cs as [|c cs IH] using rev_ind; [done|]. unfold live_changes in Hl. apply Forall_app in Hl as [Hl Hc].
  apply Forall_cons in Hc as [Hc _].
  rewrite outcome_snoc. destruct (change_outcome id c) as [o|] eqn:Ec; [|by apply IH].
  intros [= ->]. unfold change_outcome in Ec. destruct (_ || _).
  - apply bind_Some in Ec as (x & Hx & E). apply Hc. rewrite Hx. destruct (bool_decide _); [|done].
    by injection E as ->.
  - destruct (bool_decide (ch_Action c = _)); [|done]. apply bind_Some in Ec as (x & _ & E).
    by destruct (bool_decide _).
Qed.

Lemma agree_after {M} {R : Resource M} (m m1 m2 : gmap string M) cs :
  live_table m -> live_changes cs -> live_table m2 -> rows_after m cs m1 -> rows_after m cs m2 -> agree m1 m2.
Proof.
  intros Hm Hc H2 R1 R2 id. specialize (R1 id). specialize (R2 id).
  destruct (outcome cs id) as [[x|]|] eqn:Eo.
  - destruct R1 as [old ->], R2 as [old' ->]. cbn. rewrite stored_deleted, (outcome_live cs id x) by done.
    right. eauto.
  - destruct (m1 !! id) as [r|] eqn:E1; cbn; [rewrite (R1 _ E1)|];
      (destruct (m2 !! id) as [r'|] eqn:E2; [|done]); specialize (R2 _ E2); specialize (H2 _ _ E2);
      cbn in H2; congruence.
  - rewrite R1, R2. destruct (m !! id) as [r|] eqn:E; cbn; [|done]. rewrite (Hm _ _ E). by left.
Qed.

Context {GDB : Gorm Tables stmt stmt_effect} {BS : BundleStore} {MR : MapRange} (clock : Engine -> Time).


End mock.

Module MockRun.

#[local] Existing Instances plain_model memory_gorm PlanRun.no_bundles canonical_range.

Definition next_input (t : MockTables) : Z := foldr (fun i n => Z.max (mi_ID i + 1) n) 1 (mk_inputs t).
#[local] Instance mock_gorm : Gorm MockTables mock_stmt mock_effect := MemGorm false mock_effect next_input.

Definition record (id value : string) : DNSRecord :=
  mkDNSRecord zero_Shared id "b.example" DNSTypeA RoutingClassFirst 60 value "" true.

Definition tables : Tables := mkTables ∅ ∅ ∅ {["d1" := record "d1" "[1.2.3.4]"; "d2" := record "d2" "[5.6.7.8]"]} ∅ [].

Lemma tables_ok : tables_wf tables /\ live_tables tables.
Proof.
  unfold tables_wf, live_tables, live_table. split; split_and!; try constructor;
    apply (bool_decide_unpack _); vm_compute; exact I.
Qed.

(** One record goes, one changes, and a host comes. *)
Definition plan : Plan :=
  mkPlan "b.example"
    [mkChange PlanActionDelete (Some (record "d1" "[1.2.3.4]")) None;
     mkChange PlanActionUpdate (Some (record "d2" "[5.6.7.8]")) (Some (record "d2" "[9.9.9.9]"))]
    [mkChange PlanActionCreate None (Some (mkDomainEndpoint zero_Shared "b.example" false BackendTypeL7HTTP ""))] [] [].

Definition double : @db _ _ _ mock_gorm := mkMemDB (mkMockTables tables []) None [].
Definition master : Master := mkMaster (mkEngine "master" (memory_db tables) NewHub) None None None.

Lemma plan_live : live_plan plan.
Proof.
  unfold live_plan, live_changes. split_and!; repeat constructor; intros d [= <-]; reflexivity.
Qed.

Lemma mock_apply_witness :
  let '(d', r) := mock_ApplyPlan (Some plan) double in
  r = Ok plan /\ tb_dns (mk_tables (rows d')) !! "d1" = None.
Proof.
  pose proof (mock_apply plan double (proj1 tables_ok)) as H.
  assert (is_ok (mock_ApplyPlan (Some plan) double).2 = true) as Hr by (vm_compute; reflexivity).
  assert (tb_dns (mk_tables (rows (mock_ApplyPlan (Some plan) double).1)) !! "d1" = None) as Hd by (vm_compute; reflexivity).
  destruct (mock_ApplyPlan (MDB:=mock_gorm) (Some plan) double) as [d' [p|e]]; [|discriminate Hr].
  destruct H as (Hp & _). split; [by rewrite Hp|exact Hd].
Defined.


(** The double returns rows that are marked as deleted, which the master does
    not. *)
Lemma double_returns_deleted :
  let t := mkTables {["c.example" := mkDomainEndpoint (set_Deleted zero_Shared true) "c.example" false BackendTypeL7HTTP ""]}
             ∅ ∅ ∅ ∅ [] in
  is_ok (mock_QueryDomainEntryProjection (MDB:=mock_gorm) "c.example" (mkMemDB (mkMockTables t []) None [])).2 = true /\
  (GetDomainEntryProjectionByDomain "c.example" (memory_db t)).2 = Err ErrRecordNotFound.
Proof. by vm_compute. Qed.

End MockRun.
