(* ===== verification/MasterTypes.v ===== *)
(** * The rows the master's bridges want are well typed

    The columns hold values of their Go types and of the enumerations, a
    route names a backend that is wanted with it, an L4 host is bound to one,
    and a backend is either a Service or an external address. *)

From Stdlib Require Import Ascii.
From S2P Require Import Prelude GoStrings GoTime Metadata Gorm Repository RepositoryFacts.
From S2P Require Import Replication Hub MasterEngine MasterFacts MetadataJson Plan PlanFacts Acme ManageAPI ManageFacts PlanConverges.
From S2P Require Import K8sObjects Materialize MaterializeFacts MasterIngress MasterIngressFacts MasterGateway MasterGatewayFacts.
From S2P Require Import MasterDns MasterK8sFacts MasterEvents MasterRun.

Open Scope Z_scope.

Definition uint32 (z : Z) : Prop := 0 <= z < 2 ^ 32.
Definition int32 (z : Z) : Prop := -2 ^ 31 <= z < 2 ^ 31.

Lemma u32_range x : uint32 (u32 x).
Proof. unfold uint32, u32. pose proof (Z.mod_pos_bound x (2 ^ 32)). lia. Qed.
Lemma i32_range x : int32 (i32 x).
Proof. unfold int32, i32. pose proof (Z.mod_pos_bound (x + 2 ^ 31) (2 ^ 32)). lia. Qed.

Definition backend_typed (x : ServiceBackendRef) : Prop :=
  uint32 (sb_Port x) /\
  (sb_Type x = ServiceBackendTypeSVC /\ sb_ArbitraryEndpoint x = "" \/
   sb_Type x = ServiceBackendTypeExternal /\ sb_ArbitraryEndpoint x <> "" /\
   sb_ServiceNamespace x = "" /\ sb_ServiceName x = "").

(** A row whose identifier is that of a wanted backend. *)
Definition names_backend (l : list ServiceBackendRef) (id : string) : Prop := exists x, x ∈ l /\ sb_ID x = id.

Definition route_typed (l : list ServiceBackendRef) (r : HTTPRoute) : Prop :=
  int32 (hr_Priority r) /\ HasPrefix (hr_Path r) "/" = true /\ names_backend l (hr_BackendRefID r).

Record rows_typed (item : domainMaterialized) : Prop := {
  rt_backends : Forall backend_typed (dm_backends item);
  rt_routes : Forall (route_typed (dm_backends item)) (dm_routes item);
}.

(** An L7 host has no binding; an L4 host a binding and no routes. *)
Definition l7_domain (d : DomainEndpoint) : Prop :=
  de_BackendType d ∈ [BackendTypeL7HTTP; BackendTypeL7HTTPS] /\
  de_NeedCert d = bool_decide (de_BackendType d = BackendTypeL7HTTPS) /\ de_BindedServiceID d = "".

Definition l4_item (item : domainMaterialized) : Prop :=
  let d := dm_domain item in
  de_BackendType d ∈ [BackendTypeL4TLSPassthrough; BackendTypeL4TLSTermination] /\
  de_NeedCert d = bool_decide (de_BackendType d = BackendTypeL4TLSTermination) /\
  names_backend (dm_backends item) (de_BindedServiceID d) /\ dm_routes item = [].

Definition item_typed (host : string) (item : domainMaterialized) : Prop :=
  de_Hostname (dm_domain item) = host /\ rows_typed item /\ (l7_domain (dm_domain item) \/ l4_item item).

(** ** Lists of rows *)

Lemma names_backend_app l k id : names_backend l id -> names_backend (l ++ k) id.
Proof. intros (x & Hx & E). exists x. rewrite elem_of_app. auto. Qed.

Lemma rows_typed_app item d bs rs :
  rows_typed item -> Forall backend_typed bs -> Forall (route_typed bs) rs ->
  rows_typed (mkDomainMaterialized d (dm_backends item ++ bs) (dm_routes item ++ rs)).
Proof.
  intros [Hb Hr] Hbs Hrs. split; cbn [dm_backends dm_routes]; apply Forall_app; (split; [|]); try done.
  - eapply Forall_impl; [exact Hr|]. intros r (H1 & H2 & H3). split_and!; [done..|]. by apply names_backend_app.
  - eapply Forall_impl; [exact Hrs|]. intros r (H1 & H2 & x & Hx & E). split_and!; [done..|].
    exists x. rewrite elem_of_app. auto.
Qed.

(** Duplicates can go as long as an identifier stays. *)
Lemma item_typed_sub host item bs rs :
  item_typed host item -> (forall x, x ∈ bs -> x ∈ dm_backends item) ->
  (forall id, names_backend (dm_backends item) id -> names_backend bs id) ->
  (forall r, r ∈ rs -> r ∈ dm_routes item) ->
  item_typed host (mkDomainMaterialized (dm_domain item) bs rs).
Proof.
  intros (Hh & [Hb Hr] & Hd) Hsub Hids Hrs. split; [done|].
  rewrite Forall_forall in Hb. rewrite Forall_forall in Hr. split.
  - split; cbn [dm_backends dm_routes]; rewrite Forall_forall; [intros x Hx; by apply Hb, Hsub|].
    intros r Hin. destruct (Hr r (Hrs r Hin)) as (H1 & H2 & H3). split_and!; [done..|by apply Hids].
  - destruct Hd as [Hd|(H1 & H2 & H3 & H4)]; [by left|right]. split_and!; [done..|by apply Hids|].
    cbn [dm_routes]. destruct rs as [|r rs]; [done|]. specialize (Hrs r). rewrite H4 in Hrs. set_solver.
Qed.

Lemma normalizePath_slash path : HasPrefix (normalizePath path) "/" = true.
Proof. unfold normalizePath. by destruct (HasPrefix (TrimSpace path) "/") eqn:E. Qed.

(** ** The Ingress bridge *)

Section ingress.
Context {MR : MapRange} (b : IngressBridge).

Lemma ingress_backend_typed ing host idx service : backend_typed (ingress_backend b ing host idx service).
Proof.
  assert (uint32 (ingressServicePort service)) as Hp.
  { unfold ingressServicePort. case_bool_decide; [apply u32_range|]. by unfold uint32. }
  unfold ingress_backend, resolveIngressBackendServiceAddress.
  destruct (ib_services b !! _) as [svc|]; [|split; [done|by left]].
  case_bool_decide; [|split; [done|by left]]. case_bool_decide; (split; [done|]); [by left|right]; done.
Qed.

Lemma rule_rows_typed ing host rule :
  Forall backend_typed (rule_rows b ing host rule).*1 /\
  Forall (route_typed (rule_rows b ing host rule).*1) (rule_rows b ing host rule).*2.
Proof.
  split; apply Forall_forall.
  - intros x (y & -> & (idx & path & service & _ & _ & ->)%elem_of_rule_rows)%list_elem_of_fmap.
    apply ingress_backend_typed.
  - intros r (y & -> & Hy)%list_elem_of_fmap. pose proof Hy as (idx & path & service & Hp & Hs & ->)%elem_of_rule_rows.
    cbn [snd]. split_and!.
    + unfold ingress_route. cbn [hr_Priority]. case_bool_decide; apply i32_range.
    + apply normalizePath_slash.
    + eexists. split; [apply list_elem_of_fmap; eexists; split; [reflexivity|exact Hy]|].
      cbn. unfold ingress_backend. by destruct (resolveIngressBackendServiceAddress _ _ _).
Qed.

Definition l7_out (out : gmap string domainMaterialized) : Prop :=
  map_Forall (fun host item => rows_typed item /\ de_Hostname (dm_domain item) = host /\ l7_domain (dm_domain item)) out.

Lemma l7_default out host : l7_out out -> rows_typed (default zero_domainMaterialized (out !! host)).
Proof.
  intros H. destruct (out !! host) as [item|] eqn:E; [by destruct (H _ _ E)|]. split; constructor.
Qed.

Lemma add_rule_typed hostSet ing out rule : l7_out out -> l7_out (add_rule b hostSet ing out rule).
Proof.
  intros Hout. unfold add_rule. destruct (_ || _); [done|]. apply map_Forall_insert_2; [|done].
  destruct (rule_rows_typed ing (normalizeHost (ir_Host rule)) rule) as [H1 H2]. split.
  - apply rows_typed_app; [by apply l7_default|done|done].
  - split; [done|]. unfold ingress_domain. cbn [dm_domain]. split_and!; cbn [de_BackendType de_NeedCert de_BindedServiceID].
    + destruct (bool_decide _); set_solver.
    + by destruct (bool_decide (_ ∈ ingressTLSHostSet ing)).
    + done.
Qed.

Lemma ingress_typed hosts : map_Forall item_typed (materializeByHost b hosts).
Proof.
  intros host item. unfold materializeByHost. rewrite lookup_fmap. intros (item0 & Hi & ->)%fmap_Some.
  assert (item_typed host item0) as Ht.
  { revert Hi. match goal with |- ?out !! _ = _ -> _ => assert (l7_out out) as Hout end.
    { apply foldl_preserves; [apply map_Forall_empty|]. intros out entry _ Ho.
      apply foldl_preserves; [done|]. intros out' rule _. apply add_rule_typed. }
    intros Hi. destruct (Hout _ _ Hi) as (H1 & H2 & H3). split_and!; [done..|by left]. }
  unfold dedupBackends. apply item_typed_sub; [done|..|done].
  - intros x. rewrite sort_by_perm. intros ([k y] & -> & Hy%elem_of_range)%list_elem_of_fmap.
    by apply by_id_key in Hy as [_ ?].
  - intros id (x & Hx & <-). destruct (by_id_is_Some _ _ Hx) as [y Hy]. exists y.
    split; [|by apply by_id_key in Hy as [? _]]. rewrite sort_by_perm. apply list_elem_of_fmap.
    exists (sb_ID x, y). split; [done|]. by apply elem_of_range.
Qed.

End ingress.

(** ** The Gateway bridge *)

(** The ports the bridge read. *)
Definition ports_ok (b : GatewayBridge) : Prop :=
  map_Forall (fun _ route => Forall (fun rule => uint32 (br_port (hrr_backend rule))) (hrs_rules route)) (gb_httpRoutes b) /\
  map_Forall (fun _ route => uint32 (br_port (tls_backend route))) (gb_tlsRoutes b).

Section gateway.
Context {MR : MapRange} (b : GatewayBridge).

Lemma resolve_typed x :
  uint32 (sb_Port x) -> sb_Type x = ServiceBackendTypeSVC -> sb_ArbitraryEndpoint x = "" ->
  backend_typed (resolveServiceBackendRef b x).
Proof.
  intros Hp Ht He. unfold resolveServiceBackendRef.
  destruct (bool_decide _ || _ || _); [split; [done|by left]|].
  destruct (gb_services b !! _) as [svc|]; [|split; [done|by left]].
  destruct (bool_decide (svc_Type svc <> _)); [split; [done|by left]|].
  case_bool_decide; (split; [done|]); [by left|right]; done.
Qed.

Lemma add_http_host_typed hostSet route listener out entry :
  Forall (fun rule => uint32 (br_port (hrr_backend rule))) (hrs_rules route) ->
  l7_out out -> l7_out (add_http_host b hostSet route listener out entry).
Proof.
  intros Hp Hout. unfold add_http_host. destruct (_ || _); [done|]. set (host := normalizeHost _).
  apply map_Forall_insert_2; [|done]. rewrite Forall_forall in Hp. split.
  - apply rows_typed_app; [by apply l7_default| |]; apply Forall_forall.
    + intros x (i & rule & -> & Hi)%elem_of_lookup_imap. apply resolve_typed; [|done..].
      apply Hp. by eapply list_elem_of_lookup_2.
    + intros r (i & rule & -> & Hi)%elem_of_lookup_imap. split_and!.
      * unfold gateway_route. cbn [hr_Priority]. destruct (hrr_exact rule); apply i32_range.
      * apply normalizePath_slash.
      * exists (gateway_backend b route host entry.1 i rule). split; [by eapply elem_of_lookup_imap_2|].
        unfold gateway_backend. apply resolve_keeps.
  - destruct (http_domain_fields listener host) as (E1 & E2 & E3). cbn [dm_domain]. split; [done|]. split_and!; [..|done].
    + unfold http_domain. destruct (bool_decide (gl_protocol listener = "HTTPS")); cbn; [set_solver|].
      rewrite !andb_false_r. cbn. set_solver.
    + unfold http_domain. destruct (bool_decide (gl_protocol listener = "HTTPS")); [done|]. cbn.
      by rewrite andb_false_r.
Qed.

Lemma tls_item_typed route listener host idx :
  uint32 (br_port (tls_backend route)) -> item_typed host (tls_item b route listener host idx).
Proof.
  intros Hp. split; [done|]. unfold tls_item. split.
  - split; cbn [dm_backends dm_routes]; [|constructor]. apply Forall_cons; split; [|constructor]. by apply resolve_typed.
  - right. split_and!; cbn [dm_domain dm_backends de_BackendType de_NeedCert de_BindedServiceID].
    + destruct (gl_passthrough listener); set_solver.
    + by destruct (gl_passthrough listener).
    + eexists. split; [apply list_elem_of_singleton; reflexivity|]. by apply resolve_keeps.
    + done.
Qed.

Lemma gateway_typed hosts : ports_ok b -> map_Forall item_typed (materializeByHostLocked b hosts).
Proof.
  intros [Hh Ht] host item. unfold materializeByHostLocked. rewrite lookup_fmap. intros (item0 & Hi & ->)%fmap_Some.
  assert (item_typed host item0) as Hty.
  { revert Hi. match goal with |- ?out !! _ = _ -> _ => assert (map_Forall item_typed out) as Hout end.
    { apply foldl_preserves.
      - match goal with |- map_Forall _ ?out => assert (l7_out out) as Hout end.
        { apply foldl_preserves; [apply map_Forall_empty|]. intros out [key route] Hin%elem_of_range Ho. cbn [snd].
          unfold add_http_route. apply foldl_preserves; [done|]. intros out1 parent _ H1.
          apply foldl_preserves; [done|]. intros out2 listener _ H2. unfold add_http_listener.
          destruct (_ || _); [|done]. apply foldl_preserves; [done|]. intros out3 entry _.
          apply add_http_host_typed, (Hh _ _ Hin). }
        intros h x Hx. destruct (Hout _ _ Hx) as (H1 & H2 & H3). split_and!; [done..|by left].
      - intros out [key route] Hin%elem_of_range Ho. cbn [snd].
        unfold add_tls_route. apply foldl_preserves; [done|]. intros out1 parent _ H1.
        apply foldl_preserves; [done|]. intros out2 listener _ H2. unfold add_tls_listener.
        case_bool_decide; [|done]. apply foldl_preserves; [done|]. intros out3 entry _ H3. unfold add_tls_host.
        destruct (_ || _); [done|]. apply map_Forall_insert_2; [|done]. apply tls_item_typed, (Ht _ _ Hin). }
    intros Hi. by apply Hout. }
  apply item_typed_sub; [done|..].
  - intros x. unfold dedupeServiceBackendRefs. case_bool_decide; [done|]. by intros [? _]%elem_of_dedupe.
  - intros id (x & Hx & <-). unfold dedupeServiceBackendRefs. case_bool_decide; [by exists x|].
    destruct (dedupe_first ∅ _ _ Hx) as (y & Hy & E); [set_solver|]. by exists y.
  - intros r. unfold dedupeHTTPRoutes. case_bool_decide; [done|]. by intros [? _]%elem_of_dedupe.
Qed.

End gateway.

(** Every port a route is read with is a 32-bit number. *)
Lemma parsed_ports {UN : Unstructured} obj :
  Forall (fun rule => uint32 (br_port (hrr_backend rule))) (hrs_rules (parseHTTPRouteState obj)) /\
  (forall state, parseTLSRouteState obj = Some state -> uint32 (br_port (tls_backend state))).
Proof.
  assert (forall port rule x, uint32 port -> first_backend obj port rule = Some x -> uint32 (br_port x)) as Hf.
  { intros port rule x Hp. unfold first_backend. intros Hx.
    assert (x ∈ omap (parse_backend obj port) (map_items rule ["backendRefs"])) as Hin.
    { destruct (omap _ _) as [|y l]; [done|]. injection Hx as ->. set_solver. }
    apply list_elem_of_omap in Hin as (item & _ & Hi). unfold parse_backend in Hi. case_bool_decide; [done|].
    injection Hi as <-. cbn [br_port]. case_bool_decide; [done|apply u32_range]. }
  split.
  - apply Forall_forall. intros r Hr. cbn [hrs_rules parseHTTPRouteState] in Hr.
    apply list_elem_of_omap in Hr as (item & _ & Hi). unfold parse_rule in Hi. destruct (parse_match item) as [path exact].
    apply fmap_Some in Hi as (x & Hx & ->). eapply Hf; [|exact Hx]. by unfold uint32.
  - intros state (x & Hx & [= <-])%bind_Some. cbn [tls_backend].
    assert (x ∈ omap (first_backend obj 443) (map_items (Object obj) ["spec"; "rules"])) as Hin.
    { destruct (omap _ _) as [|y l]; [done|]. injection Hx as ->. set_solver. }
    apply list_elem_of_omap in Hin as (rule & _ & Hi). eapply Hf; [|exact Hi]. by unfold uint32.
Qed.

(** ** The bridges over their life *)

Section life.
Context {GM : GormModel} {GDB : Gorm Tables stmt stmt_effect} {BS : BundleStore} {MR : MapRange}.
Context {UN : Unstructured} (clock : Engine -> Time).

Abbreviation gateway_ports := (fun st : GatewayBridge * Master => ports_ok st.1).

Lemma sync_ports affected removed : preserves gateway_ports (syncHostsLocked clock affected removed).
Proof. intros [b s] Hb. rewrite gateway_sync_run. by destruct (sync_and_publish _ _ _ _ _ s). Qed.

Lemma set_ports f : (forall b, ports_ok b -> ports_ok (f b)) -> preserves gateway_ports (b ← get_bridge; set_bridge (f b)).
Proof. intros Hf [b s] Hb. by apply Hf. Qed.

(** Changing the bridge, then synchronizing some hosts. *)
Lemma change_ports (f : GatewayBridge -> GatewayBridge) (aff rem : GatewayBridge -> list string) :
  (forall b, ports_ok b -> ports_ok (f b)) ->
  preserves gateway_ports (b ← get_bridge; set_bridge (f b) ≫= fun _ => ignore (syncHostsLocked clock (aff b) (rem b))).
Proof. intros Hf [b s] Hb. go_run. apply (preserves_ignore _ _ (sync_ports _ _)). by apply Hf. Qed.

Lemma update_ports f affected :
  (forall b, ports_ok b -> ports_ok (f b)) -> preserves gateway_ports (update_bridge clock f affected).
Proof. intros Hf. exact (change_ports f (fun _ => affected) _ Hf). Qed.

Lemma insert_ports_http o b :
  ports_ok b -> ports_ok (with_httpRoutes <[hrs_key (parseHTTPRouteState o) := parseHTTPRouteState o]> b).
Proof. intros [H1 H2]. split; [|done]. apply map_Forall_insert_2; [apply parsed_ports|done]. Qed.

Lemma insert_ports_tls o state b :
  parseTLSRouteState o = Some state -> ports_ok b -> ports_ok (with_tlsRoutes <[tls_key state := state]> b).
Proof. intros E [H1 H2]. split; [done|]. apply map_Forall_insert_2; [by eapply parsed_ports|done]. Qed.

Lemma drop_ports obj b :
  ports_ok b -> ports_ok (with_httpRoutes (drop_key obj) b) /\ ports_ok (with_tlsRoutes (drop_key obj) b).
Proof. intros [H1 H2]. split; (split; [|]); try done; by apply drop_key_Forall. Qed.

Abbreviation cluster_ports := (fun st : Bridge * Master => ports_ok (bg_Gateway st.1)).

Lemma other_ports {A} (m : go (DNSBridge * Master) A) (m' : go (IngressBridge * Master) A) :
  preserves cluster_ports (on_DNS m) /\ preserves cluster_ports (on_Ingress m').
Proof.
  split; intros [br s] H; unfold on_DNS, on_Ingress, zoom; cbn [fst snd]; [destruct (m _)|destruct (m' _)]; done.
Qed.

Lemma on_Gateway_ports {A} (m : go (GatewayBridge * Master) A) :
  preserves gateway_ports m -> preserves cluster_ports (on_Gateway m).
Proof.
  intros Hm [br s] H. unfold on_Gateway, zoom. cbn [fst snd]. specialize (Hm (bg_Gateway br, s) H). by destruct (m _).
Qed.

Lemma gateway_stores_ports obj :
  preserves gateway_ports (storeGateway clock obj) /\ preserves gateway_ports (storeHTTPRoute clock obj) /\
  preserves gateway_ports (storeTLSRoute clock obj) /\ preserves gateway_ports (MasterGateway.storeService clock obj).
Proof.
  unfold storeGateway, storeHTTPRoute, storeTLSRoute, MasterGateway.storeService.
  destruct obj as [ing|svc|o|meta|]; cbn [as_unstructured]; split_and!; try apply preserves_ret.
  - intros [b s] H. go_run. by apply update_ports.
  - by apply update_ports.
  - apply update_ports, insert_ports_http.
  - destruct (parseTLSRouteState o) as [state|] eqn:E; apply update_ports; [|done]. intros b. by apply (insert_ports_tls o).
Qed.

Lemma gateway_deletes_ports obj :
  preserves gateway_ports (deleteGateway clock obj) /\ preserves gateway_ports (deleteHTTPRoute clock obj) /\
  preserves gateway_ports (deleteTLSRoute clock obj) /\ preserves gateway_ports (MasterGateway.deleteService clock obj).
Proof.
  split_and!.
  - by apply update_ports.
  - apply (change_ports _ (fun _ => _) (fun _ => [])). apply drop_ports.
  - apply (change_ports _ (fun _ => _) (fun _ => [])). apply drop_ports.
  - intros [b s] H. unfold MasterGateway.deleteService. go_run. by apply update_ports.
Qed.

Lemma gateway_load_ports l : preserves gateway_ports (gateway_LoadInitial clock l).
Proof.
  unfold gateway_LoadInitial, loadGateways, loadHTTPRoutes, loadTLSRoutes, loadServices.
  apply preserves_bind; [|intros _; apply preserves_bind; [|intros _; apply preserves_bind;
    [|intros _; apply preserves_bind; [|intros _; apply preserves_bind; [|intros b; apply sync_ports]]]]].
  - destruct (gw_list l); [by apply set_ports|apply preserves_throw].
  - destruct (hr_list l) as [items|e]; [|apply preserves_throw]. apply set_ports. intros b [H1 H2]. split; [|done].
    apply foldl_preserves; [apply map_Forall_empty|]. intros m o _ Hm.
    apply map_Forall_insert_2; [apply parsed_ports|done].
  - destruct (tr_list l) as [items|e]; [|apply preserves_ret]. apply set_ports. intros b [H1 H2]. split; [done|].
    apply foldl_preserves; [apply map_Forall_empty|]. intros m o _ Hm.
    destruct (parseTLSRouteState o) as [state|] eqn:E; [|done]. apply map_Forall_insert_2; [by eapply parsed_ports|done].
  - destruct (sv_list l); [by apply set_ports|apply preserves_throw].
  - by intros [b s] H.
Qed.

Lemma handle_ports e : preserves cluster_ports (handle clock e).
Proof.
  destruct e as [obj|obj|obj|obj|obj|obj|obj|obj|obj|obj|obj|obj|obj|obj]; unfold handle.
  1-2: exact (proj1 (other_ports _ (mret tt))).
  1-4: exact (proj2 (other_ports (mret tt) _)).
  all: apply on_Gateway_ports; first [apply (gateway_stores_ports obj) | apply (gateway_deletes_ports obj)].
Qed.

(** C28. the rows the bridges want are well typed.  After the initial load and
    any sequence of events of the cluster, whatever the objects hold and
    whichever calls failed, the rows wanted for any hosts are well formed:
    ports fit 32 unsigned bits and priorities 32 signed ones, paths begin with
    a slash, every route names a backend wanted with it, every backend is
    either a Service or an external address, and every host is either an L7 one
    bound to no backend, needing a certificate exactly when it is HTTPS, or an
    L4 one without routes, bound to one of its backends, needing a certificate
    exactly when it terminates TLS. *)
Theorem rows_well_typed ingressClass l es s hosts :
  let br := (run_events clock es (bridge_LoadInitial clock l (New ingressClass, s)).1).1 in
  map_Forall item_typed (materializeByHost (bg_Ingress br) hosts) /\
  map_Forall item_typed (materializeByHostLocked (bg_Gateway br) hosts).
Proof.
  cbv zeta. split; [apply ingress_typed|]. apply gateway_typed.
  assert (cluster_ports (run_events clock es (bridge_LoadInitial clock l (New ingressClass, s)).1)) as H; [|exact H].
  unfold run_events. apply foldl_preserves; [|intros st e _; apply handle_ports].
  unfold bridge_LoadInitial.
  apply (preserves_bind cluster_ports); [apply (other_ports _ (mret tt))|intros _|split; apply map_Forall_empty].
  apply preserves_bind; [apply (other_ports (mret tt) _)|intros _].
  apply on_Gateway_ports, gateway_load_ports.
Qed.

End life.

Module TypesRun.

#[local] Existing Instances plain_model memory_gorm PlanRun.no_bundles canonical_range tree_objects.

Definition bridges : Bridge :=
  (run_events ClusterRun.clock [IngressDeleted (ObjIngress ClusterRun.blog)]
     (bridge_LoadInitial ClusterRun.clock ClusterRun.lists (New "luna", ClusterRun.sample_master)).1).1.

Lemma rows_well_typed_witness :
  exists item, materializeByHost (bg_Ingress bridges) ["shop.example"] !! "shop.example" = Some item /\
    length (dm_routes item) = 2%nat /\ item_typed "shop.example" item.
Proof.
  destruct (rows_well_typed ClusterRun.clock "luna" ClusterRun.lists [IngressDeleted (ObjIngress ClusterRun.blog)]
    ClusterRun.sample_master ["shop.example"]) as [H _]. fold bridges in H.
  specialize (H "shop.example").
  assert ((fun item => length (dm_routes item)) <$>
    (materializeByHost (bg_Ingress bridges) ["shop.example"] !! "shop.example") = Some 2%nat) as Hl
    by (vm_compute; reflexivity).
  destruct (materializeByHost (bg_Ingress bridges) ["shop.example"] !! "shop.example") as [item|]; [|discriminate Hl].
  exists item. injection Hl as Hl. split; [reflexivity|]. split; [exact Hl|]. apply H. reflexivity.
Defined.

End TypesRun.
