(* ===== verification/Lifecycle.v ===== *)
(** * Starting and stopping the processes: engine/master/engine.go,
      engine/slave/engine.go, engine/slave/store.go, dns/engine.go,
      ingress/engine.go, engine_http.go, engine_tls.go, the bridges' [Listen]
      and [Stop], repository/factory.go, repository/connection

    What a process holds open is a list of resources.  Opening one may fail, as
    the environment decides; the code of [Start], with its early returns and
    deferred calls, decides what is closed again. *)

From S2P Require Import Prelude GoStrings GoPath GoFS Grpc SlaveEngine.

Open Scope Z_scope.

(** ** Resources *)

(** The informers of the five bridges. *)
Inductive bridge := DNSBridge | IngressBridge | MasterDNS | MasterIngress | MasterGateway.

Inductive resource :=
  | Database
  | UDPServer
  | TCPServer
  | GeoDatabase
  | Informers (b : bridge)
  | RestoreLoop
  | CertWatcher
  | HTTPListener
  | TLSListener
  | MasterConn
  | HealthListener
  | Reconciler
  | ReplicationListener
  | ManageListener.

#[export] Instance bridge_eq_dec : EqDecision bridge.
Proof. solve_decision. Defined.
#[export] Instance resource_eq_dec : EqDecision resource.
Proof. solve_decision. Defined.

(** The calls that can fail. *)
Inductive sys_call :=
  | Open (r : resource)
  | Close (r : resource)
  | AutoMigrate
  | SqlDB                      (* [gorm.DB.DB()] *)
  | NewBridge (b : bridge)     (* the cluster's configuration and clients *)
  | LoadBridge (b : bridge)    (* listing the cluster's objects *)
  | NewBundles.                (* the S3 client *)

(** The environment: the error of each call. *)
Class Env := fails : sys_call -> option error.

(** What the process waited for: the signal that ends the context, or the
    clients of the replication server. *)
Inductive wait := ForSignal | ForClients.

#[export] Instance wait_eq_dec : EqDecision wait.
Proof. solve_decision. Defined.

Record proc := mkProc {
  pr_open : list resource;     (* the latest first *)
  pr_stopCh : list bridge;     (* the bridges whose stop channel is closed *)
  pr_hooks : list bridge;      (* goroutines that stop a bridge when the context is done *)
  pr_done : bool;              (* the context is done *)
  pr_waits : list wait;
}.

(** A process that has opened nothing. *)
Definition fresh_proc : proc := mkProc [] [] [] false [].

Definition add_open (r : resource) (p : proc) : proc :=
  mkProc (r :: pr_open p) (pr_stopCh p) (pr_hooks p) (pr_done p) (pr_waits p).
Definition remove_open (r : resource) (p : proc) : proc :=
  mkProc (filter (fun x => x <> r) (pr_open p)) (pr_stopCh p) (pr_hooks p) (pr_done p) (pr_waits p).

Section lifecycle.
Context {EN : Env}.

Definition try (c : sys_call) {S} : go S () :=
  lift (match fails c with Some e => Err e | None => Ok tt end).

Definition acquire (r : resource) : go proc () := try (Open r) ≫= fun _ => modify (add_open r).

(** Closing a resource gives it up even when it reports an error. *)
Definition release (r : resource) : go proc () := modify (remove_open r) ≫= fun _ => try (Close r).

(** *** The bridges' [Listen] and [Stop] *)

Definition bridge_Stop (b : bridge) (p : proc) : proc :=
  if bool_decide (b ∈ pr_stopCh p) then p
  else remove_open (Informers b) (mkProc (pr_open p) (b :: pr_stopCh p) (pr_hooks p) (pr_done p) (pr_waits p)).

(** An informer started on a closed channel ends at once. *)
Definition bridge_Listen (b : bridge) (p : proc) : proc :=
  let p := if bool_decide (b ∈ pr_stopCh p) then p else add_open (Informers b) p in
  if pr_done p then bridge_Stop b p
  else mkProc (pr_open p) (pr_stopCh p) (b :: pr_hooks p) (pr_done p) (pr_waits p).

(** The context ends: the goroutines that wait for it stop their bridges. *)
Definition signal (p : proc) : proc :=
  foldr bridge_Stop (mkProc (pr_open p) (pr_stopCh p) [] true (pr_waits p)) (pr_hooks p).

(** [<-ctx.Done()], also inside a goroutine the code waits for. *)
Definition wait_done (p : proc) : proc :=
  if pr_done p then p
  else signal (mkProc (pr_open p) (pr_stopCh p) (pr_hooks p) (pr_done p) (pr_waits p ++ [ForSignal])).

(** *** repository/connection *)

Definition DriverSQLite : string := "sqlite".
Definition DriverPostgres : string := "postgres".

Record ConnConfig := mkConnConfig {
  cc_Driver : string; cc_DSN : string; cc_Path : string; cc_AutoMigrate : bool;
}.

(** [OpenSQLite] and [OpenPostgres]; the value is the connection's driver. *)
Definition OpenDriver (driver missing dsn : string) (autoMigrate : bool) : go proc string :=
  if bool_decide (dsn = "") then throw (errors_New missing)
  else
    acquire Database ≫= fun _ =>
    (if autoMigrate then try AutoMigrate else mret tt) ≫= fun _ =>
    mret driver.

Definition OpenSQLite : string -> bool -> go proc string := OpenDriver DriverSQLite "sqlite path is required".
Definition OpenPostgres : string -> bool -> go proc string := OpenDriver DriverPostgres "postgres dsn is required".

Definition connection_Open (cfg : ConnConfig) : go proc string :=
  if bool_decide (cc_Driver cfg = DriverSQLite) then OpenSQLite (cc_Path cfg) (cc_AutoMigrate cfg)
  else if bool_decide (cc_Driver cfg = DriverPostgres) then OpenPostgres (cc_DSN cfg) (cc_AutoMigrate cfg)
  else throw (Errorf "unsupported driver %q" [cc_Driver cfg]).

Definition connection_Close : go proc () := try SqlDB ≫= fun _ => release Database.

(** *** dns/engine.go *)

(** The fields, of the engine and of its options, that decide what is opened and
    closed; the records and the forwarder are in DnsEngine. *)
Record DnsLife := mkDnsLife {
  dl_udpServer : bool; dl_tcpServer : bool; dl_k8sBridge : bool; dl_geoDriver : bool; dl_k8sLoaded : bool;
}.

Record DnsOptions := mkDnsOptions { do_GeoIPEnabled : bool; do_GeoIPMMDBPath : string; do_K8sEnabled : bool }.

(** [initGeoIP] and [initK8sBridge]: an error leaves the part out. *)
Definition initGeoIP (opts : DnsOptions) : go proc bool :=
  if negb (do_GeoIPEnabled opts) || bool_decide (TrimSpace (do_GeoIPMMDBPath opts) = "") then mret false
  else r ← attempt (acquire GeoDatabase); mret (is_ok r).

Definition dns_New (opts : DnsOptions) : go proc DnsLife :=
  geo ← initGeoIP opts;
  bridge ← (if do_K8sEnabled opts then r ← attempt (try (NewBridge DNSBridge)); mret (is_ok r) else mret false);
  mret (mkDnsLife false false bridge geo false).

Definition on_proc {C A} (m : go proc A) : go (C * proc) A := zoom snd (fun p s => (s.1, p)) m.
Definition on_part {C} (f : C -> C) : go (C * proc) () := modify (fun s => (f s.1, s.2)).
Definition part {C} : go (C * proc) C := fun s => (s, Ok s.1).

Definition dns_BindContext : go (DnsLife * proc) () :=
  e ← part;
  if dl_k8sBridge e && negb (dl_k8sLoaded e) then
    try (LoadBridge DNSBridge) ≫= fun _ =>
    on_part (fun e => mkDnsLife (dl_udpServer e) (dl_tcpServer e) (dl_k8sBridge e) (dl_geoDriver e) true)
  else mret tt.

(** The servers bind in goroutines of their own, which only log an error. *)
Definition dns_Listen (listenAddr : string) : go (DnsLife * proc) () :=
  e ← part;
  if dl_udpServer e || dl_tcpServer e then throw (errors_New "dns engine is already listening")
  else if bool_decide (TrimSpace listenAddr = "") then throw (errors_New "listen address is required")
  else
    on_part (fun e => mkDnsLife true true (dl_k8sBridge e) (dl_geoDriver e) (dl_k8sLoaded e)) ≫= fun _ =>
    on_proc (ignore (acquire UDPServer)) ≫= fun _ =>
    on_proc (ignore (acquire TCPServer)) ≫= fun _ =>
    if dl_k8sBridge e then on_proc (modify (bridge_Listen DNSBridge)) else mret tt.

(** [Server.Shutdown] of miekg/dns, which refuses a server that is not running. *)
Definition dns_Shutdown (r : resource) : go proc () :=
  p ← get_state;
  if bool_decide (r ∈ pr_open p) then release r else throw (errors_New "dns: server not started").

Definition error_text (r : result ()) : list string :=
  match r with Ok _ => [] | Err e => [err_format e] end.

Definition dns_Stop : go (DnsLife * proc) () :=
  e ← part;
  r1 ← (if dl_udpServer e then attempt (on_proc (dns_Shutdown UDPServer)) else mret (Ok tt));
  r2 ← (if dl_tcpServer e then attempt (on_proc (dns_Shutdown TCPServer)) else mret (Ok tt));
  on_part (fun e => mkDnsLife false false (dl_k8sBridge e) (dl_geoDriver e) (dl_k8sLoaded e)) ≫= fun _ =>
  let errs := error_text r1 ++ error_text r2 in
  if bool_decide (errs <> []) then throw (Errorf "dns stop failed: %s" [Join errs "; "])
  else
    (if dl_k8sBridge e then on_proc (modify (bridge_Stop DNSBridge)) else mret tt) ≫= fun _ =>
    if dl_geoDriver e then
      on_proc (release GeoDatabase) ≫= fun _ =>
      on_part (fun e => mkDnsLife (dl_udpServer e) (dl_tcpServer e) (dl_k8sBridge e) false (dl_k8sLoaded e))
    else mret tt.

(** *** ingress/engine.go, engine_http.go, engine_tls.go *)

(** A sub-engine with its address and whether its listener is set. *)
Record sub_engine := mkSub { su_addr : string; su_listener : bool }.

(** Likewise; the routes and bindings are in IngressEngine. *)
Record IngLife := mkIngLife {
  il_httpEngine : option sub_engine; il_tlsEngine : option sub_engine; il_tlsResolver : bool;
  il_k8sBridge : bool; il_k8sLoaded : bool;
}.

Definition NewHTTPEngine (listenAddr : string) : result sub_engine :=
  if bool_decide (listenAddr = "") then Err (errors_New "http listen address is required")
  else Ok (mkSub listenAddr false).

Definition NewTLSEngine (resolver : bool) (addr : string) : result sub_engine :=
  if negb resolver then Err (errors_New "tls certificate resolver is required") else Ok (mkSub addr false).

Definition ing_New (httpAddr tlsAddr : string) (resolver k8sEnabled : bool) : go proc IngLife :=
  if bool_decide (TrimSpace httpAddr = "") && bool_decide (TrimSpace tlsAddr = "")
  then throw (errors_New "at least one ingress listen address is required")
  else if bool_decide (TrimSpace tlsAddr <> "") && negb resolver
  then throw (errors_New "tls certificate resolver is required when tls listen address is configured")
  else
    http ← (if bool_decide (TrimSpace httpAddr <> "") then lift (Some <$> NewHTTPEngine httpAddr) else mret None);
    tls ← (if bool_decide (TrimSpace tlsAddr <> "") then lift (Some <$> NewTLSEngine resolver tlsAddr) else mret None);
    bridge ← (if k8sEnabled then try (NewBridge IngressBridge) ≫= fun _ => mret true else mret false);
    mret (mkIngLife http tls resolver bridge false).

Definition ing_BindContext : go (IngLife * proc) () :=
  e ← part;
  if il_k8sBridge e && negb (il_k8sLoaded e) then
    try (LoadBridge IngressBridge) ≫= fun _ =>
    on_part (fun e => mkIngLife (il_httpEngine e) (il_tlsEngine e) (il_tlsResolver e) (il_k8sBridge e) true)
  else mret tt.

Definition HTTPEngine_Listen (e : sub_engine) : go proc sub_engine :=
  if su_listener e then throw (errors_New "http listener already started")
  else acquire HTTPListener ≫= fun _ => mret (mkSub (su_addr e) true).

Definition TLSEngine_Listen (e : sub_engine) : go proc sub_engine :=
  if bool_decide (su_addr e = "") then throw (errors_New "tls server is missing listen address")
  else if su_listener e then throw (errors_New "tls listener already started")
  else acquire TLSListener ≫= fun _ => mret (mkSub (su_addr e) true).

(** [http.Server.Shutdown] closes the listener that [Serve] was given. *)
Definition HTTPEngine_Stop : go proc () := release HTTPListener.

Definition TLSEngine_Stop (e : sub_engine) : go proc () :=
  (if su_listener e then modify (remove_open TLSListener) else mret tt) ≫= fun _ => release TLSListener.

(** A call through a nil interface. *)
Definition nil_dereference : error := errors_New "invalid memory address or nil pointer dereference".

Definition resolver_Start : go (IngLife * proc) () :=
  e ← part;
  if il_tlsResolver e then
    r ← attempt (on_proc (modify (remove_open CertWatcher) ≫= fun _ => acquire CertWatcher));
    if is_ok r then mret tt else throw (errors_New "failed to start TLS certificate resolver")
  else throw nil_dereference.

(** The listeners of the sub-engines that are there. *)
Definition http_listen (i : IngLife) : go (IngLife * proc) () :=
  match il_httpEngine i with
  | None => mret tt
  | Some h =>
      h ← on_proc (HTTPEngine_Listen h);
      on_part (fun e => mkIngLife (Some h) (il_tlsEngine e) (il_tlsResolver e) (il_k8sBridge e) (il_k8sLoaded e))
  end.

Definition tls_listen (i : IngLife) : go (IngLife * proc) () :=
  match il_tlsEngine i with
  | None => mret tt
  | Some t =>
      t ← on_proc (TLSEngine_Listen t);
      on_part (fun e => mkIngLife (il_httpEngine e) (Some t) (il_tlsResolver e) (il_k8sBridge e) (il_k8sLoaded e))
  end.

Definition ing_Listen : go (IngLife * proc) () :=
  resolver_Start ≫= fun _ =>
  e ← part;
  if bool_decide (il_httpEngine e = None) && bool_decide (il_tlsEngine e = None)
  then throw (errors_New "no ingress sub-engine configured")
  else
    http_listen e ≫= fun _ =>
    tls_listen e ≫= fun _ =>
    if il_k8sBridge e then on_proc (modify (bridge_Listen IngressBridge)) else mret tt.

Definition ing_Stop : go (IngLife * proc) () :=
  e ← part;
  r1 ← match il_httpEngine e with None => mret (Ok tt) | Some _ => attempt (on_proc HTTPEngine_Stop) end;
  r2 ← match il_tlsEngine e with None => mret (Ok tt) | Some t => attempt (on_proc (TLSEngine_Stop t)) end;
  (if il_k8sBridge e then on_proc (modify (bridge_Stop IngressBridge)) else mret tt) ≫= fun _ =>
  let errs := error_text r1 ++ error_text r2 in
  if bool_decide (errs <> []) then throw (Errorf "ingress stop failed: %s" [Join errs "; "]) else mret tt.

(** *** engine/slave/store.go *)

Definition DefaultMetadataDBName : string := "meta.db".
Definition DefaultCertificatesDir : string := "certs".

Record StoreLife := mkStoreLife { so_CacheRoot : string; so_certRoot : string; so_db : bool; so_fs : FS }.

Definition MetadataDBPath (cacheRoot : string) : string := path_Join [cacheRoot; DefaultMetadataDBName].
Definition CertificatesRoot (cacheRoot : string) : string := path_Join [cacheRoot; DefaultCertificatesDir].

Definition NewLocalStore (cacheRoot : string) (fs : FS) : result StoreLife :=
  let cacheRoot := TrimSpace cacheRoot in
  if bool_decide (cacheRoot = "") then Err (errors_New "cache root is required")
  else Ok (mkStoreLife cacheRoot (CertificatesRoot cacheRoot) false fs).

Definition store_fs (m : go FS ()) : go (StoreLife * proc) () :=
  zoom (fun s => so_fs s.1)
    (fun fs s => (mkStoreLife (so_CacheRoot s.1) (so_certRoot s.1) (so_db s.1) fs, s.2)) m.

(** The database is the file [MetadataDBPath]. *)
Definition store_Start : go (StoreLife * proc) () :=
  s ← part;
  store_fs (os_MkdirAll (so_CacheRoot s)) ≫= fun _ =>
  store_fs (os_MkdirAll (so_certRoot s)) ≫= fun _ =>
  on_proc (acquire Database) ≫= fun _ =>
  on_part (fun s => mkStoreLife (so_CacheRoot s) (so_certRoot s) true (so_fs s)) ≫= fun _ =>
  try AutoMigrate.

Definition store_Close : go (StoreLife * proc) () :=
  s ← part;
  if so_db s then try SqlDB ≫= fun _ => on_proc (release Database) else mret tt.

(** *** engine/slave/engine.go *)

Record SlaveConfig := mkSlaveConfig {
  sc_CacheRoot : string;
  sc_MasterAddress : string;
  sc_RetryMinBackoff : Z;
  sc_RetryMaxBackoff : Z;
  sc_DNSListenAddr : string;
  sc_DNSForwardEnabled : bool;
  sc_DNSForwardServers : list string;
  sc_DNSForwardTimeout : Z;
  sc_DNSGeoIPEnabled : bool;
  sc_DNSGeoIPMMDBPath : string;
  sc_DNSK8sEnabled : bool;
  sc_IngressHTTPAddr : string;
  sc_IngressTLSAddr : string;
  sc_IngressK8sEnabled : bool;
  sc_IngressK8sNS : string;
  sc_IngressK8sClass : string;
  sc_IngressLRUSize : Z;
  sc_MasterManageURL : string;
  sc_HealthListenAddr : string;
}.

Record Slave := mkSlave {
  sv_Cache : StoreLife;
  sv_DNS : option DnsLife;
  sv_Ingress : option IngLife;
  sv_healthServer : bool;
  sv_ready : bool;
  sv_backoff : Z * Z;
}.

(** The rest of the configuration goes to the parts of the engine that are
    modelled on their own. *)
Definition slave_New (cfg : SlaveConfig) (fs : FS) : go proc Slave :=
  store ← lift (NewLocalStore (sc_CacheRoot cfg) fs);
  dns ← (if bool_decide (sc_DNSListenAddr cfg <> "") then
           d ← dns_New (mkDnsOptions (sc_DNSGeoIPEnabled cfg) (sc_DNSGeoIPMMDBPath cfg) (sc_DNSK8sEnabled cfg));
           mret (Some d)
         else mret None);
  ingress ← (if bool_decide (sc_IngressHTTPAddr cfg <> "") || bool_decide (sc_IngressTLSAddr cfg <> "") then
               i ← ing_New (sc_IngressHTTPAddr cfg) (sc_IngressTLSAddr cfg) true (sc_IngressK8sEnabled cfg);
               mret (Some i)
             else mret None);
  mret (mkSlave store dns ingress false false (default_backoff (sc_RetryMinBackoff cfg) (sc_RetryMaxBackoff cfg))).

Definition on_Cache (m : go (StoreLife * proc) ()) : go (Slave * proc) () :=
  zoom (fun s => (sv_Cache s.1, s.2))
    (fun c s => (mkSlave c.1 (sv_DNS s.1) (sv_Ingress s.1) (sv_healthServer s.1) (sv_ready s.1) (sv_backoff s.1), c.2)) m.

(** A method of the DNS engine or of the ingress engine, which are there. *)
Definition on_DNS (m : go (DnsLife * proc) ()) : go (Slave * proc) () := fun s =>
  match sv_DNS s.1 with
  | None => (s, Ok tt)
  | Some d => let '((d, p), r) := m (d, s.2) in
              ((mkSlave (sv_Cache s.1) (Some d) (sv_Ingress s.1) (sv_healthServer s.1) (sv_ready s.1) (sv_backoff s.1), p), r)
  end.
Definition on_Ingress (m : go (IngLife * proc) ()) : go (Slave * proc) () := fun s =>
  match sv_Ingress s.1 with
  | None => (s, Ok tt)
  | Some i => let '((i, p), r) := m (i, s.2) in
              ((mkSlave (sv_Cache s.1) (sv_DNS s.1) (Some i) (sv_healthServer s.1) (sv_ready s.1) (sv_backoff s.1), p), r)
  end.

Definition set_health (b : bool) : go (Slave * proc) () :=
  on_part (fun s => mkSlave (sv_Cache s) (sv_DNS s) (sv_Ingress s) b (sv_ready s) (sv_backoff s)).
Definition set_ready (b : bool) : go (Slave * proc) () :=
  on_part (fun s => mkSlave (sv_Cache s) (sv_DNS s) (sv_Ingress s) (sv_healthServer s) b (sv_backoff s)).

Definition startHealthServer (cfg : SlaveConfig) : go (Slave * proc) () :=
  if bool_decide (TrimSpace (sc_HealthListenAddr cfg) = "") then mret tt
  else on_proc (acquire HealthListener) ≫= fun _ => set_health true.

Definition stopHealthServer : go (Slave * proc) () :=
  s ← part;
  if sv_healthServer s then
    err ← attempt (on_proc (release HealthListener));
    set_health false ≫= fun _ => lift err
  else mret tt.

(** The loop of [Start], given how the attempts end; while none has ended the
    process waits for its signal. *)
Fixpoint subscribe_loop (attempts : list attempt_end) : go (Slave * proc) () :=
  match attempts with
  | Failed :: attempts => set_ready false ≫= fun _ => subscribe_loop attempts
  | Finished :: _ =>
      set_ready false ≫= fun _ =>
      s ← get_state; if pr_done s.2 then throw Canceled else mret tt
  | [] | Cancelled :: _ =>
      on_proc (modify wait_done) ≫= fun _ => set_ready false ≫= fun _ => throw Canceled
  end.

Definition with_DNS (cfg : SlaveConfig) (k : go (Slave * proc) ()) : go (Slave * proc) () :=
  s ← part;
  if bool_decide (sv_DNS s = None) then k
  else
    on_DNS dns_BindContext ≫= fun _ =>
    on_DNS (dns_Listen (sc_DNSListenAddr cfg)) ≫= fun _ =>
    defer_call (on_DNS dns_Stop) (
      on_proc (modify (add_open RestoreLoop)) ≫= fun _ =>
      defer_call (on_proc (modify (remove_open RestoreLoop))) k).

Definition with_Ingress (k : go (Slave * proc) ()) : go (Slave * proc) () :=
  s ← part;
  if bool_decide (sv_Ingress s = None) then k
  else
    on_Ingress ing_BindContext ≫= fun _ =>
    on_Ingress ing_Listen ≫= fun _ =>
    defer_call (on_Ingress ing_Stop) k.

Definition with_master_conn (cfg : SlaveConfig) (k : go (Slave * proc) ()) : go (Slave * proc) () :=
  r ← attempt (on_proc (acquire MasterConn));
  if is_ok r then defer_call (on_proc (release MasterConn)) k
  else throw (errors_New ("failed to dial gRPC to master at " ++ sc_MasterAddress cfg)).

Definition slave_Start (cfg : SlaveConfig) (attempts : list attempt_end) : go (Slave * proc) () :=
  on_Cache store_Start ≫= fun _ =>
  defer_call (on_Cache store_Close) (
    with_DNS cfg (with_Ingress (with_master_conn cfg (
      startHealthServer cfg ≫= fun _ =>
      defer_call stopHealthServer (subscribe_loop attempts))))).

(** *** engine/master/engine.go *)

Record MasterConfig := mkMasterConfig {
  mc_StorageDriver : string;
  mc_SQLitePath : string;
  mc_PostgresDSN : string;
  mc_AutoMigrate : bool;
  mc_K8sBridgeEnabled : bool;
  mc_K8sNamespace : string;
  mc_K8sIngressClass : string;
  mc_ReplicationListenAddr : string;
  mc_ManageListenAddr : string;
  mc_ShutdownTimeout : Z;
}.

(** The configuration after [New], and the factory's. *)
Definition master_New (cfg : MasterConfig) : MasterConfig * ConnConfig :=
  let timeout := if bool_decide (mc_ShutdownTimeout cfg <= 0) then 5 * 1000000000 else mc_ShutdownTimeout cfg in
  let driver := if bool_decide (mc_StorageDriver cfg = "") then DriverPostgres else mc_StorageDriver cfg in
  (mkMasterConfig driver (mc_SQLitePath cfg) (mc_PostgresDSN cfg) (mc_AutoMigrate cfg) (mc_K8sBridgeEnabled cfg)
     (mc_K8sNamespace cfg) (mc_K8sIngressClass cfg) (mc_ReplicationListenAddr cfg) (mc_ManageListenAddr cfg) timeout,
   mkConnConfig driver (mc_PostgresDSN cfg) (mc_SQLitePath cfg) (mc_AutoMigrate cfg)).

(** The parts of the engine that [Start] fills in: the factory's connection, the
    bundle provider and the bridge. *)
Record MasterLife := mkMasterLife { ml_conn : option string; ml_Bundles : bool; ml_K8sBridge : bool }.

Definition new_master : MasterLife := mkMasterLife None false false.

(** repository/factory.go *)
Definition factory_Start (cfg : ConnConfig) : go (MasterLife * proc) () :=
  conn ← on_proc (connection_Open cfg);
  on_part (fun m => mkMasterLife (Some conn) (ml_Bundles m) (ml_K8sBridge m)).

Definition factory_Close : go (MasterLife * proc) () :=
  m ← part;
  match ml_conn m with
  | None => throw nil_dereference
  | Some _ => on_proc connection_Close
  end.

(** bridge.go: [New] with the cluster's clients, [LoadInitial], [Listen], [Stop]. *)
Definition master_bridges : list bridge := [MasterDNS; MasterIngress; MasterGateway].

Definition bridges_New : go (MasterLife * proc) () :=
  for_each (fun b => try (NewBridge b)) master_bridges ≫= fun _ =>
  on_part (fun m => mkMasterLife (ml_conn m) (ml_Bundles m) true).
Definition bridges_LoadInitial : go (MasterLife * proc) () :=
  for_each (fun b => try (LoadBridge b)) master_bridges.
Definition bridges_Listen (p : proc) : proc := foldl (fun p b => bridge_Listen b p) p master_bridges.
Definition bridges_Stop (p : proc) : proc := foldl (fun p b => bridge_Stop b p) p master_bridges.

Definition with_bridges (k : go (MasterLife * proc) ()) : go (MasterLife * proc) () :=
  m ← part;
  if ml_K8sBridge m then
    bridges_LoadInitial ≫= fun _ =>
    on_proc (modify bridges_Listen) ≫= fun _ =>
    defer_call (on_proc (modify bridges_Stop)) k
  else k.

(** cert_reconciler.go: [Stop] waits for [run], which ends with the context. *)
Definition certs_Stop (p : proc) : proc := remove_open Reconciler (wait_done p).

Definition with_certs (k : go (MasterLife * proc) ()) : go (MasterLife * proc) () :=
  on_proc (modify (add_open Reconciler)) ≫= fun _ =>
  defer_call (on_proc (modify certs_Stop)) k.

(** [NewGRPCServerEasy] and [Close], whose [GracefulStop] waits for open calls. *)
Definition grpc_Close (p : proc) : proc :=
  let p := remove_open ReplicationListener p in
  mkProc (pr_open p) (pr_stopCh p) (pr_hooks p) (pr_done p) (pr_waits p ++ [ForClients]).

Definition with_replication (cfg : MasterConfig) (k : go (MasterLife * proc) ()) : go (MasterLife * proc) () :=
  if bool_decide (mc_ReplicationListenAddr cfg <> "") then
    r ← attempt (on_proc (acquire ReplicationListener));
    if is_ok r then defer_call (on_proc (modify grpc_Close)) k
    else throw (errors_New "failed to create replication gRPC server")
  else k.

Definition with_manage (cfg : MasterConfig) (k : go (MasterLife * proc) ()) : go (MasterLife * proc) () :=
  if bool_decide (mc_ManageListenAddr cfg <> "") then
    on_proc (acquire ManageListener) ≫= fun _ => defer_call (on_proc (release ManageListener)) k
  else k.

Definition master_Start (cfg : MasterConfig) (conn : ConnConfig) : go (MasterLife * proc) () :=
  factory_Start conn ≫= fun _ =>
  defer_call factory_Close (
    m ← part;
    (if ml_Bundles m then mret tt
     else try NewBundles ≫= fun _ => on_part (fun m => mkMasterLife (ml_conn m) true (ml_K8sBridge m))) ≫= fun _ =>
    (if mc_K8sBridgeEnabled cfg && negb (ml_K8sBridge m) then bridges_New else mret tt) ≫= fun _ =>
    with_bridges (with_certs (with_replication cfg (with_manage cfg (
      on_proc (modify wait_done) ≫= fun _ => throw Canceled))))).

End lifecycle.
