(* ===== verification/LifecycleFacts.v ===== *)
(** * What the processes leave behind

    Whatever fails while a process starts or runs, what its [Start] opened is
    closed when it returns, with the exceptions named; and when it returns. *)

From S2P Require Import Prelude GoStrings GoPath GoFS Grpc SlaveEngine Lifecycle.

Open Scope Z_scope.

(** ** Calls and the open resources *)

Section frame.
Context {EN : Env}.

Definition absent (X : resource) (p : proc) : Prop := X ∉ pr_open p.
Definition present (X : resource) (p : proc) : Prop := X ∈ pr_open p.

Lemma preserves_lift {S A} (P : S -> Prop) (r : result A) : preserves P (lift r).
Proof. by intros s H. Qed.

Lemma preserves_modified {S} (P : S -> Prop) f : (forall s, P s -> P (f s)) -> preserves P (modify f).
Proof. intros H s Hs. by apply H. Qed.

Lemma preserves_get {S} (P : S -> Prop) : preserves P get_state.
Proof. by intros s H. Qed.

Lemma preserves_try {S} (P : S -> Prop) c : preserves P (try (S:=S) c).
Proof. apply preserves_lift. Qed.

Lemma preserves_defer_call {S A B} (P : S -> Prop) (c : go S B) (m : go S A) :
  preserves P m -> preserves P c -> preserves P (defer_call c m).
Proof.
  intros Hm Hc s Hs. unfold defer_call, defer. specialize (Hm s Hs). destruct (m s) as [s' r]. by apply Hc.
Qed.

(** A deferred call that establishes a property does so whatever the body did. *)
Lemma defer_call_ensures {S A B} (I P : S -> Prop) (c : go S B) (m : go S A) s :
  preserves I m -> (forall s, I s -> P (c s).1) -> I s -> P (defer_call c m s).1.
Proof.
  intros Hm Hc Hs. unfold defer_call, defer. specialize (Hm s Hs). destruct (m s) as [s' r]. by apply Hc.
Qed.

Lemma preserves_part {C} (P : C * proc -> Prop) : preserves P part.
Proof. by intros s H. Qed.

Lemma preserves_on_part {C} (P : proc -> Prop) (f : C -> C) : preserves (fun s => P s.2) (on_part f).
Proof. by intros s H. Qed.

Lemma preserves_on_proc {C A} (P : proc -> Prop) (m : go proc A) :
  preserves P m -> preserves (fun s : C * proc => P s.2) (on_proc m).
Proof.
  intros Hm [c p] Hp. unfold on_proc, zoom. cbn in *. specialize (Hm p Hp). by destruct (m p).
Qed.

Lemma preserves_acquire (P : proc -> Prop) r :
  (forall p, P p -> P (add_open r p)) -> preserves P (acquire r).
Proof. intros H. apply preserves_bind; [apply preserves_try|]. intros _. by apply preserves_modified. Qed.

Lemma preserves_release (P : proc -> Prop) r :
  (forall p, P p -> P (remove_open r p)) -> preserves P (release r).
Proof. intros H. apply preserves_bind; [by apply preserves_modified|]. intros _. apply preserves_try. Qed.

Lemma absent_add X r p : X <> r -> absent X p -> absent X (add_open r p).
Proof. unfold absent. cbn. set_solver. Qed.

Lemma absent_remove X r p : absent X p -> absent X (remove_open r p).
Proof. unfold absent. cbn. rewrite list_elem_of_filter. tauto. Qed.

Lemma absent_removed X p : absent X (remove_open X p).
Proof. unfold absent. cbn. rewrite list_elem_of_filter. tauto. Qed.

Lemma present_add X r p : present X p -> present X (add_open r p).
Proof. unfold present. cbn. set_solver. Qed.

Lemma present_remove X r p : X <> r -> present X p -> present X (remove_open r p).
Proof. unfold present. cbn. rewrite list_elem_of_filter. tauto. Qed.

(** *** Bridges *)

Lemma bridge_Stop_open X b p : X ∈ pr_open (bridge_Stop b p) -> X ∈ pr_open p.
Proof. unfold bridge_Stop. case_bool_decide; [done|]. cbn. rewrite list_elem_of_filter. tauto. Qed.

Lemma bridge_Stop_other X b p : X <> Informers b -> X ∈ pr_open p -> X ∈ pr_open (bridge_Stop b p).
Proof. intros H. unfold bridge_Stop. case_bool_decide; [done|]. cbn. rewrite list_elem_of_filter. tauto. Qed.

Lemma bridge_Listen_open X b p : X <> Informers b -> X ∈ pr_open (bridge_Listen b p) -> X ∈ pr_open p.
Proof.
  intros HX. unfold bridge_Listen. intros H.
  assert (X ∈ pr_open (if bool_decide (b ∈ pr_stopCh p) then p else add_open (Informers b) p)) as H'.
  { destruct (pr_done _); [by apply bridge_Stop_open in H|done]. }
  destruct (bool_decide _); [done|]. cbn in H'. set_solver.
Qed.

Lemma bridge_Listen_other X b p : X <> Informers b -> X ∈ pr_open p -> X ∈ pr_open (bridge_Listen b p).
Proof.
  intros HX H. unfold bridge_Listen.
  assert (X ∈ pr_open (if bool_decide (b ∈ pr_stopCh p) then p else add_open (Informers b) p)) as H'
    by (destruct (bool_decide _); [done|]; cbn; set_solver).
  destruct (pr_done _); [by apply bridge_Stop_other|done].
Qed.

Lemma signal_open X p : X ∈ pr_open (signal p) -> X ∈ pr_open p.
Proof.
  unfold signal. set (p0 := mkProc _ _ [] true _). change (pr_open p) with (pr_open p0).
  induction (pr_hooks p) as [|b bs IH]; [done|]. cbn. intros H%bridge_Stop_open. auto.
Qed.

Lemma signal_other X p : (forall b, X <> Informers b) -> X ∈ pr_open p -> X ∈ pr_open (signal p).
Proof.
  intros HX. unfold signal. set (p0 := mkProc _ _ [] true _). change (pr_open p) with (pr_open p0).
  induction (pr_hooks p) as [|b bs IH]; [done|]. cbn. intros H. apply bridge_Stop_other; auto.
Qed.

Lemma bridge_Stop_done b p : pr_done (bridge_Stop b p) = pr_done p /\ pr_waits (bridge_Stop b p) = pr_waits p.
Proof. unfold bridge_Stop. by case_bool_decide. Qed.

Lemma signal_done p : pr_done (signal p) = true /\ pr_waits (signal p) = pr_waits p.
Proof.
  unfold signal. set (p0 := mkProc _ _ [] true _). change (pr_waits p) with (pr_waits p0).
  induction (pr_hooks p) as [|b bs IH]; [done|]. cbn. destruct (bridge_Stop_done b (foldr bridge_Stop p0 bs)) as [-> ->].
  done.
Qed.

Lemma wait_done_open X p : X ∈ pr_open (wait_done p) -> X ∈ pr_open p.
Proof. unfold wait_done. destruct (pr_done p); [done|]. by intros H%signal_open. Qed.

Lemma wait_done_other X p : (forall b, X <> Informers b) -> X ∈ pr_open p -> X ∈ pr_open (wait_done p).
Proof. unfold wait_done. destruct (pr_done p); [done|]. intros. by apply signal_other. Qed.

Lemma wait_done_done p : pr_done (wait_done p) = true.
Proof. unfold wait_done. destruct (pr_done p) eqn:E; [done|]. apply signal_done. Qed.

End frame.

(** ** The master *)

Section master.
Context {EN : Env}.

(** Opening the database: an error leaves it open only when the migration
    failed. *)
Lemma connection_open_cases cfg p :
  let '(p', r) := connection_Open cfg p in
  match r with
  | Ok _ => p' = add_open Database p
  | Err _ => p' = p \/ p' = add_open Database p /\ is_Some (fails AutoMigrate)
  end.
Proof.
  assert (forall driver missing dsn auto, let '(p', r) := OpenDriver driver missing dsn auto p in
    match r with
    | Ok _ => p' = add_open Database p
    | Err _ => p' = p \/ p' = add_open Database p /\ is_Some (fails AutoMigrate)
    end) as H.
  { intros driver missing dsn auto. unfold OpenDriver, acquire, try, modify. cbv [mbind go_bind].
    case_bool_decide; [by left|]. unfold lift. destruct (fails (Open Database)); [by left|].
    destruct auto; [|done]. destruct (fails AutoMigrate); [|done]. right. eauto. }
  unfold connection_Open. repeat case_bool_decide; [apply H|apply H|by left].
Qed.

(** The informers of a bridge whose stop channel is closed do not run. *)
Definition stopped_ok (p : proc) : Prop := forall b, b ∈ pr_stopCh p -> Informers b ∉ pr_open p.

(** A call after which nothing is open that was not before, and none of [Xs]. *)
Definition closes {C A} (Xs : list resource) (c : go (C * proc) A) : Prop :=
  forall s, stopped_ok s.2 -> stopped_ok (c s).1.2 /\
    forall X, X ∈ pr_open (c s).1.2 -> X ∈ pr_open s.2 /\ X ∉ Xs.

(** A body leaves what was there. *)
Definition clean {C} (k : go (C * proc) ()) : Prop := closes [] k.

Lemma clean_defer {C B} Xs (c : go (C * proc) B) (k : go (C * proc) ()) :
  clean k -> closes Xs c -> closes Xs (defer_call c k).
Proof.
  intros Hk Hc s Hs. unfold defer_call, defer. destruct (Hk s Hs) as [Hs1 H1]. destruct (k s) as [s' r]. cbn in *.
  destruct (Hc s' Hs1) as [Hs2 H2]. split; [done|]. intros X HX. destruct (H2 X HX). by destruct (H1 X).
Qed.

(** Opening [r] before a body that closes it. *)
Lemma opened_clean {C} r (k : go (C * proc) ()) c p :
  (forall b, r <> Informers b) -> closes [r] k -> stopped_ok p ->
  stopped_ok (k (c, add_open r p)).1.2 /\
  forall X, X ∈ pr_open (k (c, add_open r p)).1.2 -> X ∈ pr_open p /\ X ∉ (@nil resource).
Proof.
  intros Hr Hk Hp. destruct (Hk (c, add_open r p)) as [H1 H2].
  - intros b Hb. cbn. intros [E|E]%elem_of_cons; [by apply (Hr b)|]. by apply (Hp b).
  - split; [done|]. intros X HX. destruct (H2 X HX) as [H3 H4]. cbn in *. set_solver.
Qed.

Lemma stopped_remove r p : stopped_ok p -> stopped_ok (remove_open r p).
Proof. intros H b Hb. cbn. rewrite list_elem_of_filter. intros [_ ?]. by apply (H b). Qed.

Lemma bridge_Stop_closes b p :
  stopped_ok p -> stopped_ok (bridge_Stop b p) /\
  forall X, X ∈ pr_open (bridge_Stop b p) -> X ∈ pr_open p /\ X <> Informers b.
Proof.
  intros H. unfold bridge_Stop. case_bool_decide as E.
  - split; [done|]. intros X HX. split; [done|]. intros ->. by apply (H b).
  - split.
    + intros b' Hb. cbn in *. rewrite list_elem_of_filter. intros [H1 H2].
      apply elem_of_cons in Hb as [->|Hb]; [done|]. by apply (H b').
    + intros X. cbn. rewrite list_elem_of_filter. tauto.
Qed.

Lemma signal_stopped p : stopped_ok p -> stopped_ok (signal p).
Proof.
  intros H. unfold signal. assert (stopped_ok (mkProc (pr_open p) (pr_stopCh p) [] true (pr_waits p))) as H0 by done.
  induction (pr_hooks p) as [|b bs IH]; [done|]. cbn. by apply bridge_Stop_closes.
Qed.

Lemma wait_done_stopped p : stopped_ok p -> stopped_ok (wait_done p).
Proof. intros H. unfold wait_done. destruct (pr_done p); [done|]. by apply signal_stopped. Qed.

Lemma bridge_Listen_stopped b p : stopped_ok p -> stopped_ok (bridge_Listen b p).
Proof.
  intros H. unfold bridge_Listen.
  assert (stopped_ok (if bool_decide (b ∈ pr_stopCh p) then p else add_open (Informers b) p)) as H'.
  { case_bool_decide as E; [done|]. intros b' Hb. cbn in *. intros [[= ->]|?]%elem_of_cons; [done|]. by apply (H b'). }
  destruct (pr_done _); [by apply bridge_Stop_closes|done].
Qed.

(** Running a call on the process. *)
Lemma go_bind_assoc {S A B D} (m : go S A) (k : A -> go S B) (h : B -> go S D) s :
  ((m ≫= k) ≫= h) s = (m ≫= fun a => k a ≫= h) s.
Proof. cbv [mbind go_bind]. by destruct (m s) as [s' [a|e]]. Qed.

Lemma bind_on_proc {C A B} (m : go proc A) (k : A -> go (C * proc) B) c p :
  (on_proc m ≫= k) (c, p) =
  match m p with (p', Ok a) => k a (c, p') | (p', Err e) => ((c, p'), Err e) end.
Proof. unfold on_proc, zoom. cbv [mbind go_bind]. cbn. by destruct (m p) as [? [?|?]]. Qed.

Lemma bind_attempt_on_proc {C A B} (m : go proc A) (k : result A -> go (C * proc) B) c p :
  (attempt (on_proc m) ≫= k) (c, p) = k (m p).2 (c, (m p).1).
Proof. unfold attempt, on_proc, zoom. cbv [mbind go_bind]. cbn. by destruct (m p). Qed.

Lemma acquire_cases r p :
  (exists e, fails (Open r) = Some e /\ acquire r p = (p, Err e)) \/
  fails (Open r) = None /\ acquire r p = (add_open r p, Ok tt).
Proof. unfold acquire, try, lift, modify. cbv [mbind go_bind]. destruct (fails (Open r)); eauto. Qed.

Lemma closes_proc {C A} Xs (m : go proc A) :
  (forall p, stopped_ok p -> stopped_ok (m p).1 /\ forall X, X ∈ pr_open (m p).1 -> X ∈ pr_open p /\ X ∉ Xs) ->
  closes (C:=C) Xs (on_proc m).
Proof. intros H [c p] Hp. unfold on_proc, zoom. cbn in *. specialize (H p Hp). by destruct (m p). Qed.

Lemma closes_release {C} r : closes (C:=C) [r] (on_proc (release r)).
Proof.
  apply closes_proc. intros p Hp. unfold release, modify, try, lift. cbv [mbind go_bind]. cbn [fst].
  split; [by apply stopped_remove|]. intros X. cbn. rewrite list_elem_of_filter. set_solver.
Qed.

Lemma closes_modify {C} Xs f :
  (forall p, stopped_ok p -> stopped_ok (f p) /\ forall X, X ∈ pr_open (f p) -> X ∈ pr_open p /\ X ∉ Xs) ->
  closes (C:=C) Xs (on_proc (modify f)).
Proof. intros H. by apply closes_proc. Qed.

Lemma clean_with_manage cfg k : clean k -> clean (with_manage cfg k).
Proof.
  intros Hk [m p] Hp. unfold with_manage. case_bool_decide; [|by apply Hk]. rewrite bind_on_proc.
  destruct (acquire_cases ManageListener p) as [(e & _ & ->)|[_ ->]]; [by split; [|set_solver]|].
  apply opened_clean; [done| |done]. by apply clean_defer, closes_release.
Qed.

Lemma clean_with_replication cfg k : clean k -> clean (with_replication cfg k).
Proof.
  intros Hk [m p] Hp. unfold with_replication. case_bool_decide; [|by apply Hk]. rewrite bind_attempt_on_proc.
  destruct (acquire_cases ReplicationListener p) as [(e & _ & ->)|[_ ->]]; [by split; [|set_solver]|].
  apply opened_clean; [done| |done]. apply clean_defer; [done|]. apply closes_modify. intros p' Hp'.
  split; [by apply (stopped_remove ReplicationListener)|]. intros X. cbn. rewrite list_elem_of_filter. set_solver.
Qed.

Lemma clean_with_certs k : clean k -> clean (with_certs k).
Proof.
  intros Hk [m p] Hp. unfold with_certs. rewrite bind_on_proc. cbn [modify].
  apply opened_clean; [done| |done]. apply clean_defer; [done|]. apply closes_modify. intros p' Hp'.
  split; [by apply stopped_remove, wait_done_stopped|]. intros X. cbn. rewrite list_elem_of_filter.
  intros [H1 H2%wait_done_open]. set_solver.
Qed.

Lemma bridges_Stop_closes p :
  stopped_ok p -> stopped_ok (bridges_Stop p) /\
  forall X, X ∈ pr_open (bridges_Stop p) -> X ∈ pr_open p /\ X ∉ (Informers <$> master_bridges).
Proof.
  intros H. unfold bridges_Stop, master_bridges. cbn [foldl].
  destruct (bridge_Stop_closes MasterDNS _ H) as [S1 C1].
  destruct (bridge_Stop_closes MasterIngress _ S1) as [S2 C2].
  destruct (bridge_Stop_closes MasterGateway _ S2) as [S3 C3].
  split; [done|]. intros X HX. apply C3 in HX as [HX ?]. apply C2 in HX as [HX ?]. apply C1 in HX as [HX ?].
  cbn. set_solver.
Qed.

Lemma bridges_Listen_opens p :
  stopped_ok p -> stopped_ok (bridges_Listen p) /\
  forall X, X ∉ (Informers <$> master_bridges) -> X ∈ pr_open (bridges_Listen p) -> X ∈ pr_open p.
Proof.
  intros H. unfold bridges_Listen, master_bridges. cbn [foldl]. split; [by repeat apply bridge_Listen_stopped|].
  intros X HX. cbn in HX. intros Ho. by do 3 (apply bridge_Listen_open in Ho; [|set_solver]).
Qed.

Lemma try_eq {S} c (s : S) : try c s = (s, match fails c with Some e => Err e | None => Ok tt end).
Proof. done. Qed.

Lemma for_each_try {S} (f : bridge -> sys_call) l (s : S) :
  (for_each (fun b => try (f b)) l s).1 = s /\
  ((for_each (fun b => try (f b)) l s).2 = Ok tt <-> Forall (fun b => fails (f b) = None) l).
Proof.
  induction l as [|b l [IH1 IH2]]; cbn [for_each]; [by split; [|split; [constructor|]]|].
  cbv [mbind go_bind]. rewrite try_eq, Forall_cons. destruct (fails (f b)); [split; [done|naive_solver]|].
  rewrite IH2. naive_solver.
Qed.

Lemma clean_with_bridges k : clean k -> clean (with_bridges k).
Proof.
  intros Hk [m p] Hp. unfold with_bridges. cbv [mbind go_bind part]. cbn [fst].
  destruct (ml_K8sBridge m); [|by apply Hk].
  pose proof (for_each_try LoadBridge master_bridges (m, p)) as [Hl _]. unfold bridges_LoadInitial.
  destruct (for_each _ master_bridges (m, p)) as [s [u|e]]; cbn in Hl; subst s; [|by split; [|set_solver]].
  destruct (bridges_Listen_opens p Hp) as [Hs Ho]. unfold on_proc at 1 2, zoom, modify at 1 2. cbn [fst snd].
  destruct (clean_defer (Informers <$> master_bridges) (on_proc (modify bridges_Stop)) k Hk
    (closes_modify _ _ bridges_Stop_closes) (m, bridges_Listen p) Hs) as [H1 H2].
  split; [done|]. intros X HX. destruct (H2 X HX) as [H3 H4]. split; [by apply Ho|set_solver].
Qed.

Lemma clean_wait {A : Type} : clean (C := A) (on_proc (modify wait_done) ≫= fun _ => throw Canceled).
Proof.
  intros [c p] Hp. rewrite bind_on_proc. cbn. split; [by apply wait_done_stopped|].
  intros X HX%wait_done_open. set_solver.
Qed.

(** *** The signal *)

(** Once the context is done it stays done, and the process waited for it. *)
Definition waited (p : proc) : Prop := pr_done p = true /\ ForSignal ∈ pr_waits p.

Lemma waited_Stop b p : waited p -> waited (bridge_Stop b p).
Proof. unfold waited. by destruct (bridge_Stop_done b p) as [-> ->]. Qed.

Lemma waited_wait p : pr_done p = false -> waited (wait_done p).
Proof.
  unfold wait_done, waited. intros E. rewrite E. set (p1 := mkProc _ _ _ _ _).
  destruct (signal_done p1) as [-> ->]. split; [done|]. cbn. set_solver.
Qed.

(** The process has not been signalled, or waited for it. *)
Definition signal_ok (p : proc) : Prop := pr_done p = false \/ waited p.

Lemma signal_ok_wait p : signal_ok p -> waited (wait_done p).
Proof. intros [H|[H1 H2]]; [by apply waited_wait|]. unfold wait_done, waited. by rewrite H1. Qed.

(** What [Start] returns once the reconciler runs. *)
Definition start_error (cfg : MasterConfig) : error :=
  if bool_decide (mc_ReplicationListenAddr cfg <> "") && bool_decide (is_Some (fails (Open ReplicationListener)))
  then errors_New "failed to create replication gRPC server"
  else if bool_decide (mc_ManageListenAddr cfg <> "") then default Canceled (fails (Open ManageListener))
  else Canceled.

(** A body that returns an error and keeps the signal's state. *)
Definition ends_with {C} (e : error) (k : go (C * proc) ()) : Prop :=
  forall s, signal_ok s.2 -> signal_ok (k s).1.2 /\ (k s).2 = Err e.

Lemma ends_defer {C B} e (c : go (C * proc) B) k :
  ends_with e k -> (forall s, signal_ok s.2 -> signal_ok (c s).1.2) -> ends_with e (defer_call c k).
Proof.
  intros Hk Hc s Hs. unfold defer_call, defer. destruct (Hk s Hs) as [H1 H2]. destruct (k s) as [s' r].
  cbn in *. split; [by apply Hc|done].
Qed.

Lemma ends_wait {C} : ends_with (C:=C) Canceled (on_proc (modify wait_done) ≫= fun _ => throw Canceled).
Proof. intros [c p] Hs. rewrite bind_on_proc. cbn. split; [|done]. right. by apply signal_ok_wait. Qed.

Lemma ends_manage cfg e k :
  ends_with e k ->
  ends_with (if bool_decide (mc_ManageListenAddr cfg <> "") then default e (fails (Open ManageListener)) else e)
    (with_manage cfg k).
Proof.
  intros Hk [m p] Hs. unfold with_manage. case_bool_decide; [|by apply Hk]. rewrite bind_on_proc.
  destruct (acquire_cases ManageListener p) as [(e' & -> & ->)|[-> ->]]; [done|]. cbn [default].
  by apply ends_defer.
Qed.

Lemma ends_replication cfg e k :
  ends_with e k ->
  ends_with (if bool_decide (mc_ReplicationListenAddr cfg <> "") && bool_decide (is_Some (fails (Open ReplicationListener)))
             then errors_New "failed to create replication gRPC server" else e) (with_replication cfg k).
Proof.
  intros Hk [m p] Hs. unfold with_replication. case_bool_decide; [|by apply Hk]. rewrite bind_attempt_on_proc.
  destruct (acquire_cases ReplicationListener p) as [(e' & -> & ->)|[-> ->]]; cbn [snd fst is_ok andb].
  - rewrite bool_decide_true by eauto. done.
  - rewrite bool_decide_false by (by intros []). apply ends_defer; [done| |done].
    intros [m' p'] [H'|[H1 H2]]; [by left|right]. split; [done|]. cbn in *. set_solver.
Qed.

(** The reconciler is only stopped when the context is done. *)
Lemma with_certs_waits e k s :
  ends_with e k -> signal_ok s.2 -> waited (with_certs k s).1.2 /\ (with_certs k s).2 = Err e.
Proof.
  destruct s as [m p]. intros Hk Hs. unfold with_certs. rewrite bind_on_proc. cbn [modify].
  unfold defer_call, defer. destruct (Hk (m, add_open Reconciler p) Hs) as [H1 H2].
  destruct (k (m, add_open Reconciler p)) as [[m' p'] r]. cbn in *. split; [|done].
  by apply signal_ok_wait in H1.
Qed.

Lemma bridges_waited p : waited p -> waited (bridges_Stop p).
Proof. intros H. unfold bridges_Stop, master_bridges. cbn. by repeat apply waited_Stop. Qed.

Lemma bridge_Listen_done b p : pr_done p = false -> pr_done (bridge_Listen b p) = false.
Proof.
  intros H. unfold bridge_Listen.
  assert (pr_done (if bool_decide (b ∈ pr_stopCh p) then p else add_open (Informers b) p) = false) as E
    by (by destruct (bool_decide _)).
  by rewrite E.
Qed.

Definition bridges_ok : Prop := forall b, fails (NewBridge b) = None /\ fails (LoadBridge b) = None.

Lemma with_bridges_waits e k (m : MasterLife) p :
  (forall s, signal_ok s.2 -> waited (k s).1.2 /\ (k s).2 = Err e) -> pr_done p = false ->
  is_ok (with_bridges k (m, p)).2 = false /\
  ((ml_K8sBridge m = true -> bridges_ok) ->
   waited (with_bridges k (m, p)).1.2 /\ (with_bridges k (m, p)).2 = Err e).
Proof.
  intros Hk Hp. unfold with_bridges. cbv [mbind go_bind part]. cbn [fst].
  destruct (ml_K8sBridge m); [|destruct (Hk (m, p)) as [H1 H2]; [by left|by rewrite H2]].
  pose proof (for_each_try LoadBridge master_bridges (m, p)) as [Hl Hok]. unfold bridges_LoadInitial.
  destruct (for_each _ master_bridges (m, p)) as [s [u|er]]; cbn in Hl, Hok; subst s.
  2: { split; [done|]. intros Hb. assert (Err er = Ok tt); [|done].
       apply Hok, Forall_forall. intros b _. by apply Hb. }
  unfold on_proc at 1 3 5, zoom, modify at 1 3 5. cbn [fst snd]. unfold defer_call, defer.
  destruct (Hk (m, bridges_Listen p)) as [H1 H2].
  { left. unfold bridges_Listen, master_bridges. cbn. by do 3 apply bridge_Listen_done. }
  destruct (k (m, bridges_Listen p)) as [[m' p'] r]. cbn in *. subst r.
  split; [done|]. intros _. split; [by apply bridges_waited|done].
Qed.

(** *** The whole of [Start] *)

(** The body of [Start] that the factory's deferred [Close] encloses. *)
Definition master_body (cfg : MasterConfig) : go (MasterLife * proc) () :=
  m ← part;
  (if ml_Bundles m then mret tt
   else try NewBundles ≫= fun _ => on_part (fun m => mkMasterLife (ml_conn m) true (ml_K8sBridge m))) ≫= fun _ =>
  (if mc_K8sBridgeEnabled cfg && negb (ml_K8sBridge m) then bridges_New else mret tt) ≫= fun _ =>
  with_bridges (with_certs (with_replication cfg (with_manage cfg (
    on_proc (modify wait_done) ≫= fun _ => throw Canceled)))).

(** Its three ways: no bundles, no bridges, or the listeners with or without
    bridges. *)
Lemma master_body_cases cfg conn p :
  let k := with_bridges (with_certs (with_replication cfg (with_manage cfg (
             on_proc (modify wait_done) ≫= fun _ => throw Canceled)))) in
  (exists e m', master_body cfg (mkMasterLife conn false false, p) = ((m', p), Err e) /\ ml_conn m' = conn /\
     (is_Some (fails NewBundles) \/ mc_K8sBridgeEnabled cfg = true /\ ~ bridges_ok)) \/
  master_body cfg (mkMasterLife conn false false, p) = k (mkMasterLife conn true (mc_K8sBridgeEnabled cfg), p).
Proof.
  intros k. unfold master_body, bridges_New, on_part, modify. cbv [mbind go_bind part].
  cbn [fst snd ml_Bundles ml_K8sBridge ml_conn negb]. rewrite try_eq.
  destruct (fails NewBundles) as [e|]; [left; eexists _, _; split_and!; [done|done|by left; eauto]|].
  cbn [fst snd ml_conn ml_K8sBridge].
  destruct (mc_K8sBridgeEnabled cfg); cbn [andb]; [|by right].
  pose proof (for_each_try NewBridge master_bridges (mkMasterLife conn true false, p)) as [Hl Hok].
  destruct (for_each _ master_bridges (mkMasterLife conn true false, p)) as [s [u|e]];
    cbn [fst snd] in Hl, Hok; subst s; [by right|].
  left. eexists _, _. split_and!; [done|done|right]. split; [done|]. intros Hb.
  assert (Err e = Ok tt); [|done]. apply Hok, Forall_forall. intros b _. apply Hb.
Qed.

(** A call that leaves a part of the engine as it is. *)
Definition keeps {C T A} (F : C -> T) (m : go (C * proc) A) : Prop := forall s, F (m s).1.1 = F s.1.

Lemma keeps_on_proc {C T A} (F : C -> T) (m : go proc A) : keeps F (on_proc m).
Proof. intros [c p]. unfold on_proc, zoom. cbn. by destruct (m p). Qed.

Lemma keeps_on_part {C T} (F : C -> T) f : (forall c, F (f c) = F c) -> keeps F (on_part f).
Proof. intros H s. apply H. Qed.

Lemma keeps_part_bind {C T A B} (F : C -> T) (m : go (C * proc) A) (k : A -> go (C * proc) B) :
  keeps F m -> (forall a, keeps F (k a)) -> keeps F (m ≫= k).
Proof.
  intros Hm Hk s. cbv [mbind go_bind]. specialize (Hm s). destruct (m s) as [s' [a|e]]; [|done].
  by rewrite Hk.
Qed.

Lemma keeps_defer {C T A B} (F : C -> T) (c : go (C * proc) B) (m : go (C * proc) A) :
  keeps F m -> keeps F c -> keeps F (defer_call c m).
Proof. intros Hm Hc s. unfold defer_call, defer. specialize (Hm s). destruct (m s). cbn in *. by rewrite Hc. Qed.

Lemma keeps_attempt {C T A} (F : C -> T) (m : go (C * proc) A) : keeps F m -> keeps F (attempt m).
Proof. intros Hm s. unfold attempt. specialize (Hm s). by destruct (m s). Qed.

Lemma keeps_pure {C T A} (F : C -> T) (r : result A) : keeps F (lift r).
Proof. done. Qed.

Lemma keeps_throw {C T A} (F : C -> T) e : keeps F (throw (A:=A) e).
Proof. done. Qed.

Lemma keeps_ret {C T A} (F : C -> T) (a : A) : keeps F (mret a).
Proof. done. Qed.

Lemma keeps_read {C T} (F : C -> T) : keeps F part.
Proof. done. Qed.

Lemma keeps_part_for_each {C T A} (F : C -> T) (body : A -> go (C * proc) ()) l :
  (forall a, keeps F (body a)) -> keeps F (for_each body l).
Proof. intros Hb. induction l as [|a l IH]; [done|]. by apply keeps_part_bind. Qed.

#[local] Hint Resolve keeps_on_proc keeps_part_bind keeps_defer keeps_attempt keeps_throw keeps_part_for_each
  keeps_pure keeps_ret keeps_read : luna.

Lemma keeps_master cfg :
  keeps id (with_bridges (with_certs (with_replication cfg (with_manage cfg (
    on_proc (modify wait_done) ≫= fun _ => throw Canceled))))).
Proof.
  assert (keeps (C:=MasterLife) id (on_proc (modify wait_done) ≫= fun _ => throw (A:=()) Canceled)) as H0
    by auto with luna.
  assert (keeps id (with_manage cfg (on_proc (modify wait_done) ≫= fun _ => throw Canceled))) as H1
    by (unfold with_manage; case_bool_decide; auto with luna).
  set (k1 := with_manage _ _) in *.
  assert (keeps id (with_replication cfg k1)) as H2.
  { unfold with_replication. case_bool_decide; [|done]. apply keeps_part_bind; [auto with luna|].
    intros []; cbn; auto with luna. }
  set (k2 := with_replication _ _) in *.
  assert (keeps id (with_certs k2)) as H3 by (unfold with_certs; auto with luna).
  set (k3 := with_certs _) in *. unfold with_bridges. apply keeps_part_bind; [done|]. intros m.
  destruct (ml_K8sBridge m); [|done]. apply keeps_part_bind; [by apply keeps_part_for_each|]. auto with luna.
Qed.

Lemma clean_master_body cfg conn p :
  stopped_ok p -> pr_done p = false ->
  let '((m', p'), r) := master_body cfg (mkMasterLife conn false false, p) in
  ml_conn m' = conn /\ is_ok r = false /\ (forall X, X ∈ pr_open p' -> X ∈ pr_open p) /\
  (fails NewBundles = None -> (mc_K8sBridgeEnabled cfg = true -> bridges_ok) ->
   waited p' /\ r = Err (start_error cfg)).
Proof.
  intros Hp Hd. pose proof (master_body_cases cfg conn p) as H. cbn zeta in H.
  destruct H as [(e & m' & -> & Hm & Hf)| ->].
  { split_and!; try done. intros Hb Hbr. destruct Hf as [[? ?]|[H1 H2]]; [congruence|]. by destruct H2; auto. }
  set (k := with_certs _).
  assert (clean (with_bridges k)) as Hclean.
  { apply clean_with_bridges, clean_with_certs, clean_with_replication, clean_with_manage, clean_wait. }
  destruct (Hclean (mkMasterLife conn true (mc_K8sBridgeEnabled cfg), p) Hp) as [_ H2].
  assert (forall s, signal_ok s.2 -> waited (k s).1.2 /\ (k s).2 = Err (start_error cfg)) as Hk.
  { intros s Hs. apply with_certs_waits; [|done]. apply ends_replication, ends_manage, ends_wait. }
  destruct (with_bridges_waits (start_error cfg) k (mkMasterLife conn true (mc_K8sBridgeEnabled cfg)) p Hk Hd)
    as [Hr Hw].
  pose proof (keeps_master cfg (mkMasterLife conn true (mc_K8sBridgeEnabled cfg), p)) as Hm. fold k in Hm.
  destruct (with_bridges k (mkMasterLife conn true (mc_K8sBridgeEnabled cfg), p)) as [[m' p'] r].
  cbn in *. subst m'. split_and!; [done..|intros X HX; by apply H2|auto].
Qed.

(** The master's life.  [Start] never returns without an error.  Whatever
    failed, when it returns everything it opened is closed, except the database
    when its migration failed or its handle cannot be had.  Once the reconciler
    runs, [Start] returns only after the process was signalled, also when the
    replication or the manage address cannot be listened on. *)
Lemma master_start_returns cfg conn :
  let '((_, p'), r) := master_Start cfg conn (new_master, fresh_proc) in
  is_ok r = false /\
  (forall X, X ∈ pr_open p' -> X = Database /\ (is_Some (fails AutoMigrate) \/ is_Some (fails SqlDB))) /\
  (is_ok (connection_Open conn fresh_proc).2 = true -> fails NewBundles = None ->
   (mc_K8sBridgeEnabled cfg = true -> bridges_ok) ->
   ForSignal ∈ pr_waits p' /\ r = Err (start_error cfg)).
Proof.
  change (master_Start cfg conn) with (factory_Start conn ≫= fun _ => defer_call factory_Close (master_body cfg)).
  unfold factory_Start. rewrite !go_bind_assoc, bind_on_proc. unfold new_master.
  pose proof (connection_open_cases conn fresh_proc) as Hc.
  destruct (connection_Open conn fresh_proc) as [p [d|e]].
  2: { split_and!; [done| |done]. intros X. destruct Hc as [->|[-> ?]]; cbn; set_solver. }
  subst p. unfold on_part, modify. cbv [mbind go_bind]. cbn [fst snd ml_Bundles ml_K8sBridge].
  set (p := add_open Database fresh_proc).
  assert (stopped_ok p) as Hp by (intros b Hb; by apply elem_of_nil in Hb).
  pose proof (clean_master_body cfg (Some d) p Hp eq_refl) as H. unfold defer_call, defer.
  destruct (master_body cfg _) as [[m' p'] r]. destruct H as (Hm & Hr & Hopen & Hw).
  unfold factory_Close, part. cbv [mbind go_bind]. cbn [fst snd]. rewrite Hm.
  unfold on_proc, zoom, connection_Close, release, modify. cbv [mbind go_bind]. cbn [fst snd]. rewrite try_eq.
  assert (forall X, X ∈ pr_open p' -> X = Database) as Hdb
    by (intros X HX%Hopen; cbn in HX; set_solver).
  destruct (fails SqlDB) as [e|]; cbn [fst snd].
  - split_and!; [done|eauto|]. intros _ Hb Hbr. by destruct (Hw Hb Hbr) as [[_ ?] ?].
  - rewrite try_eq. cbn [fst snd]. split_and!; [done| |].
    + intros X. cbn. rewrite list_elem_of_filter. intros [H1 H2%Hdb]. done.
    + intros _ Hb Hbr. by destruct (Hw Hb Hbr) as [[_ ?] ?].
Qed.

End master.

(** ** The slave *)

#[export] Hint Resolve keeps_on_proc keeps_part_bind keeps_defer keeps_attempt keeps_throw keeps_part_for_each
  keeps_pure keeps_ret keeps_read : luna.

Section slave.
Context {EN : Env}.

(** The parts of the slave each call leaves alone. *)
Lemma on_DNS_keeps {T} (F : Slave -> T) m :
  (forall s d, F (mkSlave (sv_Cache s) d (sv_Ingress s) (sv_healthServer s) (sv_ready s) (sv_backoff s)) = F s) ->
  keeps F (on_DNS m).
Proof.
  intros H [s p]. unfold on_DNS. cbn. destruct (sv_DNS s) as [d|]; [|done]. destruct (m (d, p)) as [[d' p'] r]. apply H.
Qed.

Lemma on_Ingress_keeps {T} (F : Slave -> T) m :
  (forall s i, F (mkSlave (sv_Cache s) (sv_DNS s) i (sv_healthServer s) (sv_ready s) (sv_backoff s)) = F s) ->
  keeps F (on_Ingress m).
Proof.
  intros H [s p]. unfold on_Ingress. cbn. destruct (sv_Ingress s) as [d|]; [|done]. destruct (m (d, p)) as [[d' p'] r]. apply H.
Qed.

(** What the loop and the health server work on. *)
Definition inner {T} (F : Slave -> T) : Prop :=
  forall s h r, F (mkSlave (sv_Cache s) (sv_DNS s) (sv_Ingress s) h r (sv_backoff s)) = F s.

Lemma keeps_set_ready {T} (F : Slave -> T) b :
  (forall s r, F (mkSlave (sv_Cache s) (sv_DNS s) (sv_Ingress s) (sv_healthServer s) r (sv_backoff s)) = F s) ->
  keeps F (set_ready b).
Proof. intros H. by apply keeps_on_part. Qed.

Lemma keeps_loop {T} (F : Slave -> T) attempts :
  (forall s r, F (mkSlave (sv_Cache s) (sv_DNS s) (sv_Ingress s) (sv_healthServer s) r (sv_backoff s)) = F s) ->
  keeps F (subscribe_loop attempts).
Proof.
  intros H. induction attempts as [|[] attempts IH]; cbn [subscribe_loop].
  - apply keeps_part_bind; [auto with luna|]. intros []. apply keeps_part_bind; [by apply keeps_set_ready|auto with luna].
  - apply keeps_part_bind; [by apply keeps_set_ready|]. intros []. apply keeps_part_bind; [done|]. intros s. by destruct (pr_done s.2).
  - apply keeps_part_bind; [by apply keeps_set_ready|done].
  - apply keeps_part_bind; [auto with luna|]. intros []. apply keeps_part_bind; [by apply keeps_set_ready|auto with luna].
Qed.

Definition health_body (cfg : SlaveConfig) (attempts : list attempt_end) : go (Slave * proc) () :=
  startHealthServer cfg ≫= fun _ => defer_call stopHealthServer (subscribe_loop attempts).

Lemma keeps_health {T} (F : Slave -> T) cfg attempts : inner F -> keeps F (health_body cfg attempts).
Proof.
  intros H. unfold health_body, startHealthServer, stopHealthServer.
  assert (forall b, keeps F (set_health b)) as Hh by (intros b; by apply keeps_on_part).
  apply keeps_part_bind; [case_bool_decide; auto with luna|]. intros []. apply keeps_defer; [by apply keeps_loop|].
  apply keeps_part_bind; [done|]. intros s. destruct (sv_healthServer s); auto with luna.
Qed.

Lemma keeps_conn {T} (F : Slave -> T) cfg k : keeps F k -> keeps F (with_master_conn cfg k).
Proof. intros H. unfold with_master_conn. apply keeps_part_bind; [auto with luna|]. intros []; cbn; auto with luna. Qed.

Lemma keeps_ingress {T} (F : Slave -> T) k :
  (forall s i, F (mkSlave (sv_Cache s) (sv_DNS s) i (sv_healthServer s) (sv_ready s) (sv_backoff s)) = F s) ->
  keeps F k -> keeps F (with_Ingress k).
Proof.
  intros Hi H. unfold with_Ingress. apply keeps_part_bind; [done|]. intros s. case_bool_decide; [done|].
  assert (forall m, keeps F (on_Ingress m)) as Hk by (intros m; by apply on_Ingress_keeps). auto 6 with luna.
Qed.

Lemma keeps_dns {T} (F : Slave -> T) cfg k :
  (forall s d, F (mkSlave (sv_Cache s) d (sv_Ingress s) (sv_healthServer s) (sv_ready s) (sv_backoff s)) = F s) ->
  keeps F k -> keeps F (with_DNS cfg k).
Proof.
  intros Hi H. unfold with_DNS. apply keeps_part_bind; [done|]. intros s. case_bool_decide; [done|].
  assert (forall m, keeps F (on_DNS m)) as Hk by (intros m; by apply on_DNS_keeps). auto 8 with luna.
Qed.

(** *** What a body leaves open *)

(** Run from a slave with [I], nothing is open that was not before, except [L]. *)
Definition leaves (I : Slave -> Prop) (L : resource -> Prop) (k : go (Slave * proc) ()) : Prop :=
  forall s, I s.1 -> stopped_ok s.2 -> stopped_ok (k s).1.2 /\
    forall X, X ∈ pr_open (k s).1.2 -> X ∈ pr_open s.2 \/ L X.

Definition nothing (X : resource) : Prop := False.

Lemma stopped_add r p : (forall b, r <> Informers b) -> stopped_ok p -> stopped_ok (add_open r p).
Proof. intros Hr Hp b Hb. cbn. intros [E|E]%elem_of_cons; [by apply (Hr b)|]. by apply (Hp b). Qed.

Lemma loop_leaves attempts : leaves (fun _ => True) nothing (subscribe_loop attempts).
Proof.
  induction attempts as [|[] attempts IH]; intros [c p] _ Hp; cbn [subscribe_loop].
  1,4: rewrite bind_on_proc; cbn; split; [by apply wait_done_stopped|]; intros X HX%wait_done_open; by left.
  - unfold set_ready, on_part, modify. cbv [mbind go_bind get_state]. cbn. destruct (pr_done p); cbn; split; auto.
  - unfold set_ready, on_part, modify. cbv [mbind go_bind]. cbn [fst snd].
    set (c' := mkSlave _ _ _ _ _ _). exact (IH (c', p) I Hp).
Qed.

Lemma on_release {C} r (s : C * proc) :
  on_proc (release r) s = ((s.1, remove_open r s.2), match fails (Close r) with Some e => Err e | None => Ok tt end).
Proof. done. Qed.

Lemma stop_health c p :
  (stopHealthServer (c, p)).1.2 = if sv_healthServer c then remove_open HealthListener p else p.
Proof.
  unfold stopHealthServer, part, attempt, on_proc, zoom, release, modify, set_health, on_part, lift.
  cbv [mbind go_bind]. cbn [fst snd]. destruct (sv_healthServer c); [|done]. rewrite try_eq.
  by destruct (fails (Close HealthListener)).
Qed.

(** The health server, opened and flagged, or not opened. *)
Lemma health_leaves cfg attempts : leaves (fun _ => True) nothing (health_body cfg attempts).
Proof.
  intros [c p] _ Hp. unfold health_body, startHealthServer. rename cfg into cf.
  assert (forall c p, stopped_ok p ->
    stopped_ok (defer_call stopHealthServer (subscribe_loop attempts) (c, p)).1.2 /\
    forall X, X ∈ pr_open (defer_call stopHealthServer (subscribe_loop attempts) (c, p)).1.2 ->
      X ∈ pr_open p /\ (sv_healthServer c = true -> X <> HealthListener)) as Hd.
  { clear. intros c p Hp. unfold defer_call, defer.
    destruct (loop_leaves attempts (c, p) I Hp) as [H1 H2].
    pose proof (keeps_loop sv_healthServer attempts ltac:(done) (c, p)) as H3.
    destruct (subscribe_loop attempts (c, p)) as [[c' p'] r]. cbn in H1, H2, H3.
    cbn [fst]. rewrite stop_health, H3. destruct (sv_healthServer c); cbn.
    - split; [by apply (stopped_remove HealthListener)|]. intros X. rewrite list_elem_of_filter.
      intros [H4 H5]. destruct (H2 X H5) as [H6|[]]. done.
    - split; [done|]. intros X HX. by destruct (H2 X HX) as [H6|[]]. }
  case_bool_decide.
  - cbv [mbind go_bind mret go_ret]. destruct (Hd c p Hp) as [H1 H2]. split; [done|]. intros X HX. left. by apply H2.
  - rewrite go_bind_assoc, bind_on_proc.
    destruct (acquire_cases HealthListener p) as [(e & _ & ->)|[_ ->]]; [by split; [|by left]|].
    unfold set_health, on_part, modify. cbv [mbind go_bind]. cbn [fst snd].
    destruct (Hd (mkSlave (sv_Cache c) (sv_DNS c) (sv_Ingress c) true (sv_ready c) (sv_backoff c))
      (add_open HealthListener p)) as [H1 H2]; [by apply stopped_add|]. split; [done|].
    intros X HX. destruct (H2 X HX) as [H3 H4]. cbn in *. left. set_solver.
Qed.

Lemma conn_leaves I L cfg k : leaves I L k -> leaves I L (with_master_conn cfg k).
Proof.
  intros Hk [c p] HI Hp. unfold with_master_conn. rewrite bind_attempt_on_proc.
  destruct (acquire_cases MasterConn p) as [(e & _ & ->)|[_ ->]]; cbn [fst snd is_ok]; [by split; [|by left]|].
  unfold defer_call, defer. destruct (Hk (c, add_open MasterConn p) HI) as [H1 H2]; [by apply stopped_add|].
  destruct (k (c, add_open MasterConn p)) as [[c' p'] r]. cbn [fst snd] in *. rewrite on_release. cbn in *.
  split; [by apply (stopped_remove MasterConn)|]. intros X. rewrite list_elem_of_filter. intros [H3 H4].
  destruct (H2 X H4); [left; set_solver|by right].
Qed.

(** *** The ingress engine *)

(** As [NewEngine] makes it. *)
Definition fresh_ingress (i : IngLife) : Prop :=
  forall t, il_tlsEngine i = Some t -> su_addr t <> "" /\ su_listener t = false.

(** Left behind when listening fails: the watcher, and the HTTP listener when it
    is the TLS one that cannot be opened. *)
Definition ingress_left (X : resource) : Prop :=
  X = CertWatcher \/ X = HTTPListener /\ is_Some (fails (Open TLSListener)).

Definition ingress_open (i : IngLife) (X : resource) : Prop :=
  X = HTTPListener /\ il_httpEngine i <> None \/ X = TLSListener /\ il_tlsEngine i <> None \/
  X = Informers IngressBridge /\ il_k8sBridge i = true.

Lemma resolver_start_cases i p :
  stopped_ok p ->
  let '((i', p'), r) := resolver_Start (i, p) in
  i' = i /\ stopped_ok p' /\ pr_stopCh p' = pr_stopCh p /\
  forall X, X ∈ pr_open p' -> X ∈ pr_open p \/ X = CertWatcher.
Proof.
  intros Hp. unfold resolver_Start, part. cbv [mbind go_bind]. cbn [fst].
  destruct (il_tlsResolver i); [|split_and!; auto].
  assert (forall (k : result () -> go (IngLife * proc) ()) m,
    (let (s', r) := attempt (on_proc m) (i, p) in match r with Ok a => k a s' | Err e => (s', Err e) end) =
    k (m p).2 (i, (m p).1)) as Hb by (intros k m; apply (bind_attempt_on_proc m k)).
  rewrite Hb. unfold modify at 1 2. cbn [fst snd].
  destruct (acquire_cases CertWatcher (remove_open CertWatcher p)) as [(e & _ & ->)|[_ ->]]; cbn.
  - split_and!; [done|by apply (stopped_remove CertWatcher)|done|]. intros X. rewrite list_elem_of_filter. tauto.
  - split_and!; [done|by apply stopped_add, stopped_remove|done|]. intros X [->|HX]%elem_of_cons; [by right|].
    apply list_elem_of_filter in HX. tauto.
Qed.

Lemma http_listen_cases i p :
  let '((i', p'), r) := http_listen i (i, p) in
  il_tlsEngine i' = il_tlsEngine i /\ il_k8sBridge i' = il_k8sBridge i /\
  (p' = p \/ is_ok r = true /\ il_httpEngine i' <> None /\ p' = add_open HTTPListener p).
Proof.
  unfold http_listen. destruct i as [[h|] tls res br lo]; cbn [il_httpEngine]; [|by split_and!; try left].
  rewrite bind_on_proc. unfold HTTPEngine_Listen. destruct (su_listener h); [by split_and!; try left|].
  cbv [mbind go_bind]. destruct (acquire_cases HTTPListener p) as [(e & _ & ->)|[_ ->]]; cbn.
  - by split_and!; try left.
  - split_and!; try done. by right.
Qed.

Lemma tls_listen_cases i i0 p :
  (forall t, il_tlsEngine i0 = Some t -> su_addr t <> "" /\ su_listener t = false) ->
  let '((i', p'), r) := tls_listen i0 (i, p) in
  il_httpEngine i' = il_httpEngine i /\ il_k8sBridge i' = il_k8sBridge i /\
  (is_ok r = true /\ p' = p /\ i' = i \/
   is_ok r = false /\ p' = p /\ is_Some (fails (Open TLSListener)) \/
   is_ok r = true /\ il_tlsEngine i' <> None /\ p' = add_open TLSListener p).
Proof.
  intros Hf. unfold tls_listen. destruct (il_tlsEngine i0) as [t|]; [|by split_and!; try left].
  destruct (Hf t eq_refl) as [H1 H2]. rewrite bind_on_proc. unfold TLSEngine_Listen.
  rewrite bool_decide_false, H2 by done. cbv [mbind go_bind].
  destruct (acquire_cases TLSListener p) as [(e & -> & ->)|[_ ->]]; cbn; split_and!; try done.
  - right; left. eauto.
  - right; right. done.
Qed.

Lemma bridge_opened i p p0 :
  stopped_ok p0 ->
  (forall X, X ∈ pr_open p0 -> X ∈ pr_open p \/ X = CertWatcher \/ ingress_open i X) ->
  let '((i', p'), r) := (if il_k8sBridge i then on_proc (modify (bridge_Listen IngressBridge)) else mret tt) (i, p0) in
  stopped_ok p' /\
  forall X, X ∈ pr_open p' -> X ∈ pr_open p \/ ingress_left X \/ is_ok r = true /\ ingress_open i' X.
Proof.
  intros Hs Ho. destruct (il_k8sBridge i) eqn:E; cbn.
  - split; [by apply bridge_Listen_stopped|]. intros X HX.
    destruct (decide (X = Informers IngressBridge)) as [->|Hne]; [right; right; split; [done|]; right; right; done|].
    apply bridge_Listen_open in HX; [|done]. destruct (Ho X HX) as [?|[->|?]]; [by left|right; left; by left|by right; right].
  - split; [done|]. intros X HX. destruct (Ho X HX) as [?|[->|?]]; [by left|right; left; by left|by right; right].
Qed.

(** The engine keeps its sub-engines, and opens their listeners. *)
Lemma ing_listen_cases i p :
  fresh_ingress i -> stopped_ok p ->
  let '((i', p'), r) := ing_Listen (i, p) in
  stopped_ok p' /\
  forall X, X ∈ pr_open p' -> X ∈ pr_open p \/ ingress_left X \/ is_ok r = true /\ ingress_open i' X.
Proof.
  intros Hi Hp. unfold ing_Listen. pose proof (resolver_start_cases i p Hp) as Hr. cbv [mbind go_bind].
  destruct (resolver_Start (i, p)) as [[i0 p0] r0]. destruct Hr as (-> & Hs0 & _ & Ho0).
  destruct r0 as [u|e]; [|split; [done|]; intros X [?|?]%Ho0; [by left|right; left; by left]].
  unfold part. cbn [fst]. destruct (bool_decide _ && bool_decide _).
  { split; [done|]. intros X [?|?]%Ho0; [by left|right; left; by left]. }
  pose proof (http_listen_cases i p0) as Hh. destruct (http_listen i (i, p0)) as [[i1 p1] r1].
  destruct Hh as (Ht1 & Hb1 & Hp1).
  assert (stopped_ok p1) as Hs1 by (destruct Hp1 as [->|(_ & _ & ->)]; [done|by apply stopped_add]).
  assert (forall X, X ∈ pr_open p1 -> X ∈ pr_open p \/ X = CertWatcher \/ X = HTTPListener /\ is_ok r1 = true /\ il_httpEngine i1 <> None) as Ho1.
  { intros X HX. destruct Hp1 as [->|(H1 & H2 & ->)]; [destruct (Ho0 X HX); auto|].
    cbn in HX. apply elem_of_cons in HX as [->|HX]; [auto|]. destruct (Ho0 X HX); auto. }
  destruct r1 as [u1|e]; [|split; [done|]; intros X [?|[?|(_ & ? & _)]]%Ho1; [by left|right; left; by left|done]].
  pose proof (tls_listen_cases i1 i p1 Hi) as Ht. destruct (tls_listen i (i1, p1)) as [[i2 p2] r2].
  destruct Ht as (Hh2 & Hb2 & [(Hr2 & -> & ->)|[(Hr2 & -> & Hf)|(Hr2 & Ht2 & ->)]]); destruct r2 as [u2|e]; try done.
  - rewrite <- Hb1. apply bridge_opened; [done|]. intros X HX.
    destruct (Ho1 X HX) as [?|[?|(-> & _ & ?)]]; [by left|by right; left|right; right; by left].
  - split; [done|]. intros X [?|[?|(-> & _)]]%Ho1; [by left|right; left; by left|right; left; by right].
  - rewrite <- Hb1, <- Hb2. apply bridge_opened; [by apply stopped_add|].
    intros X [->|HX]%elem_of_cons; [right; right; right; left; done|].
    destruct (Ho1 X HX) as [?|[?|(-> & _ & ?)]]; [by left|by right; left|right; right; left]. by rewrite Hh2.
Qed.

(** What [Stop] leaves of the process. *)
Lemma ing_stop_proc i p :
  (ing_Stop (i, p)).1.2 =
  (let p := match il_httpEngine i with None => p | Some _ => remove_open HTTPListener p end in
   let p := match il_tlsEngine i with
            | None => p
            | Some t => remove_open TLSListener (if su_listener t then remove_open TLSListener p else p)
            end in
   if il_k8sBridge i then bridge_Stop IngressBridge p else p).
Proof.
  unfold ing_Stop, part, attempt, TLSEngine_Stop, HTTPEngine_Stop, release, modify, on_proc, zoom.
  cbv [mbind go_bind]. cbn [fst snd].
  destruct (il_httpEngine i) as [h|], (il_tlsEngine i) as [[t []]|], (il_k8sBridge i); cbn [su_listener];
    cbv [mret go_ret]; rewrite ?try_eq; cbn [fst snd]; rewrite ?try_eq; cbn [fst snd];
    repeat case_match; try done; by destruct (bool_decide _).
Qed.

Lemma ing_stop_closes i p :
  stopped_ok p ->
  stopped_ok (ing_Stop (i, p)).1.2 /\
  forall X, X ∈ pr_open (ing_Stop (i, p)).1.2 -> X ∈ pr_open p /\ ~ ingress_open i X.
Proof.
  intros Hp. rewrite ing_stop_proc. cbn zeta.
  set (p1 := match il_httpEngine i with None => p | Some _ => _ end).
  assert (stopped_ok p1 /\ forall X, X ∈ pr_open p1 -> X ∈ pr_open p /\ (il_httpEngine i <> None -> X <> HTTPListener)) as [S1 O1].
  { unfold p1. destruct (il_httpEngine i); [|done]. split; [by apply stopped_remove|].
    intros X. cbn. rewrite list_elem_of_filter. tauto. }
  set (p2 := match il_tlsEngine i with None => p1 | Some t => _ end).
  assert (stopped_ok p2 /\ forall X, X ∈ pr_open p2 -> X ∈ pr_open p1 /\ (il_tlsEngine i <> None -> X <> TLSListener)) as [S2 O2].
  { unfold p2. destruct (il_tlsEngine i) as [[a []]|]; [| |done]; (split; [by repeat apply stopped_remove|]);
      intros X; cbn; rewrite !list_elem_of_filter; tauto. }
  assert (forall p3, (forall X, X ∈ pr_open p3 -> X ∈ pr_open p2 /\ (il_k8sBridge i = true -> X <> Informers IngressBridge)) ->
    forall X, X ∈ pr_open p3 -> X ∈ pr_open p /\ ~ ingress_open i X) as Hend.
  { intros p3 H3 X HX. destruct (H3 X HX) as [HX2 N3]. destruct (O2 X HX2) as [HX1 N2]. destruct (O1 X HX1) as [HX0 N1].
    split; [done|]. intros [[-> H]|[[-> H]|[-> H]]]; [by apply N1|by apply N2|by apply N3]. }
  destruct (il_k8sBridge i) eqn:Eb.
  - destruct (bridge_Stop_closes IngressBridge p2 S2) as [S3 O3]. split; [done|]. apply Hend. naive_solver.
  - split; [done|]. apply Hend. naive_solver.
Qed.

(** The engine kept between its [Listen] and its [Stop]. *)
Lemma ingress_leaves L k :
  leaves (fun _ => True) L k -> keeps sv_Ingress k ->
  leaves (fun s => forall i, sv_Ingress s = Some i -> fresh_ingress i) (fun X => ingress_left X \/ L X) (with_Ingress k).
Proof.
  intros Hk Hkeep [c p] HI Hp. unfold with_Ingress. cbv [mbind go_bind part]. cbn [fst].
  case_bool_decide as Hn; [destruct (Hk (c, p) I Hp) as [H1 H2]; split; [done|]; intros X HX; destruct (H2 X HX); auto|].
  destruct (sv_Ingress c) as [i|] eqn:Ei; [|done]. specialize (HI i Ei).
  assert (exists i1 r1, on_Ingress ing_BindContext (c, p) =
    ((mkSlave (sv_Cache c) (sv_DNS c) (Some i1) (sv_healthServer c) (sv_ready c) (sv_backoff c), p), r1) /\
    fresh_ingress i1) as (i1 & r1 & -> & HI1).
  { unfold on_Ingress, ing_BindContext, part, on_part, modify. cbv [mbind go_bind]. cbn [fst snd]. rewrite Ei.
    destruct (il_k8sBridge i && negb (il_k8sLoaded i)); [rewrite try_eq; destruct (fails _)|]; cbn; by eexists _, _. }
  destruct r1 as [u|e]; [|by split; [|left]].
  unfold on_Ingress at 1 3. cbn [fst snd sv_Ingress].
  pose proof (ing_listen_cases i1 p HI1 Hp) as Hl. destruct (ing_Listen (i1, p)) as [[i2 p2] r2].
  destruct Hl as [S2 O2]. cbn [sv_Cache sv_DNS sv_healthServer sv_ready sv_backoff].
  destruct r2 as [u2|e].
  2: { split; [done|]. intros X HX. destruct (O2 X HX) as [?|[?|[? _]]]; [by left|by right; left|done]. }
  set (c2 := mkSlave _ _ (Some i2) _ _ _). unfold defer_call, defer.
  destruct (Hk (c2, p2) I S2) as [S3 O3]. pose proof (Hkeep (c2, p2)) as K3.
  destruct (k (c2, p2)) as [[c3 p3] r3]. cbn [fst snd] in *.
  unfold on_Ingress. cbn [fst snd]. rewrite K3. cbn [sv_Ingress c2].
  destruct (ing_stop_closes i2 p3 S3) as [S4 O4]. destruct (ing_Stop (i2, p3)) as [[i4 p4] r4]. cbn [fst snd] in *.
  split; [done|]. intros X HX. destruct (O4 X HX) as [HX3 N4]. destruct (O3 X HX3) as [HX2|HL]; [|by right; right].
  destruct (O2 X HX2) as [?|[?|[_ ?]]]; [by left|by right; left|done].
Qed.

(** *** The DNS engine *)

(** A server of the DNS engine that a call leaves running. *)
Definition dns_server (X : resource) : Prop := X = UDPServer \/ X = TCPServer.
Definition runs {C} (X : resource) (s : C * proc) : Prop := X ∈ pr_open s.2.

Lemma runs_modify {C} X f : (forall p, X ∈ pr_open p -> X ∈ pr_open (f p)) -> preserves (runs (C:=C) X) (on_proc (modify f)).
Proof. intros H [c p] Hp. by apply H. Qed.

Lemma runs_part {C} X (f : C -> C) : preserves (runs X) (on_part f).
Proof. by intros s H. Qed.

Lemma runs_acquire {C} X r : preserves (runs (C:=C) X) (on_proc (acquire r)).
Proof. apply (preserves_on_proc (present X)), preserves_acquire. intros p. apply present_add. Qed.

Lemma runs_release {C} X r : X <> r -> preserves (runs (C:=C) X) (on_proc (release r)).
Proof. intros H. apply (preserves_on_proc (present X)), preserves_release. intros p. by apply present_remove. Qed.

Lemma runs_wait {C} X : dns_server X -> preserves (runs (C:=C) X) (on_proc (modify wait_done)).
Proof. intros HX. apply runs_modify. intros p. apply wait_done_other. intros b ->. by destruct HX. Qed.

Lemma runs_loop X attempts : dns_server X -> preserves (runs X) (subscribe_loop attempts).
Proof.
  intros HX. assert (forall b, preserves (runs X) (set_ready b)) as Hr by (intros b; apply runs_part).
  induction attempts as [|[] attempts IH]; cbn [subscribe_loop].
  1,4: apply preserves_bind; [by apply runs_wait|]; intros []; apply preserves_bind; [apply Hr|intros []; apply preserves_throw].
  - apply preserves_bind; [apply Hr|]. intros []. apply preserves_bind; [by intros s H|]. intros s.
    destruct (pr_done s.2); [apply preserves_throw|apply preserves_ret].
  - apply preserves_bind; [apply Hr|done].
Qed.

Lemma runs_health X cfg attempts : dns_server X -> preserves (runs X) (health_body cfg attempts).
Proof.
  intros HX. assert (X <> HealthListener) as Hne by (by destruct HX as [->| ->]).
  unfold health_body. apply preserves_bind.
  - unfold startHealthServer. case_bool_decide; [apply preserves_ret|].
    apply preserves_bind; [apply runs_acquire|]. intros []. apply runs_part.
  - intros []. apply preserves_defer_call; [by apply runs_loop|]. intros [c p] H. unfold runs. rewrite stop_health.
    destruct (sv_healthServer c); [|done]. by apply present_remove.
Qed.

Lemma runs_conn X cfg k : dns_server X -> preserves (runs X) k -> preserves (runs X) (with_master_conn cfg k).
Proof.
  intros HX Hk. unfold with_master_conn. apply preserves_bind; [apply preserves_attempt, runs_acquire|].
  intros r. destruct (is_ok r); [|apply preserves_throw]. apply preserves_defer_call; [done|].
  apply runs_release. by destruct HX as [->| ->].
Qed.

Lemma runs_on_Ingress X m : preserves (runs X) m -> preserves (runs X) (on_Ingress m).
Proof.
  intros Hm [c p] H. unfold on_Ingress. cbn [fst snd]. destruct (sv_Ingress c) as [i|]; [|done].
  specialize (Hm (i, p) H). by destruct (m (i, p)) as [[i' p'] r].
Qed.

Lemma runs_ing_Listen X : dns_server X -> preserves (runs X) ing_Listen.
Proof.
  intros HX. unfold ing_Listen, resolver_Start. repeat (apply preserves_bind; [|intros ?]).
  - apply preserves_part.
  - destruct (il_tlsResolver _); [|apply preserves_throw]. apply preserves_bind.
    + apply preserves_attempt, (preserves_on_proc (present X)), preserves_bind.
      * apply preserves_modified. intros p. apply present_remove. by destruct HX as [->| ->].
      * intros []. apply preserves_acquire. intros p. apply present_add.
    + intros r. destruct (is_ok r); [apply preserves_ret|apply preserves_throw].
  - apply preserves_part.
  - destruct (_ && _); [apply preserves_throw|]. unfold http_listen, tls_listen, HTTPEngine_Listen, TLSEngine_Listen.
    assert (forall (b : bool) e r t, preserves (runs (C:=IngLife) X)
      (on_proc (if b then throw e else acquire r ≫= fun _ => mret t : go proc sub_engine))) as Hl.
    { intros b e r t. apply (preserves_on_proc (present X)). destruct b; [apply preserves_throw|].
      apply preserves_bind; [|intros []; apply preserves_ret]. apply preserves_acquire. intros p. apply present_add. }
    apply preserves_bind; [|intros []; apply preserves_bind; [|intros []]].
    + destruct (il_httpEngine _); [|apply preserves_ret]. apply preserves_bind; [apply Hl|]. intros h. apply runs_part.
    + destruct (il_tlsEngine _) as [t|]; [|apply preserves_ret]. apply preserves_bind; [|intros h; apply runs_part].
      destruct (bool_decide (su_addr t = "")); [|apply Hl].
      apply (preserves_on_proc (present X)), preserves_throw.
    + destruct (il_k8sBridge _); [|apply preserves_ret]. apply runs_modify. intros p. apply bridge_Listen_other.
      by destruct HX as [->| ->].
Qed.

Lemma runs_ing_Stop X : dns_server X -> preserves (runs X) ing_Stop.
Proof.
  intros HX [i p] H. unfold runs in *. rewrite ing_stop_proc. cbn zeta. cbn [snd] in H.
  assert (forall r p, r = HTTPListener \/ r = TLSListener -> X ∈ pr_open p -> X ∈ pr_open (remove_open r p)) as Hr.
  { intros r p' Hr. apply present_remove. destruct HX as [->| ->]; by destruct Hr as [->| ->]. }
  assert (forall p, X ∈ pr_open p -> X ∈ pr_open (if il_k8sBridge i then bridge_Stop IngressBridge p else p)) as Hb.
  { intros p' Hp'. destruct (il_k8sBridge i); [|done]. apply bridge_Stop_other; [|done]. by destruct HX as [->| ->]. }
  apply Hb. destruct (il_httpEngine i), (il_tlsEngine i) as [[a []]|]; cbn [su_listener]; repeat (apply Hr; [auto|]); done.
Qed.

Lemma runs_ingress X k : dns_server X -> preserves (runs X) k -> preserves (runs X) (with_Ingress k).
Proof.
  intros HX Hk. unfold with_Ingress. apply preserves_bind; [apply preserves_part|]. intros s. case_bool_decide; [done|].
  apply preserves_bind; [apply runs_on_Ingress|intros []; apply preserves_bind; [by apply runs_on_Ingress, runs_ing_Listen|]].
  - unfold ing_BindContext. apply preserves_bind; [apply preserves_part|]. intros i. destruct (_ && _); [|apply preserves_ret].
    apply preserves_bind; [apply preserves_try|]. intros []. apply runs_part.
  - intros []. apply preserves_defer_call; [done|]. by apply runs_on_Ingress, runs_ing_Stop.
Qed.

(** A goroutine's attempt to bind. *)
Definition bound (r : resource) (p : proc) : proc :=
  match fails (Open r) with Some _ => p | None => add_open r p end.

Lemma bound_cases r p :
  (forall b, r <> Informers b) -> stopped_ok p ->
  stopped_ok (bound r p) /\ (forall X, X ∈ pr_open p -> X ∈ pr_open (bound r p)) /\
  (forall X, X ∈ pr_open (bound r p) -> X ∈ pr_open p \/ X = r) /\
  (fails (Open r) = None -> r ∈ pr_open (bound r p)).
Proof.
  intros Hr Hp. unfold bound. destruct (fails (Open r)); [by split_and!; auto|].
  split_and!; [by apply stopped_add|..]; cbn; set_solver.
Qed.

Lemma dns_listen_cases e addr p :
  stopped_ok p ->
  let '((e', p'), r) := dns_Listen addr (e, p) in
  stopped_ok p' /\
  match r with
  | Err _ => p' = p
  | Ok _ => dl_udpServer e' = true /\ dl_tcpServer e' = true /\ dl_k8sBridge e' = dl_k8sBridge e /\
      (forall X, dns_server X -> fails (Open X) = None -> X ∈ pr_open p') /\
      (forall X, X ∈ pr_open p' -> X ∈ pr_open p \/ dns_server X \/ X = Informers DNSBridge /\ dl_k8sBridge e' = true)
  end.
Proof.
  intros Hp. unfold dns_Listen, part. cbv [mbind go_bind]. cbn [fst]. destruct (dl_udpServer e || dl_tcpServer e); [done|].
  case_bool_decide; [done|]. unfold on_part, modify, ignore, on_proc, zoom. cbn [fst snd].
  assert (forall r p, (acquire r p).1 = bound r p) as Ha.
  { intros r p'. unfold bound. destruct (acquire_cases r p') as [(er & -> & ->)|[-> ->]]; done. }
  rewrite !Ha. destruct (bound_cases UDPServer p ltac:(done) Hp) as (S1 & M1 & O1 & U1).
  destruct (bound_cases TCPServer (bound UDPServer p) ltac:(done) S1) as (S2 & M2 & O2 & U2).
  set (p2 := bound TCPServer (bound UDPServer p)) in *.
  assert (forall X, dns_server X -> fails (Open X) = None -> X ∈ pr_open p2) as Hrun
    by (intros X [->| ->] Hf; auto).
  assert (forall X, X ∈ pr_open p2 -> X ∈ pr_open p \/ dns_server X) as Hopen.
  { intros X HX. destruct (O2 X HX) as [HX1| ->]; [destruct (O1 X HX1) as [?| ->]|]; unfold dns_server; auto. }
  destruct (dl_k8sBridge e) eqn:Eb; cbn [fst snd].
  - split; [by apply bridge_Listen_stopped|]. cbn. split_and!; try done.
    + intros X HX Hf. apply bridge_Listen_other; [by destruct HX as [->| ->]|auto].
    + intros X HX. destruct (decide (X = Informers DNSBridge)) as [->|Hne]; [by right; right|].
      apply bridge_Listen_open in HX; [|done]. destruct (Hopen X HX); auto.
  - split; [done|]. cbn. split_and!; try done. intros X HX. destruct (Hopen X HX); auto.
Qed.

(** A server that did not run, or does not shut down. *)
Definition server_trouble (p : proc) : Prop :=
  exists X, dns_server X /\ (X ∉ pr_open p \/ is_Some (fails (Close X))).

Lemma shutdown_cases X p :
  dns_Shutdown X p =
  if bool_decide (X ∈ pr_open p)
  then (remove_open X p, match fails (Close X) with Some e => Err e | None => Ok tt end)
  else (p, Err (errors_New "dns: server not started")).
Proof. unfold dns_Shutdown, get_state. cbv [mbind go_bind]. by case_bool_decide. Qed.

Lemma shutdown_closes X p :
  stopped_ok p ->
  stopped_ok (dns_Shutdown X p).1 /\
  (forall Y, Y ∈ pr_open (dns_Shutdown X p).1 <-> Y ∈ pr_open p /\ Y <> X) /\
  (is_ok (dns_Shutdown X p).2 = false -> X ∉ pr_open p \/ is_Some (fails (Close X))).
Proof.
  intros Hp. rewrite shutdown_cases. case_bool_decide as E; cbn.
  - split_and!; [by apply stopped_remove| |].
    + intros Y. rewrite list_elem_of_filter. tauto.
    + destruct (fails (Close X)); [eauto|done].
  - split_and!; [done| |by left]. intros Y. split; [|tauto]. intros HY. split; [done|]. by intros ->.
Qed.

Lemma dns_stop_proc e p :
  dl_udpServer e = true -> dl_tcpServer e = true ->
  (dns_Stop (e, p)).1.2 =
  (let '(p1, r1) := dns_Shutdown UDPServer p in
   let '(p2, r2) := dns_Shutdown TCPServer p1 in
   if is_ok r1 && is_ok r2 then
     let p3 := if dl_k8sBridge e then bridge_Stop DNSBridge p2 else p2 in
     if dl_geoDriver e then remove_open GeoDatabase p3 else p3
   else p2).
Proof.
  intros Hu Ht. unfold dns_Stop, part, attempt, on_proc, on_part, modify, zoom, release. cbv [mbind go_bind].
  cbn [fst snd]. rewrite Hu, Ht. cbn [fst snd].
  destruct (dns_Shutdown UDPServer p) as [p1 [u1|e1]]; cbn [fst snd];
    destruct (dns_Shutdown TCPServer p1) as [p2 [u2|e2]]; cbn [fst snd error_text app is_ok andb]; try done.
  rewrite bool_decide_false by auto. cbv [mret go_ret].
  destruct (dl_k8sBridge e); cbn [fst snd]; destruct (dl_geoDriver e); cbn [fst snd]; try done;
    unfold modify; cbn [fst snd]; rewrite try_eq; by destruct (fails (Close GeoDatabase)).
Qed.

Lemma dns_stop_closes e p :
  dl_udpServer e = true -> dl_tcpServer e = true -> stopped_ok p ->
  stopped_ok (dns_Stop (e, p)).1.2 /\
  forall X, X ∈ pr_open (dns_Stop (e, p)).1.2 ->
    X ∈ pr_open p /\ ~ dns_server X /\ (X = Informers DNSBridge -> dl_k8sBridge e = true -> server_trouble p).
Proof.
  intros Hu Ht Hp. rewrite dns_stop_proc by done.
  destruct (shutdown_closes UDPServer p Hp) as (S1 & O1 & T1).
  destruct (dns_Shutdown UDPServer p) as [p1 r1]. cbn [fst snd] in *.
  destruct (shutdown_closes TCPServer p1 S1) as (S2 & O2 & T2).
  destruct (dns_Shutdown TCPServer p1) as [p2 r2]. cbn [fst snd] in *.
  assert (forall Y, Y ∈ pr_open p2 -> Y ∈ pr_open p /\ ~ dns_server Y) as Hclosed.
  { intros Y [[H1 H2]%O1 H3]%O2. split; [done|]. by intros [->| ->]. }
  destruct (is_ok r1 && is_ok r2) eqn:Hok.
  2: { split; [done|]. intros X HX. destruct (Hclosed X HX). split_and!; try done. intros _ _.
    destruct r1 as [[]|e1]; [|exists UDPServer; split; [by left|auto]].
    destruct r2 as [[]|e2]; [done|]. exists TCPServer. split; [by right|].
    destruct (T2 eq_refl) as [H1|?]; [left|by right]. intros H2. apply H1, O1. done. }
  cbn zeta. set (p3 := if dl_k8sBridge e then bridge_Stop DNSBridge p2 else p2).
  assert (stopped_ok p3 /\ forall X, X ∈ pr_open p3 -> X ∈ pr_open p2 /\ (X = Informers DNSBridge -> dl_k8sBridge e = false)) as [S3 O3].
  { unfold p3. destruct (dl_k8sBridge e); [|done]. destruct (bridge_Stop_closes DNSBridge p2 S2) as [? H]. split; [done|].
    intros X HX. destruct (H X HX). done. }
  assert (forall X, X ∈ pr_open p3 -> X ∈ pr_open p /\ ~ dns_server X /\ (X = Informers DNSBridge -> dl_k8sBridge e = true -> server_trouble p)) as Hend.
  { intros X HX. destruct (O3 X HX) as [HX2 Hb]. destruct (Hclosed X HX2). split_and!; try done.
    intros E1 E2. specialize (Hb E1). congruence. }
  destruct (dl_geoDriver e); [|done]. split; [by apply stopped_remove|]. intros X. cbn. rewrite list_elem_of_filter.
  intros [_ HX]. by apply Hend.
Qed.

(** Left behind by the DNS engine: its informers, when a server could not bind
    or did not shut down. *)
Definition dns_left (X : resource) : Prop :=
  X = Informers DNSBridge /\ exists Y, dns_server Y /\ (is_Some (fails (Open Y)) \/ is_Some (fails (Close Y))).

Lemma dns_leaves I L cfg k :
  (forall s d, I s -> I (mkSlave (sv_Cache s) d (sv_Ingress s) (sv_healthServer s) (sv_ready s) (sv_backoff s))) ->
  leaves I L k -> keeps sv_DNS k -> (forall X, dns_server X -> preserves (runs X) k) ->
  leaves I (fun X => dns_left X \/ L X) (with_DNS cfg k).
Proof.
  intros HIs Hk Hkeep Hrun [c p] HI Hp. unfold with_DNS. cbv [mbind go_bind part]. cbn [fst].
  case_bool_decide as Hn; [destruct (Hk (c, p) HI Hp) as [H1 H2]; split; [done|]; intros X HX; destruct (H2 X HX); auto|].
  destruct (sv_DNS c) as [d|] eqn:Ed; [|done].
  assert (exists d1 r1, on_DNS dns_BindContext (c, p) =
    ((mkSlave (sv_Cache c) (Some d1) (sv_Ingress c) (sv_healthServer c) (sv_ready c) (sv_backoff c), p), r1))
    as (d1 & r1 & ->).
  { unfold on_DNS, dns_BindContext, part, on_part, modify. cbv [mbind go_bind]. cbn [fst snd]. rewrite Ed.
    destruct (dl_k8sBridge d && negb (dl_k8sLoaded d)); [rewrite try_eq; destruct (fails _)|]; cbn; by eexists _, _. }
  destruct r1 as [u|e]; [|by split; [|left]].
  unfold on_DNS at 1 3. cbn [fst snd sv_DNS].
  pose proof (dns_listen_cases d1 (sc_DNSListenAddr cfg) p Hp) as Hl. destruct (dns_Listen _ (d1, p)) as [[d2 p2] r2].
  destruct Hl as [S2 Hl]. cbn [sv_Cache sv_Ingress sv_healthServer sv_ready sv_backoff].
  destruct r2 as [u2|e]; [|subst p2; by split; [|left]]. destruct Hl as (Hu & Ht & _ & Hup & Hopen).
  set (c2 := mkSlave _ (Some d2) _ _ _ _). unfold on_proc at 1 3, zoom, modify at 1 3. cbn [fst snd].
  unfold defer_call, defer. cbn [fst snd].
  destruct (Hk (c2, add_open RestoreLoop p2)) as [S3 O3]; [by apply HIs|by apply stopped_add|].
  pose proof (Hkeep (c2, add_open RestoreLoop p2)) as K3.
  assert (forall X, dns_server X -> fails (Open X) = None -> X ∈ pr_open (k (c2, add_open RestoreLoop p2)).1.2) as R3.
  { intros X HX Hf. apply (Hrun X HX). apply present_add. by apply Hup. }
  destruct (k (c2, add_open RestoreLoop p2)) as [[c3 p3] r3]. cbn [fst snd] in *.
  change (on_proc (modify (remove_open RestoreLoop)) (c3, p3)).1 with (c3, remove_open RestoreLoop p3).
  unfold on_DNS. cbn [fst snd]. rewrite K3. cbn [sv_DNS c2].
  destruct (dns_stop_closes d2 (remove_open RestoreLoop p3) Hu Ht) as [S4 O4]; [by apply stopped_remove|].
  destruct (dns_Stop (d2, remove_open RestoreLoop p3)) as [[d4 p4] r4]. cbn [fst snd] in *.
  split; [done|]. intros X HX. destruct (O4 X HX) as (HX3 & Ns & Ni). cbn in HX3.
  apply list_elem_of_filter in HX3 as [Nr HX3]. destruct (O3 X HX3) as [HX2|HL]; [|by right; right].
  cbn in HX2. apply elem_of_cons in HX2 as [->|HX2]; [done|].
  destruct (Hopen X HX2) as [?|[?|[-> Hb]]]; [by left|done|]. right; left. split; [done|].
  destruct (Ni eq_refl Hb) as (Y & HY & Hf). exists Y. split; [done|]. destruct Hf as [Hf|?]; [left|by right].
  destruct (fails (Open Y)) eqn:E; [eauto|]. exfalso. apply Hf. cbn. apply list_elem_of_filter.
  split; [by destruct HY as [->| ->]|]. by apply R3.
Qed.

(** *** The whole slave *)

Lemma init_geo_cases opts p :
  exists b, initGeoIP opts p = (p, Ok b) \/ initGeoIP opts p = (add_open GeoDatabase p, Ok b).
Proof.
  unfold initGeoIP, attempt. destruct (_ || _); [eexists; by left|]. cbv [mbind go_bind].
  destruct (acquire_cases GeoDatabase p) as [(e & _ & ->)|[_ ->]]; eexists; [by left|by right].
Qed.

Lemma dns_new_cases opts p :
  exists d p', dns_New opts p = (p', Ok d) /\ (p' = p \/ p' = add_open GeoDatabase p).
Proof.
  unfold dns_New. destruct (init_geo_cases opts p) as [b Hg]. cbv [mbind go_bind]. unfold attempt.
  destruct Hg as [->| ->]; destruct (do_K8sEnabled opts); rewrite ?try_eq; eexists _, _; (split; [done|]); auto.
Qed.

Lemma ing_new_fresh httpAddr tlsAddr k8s p :
  let '(p', r) := ing_New httpAddr tlsAddr true k8s p in
  p' = p /\ forall i, r = Ok i -> fresh_ingress i.
Proof.
  unfold ing_New, NewHTTPEngine, NewTLSEngine. rewrite andb_false_r. cbn [negb].
  destruct (bool_decide _ && bool_decide _); [done|]. cbv [mbind go_bind mret go_ret].
  set (http := (if bool_decide (TrimSpace httpAddr <> "") then _ else _)).
  assert (exists r, forall p, http p = (p, r)) as [r ->].
  { unfold http. case_bool_decide; [|by eexists]. eexists. done. }
  destruct r as [h|e]; [|done].
  destruct (bool_decide_reflect (TrimSpace tlsAddr <> "")) as [Ht|Ht]; cbn.
  - assert (tlsAddr <> "") as Hne by (by intros ->).
    destruct k8s; [destruct (fails _)|]; cbn; (split; [done|]); intros i E; simplify_eq; intros t; cbn;
      intros; simplify_eq; cbn; done.
  - destruct k8s; [destruct (fails _)|]; cbn; (split; [done|]); intros i E; by simplify_eq.
Qed.

(** A new slave has at most the location database open. *)
Lemma slave_new_opens cfg fs :
  let '(p, r) := slave_New cfg fs fresh_proc in
  stopped_ok p /\ (forall X, X ∈ pr_open p -> X = GeoDatabase) /\
  forall sv, r = Ok sv -> so_db (sv_Cache sv) = false /\ forall i, sv_Ingress sv = Some i -> fresh_ingress i.
Proof.
  unfold slave_New, NewLocalStore. cbv [mbind go_bind mret go_ret lift].
  assert (stopped_ok fresh_proc) as H0 by (intros b Hb; by apply elem_of_nil in Hb).
  case_bool_decide; [split_and!; [done|set_solver|done]|].
  set (dns := (if bool_decide (sc_DNSListenAddr cfg <> "") then _ else _)).
  assert (exists d p, dns fresh_proc = (p, Ok d) /\ stopped_ok p /\ forall X, X ∈ pr_open p -> X = GeoDatabase)
    as (d & p & -> & Hs & Ho).
  { unfold dns. case_bool_decide; [|eexists _, _; split; [done|]; split; [done|set_solver]].
    set (opts := mkDnsOptions _ _ _). destruct (dns_new_cases opts fresh_proc) as (d & p & -> & Hp).
    eexists _, _. split; [done|]. destruct Hp as [->| ->]; (split; [|set_solver]); [done|by apply stopped_add]. }
  destruct (_ || _); [|split_and!; try done; intros sv E; by simplify_eq].
  pose proof (ing_new_fresh (sc_IngressHTTPAddr cfg) (sc_IngressTLSAddr cfg) (sc_IngressK8sEnabled cfg) p) as Hi.
  destruct (ing_New _ _ _ _ p) as [p' r]. destruct Hi as [-> Hi].
  destruct r as [i|e]; (split_and!; [done..|]); intros sv E; [|done]. simplify_eq. cbn. split; [done|].
  intros i' E. simplify_eq. auto.
Qed.

(** The store, opened, or failing with its database open. *)
Lemma store_start_cases s p :
  so_db s = false ->
  let '((s', p'), r) := store_Start (s, p) in
  p' = p /\ is_ok r = false \/
  p' = add_open Database p /\ is_ok r = false /\ is_Some (fails AutoMigrate) \/
  p' = add_open Database p /\ r = Ok tt /\ so_db s' = true.
Proof.
  intros Hs. unfold store_Start, part, store_fs, on_part, modify, zoom. cbv [mbind go_bind]. cbn [fst snd].
  destruct (os_MkdirAll (so_CacheRoot s) (so_fs s)) as [fs1 [u1|e]]; [|by left]. cbn [fst snd so_fs].
  destruct (os_MkdirAll (so_certRoot s) fs1) as [fs2 [u2|e]]; [|by left]. unfold on_proc, zoom. cbn [fst snd].
  destruct (acquire_cases Database p) as [(e & _ & ->)|[_ ->]]; [by left|]. rewrite try_eq. cbn [fst snd].
  destruct (fails AutoMigrate); right; [left|right]; eauto.
Qed.

Lemma store_close_proc s p :
  (store_Close (s, p)).1.2 =
  if so_db s then match fails SqlDB with Some _ => p | None => remove_open Database p end else p.
Proof.
  unfold store_Close, part. cbv [mbind go_bind]. cbn [fst]. destruct (so_db s); [|done]. rewrite try_eq.
  by destruct (fails SqlDB).
Qed.

(** What a slave can leave open when [Start] has returned. *)
Definition slave_left (X : resource) : Prop :=
  X = GeoDatabase \/
  X = Database /\ (is_Some (fails AutoMigrate) \/ is_Some (fails SqlDB)) \/
  dns_left X \/ ingress_left X.

Lemma slave_body_leaves cfg attempts :
  leaves (fun s => forall i, sv_Ingress s = Some i -> fresh_ingress i)
    (fun X => dns_left X \/ ingress_left X \/ nothing X)
    (with_DNS cfg (with_Ingress (with_master_conn cfg (health_body cfg attempts)))).
Proof.
  apply dns_leaves; [done| | |].
  - apply ingress_leaves; [apply conn_leaves, health_leaves|]. by apply keeps_conn, keeps_health.
  - by apply keeps_ingress, keeps_conn, keeps_health.
  - intros X HX. by apply runs_ingress, runs_conn, runs_health.
Qed.

Lemma keeps_body cfg attempts :
  keeps sv_Cache (with_DNS cfg (with_Ingress (with_master_conn cfg (health_body cfg attempts)))).
Proof. by apply keeps_dns, keeps_ingress, keeps_conn, keeps_health. Qed.

(** The slave's life.  However its [Start] ends, the listeners, the
    connection to the master, the informers and the database are closed again,
    except: the certificate watcher, which nothing closes; the HTTP listener,
    when the TLS one cannot be opened; the informers of the DNS bridge, when a
    server of the DNS engine did not bind or does not shut down; the database,
    when its migration failed or its handle cannot be had; and the location
    database. *)
Lemma slave_start_releases cfg fs attempts :
  let '(p, r) := slave_New cfg fs fresh_proc in
  match r with
  | Err _ => forall X, X ∈ pr_open p -> X = GeoDatabase
  | Ok sv =>
      let '((_, p'), _) := slave_Start cfg attempts (sv, p) in
      forall X, X ∈ pr_open p' -> slave_left X
  end.
Proof.
  pose proof (slave_new_opens cfg fs) as Hn. destruct (slave_New cfg fs fresh_proc) as [p r].
  destruct Hn as (Hs & Hgeo & Hsv). destruct r as [sv|e]; [|done]. destruct (Hsv sv eq_refl) as [Hdb Hi].
  unfold slave_Start. fold (health_body cfg attempts). unfold on_Cache, zoom. cbv [mbind go_bind]. cbn [fst snd].
  pose proof (store_start_cases (sv_Cache sv) p Hdb) as Hst.
  destruct (store_Start (sv_Cache sv, p)) as [[s1 p1] r1]. cbn [fst snd].
  destruct Hst as [[-> Hr]|[(-> & Hr & Hf)|(-> & -> & Hdb1)]]; [destruct r1; [done|]; intros X HX; left; auto|..].
  { destruct r1; [done|]. intros X [->|HX]%elem_of_cons; [right; left; auto|left; auto]. }
  set (sv1 := mkSlave s1 _ _ _ _ _). unfold defer_call, defer.
  destruct (slave_body_leaves cfg attempts (sv1, add_open Database p)) as [_ Ho]; [done|by apply stopped_add|].
  pose proof (keeps_body cfg attempts (sv1, add_open Database p)) as K. cbn [fst] in K.
  destruct (with_DNS _ _ _) as [[sv2 p2] r2]. cbn [fst snd] in *.
  pose proof (store_close_proc (sv_Cache sv2) p2) as Hc. destruct (store_Close _) as [[s3 p3] r3]. cbn [fst snd] in *.
  rewrite Hc, K. cbn [sv_Cache sv1]. rewrite Hdb1.
  assert (forall X, X ∈ pr_open p2 -> X <> Database -> slave_left X) as Hend.
  { intros X HX Hne. destruct (Ho X HX) as [[->|HX']%elem_of_cons|[?|[?|[]]]]; [done|left; auto|..]; right; right; auto. }
  destruct (fails SqlDB) eqn:E; intros X HX.
  - destruct (decide (X = Database)) as [->|Hne]; [|auto]. right; left. eauto.
  - cbn in HX. apply list_elem_of_filter in HX as [Hne HX]. auto.
Qed.

End slave.

(** ** Concrete runs *)

Module LifeRun.

Definition no_files : FS := mkFS ∅ ∅.

(** An address already in use, for each of the given listeners. *)
Definition taken (rs : list resource) : Env := fun c =>
  match c with
  | Open r => if bool_decide (r ∈ rs) then Some (errors_New "bind: address already in use") else None
  | _ => None
  end.

Definition slave_cfg : SlaveConfig :=
  mkSlaveConfig "/cache" "master:8080" 0 0 ":53" true ["1.1.1.1:53"] 0 true "/geo.mmdb" true ":80" ":443" true "luna" "nginx"
    100 "http://master:8081" ":8082".

(** What each run leaves open, from the code. *)
Example slave_normal :
  exists sv p, slave_New (EN:=taken []) slave_cfg no_files fresh_proc = (p, Ok sv) /\
    pr_open (slave_Start (EN:=taken []) slave_cfg [Failed] (sv, p)).1.2 = [CertWatcher].
Proof. eexists _, _. split; vm_compute; reflexivity. Qed.

Example slave_tls_taken :
  exists sv p, slave_New (EN:=taken [TLSListener]) slave_cfg no_files fresh_proc = (p, Ok sv) /\
    pr_open (slave_Start (EN:=taken [TLSListener]) slave_cfg [] (sv, p)).1.2 = [HTTPListener; CertWatcher].
Proof. eexists _, _. split; vm_compute; reflexivity. Qed.

Example slave_udp_taken :
  exists sv p, slave_New (EN:=taken [UDPServer]) slave_cfg no_files fresh_proc = (p, Ok sv) /\
    pr_open (slave_Start (EN:=taken [UDPServer]) slave_cfg [] (sv, p)).1.2 = [CertWatcher; GeoDatabase].
Proof. eexists _, _. split; vm_compute; reflexivity. Qed.

End LifeRun.
