(* ===== verification/Process.v ===== *)
(** * The processes: cmd/master/main.go, cmd/slave/main.go, engine/global.go

    A process reads its environment and its flags, builds its engine, runs it,
    and ends with an exit status. *)

From Stdlib Require Import Ascii.
From S2P Require Import Prelude GoStrings GoPath GoFS GoFlag Metadata Acme S3Bundles Grpc SlaveEngine Lifecycle LifecycleFacts.

Open Scope Z_scope.

(** ** The environment *)

(** [os.Getenv]: a variable that is not set is empty. *)
Notation environ := (string -> string).

Definition envOr (env : environ) (key fallback : string) : string :=
  if bool_decide (env key <> "") then env key else fallback.

Definition envDuration (env : environ) (key : string) (fallback : Z) : Z :=
  if bool_decide (env key <> "") then default fallback (ParseDuration (env key)) else fallback.

Definition envBool (env : environ) (key : string) (fallback : bool) : bool :=
  let value := env key in
  if bool_decide (value <> "") then
    match ParseBool value with
    | Some b => b
    | None => if bool_decide (value = "1") then true else if bool_decide (value = "0") then false else fallback
    end
  else fallback.

Definition envInt (env : environ) (key : string) (fallback : Z) : Z :=
  if bool_decide (env key <> "") then default fallback (Atoi (env key)) else fallback.

Definition splitCSV (value : string) : list string :=
  filter (fun item => item <> "") (TrimSpace <$> Split value ","%char).

(** engine/global.go; the error is the message of the panic. *)
Record pod := mkPod { POD_IP : string; POD_NAMESPACE : string; POD_NAME : string }.

Definition readEnvTrimmed (env : environ) (key : string) : result string :=
  let out := TrimSpace (env key) in
  if bool_decide (out = "")
  then Err (errors_New ("Critical Error: " +:+ key +:+
              " is not set. POD_IP, POD_NAMESPACE and POD_NAME must be set."))
  else Ok out.

Definition engine_init (env : environ) : result pod :=
  ip ← readEnvTrimmed env "POD_IP";
  ns ← readEnvTrimmed env "POD_NAMESPACE";
  name ← readEnvTrimmed env "POD_NAME";
  mret (mkPod ip ns name).

(** ** The end of a process *)

Inductive process_end :=
  | Returned
  | Fatalf (format : string) (args : list string)
  | FlagExit (code : Z)
  | Panicked (message : error).

Definition exit_code (e : process_end) : Z :=
  match e with
  | Returned => 0
  | Fatalf _ _ => 1
  | FlagExit code => code
  | Panicked _ => 2
  end.

(** [flag.Parse] of the command line, which exits on an error. *)
Definition flag_exit (e : error) : process_end :=
  FlagExit (if bool_decide (err_format e = err_format ErrHelp) then 0 else 2).

Definition fatal (format : string) (e : error) : process_end := Fatalf format (err_format e :: err_args e).

(** The value of a variable a flag reads. *)
Definition flag_var {A} (read : string -> option A) (name : string) (dflt : A) (set : list (string * string)) : A :=
  foldl (fun value '(n, v) => if bool_decide (n = name) then default value (read v) else value) dflt set.

(** A flag in the sets of one of the kinds. *)
Definition duration_flag : flag_kind := FValue (fun v => bool_decide (is_Some (ParseDuration v))).
Definition int_flag : flag_kind := FValue (fun v => bool_decide (is_Some (ParseInt0 v))).

(** ** cmd/master/main.go *)

Definition master_flags (name : string) : option flag_kind :=
  if bool_decide (name ∈ ["auto-migrate"; "s3-insecure-skip-verify"; "k8s-bridge-enabled"]) then Some FBool
  else if bool_decide (name ∈ ["s3-http-timeout"; "shutdown-timeout"]) then Some duration_flag
  else strings_flags
    ["storage-driver"; "sqlite-path"; "postgres-dsn"; "acme-default-provider"; "acme-default-email";
     "acme-default-eab-kid"; "acme-default-eab-hmac-key"; "s3-endpoint"; "s3-bucket"; "s3-access-key-id";
     "s3-secret-access-key"; "s3-session-token"; "k8s-namespace"; "k8s-ingress-class"; "replication-listen";
     "manage-listen"] name.

Definition second : Z := 1000000000.

Definition master_config (env : environ) (ns : string) (set : list (string * string)) : MasterConfig :=
  let str name key fallback := flag_value [name] (envOr env key fallback) set in
  let flag name key fallback := flag_var ParseBool name (bool_decide (envOr env key fallback = "1")) set in
  mkMasterConfig
    (str "storage-driver" "LUNA_STORAGE_DRIVER" DriverPostgres)
    (str "sqlite-path" "LUNA_SQLITE_PATH" "./master.db")
    (str "postgres-dsn" "LUNA_POSTGRES_DSN" "")
    (flag "auto-migrate" "LUNA_AUTO_MIGRATE" "")
    (flag "k8s-bridge-enabled" "LUNA_K8S_BRIDGE_ENABLED" "0")
    (str "k8s-namespace" "LUNA_K8S_NAMESPACE" ns)
    (str "k8s-ingress-class" "LUNA_K8S_INGRESS_CLASS" "luna-edge")
    (str "replication-listen" "LUNA_REPLICATION_LISTEN" ":50051")
    (str "manage-listen" "LUNA_MANAGE_LISTEN" ":8080")
    (flag_var ParseDuration "shutdown-timeout" (envDuration env "LUNA_SHUTDOWN_TIMEOUT" (5 * second)) set).

Definition master_S3 (env : environ) (set : list (string * string)) : S3Config :=
  let str name key := flag_value [name] (envOr env key "") set in
  mkS3Config (str "s3-endpoint" "LUNA_S3_ENDPOINT") (str "s3-bucket" "LUNA_S3_BUCKET")
    (str "s3-access-key-id" "LUNA_S3_ACCESS_KEY_ID") (str "s3-secret-access-key" "LUNA_S3_SECRET_ACCESS_KEY")
    (str "s3-session-token" "LUNA_S3_SESSION_TOKEN")
    (flag_var ParseBool "s3-insecure-skip-verify" (envBool env "LUNA_S3_INSECURE_SKIP_VERIFY" false) set)
    (flag_var ParseDuration "s3-http-timeout" (envDuration env "LUNA_S3_HTTP_TIMEOUT" (10 * second)) set).

Definition acme_provider (name : string) : option ACMEProvider :=
  if bool_decide (name = "letsencrypt") then Some ProviderLetsEncrypt
  else if bool_decide (name = "zerossl") then Some ProviderZeroSSL
  else None.

(** The flags fill in four fields; the rest is zero. *)
Definition master_ACME (env : environ) (set : list (string * string)) : result Acme.Config :=
  let str name key fallback := flag_value [name] (envOr env key fallback) set in
  let name := str "acme-default-provider" "LUNA_ACME_DEFAULT_PROVIDER" "letsencrypt" in
  match acme_provider name with
  | None => Err (Errorf "unsupported acme provider: %s" [name])
  | Some provider =>
      Ok (mkConfig provider
            (str "acme-default-email" "LUNA_ACME_DEFAULT_EMAIL" "")
            (str "acme-default-eab-kid" "LUNA_ACME_EAB_KID" "")
            (str "acme-default-eab-hmac-key" "LUNA_ACME_EAB_HMAC_KEY" "") "" "" 0 0 0 0)
  end.

(** ** cmd/slave/main.go *)

Definition slave_flags (name : string) : option flag_kind :=
  if bool_decide (name ∈ ["dns-forward-enabled"; "dns-geoip-enabled"; "dns-k8s-enabled"]) then Some FBool
  else if bool_decide (name ∈ ["retry-min-backoff"; "retry-max-backoff"; "dns-forward-timeout"]) then Some duration_flag
  else if bool_decide (name = "ingress-lru-size") then Some int_flag
  else strings_flags
    ["master-address"; "master-manage-url"; "dns-listen"; "dns-forward-servers"; "dns-geoip-mmdb-path";
     "ingress-k8s-namespace"; "ingress-k8s-class"; "health-listen"; "cache-root"] name.

Definition slave_config (env : environ) (set : list (string * string)) : SlaveConfig :=
  let str name key fallback := flag_value [name] (envOr env key fallback) set in
  let flag name key := flag_var ParseBool name (bool_decide (envOr env key "0" = "1")) set in
  let duration name key fallback := flag_var ParseDuration name (envDuration env key fallback) set in
  let servers := flag_var (fun v => Some (splitCSV v)) "dns-forward-servers" [] set in
  mkSlaveConfig
    (str "cache-root" "LUNA_CACHE_ROOT" "/var/lib/luna")
    (str "master-address" "LUNA_MASTER_ADDRESS" "luna-master.luna-edge.svc.cluster.local:50051")
    (duration "retry-min-backoff" "LUNA_RETRY_MIN_BACKOFF" second)
    (duration "retry-max-backoff" "LUNA_RETRY_MAX_BACKOFF" (30 * second))
    (str "dns-listen" "LUNA_DNS_LISTEN" "")
    (flag "dns-forward-enabled" "LUNA_DNS_FORWARD_ENABLED")
    (if bool_decide (servers = []) then splitCSV (envOr env "LUNA_DNS_FORWARD_SERVERS" "1.1.1.1:53") else servers)
    (duration "dns-forward-timeout" "LUNA_DNS_FORWARD_TIMEOUT" (5 * second))
    (flag "dns-geoip-enabled" "LUNA_DNS_GEOIP_ENABLED")
    (str "dns-geoip-mmdb-path" "LUNA_DNS_GEOIP_MMDB_PATH" "")
    (flag "dns-k8s-enabled" "LUNA_DNS_K8S_ENABLED")
    ":80" ":443" true
    (str "ingress-k8s-namespace" "LUNA_INGRESS_K8S_NAMESPACE" "")
    (str "ingress-k8s-class" "LUNA_INGRESS_K8S_CLASS" "luna-edge")
    (flag_var ParseInt0 "ingress-lru-size" (envInt env "LUNA_INGRESS_LRU_SIZE" 4096) set)
    (str "master-manage-url" "LUNA_MASTER_MANAGE_URL" "http://luna-master.luna-edge.svc.cluster.local:8080")
    (str "health-listen" "LUNA_HEALTH_LISTEN" ":50050").

(** ** The two mains *)

Section main.
Context {EN : Env}.

Definition master_main (env : environ) (args : list string) : process_end * proc :=
  match engine_init env with
  | Err e => (Panicked e, fresh_proc)
  | Ok pod =>
      match flag_Parse master_flags args with
      | Err e => (flag_exit e, fresh_proc)
      | Ok (set, _) =>
          match master_ACME env set with
          | Err e => (Fatalf (err_format e) (err_args e), fresh_proc)
          | Ok _ =>
              let '(cfg, conn) := master_New (master_config env (POD_NAMESPACE pod) set) in
              let '((_, p), r) := master_Start cfg conn (new_master, fresh_proc) in
              match r with
              | Err e => (fatal "start master: %v" e, p)
              | Ok _ => (Returned, wait_done p)
              end
          end
      end
  end.

(** [attempts]: how the attempts to subscribe end. *)
Definition slave_main (env : environ) (fs : FS) (args : list string) (attempts : list attempt_end)
    : process_end * proc :=
  match engine_init env with
  | Err e => (Panicked e, fresh_proc)
  | Ok pod =>
      match flag_Parse slave_flags args with
      | Err e => (flag_exit e, fresh_proc)
      | Ok (set, _) =>
          let cfg := slave_config env set in
          let '(p, r) := slave_New cfg fs fresh_proc in
          match r with
          | Err e => (fatal "create slave: %v" e, p)
          | Ok sv =>
              let '((_, p), r) := slave_Start cfg attempts (sv, p) in
              match r with
              | Err e => if pr_done p then (Returned, p) else (fatal "run slave: %v" e, p)
              | Ok _ => (Returned, p)
              end
          end
      end
  end.

End main.

(** ** How the processes end *)

(** What holds when a computation returns without an error. *)
Definition returns_only {S A} (P : Prop) (m : go S A) : Prop := forall s, is_ok (m s).2 = true -> P.

Lemma returns_bind {S A B} P (m : go S A) (k : A -> go S B) :
  (forall a, returns_only P (k a)) -> returns_only P (m ≫= k).
Proof. intros H s. cbv [mbind go_bind]. destruct (m s) as [s' [a|e]]; [apply H|done]. Qed.

Lemma returns_defer {S A B} P (c : go S B) (m : go S A) : returns_only P m -> returns_only P (defer_call c m).
Proof. intros H s. unfold defer_call, defer. specialize (H s). by destruct (m s). Qed.

Lemma returns_throw {S A} P e : returns_only P (throw (S:=S) (A:=A) e).
Proof. by intros s. Qed.

Section ends.
Context {EN : Env}.

#[local] Hint Resolve returns_bind returns_defer returns_throw : luna.

(** The loop returns nil only when an attempt did. *)
Lemma returns_loop attempts : returns_only (Finished ∈ attempts) (subscribe_loop attempts).
Proof.
  assert (forall P, returns_only P (on_proc (modify wait_done) ≫= fun _ =>
      set_ready false ≫= fun _ => throw (A:=()) Canceled)) as Hw
    by auto with luna.
  induction attempts as [|[] attempts IH]; cbn [subscribe_loop]; [apply Hw|by intros s _; left| |apply Hw].
  apply returns_bind. intros []. intros s H. right. by apply (IH s).
Qed.

Lemma returns_slave cfg attempts : returns_only (Finished ∈ attempts) (slave_Start cfg attempts).
Proof.
  unfold slave_Start. apply returns_bind. intros _. apply returns_defer.
  assert (returns_only (Finished ∈ attempts) (health_body cfg attempts)) as H
    by (apply returns_bind; intros _; apply returns_defer, returns_loop).
  fold (health_body cfg attempts). set (k := health_body _ _) in *.
  assert (returns_only (Finished ∈ attempts) (with_master_conn cfg k)) as H1.
  { apply returns_bind. intros r. destruct (is_ok r); auto with luna. }
  assert (returns_only (Finished ∈ attempts) (with_Ingress (with_master_conn cfg k))) as H2.
  { apply returns_bind. intros s. case_bool_decide; auto 6 with luna. }
  apply returns_bind. intros s. case_bool_decide; auto 8 with luna.
Qed.

(** C38. The master's process.  It ends with status 0 only when its help was
    asked for: a master that ran ends by [log.Fatalf], also after the signal
    that is to stop it.  When it ends, everything it opened is closed, except
    the database when its migration failed or its handle cannot be had; and a
    master whose database, object store and cluster were there ends only after
    the signal, also when it cannot listen on its addresses. *)
Theorem master_process env args :
  let '(e, p) := master_main env args in
  (exit_code e = 0 -> e = FlagExit 0 /\ is_ok (flag_Parse master_flags args) = false) /\
  (forall X, X ∈ pr_open p -> X = Database /\ (is_Some (fails AutoMigrate) \/ is_Some (fails SqlDB))) /\
  (forall pod set rest acme, engine_init env = Ok pod -> flag_Parse master_flags args = Ok (set, rest) ->
   master_ACME env set = Ok acme ->
   let '(cfg, conn) := master_New (master_config env (POD_NAMESPACE pod) set) in
   is_ok (connection_Open conn fresh_proc).2 = true -> fails NewBundles = None ->
   (mc_K8sBridgeEnabled cfg = true -> bridges_ok) ->
   ForSignal ∈ pr_waits p /\ e = fatal "start master: %v" (start_error cfg)).
Proof.
  unfold master_main. destruct (engine_init env) as [pod|e]; [|split_and!; [done|set_solver|done]].
  destruct (flag_Parse master_flags args) as [[set rest]|e].
  2: { unfold flag_exit. split_and!; [|set_solver|done]. case_bool_decide; done. }
  destruct (master_ACME env set) as [acme|e] eqn:Ha; [|split_and!; [done|set_solver|intros; simplify_eq; congruence]].
  destruct (master_New (master_config env (POD_NAMESPACE pod) set)) as [cfg conn] eqn:Hn.
  pose proof (master_start_returns cfg conn) as H. destruct (master_Start cfg conn _) as [[m p] r].
  destruct H as (Hr & Hopen & Hw). destruct r as [u|e]; [done|]. split_and!; [done|done|].
  intros pod' set' rest' acme' E1 E2 E3. simplify_eq. rewrite Hn. intros H1 H2 H3.
  destruct (Hw H1 H2 H3) as [? [= ->]]. done.
Qed.

(** C36. The slave's process.  It returns normally only when its help was asked
    for, after its signal, or when an attempt to subscribe ended without an
    error.  However it ends, everything it opened is closed but what
    [slave_left] names. *)
Theorem slave_process env fs args attempts :
  let '(e, p) := slave_main env fs args attempts in
  (exit_code e = 0 -> e = FlagExit 0 /\ is_ok (flag_Parse slave_flags args) = false \/
                      pr_done p = true \/ Finished ∈ attempts) /\
  (forall X, X ∈ pr_open p -> slave_left X).
Proof.
  unfold slave_main. destruct (engine_init env) as [pod|e]; [|split; [done|set_solver]].
  destruct (flag_Parse slave_flags args) as [[set rest]|e].
  2: { unfold flag_exit. split; [|set_solver]. case_bool_decide; [by left|done]. }
  cbn zeta. set (cfg := slave_config env set). pose proof (slave_start_releases cfg fs attempts) as H.
  destruct (slave_New cfg fs fresh_proc) as [p r]. destruct r as [sv|e].
  2: { split; [done|]. intros X HX. left. by apply H. }
  pose proof (returns_slave cfg attempts (sv, p)) as Hr. destruct (slave_Start cfg attempts (sv, p)) as [[sv' p'] r].
  destruct r as [u|e]; [split; [auto|done]|]. destruct (pr_done p') eqn:Ed; split; auto; done.
Qed.

End ends.

(** ** The slave when nothing fails *)

(** An environment in which every call succeeds. *)
Definition calm : Env := fun _ => None.

Definition not_ready (s : Slave) : Slave :=
  mkSlave (sv_Cache s) (sv_DNS s) (sv_Ingress s) (sv_healthServer s) false (sv_backoff s).

Lemma loop_cancelled {EN : Env} attempts s :
  Finished ∉ attempts -> subscribe_loop attempts s = ((not_ready s.1, wait_done s.2), Err Canceled).
Proof.
  revert s. induction attempts as [|[] attempts IH]; intros [c p] H; cbn [subscribe_loop]; [done|set_solver| |done].
  cbv [mbind go_bind]. unfold set_ready, on_part, modify. cbn [fst snd]. rewrite IH; [done|set_solver].
Qed.

(** Computations that agree on every state can be exchanged. *)
Lemma bind_ext {S A B} (m : go S A) (f g : A -> go S B) :
  (forall a s, f a s = g a s) -> forall s, (m ≫= f) s = (m ≫= g) s.
Proof. intros H s. cbv [mbind go_bind]. by destruct (m s) as [s' [a|e]]. Qed.

Lemma defer_ext {S A B} (c : go S B) (m m' : go S A) :
  (forall s, m s = m' s) -> forall s, defer_call c m s = defer_call c m' s.
Proof. intros H s. unfold defer_call, defer. by rewrite H. Qed.

Definition slave_run {EN : Env} (cfg : SlaveConfig) (k : go (Slave * proc) ()) : go (Slave * proc) () :=
  on_Cache store_Start ≫= fun _ =>
  defer_call (on_Cache store_Close) (
    with_DNS cfg (with_Ingress (with_master_conn cfg (
      startHealthServer cfg ≫= fun _ => defer_call stopHealthServer k)))).

Lemma slave_run_ext {EN : Env} cfg k k' :
  (forall s, k s = k' s) -> forall s, slave_run cfg k s = slave_run cfg k' s.
Proof.
  intros H. unfold slave_run. apply bind_ext. intros _. apply defer_ext, bind_ext. intros d.
  assert (forall s, with_Ingress (with_master_conn cfg (startHealthServer cfg ≫= fun _ => defer_call stopHealthServer k)) s =
    with_Ingress (with_master_conn cfg (startHealthServer cfg ≫= fun _ => defer_call stopHealthServer k')) s) as Hi.
  { apply bind_ext. intros i. set (c := with_master_conn cfg _). set (c' := with_master_conn cfg (_ ≫= fun _ => defer_call _ k')).
    assert (forall s, c s = c' s) as Hc.
    { apply bind_ext. intros r. destruct (is_ok r); [|done]. by apply defer_ext, bind_ext; intros _; apply defer_ext. }
    case_bool_decide; [done|]. apply bind_ext. intros _. apply bind_ext. intros _. by apply defer_ext. }
  case_bool_decide; [done|]. apply bind_ext. intros _. apply bind_ext. intros _. apply defer_ext, bind_ext.
  intros _. by apply defer_ext.
Qed.

Section calm.
#[local] Existing Instance calm.
Context (rt croot : string) (fs fs2 : FS) (bo : Z * Z).

Definition cold (dns : option DnsLife) (ing : option IngLife) : Slave :=
  mkSlave (mkStoreLife rt croot false fs) dns ing false false bo.
Definition warm (dns : option DnsLife) (ing : option IngLife) : Slave :=
  mkSlave (mkStoreLife rt croot true fs2) dns ing false false bo.

Lemma calm_store dns ing p :
  (os_MkdirAll rt ≫= fun _ => os_MkdirAll croot) fs = (fs2, Ok tt) ->
  on_Cache store_Start (cold dns ing, p) = ((warm dns ing, add_open Database p), Ok tt).
Proof.
  cbv [mbind go_bind]. destruct (os_MkdirAll rt fs) as [fs1 [u|e]] eqn:E; [|done]. intros E2.
  unfold on_Cache, store_Start, store_fs, zoom, part, cold. cbv [mbind go_bind].
  cbn [fst snd so_CacheRoot so_certRoot so_fs sv_Cache so_db sv_DNS sv_Ingress sv_healthServer sv_ready sv_backoff].
  rewrite E. cbn [fst snd so_CacheRoot so_certRoot so_fs sv_Cache so_db]. by rewrite E2.
Qed.

(** The loop waits, is told to stop, and the deferred calls run. *)
Lemma calm_start cfg attempts dns ing p :
  (os_MkdirAll rt ≫= fun _ => os_MkdirAll croot) fs = (fs2, Ok tt) -> Finished ∉ attempts ->
  slave_Start cfg attempts (cold dns ing, p) =
  defer_call (on_Cache store_Close) (
    with_DNS cfg (with_Ingress (with_master_conn cfg (
      startHealthServer cfg ≫= fun _ => defer_call stopHealthServer
        (fun s => ((not_ready s.1, wait_done s.2), Err Canceled))))))
    (warm dns ing, add_open Database p).
Proof.
  intros Hs Ha. etrans; [apply (slave_run_ext cfg); intros s; by apply loop_cancelled|].
  unfold slave_run. cbv [mbind go_bind]. by rewrite calm_store.
Qed.

End calm.

Lemma calm_run cfg fs attempts :
  let root := TrimSpace (sc_CacheRoot cfg) in
  sc_IngressHTTPAddr cfg = ":80" -> sc_IngressTLSAddr cfg = ":443" -> root <> "" ->
  is_ok ((os_MkdirAll root ≫= fun _ => os_MkdirAll (CertificatesRoot root)) fs).2 = true ->
  (sc_DNSListenAddr cfg = "" \/ TrimSpace (sc_DNSListenAddr cfg) <> "") ->
  Finished ∉ attempts ->
  exists sv p, slave_New (EN:=calm) cfg fs fresh_proc = (p, Ok sv) /\
  exists sv' p', slave_Start (EN:=calm) cfg attempts (sv, p) = ((sv', p'), Err Canceled) /\
    pr_done p' = true /\ pr_open p' = [CertWatcher] /\ pr_waits p' = [ForSignal].
Proof.
  cbn zeta. intros H1 H2 H3 H4 H5 H6.
  destruct cfg as [root addr rmin rmax dnsaddr fe fsrv ft geo geopath dk http tls ik ns cls lru url health].
  set (c := mkSlaveConfig _ _ _ _ _ _ _ _ _ _ _ _ _ _ _ _ _ _ _).
  cbn [sc_CacheRoot sc_DNSListenAddr sc_IngressHTTPAddr sc_IngressTLSAddr c] in H1, H2, H3, H4, H5. subst http tls.
  destruct ((os_MkdirAll (TrimSpace root) ≫= fun _ => os_MkdirAll (CertificatesRoot (TrimSpace root))) fs)
    as [fs2 [[]|e]] eqn:Em; [|done].
  pose proof (fun dns ing p => calm_start _ _ _ _ (default_backoff rmin rmax) c attempts dns ing p Em H6) as Hgo.
  unfold slave_New, NewLocalStore. unfold cold, warm, c in *.
  unfold dns_New, initGeoIP, startHealthServer, with_DNS, dns_Listen in *.
  cbn [sc_HealthListenAddr sc_DNSListenAddr sc_DNSGeoIPEnabled sc_DNSGeoIPMMDBPath sc_DNSK8sEnabled sc_IngressK8sEnabled
    do_GeoIPEnabled do_GeoIPMMDBPath do_K8sEnabled sc_CacheRoot sc_IngressHTTPAddr sc_IngressTLSAddr
    sc_RetryMinBackoff sc_RetryMaxBackoff] in *.
  rewrite (bool_decide_false (TrimSpace root = "")) by done. clear H3 H4 Em. revert Hgo.
  generalize (CertificatesRoot (TrimSpace root)), (TrimSpace root), (default_backoff rmin rmax). intros croot rt bo.
  assert (bool_decide (dnsaddr <> "") = false \/
    bool_decide (dnsaddr <> "") = true /\ bool_decide (TrimSpace dnsaddr = "") = false) as Hd.
  { destruct H5 as [->|H5]; [by left|right]. split; [|by apply bool_decide_eq_false].
    apply bool_decide_eq_true. intros ->. by apply H5. }
  destruct Hd as [->|[-> ->]]; [|destruct (negb geo || bool_decide (TrimSpace geopath = "")), dk];
    destruct (bool_decide (TrimSpace health = "")), ik; intros Hgo;
    eexists _, _; (split; [vm_compute; reflexivity|]); rewrite Hgo;
    eexists _, _; (split; [vm_compute; reflexivity|]); vm_compute; done.
Qed.


(** ** Concrete processes *)

Module ProcessRun.
Import LifeRun.

Definition sample_env : environ := fun key =>
  if bool_decide (key = "POD_IP") then "10.0.0.7"
  else if bool_decide (key = "POD_NAMESPACE") then " luna "
  else if bool_decide (key = "POD_NAME") then "luna-0"
  else if bool_decide (key = "LUNA_DNS_LISTEN") then ":53"
  else if bool_decide (key = "LUNA_RETRY_MAX_BACKOFF") then "1m"
  else if bool_decide (key = "LUNA_POSTGRES_DSN") then "postgres://luna"
  else "".

Definition sample_args : list string := ["-retry-min-backoff"; "250ms"; "--dns-geoip-enabled"; "--dns-listen=:5353"].

(** The flag over the variable, the variable over the default. *)
Example sample_config :
  exists set, flag_Parse slave_flags sample_args = Ok (set, []) /\
    sc_DNSListenAddr (slave_config sample_env set) = ":5353" /\
    sc_RetryMinBackoff (slave_config sample_env set) = 250000000 /\
    sc_RetryMaxBackoff (slave_config sample_env set) = 60000000000 /\
    sc_DNSGeoIPEnabled (slave_config sample_env set) = true /\
    sc_DNSForwardServers (slave_config sample_env set) = ["1.1.1.1:53"].
Proof. eexists. split; [vm_compute; reflexivity|]. by vm_compute. Qed.


(** The master that cannot listen for replication waits for its signal. *)
Lemma master_process_witness :
  ForSignal ∈ pr_waits (master_main (EN:=taken [ReplicationListener]) sample_env []).2.
Proof.
  pose proof (master_process (EN:=taken [ReplicationListener]) sample_env []) as H.
  destruct (master_main _ _) as [e p]. destruct H as (_ & _ & H).
  destruct (H (mkPod "10.0.0.7" "luna" "luna-0") [] [] (mkConfig ProviderLetsEncrypt "" "" "" "" "" 0 0 0 0))
    as [Hw _]; [vm_compute; reflexivity..| |exact Hw].
  vm_compute. discriminate.
Defined.

(** The slave that cannot listen for TLS leaves what is named, and fails. *)
Lemma slave_process_witness :
  exit_code (slave_main (EN:=taken [TLSListener]) sample_env no_files sample_args []).1 = 1 /\
  forall X, X ∈ pr_open (slave_main (EN:=taken [TLSListener]) sample_env no_files sample_args []).2 ->
    slave_left (EN:=taken [TLSListener]) X.
Proof.
  split; [vm_compute; reflexivity|].
  pose proof (slave_process (EN:=taken [TLSListener]) sample_env no_files sample_args []) as H.
  destruct (slave_main _ _ _ _) as [e p]. exact (proj2 H).
Defined.

(** Without the variables of the pod a process does not start. *)
Example no_pod : exit_code (slave_main (EN:=calm) (fun _ => "") no_files [] []).1 = 2.
Proof. vm_compute. reflexivity. Qed.

(** A signalled master ends with a failure status. *)
Example master_signalled : exit_code (master_main (EN:=calm) sample_env []).1 = 1.
Proof. vm_compute. reflexivity. Qed.

End ProcessRun.
